(* ===== verification/_CoqProject ===== *)
-Q . S2P
Prelude.v
GoStrings.v
GoFloat.v
GoJson.v
GoJsonFacts.v
GoReadback.v
GoFloatInt.v
GoRat.v
GoTime.v
Store.v
GoCompact.v
Entities.v
EntityView.v
Reopen.v
GoIndent.v
GoCrypto.v
Outbox.v
Records.v
Orders.v
OrderStates.v
SplitBill.v
Inventory.v
Analytics.v
PrintJobs.v
PrintDedupe.v
SyncClient.v
SyncDesk.v
Jalali.v
Auth.v
Forms.v
Receipts.v
Desk.v
Printing.v
OrderDesk.v
OrderFlow.v
PrintDesk.v
RecordDesk.v
ClubDesk.v
Seed.v
Files.v
Till.v
OrderBoard.v
Stockroom.v
PeoplePages.v
Dialogs.v
Dashboard.v
Reports.v
RecipeCost.v
Finance.v
Startup.v
Footprint.v
LocalApi.v
Routes.v
