(* ===== verification/Prelude.v ===== *)
(** * The MenuVex offline point-of-sale: a verification development

    The program (Go, under [offline-menuvex/]) is the till of a café that works without a
    network: orders, tables, stock, debtors, bills split between guests and print jobs are
    records of a local store kept in one JSON file; edits of the menu are queued and sent to
    a server when there is one, and the server's changes come back in pages.  A licence and
    sessions stand in front of the local web application.

    ** How the parts interact

    Everything the till knows is a [persistedDB]: the entities of all kinds under the key
    of kind and identifier, a small map [Meta] (device, cursor, connection), and the queue of
    edits.  Every change is a transaction ([Store.withTx]): the operation's body runs on a
    copy, the copy's text is written to a temporary file, synced and renamed, and only then
    does the copy become the state.  An operation of the code, [func (s *Store) Op(...)], is here
    [Op_body], its closure as a function of the state to [res (A * persistedDB)], and [Op],
    the transaction around it.  The clock, random identifiers, the order in which the runtime ranges
    over a map ([Runtime]), the outcomes of system calls ([IO]) and the server's replies are
    arguments, so that the theorems hold for all of them.

    The rest of [app.go], [printing.go] and [api_local.go] is written in a state monad of its own
    ([Desk]): a handler takes a request and gives a reply and the next [world], which holds the
    store, the number of interactions so far, what was delivered to printers and the jobs left
    to goroutines.
    What the outside answers (clock, random bytes, disk, printers) is a function of the
    interaction's number.  The routes send the posts of forms to the handlers, and the running
    application is the system of their steps ([Routes]): posts, [/sync] among them, which
    refreshes against the server of the [Uplink] if there is one; requests of the JSON interface; and
    printing left to a goroutine.

    ** Files

    - [Prelude]: results, notations, machine integers, lists and maps.
    - [GoStrings], [GoFloat], [GoFloatInt], [GoRat], [GoJson], [GoJsonFacts], [GoReadback], [GoCompact],
      [GoIndent], [GoTime], [GoCrypto]: what the program uses of Go's standard library (strings and
      runes, float64, math/big's fractions and floats, encoding/json, time, SHA-256 and HMAC), executable,
      with round trips, exactness and rounding bounds.
    - [Store]: the data of [internal/store/store.go], [withTx] with every system call, every
      crash point ([crash_point], [run_op]: what the machine's processes see) and, as the code never syncs
      the directory, what a power failure leaves when it undoes renames ([power_point]).  [Reopen]: [Open], which reads the file again.
    - [Entities]: the rest of [store.go] that changes or lists entities: [Bind], [ApplyPage],
      [Bootstrap], [Entities], connection, reset.
    - [EntityView]: the fields, labels, prices and lines that screens read ([store.go], [domains.go]).
    - [Outbox]: [internal/store/outbox.go], the queue of edits.
    - [Records], [Orders], [OrderStates], [SplitBill], [Inventory], [Analytics]:
      [internal/store/domains.go], in this order: local records and debtors; taking, editing,
      transferring and deferring orders; the states of an order and the stock a completed order uses;
      bills split between guests; stock movements; the report of a period.
    - [PrintJobs], [PrintDedupe]: [internal/store/printing.go], the jobs of the printers,
      and the properties that they read back and are made once.
    - [SyncClient]: [internal/syncclient/client.go], the refresh against the server, as
      programs of a state-and-error monad whose world is the store, a count of
      interactions and a log of what was sent.  [SyncDesk]: [New], which takes the server's address,
      with net/url, and the button that refreshes.
    - [Jalali]: [jalali.go], the Persian calendar.
    - [Auth]: [auth.go] and the checks in front of the routes of [app.go].
    - [Forms]: the helpers of [app.go] that read numbers, amounts and stages from forms.
    - [Receipts]: the documents of [printing.go], their bytes, the policy of printing, and a
      specification of a printer; [Printing]: addresses of printers, sending, printing a job,
      the jobs of an order.
    - [Desk]: the world of the handlers and [Kept], the interface between transactions and
      what they keep; [OrderDesk], [RecordDesk], [PrintDesk], [ClubDesk]: the handlers of [app.go] for
      orders, records, printers and the customers' club; [OrderFlow]: the order's way
      through its stages; [Footprint]: what each handler can change, proved once against [Kept].
    - [Seed]: the demonstration and its handler.  [Files]: uploads and downloads.
    - The pages of [render] of [app.go]: [Till] and [Dialogs] (the till, its dialogs, the receipt and the
      editor), [OrderBoard] (orders and receipts), [Stockroom] (products, categories, stock),
      [PeoplePages] (customers, groups, debtors, staff, settings), [Dashboard] and [Reports] (figures,
      charts, waste, daily reports), [RecipeCost] ([ProductRecipeCostIRR] of [domains.go] and the
      prices), [Finance] (the accounts).  A page is a function of the lists the store gives, the request and
      the clock.
    - [LocalApi]: [api_local.go].  [Routes]: the table of posts of [Handler] and the
      application as a system of steps.  [Startup]: [New] of [app.go].

    ** What is shown

    - The store: a transaction that crashes leaves the old or the new text
      ([withTx_crash_atomic]), what was written is read again ([Open_encode]), and so a restart
      after a crash finds the old state or the new one ([Open_recovers]); except in the fallback after
      a failed rename ([withTx_fallback_tears], [Open_forgets]).  A power failure, which may also undo the
      renames of earlier transactions, leaves one of the states of the run, complete ([Open_power_failure]).
    - The running application: records stay where their type and identifier say
      ([reachable_typed]), a request changes only the kinds of its route ([route_confined]), a
      restart of the process loses nothing ([reachable_restart]).
    - Replication: pages never go back and can be replayed ([ApplyPage_monotone_replay]), a
      snapshot replaces all entities, whatever the order of ranging ([Bootstrap_deterministic]), and so the
      first refresh drops the till's own ([first_sync_wipes]); edits are kept in the queue
      with their content through every mixture of steps ([queue_history], [queue_invariant],
      [SaveResults_bijection]), what is acknowledged has been applied and written ([Refresh_acks_committed]),
      a refresh is made of those steps, ends, and ends up to date
      ([Refresh_keeps_queue], [Refresh_bounded], [Refresh_up_to_date]); the token goes over https or stays
      on the machine ([New_safe]), and a till belongs to one server ([New_one_server]).
    - Orders and money: bills add up ([place_order_bill], [UpdateOrderItemsFull_bill],
      [SplitBillOf_allocates]), are taken and paid once ([CreatePOSOrder_retry],
      [RecordSplitPayment_retry], [DeferOrderToDebtor_once]), the last payment can be taken back
      ([RecordSplitPayment_undo]), states move forward only ([order_lifecycle]) and no stage
      holds an order ([handleOrderAdvance_reaches]), stock and
      accounts balance ([deduct_ingredient_ledger], [VoidWasteEvent_once],
      [SettleDebtorPayment_conserves], [analyticsRange_adds_up]).
    - Handlers: orders are deleted on purpose only ([handleLocalDelete_guards]), a mobile number has
      one customer ([handleClubCustomer_unique]), amounts go through forms and back
      ([tomanFormToIRR_reads]), pictures are served as saved ([saved_picture_served]).
    - The till's page: groups hold every product once ([pos_groups_partition]), cards show
      the newest open order of their table ([pos_table_row_newest]), the dialog is the day's
      ([pos_recent_day]), and what the page's script is given cannot end it ([page_script_safe],
      [split_bills_open]).
    - The other pages: every order that is searched for is on one page
      ([orders_page_partition], [orders_page_shows]); counts and values are those of the records
      ([products_page_counts], [inventory_page_made], [debtors_page_adds_up], [group_pages_agree],
      [waste_page_counts]); a form of permissions gives the permissions it shows
      ([staff_form_permissions]); the chart agrees with the cards ([dashboard_chart_agrees], [dashboard_popular]),
      the reports with the store's totals ([reports_page_agrees], [report_points_cover]), the accounts
      with the orders of the month ([finance_page_agrees]); the cost of a recipe is the nearest rial
      ([recipe_cost_nearest], by [round_to_int_nearest] and [Rat_SetString_decimal]).
    - The demonstration installs its records ([Seed_installs]), which fit together ([Seed_fits]).
    - Printing: jobs read back and are made once ([savePrintJob_reads_back],
      [EnqueueOrderPrintJobsDocs_once]), until 500 are stored ([EnqueueOrderPrintJobs_hidden]);
      they end as what happened ([dispatchPrintJob_settles]), the bytes print as the lines say
      ([buildESCPos_prints]), printing touches no order ([printing_only_jobs]), the policy saved is
      the one that counts ([handlePrintPolicy_counts]), addresses are found ([parseNetworkTarget_finds]).
    - Access: what is served ([Handler_gate]), what a licence is ([LicenseState_signed],
      [ActivateLicense_valid]), sessions that last until their own sign-out through those of others and
      restarts ([newSession_outlives]), who gets one ([handleLogin_checks]).
    - The calendar agrees with counting days ([GregorianToJalali_calendar]).
    - Where the code does not do what it means to, a theorem says so:
      [completion_spelling], [SplitBillOf_overflow], [EnqueueOrderPrintJobs_hidden],
      [Open_forgets], [first_sync_wipes], [handleLocalSave_reopens], [kitchen_ticket_drops], [checkout_copies_cut],
      [day_close_unsaved], [pos_recent_hides], [inventory_page_stops], [report_limit],
      [New_question_mark].

    ** Bounds and fuel

    The JSON parser runs on fuel [json_fuel], computed from the text and shown to be enough
    for every text the program writes ([parse_marshal]).  Loops over pages are structural on the code's own
    bound of 100.  The listing limits (500 entities, 100 operations) are the code's.
    [int] and [int64] are integers with the wrap-around written out ([wrap64]) wherever amounts
    or versions are computed; years and lengths of texts are taken not to overflow.  [float64] is exact IEEE 754.

    ** Limits of the model, and what is not modelled

    - Decoding an array member twice into one Go slice element (which keeps earlier fields)
      and the decoder's limit on nesting are not modelled.
    - The machine's time zone is a fixed offset of whole minutes; Tehran's comes from the tz database and is a parameter.
    - The requests that only read the store (pages, static files, export, health) or change only the licence and
      the sessions (activation, login, logout) are no steps of the running application; the latter are in [Auth].
    - A handler runs alone: a transaction excludes others, as the store's lock does, but other
      requests between two transactions of one handler are not modelled.  Printing left to a
      goroutine is a step of its own.
    - Multipart forms, CSV files read and queries are inputs in parsed form; replies are what is
      handed to the template, the redirect or the encoder.
    - Lowering the letters of all of Unicode for a search is a parameter of the pages that search.
    - [math.Pow] and [math.Log10] depend on the machine in their last digits, so the scale of the charts, and
      with it the drawing as SVG, is not modelled; what the charts draw is.
    - The reports and the accounts take the machine's zone as an offset [loc] in seconds; years have four
      digits.  No multiplication is fused with an addition, as on amd64.
    - Error texts of [url.Parse]; the paths of directories; parsing of the embedded templates and catalogue.
    - Not modelled: the templates, the lists a page only hands on, the command-line entry points and the
      desktop shell (processes, windows, signals), and the parts of the repository in other languages (the
      printer services in Rust and C++, the SDK and user interface in TypeScript).  *)
From stdpp Require Export strings list gmap numbers sorting.
From Stdlib Require Export ZArith Lia.
From Stdlib Require Export Ascii.

#[export] Set Warnings "-register-all,-level-tolerance".

(** ** Results: a Go call that returns [(value, error)] *)

(** [Ok a] is [(a, nil)], [Err e] is [(zero, errors.New(e))]. *)
Inductive res (A : Type) : Type :=
| Ok (a : A)
| Err (e : string).
Arguments Ok {A} a.
Arguments Err {A} e.

Declare Scope go_scope.
Delimit Scope go_scope with go.
Open Scope go_scope.

(** [let? x := m in k] is [x, err := m; if err != nil { return err }; k]. *)
Notation "'let?' x := m 'in' k" :=
  (match m with Ok x => k | Err e => Err e end)
  (at level 10, x pattern, m at level 200, k at level 200)
  : go_scope.

(** [guard? b else e in k] is [if !b { return errors.New(e) }; k]. *)
Notation "'guard?' b 'else' e 'in' k" :=
  (if b : bool then k else Err e)
  (at level 10, b at level 200, e at level 200, k at level 200)
  : go_scope.

#[export] Instance res_eq_dec {A} `{EqDecision A} : EqDecision (res A).
Proof. solve_decision. Defined.

Definition is_ok {A} (r : res A) : bool := match r with Ok _ => true | Err _ => false end.

(** ** Machine integers: Go's [int] and [int64] on the 64-bit targets *)

Definition two63 : Z := 9223372036854775808.
Definition two64 : Z := 18446744073709551616.

(** Two's complement wrap-around of an exact result. *)
Definition wrap64 (z : Z) : Z := (z + two63) mod two64 - two63.

Definition in_int64 (z : Z) : Prop := (- two63 <= z < two63)%Z.

#[export] Instance in_int64_dec z : Decision (in_int64 z).
Proof. unfold in_int64. apply _. Defined.

Lemma wrap64_id z : in_int64 z → wrap64 z = z.
Proof.
  unfold in_int64, wrap64, two63, two64. intros Hz.
  rewrite Z.mod_small by lia. lia.
Qed.

Lemma wrap64_range z : in_int64 (wrap64 z).
Proof.
  unfold in_int64, wrap64, two63, two64.
  pose proof (Z.mod_pos_bound (z + 9223372036854775808) 18446744073709551616). lia.
Qed.

Lemma wrap64_wrap64_add a b : wrap64 (wrap64 a + b) = wrap64 (a + b).
Proof.
  unfold wrap64, two63, two64.
  replace ((a + 9223372036854775808) mod 18446744073709551616 - 9223372036854775808 + b
           + 9223372036854775808)%Z
    with ((a + 9223372036854775808) mod 18446744073709551616 + b)%Z by lia.
  rewrite Zplus_mod_idemp_l. f_equal. f_equal. lia.
Qed.

(** Go's [/] on integers truncates toward zero; the callers rule out zero divisors. *)
Definition quot64 (a b : Z) : Z := wrap64 (Z.quot a b).

(** ** Sums *)

Definition Zsum (l : list Z) : Z := foldr Z.add 0%Z l.

Lemma Zsum_app l k : Zsum (l ++ k) = (Zsum l + Zsum k)%Z.
Proof. induction l as [|x l IH]; simpl; lia. Qed.

Lemma Zsum_nonneg l : Forall (λ x, 0 <= x)%Z l → (0 <= Zsum l)%Z.
Proof. induction 1; simpl; lia. Qed.

Lemma Zsum_perm l k : l ≡ₚ k → Zsum l = Zsum k.
Proof. induction 1; simpl; lia. Qed.

(** ** Sorted lists *)

Lemma StronglySorted_lookup {A} (R : A → A → Prop) l :
  StronglySorted R l ↔ ∀ i j a b, i < j → l !! i = Some a → l !! j = Some b → R a b.
Proof.
  induction l as [|x l IH].
  - split; [done|]. intros _. constructor.
  - split.
    + inversion_clear 1 as [|? ? Hs Hf]. rewrite IH in Hs. rewrite Forall_lookup in Hf.
      intros [|i] [|j] a b Hij Ha Hb; cbn in *; [lia| |lia|eapply Hs; [|done..]; lia]. injection Ha as <-. by eapply Hf.
    + intros H. constructor.
      * apply IH. intros i j a b Hij Ha Hb. apply (H (S i) (S j)); [lia|done..].
      * apply Forall_lookup. intros i b Hb. apply (H 0%nat (S i)); [lia|done..].
Qed.

Lemma StronglySorted_mono {A} (R S : A → A → Prop) l :
  (∀ a b, R a b → S a b) → StronglySorted R l → StronglySorted S l.
Proof. intros H. induction 1 as [|x l _ IH Hf]; constructor; [done|]. eapply Forall_impl; [exact Hf|auto]. Qed.

(** ** Strings as Go has them: byte sequences *)

Definition quote_char : ascii := "034"%char.
Definition backslash_char : ascii := "092"%char.
Definition newline_char : ascii := "010"%char.

Definition byte_of (c : ascii) : N := N_of_ascii c.

Fixpoint stake (n : nat) (s : string) : string :=
  match n, s with
  | S n, String c t => String c (stake n t)
  | _, _ => EmptyString
  end.

Fixpoint sdrop (n : nat) (s : string) : string :=
  match n, s with
  | S n, String _ t => sdrop n t
  | _, _ => s
  end.

Fixpoint sconcat (l : list string) : string :=
  match l with [] => EmptyString | x :: r => x +:+ sconcat r end.

Fixpoint sforall (P : ascii → bool) (s : string) : bool :=
  match s with EmptyString => true | String c t => P c && sforall P t end.

Definition sempty (s : string) : bool := match s with EmptyString => true | _ => false end.

Definition sone (c : ascii) : string := String c EmptyString.

Lemma sapp_nil_r s : s +:+ EmptyString = s.
Proof. induction s as [|c s IH]; [done|]. change (String c (s +:+ EmptyString) = String c s). by rewrite IH. Qed.

Lemma sapp_nil_l s : EmptyString +:+ s = s.
Proof. done. Qed.

Lemma sapp_cons c s t : String c s +:+ t = String c (s +:+ t).
Proof. done. Qed.

Lemma sapp_assoc s t u : (s +:+ t) +:+ u = s +:+ (t +:+ u).
Proof.
  induction s as [|c s IH]; [done|]. rewrite !sapp_cons. by rewrite IH.
Qed.

Lemma slength_app s t : String.length (s +:+ t) = String.length s + String.length t.
Proof. induction s as [|c s IH]; [done|]. rewrite sapp_cons. simpl. by rewrite IH. Qed.

Lemma stake_sdrop n s : stake n s +:+ sdrop n s = s.
Proof.
  revert s. induction n as [|n IH]; intros [|c s]; try done.
  simpl. rewrite sapp_cons. by rewrite IH.
Qed.

Lemma sdrop_length n s : String.length (sdrop n s) = String.length s - n.
Proof.
  revert s. induction n as [|n IH]; intros [|c s]; simpl; try done; try lia; apply IH.
Qed.

Lemma stake_app s t : stake (String.length s) (s +:+ t) = s.
Proof. induction s as [|c s IH]; [done|]. rewrite sapp_cons. simpl. by rewrite IH. Qed.

Lemma sdrop_app s t : sdrop (String.length s) (s +:+ t) = t.
Proof. induction s as [|c s IH]; [done|]. rewrite sapp_cons. simpl. apply IH. Qed.

Lemma sconcat_app l k : sconcat (l ++ k) = sconcat l +:+ sconcat k.
Proof. induction l as [|x l IH]; [done|]. simpl. by rewrite IH, sapp_assoc. Qed.

Lemma sforall_app P s t : sforall P (s +:+ t) = sforall P s && sforall P t.
Proof.
  induction s as [|c s IH]; [done|]. rewrite sapp_cons. simpl. by rewrite IH, andb_assoc.
Qed.

Lemma sforall_impl (P Q : ascii → bool) s :
  (∀ c, P c = true → Q c = true) → sforall P s = true → sforall Q s = true.
Proof.
  intros HPQ. induction s as [|c s IH]; simpl; [done|].
  rewrite !andb_true_iff. intros [H1 H2]. auto.
Qed.

Lemma sempty_true s : sempty s = true ↔ s = EmptyString.
Proof. by destruct s. Qed.

(** ** Hint databases of the development *)

Create Rewrite HintDb go_strings.
Create HintDb go_strings.
Create HintDb go_ints.
#[export] Hint Rewrite sapp_nil_r sapp_nil_l sapp_assoc sforall_app slength_app : go_strings.
#[export] Hint Resolve wrap64_range Zsum_nonneg : go_ints.

(** ** Tactics *)

(** Split every [if] and [match] of the goal or the named hypothesis. *)
Ltac case_ok H :=
  repeat match type of H with
         | context [match ?x with _ => _ end] =>
             let E := fresh "E" in destruct x eqn:E; simpl in H; try discriminate H
         end.

(** Turn boolean hypotheses into propositions. *)
Ltac bools :=
  repeat match goal with
         | H : _ && _ = true |- _ => apply andb_true_iff in H as [? ?]
         | H : _ || _ = false |- _ => apply orb_false_iff in H as [? ?]
         | H : negb _ = true |- _ => apply negb_true_iff in H
         | H : negb _ = false |- _ => apply negb_false_iff in H
         | H : bool_decide _ = true |- _ => apply bool_decide_eq_true in H
         | H : bool_decide _ = false |- _ => apply bool_decide_eq_false in H
         | H : (_ <? _)%Z = true |- _ => apply Z.ltb_lt in H
         | H : (_ <? _)%Z = false |- _ => apply Z.ltb_ge in H
         | H : (_ <=? _)%Z = true |- _ => apply Z.leb_le in H
         | H : (_ <=? _)%Z = false |- _ => apply Z.leb_gt in H
         | H : (_ =? _)%Z = true |- _ => apply Z.eqb_eq in H
         | H : (_ =? _)%Z = false |- _ => apply Z.eqb_neq in H
         end.

(** Close a decidable goal by computing its decision. *)
Ltac decided := apply (bool_decide_unpack _); vm_compute; exact I.

(** ** Filters *)

Lemma filter_all_off {A} (f : A → bool) (l : list A) : (∀ x, x ∈ l → f x = false) → List.filter f l = [].
Proof.
  induction l as [|x l IH]; intros H; [done|]. cbn [List.filter]. rewrite (H x) by set_solver. apply IH. set_solver.
Qed.

Lemma filter_split {A} (f g : A → bool) (l : list A) :
  (∀ x, f x && g x = false) → List.filter f l ++ List.filter g l ≡ₚ List.filter (λ x, f x || g x) l.
Proof.
  intros D. induction l as [|x l IH]; [done|]. cbn [List.filter]. specialize (D x). destruct (f x), (g x); cbn [orb app] in *; try done.
  - by constructor.
  - rewrite <- IH. symmetry. apply Permutation_middle.
Qed.

Lemma filter_compl {A} (f : A → bool) (l : list A) : List.filter f l ++ List.filter (λ x, negb (f x)) l ≡ₚ l.
Proof.
  induction l as [|x l IH]; [done|]. cbn [List.filter]. destruct (f x); cbn [negb app]; [by constructor|].
  rewrite <- Permutation_middle. by constructor.
Qed.

Lemma elem_of_filter_bool {A} (f : A → bool) (l : list A) x : x ∈ List.filter f l ↔ x ∈ l ∧ f x = true.
Proof. rewrite !list_elem_of_In. apply List.filter_In. Qed.

Lemma filter_perm_length {A} (f : A → bool) (l k : list A) : l ≡ₚ k → length (List.filter f l) = length (List.filter f k).
Proof. induction 1; cbn [List.filter]; repeat case_match; cbn; congruence. Qed.

Lemma filter_filter_bool {A} (f g : A → bool) (l : list A) : List.filter f (List.filter g l) = List.filter (λ x, g x && f x) l.
Proof. induction l as [|x l IH]; [done|]. cbn [List.filter]. destruct (g x); cbn [andb List.filter]; [|done]. destruct (f x); by rewrite IH. Qed.

Lemma filter_ext_elem {A} (f g : A → bool) (l : list A) : (∀ x, x ∈ l → f x = g x) → List.filter f l = List.filter g l.
Proof. intros H. apply List.filter_ext_in. intros x Hx. by apply H, list_elem_of_In. Qed.

(** ** Sums over a list *)

Lemma Zsum_map_ext {A} (f g : A → Z) l : (∀ x, x ∈ l → f x = g x) → Zsum (map f l) = Zsum (map g l).
Proof.
  intros H. f_equal. apply map_ext_in. intros x Hx. by apply H, list_elem_of_In.
Qed.

Lemma Zsum_map_add {A} (f g : A → Z) l : Zsum (map (λ x, f x + g x)%Z l) = (Zsum (map f l) + Zsum (map g l))%Z.
Proof. induction l as [|x l IH]; [done|]. cbn [map Zsum foldr]. unfold Zsum in *. lia. Qed.

Lemma Zsum_map_filter {A} (P : A → bool) (f : A → Z) l :
  Zsum (map f (List.filter P l)) = Zsum (map (λ x, if P x then f x else 0%Z) l).
Proof. induction l as [|x l IH]; [done|]. cbn [List.filter map]. destruct (P x); cbn [map Zsum foldr]; unfold Zsum in *; lia. Qed.

Lemma Zsum_map_cons {A} (f : A → Z) x l : Zsum (map f (x :: l)) = (f x + Zsum (map f l))%Z.
Proof. done. Qed.

Lemma Zsum_map_zero {A} (l : list A) : Zsum (map (λ _, 0%Z) l) = 0%Z.
Proof. induction l as [|x l IH]; [done|exact IH]. Qed.

Lemma Zsum_one_of {K} `{EqDecision K} (ks : list K) k (v : Z) : NoDup ks → k ∈ ks → Zsum (map (λ i, if bool_decide (k = i) then v else 0%Z) ks) = v.
Proof.
  induction 1 as [|i ks Hi Hks IH]; intros Hk; [by apply not_elem_of_nil in Hk|]. cbn [map]. change (Zsum (?a :: ?l)) with (a + Zsum l)%Z.
  case_bool_decide as E.
  - rewrite (Zsum_map_ext _ (λ _, 0%Z)), Zsum_map_zero; [lia|]. intros j Hj. rewrite bool_decide_eq_false_2; [done|]. intros ->. by subst.
  - apply elem_of_cons in Hk as [?|Hk]; [done|]. rewrite IH by done. lia.
Qed.

(** A sum taken group by group is the whole sum. *)
Lemma Zsum_by_key {A K} `{EqDecision K} (f : A → Z) (key : A → K) ks l : NoDup ks → (∀ x, x ∈ l → key x ∈ ks) →
  Zsum (map (λ i, Zsum (map f (List.filter (λ x, bool_decide (key x = i)) l))) ks) = Zsum (map f l).
Proof.
  intros Hks. induction l as [|x l IH]; intros H; [apply Zsum_map_zero|].
  rewrite (Zsum_map_ext _ (λ i, (if bool_decide (key x = i) then f x else 0%Z) + Zsum (map f (List.filter (λ x, bool_decide (key x = i)) l)))%Z).
  - rewrite Zsum_map_add, Zsum_one_of, IH by (done || set_solver). done.
  - intros i _. cbn [List.filter]. by case_bool_decide.
Qed.

(** ** Tables made by a loop

    The loop [for _, x := range l { m[key(x)] = add(m[key(x)], x) }]: what is under a name is
    what the elements of that name make, in their order. *)
Section Table.
Context {A B : Type} (key : A → string) (add : option B → A → B).

Definition grouped (l : list A) : gmap string B := foldl (λ m x, <[key x := add (m !! key x) x]> m) ∅ l.
Definition group_of (k : string) (l : list A) : option B := foldl (λ o x, Some (add o x)) None (List.filter (λ x, bool_decide (key x = k)) l).

Lemma grouped_snoc l x : grouped (l ++ [x]) = <[key x := add (grouped l !! key x) x]> (grouped l).
Proof. unfold grouped. by rewrite foldl_app. Qed.

Lemma grouped_lookup l k : grouped l !! k = group_of k l.
Proof.
  induction l as [|x l IH] using rev_ind; [done|]. rewrite grouped_snoc. unfold group_of in *. rewrite List.filter_app, foldl_app. cbn [List.filter].
  destruct (decide (key x = k)) as [<-|Hk].
  - by rewrite lookup_insert_eq, bool_decide_eq_true_2, IH by done.
  - by rewrite lookup_insert_ne, bool_decide_eq_false_2 by done.
Qed.

Lemma group_some l o : is_Some (foldl (λ o x, Some (add o x)) (Some o) l).
Proof. revert o. induction l as [|x l IH]; intros o; [by eexists|apply IH]. Qed.

Lemma grouped_keys l k : is_Some (grouped l !! k) ↔ k ∈ map key l.
Proof.
  rewrite grouped_lookup. unfold group_of. induction l as [|x l IH]; [split; [by intros [? ?]|by intros ?%not_elem_of_nil]|]. cbn [List.filter map].
  rewrite elem_of_cons. case_bool_decide as Hk; [|rewrite IH; naive_solver]. split; [by left|]. intros _. cbn [foldl]. by apply group_some.
Qed.

(** A column [f] of the table to which each element adds [g], as long as the sums are [ok]. *)
Section Column.
Context (f : B → Z) (g : A → Z) (ok : Z → Prop).
Hypothesis adds : ∀ o x, (0 ≤ default 0 (f <$> o))%Z → (0 ≤ g x)%Z → ok (default 0 (f <$> o) + g x)%Z → f (add o x) = (default 0 (f <$> o) + g x)%Z.
Hypothesis ok_less : ∀ a b, (a ≤ b)%Z → ok b → ok a.

Lemma group_sum l o : Forall (λ x, 0 ≤ g x)%Z l → (0 ≤ default 0 (f <$> o))%Z → ok (default 0 (f <$> o) + Zsum (map g l))%Z →
  default 0%Z (f <$> foldl (λ o x, Some (add o x)) o l) = (default 0 (f <$> o) + Zsum (map g l))%Z.
Proof.
  intros Hl. revert o. induction Hl as [|x l Hx Hl IH]; intros o Ho Hok; cbn [foldl]; [cbn; lia|].
  rewrite Zsum_map_cons in *. assert (0 ≤ Zsum (map g l))%Z by (by apply Zsum_nonneg, Forall_map).
  assert (f (add o x) = default 0 (f <$> o) + g x)%Z as E.
  { apply adds; [done..|]. eapply ok_less; [|exact Hok]. lia. }
  rewrite IH; cbn [fmap option_fmap option_map default from_option id]; rewrite E; [lia|lia|]. by rewrite <- Z.add_assoc.
Qed.

Lemma Zsum_filter_le {C} (P : C → bool) (h : C → Z) l : Forall (λ x, 0 ≤ h x)%Z l → (0 ≤ Zsum (map h (List.filter P l)) ≤ Zsum (map h l))%Z.
Proof.
  induction 1 as [|x l Hx Hl IH]; [done|]. cbn [List.filter]. rewrite Zsum_map_cons. destruct (P x); rewrite ?Zsum_map_cons; lia.
Qed.

Lemma grouped_sum l k : Forall (λ x, 0 ≤ g x)%Z l → ok (Zsum (map g l)) →
  default 0%Z (f <$> grouped l !! k) = Zsum (map g (List.filter (λ x, bool_decide (key x = k)) l)).
Proof.
  intros Hl Hok. rewrite grouped_lookup. unfold group_of. pose proof (Zsum_filter_le (λ x, bool_decide (key x = k)) g l Hl) as [_ Hle].
  rewrite group_sum; [done| |done|].
  - apply Forall_forall. intros x [Hx _]%list_elem_of_In%List.filter_In. rewrite Forall_forall in Hl. by apply Hl, list_elem_of_In.
  - by eapply ok_less.
Qed.

(** The column adds up to what the elements add. *)
Lemma grouped_total l : Forall (λ x, 0 ≤ g x)%Z l → ok (Zsum (map g l)) → Zsum (map (λ p, f p.2) (map_to_list (grouped l))) = Zsum (map g l).
Proof.
  intros Hl Hok. rewrite <- (Zsum_by_key g key (map_to_list (grouped l)).*1 l); [|apply NoDup_fst_map_to_list|].
  - change ((map_to_list (grouped l)).*1) with (map fst (map_to_list (grouped l))). rewrite map_map. apply Zsum_map_ext. intros [k b] Hp%elem_of_map_to_list.
    cbn [fst snd]. rewrite <- (grouped_sum l k Hl Hok), Hp. done.
  - intros x Hx. assert (is_Some (grouped l !! key x)) as [b Hb] by (apply grouped_keys, list_elem_of_In, in_map; by apply list_elem_of_In).
    apply (list_elem_of_fmap_2 fst _ (key x, b)). by apply elem_of_map_to_list.
Qed.
End Column.
End Table.

(** ** Sorting that keeps the order of equals *)

Section Stable.
Context {A : Type} (less : A → A → bool).

Fixpoint insert_before (x : A) (l : list A) : list A :=
  match l with
  | [] => [x]
  | y :: l' => if less y x then y :: insert_before x l' else x :: l
  end.

(** [sort.SliceStable] *)
Definition sort_stable (l : list A) : list A := foldr insert_before [] l.

Lemma insert_before_perm x l : insert_before x l ≡ₚ x :: l.
Proof.
  induction l as [|y l IH]; [done|]. cbn [insert_before]. destruct (less y x); [|done]. rewrite IH. apply Permutation_swap.
Qed.

Lemma sort_stable_perm l : sort_stable l ≡ₚ l.
Proof. induction l as [|x l IH]; [done|]. cbn [sort_stable foldr]. rewrite insert_before_perm. by constructor. Qed.

(** The order behind [less], with its laws. *)
Context (asym : ∀ x y, less x y = true → less y x = false) (trans : ∀ x y z, less y x = false → less z y = false → less z x = false).

Lemma sort_stable_sorted l : StronglySorted (λ x y, less y x = false) (sort_stable l).
Proof.
  induction l as [|x l IH]; [constructor|]. cbn [sort_stable foldr]. fold (sort_stable l). revert IH. generalize (sort_stable l).
  intros k H. induction H as [|y k Hk IH Hy]; [repeat constructor|]. cbn [insert_before]. destruct (less y x) eqn:E.
  - constructor; [done|]. rewrite insert_before_perm. constructor; [by apply asym|done].
  - constructor; [by constructor|]. constructor; [done|]. eapply Forall_impl; [exact Hy|]. intros z Hz. by eapply trans.
Qed.
End Stable.


(** Sorting an already sorted list by something else keeps the old order among equals. *)
Lemma sort_stable_lex {A} (less : A → A → bool) (R : A → A → Prop) l :
  (∀ x y, less x y = true → less y x = false) → (∀ x y z, less y x = false → less z y = false → less z x = false) →
  StronglySorted R l → StronglySorted (λ x y, less y x = false ∧ (less x y = false → R x y)) (sort_stable less l).
Proof.
  intros asym trans H. induction H as [|x l H IH Hx]; [constructor|]. cbn [sort_stable foldr]. fold (sort_stable less l).
  assert (Forall (R x) (sort_stable less l)) as Hx' by (by rewrite sort_stable_perm). revert IH Hx'. generalize (sort_stable less l). clear - asym trans.
  intros k H. induction H as [|y k Hk IH Hy]; intros Hx; [repeat constructor|]. cbn [insert_before]. inversion_clear Hx as [|? ? Hxy Hxk].
  destruct (less y x) eqn:E.
  - constructor; [by apply IH|]. rewrite insert_before_perm. constructor; [|done]. split; [by apply asym|congruence].
  - constructor; [by constructor|]. constructor; [by split|]. rewrite Forall_forall in Hy, Hxk |- *. intros z Hz. split; [|by intros; apply Hxk].
    destruct (Hy z Hz) as [? _]. by eapply trans.
Qed.

Lemma strongly_sorted_impl {A} (R S : A → A → Prop) l : (∀ x y, R x y → S x y) → StronglySorted R l → StronglySorted S l.
Proof. intros H HS. induction HS as [|x l HS IH HR]; constructor; [done|]. eapply Forall_impl; [exact HR|]. eauto. Qed.

(** What stands among the first [n] has fewer than [n] before it. *)
Lemma sorted_take_before {A} (less : A → A → bool) (irrefl : ∀ x, less x x = false) l n o :
  StronglySorted (λ x y, less y x = false) l → o ∈ take n l → (length (List.filter (λ x, less x o) l) < n)%nat.
Proof.
  intros H. revert n. induction H as [|x l H IH Hx]; intros [|n] Ho; try by apply not_elem_of_nil in Ho. cbn [take] in Ho.
  apply elem_of_cons in Ho as [->|Ho]; cbn [List.filter].
  - rewrite irrefl, filter_all_off; [cbn; lia|]. by apply Forall_forall.
  - specialize (IH n Ho). destruct (less x o); cbn; lia.
Qed.
