(* ===== verification/GoStrings.v ===== *)
(** * Go's strings, runes and decimal integers

    What the program uses of the packages [strings], [unicode/utf8], [strconv]
    and [math/big], on byte strings.  A rune is the chunk of bytes that encodes
    it; a byte that starts no valid encoding is a chunk of its own, which
    Go decodes as U+FFFD.  [unicode.ToLower] and [unicode.ToUpper] are modelled on ASCII and on the
    other code points whose lower or upper case is an ASCII letter; every other rune
    is left as it is, which no comparison with ASCII constants can tell apart.  Where the
    program searches text, the lowering of all of Unicode is a parameter of the model. *)
From S2P Require Import Prelude.

Local Open Scope N_scope.

(** ** UTF-8 *)

Definition in_range (lo hi : N) (c : ascii) : bool := (lo <=? byte_of c) && (byte_of c <=? hi).
Definition is_cont : ascii → bool := in_range 128 191.

(** Bounds of the second byte for the lead bytes that restrict it. *)
Definition second_range (lead : N) (c : ascii) : bool :=
  if lead =? 224 then in_range 160 191 c
  else if lead =? 237 then in_range 128 159 c
  else if lead =? 240 then in_range 144 191 c
  else if lead =? 244 then in_range 128 143 c
  else is_cont c.

(** Length of the valid encoding at the head of [s]; 0 when there is none. *)
Definition rune_len (s : string) : nat :=
  match s with
  | EmptyString => 0%nat
  | String c0 t =>
      let b := byte_of c0 in
      if b <? 128 then 1%nat
      else if (194 <=? b) && (b <=? 223) then
        match t with String c1 _ => if is_cont c1 then 2%nat else 0%nat | _ => 0%nat end
      else if (224 <=? b) && (b <=? 239) then
        match t with
        | String c1 (String c2 _) => if second_range b c1 && is_cont c2 then 3%nat else 0%nat
        | _ => 0%nat
        end
      else if (240 <=? b) && (b <=? 244) then
        match t with
        | String c1 (String c2 (String c3 _)) =>
            if second_range b c1 && is_cont c2 && is_cont c3 then 4%nat else 0%nat
        | _ => 0%nat
        end
      else 0%nat
  end.

Definition rune_step (s : string) : nat := Nat.max 1 (rune_len s).

Fixpoint runes_go (fuel : nat) (s : string) : list string :=
  match fuel, s with
  | S fuel, String _ _ => stake (rune_step s) s :: runes_go fuel (sdrop (rune_step s) s)
  | _, _ => []
  end.

(** [[]rune(s)], each rune as the bytes it was read from. *)
Definition runes (s : string) : list string := runes_go (String.length s) s.

(** The byte sequence of U+FFFD, which stands for an invalid byte. *)
Definition rune_error : string := String "239"%char (String "191"%char (String "189"%char EmptyString)).

Definition rune_invalid (r : string) : bool :=
  match r with
  | String c EmptyString => 128 <=? byte_of c
  | _ => false
  end.

Definition utf8_valid (s : string) : bool := forallb (λ r, negb (rune_invalid r)) (runes s).

Definition is_ascii (c : ascii) : bool := byte_of c <? 128.

(** ** Case *)

Definition ascii_lower (c : ascii) : ascii :=
  if in_range 65 90 c then ascii_of_N (byte_of c + 32) else c.

Definition kelvin_sign : string := String "226"%char (String "132"%char (String "170"%char EmptyString)).
Definition dotted_I : string := String "196"%char (String "176"%char EmptyString).
Definition long_s : string := String "197"%char (String "191"%char EmptyString).

Definition rune_lower (r : string) : string :=
  if rune_invalid r then rune_error
  else if bool_decide (r = kelvin_sign) then "k"
  else if bool_decide (r = dotted_I) then "i"
  else match r with String c EmptyString => sone (ascii_lower c) | _ => r end.

(** [strings.ToLower] *)
Definition ToLower (s : string) : string := sconcat (map rune_lower (runes s)).

(** [strings.ToUpper] *)
Definition ascii_upper (c : ascii) : ascii := if in_range 97 122 c then ascii_of_N (byte_of c - 32) else c.
Definition dotless_i : string := String "196"%char (String "177"%char EmptyString).
Definition rune_upper (r : string) : string :=
  if rune_invalid r then rune_error
  else if bool_decide (r = dotless_i) then "I"
  else if bool_decide (r = long_s) then "S"
  else match r with String c EmptyString => sone (ascii_upper c) | _ => r end.
Definition ToUpper (s : string) : string := sconcat (map rune_upper (runes s)).

Definition rune_fold (r : string) : string :=
  if rune_invalid r then rune_error
  else if bool_decide (r = kelvin_sign) then "k"
  else if bool_decide (r = long_s) then "s"
  else match r with String c EmptyString => sone (ascii_lower c) | _ => r end.

(** [strings.EqualFold] *)
Definition EqualFold (s t : string) : bool :=
  bool_decide (map rune_fold (runes s) = map rune_fold (runes t)).

(** ** White space *)

(** [unicode.IsSpace] on the bytes of a rune. *)
Definition rune_is_space (r : string) : bool :=
  match r with
  | String c EmptyString => in_range 9 13 c || (byte_of c =? 32)
  | String c1 (String c2 EmptyString) =>
      (byte_of c1 =? 194) && ((byte_of c2 =? 133) || (byte_of c2 =? 160))
  | String c1 (String c2 (String c3 EmptyString)) =>
      ((byte_of c1 =? 225) && (byte_of c2 =? 154) && (byte_of c3 =? 128))
      || ((byte_of c1 =? 226) && (byte_of c2 =? 128)
          && (in_range 128 138 c3 || (byte_of c3 =? 168) || (byte_of c3 =? 169) || (byte_of c3 =? 175)))
      || ((byte_of c1 =? 226) && (byte_of c2 =? 129) && (byte_of c3 =? 159))
      || ((byte_of c1 =? 227) && (byte_of c2 =? 128) && (byte_of c3 =? 128))
  | _ => false
  end.

Fixpoint drop_while {A} (P : A → bool) (l : list A) : list A :=
  match l with x :: r => if P x then drop_while P r else l | [] => [] end.

(** [strings.TrimSpace] *)
Definition TrimSpace (s : string) : string :=
  sconcat (rev (drop_while rune_is_space (rev (drop_while rune_is_space (runes s))))).

(** [strings.Trim(s, c)] and [strings.TrimRight(s, c)] for a one byte cut set. *)
Fixpoint to_list (s : string) : list ascii :=
  match s with EmptyString => [] | String c t => c :: to_list t end.
Fixpoint of_list (l : list ascii) : string :=
  match l with [] => EmptyString | c :: r => String c (of_list r) end.

Definition TrimRightByte (c : ascii) (s : string) : string :=
  of_list (rev (drop_while (λ d, bool_decide (d = c)) (rev (to_list s)))).
Definition TrimLeftByte (c : ascii) (s : string) : string :=
  of_list (drop_while (λ d, bool_decide (d = c)) (to_list s)).
Definition TrimByte (c : ascii) (s : string) : string := TrimLeftByte c (TrimRightByte c s).

(** ** Searching and splitting *)

Definition HasPrefix (s p : string) : bool := String.prefix p s.

Fixpoint Contains (s sub : string) : bool :=
  String.prefix sub s || match s with String _ t => Contains t sub | EmptyString => false end.

(** [strings.SplitN(s, sep, 2)] for a non-empty [sep]: the part before the first
    [sep] and, when there is one, the part behind it. *)
Fixpoint SplitN2 (sep s : string) : string * option string :=
  if String.prefix sep s then (EmptyString, Some (sdrop (String.length sep) s))
  else match s with
       | EmptyString => (EmptyString, None)
       | String c t => let '(a, b) := SplitN2 sep t in (String c a, b)
       end.

(** [strings.Split(s, sep)] for a one byte separator. *)
Fixpoint SplitByte (c : ascii) (s : string) : list string :=
  match s with
  | EmptyString => [EmptyString]
  | String d t =>
      if bool_decide (d = c) then EmptyString :: SplitByte c t
      else match SplitByte c t with
           | x :: r => String d x :: r
           | [] => [sone d]
           end
  end.

(** [strings.Join] *)
Fixpoint Join (sep : string) (l : list string) : string :=
  match l with
  | [] => EmptyString
  | [x] => x
  | x :: r => x +:+ sep +:+ Join sep r
  end.

(** [s[strings.LastIndex(s, sep)+len(sep):]] and the index itself. *)
Fixpoint LastIndex_go (i : nat) (s sub : string) (best : option nat) : option nat :=
  let best := if String.prefix sub s then Some i else best in
  match s with
  | EmptyString => best
  | String _ t => LastIndex_go (S i) t sub best
  end.
Definition LastIndex (s sub : string) : option nat := LastIndex_go 0 s sub None.

(** [sort.Strings]: bytewise order. *)
Definition sort_strings (l : list string) : list string := merge_sort String.le l.

(** ** Decimal integers *)

Definition is_digit : ascii → bool := in_range 48 57.
Definition digit_val (c : ascii) : N := byte_of c - 48.
Definition digit_char (d : N) : ascii := ascii_of_N (48 + d).

Fixpoint digits_val (acc : N) (s : string) : N :=
  match s with EmptyString => acc | String c t => digits_val (10 * acc + digit_val c) t end.

Definition all_digits (s : string) : bool := negb (sempty s) && sforall is_digit s.

Fixpoint digits_go (fuel : nat) (n : N) (acc : string) : string :=
  match fuel with
  | O => acc
  | S fuel =>
      let acc := String (digit_char (n mod 10)) acc in
      if n <? 10 then acc else digits_go fuel (n / 10) acc
  end.

(** Decimal digits of a natural number, without leading zeros. *)
Definition N_to_dec (n : N) : string := digits_go (S (N.to_nat (N.size n))) n EmptyString.

(** [strconv.Itoa], [strconv.FormatInt(_, 10)] and [big.Int.String]. *)
Definition Z_to_dec (z : Z) : string :=
  match z with
  | Zneg p => String "-" (N_to_dec (Npos p))
  | _ => N_to_dec (Z.to_N z)
  end.

Definition split_sign (s : string) : bool * string :=
  match s with
  | String "-" t => (true, t)
  | String "+" t => (false, t)
  | _ => (false, s)
  end.

(** [big.Int.SetString(s, 10)]: an optional sign and at least one digit. *)
Definition SetString10 (s : string) : option Z :=
  let '(neg, t) := split_sign s in
  if all_digits t then
    let n := Z.of_N (digits_val 0 t) in Some (if neg then (- n)%Z else n)
  else None.

(** [strconv.Atoi]: the value and whether the error is nil; out of range the value is
    clamped and the error is set. *)
Definition Atoi (s : string) : Z * bool :=
  match SetString10 s with
  | None => (0%Z, false)
  | Some z =>
      if bool_decide (in_int64 z) then (z, true)
      else ((if (z <? 0)%Z then - two63 else two63 - 1)%Z, false)
  end.

(** ** Lemmas: runes *)

Lemma rune_len_le s : (rune_len s ≤ String.length s)%nat.
Proof.
  unfold rune_len. destruct s as [|c0 t]; [done|].
  repeat case_match; simpl; lia.
Qed.

Lemma rune_step_bounds c s : (1 ≤ rune_step (String c s) ≤ String.length (String c s))%nat.
Proof. unfold rune_step. pose proof (rune_len_le (String c s)). simpl in *. lia. Qed.

Lemma runes_go_fuel n m s :
  (String.length s ≤ n)%nat → (String.length s ≤ m)%nat → runes_go n s = runes_go m s.
Proof.
  revert m s. induction n as [|n IH]; intros m s Hn Hm.
  - destruct s; [by destruct m|simpl in Hn; lia].
  - destruct s as [|c s]; [by destruct m|]. destruct m as [|m]; [simpl in Hm; lia|].
    cbn [runes_go]. f_equal. pose proof (rune_step_bounds c s).
    apply IH; rewrite sdrop_length; simpl in *; lia.
Qed.

Lemma runes_cons c s :
  runes (String c s)
  = stake (rune_step (String c s)) (String c s) :: runes (sdrop (rune_step (String c s)) (String c s)).
Proof.
  unfold runes at 1. cbn [String.length runes_go]. f_equal.
  pose proof (rune_step_bounds c s). apply runes_go_fuel; rewrite sdrop_length; simpl in *; lia.
Qed.

(** Induction on a string, one rune at a time. *)
Lemma rune_ind (P : string → Prop) :
  P EmptyString →
  (∀ c s, P (sdrop (rune_step (String c s)) (String c s)) → P (String c s)) →
  ∀ s, P s.
Proof.
  intros H0 HS s. remember (String.length s) as n eqn:Hn.
  revert s Hn. induction n as [n IH] using lt_wf_ind. intros [|c s] Hn; [done|].
  apply HS. eapply IH; [|done]. pose proof (rune_step_bounds c s).
  rewrite sdrop_length. simpl in *. lia.
Qed.

Lemma sconcat_runes s : sconcat (runes s) = s.
Proof.
  induction s as [|c s IH] using rune_ind; [done|].
  rewrite runes_cons. cbn [sconcat]. by rewrite IH, stake_sdrop.
Qed.

Lemma rune_len_ascii c s : is_ascii c = true → rune_len (String c s) = 1%nat.
Proof. unfold is_ascii, rune_len. intros ->. done. Qed.

Lemma runes_ascii_cons c s : is_ascii c = true → runes (String c s) = sone c :: runes s.
Proof.
  intros Hc. rewrite runes_cons. unfold rune_step. rewrite (rune_len_ascii c s Hc).
  cbn [stake sdrop Nat.max]. done.
Qed.

Lemma runes_ascii s : sforall is_ascii s = true → runes s = map sone (to_list s).
Proof.
  induction s as [|c s IH]; [done|]. cbn [sforall to_list map]. intros H. bools.
  rewrite runes_ascii_cons by done. by rewrite IH.
Qed.

(** A valid encoding is read the same with any continuation. *)
Lemma rune_len_app s t : rune_len s ≠ 0%nat → rune_len (s +:+ t) = rune_len s.
Proof.
  destruct s as [|c0 s]; [done|]. rewrite sapp_cons. unfold rune_len.
  destruct (byte_of c0 <? 128); [done|].
  destruct (_ && _); [destruct s as [|c1 s]; done|].
  destruct (_ && _); [destruct s as [|c1 [|c2 s]]; done|].
  destruct (_ && _); [destruct s as [|c1 [|c2 [|c3 s]]]; done|]. done.
Qed.


Lemma rune_len_0_high c s : rune_len (String c s) = 0%nat → 128 <=? byte_of c = true.
Proof.
  unfold rune_len. destruct (byte_of c <? 128) eqn:E; [done|].
  intros _. apply N.leb_le. by apply N.ltb_ge in E.
Qed.

Lemma rune_invalid_step c s :
  rune_invalid (stake (rune_step (String c s)) (String c s)) = bool_decide (rune_len (String c s) = 0%nat).
Proof.
  unfold rune_step. destruct (rune_len (String c s)) as [|n] eqn:E.
  - cbn. by rewrite (rune_len_0_high _ _ E).
  - cbn [Nat.max]. rewrite bool_decide_eq_false_2 by done.
    destruct n as [|n].
    + cbn. unfold rune_len in E. destruct (byte_of c <? 128) eqn:E2.
      * apply N.leb_gt. by apply N.ltb_lt in E2.
      * repeat case_match; congruence.
    + cbn. pose proof (rune_len_le (String c s)) as Hl. rewrite E in Hl.
      destruct s; simpl in *; [lia|done].
Qed.

Lemma utf8_valid_cons c s :
  utf8_valid (String c s)
  = bool_decide (rune_len (String c s) ≠ 0%nat)
    && utf8_valid (sdrop (rune_step (String c s)) (String c s)).
Proof.
  unfold utf8_valid. rewrite runes_cons. cbn [forallb]. f_equal.
  rewrite rune_invalid_step. rewrite <- bool_decide_not. done.
Qed.

Lemma stake_app_le n s t : (n ≤ String.length s)%nat → stake n (s +:+ t) = stake n s.
Proof.
  revert s. induction n as [|n IH]; intros [|c s] H; simpl in H; try done; [lia|].
  rewrite sapp_cons. simpl. rewrite IH; [done|lia].
Qed.

Lemma sdrop_app_le n s t : (n ≤ String.length s)%nat → sdrop n (s +:+ t) = sdrop n s +:+ t.
Proof.
  revert s. induction n as [|n IH]; intros [|c s] H; simpl in H; try done; [lia|].
  rewrite sapp_cons. simpl. rewrite IH; [done|lia].
Qed.

Lemma runes_app s t : utf8_valid s = true → runes (s +:+ t) = runes s ++ runes t.
Proof.
  induction s as [|c s IH] using rune_ind; [done|].
  rewrite utf8_valid_cons. intros H. bools.
  assert (Hst : rune_step (String c s +:+ t) = rune_step (String c s)).
  { unfold rune_step. by rewrite rune_len_app. }
  rewrite sapp_cons, !runes_cons, <- !sapp_cons, Hst.
  rewrite stake_app_le, sdrop_app_le by apply rune_step_bounds.
  cbn [app]. f_equal. auto.
Qed.

Lemma utf8_valid_app s t : utf8_valid s = true → utf8_valid t = true → utf8_valid (s +:+ t) = true.
Proof.
  intros Hs Ht. unfold utf8_valid in *. rewrite runes_app by done.
  rewrite forallb_app. by rewrite Hs, Ht.
Qed.

Lemma utf8_valid_ascii s : sforall is_ascii s = true → utf8_valid s = true.
Proof.
  intros H. unfold utf8_valid. rewrite runes_ascii by done.
  induction s as [|c s IH]; [done|]. cbn in *. bools. rewrite IH by done.
  rewrite andb_true_r. apply negb_true_iff, N.leb_gt. by apply N.ltb_lt.
Qed.

(** ** Lemmas: decimal integers *)

Lemma digit_char_val d : d < 10 → digit_val (digit_char d) = d ∧ is_digit (digit_char d) = true.
Proof.
  intros Hd. unfold digit_val, digit_char, is_digit, in_range, byte_of.
  rewrite N_ascii_embedding by lia. split; [lia|].
  apply andb_true_iff. rewrite !N.leb_le. lia.
Qed.

Lemma digits_go_val fuel n acc :
  n < 2 ^ N.of_nat fuel → digits_val 0 (digits_go fuel n acc) = digits_val n acc.
Proof.
  revert n acc. induction fuel as [|fuel IH]; intros n acc Hn.
  - change (N.of_nat 0) with 0 in Hn. rewrite N.pow_0_r in Hn.
    replace n with 0 by lia. done.
  - cbn [digits_go]. rewrite Nat2N.inj_succ, N.pow_succ_r' in Hn.
    pose proof (N.mod_lt n 10 ltac:(lia)) as Hm.
    destruct (n <? 10) eqn:E.
    + apply N.ltb_lt in E. rewrite N.mod_small by done. cbn [digits_val].
      destruct (digit_char_val n E) as [-> _]. done.
    + apply N.ltb_ge in E. rewrite IH.
      * cbn [digits_val]. destruct (digit_char_val _ Hm) as [-> _].
        f_equal. pose proof (N.div_mod n 10 ltac:(lia)). lia.
      * pose proof (N.Div0.div_lt_upper_bound n 10 (2 ^ N.of_nat fuel)). lia.
Qed.

Lemma digits_go_digits fuel n acc :
  sforall is_digit acc = true → sforall is_digit (digits_go fuel n acc) = true.
Proof.
  revert n acc. induction fuel as [|fuel IH]; intros n acc Ha; [done|].
  cbn [digits_go]. pose proof (N.mod_lt n 10 ltac:(lia)) as Hm.
  destruct (digit_char_val _ Hm) as [_ Hd].
  destruct (n <? 10); [|apply IH]; cbn [sforall]; by rewrite Hd.
Qed.

Lemma digits_go_nonempty fuel n acc :
  fuel ≠ 0%nat ∨ acc ≠ EmptyString → digits_go fuel n acc ≠ EmptyString.
Proof.
  revert n acc. induction fuel as [|fuel IH]; intros n acc H; [naive_solver|].
  cbn [digits_go]. destruct (n <? 10); [done|]. apply IH. by right.
Qed.

Lemma N_to_dec_val n : digits_val 0 (N_to_dec n) = n.
Proof.
  unfold N_to_dec. rewrite digits_go_val; [done|].
  rewrite Nat2N.inj_succ, N2Nat.id, N.pow_succ_r'.
  pose proof (N.size_gt n). lia.
Qed.

Lemma N_to_dec_digits n : all_digits (N_to_dec n) = true.
Proof.
  unfold all_digits, N_to_dec. rewrite digits_go_digits by done.
  destruct (sempty _) eqn:E; [|done]. apply sempty_true in E.
  exfalso. revert E. apply digits_go_nonempty. by left.
Qed.

Lemma is_digit_inv c : is_digit c = true → 48 <= byte_of c <= 57.
Proof. unfold is_digit, in_range. intros H. bools. rewrite N.leb_le in *. lia. Qed.

Lemma split_sign_digits s : all_digits s = true → split_sign s = (false, s).
Proof.
  unfold all_digits. destruct s as [|c s]; [done|]. cbn. intros H. bools.
  apply is_digit_inv in H. unfold split_sign.
  destruct c as [[] [] [] [] [] [] [] []]; cbn in H; try done; lia.
Qed.

Lemma SetString10_Z_to_dec z : SetString10 (Z_to_dec z) = Some z.
Proof.
  unfold SetString10, Z_to_dec. destruct z as [|p|p].
  - rewrite split_sign_digits by apply N_to_dec_digits. rewrite N_to_dec_digits.
    by rewrite N_to_dec_val.
  - rewrite split_sign_digits by apply N_to_dec_digits. rewrite N_to_dec_digits.
    by rewrite N_to_dec_val.
  - cbn [split_sign]. rewrite N_to_dec_digits, N_to_dec_val. done.
Qed.

Lemma Atoi_Z_to_dec z : in_int64 z → Atoi (Z_to_dec z) = (z, true).
Proof.
  intros Hz. unfold Atoi. rewrite SetString10_Z_to_dec.
  by rewrite bool_decide_eq_true_2.
Qed.

(** The bytes a printed integer is made of. *)
Definition is_dec_byte (c : ascii) : bool := is_digit c || bool_decide (c = "-"%char).

Lemma Z_to_dec_bytes z : sforall is_dec_byte (Z_to_dec z) = true.
Proof.
  assert (H : ∀ n, sforall is_dec_byte (N_to_dec n) = true).
  { intros n. pose proof (N_to_dec_digits n) as H. unfold all_digits in H. bools.
    eapply sforall_impl; [|done]. intros c Hc. unfold is_dec_byte. by rewrite Hc. }
  unfold Z_to_dec. destruct z; [apply H..|]. cbn. apply H.
Qed.

Lemma Z_to_dec_nonempty z : Z_to_dec z ≠ EmptyString.
Proof.
  assert (H : ∀ n, N_to_dec n ≠ EmptyString).
  { intros n E. pose proof (N_to_dec_digits n) as H. by rewrite E in H. }
  unfold Z_to_dec. destruct z; [apply H..|done].
Qed.

Lemma Z_to_dec_inj a b : Z_to_dec a = Z_to_dec b → a = b.
Proof.
  intros E. pose proof (SetString10_Z_to_dec a) as H.
  rewrite E, SetString10_Z_to_dec in H. congruence.
Qed.

(** ** Lemmas: trimming and splitting leave plain text alone *)

Definition is_plain (c : ascii) : bool := in_range 33 126 c.

Lemma is_plain_ascii c : is_plain c = true → is_ascii c = true.
Proof.
  unfold is_plain, in_range, is_ascii. intros H. bools.
  rewrite N.leb_le, N.ltb_lt in *. lia.
Qed.

Lemma is_plain_not_space c : is_plain c = true → rune_is_space (sone c) = false.
Proof.
  unfold is_plain, in_range, rune_is_space, sone. intros H. bools. rewrite N.leb_le in *.
  apply orb_false_iff. rewrite N.eqb_neq. split; [|lia].
  unfold in_range. apply andb_false_iff. rewrite !N.leb_gt. lia.
Qed.

Lemma is_dec_byte_plain c : is_dec_byte c = true → is_plain c = true.
Proof.
  unfold is_dec_byte, is_plain, in_range. intros H. apply orb_true_iff in H as [H|H].
  - apply is_digit_inv in H. apply andb_true_iff. rewrite !N.leb_le. lia.
  - apply bool_decide_eq_true in H as ->. done.
Qed.

Lemma drop_while_head {A} (P : A → bool) l :
  (∀ x, head l = Some x → P x = false) → drop_while P l = l.
Proof. destruct l as [|x l]; [done|]. intros H. cbn. by rewrite H. Qed.

(** Text whose first and last rune are not white space is unchanged. *)
Lemma TrimSpace_id s :
  (∀ r, head (runes s) = Some r → rune_is_space r = false) →
  (∀ r, last (runes s) = Some r → rune_is_space r = false) →
  TrimSpace s = s.
Proof.
  intros Hh Hl. unfold TrimSpace. rewrite (drop_while_head _ (runes s)) by done.
  rewrite drop_while_head.
  - by rewrite rev_involutive, sconcat_runes.
  - intros r. rewrite rev_alt. change (rev_append (runes s) []) with (reverse (runes s)).
    rewrite head_reverse. apply Hl.
Qed.

Lemma TrimSpace_plain s : sforall is_plain s = true → TrimSpace s = s.
Proof.
  intros Hs. assert (Ha : sforall is_ascii s = true).
  { eapply sforall_impl; [|done]. apply is_plain_ascii. }
  assert (Hr : Forall (λ r, rune_is_space r = false) (runes s)).
  { rewrite runes_ascii by done. clear Ha. induction s as [|c s IH]; [constructor|].
    cbn in *. bools. constructor; [by apply is_plain_not_space|auto]. }
  apply TrimSpace_id; intros r E.
  - destruct (runes s) as [|x l]; [done|]. simplify_eq/=. by inversion Hr.
  - apply last_Some_elem_of in E. rewrite Forall_forall in Hr. auto.
Qed.

Lemma SplitN2_absent c s :
  sforall (λ d, negb (bool_decide (d = c))) s = true → SplitN2 (sone c) s = (s, None).
Proof.
  induction s as [|d s IH]; cbn; [done|]. intros H. bools.
  destruct (Ascii.ascii_dec c d) as [->|_]; [done|]. by rewrite IH.
Qed.

Lemma TrimSpace_Z_to_dec z : TrimSpace (Z_to_dec z) = Z_to_dec z.
Proof.
  apply TrimSpace_plain. eapply sforall_impl; [|apply Z_to_dec_bytes].
  apply is_dec_byte_plain.
Qed.

Lemma SplitN2_Z_to_dec z : SplitN2 "." (Z_to_dec z) = (Z_to_dec z, None).
Proof.
  apply (SplitN2_absent "."%char). eapply sforall_impl; [|apply Z_to_dec_bytes].
  intros c Hc. apply negb_true_iff, bool_decide_eq_false. intros ->. done.
Qed.

Lemma Z_to_dec_ascii z : sforall is_ascii (Z_to_dec z) = true.
Proof.
  eapply sforall_impl; [|apply Z_to_dec_bytes].
  intros c Hc. by apply is_plain_ascii, is_dec_byte_plain.
Qed.

Lemma Z_to_dec_valid z : utf8_valid (Z_to_dec z) = true.
Proof. apply utf8_valid_ascii, Z_to_dec_ascii. Qed.

(** ** Lemmas: trimmed text is part of the text *)

Lemma forallb_drop_while {A} (P Q : A → bool) l :
  forallb P l = true → forallb P (drop_while Q l) = true.
Proof.
  induction l as [|x l IH]; [done|]. cbn. intros H. bools.
  destruct (Q x); [auto|]. cbn. by rewrite H, H0.
Qed.

Lemma forallb_rev {A} (P : A → bool) l : forallb P (rev l) = forallb P l.
Proof.
  induction l as [|x l IH]; [done|]. cbn. rewrite forallb_app, IH. cbn.
  by rewrite andb_true_r, andb_comm.
Qed.

Lemma TrimSpace_empty : TrimSpace EmptyString = EmptyString.
Proof. done. Qed.

#[export] Hint Resolve Z_to_dec_valid utf8_valid_app utf8_valid_ascii : go_strings.
#[export] Hint Rewrite TrimSpace_Z_to_dec SplitN2_Z_to_dec SetString10_Z_to_dec : go_strings.
