(* ===== verification/GoFloat.v ===== *)
(** * Go's float64: IEEE 754 binary64 arithmetic, parsing and printing

    A finite value is [(-1)^neg * m * 2^e] with [m] odd, or zero; every operation
    computes the exact rational result and rounds it once, to nearest even, with
    the exponent range of binary64.  [ParseFloat] is [strconv.ParseFloat(_, 64)],
    [FormatFixed p] is [strconv.FormatFloat(_, 'f', p, 64)], [FormatShortest] the
    digits of [FormatFloat(_, _, -1, 64)]. *)
From S2P Require Import Prelude GoStrings.

Local Open Scope Z_scope.

Inductive f64 : Type :=
| Fin (neg : bool) (m : N) (e : Z)
| Inf (neg : bool)
| NaN.

#[export] Instance f64_eq_dec : EqDecision f64.
Proof. solve_decision. Defined.

Definition fzero : f64 := Fin false 0 0.

(** ** Rounding *)

Fixpoint strip_twos (p : positive) (e : Z) : N * Z :=
  match p with
  | xO q => strip_twos q (e + 1)
  | _ => (Npos p, e)
  end.

Definition mk_fin (neg : bool) (m e : Z) : f64 :=
  match m with
  | Zpos p => let '(n, e') := strip_twos p e in Fin neg n e'
  | _ => Fin neg 0 0
  end.

(** Nearest integer to [n / d], ties to even, for [0 <= n] and [0 < d]. *)
Definition round_half_even (n d : Z) : Z :=
  let q := n / d in
  let r := n mod d in
  match Z.compare (2 * r) d with
  | Lt => q
  | Gt => q + 1
  | Eq => if Z.even q then q else q + 1
  end.

Definition scale (n d e : Z) : Z * Z :=
  if e <=? 0 then (n * 2 ^ (- e), d) else (n, d * 2 ^ e).

(** The double nearest to [(-1)^neg * n / d], for [0 <= n] and [0 < d]. *)
Definition round_ratio (neg : bool) (n d : Z) : f64 :=
  if n =? 0 then Fin neg 0 0 else
  let e1 := Z.log2 n - Z.log2 d - 53 in
  let '(n1, d1) := scale n d e1 in
  let e2 := if n1 / d1 <? 2 ^ 53 then e1 else e1 + 1 in
  let e := Z.max e2 (-1074) in
  let '(n2, d2) := scale n d e in
  let m := round_half_even n2 d2 in
  if (971 <? e) || ((e =? 971) && (2 ^ 53 <=? m)) then Inf neg else mk_fin neg m e.

Definition ratio (m e : Z) : Z * Z := if 0 <=? e then (m * 2 ^ e, 1) else (m, 2 ^ (- e)).

Definition round_Z (neg : bool) (m e : Z) : f64 := let '(n, d) := ratio m e in round_ratio neg n d.

(** Conversion of an integer, as in [float64(i)]. *)
Definition f64_of_Z (z : Z) : f64 := round_Z (z <? 0) (Z.abs z) 0.

(** ** Arithmetic and comparison *)

Definition signed (neg : bool) (m : N) : Z := if neg then - Z.of_N m else Z.of_N m.

Definition fneg (x : f64) : f64 :=
  match x with Fin s m e => Fin (negb s) m e | Inf s => Inf (negb s) | NaN => NaN end.

Definition fadd (x y : f64) : f64 :=
  match x, y with
  | NaN, _ | _, NaN => NaN
  | Inf a, Inf b => if Bool.eqb a b then Inf a else NaN
  | Inf a, _ | _, Inf a => Inf a
  | Fin a m e, Fin b n f =>
      let g := Z.min e f in
      let s := signed a m * 2 ^ (e - g) + signed b n * 2 ^ (f - g) in
      if s =? 0 then Fin (a && b) 0 0 else round_Z (s <? 0) (Z.abs s) g
  end.

Definition fsub (x y : f64) : f64 := fadd x (fneg y).

Definition fmul (x y : f64) : f64 :=
  match x, y with
  | NaN, _ | _, NaN => NaN
  | Inf a, Inf b => Inf (xorb a b)
  | Inf a, Fin b n _ | Fin b n _, Inf a => if (n =? 0)%N then NaN else Inf (xorb a b)
  | Fin a m e, Fin b n f => round_Z (xorb a b) (Z.of_N m * Z.of_N n) (e + f)
  end.

Definition fdiv (x y : f64) : f64 :=
  match x, y with
  | NaN, _ | _, NaN => NaN
  | Inf a, Inf b => NaN
  | Inf a, Fin b _ _ => Inf (xorb a b)
  | Fin a _ _, Inf b => Fin (xorb a b) 0 0
  | Fin a m e, Fin b n f =>
      if (n =? 0)%N then (if (m =? 0)%N then NaN else Inf (xorb a b))
      else let '(p, q) := ratio (Z.of_N m) (e - f) in round_ratio (xorb a b) p (q * Z.of_N n)
  end.

(** [None] when the operands are unordered. *)
Definition fcompare (x y : f64) : option comparison :=
  match x, y with
  | NaN, _ | _, NaN => None
  | Inf a, Inf b => Some (if Bool.eqb a b then Eq else if a then Lt else Gt)
  | Inf a, Fin _ _ _ => Some (if a then Lt else Gt)
  | Fin _ _ _, Inf b => Some (if b then Gt else Lt)
  | Fin a m e, Fin b n f =>
      let g := Z.min e f in
      Some (Z.compare (signed a m * 2 ^ (e - g)) (signed b n * 2 ^ (f - g)))
  end.

Definition flt (x y : f64) : bool := match fcompare x y with Some Lt => true | _ => false end.
Definition fle (x y : f64) : bool := match fcompare x y with Some (Lt | Eq) => true | _ => false end.
Definition fgt (x y : f64) : bool := flt y x.
Definition fge (x y : f64) : bool := fle y x.
Definition feq (x y : f64) : bool := match fcompare x y with Some Eq => true | _ => false end.

Definition is_finite (x : f64) : bool := match x with Fin _ _ _ => true | _ => false end.

(** Conversion to [int64], truncating; what the hardware gives out of range is the
    smallest integer. *)
Definition f64_to_int64 (x : f64) : Z :=
  match x with
  | Fin s m e =>
      let '(n, d) := ratio (Z.of_N m) e in
      let t := if s then - (n / d) else n / d in
      if bool_decide (in_int64 t) then t else - two63
  | _ => - two63
  end.

(** ** [strconv.ParseFloat] *)

Record mantissa := { mt_val : Z; mt_frac : Z; mt_digits : bool; mt_rest : string }.

Definition hex_val (c : ascii) : option Z :=
  let b := Z.of_N (byte_of c) in
  if (48 <=? b) && (b <=? 57) then Some (b - 48)
  else if (97 <=? b) && (b <=? 102) then Some (b - 87)
  else if (65 <=? b) && (b <=? 70) then Some (b - 55)
  else None.

Definition digit_in (base : Z) (c : ascii) : option Z :=
  match hex_val c with Some d => if d <? base then Some d else None | None => None end.

(** Digits with at most one point; underscores are skipped, [underscoreOK] checks them. *)
Fixpoint scan_mantissa (base : Z) (s : string) (v frac : Z) (dot digits : bool) : mantissa :=
  let stop := {| mt_val := v; mt_frac := frac; mt_digits := digits; mt_rest := s |} in
  match s with
  | EmptyString => stop
  | String c t =>
      if bool_decide (c = "_"%char) then scan_mantissa base t v frac dot digits
      else if bool_decide (c = "."%char) then
        if dot then stop else scan_mantissa base t v frac true digits
      else match digit_in base c with
           | Some d => scan_mantissa base t (v * base + d) (if dot then frac + 1 else frac) dot true
           | None => stop
           end
  end.

(** Exponent digits, capped as the scanner of [strconv] caps them. *)
Fixpoint scan_exponent (s : string) (e : Z) : Z * string :=
  match s with
  | EmptyString => (e, s)
  | String c t =>
      if bool_decide (c = "_"%char) then scan_exponent t e
      else match digit_in 10 c with
           | Some d => scan_exponent t (if e <? 10000 then e * 10 + d else e)
           | None => (e, s)
           end
  end.

Definition starts_with_digit (s : string) : bool :=
  match s with String c _ => is_digit c | EmptyString => false end.

(** The exponent part behind the mantissa: [None] is a syntax error. *)
Definition parse_exponent (lo up : ascii) (s : string) : option (option Z * string) :=
  match s with
  | String c t =>
      if bool_decide (c = lo) || bool_decide (c = up) then
        let '(neg, u) := split_sign t in
        if starts_with_digit u then
          let '(e, r) := scan_exponent u 0 in Some (Some (if neg then - e else e), r)
        else None
      else Some (None, s)
  | EmptyString => Some (None, s)
  end.

Inductive seen := SawBegin | SawDigit | SawUnderscore | SawOther.

Fixpoint underscores_ok (hex : bool) (s : string) (saw : seen) : bool :=
  match s with
  | EmptyString => match saw with SawUnderscore => false | _ => true end
  | String c t =>
      match digit_in (if hex then 16 else 10) c with
      | Some _ => underscores_ok hex t SawDigit
      | None =>
          if bool_decide (c = "_"%char) then
            match saw with SawDigit => underscores_ok hex t SawUnderscore | _ => false end
          else match saw with
               | SawUnderscore => false
               | _ => underscores_ok hex t SawOther
               end
      end
  end.

Definition pow_ratio (v base e : Z) : Z * Z :=
  if 0 <=? e then (v * base ^ e, 1) else (v, base ^ (- e)).

Definition finish_float (neg : bool) (v base e : Z) : f64 * bool :=
  let '(n, d) := pow_ratio v base e in
  match round_ratio neg n d with
  | Inf s => (Inf s, false)
  | x => (x, true)
  end.

(** [special]: inf, infinity and nan in any case; nan takes no sign. *)
Definition special_float (s : string) : option f64 :=
  let '(neg, t) := split_sign s in
  if bool_decide (EqualFold t "inf" = true) || bool_decide (EqualFold t "infinity" = true)
  then Some (Inf neg)
  else if EqualFold s "nan" then Some NaN else None.

Definition hex_prefix (s : string) : option string :=
  match s with
  | String "0" (String "x" t) => Some t
  | String "0" (String "X" t) => Some t
  | _ => None
  end.

(** The value and whether the error is nil: a syntax error gives zero, an overflow an
    infinity. *)
Definition ParseFloat (s : string) : f64 * bool :=
  match special_float s with
  | Some x => (x, true)
  | None =>
      let '(neg, t) := split_sign s in
      let '(base, body, saw) :=
        match hex_prefix t with
        | Some u => (16, u, SawDigit)
        | None => (10, t, SawBegin)
        end in
      let hex := base =? 16 in
      let mt := scan_mantissa base body 0 0 false false in
      if negb (mt_digits mt) then (fzero, false) else
      match parse_exponent (if hex then "p"%char else "e"%char) (if hex then "P"%char else "E"%char) (mt_rest mt) with
      | None => (fzero, false)
      | Some (eo, r) =>
          if negb (sempty r) || negb (underscores_ok hex body saw) then (fzero, false)
          else if hex then
            match eo with
            | Some e => finish_float neg (mt_val mt) 2 (e - 4 * mt_frac mt)
            | None => (fzero, false)
            end
          else finish_float neg (mt_val mt) 10 (default 0 eo - mt_frac mt)
      end
  end.

(** ** [strconv.FormatFloat] *)

Definition pad_left (n : nat) (s : string) : string :=
  sconcat (repeat "0"%stdpp (n - String.length s)) +:+ s.

Definition sign_str (neg : bool) : string := if neg then "-"%stdpp else EmptyString.

(** The decimal [n / 10^p] with [p] digits behind the point. *)
Definition fixed_digits (p : nat) (n : Z) : string :=
  let q := n / 10 ^ Z.of_nat p in
  let r := n mod 10 ^ Z.of_nat p in
  match p with
  | O => Z_to_dec q
  | _ => Z_to_dec q +:+ "." +:+ pad_left p (Z_to_dec r)
  end.

(** ['f'] with [p] decimals: the exact value rounded half to even. *)
Definition FormatFixed (p : nat) (x : f64) : string :=
  match x with
  | NaN => "NaN"
  | Inf s => if s then "-Inf" else "+Inf"
  | Fin s m e =>
      let '(n, d) := ratio (Z.of_N m) e in
      sign_str s +:+ fixed_digits p (round_half_even (n * 10 ^ Z.of_nat p) d)
  end.

(** [floor (log10 (n / d))] for positive [n] and [d]. *)
Definition log10_ratio (n d : Z) : Z :=
  let k := (Z.log2 n - Z.log2 d - 1) * 30103 / 100000 in
  let ge j := if 0 <=? j then d * 10 ^ j <=? n else d <=? n * 10 ^ (- j) in
  if ge (k + 2) then k + 2 else if ge (k + 1) then k + 1 else if ge k then k else k - 1.

(** [j] digits of [n / d]: the coefficient and the exponent of its first digit. *)
Definition round_digits (n d : Z) (j : nat) : Z * Z :=
  let k := log10_ratio n d in
  let s := k - Z.of_nat j + 1 in
  let c := if 0 <=? s then round_half_even n (d * 10 ^ s) else round_half_even (n * 10 ^ (- s)) d in
  if c =? 10 ^ Z.of_nat j then (10 ^ (Z.of_nat j - 1), k + 1) else (c, k).

Fixpoint shortest_go (x : f64) (n d : Z) (j : nat) (fuel : nat) : Z * Z * nat :=
  let '(c, k) := round_digits n d j in
  match fuel with
  | O => (c, k, j)
  | S fuel =>
      let '(p, q) := pow_ratio c 10 (k - Z.of_nat j + 1) in
      if bool_decide (round_ratio false p q = x) then (c, k, j) else shortest_go x n d (S j) fuel
  end.

(** The fewest digits that read back as [x] (finite, positive), with the exponent of
    the first one. *)
Definition shortest (m : N) (e : Z) : string * Z :=
  let '(n, d) := ratio (Z.of_N m) e in
  let '(c, k, _) := shortest_go (Fin false m e) n d 1 16 in
  (Z_to_dec (Z.max 1 c), k).

Definition zeros (n : Z) : string := sconcat (repeat "0"%stdpp (Z.to_nat n)).

(** ['f'] layout of the digits [ds] whose first one has exponent [k]. *)
Definition layout_f (ds : string) (k : Z) : string :=
  let len := Z.of_nat (String.length ds) in
  if k <? 0 then "0." +:+ zeros (- k - 1) +:+ ds
  else if len <=? k + 1 then ds +:+ zeros (k + 1 - len)
  else stake (Z.to_nat (k + 1)) ds +:+ "." +:+ sdrop (Z.to_nat (k + 1)) ds.

(** ['e'] layout; the exponent has at least [w] digits. *)
Definition layout_e (w : nat) (ds : string) (k : Z) : string :=
  stake 1 ds +:+ (if (String.length ds <=? 1)%nat then EmptyString else "." +:+ sdrop 1 ds)
  +:+ "e" +:+ (if k <? 0 then "-" else "+")%stdpp +:+ pad_left w (Z_to_dec (Z.abs k)).

(** [fmt.Sprint] of a float64, that is [%v]. *)
Definition Sprint_f64 (x : f64) : string :=
  match x with
  | NaN => "NaN"
  | Inf s => if s then "-Inf" else "+Inf"
  | Fin s 0%N _ => sign_str s +:+ "0"
  | Fin s m e =>
      let '(ds, k) := shortest m e in
      sign_str s +:+ (if (k <? -4) || (6 <=? k) then layout_e 2 ds k else layout_f ds k)
  end.
