(* ===== verification/GoJson.v ===== *)
(** * Go's encoding/json, as the program uses it

    A [json.RawMessage] is its text.  [parse_json] is the decoder's grammar; every
    member of an object and every element of an array keeps the slice of the text
    it was read from, which is what [json.RawMessage] fields and
    [map[string]json.RawMessage] values receive.  [goany] is the dynamic value of an
    [any] (with [int] values the program stores itself), [marshal] the text of
    [json.Marshal], [to_any] the decoding into [any].  The decoder's limit of 10000
    nested values is not modelled. *)
From S2P Require Import Prelude GoStrings GoFloat.

Local Open Scope N_scope.

(** ** Parsed text *)

Inductive json : Type :=
| JNull
| JBool (b : bool)
| JNum (lit : string)
| JStr (raw s : string)
| JArr (l : list (string * json))
| JObj (l : list (string * (string * json))).

Definition is_ws (c : ascii) : bool :=
  let b := byte_of c in (b =? 32) || (b =? 9) || (b =? 10) || (b =? 13).

Fixpoint skip_ws (s : string) : string :=
  match s with String c t => if is_ws c then skip_ws t else s | EmptyString => s end.

(** *** Strings *)

Definition hex_digit (c : ascii) : option N := Z.to_N <$> hex_val c.

Definition hex4 (a b c d : ascii) : option N :=
  match hex_digit a, hex_digit b, hex_digit c, hex_digit d with
  | Some a, Some b, Some c, Some d => Some (((a * 16 + b) * 16 + c) * 16 + d)
  | _, _, _, _ => None
  end.

Definition simple_escape (c : ascii) : option ascii :=
  let b := byte_of c in
  if (b =? 34) || (b =? 92) || (b =? 47) then Some c
  else if b =? 98 then Some "008"%char
  else if b =? 102 then Some "012"%char
  else if b =? 110 then Some "010"%char
  else if b =? 114 then Some "013"%char
  else if b =? 116 then Some "009"%char
  else None.

(** The body of a string behind its opening quote, and what follows the closing one. *)
Fixpoint scan_string (s : string) : option (string * string) :=
  match s with
  | EmptyString => None
  | String c t =>
      if bool_decide (c = quote_char) then Some (EmptyString, t)
      else if bool_decide (c = backslash_char) then
        match t with
        | String e t1 =>
            if bool_decide (e = "u"%char) then
              match t1 with
              | String h1 (String h2 (String h3 (String h4 t2))) =>
                  match hex4 h1 h2 h3 h4, scan_string t2 with
                  | Some _, Some (b, r) =>
                      Some (String c (String e (String h1 (String h2 (String h3 (String h4 b))))), r)
                  | _, _ => None
                  end
              | _ => None
              end
            else match simple_escape e, scan_string t1 with
                 | Some _, Some (b, r) => Some (String c (String e b), r)
                 | _, _ => None
                 end
        | EmptyString => None
        end
      else if byte_of c <? 32 then None
      else match scan_string t with
           | Some (b, r) => Some (String c b, r)
           | None => None
           end
  end.

(** UTF-8 encoding of a code point. *)
Definition rune_bytes (cp : N) : string :=
  let b n := ascii_of_N n in
  if cp <? 128 then sone (b cp)
  else if cp <? 2048 then String (b (192 + cp / 64)) (sone (b (128 + cp mod 64)))
  else if (55296 <=? cp) && (cp <=? 57343) then rune_error
  else if cp <? 65536 then
    String (b (224 + cp / 4096)) (String (b (128 + cp / 64 mod 64)) (sone (b (128 + cp mod 64))))
  else if cp <? 1114112 then
    String (b (240 + cp / 262144)) (String (b (128 + cp / 4096 mod 64))
      (String (b (128 + cp / 64 mod 64)) (sone (b (128 + cp mod 64)))))
  else rune_error.

Definition is_surrogate (cp : N) : bool := (55296 <=? cp) && (cp <=? 57343).

(** [utf16.DecodeRune] of a surrogate pair. *)
Definition surrogate_pair (a b : N) : option N :=
  if (55296 <=? a) && (a <? 56320) && (56320 <=? b) && (b <=? 57343)
  then Some ((a - 55296) * 1024 + (b - 56320) + 65536) else None.

(** The string a body stands for: escapes resolved, invalid UTF-8 replaced by U+FFFD.
    [k] is the number of bytes of the current rune still to be copied. *)
Fixpoint unquote_go (s : string) (k : nat) : string :=
  match s with
  | EmptyString => EmptyString
  | String c t =>
      match k with
      | S k => String c (unquote_go t k)
      | O =>
          if bool_decide (c = backslash_char) then
            match t with
            | String e t1 =>
                if bool_decide (e = "u"%char) then
                  match t1 with
                  | String h1 (String h2 (String h3 (String h4 t2))) =>
                      match hex4 h1 h2 h3 h4 with
                      | None => EmptyString
                      | Some cp =>
                          if is_surrogate cp then
                            match t2 with
                            | String b (String u (String g1 (String g2 (String g3 (String g4 t3))))) =>
                                match (if bool_decide (b = backslash_char) && bool_decide (u = "u"%char)
                                       then hex4 g1 g2 g3 g4 ≫= surrogate_pair cp else None) with
                                | Some full => rune_bytes full +:+ unquote_go t3 0
                                | None => rune_error +:+ unquote_go t2 0
                                end
                            | _ => rune_error +:+ unquote_go t2 0
                            end
                          else rune_bytes cp +:+ unquote_go t2 0
                      end
                  | _ => EmptyString
                  end
                else match simple_escape e with
                     | Some x => String x (unquote_go t1 0)
                     | None => EmptyString
                     end
            | EmptyString => EmptyString
            end
          else match rune_len s with
               | O => rune_error +:+ unquote_go t 0
               | S n => String c (unquote_go t n)
               end
      end
  end.

Definition unquote (raw : string) : string := unquote_go raw 0.

(** *** Numbers *)

Fixpoint take_digits (s : string) : string * string :=
  match s with
  | String c t => if is_digit c then let '(a, r) := take_digits t in (String c a, r) else (EmptyString, s)
  | EmptyString => (EmptyString, s)
  end.

Definition scan_int (s : string) : option (string * string) :=
  match s with
  | String "0" t => Some ("0"%stdpp, t)
  | _ => let '(a, r) := take_digits s in if sempty a then None else Some (a, r)
  end.

Definition scan_frac (s : string) : option (string * string) :=
  match s with
  | String "." t => let '(a, r) := take_digits t in if sempty a then None else Some (String "." a, r)
  | _ => Some (EmptyString, s)
  end.

Definition scan_exp (s : string) : option (string * string) :=
  match s with
  | String c t =>
      if bool_decide (c = "e"%char) || bool_decide (c = "E"%char) then
        let '(sg, u) := match t with
                        | String "+" u => ("+"%stdpp, u)
                        | String "-" u => ("-"%stdpp, u)
                        | _ => (EmptyString, t)
                        end in
        let '(a, r) := take_digits u in
        if sempty a then None else Some (String c (sg +:+ a), r)
      else Some (EmptyString, s)
  | EmptyString => Some (EmptyString, s)
  end.

(** A number literal at the head of [s]. *)
Definition scan_number (s : string) : option (string * string) :=
  let '(sg, t) := match s with String "-" t => ("-"%stdpp, t) | _ => (EmptyString, s) end in
  match scan_int t with
  | None => None
  | Some (i, r1) =>
      match scan_frac r1 with
      | None => None
      | Some (f, r2) =>
          match scan_exp r2 with
          | None => None
          | Some (e, r3) => Some (sg +:+ i +:+ f +:+ e, r3)
          end
      end
  end.

(** *** Values *)

Fixpoint strip_prefix (p s : string) : option string :=
  match p, s with
  | EmptyString, _ => Some s
  | String a p, String b t => if bool_decide (a = b) then strip_prefix p t else None
  | _, _ => None
  end.

(** The text in front of its remainder [r]. *)
Definition slice (s r : string) : string := stake (String.length s - String.length r) s.

Fixpoint parse_value (fuel : nat) (s : string) : option (json * string) :=
  match fuel with
  | O => None
  | S fuel =>
      match s with
      | EmptyString => None
      | String c t =>
          if bool_decide (c = "{"%char) then
            match skip_ws t with
            | String "}" r => Some (JObj [], r)
            | t' => match parse_members fuel t' with
                    | Some (l, r) => Some (JObj l, r)
                    | None => None
                    end
            end
          else if bool_decide (c = "["%char) then
            match skip_ws t with
            | String "]" r => Some (JArr [], r)
            | t' => match parse_elems fuel t' with
                    | Some (l, r) => Some (JArr l, r)
                    | None => None
                    end
            end
          else if bool_decide (c = quote_char) then
            match scan_string t with
            | Some (raw, r) => Some (JStr raw (unquote raw), r)
            | None => None
            end
          else if bool_decide (c = "n"%char) then
            match strip_prefix "null" s with Some r => Some (JNull, r) | None => None end
          else if bool_decide (c = "t"%char) then
            match strip_prefix "true" s with Some r => Some (JBool true, r) | None => None end
          else if bool_decide (c = "f"%char) then
            match strip_prefix "false" s with Some r => Some (JBool false, r) | None => None end
          else match scan_number s with
               | Some (lit, r) => Some (JNum lit, r)
               | None => None
               end
      end
  end
with parse_members (fuel : nat) (s : string) : option (list (string * (string * json)) * string) :=
  match fuel with
  | O => None
  | S fuel =>
      match s with
      | String q t =>
          if bool_decide (q = quote_char) then
            match scan_string t with
            | None => None
            | Some (rawkey, r1) =>
                match skip_ws r1 with
                | String ":" r2 =>
                    let v := skip_ws r2 in
                    match parse_value fuel v with
                    | None => None
                    | Some (j, r3) =>
                        let m := (unquote rawkey, (slice v r3, j)) in
                        match skip_ws r3 with
                        | String "," r4 =>
                            match parse_members fuel (skip_ws r4) with
                            | Some (l, r5) => Some (m :: l, r5)
                            | None => None
                            end
                        | String "}" r4 => Some ([m], r4)
                        | _ => None
                        end
                    end
                | _ => None
                end
            end
          else None
      | EmptyString => None
      end
  end
with parse_elems (fuel : nat) (s : string) : option (list (string * json) * string) :=
  match fuel with
  | O => None
  | S fuel =>
      match parse_value fuel s with
      | None => None
      | Some (j, r1) =>
          let m := (slice s r1, j) in
          match skip_ws r1 with
          | String "," r2 =>
              match parse_elems fuel (skip_ws r2) with
              | Some (l, r3) => Some (m :: l, r3)
              | None => None
              end
          | String "]" r2 => Some ([m], r2)
          | _ => None
          end
      end
  end.

(** Two steps for every byte suffice: a step either consumes a byte or moves from a list
    to its first element. *)
Definition json_fuel (s : string) : nat := S (S (2 * String.length s))%nat.

Definition parse_json (s : string) : option json :=
  match parse_value (json_fuel s) (skip_ws s) with
  | Some (j, r) => if sempty (skip_ws r) then Some j else None
  | None => None
  end.

(** [json.Valid] *)
Definition json_Valid (s : string) : bool := match parse_json s with Some _ => true | None => false end.

(** ** Dynamic values *)

Inductive goany : Type :=
| ANil
| ABool (b : bool)
| AInt (z : Z)
| AFloat (x : f64)
| AStr (s : string)
| AArr (l : list goany)
| AMap (m : list (string * goany)).

(** [map[string]any], kept sorted by key, the order [json.Marshal] writes. *)
Abbreviation gomap := (list (string * goany)).

Fixpoint aget (k : string) (m : gomap) : goany :=
  match m with
  | [] => ANil
  | (j, v) :: r => if bool_decide (j = k) then v else aget k r
  end.

Definition ahas (k : string) (m : gomap) : bool := existsb (λ p, bool_decide (p.1 = k)) m.

Fixpoint ainsert (k : string) (v : goany) (m : gomap) : gomap :=
  match m with
  | [] => [(k, v)]
  | (j, w) :: r => if String.ltb k j then (k, v) :: m else (j, w) :: ainsert k v r
  end.

Fixpoint areplace (k : string) (v : goany) (m : gomap) : gomap :=
  match m with
  | [] => []
  | (j, w) :: r => if bool_decide (j = k) then (k, v) :: r else (j, w) :: areplace k v r
  end.

(** [m[k] = v] *)
Definition aset (k : string) (v : goany) (m : gomap) : gomap :=
  if ahas k m then areplace k v m else ainsert k v m.

(** [delete(m, k)] *)
Fixpoint adel (k : string) (m : gomap) : gomap :=
  match m with
  | [] => []
  | (j, w) :: r => if bool_decide (j = k) then adel k r else (j, w) :: adel k r
  end.

(** A map literal: the keys in any order. *)
Definition amap (l : gomap) : gomap := foldl (λ m '(k, v), aset k v m) [] l.

(** [v.(string)] *)
Definition as_string (v : goany) : option string := match v with AStr s => Some s | _ => None end.

(** *** Decoding into [any] *)

(** The value and whether a number was out of range; such a number decodes to nil. *)
Fixpoint to_any (j : json) : goany * bool :=
  match j with
  | JNull => (ANil, true)
  | JBool b => (ABool b, true)
  | JNum lit => let '(x, ok) := ParseFloat lit in if ok then (AFloat x, true) else (ANil, false)
  | JStr _ s => (AStr s, true)
  | JArr l => let l' := map (λ p, to_any p.2) l in (AArr (map fst l'), forallb snd l')
  | JObj l =>
      let l' := map (λ p, (p.1, to_any p.2.2)) l in
      (AMap (foldl (λ m p, aset p.1 p.2.1 m) [] l'), forallb (λ p, p.2.2) l')
  end.

(** [var m map[string]any; err := json.Unmarshal(raw, &m)]: the map left in [m] ([None] is
    nil) and whether the error is nil. *)
Definition unmarshal_map (raw : string) : option gomap * bool :=
  match parse_json raw with
  | None => (None, false)
  | Some JNull => (None, true)
  | Some (JObj l) =>
      match to_any (JObj l) with
      | (AMap m, ok) => (Some m, ok)
      | _ => (None, false)
      end
  | Some _ => (None, false)
  end.

(** [var m map[string]json.RawMessage]: the members in order, the last of a key counts. *)
Definition unmarshal_rawmap (raw : string) : option (option (list (string * string))) :=
  match parse_json raw with
  | Some JNull => Some None
  | Some (JObj l) => Some (Some (map (λ p, (p.1, p.2.1)) l))
  | _ => None
  end.

Fixpoint last_of {A} (k : string) (l : list (string * A)) : option A :=
  match l with
  | [] => None
  | (j, v) :: r => match last_of k r with
                   | Some w => Some w
                   | None => if bool_decide (j = k) then Some v else None
                   end
  end.

(** [var s string; json.Unmarshal(raw, &s)]; null leaves the empty string. *)
Definition unmarshal_string (raw : string) : option string :=
  match parse_json raw with
  | Some (JStr _ s) => Some s
  | Some JNull => Some EmptyString
  | _ => None
  end.

(** [var b bool; json.Unmarshal(raw, &b)] *)
Definition unmarshal_bool (raw : string) : option bool :=
  match parse_json raw with
  | Some (JBool b) => Some b
  | Some JNull => Some false
  | _ => None
  end.

(** *** Decoding into structs: the member a field receives *)

(** A key names the field it equals; failing that, the field it equals up to case. *)
Definition field_key (name key : string) : bool := bool_decide (key = name) || EqualFold key name.

(** The members a field receives, in the order of the text. *)
Definition struct_members {A} (name : string) (l : list (string * A)) : list A :=
  map snd (List.filter (λ p, field_key name p.1) l).

(** A [string] field: absent or null leaves it as it is, another kind is an error. *)
Definition dec_string (ms : list (string * json)) : option string :=
  foldl (λ acc m, match acc, m.2 with
                  | Some s, JNull => Some s
                  | Some _, JStr _ s => Some s
                  | _, _ => None
                  end) (Some EmptyString) ms.

(** An [int] or [int64] field. *)
Definition dec_int (ms : list (string * json)) : option Z :=
  foldl (λ acc m, match acc, m.2 with
                  | Some z, JNull => Some z
                  | Some _, JNum lit => match Atoi lit with (z, true) => Some z | _ => None end
                  | _, _ => None
                  end) (Some 0%Z) ms.

(** A [bool] field. *)
Definition dec_bool (ms : list (string * json)) : option bool :=
  foldl (λ acc m, match acc, m.2 with
                  | Some b, JNull => Some b
                  | Some _, JBool b => Some b
                  | _, _ => None
                  end) (Some false) ms.

(** A [[]string] field: null and absence leave nil. *)
Definition strings_step (acc : option (option (list string))) (m : string * json) : option (option (list string)) :=
  match acc, m.2 with
  | None, _ => None
  | Some _, JNull => Some None
  | Some _, JArr l =>
      match mapM (λ p : string * json, match p.2 with JStr _ s => Some s | JNull => Some EmptyString | _ => None end) l with
      | Some l => Some (Some l)
      | None => None
      end
  | Some _, _ => None
  end.
Definition dec_strings (ms : list (string * json)) : option (option (list string)) := foldl strings_step (Some None) ms.

(** A [json.RawMessage] field: the slice, null included. *)
Definition dec_raw (ms : list (string * json)) : string :=
  foldl (λ _ m, m.1) EmptyString ms.

(** ** Encoding *)

Definition hex_char (n : N) : ascii := ascii_of_N (if n <? 10 then 48 + n else 87 + n).

Definition u00 (c : ascii) : string :=
  String backslash_char ("u00" +:+ String (hex_char (byte_of c / 16)) (sone (hex_char (byte_of c mod 16)))).

Definition line_separator : string := String "226"%char (String "128"%char (sone "168"%char)).
Definition paragraph_separator : string := String "226"%char (String "128"%char (sone "169"%char)).

(** How one rune is written inside a string. *)
Definition quote_rune (r : string) : string :=
  match r with
  | String c EmptyString =>
      let b := byte_of c in
      if 128 <=? b then String backslash_char "ufffd"
      else if (b =? 34) || (b =? 92) then String backslash_char (sone c)
      else if b =? 8 then String backslash_char "b"
      else if b =? 12 then String backslash_char "f"
      else if b =? 10 then String backslash_char "n"
      else if b =? 13 then String backslash_char "r"
      else if b =? 9 then String backslash_char "t"
      else if (b <? 32) || (b =? 60) || (b =? 62) || (b =? 38) then u00 c
      else r
  | _ =>
      if bool_decide (r = line_separator) then String backslash_char "u2028"
      else if bool_decide (r = paragraph_separator) then String backslash_char "u2029"
      else r
  end.

Definition quote_body (s : string) : string := sconcat (map quote_rune (runes s)).

Definition quote (s : string) : string := String quote_char (quote_body s +:+ sone quote_char).

(** A finite float64 as [json.Marshal] writes it. *)
Definition json_f64 (x : f64) : string :=
  match x with
  | Fin s 0%N _ => sign_str s +:+ "0"
  | Fin s m e =>
      let '(ds, k) := shortest m e in
      sign_str s +:+ (if ((k <? -6) || (21 <=? k))%Z then layout_e 1 ds k else layout_f ds k)
  | _ => "null"
  end.

(** [json.Marshal] fails on infinities and NaN. *)
Fixpoint marshal_ok (a : goany) : bool :=
  match a with
  | AFloat x => is_finite x
  | AArr l => forallb marshal_ok l
  | AMap m => forallb (λ p, marshal_ok p.2) m
  | _ => true
  end.

(** The text of a value [marshal_ok] accepts. *)
Fixpoint marshal (a : goany) : string :=
  match a with
  | ANil => "null"
  | ABool b => if b then "true" else "false"
  | AInt z => Z_to_dec z
  | AFloat x => json_f64 x
  | AStr s => quote s
  | AArr l => String "[" (Join "," (map marshal l) +:+ "]")
  | AMap m => String "{" (Join "," (map (λ p, quote p.1 +:+ String ":" (marshal p.2)) m) +:+ "}")
  end.

Definition unsupported_value : string := "json: unsupported value".

Definition json_Marshal (a : goany) : res string :=
  if marshal_ok a then Ok (marshal a) else Err unsupported_value.

(** [fmt.Sprint] of a decoded scalar; maps and slices print in a form that no caller
    compares with anything. *)
Definition Sprint (a : goany) : string :=
  match a with
  | ANil => "<nil>"
  | ABool b => if b then "true" else "false"
  | AInt z => Z_to_dec z
  | AFloat x => Sprint_f64 x
  | AStr s => s
  | AArr _ => "[...]"
  | AMap _ => "map[...]"
  end.
