(* ===== verification/GoJsonFacts.v ===== *)
(** * Facts about the JSON codec

    [parse_marshal]: the decoder reads back what [json.Marshal] writes; every member's
    slice is the text of its value.  [to_any_wf]: decoding yields well-formed values
    (valid UTF-8, finite floats), so a decoded map can be changed and written again. *)
From S2P Require Import Prelude GoStrings GoFloat GoJson.

Local Open Scope N_scope.

(** ** Induction on dynamic values *)

Section goany_ind.
  Context (P : goany → Prop).
  Hypothesis Hnil : P ANil.
  Hypothesis Hbool : ∀ b, P (ABool b).
  Hypothesis Hint : ∀ z, P (AInt z).
  Hypothesis Hfloat : ∀ x, P (AFloat x).
  Hypothesis Hstr : ∀ s, P (AStr s).
  Hypothesis Harr : ∀ l, Forall P l → P (AArr l).
  Hypothesis Hmap : ∀ m, Forall (λ p, P p.2) m → P (AMap m).

Fixpoint goany_ind' (a : goany) : P a :=
    match a with
    | ANil => Hnil
    | ABool b => Hbool b
    | AInt z => Hint z
    | AFloat x => Hfloat x
    | AStr s => Hstr s
    | AArr l => Harr l ((fix go l := match l return Forall P l with
                                    | [] => Forall_nil_2 _
                                    | x :: r => Forall_cons_2 _ x r (goany_ind' x) (go r)
                                    end) l)
    | AMap m => Hmap m ((fix go m := match m return Forall (λ p, P p.2) m with
                                    | [] => Forall_nil_2 _
                                    | x :: r => Forall_cons_2 _ x r (goany_ind' x.2) (go r)
                                    end) m)
    end.
End goany_ind.

Section json_ind.
  Context (P : json → Prop).
  Hypothesis Hnull : P JNull.
  Hypothesis Hbool : ∀ b, P (JBool b).
  Hypothesis Hnum : ∀ l, P (JNum l).
  Hypothesis Hstr : ∀ r s, P (JStr r s).
  Hypothesis Harr : ∀ l, Forall (λ p, P p.2) l → P (JArr l).
  Hypothesis Hobj : ∀ l, Forall (λ p, P p.2.2) l → P (JObj l).

Fixpoint json_ind' (j : json) : P j :=
    match j with
    | JNull => Hnull
    | JBool b => Hbool b
    | JNum l => Hnum l
    | JStr r s => Hstr r s
    | JArr l => Harr l ((fix go l := match l return Forall (λ p, P p.2) l with
                                    | [] => Forall_nil_2 _
                                    | x :: r => Forall_cons_2 _ x r (json_ind' x.2) (go r)
                                    end) l)
    | JObj l => Hobj l ((fix go l := match l return Forall (λ p, P p.2.2) l with
                                    | [] => Forall_nil_2 _
                                    | x :: r => Forall_cons_2 _ x r (json_ind' x.2.2) (go r)
                                    end) l)
    end.
End json_ind.

(** What the decoder makes of the text of a value. *)
Fixpoint ann (a : goany) : json :=
  match a with
  | ANil => JNull
  | ABool b => JBool b
  | AInt z => JNum (Z_to_dec z)
  | AFloat x => JNum (json_f64 x)
  | AStr s => JStr (quote_body s) s
  | AArr l => JArr (map (λ x, (marshal x, ann x)) l)
  | AMap m => JObj (map (λ p, (p.1, (marshal p.2, ann p.2))) m)
  end.

(** Values that can be written and read back: valid UTF-8 and finite floats. *)
Fixpoint wf_any (a : goany) : bool :=
  match a with
  | AFloat x => is_finite x
  | AStr s => utf8_valid s
  | AArr l => forallb wf_any l
  | AMap m => forallb (λ p, utf8_valid p.1 && wf_any p.2) m
  | _ => true
  end.

Lemma wf_marshal_ok a : wf_any a = true → marshal_ok a = true.
Proof.
  induction a as [| | | | |l IH|m IH] using goany_ind'; cbn; try done; intros H.
  - induction IH as [|x l Hx _ IHl]; [done|]. cbn in *. bools. by rewrite Hx, IHl.
  - induction IH as [|x l Hx _ IHl]; [done|]. cbn in *. bools. by rewrite Hx, IHl.
Qed.

(** ** Strings *)

Definition is_high (c : ascii) : bool := 128 <=? byte_of c.

Lemma high_rune c s :
  (2 <= rune_len (String c s))%nat →
  sforall is_high (stake (rune_len (String c s)) (String c s)) = true.
Proof.
  assert (Hr : ∀ lo hi d, 128 <= lo → in_range lo hi d = true → is_high d = true).
  { intros lo hi d Hlo. unfold in_range, is_high. intros H. bools. rewrite N.leb_le in *. lia. }
  assert (Hs : ∀ b d, second_range b d = true → is_high d = true).
  { intros b d. unfold second_range, is_cont. repeat case_match; apply Hr; lia. }
  unfold rune_len. destruct (byte_of c <? 128) eqn:E1; [lia|]. apply N.ltb_ge in E1.
  assert (Hc : is_high c = true) by by apply N.leb_le.
  repeat case_match; try lia; intros _; cbn; bools; rewrite ?Hc; cbn;
    rewrite ?andb_true_r; repeat (apply andb_true_iff; split);
    solve [done | by eapply Hs | eapply (Hr 128 191); [lia|done]].
Qed.

Lemma rune_len_stake c s :
  rune_len (stake (rune_len (String c s)) (String c s)) = rune_len (String c s).
Proof.
  destruct (rune_len (String c s)) as [|n] eqn:E; [done|].
  revert E. unfold rune_len. destruct (byte_of c <? 128) eqn:E1.
  { intros [= <-]. cbn. by rewrite E1. }
  destruct ((194 <=? byte_of c) && (byte_of c <=? 223)) eqn:E2.
  { destruct s as [|c1 s]; [done|]. destruct (is_cont c1) eqn:E3; [|done].
    intros [= <-]. cbn [stake]. by rewrite E1, E2, E3. }
  destruct ((224 <=? byte_of c) && (byte_of c <=? 239)) eqn:E3.
  { destruct s as [|c1 [|c2 s]]; [done..|].
    destruct (second_range (byte_of c) c1 && is_cont c2) eqn:E4; [|done].
    intros [= <-]. cbn [stake]. by rewrite E1, E2, E3, E4. }
  destruct ((240 <=? byte_of c) && (byte_of c <=? 244)) eqn:E4; [|done].
  destruct s as [|c1 [|c2 [|c3 s]]]; [done..|].
  destruct (second_range (byte_of c) c1 && is_cont c2 && is_cont c3) eqn:E5; [|done].
  intros [= <-]. cbn [stake]. by rewrite E1, E2, E3, E4, E5.
Qed.

Definition prepend (p : string) (o : option (string * string)) : option (string * string) :=
  match o with Some (b, r) => Some (p +:+ b, r) | None => None end.

Lemma is_high_neq c d : is_high c = true → is_ascii d = true → bool_decide (c = d) = false.
Proof.
  unfold is_high, is_ascii. intros Hc Hd. apply bool_decide_eq_false. intros ->.
  apply N.leb_le in Hc. apply N.ltb_lt in Hd. lia.
Qed.

Lemma scan_string_high r t :
  sforall is_high r = true → scan_string (r +:+ t) = prepend r (scan_string t).
Proof.
  induction r as [|c r IH]; cbn [sforall]; intros H.
  - rewrite sapp_nil_l. unfold prepend. by destruct (scan_string t) as [[]|].
  - bools. rewrite sapp_cons. cbn [scan_string]. rewrite !is_high_neq by done.
    destruct (byte_of c <? 32) eqn:E.
    { unfold is_high in *. apply N.ltb_lt in E. rewrite N.leb_le in *. lia. }
    rewrite IH by done. by destruct (scan_string t) as [[]|].
Qed.

Lemma scan_quote_byte c t :
  scan_string (quote_rune (sone c) +:+ t) = prepend (quote_rune (sone c)) (scan_string t).
Proof. destruct c as [[] [] [] [] [] [] [] []]; reflexivity. Qed.

Lemma unquote_quote_byte c t :
  is_ascii c = true →
  unquote_go (quote_rune (sone c) +:+ t) 0 = String c (unquote_go t 0).
Proof. destruct c as [[] [] [] [] [] [] [] []]; intros H; (discriminate H || reflexivity). Qed.

(** The first rune of a non-empty string. *)
Definition first_rune (c : ascii) (s : string) : string := stake (rune_step (String c s)) (String c s).

Lemma quote_rune_long r :
  (2 <= String.length r)%nat →
  quote_rune r = if bool_decide (r = line_separator) then String backslash_char "u2028"
                 else if bool_decide (r = paragraph_separator) then String backslash_char "u2029"
                 else r.
Proof. destruct r as [|c [|d r]]; cbn [String.length]; [lia|lia|done]. Qed.

Lemma stake_length n s : (n <= String.length s)%nat → String.length (stake n s) = n.
Proof.
  revert s. induction n as [|n IH]; intros [|c s] H; simpl in H; try done; [lia|].
  simpl. rewrite IH; [done|lia].
Qed.

Lemma scan_quote_rune c s t :
  scan_string (quote_rune (first_rune c s) +:+ t)
  = prepend (quote_rune (first_rune c s)) (scan_string t).
Proof.
  unfold first_rune. pose proof (rune_step_bounds c s) as Hb. unfold rune_step in *.
  destruct (rune_len (String c s)) as [|[|n]] eqn:E.
  1, 2: cbn [Nat.max stake]; apply scan_quote_byte.
  cbn [Nat.max] in *. rewrite quote_rune_long by (rewrite stake_length; lia).
  case_bool_decide; [reflexivity|].
  case_bool_decide; [reflexivity|].
  apply scan_string_high. rewrite <- E. apply high_rune. lia.
Qed.

Lemma unquote_copy r t : unquote_go (r +:+ t) (String.length r) = r +:+ unquote_go t 0.
Proof. induction r as [|c r IH]; [done|]. rewrite !sapp_cons. cbn. by rewrite IH. Qed.

Lemma unquote_quote_rune c s t :
  rune_len (String c s) ≠ 0%nat →
  unquote_go (quote_rune (first_rune c s) +:+ t) 0 = first_rune c s +:+ unquote_go t 0.
Proof.
  intros Hv. unfold first_rune. pose proof (rune_step_bounds c s) as Hb.
  unfold rune_step in *. pose proof (rune_len_stake c s) as Hst.
  destruct (rune_len (String c s)) as [|[|n]] eqn:E; [done| |].
  - cbn [Nat.max stake]. change (String c EmptyString) with (sone c).
    rewrite unquote_quote_byte; [done|].
    unfold is_ascii. unfold rune_len in E. destruct (byte_of c <? 128); [done|].
    repeat case_match; congruence.
  - cbn [Nat.max] in *. pose proof (high_rune c s ltac:(lia)) as Hh. rewrite E in Hh.
    rewrite quote_rune_long by (rewrite stake_length; lia).
    case_bool_decide as Hl; [rewrite Hl; done|].
    case_bool_decide as Hp; [rewrite Hp; done|].
    set (r := stake (S (S n)) (String c s)) in *.
    assert (Hr : ∃ r', r = String c r' ∧ String.length r' = S n).
    { exists (stake (S n) s). split; [reflexivity|]. apply stake_length. simpl in Hb. lia. }
    destruct Hr as (r' & Er & Hlen). rewrite Er in *. rewrite !sapp_cons.
    cbn [sforall] in Hh. bools. cbn [unquote_go]. rewrite is_high_neq by done.
    rewrite <- sapp_cons, rune_len_app by (rewrite Hst; done). rewrite Hst.
    rewrite <- Hlen. by rewrite unquote_copy.
Qed.

Lemma quote_body_cons c s :
  quote_body (String c s)
  = quote_rune (first_rune c s) +:+ quote_body (sdrop (rune_step (String c s)) (String c s)).
Proof. unfold quote_body. rewrite runes_cons. done. Qed.

Lemma scan_quote_body s t :
  scan_string (quote_body s +:+ String quote_char t) = Some (quote_body s, t).
Proof.
  induction s as [|c s IH] using rune_ind; [done|].
  rewrite quote_body_cons, sapp_assoc, scan_quote_rune, IH. done.
Qed.

Lemma unquote_quote_body s : utf8_valid s = true → unquote (quote_body s) = s.
Proof.
  unfold unquote. induction s as [|c s IH] using rune_ind; [done|].
  rewrite utf8_valid_cons. intros H. bools.
  rewrite quote_body_cons, unquote_quote_rune by done. rewrite IH by done.
  apply stake_sdrop.
Qed.

(** ** Numbers *)

(** What may follow a value inside a document. *)
Definition delim (s : string) : Prop :=
  s = EmptyString ∨ ∃ c t, s = String c t ∧ (c = ","%char ∨ c = "]"%char ∨ c = "}"%char).

Definition no_digit_head (s : string) : bool := negb (starts_with_digit s).

Lemma take_digits_app ds t :
  sforall is_digit ds = true → no_digit_head t = true → take_digits (ds +:+ t) = (ds, t).
Proof.
  induction ds as [|c ds IH]; intros Hd Ht.
  - rewrite sapp_nil_l. destruct t as [|d t]; [done|]. cbn in *.
    unfold no_digit_head in Ht. cbn in Ht. apply negb_true_iff in Ht. by rewrite Ht.
  - cbn [sforall] in Hd. bools. rewrite sapp_cons. cbn [take_digits]. rewrite H, IH by done. done.
Qed.

Lemma is_digit_cases c : is_digit c = true →
  c = "0"%char ∨ c = "1"%char ∨ c = "2"%char ∨ c = "3"%char ∨ c = "4"%char
  ∨ c = "5"%char ∨ c = "6"%char ∨ c = "7"%char ∨ c = "8"%char ∨ c = "9"%char.
Proof. destruct c as [[] [] [] [] [] [] [] []]; intros H; try discriminate H; naive_solver. Qed.

(** Integer parts: a zero alone, or digits that do not start with a zero. *)
Definition int_part (s : string) : bool :=
  all_digits s && (bool_decide (s = "0") || negb (HasPrefix s "0")).
Definition frac_part (s : string) : bool :=
  match s with EmptyString => true | String c t => bool_decide (c = "."%char) && all_digits t end.
Definition exp_part (s : string) : bool :=
  match s with
  | EmptyString => true
  | String c (String g t) =>
      bool_decide (c = "e"%char) && (bool_decide (g = "+"%char) || bool_decide (g = "-"%char)) && all_digits t
  | _ => false
  end.

Lemma all_digits_inv s :
  all_digits s = true → ∃ c t, s = String c t ∧ is_digit c = true ∧ sforall is_digit s = true.
Proof. unfold all_digits. destruct s as [|c t]; [done|]. cbn. intros H. bools. exists c, t. by rewrite H, H0. Qed.

Lemma scan_int_app i t :
  int_part i = true → no_digit_head t = true → scan_int (i +:+ t) = Some (i, t).
Proof.
  unfold int_part. intros Hi Ht. bools. apply orb_true_iff in H0 as [H0|H0].
  { apply bool_decide_eq_true in H0 as ->. done. }
  destruct (all_digits_inv _ H) as (c & r & -> & Hc & Hd).
  assert (Hgen : scan_int (String c r +:+ t)
                 = let '(a, u) := take_digits (String c r +:+ t) in
                   if sempty a then None else Some (a, u)).
  { rewrite sapp_cons.
    destruct (is_digit_cases c Hc) as [->|[->|[->|[->|[->|[->|[->|[->|[->| ->]]]]]]]]];
      [by destruct r|done..]. }
  rewrite Hgen, take_digits_app by done. done.
Qed.

Lemma scan_frac_app f t :
  frac_part f = true → no_digit_head t = true → HasPrefix t "." = false →
  scan_frac (f +:+ t) = Some (f, t).
Proof.
  intros Hf Ht Hdot. destruct f as [|c f].
  - rewrite sapp_nil_l. unfold scan_frac. destruct t as [|d t]; [done|].
    destruct d as [[] [] [] [] [] [] [] []]; (done || by destruct t).
  - cbn in Hf. bools. subst c. rewrite sapp_cons. cbn [scan_frac].
    destruct (all_digits_inv _ H0) as (c & r & -> & _ & Hd).
    rewrite take_digits_app by done. done.
Qed.

Definition not_exp_head (t : string) : Prop :=
  match t with String c _ => c ≠ "e"%char ∧ c ≠ "E"%char | _ => True end.

Lemma scan_exp_app e t :
  exp_part e = true → no_digit_head t = true → not_exp_head t →
  scan_exp (e +:+ t) = Some (e, t).
Proof.
  intros He Ht Hh. destruct e as [|c [|g e]]; [|done|].
  - rewrite sapp_nil_l. destruct t as [|d t]; [done|]. destruct Hh as [H1 H2].
    cbn [scan_exp]. rewrite !bool_decide_eq_false_2 by done. done.
  - cbn in He. bools. subst c. rewrite !sapp_cons.
    destruct (all_digits_inv _ H0) as (c & r & -> & _ & Hd).
    apply orb_true_iff in H1 as [->%bool_decide_eq_true| ->%bool_decide_eq_true];
      cbn [scan_exp]; rewrite bool_decide_eq_true_2 by done; cbn [orb];
      by rewrite take_digits_app.
Qed.

(** The shapes of number literals the encoder writes. *)
Definition number_lit (neg : bool) (i f e : string) : string := sign_str neg +:+ i +:+ f +:+ e.

Lemma delim_facts t : delim t → no_digit_head t = true ∧ HasPrefix t "." = false ∧ not_exp_head t.
Proof. intros [->|(c & u & -> & [->|[->| ->]])]; done. Qed.

Lemma int_part_inv i : int_part i = true → ∃ c r, i = String c r ∧ is_digit c = true.
Proof. unfold int_part. intros H. bools. apply all_digits_inv in H as (c & r & -> & ? & _). eauto. Qed.

Lemma frac_exp_head f e t :
  frac_part f = true → exp_part e = true → delim t →
  no_digit_head (f +:+ e +:+ t) = true.
Proof.
  intros Hf He Ht. destruct f as [|c f].
  - rewrite sapp_nil_l. destruct e as [|c [|g e]]; [|done|].
    + rewrite sapp_nil_l. by apply delim_facts in Ht as (? & _).
    + cbn in He. bools. by subst.
  - cbn in Hf. bools. by subst.
Qed.

Lemma exp_head e t :
  exp_part e = true → delim t →
  no_digit_head (e +:+ t) = true ∧ HasPrefix (e +:+ t) "." = false.
Proof.
  intros He Ht. destruct e as [|c [|g e]]; [|done|].
  - rewrite sapp_nil_l. by apply delim_facts in Ht as (? & ? & _).
  - cbn in He. bools. by subst.
Qed.

Lemma scan_number_lit neg i f e t :
  int_part i = true → frac_part f = true → exp_part e = true → delim t →
  scan_number (number_lit neg i f e +:+ t) = Some (number_lit neg i f e, t).
Proof.
  intros Hi Hf He Ht. unfold number_lit.
  pose proof (frac_exp_head f e t Hf He Ht) as H1.
  destruct (exp_head e t He Ht) as [H2 H3].
  pose proof (delim_facts t Ht) as (H4 & _ & H6).
  destruct (int_part_inv i Hi) as (c & r & Ei & Hc).
  assert (Hbody : scan_number (sign_str neg +:+ i +:+ f +:+ e +:+ t)
    = match scan_int (i +:+ f +:+ e +:+ t) with
      | None => None
      | Some (i, r1) =>
          match scan_frac r1 with
          | None => None
          | Some (f, r2) => match scan_exp r2 with
                            | None => None
                            | Some (e, r3) => Some (sign_str neg +:+ i +:+ f +:+ e, r3)
                            end
          end
      end).
  { rewrite Ei. destruct neg; [done|]. rewrite sapp_nil_l, sapp_cons.
    destruct (is_digit_cases c Hc) as [->|[->|[->|[->|[->|[->|[->|[->|[->| ->]]]]]]]]]; done. }
  rewrite !sapp_assoc, Hbody, scan_int_app by done.
  rewrite scan_frac_app by done. by rewrite scan_exp_app.
Qed.

(** Literals that the value parser reads as numbers. *)
Definition json_number (s : string) : Prop :=
  ∃ neg i f e, s = number_lit neg i f e ∧ int_part i = true ∧ frac_part f = true ∧ exp_part e = true.

Lemma number_lit_head neg i f e :
  int_part i = true →
  ∃ c r, number_lit neg i f e = String c r ∧ (c = "-"%char ∨ is_digit c = true).
Proof.
  intros Hi. destruct (int_part_inv i Hi) as (c & r & -> & Hc).
  destruct neg; unfold number_lit; cbn [sign_str]; rewrite ?sapp_nil_l, ?sapp_cons; eauto 6.
Qed.

Lemma parse_number s t fuel :
  json_number s → delim t → fuel ≠ 0%nat → parse_value fuel (s +:+ t) = Some (JNum s, t).
Proof.
  intros (neg & i & f & e & -> & Hi & Hf & He) Ht Hfuel.
  destruct fuel as [|fuel]; [done|].
  pose proof (scan_number_lit neg i f e t Hi Hf He Ht) as Hs.
  destruct (number_lit_head neg i f e Hi) as (c & r & E & Hc). rewrite E in *.
  rewrite sapp_cons in *. cbn [parse_value].
  destruct Hc as [->|Hc]; [cbn -[scan_number]; by rewrite Hs|].
  destruct (is_digit_cases c Hc) as [->|[->|[->|[->|[->|[->|[->|[->|[->| ->]]]]]]]]]; cbn -[scan_number]; by rewrite Hs.
Qed.

(** Printed integers. *)
Lemma digits_go_head fuel n acc :
  0 < n → n < 2 ^ N.of_nat fuel → HasPrefix (digits_go fuel n acc) "0" = false.
Proof.
  revert n acc. induction fuel as [|fuel IH]; intros n acc H0 Hn.
  - change (N.of_nat 0) with 0 in Hn. rewrite N.pow_0_r in Hn. lia.
  - cbn [digits_go]. rewrite Nat2N.inj_succ, N.pow_succ_r' in Hn.
    destruct (n <? 10) eqn:E.
    + apply N.ltb_lt in E. rewrite N.mod_small by done.
      assert (n = 1 ∨ n = 2 ∨ n = 3 ∨ n = 4 ∨ n = 5 ∨ n = 6 ∨ n = 7 ∨ n = 8 ∨ n = 9) as Hc by lia.
      destruct Hc as [->|[->|[->|[->|[->|[->|[->|[->| ->]]]]]]]]; done.
    + apply N.ltb_ge in E. apply IH.
      * apply N.div_str_pos. lia.
      * pose proof (N.Div0.div_lt_upper_bound n 10 (2 ^ N.of_nat fuel)). lia.
Qed.

Lemma N_to_dec_head n : 0 < n → HasPrefix (N_to_dec n) "0" = false.
Proof.
  intros Hn. apply digits_go_head; [done|].
  rewrite Nat2N.inj_succ, N2Nat.id, N.pow_succ_r'. pose proof (N.size_gt n). lia.
Qed.

Lemma N_to_dec_int n : int_part (N_to_dec n) = true.
Proof.
  unfold int_part. rewrite N_to_dec_digits. cbn [andb].
  destruct (decide (n = 0)) as [->|Hn]; [done|].
  rewrite N_to_dec_head by lia. by rewrite orb_true_r.
Qed.

Lemma json_number_Z z : json_number (Z_to_dec z).
Proof.
  unfold Z_to_dec, json_number. destruct z as [|p|p].
  - exists false, "0"%stdpp, EmptyString, EmptyString. done.
  - exists false, (N_to_dec (Z.to_N (Z.pos p))), EmptyString, EmptyString.
    unfold number_lit. rewrite !sapp_nil_r. split; [done|]. by rewrite N_to_dec_int.
  - exists true, (N_to_dec (N.pos p)), EmptyString, EmptyString.
    unfold number_lit. rewrite !sapp_nil_r. split; [done|]. by rewrite N_to_dec_int.
Qed.

(** *** Floats *)

Lemma sforall_repeat0 n : sforall is_digit (sconcat (repeat "0"%stdpp n)) = true.
Proof. induction n as [|n IH]; [done|]. cbn [repeat sconcat]. by rewrite sforall_app, IH. Qed.

Lemma all_digits_app_r s t : sforall is_digit s = true → all_digits t = true → all_digits (s +:+ t) = true.
Proof.
  unfold all_digits. intros Hs Ht. bools. rewrite sforall_app, Hs, H0.
  rewrite andb_true_r. destruct s; [rewrite sapp_nil_l; by apply negb_true_iff|done].
Qed.

Lemma pad_left_digits n s : all_digits s = true → all_digits (pad_left n s) = true.
Proof. intros H. apply all_digits_app_r; [apply sforall_repeat0|done]. Qed.

Lemma all_digits_Z z : (0 <= z)%Z → all_digits (Z_to_dec z) = true.
Proof. intros Hz. unfold Z_to_dec. destruct z; [done|apply N_to_dec_digits|lia]. Qed.

Lemma HasPrefix_zero c r : HasPrefix (String c r) "0" = bool_decide (c = "0"%char).
Proof.
  destruct c as [[] [] [] [] [] [] [] []]; try reflexivity. by destruct r.
Qed.

Definition digits_pos (ds : string) : Prop := all_digits ds = true ∧ HasPrefix ds "0" = false.

Lemma shortest_digits m e : digits_pos (shortest m e).1.
Proof.
  unfold shortest, digits_pos. destruct (ratio _ _) as [n d].
  destruct (shortest_go _ _ _ _ _) as [[c k] j]. cbn [fst].
  split; [apply all_digits_Z; lia|]. unfold Z_to_dec.
  destruct (Z.max 1 c) eqn:E; [lia| |lia]. apply N_to_dec_head. lia.
Qed.

Lemma sforall_stake P n s : sforall P s = true → sforall P (stake n s) = true.
Proof.
  intros H. rewrite <- (stake_sdrop n s), sforall_app in H. by bools.
Qed.

Lemma sforall_sdrop P n s : sforall P s = true → sforall P (sdrop n s) = true.
Proof.
  intros H. rewrite <- (stake_sdrop n s), sforall_app in H. by bools.
Qed.

Lemma digits_pos_stake n ds :
  digits_pos ds → (0 < n)%nat → int_part (stake n ds) = true.
Proof.
  intros [Hd Hz] Hn. destruct n as [|n]; [lia|].
  destruct (all_digits_inv _ Hd) as (c & r & -> & Hc & Ha).
  unfold int_part, all_digits. rewrite sforall_stake by done. cbn [stake sempty negb andb].
  rewrite HasPrefix_zero in *. by rewrite Hz, orb_true_r.
Qed.

Lemma all_digits_sdrop n ds :
  all_digits ds = true → (n < String.length ds)%nat → all_digits (sdrop n ds) = true.
Proof.
  unfold all_digits. intros H Hn. bools. rewrite sforall_sdrop by done.
  destruct (sempty (sdrop n ds)) eqn:E; [|done]. apply sempty_true in E.
  pose proof (sdrop_length n ds) as Hl. rewrite E in Hl. simpl in Hl. lia.
Qed.

Lemma layout_f_number ds k :
  digits_pos ds → ∃ i f, layout_f ds k = i +:+ f ∧ int_part i = true ∧ frac_part f = true.
Proof.
  intros [Hd Hz]. unfold layout_f. case_match eqn:Ek; bools.
  - exists "0"%stdpp, ("." +:+ zeros (- k - 1) +:+ ds). split; [done|]. split; [done|].
    change (all_digits (zeros (- k - 1) +:+ ds) = true).
    apply all_digits_app_r; [apply sforall_repeat0|done].
  - destruct (all_digits_inv _ Hd) as (c & r & E & Hc & Ha). case_match eqn:El; bools.
    + exists (ds +:+ zeros (k + 1 - Z.of_nat (String.length ds))), EmptyString.
      rewrite sapp_nil_r. split; [done|]. split; [|done].
      unfold int_part, all_digits. rewrite sforall_app, Ha. unfold zeros. rewrite sforall_repeat0.
      rewrite E in *. rewrite sapp_cons. rewrite HasPrefix_zero in *.
      by rewrite Hz, orb_true_r.
    + eexists _, ("." +:+ sdrop (Z.to_nat (k + 1)) ds). split; [reflexivity|].
      split; [apply digits_pos_stake; [done|lia]|].
      change (all_digits (sdrop (Z.to_nat (k + 1)) ds) = true).
      apply all_digits_sdrop; [done|lia].
Qed.

Lemma layout_e_number w ds k :
  digits_pos ds →
  ∃ i f e, layout_e w ds k = i +:+ f +:+ e ∧ int_part i = true ∧ frac_part f = true ∧ exp_part e = true.
Proof.
  intros Hd. unfold layout_e. eexists (stake 1 ds), _, ("e" +:+ _). split; [reflexivity|].
  split; [apply digits_pos_stake; [done|lia]|].
  destruct Hd as [Hd Hz]. split.
  - destruct (String.length ds <=? 1)%nat eqn:El; [done|]. apply Nat.leb_gt in El.
    change (frac_part ("." +:+ sdrop 1 ds)) with (all_digits (sdrop 1 ds)).
    apply all_digits_sdrop; [done|lia].
  - pose proof (pad_left_digits w (Z_to_dec (Z.abs k)) (all_digits_Z (Z.abs k) ltac:(lia))) as Hp.
    destruct (k <? 0)%Z; exact Hp.
Qed.

Lemma json_number_f64 x : is_finite x = true → json_number (json_f64 x).
Proof.
  destruct x as [s m e| |]; try done. intros _. unfold json_number.
  destruct m as [|p].
  { exists s, "0"%stdpp, EmptyString, EmptyString. done. }
  cbn [json_f64]. destruct (shortest (N.pos p) e) as [ds k] eqn:E.
  pose proof (shortest_digits (N.pos p) e) as Hd. rewrite E in Hd. cbn [fst] in Hd.
  case_match.
  - destruct (layout_e_number 1 ds k Hd) as (i & f & x & -> & ? & ? & ?). exists s, i, f, x. done.
  - destruct (layout_f_number ds k Hd) as (i & f & -> & ? & ?).
    exists s, i, f, EmptyString. unfold number_lit. by rewrite sapp_nil_r.
Qed.

(** ** Whole values *)

(** First bytes of a value: no white space and no closing bracket. *)
Definition value_head (c : ascii) : bool :=
  negb (is_ws c) && negb (bool_decide (c = "]"%char)) && negb (bool_decide (c = "}"%char)).

Lemma marshal_head a : wf_any a = true → ∃ c t, marshal a = String c t ∧ value_head c = true.
Proof.
  assert (Hnum : ∀ s, json_number s → ∃ c t, s = String c t ∧ value_head c = true).
  { intros s (neg & i & f & e & -> & Hi & _). destruct (number_lit_head neg i f e Hi) as (c & r & -> & Hc).
    exists c, r. split; [done|]. destruct Hc as [->|Hc]; [done|].
    destruct (is_digit_cases c Hc) as [->|[->|[->|[->|[->|[->|[->|[->|[->| ->]]]]]]]]]; done. }
  destruct a; cbn [marshal]; intros Hw.
  - by eexists _, _.
  - destruct b; by eexists _, _.
  - apply Hnum, json_number_Z.
  - by apply Hnum, json_number_f64.
  - by eexists _, _.
  - by eexists _, _.
  - by eexists _, _.
Qed.

Lemma skip_ws_head c t : value_head c = true → skip_ws (String c t) = String c t.
Proof. unfold value_head. intros H. bools. cbn. by rewrite H. Qed.

Lemma skip_ws_marshal a t : wf_any a = true → skip_ws (marshal a +:+ t) = marshal a +:+ t.
Proof.
  intros Hw. destruct (marshal_head a Hw) as (c & r & -> & Hc). rewrite sapp_cons.
  by apply skip_ws_head.
Qed.

Lemma slice_app s t : slice (s +:+ t) t = s.
Proof.
  unfold slice. rewrite slength_app, Nat.add_sub. apply stake_app.
Qed.

(** The fuel that reads the text of [a] with anything behind it. *)
Definition reads (a : goany) : Prop :=
  ∀ fuel t, wf_any a = true → (2 * String.length (marshal a) <= fuel)%nat → delim t →
  parse_value fuel (marshal a +:+ t) = Some (ann a, t).

Lemma marshal_length a : wf_any a = true → (1 <= String.length (marshal a))%nat.
Proof. intros Hw. destruct (marshal_head a Hw) as (c & r & -> & _). simpl. lia. Qed.

Lemma delim_sep c t : (c = ","%char ∨ c = "]"%char ∨ c = "}"%char) → delim (String c t).
Proof. intros H. right. eauto. Qed.

Lemma parse_elems_join x l fuel t :
  Forall reads (x :: l) → forallb wf_any (x :: l) = true →
  (2 * String.length (Join "," (map marshal (x :: l))) + 1 <= fuel)%nat →
  parse_elems fuel (Join "," (map marshal (x :: l)) +:+ String "]" t)
  = Some (map (λ a, (marshal a, ann a)) (x :: l), t).
Proof.
  revert x fuel. induction l as [|y l IH]; intros x fuel HF Hw Hfuel.
  - cbn [map Join forallb] in *. bools. destruct fuel as [|fuel]; [lia|].
    inversion HF as [|? ? Hx _]; subst. cbn [parse_elems].
    rewrite Hx; [|done|lia|apply delim_sep; auto]. rewrite slice_app. done.
  - cbn [forallb] in Hw. bools. inversion HF as [|? ? Hx HF']; subst.
    change (Join "," (map marshal (x :: y :: l)))
      with (marshal x +:+ String "," (Join "," (map marshal (y :: l)))) in *.
    rewrite slength_app in Hfuel. cbn [String.length] in Hfuel.
    destruct fuel as [|fuel]; [lia|]. rewrite sapp_assoc, sapp_cons. cbn [parse_elems].
    rewrite Hx; [|done|lia|apply delim_sep; auto]. rewrite slice_app. cbn [skip_ws].
    change (is_ws ",") with false. cbn iota.
    replace (skip_ws (Join "," (map marshal (y :: l)) +:+ String "]" t))
      with (Join "," (map marshal (y :: l)) +:+ String "]" t).
    + rewrite IH; [done|done| |lia].
      cbn [forallb]. by apply andb_true_iff.
    + destruct (marshal_head y) as (c & r & Ey & Hc); [done|].
      destruct l as [|z l]; cbn [map Join]; rewrite Ey, sapp_cons;
        rewrite ?sapp_cons; by rewrite skip_ws_head.
Qed.

Definition member_text (p : string * goany) : string := quote p.1 +:+ String ":" (marshal p.2).

Lemma quote_length s : (2 <= String.length (quote s))%nat.
Proof. unfold quote. simpl. rewrite slength_app. simpl. lia. Qed.

(** One member: key, colon, value and what follows it. *)
Lemma parse_member_step fuel p t :
  reads p.2 → utf8_valid p.1 = true → wf_any p.2 = true → delim t →
  (2 * String.length (marshal p.2) <= fuel)%nat →
  parse_members (S fuel) (member_text p +:+ t)
  = match skip_ws t with
    | String "," r4 =>
        match parse_members fuel (skip_ws r4) with
        | Some (l, r5) => Some ((p.1, (marshal p.2, ann p.2)) :: l, r5)
        | None => None
        end
    | String "}" r4 => Some ([(p.1, (marshal p.2, ann p.2))], r4)
    | _ => None
    end.
Proof.
  intros Hp Hk Hw Ht Hf. unfold member_text, quote.
  rewrite !sapp_cons, !sapp_assoc. cbn [parse_members].
  rewrite bool_decide_eq_true_2 by done.
  replace (quote_body p.1 +:+ sone quote_char +:+ String ":" (marshal p.2) +:+ t)
    with (quote_body p.1 +:+ String quote_char (String ":" (marshal p.2 +:+ t))) by done.
  rewrite scan_quote_body. cbn [skip_ws]. change (is_ws ":") with false. cbn iota.
  rewrite skip_ws_marshal by done. rewrite Hp by done.
  rewrite slice_app, unquote_quote_body by done. done.
Qed.

Lemma parse_members_join p m fuel t :
  Forall (λ p, reads p.2) (p :: m) →
  forallb (λ p, utf8_valid p.1 && wf_any p.2) (p :: m) = true →
  (2 * String.length (Join "," (map member_text (p :: m))) + 1 <= fuel)%nat →
  parse_members fuel (Join "," (map member_text (p :: m)) +:+ String "}" t)
  = Some (map (λ p, (p.1, (marshal p.2, ann p.2))) (p :: m), t).
Proof.
  revert p fuel. induction m as [|q m IH]; intros p fuel HF Hw Hfuel.
  - cbn [map Join forallb] in *. bools. destruct fuel as [|fuel]; [lia|].
    inversion HF as [|? ? Hx _]; subst.
    unfold member_text in Hfuel. rewrite slength_app in Hfuel. cbn [String.length] in Hfuel.
    rewrite parse_member_step; [done|done|done|done|apply delim_sep; auto|lia].
  - cbn [forallb] in Hw. bools. inversion HF as [|? ? Hx HF']; subst.
    change (Join "," (map member_text (p :: q :: m)))
      with (member_text p +:+ String "," (Join "," (map member_text (q :: m)))) in *.
    rewrite slength_app in Hfuel. cbn [String.length] in Hfuel.
    assert (Hl : (String.length (marshal p.2) < String.length (member_text p))%nat).
    { unfold member_text. rewrite slength_app. simpl. pose proof (quote_length p.1). lia. }
    destruct fuel as [|fuel]; [lia|]. rewrite sapp_assoc, sapp_cons.
    rewrite parse_member_step; [|done|done|done|apply delim_sep; auto|lia].
    cbn [skip_ws]. change (is_ws ",") with false. cbn iota.
    replace (skip_ws (Join "," (map member_text (q :: m)) +:+ String "}" t))
      with (Join "," (map member_text (q :: m)) +:+ String "}" t).
    + rewrite IH; [done|done| |lia]. cbn [forallb]. rewrite !andb_true_iff. naive_solver.
    + destruct m as [|z m]; reflexivity.
Qed.

Lemma reads_scalar a c t s :
  ann a = JStr t s → marshal a = String c (quote_body s +:+ sone quote_char) →
  c = quote_char → t = quote_body s → utf8_valid s = true → reads a.
Proof.
  intros Ha Hm -> -> Hs fuel r Hw Hf Hr. rewrite Hm in *. destruct fuel as [|fuel]; [simpl in Hf; lia|].
  rewrite sapp_cons, sapp_assoc. cbn [parse_value].
  change (bool_decide (quote_char = "{"%char)) with false.
  change (bool_decide (quote_char = "["%char)) with false.
  rewrite bool_decide_eq_true_2 by done.
  change (sone quote_char +:+ r) with (String quote_char r). rewrite scan_quote_body.
  by rewrite unquote_quote_body, Ha.
Qed.

Lemma marshal_reads a : reads a.
Proof.
  induction a as [|b|z|x|s|l IH|m IH] using goany_ind'; intros fuel t Hw Hf Ht.
  - destruct fuel as [|fuel]; [simpl in Hf; lia|]. done.
  - destruct fuel as [|fuel]; [destruct b; simpl in Hf; lia|]. by destruct b.
  - apply parse_number; [apply json_number_Z|done|].
    pose proof (marshal_length (AInt z) eq_refl). lia.
  - apply parse_number; [by apply json_number_f64|done|].
    pose proof (marshal_length (AFloat x) Hw). lia.
  - by apply (reads_scalar (AStr s) quote_char (quote_body s) s).
  - cbn [marshal] in *. destruct fuel as [|fuel]; [simpl in Hf; lia|].
    rewrite sapp_cons, sapp_assoc. cbn [parse_value].
    change (bool_decide ("["%char = "{"%char)) with false. rewrite bool_decide_eq_true_2 by done.
    cbn iota. change ("]" +:+ t) with (String "]" t). cbn [wf_any] in Hw.
    destruct l as [|x l]; [done|].
    assert (Hh : ∃ c r, Join "," (map marshal (x :: l)) +:+ String "]" t = String c r ∧ value_head c = true).
    { cbn [forallb] in Hw. bools. destruct (marshal_head x) as (c & r & Ey & Hc); [done|].
      destruct l as [|z l]; cbn [map Join]; rewrite Ey, sapp_cons; eauto. }
    cbn [String.length] in Hf. rewrite slength_app in Hf. cbn [String.length] in Hf.
    pose proof (parse_elems_join x l fuel t IH Hw ltac:(lia)) as Hp.
    destruct Hh as (c & r & E & Hc). rewrite E in *. rewrite skip_ws_head by done.
    destruct c as [[] [] [] [] [] [] [] []]; (discriminate Hc || by rewrite Hp).
  - cbn [marshal] in *. destruct fuel as [|fuel]; [simpl in Hf; lia|].
    rewrite sapp_cons, sapp_assoc. cbn [parse_value].
    rewrite bool_decide_eq_true_2 by done.
    cbn iota. change ("}" +:+ t) with (String "}" t). cbn [wf_any] in Hw.
    destruct m as [|p m]; [done|].
    cbn [String.length] in Hf. rewrite slength_app in Hf. cbn [String.length] in Hf.
    pose proof (parse_members_join p m fuel t IH Hw) as Hp.
    change (map (λ p, quote p.1 +:+ String ":" (marshal p.2)) (p :: m))
      with (map member_text (p :: m)) in *.
    assert (Hh : ∃ r, Join "," (map member_text (p :: m)) +:+ String "}" t = String quote_char r).
    { destruct m as [|z m]; cbn [map Join]; unfold member_text, quote; rewrite sapp_cons; eauto. }
    destruct Hh as (r & E). rewrite E in *. cbn [skip_ws]. change (is_ws quote_char) with false.
    cbn iota. specialize (Hp ltac:(lia)). unfold quote_char in *. by rewrite Hp.
Qed.

(** The decoder reads back what the encoder wrote. *)
Theorem parse_marshal a : wf_any a = true → parse_json (marshal a) = Some (ann a).
Proof.
  intros Hw. unfold parse_json.
  pose proof (skip_ws_marshal a EmptyString Hw) as Hs. rewrite sapp_nil_r in Hs. rewrite Hs.
  pose proof (marshal_reads a (json_fuel (marshal a)) EmptyString Hw) as Hr.
  rewrite sapp_nil_r in Hr. rewrite Hr; [done| |by left]. unfold json_fuel. lia.
Qed.

(** ** Maps *)

Lemma ahas_elem k m : ahas k m = true ↔ k ∈ m.*1.
Proof.
  unfold ahas. rewrite existsb_exists, list_elem_of_fmap. split.
  - intros ([j v] & Hin & H). apply bool_decide_eq_true in H. cbn in H. subst.
    exists (k, v). split; [done|]. by apply list_elem_of_In.
  - intros ([j v] & -> & Hin). exists (j, v). split; [by apply list_elem_of_In|].
    by apply bool_decide_eq_true_2.
Qed.

Lemma ahas_false k m : ahas k m = false ↔ k ∉ m.*1.
Proof. rewrite <- ahas_elem. destruct (ahas k m); naive_solver. Qed.

Lemma aget_ainsert k v m j :
  k ∉ m.*1 → aget j (ainsert k v m) = if bool_decide (k = j) then v else aget j m.
Proof.
  induction m as [|[i w] m IH]; cbn [ainsert aget fmap list_fmap fst]; intros Hk; [done|].
  rewrite not_elem_of_cons in Hk. destruct Hk as [Hki Hk]. cbn [fst] in Hki.
  destruct (String.ltb k i); cbn [aget].
  - repeat case_bool_decide; try done; congruence.
  - rewrite IH by done. repeat case_bool_decide; try done; congruence.
Qed.

Lemma aget_areplace k v m j :
  k ∈ m.*1 → aget j (areplace k v m) = if bool_decide (k = j) then v else aget j m.
Proof.
  induction m as [|[i w] m IH]; cbn [areplace aget fmap list_fmap fst]; intros Hk.
  - by apply not_elem_of_nil in Hk.
  - destruct (decide (i = k)) as [->|Hik].
    + rewrite bool_decide_eq_true_2 by done. cbn [aget]. by case_bool_decide.
    + rewrite (bool_decide_eq_false_2 (i = k)) by done. cbn [aget].
      apply elem_of_cons in Hk as [Hk|Hk]; [cbn in Hk; congruence|].
      rewrite IH by done. repeat case_bool_decide; try done; congruence.
Qed.

Lemma aget_aset k v m j : aget j (aset k v m) = if bool_decide (k = j) then v else aget j m.
Proof.
  unfold aset. destruct (ahas k m) eqn:E.
  - apply aget_areplace. by apply ahas_elem.
  - apply aget_ainsert. by apply ahas_false.
Qed.

Lemma aget_aset_eq k v m : aget k (aset k v m) = v.
Proof. rewrite aget_aset. by rewrite bool_decide_eq_true_2. Qed.

Lemma aget_aset_ne k v m j : k ≠ j → aget j (aset k v m) = aget j m.
Proof. intros H. rewrite aget_aset. by rewrite bool_decide_eq_false_2. Qed.

Lemma aget_adel k m j : aget j (adel k m) = if bool_decide (k = j) then ANil else aget j m.
Proof.
  induction m as [|[i w] m IH]; [by case_bool_decide|]. cbn [adel].
  destruct (decide (i = k)) as [->|H].
  - rewrite bool_decide_eq_true_2 by done. rewrite IH. cbn [aget]. by case_bool_decide.
  - rewrite (bool_decide_eq_false_2 (i = k)) by done. cbn [aget]. rewrite IH.
    repeat case_bool_decide; try done; congruence.
Qed.

Lemma ainsert_keys k v m : (ainsert k v m).*1 ≡ₚ k :: m.*1.
Proof.
  induction m as [|[i w] m IH]; cbn [ainsert]; [done|].
  destruct (String.ltb k i); [done|]. rewrite !fmap_cons, IH. cbn [fst]. apply Permutation_swap.
Qed.

Lemma areplace_keys k v m : (areplace k v m).*1 = m.*1.
Proof.
  induction m as [|[i w] m IH]; cbn [areplace]; [done|].
  case_bool_decide; rewrite !fmap_cons; cbn [fst]; by rewrite ?IH; subst.
Qed.

Lemma aset_keys_nodup k v m : NoDup m.*1 → NoDup (aset k v m).*1.
Proof.
  intros H. unfold aset. destruct (ahas k m) eqn:E; [by rewrite areplace_keys|].
  rewrite ainsert_keys. constructor; [by apply ahas_false|done].
Qed.

Lemma wf_aset k v m :
  wf_any (AMap m) = true → utf8_valid k = true → wf_any v = true → wf_any (AMap (aset k v m)) = true.
Proof.
  cbn [wf_any]. intros Hm Hk Hv. unfold aset. destruct (ahas k m).
  - induction m as [|[i w] m IH]; [done|]. cbn [areplace forallb fst snd] in *. bools.
    case_bool_decide; cbn [forallb fst snd]; rewrite ?Hk, ?Hv, ?H, ?H1; cbn; auto.
  - induction m as [|[i w] m IH]; cbn [ainsert forallb fst snd] in *; [by rewrite Hk, Hv|]. bools.
    destruct (String.ltb k i); cbn [forallb fst snd]; rewrite ?Hk, ?Hv, ?H, ?H1; cbn; auto.
Qed.

(** A map a Go program can hold: distinct keys, writable values. *)
Definition good_map (m : gomap) : Prop := NoDup m.*1 ∧ wf_any (AMap m) = true.

Lemma good_nil : good_map [].
Proof. split; [constructor|done]. Qed.

Lemma good_aset k v m :
  good_map m → utf8_valid k = true → wf_any v = true → good_map (aset k v m).
Proof. intros [H1 H2] Hk Hv. split; [by apply aset_keys_nodup|by apply wf_aset]. Qed.

Lemma adel_subset k m p : p ∈ adel k m → p ∈ m.
Proof.
  induction m as [|[i w] m IH]; cbn [adel]; [done|].
  case_bool_decide; rewrite ?elem_of_cons; naive_solver.
Qed.

Lemma good_adel k m : good_map m → good_map (adel k m).
Proof.
  intros [H1 H2]. split.
  - induction m as [|[i w] m IH]; cbn [adel]; [constructor|].
    inversion H1 as [|? ? Hn Hd]; subst. cbn [wf_any forallb fst snd] in *. bools.
    specialize (IH Hd H0). case_bool_decide; [done|]. rewrite fmap_cons. constructor; [|done].
    intros Hin. apply Hn. apply list_elem_of_fmap in Hin as ([a b] & E & Hin).
    apply list_elem_of_fmap. exists (a, b). eauto using adel_subset.
  - clear H1. induction m as [|[i w] m IH]; [done|]. cbn [adel wf_any forallb fst snd] in *. bools.
    specialize (IH H0). case_bool_decide; [done|]. cbn [forallb fst snd]. by rewrite H, H1, IH.
Qed.

(** A map literal is the map of its entries. *)
Lemma good_amap l :
  forallb (λ p, utf8_valid p.1 && wf_any p.2) l = true → good_map (amap l).
Proof.
  intros H. unfold amap. assert (Hg : good_map []) by apply good_nil. revert Hg H.
  generalize (@nil (string * goany)) as m. induction l as [|[k v] l IH]; intros m Hg H; [done|].
  cbn in *. bools. apply IH; [by apply good_aset|done].
Qed.

(** ** Decoding gives well-formed values *)

Lemma rune_valid r : r ≠ EmptyString → rune_len r = String.length r → utf8_valid r = true.
Proof.
  destruct r as [|c s]; [done|]. intros _ Hl. rewrite utf8_valid_cons.
  rewrite bool_decide_eq_true_2 by (rewrite Hl; done). unfold rune_step. rewrite Hl.
  cbn [String.length Nat.max andb]. replace (sdrop _ _) with EmptyString; [done|].
  symmetry. pose proof (sdrop_length (String.length (String c s)) (String c s)) as H.
  rewrite Nat.sub_diag in H. simpl in *. by destruct (sdrop (String.length s) s).
Qed.

Lemma byte_of_ascii n : n < 256 → byte_of (ascii_of_N n) = n.
Proof. apply N_ascii_embedding. Qed.

#[local] Ltac Zify.zify_post_hook ::= Z.to_euclidean_division_equations.

Lemma rune_bytes_valid cp : utf8_valid (rune_bytes cp) = true.
Proof.
  unfold rune_bytes.
  destruct (cp <? 128) eqn:E1.
  { apply N.ltb_lt in E1. apply rune_valid; [done|]. unfold rune_len, sone.
    rewrite byte_of_ascii by lia. by rewrite (proj2 (N.ltb_lt _ _) E1). }
  apply N.ltb_ge in E1. destruct (cp <? 2048) eqn:E2.
  { apply N.ltb_lt in E2. apply rune_valid; [done|].
    unfold rune_len, sone, is_cont, in_range. rewrite !byte_of_ascii by lia.
    repeat (case_match; bools; rewrite ?andb_false_iff, ?N.leb_le, ?N.leb_gt, ?N.ltb_lt, ?N.ltb_ge in *; try done; try lia). }
  apply N.ltb_ge in E2. destruct ((55296 <=? cp) && (cp <=? 57343)) eqn:E3; [done|].
  rewrite andb_false_iff, !N.leb_gt in E3. destruct (cp <? 65536) eqn:E4.
  { apply N.ltb_lt in E4. apply rune_valid; [done|].
    unfold rune_len, sone, second_range, is_cont, in_range. rewrite !byte_of_ascii by lia.
    repeat (case_match; bools; rewrite ?andb_false_iff, ?N.leb_le, ?N.leb_gt, ?N.ltb_lt, ?N.ltb_ge, ?N.eqb_eq, ?N.eqb_neq in *; try done; try lia). }
  apply N.ltb_ge in E4. destruct (cp <? 1114112) eqn:E5; [|done].
  apply N.ltb_lt in E5. apply rune_valid; [done|].
  unfold rune_len, sone, second_range, is_cont, in_range. rewrite !byte_of_ascii by lia.
  repeat (case_match; bools; rewrite ?andb_false_iff, ?N.leb_le, ?N.leb_gt, ?N.ltb_lt, ?N.ltb_ge, ?N.eqb_eq, ?N.eqb_neq in *; try done; try lia).
Qed.

#[local] Ltac Zify.zify_post_hook ::= idtac.

Lemma unquote_copy_n n s :
  (n <= String.length s)%nat → unquote_go s n = stake n s +:+ unquote_go (sdrop n s) 0.
Proof.
  revert s. induction n as [|n IH]; intros s Hn; [done|].
  destruct s as [|c s]; [simpl in Hn; lia|]. cbn [unquote_go stake sdrop].
  rewrite sapp_cons, IH; [done|]. simpl in Hn. lia.
Qed.

Lemma stake_rune_valid c s :
  rune_len (String c s) ≠ 0%nat → utf8_valid (stake (rune_len (String c s)) (String c s)) = true.
Proof.
  intros H. pose proof (rune_len_stake c s) as Hs. pose proof (rune_len_le (String c s)) as Hl.
  apply rune_valid.
  - destruct (rune_len (String c s)); done.
  - rewrite Hs. by rewrite stake_length.
Qed.

Lemma simple_escape_ascii e x : simple_escape e = Some x → is_ascii x = true.
Proof. destruct e as [[] [] [] [] [] [] [] []]; intros [= <-]; done. Qed.

Lemma utf8_valid_cons_ascii c s : is_ascii c = true → utf8_valid s = true → utf8_valid (String c s) = true.
Proof.
  intros Hc Hs. change (String c s) with (sone c +:+ s). apply utf8_valid_app; [|done].
  apply utf8_valid_ascii. cbn. by rewrite Hc.
Qed.

Lemma unquote_valid s : utf8_valid (unquote_go s 0) = true.
Proof.
  remember (String.length s) as n eqn:Hn. revert s Hn.
  induction n as [n IH] using lt_wf_ind. intros [|c t] Hn; [done|].
  assert (Hrec : ∀ u, (String.length u < n)%nat → utf8_valid (unquote_go u 0) = true) by eauto.
  simpl in Hn. cbn [unquote_go]. case_bool_decide as Hb.
  - destruct t as [|e t1]; [done|]. simpl in Hn. case_bool_decide as Hu.
    + destruct t1 as [|h1 [|h2 [|h3 [|h4 t2]]]]; try done. simpl in Hn.
      destruct (hex4 h1 h2 h3 h4) as [cp|]; [|done]. destruct (is_surrogate cp).
      * assert (H2 : utf8_valid (rune_error +:+ unquote_go t2 0) = true).
        { apply utf8_valid_app; [done|]. apply Hrec. lia. }
        destruct t2 as [|b [|u [|g1 [|g2 [|g3 [|g4 t3]]]]]]; try exact H2. simpl in Hn.
        case_match; [|exact H2].
        apply utf8_valid_app; [apply rune_bytes_valid|]. apply Hrec. lia.
      * apply utf8_valid_app; [apply rune_bytes_valid|]. apply Hrec. lia.
    + destruct (simple_escape e) as [x|] eqn:Ex; [|done].
      apply utf8_valid_cons_ascii; [by eapply simple_escape_ascii|]. apply Hrec. lia.
  - destruct (rune_len (String c t)) as [|m] eqn:Em.
    + apply utf8_valid_app; [done|]. apply Hrec. lia.
    + pose proof (rune_len_le (String c t)) as Hl. rewrite Em in Hl. simpl in Hl.
      rewrite unquote_copy_n by lia. rewrite <- sapp_cons.
      apply utf8_valid_app.
      * change (String c (stake m t)) with (stake (S m) (String c t)). rewrite <- Em.
        apply stake_rune_valid. by rewrite Em.
      * apply Hrec. rewrite sdrop_length. lia.
Qed.

(** What parsing guarantees of its result. *)
Definition num_head (lit : string) : bool :=
  match lit with
  | String c t => is_digit c || (bool_decide (c = "-"%char) && starts_with_digit t)
  | EmptyString => false
  end.

Fixpoint json_ok (j : json) : bool :=
  match j with
  | JNum lit => num_head lit
  | JStr _ s => utf8_valid s
  | JArr l => forallb (λ p, json_ok p.2) l
  | JObj l => forallb (λ p, utf8_valid p.1 && json_ok p.2.2) l
  | _ => true
  end.

Lemma take_digits_digits s a r : take_digits s = (a, r) → sforall is_digit a = true.
Proof.
  revert a r. induction s as [|c s IH]; intros a r; cbn; [by intros [= <- <-]|].
  destruct (is_digit c) eqn:E; [|by intros [= <- <-]].
  destruct (take_digits s) as [b u]. intros [= <- <-]. cbn. rewrite E. by eapply IH.
Qed.

Lemma scan_int_head s i r : scan_int s = Some (i, r) → starts_with_digit i = true.
Proof.
  assert (Hg : ∀ a u, take_digits s = (a, u) → sempty a = false → starts_with_digit a = true).
  { intros a u H He. apply take_digits_digits in H. destruct a; [done|]. cbn in *. by bools. }
  intros H. unfold scan_int in H.
  destruct (take_digits s) as [a u] eqn:E.
  repeat case_match; simplify_eq; try done; by eapply Hg.
Qed.

Lemma scan_number_head s lit r : scan_number s = Some (lit, r) → num_head lit = true.
Proof.
  unfold scan_number. intros H.
  set (p := match s with String "-" t => ("-"%stdpp, t) | _ => (EmptyString, s) end) in *.
  assert (Hp : p.1 = EmptyString ∨ p.1 = "-"%stdpp).
  { unfold p. repeat case_match; auto. }
  destruct p as [sg t]. cbn in Hp.
  destruct (scan_int t) as [[i r1]|] eqn:Ei; [|done]. apply scan_int_head in Ei.
  destruct (scan_frac r1) as [[f r2]|]; [|done].
  destruct (scan_exp r2) as [[e r3]|]; [|done]. simplify_eq.
  destruct i as [|c i]; [done|]. cbn in Ei.
  destruct Hp as [->| ->]; rewrite ?sapp_nil_l, !sapp_cons; cbn [num_head starts_with_digit].
  - by rewrite Ei.
  - rewrite sapp_nil_l. cbn. by rewrite Ei.
Qed.

Lemma parse_ok fuel :
  (∀ s j r, parse_value fuel s = Some (j, r) → json_ok j = true) ∧
  (∀ s l r, parse_members fuel s = Some (l, r) → json_ok (JObj l) = true) ∧
  (∀ s l r, parse_elems fuel s = Some (l, r) → json_ok (JArr l) = true).
Proof.
  induction fuel as [|fuel (IHv & IHm & IHe)]; [done|]. split_and!.
  - intros [|c t] j r H; cbn [parse_value] in H; [done|].
    destruct (bool_decide (c = "{"%char)).
    { assert (Hm : ∀ u, match parse_members fuel u with Some (l, r) => Some (JObj l, r) | None => None end
                        = Some (j, r) → json_ok j = true).
      { intros u Hu. destruct (parse_members fuel u) as [[l r']|] eqn:E; [|done].
        simplify_eq. by eapply IHm. }
      repeat case_match; simplify_eq; eauto. }
    destruct (bool_decide (c = "["%char)).
    { assert (Hm : ∀ u, match parse_elems fuel u with Some (l, r) => Some (JArr l, r) | None => None end
                        = Some (j, r) → json_ok j = true).
      { intros u Hu. destruct (parse_elems fuel u) as [[l r']|] eqn:E; [|done].
        simplify_eq. by eapply IHe. }
      repeat case_match; simplify_eq; eauto. }
    destruct (bool_decide (c = quote_char)).
    { destruct (scan_string t) as [[raw r']|]; [|done]. simplify_eq. apply unquote_valid. }
    destruct (bool_decide (c = "n"%char)); [case_match; by simplify_eq|].
    destruct (bool_decide (c = "t"%char)); [case_match; by simplify_eq|].
    destruct (bool_decide (c = "f"%char)); [case_match; by simplify_eq|].
    destruct (scan_number (String c t)) as [[lit r']|] eqn:E; [|done]. simplify_eq.
    by eapply scan_number_head.
  - intros [|q t] l r H; cbn [parse_members] in H; [done|].
    destruct (bool_decide (q = quote_char)); [|done].
    destruct (scan_string t) as [[rk r1]|]; [|done].
    assert (Hs : ∃ r2, match parse_value fuel (skip_ws r2) with
      | None => None
      | Some (j, r3) =>
          match skip_ws r3 with
          | String "," r4 => match parse_members fuel (skip_ws r4) with
                             | Some (l, r5) => Some ((unquote rk, (slice (skip_ws r2) r3, j)) :: l, r5)
                             | None => None end
          | String "}" r4 => Some ([(unquote rk, (slice (skip_ws r2) r3, j))], r4)
          | _ => None end
      end = Some (l, r)).
    { destruct (skip_ws r1) as [|c r2]; [done|]. exists r2.
      destruct c as [[] [] [] [] [] [] [] []]; (discriminate H || exact H). }
    clear H. destruct Hs as [r2 H]. destruct (parse_value fuel (skip_ws r2)) as [[j r3]|] eqn:Ev; [|done].
    apply IHv in Ev.
    assert (Hl : ∃ l', l = (unquote rk, (slice (skip_ws r2) r3, j)) :: l' ∧ json_ok (JObj l') = true).
    { destruct (skip_ws r3) as [|d u]; [done|].
      destruct (parse_members fuel (skip_ws u)) as [[l' r5]|] eqn:Em;
        destruct d as [[] [] [] [] [] [] [] []]; simplify_eq; eexists; (split; [done|]);
        try done; by eapply IHm. }
    destruct Hl as (l' & -> & Hl). cbn [json_ok forallb fst snd] in *.
    rewrite Ev, Hl. unfold unquote. by rewrite unquote_valid.
  - intros s l r H; cbn [parse_elems] in H.
    destruct (parse_value fuel s) as [[j r1]|] eqn:Ev; [|done]. apply IHv in Ev.
    assert (Hl : ∃ l', l = (slice s r1, j) :: l' ∧ json_ok (JArr l') = true).
    { destruct (skip_ws r1) as [|d u]; [done|].
      destruct (parse_elems fuel (skip_ws u)) as [[l' r5]|] eqn:Em;
        destruct d as [[] [] [] [] [] [] [] []]; simplify_eq; eexists; (split; [done|]);
        try done; by eapply IHe. }
    destruct Hl as (l' & -> & Hl). cbn [json_ok forallb snd] in *. by rewrite Ev, Hl.
Qed.

Lemma parse_json_ok s j : parse_json s = Some j → json_ok j = true.
Proof.
  unfold parse_json. intros H.
  destruct (parse_value _ _) as [[j' r]|] eqn:E; [|done]. case_match; simplify_eq.
  by eapply (proj1 (parse_ok _)).
Qed.

(** *** Numbers decode to finite floats *)

Lemma EqualFold_head c t s :
  is_digit c = true ∨ c = "-"%char → s = "inf" ∨ s = "infinity" ∨ s = "nan" →
  EqualFold (String c t) s = false.
Proof.
  intros Hc Hs. unfold EqualFold. apply bool_decide_eq_false. intros E.
  assert (Ha : is_ascii c = true).
  { destruct Hc as [Hc| ->]; [|done]. apply is_digit_inv in Hc. unfold is_ascii. apply N.ltb_lt. lia. }
  rewrite runes_ascii_cons in E by done. cbn [map] in E.
  assert (Hf : rune_fold (sone c) = sone c).
  { destruct Hc as [Hc| ->]; [|done].
    destruct (is_digit_cases c Hc) as [->|[->|[->|[->|[->|[->|[->|[->|[->| ->]]]]]]]]]; done. }
  rewrite Hf in E. destruct Hs as [->|[->| ->]];
    (injection E as E _; destruct Hc as [Hc| ->]; [|discriminate E]; subst; done).
Qed.

Lemma special_float_num lit : num_head lit = true → special_float lit = None.
Proof.
  intros H. destruct lit as [|c t]; [done|]. cbn in H. unfold special_float.
  assert (Hn : EqualFold (String c t) "nan" = false).
  { apply EqualFold_head; [|auto]. apply orb_true_iff in H as [H|H]; [auto|]. bools. auto. }
  assert (Ht : EqualFold (split_sign (String c t)).2 "inf" = false
               ∧ EqualFold (split_sign (String c t)).2 "infinity" = false).
  { apply orb_true_iff in H as [H|H].
    - assert (Hsp : split_sign (String c t) = (false, String c t)).
      { destruct (is_digit_cases c H) as [->|[->|[->|[->|[->|[->|[->|[->|[->| ->]]]]]]]]]; done. }
      rewrite Hsp. cbn [snd]. split; apply EqualFold_head; auto.
    - bools. subst c. cbn [split_sign snd]. destruct t as [|d t]; [done|]. cbn in H0.
      split; apply EqualFold_head; auto. }
  destruct (split_sign (String c t)) as [sg u]. cbn [snd] in Ht. destruct Ht as [-> ->]. by rewrite Hn.
Qed.

Lemma round_ratio_not_nan neg n d : round_ratio neg n d ≠ NaN.
Proof.
  unfold round_ratio, mk_fin. repeat (case_match; try done).
Qed.

Lemma finish_float_finite neg v b e x : finish_float neg v b e = (x, true) → is_finite x = true.
Proof.
  unfold finish_float. destruct (pow_ratio v b e) as [n d].
  pose proof (round_ratio_not_nan neg n d). destruct (round_ratio neg n d); intros [= <-]; done.
Qed.

Lemma ParseFloat_finite lit x : num_head lit = true → ParseFloat lit = (x, true) → is_finite x = true.
Proof.
  intros Hh H. unfold ParseFloat in H. rewrite special_float_num in H by done.
  repeat case_match; simplify_eq; by eapply finish_float_finite.
Qed.

Lemma foldl_aset_wf (l : list (string * (goany * bool))) m :
  wf_any (AMap m) = true →
  forallb (λ p, utf8_valid p.1 && wf_any p.2.1) l = true →
  wf_any (AMap (foldl (λ m p, aset p.1 p.2.1 m) m l)) = true.
Proof.
  revert m. induction l as [|[k [v b]] l IH]; intros m Hm H; [done|].
  cbn [foldl forallb fst snd] in *. bools. apply IH; [|done]. by apply wf_aset.
Qed.

Lemma to_any_wf j : json_ok j = true → wf_any (to_any j).1 = true.
Proof.
  induction j as [|b|lit|raw s|l IH|l IH] using json_ind'; intros H; try done.
  - cbn [to_any]. destruct (ParseFloat lit) as [x []] eqn:E; [|done].
    cbn. by eapply ParseFloat_finite.
  - cbn [to_any fst wf_any]. cbn [json_ok] in H.
    induction IH as [|[raw j] l Hj _ IHl]; [done|]. cbn in *. bools. by rewrite Hj, IHl.
  - cbn [to_any fst]. cbn [json_ok] in H. apply foldl_aset_wf; [done|].
    induction IH as [|[k [raw j]] l Hj _ IHl]; [done|]. cbn in *. bools.
    by rewrite H, Hj, IHl.
Qed.

Lemma foldl_aset_nodup (l : list (string * (goany * bool))) m :
  NoDup m.*1 → NoDup (foldl (λ m p, aset p.1 p.2.1 m) m l).*1.
Proof.
  revert m. induction l as [|[k [v b]] l IH]; intros m Hm; [done|].
  apply IH. by apply aset_keys_nodup.
Qed.

(** A decoded map can be changed and written again. *)
Lemma unmarshal_map_good raw m ok : unmarshal_map raw = (Some m, ok) → good_map m.
Proof.
  unfold unmarshal_map. intros H. destruct (parse_json raw) as [j|] eqn:E; [|done].
  apply parse_json_ok in E. destruct j as [| | | | |l]; simplify_eq.
  pose proof (to_any_wf _ E) as Hw. cbn [to_any] in *. simplify_eq. split; [|done].
  apply foldl_aset_nodup. constructor.
Qed.

(** ** What is read back from a written map *)

Lemma last_of_nodup {A} k (l : list (string * A)) v :
  NoDup l.*1 → (k, v) ∈ l → last_of k l = Some v.
Proof.
  induction l as [|[j w] l IH]; intros Hn Hin; [by apply not_elem_of_nil in Hin|].
  rewrite fmap_cons in Hn. inversion Hn as [|? ? Hj Hd]; subst. cbn [last_of].
  apply elem_of_cons in Hin as [[= <- <-]|Hin].
  - destruct (last_of k l) eqn:E; [|by rewrite bool_decide_eq_true_2].
    exfalso. apply Hj. clear -E. induction l as [|[i u] l IH]; [done|]. cbn in *.
    rewrite elem_of_cons. destruct (last_of k l); [right; eauto|]. case_bool_decide; [by left|done].
  - by rewrite IH.
Qed.

Lemma last_of_absent {A} k (l : list (string * A)) : k ∉ l.*1 → last_of k l = None.
Proof.
  induction l as [|[j w] l IH]; [done|]. rewrite fmap_cons, not_elem_of_cons. cbn.
  intros [H1 H2]. rewrite IH by done. by rewrite bool_decide_eq_false_2 by congruence.
Qed.

Lemma aget_elem k m : k ∈ m.*1 → (k, aget k m) ∈ m.
Proof.
  induction m as [|[j w] m IH]; [by intros ?%not_elem_of_nil|]. rewrite fmap_cons, !elem_of_cons. cbn.
  intros [->|H]; [rewrite bool_decide_eq_true_2 by done; by left|].
  case_bool_decide; [subst; by left|right; auto].
Qed.

Lemma aget_absent k m : k ∉ m.*1 → aget k m = ANil.
Proof.
  induction m as [|[j w] m IH]; [done|]. rewrite fmap_cons, not_elem_of_cons. cbn.
  intros [H1 H2]. rewrite bool_decide_eq_false_2 by congruence. auto.
Qed.

Lemma parse_marshal_map m :
  good_map m → parse_json (marshal (AMap m)) = Some (JObj (map (λ p, (p.1, (marshal p.2, ann p.2))) m)).
Proof. intros [_ Hw]. by rewrite parse_marshal. Qed.

(** The member a key of a written map holds. *)
Lemma rawmap_marshal m :
  good_map m → unmarshal_rawmap (marshal (AMap m)) = Some (Some (map (λ p, (p.1, marshal p.2)) m)).
Proof.
  intros Hm. unfold unmarshal_rawmap. rewrite parse_marshal_map by done.
  do 2 f_equal. by rewrite map_map.
Qed.

Lemma last_of_map {A} (f : goany → A) k m :
  NoDup m.*1 →
  last_of k (map (λ p, (p.1, f p.2)) m) = if ahas k m then Some (f (aget k m)) else None.
Proof.
  intros Hn. assert (Hk : (map (λ p, (p.1, f p.2)) m).*1 = m.*1).
  { clear. induction m as [|[j w] m IH]; [done|]. cbn. by f_equal. }
  destruct (ahas k m) eqn:E.
  - apply ahas_elem in E. apply last_of_nodup; [by rewrite Hk|].
    apply aget_elem in E. apply list_elem_of_In, in_map_iff. exists (k, aget k m).
    split; [done|]. by apply list_elem_of_In.
  - apply ahas_false in E. apply last_of_absent. by rewrite Hk.
Qed.

(** Nothing is written as nothing, and no written value is the text [null] but nil. *)
Lemma marshal_nonempty a : wf_any a = true → marshal a ≠ EmptyString.
Proof. intros Hw. destruct (marshal_head a Hw) as (c & t & -> & _). done. Qed.

Lemma unmarshal_string_marshal s : utf8_valid s = true → unmarshal_string (marshal (AStr s)) = Some s.
Proof. intros Hs. unfold unmarshal_string. by rewrite parse_marshal. Qed.

Create HintDb go_json.
#[export] Hint Resolve good_nil good_aset good_adel unmarshal_map_good rune_bytes_valid : go_json.
#[export] Hint Resolve parse_json_ok to_any_wf marshal_nonempty : go_json.
