(* ===== verification/GoReadback.v ===== *)
(** * Values that go through a text and back

    Facts on the models of encoding/json and strconv that a component needs when it keeps a
    JSON text inside a field of another payload: the text of a value is valid UTF-8, an
    integer below 2^53 comes back through [float64] as itself, and the members of a written
    map come back one by one. *)
From S2P Require Import Prelude GoStrings GoFloat GoJson GoJsonFacts.

Local Open Scope Z_scope.

(** ** Written text is valid UTF-8 *)

Lemma hex_char_ascii n : (n < 16)%N → is_ascii (hex_char n) = true.
Proof.
  intros H. unfold is_ascii, hex_char. apply N.ltb_lt.
  destruct (n <? 10)%N eqn:E; [apply N.ltb_lt in E|apply N.ltb_ge in E]; rewrite byte_of_ascii by lia; lia.
Qed.

Lemma u00_valid c : utf8_valid (u00 c) = true.
Proof.
  apply utf8_valid_ascii. unfold u00. cbn [sforall]. rewrite sforall_app. cbn [sforall sone].
  assert (byte_of c < 256)%N by apply N_ascii_bounded.
  rewrite !hex_char_ascii; [done|apply N.mod_lt; lia|apply N.Div0.div_lt_upper_bound; lia].
Qed.

Lemma quote_rune_valid c s : utf8_valid (quote_rune (first_rune c s)) = true.
Proof.
  unfold first_rune. destruct (decide (rune_len (String c s) = 0%nat)) as [E|E].
  { unfold rune_step. rewrite E. cbn [Nat.max stake]. pose proof (rune_len_0_high c s E) as H.
    unfold quote_rune. rewrite H. done. }
  pose proof (stake_rune_valid c s) as V. unfold rune_step in *.
  destruct (rune_len (String c s)) as [|n] eqn:L; [done|]. change (Nat.max 1 (S n)) with (S n) in *.
  cbn [stake] in *. destruct (stake n s) as [|d t] eqn:T.
  - unfold quote_rune.
    repeat match goal with |- context [if ?b then _ else _] => destruct b eqn:? end;
      try (vm_compute; reflexivity); try apply u00_valid.
    + apply utf8_valid_ascii. cbn. rewrite andb_true_r. unfold is_ascii.
      apply orb_true_iff in Heqb0 as [H|H]; apply N.eqb_eq in H; rewrite H; done.
    + apply utf8_valid_ascii. cbn. rewrite andb_true_r. unfold is_ascii. apply N.ltb_lt. apply N.leb_gt in Heqb. done.
  - unfold quote_rune. repeat case_bool_decide; [vm_compute; reflexivity..|]. rewrite <- T in *. apply V; done.
Qed.

Lemma quote_body_valid s : utf8_valid (quote_body s) = true.
Proof.
  induction s as [|c s IH] using rune_ind; [done|]. rewrite quote_body_cons.
  apply utf8_valid_app; [apply quote_rune_valid|done].
Qed.

Lemma utf8_valid_sconcat l : forallb utf8_valid l = true → utf8_valid (sconcat l) = true.
Proof. induction l as [|x l IH]; cbn; [done|]. intros H. bools. apply utf8_valid_app; auto. Qed.

Lemma quote_valid s : utf8_valid (quote s) = true.
Proof.
  unfold quote. apply utf8_valid_cons_ascii; [done|]. apply utf8_valid_app; [apply quote_body_valid|done].
Qed.

Lemma Join_valid sep l : utf8_valid sep = true → Forall (λ s, utf8_valid s = true) l → utf8_valid (Join sep l) = true.
Proof.
  intros Hs. induction 1 as [|x l Hx Hl IH]; [done|]. cbn [Join]. destruct l; [done|].
  by repeat apply utf8_valid_app.
Qed.

Lemma digits_ascii s : sforall is_digit s = true → sforall is_ascii s = true.
Proof. apply sforall_impl. intros c H. by destruct (is_digit_cases c H) as [->|[->|[->|[->|[->|[->|[->|[->|[->| ->]]]]]]]]]. Qed.

Lemma all_digits_ascii s : all_digits s = true → sforall is_ascii s = true.
Proof. intros H. apply all_digits_inv in H as (_ & _ & _ & _ & H). by apply digits_ascii. Qed.

Lemma json_number_ascii s : json_number s → sforall is_ascii s = true.
Proof.
  intros (neg & i & f & e & -> & Hi & Hf & He). unfold number_lit. rewrite !sforall_app.
  apply andb_true_iff in Hi as [Hi _]. rewrite (all_digits_ascii i Hi). cbn [andb].
  assert (sforall is_ascii (sign_str neg) = true) as -> by (by destruct neg).
  assert (sforall is_ascii f = true) as ->.
  { destruct f as [|c f]; [done|]. cbn in *. bools. subst c. by rewrite all_digits_ascii. }
  destruct e as [|c [|g e]]; [done..|]. cbn in *. apply andb_true_iff in He as [He Hd].
  apply andb_true_iff in He as [Hc Hg]. apply orb_true_iff in Hg. bools. subst c.
  rewrite (all_digits_ascii e) by done. by destruct Hg as [Hg|Hg]; bools; subst g.
Qed.

Lemma marshal_valid a : wf_any a = true → utf8_valid (marshal a) = true.
Proof.
  induction a as [|[]|z|x|s|l IH|m IH] using goany_ind'; cbn [wf_any marshal]; intros H; try reflexivity.
  - apply Z_to_dec_valid.
  - apply utf8_valid_ascii, json_number_ascii, json_number_f64, H.
  - apply quote_valid.
  - apply utf8_valid_cons_ascii; [done|]. apply utf8_valid_app; [|done]. apply Join_valid; [done|].
    apply Forall_map. rewrite Forall_forall in *. rewrite forallb_forall in H.
    intros x Hx. apply IH; [done|]. by apply H, list_elem_of_In.
  - apply utf8_valid_cons_ascii; [done|]. apply utf8_valid_app; [|done]. apply Join_valid; [done|].
    apply Forall_map. rewrite Forall_forall in *. rewrite forallb_forall in H.
    intros x Hx. apply utf8_valid_app; [apply quote_valid|]. apply utf8_valid_cons_ascii; [done|].
    apply IH; [done|]. apply list_elem_of_In, H in Hx. by bools.
Qed.

(** The text of an array has no white space around it. *)
Lemma TrimSpace_array l : wf_any (AArr l) = true → TrimSpace (marshal (AArr l)) = marshal (AArr l).
Proof.
  intros Hw. assert (utf8_valid (String "[" (Join "," (map marshal l))) = true) as Hv.
  { apply utf8_valid_cons_ascii; [done|]. apply Join_valid; [done|]. apply Forall_map.
    cbn [wf_any] in Hw. rewrite forallb_forall in Hw. apply Forall_forall. intros x Hx.
    by apply marshal_valid, Hw, list_elem_of_In. }
  cbn [marshal]. rewrite <- sapp_cons. apply TrimSpace_id; rewrite runes_app by done; intros r.
  - rewrite runes_ascii_cons by done. by intros [= <-].
  - rewrite last_app. by intros [= <-].
Qed.

(** ** Integers below 2^53 through [float64] *)

Lemma strip_twos_value p e : ∀ n f, strip_twos p e = (n, f) → e <= f ∧ Zpos p = Z.of_N n * 2 ^ (f - e).
Proof.
  revert e. induction p as [p IH|p IH|]; intros e n f; cbn [strip_twos].
  - intros [= <- <-]. split; [lia|]. rewrite Z.sub_diag. lia.
  - intros H. destruct (IH _ _ _ H) as [Hle Hp]. split; [lia|].
    replace (f - e) with (1 + (f - (e + 1))) by lia. rewrite Z.pow_add_r by lia.
    change (2 ^ 1) with 2. rewrite (Pos2Z.inj_xO p), Hp. ring.
  - intros [= <- <-]. split; [lia|]. rewrite Z.sub_diag. lia.
Qed.

Lemma mk_fin_int64 z k : 0 < z < two63 → 0 <= k → f64_to_int64 (mk_fin false (z * 2 ^ k) (- k)) = z.
Proof.
  intros Hz Hk. assert (0 < 2 ^ k) as Hk2 by (by apply Z.pow_pos_nonneg).
  unfold mk_fin. destruct (z * 2 ^ k) as [|p|p] eqn:E; [nia| |nia].
  destruct (strip_twos p (- k)) as [n f] eqn:S. apply strip_twos_value in S as [Hf Hp]. rewrite Hp in E. clear Hp p.
  assert (in_int64 z) as Hi by (unfold in_int64; lia).
  cbn [f64_to_int64]. unfold ratio. destruct (0 <=? f) eqn:F; bools.
  - assert (Z.of_N n * 2 ^ f = z) as ->.
    { replace (f - - k) with (f + k) in E by lia. rewrite Z.pow_add_r in E by lia. nia. }
    rewrite Z.div_1_r. by rewrite bool_decide_true.
  - assert (Z.of_N n = z * 2 ^ (- f)) as ->.
    { assert (2 ^ k = 2 ^ (- f) * 2 ^ (f - - k)) as Ek by (rewrite <- Z.pow_add_r by lia; f_equal; lia).
      assert (0 < 2 ^ (f - - k)) by (apply Z.pow_pos_nonneg; lia). rewrite Ek in E. nia. }
    rewrite Z.div_mul by (apply Z.pow_nonzero; lia). by rewrite bool_decide_true.
Qed.

Lemma round_half_even_1 n : round_half_even n 1 = n.
Proof. unfold round_half_even. rewrite Z.div_1_r, Z.mod_1_r. done. Qed.

Lemma round_ratio_small z : 0 < z < 2 ^ 53 → round_ratio false z 1 = mk_fin false (z * 2 ^ (52 - Z.log2 z)) (- (52 - Z.log2 z)).
Proof.
  intros Hz. unfold round_ratio. rewrite (proj2 (Z.eqb_neq z 0)) by lia.
  assert (0 <= Z.log2 z < 53) as Hl by (split; [apply Z.log2_nonneg|apply Z.log2_lt_pow2; lia]).
  destruct (Z.log2_spec z) as [H1 H2]; [lia|]. change (Z.log2 1) with 0. unfold scale.
  rewrite (proj2 (Z.leb_le _ 0)) by lia. rewrite Z.div_1_r.
  replace (- (Z.log2 z - 0 - 53)) with (53 - Z.log2 z) by lia.
  assert (2 ^ 53 <= z * 2 ^ (53 - Z.log2 z)) as Hbig.
  { replace 53 with (Z.log2 z + (53 - Z.log2 z)) at 1 by lia. rewrite Z.pow_add_r by lia.
    apply Z.mul_le_mono_nonneg_r; [apply Z.pow_nonneg; lia|done]. }
  rewrite (proj2 (Z.ltb_ge _ _)) by done.
  replace (Z.max _ _) with (Z.log2 z - 52) by lia.
  rewrite (proj2 (Z.leb_le _ 0)) by lia. rewrite round_half_even_1.
  replace (- (Z.log2 z - 52)) with (52 - Z.log2 z) by lia.
  rewrite (proj2 (Z.ltb_ge 971 _)) by lia. rewrite (proj2 (Z.eqb_neq _ 971)) by lia. cbn [orb andb].
  f_equal; lia.
Qed.

Lemma scan_mantissa_digits s : ∀ v, 0 <= v → sforall is_digit s = true →
  scan_mantissa 10 s v 0 false true
  = {| mt_val := Z.of_N (digits_val (Z.to_N v) s); mt_frac := 0; mt_digits := true; mt_rest := EmptyString |}.
Proof.
  induction s as [|c s IH]; intros v Hv H; cbn [scan_mantissa digits_val].
  { by rewrite Z2N.id. }
  cbn [sforall] in H. apply andb_true_iff in H as [Hc Hs].
  assert (bool_decide (c = "_"%char) = false ∧ bool_decide (c = "."%char) = false
          ∧ digit_in 10 c = Some (Z.of_N (digit_val c))) as (-> & -> & ->).
  { by destruct (is_digit_cases c Hc) as [->|[->|[->|[->|[->|[->|[->|[->|[->| ->]]]]]]]]]. }
  rewrite IH by (lia || done). do 3 f_equal. lia.
Qed.

Lemma underscores_digits s saw : sforall is_digit s = true → s ≠ EmptyString ∨ saw = SawDigit → underscores_ok false s saw = true.
Proof.
  revert saw. induction s as [|c s IH]; intros saw H Hs; cbn [underscores_ok]; [by destruct Hs; subst|].
  cbn [sforall] in H. apply andb_true_iff in H as [Hc H].
  assert (digit_in 10 c = Some (Z.of_N (digit_val c))) as ->
    by (by destruct (is_digit_cases c Hc) as [->|[->|[->|[->|[->|[->|[->|[->|[->| ->]]]]]]]]]).
  apply IH; auto.
Qed.

Lemma ParseFloat_digits s : all_digits s = true →
  ParseFloat s = finish_float false (Z.of_N (digits_val 0 s)) 10 0.
Proof.
  intros H. apply all_digits_inv in H as (c & t & -> & Hc & H). unfold ParseFloat.
  rewrite special_float_num by (unfold num_head; by rewrite Hc).
  rewrite split_sign_digits by (unfold all_digits; by rewrite H).
  assert (hex_prefix (String c t) = None) as ->.
  { destruct (is_digit_cases c Hc) as [->|[->|[->|[->|[->|[->|[->|[->|[->| ->]]]]]]]]]; try done.
    destruct t as [|d t]; [done|]. cbn [sforall] in H. bools.
    by destruct (is_digit_cases d H0) as [->|[->|[->|[->|[->|[->|[->|[->|[->| ->]]]]]]]]]. }
  assert (scan_mantissa 10 (String c t) 0 0 false false
    = {| mt_val := Z.of_N (digits_val 0 (String c t)); mt_frac := 0; mt_digits := true; mt_rest := EmptyString |}) as E.
  { pose proof H as H'. cbn [sforall] in H'. apply andb_true_iff in H' as [_ H'].
    cbn [scan_mantissa digits_val].
    assert (bool_decide (c = "_"%char) = false ∧ bool_decide (c = "."%char) = false
            ∧ digit_in 10 c = Some (Z.of_N (digit_val c))) as (-> & -> & ->).
    { by destruct (is_digit_cases c Hc) as [->|[->|[->|[->|[->|[->|[->|[->|[->| ->]]]]]]]]]. }
    rewrite scan_mantissa_digits by (lia || done). do 3 f_equal. lia. }
  rewrite E. cbn [mt_digits mt_rest mt_val mt_frac negb parse_exponent sempty orb].
  change (10 =? 16) with false. cbn iota.
  rewrite underscores_digits by (done || by left). done.
Qed.

(** A number of the program's own below 2^53 is itself after a trip through JSON. *)
Lemma ParseFloat_dec z : 0 <= z < 2 ^ 53 → ∃ x, ParseFloat (Z_to_dec z) = (x, true) ∧ f64_to_int64 x = z.
Proof.
  intros Hz. assert (Z_to_dec z = N_to_dec (Z.to_N z)) as -> by (destruct z; [done|done|lia]).
  rewrite ParseFloat_digits by apply N_to_dec_digits. rewrite N_to_dec_val, Z2N.id by lia.
  unfold finish_float, pow_ratio. cbn [Z.leb Z.compare]. rewrite Z.mul_1_r.
  destruct (decide (z = 0)) as [->|Hnz]; [by exists (Fin false 0 0)|].
  rewrite round_ratio_small by lia.
  assert (0 <= Z.log2 z < 53) as Hl by (split; [apply Z.log2_nonneg|apply Z.log2_lt_pow2; lia]).
  assert (f64_to_int64 (mk_fin false (z * 2 ^ (52 - Z.log2 z)) (- (52 - Z.log2 z))) = z) as Hi.
  { apply mk_fin_int64; [unfold two63; lia|lia]. }
  unfold mk_fin in *. destruct (z * 2 ^ (52 - Z.log2 z)) as [|p|p]; [eauto| |eauto].
  destruct (strip_twos p _) as [n f]. eauto.
Qed.

(** ** Members of a written map *)

Lemma mapM_step {A B} (f : A → option B) x l : mapM f (x :: l) = (f x ≫= λ y, mapM f l ≫= λ k, Some (y :: k)).
Proof. done. Qed.

Lemma foldl_aset_get (l : list (string * (goany * bool))) m k :
  NoDup l.*1 →
  aget k (foldl (λ m p, aset p.1 p.2.1 m) m l) = match last_of k l with Some v => v.1 | None => aget k m end.
Proof.
  intros Hn. revert m. induction l as [|[j v] l IH]; intros m; [done|]. rewrite fmap_cons in Hn. inversion_clear Hn as [|? ? Hj Hd].
  cbn [foldl fst snd last_of]. rewrite IH by done. destruct (last_of k l); [done|]. by rewrite aget_aset; case_bool_decide.
Qed.

(** What decoding makes of a value that was written. *)
Definition back (a : goany) : goany := (to_any (ann a)).1.
Definition back_ok (a : goany) : bool := (to_any (ann a)).2.

Definition back_map (m : gomap) : gomap :=
  foldl (λ m p, aset p.1 p.2.1 m) [] (map (λ p, (p.1, to_any (ann p.2))) m).

Lemma forallb_map {A B} (f : A → B) (P : B → bool) l : forallb P (map f l) = forallb (λ x, P (f x)) l.
Proof. induction l as [|x l IH]; [done|]. cbn. by rewrite IH. Qed.

Lemma to_any_map m : to_any (ann (AMap m)) = (AMap (back_map m), forallb (λ p, back_ok p.2) m).
Proof.
  cbn [ann to_any]. rewrite map_map, forallb_map. done.
Qed.

Lemma to_any_arr l : to_any (ann (AArr l)) = (AArr (map back l), forallb back_ok l).
Proof. cbn [ann to_any]. rewrite !map_map, forallb_map. done. Qed.

Lemma aget_back m k : NoDup m.*1 → aget k (back_map m) = back (aget k m).
Proof.
  intros Hn. unfold back_map. set (l := map _ m).
  assert (l.*1 = m.*1) as El.
  { subst l. clear. induction m as [|p m IH]; [done|]. cbn. by f_equal. }
  rewrite foldl_aset_get by (by rewrite El). subst l.
  rewrite (last_of_map (λ a, to_any (ann a))) by done.
  destruct (ahas k m) eqn:A; [done|]. apply ahas_false in A. rewrite (aget_absent k m) by done. reflexivity.
Qed.

(** A property of the values of a map survives assignments. *)
Lemma forallb_aset (P : goany → bool) k v m :
  forallb (λ p, P p.2) m = true → P v = true → forallb (λ p, P p.2) (aset k v m) = true.
Proof.
  intros Hm Hv. unfold aset. destruct (ahas k m).
  - induction m as [|[j w] m IH]; [done|]. cbn [areplace forallb snd] in *. bools.
    case_bool_decide; cbn [forallb snd]; rewrite ?Hv, ?H, ?H0; cbn; auto.
  - induction m as [|[j w] m IH]; cbn [ainsert forallb snd] in *; [by rewrite Hv|]. bools.
    destruct (String.ltb k j); cbn [forallb snd]; rewrite ?Hv, ?H, ?H0; cbn; auto.
Qed.

Lemma forallb_amap (P : goany → bool) l : forallb (λ p, P p.2) l = true → forallb (λ p, P p.2) (amap l) = true.
Proof.
  unfold amap. intros H. assert (forallb (λ p : string * goany, P p.2) [] = true) as H0 by done. revert H0 H.
  generalize (@nil (string * goany)) as m. induction l as [|[k v] l IH]; intros m Hm H; [done|].
  cbn [foldl forallb snd] in *. bools. apply IH; [by apply forallb_aset|done].
Qed.

Lemma back_ok_map m : forallb (λ p, back_ok p.2) m = true → to_any (ann (AMap m)) = (AMap (back_map m), true).
Proof. intros H. rewrite to_any_map. by rewrite H. Qed.

Lemma back_map_val m : back (AMap m) = AMap (back_map m).
Proof. unfold back. by rewrite to_any_map. Qed.

Lemma back_arr l : back (AArr l) = AArr (map back l).
Proof. unfold back. by rewrite to_any_arr. Qed.

Lemma back_ok_arr l : back_ok (AArr l) = forallb back_ok l.
Proof. unfold back_ok. by rewrite to_any_arr. Qed.

Lemma back_ok_amap m : back_ok (AMap m) = forallb (λ p, back_ok p.2) m.
Proof. unfold back_ok at 1. by rewrite to_any_map. Qed.

Lemma back_dec z : 0 <= z < 2 ^ 53 → back_ok (AInt z) = true ∧ ∃ x, back (AInt z) = AFloat x ∧ f64_to_int64 x = z.
Proof.
  intros Hz. destruct (ParseFloat_dec z Hz) as (x & E & Hx). unfold back_ok, back. cbn [ann to_any]. rewrite E. eauto.
Qed.

(** ** Maps that read back as they were *)

(** Assignments under other keys leave the members that a choice of keys selects. *)
Lemma filter_aset (P : string → bool) k v m :
  P k = false → List.filter (λ p, P p.1) (aset k v m) = List.filter (λ p, P p.1) m.
Proof.
  intros Hk. unfold aset. destruct (ahas k m).
  - induction m as [|[j w] m IH]; [done|]. cbn [areplace]. case_bool_decide as E; cbn [List.filter fst]; [by subst; rewrite Hk|by rewrite IH].
  - induction m as [|[j w] m IH]; cbn [ainsert]; [cbn; by rewrite Hk|].
    destruct (String.ltb k j); cbn [List.filter fst]; [by rewrite Hk|by rewrite IH].
Qed.

Lemma string_ltb_ge a b : String.ltb a b = false ↔ String.le b a.
Proof.
  unfold String.le, String.leb, String.ltb. rewrite (String.compare_antisym a b).
  destruct (String.compare b a); cbn; naive_solver.
Qed.

Lemma string_ltb_le a b : String.ltb a b = true → String.le a b.
Proof. unfold String.le, String.leb, String.ltb. by destruct (String.compare a b). Qed.

(** Members in the order of their keys, as a decoded map has them. *)
Definition key_sorted (m : gomap) : Prop := StronglySorted String.le m.*1 ∧ NoDup m.*1.

Lemma key_sorted_aset k v m : key_sorted m → key_sorted (aset k v m).
Proof.
  intros [Hs Hn]. split; [|by apply aset_keys_nodup]. unfold aset. destruct (ahas k m); [by rewrite areplace_keys|]. clear Hn.
  induction m as [|[j w] m IH]; cbn [ainsert]; [repeat constructor|].
  rewrite fmap_cons in Hs. cbn [fst] in Hs. apply StronglySorted_inv in Hs as [Hs Hj].
  destruct (String.ltb k j) eqn:E; rewrite !fmap_cons; cbn [fst].
  - apply string_ltb_le in E. constructor; [by constructor|]. constructor; [done|].
    eapply Forall_impl; [exact Hj|]. intros i Hi. by etrans.
  - apply string_ltb_ge in E. constructor; [by apply IH|]. rewrite ainsert_keys. by constructor.
Qed.

Lemma key_sorted_foldl (l : list (string * (goany * bool))) m :
  key_sorted m → key_sorted (foldl (λ m p, aset p.1 p.2.1 m) m l).
Proof. revert m. induction l as [|p l IH]; intros m H; [done|]. cbn. by apply IH, key_sorted_aset. Qed.

Lemma unmarshal_map_sorted raw m : unmarshal_map raw = (Some m, true) → key_sorted m.
Proof.
  unfold unmarshal_map. destruct (parse_json raw) as [[]|]; try done. cbn [to_any]. intros H.
  assert (m = foldl (λ m p, aset p.1 p.2.1 m) [] (map (λ p, (p.1, to_any p.2.2)) l)) as -> by (by injection H).
  apply key_sorted_foldl. split; constructor.
Qed.

Lemma ainsert_last k v m : Forall (λ j, String.le j k) m.*1 → ainsert k v m = m ++ [(k, v)].
Proof.
  induction m as [|[j w] m IH]; [done|]. rewrite fmap_cons. inversion_clear 1 as [|? ? Hj Hm]. cbn in *.
  apply string_ltb_ge in Hj. rewrite Hj. by rewrite IH.
Qed.

Lemma foldl_aset_last (f : goany → goany * bool) l : ∀ m, key_sorted (m ++ l) →
  foldl (λ m p, aset p.1 p.2.1 m) m (map (λ p, (p.1, f p.2)) l) = m ++ map (λ p, (p.1, (f p.2).1)) l.
Proof.
  induction l as [|[k v] l IH]; intros m [Hs Hn]; [by rewrite app_nil_r|]. cbn [map foldl fst snd].
  assert (k ∉ m.*1) as Hk.
  { rewrite fmap_app, NoDup_app in Hn. destruct Hn as (_ & Hd & _). intros H. apply (Hd k H). left. }
  assert (Forall (λ j, String.le j k) m.*1) as Hle.
  { clear -Hs. rewrite fmap_app in Hs. induction m as [|[j w] m IH]; [constructor|]. cbn in Hs.
    apply StronglySorted_inv in Hs as [Hs Hj]. constructor; [|by apply IH].
    rewrite Forall_app, Forall_cons in Hj. tauto. }
  assert (aset k (f v).1 m = m ++ [(k, (f v).1)]) as ->.
  { unfold aset. destruct (ahas k m) eqn:E; [by apply ahas_elem in E|]. by apply ainsert_last. }
  rewrite IH, <- app_assoc; [done|]. unfold key_sorted. by rewrite <- app_assoc, !fmap_app in *.
Qed.

Lemma back_map_sorted m : key_sorted m → back_map m = map (λ p, (p.1, back p.2)) m.
Proof. intros H. unfold back_map. by rewrite (foldl_aset_last (λ a, to_any (ann a))). Qed.

(** A value that decoding gives back as it is. *)
Definition fixed (a : goany) : Prop := to_any (ann a) = (a, true).

Lemma fixed_map m : key_sorted m → Forall (λ p, fixed p.2) m → fixed (AMap m).
Proof.
  intros Hs Hf. unfold fixed. rewrite to_any_map, back_map_sorted by done. f_equal.
  - f_equal. clear Hs. induction Hf as [|[k v] m Hv _ IH]; [done|]. cbn. rewrite IH. unfold back. cbn in Hv. by rewrite Hv.
  - clear Hs. induction Hf as [|[k v] m Hv _ IH]; [done|]. cbn. unfold back_ok. cbn in Hv. by rewrite Hv.
Qed.

Lemma fixed_members m : key_sorted m → fixed (AMap m) → Forall (λ p, fixed p.2) m.
Proof.
  intros Hs. unfold fixed at 1. rewrite to_any_map, back_map_sorted by done. intros H.
  assert (map (λ p, (p.1, back p.2)) m = m ∧ forallb (λ p, back_ok p.2) m = true) as [Hm Ho] by (by injection H). clear H Hs.
  induction m as [|[k v] m IH]; [constructor|]. cbn in Hm, Ho. apply andb_true_iff in Ho as [Ho Ho'].
  assert (back v = v ∧ map (λ p, (p.1, back p.2)) m = m) as [Hv Hm'] by (by injection Hm).
  constructor; [|by apply IH]. unfold fixed, back, back_ok in *. cbn. by destruct (to_any (ann v)); cbn in *; subst.
Qed.

Lemma fixed_str s : fixed (AStr s).
Proof. done. Qed.

Lemma fixed_aset k v m : key_sorted m → fixed (AMap m) → fixed v → fixed (AMap (aset k v m)).
Proof.
  intros Hs Hf Hv. apply fixed_map; [by apply key_sorted_aset|]. apply fixed_members in Hf; [|done]. clear Hs.
  unfold aset. destruct (ahas k m).
  - induction Hf as [|[j w] m Hw Hm IH]; [done|]. cbn [areplace]. case_bool_decide; by constructor.
  - induction Hf as [|[j w] m Hw Hm IH]; cbn [ainsert]; [by repeat constructor|].
    destruct (String.ltb k j); repeat (constructor; try done).
Qed.

Lemma unmarshal_fixed m : good_map m → fixed (AMap m) → unmarshal_map (marshal (AMap m)) = (Some m, true).
Proof.
  intros Hg Hf. unfold unmarshal_map. rewrite parse_marshal by apply Hg. unfold fixed in Hf. cbn [ann] in *. by rewrite Hf.
Qed.

(** ** Formatted numbers are valid UTF-8 *)

Lemma pad_left_valid n s : utf8_valid s = true → utf8_valid (pad_left n s) = true.
Proof.
  intros H. unfold pad_left. apply utf8_valid_app; [|done]. apply utf8_valid_sconcat.
  induction (n - String.length s)%nat as [|k IH]; [done|]. exact IH.
Qed.

Lemma FormatFixed_valid p x : utf8_valid (FormatFixed p x) = true.
Proof.
  destruct x as [s m e|[]|]; try reflexivity. cbn [FormatFixed]. destruct (ratio _ _) as [n d].
  apply utf8_valid_app; [by destruct s|]. unfold fixed_digits. destruct p; [apply Z_to_dec_valid|].
  apply utf8_valid_app; [apply Z_to_dec_valid|]. apply utf8_valid_app; [done|]. apply pad_left_valid, Z_to_dec_valid.
Qed.

#[export] Hint Resolve pad_left_valid FormatFixed_valid : go_json.
