(* ===== verification/GoFloatInt.v ===== *)
(** * Integers as float64

    The float64 of an integer below 2^53 is exact, and so are sums of such numbers: the
    figures of the reports, which the program adds up in floating point, are the sums of the integers
    as long as these stay below that bound. *)
From S2P Require Import Prelude GoStrings GoFloat GoJson GoJsonFacts GoReadback.

Local Open Scope Z_scope.

(** The float64 of a natural number below 2^53. *)
Definition float_int (z : Z) : f64 := mk_fin false z 0.

Lemma strip_twos_pow p k e : strip_twos (p * 2 ^ k) (e - Zpos k) = strip_twos p e.
Proof.
  revert e. induction k as [|k IH] using Pos.peano_ind; intros e.
  - change (2 ^ 1)%positive with 2%positive. rewrite Pos.mul_comm. change (2 * p)%positive with (xO p). cbn [strip_twos].
    by rewrite Z.sub_add.
  - rewrite Pos.pow_succ_r, Pos.mul_assoc, (Pos.mul_comm p 2), <- Pos.mul_assoc.
    change (2 * (p * 2 ^ k))%positive with (xO (p * 2 ^ k)). cbn [strip_twos].
    replace (e - Z.pos (Pos.succ k) + 1) with (e - Z.pos k) by lia. apply IH.
Qed.

Lemma mk_fin_scale z k : 0 <= z → 0 <= k → mk_fin false (z * 2 ^ k) (- k) = mk_fin false z 0.
Proof.
  intros Hz Hk. destruct z as [|p|p]; [done| |lia]. destruct k as [|k|k]; [|  |lia].
  - rewrite Z.pow_0_r, Z.mul_1_r. done.
  - rewrite <- (Pos2Z.inj_pow 2 k), <- Pos2Z.inj_mul. unfold mk_fin. pose proof (strip_twos_pow p k 0) as H. rewrite Z.sub_0_l in H. by rewrite H.
Qed.

Lemma round_ratio_int z : 0 <= z < 2 ^ 53 → round_ratio false z 1 = float_int z.
Proof.
  intros Hz. destruct (decide (z = 0)) as [->|Hne]; [done|]. rewrite round_ratio_small by lia. apply mk_fin_scale; [lia|].
  pose proof (proj1 (Z.log2_lt_pow2 z 53 ltac:(lia)) ltac:(lia)). lia.
Qed.

Lemma ParseFloat_int z : 0 <= z < 2 ^ 53 → ParseFloat (Z_to_dec z) = (float_int z, true).
Proof.
  intros Hz. assert (Z_to_dec z = N_to_dec (Z.to_N z)) as -> by (destruct z; [done|done|lia]).
  rewrite ParseFloat_digits by apply N_to_dec_digits. rewrite N_to_dec_val, Z2N.id by lia.
  unfold finish_float, pow_ratio. cbn [Z.leb Z.compare]. rewrite Z.mul_1_r. rewrite round_ratio_int by done.
  unfold float_int, mk_fin. destruct z; [done| |lia]. by destruct (strip_twos p 0).
Qed.

(** A finite number with an exponent that is not negative is the integer it stands for. *)
Lemma float_int_parts z : 0 <= z → ∃ m e, float_int z = Fin false m e ∧ 0 <= e ∧ Z.of_N m * 2 ^ e = z.
Proof.
  intros Hz. unfold float_int, mk_fin. destruct z as [|p|p]; [by exists 0%N, 0| |lia].
  destruct (strip_twos p 0) as [m e] eqn:E. apply strip_twos_value in E as [He Hp]. exists m, e. split_and!; [done|lia|]. by rewrite Z.sub_0_r in Hp.
Qed.

Lemma fadd_int a b : 0 <= a → 0 <= b → a + b < 2 ^ 53 → fadd (float_int a) (float_int b) = float_int (a + b).
Proof.
  intros Ha Hb Hs. destruct (float_int_parts a Ha) as (m & e & -> & He & Ea). destruct (float_int_parts b Hb) as (n & f & -> & Hf & Eb).
  unfold fadd. cbn [signed]. set (g := Z.min e f). set (s := Z.of_N m * 2 ^ (e - g) + Z.of_N n * 2 ^ (f - g)).
  assert (0 <= g) as Hg by (subst g; lia). assert (s * 2 ^ g = a + b) as Es.
  { subst s. rewrite Z.mul_add_distr_r, <- !Z.mul_assoc, <- !Z.pow_add_r by (subst g; lia). rewrite !Z.sub_add. lia. }
  assert (0 < 2 ^ g) as Hp by (by apply Z.pow_pos_nonneg). destruct (s =? 0) eqn:E0.
  - apply Z.eqb_eq in E0. rewrite E0 in Es. replace (a + b) with 0 by lia. done.
  - apply Z.eqb_neq in E0. assert (0 < s) as Hs0 by nia. rewrite (proj2 (Z.ltb_ge s 0)) by lia. unfold round_Z, ratio.
    rewrite (proj2 (Z.leb_le 0 g)), Z.abs_eq, Es by lia. apply round_ratio_int. lia.
Qed.

Lemma FormatFixed_int z : 0 <= z → FormatFixed 0 (float_int z) = Z_to_dec z.
Proof.
  intros Hz. destruct (float_int_parts z Hz) as (m & e & -> & He & Ez). unfold FormatFixed, ratio. rewrite (proj2 (Z.leb_le 0 e)) by done.
  rewrite Ez, Z.pow_0_r, Z.mul_1_r, round_half_even_1. unfold fixed_digits. by rewrite Z.pow_0_r, Z.div_1_r.
Qed.

Lemma f64_of_Z_int z : 0 <= z < 2 ^ 53 → f64_of_Z z = float_int z.
Proof.
  intros Hz. unfold f64_of_Z, round_Z, ratio. rewrite (proj2 (Z.ltb_ge z 0)), Z.abs_eq by lia. cbn [Z.leb Z.compare]. rewrite Z.mul_1_r.
  by apply round_ratio_int.
Qed.

(** Sums in floating point are the sums of the integers. *)
Lemma fsum_int l : Forall (λ z, 0 <= z) l → Zsum l < 2 ^ 53 → foldl fadd fzero (map float_int l) = float_int (Zsum l).
Proof.
  intros Hl Hs. change fzero with (float_int 0). enough (∀ a, 0 <= a → a + Zsum l < 2 ^ 53 → foldl fadd (float_int a) (map float_int l) = float_int (a + Zsum l))
    as H by (by apply (H 0)). clear Hs. induction Hl as [|z l Hz Hl IH]; intros a Ha Hs; cbn [map foldl]; [by rewrite Z.add_0_r|].
  change (Zsum (z :: l)) with (z + Zsum l) in *. assert (0 <= Zsum l) as H0 by (clear -Hl; induction Hl; unfold Zsum in *; cbn [foldr]; lia).
  rewrite fadd_int by lia. rewrite IH by lia. f_equal. lia.
Qed.
