(* ===== verification/GoRat.v ===== *)
(** * Fractions and floats of any precision

    What the program uses of [math/big] for the cost of a recipe: [Rat.SetString], which
    reads the notations of Go's numbers as a fraction, and the [Float] arithmetic that rounds a
    fraction to an integer, with the rounding of every step.  A [Float] is its precision and
    the fraction it stands for; its exponents have 32 bits, which no text of a record exceeds. *)
From Stdlib Require Import QArith Qround Qreduction Lqa.
From S2P Require Import Prelude GoStrings GoFloat.

Local Open Scope Z_scope.

(** ** Reading a fraction *)

Definition letter_value (c : ascii) : Z :=
  if in_range 48 57 c then Z.of_N (byte_of c) - 48
  else if in_range 97 122 c then Z.of_N (byte_of c) - 87
  else if in_range 65 90 c then Z.of_N (byte_of c) - 55
  else 63.

(** [nat.scan] in the middle of its text: the value and the number of its digits, the digits before the
    point, what came last, and whether an underscore was out of place. *)
Record scan := { sc_val : Z; sc_count : Z; sc_point : option Z; sc_prev : seen; sc_bad : bool }.

Definition is_digit_seen (p : seen) : bool := match p with SawDigit => true | _ => false end.
Definition is_underscore_seen (p : seen) : bool := match p with SawUnderscore => true | _ => false end.

Fixpoint scan_digits (base : Z) (point : bool) (s : string) (x : scan) : scan * string :=
  match s with
  | EmptyString => (x, s)
  | String c t =>
      if bool_decide (c = "."%char) && point then
        scan_digits base false t
          {| sc_val := sc_val x; sc_count := sc_count x; sc_point := Some (sc_count x); sc_prev := SawOther;
             sc_bad := sc_bad x || is_underscore_seen (sc_prev x) |}
      else if bool_decide (c = "_"%char) then
        scan_digits base point t
          {| sc_val := sc_val x; sc_count := sc_count x; sc_point := sc_point x; sc_prev := SawUnderscore;
             sc_bad := sc_bad x || negb (is_digit_seen (sc_prev x)) |}
      else if base <=? letter_value c then (x, s)
      else scan_digits base point t
             {| sc_val := sc_val x * base + letter_value c; sc_count := sc_count x + 1; sc_point := sc_point x; sc_prev := SawDigit;
                sc_bad := sc_bad x |}
  end.

(** The base a text announces: the base, whether it is the single zero of octal numbers, whether a zero was
    counted as a digit, and the rest. *)
Definition scan_base (point : bool) (s : string) : Z * bool * bool * string :=
  match s with
  | String "0" t =>
      match t with
      | String c u =>
          if bool_decide (c = "b"%char) || bool_decide (c = "B"%char) then (2, false, false, u)
          else if bool_decide (c = "o"%char) || bool_decide (c = "O"%char) then (8, false, false, u)
          else if bool_decide (c = "x"%char) || bool_decide (c = "X"%char) then (16, false, false, u)
          else if point then (10, false, true, t) else (8, true, false, t)
      | EmptyString => (10, false, true, t)
      end
  | _ => (10, false, false, s)
  end.

Definition starts_with_zero (s : string) : bool := match s with String "0" _ => true | _ => false end.

(** [nat.scan(r, 0, point)]: value, base, digits after the point (negated) and rest. *)
Definition nat_scan (point : bool) (s : string) : option (Z * Z * Z * string) :=
  let '(base, octal, zero, t) := scan_base point s in
  let '(x, rest) := scan_digits base point t
    {| sc_val := 0; sc_count := if zero then 1 else 0; sc_point := None;
       sc_prev := if starts_with_zero s then SawDigit else SawOther; sc_bad := false |} in
  if sc_bad x || is_underscore_seen (sc_prev x) then None
  else if sc_count x =? 0 then (if octal then Some (0, 10, 1, rest) else None)
  else Some (sc_val x, base, match sc_point x with Some p => p - sc_count x | None => sc_count x end, rest).

(** [scanExponent(r, true, true)]: the digits of the exponent, what came last, a misplaced underscore. *)
Fixpoint scan_exp_digits (s : string) (digits : string) (prev : seen) (bad : bool) : string * seen * bool * string :=
  match s with
  | EmptyString => (digits, prev, bad, s)
  | String c t =>
      if is_digit c then scan_exp_digits t (digits +:+ sone c) SawDigit bad
      else if bool_decide (c = "_"%char) then scan_exp_digits t digits SawUnderscore (bad || negb (is_digit_seen prev))
      else (digits, prev, bad, s)
  end.

Definition exponent_of (base : Z) (s : string) : option (Z * Z * string) :=
  let '(neg, t) := split_sign s in
  let '(digits, prev, bad, rest) := scan_exp_digits t EmptyString SawOther false in
  if sempty digits then None
  else let v := (if neg then - Z.of_N (digits_val 0 digits) else Z.of_N (digits_val 0 digits)) in
       if negb (bool_decide (in_int64 v)) || bad || is_underscore_seen prev then None else Some (v, base, rest).

Definition scanExponent (s : string) : option (Z * Z * string) :=
  match s with
  | String c t =>
      if bool_decide (c = "e"%char) || bool_decide (c = "E"%char) then exponent_of 10 t
      else if bool_decide (c = "p"%char) || bool_decide (c = "P"%char) then exponent_of 2 t
      else Some (0, 10, s)
  | EmptyString => Some (0, 10, s)
  end.

(** A fraction in lowest terms. *)
Definition frac (n d : Z) : Q := Qred (Qmake n (Z.to_pos d)).

Definition max_exp5 : Z := 1000000.
Definition max_exp2 : Z := 10000000.

(** The value of mantissa and exponents; [None] for exponents that are too large. *)
Definition scaled (neg : bool) (m base fcount exp ebase : Z) : option Q :=
  let d := Z.min fcount 0 in
  let exp5 := wrap64 ((if base =? 10 then d else 0) + (if ebase =? 10 then exp else 0)) in
  let exp2 := wrap64 ((if base =? 8 then d * 3 else if base =? 16 then d * 4 else d) + exp) in
  if (max_exp5 <? Z.abs exp5) || (exp2 <? - max_exp2) || (max_exp2 <? exp2) then None
  else Some (frac ((if neg then - m else m) * 5 ^ Z.max exp5 0 * 2 ^ Z.max exp2 0) (5 ^ Z.max (- exp5) 0 * 2 ^ Z.max (- exp2) 0)).

(** [new(big.Int).SetString(s, 0)] *)
Definition Int_SetString (s : string) : option Z :=
  let '(neg, t) := split_sign s in
  match nat_scan false t with Some (v, _, _, EmptyString) => Some (if neg then - v else v) | _ => None end.

(** [new(big.Rat).SetString(s)] *)
Definition Rat_SetString (s : string) : option Q :=
  match SplitN2 "/" s with
  | (a, Some b) =>
      a ← Int_SetString a;
      match nat_scan false b with Some (d, _, _, EmptyString) => if d =? 0 then None else Some (frac a d) | _ => None end
  | _ =>
      let '(neg, t) := split_sign s in
      match nat_scan true t with
      | None => None
      | Some (m, base, fcount, t) =>
          match scanExponent t with
          | Some (exp, ebase, EmptyString) => if m =? 0 then Some 0%Q else scaled neg m base fcount exp ebase
          | _ => None
          end
      end
  end.

(** ** Floats *)

Definition bit_len (n : Z) : Z := if n =? 0 then 0 else Z.log2 (Z.abs n) + 1.

(** The power of two of the last of the [p] binary digits of [n / d], for positive [n] and [d]. *)
Definition last_digit (p n d : Z) : Z :=
  let k := Z.log2 n - Z.log2 d in
  let '(a, b) := scale n d k in
  if b <=? a then k + 1 - p else k - p.

(** The fraction rounded to [p] binary digits, half to even. *)
Definition round_prec (p : Z) (q : Q) : Q :=
  let n := Z.abs (Qnum q) in
  let d := Zpos (Qden q) in
  if n =? 0 then 0%Q else
  let e := last_digit p n d in
  let '(a, b) := scale n d e in
  let m := round_half_even a b in
  let '(a, b) := ratio (if Qnum q <? 0 then - m else m) e in
  Qmake a (Z.to_pos b).

Record bigfloat := { bf_prec : Z; bf_val : Q }.

(** [new(big.Float).SetInt(n)]: as many digits as the integer, at least 64. *)
Definition Float_SetInt (n : Z) : bigfloat := {| bf_prec := Z.max (bit_len n) 64; bf_val := inject_Z n |}.

(** [new(big.Float).SetRat(q)], of a fraction in lowest terms: an integer, or the quotient of two floats. *)
Definition Float_SetRat (q : Q) : bigfloat :=
  if (Qden q =? 1)%positive then Float_SetInt (Qnum q)
  else
    let p := Z.max (Z.max (bit_len (Qnum q)) 64) (Z.max (bit_len (Zpos (Qden q))) 64) in
    {| bf_prec := p; bf_val := round_prec p q |}.

(** [z.Add(z, x)] keeps the digits of [z]. *)
Definition Float_Add (z : bigfloat) (x : Q) : bigfloat := {| bf_prec := bf_prec z; bf_val := round_prec (bf_prec z) (Qplus (bf_val z) x) |}.

(** [z.Int(nil)] cuts the fraction off. *)
Definition Float_Int (z : bigfloat) : Z := Z.quot (Qnum (bf_val z)) (Zpos (Qden (bf_val z))).

(** The nearest integer, as the program computes it. *)
Definition round_to_int (q : Q) : Z := Float_Int (Float_Add (Float_SetRat q) (1 # 2)).

(** ** How good the rounding is *)

Lemma round_half_even_near n d : 0 < d → 2 * Z.abs (round_half_even n d * d - n) <= d.
Proof.
  intros Hd. unfold round_half_even. pose proof (Z.div_mod n d ltac:(lia)) as E. pose proof (Z.mod_pos_bound n d Hd) as B.
  set (q := n / d) in *. set (r := n mod d) in *. destruct (Z.compare_spec (2 * r) d); [destruct (Z.even q)|..]; nia.
Qed.

Lemma round_half_even_above n d k : 0 < d → k * d <= n → k <= round_half_even n d.
Proof. intros Hd Hk. pose proof (round_half_even_near n d Hd). nia. Qed.

(** The last digit is behind the point when the integer part is short, and the digits fill the precision. *)
Lemma last_digit_spec p n d : 0 < n → 0 < d → n < d * 2 ^ (p - 1) → 1 <= p →
  let e := last_digit p n d in e < 0 ∧ d * 2 ^ (p - 1) <= n * 2 ^ (- e).
Proof.
  intros Hn Hd Hlt Hp. pose proof (Z.log2_spec n Hn) as Ln. pose proof (Z.log2_spec d Hd) as Ld.
  unfold last_digit. set (ln := Z.log2 n) in *. set (ld := Z.log2 d) in *. set (k := ln - ld).
  assert (0 <= ln ∧ 0 <= ld) as [N1 N2] by (split; apply Z.log2_nonneg).
  assert (2 ^ Z.succ ln = 2 * 2 ^ ln ∧ 2 ^ Z.succ ld = 2 * 2 ^ ld) as [S1 S2] by (split; by rewrite Z.pow_succ_r).
  assert (0 < 2 ^ ln ∧ 0 < 2 ^ ld ∧ 0 < 2 ^ (p - 1)) as (P1 & P2 & P3) by (split_and!; apply Z.pow_pos_nonneg; lia).
  assert (k < p) as Kp.
  { enough (ln < ld + 1 + (p - 1)) by lia. apply (Z.pow_lt_mono_r_iff 2); [lia|lia|]. rewrite !Z.pow_add_r, Z.pow_1_r by lia. nia. }
  assert (d * 2 ^ (p - 1) <= n * 2 ^ (ld + p - ln)) as Low.
  { apply (Z.mul_le_mono_pos_r _ _ (2 ^ ln)); [lia|]. assert (2 ^ (ld + p - ln) * 2 ^ ln = 2 ^ ld * 2 * 2 ^ (p - 1)) as E2.
    { rewrite <- Z.pow_add_r by lia. replace (ld + p - ln + ln) with (ld + 1 + (p - 1)) by lia. by rewrite !Z.pow_add_r, Z.pow_1_r by lia. }
    rewrite <- (Z.mul_assoc n), E2. transitivity (2 ^ ld * 2 * 2 ^ (p - 1) * 2 ^ ln); [|rewrite Z.mul_comm; apply Z.mul_le_mono_nonneg_r; nia].
    do 2 (apply Z.mul_le_mono_nonneg_r; [lia|]). lia. }
  unfold scale. destruct (k <=? 0) eqn:K0.
  - apply Z.leb_le in K0. destruct (d <=? n * 2 ^ (- k)) eqn:E.
    + apply Z.leb_le in E. split; [|].
      * destruct (Z.eq_dec k (p - 1)) as [Ek|]; [|lia]. exfalso. assert (p = 1) as -> by lia. rewrite Ek in E. cbn in E, Hlt. lia.
      * replace (- (k + 1 - p)) with (- k + (p - 1)) by lia. rewrite Z.pow_add_r by lia. nia.
    + split; [lia|]. by replace (- (k - p)) with (ld + p - ln) by lia.
  - apply Z.leb_gt in K0. assert (0 < 2 ^ k) as Pk by (apply Z.pow_pos_nonneg; lia). destruct (d * 2 ^ k <=? n) eqn:E.
    + apply Z.leb_le in E. assert (k < p - 1) as Kp'.
      { apply (Z.pow_lt_mono_r_iff 2); [lia|lia|]. nia. }
      split; [lia|]. replace (p - 1) with (k + - (k + 1 - p)) by lia. rewrite Z.pow_add_r by lia.
      assert (0 < 2 ^ (- (k + 1 - p))) by (apply Z.pow_pos_nonneg; lia). nia.
    + split; [lia|]. by replace (- (k - p)) with (ld + p - ln) by lia.
Qed.

(** A float is at least every multiple of one half below the fraction, and exceeds it by at most one part in [2 ^ p]. *)
Lemma round_prec_spec p q : 1 <= p → (0 < q)%Q → (q < inject_Z (2 ^ (p - 1)))%Q →
  let y := round_prec p q in
  (∀ c, (inject_Z c <= 2 * q → inject_Z c <= 2 * y)%Q) ∧ (y * inject_Z (2 ^ p) <= q * inject_Z (2 ^ p + 1))%Q.
Proof.
  intros Hp H0 H1. destruct q as [n d]. unfold Qlt in H0, H1. cbn [Qnum Qden inject_Z] in *. cbv zeta. unfold round_prec. cbn [Qnum Qden].
  assert (0 < n) as Hn by lia. rewrite Z.abs_eq by lia. rewrite (proj2 (Z.eqb_neq n 0)), (proj2 (Z.ltb_ge n 0)) by lia.
  destruct (last_digit_spec p n (Zpos d)) as [He Hlow]; [lia..|]. set (e := last_digit p n (Zpos d)) in *. clearbody e.
  unfold scale, ratio. rewrite (proj2 (Z.leb_le e 0)), (proj2 (Z.leb_gt 0 e)) by lia.
  assert (0 < 2 ^ (- e)) as Pe by (apply Z.pow_pos_nonneg; lia). assert (0 < 2 ^ (p - 1)) as Pp by (apply Z.pow_pos_nonneg; lia).
  assert (2 ^ p = 2 * 2 ^ (p - 1)) as Sp by (rewrite <- Z.pow_succ_r by lia; f_equal; lia).
  assert (2 ^ (- e) = 2 * 2 ^ (- e - 1)) as Se by (rewrite <- Z.pow_succ_r by lia; f_equal; lia).
  pose proof (round_half_even_near (n * 2 ^ (- e)) (Zpos d) ltac:(lia)) as Hm.
  pose proof (λ k, round_half_even_above (n * 2 ^ (- e)) (Zpos d) k ltac:(lia)) as Ha. set (m := round_half_even _ _) in *.
  set (D := Z.to_pos (2 ^ (- e))). assert (Zpos D = 2 ^ (- e)) as ED by (subst D; by rewrite Z2Pos.id by lia). clearbody D m.
  unfold Qle, Qmult, inject_Z. cbn [Qnum Qden]. rewrite ?Pos2Z.inj_mul, ED. split.
  - intros c Hc. assert (c * 2 ^ (- e - 1) <= m) as Hk.
    { apply Ha. assert (0 < 2 ^ (- e - 1)) by (apply Z.pow_pos_nonneg; lia). rewrite Se. nia. }
    nia.
  - rewrite Sp. assert (2 * (m * Zpos d - n * 2 ^ (- e)) <= Zpos d) by lia. nia.
Qed.

Lemma bit_len_le n k : 0 <= k → Z.abs n < 2 ^ k → bit_len n <= k.
Proof.
  intros Hk Hn. unfold bit_len. destruct (Z.eqb_spec n 0) as [|Hne]; [done|]. enough (Z.log2 (Z.abs n) < k) by lia. apply Z.log2_lt_pow2; lia.
Qed.

Lemma Qfloor_unique q z : (inject_Z z <= q → q < inject_Z (z + 1) → Qfloor q = z)%Q.
Proof.
  intros H1 H2. pose proof (Qfloor_le q) as H3. pose proof (Qlt_floor q) as H4.
  assert (inject_Z z < inject_Z (Qfloor q + 1))%Q as H5 by lra. assert (inject_Z (Qfloor q) < inject_Z (z + 1))%Q as H6 by lra.
  rewrite <- Zlt_Qlt in H5, H6. lia.
Qed.

Lemma trunc_floor q : (0 <= q → Z.quot (Qnum q) (Zpos (Qden q)) = Qfloor q)%Q.
Proof. intros H. destruct q as [n d]. unfold Qle in H. cbn in *. apply Z.quot_div_nonneg; lia. Qed.

(** The float of a short fraction, by its error. *)
Lemma Float_SetRat_spec q : (0 < q)%Q → Qnum q < 2 ^ 63 → Zpos (Qden q) < 2 ^ 63 →
  let y := Float_SetRat q in bf_prec y = 64 ∧ (∀ c, (inject_Z c <= 2 * q → inject_Z c <= 2 * bf_val y)%Q)
  ∧ (bf_val y * inject_Z (2 ^ 64) <= q * inject_Z (2 ^ 64 + 1))%Q.
Proof.
  intros H0 Hn Hd. assert (0 < Qnum q) as Hp by (destruct q; unfold Qlt in H0; cbn in *; lia).
  pose proof (bit_len_le (Qnum q) 63) as L1. pose proof (bit_len_le (Zpos (Qden q)) 63) as L2. cbv zeta. unfold Float_SetRat.
  destruct (Pos.eqb_spec (Qden q) 1) as [E|_].
  - unfold Float_SetInt. cbn [bf_prec bf_val]. assert (q == inject_Z (Qnum q))%Q as Eq by (destruct q as [n d]; cbn in *; by subst d).
    split_and!; [lia|intros c Hc; by rewrite <- Eq|]. rewrite <- Eq. apply Qmult_le_l; [done|]. rewrite <- Zle_Qle. lia.
  - cbn [bf_prec bf_val]. replace (Z.max _ _) with 64 by lia. split; [done|]. apply round_prec_spec; [lia|done|].
    destruct q as [n d]. unfold Qlt. cbn in *. change (64 - 1) with 63. nia.
Qed.

(** The nearest integer is found for every fraction that is not too long: the rounding of the
    quotient, of the sum with one half and the cut never add up to a wrong integer. *)
Lemma round_to_int_nearest q : (0 <= q)%Q → Zpos (Qden q) * (Qfloor (q + (1 # 2)) + 1) <= 2 ^ 62 →
  round_to_int q = Qfloor (q + (1 # 2)).
Proof.
  intros H0 Hb. set (F := Qfloor _) in *. pose proof (Qfloor_le (q + (1 # 2))) as F1. pose proof (Qlt_floor (q + (1 # 2))) as F2. fold F in F1, F2.
  destruct (Qlt_le_dec 0 q) as [Hq|Hq0]; cycle 1.
  { assert (q == 0)%Q as E by lra. assert (F = 0) as -> by (apply Qfloor_unique; rewrite E; by compute).
    destruct q as [n d]. unfold Qeq in E. cbn in E. assert (n = 0) as -> by lia. unfold round_to_int, Float_SetRat. cbn [Qden Qnum].
    destruct (Pos.eqb_spec d 1) as [->|_]; [by vm_compute|]. pose proof (bit_len_le (Zpos d) 63 ltac:(lia) ltac:(cbn [Qden] in Hb; lia)) as L.
    replace (Z.max (Z.max (bit_len 0) 64) _) with 64 by (change (bit_len 0) with 0; lia). by vm_compute. }
  destruct (Float_SetRat_spec q) as (Ep & Y1 & Y2); [done|..].
  { destruct q as [n d]. unfold Qlt, Qplus in F2. cbn in *. nia. }
  { assert (0 <= F) by (apply Zlt_succ_le; rewrite Zlt_Qlt; unfold Z.succ; change (inject_Z 0) with 0%Q; lra). nia. }
  unfold round_to_int, Float_Add, Float_Int. rewrite Ep. cbn [bf_val]. set (y := bf_val (Float_SetRat q)) in *. clearbody y. clear Ep.
  assert (0 <= y)%Q as Hy by (specialize (Y1 0); change (inject_Z 0) with 0%Q in Y1; lra).
  set (t := (1 # Qden q)%Q). assert (q + (1 # 2) + (1 # 2) * t <= inject_Z (F + 1))%Q as Ht.
  { subst t. clearbody F. clear -F2. destruct q as [n d]. unfold Qlt, Qle, Qplus, Qmult in *. cbn [Qnum Qden inject_Z] in *.
    assert (n * 2 + Zpos d + 1 <= (F + 1) * (Zpos d * 2)) by lia. rewrite ?Pos2Z.inj_mul in *. nia. }
  assert (inject_Z (F + 1) <= inject_Z (2 ^ 62) * t)%Q as Hf.
  { subst t. clearbody F. unfold Qle, Qmult. cbn [Qnum Qden inject_Z]. rewrite ?Pos2Z.inj_mul. nia. }
  assert (t <= 1)%Q as Ht1 by (subst t; unfold Qle; cbn; lia). assert (inject_Z F + 1 == inject_Z (F + 1))%Q as EF by (by rewrite inject_Z_plus).
  clearbody t. change (inject_Z (2 ^ 62)) with (4611686018427387904 # 1)%Q in Hf. change (inject_Z (2 ^ 64)) with (18446744073709551616 # 1)%Q in *.
  change (inject_Z (2 ^ 64 + 1)) with (18446744073709551617 # 1)%Q in *.
  destruct (round_prec_spec 64 (y + (1 # 2))) as [Z1 Z2]; [lia|lra|change (inject_Z (2 ^ (64 - 1))) with (9223372036854775808 # 1)%Q; lra|].
  change (inject_Z (2 ^ 64)) with (18446744073709551616 # 1)%Q in Z2. change (inject_Z (2 ^ 64 + 1)) with (18446744073709551617 # 1)%Q in Z2.
  set (z := round_prec 64 _) in *. clearbody z. specialize (Y1 (2 * F - 1)). specialize (Z1 (2 * F)).
  assert (inject_Z (2 * F - 1) == 2 * inject_Z F - 1)%Q as E1 by (unfold Z.sub; by rewrite inject_Z_plus, inject_Z_mult).
  assert (inject_Z (2 * F) == 2 * inject_Z F)%Q as E2 by (by rewrite inject_Z_mult).
  assert (inject_Z F <= z)%Q as ZF by (enough (inject_Z (2 * F) <= 2 * z)%Q by lra; apply Z1; enough (inject_Z (2 * F - 1) <= 2 * y)%Q by lra; apply Y1; lra).
  assert (0 <= inject_Z F)%Q as F0.
  { change 0%Q with (inject_Z 0). rewrite <- Zle_Qle. apply Zlt_succ_le. rewrite Zlt_Qlt. unfold Z.succ. change (inject_Z 0) with 0%Q. lra. }
  rewrite trunc_floor by lra. apply Qfloor_unique; [done|]. lra.
Qed.

(** ** Decimal texts *)

Definition zeroed : scan := {| sc_val := 0; sc_count := 0; sc_point := None; sc_prev := SawOther; sc_bad := false |}.

(** The scan after a run of decimal digits. *)
Definition after_digits (a : string) (x : scan) : scan :=
  {| sc_val := sc_val x * 10 ^ Z.of_nat (String.length a) + Z.of_N (digits_val 0 a); sc_count := sc_count x + Z.of_nat (String.length a);
     sc_point := sc_point x; sc_prev := if sempty a then sc_prev x else SawDigit; sc_bad := sc_bad x |}.

Lemma letter_value_digit c : is_digit c = true → letter_value c = Z.of_N (digit_val c) ∧ 0 <= letter_value c < 10.
Proof. intros H. unfold letter_value. change (in_range 48 57 c) with (is_digit c). rewrite H. apply is_digit_inv in H. unfold digit_val. lia. Qed.

Lemma digits_val_acc acc s : Z.of_N (digits_val acc s) = Z.of_N acc * 10 ^ Z.of_nat (String.length s) + Z.of_N (digits_val 0 s).
Proof.
  revert acc. induction s as [|c s IH]; intros acc; cbn [digits_val String.length]; [lia|].
  rewrite IH, (IH (10 * 0 + _)%N). rewrite Nat2Z.inj_succ, Z.pow_succ_r by lia. lia.
Qed.

Lemma is_digit_not c d : is_digit c = true → is_digit d = false → bool_decide (c = d) = false.
Proof. intros H1 H2. apply bool_decide_eq_false. intros ->. congruence. Qed.

Lemma scan_run a : ∀ point r x, sforall is_digit a = true → scan_digits 10 point (a +:+ r) x = scan_digits 10 point r (after_digits a x).
Proof.
  induction a as [|c a IH]; intros point r x Ha.
  - unfold after_digits. cbn [String.length digits_val sempty]. rewrite Z.mul_1_r, !Z.add_0_r. by destruct x.
  - cbn [sforall] in Ha. apply andb_prop in Ha as [Hc Ha]. destruct (letter_value_digit c Hc) as [Ev Hv].
    rewrite sapp_cons. cbn [scan_digits]. rewrite !(is_digit_not c) by done. cbn [andb]. rewrite (proj2 (Z.leb_gt 10 (letter_value c))) by lia.
    rewrite IH by done. f_equal. unfold after_digits. cbn [sc_val sc_count sc_point sc_prev sc_bad String.length digits_val sempty].
    rewrite (digits_val_acc (10 * 0 + digit_val c)), Nat2Z.inj_succ, Z.pow_succ_r by lia. destruct (sempty a); f_equal; lia.
Qed.

(** Scanning starts from nothing, whether the text announces a base or not. *)
Lemma nat_scan_decimal a r : all_digits a = true → (r = EmptyString ∨ ∃ t, r = String "." t) →
  nat_scan true (a +:+ r) = (let '(x, rest) := scan_digits 10 true r (after_digits a zeroed) in
    if sc_bad x || is_underscore_seen (sc_prev x) then None
    else if sc_count x =? 0 then None
    else Some (sc_val x, 10, match sc_point x with Some p => p - sc_count x | None => sc_count x end, rest)).
Proof.
  intros Ha Hr. unfold all_digits in Ha. apply andb_prop in Ha as [Hne Ha]. destruct a as [|c a]; [done|]. clear Hne.
  destruct (decide (c = "0"%char)) as [->|Hc].
  - assert (scan_base true (String "0" a +:+ r) = (10, false, true, a +:+ r)) as E.
    { rewrite sapp_cons. destruct a as [|d a]; [destruct Hr as [->|[t ->]]; done|]. rewrite sapp_cons. cbn [scan_base]. cbn [sforall] in Ha.
      apply andb_prop in Ha as [_ Ha]. apply andb_prop in Ha as [Hd _]. by rewrite !(is_digit_not d) by done. }
    unfold nat_scan. rewrite E, sapp_cons. cbn [starts_with_zero]. rewrite scan_run by (by apply andb_prop in Ha as [_ Ha]).
    replace (after_digits a _) with (after_digits (String "0" a) zeroed); [by destruct (scan_digits 10 true r _)|].
    unfold after_digits. cbn [sc_val sc_count sc_point sc_prev sc_bad String.length digits_val sempty zeroed].
    f_equal; [|destruct (sempty a); done]. cbn. rewrite Nat2Z.inj_succ. lia.
  - assert (scan_base true (String c a +:+ r) = (10, false, false, String c a +:+ r)) as E.
    { rewrite sapp_cons. destruct c as [[] [] [] [] [] [] [] []]; try done. }
    unfold nat_scan. rewrite E. assert (starts_with_zero (String c a +:+ r) = false) as ->.
    { rewrite sapp_cons. destruct c as [[] [] [] [] [] [] [] []]; try done. }
    fold zeroed. rewrite scan_run by done. by destruct (scan_digits 10 true r _).
Qed.

Lemma scaled_decimal m k : 0 <= k <= max_exp5 → scaled false m 10 (- k) 0 10 = Some (frac m (10 ^ k)).
Proof.
  unfold max_exp5. intros Hk. unfold scaled. cbn [Z.eqb Pos.eqb]. replace (Z.min (- k) 0 + 0) with (- k) by lia.
  rewrite wrap64_id by (unfold in_int64, two63; lia). unfold max_exp5, max_exp2.
  rewrite (proj2 (Z.ltb_ge _ _)), (proj2 (Z.ltb_ge _ _)), (proj2 (Z.ltb_ge _ _)) by lia. cbn [orb].
  replace (Z.max (- k) 0) with 0 by lia. replace (Z.max (- - k) 0) with k by lia. rewrite !Z.pow_0_r, !Z.mul_1_r, <- Z.pow_mul_l. done.
Qed.

Lemma frac_zero d : frac 0 d = 0%Q.
Proof. unfold frac, Qred. by destruct (Z.to_pos d). Qed.

Lemma frac_int z : frac z 1 = inject_Z z.
Proof.
  unfold frac, Qred, inject_Z. cbn [Z.to_pos]. pose proof (Z.ggcd_gcd z 1) as G. pose proof (Z.ggcd_correct_divisors z 1) as D.
  rewrite Z.gcd_1_r in G. destruct (Z.ggcd z 1) as [g [a b]]. cbn [fst snd] in *. subst g. destruct D as [-> D]. by rewrite Z.mul_1_l in *; subst b.
Qed.

Lemma split_sign_digits_app a r : all_digits a = true → split_sign (a +:+ r) = (false, a +:+ r).
Proof.
  unfold all_digits. destruct a as [|c a]; [done|]. rewrite sapp_cons. cbn [sempty negb sforall andb]. intros H. apply andb_prop in H as [H _].
  unfold split_sign. by destruct c as [[] [] [] [] [] [] [] []].
Qed.

(** Decimal texts are read exactly: whole numbers, and numbers with digits behind a point. *)
Lemma Rat_SetString_decimal a f : all_digits a = true → sforall is_digit f = true → Z.of_nat (String.length f) <= max_exp5 →
  Rat_SetString (a +:+ "." +:+ f) = Some (frac (Z.of_N (digits_val 0 (a +:+ f))) (10 ^ Z.of_nat (String.length f))).
Proof.
  intros Ha Hf Hl. unfold Rat_SetString. assert (SplitN2 "/" (a +:+ "." +:+ f) = (a +:+ "." +:+ f, None)) as ->.
  { apply (SplitN2_absent "/"%char). rewrite sforall_app. change ("." +:+ f) with (String "." f). cbn [sforall]. pose proof Ha as Ha'.
    unfold all_digits in Ha'. apply andb_prop in Ha' as [_ Ha']. rewrite !andb_true_iff.
    split_and!; [|done|]; (eapply sforall_impl; [|eassumption]); intros c Hc; by rewrite (is_digit_not c). }
  rewrite split_sign_digits_app by done. cbv zeta. change ("." +:+ f) with (String "." f). rewrite nat_scan_decimal by (try done; right; by exists f).
  cbn [scan_digits]. rewrite bool_decide_true by done. cbn [andb]. pose proof (scan_run f false EmptyString) as R. rewrite sapp_nil_r in R.
  rewrite R by done. clear R. cbn [scan_digits]. unfold all_digits in Ha. apply andb_prop in Ha as [Hne Ha]. destruct a as [|c a]; [done|]. clear Hne.
  unfold after_digits. cbn [sc_val sc_count sc_point sc_prev sc_bad sempty zeroed is_underscore_seen orb].
  assert (is_underscore_seen (if sempty f then SawOther else SawDigit) = false) as -> by (by destruct (sempty f)). cbn [orb].
  set (n := Z.of_nat (String.length (String c a))). set (k := Z.of_nat (String.length f)) in *. assert (0 < n) by (subst n; cbn [String.length]; lia).
  assert (0 <= k) by (subst k; lia). rewrite (proj2 (Z.eqb_neq _ 0)) by lia. cbn [scanExponent]. replace (0 + n - (0 + n + k)) with (- k) by lia.
  rewrite Z.mul_0_l, Z.add_0_l. assert (Z.of_N (digits_val 0 (String c a)) * 10 ^ k + Z.of_N (digits_val 0 f) = Z.of_N (digits_val 0 (String c a +:+ f))) as ->.
  { assert (∀ u v acc, digits_val acc (u +:+ v) = digits_val (digits_val acc u) v) as App.
    { clear. induction u as [|d u IH]; intros v acc; [done|]. rewrite sapp_cons. cbn [digits_val]. apply IH. }
    by rewrite App, (digits_val_acc (digits_val 0 _)). }
  rewrite scaled_decimal by lia. destruct (Z.eqb_spec (Z.of_N (digits_val 0 (String c a +:+ f))) 0) as [->|]; [by rewrite frac_zero|done].
Qed.

Lemma Rat_SetString_int a : all_digits a = true → Rat_SetString a = Some (inject_Z (Z.of_N (digits_val 0 a))).
Proof.
  intros Ha. unfold Rat_SetString. pose proof Ha as Ha'. unfold all_digits in Ha'. apply andb_prop in Ha' as [_ Ha'].
  assert (SplitN2 "/" a = (a, None)) as ->.
  { apply (SplitN2_absent "/"%char). eapply sforall_impl; [|exact Ha']. intros c Hc; by rewrite (is_digit_not c). }
  rewrite split_sign_digits by done. pose proof (nat_scan_decimal a EmptyString Ha (or_introl eq_refl)) as R. rewrite sapp_nil_r in R. rewrite R. clear R.
  cbn [scan_digits]. destruct a as [|c a]; [done|]. unfold after_digits. cbn [sc_val sc_count sc_point sc_prev sc_bad sempty zeroed is_underscore_seen orb].
  set (n := Z.of_nat (String.length (String c a))). assert (0 < n) by (subst n; cbn [String.length]; lia). rewrite (proj2 (Z.eqb_neq _ 0)) by lia.
  cbn [scanExponent]. rewrite Z.mul_0_l, Z.add_0_l. set (v := Z.of_N _). destruct (Z.eqb_spec v 0) as [->|]; [done|].
  unfold scaled. cbn [Z.eqb Pos.eqb]. replace (Z.min (0 + n) 0 + 0) with 0 by lia. rewrite wrap64_id by done. cbn. rewrite !Z.mul_1_r.
  by rewrite frac_int.
Qed.
