(* ===== verification/GoTime.v ===== *)
(** * Go's package time, as the program uses it

    An instant is its number of nanoseconds since the Unix epoch.  Dates are the
    proleptic Gregorian ones; [date_of_days] and [days_of_date] are inverse
    ([days_of_date_of_days]) and an instant that is printed with RFC 3339 is read back
    to the second ([ParseRFC3339_Format]). *)
From S2P Require Import Prelude GoStrings GoFloat GoJson GoJsonFacts GoReadback.

Local Open Scope Z_scope.

Definition second : Z := 1000000000.
Definition unix_sec (t : Z) : Z := t / second.

(** ** Dates *)

Record date := { d_year : Z; d_month : Z; d_day : Z }.

#[export] Instance date_eq_dec : EqDecision date.
Proof. solve_decision. Defined.

Definition is_leap (y : Z) : bool := (y mod 4 =? 0) && (negb (y mod 100 =? 0) || (y mod 400 =? 0)).

(** Days of the year in front of the first of the month. *)
Definition days_before (leap : bool) (m : Z) : Z :=
  let l := if leap then 1 else 0 in
  if m =? 1 then 0 else if m =? 2 then 31 else if m =? 3 then 59 + l
  else if m =? 4 then 90 + l else if m =? 5 then 120 + l else if m =? 6 then 151 + l
  else if m =? 7 then 181 + l else if m =? 8 then 212 + l else if m =? 9 then 243 + l
  else if m =? 10 then 273 + l else if m =? 11 then 304 + l else if m =? 12 then 334 + l
  else 365 + l.

Definition days_in (y m : Z) : Z := days_before (is_leap y) (m + 1) - days_before (is_leap y) m.

Definition month_of (leap : bool) (yday : Z) : Z :=
  let b m := days_before leap m in
  if yday <? b 2 then 1 else if yday <? b 3 then 2 else if yday <? b 4 then 3
  else if yday <? b 5 then 4 else if yday <? b 6 then 5 else if yday <? b 7 then 6
  else if yday <? b 8 then 7 else if yday <? b 9 then 8 else if yday <? b 10 then 9
  else if yday <? b 11 then 10 else if yday <? b 12 then 11 else 12.

(** Days from January 1, year 1, to January 1 of year [y + 1]. *)
Definition year_days (y : Z) : Z := 365 * y + y / 4 - y / 100 + y / 400.

(** The date of day [d], counted from January 1, year 1. *)
Definition date_of_days (d : Z) : date :=
  let a := d / 146097 in
  let d1 := d - 146097 * a in
  let b := Z.min 3 (d1 / 36524) in
  let d2 := d1 - 36524 * b in
  let c := d2 / 1461 in
  let d3 := d2 - 1461 * c in
  let e := Z.min 3 (d3 / 365) in
  let yday := d3 - 365 * e in
  let y := 400 * a + 100 * b + 4 * c + e + 1 in
  let m := month_of (is_leap y) yday in
  {| d_year := y; d_month := m; d_day := yday - days_before (is_leap y) m + 1 |}.

Definition days_of_date (t : date) : Z :=
  year_days (d_year t - 1) + days_before (is_leap (d_year t)) (d_month t) + d_day t - 1.

(** Day number of the Unix epoch. *)
Definition epoch_day : Z := 719162.

(** [t.In(loc).Date()] for a location whose offset at the instant is [off] seconds. *)
Definition Date (off t : Z) : date := date_of_days ((unix_sec t + off) / 86400 + epoch_day).

Definition clock_sec (off t : Z) : Z := (unix_sec t + off) mod 86400.
Definition Hour (off t : Z) : Z := clock_sec off t / 3600.
Definition Minute (off t : Z) : Z := clock_sec off t / 60 mod 60.
Definition Second (off t : Z) : Z := clock_sec off t mod 60.

(** [t.In(loc).Weekday()], Sunday = 0. *)
Definition Weekday (off t : Z) : Z := ((unix_sec t + off) / 86400 + epoch_day + 1) mod 7.

(** ** Printing *)

(** [%0wd] of a value that is not negative. *)
Definition pad_num (w : nat) (z : Z) : string := pad_left w (Z_to_dec z).

Definition FormatDate (d : date) : string :=
  pad_num 4 (d_year d) +:+ "-" +:+ pad_num 2 (d_month d) +:+ "-" +:+ pad_num 2 (d_day d).

Definition FormatClock (off t : Z) : string :=
  pad_num 2 (Hour off t) +:+ ":" +:+ pad_num 2 (Minute off t) +:+ ":" +:+ pad_num 2 (Second off t).

(** [t.UTC().Format(time.RFC3339)] *)
Definition FormatRFC3339 (t : Z) : string :=
  FormatDate (Date 0 t) +:+ "T" +:+ FormatClock 0 t +:+ "Z".

(** The fraction of [time.RFC3339Nano], without its trailing zeros. *)
Definition FormatNano (t : Z) : string :=
  let ds := TrimRightByte "0" (pad_num 9 (t mod second)) in
  if sempty ds then EmptyString else "." +:+ ds.

(** [t.UTC().Format(time.RFC3339Nano)] *)
Definition FormatRFC3339Nano (t : Z) : string :=
  FormatDate (Date 0 t) +:+ "T" +:+ FormatClock 0 t +:+ FormatNano t +:+ "Z".

(** ** Parsing *)

(** Exactly [n] digits. *)
Fixpoint take_num_go (n : nat) (acc : Z) (s : string) : option (Z * string) :=
  match n, s with
  | O, _ => Some (acc, s)
  | S n, String c t =>
      if is_digit c then take_num_go n (10 * acc + Z.of_N (digit_val c)) t else None
  | S _, EmptyString => None
  end.
Definition take_num (n : nat) (s : string) : option (Z * string) := take_num_go n 0 s.

(** The layout's "15": one or two digits. *)
Definition take_hour (s : string) : option (Z * string) :=
  match take_num 2 s with Some r => Some r | None => take_num 1 s end.

Definition expect (c : ascii) (s : string) : option string :=
  match s with String d t => if bool_decide (d = c) then Some t else None | EmptyString => None end.

Definition parse_date (s : string) : option (date * string) :=
  match take_num 4 s with
  | Some (y, s) =>
      match expect "-" s ≫= take_num 2 with
      | Some (m, s) =>
          match expect "-" s ≫= take_num 2 with
          | Some (d, s) =>
              if (1 <=? m) && (m <=? 12) && (1 <=? d) && (d <=? days_in y m)
              then Some ({| d_year := y; d_month := m; d_day := d |}, s) else None
          | None => None
          end
      | None => None
      end
  | None => None
  end.

(** A fraction behind the seconds, cut off after nine digits. *)
Fixpoint scan_fraction (w : Z) (s : string) : Z * string :=
  match s with
  | String c t =>
      if is_digit c then
        let '(v, r) := scan_fraction (w / 10) t in (Z.of_N (digit_val c) * w + v, r)
      else (0, s)
  | EmptyString => (0, s)
  end.

Definition parse_fraction (s : string) : Z * string :=
  match s with
  | String c t =>
      if (bool_decide (c = "."%char) || bool_decide (c = ","%char)) && starts_with_digit t
      then scan_fraction 100000000 t else (0, s)
  | EmptyString => (0, s)
  end.

(** Nanoseconds since midnight. *)
Definition parse_clock (s : string) : option (Z * string) :=
  match take_hour s with
  | Some (h, s) =>
      match expect ":" s ≫= take_num 2 with
      | Some (m, s) =>
          match expect ":" s ≫= take_num 2 with
          | Some (c, s) =>
              let '(f, s) := parse_fraction s in
              if (h <? 24) && (m <? 60) && (c <? 60)
              then Some ((h * 3600 + m * 60 + c) * second + f, s) else None
          | None => None
          end
      | None => None
      end
  | None => None
  end.

(** "Z07:00": the offset in seconds. *)
Definition parse_zone (s : string) : option (Z * string) :=
  match s with
  | String c t =>
      if bool_decide (c = "Z"%char) then Some (0, t)
      else if bool_decide (c = "+"%char) || bool_decide (c = "-"%char) then
        match take_num 2 t with
        | Some (h, t) =>
            match expect ":" t ≫= take_num 2 with
            | Some (m, t) =>
                if (h <=? 24) && (m <=? 60)
                then Some ((if bool_decide (c = "-"%char) then -1 else 1) * (h * 3600 + m * 60), t)
                else None
            | None => None
            end
        | None => None
        end
      else None
  | EmptyString => None
  end.

Definition instant (d : date) (clock off : Z) : Z :=
  ((days_of_date d - epoch_day) * 86400 - off) * second + clock.

(** [time.Parse(time.RFC3339, s)], which is also what [time.RFC3339Nano] accepts. *)
Definition ParseRFC3339 (s : string) : option Z :=
  match parse_date s with
  | Some (d, s) =>
      match expect "T" s ≫= parse_clock with
      | Some (c, s) =>
          match parse_zone s with
          | Some (off, EmptyString) => Some (instant d c off)
          | _ => None
          end
      | None => None
      end
  | None => None
  end.

(** [time.Parse] with the layouts without a zone; [sep] stands between date and clock. *)
Definition ParseLocal (sep : ascii) (s : string) : option Z :=
  match parse_date s with
  | Some (d, s) =>
      match expect sep s ≫= parse_clock with
      | Some (c, EmptyString) => Some (instant d c 0)
      | _ => None
      end
  | None => None
  end.

Definition ParseDateOnly (s : string) : option Z :=
  match parse_date s with
  | Some (d, EmptyString) => Some (instant d 0 0)
  | _ => None
  end.

(** ** Dates round trip *)

Lemma days_before_bounds leap m : 1 <= m <= 12 →
  days_before leap m < days_before leap (m + 1) <= days_before leap m + 31.
Proof.
  intros Hm. assert (m = 1 ∨ m = 2 ∨ m = 3 ∨ m = 4 ∨ m = 5 ∨ m = 6 ∨ m = 7 ∨ m = 8 ∨ m = 9
    ∨ m = 10 ∨ m = 11 ∨ m = 12) as H by lia.
  destruct leap; destruct H as [->|[->|[->|[->|[->|[->|[->|[->|[->|[->|[->| ->]]]]]]]]]]]; vm_compute;
    (split; [reflexivity|discriminate]).
Qed.

(** Evaluate the table at closed arguments. *)
Ltac eval_days_before :=
  repeat match goal with
         | |- context [days_before ?l (Zpos ?p)] =>
             let x := eval vm_compute in (days_before l (Zpos p)) in
             change (days_before l (Zpos p)) with x
         | |- context [days_before ?l (Zpos ?p + 1)] =>
             let x := eval vm_compute in (days_before l (Zpos p + 1)) in
             change (days_before l (Zpos p + 1)) with x
         end.

Lemma month_of_spec (leap : bool) yday :
  0 <= yday < 365 + (if leap then 1 else 0) →
  let m := month_of leap yday in
  1 <= m <= 12 ∧ days_before leap m <= yday < days_before leap (m + 1).
Proof.
  intros H. cbn zeta. unfold month_of. destruct leap; eval_days_before;
    repeat (case_match; bools; [eval_days_before; lia|]); eval_days_before; lia.
Qed.

Lemma is_leap_spec y :
  is_leap y = true ↔ y mod 4 = 0 ∧ (y mod 100 ≠ 0 ∨ y mod 400 = 0).
Proof.
  unfold is_leap. rewrite andb_true_iff, orb_true_iff, negb_true_iff, Z.eqb_neq, !Z.eqb_eq. done.
Qed.

(** The year and the day of the year that the chain of divisions finds. *)
Lemma year_split d :
  let a := d / 146097 in
  let d1 := d - 146097 * a in
  let b := Z.min 3 (d1 / 36524) in
  let d2 := d1 - 36524 * b in
  let c := d2 / 1461 in
  let d3 := d2 - 1461 * c in
  let e := Z.min 3 (d3 / 365) in
  let yday := d3 - 365 * e in
  let y := 400 * a + 100 * b + 4 * c + e in
  year_days y + yday = d ∧ 0 <= yday < 365 + (if is_leap (y + 1) then 1 else 0).
Proof.
  intros a d1 b d2 c d3 e yday y.
  assert (Ed1 : d1 = d - 146097 * a) by done. assert (Eb : b = Z.min 3 (d1 / 36524)) by done.
  assert (Ed2 : d2 = d1 - 36524 * b) by done. assert (Ed3 : d3 = d2 - 1461 * c) by done.
  assert (Ee : e = Z.min 3 (d3 / 365)) by done. assert (Eyd : yday = d3 - 365 * e) by done.
  assert (Ey : y = 400 * a + 100 * b + 4 * c + e) by done.
  pose proof (Z.div_mod d 146097 ltac:(lia)) as Ha. pose proof (Z.mod_pos_bound d 146097 ltac:(lia)).
  fold a in Ha. assert (Hd1 : 0 <= d1 < 146097) by lia.
  pose proof (Z.div_mod d1 36524 ltac:(lia)) as Hb. pose proof (Z.mod_pos_bound d1 36524 ltac:(lia)).
  assert (Hbr : 0 <= b <= 3 ∧ 0 <= d2 ∧ (d2 < 36524 ∨ b = 3 ∧ d2 <= 36524)) by lia.
  pose proof (Z.div_mod d2 1461 ltac:(lia)) as Hc. pose proof (Z.mod_pos_bound d2 1461 ltac:(lia)).
  fold c in Hc. assert (Hcr : 0 <= c <= 24 ∧ 0 <= d3 < 1461) by lia.
  pose proof (Z.div_mod d3 365 ltac:(lia)) as He. pose proof (Z.mod_pos_bound d3 365 ltac:(lia)).
  assert (Her : 0 <= e <= 3 ∧ 0 <= yday ∧ (yday < 365 ∨ e = 3 ∧ yday <= 365)) by lia.
  assert (H4 : y / 4 = 100 * a + 25 * b + c) by (symmetry; apply (Z.div_unique _ _ _ e); lia).
  assert (H100 : y / 100 = 4 * a + b) by (symmetry; apply (Z.div_unique _ _ _ (4 * c + e)); lia).
  assert (H400 : y / 400 = a) by (symmetry; apply (Z.div_unique _ _ _ (100 * b + 4 * c + e)); lia).
  split; [unfold year_days; lia|]. split; [lia|].
  destruct (is_leap (y + 1)) eqn:El; [lia|].
  destruct (decide (yday < 365)) as [|Hy]; [lia|]. exfalso.
  assert (e = 3 ∧ yday = 365) as [Ee3 Ey365] by lia.
  assert (is_leap (y + 1) = true); [|congruence]. apply is_leap_spec.
  assert (M4 : (y + 1) mod 4 = 0).
  { symmetry. apply (Z.mod_unique _ _ (100 * a + 25 * b + c + 1)); lia. }
  split; [done|]. destruct (decide (c = 24)) as [->|Hc24].
  - right. assert (b = 3) by lia. symmetry. apply (Z.mod_unique _ _ (a + 1)); lia.
  - left. intros M100.
    assert ((y + 1) mod 100 = 4 * c + 4).
    { symmetry. apply (Z.mod_unique _ _ (4 * a + b)); lia. }
    lia.
Qed.

Lemma date_of_days_valid d :
  let t := date_of_days d in
  1 <= d_month t <= 12 ∧ 1 <= d_day t <= days_in (d_year t) (d_month t) ∧ days_of_date t = d.
Proof.
  pose proof (year_split d) as [Hd Hy]. intros t. unfold t, date_of_days.
  set (a := d / 146097) in *. set (d1 := d - 146097 * a) in *.
  set (b := Z.min 3 (d1 / 36524)) in *. set (d2 := d1 - 36524 * b) in *.
  set (c := d2 / 1461) in *. set (d3 := d2 - 1461 * c) in *.
  set (e := Z.min 3 (d3 / 365)) in *. set (yday := d3 - 365 * e) in *.
  cbn [d_year d_month d_day].
  pose proof (month_of_spec _ _ Hy) as [Hm Hr].
  unfold days_in, days_of_date. cbn [d_year d_month d_day].
  split; [lia|]. split; [lia|]. rewrite Z.add_simpl_r. lia.
Qed.

Lemma days_of_date_of_days d : days_of_date (date_of_days d) = d.
Proof. apply date_of_days_valid. Qed.

(** ** Instants round trip *)

Lemma digits_go_length fuel n acc k :
  (n < 10 ^ N.of_nat k)%N → (1 <= k)%nat →
  (String.length (digits_go fuel n acc) <= k + String.length acc)%nat.
Proof.
  revert n acc k. induction fuel as [|fuel IH]; intros n acc k Hn Hk; cbn [digits_go]; [lia|].
  destruct (n <? 10)%N eqn:E; [simpl; lia|]. apply N.ltb_ge in E.
  destruct k as [|[|k]]; [lia|change (10 ^ N.of_nat 1)%N with 10%N in Hn; lia|].
  specialize (IH (n / 10)%N (String (digit_char (n mod 10)) acc) (S k)).
  simpl in IH |- *. rewrite (Nat2N.inj_succ (S k)), N.pow_succ_r' in Hn.
  pose proof (N.Div0.div_lt_upper_bound n 10 (10 ^ N.of_nat (S k)) Hn) as Hd.
  specialize (IH Hd ltac:(lia)). lia.
Qed.

Lemma pad_num_length w z :
  (1 <= w)%nat → 0 <= z < 10 ^ Z.of_nat w → String.length (pad_num w z) = w.
Proof.
  intros Hw Hz. unfold pad_num, pad_left. rewrite slength_app.
  assert (Hl : (String.length (Z_to_dec z) <= w)%nat).
  { assert (Hn : (Z.to_N z < 10 ^ N.of_nat w)%N).
    { apply N2Z.inj_lt. rewrite N2Z.inj_pow, nat_N_Z, Z2N.id by lia. apply Hz. }
    pose proof (digits_go_length (S (N.to_nat (N.size (Z.to_N z)))) (Z.to_N z) EmptyString w Hn Hw) as H.
    simpl in H. rewrite Nat.add_0_r in H.
    unfold Z_to_dec, N_to_dec. destruct z; [exact H|exact H|lia]. }
  assert (Hr : ∀ n, String.length (sconcat (repeat "0"%stdpp n)) = n).
  { induction n as [|n IH]; [done|]. cbn [repeat sconcat]. rewrite slength_app, IH. done. }
  rewrite Hr. lia.
Qed.

Lemma take_num_go_digits ds acc t :
  sforall is_digit ds = true →
  take_num_go (String.length ds) acc (ds +:+ t) = Some (Z.of_N (digits_val (Z.to_N acc) ds), t) ∨ acc < 0.
Proof.
  revert acc. induction ds as [|c ds IH]; intros acc Hd.
  - destruct (decide (acc < 0)); [by right|left]. cbn. rewrite sapp_nil_l, Z2N.id by lia. done.
  - destruct (decide (acc < 0)); [by right|left]. cbn [sforall] in Hd. bools.
    rewrite sapp_cons. cbn [String.length take_num_go digits_val]. rewrite H.
    destruct (IH (10 * acc + Z.of_N (digit_val c)) H0) as [->|?]; [|lia].
    do 3 f_equal. rewrite Z2N.inj_add, Z2N.inj_mul, N2Z.id by lia. done.
Qed.

Lemma digits_val_zeros n s : digits_val 0 (sconcat (repeat "0"%stdpp n) +:+ s) = digits_val 0 s.
Proof.
  induction n as [|n IH]; [done|]. cbn [repeat sconcat]. rewrite sapp_assoc.
  change (digits_val 0 (sconcat (repeat "0"%stdpp n) +:+ s) = digits_val 0 s). exact IH.
Qed.

Lemma pad_num_digits w z : 0 <= z → sforall is_digit (pad_num w z) = true ∧ Z.of_N (digits_val 0 (pad_num w z)) = z.
Proof.
  intros Hz. unfold pad_num, pad_left. rewrite sforall_app, digits_val_zeros.
  assert (Hr : ∀ n, sforall is_digit (sconcat (repeat "0"%stdpp n)) = true).
  { induction n as [|n IH]; [done|]. cbn [repeat sconcat]. by rewrite sforall_app, IH. }
  rewrite Hr. pose proof (N_to_dec_digits (Z.to_N z)) as Hd. unfold all_digits in Hd.
  apply andb_true_iff in Hd as [_ Hd].
  assert (E : Z_to_dec z = N_to_dec (Z.to_N z)) by (unfold Z_to_dec; destruct z; [done|done|lia]).
  rewrite E, Hd, N_to_dec_val. lia.
Qed.

Lemma take_num_pad w z t :
  (1 <= w)%nat → 0 <= z < 10 ^ Z.of_nat w → take_num w (pad_num w z +:+ t) = Some (z, t).
Proof.
  intros Hw Hz. destruct (pad_num_digits w z ltac:(lia)) as [Hd Hv].
  pose proof (pad_num_length w z Hw Hz) as Hl. unfold take_num. rewrite <- Hl at 1.
  destruct (take_num_go_digits (pad_num w z) 0 t Hd) as [->|?]; [|lia].
  change (Z.to_N 0) with 0%N. by rewrite Hv.
Qed.

(** Instants whose year has four digits. *)
Definition four_digit_year (t : Z) : Prop := 0 <= d_year (Date 0 t) <= 9999.

Lemma clock_bounds off t : 0 <= Hour off t < 24 ∧ 0 <= Minute off t < 60 ∧ 0 <= Second off t < 60.
Proof.
  unfold Hour, Minute, Second, clock_sec.
  pose proof (Z.mod_pos_bound (unix_sec t + off) 86400 ltac:(lia)) as H.
  split_and!; try apply Z.mod_pos_bound; try lia.
  - apply Z.div_pos; lia.
  - apply Z.div_lt_upper_bound; lia.
Qed.

Lemma clock_split off t : Hour off t * 3600 + Minute off t * 60 + Second off t = clock_sec off t.
Proof.
  unfold Hour, Minute, Second. set (c := clock_sec off t).
  pose proof (Z.div_mod c 60 ltac:(lia)). pose proof (Z.div_mod (c / 60) 60 ltac:(lia)).
  replace (c / 3600) with (c / 60 / 60) by (rewrite Z.div_div by lia; done). lia.
Qed.

Lemma expect_sep c s : expect c (String c EmptyString +:+ s) = Some s.
Proof. change (expect c (String c s) = Some s). cbn. by rewrite bool_decide_eq_true_2. Qed.

Lemma parse_date_Format d t :
  let x := date_of_days d in
  0 <= d_year x <= 9999 → parse_date (FormatDate x +:+ t) = Some (x, t).
Proof.
  intros x Hy. pose proof (date_of_days_valid d) as (Hm & Hd & _). fold x in Hm, Hd.
  assert (Hdi : days_in (d_year x) (d_month x) <= 31).
  { unfold days_in. pose proof (days_before_bounds (is_leap (d_year x)) _ Hm). lia. }
  unfold FormatDate, parse_date. rewrite !sapp_assoc.
  rewrite take_num_pad by lia. rewrite expect_sep. cbn [mbind option_bind].
  rewrite take_num_pad by lia. rewrite expect_sep. cbn [mbind option_bind].
  rewrite take_num_pad by lia.
  rewrite !(proj2 (Z.leb_le _ _)) by lia. by destruct x.
Qed.

Lemma parse_clock_Format off t u :
  starts_with_digit u = false → HasPrefix u "." = false → HasPrefix u "," = false →
  parse_clock (FormatClock off t +:+ u) = Some (clock_sec off t * second, u).
Proof.
  intros Hu1 Hu2 Hu3. destruct (clock_bounds off t) as (H1 & H2 & H3).
  unfold FormatClock, parse_clock, take_hour. rewrite !sapp_assoc.
  rewrite take_num_pad by lia. rewrite expect_sep. cbn [mbind option_bind].
  rewrite take_num_pad by lia. rewrite expect_sep. cbn [mbind option_bind].
  rewrite take_num_pad by lia.
  assert (Hf : parse_fraction u = (0, u)).
  { destruct u as [|c u]; [done|]. cbn [parse_fraction].
    destruct c as [[] [] [] [] [] [] [] []]; (done || by destruct u). }
  rewrite Hf, !(proj2 (Z.ltb_lt _ _)) by lia. cbn [andb].
  by rewrite Z.add_0_r, clock_split.
Qed.

(** Printing an instant and reading it back gives the instant to the second. *)
Lemma ParseRFC3339_Format t :
  four_digit_year t → ParseRFC3339 (FormatRFC3339 t) = Some (unix_sec t * second).
Proof.
  intros Hy. unfold four_digit_year, Date in Hy. unfold FormatRFC3339, ParseRFC3339.
  unfold Date. rewrite parse_date_Format by done. rewrite expect_sep. cbn [mbind option_bind].
  rewrite parse_clock_Format by done. cbn [parse_zone]. rewrite bool_decide_eq_true_2 by done.
  f_equal. unfold instant. rewrite days_of_date_of_days. unfold clock_sec. rewrite Z.add_0_r.
  pose proof (Z.div_mod (unix_sec t) 86400 ltac:(lia)). unfold second in *. lia.
Qed.

#[export] Hint Rewrite days_of_date_of_days expect_sep : go_strings.

(** ** Printed times are valid UTF-8 *)

Lemma FormatRFC3339_valid t : utf8_valid (FormatRFC3339 t) = true.
Proof.
  unfold FormatRFC3339, FormatDate, FormatClock, pad_num.
  repeat (apply utf8_valid_app; [first [reflexivity|apply pad_left_valid, Z_to_dec_valid
    |repeat (apply utf8_valid_app; [first [reflexivity|apply pad_left_valid, Z_to_dec_valid]|]);
     apply pad_left_valid, Z_to_dec_valid]|]). reflexivity.
Qed.
