(* ===== verification/Store.v ===== *)
(** * The local store: data, transactions and the generic operations

    Models the data types and the transaction machinery of
    [offline-menuvex/internal/store/store.go].  A transaction works on a copy of the
    database, writes the new text to a temporary file, renames it over the store's
    file and only then replaces the state in memory; the system calls' outcomes are an
    input ([IO]) and the file system's states between them are kept, so that crashes
    can be spoken of, those of the power included, which may undo a renaming whose directory
    was not synced. *)
From S2P Require Import Prelude GoStrings GoFloat GoJson GoJsonFacts GoTime.

(** ** Data *)

(* store.go storedEntity *)
Record storedEntity := {
  se_ID : string;
  se_Type : string;
  se_Version : Z;
  se_Deleted : bool;
  se_Payload : string;
}.

(* store.go storedOperation *)
Record storedOperation := {
  so_ID : string;
  so_Sequence : Z;
  so_EntityType : string;
  so_EntityID : string;
  so_Action : string;
  so_BaseVersion : option Z;
  so_DependsOn : list string;
  so_Payload : string;
  so_CreatedAt : string;
  so_State : string;
  so_Result : string;
}.

(* store.go ConnectionConfig *)
Record ConnectionConfig := {
  cc_APIURL : string;
  cc_DeviceID : string;
  cc_DeviceToken : string;
  cc_DeviceName : string;
  cc_CafeName : string;
  cc_AccountPhone : string;
  cc_UpdatedAt : string;
}.

(* store.go LegacyStockCount *)
Record LegacyStockCount := {
  lc_ID : Z;
  lc_Name : string;
  lc_Quantity : string;
  lc_Unit : string;
  lc_Note : string;
  lc_CreatedAt : string;
}.

(* store.go persistedDB *)
Record persistedDB := {
  Meta : gmap string string;
  Entities : gmap string storedEntity;
  Outbox : list storedOperation;
  LegacyStockCounts : list LegacyStockCount;
  NextOutboxSeq : Z;
  NextLegacyStockCountID : Z;
  Connection : option ConnectionConfig;
}.

(* store.go Entity *)
Record Entity := {
  e_ID : string;
  e_Type : string;
  e_Version : Z;
  e_Payload : string;
}.

(* store.go Change *)
Record Change := {
  c_EntityType : string;
  c_EntityID : string;
  c_Version : Z;
  c_Tombstone : bool;
  c_Operation : string;
  c_Payload : string;
}.

#[export] Instance storedEntity_eq_dec : EqDecision storedEntity.
Proof. solve_decision. Defined.
#[export] Instance storedOperation_eq_dec : EqDecision storedOperation.
Proof. solve_decision. Defined.
#[export] Instance Entity_eq_dec : EqDecision Entity.
Proof. solve_decision. Defined.

(** Field updates. *)
Definition set_Meta (f : gmap string string → gmap string string) (st : persistedDB) : persistedDB :=
  {| Meta := f (Meta st); Entities := Entities st; Outbox := Outbox st;
     LegacyStockCounts := LegacyStockCounts st; NextOutboxSeq := NextOutboxSeq st;
     NextLegacyStockCountID := NextLegacyStockCountID st; Connection := Connection st |}.
Definition set_Entities (f : gmap string storedEntity → gmap string storedEntity) (st : persistedDB) : persistedDB :=
  {| Meta := Meta st; Entities := f (Entities st); Outbox := Outbox st;
     LegacyStockCounts := LegacyStockCounts st; NextOutboxSeq := NextOutboxSeq st;
     NextLegacyStockCountID := NextLegacyStockCountID st; Connection := Connection st |}.
Definition set_Outbox (l : list storedOperation) (seq : Z) (st : persistedDB) : persistedDB :=
  {| Meta := Meta st; Entities := Entities st; Outbox := l;
     LegacyStockCounts := LegacyStockCounts st; NextOutboxSeq := seq;
     NextLegacyStockCountID := NextLegacyStockCountID st; Connection := Connection st |}.

(** [st.Entities[key] = e] *)
Definition put (key : string) (e : storedEntity) (st : persistedDB) : persistedDB :=
  set_Entities (<[key := e]>) st.

(** A stored entity as the view type, [Entity{ID: e.ID, ...}]. *)
Definition view (e : storedEntity) : Entity :=
  {| e_ID := se_ID e; e_Type := se_Type e; e_Version := se_Version e; e_Payload := se_Payload e |}.

(** [e.Version++; e.Payload = p] *)
Definition bump (e : storedEntity) (p : string) : storedEntity :=
  {| se_ID := se_ID e; se_Type := se_Type e; se_Version := wrap64 (se_Version e + 1);
     se_Deleted := se_Deleted e; se_Payload := p |}.

(* store.go newEmptyDB *)
Definition newEmptyDB : persistedDB :=
  {| Meta := ∅; Entities := ∅; Outbox := []; LegacyStockCounts := [];
     NextOutboxSeq := 0; NextLegacyStockCountID := 0; Connection := None |}.

(* store.go cloneDB *)
Definition cloneDB (src : persistedDB) : persistedDB :=
  {| Meta := Meta src; Entities := Entities src; Outbox := Outbox src;
     LegacyStockCounts := LegacyStockCounts src; NextOutboxSeq := NextOutboxSeq src;
     NextLegacyStockCountID := NextLegacyStockCountID src; Connection := Connection src |}.

(** ** Where the runtime chooses: ranging over a map, and [sort.Slice]

    The order of a [range] over a map is the runtime's choice: the [k]-th loop of a run
    takes the order [iter k] gives, and all that is known is that each entry comes once.
    [sort.Slice] returns some ordering of its argument that the comparison allows; equal
    elements may come in any order. *)
Record Runtime := {
  iter : nat → ∀ A, gmap string A → list (string * A);
  iter_perm : ∀ k A (m : gmap string A), iter k A m ≡ₚ map_to_list m;
  sort_slice : ∀ A, (A → A → bool) → list A → list A;
  sort_perm : ∀ A less (l : list A), sort_slice A less l ≡ₚ l;
  sort_sorted : ∀ A less (l : list A),
    (∀ x y, less x y = true → less y x = false) →
    (∀ x y z, less y x = false → less z y = false → less z x = false) →
    StronglySorted (λ x y, less y x = false) (sort_slice A less l);
}.
Arguments iter _ _ {A} _.
Arguments sort_slice _ {A} _ _.

(** One possible runtime. *)
Definition not_above {A} (less : A → A → bool) (x y : A) : Prop := less y x = false.

#[export] Instance not_above_dec {A} (less : A → A → bool) : RelDecision (not_above less).
Proof. intros x y. unfold not_above. apply _. Defined.

Lemma merge_sort_above {A} (less : A → A → bool) l :
  (∀ x y, less x y = true → less y x = false) →
  (∀ x y z, less y x = false → less z y = false → less z x = false) →
  StronglySorted (λ x y, less y x = false) (merge_sort (not_above less) l).
Proof.
  intros Ha Ht. apply Sorted_StronglySorted; [intros x y z; apply Ht|].
  assert (Total (not_above less)).
  { intros x y. unfold not_above. destruct (less y x) eqn:E; [right; by apply Ha|by left]. }
  apply (Sorted_merge_sort (not_above less)).
Qed.

Definition plain_runtime : Runtime :=
  {| iter := λ _ A m, map_to_list m; iter_perm := λ _ A m, Permutation_refl _;
     sort_slice := λ A less l, merge_sort (not_above less) l;
     sort_perm := λ A less l, merge_sort_Permutation (not_above less) l;
     sort_sorted := @merge_sort_above |}.

(** ** Fresh identifiers *)

(** What [crypto/rand] delivers: 16 bytes, or an error. *)
Abbreviation entropy := (list (option (list N))).

Definition hex_byte (n : N) : string := String (hex_char (n / 16)) (sone (hex_char (n mod 16))).
Definition rand_error : string := "crypto/rand: read failed".

(** The version and variant bits of a random UUID. *)
Definition uuid_bytes (b : list N) : list N :=
  alter (λ x, N.lor (N.land x 63) 128) 8 (alter (λ x, N.lor (N.land x 15) 64) 6 b).

(* outbox.go UUID *)
Definition UUID (g : entropy) : res string * entropy :=
  match g with
  | Some b :: g =>
      let s := sconcat (map hex_byte (uuid_bytes b)) in
      (Ok (stake 8 s +:+ "-" +:+ stake 4 (sdrop 8 s) +:+ "-" +:+ stake 4 (sdrop 12 s) +:+ "-"
           +:+ stake 4 (sdrop 16 s) +:+ "-" +:+ sdrop 20 s), g)
  | None :: g => (Err rand_error, g)
  | [] => (Err rand_error, [])
  end.

(** [lineID, _ := UUID()] *)
Definition UUID_or_empty (g : entropy) : string * entropy :=
  match UUID g with (Ok id, g) => (id, g) | (Err _, g) => (EmptyString, g) end.

(** ** The text of the database *)

(** [json.Marshal] of a [json.RawMessage]: the text without its white space and with
    the HTML characters and line separators inside strings escaped. *)
Fixpoint compact (ins : bool) (s : string) : string :=
  match s with
  | EmptyString => EmptyString
  | String c t =>
      if ins then
        if bool_decide (c = backslash_char) then
          match t with
          | String e u => String c (String e (compact true u))
          | EmptyString => sone c
          end
        else if bool_decide (c = quote_char) then String c (compact false t)
        else if (byte_of c =? 60)%N || (byte_of c =? 62)%N || (byte_of c =? 38)%N then u00 c +:+ compact true t
        else match t with
             | String d (String e u) =>
                 if bool_decide (String c (String d (sone e)) = line_separator) then String backslash_char "u2028" +:+ compact true u
                 else if bool_decide (String c (String d (sone e)) = paragraph_separator) then String backslash_char "u2029" +:+ compact true u
                 else String c (compact true t)
             | _ => String c (compact true t)
             end
      else if is_ws c then compact false t
      else String c (compact (bool_decide (c = quote_char)) t)
  end.

Definition raw_error : string := "json: error calling MarshalJSON for type json.RawMessage".

Definition encode_raw (s : string) : res string :=
  if json_Valid s then Ok (compact false s) else Err raw_error.

Fixpoint mapM_res {A B} (f : A → res B) (l : list A) : res (list B) :=
  match l with
  | [] => Ok []
  | x :: r => let? y := f x in let? ys := mapM_res f r in Ok (y :: ys)
  end.

(** [{"k":v,...}] of encoded members. *)
Definition object_text (l : list (string * string)) : string :=
  "{" +:+ Join "," (map (λ p, quote p.1 +:+ ":" +:+ p.2) l) +:+ "}".
Definition array_text (l : list string) : string := "[" +:+ Join "," l +:+ "]".
Definition bool_text (b : bool) : string := if b then "true" else "false".

Definition encode_entity (e : storedEntity) : res string :=
  let? p := encode_raw (se_Payload e) in
  Ok (object_text [("id", quote (se_ID e)); ("type", quote (se_Type e)); ("version", Z_to_dec (se_Version e));
                   ("deleted", bool_text (se_Deleted e)); ("payload", p)]).

Definition encode_operation (o : storedOperation) : res string :=
  let? p := encode_raw (so_Payload o) in
  let? r := encode_raw (so_Result o) in
  Ok (object_text
    ([("operation_id", quote (so_ID o)); ("client_sequence", Z_to_dec (so_Sequence o));
      ("entity_type", quote (so_EntityType o)); ("entity_id", quote (so_EntityID o));
      ("operation", quote (so_Action o))]
     ++ match so_BaseVersion o with Some v => [("base_version", Z_to_dec v)] | None => [] end
     ++ match so_DependsOn o with [] => [] | l => [("depends_on", array_text (map quote l))] end
     ++ [("payload", p); ("client_created_at", quote (so_CreatedAt o)); ("state", quote (so_State o)); ("result", r)])).

Definition encode_legacy (d : LegacyStockCount) : string :=
  object_text [("id", Z_to_dec (lc_ID d)); ("name", quote (lc_Name d)); ("quantity", quote (lc_Quantity d));
               ("unit", quote (lc_Unit d)); ("note", quote (lc_Note d)); ("created_at", quote (lc_CreatedAt d))].

Definition omitempty (k v : string) : list (string * string) := if sempty v then [] else [(k, quote v)].

Definition encode_connection (c : ConnectionConfig) : string :=
  object_text
    ([("api_url", quote (cc_APIURL c)); ("device_id", quote (cc_DeviceID c)); ("device_token", quote (cc_DeviceToken c))]
     ++ omitempty "device_name" (cc_DeviceName c) ++ omitempty "cafe_name" (cc_CafeName c)
     ++ omitempty "account_phone" (cc_AccountPhone c) ++ omitempty "updated_at" (cc_UpdatedAt c)).

(** The entries of a map by key, the order [json.Marshal] writes. *)
Definition sorted_keys {A} (m : gmap string A) : list string := sort_strings (map_to_list m).*1.
Definition sorted_entries {A} (m : gmap string A) : list (string * A) :=
  omap (λ k, (λ v, (k, v)) <$> m !! k) (sorted_keys m).

(** [json.Marshal(tx)] *)
Definition encodeDB (st : persistedDB) : res string :=
  let? ents := mapM_res (λ p, let? t := encode_entity p.2 in Ok (p.1, t)) (sorted_entries (Entities st)) in
  let? ops := mapM_res encode_operation (Outbox st) in
  Ok (object_text
    ([("meta", object_text (map (λ p, (p.1, quote p.2)) (sorted_entries (Meta st))));
      ("entities", object_text ents);
      ("outbox", array_text ops);
      ("drafts", array_text (map encode_legacy (LegacyStockCounts st)));
      ("next_outbox_seq", Z_to_dec (NextOutboxSeq st));
      ("next_draft_id", Z_to_dec (NextLegacyStockCountID st))]
     ++ match Connection st with Some c => [("connection", encode_connection c)] | None => [] end)).

(** ** Files, and what survives a crash *)

(** A file's text and whether it has reached the disk. *)
Record file := { f_text : string; f_synced : bool }.

(** The store's file and the temporary file next to it. *)
Record Disk := { d_main : option file; d_tmp : option file }.

Inductive fsop :=
| OpenTmp             (* os.OpenFile(tmpPath, O_CREATE|O_WRONLY|O_TRUNC) *)
| WriteTmp (s : string)
| SyncTmp
| RemoveTmp
| RenameTmp           (* os.Rename(tmpPath, s.path) *)
| WriteMain (s : string). (* os.WriteFile(s.path, ...) *)

(** The disk after a call, as the processes of the machine see it; what a power failure leaves
    of a renaming is another matter ([power_point]). *)
Definition run_op (o : fsop) (d : Disk) : Disk :=
  match o with
  | OpenTmp => {| d_main := d_main d; d_tmp := Some {| f_text := EmptyString; f_synced := false |} |}
  | WriteTmp s => {| d_main := d_main d; d_tmp := Some {| f_text := s; f_synced := false |} |}
  | SyncTmp => {| d_main := d_main d; d_tmp := (λ f, {| f_text := f_text f; f_synced := true |}) <$> d_tmp d |}
  | RemoveTmp => {| d_main := d_main d; d_tmp := None |}
  | RenameTmp => {| d_main := d_tmp d; d_tmp := None |}
  | WriteMain s => {| d_main := Some {| f_text := s; f_synced := false |}; d_tmp := d_tmp d |}
  end.

Definition run_ops (l : list fsop) (d : Disk) : Disk := foldl (λ d o, run_op o d) d l.

(** The disk in the middle of a call: a write has written some prefix. *)
Inductive mid_op : fsop → Disk → Disk → Prop :=
| mid_write_tmp s n d :
    mid_op (WriteTmp s) d {| d_main := d_main d; d_tmp := Some {| f_text := stake n s; f_synced := false |} |}
| mid_write_main s n d :
    mid_op (WriteMain s) d {| d_main := Some {| f_text := stake n s; f_synced := false |}; d_tmp := d_tmp d |}.

(** The disks a crash can meet while the calls [l] run. *)
Inductive crash_point : list fsop → Disk → Disk → Prop :=
| crash_here l d : crash_point l d d
| crash_mid o l d d' : mid_op o d d' → crash_point (o :: l) d d'
| crash_later o l d d' : crash_point l (run_op o d) d' → crash_point (o :: l) d d'.

(** The file the store's name denotes after a power failure.  The directory is never synced, so
    that any renaming of the run may be undone: the name then denotes the file from before it.
    What [crash_point] and [run_op] describe is what the processes of a machine that goes on
    see. *)
Inductive power_point : list fsop → Disk → option file → Prop :=
| power_now l d d' : crash_point l d d' → power_point l d (d_main d')
| power_undone l d : power_point (RenameTmp :: l) d (d_main d)
| power_later o l d f : power_point l (run_op o d) f → power_point (o :: l) d f.

(** What is read back after the crash: of data not yet on the disk, any prefix. *)
Inductive survives : file → string → Prop :=
| survives_synced f : f_synced f = true → survives f (f_text f)
| survives_prefix f n : f_synced f = false → survives f (stake n (f_text f)).

(** ** The store and its transactions *)

(* store.go Store *)
Record Store := {
  s_closed : bool;
  s_state : persistedDB;
  s_disk : Disk;
}.

(** The outcome of each call of a transaction: [None] is success. *)
Record IO := {
  io_open : option string;
  io_write : option (string * nat);    (* the error and the bytes written before it *)
  io_sync : option string;
  io_close : option string;
  io_rename : option string;
  io_fallback : option (string * nat);
}.

Definition io_ok : IO :=
  {| io_open := None; io_write := None; io_sync := None; io_close := None; io_rename := None; io_fallback := None |}.

(** The directory is not synced after the renaming. *)
(* store.go:244-270 Store.withTx *)
Definition commit_calls (io : IO) (encoded : string) : res unit * list fsop :=
  match io_open io with
  | Some e => (Err e, [])
  | None =>
  match io_write io with
  | Some (e, n) => (Err e, [OpenTmp; WriteTmp (stake n encoded); RemoveTmp])
  | None =>
  match io_sync io with
  | Some e => (Err e, [OpenTmp; WriteTmp encoded; RemoveTmp])
  | None =>
  match io_close io with
  | Some e => (Err e, [OpenTmp; WriteTmp encoded; SyncTmp; RemoveTmp])
  | None =>
  match io_rename io with
  | None => (Ok (), [OpenTmp; WriteTmp encoded; SyncTmp; RenameTmp])
  | Some e =>
      match io_fallback io with
      | Some (_, n) => (Err e, [OpenTmp; WriteTmp encoded; SyncTmp; WriteMain (stake n encoded); RemoveTmp])
      | None => (Ok (), [OpenTmp; WriteTmp encoded; SyncTmp; WriteMain encoded; RemoveTmp])
      end
  end end end end end.

(** What a transaction leaves: its result, the store, and the calls it made. *)
Record tx_out (A : Type) := { tx_res : res A; tx_store : Store; tx_calls : list fsop }.
Arguments tx_res {A} _.
Arguments tx_store {A} _.
Arguments tx_calls {A} _.
Arguments Build_tx_out {A} _ _ _.

Definition tx_fail {A} (e : string) (s : Store) : tx_out A :=
  {| tx_res := Err e; tx_store := s; tx_calls := [] |}.

(* store.go Store.withTx *)
Definition withTx {A} (io : IO) (ctx : option string) (s : Store)
    (fn : persistedDB → res (A * persistedDB)) : tx_out A :=
  match ctx with
  | Some e => tx_fail e s
  | None =>
      if s_closed s then tx_fail "store is closed" s
      else
        match fn (cloneDB (s_state s)) with
        | Err e => tx_fail e s
        | Ok (a, tx) =>
            match encodeDB tx with
            | Err e => tx_fail e s
            | Ok encoded =>
                let '(r, calls) := commit_calls io encoded in
                let disk := run_ops calls (s_disk s) in
                match r with
                | Err e => {| tx_res := Err e; tx_calls := calls;
                              tx_store := {| s_closed := s_closed s; s_state := s_state s; s_disk := disk |} |}
                | Ok _ => {| tx_res := Ok a; tx_calls := calls;
                             tx_store := {| s_closed := s_closed s; s_state := tx; s_disk := disk |} |}
                end
            end
        end
  end.

(* store.go Store.Close *)
Definition Close (s : Store) : Store := {| s_closed := true; s_state := s_state s; s_disk := s_disk s |}.

(** Reads fail only on a cancelled context; they do not look at [closed]. *)
Definition read_ctx {A} (ctx : option string) (a : A) : res A :=
  match ctx with Some e => Err e | None => Ok a end.

(** ** The entries of a map in order *)

Lemma elem_of_sorted_entries {A} (m : gmap string A) k v : (k, v) ∈ sorted_entries m ↔ m !! k = Some v.
Proof.
  unfold sorted_entries. rewrite list_elem_of_omap. split.
  - intros (j & _ & H). destruct (m !! j) as [w|] eqn:E; [|done]. by injection H as -> ->.
  - intros H. exists k. rewrite H. split; [|done]. unfold sorted_keys, sort_strings. rewrite merge_sort_Permutation.
    apply list_elem_of_fmap. exists (k, v). split; [done|]. by apply elem_of_map_to_list.
Qed.

Lemma foldl_insert_spec {A} (M : gmap string A) (l : list (string * A)) : (∀ k v, (k, v) ∈ l → M !! k = Some v) →
  ∀ (m : gmap string A) k, foldl (λ m p, <[p.1 := p.2]> m) m l !! k = if bool_decide (k ∈ l.*1) then M !! k else m !! k.
Proof.
  induction l as [|[j w] l IH]; intros Hl m k; [done|]. cbn [foldl fst snd]. rewrite IH by (intros; apply Hl; by right).
  rewrite fmap_cons. cbn [fst]. destruct (decide (k ∈ l.*1)) as [Hin|Hin].
  - rewrite !bool_decide_eq_true_2; [done|by right|done].
  - rewrite (bool_decide_eq_false_2 (k ∈ l.*1)) by done. destruct (decide (k = j)) as [->|Hn].
    + rewrite bool_decide_eq_true_2 by (left). rewrite lookup_insert_eq. symmetry. apply Hl. left.
    + rewrite bool_decide_eq_false_2, lookup_insert_ne by (rewrite ?not_elem_of_cons; done). done.
Qed.

Lemma foldl_sorted_entries {A} (m : gmap string A) : foldl (λ m p, <[p.1 := p.2]> m) ∅ (sorted_entries m) = m.
Proof.
  apply map_eq. intros k. rewrite (foldl_insert_spec m) by (intros; by apply elem_of_sorted_entries).
  destruct (decide (k ∈ (sorted_entries m).*1)) as [H|H]; [by rewrite bool_decide_eq_true_2|].
  rewrite bool_decide_eq_false_2 by done. destruct (m !! k) as [v|] eqn:E; [|by rewrite lookup_empty].
  destruct H. apply list_elem_of_fmap. exists (k, v). split; [done|]. by apply elem_of_sorted_entries.
Qed.

(** ** Facts on transactions *)

Lemma cloneDB_id st : cloneDB st = st.
Proof. by destruct st. Qed.

Lemma read_ctx_ok {A} ctx (a b : A) : read_ctx ctx a = Ok b → a = b.
Proof. destruct ctx; [done|]. by intros [= ->]. Qed.

(** The state a transaction leaves is the old one, or the one its body made. *)
Lemma withTx_state {A} io ctx s (fn : persistedDB → res (A * persistedDB)) :
  match tx_res (withTx io ctx s fn) with
  | Err _ => s_state (tx_store (withTx io ctx s fn)) = s_state s
  | Ok a => fn (s_state s) = Ok (a, s_state (tx_store (withTx io ctx s fn)))
  end.
Proof.
  unfold withTx, tx_fail. rewrite cloneDB_id.
  destruct ctx; [done|]. destruct (s_closed s); [done|].
  destruct (fn (s_state s)) as [[a tx]|e] eqn:E; [|done].
  destruct (encodeDB tx); [|done].
  by destruct (commit_calls io a0) as [[?|?] ?].
Qed.

Lemma withTx_ok {A} io ctx s (fn : persistedDB → res (A * persistedDB)) a :
  tx_res (withTx io ctx s fn) = Ok a → fn (s_state s) = Ok (a, s_state (tx_store (withTx io ctx s fn))).
Proof. intros H. pose proof (withTx_state io ctx s fn) as W. by rewrite H in W. Qed.

Lemma withTx_err {A} io ctx s (fn : persistedDB → res (A * persistedDB)) e :
  tx_res (withTx io ctx s fn) = Err e → s_state (tx_store (withTx io ctx s fn)) = s_state s.
Proof. intros H. pose proof (withTx_state io ctx s fn) as W. by rewrite H in W. Qed.

(** A property of the state that the body keeps is kept by the transaction. *)
Lemma withTx_inv {A} io ctx s (fn : persistedDB → res (A * persistedDB)) (I : persistedDB → Prop) :
  (∀ a st, fn (s_state s) = Ok (a, st) → I st) → I (s_state s) → I (s_state (tx_store (withTx io ctx s fn))).
Proof.
  intros Hf Hs. pose proof (withTx_state io ctx s fn) as W.
  destruct (tx_res _); [by eapply Hf|by rewrite W].
Qed.

(** When nothing fails the body's result is the transaction's. *)
Lemma withTx_commits {A} s (fn : persistedDB → res (A * persistedDB)) a st :
  s_closed s = false → fn (s_state s) = Ok (a, st) → is_ok (encodeDB st) = true →
  tx_res (withTx io_ok None s fn) = Ok a ∧ s_state (tx_store (withTx io_ok None s fn)) = st.
Proof.
  intros Hc Hf He. unfold withTx. rewrite Hc, cloneDB_id, Hf.
  by destruct (encodeDB st).
Qed.

Lemma withTx_closed {A} io ctx s (fn : persistedDB → res (A * persistedDB)) :
  s_closed (tx_store (withTx io ctx s fn)) = s_closed s.
Proof.
  unfold withTx, tx_fail. destruct ctx; [done|]. destruct (s_closed s) eqn:E; [done|].
  destruct (fn _) as [[a tx]|e]; [|done]. destruct (encodeDB tx); [|done].
  by destruct (commit_calls io a0) as [[?|?] ?].
Qed.

(** *** Crashes *)

(** Calls that leave the store's file alone. *)
Definition quiet (o : fsop) : bool :=
  match o with RenameTmp | WriteMain _ => false | _ => true end.

Lemma quiet_run o d : quiet o = true → d_main (run_op o d) = d_main d.
Proof. by destruct o. Qed.

Lemma quiet_run_all l d : forallb quiet l = true → d_main (run_ops l d) = d_main d.
Proof.
  revert d. induction l as [|o l IH]; intros d H; [done|]. simpl in *. bools.
  unfold run_ops in *. simpl. rewrite IH by done. by apply quiet_run.
Qed.

Lemma quiet_crash l d d' : forallb quiet l = true → crash_point l d d' → d_main d' = d_main d.
Proof.
  intros H Hc. revert H. induction Hc as [l d|o l d d' Hm|o l d d' Hc IH]; simpl; intros H; [done| |].
  - bools. by destruct Hm.
  - bools. rewrite IH by done. by apply quiet_run.
Qed.

(** A crash in [l ++ k] is a crash in [l], or one in [k] after [l]. *)
Lemma crash_app l k d d' :
  crash_point (l ++ k) d d' → crash_point l d d' ∨ crash_point k (run_ops l d) d'.
Proof.
  revert d. induction l as [|o l IH]; intros d; simpl; [by right|].
  inversion 1; subst.
  - left. constructor.
  - left. by apply crash_mid.
  - destruct (IH _ H4) as [?|?]; [left; by apply crash_later|by right].
Qed.

(** A renaming that is undone is a crash before it. *)
Lemma power_crash l d f : power_point l d f → ∃ d', crash_point l d d' ∧ d_main d' = f.
Proof.
  induction 1 as [l d d' H|l d|o l d f _ (d' & H & <-)]; [by exists d'|exists d; split; [constructor|done]|].
  exists d'. split; [by apply crash_later|done].
Qed.

Definition on_disk (d : Disk) (t : string) : Prop := d_main d = Some {| f_text := t; f_synced := true |}.

(** Without the rename fallback: the calls in front of the rename are quiet, and the rename
    puts a synced file in place. *)
Lemma commit_calls_shape io t r calls :
  io_rename io = None → commit_calls io t = (r, calls) →
  (∃ e, r = Err e ∧ forallb quiet calls = true) ∨
  (r = Ok () ∧ calls = [OpenTmp; WriteTmp t; SyncTmp] ++ [RenameTmp]).
Proof.
  intros Hr. unfold commit_calls. rewrite Hr.
  destruct (io_open io); [intros [= <- <-]; left; eauto|].
  destruct (io_write io) as [[? ?]|]; [intros [= <- <-]; left; eauto|].
  destruct (io_sync io); [intros [= <- <-]; left; eauto|].
  destruct (io_close io); [intros [= <- <-]; left; eauto|].
  intros [= <- <-]. by right.
Qed.

Lemma rename_crash t d d' :
  crash_point ([OpenTmp; WriteTmp t; SyncTmp] ++ [RenameTmp]) d d' → d_main d' = d_main d ∨ on_disk d' t.
Proof.
  intros [H|H]%crash_app.
  - left. by apply quiet_crash in H.
  - inversion H as [|? ? ? ? Hm|? ? ? ? Hc]; subst; [by left|by inversion Hm|].
    right. inversion Hc; subst. done.
Qed.

(** The calls a transaction makes are those of a commit, or none. *)
Lemma withTx_calls {A} io ctx s (fn : persistedDB → res (A * persistedDB)) :
  (∃ e, tx_res (withTx io ctx s fn) = Err e ∧ tx_calls (withTx io ctx s fn) = []
        ∧ tx_store (withTx io ctx s fn) = s) ∨
  ∃ a tx t r, fn (s_state s) = Ok (a, tx) ∧ encodeDB tx = Ok t
    ∧ commit_calls io t = (r, tx_calls (withTx io ctx s fn))
    ∧ s_disk (tx_store (withTx io ctx s fn)) = run_ops (tx_calls (withTx io ctx s fn)) (s_disk s)
    ∧ is_ok (tx_res (withTx io ctx s fn)) = is_ok r.
Proof.
  unfold withTx, tx_fail. rewrite cloneDB_id.
  destruct ctx; [left; eauto|]. destruct (s_closed s); [left; eauto|].
  destruct (fn (s_state s)) as [[a tx]|e] eqn:Ef; [|left; eauto].
  destruct (encodeDB tx) as [t|] eqn:Ee; [|left; eauto]. right.
  destruct (commit_calls io t) as [r calls] eqn:Ec. exists a, tx, t, r.
  by destruct r.
Qed.

(** crash atomicity of [withTx], as the package comment promises it.  When the rename
    does not fail, then whatever call fails and wherever the power fails between or inside
    the calls, the store's file exists and what is read back from it is the old text or the
    complete text of the state the transaction's body made; and once the transaction has
    returned, the file holds one of the two durably, the new one exactly on success. *)
Theorem withTx_crash_atomic {A} io ctx s (fn : persistedDB → res (A * persistedDB)) old :
  io_rename io = None → on_disk (s_disk s) old →
  (∀ d', crash_point (tx_calls (withTx io ctx s fn)) (s_disk s) d' →
     ∃ f, d_main d' = Some f ∧
       ∀ t, survives f t → t = old ∨ ∃ a tx, fn (s_state s) = Ok (a, tx) ∧ encodeDB tx = Ok t) ∧
  match tx_res (withTx io ctx s fn) with
  | Ok _ => ∃ t, encodeDB (s_state (tx_store (withTx io ctx s fn))) = Ok t
                 ∧ on_disk (s_disk (tx_store (withTx io ctx s fn))) t
  | Err _ => on_disk (s_disk (tx_store (withTx io ctx s fn))) old
  end.
Proof.
  intros Hr Hold.
  destruct (withTx_calls io ctx s fn) as [(e & He & Hc & Hs)|(a & tx & t & r & Hf & Ht & Hc & Hd & Hok)].
  { rewrite He, Hc, Hs. split; [|done]. intros d' Hd. inversion Hd; subst.
    eexists. split; [exact Hold|]. intros t Ht. inversion Ht; subst; simpl in *; [by left|done]. }
  pose proof (withTx_state io ctx s fn) as W.
  destruct (commit_calls_shape io t r _ Hr Hc) as [(e & -> & Hq)|[-> Hcalls]].
  - destruct (tx_res _); [done|]. split.
    + intros d' Hcr. apply quiet_crash in Hcr as ->; [|done]. eexists. split; [exact Hold|].
      intros u Hu. inversion Hu; subst; simpl in *; [by left|done].
    + unfold on_disk. rewrite Hd, quiet_run_all; done.
  - destruct (tx_res _) as [a'|]; [|done]. rewrite Hf in W.
    assert (a = a' ∧ s_state (tx_store (withTx io ctx s fn)) = tx) as [-> W'] by (by injection W). split.
    + intros d' Hcr. rewrite Hcalls in Hcr. apply rename_crash in Hcr as [->|Hn].
      * eexists. split; [exact Hold|]. intros u Hu. inversion Hu; subst; simpl in *; [by left|done].
      * eexists. split; [exact Hn|]. intros u Hu. inversion Hu; subst; simpl in *; [|done].
        right. by do 2 eexists.
    + exists t. rewrite W'. split; [done|]. by rewrite Hd, Hcalls.
Qed.

(** Unless the rename fails, a transaction leaves the state it is left in on the disk, or state
    and disk as they were. *)
Lemma withTx_settles {A} io ctx s (fn : persistedDB → res (A * persistedDB)) old :
  io_rename io = None → on_disk (s_disk s) old →
  (∃ t, encodeDB (s_state (tx_store (withTx io ctx s fn))) = Ok t ∧ on_disk (s_disk (tx_store (withTx io ctx s fn))) t)
  ∨ s_state (tx_store (withTx io ctx s fn)) = s_state s ∧ on_disk (s_disk (tx_store (withTx io ctx s fn))) old.
Proof.
  intros Hr Hold. pose proof (withTx_state io ctx s fn) as W.
  destruct (withTx_calls io ctx s fn) as [(e & He & Hc & Hs)|(a & tx & t & r & Hf & Ht & Hc & Hd & Hok)].
  { right. by rewrite Hs. }
  destruct (commit_calls_shape io t r _ Hr Hc) as [(e & -> & Hq)|[-> Hcalls]]; destruct (tx_res _) as [a'|]; try done.
  - right. split; [done|]. unfold on_disk. rewrite Hd, quiet_run_all; done.
  - left. exists t. rewrite Hf in W. assert (s_state (tx_store (withTx io ctx s fn)) = tx) as -> by (by injection W).
    split; [done|]. by rewrite Hd, Hcalls.
Qed.

(** the rename fallback is not atomic.  When the rename fails the text is written over
    the store's file in place: a crash in the middle of that write leaves a prefix of the
    new text as the whole file, for any length of the prefix; and when the write fails, the
    transaction reports an error and keeps the old state in memory while the file holds the
    part that was written. *)
Theorem withTx_fallback_tears {A} s (fn : persistedDB → res (A * persistedDB)) a st t e fb n :
  s_closed s = false → fn (s_state s) = Ok (a, st) → encodeDB st = Ok t →
  let io := {| io_open := None; io_write := None; io_sync := None; io_close := None;
               io_rename := Some e; io_fallback := fb |} in
  (fb = None → ∃ d', crash_point (tx_calls (withTx io None s fn)) (s_disk s) d'
     ∧ d_main d' = Some {| f_text := stake n t; f_synced := false |}) ∧
  (∀ e', fb = Some (e', n) →
     tx_res (withTx io None s fn) = Err e
     ∧ s_state (tx_store (withTx io None s fn)) = s_state s
     ∧ d_main (s_disk (tx_store (withTx io None s fn))) = Some {| f_text := stake n t; f_synced := false |}).
Proof.
  intros Hc Hf He io. unfold withTx. rewrite Hc, cloneDB_id, Hf, He. subst io. split.
  - intros ->. cbn. eexists. split.
    + do 3 apply crash_later. apply crash_mid. apply (mid_write_main t n).
    + done.
  - intros e' ->. done.
Qed.

(** A store that was just opened on an empty file. *)
Definition fresh_store : Store :=
  {| s_closed := false; s_state := newEmptyDB;
     s_disk := {| d_main := Some {| f_text := EmptyString; f_synced := true |}; d_tmp := None |} |}.

Definition set_cursor (c : string) (st : persistedDB) : res (unit * persistedDB) :=
  Ok ((), set_Meta (<["cursor" := c]>) st).

Lemma withTx_crash_atomic_witness :
  ∃ t, encodeDB (s_state (tx_store (withTx io_ok None fresh_store (set_cursor "7")))) = Ok t
       ∧ on_disk (s_disk (tx_store (withTx io_ok None fresh_store (set_cursor "7")))) t.
Proof.
  exact (proj2 (withTx_crash_atomic io_ok None fresh_store (set_cursor "7") EmptyString eq_refl eq_refl)).
Defined.

Lemma withTx_fallback_tears_witness :
  ∃ t d', encodeDB (set_Meta (<["cursor" := "7"]>) newEmptyDB) = Ok t
    ∧ crash_point (tx_calls (withTx {| io_open := None; io_write := None; io_sync := None; io_close := None;
                                       io_rename := Some "in use"; io_fallback := None |}
                               None fresh_store (set_cursor "7"))) (s_disk fresh_store) d'
    ∧ d_main d' = Some {| f_text := stake 9 t; f_synced := false |}.
Proof.
  destruct (encodeDB (set_Meta (<["cursor" := "7"]>) newEmptyDB)) as [t|] eqn:E; [|discriminate E].
  exists t.
  destruct (proj1 (withTx_fallback_tears fresh_store (set_cursor "7") () _ t "in use" None 9 eq_refl eq_refl E) eq_refl)
    as (d' & H1 & H2).
  by exists d'.
Defined.
