(* ===== verification/GoCompact.v ===== *)
(** * Compacted JSON

    What [json.Marshal] makes of a [json.RawMessage]: its text without white space and with a
    few characters of strings escaped.  Such a text is read wherever it stands ([reads_text]),
    compacting it again changes nothing ([stable]), and objects and arrays of texts that are
    read are read. *)
From S2P Require Import Prelude GoStrings GoFloat GoJson GoJsonFacts Store.

(** ** Texts that are read *)

(** [t] is the text of [j] whatever delimiter comes behind it. *)
Record reads_text (t : string) (j : json) : Prop := {
  rt_head : ∃ c r, t = String c r ∧ value_head c = true;
  rt_read : ∀ fuel u, (2 * String.length t ≤ fuel)%nat → delim u → parse_value fuel (t +:+ u) = Some (j, u);
}.

(** The inside of a string, scanned to its closing quote. *)
Definition key_text (b : string) : Prop := ∀ u, scan_string (b +:+ String quote_char u) = Some (b, u).

(** Compacting leaves the text as it is. *)
Definition stable (t : string) : Prop := ∀ u, compact false (t +:+ u) = t +:+ compact false u.
Definition stable_body (b : string) : Prop :=
  ∀ u, compact true (b +:+ String quote_char u) = b +:+ String quote_char (compact false u).

Lemma stable_app s t : stable s → stable t → stable (s +:+ t).
Proof. intros Hs Ht u. by rewrite !sapp_assoc, Hs, Ht. Qed.

Lemma stable_self t : stable t → compact false t = t.
Proof. intros H. rewrite <- (sapp_nil_r t) at 1. rewrite H. apply sapp_nil_r. Qed.

Lemma reads_skip_ws t j u : reads_text t j → skip_ws (t +:+ u) = t +:+ u.
Proof. intros [(c & r & -> & Hc) _]. rewrite sapp_cons. by apply skip_ws_head. Qed.

Lemma reads_length t j : reads_text t j → (1 ≤ String.length t)%nat.
Proof. intros [(c & r & -> & _) _]. cbn. lia. Qed.

Lemma reads_parse t j : reads_text t j → parse_json t = Some j.
Proof.
  intros H. unfold parse_json. pose proof (reads_skip_ws t j EmptyString H) as S. rewrite sapp_nil_r in S. rewrite S.
  pose proof (rt_read _ _ H (json_fuel t) EmptyString) as P. rewrite sapp_nil_r in P. rewrite P; [done| |by left].
  unfold json_fuel. lia.
Qed.

Lemma reads_marshal a : wf_any a = true → reads_text (marshal a) (ann a).
Proof. intros H. split; [by apply marshal_head|]. intros fuel u Hf Hu. by apply marshal_reads. Qed.

Lemma reads_quote s : utf8_valid s = true → reads_text (quote s) (JStr (quote_body s) s).
Proof. intros H. exact (reads_marshal (AStr s) H). Qed.

Lemma reads_int z : reads_text (Z_to_dec z) (JNum (Z_to_dec z)).
Proof. exact (reads_marshal (AInt z) eq_refl). Qed.

Lemma reads_bool b : reads_text (bool_text b) (JBool b).
Proof. destruct b; [exact (reads_marshal (ABool true) eq_refl)|exact (reads_marshal (ABool false) eq_refl)]. Qed.

(** ** Objects and arrays of texts *)

(** A member of an object: the inside of its key, what the key stands for, its text and value. *)
Record member := { m_raw : string; m_key : string; m_text : string; m_val : json }.

Definition member_ok (m : member) : Prop :=
  key_text (m_raw m) ∧ unquote (m_raw m) = m_key m ∧ reads_text (m_text m) (m_val m).
Definition member_str (m : member) : string :=
  String quote_char (m_raw m +:+ String quote_char (String ":" (m_text m))).
Definition member_json (m : member) : string * (string * json) := (m_key m, (m_text m, m_val m)).

Lemma parse_member_str fuel m t : member_ok m → delim t → (2 * String.length (m_text m) ≤ fuel)%nat →
  parse_members (S fuel) (member_str m +:+ t)
  = match skip_ws t with
    | String "," r4 =>
        match parse_members fuel (skip_ws r4) with
        | Some (l, r5) => Some (member_json m :: l, r5)
        | None => None
        end
    | String "}" r4 => Some ([member_json m], r4)
    | _ => None
    end.
Proof.
  intros (Hk & Hu & Hv) Ht Hf. unfold member_str. rewrite sapp_cons, sapp_assoc, !sapp_cons. cbn [parse_members].
  rewrite bool_decide_eq_true_2 by done. rewrite Hk. cbn [skip_ws]. change (is_ws ":") with false. cbn iota.
  rewrite (reads_skip_ws _ _ _ Hv), (rt_read _ _ Hv) by done. by rewrite slice_app, Hu.
Qed.

Lemma member_str_length m : (String.length (m_text m) + 3 ≤ String.length (member_str m))%nat.
Proof. unfold member_str. cbn [String.length]. rewrite slength_app. cbn [String.length]. lia. Qed.

Lemma parse_members_texts m l fuel t : Forall member_ok (m :: l) →
  (2 * String.length (Join "," (map member_str (m :: l))) + 1 ≤ fuel)%nat →
  parse_members fuel (Join "," (map member_str (m :: l)) +:+ String "}" t) = Some (map member_json (m :: l), t).
Proof.
  revert m fuel. induction l as [|q l IH]; intros m fuel HF Hfuel; inversion HF as [|? ? Hm HF']; subst; pose proof (member_str_length m) as L.
  - cbn [map Join] in *. destruct fuel as [|fuel]; [lia|]. rewrite parse_member_str; [done|done|apply delim_sep; auto|lia].
  - change (Join "," (map member_str (m :: q :: l))) with (member_str m +:+ String "," (Join "," (map member_str (q :: l)))) in *.
    rewrite slength_app in Hfuel. cbn [String.length] in Hfuel. destruct fuel as [|fuel]; [lia|]. rewrite sapp_assoc, sapp_cons.
    rewrite parse_member_str; [|done|apply delim_sep; auto|lia]. cbn [skip_ws]. change (is_ws ",") with false. cbn iota.
    replace (skip_ws (Join "," (map member_str (q :: l)) +:+ String "}" t)) with (Join "," (map member_str (q :: l)) +:+ String "}" t).
    + rewrite IH; [done|done|lia].
    + destruct l; reflexivity.
Qed.

Lemma reads_object l : Forall member_ok l → reads_text ("{" +:+ Join "," (map member_str l) +:+ "}") (JObj (map member_json l)).
Proof.
  intros H. split; [by eexists _, _|]. intros fuel u Hf Hu. destruct fuel as [|fuel]; [rewrite slength_app in Hf; cbn [String.length] in Hf; lia|].
  change (("{" +:+ Join "," (map member_str l) +:+ "}") +:+ u) with (String "{" ((Join "," (map member_str l) +:+ "}") +:+ u)).
  rewrite sapp_assoc. change ("}" +:+ u) with (String "}" u). cbn [parse_value]. rewrite bool_decide_eq_true_2 by done.
  destruct l as [|m l]; [done|]. rewrite slength_app in Hf. cbn [String.length] in Hf.
  rewrite slength_app in Hf. cbn [String.length] in Hf. pose proof (parse_members_texts m l fuel u H ltac:(lia)) as P.
  assert (∃ r, Join "," (map member_str (m :: l)) +:+ String "}" u = String quote_char r) as (r & E).
  { destruct l as [|z l]; cbn [map Join]; unfold member_str; rewrite sapp_cons; eauto. }
  rewrite E in *. cbn [skip_ws]. change (is_ws quote_char) with false. cbn iota. unfold quote_char in *. by rewrite P.
Qed.

Definition reads_pair (p : string * json) : Prop := reads_text p.1 p.2.

Lemma elems_head p l t : Forall reads_pair (p :: l) →
  ∃ c r, Join "," (map fst (p :: l)) +:+ t = String c r ∧ value_head c = true.
Proof.
  intros H. inversion H as [|? ? [(c & r & E & Hc) _] _]; subst. exists c. destruct l as [|q l]; cbn [map Join]; rewrite E, sapp_cons; eauto.
Qed.

Lemma parse_elems_texts p l fuel t : Forall reads_pair (p :: l) →
  (2 * String.length (Join "," (map fst (p :: l))) + 1 ≤ fuel)%nat →
  parse_elems fuel (Join "," (map fst (p :: l)) +:+ String "]" t) = Some (p :: l, t).
Proof.
  revert p fuel. induction l as [|q l IH]; intros [x j] fuel HF Hfuel; inversion HF as [|? ? Hm HF']; subst; cbn [fst snd] in *.
  - cbn [map Join fst] in *. destruct fuel as [|fuel]; [lia|]. cbn [parse_elems].
    rewrite (rt_read _ _ Hm); [|cbn [fst]; lia|apply delim_sep; auto]. cbn [fst snd]. by rewrite slice_app.
  - change (Join "," (map fst ((x, j) :: q :: l))) with (x +:+ String "," (Join "," (map fst (q :: l)))) in *.
    rewrite slength_app in Hfuel. cbn [String.length] in Hfuel. destruct fuel as [|fuel]; [lia|]. rewrite sapp_assoc, sapp_cons.
    cbn [parse_elems]. rewrite (rt_read _ _ Hm); [|cbn [fst]; lia|apply delim_sep; auto]. cbn [snd]. rewrite slice_app. cbn [skip_ws].
    change (is_ws ",") with false. cbn iota. destruct (elems_head q l (String "]" t) HF') as (c & r & E & Hc).
    rewrite E, (skip_ws_head c r Hc), <- E. by rewrite IH by (done || lia).
Qed.

Lemma reads_array l : Forall reads_pair l → reads_text ("[" +:+ Join "," (map fst l) +:+ "]") (JArr l).
Proof.
  intros H. split; [by eexists _, _|]. intros fuel u Hf Hu. destruct fuel as [|fuel]; [rewrite slength_app in Hf; cbn [String.length] in Hf; lia|].
  change (("[" +:+ Join "," (map fst l) +:+ "]") +:+ u) with (String "[" ((Join "," (map fst l) +:+ "]") +:+ u)).
  rewrite sapp_assoc. change ("]" +:+ u) with (String "]" u). cbn [parse_value]. change (bool_decide ("["%char = "{"%char)) with false.
  rewrite bool_decide_eq_true_2 by done. destruct l as [|m l]; [done|].
  rewrite slength_app in Hf. cbn [String.length] in Hf. rewrite slength_app in Hf. cbn [String.length] in Hf. pose proof (parse_elems_texts m l fuel u H ltac:(lia)) as P.
  destruct (elems_head m l (String "]" u) H) as (c & r & E & Hc). rewrite E in *. rewrite skip_ws_head by done.
  destruct c as [[] [] [] [] [] [] [] []]; (discriminate Hc || by rewrite P).
Qed.

(** The objects and arrays of [encodeDB]. *)
Lemma reads_object_text (l : list (string * (string * json))) :
  Forall (λ p, utf8_valid p.1 = true ∧ reads_text p.2.1 p.2.2) l →
  reads_text (object_text (map (λ p, (p.1, p.2.1)) l)) (JObj l).
Proof.
  intros H. pose (ms := map (λ p : string * (string * json), {| m_raw := quote_body p.1; m_key := p.1; m_text := p.2.1; m_val := p.2.2 |}) l).
  assert (map member_json ms = l) as E1 by (unfold ms; rewrite map_map; clear; induction l as [|(? & ? & ?) l IH]; cbn; [done|by rewrite IH]).
  assert (map member_str ms = map (λ p : string * string, quote p.1 +:+ ":" +:+ p.2) (map (λ p, (p.1, p.2.1)) l)) as E2.
  { unfold ms. rewrite !map_map. apply map_ext. intros (k & t & j). unfold member_str, quote. cbn. by rewrite sapp_cons, sapp_assoc. }
  unfold object_text. rewrite <- E2, <- E1 at 1. apply reads_object. apply Forall_map. eapply Forall_impl; [exact H|].
  intros (k & t & j) [Hk Hr]. cbn in *. split_and!; cbn; [intros u; apply scan_quote_body|by apply unquote_quote_body|done].
Qed.

Lemma reads_array_text (l : list (string * json)) : Forall reads_pair l → reads_text (array_text (map fst l)) (JArr l).
Proof. apply reads_array. Qed.

(** ** Compacting a string *)

Definition sep_next (t : string) : bool :=
  match t with
  | String d (String e _) => bool_decide (d = "128"%char) && (bool_decide (e = "168"%char) || bool_decide (e = "169"%char))
  | _ => false
  end.

Definition html_char (c : ascii) : bool := (byte_of c =? 60)%N || (byte_of c =? 62)%N || (byte_of c =? 38)%N.

(** A byte of a string that compacting copies. *)
Definition copied (c : ascii) : bool :=
  negb (bool_decide (c = quote_char)) && negb (bool_decide (c = backslash_char)) && negb (html_char c).

Lemma compact_copied c t : copied c = true → (bool_decide (c = "226"%char) && sep_next t) = false →
  compact true (String c t) = String c (compact true t).
Proof.
  unfold copied. rewrite !andb_true_iff, !negb_true_iff. intros [[Hq Hb] Hh] Hs. cbn [compact].
  rewrite Hb, Hq. unfold html_char in Hh. rewrite Hh. destruct t as [|d [|e u]]; try done.
  unfold line_separator, paragraph_separator, sone.
  destruct (bool_decide (c = "226"%char)) eqn:E; cbn [andb sep_next] in Hs.
  - apply bool_decide_eq_true in E as ->. rewrite (bool_decide_ext _ (d = "128"%char ∧ e = "168"%char)) by naive_solver.
    rewrite (bool_decide_ext (_ = String "226" (String "128" (String "169" EmptyString))) (d = "128"%char ∧ e = "169"%char)) by naive_solver.
    rewrite !bool_decide_and. destruct (bool_decide (d = "128"%char)); cbn [andb] in *; [|done]. apply orb_false_iff in Hs as [-> ->]. done.
  - apply bool_decide_eq_false in E. rewrite !bool_decide_eq_false_2 by congruence. done.
Qed.

Lemma compact_sep d e u : sep_next (String d (String e u)) = true →
  compact true (String "226" (String d (String e u)))
  = (if bool_decide (e = "168"%char) then String backslash_char "u2028" else String backslash_char "u2029") +:+ compact true u.
Proof.
  cbn [sep_next]. intros H. bools. subst d. apply orb_true_iff in H0 as [->%bool_decide_eq_true| ->%bool_decide_eq_true]; done.
Qed.

Lemma high_copied c : is_high c = true → copied c = true.
Proof. destruct c as [[] [] [] [] [] [] [] []]; intros H; (discriminate H || done). Qed.

(** The first bytes of the output above 127 are the first bytes of the input. *)
Lemma compact_high_head d t v : is_high d = true → compact true t = String d v → d ≠ "226"%char →
  ∃ u, t = String d u ∧ v = compact true u.
Proof.
  intros Hd H Hn. destruct t as [|c t]; [done|].
  destruct (bool_decide (c = "226"%char) && sep_next t) eqn:S.
  { bools. subst c. destruct t as [|x [|e u]]; try done. rewrite compact_sep in H by done. case_bool_decide; injection H as <- _; done. }
  destruct (copied c) eqn:C.
  - rewrite compact_copied in H by done. injection H as <- <-. eauto.
  - exfalso. unfold copied in C. cbn [compact] in H. destruct (bool_decide (c = backslash_char)) eqn:B.
    { apply bool_decide_eq_true in B as ->. destruct t as [|e u]; injection H as <- _; done. }
    destruct (bool_decide (c = quote_char)) eqn:Q; [apply bool_decide_eq_true in Q as ->; injection H as <- _; done|].
    cbn [negb andb] in C. apply negb_false_iff in C. unfold html_char in C. rewrite C in H. injection H as <- _. done.
Qed.

Lemma compact_no_sep t w : sep_next t = false → compact true t = w → sep_next w = false.
Proof.
  intros Hs <-. destruct (compact true t) as [|d [|e w]] eqn:E; try done. cbn [sep_next].
  case_bool_decide as Hd; [|done]. subst d. apply compact_high_head in E as (u & -> & Ev); [|done|done].
  assert (∀ x, is_high x = true → x ≠ "226"%char → e = x → ∃ u', u = String x u') as K.
  { intros x Hx Hn ->. apply eq_sym, compact_high_head in Ev as (u' & -> & _); eauto. }
  case_bool_decide as He; [destruct (K "168"%char eq_refl ltac:(done) He) as [u' ->]; by cbn in Hs|].
  case_bool_decide as He'; [destruct (K "169"%char eq_refl ltac:(done) He') as [u' ->]; by cbn in Hs|done].
Qed.

Lemma scan_string_plain c t : bool_decide (c = quote_char) = false → bool_decide (c = backslash_char) = false → (byte_of c <? 32)%N = false →
  scan_string (String c t) = match scan_string t with Some (b, r) => Some (String c b, r) | None => None end.
Proof. intros H1 H2 H3. cbn [scan_string]. by rewrite H1, H2, H3. Qed.

(** What is in front of the rest of the body, when it is copied or escaped on its own. *)
Lemma body_cons p b : (∀ u, scan_string (p +:+ u) = match scan_string u with Some (b, r) => Some (p +:+ b, r) | None => None end) →
  key_text b → key_text (p +:+ b).
Proof. intros Hp Hb u. by rewrite sapp_assoc, Hp, Hb. Qed.

Lemma stable_cons p b : (∀ u, compact true (p +:+ u) = p +:+ compact true u) → stable_body b → stable_body (p +:+ b).
Proof. intros Hp Hb u. by rewrite !sapp_assoc, Hp, Hb. Qed.

Lemma html_char_cases c : html_char c = true → c = "<"%char ∨ c = ">"%char ∨ c = "&"%char.
Proof. destruct c as [[] [] [] [] [] [] [] []]; intros H; (discriminate H || auto). Qed.

(** A piece that the compacted body starts with. *)
Definition piece (p : string) : Prop :=
  (∀ u, scan_string (p +:+ u) = match scan_string u with Some (b, r) => Some (p +:+ b, r) | None => None end)
  ∧ (∀ u, compact true (p +:+ u) = p +:+ compact true u).

Lemma piece_escape e x : simple_escape e = Some x → bool_decide (e = "u"%char) = false → piece (String backslash_char (sone e)).
Proof.
  intros He Hu. split; intros u; [|done]. change (String backslash_char (sone e) +:+ u) with (String backslash_char (String e u)).
  cbn [scan_string]. change (bool_decide (backslash_char = quote_char)) with false. rewrite bool_decide_eq_true_2 by done. rewrite Hu, He. by destruct (scan_string u) as [[]|].
Qed.

Lemma hex_copied c x : hex_digit c = Some x → copied c = true ∧ bool_decide (c = "226"%char) = false.
Proof. intros H. destruct c as [[] [] [] [] [] [] [] []]; (discriminate H || done). Qed.

Lemma piece_unicode h1 h2 h3 h4 x : hex4 h1 h2 h3 h4 = Some x →
  piece (String backslash_char (String "u" (String h1 (String h2 (String h3 (sone h4)))))).
Proof.
  intros Hx. assert (Forall (λ h, copied h = true ∧ bool_decide (h = "226"%char) = false) [h1; h2; h3; h4]) as HF.
  { unfold hex4 in Hx. destruct (hex_digit h1) eqn:E1; [|done]. destruct (hex_digit h2) eqn:E2; [|done].
    destruct (hex_digit h3) eqn:E3; [|done]. destruct (hex_digit h4) eqn:E4; [|done]. repeat (constructor; [by eapply hex_copied|]). constructor. }
  rewrite !Forall_cons in HF. destruct HF as ([] & [] & [] & [] & _). split; intros u.
  - change (String backslash_char (String "u" (String h1 (String h2 (String h3 (sone h4))))) +:+ u)
      with (String backslash_char (String "u" (String h1 (String h2 (String h3 (String h4 u)))))).
    cbn [scan_string]. change (bool_decide (backslash_char = quote_char)) with false. rewrite !bool_decide_eq_true_2 by done. rewrite Hx. by destruct (scan_string u) as [[]|].
  - change (compact true (String backslash_char (String "u" (String h1 (String h2 (String h3 (sone h4))))) +:+ u))
      with (String backslash_char (String "u" (compact true (String h1 (String h2 (String h3 (String h4 u))))))).
    rewrite !compact_copied; try done; by apply andb_false_iff; left.
Qed.

Lemma piece_u00 c : html_char c = true → piece (u00 c).
Proof. intros H. destruct (html_char_cases c H) as [->|[->| ->]]; by eapply piece_unicode. Qed.

Lemma piece_sep (b : bool) : piece (if b then String backslash_char "u2028" else String backslash_char "u2029").
Proof. destruct b; by eapply piece_unicode. Qed.

Lemma compact_string n : ∀ t b r, (String.length t ≤ n)%nat → scan_string t = Some (b, r) →
  ∃ b', compact true t = b' +:+ String quote_char (compact false r) ∧ key_text b' ∧ stable_body b'.
Proof.
  induction n as [|n IH]; intros t b r Hn H; [destruct t; [done|cbn in Hn; lia]|]. destruct t as [|c t]; [done|]. cbn [scan_string] in H.
  cbn [String.length] in Hn.
  assert (∀ p u b r, piece p → (String.length u ≤ n)%nat → scan_string u = Some (b, r) →
    ∃ b', p +:+ compact true u = b' +:+ String quote_char (compact false r) ∧ key_text b' ∧ stable_body b') as K.
  { intros p u b0 r0 [Hp1 Hp2] Hl Hu. destruct (IH u b0 r0 Hl Hu) as (b' & E & Hk & Hs). exists (p +:+ b').
    split_and!; [by rewrite E, sapp_assoc|by apply body_cons|by apply stable_cons]. }
  destruct (bool_decide (c = quote_char)) eqn:Q.
  { apply bool_decide_eq_true in Q as ->. injection H as <- <-. by exists EmptyString. }
  destruct (bool_decide (c = backslash_char)) eqn:B.
  - apply bool_decide_eq_true in B as ->. destruct t as [|e t1]; [done|]. cbn [String.length] in Hn. destruct (bool_decide (e = "u"%char)) eqn:U.
    + apply bool_decide_eq_true in U as ->. destruct t1 as [|h1 [|h2 [|h3 [|h4 t2]]]]; try done. destruct (hex4 h1 h2 h3 h4) as [x|] eqn:X; [|done].
      destruct (scan_string t2) as [[b2 r2]|] eqn:S; [|done]. injection H as _ <-. cbn [String.length] in Hn.
      destruct (piece_unicode _ _ _ _ _ X) as [P1 P2]. pose proof (P2 t2) as P3.
      change (String backslash_char (String "u" (String h1 (String h2 (String h3 (sone h4))))) +:+ t2)
        with (String backslash_char (String "u" (String h1 (String h2 (String h3 (String h4 t2)))))) in P3. rewrite P3.
      apply (K _ t2 b2); [by split|lia|done].
    + destruct (simple_escape e) eqn:Es; [|done]. destruct (scan_string t1) as [[b2 r2]|] eqn:S; [|done]. injection H as _ <-.
      change (compact true (String backslash_char (String e t1))) with (String backslash_char (sone e) +:+ compact true t1).
      apply (K _ t1 b2); [by eapply piece_escape|lia|done].
  - destruct (byte_of c <? 32)%N eqn:L; [done|]. destruct (scan_string t) as [[b2 r2]|] eqn:S; [|done]. injection H as _ <-.
    destruct (html_char c) eqn:Hh.
    { replace (compact true (String c t)) with (u00 c +:+ compact true t).
      - apply (K _ t b2); [by apply piece_u00|lia|done].
      - cbn [compact]. rewrite B, Q. unfold html_char in Hh. by rewrite Hh. }
    assert (copied c = true) as C by (unfold copied; by rewrite Q, B, Hh).
    destruct (bool_decide (c = "226"%char) && sep_next t) eqn:Sp.
    + apply andb_true_iff in Sp as [->%bool_decide_eq_true Sp]. destruct t as [|d [|e u]]; try done. rewrite compact_sep by done.
      cbn [sep_next] in Sp. apply andb_true_iff in Sp as [->%bool_decide_eq_true H2].
      assert (∃ b3, scan_string u = Some (b3, r2)) as [b3 S3].
      { rewrite scan_string_plain in S by done. apply orb_true_iff in H2 as [->%bool_decide_eq_true| ->%bool_decide_eq_true]; rewrite scan_string_plain in S by done;
          destruct (scan_string u) as [[b3 r3]|]; [|done| |done]; injection S as _ <-; eauto. }
      cbn [String.length] in Hn. pose proof (piece_sep (bool_decide (e = "168"%char))) as P. case_bool_decide; apply (K _ u b3); done || lia.
    + rewrite compact_copied by done. destruct (IH t b2 r2 ltac:(lia) S) as (b' & E & Hk & Hs). exists (String c b'). rewrite E.
      split_and!; [done| |].
      * intros u. rewrite sapp_cons, scan_string_plain by done. by rewrite Hk.
      * intros u. rewrite !sapp_cons, compact_copied; [by rewrite Hs|done|].
        destruct (bool_decide (c = "226"%char)); [|done]. cbn [andb] in *. pose proof (compact_no_sep t _ Sp E) as N. clear -N. rewrite ?sapp_cons in *.
        destruct b' as [|d [|e b']]; [by destruct u| |exact N]. exact (andb_false_r _).
Qed.

(** ** Compacting values *)

Lemma compact_ws s : compact false (skip_ws s) = compact false s.
Proof. induction s as [|c s IH]; [done|]. cbn [skip_ws]. destruct (is_ws c) eqn:W; [|done]. rewrite IH. cbn [compact]. by rewrite W. Qed.

Definition outside (c : ascii) : bool := negb (is_ws c) && negb (bool_decide (c = quote_char)).

Lemma compact_outside c t : outside c = true → compact false (String c t) = String c (compact false t).
Proof. unfold outside. rewrite andb_true_iff, !negb_true_iff. intros [Hw Hq]. cbn [compact]. by rewrite Hw, Hq. Qed.

Lemma stable_outside s : sforall outside s = true → stable s.
Proof. induction s as [|c s IH]; intros H u; [done|]. cbn [sforall] in H. bools. by rewrite !sapp_cons, compact_outside, (IH H0). Qed.

Lemma stable_cons_outside c t : outside c = true → stable t → stable (String c t).
Proof. intros Hc Ht u. by rewrite !sapp_cons, compact_outside, Ht. Qed.

Lemma stable_string b : stable_body b → stable (String quote_char (b +:+ sone quote_char)).
Proof.
  intros H u. rewrite !sapp_cons, !sapp_assoc. change (sone quote_char +:+ ?x) with (String quote_char x).
  change (compact false (String quote_char ?x)) with (String quote_char (compact true x)). by rewrite H.
Qed.

Lemma take_digits_inv s : ∀ a r, take_digits s = (a, r) → s = a +:+ r ∧ sforall is_digit a = true.
Proof.
  induction s as [|c s IH]; intros a r; cbn [take_digits]; [by intros [= <- <-]|]. destruct (is_digit c) eqn:E; [|by intros [= <- <-]].
  destruct (take_digits s) as [b u]. intros [= <- <-]. destruct (IH b u eq_refl) as [-> Hb]. split; [done|]. cbn [sforall]. by rewrite E, Hb.
Qed.

(** The parts of a literal: each is read again in front of anything that does not go on with it. *)
Lemma scan_int_again s i r : scan_int s = Some (i, r) →
  s = i +:+ r ∧ sforall is_digit i = true ∧ i ≠ EmptyString ∧ ∀ u, no_digit_head u = true → scan_int (i +:+ u) = Some (i, u).
Proof.
  intros H.
  assert (∀ a b, take_digits s = (a, b) → (if sempty a then None else Some (a, b)) = Some (i, r) → HasPrefix s "0" = false →
    s = i +:+ r ∧ sforall is_digit i = true ∧ i ≠ EmptyString ∧ ∀ u, no_digit_head u = true → scan_int (i +:+ u) = Some (i, u)) as G.
  { intros a b T E Hz. destruct (take_digits_inv s a b T) as [-> Hd]. destruct (sempty a) eqn:Ea; [done|]. injection E as <- <-.
    assert (a ≠ EmptyString) as Ha by (by intros ->). split_and!; try done. intros u Hu. apply scan_int_app; [|done].
    unfold int_part, all_digits. rewrite Ea, Hd. cbn [andb negb]. destruct a as [|c a]; [done|]. rewrite sapp_cons, HasPrefix_zero in Hz. by rewrite HasPrefix_zero, Hz, orb_true_r. }
  unfold scan_int in H. destruct s as [|c t]; [done|]. destruct (bool_decide (c = "0"%char)) eqn:Z.
  - apply bool_decide_eq_true in Z as ->. injection H as <- <-. by split_and!.
  - assert ((let '(a, b) := take_digits (String c t) in if sempty a then None else Some (a, b)) = Some (i, r)) as H'.
    { destruct c as [[] [] [] [] [] [] [] []]; (discriminate Z || exact H). }
    destruct (take_digits (String c t)) as [a b] eqn:T. eapply G; [done|done|by rewrite HasPrefix_zero].
Qed.

Lemma scan_frac_again s f r : scan_frac s = Some (f, r) →
  s = f +:+ r ∧ sforall outside f = true ∧ no_digit_head f = true
  ∧ ∀ u, no_digit_head u = true → HasPrefix u "." = false → scan_frac (f +:+ u) = Some (f, u).
Proof.
  intros H. assert ((f = EmptyString ∧ r = s) ∨ ∃ t a, s = String "." t ∧ take_digits t = (a, r) ∧ sempty a = false ∧ f = String "." a) as C.
  { unfold scan_frac in H. destruct s as [|c t]; [injection H as <- <-; auto|].
    destruct c as [[] [] [] [] [] [] [] []]; try (injection H as <- <-; auto). right. destruct (take_digits t) as [a b] eqn:T.
    destruct (sempty a) eqn:Ea; [done|]. injection H as <- <-. eauto 8. }
  destruct C as [[-> ->]|(t & a & -> & T & Ea & ->)].
  - split_and!; try done. intros u Hu Hd. by apply scan_frac_app.
  - destruct (take_digits_inv _ _ _ T) as [-> Hd]. split_and!; try done.
    + cbn [sforall]. apply andb_true_iff. split; [done|]. eapply sforall_impl; [|exact Hd]. intros c Hc.
      destruct (is_digit_cases c Hc) as [->|[->|[->|[->|[->|[->|[->|[->|[->| ->]]]]]]]]]; done.
    + intros u Hu Hp. apply scan_frac_app; [|done|done]. cbn [frac_part]. unfold all_digits. by rewrite Ea, Hd.
Qed.

Lemma digits_outside a : sforall is_digit a = true → sforall outside a = true.
Proof.
  intros H. eapply sforall_impl; [|exact H]. intros c Hc.
  destruct (is_digit_cases c Hc) as [->|[->|[->|[->|[->|[->|[->|[->|[->| ->]]]]]]]]]; done.
Qed.

Definition exp_sign (t : string) : string * string :=
  match t with String "+" u => ("+"%stdpp, u) | String "-" u => ("-"%stdpp, u) | _ => (EmptyString, t) end.

Lemma exp_sign_again t sg u : exp_sign t = (sg, u) →
  t = sg +:+ u ∧ sforall outside sg = true ∧ ∀ a v, sforall is_digit a = true → sempty a = false → exp_sign (sg +:+ a +:+ v) = (sg, a +:+ v).
Proof.
  intros H. assert ((sg = "+"%stdpp ∧ t = String "+" u) ∨ (sg = "-"%stdpp ∧ t = String "-" u) ∨ (sg = EmptyString ∧ t = u)) as [[-> ->]|[[-> ->]|[-> ->]]].
  { unfold exp_sign in H. destruct t as [|c t]; [injection H as <- <-; auto|]. destruct c as [[] [] [] [] [] [] [] []]; injection H as <- <-; auto. }
  - by split_and!.
  - by split_and!.
  - split_and!; try done. intros a v Ha He. rewrite sapp_nil_l. destruct a as [|c a]; [done|]. cbn [sforall] in Ha. bools.
    destruct (is_digit_cases c H0) as [->|[->|[->|[->|[->|[->|[->|[->|[->| ->]]]]]]]]]; done.
Qed.

Lemma scan_exp_again s e r : scan_exp s = Some (e, r) →
  s = e +:+ r ∧ sforall outside e = true ∧ no_digit_head e = true ∧ HasPrefix e "." = false
  ∧ ∀ u, no_digit_head u = true → not_exp_head u → scan_exp (e +:+ u) = Some (e, u).
Proof.
  intros H. destruct s as [|c t]; [injection H as <- <-; split_and!; try done; intros u Hu Hn; by apply scan_exp_app|].
  cbn [scan_exp] in H. destruct (bool_decide (c = "e"%char) || bool_decide (c = "E"%char)) eqn:C;
    [|injection H as <- <-; split_and!; try done; intros u Hu Hn; by apply scan_exp_app].
  change (match t with String "+" u => ("+"%stdpp, u) | String "-" u => ("-"%stdpp, u) | _ => (EmptyString, t) end) with (exp_sign t) in H.
  destruct (exp_sign t) as [sg u] eqn:Sg. destruct (exp_sign_again _ _ _ Sg) as (-> & Ho & Hs).
  destruct (take_digits u) as [a b] eqn:T. destruct (take_digits_inv _ _ _ T) as [-> Hd]. destruct (sempty a) eqn:Ea; [done|]. injection H as <- <-.
  assert (c = "e"%char ∨ c = "E"%char) as Hc by (apply orb_true_iff in C as [C|C]; apply bool_decide_eq_true in C; auto).
  split_and!.
  - by rewrite sapp_cons, sapp_assoc.
  - cbn [sforall]. rewrite sforall_app, Ho, (digits_outside a Hd). by destruct Hc as [->| ->].
  - by destruct Hc as [->| ->].
  - by destruct Hc as [->| ->].
  - intros v Hv _. rewrite sapp_cons, sapp_assoc. cbn [scan_exp]. rewrite C.
    change (match sg +:+ a +:+ v with String "+" u => ("+"%stdpp, u) | String "-" u => ("-"%stdpp, u) | _ => (EmptyString, sg +:+ a +:+ v) end)
      with (exp_sign (sg +:+ a +:+ v)). rewrite Hs by done. by rewrite take_digits_app, Ea.
Qed.

Lemma HasPrefix_dot c r : HasPrefix (String c r) "." = bool_decide (c = "."%char).
Proof. destruct c as [[] [] [] [] [] [] [] []]; try reflexivity. by destruct r. Qed.

Lemma no_digit_head_app s t : no_digit_head s = true → no_digit_head t = true → no_digit_head (s +:+ t) = true.
Proof. by destruct s. Qed.

Lemma scan_number_again s lit r : scan_number s = Some (lit, r) →
  s = lit +:+ r ∧ sforall outside lit = true ∧ ∀ u, delim u → scan_number (lit +:+ u) = Some (lit, u).
Proof.
  intros H. set (sign := λ s : string, match s with String "-" t => ("-"%stdpp, t) | _ => (EmptyString, s) end).
  assert (∃ sg t, s = sg +:+ t ∧ sign s = (sg, t) ∧ (sg = "-"%stdpp ∨ sg = EmptyString)) as (sg & t & -> & Hs & Hsg).
  { destruct s as [|c t]; [exists EmptyString, EmptyString; split_and!; auto|]. destruct (bool_decide (c = "-"%char)) eqn:M.
    - apply bool_decide_eq_true in M as ->. exists "-"%stdpp, t. split_and!; auto.
    - exists EmptyString, (String c t). destruct c as [[] [] [] [] [] [] [] []]; (discriminate M || (split_and!; auto)). }
  unfold scan_number in H. change (match sg +:+ t with String "-" t => ("-"%stdpp, t) | _ => (EmptyString, sg +:+ t) end) with (sign (sg +:+ t)) in H.
  rewrite Hs in H. destruct (scan_int t) as [[i r1]|] eqn:Ei; [|done]. destruct (scan_int_again _ _ _ Ei) as (-> & Di & Ni & Ai).
  destruct (scan_frac r1) as [[f r2]|] eqn:Ef; [|done]. destruct (scan_frac_again _ _ _ Ef) as (-> & Of & Nf & Af).
  destruct (scan_exp r2) as [[e r3]|] eqn:Ee; [|done]. destruct (scan_exp_again _ _ _ Ee) as (-> & Oe & Ne & Pe & Ae). injection H as <- <-.
  split_and!.
  - by rewrite !sapp_assoc.
  - rewrite !sforall_app, (digits_outside i Di), Of, Oe. by destruct Hsg as [->| ->].
  - intros u Hu. destruct (delim_facts u Hu) as (D1 & D2 & D3). rewrite !sapp_assoc.
    assert (sign (sg +:+ i +:+ f +:+ e +:+ u) = (sg, i +:+ f +:+ e +:+ u)) as Es.
    { destruct Hsg as [->| ->]; [done|]. rewrite sapp_nil_l. destruct i as [|c i]; [done|]. cbn [sforall] in Di. bools.
      destruct (is_digit_cases c H) as [->|[->|[->|[->|[->|[->|[->|[->|[->| ->]]]]]]]]]; done. }
    unfold scan_number. change (match ?x with String "-" t => ("-"%stdpp, t) | _ => (EmptyString, ?x) end) with (sign x). rewrite Es.
    assert (no_digit_head (e +:+ u) = true) as N1 by (by apply no_digit_head_app).
    rewrite Ai by (by apply no_digit_head_app). rewrite Af; [by rewrite Ae|done|].
    destruct e as [|c e]; [exact D2|]. rewrite sapp_cons, HasPrefix_dot. by rewrite HasPrefix_dot in Pe.
Qed.

(** The text of a value, compacted. *)
Definition compacts (s r : string) : Prop := ∃ c j, compact false s = c +:+ compact false r ∧ reads_text c j ∧ stable c.
Definition compacts_members (s r : string) : Prop :=
  ∃ m l, compact false s = Join "," (map member_str (m :: l)) +:+ "}" +:+ compact false r
    ∧ Forall member_ok (m :: l) ∧ stable (Join "," (map member_str (m :: l))).
Definition compacts_elems (s r : string) : Prop :=
  ∃ p l, compact false s = Join "," (map fst (p :: l)) +:+ "]" +:+ compact false r
    ∧ Forall reads_pair (p :: l) ∧ stable (Join "," (map fst (p :: l))).

Lemma reads_braces l : Forall member_ok l → stable (Join "," (map member_str l)) →
  reads_text ("{" +:+ Join "," (map member_str l) +:+ "}") (JObj (map member_json l)) ∧ stable ("{" +:+ Join "," (map member_str l) +:+ "}").
Proof. intros H S. split; [by apply reads_object|]. apply (stable_app "{"); [by apply stable_outside|]. by apply stable_app; [|apply stable_outside]. Qed.

Lemma reads_brackets l : Forall reads_pair l → stable (Join "," (map fst l)) →
  reads_text ("[" +:+ Join "," (map fst l) +:+ "]") (JArr l) ∧ stable ("[" +:+ Join "," (map fst l) +:+ "]").
Proof. intros H S. split; [by apply reads_array|]. apply (stable_app "["); [by apply stable_outside|]. by apply stable_app; [|apply stable_outside]. Qed.

(** Scalars. *)
Lemma reads_key b : key_text b → reads_text (String quote_char (b +:+ sone quote_char)) (JStr b (unquote b)).
Proof.
  intros H. split; [by eexists _, _|]. intros fuel u Hf Hu. destruct fuel as [|fuel]; [cbn in Hf; lia|].
  rewrite sapp_cons, sapp_assoc. change (sone quote_char +:+ u) with (String quote_char u). cbn [parse_value].
  change (bool_decide (quote_char = "{"%char)) with false. change (bool_decide (quote_char = "["%char)) with false.
  rewrite bool_decide_eq_true_2 by done. by rewrite H.
Qed.

Lemma number_head lit r s : scan_number s = Some (lit, r) → ∃ c t, lit = String c t ∧ (c = "-"%char ∨ is_digit c = true).
Proof.
  intros H. apply scan_number_head in H. destruct lit as [|c t]; [done|]. exists c, t. split; [done|]. cbn [num_head] in H.
  apply orb_true_iff in H as [H|H]; [auto|]. bools. auto.
Qed.

Lemma reads_number s lit r : scan_number s = Some (lit, r) → reads_text lit (JNum lit).
Proof.
  intros H. destruct (scan_number_again _ _ _ H) as (_ & _ & Ha). destruct (number_head _ _ _ H) as (c & t & -> & Hc). split.
  - exists c, t. split; [done|]. destruct Hc as [->|Hc]; [done|].
    destruct (is_digit_cases c Hc) as [->|[->|[->|[->|[->|[->|[->|[->|[->| ->]]]]]]]]]; done.
  - intros fuel u Hf Hu. specialize (Ha u Hu). destruct fuel as [|fuel]; [cbn in Hf; lia|]. rewrite sapp_cons in *. cbn [parse_value].
    destruct Hc as [->|Hc]; [cbn -[scan_number]; by rewrite Ha|].
    destruct (is_digit_cases c Hc) as [->|[->|[->|[->|[->|[->|[->|[->|[->| ->]]]]]]]]]; cbn -[scan_number]; by rewrite Ha.
Qed.

Lemma strip_prefix_inv p s r : strip_prefix p s = Some r → s = p +:+ r.
Proof.
  revert s. induction p as [|a p IH]; intros s; cbn [strip_prefix]; [by intros [= ->]|]. destruct s as [|b t]; [done|].
  case_bool_decide as E; [subst b|done]. intros H. by rewrite sapp_cons, <- (IH t H).
Qed.

Lemma compacts_word w s r a : strip_prefix w s = Some r → reads_text w a → stable w → compacts s r.
Proof. intros H Hr Hs. apply strip_prefix_inv in H as ->. exists w, a. split_and!; [apply Hs|done|done]. Qed.

(** One step of the members and of the elements. *)
Lemma member_parsed fuel q t l r : parse_members (S fuel) (String q t) = Some (l, r) →
  ∃ raw r1 r2 j r3, q = quote_char ∧ scan_string t = Some (raw, r1) ∧ skip_ws r1 = String ":" r2
    ∧ parse_value fuel (skip_ws r2) = Some (j, r3)
    ∧ ((∃ r4 l', skip_ws r3 = String "," r4 ∧ parse_members fuel (skip_ws r4) = Some (l', r)) ∨ skip_ws r3 = String "}" r).
Proof.
  cbn [parse_members]. destruct (bool_decide (q = quote_char)) eqn:Q; [|done]. apply bool_decide_eq_true in Q as ->.
  destruct (scan_string t) as [[raw r1]|] eqn:S; [|done]. intros H.
  assert (∃ r2 j r3, skip_ws r1 = String ":" r2 ∧ parse_value fuel (skip_ws r2) = Some (j, r3)
    ∧ match skip_ws r3 with
      | String "," r4 => match parse_members fuel (skip_ws r4) with Some (l, r5) => Some ((unquote raw, (slice (skip_ws r2) r3, j)) :: l, r5) | None => None end
      | String "}" r4 => Some ([(unquote raw, (slice (skip_ws r2) r3, j))], r4)
      | _ => None
      end = Some (l, r)) as (r2 & j & r3 & E1 & E2 & E3).
  { destruct (skip_ws r1) as [|c r2]; [done|]. exists r2. destruct c as [[] [] [] [] [] [] [] []]; try discriminate H.
    destruct (parse_value fuel (skip_ws r2)) as [[j r3]|]; [|done]. eauto. }
  exists raw, r1, r2, j, r3. split_and!; try done. destruct (skip_ws r3) as [|d u]; [done|].
  destruct (parse_members fuel (skip_ws u)) as [[l' r5]|] eqn:Em; destruct d as [[] [] [] [] [] [] [] []]; simplify_eq; eauto 8.
Qed.

Lemma elem_parsed fuel s l r : parse_elems (S fuel) s = Some (l, r) →
  ∃ j r1, parse_value fuel s = Some (j, r1)
    ∧ ((∃ r2 l', skip_ws r1 = String "," r2 ∧ parse_elems fuel (skip_ws r2) = Some (l', r)) ∨ skip_ws r1 = String "]" r).
Proof.
  cbn [parse_elems]. destruct (parse_value fuel s) as [[j r1]|]; [|done]. intros H. exists j, r1. split; [done|].
  destruct (skip_ws r1) as [|d u]; [done|].
  destruct (parse_elems fuel (skip_ws u)) as [[l' r5]|] eqn:Em; destruct d as [[] [] [] [] [] [] [] []]; simplify_eq; eauto 8.
Qed.

Lemma compact_comma s t : skip_ws s = String "," t → compact false s = "," +:+ compact false (skip_ws t).
Proof. intros H. by rewrite <- compact_ws, H, compact_outside, compact_ws by done. Qed.

Lemma members_compact fuel : (∀ s j r, parse_value fuel s = Some (j, r) → compacts s r) →
  (∀ s l r, parse_members fuel s = Some (l, r) → compacts_members s r) →
  ∀ s l r, parse_members (S fuel) s = Some (l, r) → compacts_members s r.
Proof.
  intros IHv IHm s l r H. destruct s as [|q t]; [done|].
  destruct (member_parsed _ _ _ _ _ H) as (raw & r1 & r2 & j & r3 & -> & S & E1 & E2 & E3).
  destruct (compact_string _ t raw r1 (le_n _) S) as (b & Eb & Hk & Hs). destruct (IHv _ _ _ E2) as (c & j' & Ec & Rc & Sc).
  pose (m := {| m_raw := b; m_key := unquote b; m_text := c; m_val := j' |}).
  assert (member_ok m) as Hm by (by split_and!).
  assert (stable (member_str m)) as Sm.
  { unfold member_str. cbn [m_raw m_text m]. replace (String quote_char (b +:+ String quote_char (String ":" c)))
      with (String quote_char (b +:+ sone quote_char) +:+ String ":" c) by (by rewrite sapp_cons, sapp_assoc).
    apply stable_app; [by apply stable_string|by apply stable_cons_outside]. }
  assert (compact false (String quote_char t) = member_str m +:+ compact false r3) as Em.
  { change (compact false (String quote_char t)) with (String quote_char (compact true t)).
    rewrite Eb, <- (compact_ws r1), E1, compact_outside, <- (compact_ws r2), Ec by done. unfold member_str. cbn [m_raw m_text m].
    by rewrite !sapp_cons, sapp_assoc. }
  destruct E3 as [(r4 & l' & E3 & E4)|E3].
  - destruct (IHm _ _ _ E4) as (m' & l2 & El & Hl & Sl). exists m, (m' :: l2).
    change (Join "," (map member_str (m :: m' :: l2))) with (member_str m +:+ "," +:+ Join "," (map member_str (m' :: l2))).
    split_and!; [by rewrite Em, (compact_comma _ _ E3), El, !sapp_assoc|by constructor|].
    apply stable_app; [done|]. apply (stable_app ","); [by apply stable_outside|done].
  - exists m, []. cbn [map Join]. split_and!; [by rewrite Em, <- (compact_ws r3), E3, compact_outside|by constructor|done].
Qed.

Lemma elems_compact fuel : (∀ s j r, parse_value fuel s = Some (j, r) → compacts s r) →
  (∀ s l r, parse_elems fuel s = Some (l, r) → compacts_elems s r) →
  ∀ s l r, parse_elems (S fuel) s = Some (l, r) → compacts_elems s r.
Proof.
  intros IHv IHe s l r H. destruct (elem_parsed _ _ _ _ H) as (j & r1 & E1 & E2). destruct (IHv _ _ _ E1) as (c & j' & Ec & Rc & Sc).
  destruct E2 as [(r2 & l' & E2 & E3)|E2].
  - destruct (IHe _ _ _ E3) as (m' & l2 & El & Hl & Sl). exists (c, j'), (m' :: l2).
    change (Join "," (map fst ((c, j') :: m' :: l2))) with (c +:+ "," +:+ Join "," (map fst (m' :: l2))).
    split_and!; [by rewrite Ec, (compact_comma _ _ E2), El, !sapp_assoc|by constructor|].
    apply stable_app; [done|]. apply (stable_app ","); [by apply stable_outside|done].
  - exists (c, j'), []. cbn [map Join fst]. split_and!; [by rewrite Ec, <- (compact_ws r1), E2, compact_outside|by constructor|done].
Qed.

Lemma compact_values fuel :
  (∀ s j r, parse_value fuel s = Some (j, r) → compacts s r) ∧
  (∀ s l r, parse_members fuel s = Some (l, r) → compacts_members s r) ∧
  (∀ s l r, parse_elems fuel s = Some (l, r) → compacts_elems s r).
Proof.
  induction fuel as [|fuel (IHv & IHm & IHe)]; [done|]. split_and!.
  - intros [|c t] j r H; cbn [parse_value] in H; [done|]. destruct (bool_decide (c = "{"%char)) eqn:Ec.
    { apply bool_decide_eq_true in Ec as ->.
      assert (compacts_members (skip_ws t) r ∨ ∃ u, skip_ws t = String "}" u ∧ u = r) as [(m & l & E & Hm & Hs)|(u & E & ->)].
      { destruct (skip_ws t) as [|d u]; [by destruct fuel|].
        assert ((d = "}"%char ∧ u = r) ∨ match parse_members fuel (String d u) with Some (l, r) => Some (JObj l, r) | None => None end = Some (j, r)) as [[-> ->]|P]
          by (destruct d as [[] [] [] [] [] [] [] []]; try (right; exact H); left; by simplify_eq); [eauto|].
        destruct (parse_members fuel (String d u)) as [[l r']|] eqn:E; [|done]. simplify_eq. left. by eapply IHm. }
      - destruct (reads_braces _ Hm Hs). eexists _, _. split_and!; [|done|done]. rewrite compact_outside, <- compact_ws, E by done.
        by rewrite sapp_assoc, sapp_assoc.
      - exists "{}"%stdpp, (JObj []). split_and!; [|by apply (reads_marshal (AMap []))|by apply stable_outside].
        by rewrite compact_outside, <- compact_ws, E by done. }
    destruct (bool_decide (c = "["%char)) eqn:Eb.
    { apply bool_decide_eq_true in Eb as ->.
      assert (compacts_elems (skip_ws t) r ∨ ∃ u, skip_ws t = String "]" u ∧ u = r) as [(m & l & E & Hm & Hs)|(u & E & ->)].
      { destruct (skip_ws t) as [|d u]; [destruct (parse_elems fuel EmptyString) as [[l r']|] eqn:P; [|done]; simplify_eq; left; by eapply IHe|].
        assert ((d = "]"%char ∧ u = r) ∨ match parse_elems fuel (String d u) with Some (l, r) => Some (JArr l, r) | None => None end = Some (j, r)) as [[-> ->]|P]
          by (destruct d as [[] [] [] [] [] [] [] []]; try (right; exact H); left; by simplify_eq); [eauto|].
        destruct (parse_elems fuel (String d u)) as [[l r']|] eqn:E; [|done]. simplify_eq. left. by eapply IHe. }
      - destruct (reads_brackets _ Hm Hs). eexists _, _. split_and!; [|done|done]. rewrite compact_outside, <- compact_ws, E by done.
        by rewrite sapp_assoc, sapp_assoc.
      - exists "[]"%stdpp, (JArr []). split_and!; [|by apply (reads_marshal (AArr []))|by apply stable_outside].
        by rewrite compact_outside, <- compact_ws, E by done. }
    destruct (bool_decide (c = quote_char)) eqn:Eq.
    { apply bool_decide_eq_true in Eq as ->. destruct (scan_string t) as [[raw u]|] eqn:S; [|done]. injection H as _ <-.
      destruct (compact_string _ t raw u (le_n _) S) as (b & E & Hk & Hs). eexists _, _. split_and!; [|by apply reads_key|by apply stable_string].
      change (compact false (String quote_char t)) with (String quote_char (compact true t)). by rewrite E, sapp_cons, sapp_assoc. }
    destruct (bool_decide (c = "n"%char)).
    { destruct (strip_prefix "null" (String c t)) as [u|] eqn:E; [|done]. injection H as _ <-.
      eapply compacts_word; [done|by apply (reads_marshal ANil)|by apply stable_outside]. }
    destruct (bool_decide (c = "t"%char)).
    { destruct (strip_prefix "true" (String c t)) as [u|] eqn:E; [|done]. injection H as _ <-.
      eapply compacts_word; [done|by apply (reads_marshal (ABool true))|by apply stable_outside]. }
    destruct (bool_decide (c = "f"%char)).
    { destruct (strip_prefix "false" (String c t)) as [u|] eqn:E; [|done]. injection H as _ <-.
      eapply compacts_word; [done|by apply (reads_marshal (ABool false))|by apply stable_outside]. }
    destruct (scan_number (String c t)) as [[lit u]|] eqn:E; [|done]. injection H as _ <-.
    pose proof (reads_number _ _ _ E) as R. destruct (scan_number_again _ _ _ E) as (-> & Ho & _).
    exists lit, (JNum lit). split_and!; [by apply stable_outside|done|by apply stable_outside].
  - by apply members_compact.
  - by apply elems_compact.
Qed.

(** The text of a [json.RawMessage] is that of a value. *)
Lemma compact_reads p : json_Valid p = true → ∃ j, reads_text (compact false p) j ∧ stable (compact false p).
Proof.
  unfold json_Valid, parse_json. destruct (parse_value (json_fuel p) (skip_ws p)) as [[j r]|] eqn:E; [|done].
  destruct (sempty (skip_ws r)) eqn:S; [|done]. intros _. apply (proj1 (compact_values _)) in E as (c & j' & Ec & Hr & Hs).
  exists j'. rewrite compact_ws in Ec. assert (compact false r = EmptyString) as Er.
  { rewrite <- compact_ws. by destruct (skip_ws r). }
  rewrite Ec, Er, sapp_nil_r. done.
Qed.

Lemma compact_idem p : json_Valid p = true → compact false (compact false p) = compact false p.
Proof. intros H. destruct (compact_reads p H) as (_ & _ & S). by apply stable_self. Qed.

Lemma compact_valid p : json_Valid p = true → json_Valid (compact false p) = true.
Proof. intros H. destruct (compact_reads p H) as (j & R & _). unfold json_Valid. by rewrite (reads_parse _ _ R). Qed.
