(* ===== verification/Entities.v ===== *)
(** * The generic operations on entities

    Models the rest of [offline-menuvex/internal/store/store.go] that changes or reads the
    database: binding a device, the connection, the lists of entities, and the two ways the
    server's state comes in, pages of changes and the bootstrap snapshot. *)
From S2P Require Import Prelude GoStrings GoFloat GoJson GoJsonFacts GoTime Store.

(** ** Keys *)

Definition nul : ascii := "000"%char.

(* store.go entityKey *)
Definition entityKey (kind id : string) : string := kind +:+ String nul id.

Fixpoint no_nul (s : string) : bool :=
  match s with EmptyString => true | String c t => negb (bool_decide (c = nul)) && no_nul t end.

Lemma entityKey_inj k1 i1 k2 i2 :
  no_nul k1 = true → no_nul k2 = true → entityKey k1 i1 = entityKey k2 i2 → k1 = k2 ∧ i1 = i2.
Proof.
  unfold entityKey. revert k2. induction k1 as [|c k1 IH]; intros [|d k2]; simpl; rewrite ?sapp_cons; intros H1 H2 E.
  - by injection E.
  - injection E as <- _. by rewrite bool_decide_true in H2.
  - injection E as -> _. by rewrite bool_decide_true in H1.
  - injection E as <- E. bools. by destruct (IH k2) as [-> ->].
Qed.

Lemma entityKey_id kind i j : entityKey kind i = entityKey kind j → i = j.
Proof.
  unfold entityKey. induction kind as [|c k IH]; rewrite ?sapp_nil_l, ?sapp_cons; intros E; injection E; auto.
Qed.

(** Every entity is filed under its own type and identifier. *)
Definition well_keyed (st : persistedDB) : Prop :=
  map_Forall (λ k e, k = entityKey (se_Type e) (se_ID e)) (Entities st).

Lemma lookup_put k e st : Entities (put k e st) !! k = Some e.
Proof. apply lookup_insert_eq. Qed.

Lemma lookup_put_ne k j e st : k ≠ j → Entities (put k e st) !! j = Entities st !! j.
Proof. apply lookup_insert_ne. Qed.

Lemma well_keyed_put kind id e st :
  se_Type e = kind → se_ID e = id → well_keyed st → well_keyed (put (entityKey kind id) e st).
Proof. intros <- <- H. apply map_Forall_insert_2; done. Qed.

(** ** Simple transactions *)

(* store.go Store.Cursor *)
Definition Cursor (ctx : option string) (st : persistedDB) : res string :=
  read_ctx ctx (default EmptyString (Meta st !! "cursor")).

Definition scope_taken (st : persistedDB) (scope : string) : bool :=
  match Meta st !! "scope" with
  | Some old => negb (sempty old) && negb (bool_decide (old = scope))
  | None => false
  end.

(* store.go Store.Bind *)
Definition Bind_body (scope : string) (st : persistedDB) : res (unit * persistedDB) :=
  guard? negb (scope_taken st scope)
    else "local database belongs to a different server/device; use a separate data directory" in
  Ok ((), set_Meta (<["scope" := scope]>) st).

(* store.go Store.Bind *)
Definition Bind (io : IO) (ctx : option string) (s : Store) (scope : string) : tx_out unit :=
  withTx io ctx s (Bind_body scope).

(* store.go Store.SaveConnection *)
Definition SaveConnection_body (now : Z) (cfg : ConnectionConfig) (st : persistedDB) : res (unit * persistedDB) :=
  let scope := cc_APIURL cfg +:+ "|" +:+ cc_DeviceID cfg in
  guard? negb (scope_taken st scope)
    else "این پایگاه داده محلی به سرور یا دستگاه دیگری متصل بوده است؛ برای تغییر حساب ابتدا بازنشانی محلی انجام دهید" in
  let cfg := {| cc_APIURL := cc_APIURL cfg; cc_DeviceID := cc_DeviceID cfg; cc_DeviceToken := cc_DeviceToken cfg;
                cc_DeviceName := cc_DeviceName cfg; cc_CafeName := cc_CafeName cfg;
                cc_AccountPhone := cc_AccountPhone cfg; cc_UpdatedAt := FormatRFC3339 now |} in
  let st := set_Meta (<["scope" := scope]>) st in
  Ok ((), {| Meta := Meta st; Entities := Entities st; Outbox := Outbox st;
             LegacyStockCounts := LegacyStockCounts st; NextOutboxSeq := NextOutboxSeq st;
             NextLegacyStockCountID := NextLegacyStockCountID st; Connection := Some cfg |}).

(* store.go Store.SaveConnection *)
Definition SaveConnection (io : IO) (ctx : option string) (s : Store) (now : Z) (cfg : ConnectionConfig) : tx_out unit :=
  withTx io ctx s (SaveConnection_body now cfg).

(* store.go Store.LoadConnection *)
Definition LoadConnection (st : persistedDB) : option ConnectionConfig := Connection st.

(* store.go Store.ResetAll *)
Definition ResetAll_body (st : persistedDB) : res (unit * persistedDB) := Ok ((), newEmptyDB).

(* store.go Store.ResetAll *)
Definition ResetAll (io : IO) (ctx : option string) (s : Store) : tx_out unit :=
  withTx io ctx s (ResetAll_body).

(** ** Reading entities *)

Section Reading.
Context (R : Runtime).

(** The comparison of [sort.Slice] in [Entities]. *)
Definition entity_less (a b : Entity) : bool :=
  if negb (bool_decide (e_ID a = e_ID b)) then String.ltb (e_ID a) (e_ID b)
  else String.ltb (e_Type a) (e_Type b).

Definition listed (kind : string) (e : storedEntity) : bool :=
  negb (se_Deleted e)
  && (bool_decide (se_Type e = kind)
      || (bool_decide (kind = "order") && bool_decide (se_Type e = "order_status"))).

(* store.go Store.Entities *)
Definition Entities_of (kind : string) (st : persistedDB) : list Entity :=
  let out := map (λ p, view p.2) (List.filter (λ p, listed kind p.2) (iter R 0 (Entities st))) in
  let out := sort_slice R entity_less out in
  if (500 <? length out)%nat then take 500 out else out.

End Reading.

(** An entity that is there and not deleted, as the transactions look it up. *)
Definition live (st : persistedDB) (kind id : string) : option storedEntity :=
  match Entities st !! entityKey kind id with
  | Some e => if se_Deleted e then None else Some e
  | None => None
  end.

(* store.go Store.Entity *)
Definition Entity_of (kind id : string) (st : persistedDB) : res Entity :=
  match live st kind id with
  | Some e => Ok (view e)
  | None => Err "record not found"
  end.

(** ** Changes from the server *)

(* store.go applyChange *)
Definition applyChange (st : persistedDB) (c : Change) : res persistedDB :=
  guard? negb (sempty (c_EntityID c) || sempty (c_EntityType c)) else "change missing entity identity" in
  let payload := if sempty (c_Payload c) || bool_decide (c_Payload c = "null") then "{}"%stdpp else c_Payload c in
  guard? json_Valid payload else "invalid change JSON" in
  let deleted := c_Tombstone c || bool_decide (c_Operation c = "delete") in
  let key := entityKey (c_EntityType c) (c_EntityID c) in
  let e := {| se_ID := c_EntityID c; se_Type := c_EntityType c; se_Version := c_Version c;
              se_Deleted := deleted; se_Payload := payload |} in
  match Entities st !! key with
  | None => Ok (put key e st)
  | Some old =>
      if (se_Version old <? c_Version c)%Z || ((c_Version c =? 0)%Z && (se_Version old =? 0)%Z)
      then Ok (put key e st)
      else Ok st
  end.

Fixpoint applyChanges (st : persistedDB) (l : list Change) : res persistedDB :=
  match l with
  | [] => Ok st
  | c :: l => let? st := applyChange st c in applyChanges st l
  end.

(* store.go Store.ApplyPage *)
Definition ApplyPage_body (changes : list Change) (cursor : string) (st : persistedDB) : res (unit * persistedDB) :=
  let? st := applyChanges st changes in
  Ok ((), set_Meta (<["cursor" := cursor]>) st).

(* store.go Store.ApplyPage *)
Definition ApplyPage (io : IO) (ctx : option string) (s : Store) (changes : list Change) (cursor : string) : tx_out unit :=
  if sempty cursor then tx_fail "server returned empty cursor" s
  else withTx io ctx s (ApplyPage_body changes cursor).

(* store.go bootstrapSectionTypes *)
Definition bootstrapSectionTypes : gmap string string :=
  list_to_map
    [("products", "product"); ("categories", "category"); ("ingredients", "ingredient");
     ("banners", "banner"); ("recipes", "recipe"); ("orders", "order");
     ("inventory_summary", "inventory_summary"); ("waste_events", "waste_event");
     ("waste_items", "waste_item"); ("tables", "table"); ("customers", "customer");
     ("debtors", "debtor"); ("printers", "printer"); ("cafe_profile", "cafe_profile")].
Arguments bootstrapSectionTypes : simpl never.

Definition decode_error : string := "json: cannot unmarshal".

(** The identity and the version of a row of the snapshot. *)
(* store.go:457-464 Store.Bootstrap *)
Definition decode_row (raw : string) : res (string * string * Z) :=
  match parse_json raw with
  | Some JNull => Ok (EmptyString, EmptyString, 0%Z)
  | Some (JObj l) =>
      match dec_string (struct_members "id" l), dec_string (struct_members "ingredient_id" l),
            dec_int (struct_members "version" l) with
      | Some id, Some iid, Some v => Ok (id, iid, v)
      | _, _, _ => Err decode_error
      end
  | _ => Err decode_error
  end.

(* store.go:457-471 Store.Bootstrap *)
Definition bootstrap_row (section kind : string) (st : persistedDB) (raw : string) : res persistedDB :=
  let? (id, iid, v) := decode_row raw in
  let id := if sempty id && bool_decide (kind = "inventory_summary") then iid else id in
  match applyChange st {| c_EntityType := kind; c_EntityID := id; c_Version := v; c_Tombstone := false;
                          c_Operation := EmptyString; c_Payload := raw |} with
  | Ok st => Ok st
  | Err e => Err (section +:+ ": " +:+ e)
  end.

Fixpoint fold_res {A B} (f : B → A → res B) (b : B) (l : list A) : res B :=
  match l with
  | [] => Ok b
  | x :: l => let? b := f b x in fold_res f b l
  end.

(* store.go Store.Bootstrap *)
Definition Bootstrap_body (R : Runtime) (sections : gmap string (list string)) (cursor : string) (st : persistedDB)
    : res (unit * persistedDB) :=
  let st := set_Entities (λ _, ∅) st in
  let? st := fold_res (λ st p,
    match bootstrapSectionTypes !! p.1 with
    | None => Ok st
    | Some kind => fold_res (bootstrap_row p.1 kind) st p.2
    end) st (iter R 0 sections) in
  Ok ((), set_Meta (<["cursor" := cursor]>) st).

(* store.go Store.Bootstrap *)
Definition Bootstrap (R : Runtime) (io : IO) (ctx : option string) (s : Store)
    (sections : gmap string (list string)) (cursor : string) : tx_out unit :=
  if sempty cursor then tx_fail "bootstrap missing snapshot cursor" s
  else withTx io ctx s (Bootstrap_body R sections cursor).

(** ** The legacy stock counts *)

(* store.go Store.AddLegacyStockCount *)
Definition AddLegacyStockCount_body (now : Z) (d : LegacyStockCount) (st : persistedDB) : res (unit * persistedDB) :=
  let id := wrap64 (NextLegacyStockCountID st + 1) in
  let d := {| lc_ID := id; lc_Name := lc_Name d; lc_Quantity := lc_Quantity d; lc_Unit := lc_Unit d;
              lc_Note := lc_Note d; lc_CreatedAt := FormatRFC3339 now |} in
  Ok ((), {| Meta := Meta st; Entities := Entities st; Outbox := Outbox st;
             LegacyStockCounts := LegacyStockCounts st ++ [d]; NextOutboxSeq := NextOutboxSeq st;
             NextLegacyStockCountID := id; Connection := Connection st |}).

(* store.go Store.AddLegacyStockCount *)
Definition AddLegacyStockCount (io : IO) (ctx : option string) (s : Store) (now : Z) (d : LegacyStockCount) : tx_out unit :=
  withTx io ctx s (AddLegacyStockCount_body now d).

(* store.go Store.LegacyStockCounts *)
Definition LegacyStockCounts_of (R : Runtime) (st : persistedDB) : list LegacyStockCount :=
  let out := sort_slice R (λ i j, lc_ID j <? lc_ID i)%Z (LegacyStockCounts st) in
  if (500 <? length out)%nat then take 500 out else out.

(** ** Orders on strings *)

Lemma ltb_leb a b : String.ltb a b = negb (String.leb b a).
Proof.
  unfold String.ltb, String.leb. rewrite String.compare_antisym. by destruct (String.compare b a).
Qed.

Lemma leb_total a b : String.leb a b = true ∨ String.leb b a = true.
Proof. apply String.leb_total. Qed.

Lemma leb_trans a b c : String.leb a b = true → String.leb b c = true → String.leb a c = true.
Proof.
  assert (∀ x y, String.leb x y = true ↔ String.le x y) as L.
  { intros x y. unfold String.le. by rewrite Is_true_true. }
  rewrite !L. apply (transitivity (R := String.le)).
Qed.

Lemma leb_antisym a b : String.leb a b = true → String.leb b a = true → a = b.
Proof. apply String.leb_antisym. Qed.

Lemma ltb_false a b : String.ltb a b = false ↔ String.leb b a = true.
Proof. rewrite ltb_leb. by destruct (String.leb b a). Qed.

Lemma ltb_true a b : String.ltb a b = true ↔ String.leb b a = false.
Proof. rewrite ltb_leb. by destruct (String.leb b a). Qed.

Lemma leb_refl a : String.leb a a = true.
Proof. destruct (leb_total a a); done. Qed.

#[export] Hint Resolve leb_trans leb_refl : go_strings.

(** Lists that a strict order sorts are determined by their elements. *)
Lemma sort_slice_unique {A} R1 R2 (less : A → A → bool) l1 l2 :
  (∀ x y, less x y = true → less y x = false) →
  (∀ x y z, less y x = false → less z y = false → less z x = false) →
  (∀ x y, x ∈ l1 → y ∈ l1 → less x y = false → less y x = false → x = y) →
  l1 ≡ₚ l2 → sort_slice R1 less l1 = sort_slice R2 less l2.
Proof.
  intros Ha Ht He Hp.
  pose proof (sort_sorted R1 _ less l1 Ha Ht) as S1.
  pose proof (sort_sorted R2 _ less l2 Ha Ht) as S2.
  pose proof (sort_perm R1 _ less l1) as P1. pose proof (sort_perm R2 _ less l2) as P2.
  assert (∀ x, x ∈ sort_slice R1 less l1 → x ∈ l1) as Hin by (intros x; by rewrite P1).
  assert (sort_slice R1 less l1 ≡ₚ sort_slice R2 less l2) as P by (by rewrite P1, P2).
  clear P1 P2. generalize dependent (sort_slice R2 less l2). generalize dependent (sort_slice R1 less l1).
  intros k1 S1 Hin k2 S2 P. clear Hp. revert k2 S2 P.
  induction S1 as [|x k1 S1 IH Hx]; intros k2 S2 P.
  { by apply Permutation_nil_l in P as ->. }
  destruct S2 as [|y k2 S2 Hy]; [by apply Permutation_nil_r in P|].
  assert (x = y) as ->.
  { assert (x ∈ y :: k2) as [->|Hx2]%elem_of_cons by (rewrite <- P; by left); [done|].
    assert (y ∈ x :: k1) as [->|Hy1]%elem_of_cons by (rewrite P; by left); [done|].
    apply He; [apply Hin; by left|apply Hin; by right| |].
    - rewrite Forall_forall in Hy. by apply Hy.
    - rewrite Forall_forall in Hx. by apply Hx. }
  f_equal. apply IH; [intros z Hz; apply Hin; by right|done|]. by apply Permutation_cons_inv in P.
Qed.

(** ** The list of entities *)

Lemma entity_less_asym x y : entity_less x y = true → entity_less y x = false.
Proof.
  unfold entity_less. destruct (decide (e_ID x = e_ID y)) as [E|E].
  - rewrite !bool_decide_true by congruence. simpl. rewrite ltb_true, ltb_false. intros H.
    destruct (leb_total (e_Type x) (e_Type y)); congruence.
  - rewrite !bool_decide_false by congruence. simpl. rewrite ltb_true, ltb_false. intros H.
    destruct (leb_total (e_ID x) (e_ID y)); congruence.
Qed.

Lemma entity_less_false x y :
  entity_less y x = false ↔
  (e_ID x = e_ID y ∧ String.leb (e_Type x) (e_Type y) = true) ∨ (e_ID x ≠ e_ID y ∧ String.leb (e_ID x) (e_ID y) = true).
Proof.
  unfold entity_less. destruct (decide (e_ID x = e_ID y)) as [E|E].
  - rewrite !bool_decide_true by congruence. simpl. rewrite ltb_false. naive_solver.
  - rewrite !bool_decide_false by congruence. simpl. rewrite ltb_false. naive_solver.
Qed.

Lemma entity_less_trans x y z : entity_less y x = false → entity_less z y = false → entity_less z x = false.
Proof.
  rewrite !entity_less_false. intros [[E1 H1]|[E1 H1]] [[E2 H2]|[E2 H2]].
  - left. split; [congruence|]. eauto using leb_trans.
  - right. rewrite E1. done.
  - right. rewrite <- E2. done.
  - right. split; [|eauto using leb_trans]. intros E. rewrite E in H1, E1.
    apply E1. by apply leb_antisym.
Qed.

Lemma entity_less_same x y :
  entity_less x y = false → entity_less y x = false → e_ID x = e_ID y ∧ e_Type x = e_Type y.
Proof.
  rewrite !entity_less_false. intros [[E1 H1]|[E1 H1]] [[E2 H2]|[E2 H2]]; try congruence.
  - split; [done|]. by apply leb_antisym.
  - split; exfalso; apply E1; by apply leb_antisym.
Qed.

Definition listing (R : Runtime) (kind : string) (st : persistedDB) : list Entity :=
  map (λ p, view p.2) (List.filter (λ p, listed kind p.2) (iter R 0 (Entities st))).

Lemma elem_of_listing R kind st v :
  v ∈ listing R kind st ↔ ∃ k e, Entities st !! k = Some e ∧ listed kind e = true ∧ v = view e.
Proof.
  unfold listing. rewrite list_elem_of_In, in_map_iff. split.
  - intros ([k e] & <- & [Hi Hl]%filter_In). exists k, e. split; [|done].
    apply elem_of_map_to_list. rewrite <- (iter_perm R 0). by apply list_elem_of_In.
  - intros (k & e & Hk & Hl & ->). exists (k, e). split; [done|]. apply filter_In. split; [|done].
    apply list_elem_of_In. rewrite (iter_perm R 0). by apply elem_of_map_to_list.
Qed.

Lemma listing_perm R1 R2 kind st : listing R1 kind st ≡ₚ listing R2 kind st.
Proof.
  unfold listing. apply Permutation_map.
  assert (∀ (l1 l2 : list (string * storedEntity)) P, l1 ≡ₚ l2 → List.filter P l1 ≡ₚ List.filter P l2) as F.
  { intros l1 l2 P. induction 1; simpl; repeat case_match; eauto using Permutation. }
  apply F. by rewrite !iter_perm.
Qed.

(** Up to 500 entities are all listed. *)
Lemma Entities_of_listing R kind st : length (listing R kind st) ≤ 500 → Entities_of R kind st ≡ₚ listing R kind st.
Proof.
  intros H. unfold Entities_of. fold (listing R kind st).
  assert (sort_slice R entity_less (listing R kind st) ≡ₚ listing R kind st) as Hp by apply sort_perm.
  rewrite (Permutation_length Hp). destruct (500 <? length (listing R kind st))%nat eqn:L; [apply Nat.ltb_lt in L; lia|exact Hp].
Qed.

Lemma listing_view_inj R kind st x y :
  well_keyed st → x ∈ listing R kind st → y ∈ listing R kind st →
  entity_less x y = false → entity_less y x = false → x = y.
Proof.
  intros Hk (k1 & e1 & H1 & _ & ->)%elem_of_listing (k2 & e2 & H2 & _ & ->)%elem_of_listing Hxy Hyx.
  destruct (entity_less_same _ _ Hxy Hyx) as [Hi Ht]. simpl in *.
  pose proof (Hk _ _ H1) as E1. pose proof (Hk _ _ H2) as E2. simpl in *. subst.
  rewrite Hi, Ht, H2 in H1. congruence.
Qed.

(** [Entities] lists a kind faithfully, whatever order the runtime ranges over the map
    and orders equal elements in: the result does not depend on it; it is sorted by
    identifier and type, never longer than 500, and holds only live entities of the kind;
    and when there are at most 500 of them it holds them all. *)
Theorem Entities_spec R R' kind st :
  well_keyed st →
  Entities_of R kind st = Entities_of R' kind st
  ∧ StronglySorted (λ x y, entity_less y x = false) (Entities_of R kind st)
  ∧ length (Entities_of R kind st) ≤ 500
  ∧ (∀ v, v ∈ Entities_of R kind st → ∃ e, Entities st !! entityKey (e_Type v) (e_ID v) = Some e
       ∧ listed kind e = true ∧ v = view e)
  ∧ (length (listing R kind st) ≤ 500 →
     ∀ k e, Entities st !! k = Some e → listed kind e = true → view e ∈ Entities_of R kind st).
Proof.
  intros Hk. unfold Entities_of. fold (listing R kind st) (listing R' kind st).
  assert (sort_slice R entity_less (listing R kind st) = sort_slice R' entity_less (listing R' kind st)) as E.
  { apply sort_slice_unique; eauto using entity_less_asym, entity_less_trans, listing_perm, listing_view_inj. }
  rewrite <- E. set (out := sort_slice R entity_less (listing R kind st)).
  assert (out ≡ₚ listing R kind st) as Hp by apply sort_perm.
  pose proof (sort_sorted R _ _ (listing R kind st) entity_less_asym entity_less_trans) as Hs. fold out in Hs.
  split; [done|]. split; [|split; [|split]].
  - destruct (500 <? length out); [|done]. rewrite <- (take_drop 500 out) in Hs.
    by apply StronglySorted_app_1_l in Hs.
  - destruct (500 <? length out)%nat eqn:L; [rewrite length_take; lia|]. apply Nat.ltb_ge in L. done.
  - intros v Hv. assert (v ∈ out) as Hv'.
    { destruct (500 <? length out)%nat; [|done]. rewrite <- (take_drop 500 out). apply elem_of_app. by left. }
    rewrite Hp in Hv'. apply elem_of_listing in Hv' as (k & e & He & Hl & ->).
    exists e. pose proof (Hk _ _ He) as K. simpl in *. by subst k.
  - intros Hn k e He Hl. rewrite <- Hp in Hn. rewrite (proj2 (Nat.ltb_ge _ _)) by done.
    rewrite Hp. apply elem_of_listing. eauto.
Qed.

(** ** Pages of changes *)

(** The payload a change is stored with, the entity it stores, and when it does. *)
Definition change_payload (c : Change) : string :=
  if sempty (c_Payload c) || bool_decide (c_Payload c = "null") then "{}"%stdpp else c_Payload c.
Definition change_ok (c : Change) : bool :=
  negb (sempty (c_EntityID c) || sempty (c_EntityType c)) && json_Valid (change_payload c).
Definition change_key (c : Change) : string := entityKey (c_EntityType c) (c_EntityID c).
Definition change_entity (c : Change) : storedEntity :=
  {| se_ID := c_EntityID c; se_Type := c_EntityType c; se_Version := c_Version c;
     se_Deleted := c_Tombstone c || bool_decide (c_Operation c = "delete"); se_Payload := change_payload c |}.

(** Last-writer-wins at one key, by version. *)
Definition merge (o : option storedEntity) (c : Change) : option storedEntity :=
  match o with
  | None => Some (change_entity c)
  | Some old =>
      if (se_Version old <? c_Version c)%Z || ((c_Version c =? 0)%Z && (se_Version old =? 0)%Z)
      then Some (change_entity c) else Some old
  end.

Arguments merge : simpl never.

Lemma put_Meta key e st : Meta (put key e st) = Meta st.
Proof. done. Qed.

Lemma set_Entities_id st : set_Entities (λ m, m) st = st.
Proof. by destruct st. Qed.

Lemma applyChange_ok st c : is_ok (applyChange st c) = change_ok c.
Proof.
  unfold applyChange, change_ok. fold (change_payload c).
  destruct (sempty (c_EntityID c) || sempty (c_EntityType c)); [done|]. simpl.
  destruct (json_Valid (change_payload c)); [|done].
  destruct (Entities st !! _); [|done]. by case_match.
Qed.

(** A change rewrites the entities alone, and at its own key alone. *)
Lemma applyChange_shape st c st' :
  applyChange st c = Ok st' →
  st' = set_Entities (λ m, partial_alter (λ o, merge o c) (change_key c) m) st.
Proof.
  unfold applyChange, merge, change_key. fold (change_payload c).
  destruct (negb _); [|done]. destruct (json_Valid _); [|done].
  set (key := entityKey (c_EntityType c) (c_EntityID c)). unfold put, set_Entities.
  destruct (Entities st !! key) as [old|] eqn:E.
  - destruct (_ || _) eqn:V; intros [= <-].
    + f_equal. apply map_eq. intros k. destruct (decide (key = k)) as [->|Hk].
      * by rewrite lookup_insert_eq, lookup_partial_alter_eq, E, V.
      * by rewrite lookup_insert_ne, lookup_partial_alter_ne.
    + destruct st as [M En O L N1 N2 C]. simpl in *. f_equal. apply map_eq. intros k.
      destruct (decide (key = k)) as [->|Hk].
      * by rewrite lookup_partial_alter_eq, E, V.
      * by rewrite lookup_partial_alter_ne.
  - intros [= <-]. f_equal. apply map_eq. intros k. destruct (decide (key = k)) as [->|Hk].
    + by rewrite lookup_insert_eq, lookup_partial_alter_eq, E.
    + by rewrite lookup_insert_ne, lookup_partial_alter_ne.
Qed.

Definition at_key (k : string) (l : list Change) : list Change :=
  List.filter (λ c, bool_decide (change_key c = k)) l.

(** A page as one update of the entities. *)
Lemma applyChanges_shape l : ∀ st st', applyChanges st l = Ok st' →
  st' = set_Entities (λ _, Entities st') st
  ∧ forallb change_ok l = true
  ∧ ∀ k, Entities st' !! k = foldl merge (Entities st !! k) (at_key k l).
Proof.
  induction l as [|c l IH]; intros st st' H; simpl in *.
  { injection H as <-. by destruct st. }
  pose proof (applyChange_ok st c) as Hok.
  destruct (applyChange st c) as [st1|] eqn:E; [|done]. rewrite <- Hok.
  apply applyChange_shape in E. destruct (IH _ _ H) as (H1 & H2 & H3).
  split; [rewrite H1; by subst st1|]. split; [done|]. intros k. rewrite H3. subst st1. simpl.
  destruct (decide (change_key c = k)) as [Hk|Hk].
  - rewrite bool_decide_true by done. simpl. by rewrite <- Hk, lookup_partial_alter_eq.
  - rewrite bool_decide_false by done. by rewrite lookup_partial_alter_ne.
Qed.

Lemma applyChanges_total l st : forallb change_ok l = true → ∃ st', applyChanges st l = Ok st'.
Proof.
  revert st. induction l as [|c l IH]; intros st H; simpl in *; [eauto|]. bools.
  pose proof (applyChange_ok st c) as Hok. rewrite H in Hok.
  destruct (applyChange st c); [auto|done].
Qed.

(** An entity only gives way to a newer one, or one of version 0 to another. *)
Definition supersedes (old new : storedEntity) : Prop :=
  new = old ∨ (se_Version old < se_Version new)%Z ∨ (se_Version old = 0 ∧ se_Version new = 0)%Z.

Lemma merge_supersedes old c : ∃ new, merge (Some old) c = Some new ∧ supersedes old new.
Proof.
  unfold merge, supersedes. destruct (_ <? _)%Z eqn:V; simpl.
  - bools. eauto.
  - destruct ((c_Version c =? 0)%Z && _) eqn:Z0; [bools; eexists; split; [done|]; simpl; auto|eauto].
Qed.

Lemma supersedes_trans a b c : supersedes a b → supersedes b c → supersedes a c.
Proof. unfold supersedes. intros [->|H1] [->|H2]; auto. right. lia. Qed.

Lemma foldl_supersedes l : ∀ old, ∃ new, foldl merge (Some old) l = Some new ∧ supersedes old new.
Proof.
  induction l as [|c l IH]; intros old; simpl; [unfold supersedes; eauto|].
  destruct (merge_supersedes old c) as (n & -> & H1). destruct (IH n) as (m & -> & H2).
  eauto using supersedes_trans.
Qed.

(** Once merged, a list of changes merges into nothing new. *)
Lemma merge_below l : ∀ e, (se_Version e ≠ 0)%Z → Forall (λ c, (c_Version c <= se_Version e)%Z) l →
  foldl merge (Some e) l = Some e.
Proof.
  induction l as [|c l IH]; intros e He H; simpl; [done|]. inversion_clear H. unfold merge at 2.
  rewrite (proj2 (Z.ltb_ge _ _)), (proj2 (Z.eqb_neq (se_Version e) 0)), andb_false_r by done. simpl. auto.
Qed.

Lemma foldl_bounds l : ∀ o e, foldl merge o l = Some e → Forall (λ c, (c_Version c <= se_Version e)%Z) l.
Proof.
  induction l as [|c l IH]; intros o e H; simpl in *; [done|]. constructor; [|eauto].
  assert (∃ m, merge o c = Some m ∧ (c_Version c <= se_Version m)%Z) as (m & Hm & Hv).
  { unfold merge. destruct o as [old|]; [|eexists; split; [done|]; simpl; lia].
    destruct (_ <? _)%Z eqn:V; simpl; [eexists; split; [done|]; simpl; lia|]. bools.
    destruct (_ && _); eexists; (split; [done|]); simpl; lia. }
  rewrite Hm in H. destruct (foldl_supersedes l m) as (n & Hn & Hs). rewrite H in Hn. injection Hn as <-.
  unfold supersedes in Hs. destruct Hs as [->|Hs]; [done|lia].
Qed.

(** The last change of version 0 in the list. *)
Definition last0 (o : option storedEntity) (l : list Change) : option storedEntity :=
  foldl (λ o c, if (c_Version c =? 0)%Z then Some (change_entity c) else o) o l.

Lemma foldl_zero l : ∀ o e, foldl merge o l = Some e → se_Version e = 0%Z →
  ∀ e0, se_Version e0 = 0%Z → foldl merge (Some e0) l = last0 (Some e0) l ∧
    (last0 (Some e0) l = Some e0 ∨ last0 (Some e0) l = Some e).
Proof.
  induction l as [|c l IH]; intros o e H He e0 He0; [simpl; auto|].
  pose proof (foldl_bounds _ _ _ H) as Hb. inversion_clear Hb as [|? ? Hc Hl]. simpl in H.
  unfold last0. simpl. fold (last0 (if (c_Version c =? 0)%Z then Some (change_entity c) else Some e0) l).
  assert (merge (Some e0) c = Some (if (c_Version c =? 0)%Z then change_entity c else e0)) as ->.
  { unfold merge. rewrite He0, (proj2 (Z.ltb_ge 0 _)), Z.eqb_refl, andb_true_r by lia. simpl. by destruct (_ =? _)%Z. }
  destruct (c_Version c =? 0)%Z eqn:Zc; bools.
  - assert (merge o c = Some (change_entity c) ∨ ∃ old, o = Some old ∧ (0 < se_Version old)%Z) as [Hm|(old & -> & Ho)].
    { unfold merge. destruct o as [old|]; simpl; [|by left]. rewrite Zc, Z.eqb_refl. simpl.
      destruct (Z.lt_trichotomy (se_Version old) 0) as [?|[?|?]]; [| |right; eauto].
      - rewrite (proj2 (Z.ltb_lt _ _)) by done. by left.
      - rewrite (proj2 (Z.eqb_eq (se_Version old) 0)), orb_true_r by done. by left. }
    + rewrite Hm in H. destruct (IH _ _ H He (change_entity c) Zc) as [-> [E|E]]; [|rewrite E; auto].
      split; [done|]. right. rewrite E.
      assert (foldl merge (Some (change_entity c)) l = Some (change_entity c)) as E' by (by rewrite (proj1 (IH _ _ H He (change_entity c) Zc)), E).
      congruence.
    + destruct (foldl_supersedes (c :: l) old) as (n & Hn & Hs). simpl in Hn. simpl in H. rewrite H in Hn.
      injection Hn as <-. exfalso. destruct Hs as [->|Hs]; lia.
  - destruct (IH _ _ H He e0 He0) as [H1 H2]. auto.
Qed.

Lemma foldl_merge_idem o l : foldl merge (foldl merge o l) l = foldl merge o l.
Proof.
  destruct (foldl merge o l) as [e|] eqn:E.
  - destruct (decide (se_Version e = 0%Z)) as [He|He].
    + destruct (foldl_zero _ _ _ E He e He) as [-> [H|H]]; done.
    + apply merge_below; [done|]. by eapply foldl_bounds.
  - destruct l as [|c l]; [done|]. simpl in E. exfalso.
    assert (∃ m, merge o c = Some m) as [m Hm] by (unfold merge; repeat case_match; eauto).
    rewrite Hm in E. destruct (foldl_supersedes l m) as (n & Hn & _). congruence.
Qed.

(** C9: pages of changes never take an entity back, and replaying one changes nothing.
    After [ApplyPage] every entity, tombstones included, is still there unless a newer
    version (or another change without a version) has replaced it, so a deleted record
    only comes back with a higher version; the queue, the connection and the legacy counts
    are untouched and the cursor is the page's; and applying the same page again, as after
    a lost acknowledgement, succeeds and leaves the very same state. *)
Theorem ApplyPage_monotone_replay changes cursor st st' :
  ApplyPage_body changes cursor st = Ok ((), st') →
  (∀ k old, Entities st !! k = Some old → ∃ new, Entities st' !! k = Some new ∧ supersedes old new)
  ∧ Meta st' = <["cursor" := cursor]> (Meta st) ∧ Outbox st' = Outbox st
  ∧ NextOutboxSeq st' = NextOutboxSeq st
  ∧ Connection st' = Connection st ∧ LegacyStockCounts st' = LegacyStockCounts st
  ∧ ApplyPage_body changes cursor st' = Ok ((), st').
Proof.
  unfold ApplyPage_body. intros H. destruct (applyChanges st changes) as [st1|] eqn:E; [|done].
  injection H as <-. destruct (applyChanges_shape _ _ _ E) as (Hs & Hok & Hl).
  split.
  { intros k old Hk. simpl. rewrite Hl, Hk. apply foldl_supersedes. }
  rewrite Hs. do 5 (split; [done|]). rewrite <- Hs.
  destruct (applyChanges_total changes (set_Meta <["cursor" := cursor]> st1) Hok) as [st2 E2].
  rewrite E2. destruct (applyChanges_shape _ _ _ E2) as (Hs2 & _ & Hl2). simpl in Hl2.
  f_equal. f_equal. rewrite Hs2. unfold set_Meta, set_Entities. simpl. f_equal.
  - by rewrite insert_insert_eq.
  - apply map_eq. intros k. by rewrite Hl2, Hl, foldl_merge_idem.
Qed.

(** ** The snapshot *)

Definition row_change (kind raw : string) : res Change :=
  let? (id, iid, v) := decode_row raw in
  let id := if sempty id && bool_decide (kind = "inventory_summary") then iid else id in
  Ok {| c_EntityType := kind; c_EntityID := id; c_Version := v; c_Tombstone := false;
        c_Operation := EmptyString; c_Payload := raw |}.

(** The fourteen kinds differ and hold no NUL, so sections do not meet at a key. *)
Lemma kinds_no_nul : map_Forall (λ _ k, no_nul k = true) bootstrapSectionTypes.
Proof. apply (bool_decide_unpack _). by vm_compute. Qed.

Lemma kinds_inj s1 s2 k : bootstrapSectionTypes !! s1 = Some k → bootstrapSectionTypes !! s2 = Some k → s1 = s2.
Proof.
  assert (map_Forall (λ s1 k1, map_Forall (λ s2 k2, k1 = k2 → s1 = s2) bootstrapSectionTypes) bootstrapSectionTypes) as H.
  { apply (bool_decide_unpack _). by vm_compute. }
  intros H1 H2. by apply (H _ _ H1 _ _ H2).
Qed.

#[local] Opaque bootstrapSectionTypes.

(** The changes a section amounts to, and whether all its rows are acceptable. *)
Definition section_rows (p : string * list string) : res (list Change) :=
  match bootstrapSectionTypes !! p.1 with
  | None => Ok []
  | Some kind => mapM_res (row_change kind) p.2
  end.
Definition section_changes (p : string * list string) : list Change :=
  match section_rows p with Ok cs => cs | Err _ => [] end.
Definition section_ok (p : string * list string) : bool :=
  is_ok (section_rows p) && forallb change_ok (section_changes p).

Definition run_section (st : persistedDB) (p : string * list string) : res persistedDB :=
  match bootstrapSectionTypes !! p.1 with
  | None => Ok st
  | Some kind => fold_res (bootstrap_row p.1 kind) st p.2
  end.

Lemma applyChanges_app st l k :
  applyChanges st (l ++ k) = let? st := applyChanges st l in applyChanges st k.
Proof. revert st. induction l as [|c l IH]; intros st; simpl; [done|]. by destruct (applyChange st c). Qed.

Lemma bootstrap_row_change section kind st raw :
  match bootstrap_row section kind st raw with
  | Ok st' => ∃ c, row_change kind raw = Ok c ∧ change_ok c = true ∧ applyChange st c = Ok st'
  | Err _ => ∀ c, row_change kind raw = Ok c → change_ok c = false
  end.
Proof.
  unfold bootstrap_row, row_change. destruct (decode_row raw) as [[[id iid] v]|]; [|done].
  set (c := {| c_EntityType := kind |}). pose proof (applyChange_ok st c) as Hc.
  destruct (applyChange st c) eqn:E; simpl in Hc.
  - exists c. by rewrite <- Hc.
  - by intros c' [= <-].
Qed.

Lemma bootstrap_rows section kind rows : ∀ st,
  match fold_res (bootstrap_row section kind) st rows with
  | Ok st' => ∃ cs, mapM_res (row_change kind) rows = Ok cs ∧ forallb change_ok cs = true ∧ applyChanges st cs = Ok st'
  | Err _ => ∀ cs, mapM_res (row_change kind) rows = Ok cs → forallb change_ok cs = false
  end.
Proof.
  induction rows as [|raw rows IH]; intros st; simpl; [by exists []|].
  pose proof (bootstrap_row_change section kind st raw) as Hr.
  destruct (bootstrap_row section kind st raw) as [st1|].
  - destruct Hr as (c & Hc & Ho & Ha). rewrite Hc. specialize (IH st1).
    destruct (fold_res _ st1 rows).
    + destruct IH as (cs & -> & Hos & Has). exists (c :: cs). simpl. by rewrite Ho, Ha.
    + intros cs Hcs. destruct (mapM_res (row_change kind) rows) as [cs'|]; [|done]. injection Hcs as <-.
      simpl. by rewrite (IH cs' eq_refl), andb_false_r.
  - intros cs Hcs. destruct (row_change kind raw) as [c|]; [|done].
    destruct (mapM_res (row_change kind) rows); [|done]. injection Hcs as <-. simpl. by rewrite (Hr c eq_refl).
Qed.

Lemma run_section_spec p st :
  match run_section st p with
  | Ok st' => section_ok p = true ∧ applyChanges st (section_changes p) = Ok st'
  | Err _ => section_ok p = false
  end.
Proof.
  unfold run_section, section_ok, section_changes, section_rows.
  destruct (bootstrapSectionTypes !! p.1) as [kind|]; [|done].
  pose proof (bootstrap_rows p.1 kind p.2 st) as H. destruct (fold_res _ st p.2).
  - destruct H as (cs & -> & Ho & Ha). done.
  - destruct (mapM_res (row_change kind) p.2); [|done]. simpl. by apply H.
Qed.

Lemma run_sections l : ∀ st,
  match fold_res run_section st l with
  | Ok st' => forallb section_ok l = true ∧ applyChanges st (concat (map section_changes l)) = Ok st'
  | Err _ => forallb section_ok l = false
  end.
Proof.
  induction l as [|p l IH]; intros st; simpl; [done|].
  pose proof (run_section_spec p st) as Hp. destruct (run_section st p) as [st1|]; [|by rewrite Hp].
  destruct Hp as [Hp Ha]. rewrite Hp. simpl. specialize (IH st1).
  destruct (fold_res run_section st1 l); [|done]. rewrite applyChanges_app, Ha. done.
Qed.

Lemma section_change_kind p c :
  c ∈ section_changes p →
  bootstrapSectionTypes !! p.1 = Some (c_EntityType c) ∧ se_Deleted (change_entity c) = false.
Proof.
  unfold section_changes, section_rows. destruct (bootstrapSectionTypes !! p.1) as [kind|]; [|intros H; inversion H].
  assert (∀ rows cs, mapM_res (row_change kind) rows = Ok cs →
    Forall (λ c, c_EntityType c = kind ∧ se_Deleted (change_entity c) = false) cs) as F.
  { induction rows as [|raw rows IH]; simpl; intros cs.
    - intros [= <-]. constructor.
    - unfold row_change at 1. destruct (decode_row raw) as [[[id iid] v]|]; [|done].
      destruct (mapM_res _ rows); [|done]. intros [= <-]. constructor; auto. }
  destruct (mapM_res _ _) as [cs|] eqn:E; [|intros H; inversion H].
  apply F in E. rewrite Forall_forall in E. intros H. destruct (E _ H) as [<- ?]. done.
Qed.

Lemma at_key_elem k l : at_key k l ≠ [] → ∃ c, c ∈ l ∧ change_key c = k.
Proof.
  unfold at_key. intros H. destruct (List.filter _ l) as [|c r] eqn:E; [done|].
  assert (In c (List.filter (λ c, bool_decide (change_key c = k)) l)) as Hi by (rewrite E; by left).
  apply filter_In in Hi as [Hi Hk]. bools. exists c. by rewrite list_elem_of_In.
Qed.

Lemma sections_apart k p q : at_key k (section_changes p) ≠ [] → at_key k (section_changes q) ≠ [] → p.1 = q.1.
Proof.
  intros (c & Hc & Ec)%at_key_elem (d & Hd & Ed)%at_key_elem.
  apply section_change_kind in Hc as [Hc _]. apply section_change_kind in Hd as [Hd _].
  rewrite <- Ed in Ec. apply entityKey_inj in Ec as [Ek _]; [| |].
  - rewrite Ek in Hc. by eapply kinds_inj.
  - by apply kinds_no_nul in Hc.
  - by apply kinds_no_nul in Hd.
Qed.

Lemma at_key_app k l1 l2 : at_key k (l1 ++ l2) = at_key k l1 ++ at_key k l2.
Proof. apply List.filter_app. Qed.

Lemma at_key_perm k l1 l2 : l1 ≡ₚ l2 → NoDup l1.*1 →
  at_key k (concat (map section_changes l1)) = at_key k (concat (map section_changes l2)).
Proof.
  induction 1 as [|p l1 l2 Hp IH|p q l|l1 l2 l3 H1 IH1 H2 IH2]; simpl; intros Hn; [done| | |].
  - inversion_clear Hn. rewrite !at_key_app. by rewrite IH.
  - inversion_clear Hn as [|? ? Hq Hl]. rewrite !at_key_app, !app_assoc. f_equal.
    destruct (decide (at_key k (section_changes q) = [])) as [->|Eq]; [by rewrite app_nil_r|].
    destruct (decide (at_key k (section_changes p) = [])) as [->|Ep]; [by rewrite app_nil_r|].
    exfalso. apply Hq. rewrite (sections_apart k q p Eq Ep). left.
  - rewrite IH1 by done. apply IH2. by rewrite <- H1.
Qed.

Lemma foldl_merge_source l : ∀ o e, foldl merge o l = Some e → o = Some e ∨ ∃ c, c ∈ l ∧ e = change_entity c.
Proof.
  induction l as [|c l IH]; intros o e Ho; simpl in Ho; [by left|].
  destruct (IH _ _ Ho) as [E|(d & Hd & ->)]; [|right; exists d; split; [by right|done]].
  unfold merge in E. repeat case_match; injection E as <-; auto; right; exists c; (split; [by left|done]).
Qed.

Lemma elem_of_sections k c l :
  c ∈ at_key k (concat (map section_changes l)) → change_key c = k ∧ ∃ p, p ∈ l ∧ c ∈ section_changes p.
Proof.
  unfold at_key. rewrite list_elem_of_In, filter_In. intros [Hi Hk]. bools. split; [done|].
  apply in_concat in Hi as (cs & Hcs & Hi). apply in_map_iff in Hcs as (p & <- & Hp).
  exists p. by rewrite !list_elem_of_In.
Qed.

Lemma Bootstrap_body_run R sections cursor st :
  Bootstrap_body R sections cursor st =
    let? st := fold_res run_section (set_Entities (λ _, ∅) st) (iter R 0 sections) in
    Ok ((), set_Meta (<["cursor" := cursor]>) st).
Proof. done. Qed.

(** C26: a snapshot replaces all entities.  Success and the state it leaves depend neither on
    the order the sections are ranged over in nor on any entity there was, so records of the
    till alone (staff, expenses, print jobs) are gone like the others; the queue, the sequence
    numbers, the connection and the legacy stock counts survive, the cursor becomes the
    snapshot's, and every entity left is live, of one of the fourteen kinds of the table and
    filed under its own key. *)
Theorem Bootstrap_deterministic R R' sections cursor st st' :
  Bootstrap_body R sections cursor st = Ok ((), st') →
  (∀ f, Bootstrap_body R' sections cursor (set_Entities f st) = Ok ((), st'))
  ∧ Meta st' = <["cursor" := cursor]> (Meta st) ∧ Outbox st' = Outbox st
  ∧ NextOutboxSeq st' = NextOutboxSeq st ∧ Connection st' = Connection st
  ∧ LegacyStockCounts st' = LegacyStockCounts st
  ∧ NextLegacyStockCountID st' = NextLegacyStockCountID st
  ∧ ∀ k e, Entities st' !! k = Some e →
      k = entityKey (se_Type e) (se_ID e) ∧ se_Deleted e = false
      ∧ ∃ section, bootstrapSectionTypes !! section = Some (se_Type e).
Proof.
  intros H. assert (∀ f, Bootstrap_body R' sections cursor (set_Entities f st) = Bootstrap_body R' sections cursor st) as Ef by done.
  setoid_rewrite Ef. clear Ef. rewrite !Bootstrap_body_run in *. set (st0 := set_Entities (λ _, ∅) st) in *.
  pose proof (run_sections (iter R 0 sections) st0) as H1.
  pose proof (run_sections (iter R' 0 sections) st0) as H2.
  destruct (fold_res run_section st0 (iter R 0 sections)) as [s1|]; [|done]. injection H as <-.
  destruct H1 as [Hok1 Ha1]. apply applyChanges_shape in Ha1 as (Hs1 & Hc1 & Hl1).
  assert (iter R 0 sections ≡ₚ iter R' 0 sections) as Hp by (by rewrite !iter_perm).
  assert (NoDup (iter R 0 sections).*1) as Hn by (rewrite iter_perm; apply NoDup_fst_map_to_list).
  destruct (fold_res run_section st0 (iter R' 0 sections)) as [s2|].
  2:{ exfalso. assert (forallb section_ok (iter R' 0 sections) = true); [|congruence].
      rewrite forallb_forall in *. intros p Hi. apply Hok1. rewrite <- list_elem_of_In in *. by rewrite Hp. }
  destruct H2 as [_ Ha2]. apply applyChanges_shape in Ha2 as (Hs2 & _ & Hl2).
  assert (Entities s2 = Entities s1) as E.
  { apply map_eq. intros k. rewrite Hl1, Hl2. f_equal. symmetry. by apply at_key_perm. }
  assert (s2 = s1) as -> by (etrans; [exact Hs2|rewrite E; by symmetry]).
  split; [by intros _|]. rewrite Hs1. do 6 (split; [done|]). simpl. intros k e He.
  rewrite Hl1 in He. simpl in He. rewrite lookup_empty in He.
  apply foldl_merge_source in He as [He|(c & Hc & ->)]; [done|].
  apply elem_of_sections in Hc as (<- & p & _ & Hc). apply section_change_kind in Hc as [Hk Hd]. simpl in *. eauto.
Qed.

(** ** Concrete runs *)

#[local] Transparent bootstrapSectionTypes.

Definition a_change (v : Z) (gone : bool) (payload : string) : Change :=
  {| c_EntityType := "product"; c_EntityID := "p1"; c_Version := v; c_Tombstone := gone;
     c_Operation := "update"; c_Payload := payload |}.

Lemma ApplyPage_monotone_replay_witness :
  ∃ st', ApplyPage_body [a_change 3 false "{}"; a_change 4 true ""; a_change 2 false "[1]"] "c9" newEmptyDB = Ok ((), st')
    ∧ ApplyPage_body [a_change 3 false "{}"; a_change 4 true ""; a_change 2 false "[1]"] "c9" st' = Ok ((), st').
Proof.
  eexists. split; [reflexivity|].
  refine (proj2 (proj2 (proj2 (proj2 (proj2 (proj2 (ApplyPage_monotone_replay _ _ newEmptyDB _ _))))))). reflexivity.
Defined.

Definition a_store : persistedDB :=
  put (entityKey "product" "p1") {| se_ID := "p1"; se_Type := "product"; se_Version := 1; se_Deleted := false; se_Payload := "{}" |}
  (put (entityKey "table" "t1") {| se_ID := "t1"; se_Type := "table"; se_Version := 1; se_Deleted := true; se_Payload := "{}" |}
     newEmptyDB).

Lemma a_store_keyed : well_keyed a_store.
Proof. apply (bool_decide_unpack _). by vm_compute. Qed.

Lemma Entities_spec_witness :
  well_keyed a_store ∧ length (Entities_of plain_runtime "product" a_store) ≤ 500.
Proof.
  split; [exact a_store_keyed|].
  exact (proj1 (proj2 (proj2 (Entities_spec plain_runtime plain_runtime "product" a_store a_store_keyed)))).
Defined.

Definition a_snapshot : gmap string (list string) :=
  <["products" := [object_text [("id", quote "p7"); ("version", "2")]]]> (<["unknown" := ["[]"]]> ∅).

Lemma Bootstrap_deterministic_witness :
  ∃ st', Bootstrap_body plain_runtime a_snapshot "c1" a_store = Ok ((), st')
    ∧ Meta st' = <["cursor" := "c1"]> (Meta a_store).
Proof.
  eexists. split; [reflexivity|].
  refine (proj1 (proj2 (Bootstrap_deterministic plain_runtime plain_runtime a_snapshot "c1" a_store _ _))). reflexivity.
Defined.
