(* ===== verification/EntityView.v ===== *)
(** * What the screens read from an entity

    Models the accessors and formatters of [offline-menuvex/internal/store/store.go]: a
    field of the payload, the label, prices in Toman and Rial, status labels, reorder
    warnings, order and recipe lines, the counters of the dashboard and the backup file. *)
From S2P Require Import Prelude GoStrings GoFloat GoJson GoJsonFacts GoTime Store Entities.

(** ** Switches *)

(** [switch s { case a, b: x ... default: d }] *)
Fixpoint switch {A} (s : string) (cases : list (list string * A)) (d : A) : A :=
  match cases with
  | [] => d
  | (ks, x) :: r => if existsb (String.eqb s) ks then x else switch s r d
  end.

(** ** Fields *)

(** The members of the payload read as [map[string]json.RawMessage], unless that fails. *)
Definition raw_members (payload : string) : option (list (string * string)) :=
  match unmarshal_rawmap payload with
  | None => None
  | Some None => Some []
  | Some (Some l) => Some l
  end.

(* store.go Entity.Field *)
Definition Field (e : Entity) (key : string) : string :=
  match raw_members (e_Payload e) with
  | None => EmptyString
  | Some m =>
      match last_of key m with
      | None => EmptyString
      | Some raw =>
          if sempty raw || bool_decide (raw = "null") then EmptyString
          else match unmarshal_string raw with
               | Some s => s
               | None => TrimByte quote_char raw
               end
      end
  end.

Fixpoint first_label (e : Entity) (m : list (string * string)) (keys : list string) : option string :=
  match keys with
  | [] => None
  | key :: keys =>
      match last_of key m ≫= unmarshal_string with
      | Some value =>
          if sempty value then first_label e m keys
          else if bool_decide (key = "number") && bool_decide (e_Type e = "table") then Some ("میز شماره " +:+ value)
          else Some value
      | None => first_label e m keys
      end
  end.

(* store.go Entity.Label *)
Definition Label (e : Entity) : string :=
  match raw_members (e_Payload e) with
  | None => e_ID e
  | Some m => default (e_ID e) (first_label e m ["title"; "name"; "full_name"; "order_number"; "number"])
  end.

Fixpoint first_field (e : Entity) (keys : list string) : string :=
  match keys with
  | [] => EmptyString
  | k :: keys => if sempty (Field e k) then first_field e keys else Field e k
  end.

(* store.go Entity.PriceIRR *)
Definition PriceIRR (e : Entity) : string :=
  first_field e ["price"; "total_irr"; "total"; "remaining"; "average_cost"].

(** ** Numbers for people *)

Definition persian_digit (c : ascii) : string :=
  switch (sone c)
    [(["0"], "۰"); (["1"], "۱"); (["2"], "۲"); (["3"], "۳"); (["4"], "۴");
     (["5"], "۵"); (["6"], "۶"); (["7"], "۷"); (["8"], "۸"); (["9"], "۹")]%stdpp (sone c).

(* store.go:863-865 ToPersianDigits *)
Fixpoint ToPersianDigits (s : string) : string :=
  match s with EmptyString => EmptyString | String c t => persian_digit c +:+ ToPersianDigits t end.

(** U+066C, between the groups of three. *)
Definition thousands : string := "٬".

(** The loop over the groups: [n] of them are left. *)
Fixpoint groups (n : nat) (s : string) : string :=
  match n with
  | O => EmptyString
  | S O => s
  | S n => stake 3 s +:+ thousands +:+ groups n (sdrop 3 s)
  end.

(* store.go addThousandCommas *)
Definition addThousandCommas (intPart : string) : string :=
  let neg := HasPrefix intPart "-" in
  let intPart := if neg then sdrop 1 intPart else intPart in
  let sign := if neg then "-"%stdpp else EmptyString in
  let n := String.length intPart in
  if (n <=? 3)%nat then sign +:+ intPart
  else
    let rem := (n mod 3)%nat in
    sign +:+ (if (0 <? rem)%nat then stake rem intPart +:+ (if (rem <? n)%nat then thousands else EmptyString) else EmptyString)
         +:+ groups (n / 3) (sdrop rem intPart).

(* store.go FormatPersianNumber *)
Definition FormatPersianNumber (raw : string) : string :=
  let raw := TrimSpace raw in
  if sempty raw then "۰"
  else
    let '(int, frac) := SplitN2 "." raw in
    let intPart := addThousandCommas int in
    match frac with
    | Some f =>
        let frac := TrimRightByte "0" f in
        if negb (sempty frac) then ToPersianDigits (intPart +:+ "/" +:+ frac) else ToPersianDigits intPart
    | None => ToPersianDigits intPart
    end.

(* store.go FormatIRRToToman *)
Definition FormatIRRToToman (rawIRR : string) : string :=
  let rawIRR := TrimSpace rawIRR in
  if sempty rawIRR then "۰ تومان"
  else
    let part := (SplitN2 "." rawIRR).1 in
    match SetString10 part with
    | None => ToPersianDigits rawIRR +:+ " ریال"
    | Some bi =>
        let toman := Z.quot bi 10 in
        let rem := Z.rem bi 10 in
        let formatted := FormatPersianNumber (Z_to_dec toman) in
        if negb (rem =? 0)%Z then formatted +:+ " تومان (" +:+ FormatPersianNumber part +:+ " ریال)"
        else formatted +:+ " تومان"
    end.

Definition in_toman (e : Entity) : bool :=
  bool_decide (e_Type e = "debtor") && EqualFold (Field e "currency") "IRT".

(* store.go Entity.PriceToman *)
Definition PriceToman (e : Entity) : string :=
  let raw := PriceIRR e in
  if sempty raw then EmptyString
  else if in_toman e then FormatPersianNumber raw +:+ " تومان"
  else FormatIRRToToman raw.

(* store.go Entity.PriceRialFormatted *)
Definition PriceRialFormatted (e : Entity) : string :=
  let raw := PriceIRR e in
  if sempty raw then EmptyString
  else if in_toman e then FormatPersianNumber raw +:+ " تومان"
  else FormatPersianNumber raw +:+ " ریال".

(* store.go Entity.SplitShareToman *)
Definition SplitShareToman (e : Entity) (people : Z) : string :=
  if (people <=? 1)%Z then PriceToman e
  else
    let raw := TrimSpace (PriceIRR e) in
    if sempty raw then "۰ تومان"
    else match SetString10 (SplitN2 "." raw).1 with
         | None => "۰ تومان"
         | Some bi => FormatIRRToToman (Z_to_dec (bi / people))
         end.

(** ** Stock *)

(** [strconv.ParseFloat(e.Field(k), 64)], the value when there is no error. *)
Definition float_field (e : Entity) (k : string) : option f64 :=
  match ParseFloat (Field e k) with (x, true) => Some x | _ => None end.

Definition at_or_below (cur : f64) (limit : option f64) : bool :=
  match limit with Some l => fgt l fzero && fle cur l | None => false end.

(* store.go Entity.NeedsReorder *)
Definition NeedsReorder (e : Entity) : bool :=
  if negb (bool_decide (e_Type e = "ingredient")) then false
  else match float_field e "current_stock" with
       | None => false
       | Some cur =>
           if at_or_below cur (float_field e "reorder_point") then true
           else if at_or_below cur (float_field e "minimum_stock") then true
           else flt cur fzero
       end.

(* store.go PersianUnitName *)
Definition PersianUnitName (u : string) : string :=
  switch (ToLower (TrimSpace u))
    [(["g"], "گرم (g)"); (["kg"], "کیلوگرم (kg)"); (["mg"], "میلی‌گرم (mg)");
     (["ml"], "میلی‌لیتر (ml)"); (["cl"], "سانتی‌لیتر (cl)"); (["l"], "لیتر (l)");
     (["pcs"], "عدد (pcs)"); (["shot"], "شات اسپرسو (shot)"); (["pack"], "بسته (pack)");
     (["portion"], "پرس / وعده (portion)"); (["bottle"], "بطری (bottle)");
     (["box"], "جعبه / کارتن (box)"); (["sachet"], "ساشه (sachet)")]%stdpp u.

(* store.go Entity.UnitLabel *)
Definition UnitLabel (e : Entity) : string :=
  let u := Field e "base_unit" in
  PersianUnitName (if sempty u then Field e "unit" else u).

(** ** Statuses *)

Definition general_label (e : Entity) : string := if NeedsReorder e then "نیاز به شارژ انبار" else "فعال".
Definition general_class (e : Entity) : string := if NeedsReorder e then "status-danger" else "status-ok".

(* store.go Entity.StatusLabel *)
Definition StatusLabel (e : Entity) : string :=
  let status := ToLower (Field e "status") in
  switch (e_Type e)
    [(["product"],
        if bool_decide (Field e "is_available" = "false") || EqualFold (Field e "status") "inactive"
        then "ناموجود" else "موجود در منو");
     (["banner"], if bool_decide (Field e "is_active" = "false") then "غیرفعال" else "فعال");
     (["order"; "order_status"],
        switch status
          [(["completed"], "تکمیل شده"); (["cancelled"; "canceled"], "لغو شده");
           (["refunded"], "بازگشت وجه"); (["preparing"], "در حال آماده‌سازی");
           (["ready"], "آماده تحویل"); (["accepted"], "تأیید شده (صندوقدار)")] "در انتظار تأیید صندوقدار");
     (["table"],
        switch status
          [(["occupied"], "اشغال (دارای مهمان)"); (["reserved"], "رزرو شده");
           (["cleaning"], "در حال نظافت"); (["disabled"], "غیرفعال")] "آزاد و آماده پذیرش");
     (["debtor"],
        switch status
          [(["paid"], "تسویه شده"); (["partial"], "پرداخت بخشی از بدهی");
           (["overdue"], "سررسید گذشته")] "بدهکار (باز)")]%stdpp
    (general_label e).

(* store.go Entity.StatusClass *)
Definition StatusClass (e : Entity) : string :=
  let status := ToLower (Field e "status") in
  switch (e_Type e)
    [(["product"], if bool_decide (Field e "is_available" = "false") then "status-warn" else "status-ok");
     (["order"; "order_status"],
        switch status [(["completed"], "status-ok"); (["cancelled"; "canceled"], "status-danger")] "status-warn");
     (["table"],
        switch status [(["occupied"; "reserved"], "status-warn"); (["disabled"], "status-danger")] "status-ok")]%stdpp
    (general_class e).

(** ** Order and recipe lines *)

(* store.go OrderLineView *)
Record OrderLineView := {
  ol_ID : string;
  ol_ProductID : string;
  ol_ProductName : string;
  ol_Quantity : Z;
  ol_UnitPrice : string;
  ol_LineTotal : string;
  ol_Note : string;
}.

(** A [[]T] field of a struct: absent or null is an empty list, every element an object or
    null; one that does not decode fails the whole. *)
Definition dec_list {A} (dec : list (string * (string * json)) → option A) (ms : list (string * json)) : option (list A) :=
  foldl (λ acc m, match acc, m.2 with
                  | None, _ => None
                  | Some _, JNull => Some []
                  | Some _, JArr l =>
                      mapM (λ p : string * json, match p.2 with JObj o => dec o | JNull => dec [] | _ => None end) l
                  | Some _, _ => None
                  end) (Some []) ms.

(** [strings.Trim(raw, quote)], the second choice when the first is empty or null. *)
Definition amount_text (raw alt : string) : string :=
  let v := TrimByte quote_char raw in
  if sempty v || bool_decide (v = "null") then TrimByte quote_char alt else v.

(* store.go:795-822 Entity.OrderItems *)
Definition dec_order_line (o : list (string * (string * json))) : option OrderLineView :=
  match dec_string (struct_members "id" o), dec_string (struct_members "product_id" o),
        dec_string (struct_members "product_name_snapshot" o), dec_string (struct_members "title" o),
        dec_int (struct_members "quantity" o), dec_string (struct_members "note" o) with
  | Some id, Some pid, Some pname, Some title, Some q, Some note =>
      let name := if sempty pname then (if sempty title then pid else title) else pname in
      Some {| ol_ID := id; ol_ProductID := pid; ol_ProductName := name; ol_Quantity := q;
              ol_UnitPrice := amount_text (dec_raw (struct_members "unit_price_irr" o)) (dec_raw (struct_members "unit_price" o));
              ol_LineTotal := amount_text (dec_raw (struct_members "line_total_irr" o)) (dec_raw (struct_members "total_price" o));
              ol_Note := note |}
  | _, _, _, _, _, _ => None
  end.

(** [json.Unmarshal(e.Payload, &m)] where [m] has the one field [items]. *)
Definition dec_items {A} (dec : list (string * (string * json)) → option A) (payload : string) : list A :=
  match parse_json payload with
  | Some (JObj o) => default [] (dec_list dec (struct_members "items" o))
  | _ => []
  end.

(* store.go Entity.OrderItems *)
Definition OrderItems (e : Entity) : list OrderLineView := dec_items dec_order_line (e_Payload e).

(* domains.go RecipeLineView *)
Record RecipeLineView := {
  rl_IngredientID : string;
  rl_IngredientName : string;
  rl_Quantity : string;
  rl_Unit : string;
}.

Definition dec_recipe_line (o : list (string * (string * json))) : option RecipeLineView :=
  match dec_string (struct_members "ingredient_id" o), dec_string (struct_members "ingredient_name" o),
        dec_string (struct_members "quantity" o), dec_string (struct_members "unit" o) with
  | Some i, Some n, Some q, Some u =>
      Some {| rl_IngredientID := i; rl_IngredientName := n; rl_Quantity := q; rl_Unit := u |}
  | _, _, _, _ => None
  end.

(* domains.go Entity.RecipeLines *)
Definition RecipeLines (e : Entity) : list RecipeLineView := dec_items dec_recipe_line (e_Payload e).

(* domains.go parseBigIntSafe *)
Definition parseBigIntSafe (raw : string) : Z :=
  let raw := TrimSpace raw in
  if sempty raw then 0
  else default 0%Z (SetString10 (SplitN2 "." raw).1).

(** ** The dashboard's counters *)

(* store.go SummaryStats *)
Record SummaryStats := {
  CategoriesCount : Z; ProductsCount : Z; IngredientsCount : Z; LowStockCount : Z; OrdersCount : Z;
  OpenOrdersCount : Z; RecipesCount : Z; BannersCount : Z; TablesCount : Z; CustomersCount : Z;
  DebtorsCount : Z; LegacyStockCount_n : Z; OutboxQueuedCount : Z; OutboxBlocked : Z; OutboxApplied : Z;
}.

Definition count {A} (P : A → bool) (l : list A) : Z := Z.of_nat (length (List.filter P l)).

Definition open_status (s : string) : bool :=
  existsb (String.eqb s) [""; "pending"; "accepted"; "preparing"; "ready"]%stdpp.

(* store.go Store.Stats *)
Definition Stats (R : Runtime) (st : persistedDB) : SummaryStats :=
  let ents := List.filter (λ e, negb (se_Deleted e)) (iter R 0 (Entities st)).*2 in
  let of_type t := List.filter (λ e, bool_decide (se_Type e = t)) ents in
  {| CategoriesCount := count (λ _, true) (of_type "category");
     ProductsCount := count (λ _, true) (of_type "product");
     IngredientsCount := count (λ _, true) (of_type "ingredient");
     LowStockCount := count (λ e, NeedsReorder (view e)) (of_type "ingredient");
     OrdersCount := count (λ _, true) (of_type "order");
     OpenOrdersCount := count (λ e, open_status (ToLower (Field (view e) "status"))) (of_type "order");
     RecipesCount := count (λ _, true) (of_type "recipe");
     BannersCount := count (λ _, true) (of_type "banner");
     TablesCount := count (λ _, true) (of_type "table");
     CustomersCount := count (λ _, true) (of_type "customer");
     DebtorsCount := count (λ _, true) (of_type "debtor");
     LegacyStockCount_n := Z.of_nat (length (LegacyStockCounts st));
     OutboxQueuedCount := count (λ o, existsb (String.eqb (so_State o)) ["queued"; "retry"; "not_processed"]%stdpp) (Outbox st);
     OutboxBlocked := count (λ o, existsb (String.eqb (so_State o)) ["conflict"; "rejected"; "skipped"]%stdpp) (Outbox st);
     OutboxApplied := count (λ o, String.eqb (so_State o) "applied") (Outbox st) |}.

(** ** The backup file *)

Definition newline_indent (depth : nat) : string :=
  String newline_char (sconcat (repeat "  "%stdpp depth)).

(** [json.Indent(src, "", "  ")] on compact text: [ins] inside a string, [pend] behind an
    opening bracket whose indentation is still to come. *)
Fixpoint indent (ins pend : bool) (depth : nat) (s : string) : string :=
  match s with
  | EmptyString => EmptyString
  | String c t =>
      if ins then
        if bool_decide (c = backslash_char) then
          match t with
          | String e u => String c (String e (indent true false depth u))
          | EmptyString => sone c
          end
        else String c (indent (negb (bool_decide (c = quote_char))) false depth t)
      else
        let closing := bool_decide (c = "}"%char) || bool_decide (c = "]"%char) in
        let '(pre, depth) := if pend && negb closing then (newline_indent (S depth), S depth) else (EmptyString, depth) in
        pre +:+
        (if bool_decide (c = "{"%char) || bool_decide (c = "["%char) then String c (indent false true depth t)
         else if bool_decide (c = ","%char) then String c (newline_indent depth +:+ indent false false depth t)
         else if bool_decide (c = ":"%char) then String c (String " " (indent false false depth t))
         else if closing then
           if pend then String c (indent false false depth t)
           else newline_indent (depth - 1) +:+ String c (indent false false (depth - 1) t)
         else String c (indent (bool_decide (c = quote_char)) false depth t))
  end.

Definition hide_token (c : ConnectionConfig) : ConnectionConfig :=
  {| cc_APIURL := cc_APIURL c; cc_DeviceID := cc_DeviceID c; cc_DeviceToken := EmptyString;
     cc_DeviceName := cc_DeviceName c; cc_CafeName := cc_CafeName c;
     cc_AccountPhone := cc_AccountPhone c; cc_UpdatedAt := cc_UpdatedAt c |}.

Definition set_Connection (c : option ConnectionConfig) (st : persistedDB) : persistedDB :=
  {| Meta := Meta st; Entities := Entities st; Outbox := Outbox st;
     LegacyStockCounts := LegacyStockCounts st; NextOutboxSeq := NextOutboxSeq st;
     NextLegacyStockCountID := NextLegacyStockCountID st; Connection := c |}.

(* store.go Store.ExportBackup *)
Definition ExportBackup (st : persistedDB) : res string :=
  let export := cloneDB st in
  let export := set_Connection (hide_token <$> Connection export) export in
  let? t := encodeDB export in
  Ok (indent false false 0 t).

(** ** What is read back from a payload the program wrote *)

(** How [Field] shows a value. *)
Definition any_text (a : goany) : string :=
  match a with ANil => EmptyString | AStr s => s | _ => TrimByte quote_char (marshal a) end.

Lemma marshal_null a : wf_any a = true → marshal a = "null" → a = ANil.
Proof.
  intros Hw H. pose proof (parse_marshal a Hw) as P. rewrite H in P.
  assert (parse_json "null" = Some JNull) as N by reflexivity. rewrite N in P. by destruct a.
Qed.

Lemma good_map_get m k : good_map m → wf_any (aget k m) = true.
Proof.
  intros [_ Hw]. destruct (decide (k ∈ m.*1)) as [H|H]; [|by rewrite aget_absent].
  apply aget_elem in H. cbn [wf_any] in Hw. rewrite forallb_forall in Hw.
  apply list_elem_of_In in H. apply Hw in H. cbn in H. by bools.
Qed.

Lemma Field_marshal e m k :
  e_Payload e = marshal (AMap m) → good_map m → Field e k = any_text (aget k m).
Proof.
  intros He Hm. unfold Field, raw_members. rewrite He, rawmap_marshal by done.
  rewrite (last_of_map marshal k m) by apply Hm. destruct (ahas k m) eqn:E.
  2:{ apply ahas_false in E. by rewrite aget_absent. }
  pose proof (good_map_get m k Hm) as Hw. set (a := aget k m) in *.
  destruct (sempty (marshal a)) eqn:Em; [apply sempty_true in Em; by apply marshal_nonempty in Em|]. simpl.
  destruct (bool_decide (marshal a = "null")) eqn:En; bools; [by apply marshal_null in En as ->|].
  unfold unmarshal_string. rewrite parse_marshal by done. by destruct a.
Qed.

Lemma Field_marshal_str e m k s :
  e_Payload e = marshal (AMap m) → good_map m → aget k m = AStr s → Field e k = s.
Proof. intros He Hm Hk. by rewrite (Field_marshal e m k), Hk. Qed.

(** The result of a field is valid text when the payload is. *)

(** ** Groups of three *)

Lemma groups_spec n s : String.length s = (3 * n)%nat →
  ∃ gs, Forall (λ g, String.length g = 3%nat) gs ∧ length gs = n ∧ sconcat gs = s ∧ groups n s = Join thousands gs.
Proof.
  revert s. induction n as [|n IH]; intros s Hs.
  - destruct s; [|done]. by exists [].
  - destruct (IH (sdrop 3 s)) as (gs & Hf & Hl & Hc & Hg); [rewrite sdrop_length; lia|].
    assert (String.length (stake 3 s) = 3%nat) as H3 by (apply stake_length; lia).
    exists (stake 3 s :: gs). split; [by constructor|]. split; [simpl; by rewrite Hl|].
    split; [cbn [sconcat]; rewrite Hc; apply stake_sdrop|].
    destruct n as [|n]; simpl groups.
    + destruct gs; [|done]. cbn [sconcat Join] in *.
      rewrite <- (stake_sdrop 3 s) at 1. by rewrite <- Hc, sapp_nil_r.
    + change (stake 3 s +:+ thousands +:+ groups (S n) (sdrop 3 s) = Join thousands (stake 3 s :: gs)).
      rewrite Hg. destruct gs; [done|]. done.
Qed.

Lemma commas_groups s :
  let neg := HasPrefix s "-" in
  let ds := if neg then sdrop 1 s else s in
  ds ≠ EmptyString →
  ∃ g gs, (1 <= String.length g <= 3)%nat ∧ Forall (λ g, String.length g = 3%nat) gs ∧ sconcat (g :: gs) = ds
    ∧ addThousandCommas s = (if neg then "-"%stdpp else EmptyString) +:+ Join thousands (g :: gs).
Proof.
  intros neg ds Hne. unfold addThousandCommas. fold neg. fold ds.
  assert (1 <= String.length ds)%nat as H1 by (destruct ds; simpl in *; [done|lia]).
  destruct (String.length ds <=? 3)%nat eqn:L.
  { apply Nat.leb_le in L. exists ds, []. split; [lia|]. split; [constructor|]. simpl.
    by rewrite sapp_nil_r. }
  apply Nat.leb_gt in L. set (n := String.length ds) in *.
  pose proof (Nat.div_mod_eq n 3) as Hdm. pose proof (Nat.mod_upper_bound n 3 ltac:(lia)) as Hm.
  destruct (groups_spec (n / 3) (sdrop (n mod 3) ds)) as (gs & Hf & Hl & Hc & Hg);
    [rewrite sdrop_length; fold n; lia|].
  rewrite Hg. destruct (0 <? n mod 3)%nat eqn:R.
  - apply Nat.ltb_lt in R. rewrite (proj2 (Nat.ltb_lt _ _)) by lia.
    exists (stake (n mod 3) ds), gs. rewrite stake_length by (fold n; lia).
    split; [lia|]. split; [done|]. split; [cbn [sconcat]; rewrite Hc; apply stake_sdrop|].
    destruct gs as [|g gs]; [cbn [length] in Hl; lia|]. by rewrite sapp_assoc.
  - apply Nat.ltb_ge in R. assert (n mod 3 = 0)%nat as Z by lia. rewrite Z in *. cbn [sdrop] in *.
    destruct gs as [|g gs]; [cbn [length] in Hl; lia|]. inversion Hf; subst.
    exists g, gs. split; [lia|]. split; [done|]. split; [done|]. by rewrite sapp_nil_l.
Qed.

Lemma addThousandCommas_groups' s :
  let ds := if HasPrefix s "-" then sdrop 1 s else s in
  ds ≠ EmptyString →
  ∃ g gs, sconcat (g :: gs) = ds
    ∧ addThousandCommas s = (if HasPrefix s "-" then "-"%stdpp else EmptyString) +:+ Join thousands (g :: gs).
Proof. intros ds H. destruct (commas_groups s H) as (g & gs & _ & _ & H1 & H2). eauto. Qed.

(** thousands separators.  Behind an optional minus sign, [addThousandCommas] cuts any
    nonempty digit string into groups, all of exactly three bytes but the first, which has
    one to three, puts the separator between them and nowhere else, and loses nothing: the
    groups put together are the input. *)
Theorem addThousandCommas_groups s :
  let neg := HasPrefix s "-" in
  let ds := if neg then sdrop 1 s else s in
  ds ≠ EmptyString →
  ∃ g gs, (1 <= String.length g <= 3)%nat ∧ Forall (λ g, String.length g = 3%nat) gs ∧ sconcat (g :: gs) = ds
    ∧ addThousandCommas s = (if neg then "-"%stdpp else EmptyString) +:+ Join thousands (g :: gs).
Proof. apply commas_groups. Qed.

Lemma addThousandCommas_groups_witness : addThousandCommas "-1234567" = "-1٬234٬567".
Proof.
  destruct (addThousandCommas_groups "-1234567") as (g & gs & H1 & H2 & H3 & H4); [discriminate|]. reflexivity.
Defined.

(** ** Reading the displayed numbers back *)

Definition from_persian (r : string) : string :=
  switch r
    [(["۰"], "0"); (["۱"], "1"); (["۲"], "2"); (["۳"], "3"); (["۴"], "4");
     (["۵"], "5"); (["۶"], "6"); (["۷"], "7"); (["۸"], "8"); (["۹"], "9"); ([thousands], "")]%stdpp r.

Definition latin_digits (s : string) : string := sconcat (map from_persian (runes s)).

(** A displayed whole number, read by its reader. *)
Definition read_persian (s : string) : option Z := SetString10 (latin_digits s).

Lemma latin_digits_app s t : utf8_valid s = true → latin_digits (s +:+ t) = latin_digits s +:+ latin_digits t.
Proof. intros H. unfold latin_digits. by rewrite runes_app, map_app, sconcat_app. Qed.

Lemma ToPersianDigits_app s t : ToPersianDigits (s +:+ t) = ToPersianDigits s +:+ ToPersianDigits t.
Proof. induction s as [|c s IH]; [done|]. rewrite sapp_cons. cbn [ToPersianDigits]. by rewrite IH, sapp_assoc. Qed.

Lemma persian_dec_byte c : is_dec_byte c = true →
  utf8_valid (persian_digit c) = true ∧ latin_digits (persian_digit c) = sone c.
Proof.
  intros H. unfold is_dec_byte in H. apply orb_true_iff in H as [H|H].
  - apply is_digit_inv in H. destruct c as [[] [] [] [] [] [] [] []]; cbn in H; (done || lia).
  - bools. by subst.
Qed.

Lemma persian_dec s : sforall is_dec_byte s = true →
  utf8_valid (ToPersianDigits s) = true ∧ latin_digits (ToPersianDigits s) = s.
Proof.
  induction s as [|c s IH]; [done|]. cbn [sforall ToPersianDigits]. intros H. bools.
  destruct (persian_dec_byte c H) as [H1 H2]. destruct (IH H0) as [H3 H4].
  split; [by apply utf8_valid_app|]. by rewrite latin_digits_app, H2, H4.
Qed.

Lemma persian_join gs : Forall (λ g, sforall is_dec_byte g = true) gs →
  utf8_valid (ToPersianDigits (Join thousands gs)) = true
  ∧ latin_digits (ToPersianDigits (Join thousands gs)) = sconcat gs.
Proof.
  induction 1 as [|g gs Hg Hgs IH]; [done|]. destruct (persian_dec g Hg) as [H1 H2].
  destruct gs as [|g' gs]; [cbn [Join sconcat]; by rewrite sapp_nil_r|].
  change (Join thousands (g :: g' :: gs)) with (g +:+ thousands +:+ Join thousands (g' :: gs)).
  change (sconcat (g :: g' :: gs)) with (g +:+ sconcat (g' :: gs)).
  rewrite !ToPersianDigits_app. destruct IH as [H3 H4].
  assert (utf8_valid (ToPersianDigits thousands) = true ∧ latin_digits (ToPersianDigits thousands) = EmptyString) as [H5 H6] by done.
  split; [auto using utf8_valid_app|]. rewrite !latin_digits_app by auto using utf8_valid_app.
  by rewrite H2, H6, H4.
Qed.

Lemma sforall_sconcat P gs : sforall P (sconcat gs) = true → Forall (λ g, sforall P g = true) gs.
Proof. induction gs as [|g gs IH]; cbn [sconcat]; [constructor|]. rewrite sforall_app. intros H. bools. constructor; auto. Qed.

Lemma HasPrefix_minus s : HasPrefix s "-" = true → s = "-" +:+ sdrop 1 s.
Proof.
  destruct s as [|c s]; [done|]. unfold HasPrefix. cbn [String.prefix].
  destruct (ascii_dec "-" c) as [<-|]; [|done]. intros _. reflexivity.
Qed.

Lemma Z_to_dec_unsigned z : (if HasPrefix (Z_to_dec z) "-" then sdrop 1 (Z_to_dec z) else Z_to_dec z) ≠ EmptyString.
Proof.
  destruct (HasPrefix _ _) eqn:E; [|apply Z_to_dec_nonempty]. apply HasPrefix_minus in E. intros D. rewrite D in E.
  pose proof (SetString10_Z_to_dec z) as S. rewrite E in S. done.
Qed.

Lemma FormatPersianNumber_dec z : FormatPersianNumber (Z_to_dec z) = ToPersianDigits (addThousandCommas (Z_to_dec z)).
Proof.
  unfold FormatPersianNumber. rewrite TrimSpace_Z_to_dec, SplitN2_Z_to_dec.
  destruct (sempty (Z_to_dec z)) eqn:E; [|done]. apply sempty_true in E. by apply Z_to_dec_nonempty in E.
Qed.

Lemma latin_FormatPersianNumber z : latin_digits (FormatPersianNumber (Z_to_dec z)) = Z_to_dec z.
Proof.
  rewrite FormatPersianNumber_dec.
  destruct (addThousandCommas_groups' (Z_to_dec z) (Z_to_dec_unsigned z)) as (g & gs & Hc & ->).
  set (sign := if HasPrefix (Z_to_dec z) "-" then "-"%stdpp else EmptyString).
  assert (sign +:+ sconcat (g :: gs) = Z_to_dec z) as E.
  { rewrite Hc. subst sign. destruct (HasPrefix _ _) eqn:P; [|done]. symmetry. by apply HasPrefix_minus. }
  pose proof (Z_to_dec_bytes z) as B. rewrite <- E, sforall_app in B. bools.
  destruct (persian_dec _ H) as [H1 H2]. destruct (persian_join _ (sforall_sconcat _ _ H0)) as [H3 H4].
  by rewrite ToPersianDigits_app, latin_digits_app, H2, H4, E by done.
Qed.

Lemma read_FormatPersianNumber z : read_persian (FormatPersianNumber (Z_to_dec z)) = Some z.
Proof. unfold read_persian. rewrite latin_FormatPersianNumber. apply SetString10_Z_to_dec. Qed.

(** amounts of money on the screen.  For a whole number of Rials, [FormatIRRToToman]
    shows a number of Toman that reads back as the amount divided by ten, and next to it
    the whole amount in Rials, which reads back exactly, precisely when ten does not divide
    it: no Rial is lost from view. *)
Theorem FormatIRRToToman_reads_back z :
  ∃ toman, read_persian toman = Some (Z.quot z 10) ∧
    FormatIRRToToman (Z_to_dec z) = toman +:+
      (if (Z.rem z 10 =? 0)%Z then " تومان"
       else " تومان (" +:+ FormatPersianNumber (Z_to_dec z) +:+ " ریال)")
    ∧ read_persian (FormatPersianNumber (Z_to_dec z)) = Some z.
Proof.
  exists (FormatPersianNumber (Z_to_dec (Z.quot z 10))). split; [apply read_FormatPersianNumber|].
  split; [|apply read_FormatPersianNumber].
  unfold FormatIRRToToman. rewrite TrimSpace_Z_to_dec, SplitN2_Z_to_dec. cbn [fst].
  rewrite SetString10_Z_to_dec. destruct (sempty (Z_to_dec z)) eqn:E.
  { apply sempty_true in E. by apply Z_to_dec_nonempty in E. }
  by destruct (Z.rem z 10 =? 0)%Z.
Qed.

(** ** The counters and the backup *)

Lemma count_perm {A} (P : A → bool) l k : l ≡ₚ k → count P l = count P k.
Proof.
  unfold count. intros H. f_equal. induction H as [|x l k H IH|x y l|l k m H1 IH1 H2 IH2]; simpl; auto.
  - destruct (P x); simpl; congruence.
  - by destruct (P x), (P y).
  - congruence.
Qed.

Lemma filter_perm {A} (P : A → bool) l k : l ≡ₚ k → List.filter P l ≡ₚ List.filter P k.
Proof. induction 1; simpl; repeat case_match; eauto using Permutation. Qed.

Lemma count_le {A} (P Q : A → bool) l : (∀ x, P x = true → Q x = true) → (count P l <= count Q l)%Z.
Proof.
  unfold count. intros H. induction l as [|x l IH]; simpl; [done|].
  destruct (P x) eqn:E; [rewrite (H _ E); simpl; lia|]. destruct (Q x); simpl; lia.
Qed.

Lemma count_disjoint {A} (P Q S : A → bool) l :
  (∀ x, (Nat.b2n (P x) + Nat.b2n (Q x) + Nat.b2n (S x) <= 1)%nat) →
  (count P l + count Q l + count S l <= Z.of_nat (length l))%Z.
Proof.
  unfold count. intros H. induction l as [|x l IH]; simpl; [done|]. specialize (H x).
  destruct (P x), (Q x), (S x); simpl in *; lia.
Qed.

Lemma string_eqb s t : String.eqb s t = bool_decide (s = t).
Proof. apply eq_true_iff_eq. by rewrite String.eqb_eq, bool_decide_eq_true. Qed.

(** the dashboard's counters do not depend on the order the runtime ranges over the
    entities in, low stock is counted among the ingredients and open orders among the
    orders, and an operation counts in at most one of the three queue counters. *)
Theorem Stats_deterministic R R' st :
  Stats R st = Stats R' st
  ∧ (0 <= LowStockCount (Stats R st) <= IngredientsCount (Stats R st))%Z
  ∧ (0 <= OpenOrdersCount (Stats R st) <= OrdersCount (Stats R st))%Z
  ∧ (OutboxQueuedCount (Stats R st) + OutboxBlocked (Stats R st) + OutboxApplied (Stats R st)
     <= Z.of_nat (length (Outbox st)))%Z.
Proof.
  split; [|split; [|split]].
  - unfold Stats. assert ((iter R 0 (Entities st)).*2 ≡ₚ (iter R' 0 (Entities st)).*2) as H by (by rewrite !iter_perm).
    apply (filter_perm (λ e, negb (se_Deleted e))) in H.
    f_equal; apply count_perm; by apply filter_perm.
  - split; [unfold Stats, count; simpl; lia|]. by apply count_le.
  - split; [unfold Stats, count; simpl; lia|]. by apply count_le.
  - apply count_disjoint. intros o. cbn [existsb]. rewrite !string_eqb.
    repeat case_bool_decide; try congruence; simpl; lia.
Qed.

(** the backup never gives the device's secret away: its text is the same whatever the
    token is, so nothing about the token can be learned from it. *)
Theorem ExportBackup_hides_token st c token :
  Connection st = Some c →
  ExportBackup st = ExportBackup (set_Connection (Some
    {| cc_APIURL := cc_APIURL c; cc_DeviceID := cc_DeviceID c; cc_DeviceToken := token;
       cc_DeviceName := cc_DeviceName c; cc_CafeName := cc_CafeName c;
       cc_AccountPhone := cc_AccountPhone c; cc_UpdatedAt := cc_UpdatedAt c |}) st).
Proof. intros H. unfold ExportBackup. rewrite !cloneDB_id. unfold set_Connection. cbn. by rewrite H. Qed.

Definition a_connection : ConnectionConfig :=
  {| cc_APIURL := "https://api"; cc_DeviceID := "d"; cc_DeviceToken := "secret"; cc_DeviceName := "";
     cc_CafeName := ""; cc_AccountPhone := ""; cc_UpdatedAt := "" |}.

Lemma ExportBackup_hides_token_witness :
  ExportBackup (set_Connection (Some a_connection) newEmptyDB)
  = ExportBackup (set_Connection (Some (hide_token a_connection)) newEmptyDB)
  ∧ is_ok (ExportBackup (set_Connection (Some a_connection) newEmptyDB)) = true.
Proof.
  split; [|reflexivity].
  exact (ExportBackup_hides_token (set_Connection (Some a_connection) newEmptyDB) a_connection EmptyString eq_refl).
Defined.
