(* ===== verification/Reopen.v ===== *)
(** * Opening the store again

    Models [Open] of [offline-menuvex/internal/store/store.go]: the store's file is read and
    decoded.  What [encodeDB] writes reads back as the state it was written from, with the
    raw payloads compacted ([Open_encode]); together with the transactions this is what a
    restart finds after a crash of one transaction ([Open_recovers]) and after a power failure
    that undoes some of the last ones ([Open_power_failure]). *)
From S2P Require Import Prelude GoStrings GoFloat GoJson GoJsonFacts GoReadback GoTime Store GoCompact Entities EntityView.

(** ** Decoding *)

(** A [*int64] field: null leaves nil. *)
Definition dec_int_ptr (ms : list (string * json)) : option (option Z) :=
  foldl (λ acc m, match acc, m.2 with
                  | Some _, JNull => Some None
                  | Some _, JNum lit => match Atoi lit with (z, true) => Some (Some z) | _ => None end
                  | _, _ => None
                  end) (Some None) ms.

(** A map: members are added to the map there is, each with a value of its own; null leaves
    nil, which [Open] replaces by an empty map. *)
Definition dec_map {A} (dec : json → option A) (ms : list (string * json)) : option (gmap string A) :=
  foldl (λ acc m, match acc, m.2 with
                  | Some _, JNull => Some ∅
                  | Some m0, JObj o =>
                      foldl (λ acc p, match acc with Some m => (λ v, <[p.1 := v]> m) <$> dec p.2.2 | None => None end) (Some m0) o
                  | _, _ => None
                  end) (Some ∅) ms.

Definition dec_text_value (j : json) : option string :=
  match j with JStr _ s => Some s | JNull => Some EmptyString | _ => None end.

(* store.go storedEntity *)
Definition dec_storedEntity (o : list (string * (string * json))) : option storedEntity :=
  id ← dec_string (struct_members "id" o); kind ← dec_string (struct_members "type" o);
  version ← dec_int (struct_members "version" o); deleted ← dec_bool (struct_members "deleted" o);
  Some {| se_ID := id; se_Type := kind; se_Version := version; se_Deleted := deleted;
          se_Payload := dec_raw (struct_members "payload" o) |}.

Definition dec_entity_value (j : json) : option storedEntity :=
  match j with JObj o => dec_storedEntity o | JNull => dec_storedEntity [] | _ => None end.

(* store.go storedOperation *)
Definition dec_storedOperation (o : list (string * (string * json))) : option storedOperation :=
  let str k := dec_string (struct_members k o) in
  id ← str "operation_id"; seq ← dec_int (struct_members "client_sequence" o); kind ← str "entity_type"; eid ← str "entity_id";
  action ← str "operation"; base ← dec_int_ptr (struct_members "base_version" o); deps ← dec_strings (struct_members "depends_on" o);
  created ← str "client_created_at"; state ← str "state";
  Some {| so_ID := id; so_Sequence := seq; so_EntityType := kind; so_EntityID := eid; so_Action := action; so_BaseVersion := base;
          so_DependsOn := default [] deps; so_Payload := dec_raw (struct_members "payload" o); so_CreatedAt := created;
          so_State := state; so_Result := dec_raw (struct_members "result" o) |}.

(* store.go LegacyStockCount *)
Definition dec_legacy (o : list (string * (string * json))) : option LegacyStockCount :=
  let str k := dec_string (struct_members k o) in
  id ← dec_int (struct_members "id" o); name ← str "name"; qty ← str "quantity"; unit ← str "unit"; note ← str "note";
  created ← str "created_at";
  Some {| lc_ID := id; lc_Name := name; lc_Quantity := qty; lc_Unit := unit; lc_Note := note; lc_CreatedAt := created |}.

(* store.go ConnectionConfig *)
Definition dec_ConnectionConfig (o : list (string * (string * json))) : option ConnectionConfig :=
  let str k := dec_string (struct_members k o) in
  url ← str "api_url"; id ← str "device_id"; token ← str "device_token"; dname ← str "device_name"; cafe ← str "cafe_name";
  phone ← str "account_phone"; updated ← str "updated_at";
  Some {| cc_APIURL := url; cc_DeviceID := id; cc_DeviceToken := token; cc_DeviceName := dname; cc_CafeName := cafe;
          cc_AccountPhone := phone; cc_UpdatedAt := updated |}.

(** A pointer to a struct: null leaves nil, an object is decoded into what there is, so the
    members of consecutive objects count as those of one. *)
Definition pointer_members (ms : list (string * json)) : option (option (list (string * (string * json)))) :=
  foldl (λ acc m, match acc, m.2 with
                  | Some _, JNull => Some None
                  | Some o0, JObj o => Some (Some (default [] o0 ++ o))
                  | _, _ => None
                  end) (Some None) ms.

Definition dec_connection (ms : list (string * json)) : option (option ConnectionConfig) :=
  match pointer_members ms with
  | None => None
  | Some None => Some None
  | Some (Some o) => Some <$> dec_ConnectionConfig o
  end.

(** [json.Unmarshal(trimmed, &st)] over [newEmptyDB()], nil maps and slices made empty. *)
(* store.go persistedDB *)
Definition dec_persistedDB (o : list (string * (string * json))) : option persistedDB :=
  meta ← dec_map dec_text_value (struct_members "meta" o); ents ← dec_map dec_entity_value (struct_members "entities" o);
  outbox ← dec_list dec_storedOperation (struct_members "outbox" o); drafts ← dec_list dec_legacy (struct_members "drafts" o);
  seq ← dec_int (struct_members "next_outbox_seq" o); draft ← dec_int (struct_members "next_draft_id" o);
  conn ← dec_connection (struct_members "connection" o);
  Some {| Meta := meta; Entities := ents; Outbox := outbox; LegacyStockCounts := drafts; NextOutboxSeq := seq;
          NextLegacyStockCountID := draft; Connection := conn |}.

Definition corrupt_error : string := "corrupt local store: invalid".

(* store.go:188-208 Open *)
Definition read_state (raw : string) : res persistedDB :=
  let trimmed := TrimSpace raw in
  if HasPrefix trimmed "{" then
    match parse_json trimmed with
    | Some (JObj o) => match dec_persistedDB o with Some st => Ok st | None => Err corrupt_error end
    | _ => Err corrupt_error
    end
  else Ok newEmptyDB.

(** [mkdir], [open] and [read] are the errors of the system calls.  Opening creates an empty
    file when there is none. *)
(* store.go Open *)
Definition Open (mkdir open read : option string) (d : Disk) : res Store * Disk :=
  match mkdir with
  | Some e => (Err e, d)
  | None =>
      match open with
      | Some e => (Err e, d)
      | None =>
          let f := default {| f_text := EmptyString; f_synced := false |} (d_main d) in
          let d := {| d_main := Some f; d_tmp := d_tmp d |} in
          match read with
          | Some e => (Err e, d)
          | None => ((let? st := read_state (f_text f) in Ok {| s_closed := false; s_state := st; s_disk := d |}), d)
          end
      end
  end.

(** ** What was written *)

(** Texts that JSON can hold and machine integers: what the encoder writes without loss. *)
Record good_db (st : persistedDB) : Prop := {
  gd_meta : map_Forall (λ k v, utf8_valid k = true ∧ utf8_valid v = true) (Meta st);
  gd_entities : map_Forall (λ k e, utf8_valid k = true ∧ utf8_valid (se_ID e) = true ∧ utf8_valid (se_Type e) = true
                                   ∧ in_int64 (se_Version e)) (Entities st);
  gd_outbox : Forall (λ o, Forall (λ s, utf8_valid s = true)
                             [so_ID o; so_EntityType o; so_EntityID o; so_Action o; so_CreatedAt o; so_State o]
                           ∧ Forall (λ s, utf8_valid s = true) (so_DependsOn o)
                           ∧ in_int64 (so_Sequence o) ∧ (∀ v, so_BaseVersion o = Some v → in_int64 v)) (Outbox st);
  gd_legacy : Forall (λ d, Forall (λ s, utf8_valid s = true) [lc_Name d; lc_Quantity d; lc_Unit d; lc_Note d; lc_CreatedAt d]
                           ∧ in_int64 (lc_ID d)) (LegacyStockCounts st);
  gd_seqs : in_int64 (NextOutboxSeq st) ∧ in_int64 (NextLegacyStockCountID st);
  gd_conn : ∀ c, Connection st = Some c → Forall (λ s, utf8_valid s = true)
      [cc_APIURL c; cc_DeviceID c; cc_DeviceToken c; cc_DeviceName c; cc_CafeName c; cc_AccountPhone c; cc_UpdatedAt c];
}.

(** The raw texts as the encoder writes them. *)
Definition compact_entity (e : storedEntity) : storedEntity :=
  {| se_ID := se_ID e; se_Type := se_Type e; se_Version := se_Version e; se_Deleted := se_Deleted e;
     se_Payload := compact false (se_Payload e) |}.
Definition compact_operation (o : storedOperation) : storedOperation :=
  {| so_ID := so_ID o; so_Sequence := so_Sequence o; so_EntityType := so_EntityType o; so_EntityID := so_EntityID o;
     so_Action := so_Action o; so_BaseVersion := so_BaseVersion o; so_DependsOn := so_DependsOn o;
     so_Payload := compact false (so_Payload o); so_CreatedAt := so_CreatedAt o; so_State := so_State o;
     so_Result := compact false (so_Result o) |}.
Definition compact_db (st : persistedDB) : persistedDB :=
  {| Meta := Meta st; Entities := compact_entity <$> Entities st; Outbox := map compact_operation (Outbox st);
     LegacyStockCounts := LegacyStockCounts st; NextOutboxSeq := NextOutboxSeq st;
     NextLegacyStockCountID := NextLegacyStockCountID st; Connection := Connection st |}.

(** *** Texts with the values they read as *)

Definition str_tv (s : string) : string * json := (quote s, JStr (quote_body s) s).
Definition int_tv (z : Z) : string * json := (Z_to_dec z, JNum (Z_to_dec z)).
Definition bool_tv (b : bool) : string * json := (bool_text b, JBool b).
Definition raw_tv (p : string) : string * json := (compact false p, default JNull (parse_json (compact false p))).
Definition obj_tv (l : list (string * (string * json))) : string * json := (object_text (map (λ p, (p.1, p.2.1)) l), JObj l).
Definition arr_tv (l : list (string * json)) : string * json := (array_text (map fst l), JArr l).

Lemma raw_reads p : json_Valid p = true → reads_pair (raw_tv p).
Proof. intros H. destruct (compact_reads p H) as (j & R & _). unfold raw_tv, reads_pair. cbn. by rewrite (reads_parse _ _ R). Qed.

Lemma str_reads s : utf8_valid s = true → reads_pair (str_tv s).
Proof. apply reads_quote. Qed.
Lemma int_reads z : reads_pair (int_tv z).
Proof. apply reads_int. Qed.
Lemma bool_reads b : reads_pair (bool_tv b).
Proof. apply reads_bool. Qed.

Lemma obj_reads l : Forall (λ p, utf8_valid p.1 = true ∧ reads_pair p.2) l → reads_pair (obj_tv l).
Proof. apply reads_object_text. Qed.

Lemma arr_reads l : Forall reads_pair l → reads_pair (arr_tv l).
Proof. apply reads_array_text. Qed.

Create HintDb reads.
#[export] Hint Resolve str_reads int_reads bool_reads raw_reads : reads.

Definition entity_members (e : storedEntity) : list (string * (string * json)) :=
  [("id", str_tv (se_ID e)); ("type", str_tv (se_Type e)); ("version", int_tv (se_Version e));
   ("deleted", bool_tv (se_Deleted e)); ("payload", raw_tv (se_Payload e))].

Definition operation_members (o : storedOperation) : list (string * (string * json)) :=
  [("operation_id", str_tv (so_ID o)); ("client_sequence", int_tv (so_Sequence o)); ("entity_type", str_tv (so_EntityType o));
   ("entity_id", str_tv (so_EntityID o)); ("operation", str_tv (so_Action o))]
  ++ match so_BaseVersion o with Some v => [("base_version", int_tv v)] | None => [] end
  ++ match so_DependsOn o with [] => [] | l => [("depends_on", arr_tv (map str_tv l))] end
  ++ [("payload", raw_tv (so_Payload o)); ("client_created_at", str_tv (so_CreatedAt o)); ("state", str_tv (so_State o));
      ("result", raw_tv (so_Result o))].

Definition legacy_members (d : LegacyStockCount) : list (string * (string * json)) :=
  [("id", int_tv (lc_ID d)); ("name", str_tv (lc_Name d)); ("quantity", str_tv (lc_Quantity d)); ("unit", str_tv (lc_Unit d));
   ("note", str_tv (lc_Note d)); ("created_at", str_tv (lc_CreatedAt d))].

Definition omit_tv (k v : string) : list (string * (string * json)) := if sempty v then [] else [(k, str_tv v)].

Definition connection_members (c : ConnectionConfig) : list (string * (string * json)) :=
  [("api_url", str_tv (cc_APIURL c)); ("device_id", str_tv (cc_DeviceID c)); ("device_token", str_tv (cc_DeviceToken c))]
  ++ omit_tv "device_name" (cc_DeviceName c) ++ omit_tv "cafe_name" (cc_CafeName c)
  ++ omit_tv "account_phone" (cc_AccountPhone c) ++ omit_tv "updated_at" (cc_UpdatedAt c).

Definition db_members (st : persistedDB) : list (string * (string * json)) :=
  [("meta", obj_tv (map (λ p, (p.1, str_tv p.2)) (sorted_entries (Meta st))));
   ("entities", obj_tv (map (λ p, (p.1, obj_tv (entity_members p.2))) (sorted_entries (Entities st))));
   ("outbox", arr_tv (map (λ o, obj_tv (operation_members o)) (Outbox st)));
   ("drafts", arr_tv (map (λ d, obj_tv (legacy_members d)) (LegacyStockCounts st)));
   ("next_outbox_seq", int_tv (NextOutboxSeq st)); ("next_draft_id", int_tv (NextLegacyStockCountID st))]
  ++ match Connection st with Some c => [("connection", obj_tv (connection_members c))] | None => [] end.

(** *** The encoder writes these texts *)

Lemma mapM_res_Forall2 {A B} (f : A → res B) l : ∀ k, mapM_res f l = Ok k → Forall2 (λ x y, f x = Ok y) l k.
Proof.
  induction l as [|x l IH]; intros k; cbn [mapM_res]; [intros [= <-]; constructor|].
  destruct (f x) as [y|] eqn:E; [|done]. destruct (mapM_res f l) as [ys|]; [|done]. intros [= <-]. constructor; [done|by apply IH].
Qed.

Lemma encode_raw_ok p t : encode_raw p = Ok t → json_Valid p = true ∧ t = compact false p.
Proof. unfold encode_raw. destruct (json_Valid p); [by intros [= <-]|done]. Qed.

Lemma encode_entity_ok e t : encode_entity e = Ok t → json_Valid (se_Payload e) = true ∧ t = (obj_tv (entity_members e)).1.
Proof.
  unfold encode_entity. destruct (encode_raw (se_Payload e)) as [p|] eqn:E; [|done]. apply encode_raw_ok in E as [V ->].
  by intros [= <-].
Qed.

Lemma arr_str l : array_text (map quote l) = (arr_tv (map str_tv l)).1.
Proof. unfold arr_tv. cbn [fst]. by rewrite map_map. Qed.

Lemma encode_operation_ok o t : encode_operation o = Ok t →
  json_Valid (so_Payload o) = true ∧ json_Valid (so_Result o) = true ∧ t = (obj_tv (operation_members o)).1.
Proof.
  unfold encode_operation. destruct (encode_raw (so_Payload o)) as [p|] eqn:E1; [|done]. destruct (encode_raw (so_Result o)) as [r|] eqn:E2; [|done].
  apply encode_raw_ok in E1 as [V1 ->], E2 as [V2 ->]. intros [= <-]. split_and!; [done..|]. unfold obj_tv, operation_members.
  destruct (so_BaseVersion o), (so_DependsOn o) as [|d l]; try reflexivity;
    change (quote d :: map quote l) with (map quote (d :: l)); rewrite arr_str; reflexivity.
Qed.

Definition texts_valid (st : persistedDB) : Prop :=
  map_Forall (λ _ e, json_Valid (se_Payload e) = true) (Entities st)
  ∧ Forall (λ o, json_Valid (so_Payload o) = true ∧ json_Valid (so_Result o) = true) (Outbox st).

Lemma map_sorted_entries {A} (m : gmap string A) (P : string → A → Prop) :
  Forall (λ p, P p.1 p.2) (sorted_entries m) ↔ map_Forall P m.
Proof.
  rewrite Forall_forall. split.
  - intros H k v E. apply (H (k, v)). by apply elem_of_sorted_entries.
  - intros H [k v] E. apply elem_of_sorted_entries in E. by apply H.
Qed.

Lemma encode_connection_tv c : encode_connection c = (obj_tv (connection_members c)).1.
Proof.
  unfold encode_connection, connection_members, obj_tv, omit_tv, omitempty. cbn [fst]. rewrite !map_app.
  by destruct (sempty (cc_DeviceName c)), (sempty (cc_CafeName c)), (sempty (cc_AccountPhone c)), (sempty (cc_UpdatedAt c)).
Qed.

Lemma encodeDB_ok st t : encodeDB st = Ok t → texts_valid st ∧ t = (obj_tv (db_members st)).1.
Proof.
  unfold encodeDB. destruct (mapM_res _ (sorted_entries (Entities st))) as [ents|] eqn:E1; [|done].
  destruct (mapM_res encode_operation (Outbox st)) as [ops|] eqn:E2; [|done]. intros [= <-].
  apply mapM_res_Forall2 in E1, E2.
  assert (Forall (λ p, json_Valid (se_Payload p.2) = true) (sorted_entries (Entities st))
          ∧ ents = map (λ p, (p.1, (obj_tv (entity_members p.2)).1)) (sorted_entries (Entities st))) as [V1 ->].
  { induction E1 as [|p q l k H _ [IH1 IH2]]; [done|]. destruct (encode_entity p.2) as [x|] eqn:E; [|done]. injection H as <-.
    apply encode_entity_ok in E as [V ->]. subst k. split; [by constructor|done]. }
  assert (Forall (λ o, json_Valid (so_Payload o) = true ∧ json_Valid (so_Result o) = true) (Outbox st)
          ∧ ops = map (λ o, (obj_tv (operation_members o)).1) (Outbox st)) as [V2 ->].
  { induction E2 as [|o x l k H _ [IH1 IH2]]; [done|]. apply encode_operation_ok in H as (V & V' & ->). subst k. split; [by constructor|done]. }
  split; [split; [by apply (map_sorted_entries (Entities st) (λ _ e, json_Valid (se_Payload e) = true))|done]|].
  unfold obj_tv at 1, db_members. cbn [fst]. f_equal.
  destruct (Connection st) as [c|]; cbn [map fst snd app]; unfold obj_tv, arr_tv; cbn [fst snd]; rewrite !map_map; [|reflexivity].
  rewrite encode_connection_tv. reflexivity.
Qed.

(** *** They are read *)

Lemma Forall_map_reads {A} (f : A → string * json) l : Forall (λ x, reads_pair (f x)) l → Forall reads_pair (map f l).
Proof. intros H. by apply Forall_map. Qed.

Lemma omit_reads k v : utf8_valid k = true → utf8_valid v = true → Forall (λ p, utf8_valid p.1 = true ∧ reads_pair p.2) (omit_tv k v).
Proof. intros Hk Hv. unfold omit_tv. destruct (sempty v); constructor; [split; [done|by apply str_reads]|constructor]. Qed.

Ltac member_reads := repeat (apply Forall_app; split); repeat (constructor; [split; [done|cbn [snd]; auto with reads]|]); try by constructor.

Lemma db_reads st : good_db st → texts_valid st → reads_pair (obj_tv (db_members st)).
Proof.
  intros G [V1 V2]. apply obj_reads. unfold db_members. apply Forall_app. split.
  - repeat (constructor; [split; [done|]|]); try apply int_reads; [| | | |constructor].
    + apply obj_reads, Forall_map. apply map_sorted_entries with (P := λ k v, utf8_valid k = true ∧ reads_pair (str_tv v)).
      intros k v E. destruct (gd_meta _ G k v E). auto with reads.
    + apply obj_reads, Forall_map. apply map_sorted_entries with (P := λ k e, utf8_valid k = true ∧ reads_pair (obj_tv (entity_members e))).
      intros k e E. destruct (gd_entities _ G k e E) as (Hk & Hi & Ht & _). pose proof (V1 k e E : json_Valid (se_Payload e) = true). split; [done|]. apply obj_reads. unfold entity_members. member_reads.
    + apply arr_reads, Forall_map_reads. pose proof (gd_outbox _ G) as H. apply Forall_forall. intros o Ho.
      destruct (proj1 (Forall_forall _ _) H o Ho) as (T & D & _). destruct (proj1 (Forall_forall _ _) V2 o Ho). rewrite !Forall_cons in T. destruct_and! T. apply obj_reads. unfold operation_members.
      member_reads; [destruct (so_BaseVersion o); member_reads|]. destruct (so_DependsOn o) as [|d l]; member_reads.
      apply arr_reads, Forall_map_reads. eapply Forall_impl; [exact D|]. intros s Hs. by apply str_reads.
    + apply arr_reads, Forall_map_reads. pose proof (gd_legacy _ G) as H. eapply Forall_impl; [exact H|]. intros d [T _].
      rewrite !Forall_cons in T. destruct_and! T. apply obj_reads. unfold legacy_members. member_reads.
  - destruct (Connection st) as [c|] eqn:E; [|constructor]. constructor; [split; [done|]|constructor]. pose proof (gd_conn _ G c E) as T.
    rewrite !Forall_cons in T. destruct_and! T. apply obj_reads. unfold connection_members. member_reads; by apply omit_reads.
Qed.

(** *** And decode as they were *)

Lemma dec_str_tv s : dec_string [str_tv s] = Some s.
Proof. done. Qed.
Lemma dec_int_tv z : in_int64 z → dec_int [int_tv z] = Some z.
Proof. intros H. cbn. by rewrite Atoi_Z_to_dec. Qed.
Lemma dec_bool_tv b : dec_bool [bool_tv b] = Some b.
Proof. done. Qed.
Lemma dec_ptr_tv z : in_int64 z → dec_int_ptr [int_tv z] = Some (Some z).
Proof. intros H. cbn. by rewrite Atoi_Z_to_dec. Qed.

Lemma dec_strings_tv l : dec_strings [arr_tv (map str_tv l)] = Some (Some l).
Proof.
  unfold dec_strings, strings_step, arr_tv. cbn [foldl snd].
  assert (mapM (λ p : string * json, match p.2 with JStr _ s => Some s | JNull => Some EmptyString | _ => None end) (map str_tv l) = Some l) as ->; [|done].
  induction l as [|s l IH]; [done|]. cbn [map]. by rewrite mapM_step, IH.
Qed.

Lemma dec_entity_tv e : in_int64 (se_Version e) → dec_storedEntity (entity_members e) = Some (compact_entity e).
Proof.
  intros H. unfold dec_storedEntity.
  change (struct_members "id" (entity_members e)) with [str_tv (se_ID e)].
  change (struct_members "type" (entity_members e)) with [str_tv (se_Type e)].
  change (struct_members "version" (entity_members e)) with [int_tv (se_Version e)].
  change (struct_members "deleted" (entity_members e)) with [bool_tv (se_Deleted e)].
  change (struct_members "payload" (entity_members e)) with [raw_tv (se_Payload e)].
  rewrite dec_int_tv by done. reflexivity.
Qed.

Lemma dec_operation_tv o : in_int64 (so_Sequence o) → (∀ v, so_BaseVersion o = Some v → in_int64 v) →
  dec_storedOperation (operation_members o) = Some (compact_operation o).
Proof.
  intros Hs Hb. unfold dec_storedOperation. cbv zeta.
  assert (struct_members "client_sequence" (operation_members o) = [int_tv (so_Sequence o)]) as ->
    by (unfold operation_members; destruct (so_BaseVersion o), (so_DependsOn o); reflexivity).
  rewrite dec_int_tv by done.
  assert (dec_int_ptr (struct_members "base_version" (operation_members o)) = Some (so_BaseVersion o)) as ->.
  { unfold operation_members. destruct (so_BaseVersion o) as [v|]; [|by destruct (so_DependsOn o)].
    transitivity (dec_int_ptr [int_tv v]); [by destruct (so_DependsOn o)|apply dec_ptr_tv; by apply Hb]. }
  assert (∃ d, dec_strings (struct_members "depends_on" (operation_members o)) = Some d ∧ default [] d = so_DependsOn o) as (d & -> & Hd).
  { unfold operation_members. destruct (so_DependsOn o) as [|x l]; [exists None; by destruct (so_BaseVersion o)|].
    exists (Some (x :: l)). split; [|done]. transitivity (dec_strings [arr_tv (map str_tv (x :: l))]); [by destruct (so_BaseVersion o)|apply dec_strings_tv]. }
  unfold operation_members, compact_operation. destruct (so_BaseVersion o), (so_DependsOn o) as [|x l]; cbn [mbind option_bind] in *;
    rewrite Hd; reflexivity.
Qed.

Lemma dec_legacy_tv d : in_int64 (lc_ID d) → dec_legacy (legacy_members d) = Some d.
Proof.
  intros H. unfold dec_legacy. cbv zeta. change (struct_members "id" (legacy_members d)) with [int_tv (lc_ID d)].
  rewrite dec_int_tv by done. by destruct d.
Qed.

Lemma dec_connection_tv c : dec_connection [obj_tv (connection_members c)] = Some (Some c).
Proof.
  unfold dec_connection, pointer_members. cbn [foldl snd obj_tv default app]. unfold connection_members, omit_tv.
  destruct c as [url id token dn cafe phone up]. cbn [cc_APIURL cc_DeviceID cc_DeviceToken cc_DeviceName cc_CafeName cc_AccountPhone cc_UpdatedAt].
  destruct dn, cafe, phone, up; reflexivity.
Qed.

Lemma dec_list_tv {A B} (dec : list (string * (string * json)) → option B) (g : A → list (string * (string * json))) (f : A → B) l :
  Forall (λ x, dec (g x) = Some (f x)) l → dec_list dec [arr_tv (map (λ x, obj_tv (g x)) l)] = Some (map f l).
Proof.
  intros H. unfold dec_list, arr_tv. cbn [foldl snd]. induction H as [|x l Hx _ IH]; [done|]. cbn [map]. rewrite mapM_step. cbn [snd obj_tv].
  by rewrite Hx, IH.
Qed.

Lemma dec_map_tv {A B} (dec : json → option B) (g : A → string * json) (f : A → B) (m : gmap string A) :
  map_Forall (λ _ x, dec (g x).2 = Some (f x)) m → dec_map dec [obj_tv (map (λ p, (p.1, g p.2)) (sorted_entries m))] = Some (f <$> m).
Proof.
  intros H. unfold dec_map, obj_tv. cbn [foldl snd]. rewrite <- (foldl_sorted_entries m) at 2.
  apply (map_sorted_entries m (λ _ x, dec (g x).2 = Some (f x))) in H. rewrite <- (fmap_empty f). generalize (∅ : gmap string A).
  induction H as [|p l Hp _ IH]; intros m0; [done|]. cbn [map foldl fst snd]. rewrite Hp. cbn. by rewrite <- fmap_insert, IH.
Qed.

Lemma dec_db st : good_db st → dec_persistedDB (db_members st) = Some (compact_db st).
Proof.
  intros G. unfold dec_persistedDB.
  assert (∀ k tv, In (k, tv) (db_members st) → In k ["meta"; "entities"; "outbox"; "drafts"; "next_outbox_seq"; "next_draft_id"]%stdpp →
    struct_members k (db_members st) = [tv]) as M.
  { intros k tv H _. unfold db_members in *. destruct (Connection st); cbn in H; destruct_or! H; try done; by injection H as <- <-. }
  rewrite (M "meta" (obj_tv (map (λ p, (p.1, str_tv p.2)) (sorted_entries (Meta st))))) by (cbn; auto).
  rewrite (dec_map_tv dec_text_value str_tv id) by done. rewrite map_fmap_id.
  rewrite (M "entities" (obj_tv (map (λ p, (p.1, obj_tv (entity_members p.2))) (sorted_entries (Entities st))))) by (cbn; auto).
  rewrite (dec_map_tv dec_entity_value (λ e, obj_tv (entity_members e)) compact_entity).
  2:{ intros k e E. apply dec_entity_tv. by destruct (gd_entities _ G k e E) as (_ & _ & _ & ?). }
  rewrite (M "outbox" (arr_tv (map (λ o, obj_tv (operation_members o)) (Outbox st)))) by (cbn; auto).
  rewrite (dec_list_tv _ operation_members compact_operation).
  2:{ eapply Forall_impl; [apply (gd_outbox _ G)|]. intros o (_ & _ & ? & ?). by apply dec_operation_tv. }
  rewrite (M "drafts" (arr_tv (map (λ d, obj_tv (legacy_members d)) (LegacyStockCounts st)))) by (cbn; auto).
  rewrite (dec_list_tv _ legacy_members id), map_id.
  2:{ eapply Forall_impl; [apply (gd_legacy _ G)|]. intros d (_ & ?). by apply dec_legacy_tv. }
  destruct (gd_seqs _ G) as [S1 S2].
  rewrite (M "next_outbox_seq" (int_tv (NextOutboxSeq st))), dec_int_tv by (done || (cbn; auto 10)).
  rewrite (M "next_draft_id" (int_tv (NextLegacyStockCountID st))), dec_int_tv by (done || (cbn; auto 10)). clear M.
  assert (dec_connection (struct_members "connection" (db_members st)) = Some (Connection st)) as ->; [|done].
  unfold db_members. destruct (Connection st) as [c|]; [|reflexivity]. exact (dec_connection_tv c).
Qed.

(** ** White space around the text *)

Lemma ascii_no_cont c : is_ascii c = true → is_cont c = false ∧ ∀ b, second_range b c = false.
Proof.
  unfold is_ascii, is_cont, second_range, in_range. intros H. apply N.ltb_lt in H.
  assert (∀ lo hi, (128 <= lo)%N → ((lo <=? byte_of c) && (byte_of c <=? hi))%N = false) as R.
  { intros lo hi Hl. apply andb_false_iff. left. apply N.leb_gt. lia. }
  split; [by apply R|]. intros b. repeat case_match; apply R; lia.
Qed.

(** An ASCII byte ends whatever encoding was begun before it. *)
Lemma rune_len_break s c t : is_ascii c = true → s ≠ EmptyString → rune_len (s +:+ String c t) = rune_len s.
Proof.
  intros Hc Hs. destruct (ascii_no_cont c Hc) as [Hk Hr]. destruct s as [|c0 s]; [done|]. rewrite sapp_cons. unfold rune_len.
  destruct (byte_of c0 <? 128)%N; [done|].
  destruct (_ && _); [destruct s as [|c1 s]; [by rewrite sapp_nil_l, Hk|done]|].
  destruct (_ && _).
  { destruct s as [|c1 [|c2 s]]; rewrite ?sapp_cons, ?sapp_nil_l; [by destruct t; rewrite ?Hr|by rewrite Hk, andb_false_r|done]. }
  destruct (_ && _); [|done].
  destruct s as [|c1 [|c2 [|c3 s]]]; rewrite ?sapp_cons, ?sapp_nil_l.
  - destruct t as [|? [|? ?]]; rewrite ?Hr; done.
  - destruct t; rewrite ?Hk, ?andb_false_r; done.
  - by rewrite Hk, andb_false_r.
  - done.
Qed.

Lemma runes_break s c t : is_ascii c = true → runes (s +:+ String c t) = runes s ++ runes (String c t).
Proof.
  intros Hc. induction s as [|x s IH] using rune_ind; [done|]. rewrite sapp_cons, (runes_cons x (s +:+ String c t)), (runes_cons x s).
  assert (rune_step (String x (s +:+ String c t)) = rune_step (String x s)) as ->.
  { unfold rune_step. by rewrite <- sapp_cons, rune_len_break. }
  pose proof (rune_step_bounds x s) as B. rewrite <- sapp_cons, stake_app_le, sdrop_app_le by lia. by rewrite IH.
Qed.

Lemma TrimSpace_braced s : TrimSpace ("{" +:+ s +:+ "}") = "{" +:+ s +:+ "}".
Proof.
  apply TrimSpace_id; rewrite <- sapp_assoc, runes_break by done; intros r.
  - change ("{" +:+ s) with (String "{" s). rewrite runes_ascii_cons by done. by intros [= <-].
  - rewrite last_app. by intros [= <-].
Qed.

Lemma HasPrefix_brace s : HasPrefix ("{" +:+ s) "{" = true.
Proof. by destruct s. Qed.

Lemma read_state_object t o : parse_json (object_text t) = Some (JObj o) →
  read_state (object_text t) = match dec_persistedDB o with Some st => Ok st | None => Err corrupt_error end.
Proof. intros H. unfold read_state, object_text in *. rewrite TrimSpace_braced. rewrite HasPrefix_brace. by rewrite H. Qed.

(** *** Compacted texts are written again *)

Lemma encode_raw_compact p : json_Valid p = true → encode_raw (compact false p) = encode_raw p.
Proof. intros H. unfold encode_raw. by rewrite H, compact_valid, compact_idem. Qed.

Lemma sorted_entries_fmap {A B} (f : A → B) (m : gmap string A) :
  sorted_entries (f <$> m) = map (λ p, (p.1, f p.2)) (sorted_entries m).
Proof.
  unfold sorted_entries, sorted_keys. assert ((map_to_list (f <$> m)).*1 = (map_to_list m).*1) as ->.
  { rewrite map_to_list_fmap. induction (map_to_list m) as [|[k v] l IH]; [done|]. by rewrite !fmap_cons, IH. }
  induction (sort_strings (map_to_list m).*1) as [|k l IH]; [done|]. cbn [omap list_omap]. rewrite lookup_fmap.
  destruct (m !! k) as [v|]; cbn [fmap option_fmap option_map map fst snd]; [|done]. f_equal. exact IH.
Qed.

Lemma mapM_res_map {A B C} (f : B → res C) (h : A → res C) (g : A → B) l :
  Forall (λ x, f (g x) = h x) l → mapM_res f (map g l) = mapM_res h l.
Proof. induction 1 as [|x l Hx _ IH]; [done|]. cbn [map mapM_res]. by rewrite Hx, IH. Qed.

Lemma encode_compact_db st t : encodeDB st = Ok t → encodeDB (compact_db st) = Ok t.
Proof.
  intros H. destruct (encodeDB_ok st t H) as [[V1 V2] _]. rewrite <- H. unfold encodeDB. cbn [compact_db Entities Outbox Meta LegacyStockCounts NextOutboxSeq NextLegacyStockCountID Connection].
  rewrite sorted_entries_fmap, (mapM_res_map _ (λ p, let? t := encode_entity p.2 in Ok (p.1, t))).
  - rewrite (mapM_res_map _ encode_operation); [done|]. eapply Forall_impl; [exact V2|]. intros o [P Q].
    unfold encode_operation. cbn [compact_operation so_Payload so_Result]. by rewrite !encode_raw_compact.
  - apply (map_sorted_entries (Entities st) (λ k e, (let? t := encode_entity (compact_entity e) in Ok (k, t)) = (let? t := encode_entity e in Ok (k, t)))).
    intros k e E. unfold encode_entity. cbn [compact_entity se_Payload]. by rewrite encode_raw_compact by (exact (V1 k e E)).
Qed.

Lemma Open_compact st t : good_db st → encodeDB st = Ok t → read_state t = Ok (compact_db st).
Proof.
  intros G H. destruct (encodeDB_ok st t H) as [V ->]. pose proof (db_reads st G V) as R. apply reads_parse in R.
  unfold obj_tv in *. cbn [fst snd] in *. by rewrite (read_state_object _ _ R), dec_db.
Qed.

(** C19: what a transaction writes is what [Open] reads: the file written from a state whose
    texts are valid UTF-8 decodes to that state, with white space and escapes of the raw
    payloads normalised; and the state read writes the same file again. *)
Theorem Open_encode st t : good_db st → encodeDB st = Ok t → read_state t = Ok (compact_db st) ∧ encodeDB (compact_db st) = Ok t.
Proof. intros G H. split; [by apply Open_compact|by apply encode_compact_db]. Qed.

(** ** Restarting *)

(** The file holds, for good, a state that can be written. *)
Record durable (s : Store) : Prop := {
  du_good : good_db (s_state s);
  du_valid : texts_valid (s_state s);
  du_disk : ∃ t, on_disk (s_disk s) t ∧ read_state t = Ok (compact_db (s_state s));
}.

Lemma encoded_durable s t : good_db (s_state s) → encodeDB (s_state s) = Ok t → on_disk (s_disk s) t → durable s.
Proof. intros G H D. destruct (encodeDB_ok _ _ H) as [V _]. split; [done..|]. exists t. split; [done|]. by apply Open_compact. Qed.

Lemma compact_good st : good_db st → good_db (compact_db st).
Proof.
  intros [G1 G2 G3 G4 G5 G6]. split; cbn [compact_db Meta Entities Outbox LegacyStockCounts NextOutboxSeq NextLegacyStockCountID Connection]; try done.
  - intros k e. rewrite lookup_fmap, fmap_Some. intros (e' & E & ->). exact (G2 k e' E).
  - apply Forall_map. exact G3.
Qed.

Lemma compact_texts st : texts_valid st → texts_valid (compact_db st).
Proof.
  intros [V1 V2]. split; cbn [compact_db Entities Outbox].
  - intros k e. rewrite lookup_fmap, fmap_Some. intros (e' & E & ->). apply compact_valid, (V1 k e' E).
  - apply Forall_map. eapply Forall_impl; [exact V2|]. intros o [? ?]. split; by apply compact_valid.
Qed.

Lemma compact_db_idem st : texts_valid st → compact_db (compact_db st) = compact_db st.
Proof.
  intros [V1 V2]. unfold compact_db. cbn [Meta Entities Outbox LegacyStockCounts NextOutboxSeq NextLegacyStockCountID Connection]. f_equal.
  - apply map_eq. intros k. rewrite !lookup_fmap. destruct (Entities st !! k) as [e|] eqn:E; [|done]. cbn. f_equal.
    unfold compact_entity. cbn [se_ID se_Type se_Version se_Deleted se_Payload]. by rewrite compact_idem by (exact (V1 k e E)).
  - induction V2 as [|o l [P Q] _ IH]; [done|]. cbn [map]. f_equal; [|exact IH]. unfold compact_operation. cbn. by rewrite !compact_idem.
Qed.

Lemma opened_durable t d st : good_db st → texts_valid st → read_state t = Ok (compact_db st) →
  ∃ s, (Open None None None {| d_main := Some {| f_text := t; f_synced := true |}; d_tmp := d |}).1 = Ok s
       ∧ s_state s = compact_db st ∧ durable s.
Proof.
  intros G V H. unfold Open. cbn [d_main from_option id f_text fst]. unfold id. rewrite H. eexists. split; [done|]. split; [done|].
  split; [by apply compact_good|by apply compact_texts|]. exists t. split; [done|]. cbn [s_state]. by rewrite compact_db_idem.
Qed.

Lemma json_Valid_marshal m : good_map m → json_Valid (marshal (AMap m)) = true.
Proof. intros H. unfold json_Valid. by rewrite parse_marshal_map. Qed.

Lemma mapM_res_total {A B} (f : A → res B) l : Forall (λ x, is_ok (f x) = true) l → is_ok (mapM_res f l) = true.
Proof. induction 1 as [|x l Hx _ IH]; [done|]. cbn [mapM_res]. destruct (f x); [|done]. by destruct (mapM_res f l). Qed.

(** A state of readable payloads can be written. *)
Lemma encodeDB_total st : texts_valid st → is_ok (encodeDB st) = true.
Proof.
  intros [HE HO]. unfold encodeDB.
  assert (is_ok (mapM_res (λ p, let? t := encode_entity p.2 in Ok (p.1, t)) (sorted_entries (Entities st))) = true) as H1.
  { apply mapM_res_total. apply (map_sorted_entries (Entities st) (λ _ e, json_Valid (se_Payload e) = true)) in HE.
    eapply Forall_impl; [exact HE|]. intros [k e] Hv. cbn in *. unfold encode_entity, encode_raw. by rewrite Hv. }
  assert (is_ok (mapM_res encode_operation (Outbox st)) = true) as H2.
  { apply mapM_res_total. eapply Forall_impl; [exact HO|]. intros o [Hp Hr]. unfold encode_operation, encode_raw. by rewrite Hp, Hr. }
  destruct (mapM_res _ (sorted_entries _)); [|done]. by destruct (mapM_res encode_operation _).
Qed.

Lemma texts_valid_put key e st : texts_valid st → json_Valid (se_Payload e) = true → texts_valid (put key e st).
Proof. intros [H1 H2] He. split; [by apply map_Forall_insert_2|done]. Qed.

(** A transaction whose renaming works keeps memory and file together. *)
Lemma withTx_durable {A} io ctx s (fn : persistedDB → res (A * persistedDB)) :
  io_rename io = None → durable s → (∀ a st, fn (s_state s) = Ok (a, st) → good_db st) → durable (tx_store (withTx io ctx s fn)).
Proof.
  intros Hr [G0 V0 (old & Hd & Hold)] G. destruct (withTx_crash_atomic io ctx s fn old Hr Hd) as [_ Hend].
  pose proof (withTx_state io ctx s fn) as W. destruct (tx_res _) as [a|e].
  - destruct Hend as (t & Ht & Hd'). apply (encoded_durable _ t); [by eapply G|done|done].
  - split; [by rewrite W..|]. exists old. by rewrite W.
Qed.

(** What [Open] makes of a file, whatever is in the temporary one. *)
Definition opens_to (f : option file) (P : persistedDB → Prop) : Prop :=
  ∃ g, f = Some g ∧ ∀ t tmp, survives g t →
    ∃ st s', (Open None None None {| d_main := Some {| f_text := t; f_synced := true |}; d_tmp := tmp |}).1 = Ok s'
      ∧ s_state s' = compact_db st ∧ durable s' ∧ P st.

Lemma opens_to_weaken f (P Q : persistedDB → Prop) : (∀ st, P st → Q st) → opens_to f P → opens_to f Q.
Proof. intros H (g & Hf & Hg). exists g. split; [done|]. intros t tmp Ht. destruct (Hg t tmp Ht) as (st & s' & ? & ? & ? & ?). eauto 8. Qed.

Lemma durable_opens s : durable s → opens_to (d_main (s_disk s)) (λ st, st = s_state s).
Proof.
  intros [G0 V0 (old & Hd & Hold)]. eexists. split; [exact Hd|]. intros t tmp Ht. inversion Ht; subst; cbn in *; [|done].
  destruct (opened_durable old tmp _ G0 V0 Hold) as (s' & ? & ? & ?). eauto 8.
Qed.

(** A crash during a transaction. *)
Lemma withTx_crash_opens {A} io ctx s (fn : persistedDB → res (A * persistedDB)) d' :
  io_rename io = None → durable s → (∀ a st, fn (s_state s) = Ok (a, st) → good_db st) →
  crash_point (tx_calls (withTx io ctx s fn)) (s_disk s) d' →
  opens_to (d_main d')
    (λ st, st = s_state s ∨ (∃ a, fn (s_state s) = Ok (a, st)) ∧ st = s_state (tx_store (withTx io ctx s fn))).
Proof.
  intros Hr D G Hc. pose proof (withTx_state io ctx s fn) as W. pose proof (durable_opens s D) as Dold.
  destruct (withTx_calls io ctx s fn) as [(e & _ & Hcalls & _)|(a & tx & t & r & Hf & He & Hcalls & _ & Hok)].
  { rewrite Hcalls in Hc. inversion Hc; subst. eapply opens_to_weaken; [|exact Dold]. auto. }
  assert (d_main d' = d_main (s_disk s) ∨ on_disk d' t ∧ is_ok r = true) as [->|[E Er]].
  { destruct (commit_calls_shape io t r _ Hr Hcalls) as [(e & -> & Hq)|[-> Hc']]; [left; by eapply quiet_crash|].
    rewrite Hc' in Hc. apply rename_crash in Hc as [?|?]; auto. }
  - eapply opens_to_weaken; [|exact Dold]. auto.
  - eexists. split; [exact E|]. intros u tmp Hu. inversion Hu; subst; cbn in *; [|done].
    destruct (encodeDB_ok _ _ He) as [V' _].
    destruct (opened_durable t tmp tx (G _ _ Hf) V') as (s' & ? & ? & ?); [apply Open_compact; by eauto|].
    exists tx, s'. do 3 (split; [done|]). right. split; [by exists a|]. rewrite Er in Hok.
    destruct (tx_res _); [|done]. rewrite Hf in W. by injection W.
Qed.

(** C1: a restart finds what the transactions left.  As long as renaming works, a store whose
    file holds its state still does after any transaction; and when the power fails at any
    point of the transaction, in or between its system calls, [Open] succeeds on whatever is
    left of the file and finds the state from before the transaction or, complete, the one
    its body made. *)
Theorem Open_recovers {A} io ctx s (fn : persistedDB → res (A * persistedDB)) :
  io_rename io = None → durable s → (∀ a st, fn (s_state s) = Ok (a, st) → good_db st) →
  durable (tx_store (withTx io ctx s fn)) ∧
  (∀ d', crash_point (tx_calls (withTx io ctx s fn)) (s_disk s) d' → ∃ f, d_main d' = Some f ∧
     ∀ t, survives f t →
       ∃ st s', (Open None None None {| d_main := Some {| f_text := t; f_synced := true |}; d_tmp := d_tmp d' |}).1 = Ok s'
         ∧ s_state s' = compact_db st ∧ durable s'
         ∧ (st = s_state s ∨ ∃ a, fn (s_state s) = Ok (a, st))).
Proof.
  intros Hr D G. split; [by apply withTx_durable|]. intros d' Hc.
  destruct (withTx_crash_opens io ctx s fn d' Hr D G Hc) as (f & Hf & Hv). exists f. split; [done|]. intros t Ht.
  destruct (Hv t (d_tmp d') Ht) as (st & s' & ? & ? & ? & Hst). exists st, s'. do 3 (split; [done|]). destruct Hst as [?|[? _]]; auto.
Qed.

(** *** Many transactions and a power failure *)

(** A run of transactions, each with the outcomes of its system calls. *)
Abbreviation transactions := (list (IO * (persistedDB → res (unit * persistedDB)))).

(** The store after the run, and the calls that were made. *)
Fixpoint run_txs (l : transactions) (s : Store) : Store * list fsop :=
  match l with
  | [] => (s, [])
  | (io, fn) :: l => let o := withTx io None s fn in let r := run_txs l (tx_store o) in (r.1, tx_calls o ++ r.2)
  end.

(** The states the run went through. *)
Fixpoint run_states (l : transactions) (s : Store) : list persistedDB :=
  s_state s :: match l with [] => [] | (io, fn) :: l => run_states l (tx_store (withTx io None s fn)) end.

Lemma withTx_disk {A} io ctx s (fn : persistedDB → res (A * persistedDB)) :
  s_disk (tx_store (withTx io ctx s fn)) = run_ops (tx_calls (withTx io ctx s fn)) (s_disk s).
Proof.
  destruct (withTx_calls io ctx s fn) as [(e & _ & -> & ->)|(a & tx & t & r & _ & _ & _ & -> & _)]; done.
Qed.

Lemma run_states_head l s : s_state s ∈ run_states l s.
Proof. destruct l as [|[io fn] l]; left. Qed.

(** C40: a power failure after any number of transactions.  The directory is never synced, so
    the power may undo the renamings of transactions that have returned.  As long as renaming
    works, the first state is durable and the bodies keep texts valid UTF-8 and numbers in
    range, what [Open] finds afterwards, wherever the power fails, is nevertheless a complete
    state of the run: the one it began with or the one some number of its transactions left
    (with its raw payloads compacted), so that none is torn, and one that is lost is lost with
    all those after it. *)
Theorem Open_power_failure l s f :
  durable s → Forall (λ t, io_rename t.1 = None ∧ ∀ st a st', good_db st → t.2 st = Ok (a, st') → good_db st') l →
  power_point (run_txs l s).2 (s_disk s) f →
  opens_to f (λ st, st ∈ run_states l s).
Proof.
  intros D Hl Hp. apply power_crash in Hp as (d' & Hc & <-). revert s D Hc.
  induction Hl as [|[io fn] l [Hr G] _ IH]; intros s D Hc; cbn [run_txs fst snd] in Hc.
  - inversion Hc; subst. eapply opens_to_weaken; [|by apply durable_opens]. intros st ->. left.
  - assert (∀ a st, fn (s_state s) = Ok (a, st) → good_db st) as G' by (intros a st; apply (G (s_state s)), D).
    apply crash_app in Hc as [Hc|Hc].
    + eapply opens_to_weaken; [|by eapply (withTx_crash_opens io None s fn)]. intros st [->|[_ ->]]; [left|]. right. apply run_states_head.
    + rewrite <- withTx_disk in Hc. eapply opens_to_weaken; [|apply (IH _ (withTx_durable io None s fn Hr D G') Hc)].
      intros st H. by right.
Qed.

(** C39: the fallback of a failed rename can lose everything without an error: a crash in the
    middle of it can leave an empty file, and [Open] takes an empty file for a new store. *)
Theorem Open_forgets {A} s (fn : persistedDB → res (A * persistedDB)) a st t e :
  s_closed s = false → fn (s_state s) = Ok (a, st) → encodeDB st = Ok t →
  let io := {| io_open := None; io_write := None; io_sync := None; io_close := None; io_rename := Some e; io_fallback := None |} in
  ∃ d' f, crash_point (tx_calls (withTx io None s fn)) (s_disk s) d' ∧ d_main d' = Some f ∧ survives f EmptyString
    ∧ ∃ s', (Open None None None {| d_main := Some {| f_text := EmptyString; f_synced := true |}; d_tmp := d_tmp d' |}).1 = Ok s'
            ∧ s_state s' = newEmptyDB.
Proof.
  intros Hc Hf He io. destruct (proj1 (withTx_fallback_tears s fn a st t e None 0 Hc Hf He) eq_refl) as (d' & H1 & H2).
  exists d', {| f_text := EmptyString; f_synced := false |}. split; [exact H1|]. split; [exact H2|].
  split; [exact (survives_prefix {| f_text := EmptyString; f_synced := false |} 0 eq_refl)|]. eexists. split; reflexivity.
Qed.

(** ** Witnesses *)

Lemma good_db_empty : good_db newEmptyDB.
Proof. split; cbn; try apply map_Forall_empty; try constructor; try done; unfold in_int64, two63; lia. Qed.

Lemma fresh_durable : durable fresh_store.
Proof. split; [apply good_db_empty|split; [apply map_Forall_empty|constructor]|]. exists EmptyString. done. Qed.

Lemma good_cursor c st : utf8_valid c = true → good_db st → good_db (set_Meta (<["cursor" := c]>) st).
Proof. intros H [G1 G2 G3 G4 G5 G6]. split; try done. cbn. by apply map_Forall_insert_2. Qed.

Lemma Open_encode_witness :
  ∃ t, encodeDB (set_Meta (<["cursor" := "7"]>) newEmptyDB) = Ok t
       ∧ read_state t = Ok (compact_db (set_Meta (<["cursor" := "7"]>) newEmptyDB)).
Proof.
  destruct (encodeDB (set_Meta (<["cursor" := "7"]>) newEmptyDB)) as [t|] eqn:E; [|discriminate E]. exists t. split; [done|].
  exact (proj1 (Open_encode _ t (good_cursor "7" newEmptyDB eq_refl good_db_empty) E)).
Defined.

Lemma Open_recovers_witness : durable (tx_store (withTx io_ok None fresh_store (set_cursor "7"))).
Proof.
  refine (proj1 (Open_recovers io_ok None fresh_store (set_cursor "7") eq_refl fresh_durable _)).
  intros a st H. injection H as _ <-. apply good_cursor; [done|apply good_db_empty].
Defined.

(** The cursor is written twice, the power fails, and the first writing has been kept alone. *)
Definition two_writings : transactions := [(io_ok, set_cursor "7"); (io_ok, set_cursor "8")].

Lemma Open_power_failure_witness :
  ∃ f, power_point (run_txs two_writings fresh_store).2 (s_disk fresh_store) f
    ∧ opens_to f (λ st, st ∈ run_states two_writings fresh_store)
    ∧ length (run_states two_writings fresh_store) = 3.
Proof.
  exists (d_main (run_ops (take 4 (run_txs two_writings fresh_store).2) (s_disk fresh_store))). split; [|split; [|reflexivity]].
  - vm_compute. do 7 apply power_later. apply power_undone.
  - apply (Open_power_failure two_writings fresh_store).
    + exact fresh_durable.
    + unfold two_writings. rewrite !Forall_cons. split_and!; [done| |done| |constructor]; intros st a st' G [= _ <-]; by apply good_cursor.
    + vm_compute. do 7 apply power_later. apply power_undone.
Defined.

Lemma Open_forgets_witness : ∃ d' f, d_main d' = Some f ∧ survives f EmptyString.
Proof.
  destruct (encodeDB (set_Meta (<["cursor" := "7"]>) newEmptyDB)) as [t|] eqn:E; [|discriminate E].
  destruct (Open_forgets fresh_store (set_cursor "7") () _ t "in use" eq_refl eq_refl E) as (d' & f & _ & H1 & H2 & _). by exists d', f.
Defined.

(** What is read from files by hand. *)
Example read_state_white : read_state "   " = Ok newEmptyDB.
Proof. reflexivity. Qed.
Example read_state_torn : read_state ("{" +:+ quote "meta") = Err corrupt_error.
Proof. vm_compute. reflexivity. Qed.
Example read_state_case :
  match read_state (" {" +:+ quote "ENTITIES" +:+ ": {" +:+ quote "a" +:+ ":{" +:+ quote "id" +:+ ":" +:+ quote "x" +:+ "}}}") with
  | Ok st => se_ID <$> Entities st !! "a"
  | Err _ => None
  end = Some "x"%stdpp.
Proof. vm_compute. reflexivity. Qed.
