(* ===== verification/GoIndent.v ===== *)
(** * Indented JSON

    What [json.MarshalIndent] does to texts inside strings, which it leaves alone, and how the
    parser steps over the white space it adds between members. *)
From S2P Require Import Prelude GoStrings GoFloat GoJson GoJsonFacts GoReadback GoTime Store Entities EntityView.

(** ** Inside strings nothing changes *)

Lemma hex4_plain a b c d n : hex4 a b c d = Some n → Forall (λ x, x ≠ quote_char ∧ x ≠ backslash_char) [a; b; c; d].
Proof.
  unfold hex4, hex_digit. intros H.
  assert (∀ x z, hex_val x = Some z → x ≠ quote_char ∧ x ≠ backslash_char) as P by (intros x z Hx; split; intros ->; discriminate Hx).
  destruct (hex_val a) eqn:Ea; [|done]. destruct (hex_val b) eqn:Eb; [|done]. destruct (hex_val c) eqn:Ec; [|done].
  destruct (hex_val d) eqn:Ed; [|done].
  rewrite !Forall_cons. split; [by eapply P|]. split; [by eapply P|]. split; [by eapply P|]. split; [by eapply P|constructor].
Qed.

Lemma indent_plain c d t : c ≠ quote_char → c ≠ backslash_char → indent true false d (String c t) = String c (indent true false d t).
Proof. intros H1 H2. cbn [indent]. rewrite (bool_decide_eq_false_2 (c = backslash_char)), (bool_decide_eq_false_2 (c = quote_char)) by done. done. Qed.

Lemma indent_string n : ∀ u b r d, (String.length u ≤ n)%nat → scan_string u = Some (b, r) →
  indent true false d u = b +:+ String quote_char (indent false false d r).
Proof.
  induction n as [|n IH]; intros u b r d Hn H; [destruct u; [done|cbn in Hn; lia]|]. destruct u as [|c t]; [done|]. cbn [scan_string] in H.
  cbn [String.length] in Hn. destruct (bool_decide (c = quote_char)) eqn:Q.
  { apply bool_decide_eq_true in Q as ->. injection H as <- <-. reflexivity. }
  destruct (bool_decide (c = backslash_char)) eqn:B.
  - apply bool_decide_eq_true in B as ->. destruct t as [|e t1]; [done|]. cbn [String.length] in Hn.
    destruct (bool_decide (e = "u"%char)) eqn:U.
    + destruct t1 as [|h1 [|h2 [|h3 [|h4 t2]]]]; try done. destruct (hex4 h1 h2 h3 h4) as [x|] eqn:X; [|done].
      destruct (scan_string t2) as [[b' r']|] eqn:S; [|done]. injection H as <- <-. cbn [String.length] in Hn.
      apply hex4_plain in X. rewrite !Forall_cons in X. destruct X as ([? ?] & [? ?] & [? ?] & [? ?] & _).
      change (indent true false d (String backslash_char (String e (String h1 (String h2 (String h3 (String h4 t2)))))))
        with (String backslash_char (String e (indent true false d (String h1 (String h2 (String h3 (String h4 t2))))))).
      rewrite !indent_plain by done. rewrite (IH t2 b' r') by (done || lia). by rewrite !sapp_cons.
    + destruct (simple_escape e); [|done]. destruct (scan_string t1) as [[b' r']|] eqn:S; [|done]. injection H as <- <-.
      change (indent true false d (String backslash_char (String e t1))) with (String backslash_char (String e (indent true false d t1))).
      rewrite (IH t1 b' r') by (done || lia). by rewrite !sapp_cons.
  - destruct (byte_of c <? 32)%N; [done|]. destruct (scan_string t) as [[b' r']|] eqn:S; [|done]. injection H as <- <-.
    apply bool_decide_eq_false in Q, B. rewrite indent_plain by done. rewrite (IH t b' r') by (done || lia). by rewrite sapp_cons.
Qed.

Lemma quote_app s t : quote s +:+ t = String quote_char (quote_body s +:+ String quote_char t).
Proof. unfold quote. by rewrite sapp_cons, sapp_assoc. Qed.

Lemma indent_quote d s t : indent false false d (quote s +:+ t) = quote s +:+ indent false false d t.
Proof.
  rewrite !quote_app. change (indent false false d (String quote_char (quote_body s +:+ String quote_char t)))
    with (String quote_char (indent true false d (quote_body s +:+ String quote_char t))).
  by rewrite (indent_string (String.length (quote_body s +:+ String quote_char t)) _ (quote_body s) t) by (done || apply scan_quote_body).
Qed.

Lemma indent_open_quote d s t : indent false true d (quote s +:+ t) = newline_indent (S d) +:+ quote s +:+ indent false false (S d) t.
Proof.
  rewrite !quote_app. change (indent false true d (String quote_char (quote_body s +:+ String quote_char t)))
    with (newline_indent (S d) +:+ String quote_char (indent true false (S d) (quote_body s +:+ String quote_char t))).
  by rewrite (indent_string (String.length (quote_body s +:+ String quote_char t)) _ (quote_body s) t) by (done || apply scan_quote_body).
Qed.

(** ** Members with white space *)

Lemma skip_ws_indent d t : skip_ws (newline_indent d +:+ t) = skip_ws t.
Proof.
  unfold newline_indent. rewrite sapp_cons. change (skip_ws (String newline_char (sconcat (repeat "  " d) +:+ t))) with (skip_ws (sconcat (repeat "  " d) +:+ t)).
  induction d as [|d IH]; [done|]. exact IH.
Qed.

Lemma skip_ws_quote s t : skip_ws (quote s +:+ t) = quote s +:+ t.
Proof. by rewrite quote_app. Qed.

Lemma parse_quote fuel s t : utf8_valid s = true → parse_value (S fuel) (quote s +:+ t) = Some (JStr (quote_body s) s, t).
Proof.
  intros Hs. rewrite quote_app. cbn [parse_value]. change (bool_decide (quote_char = "{"%char)) with false.
  change (bool_decide (quote_char = "["%char)) with false. rewrite bool_decide_eq_true_2 by done. by rewrite scan_quote_body, unquote_quote_body.
Qed.

(** A member whose value is read by [v]. *)
Lemma parse_member_ws fuel k v t j :
  utf8_valid k = true → skip_ws (v +:+ t) = v +:+ t → parse_value fuel (v +:+ t) = Some (j, t) →
  parse_members (S fuel) (quote k +:+ ": " +:+ v +:+ t)
  = match skip_ws t with
    | String "," r4 =>
        match parse_members fuel (skip_ws r4) with
        | Some (l, r5) => Some ((k, (v, j)) :: l, r5)
        | None => None
        end
    | String "}" r4 => Some ([(k, (v, j))], r4)
    | _ => None
    end.
Proof.
  intros Hk Hw Hp. rewrite quote_app. cbn [parse_members]. rewrite bool_decide_eq_true_2 by done. rewrite scan_quote_body.
  change (skip_ws (": " +:+ v +:+ t)) with (String ":" (String " " (v +:+ t))). cbn iota.
  change (skip_ws (String " " (v +:+ t))) with (skip_ws (v +:+ t)). rewrite Hw, Hp, slice_app, unquote_quote_body by done. done.
Qed.

(** One member with a text and another behind it; and the last one. *)
Lemma parse_text_member fuel d k s t : utf8_valid k = true → utf8_valid s = true →
  parse_members (S (S fuel)) (quote k +:+ ": " +:+ quote s +:+ "," +:+ newline_indent d +:+ t)
  = match parse_members (S fuel) (skip_ws t) with
    | Some (l, r) => Some ((k, (quote s, JStr (quote_body s) s)) :: l, r)
    | None => None
    end.
Proof.
  intros Hk Hs. rewrite (parse_member_ws _ _ _ _ (JStr (quote_body s) s)); [|done|apply skip_ws_quote|by apply parse_quote].
  change (skip_ws ("," +:+ newline_indent d +:+ t)) with (String "," (newline_indent d +:+ t)). cbn iota. by rewrite skip_ws_indent.
Qed.

Lemma parse_last_member fuel d k s t : utf8_valid k = true → utf8_valid s = true →
  parse_members (S (S fuel)) (quote k +:+ ": " +:+ quote s +:+ newline_indent d +:+ "}" +:+ t)
  = Some ([(k, (quote s, JStr (quote_body s) s))], t).
Proof.
  intros Hk Hs. rewrite (parse_member_ws _ _ _ _ (JStr (quote_body s) s)); [|done|apply skip_ws_quote|by apply parse_quote].
  by rewrite skip_ws_indent.
Qed.

(** ** Punctuation *)

Lemma indent_brace d t : indent false false d ("{" +:+ t) = "{" +:+ indent false true d t.
Proof. done. Qed.
Lemma indent_colon d t : indent false false d (":" +:+ t) = ": " +:+ indent false false d t.
Proof. done. Qed.
Lemma indent_comma d t : indent false false d ("," +:+ t) = "," +:+ newline_indent d +:+ indent false false d t.
Proof. done. Qed.
Lemma indent_close d t : indent false false (S d) ("}" +:+ t) = newline_indent d +:+ "}" +:+ indent false false d t.
Proof. change (indent false false (S d) ("}" +:+ t)) with (newline_indent (S d - 1) +:+ "}" +:+ indent false false (S d - 1) t). by rewrite Nat.sub_succ, Nat.sub_0_r. Qed.

Lemma parse_object fuel d k t :
  parse_value (S fuel) (String "{" (newline_indent d +:+ quote k +:+ t))
  = match parse_members fuel (quote k +:+ t) with Some (l, r) => Some (JObj l, r) | None => None end.
Proof. cbn [parse_value]. rewrite bool_decide_eq_true_2 by done. rewrite skip_ws_indent, skip_ws_quote, quote_app. done. Qed.
