(* ===== verification/GoCrypto.v ===== *)
(** * The hashes of crypto/sha256 and crypto/hmac, and hexadecimal text

    SHA-256 and HMAC on texts of bytes, as their standards define them, executable; the
    examples at the end are the standards' own test vectors. *)
From S2P Require Import Prelude GoStrings GoFloat GoJson GoJsonFacts GoReadback.

Local Open Scope N_scope.

(** ** 32-bit words *)

Definition w32 (x : N) : N := N.land x 4294967295.
Definition add32 (x y : N) : N := w32 (x + y).
Definition rotr (n x : N) : N := N.lor (N.shiftr x n) (w32 (N.shiftl x (32 - n))).

Definition ch (x y z : N) : N := N.lxor (N.land x y) (N.land (N.lxor x 4294967295) z).
Definition maj (x y z : N) : N := N.lxor (N.lxor (N.land x y) (N.land x z)) (N.land y z).
Definition big0 (x : N) : N := N.lxor (N.lxor (rotr 2 x) (rotr 13 x)) (rotr 22 x).
Definition big1 (x : N) : N := N.lxor (N.lxor (rotr 6 x) (rotr 11 x)) (rotr 25 x).
Definition small0 (x : N) : N := N.lxor (N.lxor (rotr 7 x) (rotr 18 x)) (N.shiftr x 3).
Definition small1 (x : N) : N := N.lxor (N.lxor (rotr 17 x) (rotr 19 x)) (N.shiftr x 10).

Definition round_constants : list N :=
  [1116352408; 1899447441; 3049323471; 3921009573; 961987163; 1508970993; 2453635748; 2870763221;
   3624381080; 310598401; 607225278; 1426881987; 1925078388; 2162078206; 2614888103; 3248222580;
   3835390401; 4022224774; 264347078; 604807628; 770255983; 1249150122; 1555081692; 1996064986;
   2554220882; 2821834349; 2952996808; 3210313671; 3336571891; 3584528711; 113926993; 338241895;
   666307205; 773529912; 1294757372; 1396182291; 1695183700; 1986661051; 2177026350; 2456956037;
   2730485921; 2820302411; 3259730800; 3345764771; 3516065817; 3600352804; 4094571909; 275423344;
   430227734; 506948616; 659060556; 883997877; 958139571; 1322822218; 1537002063; 1747873779;
   1955562222; 2024104815; 2227730452; 2361852424; 2428436474; 2756734187; 3204031479; 3329325298].

Definition initial_hash : list N :=
  [1779033703; 3144134277; 1013904242; 2773480762; 1359893119; 2600822924; 528734635; 1541459225].

(** ** Blocks *)

Definition bytes (s : string) : list N := map byte_of (to_list s).
Definition text_of_bytes (l : list N) : string := of_list (map ascii_of_N l).

(** The message, one bit, zeros up to a multiple of 64 bytes, and the length in bits. *)
Definition pad_message (l : list N) : list N :=
  let n := N.of_nat (length l) in
  let zeros := (119 - n mod 64) mod 64 in
  l ++ [128] ++ repeat 0 (N.to_nat zeros) ++ map (λ i, N.land (N.shiftr (8 * n) (8 * i)) 255) [7; 6; 5; 4; 3; 2; 1; 0].

Fixpoint words_of (l : list N) : list N :=
  match l with
  | a :: b :: c :: d :: l => N.lor (N.lor (N.shiftl a 24) (N.shiftl b 16)) (N.lor (N.shiftl c 8) d) :: words_of l
  | _ => []
  end.

(** The message schedule; [w] holds the words so far, the last one first. *)
Fixpoint schedule (n : nat) (w : list N) : list N :=
  match n with
  | O => rev w
  | S n => schedule n (add32 (add32 (small1 (nth 1 w 0)) (nth 6 w 0)) (add32 (small0 (nth 14 w 0)) (nth 15 w 0)) :: w)
  end.

Definition compress_step (h : list N) (kw : N * N) : list N :=
  match h with
  | [a; b; c; d; e; f; g; hh] =>
      let t1 := add32 (add32 hh (big1 e)) (add32 (ch e f g) (add32 kw.1 kw.2)) in
      let t2 := add32 (big0 a) (maj a b c) in
      [add32 t1 t2; a; b; c; add32 d t1; e; f; g]
  | _ => h
  end.

Definition compress (h : list N) (block : list N) : list N :=
  zip_with add32 h (foldl compress_step h (zip round_constants (schedule 48 (rev block)))).

Fixpoint blocks (fuel : nat) (ws h : list N) : list N :=
  match fuel, ws with
  | S fuel, _ :: _ => blocks fuel (drop 16 ws) (compress h (take 16 ws))
  | _, _ => h
  end.

Definition word_bytes (x : N) : list N := map (λ i, N.land (N.shiftr x (8 * i)) 255) [3; 2; 1; 0].

(** [sha256.Sum256] *)
Definition sha256 (s : string) : string :=
  let ws := words_of (pad_message (bytes s)) in
  text_of_bytes (concat (map word_bytes (blocks (length ws) ws initial_hash))).

(** [hmac.New(sha256.New, key)], written to and summed. *)
Definition hmac_sha256 (key msg : string) : string :=
  let key := if 64 <? N.of_nat (String.length key) then sha256 key else key in
  let k := bytes key ++ repeat 0 (64 - String.length key)%nat in
  let pad x := text_of_bytes (map (λ b, N.lxor b x) k) in
  sha256 (pad 92 +:+ sha256 (pad 54 +:+ msg)).

(** [hex.EncodeToString] *)
Definition hex_encode (s : string) : string :=
  sconcat (map (λ b, String (hex_char (b / 16)) (sone (hex_char (b mod 16)))) (bytes s)).

(** ** Lengths *)

Lemma to_list_length s : length (to_list s) = String.length s.
Proof. induction s as [|c s IH]; [done|]. cbn. by rewrite IH. Qed.

Lemma of_list_length l : String.length (of_list l) = length l.
Proof. induction l as [|c l IH]; [done|]. cbn. by rewrite IH. Qed.

Lemma hex_encode_length s : String.length (hex_encode s) = (2 * String.length s)%nat.
Proof.
  unfold hex_encode, bytes. induction s as [|c s IH]; [done|]. cbn [to_list map sconcat]. rewrite slength_app, IH. cbn. lia.
Qed.

Lemma hex_encode_ascii s : sforall is_ascii (hex_encode s) = true.
Proof.
  unfold hex_encode, bytes. induction s as [|c s IH]; [done|]. cbn [to_list map sconcat]. rewrite sforall_app, IH, andb_true_r.
  assert (byte_of c < 256) by apply N_ascii_bounded. cbn [sforall sone].
  rewrite !hex_char_ascii; [done|apply N.mod_lt; lia|apply N.Div0.div_lt_upper_bound; lia].
Qed.

Lemma compress_step_length h kw : length h = 8%nat → length (compress_step h kw) = 8%nat.
Proof. intros H. do 9 (destruct h as [|? h]; try done). Qed.

Lemma compress_length h block : length h = 8%nat → length (compress h block) = 8%nat.
Proof.
  intros H. unfold compress. rewrite length_zip_with.
  assert (length (foldl compress_step h (zip round_constants (schedule 48 (rev block)))) = 8%nat) as ->; [|lia].
  generalize (zip round_constants (schedule 48 (rev block))). intros l. revert h H.
  induction l as [|kw l IH]; intros h H; [done|]. cbn. by apply IH, compress_step_length.
Qed.

Lemma blocks_length fuel : ∀ ws h, length h = 8%nat → length (blocks fuel ws h) = 8%nat.
Proof. induction fuel as [|fuel IH]; intros [|w ws] h H; try done. cbn [blocks]. by apply IH, compress_length. Qed.

(** A digest has 32 bytes. *)
Lemma sha256_length s : String.length (sha256 s) = 32%nat.
Proof.
  unfold sha256, text_of_bytes. rewrite of_list_length, length_map.
  pose proof (blocks_length (length (words_of (pad_message (bytes s)))) (words_of (pad_message (bytes s))) initial_hash eq_refl) as H.
  destruct (blocks _ _ _) as [|a [|b [|c [|d [|e [|f [|g [|h [|]]]]]]]]]; try done.
Qed.

(** ** The standards' vectors *)

Example sha256_empty : hex_encode (sha256 "") = "e3b0c44298fc1c149afbf4c8996fb92427ae41e4649b934ca495991b7852b855".
Proof. vm_compute. reflexivity. Qed.

Example sha256_abc : hex_encode (sha256 "abc") = "ba7816bf8f01cfea414140de5dae2223b00361a396177a9cb410ff61f20015ad".
Proof. vm_compute. reflexivity. Qed.

Example sha256_two_blocks : hex_encode (sha256 "abcdbcdecdefdefgefghfghighijhijkijkljklmklmnlmnomnopnopq")
  = "248d6a61d20638b8e5c026930c3e6039a33ce45964ff2167f6ecedd419db06c1".
Proof. vm_compute. reflexivity. Qed.

Example hmac_jefe : hex_encode (hmac_sha256 "Jefe" "what do ya want for nothing?")
  = "5bdcc146bf60754e6a042426089575c75a003f089d2739839dec58b964ec3843".
Proof. vm_compute. reflexivity. Qed.
