(* ===== verification/Outbox.v ===== *)
(** * The queue of edits for the server

    Models [offline-menuvex/internal/store/outbox.go]: which edits may be queued, how they
    are queued, listed, answered by the server and discarded. *)
From S2P Require Import Prelude GoStrings GoFloat GoJson GoJsonFacts GoTime Store Entities EntityView.

(** ** Data *)

(* outbox.go Operation *)
Record Operation := {
  op_ID : string;
  op_Sequence : Z;
  op_EntityType : string;
  op_EntityID : string;
  op_Action : string;
  op_BaseVersion : option Z;
  op_Payload : string;
  op_CreatedAt : string;
  op_State : string;
  op_Result : string;
}.

(* outbox.go Result *)
Record Result := {
  r_ID : string;
  r_Status : string;
  r_Error : string;
}.

(** ** Patterns *)

Fixpoint match_classes (cs : list (ascii → bool)) (s : string) : bool :=
  match cs, s with
  | [], EmptyString => true
  | p :: cs, String c t => p c && match_classes cs t
  | _, _ => false
  end.

Definition is_hex (c : ascii) : bool := match hex_val c with Some _ => true | None => false end.
Definition is_dash (c : ascii) : bool := bool_decide (c = "-"%char).

(* outbox.go uuidPattern *)
Definition uuidPattern (s : string) : bool :=
  match_classes (repeat is_hex 8 ++ [is_dash] ++ repeat is_hex 4 ++ [is_dash] ++ repeat is_hex 4 ++ [is_dash]
                 ++ repeat is_hex 4 ++ [is_dash] ++ repeat is_hex 12) s.

(* outbox.go decimalPattern *)
Definition decimalPattern (s : string) : bool :=
  let '(a, f) := SplitN2 "." s in
  all_digits a && (String.length a <=? 15)%nat
  && match f with Some f => all_digits f && (String.length f <=? 4)%nat | None => true end.

(** ** Which edits are allowed *)

(* outbox.go catalogFields *)
Definition catalogFields (kind : string) : option (list (string * string)) :=
  switch kind
    [(["category"], Some [("title", "text"); ("slug", "text"); ("description", "text")]);
     (["product"], Some [("title", "text"); ("slug", "text"); ("description", "text"); ("category_id", "uuid");
                         ("price", "decimal"); ("cost", "decimal"); ("is_available", "bool")]);
     (["ingredient"], Some [("name", "text"); ("sku", "text"); ("barcode", "text"); ("base_unit", "unit")]);
     (["banner"], Some [("title", "text"); ("image", "text"); ("link", "text"); ("is_active", "bool")])]%stdpp
    None.

(* outbox.go:125-125 validateIntent *)
Definition required_fields (kind : string) : list string :=
  switch kind
    [(["category"], ["title"]); (["product"], ["title"; "category_id"; "price"]);
     (["ingredient"], ["name"; "base_unit"]); (["banner"], ["title"])]%stdpp [].

Definition known_units : string := "|mg|g|kg|ml|cl|l|pcs|pack|portion|bottle|box|shot|sachet|".

(** [fmt.Errorf("field %q ...", key)] *)
Definition quoted (s : string) : string := String quote_char (s +:+ sone quote_char).

(* outbox.go:83-121 validateIntent *)
Definition check_field (kind action : string) (fields : list (string * string)) (key value : string) : res unit :=
  match last_of key fields with
  | None => Err ("field " +:+ quoted key +:+ " is not editable offline")
  | Some typ =>
      guard? negb (bool_decide (kind = "ingredient") && bool_decide (key = "base_unit") && negb (bool_decide (action = "create")))
        else "ingredient units cannot be changed offline" in
      if bool_decide (typ = "bool") then
        guard? negb (bool_decide (value = "null")) && match unmarshal_bool value with Some _ => true | None => false end
          else key +:+ " must be a boolean" in Ok ()
      else if bool_decide (typ = "decimal") then
        match (if HasPrefix value (sone quote_char) then unmarshal_string value else Some value) with
        | None => Err "invalid decimal"
        | Some str => guard? decimalPattern str else key +:+ " must be a nonnegative exact decimal" in Ok ()
        end
      else
        let bad := key +:+ " must be text (maximum 2000 characters)" in
        guard? negb (bool_decide (value = "null")) else bad in
        match unmarshal_string value with
        | None => Err bad
        | Some str =>
            guard? (Z.of_nat (length (runes str)) <=? 2000)%Z else bad in
            guard? negb ((bool_decide (key = "title") || bool_decide (key = "name")) && sempty (TrimSpace str))
              else "name/title cannot be empty" in
            guard? negb (bool_decide (typ = "uuid") && negb (uuidPattern str)) else key +:+ " must be a UUID" in
            guard? negb (bool_decide (typ = "unit") && negb (Contains known_units ("|" +:+ str +:+ "|"))) else "unknown base unit" in
            Ok ()
        end
  end.

Fixpoint all_res {A} (f : A → res unit) (l : list A) : res unit :=
  match l with [] => Ok () | x :: l => let? _ := f x in all_res f l end.

(** The object as a map: of equal keys the last one counts. *)
Definition raw_map (l : list (string * string)) : gmap string string :=
  foldl (λ m p, <[p.1 := p.2]> m) ∅ l.

(* outbox.go validateIntent *)
Definition validateIntent (R : Runtime) (kind action raw : string) : res unit :=
  match catalogFields kind with
  | None => Err "this domain has no desktop offline write workflow"
  | Some fields =>
      guard? existsb (String.eqb action) ["create"; "update"; "delete"]%stdpp else "unsupported catalog operation" in
      guard? (Z.of_nat (String.length raw) <=? 65536)%Z else "payload too large" in
      match unmarshal_rawmap raw with
      | None | Some None => Err "payload must be a JSON object"
      | Some (Some l) =>
          let payload := raw_map l in
          if bool_decide (action = "delete") then
            guard? bool_decide (payload = ∅) else "delete payload must be empty" in Ok ()
          else
            guard? negb (bool_decide (payload = ∅)) else "empty edit" in
            let? _ := all_res (λ p, check_field kind action fields p.1 p.2) (iter R 0 payload) in
            if bool_decide (action = "create") then
              all_res (λ key, guard? bool_decide (is_Some (payload !! key)) else "create requires " +:+ key in Ok ())
                      (required_fields kind)
            else Ok ()
      end
  end.

(** ** Queueing *)

Definition settled (state : string) : bool := bool_decide (state = "applied") || bool_decide (state = "discarded").

(* outbox.go:158-199 Store.QueueCatalog *)
Definition QueueCatalog_body (now : Z) (kind id action payload opID : string) (expectedVersion : Z)
    (st : persistedDB) : res (unit * persistedDB) :=
  let scope := default EmptyString (Meta st !! "scope") in
  guard? negb (sempty scope) else "configure a device before queuing server edits" in
  guard? negb (existsb (λ op, bool_decide (so_EntityType op = kind) && bool_decide (so_EntityID op = id)
                              && negb (settled (so_State op))) (Outbox st))
    else "this record already has pending/blocked intent; resolve it first" in
  let? base :=
    (if negb (bool_decide (action = "create")) then
       match live st kind id with
       | None => Err "record is not in the current local snapshot"
       | Some existing =>
           guard? (se_Version existing =? expectedVersion)%Z else "record changed while editing; reopen the editor" in
           guard? negb (se_Version existing <? 1)%Z else "record has no optimistic version; refresh before editing" in
           Ok (Some (se_Version existing))
       end
     else Ok None) in
  let seq := wrap64 (NextOutboxSeq st + 1) in
  let op := {| so_ID := opID; so_Sequence := seq; so_EntityType := kind; so_EntityID := id; so_Action := action;
               so_BaseVersion := base; so_DependsOn := []; so_Payload := payload;
               so_CreatedAt := FormatRFC3339Nano now; so_State := "queued"; so_Result := "{}" |} in
  Ok ((), set_Outbox (Outbox st ++ [op]) seq st).

(* outbox.go Store.QueueCatalog *)
Definition QueueCatalog (R : Runtime) (io : IO) (ctx : option string) (s : Store) (g : entropy) (now : Z)
    (kind id action payload : string) (expectedVersion : Z) : tx_out string :=
  match validateIntent R kind action payload with
  | Err e => tx_fail e s
  | Ok _ =>
      let '(id', g) :=
        (if bool_decide (action = "create") then
           if negb (sempty id) then (Err "new entity IDs are generated locally", g) else UUID g
         else if uuidPattern id then (Ok id, g) else (Err "entity ID must be a UUID", g)) in
      match id' with
      | Err e => tx_fail e s
      | Ok id =>
          match UUID g with
          | (Err e, _) => tx_fail e s
          | (Ok opID, _) =>
              let o := withTx io ctx s (QueueCatalog_body now kind id action payload opID expectedVersion) in
              {| tx_res := (let? _ := tx_res o in Ok id); tx_store := tx_store o; tx_calls := tx_calls o |}
          end
      end
  end.

(** ** Listing *)

(* outbox.go Operation.HasResult *)
Definition HasResult (op : Operation) : bool :=
  let s := TrimSpace (op_Result op) in
  negb (sempty s) && negb (bool_decide (s = "{}")) && negb (bool_decide (s = "null")).

Definition pending_state (s : string) : bool := existsb (String.eqb s) ["queued"; "retry"; "not_processed"]%stdpp.
Definition blocked_state (s : string) : bool := existsb (String.eqb s) ["conflict"; "rejected"; "skipped"]%stdpp.

(* outbox.go:228-239 Store.Outbox *)
Definition operation_view (op : storedOperation) : Operation :=
  {| op_ID := so_ID op; op_Sequence := so_Sequence op; op_EntityType := so_EntityType op;
     op_EntityID := so_EntityID op; op_Action := so_Action op; op_BaseVersion := so_BaseVersion op;
     op_Payload := so_Payload op; op_CreatedAt := so_CreatedAt op; op_State := so_State op;
     op_Result := so_Result op |}.

(* outbox.go Store.Outbox *)
Definition Outbox_of (R : Runtime) (pending : bool) (st : persistedDB) : list Operation :=
  let ops := map operation_view (List.filter (λ op, negb pending || pending_state (so_State op)) (Outbox st)) in
  if pending then
    let ops := sort_slice R (λ i j, op_Sequence i <? op_Sequence j)%Z ops in
    if (100 <? length ops)%nat then take 100 ops else ops
  else
    let ops := sort_slice R (λ i j, op_Sequence j <? op_Sequence i)%Z ops in
    if (500 <? length ops)%nat then take 500 ops else ops.

(** ** The server's answers *)

Definition result_states : list string := ["applied"; "conflict"; "rejected"; "retry"; "not_processed"; "skipped"].

(* outbox.go:264-277 Store.SaveResults *)
Fixpoint check_results (expected : gset string) (results : list Result) : res unit :=
  match results with
  | [] => Ok ()
  | r :: results =>
      guard? bool_decide (r_ID r ∈ expected) else "push returned duplicate or unknown operation ID" in
      let expected := expected ∖ {[ r_ID r ]} in
      guard? existsb (String.eqb (r_Status r)) result_states else "unknown push result status" in
      check_results expected results
  end.

(** [json.Marshal(r)]; an error that was not sent is null. *)
Definition encode_result (r : Result) : res string :=
  let? e := (if sempty (r_Error r) then Ok "null"%stdpp else encode_raw (r_Error r)) in
  Ok (object_text [("operation_id", quote (r_ID r)); ("status", quote (r_Status r)); ("error", e)]).

(** The index [byID] holds: the last operation of that identifier. *)
Fixpoint last_index (id : string) (l : list storedOperation) : option nat :=
  match l with
  | [] => None
  | op :: l => match last_index id l with
               | Some i => Some (S i)
               | None => if bool_decide (so_ID op = id) then Some 0%nat else None
               end
  end.

Definition with_result (op : storedOperation) (state result : string) : storedOperation :=
  {| so_ID := so_ID op; so_Sequence := so_Sequence op; so_EntityType := so_EntityType op;
     so_EntityID := so_EntityID op; so_Action := so_Action op; so_BaseVersion := so_BaseVersion op;
     so_DependsOn := so_DependsOn op; so_Payload := so_Payload op; so_CreatedAt := so_CreatedAt op;
     so_State := state; so_Result := result |}.

(* outbox.go:284-301 Store.SaveResults *)
Definition save_result (byID : string → option nat) (ops : list storedOperation) (r : Result) : res (list storedOperation) :=
  let? raw := encode_result r in
  match byID (r_ID r) ≫= λ i, (λ op, (i, op)) <$> ops !! i with
  | None => Err "outbox changed during push"
  | Some (i, cur) =>
      guard? pending_state (so_State cur) else "outbox changed during push" in
      Ok (<[i := with_result cur (r_Status r) raw]> ops)
  end.

(* outbox.go:279-303 Store.SaveResults *)
Definition SaveResults_body (results : list Result) (st : persistedDB) : res (unit * persistedDB) :=
  let? ops := fold_res (save_result (λ id, last_index id (Outbox st))) (Outbox st) results in
  Ok ((), set_Outbox ops (NextOutboxSeq st) st).

(* outbox.go Store.SaveResults *)
Definition SaveResults (io : IO) (ctx : option string) (s : Store) (sent : list Operation) (results : list Result) : tx_out unit :=
  if negb (length sent =? length results)%nat then tx_fail "push response did not cover the submitted batch" s
  else match check_results (list_to_set (map op_ID sent)) results with
       | Err e => tx_fail e s
       | Ok _ => withTx io ctx s (SaveResults_body results)
       end.

(** ** Discarding *)

Fixpoint discard_first (id : string) (l : list storedOperation) : option (list storedOperation) :=
  match l with
  | [] => None
  | op :: l =>
      if bool_decide (so_ID op = id) && blocked_state (so_State op)
      then Some (with_result op "discarded" (so_Result op) :: l)
      else cons op <$> discard_first id l
  end.

(* outbox.go:308-316 Store.Discard *)
Definition Discard_body (id : string) (st : persistedDB) : res (unit * persistedDB) :=
  match discard_first id (Outbox st) with
  | Some ops => Ok ((), set_Outbox ops (NextOutboxSeq st) st)
  | None => Err "only blocked terminal operations can be discarded; uncertain operations must sync first"
  end.

(* outbox.go Store.Discard *)
Definition Discard (io : IO) (ctx : option string) (s : Store) (id : string) : tx_out unit :=
  withTx io ctx s (Discard_body id).

(** ** The edit form and the labels *)

Definition editable (kind key : string) (m : list (string * string)) : option string :=
  if bool_decide (kind = "ingredient") && bool_decide (key = "base_unit") then None
  else match last_of key m with
       | Some v => if bool_decide (v = "null") then None else Some v
       | None => None
       end.

(* outbox.go EditablePayload *)
Definition EditablePayload (kind raw : string) : string :=
  let values := default [] (raw_members raw) in
  let keys := sort_strings (default [] (catalogFields kind)).*1 in
  indent false false 0 (object_text (omap (λ key, (λ v, (key, compact false v)) <$> editable kind key values) keys)).

(* outbox.go Operation.EntityTypeLabel *)
Definition EntityTypeLabel (op : Operation) : string :=
  switch (op_EntityType op)
    [(["category"], "دسته‌بندی منو"); (["product"], "محصول منو"); (["ingredient"], "کالای انبار");
     (["banner"], "بنر دیجیتال"); (["order"], "سفارش صندوق")]%stdpp (op_EntityType op).

(* outbox.go Operation.ActionLabel *)
Definition ActionLabel (op : Operation) : string :=
  switch (op_Action op)
    [(["create"], "ایجاد رکورد"); (["update"], "ویرایش رکورد"); (["delete"], "حذف رکورد")]%stdpp (op_Action op).

(* outbox.go Operation.StateLabel *)
Definition StateLabel (op : Operation) : string :=
  switch (op_State op)
    [(["queued"], "در صف (Queued)"); (["retry"], "تلاش مجدد (Retry)"); (["conflict"], "تعارض نسخه (Conflict)");
     (["rejected"], "رد شده (Rejected)"); (["skipped"], "رد شده (Skipped)"); (["applied"], "اعمال شده (Applied)");
     (["discarded"], "لغو شده (Discarded)")]%stdpp (op_State op).

(** ** Identifiers *)

Lemma hex_char_hex n : (n < 16)%N → is_hex (hex_char n) = true.
Proof.
  intros H. assert (forallb (λ k, is_hex (hex_char (N.of_nat k))) (seq 0 16) = true) as F by (vm_compute; reflexivity).
  rewrite forallb_forall in F. rewrite <- (N2Nat.id n). apply F. apply in_seq. lia.
Qed.

Definition byte_like (n : N) : Prop := (n < 256)%N.

Lemma hex_nibbles n : byte_like n → is_hex (hex_char (n / 16)) = true ∧ is_hex (hex_char (n mod 16)) = true.
Proof.
  unfold byte_like. intros H. split; apply hex_char_hex.
  - apply N.Div0.div_lt_upper_bound. lia.
  - apply N.mod_lt. lia.
Qed.

Lemma version_bits n : byte_like n →
  byte_like (N.lor (N.land n 15) 64) ∧ byte_like (N.lor (N.land n 63) 128).
Proof.
  unfold byte_like. intros H.
  assert (forallb (λ k, (N.lor (N.land (N.of_nat k) 15) 64 <? 256)%N && (N.lor (N.land (N.of_nat k) 63) 128 <? 256)%N)
            (seq 0 256) = true) as F by (vm_compute; reflexivity).
  rewrite forallb_forall in F. specialize (F (N.to_nat n)). rewrite N2Nat.id in F.
  rewrite andb_true_iff, !N.ltb_lt in F. apply F. apply in_seq. lia.
Qed.

(** A draw the generator can make. *)
Definition good_draw (b : list N) : Prop := length b = 16%nat ∧ Forall byte_like b.

Lemma uuid_bytes_good b : good_draw b → good_draw (uuid_bytes b).
Proof.
  intros [Hl Hb]. unfold uuid_bytes. split; [by rewrite !length_alter|].
  apply Forall_alter; [|intros x _ Hx; by apply version_bits].
  apply Forall_alter; [done|intros x _ Hx; by apply version_bits].
Qed.

Lemma hex_text b : Forall byte_like b →
  String.length (sconcat (map hex_byte b)) = (2 * length b)%nat ∧ sforall is_hex (sconcat (map hex_byte b)) = true.
Proof.
  induction 1 as [|x b Hx _ [IH1 IH2]]; [done|]. destruct (hex_nibbles x Hx) as [H1 H2].
  cbn [map sconcat length]. rewrite slength_app, sforall_app, IH1, IH2. unfold hex_byte, sone. cbn [String.length sforall].
  rewrite H1, H2. split; [lia|done].
Qed.

Lemma match_repeat p n cs a t :
  String.length a = n → sforall p a = true → match_classes (repeat p n ++ cs) (a +:+ t) = match_classes cs t.
Proof.
  revert a. induction n as [|n IH]; intros [|c a] Hl Hp; try discriminate Hl; [done|].
  cbn [sforall String.length] in *. bools. rewrite sapp_cons. cbn [repeat app match_classes]. rewrite H. simpl. auto.
Qed.

Lemma match_dash cs t : match_classes ([is_dash] ++ cs) ("-" +:+ t) = match_classes cs t.
Proof. done. Qed.

Lemma UUID_wf b g :
  good_draw b → ∃ id, UUID (Some b :: g) = (Ok id, g) ∧ uuidPattern id = true ∧ String.length id = 36%nat.
Proof.
  intros H. apply uuid_bytes_good in H as [Hl Hb]. unfold UUID.
  destruct (hex_text _ Hb) as [H1 H2]. rewrite Hl in H1. set (s := sconcat (map hex_byte (uuid_bytes b))) in *.
  assert (∀ n m, (n + m <= 32)%nat → String.length (stake m (sdrop n s)) = m ∧ sforall is_hex (stake m (sdrop n s)) = true) as P.
  { intros n m Hm. split; [apply stake_length; rewrite sdrop_length; lia|]. apply sforall_stake. by apply sforall_sdrop. }
  destruct (P 0%nat 8%nat ltac:(lia)) as [A1 A2]. destruct (P 8%nat 4%nat ltac:(lia)) as [B1 B2].
  destruct (P 12%nat 4%nat ltac:(lia)) as [C1 C2]. destruct (P 16%nat 4%nat ltac:(lia)) as [D1 D2].
  assert (String.length (sdrop 20 s) = 12%nat) as E1 by (rewrite sdrop_length; lia).
  assert (sforall is_hex (sdrop 20 s) = true) as E2 by (by apply sforall_sdrop).
  change (sdrop 0 s) with s in *.
  eexists. split; [reflexivity|]. split.
  - unfold uuidPattern. rewrite match_repeat, match_dash by done. do 3 rewrite match_repeat, match_dash by done.
    rewrite <- (sapp_nil_r (sdrop 20 s)), <- (app_nil_r (repeat is_hex 12)). by rewrite match_repeat.
  - rewrite !slength_app, A1, B1, C1, D1, E1. done.
Qed.

(** identifiers are well formed.  From any sixteen random bytes [UUID] makes a text that
    the editor's own pattern accepts, using up one draw. *)
Theorem UUID_well_formed b g :
  good_draw b → ∃ id, UUID (Some b :: g) = (Ok id, g) ∧ uuidPattern id = true ∧ String.length id = 36%nat.
Proof. apply UUID_wf. Qed.

Definition a_draw : list N := repeat 171%N 16.

Lemma UUID_well_formed_witness :
  good_draw a_draw ∧ ∃ id, UUID [Some a_draw] = (Ok id, []) ∧ uuidPattern id = true.
Proof.
  assert (good_draw a_draw) as H.
  { split; [reflexivity|]. rewrite Forall_forall. intros x Hx. apply list_elem_of_In, repeat_spec in Hx as ->.
    unfold byte_like. lia. }
  split; [exact H|]. destruct (UUID_well_formed a_draw [] H) as (id & H1 & H2 & _). by exists id.
Defined.

(** ** The life of an operation *)

(** What the server's answer and the user's decision may do to a state. *)
Inductive op_step : string → string → Prop :=
| op_answer s t : pending_state s = true → t ∈ result_states → op_step s t
| op_discard s : blocked_state s = true → op_step s "discarded".

Inductive op_evolves : storedOperation → storedOperation → Prop :=
| op_evolve a t result : op_step (so_State a) t → op_evolves a (with_result a t result).

(** What stays the same for ever: the wire intent. *)
Definition same_intent (a b : storedOperation) : Prop :=
  ∃ t result, b = with_result a t result.

Lemma same_intent_refl a : same_intent a a.
Proof. exists (so_State a), (so_Result a). by destruct a. Qed.

Lemma settled_stuck s t : settled s = true → op_step s t → False.
Proof.
  unfold settled. rewrite orb_true_iff, !bool_decide_eq_true. intros H Hs.
  assert (pending_state s = true ∨ blocked_state s = true) as P by (destruct Hs; auto).
  destruct H as [-> | ->], P as [P|P]; discriminate P.
Qed.

Lemma evolves_intent a b : rtc op_evolves a b → same_intent a b ∧ rtc op_step (so_State a) (so_State b).
Proof.
  induction 1 as [a|a b c [a' t r Hs] _ [(t' & r' & ->) IH]]; [auto using same_intent_refl, rtc_refl|].
  split; [by exists t', r'|]. by eapply rtc_l.
Qed.

Lemma evolves_settled a b : rtc op_evolves a b → settled (so_State a) = true → b = a.
Proof.
  induction 1 as [|a b c [a' t r Hs] _ IH]; [done|]. intros Hset. exfalso. by eapply settled_stuck.
Qed.

(** The three transactions of the queue, the binding of the device and the two transactions
    of the server's state.  (A local reset, which empties the whole database, starts anew.) *)
Inductive queue_step : persistedDB → persistedDB → Prop :=
| step_queue now kind id action payload opID v st st' :
    (NextOutboxSeq st < two63 - 1)%Z → (0 <= NextOutboxSeq st)%Z →
    QueueCatalog_body now kind id action payload opID v st = Ok ((), st') → queue_step st st'
| step_results expected results st st' :
    check_results expected results = Ok () →
    SaveResults_body results st = Ok ((), st') → queue_step st st'
| step_discard id st st' : Discard_body id st = Ok ((), st') → queue_step st st'
| step_bind scope st st' : Bind_body scope st = Ok ((), st') → queue_step st st'
| step_page changes cursor st st' : ApplyPage_body changes cursor st = Ok ((), st') → queue_step st st'
| step_bootstrap R sections cursor st st' :
    Bootstrap_body R sections cursor st = Ok ((), st') → queue_step st st'.

(** Operations evolve in place. *)
Definition outbox_le (l k : list storedOperation) : Prop :=
  ∀ i a, l !! i = Some a → ∃ b, k !! i = Some b ∧ rtc op_evolves a b.

Lemma outbox_le_refl l : outbox_le l l.
Proof. intros i a H. eauto using rtc_refl. Qed.

Lemma outbox_le_trans l1 l2 l3 : outbox_le l1 l2 → outbox_le l2 l3 → outbox_le l1 l3.
Proof.
  intros H1 H2 i a Ha. destruct (H1 _ _ Ha) as (b & Hb & R1). destruct (H2 _ _ Hb) as (c & Hc & R2).
  exists c. split; [done|]. by etrans.
Qed.

Lemma outbox_le_app l k : outbox_le l (l ++ k).
Proof. intros i a H. exists a. split; [by apply lookup_app_l_Some|apply rtc_refl]. Qed.

Lemma check_results_status expected results :
  check_results expected results = Ok () → Forall (λ r, r_Status r ∈ result_states) results.
Proof.
  revert expected. induction results as [|r results IH]; intros E H; [constructor|]. cbn [check_results] in H.
  destruct (bool_decide _); [|done]. destruct (existsb _ _) eqn:S; [|done]. constructor; [|eauto].
  apply existsb_exists in S as (t & Ht & ->%String.eqb_eq). by apply list_elem_of_In.
Qed.

Lemma save_result_inv byID ops r ops' :
  save_result byID ops r = Ok ops' →
  ∃ i cur raw, byID (r_ID r) = Some i ∧ ops !! i = Some cur ∧ pending_state (so_State cur) = true
    ∧ encode_result r = Ok raw ∧ ops' = <[i := with_result cur (r_Status r) raw]> ops.
Proof.
  unfold save_result. destruct (encode_result r) as [raw|]; [|done].
  destruct (byID (r_ID r)) as [i|]; simpl; [|done]. destruct (ops !! i) as [cur|] eqn:E; simpl; [|done].
  destruct (pending_state (so_State cur)) eqn:P; [|done]. intros [= <-]. by exists i, cur, raw.
Qed.

Lemma save_result_le byID ops r ops' :
  r_Status r ∈ result_states → save_result byID ops r = Ok ops' → outbox_le ops ops' ∧ length ops' = length ops.
Proof.
  intros Hs (i & cur & raw & _ & Hi & Hp & _ & ->)%save_result_inv. split; [|by rewrite length_insert].
  intros j a Ha. destruct (decide (i = j)) as [->|Hj].
  - rewrite list_lookup_insert_eq by (by apply lookup_lt_is_Some_1). rewrite Hi in Ha. injection Ha as <-.
    eexists. split; [done|]. apply rtc_once. constructor. by constructor.
  - rewrite list_lookup_insert_ne by done. eauto using rtc_refl.
Qed.

Lemma save_results_le byID results : ∀ ops ops',
  Forall (λ r, r_Status r ∈ result_states) results →
  fold_res (save_result byID) ops results = Ok ops' → outbox_le ops ops' ∧ length ops' = length ops.
Proof.
  induction results as [|r results IH]; intros ops ops' Hf H; cbn [fold_res] in H.
  { injection H as <-. auto using outbox_le_refl. }
  inversion_clear Hf as [|? ? Hr Hrs]. destruct (save_result byID ops r) as [ops1|] eqn:E; [|done].
  apply save_result_le in E as [E1 E2]; [|done]. apply IH in H as [H1 H2]; [|done].
  split; [by eapply outbox_le_trans|congruence].
Qed.

Lemma discard_first_le id l : ∀ l', discard_first id l = Some l' → outbox_le l l' ∧ length l' = length l.
Proof.
  induction l as [|op l IH]; intros l' H; cbn [discard_first] in H; [done|].
  destruct (bool_decide (so_ID op = id) && blocked_state (so_State op)) eqn:B.
  - injection H as <-. bools. split; [|done]. intros [|i] a Ha; cbn in *; [|eauto using rtc_refl].
    injection Ha as <-. eexists. split; [done|]. apply rtc_once. constructor. by constructor.
  - destruct (discard_first id l) as [l1|]; [|done]. injection H as <-. destruct (IH _ eq_refl) as [H1 H2].
    split; [|cbn; by rewrite H2]. intros [|i] a Ha; cbn in *; [injection Ha as <-; eauto using rtc_refl|by apply H1].
Qed.

Lemma Bind_body_outbox scope st st' :
  Bind_body scope st = Ok ((), st') → Outbox st' = Outbox st ∧ NextOutboxSeq st' = NextOutboxSeq st.
Proof. unfold Bind_body. destruct (negb _); [|done]. by intros [= <-]. Qed.

Lemma ApplyPage_body_outbox changes cursor st st' :
  ApplyPage_body changes cursor st = Ok ((), st') → Outbox st' = Outbox st ∧ NextOutboxSeq st' = NextOutboxSeq st.
Proof.
  unfold ApplyPage_body. destruct (applyChanges st changes) as [st1|] eqn:E; [|done]. intros [= <-].
  apply applyChanges_shape in E as [-> _]. done.
Qed.

Lemma Bootstrap_body_outbox R sections cursor st st' :
  Bootstrap_body R sections cursor st = Ok ((), st') → Outbox st' = Outbox st ∧ NextOutboxSeq st' = NextOutboxSeq st.
Proof.
  rewrite Bootstrap_body_run.
  pose proof (run_sections (iter R 0 sections) (set_Entities (λ _, ∅) st)) as H.
  destruct (fold_res run_section _ _) as [s1|]; [|done]. intros [= <-].
  destruct H as [_ Ha]. apply applyChanges_shape in Ha as [-> _]. done.
Qed.

(** The new operation of a queued edit. *)
Lemma QueueCatalog_body_inv now kind id action payload opID v st st' :
  QueueCatalog_body now kind id action payload opID v st = Ok ((), st') →
  (∀ o, o ∈ Outbox st → so_EntityType o = kind → so_EntityID o = id → settled (so_State o) = true) ∧
  ∃ base, st' = set_Outbox (Outbox st ++
    [{| so_ID := opID; so_Sequence := wrap64 (NextOutboxSeq st + 1); so_EntityType := kind; so_EntityID := id;
        so_Action := action; so_BaseVersion := base; so_DependsOn := []; so_Payload := payload;
        so_CreatedAt := FormatRFC3339Nano now; so_State := "queued"; so_Result := "{}" |}])
    (wrap64 (NextOutboxSeq st + 1)) st.
Proof.
  unfold QueueCatalog_body. destruct (negb (sempty _)); [|done].
  destruct (negb (existsb _ _)) eqn:E; [|done]. apply negb_true_iff in E.
  intros H. split.
  - intros o Ho <- <-. destruct (settled (so_State o)) eqn:S; [done|]. exfalso.
    assert (existsb (λ op, bool_decide (so_EntityType op = so_EntityType o) && bool_decide (so_EntityID op = so_EntityID o)
                           && negb (settled (so_State op))) (Outbox st) = true); [|congruence].
    apply existsb_exists. exists o. split; [by apply list_elem_of_In|].
    by rewrite !bool_decide_true, S.
  - revert H. repeat case_match; try done; intros [= <-]; eauto.
Qed.

Lemma queue_step_le st st' : queue_step st st' → outbox_le (Outbox st) (Outbox st').
Proof.
  destruct 1 as [? ? ? ? ? ? ? st st' _ _ H|exp results st st' Hc H|id st st' H|? st st' H|? ? st st' H|? ? ? st st' H].
  - apply QueueCatalog_body_inv in H as (_ & base & ->). apply outbox_le_app.
  - unfold SaveResults_body in H. destruct (fold_res _ _ _) as [ops|] eqn:E; [|done]. injection H as <-.
    by apply (save_results_le _ _ _ _ (check_results_status _ _ Hc)) in E as [E _].
  - unfold Discard_body in H. destruct (discard_first id (Outbox st)) as [ops|] eqn:E; [|done]. injection H as <-.
    by apply discard_first_le in E as [E _].
  - apply Bind_body_outbox in H as [-> _]. apply outbox_le_refl.
  - apply ApplyPage_body_outbox in H as [-> _]. apply outbox_le_refl.
  - apply Bootstrap_body_outbox in H as [-> _]. apply outbox_le_refl.
Qed.

Lemma queue_steps_le st st' : rtc queue_step st st' → outbox_le (Outbox st) (Outbox st').
Proof.
  induction 1 as [st|st1 st2 st3 H1 _ IH]; [apply outbox_le_refl|].
  eapply outbox_le_trans; [by apply queue_step_le|done].
Qed.

(** C3: the life of a queued edit.  Whatever mixture of queueing, answers from the server,
    discarding, pages and snapshots follows, an operation stays at its place in the queue
    with the identifier, sequence number, target, base version and payload it was queued
    with; its state only moves by the two rules, from a pending state to an answer and from
    a blocked state to discarded, so an edit whose outcome is unknown is never discarded;
    and once it is applied or discarded it never changes again. *)
Theorem queue_history st st' :
  rtc queue_step st st' →
  ∀ i a, Outbox st !! i = Some a →
    ∃ b, Outbox st' !! i = Some b ∧ same_intent a b ∧ rtc op_step (so_State a) (so_State b)
      ∧ (settled (so_State a) = true → b = a).
Proof.
  intros H i a Ha. destruct (queue_steps_le _ _ H _ _ Ha) as (b & Hb & R). exists b. split; [done|].
  destruct (evolves_intent _ _ R). eauto using evolves_settled.
Qed.

(** ** The queue's invariant *)

Definition unresolved_unique (l : list storedOperation) : Prop :=
  ∀ i j a b, l !! i = Some a → l !! j = Some b → settled (so_State a) = false → settled (so_State b) = false →
    so_EntityType a = so_EntityType b → so_EntityID a = so_EntityID b → i = j.

Definition sequenced (l : list storedOperation) (last : Z) : Prop :=
  StronglySorted (λ a b, so_Sequence a < so_Sequence b)%Z l ∧ Forall (λ o, so_Sequence o <= last)%Z l.

Definition queue_ok (st : persistedDB) : Prop :=
  sequenced (Outbox st) (NextOutboxSeq st) ∧ unresolved_unique (Outbox st).

(** Evolution in place keeps the invariant. *)
Lemma evolved_back l k : outbox_le l k → length k = length l →
  ∀ i b, k !! i = Some b → ∃ a, l !! i = Some a ∧ same_intent a b ∧ (settled (so_State b) = false → settled (so_State a) = false).
Proof.
  intros H Hlen i b Hb. assert (i < length l) as Hi by (rewrite <- Hlen; by eapply lookup_lt_Some).
  apply lookup_lt_is_Some_2 in Hi as [a Ha]. destruct (H _ _ Ha) as (b' & Hb' & R). rewrite Hb in Hb'.
  injection Hb' as <-. exists a. destruct (evolves_intent _ _ R) as [S _]. split; [done|]. split; [done|].
  intros Hs. destruct (settled (so_State a)) eqn:E; [|done]. apply evolves_settled in R; [|done]. congruence.
Qed.

Lemma evolve_queue_ok l k last : outbox_le l k → length k = length l →
  sequenced l last ∧ unresolved_unique l → sequenced k last ∧ unresolved_unique k.
Proof.
  intros H Hlen [[Hs Hf] Hu]. pose proof (evolved_back l k H Hlen) as B. split; [split|].
  - rewrite StronglySorted_lookup in *. intros i j a b Hij Ha Hb.
    destruct (B _ _ Ha) as (a0 & Ha0 & (t & r & ->) & _). destruct (B _ _ Hb) as (b0 & Hb0 & (u & q & ->) & _).
    simpl. by apply (Hs i j).
  - rewrite Forall_lookup in *. intros i a Ha. destruct (B _ _ Ha) as (a0 & Ha0 & (t & r & ->) & _).
    simpl. by eapply Hf.
  - intros i j a b Ha Hb Sa Sb Et Ei. destruct (B _ _ Ha) as (a0 & Ha0 & (t & r & ->) & Ta).
    destruct (B _ _ Hb) as (b0 & Hb0 & (u & q & ->) & Tb). simpl in *. eapply Hu; eauto.
Qed.

Lemma append_queue_ok l last op :
  sequenced l last ∧ unresolved_unique l → so_Sequence op = (last + 1)%Z →
  (∀ o, o ∈ l → so_EntityType o = so_EntityType op → so_EntityID o = so_EntityID op → settled (so_State o) = true) →
  sequenced (l ++ [op]) (last + 1) ∧ unresolved_unique (l ++ [op]).
Proof.
  intros [[Hs Hf] Hu] Hseq Hnew. split; [split|].
  - rewrite StronglySorted_lookup in *. intros i j a b Hij Ha Hb.
    apply lookup_lt_Some in Hb as Hj. rewrite length_app in Hj. simpl in Hj.
    rewrite lookup_app_l in Ha by lia. apply lookup_app_Some in Hb as [Hb|[_ Hb]]; [by apply (Hs i j)|].
    apply list_lookup_singleton_Some in Hb as [_ <-]. rewrite Hseq. rewrite Forall_lookup in Hf. apply Hf in Ha. lia.
  - apply Forall_app. split; [|constructor; [lia|constructor]]. eapply Forall_impl; [exact Hf|]. simpl. lia.
  - intros i j a b [Ha|[Hi Ha]]%lookup_app_Some [Hb|[Hj Hb]]%lookup_app_Some Sa Sb Et Ei.
    + by apply (Hu i j a b).
    + apply list_lookup_singleton_Some in Hb as [_ <-]. apply list_elem_of_lookup_2 in Ha. rewrite Hnew in Sa by done. done.
    + apply list_lookup_singleton_Some in Ha as [_ <-]. apply list_elem_of_lookup_2 in Hb. rewrite Hnew in Sb by done. done.
    + apply list_lookup_singleton_Some in Ha as [? _]. apply list_lookup_singleton_Some in Hb as [? _]. lia.
Qed.

(** the queue's invariant.  Started from the empty database, and through any
    mixture of these transactions, the queue stays in strictly increasing order of
    sequence numbers, none above the counter, and no record ever has two edits that are
    neither applied nor discarded. *)
Theorem queue_invariant st : rtc queue_step newEmptyDB st → queue_ok st.
Proof.
  assert (queue_ok newEmptyDB) as H0.
  { split; [split; constructor|]. intros [|i] j a b Ha; discriminate Ha. }
  revert H0. generalize newEmptyDB. intros st0 H0 H. induction H as [st0|st1 st2 st3 H1 _ IH]; [done|]. apply IH. clear IH st3.
  unfold queue_ok in *.
  destruct H1 as [? ? ? ? ? ? ? st st' Hlt Hge H|exp results st st' Hc H|id st st' H|? st st' H|? ? st st' H|? ? ? st st' H].
  - apply QueueCatalog_body_inv in H as (Hn & base & ->). simpl.
    assert (wrap64 (NextOutboxSeq st + 1) = NextOutboxSeq st + 1)%Z as ->.
    { apply wrap64_id. unfold in_int64. lia. }
    by apply append_queue_ok.
  - unfold SaveResults_body in H. destruct (fold_res _ _ _) as [ops|] eqn:E; [|done]. injection H as <-.
    apply (save_results_le _ _ _ _ (check_results_status _ _ Hc)) in E as [E1 E2]. by eapply evolve_queue_ok.
  - unfold Discard_body in H. destruct (discard_first id (Outbox st)) as [ops|] eqn:E; [|done]. injection H as <-.
    apply discard_first_le in E as [E1 E2]. by eapply evolve_queue_ok.
  - by apply Bind_body_outbox in H as [-> ->].
  - by apply ApplyPage_body_outbox in H as [-> ->].
  - by apply Bootstrap_body_outbox in H as [-> ->].
Qed.

(** ** The pending list *)

Definition pending_ops (st : persistedDB) : list Operation :=
  map operation_view (List.filter (λ op, pending_state (so_State op)) (Outbox st)).

Lemma seq_less_asym x y : (op_Sequence x <? op_Sequence y)%Z = true → (op_Sequence y <? op_Sequence x)%Z = false.
Proof. lia. Qed.

Lemma seq_less_trans x y z :
  (op_Sequence y <? op_Sequence x)%Z = false → (op_Sequence z <? op_Sequence y)%Z = false → (op_Sequence z <? op_Sequence x)%Z = false.
Proof. lia. Qed.

Lemma sequenced_unique st x y last :
  sequenced (Outbox st) last → x ∈ pending_ops st → y ∈ pending_ops st → op_Sequence x = op_Sequence y → x = y.
Proof.
  intros [Hs _] Hx Hy E. unfold pending_ops in *. rewrite list_elem_of_In, in_map_iff in Hx, Hy.
  destruct Hx as (a & <- & [Ha _]%filter_In), Hy as (b & <- & [Hb _]%filter_In). simpl in E.
  rewrite <- list_elem_of_In in Ha, Hb. apply list_elem_of_lookup in Ha as [i Hi]. apply list_elem_of_lookup in Hb as [j Hj].
  rewrite StronglySorted_lookup in Hs. destruct (Nat.lt_trichotomy i j) as [H|[->|H]].
  - specialize (Hs _ _ _ _ H Hi Hj). simpl in Hs. lia.
  - congruence.
  - specialize (Hs _ _ _ _ H Hj Hi). simpl in Hs. lia.
Qed.

Lemma pending_nodup st last : sequenced (Outbox st) last → NoDup (pending_ops st).
Proof.
  intros [Hs _]. unfold pending_ops. induction Hs as [|op l Hs IH Hf]; cbn [List.filter map]; [constructor|].
  destruct (pending_state (so_State op)); [|done]. cbn [map]. constructor; [|done].
  rewrite list_elem_of_In, in_map_iff. intros (b & E & [Hb _]%filter_In). rewrite <- list_elem_of_In in Hb.
  rewrite Forall_forall in Hf. specialize (Hf _ Hb). apply (f_equal op_Sequence) in E. simpl in E. lia.
Qed.

(** what is pushed.  For a queue in order, the pending list is the same for every
    runtime; it holds pending operations only, at most a hundred, in increasing order of
    sequence number, and when it has to leave some out it leaves out later ones: every
    pending operation missing from it has a larger number than all those in it. *)
Theorem Outbox_pending_prefix R R' st :
  queue_ok st →
  Outbox_of R true st = Outbox_of R' true st
  ∧ StronglySorted (λ a b, op_Sequence a <= op_Sequence b)%Z (Outbox_of R true st)
  ∧ length (Outbox_of R true st) ≤ 100
  ∧ (∀ o, o ∈ Outbox_of R true st → ∃ op, op ∈ Outbox st ∧ pending_state (so_State op) = true ∧ o = operation_view op)
  ∧ (∀ op, op ∈ Outbox st → pending_state (so_State op) = true →
       operation_view op ∈ Outbox_of R true st
       ∨ (length (Outbox_of R true st) = 100%nat ∧ ∀ o, o ∈ Outbox_of R true st → op_Sequence o < so_Sequence op)%Z).
Proof.
  intros [Hq _]. unfold Outbox_of. cbn [negb orb]. fold (pending_ops st).
  set (less := λ i j : Operation, (op_Sequence i <? op_Sequence j)%Z).
  assert (sort_slice R less (pending_ops st) = sort_slice R' less (pending_ops st)) as E.
  { apply sort_slice_unique; [exact seq_less_asym|exact seq_less_trans| |done].
    intros x y Hx Hy H1 H2. subst less. simpl in *. apply (sequenced_unique st x y _ Hq Hx Hy). lia. }
  rewrite <- E. set (out := sort_slice R less (pending_ops st)).
  assert (out ≡ₚ pending_ops st) as Hp by apply sort_perm.
  pose proof (sort_sorted R _ less (pending_ops st) seq_less_asym seq_less_trans) as Hs. fold out in Hs.
  assert (∀ op, op ∈ Outbox st → pending_state (so_State op) = true → operation_view op ∈ out) as Hall.
  { intros op Ho Hop. rewrite Hp. unfold pending_ops. rewrite list_elem_of_In. apply in_map, filter_In.
    by rewrite <- list_elem_of_In. }
  assert (∀ o, o ∈ out → ∃ op, op ∈ Outbox st ∧ pending_state (so_State op) = true ∧ o = operation_view op) as Hin.
  { intros o. rewrite Hp. unfold pending_ops. rewrite list_elem_of_In, in_map_iff.
    intros (op & <- & [H1 H2]%filter_In). exists op. by rewrite list_elem_of_In. }
  assert (StronglySorted (λ a b, op_Sequence a <= op_Sequence b)%Z out) as Hs'.
  { eapply StronglySorted_mono; [|exact Hs]. subst less. simpl. intros a b. lia. }
  split; [done|]. destruct (100 <? length out)%nat eqn:L.
  2:{ apply Nat.ltb_ge in L. auto 10. }
  apply Nat.ltb_lt in L. rewrite length_take. rewrite <- (take_drop 100 out) in Hs', Hall, Hin.
  split; [by apply StronglySorted_app_1_l in Hs'|]. split; [lia|].
  split; [intros o Ho; apply Hin; apply elem_of_app; by left|].
  intros op Ho Hop. destruct (proj1 (elem_of_app _ _ _) (Hall op Ho Hop)) as [H|H]; [by left|]. right.
  split; [lia|]. intros o Hot.
  assert (op_Sequence o <= so_Sequence op)%Z as Hle.
  { exact (StronglySorted_app_1_elem_of _ _ _ _ _ Hs' Hot H). }
  destruct (Z.eq_dec (op_Sequence o) (so_Sequence op)) as [Heq|]; [|lia]. exfalso.
  assert (NoDup out) as Hn by (rewrite Hp; by eapply pending_nodup).
  assert (o = operation_view op) as ->.
  { apply (sequenced_unique st o (operation_view op) _ Hq); [| |done]; rewrite <- Hp, <- (take_drop 100 out); apply elem_of_app; auto. }
  rewrite <- (take_drop 100 out) in Hn. apply NoDup_app in Hn as (_ & Hn & _). by apply (Hn (operation_view op)).
Qed.

(** ** Answers *)

Lemma check_results_ids expected results :
  check_results expected results = Ok () → NoDup (map r_ID results) ∧ ∀ id, id ∈ map r_ID results → id ∈ expected.
Proof.
  revert expected. induction results as [|r results IH]; intros E H; cbn [check_results map] in *.
  { split; [constructor|]. by intros id ?%not_elem_of_nil. }
  destruct (bool_decide (r_ID r ∈ E)) eqn:B; [|done]. bools. destruct (existsb _ _); [|done].
  destruct (IH _ H) as [H1 H2]. split.
  - constructor; [|done]. intros Hin. apply H2 in Hin. set_solver.
  - intros id [->|Hid]%elem_of_cons; [done|]. apply H2 in Hid. set_solver.
Qed.

Lemma check_results_bijection sent results :
  length sent = length results → check_results (list_to_set (map op_ID sent)) results = Ok () →
  NoDup (map r_ID results) ∧ map r_ID results ≡ₚ map op_ID sent.
Proof.
  intros Hl H. apply check_results_ids in H as [H1 H2]. split; [done|].
  apply submseteq_length_Permutation; [|by rewrite !length_map, Hl].
  apply NoDup_submseteq; [done|]. intros id Hid. apply H2 in Hid. by apply elem_of_list_to_set in Hid.
Qed.

Lemma last_index_lookup id l i : last_index id l = Some i → ∃ op, l !! i = Some op ∧ so_ID op = id.
Proof.
  revert i. induction l as [|op l IH]; intros i H; cbn [last_index] in H; [done|].
  destruct (last_index id l) as [j|].
  - injection H as <-. by apply IH.
  - destruct (bool_decide (so_ID op = id)) eqn:B; [|done]. bools. injection H as <-. by exists op.
Qed.

(** The answers, one after the other: each one's operation was pending and takes the
    answer's status, and the others stay. *)
Lemma save_results_spec byID results : ∀ ops ops',
  (∀ r1 r2 i, r1 ∈ results → r2 ∈ results → byID (r_ID r1) = Some i → byID (r_ID r2) = Some i → r_ID r1 = r_ID r2) →
  NoDup (map r_ID results) →
  fold_res (save_result byID) ops results = Ok ops' →
  (∀ r, r ∈ results → ∃ i op raw, byID (r_ID r) = Some i ∧ ops !! i = Some op ∧ pending_state (so_State op) = true
     ∧ ops' !! i = Some (with_result op (r_Status r) raw) ∧ encode_result r = Ok raw)
  ∧ (∀ i, (∀ r, r ∈ results → byID (r_ID r) ≠ Some i) → ops' !! i = ops !! i).
Proof.
  induction results as [|r results IH]; intros ops ops' Hinj Hn H; cbn [fold_res map] in *.
  { injection H as <-. split; [by intros r ?%not_elem_of_nil|done]. }
  inversion_clear Hn as [|? ? Hr Hrs].
  destruct (save_result byID ops r) as [ops1|] eqn:E; [|done].
  apply save_result_inv in E as (i & cur & raw & Hi & Hcur & Hp & Hraw & ->).
  destruct (IH _ _ ltac:(intros r1 r2 j ? ?; apply Hinj; by right) Hrs H) as [H1 H2].
  assert (∀ r', r' ∈ results → byID (r_ID r') ≠ Some i) as Hne.
  { intros r' Hr' E. apply Hr. rewrite (Hinj r r' i); [by apply list_elem_of_In, in_map, list_elem_of_In|left|by right|done..]. }
  split.
  - intros r' [->|Hr']%elem_of_cons.
    + exists i, cur, raw. rewrite (H2 i Hne), list_lookup_insert_eq by (by eapply lookup_lt_Some). done.
    + destruct (H1 r' Hr') as (j & op & raw' & Hj & Hop & Hpend & Hnew & Hraw').
      assert (i ≠ j) by (intros ->; by apply (Hne r' Hr')). rewrite list_lookup_insert_ne in Hop by done. eauto 10.
  - intros j Hj. rewrite H2 by (intros r' ?; apply Hj; by right). apply list_lookup_insert_ne.
    intros ->. apply (Hj r); [left|done].
Qed.

(** C14: the server's answers are taken in as a whole.  When [SaveResults] succeeds the
    answers are a bijection with the batch that was sent: no identifier twice, and the same
    identifiers; every answer's operation was pending and now has the answer's status and
    everything else it had; every operation that no answer names is untouched.  When it
    fails, for whatever reason, nothing changes. *)
Theorem SaveResults_bijection io ctx s sent results :
  let o := SaveResults io ctx s sent results in
  match tx_res o with
  | Err _ => s_state (tx_store o) = s_state s
  | Ok _ =>
      NoDup (map r_ID results) ∧ map r_ID results ≡ₚ map op_ID sent
      ∧ (∀ r, r ∈ results → ∃ i op raw, Outbox (s_state s) !! i = Some op ∧ so_ID op = r_ID r
           ∧ pending_state (so_State op) = true
           ∧ Outbox (s_state (tx_store o)) !! i = Some (with_result op (r_Status r) raw))
      ∧ (∀ i op, Outbox (s_state s) !! i = Some op → so_ID op ∉ map r_ID results →
           Outbox (s_state (tx_store o)) !! i = Some op)
      ∧ Entities (s_state (tx_store o)) = Entities (s_state s)
  end.
Proof.
  cbv zeta. unfold SaveResults. destruct (length sent =? length results)%nat eqn:L; [|done]. apply Nat.eqb_eq in L.
  destruct (check_results _ results) as [[]|] eqn:C; [|done]. cbn [negb].
  destruct (check_results_bijection sent results L C) as [Hn Hp].
  destruct (tx_res (withTx io ctx s (SaveResults_body results))) as [u|e] eqn:E; [|by apply withTx_err in E].
  apply withTx_ok in E. revert E. unfold SaveResults_body. set (st := s_state s).
  set (byID := λ id, last_index id (Outbox st)).
  destruct (fold_res (save_result byID) (Outbox st) results) as [ops|] eqn:F; [|done]. intros [= _ <-].
  cbn [Outbox Entities set_Outbox].
  assert (∀ id i, byID id = Some i → ∃ op, Outbox st !! i = Some op ∧ so_ID op = id) as Hby by (intros id i; apply last_index_lookup).
  apply save_results_spec in F as [F1 F2]; [| |done].
  2:{ intros r1 r2 i _ _ (a & Ha & <-)%Hby (b & Hb & <-)%Hby. congruence. }
  split; [done|]. split; [done|]. split; [|split; [|done]].
  - intros r Hr. destruct (F1 r Hr) as (i & op & raw & Hi & Hop & Hpend & Hnew & _).
    destruct (Hby _ _ Hi) as (op' & Hop' & Hid). exists i, op, raw. split_and!; auto. congruence.
  - intros i op Hi Hnot. rewrite F2; [done|]. intros r Hr (op' & Hop' & Hid)%Hby. apply Hnot.
    rewrite Hi in Hop'. injection Hop' as <-. rewrite Hid. by apply list_elem_of_In, in_map, list_elem_of_In.
Qed.

(** ** What the editor lets through *)

Lemma all_res_ok {A} (f : A → res unit) l : is_ok (all_res f l) = forallb (λ x, is_ok (f x)) l.
Proof. induction l as [|x l IH]; cbn [all_res forallb]; [done|]. by destruct (f x). Qed.

Lemma forallb_perm {A} (f : A → bool) l k : l ≡ₚ k → forallb f l = forallb f k.
Proof. intros H. apply eq_true_iff_eq. rewrite !forallb_forall. setoid_rewrite <- list_elem_of_In. by setoid_rewrite H. Qed.

Lemma raw_map_last l : ∀ (m : gmap string string) k,
  foldl (λ m p, <[p.1 := p.2]> m) m l !! k = match last_of k l with Some v => Some v | None => m !! k end.
Proof.
  induction l as [|[j v] l IH]; intros m k; cbn [foldl last_of]; [done|]. rewrite IH. cbn [fst snd].
  destruct (last_of k l); [done|]. case_bool_decide; [subst; by rewrite lookup_insert_eq|by rewrite lookup_insert_ne].
Qed.

Lemma check_field_sound kind action fields key value :
  is_ok (check_field kind action fields key value) = true →
  ∃ typ, last_of key fields = Some typ
    ∧ (kind = "ingredient" → key = "base_unit" → action = "create")
    ∧ (typ = "bool" → is_Some (unmarshal_bool value))
    ∧ (typ = "decimal" → ∃ str, decimalPattern str = true ∧ (value = str ∨ unmarshal_string value = Some str))
    ∧ (typ = "uuid" → ∃ str, unmarshal_string value = Some str ∧ uuidPattern str = true).
Proof.
  unfold check_field. destruct (last_of key fields) as [typ|]; [|done].
  destruct (negb (_ && _ && _)) eqn:Eu; [|done]. intros H. exists typ. split; [done|]. split.
  { intros -> ->. apply negb_true_iff in Eu. rewrite !bool_decide_true in Eu by done. by destruct (bool_decide (action = "create")) eqn:E; bools. }
  destruct (bool_decide (typ = "bool")) eqn:Eb; bools.
  { subst. split; [|done]. intros _. destruct (negb (bool_decide (value = "null"))); [|done]. destruct (unmarshal_bool value); [by eexists|done]. }
  destruct (bool_decide (typ = "decimal")) eqn:Ed; bools.
  { subst. split; [done|]. split; [|done]. intros _. destruct (HasPrefix value _).
    - destruct (unmarshal_string value) as [str|]; [|done]. exists str. destruct (decimalPattern str); [auto|done].
    - exists value. destruct (decimalPattern value); [auto|done]. }
  split; [done|]. split; [done|]. intros ->. destruct (negb (bool_decide (value = "null"))); [|done].
  destruct (unmarshal_string value) as [str|]; [|done]. exists str. split; [done|].
  destruct (_ <=? 2000)%Z; [|done].
  destruct (negb ((bool_decide (key = "title") || bool_decide (key = "name")) && sempty (TrimSpace str))); [|done].
  rewrite (bool_decide_true ("uuid" = "uuid")) in H by done. by destruct (uuidPattern str).
Qed.

(** what may be queued.  An edit passes [validateIntent] whatever order the runtime
    checks its fields in, or for none; and then it is a create, an update or a delete of one
    of the four catalog kinds, not above 64 KiB, a delete says nothing, and any other edit
    says something and names only fields of the kind's list, so no absolute stock, price
    settlement or status can be queued: the unit of an ingredient only when it is created,
    decimals in the exact pattern, identifiers in the pattern of UUIDs, flags as booleans. *)
Theorem validateIntent_sound R R' kind action raw :
  is_ok (validateIntent R kind action raw) = is_ok (validateIntent R' kind action raw)
  ∧ (is_ok (validateIntent R kind action raw) = true →
     ∃ fields l, catalogFields kind = Some fields ∧ unmarshal_rawmap raw = Some (Some l)
       ∧ action ∈ ["create"; "update"; "delete"]%stdpp ∧ (Z.of_nat (String.length raw) <= 65536)%Z
       ∧ (action = "delete" → raw_map l = ∅)
       ∧ (action ≠ "delete" → raw_map l ≠ ∅ ∧ ∀ key value, last_of key l = Some value →
            ∃ typ, last_of key fields = Some typ
              ∧ (kind = "ingredient" → key = "base_unit" → action = "create")
              ∧ (typ = "bool" → is_Some (unmarshal_bool value))
              ∧ (typ = "decimal" → ∃ str, decimalPattern str = true ∧ (value = str ∨ unmarshal_string value = Some str))
              ∧ (typ = "uuid" → ∃ str, unmarshal_string value = Some str ∧ uuidPattern str = true))
       ∧ (action = "create" → ∀ key, key ∈ required_fields kind → is_Some (last_of key l))).
Proof.
  unfold validateIntent. destruct (catalogFields kind) as [fields|]; [|done].
  destruct (existsb (String.eqb action) _) eqn:Ea; [|done].
  destruct (Z.of_nat (String.length raw) <=? 65536)%Z eqn:El; [|done].
  destruct (unmarshal_rawmap raw) as [[l|]|]; [|done..].
  set (check := λ p : string * string, check_field kind action fields p.1 p.2).
  assert (is_ok (all_res check (iter R 0 (raw_map l))) = is_ok (all_res check (iter R' 0 (raw_map l)))) as Ep.
  { rewrite !all_res_ok. apply forallb_perm. by rewrite !iter_perm. }
  split.
  { destruct (bool_decide (action = "delete")); [done|]. destruct (negb _); [|done].
    destruct (all_res check (iter R 0 _)), (all_res check (iter R' 0 _)); done. }
  clear Ep. intros H. exists fields, l. split; [done|]. split; [done|].
  split. { apply existsb_exists in Ea as (t & Ht & ->%String.eqb_eq). by apply list_elem_of_In. }
  split; [lia|].
  assert (∀ key, raw_map l !! key = last_of key l) as Hl.
  { intros key. unfold raw_map. rewrite raw_map_last, lookup_empty. by destruct (last_of key l). }
  destruct (bool_decide (action = "delete")) eqn:Ed; bools.
  { subst. split; [intros _; by destruct (bool_decide (raw_map l = ∅)) eqn:E; bools|]. done. }
  destruct (bool_decide (raw_map l = ∅)) eqn:Ee; [done|]. bools. cbn [negb] in H.
  destruct (all_res check _) as [[]|] eqn:Ec; [|done].
  split; [done|]. split.
  - intros _. split; [done|]. intros key value Hk. apply check_field_sound.
    apply (f_equal is_ok) in Ec. rewrite all_res_ok, forallb_forall in Ec. apply (Ec (key, value)).
    apply list_elem_of_In. rewrite iter_perm. apply elem_of_map_to_list. by rewrite Hl.
  - intros Ha. rewrite (bool_decide_true (action = "create") Ha), all_res_ok, forallb_forall in H. intros key Hk. rewrite <- Hl.
    apply list_elem_of_In, H in Hk. by destruct (bool_decide _) eqn:B; bools.
Qed.

(** ** Concrete runs *)

Definition a_bound : persistedDB := set_Meta (<["scope" := "https://api|d"]>) newEmptyDB.

Definition an_op : storedOperation :=
  {| so_ID := "o1"; so_Sequence := 1; so_EntityType := "category"; so_EntityID := "c1"; so_Action := "create";
     so_BaseVersion := None; so_DependsOn := []; so_Payload := "{}"; so_CreatedAt := FormatRFC3339Nano 0;
     so_State := "queued"; so_Result := "{}" |}.

Definition a_queue : persistedDB := set_Outbox [an_op] 1 a_bound.

Definition a_conflict : persistedDB :=
  set_Outbox [with_result an_op "conflict" (object_text [("operation_id", quote "o1"); ("status", quote "conflict"); ("error", "null")])] 1 a_bound.

Lemma a_queue_reached : rtc queue_step newEmptyDB a_queue.
Proof.
  apply rtc_l with a_bound; [apply (step_bind "https://api|d"); reflexivity|]. apply rtc_once.
  apply (step_queue 0 "category" "c1" "create" "{}" "o1" 0); [unfold two63; simpl; lia|simpl; lia|reflexivity].
Qed.

Lemma a_conflict_step : queue_step a_queue a_conflict.
Proof.
  apply (step_results {[ "o1" ]} [{| r_ID := "o1"; r_Status := "conflict"; r_Error := EmptyString |}]); reflexivity.
Qed.

Lemma queue_history_witness :
  rtc queue_step a_queue a_conflict ∧ ∃ b, Outbox a_conflict !! 0%nat = Some b ∧ rtc op_step "queued" (so_State b).
Proof.
  split; [exact (rtc_once _ _ a_conflict_step)|].
  destruct (queue_history a_queue a_conflict (rtc_once _ _ a_conflict_step) 0 an_op eq_refl) as (b & H1 & _ & H2 & _).
  by exists b.
Defined.

Lemma queue_invariant_witness : rtc queue_step newEmptyDB a_queue ∧ queue_ok a_queue.
Proof. split; [exact a_queue_reached|]. exact (queue_invariant a_queue a_queue_reached). Defined.

Lemma a_queue_ok : queue_ok a_queue.
Proof.
  split; [split; [repeat constructor|constructor; [simpl; lia|constructor]]|].
  intros [|i] [|j] a b Ha Hb; [done|discriminate Hb|discriminate Ha|discriminate Ha].
Qed.

Lemma Outbox_pending_prefix_witness :
  queue_ok a_queue ∧ length (Outbox_of plain_runtime true a_queue) ≤ 100.
Proof.
  split; [exact a_queue_ok|].
  exact (proj1 (proj2 (proj2 (Outbox_pending_prefix plain_runtime plain_runtime a_queue a_queue_ok)))).
Defined.
