(* ===== verification/Records.v ===== *)
(** * Local records

    Models the generic part of [offline-menuvex/internal/store/domains.go]: payloads read
    into a map, changed and written back, the validation of money fields, saving and
    deleting a record of any kind, and settling a debtor's account. *)
From S2P Require Import Prelude GoStrings GoFloat GoJson GoJsonFacts GoTime Store Entities EntityView.

(** ** Payloads as maps

    [var m map[string]any; json.Unmarshal(payload, &m)]: a payload that is the text [null]
    leaves the nil map, which can be read but not assigned to. *)
Definition unmarshal_error : string := "json: cannot unmarshal payload".
Definition nil_map_panic : string := "panic: assignment to entry in nil map".

(** [if err := json.Unmarshal(payload, &m); err != nil { return err }] *)
Definition load_map (payload : string) : res (option gomap) :=
  match unmarshal_map payload with (m, true) => Ok m | (_, false) => Err unmarshal_error end.

(** The map at its first assignment. *)
Definition assignable (m : option gomap) : res gomap :=
  match m with Some m => Ok m | None => Err nil_map_panic end.

(** [m[k]] of a map that may be nil. *)
Definition oget (k : string) (m : option gomap) : goany := match m with Some m => aget k m | None => ANil end.

(** [if json.Unmarshal(p, &m) == nil { ...m changed...; if b, err := json.Marshal(m); err ==
    nil { e.Version++; e.Payload = b; st.Entities[key] = e } }] *)
Definition edit_payload (key : string) (e : storedEntity) (f : gomap → gomap) (st : persistedDB) : res persistedDB :=
  match load_map (se_Payload e) with
  | Err _ => Ok st
  | Ok m =>
      let? m := assignable m in
      match json_Marshal (AMap (f m)) with
      | Ok b => Ok (put key (bump e b) st)
      | Err _ => Ok st
      end
  end.

(** ** Validation *)

(* domains.go:76-90 validateLocalFields *)
Definition parseNonNegative (fields : gomap) (key : string) : res unit :=
  match aget key fields with
  | ANil => Ok ()
  | raw =>
      let str := TrimSpace (Sprint raw) in
      if sempty str then Ok ()
      else match SetString10 (SplitN2 "." str).1 with
           | Some bi => guard? (0 <=? bi)%Z else "مقدار فیلد «" +:+ key +:+ "» باید عددی و نامنفی باشد" in Ok ()
           | None => Err ("مقدار فیلد «" +:+ key +:+ "» باید عددی و نامنفی باشد")
           end
  end.

Fixpoint check_all {A} (f : A → res unit) (l : list A) : res unit :=
  match l with [] => Ok () | x :: l => let? _ := f x in check_all f l end.

(** The money and stock fields of a kind. *)
Definition guarded_fields (kind : string) : list string :=
  switch kind
    [(["product"], ["price"; "cost"]);
     (["ingredient"], ["current_stock"; "minimum_stock"; "reorder_point"; "average_cost"]);
     (["debtor"], ["total"; "paid"; "remaining"]);
     (["expense"], ["price"])]%stdpp [].

(* domains.go validateLocalFields *)
Definition validateLocalFields (kind : string) (fields : gomap) : res unit :=
  check_all (parseNonNegative fields) (guarded_fields kind).

(** ** Saving and deleting *)

(** [for k, v := range fields { merged[k] = v }] *)
Definition assign_all (fields m : gomap) : gomap := foldl (λ m p, aset p.1 p.2 m) m fields.

Definition is_nil (a : goany) : bool := match a with ANil => true | _ => false end.

(* domains.go:137-172 Store.SaveLocalRecord *)
Definition SaveLocalRecord_body (now kind id : string) (isNew : bool) (fields : gomap) (st : persistedDB)
    : res (unit * persistedDB) :=
  let key := entityKey kind id in
  let existing := Entities st !! key in
  let? (merged, isNew) :=
    match live st kind id with
    | Some e =>
        match unmarshal_map (se_Payload e) with
        | (Some m, _) => Ok (m, isNew)
        | (None, true) => Err nil_map_panic
        | (None, false) => Ok ([], isNew)
        end
    | None => Ok ([], true)
    end in
  let merged := assign_all fields merged in
  let merged := aset "id" (AStr id) merged in
  let merged := if isNew || is_nil (aget "created_at" merged) then aset "created_at" (AStr now) merged else merged in
  let merged := aset "updated_at" (AStr now) merged in
  let nextVer := match existing with
                 | Some e => if (1 <=? se_Version e)%Z then wrap64 (se_Version e + 1) else 1%Z
                 | None => 1%Z
                 end in
  let merged := aset "version" (AInt nextVer) merged in
  let? raw := json_Marshal (AMap merged) in
  Ok ((), put key {| se_ID := id; se_Type := kind; se_Version := nextVer; se_Deleted := false; se_Payload := raw |} st).

(** A transaction whose caller gets [a] when it commits. *)
Definition returning {A B} (a : A) (o : tx_out B) : tx_out A :=
  {| tx_res := (let? _ := tx_res o in Ok a); tx_store := tx_store o; tx_calls := tx_calls o |}.

(* domains.go Store.SaveLocalRecord *)
Definition SaveLocalRecord (io : IO) (ctx : option string) (s : Store) (g : entropy) (now : Z)
    (kind id : string) (fields : gomap) : tx_out string :=
  if sempty (TrimSpace kind) then tx_fail "نوع موجودیت مشخص نشده است" s
  else match validateLocalFields kind fields with
       | Err e => tx_fail e s
       | Ok _ =>
           let '(id', isNew) := (if sempty (TrimSpace id) then ((UUID g).1, true) else (Ok id, false)) in
           match id' with
           | Err e => tx_fail e s
           | Ok id => returning id (withTx io ctx s (SaveLocalRecord_body (FormatRFC3339 now) kind id isNew fields))
           end
       end.

(* domains.go:185-196 Store.DeleteLocalRecord *)
Definition DeleteLocalRecord_body (kind id : string) (st : persistedDB) : res (unit * persistedDB) :=
  match live st kind id with
  | None => Err "رکورد مورد نظر یافت نشد"
  | Some e =>
      Ok ((), put (entityKey kind id)
                {| se_ID := se_ID e; se_Type := se_Type e; se_Version := wrap64 (se_Version e + 1);
                   se_Deleted := true; se_Payload := se_Payload e |} st)
  end.

(* domains.go Store.DeleteLocalRecord *)
Definition DeleteLocalRecord (io : IO) (ctx : option string) (s : Store) (kind id : string) : tx_out unit :=
  if sempty (TrimSpace kind) || sempty (TrimSpace id) then tx_fail "شناسه رکورد نامعتبر است" s
  else withTx io ctx s (DeleteLocalRecord_body kind id).

(** ** Debtors *)

(* domains.go:1440-1450 Store.SettleDebtorPayment *)
Definition settle (pay rem paid : Z) : Z * Z * string :=
  if (rem <=? pay)%Z then ((paid + rem)%Z, 0%Z, "paid"%stdpp) else ((paid + pay)%Z, (rem - pay)%Z, "partial"%stdpp).

(* domains.go:1430-1462 Store.SettleDebtorPayment *)
Definition SettleDebtorPayment_body (now debtorID : string) (pay : Z) (st : persistedDB) : res (unit * persistedDB) :=
  match live st "debtor" debtorID with
  | None => Err "حساب دفتری مورد نظر یافت نشد"
  | Some e =>
      let? dm := load_map (se_Payload e) in
      let ent := view e in
      let '(paid, rem, status) := settle pay (parseBigIntSafe (Field ent "remaining")) (parseBigIntSafe (Field ent "paid")) in
      let? dm := assignable dm in
      let dm := aset "status" (AStr status) dm in
      let dm := aset "paid" (AStr (Z_to_dec paid)) dm in
      let dm := aset "remaining" (AStr (Z_to_dec rem)) dm in
      let dm := aset "updated_at" (AStr now) dm in
      let? b := json_Marshal (AMap dm) in
      Ok ((), put (entityKey "debtor" debtorID) (bump e b) st)
  end.

(* domains.go Store.SettleDebtorPayment *)
Definition SettleDebtorPayment (io : IO) (ctx : option string) (s : Store) (now : Z) (debtorID amountIRR : string) : tx_out unit :=
  let pay := parseBigIntSafe amountIRR in
  if (pay <=? 0)%Z then tx_fail "مبلغ تسویه باید بزرگ‌تر از صفر باشد" s
  else withTx io ctx s (SettleDebtorPayment_body (FormatRFC3339 now) debtorID pay).

(** ** Facts on payload maps *)

Lemma load_map_good payload m : load_map payload = Ok (Some m) → good_map m.
Proof.
  unfold load_map. destruct (unmarshal_map payload) as [o ok] eqn:E. destruct ok; [|done]. intros [= ->].
  by eapply unmarshal_map_good.
Qed.

Lemma assignable_ok o m : assignable o = Ok m → o = Some m.
Proof. destruct o; [by intros [= ->]|done]. Qed.

Lemma json_Marshal_ok a t : json_Marshal a = Ok t → t = marshal a.
Proof. unfold json_Marshal. destruct (marshal_ok a); [by intros [= <-]|done]. Qed.

Lemma json_Marshal_good m : good_map m → json_Marshal (AMap m) = Ok (marshal (AMap m)).
Proof. intros [_ H]. unfold json_Marshal. by rewrite wf_marshal_ok. Qed.

(** Texts put into a map that can be written leave it so, valid UTF-8 or not. *)
Lemma marshal_ok_aset k v m : marshal_ok (AMap m) = true → marshal_ok v = true → marshal_ok (AMap (aset k v m)) = true.
Proof.
  cbn [marshal_ok]. intros Hm Hv. unfold aset. destruct (ahas k m).
  - induction m as [|[j w] m IH]; [done|]. cbn [areplace forallb snd] in *. bools.
    case_bool_decide; cbn [forallb snd]; rewrite ?Hv, ?H, ?H0; cbn; auto.
  - induction m as [|[j w] m IH]; cbn [ainsert forallb snd] in *; [by rewrite Hv|]. bools.
    destruct (String.ltb k j); cbn [forallb snd]; rewrite ?Hv, ?H, ?H0; cbn; auto.
Qed.

Lemma json_Marshal_aset k v m :
  good_map m → marshal_ok v = true → json_Marshal (AMap (aset k v m)) = Ok (marshal (AMap (aset k v m))).
Proof. intros [_ H] Hv. unfold json_Marshal. by rewrite marshal_ok_aset by (done || by apply wf_marshal_ok). Qed.

Lemma parseBigIntSafe_dec z : parseBigIntSafe (Z_to_dec z) = z.
Proof.
  unfold parseBigIntSafe. rewrite TrimSpace_Z_to_dec, SplitN2_Z_to_dec. cbn [fst]. rewrite SetString10_Z_to_dec.
  destruct (sempty (Z_to_dec z)) eqn:E; [|done]. apply sempty_true in E. by apply Z_to_dec_nonempty in E.
Qed.

Lemma good_aset_str k s m : good_map m → utf8_valid k = true → utf8_valid s = true → good_map (aset k (AStr s) m).
Proof. intros. by apply good_aset. Qed.

Lemma good_aset_dec k z m : good_map m → utf8_valid k = true → good_map (aset k (AStr (Z_to_dec z)) m).
Proof. intros. apply good_aset; [done|done|apply Z_to_dec_valid]. Qed.

Create HintDb go_frame.
#[export] Hint Resolve load_map_good good_aset_str good_aset_dec Z_to_dec_valid : go_json.

(** The money a field of a written payload holds. *)
Definition money (e : storedEntity) (k : string) : Z := parseBigIntSafe (Field (view e) k).

Lemma money_marshal e m k z :
  se_Payload e = marshal (AMap m) → good_map m → aget k m = AStr (Z_to_dec z) → money e k = z.
Proof.
  intros He Hm Hk. unfold money. rewrite (Field_marshal_str (view e) m k (Z_to_dec z)); [apply parseBigIntSafe_dec|done..].
Qed.

Lemma text_marshal e m k s :
  se_Payload e = marshal (AMap m) → good_map m → aget k m = AStr s → Field (view e) k = s.
Proof. intros He Hm Hk. by apply (Field_marshal_str (view e) m). Qed.

(** Reading a value out of a chain of assignments. *)
Ltac agets := rewrite ?aget_aset_eq; repeat (rewrite aget_aset_ne by discriminate); rewrite ?aget_aset_eq; try done.

Lemma live_some st kind id e : live st kind id = Some e → Entities st !! entityKey kind id = Some e ∧ se_Deleted e = false.
Proof. unfold live. destruct (Entities st !! _) as [e'|]; [|done]. destruct (se_Deleted e') eqn:D; [done|]. by intros [= ->]. Qed.

Lemma well_keyed_live st kind id e : well_keyed st → no_nul kind = true → no_nul (se_Type e) = true →
  live st kind id = Some e → se_Type e = kind ∧ se_ID e = id.
Proof.
  intros Hk Hn Ht H. apply live_some in H as [H _]. apply Hk in H. simpl in H.
  by destruct (entityKey_inj _ _ _ _ Hn Ht H).
Qed.

(** Reading a map literal: the last entry of a key. *)
Fixpoint literal_get (k : string) (l : gomap) : goany :=
  match l with
  | [] => ANil
  | (j, v) :: r => if existsb (λ p, String.eqb k p.1) r then literal_get k r
                   else if String.eqb k j then v else ANil
  end.

Lemma aget_amap k l : aget k (amap l) = literal_get k l.
Proof.
  unfold amap. assert (∀ m, aget k (foldl (λ m '(k, v), aset k v m) m l)
    = if existsb (λ p, String.eqb k p.1) l then literal_get k l else aget k m) as H.
  { induction l as [|[j v] l IH]; intros m; cbn [foldl existsb literal_get fst]; [done|]. rewrite IH.
    destruct (existsb _ l); [by rewrite orb_true_r|]. rewrite orb_false_r, aget_aset, string_eqb.
    by repeat case_bool_decide; subst. }
  rewrite H. destruct (existsb _ l) eqn:E; [done|]. clear H.
  induction l as [|[j v] l IH]; [done|]. cbn [existsb literal_get fst] in *. bools. by rewrite H, H0.
Qed.

Ltac amaps := rewrite aget_amap; cbn [literal_get existsb fst snd app String.eqb Ascii.eqb Bool.eqb orb]; reflexivity.

(** ** What an operation leaves alone *)

(** Only entities filed under the given kinds change, and nothing but entities. *)
Record frame (kinds : list string) (st st' : persistedDB) : Prop := {
  frame_get : ∀ kind id, no_nul kind = true → kind ∉ kinds →
    Entities st' !! entityKey kind id = Entities st !! entityKey kind id;
  frame_rest : st' = set_Entities (λ _, Entities st') st;
  frame_keyed : well_keyed st → well_keyed st';
}.

Lemma frame_refl kinds st : frame kinds st st.
Proof. split; [done|by destruct st|done]. Qed.

Lemma frame_trans kinds st1 st2 st3 : frame kinds st1 st2 → frame kinds st2 st3 → frame kinds st1 st3.
Proof.
  intros [A1 B1 C1] [A2 B2 C2]. split; [|by rewrite B2, B1|auto].
  intros kind id H1 H2. by rewrite A2, A1.
Qed.

Lemma frame_weaken kinds kinds' st st' : kinds ⊆ kinds' → frame kinds st st' → frame kinds' st st'.
Proof. intros H [A B C]. split; auto. Qed.

Lemma frame_put kinds kind id e st :
  no_nul kind = true → kind ∈ kinds → (well_keyed st → se_Type e = kind ∧ se_ID e = id) →
  frame kinds st (put (entityKey kind id) e st).
Proof.
  intros Hn Hin Hk. split; [|done|].
  - intros k i Hk' Hnot. cbn. rewrite lookup_insert_ne; [done|]. intros E.
    apply entityKey_inj in E as [-> _]; done.
  - intros H. destruct (Hk H) as [<- <-]. by apply well_keyed_put.
Qed.

Lemma frame_bump kinds kind id e b st :
  no_nul kind = true → kind ∈ kinds → Entities st !! entityKey kind id = Some e →
  frame kinds st (put (entityKey kind id) (bump e b) st).
Proof.
  intros Hn Hin He. split; [|done|].
  - intros k i Hk' Hnot. cbn. rewrite lookup_insert_ne; [done|]. intros E.
    apply entityKey_inj in E as [-> _]; done.
  - intros H. apply map_Forall_insert_2; [|done]. cbn. by apply H in He.
Qed.

Lemma frame_edit kinds kind id e f st st' :
  no_nul kind = true → kind ∈ kinds → Entities st !! entityKey kind id = Some e →
  edit_payload (entityKey kind id) e f st = Ok st' → frame kinds st st'.
Proof.
  intros Hn Hin He. unfold edit_payload. destruct (load_map (se_Payload e)) as [m|]; [|intros [= <-]; apply frame_refl].
  destruct (assignable m); [|done]. destruct (json_Marshal _); intros [= <-]; [by apply frame_bump|apply frame_refl].
Qed.

#[export] Hint Resolve frame_refl : go_frame.

(** ** Saving *)

Lemma aget_assign_all fields m k : NoDup fields.*1 →
  aget k (assign_all fields m) = if ahas k fields then aget k fields else aget k m.
Proof.
  unfold assign_all. revert m. induction fields as [|[j v] fields IH]; intros m Hn; [done|].
  rewrite fmap_cons in Hn. inversion_clear Hn as [|? ? Hj Hd]. cbn [foldl fst snd]. rewrite IH by done.
  unfold ahas. cbn [existsb fst aget]. fold (ahas k fields). rewrite aget_aset.
  destruct (ahas k fields) eqn:A.
  - rewrite orb_true_r. apply ahas_elem in A. rewrite bool_decide_false; [done|congruence].
  - rewrite orb_false_r. by case_bool_decide.
Qed.

(** The map a save starts from. *)
Definition old_map (st : persistedDB) (kind id : string) : gomap :=
  match live st kind id with
  | Some e => default [] (unmarshal_map (se_Payload e)).1
  | None => []
  end.

Lemma old_map_good st kind id : good_map (old_map st kind id).
Proof.
  unfold old_map. destruct (live st kind id); [|apply good_nil]. destruct (unmarshal_map _) as [[m|] ok] eqn:E; cbn; [|apply good_nil].
  by eapply unmarshal_map_good.
Qed.

Lemma good_assign_all fields m : good_map m → good_map fields → good_map (assign_all fields m).
Proof.
  unfold assign_all. intros Hm [_ Hf]. cbn [wf_any] in Hf. revert m Hm. induction fields as [|[k v] fields IH]; intros m Hm; [done|].
  cbn [forallb foldl fst snd] in *. apply andb_true_iff in Hf as [Hkv Hf]. apply andb_true_iff in Hkv as [Hk Hv]. apply IH; [done|]. by apply good_aset.
Qed.

Definition system_fields : list string := ["id"; "version"; "updated_at"; "created_at"].

(** saving a record.  A save changes the one entity under its own key and nothing else:
    it is live, has the record's type and identifier, and its payload is the old payload
    (or nothing, for a new or deleted record) overwritten by the given fields, with the
    identifier, the time and the version set by the program; an existing record keeps its
    creation time unless the caller gives one; and the version goes up by one. *)
Theorem SaveLocalRecord_spec now kind id isNew fields st st' :
  NoDup fields.*1 →
  SaveLocalRecord_body now kind id isNew fields st = Ok ((), st') →
  ∃ e m, st' = put (entityKey kind id) e st
    ∧ se_ID e = id ∧ se_Type e = kind ∧ se_Deleted e = false ∧ se_Payload e = marshal (AMap m)
    ∧ aget "id" m = AStr id ∧ aget "version" m = AInt (se_Version e) ∧ aget "updated_at" m = AStr now
    ∧ (∀ k, k ∉ system_fields → aget k m = if ahas k fields then aget k fields else aget k (old_map st kind id))
    ∧ (is_Some (live st kind id) → isNew = false → ahas "created_at" fields = false →
         aget "created_at" (old_map st kind id) ≠ ANil → aget "created_at" m = aget "created_at" (old_map st kind id))
    ∧ (good_map fields → utf8_valid id = true → utf8_valid now = true → good_map m)
    ∧ (∀ old, Entities st !! entityKey kind id = Some old → (1 <= se_Version old < two63 - 1)%Z →
         se_Version e = (se_Version old + 1)%Z).
Proof.
  intros Hn. unfold SaveLocalRecord_body. intros H.
  assert (∃ new0, match live st kind id with
    | Some e => match unmarshal_map (se_Payload e) with
                | (Some m, _) => Ok (m, isNew) | (None, true) => Err nil_map_panic | (None, false) => Ok ([], isNew) end
    | None => Ok ([], true) end = Ok (old_map st kind id, new0) ∧ (is_Some (live st kind id) → new0 = isNew)) as (new0 & E & Hnew).
  { revert H. unfold old_map. destruct (live st kind id) as [e|] eqn:L.
    - destruct (unmarshal_map (se_Payload e)) as [[m|] []]; cbn; [eauto..|done|eauto].
    - intros _. exists true. split; [done|]. by intros [? ?]. }
  rewrite E in H. clear E. set (m0 := assign_all fields (old_map st kind id)) in H. cbv zeta in H.
  set (nextVer := match Entities st !! entityKey kind id with Some e => _ | None => _ end) in H.
  set (cr := new0 || is_nil (aget "created_at" (aset "id" (AStr id) m0))) in H.
  set (m1 := if cr then _ else _) in H.
  destruct (json_Marshal _) as [raw|] eqn:M; [|done]. apply json_Marshal_ok in M. injection H as <-.
  eexists _, (aset "version" (AInt nextVer) (aset "updated_at" (AStr now) m1)).
  split; [reflexivity|]. cbn [se_ID se_Type se_Deleted se_Payload se_Version].
  do 3 (split; [done|]). split; [by rewrite M|].
  assert (∀ k, k ≠ "created_at" → aget k m1 = aget k (aset "id" (AStr id) m0)) as Hm1.
  { intros k Hk. subst m1. destruct cr; [|done]. by rewrite aget_aset_ne by congruence. }
  split; [agets; by rewrite Hm1, aget_aset_eq|]. split; [by agets|]. split; [by agets|]. split; [|split; [|split]].
  - intros k Hk. unfold system_fields in Hk. rewrite !not_elem_of_cons in Hk. destruct_and! Hk.
    rewrite !aget_aset_ne by congruence. rewrite Hm1, aget_aset_ne by congruence. subst m0. by apply aget_assign_all.
  - intros Hl -> Hf Hc. rewrite !aget_aset_ne by discriminate. subst m1.
    assert (aget "created_at" (aset "id" (AStr id) m0) = aget "created_at" (old_map st kind id)) as Ea.
    { rewrite aget_aset_ne by discriminate. subst m0. by rewrite aget_assign_all, Hf. }
    assert (cr = false) as ->; [|done]. subst cr. rewrite Hnew, Ea by done. by destruct (aget "created_at" (old_map st kind id)).
  - intros Hf Hid Hnow. assert (good_map m0) as G0 by (subst m0; apply good_assign_all; [apply old_map_good|done]).
    apply good_aset; [|done..]. apply good_aset_str; [|done..]. subst m1. destruct cr; [apply good_aset_str; [|done..]|]; by apply good_aset_str.
  - intros old Ho Hv. subst nextVer. rewrite Ho, (proj2 (Z.leb_le _ _)) by lia. apply wrap64_id. unfold in_int64. lia.
Qed.

(** deleting leaves a tombstone: the record can no longer be read, nothing else changes,
    and the tombstone keeps the identity and the payload and is one version further, so
    that no change of the deleted version or an earlier one can bring it back. *)
Theorem DeleteLocalRecord_tombstone kind id st st' :
  DeleteLocalRecord_body kind id st = Ok ((), st') →
  (∃ old e, Entities st !! entityKey kind id = Some old ∧ st' = put (entityKey kind id) e st
     ∧ se_Deleted e = true ∧ se_ID e = se_ID old ∧ se_Type e = se_Type old ∧ se_Payload e = se_Payload old
     ∧ se_Version e = wrap64 (se_Version old + 1))
  ∧ Entity_of kind id st' = Err "record not found"
  ∧ (∀ changes cursor st'', ApplyPage_body changes cursor st' = Ok ((), st'') →
       (∀ old, Entities st !! entityKey kind id = Some old → (0 <= se_Version old < two63 - 1)%Z →
        Forall (λ c, c_Version c <= se_Version old + 1)%Z changes → Entity_of kind id st'' = Err "record not found")).
Proof.
  unfold DeleteLocalRecord_body. destruct (live st kind id) as [old|] eqn:L; [|done]. intros [= <-].
  apply live_some in L as [L _]. split; [eexists _, _; split_and!; [exact L|reflexivity|done..]|]. split.
  { unfold Entity_of, live, put. cbn. by rewrite lookup_insert_eq. }
  intros changes cursor st'' H old' Ho Hv Hc. rewrite L in Ho. injection Ho as <-.
  unfold ApplyPage_body in H. destruct (applyChanges _ changes) as [s1|] eqn:E; [|done]. injection H as <-.
  apply applyChanges_shape in E as (_ & _ & E). unfold Entity_of, live. cbn. rewrite E. cbn. rewrite lookup_insert_eq.
  rewrite merge_below; [done| |]; cbn [se_Version]; rewrite wrap64_id by (unfold in_int64; lia); [lia|].
  apply Forall_forall. intros c Hin. apply list_elem_of_In, filter_In in Hin as [Hin _]. rewrite Forall_forall in Hc.
  apply list_elem_of_In in Hin. auto.
Qed.

(** ** Settling *)

(** C28: settling a debt.  A payment moves money from what remains to what is paid and
    nowhere else: their sum stays, a payment above the remainder takes just the remainder,
    the remainder never becomes negative or grows, and the account is marked paid exactly
    when nothing remains; of the rest of the database nothing changes. *)
Theorem SettleDebtorPayment_conserves now debtorID pay st st' :
  utf8_valid now = true → (0 < pay)%Z →
  SettleDebtorPayment_body now debtorID pay st = Ok ((), st') →
  ∃ old e, live st "debtor" debtorID = Some old ∧ st' = put (entityKey "debtor" debtorID) e st
    ∧ (money e "paid" + money e "remaining" = money old "paid" + money old "remaining")%Z
    ∧ ((0 <= money old "remaining")%Z →
         money e "remaining" = (money old "remaining" - Z.min pay (money old "remaining"))%Z
         ∧ (0 <= money e "remaining")%Z
         ∧ (Field (view e) "status" = "paid" ↔ money e "remaining" = 0%Z))
    ∧ se_Version e = wrap64 (se_Version old + 1) ∧ se_ID e = se_ID old ∧ se_Type e = se_Type old ∧ se_Deleted e = false.
Proof.
  intros Hnow Hpay. unfold SettleDebtorPayment_body. destruct (live st "debtor" debtorID) as [old|] eqn:L; [|done].
  destruct (load_map (se_Payload old)) as [dm|] eqn:Hm; [|done].
  fold (money old "remaining") (money old "paid").
  destruct (settle pay (money old "remaining") (money old "paid")) as [[paid rem] status] eqn:S.
  destruct (assignable dm) as [m|] eqn:A; [|done]. apply assignable_ok in A as ->.
  set (m' := aset "updated_at" _ _). assert (good_map m') as Hg.
  { apply good_aset_str; [|done|done]. apply good_aset_dec; [|done]. apply good_aset_dec; [|done].
    apply good_aset_str; [eauto with go_json|done|].
    unfold settle in S. destruct (_ <=? pay)%Z; by injection S as <- <- <-. }
  rewrite json_Marshal_good by done. intros [= <-].
  exists old, (bump old (marshal (AMap m'))). do 2 (split; [done|]).
  assert (money (bump old (marshal (AMap m'))) "paid" = paid) as ->.
  { apply (money_marshal _ m'); [done..|]. subst m'. by agets. }
  assert (money (bump old (marshal (AMap m'))) "remaining" = rem) as ->.
  { apply (money_marshal _ m'); [done..|]. subst m'. by agets. }
  assert (Field (view (bump old (marshal (AMap m')))) "status" = status) as ->.
  { apply (text_marshal _ m'); [done..|]. subst m'. by agets. }
  unfold settle in S. apply live_some in L as [_ L].
  destruct (money old "remaining" <=? pay)%Z eqn:C; injection S as <- <- <-; bools.
  - split; [lia|]. split; [intros _; split; [lia|]; split; [lia|done]|done].
  - split; [lia|]. split; [intros _; split; [lia|]; split; [lia|]; split; [done|lia]|done].
Qed.

(** ** Validation *)

Lemma check_all_ok {A} (f : A → res unit) l : check_all f l = Ok () → ∀ x, x ∈ l → f x = Ok ().
Proof.
  induction l as [|y l IH]; cbn [check_all]; intros H x; [by intros ?%not_elem_of_nil|].
  destruct (f y) as [[]|] eqn:E; [|done]. intros [->|Hx]%elem_of_cons; auto.
Qed.

(** the ledger's fields.  When [validateLocalFields] accepts the fields of a product, an
    ingredient, a debtor or an expense, every one of the kind's money and stock fields that
    was sent as a text is blank or a number whose whole part is not negative, and reads back
    so wherever the program reads it. *)
Theorem validateLocalFields_nonnegative kind fields :
  validateLocalFields kind fields = Ok () →
  ∀ key s, key ∈ guarded_fields kind → aget key fields = AStr s →
    (0 <= parseBigIntSafe s)%Z ∧ (TrimSpace s = EmptyString ∨ is_Some (SetString10 (SplitN2 "." (TrimSpace s)).1)).
Proof.
  intros H key s Hk Hs. apply (check_all_ok _ _ H) in Hk. revert Hk. unfold parseNonNegative, parseBigIntSafe.
  rewrite Hs. cbn [Sprint]. destruct (sempty (TrimSpace s)) eqn:E.
  { intros _. split; [done|]. left. by apply sempty_true. }
  destruct (SetString10 _) as [bi|] eqn:B; [|done]. destruct (0 <=? bi)%Z eqn:C; [|done]. intros _.
  split; [simpl; lia|]. right. by eexists.
Qed.

Lemma validateLocalFields_nonnegative_witness :
  validateLocalFields "product" [("price", AStr "12500")] = Ok () ∧ (0 <= parseBigIntSafe "12500")%Z.
Proof.
  split; [reflexivity|].
  refine (proj1 (validateLocalFields_nonnegative "product" [("price", AStr "12500")] _ "price" "12500" _ _));
    [reflexivity|left|reflexivity].
Defined.

(** amounts sent as JSON numbers.  The check reads the decoded number through
    [fmt.Sprint], which from a million on writes an exponent: the price 999999 passes, the
    price 1000000 is refused as not being a number. *)
Theorem validateLocalFields_refuses_million :
  validateLocalFields "product" [("price", AFloat (f64_of_Z 999999))] = Ok ()
  ∧ is_ok (validateLocalFields "product" [("price", AFloat (f64_of_Z 1000000))]) = false.
Proof. split; vm_compute; reflexivity. Qed.

(** ** Concrete runs *)

Definition a_record (kind id : string) (v : Z) (m : gomap) : storedEntity :=
  {| se_ID := id; se_Type := kind; se_Version := v; se_Deleted := false; se_Payload := marshal (AMap m) |}.

Definition a_ledger : persistedDB :=
  put (entityKey "debtor" "d1") (a_record "debtor" "d1" 3 [("paid", AStr "0"); ("remaining", AStr "70")]) newEmptyDB.

Lemma SaveLocalRecord_spec_witness :
  ∃ st' e, SaveLocalRecord_body "now" "debtor" "d1" false [("note", AStr "x")] a_ledger = Ok ((), st')
    ∧ Entities st' !! entityKey "debtor" "d1" = Some e ∧ se_Version e = 4%Z.
Proof.
  eexists. eexists. split; [reflexivity|]. split; [reflexivity|].
  assert (NoDup [("note", AStr "x")].*1) as Hn by (apply NoDup_singleton).
  destruct (SaveLocalRecord_spec "now" "debtor" "d1" false [("note", AStr "x")] a_ledger _ Hn eq_refl) as (e & m & _).
  reflexivity.
Defined.

Lemma DeleteLocalRecord_tombstone_witness :
  ∃ st', DeleteLocalRecord_body "debtor" "d1" a_ledger = Ok ((), st') ∧ Entity_of "debtor" "d1" st' = Err "record not found".
Proof.
  eexists. split; [reflexivity|].
  exact (proj1 (proj2 (DeleteLocalRecord_tombstone "debtor" "d1" a_ledger _ eq_refl))).
Defined.

(** The state a successful run leaves. *)
Definition run_state {A} (r : res (A * persistedDB)) : persistedDB :=
  match r with Ok (_, st) => st | Err _ => newEmptyDB end.

Lemma run_ok (r : res (unit * persistedDB)) : is_ok r = true → r = Ok ((), run_state r).
Proof. by destruct r as [[[] st]|]. Qed.

Lemma SettleDebtorPayment_conserves_witness :
  let r := SettleDebtorPayment_body "now" "d1" 50 a_ledger in
  is_ok r = true ∧ ∃ old e, live a_ledger "debtor" "d1" = Some old ∧ run_state r = put (entityKey "debtor" "d1") e a_ledger
    ∧ (money e "paid" + money e "remaining" = money old "paid" + money old "remaining")%Z.
Proof.
  intros r. assert (is_ok r = true) as H by (vm_compute; reflexivity). split; [exact H|].
  destruct (SettleDebtorPayment_conserves "now" "d1" 50 a_ledger (run_state r) eq_refl ltac:(lia) (run_ok r H))
    as (old & e & H1 & H2 & H3 & _).
  exists old, e. exact (conj H1 (conj H2 H3)).
Defined.
