(* ===== verification/Orders.v ===== *)
(** * Orders

    Models the orders of [offline-menuvex/internal/store/domains.go]: taking an order at the
    till, editing its lines, moving it to another table and moving it to the debtors.  Its
    states are in [OrderStates].  The time zone of Tehran comes from the tz database of the Go distribution: its offset from UTC at an
    instant is a parameter. *)
From S2P Require Import Prelude GoStrings GoFloat GoJson GoJsonFacts GoTime Store Entities EntityView Outbox Records.

(** ** Data *)

(* domains.go POSOrderLineInput *)
Record POSOrderLineInput := {
  pl_ProductID : string;
  pl_Quantity : Z;
  pl_Note : string;
}.

(* domains.go POSOrderInput *)
Record POSOrderInput := {
  po_ClientToken : string;
  po_FulfillmentType : string;
  po_TableID : string;
  po_CustomerID : string;
  po_CustomerName : string;
  po_CustomerPhone : string;
  po_CashierName : string;
  po_PaymentMethod : string;
  po_DiscountIRR : string;
  po_ExtraIRR : string;
  po_ExtraNote : string;
  po_DebtorDueAt : string;
  po_DebtorNote : string;
  po_DebtorKind : string;
  po_DebtorGroupID : string;
  po_Note : string;
  po_Items : list POSOrderLineInput;
}.

(* domains.go OrderItemsUpdate *)
Record OrderItemsUpdate := {
  ou_Lines : list POSOrderLineInput;
  ou_DiscountIRR : option string;
  ou_ExtraIRR : option string;
  ou_ExtraNote : option string;
  ou_Note : option string;
}.

(** [storedEntity{ID: id, Type: kind, Version: 1, Payload: marshal(m)}], filed under its key. *)
Definition new_entity (kind id : string) (m : gomap) (st : persistedDB) : persistedDB :=
  put (entityKey kind id)
    {| se_ID := id; se_Type := kind; se_Version := 1; se_Deleted := false; se_Payload := marshal (AMap m) |} st.

(** ** Amounts *)

Definition product_missing : string := "یکی از محصولات انتخاب‌شده در منو یافت نشد".

Definition line_map (lineID : string) (it : POSOrderLineInput) (ent : Entity) (unitPrice lineTotal : Z) : gomap :=
  amap [("id", AStr lineID); ("product_id", AStr (pl_ProductID it)); ("product_name_snapshot", AStr (Label ent));
        ("quantity", AInt (pl_Quantity it)); ("unit_price_irr", AStr (Z_to_dec unitPrice));
        ("line_total_irr", AStr (Z_to_dec lineTotal)); ("note", AStr (TrimSpace (pl_Note it)))].

(** The lines that count: a product and a positive quantity. *)
Definition counts (it : POSOrderLineInput) : bool :=
  negb (sempty (TrimSpace (pl_ProductID it)) || (pl_Quantity it <=? 0)%Z).

(* domains.go:266-288 Store.CreatePOSOrder *)
Fixpoint pos_lines (st : persistedDB) (items : list POSOrderLineInput) (g : entropy) : res (Z * list gomap * entropy) :=
  match items with
  | [] => Ok (0%Z, [], g)
  | it :: items =>
      if counts it then
        match live st "product" (pl_ProductID it) with
        | None => Err product_missing
        | Some prodEnt =>
            let ent := view prodEnt in
            let unitPrice := parseBigIntSafe (PriceIRR ent) in
            let lineTotal := (unitPrice * pl_Quantity it)%Z in
            let '(lineID, g) := UUID_or_empty g in
            let? (subtotal, lines, g) := pos_lines st items g in
            Ok ((lineTotal + subtotal)%Z, line_map lineID it ent unitPrice lineTotal :: lines, g)
        end
      else pos_lines st items g
  end.

(** The discount is between zero and the subtotal, the extra amount not negative. *)
(* domains.go:293-310 Store.CreatePOSOrder *)
Definition order_amounts (subtotal : Z) (discountIRR extraIRR : string) : Z * Z * Z :=
  let discount := parseBigIntSafe discountIRR in
  let discount := if (discount <? 0)%Z then 0%Z else discount in
  let discount := if (subtotal <? discount)%Z then subtotal else discount in
  let extra := parseBigIntSafe extraIRR in
  let extra := if (extra <? 0)%Z then 0%Z else extra in
  let total := (subtotal - discount + extra)%Z in
  let total := if (total <? 0)%Z then 0%Z else total in
  (discount, extra, total).

(** ** Taking an order *)

(* domains.go debtorKind *)
Definition debtorKind (kind : string) : string :=
  if bool_decide (TrimSpace kind = "company") then "company" else "personal".

Section Tehran.
(** [time.LoadLocation("Asia/Tehran")]: seconds east of UTC at an instant. *)
Variable tehranLoc : Z → Z.
Variable R : Runtime.

(** Whether an order counts for the Tehran day of [now]. *)
Definition on_tehran_day (now : Z) (e : storedEntity) : bool :=
  bool_decide (se_Type e = "order") && negb (se_Deleted e)
  && match ParseRFC3339 (Field (view e) "created_at") with
     | Some ct => bool_decide (Date (tehranLoc ct) ct = Date (tehranLoc now) now)
     | None => false
     end.

(* domains.go countOrdersOnTehranDay *)
Definition countOrdersOnTehranDay (st : persistedDB) (now : Z) : Z :=
  count (on_tehran_day now) (iter R 1 (Entities st)).*2.

(* domains.go:251-262 Store.CreatePOSOrder *)
Definition find_token (token : string) (st : persistedDB) : option string :=
  if sempty token then None
  else (λ p, se_ID p.2) <$> List.find (λ p : string * storedEntity,
         negb (se_Deleted p.2) && bool_decide (se_Type p.2 = "order")
         && bool_decide (Field (view p.2) "client_token" = token)) (iter R 0 (Entities st)).

(* domains.go:323-340 Store.CreatePOSOrder *)
Definition occupy_table (tableID orderID : string) (st : persistedDB) : res (string * persistedDB) :=
  if sempty tableID then Ok (EmptyString, st)
  else match live st "table" tableID with
       | None => Ok (EmptyString, st)
       | Some tEnt =>
           let? st := edit_payload (entityKey "table" tableID) tEnt
                        (λ tm, aset "current_order_id" (AStr orderID) (aset "status" (AStr "occupied") tm)) st in
           Ok (Label (view tEnt), st)
       end.

(* domains.go:342-374 Store.CreatePOSOrder *)
Definition serve_customer (req : POSOrderInput) (total : Z) (st : persistedDB) : res (string * string * persistedDB) :=
  let custName := TrimSpace (po_CustomerName req) in
  let custPhone := TrimSpace (po_CustomerPhone req) in
  let? (custName, custPhone, st) :=
    match (if sempty (po_CustomerID req) then None else live st "customer" (po_CustomerID req)) with
    | None => Ok (custName, custPhone, st)
    | Some cEnt =>
        let ent := view cEnt in
        let custName := if sempty custName then Label ent else custName in
        let custPhone := if sempty custPhone then Field ent "phone" else custPhone in
        let pts := (Atoi (Field ent "loyalty_points")).1 in
        let earned := wrap64 (total / 100000) in
        let earned := if (earned <? 1)%Z then 1%Z else earned in
        let prevOrders := (Atoi (Field ent "orders_count")).1 in
        let? st := edit_payload (entityKey "customer" (po_CustomerID req)) cEnt
                     (λ cm, aset "orders_count" (AInt (wrap64 (prevOrders + 1)))
                              (aset "loyalty_points" (AInt (wrap64 (pts + earned))) cm)) st in
        Ok (custName, custPhone, st)
    end in
  Ok (if sempty custName then "مهمان حضوری کافه"%stdpp else custName, custPhone, st).

(* domains.go:379-396 Store.CreatePOSOrder *)
Definition debt_map (req : POSOrderInput) (now orderID orderNumber custName custPhone debtID : string) (total : Z) : gomap :=
  amap [("id", AStr debtID); ("full_name", AStr custName); ("phone", AStr custPhone);
        ("total", AStr (Z_to_dec total)); ("paid", AStr "0"); ("remaining", AStr (Z_to_dec total));
        ("currency", AStr "IRR"); ("status", AStr "open");
        ("description", AStr ("سفارش نسیه شماره " +:+ orderNumber));
        ("note", AStr (TrimSpace (po_DebtorNote req))); ("due_at", AStr (TrimSpace (po_DebtorDueAt req)));
        ("account_type", AStr (debtorKind (po_DebtorKind req)));
        ("group_id", AStr (TrimSpace (po_DebtorGroupID req)));
        ("order_id", AStr orderID); ("created_at", AStr now); ("version", AInt 1)].

(* domains.go:376-403 Store.CreatePOSOrder *)
Definition open_debt (req : POSOrderInput) (now orderID orderNumber custName custPhone : string) (total : Z)
    (g : entropy) (st : persistedDB) : persistedDB :=
  let '(debtID, _) := UUID_or_empty g in
  new_entity "debtor" debtID (debt_map req now orderID orderNumber custName custPhone debtID total) st.

(* domains.go:405-431 Store.CreatePOSOrder *)
Definition order_map (req : POSOrderInput) (now orderID orderNumber ft pm tableLabel custName custPhone : string)
    (subtotal discount extra total : Z) (lines : list gomap) : gomap :=
  amap [("id", AStr orderID); ("client_token", AStr (TrimSpace (po_ClientToken req)));
        ("order_number", AStr orderNumber); ("fulfillment_type", AStr ft); ("table_id", AStr (po_TableID req));
        ("table_label", AStr tableLabel); ("customer_id", AStr (po_CustomerID req));
        ("customer_name", AStr custName); ("customer_phone", AStr custPhone);
        ("cashier_name", AStr (TrimSpace (po_CashierName req))); ("payment_method", AStr pm);
        ("subtotal_irr", AStr (Z_to_dec subtotal)); ("discount_irr", AStr (Z_to_dec discount));
        ("extra_irr", AStr (Z_to_dec extra)); ("extra_note", AStr (TrimSpace (po_ExtraNote req)));
        ("total_irr", AStr (Z_to_dec total)); ("price", AStr (Z_to_dec total)); ("status", AStr "pending");
        ("note", AStr (TrimSpace (po_Note req))); ("items", AArr (map AMap lines));
        ("created_at", AStr now); ("version", AInt 1)].

Definition default_to (d s : string) : string := if sempty s then d else s.

(* domains.go:263-437 Store.CreatePOSOrder *)
Definition place_order (req : POSOrderInput) (now orderID : string) (clock : Z) (g : entropy) (st : persistedDB)
    : res (string * persistedDB) :=
  let? (subtotal, lines, g) := pos_lines st (po_Items req) g in
  guard? negb (match lines with [] => true | _ => false end) else "هیچ ردیف معتبری در سفارش وجود ندارد" in
  let '(discount, extra, total) := order_amounts subtotal (po_DiscountIRR req) (po_ExtraIRR req) in
  let orderNumber := Z_to_dec (100 + countOrdersOnTehranDay st clock) in
  let ft := default_to "dine_in" (TrimSpace (po_FulfillmentType req)) in
  let pm := default_to "card_pos" (TrimSpace (po_PaymentMethod req)) in
  let? (tableLabel, st) := occupy_table (po_TableID req) orderID st in
  let? (custName, custPhone, st) := serve_customer req total st in
  let st := if bool_decide (pm = "credit_debtor")
            then open_debt req now orderID orderNumber custName custPhone total g st else st in
  Ok (EmptyString,
      new_entity "order" orderID
        (order_map req now orderID orderNumber ft pm tableLabel custName custPhone subtotal discount extra total lines) st).

(* domains.go:250-439 Store.CreatePOSOrder *)
Definition CreatePOSOrder_body (req : POSOrderInput) (now orderID : string) (clock : Z) (g : entropy) (st : persistedDB)
    : res (string * persistedDB) :=
  match find_token (TrimSpace (po_ClientToken req)) st with
  | Some existingOrderID => Ok (existingOrderID, st)
  | None => place_order req now orderID clock g st
  end.

(* domains.go:239-447 Store.CreatePOSOrder *)
Definition CreatePOSOrder (io : IO) (ctx : option string) (s : Store) (g : entropy) (now clock : Z) (req : POSOrderInput)
    : tx_out string :=
  match po_Items req with
  | [] => tx_fail "لطفاً حداقل یک محصول برای ثبت سفارش انتخاب کنید" s
  | _ =>
      match UUID g with
      | (Err e, _) => tx_fail e s
      | (Ok orderID, g) =>
          let o := withTx io ctx s (CreatePOSOrder_body req (FormatRFC3339 now) orderID clock g) in
          {| tx_res := (let? existing := tx_res o in Ok (if sempty existing then orderID else existing));
             tx_store := tx_store o; tx_calls := tx_calls o |}
      end
  end.

End Tehran.

(** ** Editing an order *)

Definition closed_status (s : string) : bool :=
  existsb (String.eqb s) ["completed"; "cancelled"; "canceled"; "refunded"]%stdpp.

(** [if p != nil { om[k] = strings.TrimSpace( *p ) }] *)
Definition set_text (k : string) (p : option string) (m : gomap) : gomap :=
  match p with Some s => aset k (AStr (TrimSpace s)) m | None => m end.

(* domains.go:472-561 Store.UpdateOrderItemsFull *)
Definition UpdateOrderItemsFull_body (now orderID : string) (upd : OrderItemsUpdate) (g : entropy) (st : persistedDB)
    : res (unit * persistedDB) :=
  match live st "order" orderID with
  | None => Err "سفارش مورد نظر یافت نشد"
  | Some oEnt =>
      let? om := load_map (se_Payload oEnt) in
      let status := ToLower (TrimSpace (Sprint (oget "status" om))) in
      guard? negb (bool_decide (status = "completed"))
        else "سفارش تکمیل‌شده قابل ویرایش نیست؛ کسر انبار (BOM) آن انجام شده است" in
      guard? negb (closed_status status) else "سفارش لغو یا برگشت‌داده‌شده قابل ویرایش نیست." in
      let? (subtotal, newLines, _) := pos_lines st (ou_Lines upd) g in
      guard? negb (match newLines with [] => true | _ => false end) else "حداقل یک محصول در سفارش لازم است." in
      let ent := view oEnt in
      let '(discount, extra, total) :=
        order_amounts subtotal (default (Field ent "discount_irr") (ou_DiscountIRR upd))
                               (default (Field ent "extra_irr") (ou_ExtraIRR upd)) in
      let? om := assignable om in
      let om := aset "items" (AArr (map AMap newLines)) om in
      let om := aset "subtotal_irr" (AStr (Z_to_dec subtotal)) om in
      let om := aset "discount_irr" (AStr (Z_to_dec discount)) om in
      let om := aset "extra_irr" (AStr (Z_to_dec extra)) om in
      let om := aset "total_irr" (AStr (Z_to_dec total)) om in
      let om := aset "price" (AStr (Z_to_dec total)) om in
      let om := set_text "extra_note" (ou_ExtraNote upd) om in
      let om := set_text "note" (ou_Note upd) om in
      let om := aset "updated_at" (AStr now) om in
      let? b := json_Marshal (AMap om) in
      Ok ((), put (entityKey "order" orderID) (bump oEnt b) st)
  end.

(* domains.go Store.UpdateOrderItemsFull *)
Definition UpdateOrderItemsFull (io : IO) (ctx : option string) (s : Store) (g : entropy) (now : Z)
    (orderID : string) (upd : OrderItemsUpdate) : tx_out unit :=
  withTx io ctx s (UpdateOrderItemsFull_body (FormatRFC3339 now) orderID upd g).

(* domains.go Store.UpdateOrderItems *)
Definition UpdateOrderItems (io : IO) (ctx : option string) (s : Store) (g : entropy) (now : Z)
    (orderID : string) (lines : list POSOrderLineInput) : tx_out unit :=
  UpdateOrderItemsFull io ctx s g now orderID
    {| ou_Lines := lines; ou_DiscountIRR := None; ou_ExtraIRR := None; ou_ExtraNote := None; ou_Note := None |}.

(** ** Values of any type as text *)

(* domains.go toStr *)
Definition toStr (v : goany) : string :=
  match v with
  | AStr s => s
  | AFloat x => Z_to_dec (f64_to_int64 x)
  | ANil => EmptyString
  | _ => Sprint v
  end.

(** ** Moving an order to another table *)

Definition target_busy : string := "میز مقصد سفارش باز دارد؛ اول آن را تسویه یا منتقل کنید".

(* domains.go:921-932 Store.TransferOrder *)
Definition open_at (orderID tableID : string) (e : storedEntity) : bool :=
  negb (se_Deleted e || negb (bool_decide (se_Type e = "order")) || bool_decide (se_ID e = orderID))
  && bool_decide (Field (view e) "table_id" = tableID)
  && existsb (String.eqb (ToLower (Field (view e) "status"))) ["pending"; "accepted"; "preparing"; "ready"]%stdpp.

(* domains.go:947-963 Store.TransferOrder *)
Definition free_source (orderID sourceTableID : string) (st : persistedDB) : res persistedDB :=
  if sempty sourceTableID then Ok st
  else match live st "table" sourceTableID with
       | None => Ok st
       | Some sEnt =>
           match load_map (se_Payload sEnt) with
           | Err _ => Ok st
           | Ok sm =>
               let cur := toStr (oget "current_order_id" sm) in
               if bool_decide (cur = orderID) || sempty (TrimSpace cur) then
                 edit_payload (entityKey "table" sourceTableID) sEnt
                   (λ sm, aset "status" (AStr "available") (aset "current_order_id" (AStr EmptyString) sm)) st
               else Ok st
           end
       end.

(* domains.go:897-974 Store.TransferOrder *)
Definition TransferOrder_body (R : Runtime) (now orderID targetTableID : string) (st : persistedDB)
    : res (unit * persistedDB) :=
  match live st "order" orderID with
  | None => Err "سفارش مورد نظر یافت نشد"
  | Some oEnt =>
      let ent := view oEnt in
      guard? negb (closed_status (ToLower (Field ent "status"))) else "فقط سفارش باز قابل انتقال است" in
      let sourceTableID := Field ent "table_id" in
      guard? negb (bool_decide (sourceTableID = targetTableID)) else "میز مقصد همان میز فعلی است" in
      let tKey := entityKey "table" targetTableID in
      match live st "table" targetTableID with
      | None => Err "میز مقصد یافت نشد"
      | Some tEnt =>
          let tEntView := view tEnt in
          guard? sempty (TrimSpace (Field tEntView "current_order_id")) else target_busy in
          guard? negb (existsb (λ p, open_at orderID targetTableID p.2) (iter R 0 (Entities st))) else target_busy in
          let? om := load_map (se_Payload oEnt) in
          let? om := assignable om in
          let om := aset "table_id" (AStr targetTableID) om in
          let om := aset "table_label" (AStr (Label tEntView)) om in
          let om := aset "updated_at" (AStr now) om in
          let? b := json_Marshal (AMap om) in
          let st := put (entityKey "order" orderID) (bump oEnt b) st in
          let? st := free_source orderID sourceTableID st in
          let? st := edit_payload tKey tEnt
                       (λ tm, aset "current_order_id" (AStr orderID) (aset "status" (AStr "occupied") tm)) st in
          Ok ((), st)
      end
  end.

(* domains.go Store.TransferOrder *)
Definition TransferOrder (R : Runtime) (io : IO) (ctx : option string) (s : Store) (now : Z) (orderID targetTableID : string)
    : tx_out unit :=
  let targetTableID := TrimSpace targetTableID in
  if sempty targetTableID then tx_fail "میز مقصد را انتخاب کنید" s
  else withTx io ctx s (TransferOrder_body R (FormatRFC3339 now) orderID targetTableID).

(** ** Moving an order to the debtors *)

(* domains.go:1014-1029 Store.DeferOrderToDebtor *)
Definition deferred_debt_map (debtID name phone dueAt note orderNumber orderID now : string) (total : Z) : gomap :=
  amap [("id", AStr debtID); ("full_name", AStr name); ("phone", AStr (TrimSpace phone));
        ("total", AStr (Z_to_dec total)); ("paid", AStr "0"); ("remaining", AStr (Z_to_dec total));
        ("currency", AStr "IRR"); ("status", AStr "open");
        ("description", AStr ("سفارش نسیه شماره " +:+ orderNumber));
        ("note", AStr (TrimSpace note)); ("due_at", AStr (TrimSpace dueAt));
        ("order_id", AStr orderID); ("created_at", AStr now); ("version", AInt 1)].

(* domains.go:989-1050 Store.DeferOrderToDebtor *)
Definition DeferOrderToDebtor_body (now orderID name phone dueAt note : string) (g : entropy) (st : persistedDB)
    : res (string * persistedDB) :=
  match live st "order" orderID with
  | None => Err "سفارش مورد نظر یافت نشد"
  | Some oEnt =>
      let? om := load_map (se_Payload oEnt) in
      let ent := view oEnt in
      let status := ToLower (Field ent "status") in
      guard? negb (bool_decide (status = "cancelled") || bool_decide (status = "canceled"))
        else "سفارش لغوشده را نمی‌توان به بدهکاران منتقل کرد" in
      guard? negb (EqualFold (Field ent "payment_method") "credit_debtor") else "این سفارش قبلاً در بدهکاران ثبت شده است" in
      let total := parseBigIntSafe (PriceIRR ent) in
      guard? (0 <? total)%Z else "مبلغ سفارش برای ثبت بدهی معتبر نیست" in
      let? debtID := (UUID g).1 in
      let st := new_entity "debtor" debtID
        (deferred_debt_map debtID name phone dueAt note (Field ent "order_number") orderID now total) st in
      let? om := assignable om in
      let om := aset "payment_method" (AStr "credit_debtor") om in
      let om := aset "customer_name" (AStr name) om in
      let om := if sempty (TrimSpace phone) then om else aset "customer_phone" (AStr (TrimSpace phone)) om in
      let om := aset "updated_at" (AStr now) om in
      let? b := json_Marshal (AMap om) in
      Ok (debtID, put (entityKey "order" orderID) (bump oEnt b) st)
  end.

(* domains.go Store.DeferOrderToDebtor *)
Definition DeferOrderToDebtor (io : IO) (ctx : option string) (s : Store) (g : entropy) (now : Z)
    (orderID name phone dueAt note : string) : tx_out string :=
  let name := TrimSpace name in
  if (length (runes name) <? 2)%nat then tx_fail "نام مشتری را وارد کنید." s
  else withTx io ctx s (DeferOrderToDebtor_body (FormatRFC3339 now) orderID name phone dueAt note g).

(** ** The lines of an order *)

(** The menu's price of a product, and what a line costs. *)
Definition menu_price (st : persistedDB) (productID : string) : Z :=
  match live st "product" productID with Some p => parseBigIntSafe (PriceIRR (view p)) | None => 0 end.
Definition line_cost (st : persistedDB) (it : POSOrderLineInput) : Z := (menu_price st (pl_ProductID it) * pl_Quantity it)%Z.

(** A stored line is the line that was asked for, at the menu's price. *)
Definition line_of (st : persistedDB) (it : POSOrderLineInput) (l : gomap) : Prop :=
  is_Some (live st "product" (pl_ProductID it))
  ∧ aget "product_id" l = AStr (pl_ProductID it) ∧ aget "quantity" l = AInt (pl_Quantity it)
  ∧ aget "unit_price_irr" l = AStr (Z_to_dec (menu_price st (pl_ProductID it)))
  ∧ aget "line_total_irr" l = AStr (Z_to_dec (line_cost st it)).

Lemma pos_lines_spec st items : ∀ g subtotal lines g',
  pos_lines st items g = Ok (subtotal, lines, g') →
  Forall2 (line_of st) (List.filter counts items) lines ∧ subtotal = Zsum (map (line_cost st) (List.filter counts items)).
Proof.
  induction items as [|it items IH]; intros g subtotal lines g' H; cbn [pos_lines List.filter] in *.
  { injection H as <- <- <-. by split. }
  destruct (counts it); [|by eapply IH].
  destruct (live st "product" (pl_ProductID it)) as [p|] eqn:L; [|done]. cbv zeta in H.
  destruct (UUID_or_empty g) as [lineID g1]. destruct (pos_lines st items g1) as [[[sub ls] g2]|] eqn:E; [|done].
  injection H as <- <- <-. destruct (IH _ _ _ _ E) as [H1 ->].
  assert (menu_price st (pl_ProductID it) = parseBigIntSafe (PriceIRR (view p))) as Hp by (unfold menu_price; by rewrite L).
  split; [constructor; [|done]|unfold line_cost; cbn; by rewrite Hp].
  unfold line_of, line_cost. rewrite Hp. unfold line_map. split; [by rewrite L|]. split_and!; by amaps.
Qed.

(** What the amounts of an order satisfy. *)
Definition amounts_ok (subtotal discount extra total : Z) : Prop :=
  (0 <= extra)%Z ∧ (0 <= total)%Z ∧ (discount <= subtotal)%Z
  ∧ ((0 <= subtotal)%Z → (0 <= discount)%Z ∧ total = (subtotal - discount + extra)%Z ∧ (total <= subtotal + extra)%Z).

Lemma order_amounts_ok subtotal d x discount extra total :
  order_amounts subtotal d x = (discount, extra, total) → amounts_ok subtotal discount extra total.
Proof.
  unfold order_amounts, amounts_ok. intros [= <- <- <-].
  generalize (parseBigIntSafe d) (parseBigIntSafe x). intros a b.
  destruct (a <? 0)%Z eqn:?, (b <? 0)%Z eqn:?; bools;
    repeat match goal with |- context [if ?c then _ else _] => destruct c eqn:?; bools end; lia.
Qed.

(** The money side of a stored order: its lines, and the amounts next to them. *)
Definition billed (st : persistedDB) (items : list POSOrderLineInput) (m : gomap) : Prop :=
  ∃ subtotal discount extra total lines,
    Forall2 (line_of st) (List.filter counts items) lines ∧ lines ≠ []
    ∧ subtotal = Zsum (map (line_cost st) (List.filter counts items)) ∧ amounts_ok subtotal discount extra total
    ∧ aget "items" m = AArr (map AMap lines)
    ∧ aget "subtotal_irr" m = AStr (Z_to_dec subtotal) ∧ aget "discount_irr" m = AStr (Z_to_dec discount)
    ∧ aget "extra_irr" m = AStr (Z_to_dec extra) ∧ aget "total_irr" m = AStr (Z_to_dec total)
    ∧ aget "price" m = AStr (Z_to_dec total).

(** ** What taking an order changes *)

Lemma frame_new kinds kind id m st : no_nul kind = true → kind ∈ kinds → frame kinds st (new_entity kind id m st).
Proof. intros Hn Hin. by apply frame_put. Qed.

Lemma occupy_table_frame tableID orderID st label st' :
  occupy_table tableID orderID st = Ok (label, st') → frame ["table"] st st'.
Proof.
  unfold occupy_table. destruct (sempty tableID); [intros [= _ <-]; apply frame_refl|].
  destruct (live st "table" tableID) as [e|] eqn:L; [|intros [= _ <-]; apply frame_refl].
  destruct (edit_payload _ _ _ st) as [st1|] eqn:E; [|done]. intros [= _ <-].
  apply live_some in L as [L _]. eapply frame_edit; [|left|exact L|exact E]. done.
Qed.

Lemma serve_customer_frame req total st name phone st' :
  serve_customer req total st = Ok (name, phone, st') → frame ["customer"] st st'.
Proof.
  unfold serve_customer. destruct (if sempty (po_CustomerID req) then None else _) as [e|] eqn:L; [|intros [= _ _ <-]; apply frame_refl].
  destruct (sempty (po_CustomerID req)); [done|]. cbv zeta.
  destruct (edit_payload _ _ _ st) as [st1|] eqn:E; [|done]. intros [= _ _ <-].
  apply live_some in L as [L _]. eapply frame_edit; [|left|exact L|exact E]. done.
Qed.

Definition sale_kinds : list string := ["table"; "customer"; "debtor"].

Lemma order_map_fields req now orderID num ft pm label cn cp subtotal discount extra total lines :
  let m := order_map req now orderID num ft pm label cn cp subtotal discount extra total lines in
  aget "id" m = AStr orderID ∧ aget "status" m = AStr "pending" ∧ aget "items" m = AArr (map AMap lines)
  ∧ aget "subtotal_irr" m = AStr (Z_to_dec subtotal) ∧ aget "discount_irr" m = AStr (Z_to_dec discount)
  ∧ aget "extra_irr" m = AStr (Z_to_dec extra) ∧ aget "total_irr" m = AStr (Z_to_dec total)
  ∧ aget "price" m = AStr (Z_to_dec total) ∧ aget "client_token" m = AStr (TrimSpace (po_ClientToken req))
  ∧ aget "created_at" m = AStr now.
Proof. intros m. unfold m, order_map. split_and!; amaps. Qed.

Lemma place_order_spec tehran R req now orderID clock g st r st' :
  place_order tehran R req now orderID clock g st = Ok (r, st') →
  ∃ e m st0, Entities st' !! entityKey "order" orderID = Some e
    ∧ se_ID e = orderID ∧ se_Type e = "order" ∧ se_Version e = 1%Z ∧ se_Deleted e = false
    ∧ se_Payload e = marshal (AMap m) ∧ aget "status" m = AStr "pending" ∧ aget "id" m = AStr orderID
    ∧ billed st (po_Items req) m
    ∧ frame sale_kinds st st0 ∧ st' = put (entityKey "order" orderID) e st0
    ∧ (default_to "card_pos" (TrimSpace (po_PaymentMethod req)) = "credit_debtor" →
       ∃ debtID d dm, Entities st' !! entityKey "debtor" debtID = Some d ∧ se_Deleted d = false
         ∧ se_Payload d = marshal (AMap dm) ∧ aget "order_id" dm = AStr orderID
         ∧ aget "remaining" dm = aget "total_irr" m ∧ aget "total" dm = aget "total_irr" m ∧ aget "paid" dm = AStr "0").
Proof.
  unfold place_order. destruct (pos_lines st (po_Items req) g) as [[[subtotal lines] g1]|] eqn:El; [|done].
  apply pos_lines_spec in El as [Hlines Hsub].
  destruct (negb _) eqn:Hne; [|done].
  destruct (order_amounts subtotal (po_DiscountIRR req) (po_ExtraIRR req)) as [[discount extra] total] eqn:Ea.
  apply order_amounts_ok in Ea. cbv zeta.
  destruct (occupy_table _ _ st) as [[label st1]|] eqn:Et; [|done]. apply occupy_table_frame in Et.
  destruct (serve_customer req total st1) as [[[cn cp] st2]|] eqn:Ec; [|done]. apply serve_customer_frame in Ec.
  set (pm := default_to "card_pos" _). set (num := Z_to_dec _).
  set (st3 := if bool_decide (pm = "credit_debtor") then _ else st2).
  destruct (order_map_fields req now orderID num (default_to "dine_in" (TrimSpace (po_FulfillmentType req))) pm label cn cp
              subtotal discount extra total lines) as (M1 & M2 & M3 & M4 & M5 & M6 & M7 & M8 & _).
  generalize dependent (order_map req now orderID num (default_to "dine_in" (TrimSpace (po_FulfillmentType req))) pm label cn cp
              subtotal discount extra total lines). intros m M1 M2 M3 M4 M5 M6 M7 M8. intros [= <- <-].
  assert (frame sale_kinds st st2) as F2.
  { eapply frame_trans; eapply frame_weaken; [|exact Et| |exact Ec]; decided. }
  assert (frame sale_kinds st st3) as F3.
  { subst st3. destruct (bool_decide _); [|done]. unfold open_debt. destruct (UUID_or_empty g1).
    eapply frame_trans; [exact F2|]. apply frame_new; [done|decided]. }
  eexists _, m, st3. split; [cbn; by rewrite lookup_insert_eq|]. do 7 (split; [done|]).
  split; [|split; [exact F3|split; [reflexivity|]]].
  - exists subtotal, discount, extra, total, lines. split; [done|]. split; [by destruct lines|]. done.
  - intros Hpm. subst st3. rewrite (bool_decide_true _ Hpm). unfold open_debt. destruct (UUID_or_empty g1) as [debtID g2].
    set (dm := debt_map req now orderID num cn cp debtID total).
    eexists debtID, _, dm. split; [cbn; rewrite lookup_insert_ne, lookup_insert_eq; [reflexivity|]|].
    { intros E. apply entityKey_inj in E as [E _]; done. }
    split; [done|]. split; [reflexivity|]. rewrite M7. unfold dm, debt_map. split_and!; amaps.
Qed.

(** C15: taking an order at the till.  When a new order is placed, what is stored is the
    order's own entity, live and of version 1, and its bill is right: a line for each
    item that names a product and a positive quantity, at the menu's price whatever the
    client sent; the subtotal the sum of the lines; the discount not above it and neither
    extra nor total negative; the total, which is also the order's price, their balance.
    Besides it only tables, customers and debtors change; and an order on credit
    opens a debtor's account for exactly the total, referring to the order. *)
Theorem place_order_bill tehran R req now orderID clock g st r st' :
  place_order tehran R req now orderID clock g st = Ok (r, st') →
  ∃ e m st0, Entities st' !! entityKey "order" orderID = Some e
    ∧ se_ID e = orderID ∧ se_Type e = "order" ∧ se_Version e = 1%Z ∧ se_Deleted e = false
    ∧ se_Payload e = marshal (AMap m) ∧ aget "status" m = AStr "pending" ∧ aget "id" m = AStr orderID
    ∧ billed st (po_Items req) m
    ∧ frame sale_kinds st st0 ∧ st' = put (entityKey "order" orderID) e st0
    ∧ (default_to "card_pos" (TrimSpace (po_PaymentMethod req)) = "credit_debtor" →
       ∃ debtID d dm, Entities st' !! entityKey "debtor" debtID = Some d ∧ se_Deleted d = false
         ∧ se_Payload d = marshal (AMap dm) ∧ aget "order_id" dm = AStr orderID
         ∧ aget "remaining" dm = aget "total_irr" m ∧ aget "total" dm = aget "total_irr" m ∧ aget "paid" dm = AStr "0").
Proof. apply place_order_spec. Qed.

(** ** Submitting the form twice *)

(** The test of [find_token]. *)
Definition has_token (token : string) (e : storedEntity) : bool :=
  negb (se_Deleted e) && bool_decide (se_Type e = "order") && bool_decide (Field (view e) "client_token" = token).

Lemma find_token_some R token st id :
  find_token R token st = Some id → ∃ k e, Entities st !! k = Some e ∧ has_token token e = true ∧ se_ID e = id.
Proof.
  unfold find_token. destruct (sempty token); [done|]. destruct (List.find _ _) as [[k e]|] eqn:F; [|done].
  intros [= <-]. apply find_some in F as [Hi Hp]. exists k, e. split; [|done].
  apply list_elem_of_In in Hi. rewrite iter_perm in Hi. by apply elem_of_map_to_list.
Qed.

Lemma find_token_none R token st k e :
  token ≠ EmptyString → find_token R token st = None → Entities st !! k = Some e → has_token token e = false.
Proof.
  intros Ht. unfold find_token. destruct (sempty token) eqn:Et; [by apply sempty_true in Et|].
  destruct (List.find _ _) eqn:F; [done|]. intros _ Hk. apply (find_none _ _ F (k, e)).
  apply list_elem_of_In. rewrite iter_perm. by apply elem_of_map_to_list.
Qed.

(** *** Texts that read back *)

(** A form whose texts are valid UTF-8 once trimmed. *)
Definition valid_request (req : POSOrderInput) : bool :=
  forallb utf8_valid
    [TrimSpace (po_ClientToken req); TrimSpace (po_FulfillmentType req); po_TableID req; po_CustomerID req;
     TrimSpace (po_CustomerName req); TrimSpace (po_CustomerPhone req); TrimSpace (po_CashierName req);
     TrimSpace (po_PaymentMethod req); TrimSpace (po_ExtraNote req); TrimSpace (po_Note req)]
  && forallb (λ it, utf8_valid (pl_ProductID it) && utf8_valid (TrimSpace (pl_Note it))) (po_Items req).

(** Stored entities whose labels and phone numbers are. *)
Definition valid_labels (st : persistedDB) : Prop :=
  map_Forall (λ _ e, utf8_valid (Label (view e)) = true ∧ utf8_valid (Field (view e) "phone") = true) (Entities st).

Definition good_draws (g : entropy) : Prop := Forall (λ d, match d with Some b => good_draw b | None => True end) g.

Lemma hex_ascii c : is_hex c || is_dash c = true → is_ascii c = true.
Proof. destruct c as [[] [] [] [] [] [] [] []]; vm_compute; done. Qed.

Lemma uuid_valid id : uuidPattern id = true → utf8_valid id = true.
Proof.
  unfold uuidPattern. intros H. apply utf8_valid_ascii.
  set (cs := repeat is_hex 8 ++ _) in H.
  assert (Forall (λ p : ascii → bool, ∀ c, p c = true → is_ascii c = true) cs) as F.
  { assert (∀ n, Forall (λ p : ascii → bool, ∀ c, p c = true → is_ascii c = true) (repeat is_hex n)) as FH.
    { intros n. rewrite Forall_forall. intros p Hp c Hc. apply list_elem_of_In, repeat_spec in Hp as ->.
      apply hex_ascii. by rewrite Hc. }
    assert (∀ c, is_dash c = true → is_ascii c = true) as FD by (intros c Hc; apply hex_ascii; by rewrite Hc, orb_true_r).
    unfold cs. rewrite !Forall_app, !Forall_singleton. auto 20. }
  clearbody cs. revert id H. induction F as [|p cs Hp _ IH]; intros [|c t] H; try done.
  cbn [match_classes sforall] in *. bools. by rewrite (Hp c), (IH t).
Qed.

Lemma UUID_or_empty_valid g id g' : good_draws g → UUID_or_empty g = (id, g') → utf8_valid id = true ∧ good_draws g'.
Proof.
  unfold UUID_or_empty. intros Hg. destruct g as [|[b|] g]; [by intros [= <- <-]| |].
  - inversion Hg as [|? ? Hb Hg']; subst. destruct (UUID_wf b g Hb) as (id0 & -> & Hid & _). intros [= <- <-].
    split; [by apply uuid_valid|done].
  - inversion Hg; subst. by intros [= <- <-].
Qed.

Lemma valid_label st kind id e : valid_labels st → live st kind id = Some e →
  utf8_valid (Label (view e)) = true ∧ utf8_valid (Field (view e) "phone") = true.
Proof. intros Hv H. apply live_some in H as [H _]. by apply Hv in H. Qed.

Lemma pos_lines_good st items : ∀ g subtotal lines g',
  valid_labels st → good_draws g →
  forallb (λ it, utf8_valid (pl_ProductID it) && utf8_valid (TrimSpace (pl_Note it))) items = true →
  pos_lines st items g = Ok (subtotal, lines, g') → Forall good_map lines ∧ good_draws g'.
Proof.
  induction items as [|it items IH]; intros g subtotal lines g' Hv Hg Hi H; cbn [pos_lines forallb] in *.
  { injection H as _ <- <-. split; [constructor|done]. }
  apply andb_true_iff in Hi as [[Hi1 Hi2]%andb_true_iff Hi3]. destruct (counts it); [|by eapply IH].
  destruct (live st "product" (pl_ProductID it)) as [p|] eqn:L; [|done]. cbv zeta in H.
  destruct (UUID_or_empty g) as [lineID g1] eqn:U. destruct (UUID_or_empty_valid _ _ _ Hg U) as [Hid Hg1].
  destruct (pos_lines st items g1) as [[[sub ls] g2]|] eqn:E; [|done]. injection H as <- <- <-.
  destruct (IH _ _ _ _ Hv Hg1 Hi3 E) as [Hls Hg2]. split; [|done]. constructor; [|done].
  destruct (valid_label _ _ _ _ Hv L) as [Hl _]. apply good_amap. cbn [forallb fst snd wf_any].
  by rewrite Hid, Hi1, Hl, Hi2, !Z_to_dec_valid.
Qed.

Lemma default_to_valid d s : utf8_valid d = true → utf8_valid s = true → utf8_valid (default_to d s) = true.
Proof. unfold default_to. by destruct (sempty s). Qed.

Lemma wf_lines lines : Forall good_map lines → wf_any (AArr (map AMap lines)) = true.
Proof. cbn [wf_any]. induction 1 as [|m l [_ Hm] _ IH]; [done|]. cbn [map forallb]. by rewrite Hm. Qed.

Lemma serve_customer_valid req total st name phone st' :
  valid_request req = true →
  (∀ e, live st "customer" (po_CustomerID req) = Some e → utf8_valid (Label (view e)) = true ∧ utf8_valid (Field (view e) "phone") = true) →
  serve_customer req total st = Ok (name, phone, st') → utf8_valid name = true ∧ utf8_valid phone = true.
Proof.
  intros Hr Hv.
  assert (utf8_valid (TrimSpace (po_CustomerName req)) = true ∧ utf8_valid (TrimSpace (po_CustomerPhone req)) = true)
    as [Hn Hp] by (unfold valid_request in Hr; cbn [forallb] in Hr; bools; by split).
  assert (∀ s, utf8_valid s = true → utf8_valid (if sempty s then "مهمان حضوری کافه" else s) = true) as Hguest.
  { intros s Hs. destruct (sempty s); [reflexivity|exact Hs]. }
  unfold serve_customer. destruct (if sempty (po_CustomerID req) then None else _) as [e|] eqn:L.
  - assert (utf8_valid (Label (view e)) = true ∧ utf8_valid (Field (view e) "phone") = true) as [He1 He2].
    { destruct (sempty _); [done|by apply Hv]. }
    cbv zeta. destruct (edit_payload _ _ _ st) as [st1|]; [|done]. intros [= <- <- _]. split.
    + apply Hguest. by destruct (sempty (TrimSpace (po_CustomerName req))).
    + by destruct (sempty (TrimSpace (po_CustomerPhone req))).
  - intros [= <- <- _]. split; [by apply Hguest|done].
Qed.

(** The order a valid form stores is a map that reads back. *)
Lemma place_order_token tehran R req now orderID clock g st r st' :
  valid_request req = true → valid_labels st → good_draws g → utf8_valid now = true → utf8_valid orderID = true →
  place_order tehran R req now orderID clock g st = Ok (r, st') →
  ∃ e m, Entities st' !! entityKey "order" orderID = Some e ∧ se_Payload e = marshal (AMap m) ∧ good_map m
    ∧ aget "client_token" m = AStr (TrimSpace (po_ClientToken req)) ∧ se_Deleted e = false ∧ se_Type e = "order".
Proof.
  intros Hr Hv Hg Hnow Hid. unfold place_order.
  destruct (pos_lines st (po_Items req) g) as [[[subtotal lines] g1]|] eqn:El; [|done].
  apply pos_lines_good in El as [Hlines _]; [|done|done|by apply andb_true_iff in Hr as [_ Hr]].
  destruct (negb _); [|done]. destruct (order_amounts _ _ _) as [[discount extra] total]. cbv zeta.
  destruct (occupy_table _ _ st) as [[label st1]|] eqn:Et; [|done].
  destruct (serve_customer req total st1) as [[[cn cp] st2]|] eqn:Ec; [|done].
  assert (utf8_valid label = true ∧ utf8_valid cn = true ∧ utf8_valid cp = true) as (Hl & Hcn & Hcp).
  { split.
    - revert Et. unfold occupy_table. destruct (sempty _); [by intros [= <- _]|].
      destruct (live st "table" _) as [t|] eqn:Lt; [|by intros [= <- _]]. destruct (edit_payload _ _ _ st); [|done].
      intros [= <- _]. by eapply valid_label.
    - eapply serve_customer_valid; [done| |exact Ec]. intros e He. apply (valid_label st "customer" (po_CustomerID req)); [done|].
      revert He. unfold live. apply occupy_table_frame in Et. by rewrite (frame_get _ _ _ Et) by (done || decided). }
  set (num := Z_to_dec _). set (pm := default_to "card_pos" _). set (ft := default_to "dine_in" _).
  set (m := order_map _ _ _ _ _ _ _ _ _ _ _ _ _ _). intros [= _ <-].
  eexists _, m. split; [cbn; by rewrite lookup_insert_eq|]. split; [reflexivity|].
  split; [|split; [|done]].
  - apply good_amap. unfold valid_request in Hr. cbn [forallb] in Hr. bools.
    pose proof (wf_lines lines Hlines) as Wl. cbn [forallb fst snd]. rewrite Wl. cbn [wf_any].
    assert (utf8_valid ft = true) as -> by (by apply default_to_valid).
    assert (utf8_valid pm = true) as -> by (by apply default_to_valid).
    unfold num. rewrite !Z_to_dec_valid, Hnow, Hid, Hl, Hcn, Hcp.
    repeat match goal with H : utf8_valid _ = true |- _ => rewrite H; clear H end. reflexivity.
  - apply (order_map_fields req now orderID num ft pm label cn cp subtotal discount extra total lines).
Qed.

(** C13: submitting the till's form twice makes one order.  Once a form with a token has been
    taken in, taking in any form with the same token, whatever else it says, whenever and
    under whatever runtime, succeeds without changing anything at all, table, customer and
    debtor included; and if the token was new the answer is the first order's identifier.
    (The form's texts and the labels stored are taken to be valid UTF-8.) *)
Theorem CreatePOSOrder_retry tehran R R' req req' now now' orderID orderID' clock clock' g g' st r st1 :
  CreatePOSOrder_body tehran R req now orderID clock g st = Ok (r, st1) →
  TrimSpace (po_ClientToken req) ≠ EmptyString → TrimSpace (po_ClientToken req') = TrimSpace (po_ClientToken req) →
  valid_request req = true → valid_labels st → good_draws g → utf8_valid now = true → utf8_valid orderID = true →
  ∃ r', CreatePOSOrder_body tehran R' req' now' orderID' clock' g' st1 = Ok (r', st1)
    ∧ (find_token R (TrimSpace (po_ClientToken req)) st = None → well_keyed st → r' = orderID).
Proof.
  intros H Ht Ht' Hreq Hv Hg Hnow Hid. set (token := TrimSpace (po_ClientToken req)) in *.
  unfold CreatePOSOrder_body in *. rewrite Ht'. fold token in H.
  assert (∃ k e, Entities st1 !! k = Some e ∧ has_token token e = true) as (k & e & Hk & He).
  { destruct (find_token R token st) as [id|] eqn:F.
    - injection H as <- <-. apply find_token_some in F as (k & e & Hk & He & _). eauto.
    - apply place_order_token in H as (e & m & He & Hp & Hgood & Hm & Hd & Hty); [|done..]. exists (entityKey "order" orderID), e.
      split; [done|]. unfold has_token. rewrite Hd, Hty. simpl.
      rewrite bool_decide_true; [done|]. by apply (text_marshal e m). }
  destruct (find_token R' token st1) as [id|] eqn:F'.
  2:{ rewrite (find_token_none _ _ _ _ _ Ht F' Hk) in He. done. }
  exists id. split; [done|]. intros Hnone Hkeyed. rewrite Hnone in H.
  apply find_token_some in F' as (k' & e' & Hk' & He' & <-).
  apply place_order_spec in H as (e0 & m & st0 & He0 & Hid0 & Hty & _ & _ & _ & _ & _ & _ & Hf & -> & _).
  assert (well_keyed (put (entityKey "order" orderID) e0 st0)) as W.
  { apply well_keyed_put; [done|done|]. by apply (frame_keyed _ _ _ Hf). }
  pose proof (W _ _ Hk') as Ek. unfold has_token in He'.
  apply andb_true_iff in He' as [[Hd He1]%andb_true_iff He2]. bools. simpl in Ek. rewrite He1 in Ek.
  destruct (decide (se_ID e' = orderID)) as [|Hne]; [done|]. exfalso. subst k'.
  cbn in Hk'. rewrite lookup_insert_ne in Hk' by (intros X%entityKey_id; congruence).
  rewrite (frame_get _ _ _ Hf) in Hk'; [|done|decided].
  pose proof (find_token_none _ _ _ _ _ Ht Hnone Hk') as N. unfold has_token in N.
  by rewrite (bool_decide_true _ He1), (bool_decide_true _ He2), Hd in N.
Qed.

(** ** Editing *)

(** The state the edit looks at. *)
Definition norm_status (om : gomap) : string := ToLower (TrimSpace (Sprint (aget "status" om))).

Lemma closed_status_false s : negb (closed_status s) = true → s ∉ ["completed"; "cancelled"; "canceled"; "refunded"]%stdpp.
Proof.
  unfold closed_status. intros H Hin. apply negb_true_iff in H. apply list_elem_of_In in Hin.
  assert (existsb (String.eqb s) ["completed"; "cancelled"; "canceled"; "refunded"]%stdpp = true); [|congruence].
  apply existsb_exists. exists s. by rewrite String.eqb_refl.
Qed.

(** editing an order's lines.  An edit that succeeds found a live order that is not
    completed, cancelled or refunded; it changes that order alone, by one version; and the
    bill it leaves is right in the same sense as a new order's: the new lines at the menu's
    current prices, their sum, a discount not above it, no negative amount, and the total
    their balance. *)
Theorem UpdateOrderItemsFull_bill now orderID upd g st st' :
  UpdateOrderItemsFull_body now orderID upd g st = Ok ((), st') →
  ∃ old om m, live st "order" orderID = Some old ∧ load_map (se_Payload old) = Ok (Some om)
    ∧ norm_status om ∉ ["completed"; "cancelled"; "canceled"; "refunded"]%stdpp
    ∧ st' = put (entityKey "order" orderID) (bump old (marshal (AMap m))) st
    ∧ billed st (ou_Lines upd) m ∧ aget "status" m = aget "status" om ∧ aget "table_id" m = aget "table_id" om
    ∧ aget "split_payments" m = aget "split_payments" om.
Proof.
  unfold UpdateOrderItemsFull_body. destruct (live st "order" orderID) as [old|] eqn:L; [|done].
  destruct (load_map (se_Payload old)) as [om|] eqn:M; [|done]. cbv zeta.
  set (status := ToLower (TrimSpace (Sprint (oget "status" om)))).
  destruct (bool_decide (status = "completed")); [done|]. cbn [negb].
  destruct (closed_status status) eqn:C; [done|]. cbn [negb].
  destruct (pos_lines st (ou_Lines upd) g) as [[[subtotal lines] g1]|] eqn:El; [|done].
  apply pos_lines_spec in El as [Hlines Hsub]. destruct (negb _) eqn:Hne; [|done].
  destruct (order_amounts _ _ _) as [[discount extra] total] eqn:Ea. apply order_amounts_ok in Ea.
  destruct (assignable om) as [om'|] eqn:A; [|done]. apply assignable_ok in A as ->.
  set (m0 := aset "price" _ _). set (m1 := set_text "note" _ _).
  assert (∀ k, k ≠ "extra_note" → k ≠ "note" → k ≠ "updated_at" → aget k (aset "updated_at" (AStr now) m1) = aget k m0) as Hk.
  { intros k H1 H2 H3. rewrite aget_aset_ne by congruence. subst m1. unfold set_text.
    destruct (ou_Note upd), (ou_ExtraNote upd); rewrite ?aget_aset_ne by congruence; done. }
  destruct (json_Marshal _) as [b|] eqn:J; [|done]. apply json_Marshal_ok in J as ->. intros [= <-].
  exists old, om', (aset "updated_at" (AStr now) m1). do 2 (split; [done|]). split; [apply closed_status_false; unfold norm_status; subst status; cbn [oget] in C; by rewrite C|].
  split; [done|]. split; [|rewrite !Hk by done; subst m0; split_and!; agets].
  exists subtotal, discount, extra, total, lines. split; [done|]. split; [by destruct lines|]. do 2 (split; [done|]).
  rewrite !Hk by done. subst m0. split_and!; agets.
Qed.

(** ** Moving to another table *)

Lemma frame_get_order kinds st st' id : "order" ∉ kinds → frame kinds st st' →
  Entities st' !! entityKey "order" id = Entities st !! entityKey "order" id.
Proof. intros H F. by apply (frame_get _ _ _ F). Qed.

Lemma free_source_frame orderID tableID st st' : free_source orderID tableID st = Ok st' → frame ["table"] st st'.
Proof.
  unfold free_source. destruct (sempty tableID); [intros [= <-]; apply frame_refl|].
  destruct (live st "table" tableID) as [e|] eqn:L; [|intros [= <-]; apply frame_refl]. apply live_some in L as [L _].
  destruct (load_map (se_Payload e)) as [m|]; [|intros [= <-]; apply frame_refl]. cbv zeta.
  destruct (_ || _); [|intros [= <-]; apply frame_refl]. intros H. eapply (frame_edit _ "table"); [done|left|exact L|exact H].
Qed.

Lemma free_source_other orderID tableID id st st' : id ≠ tableID →
  free_source orderID tableID st = Ok st' → Entities st' !! entityKey "table" id = Entities st !! entityKey "table" id.
Proof.
  intros Hne. unfold free_source. destruct (sempty tableID); [by intros [= <-]|].
  destruct (live st "table" tableID) as [e|]; [|by intros [= <-]].
  destruct (load_map (se_Payload e)) as [m|] eqn:M; [|by intros [= <-]]. cbv zeta.
  destruct (_ || _); [|by intros [= <-]]. unfold edit_payload. rewrite M.
  destruct (assignable m); [|done]. destruct (json_Marshal _); intros [= <-]; [|done].
  cbn. apply lookup_insert_ne. intros X%entityKey_id. congruence.
Qed.

Lemma none_open R orderID target st k e :
  existsb (λ p, open_at orderID target p.2) (iter R 0 (Entities st)) = false →
  Entities st !! k = Some e → open_at orderID target e = false.
Proof.
  intros H Hk. destruct (open_at orderID target e) eqn:E; [|done]. exfalso.
  assert (existsb (λ p, open_at orderID target p.2) (iter R 0 (Entities st)) = true); [|congruence].
  apply existsb_exists. exists (k, e). split; [|done]. apply list_elem_of_In. rewrite iter_perm. by apply elem_of_map_to_list.
Qed.

Lemma json_Marshal_text k1 s1 k2 s2 m : good_map m →
  json_Marshal (AMap (aset k1 (AStr s1) (aset k2 (AStr s2) m))) = Ok (marshal (AMap (aset k1 (AStr s1) (aset k2 (AStr s2) m)))).
Proof.
  intros [_ H]. unfold json_Marshal. rewrite marshal_ok_aset; [done| |done].
  apply marshal_ok_aset; [by apply wf_marshal_ok|done].
Qed.

(** moving an order to another table.  A move that succeeds found a live open order, and
    a live target table, other than the order's, which names no order and at which no other
    order is open, whatever order the runtime looks in; afterwards the order says the
    target's identifier and label, and the target says it is occupied by the order; nothing
    but this order and tables has changed. *)
Theorem TransferOrder_moves R now orderID target st st' :
  TransferOrder_body R now orderID target st = Ok ((), st') →
  ∃ old t om m, live st "order" orderID = Some old ∧ live st "table" target = Some t
    ∧ closed_status (ToLower (Field (view old) "status")) = false
    ∧ Field (view old) "table_id" ≠ target ∧ TrimSpace (Field (view t) "current_order_id") = EmptyString
    ∧ (∀ k e, Entities st !! k = Some e → open_at orderID target e = false)
    ∧ load_map (se_Payload old) = Ok (Some om)
    ∧ m = aset "updated_at" (AStr now) (aset "table_label" (AStr (Label (view t))) (aset "table_id" (AStr target) om))
    ∧ Entities st' !! entityKey "order" orderID = Some (bump old (marshal (AMap m)))
    ∧ (∀ tm, load_map (se_Payload t) = Ok (Some tm) →
         Entities st' !! entityKey "table" target
         = Some (bump t (marshal (AMap (aset "current_order_id" (AStr orderID) (aset "status" (AStr "occupied") tm))))))
    ∧ frame ["order"; "table"] st st'
    ∧ ∀ id, id ≠ orderID → Entities st' !! entityKey "order" id = Entities st !! entityKey "order" id.
Proof.
  unfold TransferOrder_body. destruct (live st "order" orderID) as [old|] eqn:L; [|done]. cbv zeta.
  destruct (negb (closed_status _)) eqn:C; [|done]. destruct (negb (bool_decide _)) eqn:N; [|done].
  destruct (live st "table" target) as [t|] eqn:T; [|done].
  destruct (sempty (TrimSpace (Field (view t) "current_order_id"))) eqn:B; [|done].
  destruct (negb (existsb _ _)) eqn:O; [|done].
  destruct (load_map (se_Payload old)) as [om|] eqn:M; [|done].
  destruct (assignable om) as [om'|] eqn:A; [|done]. apply assignable_ok in A as ->.
  set (m := aset "updated_at" _ _). destruct (json_Marshal (AMap m)) as [b|] eqn:J; [|done]. apply json_Marshal_ok in J as ->.
  apply live_some in L as L'. destruct L' as [L' _]. apply live_some in T as T'. destruct T' as [T' _].
  set (st1 := put _ _ st). assert (frame ["order"; "table"] st st1) as F1 by (apply frame_bump; [done|left|done]).
  destruct (free_source _ _ st1) as [st2|] eqn:E2; [|done]. destruct (edit_payload _ t _ st2) as [st3|] eqn:E3; [|done].
  intros [= <-]. apply negb_true_iff in N. bools.
  assert (entityKey "table" target ≠ entityKey "order" orderID) as Hne by (intros X%entityKey_inj; naive_solver).
  assert (Entities st2 !! entityKey "table" target = Some t) as Ht2.
  { rewrite (free_source_other _ _ _ _ _ (not_eq_sym N) E2). cbn. by rewrite lookup_insert_ne by done. }
  pose proof (free_source_frame _ _ _ _ E2) as F2.
  assert (frame ["table"] st2 st3) as F3 by (eapply (frame_edit _ "table"); [done|left|exact Ht2|exact E3]).
  assert (frame ["table"] st1 st3) as F13 by (by eapply frame_trans).
  exists old, t, om', m.
  do 2 (split; [done|]). split; [done|]. split; [done|]. split; [by apply sempty_true|].
  split; [intros k e; by eapply none_open|]. do 2 (split; [done|]).
  split; [rewrite (frame_get_order ["table"] _ _ _ ltac:(decided) F13); apply lookup_put|].
  split; [|split].
  - intros tm Ht. unfold edit_payload in E3. rewrite Ht in E3. cbn [assignable] in E3.
    rewrite json_Marshal_text in E3 by eauto with go_json. injection E3 as <-. apply lookup_put.
  - eapply frame_trans; [exact F1|]. eapply frame_weaken; [|exact F13]. decided.
  - intros id Hid. rewrite (frame_get_order ["table"] _ _ _ ltac:(decided) F13). apply lookup_put_ne.
    intros X%entityKey_id. congruence.
Qed.

(** ** Moving to the debtors *)

(** an order goes to the debtors once.  When [DeferOrderToDebtor] succeeds the order had a
    positive price, and the ledger has a new open account for exactly that price, nothing of
    it paid, which refers to the order; the order is marked as sold on credit; nothing but
    this order and debtors has changed; and doing it again fails, whatever is given.  (The
    texts written into the order are valid UTF-8.) *)
Theorem DeferOrderToDebtor_once now orderID name phone dueAt note g st debtID st' :
  utf8_valid now = true → utf8_valid name = true → utf8_valid (TrimSpace phone) = true →
  DeferOrderToDebtor_body now orderID name phone dueAt note g st = Ok (debtID, st') →
  ∃ old d dm, live st "order" orderID = Some old ∧ (0 < parseBigIntSafe (PriceIRR (view old)))%Z
    ∧ Entities st' !! entityKey "debtor" debtID = Some d ∧ se_Deleted d = false ∧ se_Payload d = marshal (AMap dm)
    ∧ aget "remaining" dm = AStr (Z_to_dec (parseBigIntSafe (PriceIRR (view old))))
    ∧ aget "total" dm = aget "remaining" dm ∧ aget "paid" dm = AStr "0" ∧ aget "order_id" dm = AStr orderID
    ∧ (∃ e, Entities st' !! entityKey "order" orderID = Some e ∧ Field (view e) "payment_method" = "credit_debtor"
         ∧ se_Deleted e = false ∧ se_Version e = wrap64 (se_Version old + 1))
    ∧ frame ["order"; "debtor"] st st'
    ∧ ∀ now' name' phone' dueAt' note' g', is_ok (DeferOrderToDebtor_body now' orderID name' phone' dueAt' note' g' st') = false.
Proof.
  intros Hnow Hname Hphone. unfold DeferOrderToDebtor_body at 1. destruct (live st "order" orderID) as [old|] eqn:L; [|done].
  destruct (load_map (se_Payload old)) as [om|] eqn:M; [|done]. cbv zeta.
  set (status := ToLower (Field (view old) "status")).
  destruct (bool_decide (status = "cancelled") || bool_decide (status = "canceled")); [done|]. cbn [negb].
  destruct (EqualFold (Field (view old) "payment_method") "credit_debtor"); [done|]. cbn [negb].
  destruct (0 <? parseBigIntSafe (PriceIRR (view old)))%Z eqn:P; [|done]. bools.
  set (total := parseBigIntSafe (PriceIRR (view old))) in *.
  destruct (UUID g).1 as [debt|] eqn:U; [|done]. set (dm := deferred_debt_map _ _ _ _ _ _ _ _ _).
  destruct (assignable om) as [om'|] eqn:A; [|done]. apply assignable_ok in A as ->.
  set (m0 := aset "customer_name" _ _). set (m := aset "updated_at" _ _).
  assert (good_map m ∧ aget "payment_method" m = AStr "credit_debtor") as [Hg Hpm].
  { assert (good_map m0) as G0 by (subst m0; eauto with go_json).
    subst m. destruct (sempty (TrimSpace phone)); split; try (subst m0; by agets); eauto with go_json. }
  rewrite json_Marshal_good by done. intros [= <- <-]. apply live_some in L as L'. destruct L' as [L' Hd].
  assert (entityKey "debtor" debt ≠ entityKey "order" orderID) as Hne by (intros [E _]%entityKey_inj; done).
  set (e := bump old (marshal (AMap m))). set (st1 := put (entityKey "order" orderID) e (new_entity "debtor" debt dm st)).
  assert (Entities st1 !! entityKey "order" orderID = Some e) as He by apply lookup_put.
  assert (Field (view e) "payment_method" = "credit_debtor") as Hf by (by apply (text_marshal e m)).
  eexists old, _, dm. split; [done|]. split; [done|].
  split; [unfold st1; rewrite lookup_put_ne by done; apply lookup_put|].
  split; [done|]. split; [reflexivity|]. split; [unfold dm, deferred_debt_map; amaps|].
  split; [unfold dm, deferred_debt_map; rewrite !aget_amap; reflexivity|].
  do 2 (split; [unfold dm, deferred_debt_map; amaps|]).
  split; [by exists e|]. split.
  - eapply frame_trans; [apply (frame_new _ "debtor"); [done|decided]|]. apply frame_bump; [done|left|].
    unfold new_entity. by rewrite lookup_put_ne.
  - intros. change (is_ok (DeferOrderToDebtor_body now' orderID name' phone' dueAt' note' g' st1) = false).
    assert (live st1 "order" orderID = Some e) as Hl by (unfold live; rewrite He; change (se_Deleted e) with (se_Deleted old); rewrite Hd; reflexivity).
    unfold DeferOrderToDebtor_body. rewrite Hl. destruct (load_map (se_Payload e)); [|reflexivity]. cbv zeta. rewrite Hf.
    destruct (negb (bool_decide _ || _)); [|reflexivity]. vm_compute (EqualFold _ _). reflexivity.
Qed.

(** ** Concrete runs *)

Definition a_menu : persistedDB :=
  new_entity "product" "p1" [("price", AStr "45000"); ("title", AStr "espresso")]
  (new_entity "table" "t1" [("number", AStr "1")] (new_entity "table" "t2" [("number", AStr "2")] newEmptyDB)).

Definition an_order (token pm : string) : POSOrderInput :=
  {| po_ClientToken := token; po_FulfillmentType := ""; po_TableID := "t1"; po_CustomerID := ""; po_CustomerName := "";
     po_CustomerPhone := ""; po_CashierName := ""; po_PaymentMethod := pm; po_DiscountIRR := "5000"; po_ExtraIRR := "";
     po_ExtraNote := ""; po_DebtorDueAt := ""; po_DebtorNote := ""; po_DebtorKind := ""; po_DebtorGroupID := "";
     po_Note := ""; po_Items := [{| pl_ProductID := "p1"; pl_Quantity := 2; pl_Note := "" |}] |}.

(** Tehran without daylight saving time, as since 2022. *)
Definition irst : Z → Z := λ _, 12600%Z.

Definition draws : entropy := [Some (repeat 1%N 16); Some (repeat 2%N 16); Some (repeat 3%N 16)].

Definition a_sale (token pm : string) : res (string * persistedDB) :=
  CreatePOSOrder_body irst plain_runtime (an_order token pm) "2025-03-21T08:00:00Z" "o1" 0 draws a_menu.

Definition sold : persistedDB := run_state (a_sale "T" "cash").

Lemma run_pair (r : res (string * persistedDB)) : is_ok r = true → ∃ x, r = Ok (x, run_state r).
Proof. destruct r as [[x st]|]; [by exists x|done]. Qed.

Lemma place_order_bill_witness :
  let r := place_order irst plain_runtime (an_order "T" "credit_debtor") "2025-03-21T08:00:00Z" "o1" 0 draws a_menu in
  is_ok r = true ∧ ∃ m, billed a_menu (po_Items (an_order "T" "credit_debtor")) m ∧ aget "status" m = AStr "pending".
Proof.
  intros r. assert (is_ok r = true) as H by (vm_compute; reflexivity). split; [exact H|].
  destruct (run_pair r H) as [x Hx].
  destruct (place_order_bill irst plain_runtime _ _ _ _ _ _ _ _ Hx) as (e & m & st0 & _ & _ & _ & _ & _ & _ & Hm & _ & Hb & _).
  exists m. exact (conj Hb Hm).
Defined.

Lemma CreatePOSOrder_retry_witness :
  let r := a_sale "T" "cash" in
  is_ok r = true
  ∧ ∃ r', CreatePOSOrder_body irst plain_runtime (an_order "T" "card") "later" "o9" 0 [] (run_state r) = Ok (r', run_state r).
Proof.
  intros r. assert (is_ok r = true) as H by (vm_compute; reflexivity). split; [exact H|].
  destruct (run_pair r H) as [x Hx].
  assert (valid_labels a_menu) as Hv by decided.
  assert (good_draws draws) as Hg.
  { unfold good_draws, draws. rewrite !Forall_cons. split_and!; [| | |constructor];
      (split; [reflexivity|rewrite Forall_forall; intros y Hy; apply list_elem_of_In, repeat_spec in Hy as ->; unfold byte_like; lia]). }
  destruct (CreatePOSOrder_retry irst plain_runtime plain_runtime (an_order "T" "cash") (an_order "T" "card")
    "2025-03-21T08:00:00Z" "later" "o1" "o9" 0 0 draws []
    a_menu x (run_state r) Hx ltac:(discriminate) eq_refl eq_refl Hv Hg eq_refl eq_refl) as (r' & Hr & _).
  exists r'. exact Hr.
Defined.

Definition new_lines : OrderItemsUpdate :=
  {| ou_Lines := [{| pl_ProductID := "p1"; pl_Quantity := 5; pl_Note := "" |}]; ou_DiscountIRR := None; ou_ExtraIRR := Some "700";
     ou_ExtraNote := None; ou_Note := None |}.

Lemma run_unit (r : res (unit * persistedDB)) : is_ok r = true → r = Ok ((), run_state r).
Proof. destruct r as [[[] st]|]; [reflexivity|done]. Qed.

Lemma UpdateOrderItemsFull_bill_witness :
  let r := UpdateOrderItemsFull_body "later" "o1" new_lines draws sold in
  is_ok r = true ∧ ∃ m, billed sold (ou_Lines new_lines) m.
Proof.
  intros r. assert (is_ok r = true) as H by (vm_compute; reflexivity). split; [exact H|].
  destruct (UpdateOrderItemsFull_bill _ _ _ _ _ _ (run_unit r H)) as (old & om & m & _ & _ & _ & _ & Hb & _).
  exists m. exact Hb.
Defined.

Lemma TransferOrder_moves_witness :
  let r := TransferOrder_body plain_runtime "later" "o1" "t2" sold in
  is_ok r = true ∧ frame ["order"; "table"] sold (run_state r).
Proof.
  intros r. assert (is_ok r = true) as H by (vm_compute; reflexivity). split; [exact H|].
  destruct (TransferOrder_moves plain_runtime _ _ _ _ _ (run_unit r H)) as (old & t & om & m & _ & _ & _ & _ & _ & _ & _ & _ & _ & _ & Hf & _).
  exact Hf.
Defined.

Lemma DeferOrderToDebtor_once_witness :
  let r := DeferOrderToDebtor_body "later" "o1" "Ali" "" "" "" draws sold in
  is_ok r = true ∧ is_ok (DeferOrderToDebtor_body "later" "o1" "Ali" "" "" "" draws (run_state r)) = false.
Proof.
  intros r. assert (is_ok r = true) as H by (vm_compute; reflexivity). split; [exact H|].
  destruct (run_pair r H) as [x Hx].
  destruct (DeferOrderToDebtor_once "later" "o1" "Ali" "" "" "" draws sold x (run_state r) eq_refl eq_refl eq_refl Hx)
    as (old & d & dm & _ & _ & _ & _ & _ & _ & _ & _ & _ & _ & _ & Hn).
  apply Hn.
Defined.
