(* ===== verification/OrderStates.v ===== *)
(** * The states of an order

    Models the state machine of [offline-menuvex/internal/store/domains.go]: the table of
    allowed transitions, and the transaction that moves an order along it, frees its table
    and, on completion, takes the recipes' ingredients out of the stock. *)
From S2P Require Import Prelude GoStrings GoFloat GoJson GoJsonFacts GoReadback GoTime Store Entities EntityView Outbox Records Orders.

(** ** The table *)

(* domains.go:1062-1071 allowedOrderTransitions *)
Definition allowedOrderTransitions (from : string) : list string :=
  switch from
    [([""], ["pending"; "accepted"; "preparing"; "ready"; "completed"; "cancelled"]);
     (["pending"], ["accepted"; "preparing"; "ready"; "completed"; "cancelled"]);
     (["accepted"], ["preparing"; "ready"; "completed"; "cancelled"]);
     (["preparing"], ["ready"; "completed"; "cancelled"]);
     (["ready"], ["completed"; "cancelled"]);
     (["completed"], []); (["cancelled"], []); (["canceled"], [])]%stdpp [].

(** [strings.ToLower(strings.TrimSpace(s))] *)
Definition norm (s : string) : string := ToLower (TrimSpace s).

(* domains.go validOrderTransition *)
Definition validOrderTransition (from to : string) : bool :=
  bool_decide (norm from = norm to) || existsb (String.eqb (norm to)) (allowedOrderTransitions (norm from)).

(* domains.go:1108-1124 Store.UpdateLocalOrderStatusReason *)
Definition fa (s : string) : string :=
  switch (norm s)
    [(["pending"], "در انتظار تأیید"); (["accepted"], "تأیید صندوقدار"); (["preparing"], "در حال آماده‌سازی");
     (["ready"], "آماده تحویل"); (["completed"], "تکمیل‌شده"); (["cancelled"; "canceled"], "لغوشده")]%stdpp s.

(* domains.go:1107-1129 Store.UpdateLocalOrderStatusReason *)
Definition transition_error (prevStatus newStatus : string) : string :=
  if existsb (String.eqb (norm prevStatus)) ["completed"; "cancelled"; "canceled"]%stdpp
  then "این سفارش «" +:+ fa prevStatus +:+ "» است و دیگر قابل تغییر نیست"
  else "این تغییر وضعیت ممکن نیست: سفارش «" +:+ fa prevStatus +:+ "» را نمی‌توان به «" +:+ fa newStatus +:+ "» تغییر داد".

(** ** What completing and cancelling do *)

(* domains.go:1144-1158 Store.UpdateLocalOrderStatusReason *)
Definition free_table (ent : Entity) (st : persistedDB) : res persistedDB :=
  let tableID := Field ent "table_id" in
  if sempty tableID then Ok st
  else match live st "table" tableID with
       | None => Ok st
       | Some tEnt =>
           edit_payload (entityKey "table" tableID) tEnt
             (λ tm, adel "current_order_id" (aset "status" (AStr "available") tm)) st
       end.

(** [x, _ := strconv.ParseFloat(s, 64)] *)
Definition parse_or_zero (s : string) : f64 := (ParseFloat s).1.

Definition movement_map (movID title ingredientID unit txType quantity stockAfter : string) (rest : gomap) : gomap :=
  amap ([("id", AStr movID); ("title", AStr title); ("ingredient_id", AStr ingredientID);
         ("ingredient_name", AStr title); ("unit", AStr unit); ("transaction_type", AStr txType);
         ("quantity", AStr quantity); ("stock_after", AStr stockAfter)] ++ rest).

(** One recipe line of one order line. *)
(* domains.go:1170-1204 Store.UpdateLocalOrderStatusReason *)
Definition deduct_ingredient (now orderID orderNumber : string) (quantity : Z) (rl : RecipeLineView)
    (acc : persistedDB * entropy) : res (persistedDB * entropy) :=
  let '(st, g) := acc in
  match live st "ingredient" (rl_IngredientID rl) with
  | None => Ok (st, g)
  | Some ingEnt =>
      match load_map (se_Payload ingEnt) with
      | Err _ => Ok (st, g)
      | Ok im =>
          let curStock := parse_or_zero (Sprint (oget "current_stock" im)) in
          let perUnit := parse_or_zero (rl_Quantity rl) in
          let deduct := fmul perUnit (f64_of_Z quantity) in
          let newStock := fsub curStock deduct in
          let? im := assignable im in
          match json_Marshal (AMap (aset "current_stock" (AStr (FormatFixed 2 newStock)) im)) with
          | Err _ => Ok (st, g)
          | Ok b =>
              let ingEnt := bump ingEnt b in
              let st := put (entityKey "ingredient" (rl_IngredientID rl)) ingEnt st in
              match UUID g with
              | (Ok movID, g) =>
                  if feq deduct fzero then Ok (st, g)
                  else
                    let ingView := view ingEnt in
                    Ok (new_entity "inventory_movement" movID
                          (movement_map movID (Label ingView) (rl_IngredientID rl) (Field ingView "base_unit") "consumption"
                             (FormatFixed 2 (fneg deduct)) (FormatFixed 2 newStock)
                             [("description", AStr ("کسر خودکار رسپی سفارش " +:+ orderNumber)); ("order_id", AStr orderID);
                              ("created_at", AStr now); ("version", AInt 1)]) st, g)
              | (Err _, g) => Ok (st, g)
              end
          end
      end
  end.

(** The recipes are found by ranging over the entities while the loop writes to them: the
    keys are those of the start, the value at each key is the current one, and what the
    loop adds, movements, it would skip. *)
(* domains.go:1162-1208 Store.UpdateLocalOrderStatusReason *)
Definition deduct_recipe (now orderID orderNumber : string) (line : OrderLineView) (acc : persistedDB * entropy) (key : string)
    : res (persistedDB * entropy) :=
  match Entities acc.1 !! key with
  | None => Ok acc
  | Some rEnt =>
      if se_Deleted rEnt || negb (bool_decide (se_Type rEnt = "recipe")) then Ok acc
      else
        let rec := view rEnt in
        if negb (bool_decide (Field rec "product_id" = ol_ProductID line)) then Ok acc
        else fold_res (λ acc rl, deduct_ingredient now orderID orderNumber (ol_Quantity line) rl acc) acc (RecipeLines rec)
  end.

(** The [k]-th order line takes the [k]-th loop's order. *)
(* domains.go:1159-1209 Store.UpdateLocalOrderStatusReason *)
Fixpoint deduct_lines (R : Runtime) (k : nat) (now orderID orderNumber : string) (lines : list OrderLineView)
    (acc : persistedDB * entropy) : res (persistedDB * entropy) :=
  match lines with
  | [] => Ok acc
  | line :: lines =>
      let? acc := fold_res (deduct_recipe now orderID orderNumber line) acc (iter R k (Entities acc.1)).*1 in
      deduct_lines R (S k) now orderID orderNumber lines acc
  end.

(* domains.go:1142-1210 Store.UpdateLocalOrderStatusReason *)
Definition complete_order (R : Runtime) (now orderID : string) (ent : Entity) (g : entropy) (st : persistedDB) : res persistedDB :=
  let? st := free_table ent st in
  let? (st, _) := deduct_lines R 0 now orderID (Field ent "order_number") (OrderItems ent) (st, g) in
  Ok st.

(** ** The transaction *)

(* domains.go:1096-1237 Store.UpdateLocalOrderStatusReason *)
Definition UpdateLocalOrderStatusReason_body (R : Runtime) (now orderID newStatus reason : string) (g : entropy)
    (st : persistedDB) : res (unit * persistedDB) :=
  match live st "order" orderID with
  | None => Err "سفارش مورد نظر یافت نشد"
  | Some oEnt =>
      let? om := load_map (se_Payload oEnt) in
      let prevStatus := default EmptyString (as_string (oget "status" om)) in
      guard? validOrderTransition prevStatus newStatus else transition_error prevStatus newStatus in
      if EqualFold prevStatus newStatus then Ok ((), st)
      else
        let? om := assignable om in
        let om := aset "status" (AStr newStatus) om in
        let om := aset "updated_at" (AStr now) om in
        let om := if sempty (TrimSpace reason) then om else aset "status_reason" (AStr (TrimSpace reason)) om in
        let om := if bool_decide (newStatus = "completed") then aset "completed_at" (AStr now) om else om in
        let ent := view oEnt in
        let? st := (if bool_decide (newStatus = "completed") && negb (bool_decide (prevStatus = "completed"))
                    then complete_order R now orderID ent g st else Ok st) in
        let? st := (if bool_decide (newStatus = "cancelled") then free_table ent st else Ok st) in
        let? b := json_Marshal (AMap om) in
        Ok ((), put (entityKey "order" orderID) (bump oEnt b) st)
  end.

(* domains.go:1094-1238 Store.UpdateLocalOrderStatusReason *)
Definition UpdateLocalOrderStatusReason (R : Runtime) (io : IO) (ctx : option string) (s : Store) (g : entropy) (now : Z)
    (orderID newStatus reason : string) : tx_out unit :=
  withTx io ctx s (UpdateLocalOrderStatusReason_body R (FormatRFC3339 now) orderID newStatus reason g).

(* domains.go Store.UpdateLocalOrderStatus *)
Definition UpdateLocalOrderStatus (R : Runtime) (io : IO) (ctx : option string) (s : Store) (g : entropy) (now : Z)
    (orderID newStatus : string) : tx_out unit :=
  UpdateLocalOrderStatusReason R io ctx s g now orderID newStatus EmptyString.

(** ** The table as an order *)

Definition rank (s : string) : nat :=
  switch s [([""], 0); (["pending"], 1); (["accepted"], 2); (["preparing"], 3); (["ready"], 4)]%stdpp 5.

Lemma allowed_rank from to :
  to ∈ allowedOrderTransitions from → rank from < rank to ≤ 5 ∧ to ∈ ["pending"; "accepted"; "preparing"; "ready"; "completed"; "cancelled"]%stdpp.
Proof.
  unfold allowedOrderTransitions. cbn [switch existsb]. rewrite !orb_false_r.
  repeat match goal with |- context [String.eqb from ?s] =>
    destruct (String.eqb_spec from s) as [->|?]; cbn [orb] end;
  rewrite ?elem_of_cons; intros H; destruct_or? H; subst; try (by apply not_elem_of_nil in H);
  (split; [vm_compute; lia|set_solver]).
Qed.

Lemma validOrderTransition_fwd from to :
  validOrderTransition from to = true →
  norm to = norm from ∨
  (rank (norm from) < rank (norm to) ≤ 5
   ∧ norm to ∈ ["pending"; "accepted"; "preparing"; "ready"; "completed"; "cancelled"]%stdpp
   ∧ norm from ∉ ["completed"; "cancelled"; "canceled"; "refunded"]%stdpp).
Proof.
  unfold validOrderTransition. intros [H|H]%orb_true_iff; bools; [by left|]. right.
  apply existsb_exists in H as (t & Ht & E). apply String.eqb_eq in E. subst t.
  apply list_elem_of_In in Ht. pose proof (allowed_rank _ _ Ht) as [Hr Hin]. split; [done|]. split; [done|].
  intros Hf. rewrite !elem_of_cons in Hf. destruct_or? Hf; try (by apply not_elem_of_nil in Hf); rewrite Hf in Ht; by apply not_elem_of_nil in Ht.
Qed.

(** the state machine of orders.  A transition the table accepts either repeats the
    state or goes strictly forward through pending, accepted, preparing, ready and the two
    final states to one of the six states; so no run has more than five proper transitions,
    and from a completed, cancelled or refunded order nothing but its own state is accepted. *)
Theorem validOrderTransition_forward from to :
  validOrderTransition from to = true →
  norm to = norm from ∨
  (rank (norm from) < rank (norm to) ≤ 5
   ∧ norm to ∈ ["pending"; "accepted"; "preparing"; "ready"; "completed"; "cancelled"]%stdpp
   ∧ norm from ∉ ["completed"; "cancelled"; "canceled"; "refunded"]%stdpp).
Proof. apply validOrderTransition_fwd. Qed.

Lemma validOrderTransition_forward_witness :
  validOrderTransition "pending" " Ready" = true ∧ norm " Ready" ≠ norm "pending" ∧ rank (norm "pending") < rank (norm " Ready").
Proof.
  assert (validOrderTransition "pending" " Ready" = true) as H by reflexivity. split; [exact H|].
  assert (norm " Ready" ≠ norm "pending") as N by (vm_compute; discriminate). split; [exact N|].
  destruct (validOrderTransition_forward _ _ H) as [E|[[L _] _]]; [destruct (N E)|exact L].
Defined.

(** ** What the effects leave alone *)

Lemma free_table_frame kinds ent st st' :
  "table" ∈ kinds → free_table ent st = Ok st' → frame kinds st st'.
Proof.
  unfold free_table. intros Hin. destruct (sempty _); [intros [= <-]; apply frame_refl|].
  destruct (live st "table" _) as [tEnt|] eqn:L; [|intros [= <-]; apply frame_refl].
  apply live_some in L as [L _]. by apply frame_edit.
Qed.

Definition stock_kinds : list string := ["ingredient"; "inventory_movement"].

Lemma deduct_ingredient_frame now orderID num q rl st g st' g' :
  deduct_ingredient now orderID num q rl (st, g) = Ok (st', g') → frame stock_kinds st st'.
Proof.
  unfold deduct_ingredient. destruct (live st "ingredient" _) as [e|] eqn:L; [|intros [= <- <-]; apply frame_refl].
  apply live_some in L as [L _].
  destruct (load_map (se_Payload e)) as [im|]; [|intros [= <- <-]; apply frame_refl].
  destruct (assignable im) as [m|]; [|done]. destruct (json_Marshal _) as [b|]; [|intros [= <- <-]; apply frame_refl].
  assert (frame stock_kinds st (put (entityKey "ingredient" (rl_IngredientID rl)) (bump e b) st)) as F.
  { apply frame_bump; [done| |done]. left. }
  destruct (UUID g) as [[movID|] g1]; [|by intros [= <- <-]].
  destruct (feq _ _); intros [= <- <-]; [done|]. eapply frame_trans; [exact F|]. apply frame_new; [done|]. right; left.
Qed.

Lemma fold_res_frame {A} kinds (f : persistedDB * entropy → A → res (persistedDB * entropy)) l :
  (∀ st g x st' g', f (st, g) x = Ok (st', g') → frame kinds st st') →
  ∀ st g st' g', fold_res f (st, g) l = Ok (st', g') → frame kinds st st'.
Proof.
  intros Hf. induction l as [|x l IH]; cbn [fold_res]; intros st g st' g' H; [injection H as <- <-; apply frame_refl|].
  destruct (f (st, g) x) as [[st1 g1]|] eqn:E; [|done]. eapply frame_trans; [by eapply Hf|by eapply IH].
Qed.

Lemma deduct_recipe_frame now orderID num line st g key st' g' :
  deduct_recipe now orderID num line (st, g) key = Ok (st', g') → frame stock_kinds st st'.
Proof.
  unfold deduct_recipe. cbn [fst]. destruct (Entities st !! key) as [r|]; [|intros [= <- <-]; apply frame_refl].
  destruct (_ || _); [intros [= <- <-]; apply frame_refl|].
  destruct (negb _); [intros [= <- <-]; apply frame_refl|].
  apply fold_res_frame. intros. by eapply deduct_ingredient_frame.
Qed.

Lemma deduct_lines_frame R now orderID num lines : ∀ k st g st' g',
  deduct_lines R k now orderID num lines (st, g) = Ok (st', g') → frame stock_kinds st st'.
Proof.
  induction lines as [|line lines IH]; cbn [deduct_lines]; intros k st g st' g' H; [injection H as <- <-; apply frame_refl|].
  cbn [fst] in H. destruct (fold_res _ (st, g) _) as [[st1 g1]|] eqn:E; [|done].
  eapply frame_trans; [|by eapply IH]. eapply fold_res_frame; [|exact E]. intros. by eapply deduct_recipe_frame.
Qed.

Definition effect_kinds : list string := ["table"; "ingredient"; "inventory_movement"].

Lemma complete_order_frame R now orderID ent g st st' :
  complete_order R now orderID ent g st = Ok st' → frame effect_kinds st st'.
Proof.
  unfold complete_order. destruct (free_table ent st) as [st1|] eqn:E; [|done].
  destruct (deduct_lines _ _ _ _ _ _ _) as [[st2 g2]|] eqn:D; [|done]. intros [= <-].
  apply (free_table_frame effect_kinds) in E; [|left]. eapply frame_trans; [exact E|].
  eapply frame_weaken; [|by eapply deduct_lines_frame]. unfold stock_kinds, effect_kinds. set_solver.
Qed.

(** ** The life of an order *)

Definition canonical : list string := ["pending"; "accepted"; "preparing"; "ready"; "completed"; "cancelled"].

(** The order [id] is there, with a payload the program can read and write back, in state [s]. *)
Definition order_in (st : persistedDB) (id s : string) : Prop :=
  ∃ e m, live st "order" id = Some e ∧ se_Payload e = marshal (AMap m) ∧ good_map m ∧ aget "status" m = AStr s.

(** What decoding makes of a text in a written map. *)
Lemma load_marshal_str m o k s :
  good_map m → aget k m = AStr s → load_map (marshal (AMap m)) = Ok o → oget k o = AStr s.
Proof.
  intros Hm Hk. unfold load_map, unmarshal_map. rewrite parse_marshal_map by done. cbn [to_any].
  rewrite map_map. cbn [fst snd]. set (l := map _ m).
  destruct (forallb _ l); [|done]. intros [= <-]. cbn [oget].
  assert (l.*1 = m.*1) as El.
  { subst l. clear. induction m as [|p m IH]; [done|]. cbn. by f_equal. }
  rewrite foldl_aset_get by (rewrite El; apply Hm).
  assert (last_of k l = if ahas k m then Some (to_any (ann (aget k m))) else None) as ->.
  { apply (last_of_map (λ a, to_any (ann a))), Hm. }
  destruct (ahas k m) eqn:A; [by rewrite Hk|]. apply ahas_false in A. by rewrite aget_absent in Hk.
Qed.

Lemma canonical_norm s : s ∈ canonical → norm s = s.
Proof. unfold canonical. rewrite !elem_of_cons. intros H. destruct_or? H; subst; try reflexivity. by apply not_elem_of_nil in H. Qed.

Lemma canonical_fold s t : s ∈ canonical → t ∈ canonical → EqualFold s t = bool_decide (s = t).
Proof.
  unfold canonical. rewrite !elem_of_cons. intros Hs Ht.
  destruct_or? Hs; destruct_or? Ht; subst; try reflexivity; try (by apply not_elem_of_nil in Hs); by apply not_elem_of_nil in Ht.
Qed.

Lemma canonical_valid s : s ∈ canonical → utf8_valid s = true.
Proof. unfold canonical. rewrite !elem_of_cons. intros H. destruct_or? H; subst; try reflexivity. by apply not_elem_of_nil in H. Qed.

(** C2: the life of an order.  For an order and an update in the six canonical spellings of
    states, with valid texts, an update that succeeds does one of two things.  Either the new
    state is the one there is, and nothing at all changes.  Or the order was not completed and
    not cancelled, moves strictly forward, and is stored in the new state with its version one
    further (with the wrap-around of an int64); besides it only tables, ingredients and stock
    movements may change, so no other order does.  Other spellings of a state are another
    matter ([completion_spelling]). *)
Theorem order_lifecycle R now id new reason g st st' s :
  order_in st id s → s ∈ canonical → new ∈ canonical → utf8_valid now = true → utf8_valid (TrimSpace reason) = true →
  UpdateLocalOrderStatusReason_body R now id new reason g st = Ok ((), st') →
  (new = s ∧ st' = st) ∨
  (rank s < rank new ∧ s ∉ ["completed"; "cancelled"]%stdpp ∧ order_in st' id new
   ∧ (∃ e e', live st "order" id = Some e ∧ live st' "order" id = Some e' ∧ se_Version e' = wrap64 (se_Version e + 1))
   ∧ frame ("order" :: effect_kinds) st st'
   ∧ ∀ id', id' ≠ id → Entities st' !! entityKey "order" id' = Entities st !! entityKey "order" id').
Proof.
  intros (e & m & Hl & Hp & Hm & Hs) Hc Hc' Hnow Hreason. unfold UpdateLocalOrderStatusReason_body. rewrite Hl, Hp.
  destruct (load_map (marshal (AMap m))) as [om|] eqn:E; [|done].
  rewrite (load_marshal_str m om "status" s Hm Hs E).
  change (default EmptyString (as_string (AStr s))) with s.
  destruct (validOrderTransition s new) eqn:V; [|done]. rewrite canonical_fold by done.
  case_bool_decide as Es; [intros [= <-]; by left|]. intros H. right.
  apply validOrderTransition_fwd in V as [V|(Hr & _ & Hf)]; [by rewrite !canonical_norm in V by done|].
  rewrite (canonical_norm s), (canonical_norm new) in Hr by done. rewrite (canonical_norm s) in Hf by done.
  destruct (assignable om) as [m0|] eqn:A; [|done]. apply assignable_ok in A as ->. cbv zeta in H.
  set (m1 := aset "updated_at" (AStr now) (aset "status" (AStr new) m0)) in H.
  set (m2 := if sempty (TrimSpace reason) then m1 else aset "status_reason" (AStr (TrimSpace reason)) m1) in H.
  set (m3 := if bool_decide (new = "completed") then aset "completed_at" (AStr now) m2 else m2) in H.
  assert (good_map m3 ∧ aget "status" m3 = AStr new) as [Hg3 Hs3].
  { assert (good_map m1) as G1 by (apply good_aset_str; [|done..]; apply good_aset_str; eauto using canonical_valid with go_json).
    assert (good_map m2) as G2 by (subst m2; destruct (sempty _); [done|by apply good_aset_str]).
    split; [subst m3; destruct (bool_decide _); [by apply good_aset_str|done]|].
    subst m3 m2 m1. destruct (bool_decide _), (sempty _); agets. }
  rewrite json_Marshal_good in H by done.
  destruct (if bool_decide (new = "completed") && _ then _ else _) as [st1|] eqn:E1; [|done].
  destruct (if bool_decide (new = "cancelled") then _ else _) as [st2|] eqn:E2; [|done]. injection H as <-.
  assert (frame effect_kinds st st2) as F.
  { eapply frame_trans.
    - destruct (bool_decide (new = "completed") && _); [by eapply complete_order_frame|injection E1 as <-; apply frame_refl].
    - destruct (bool_decide (new = "cancelled")); [eapply free_table_frame; [left|exact E2]|injection E2 as <-; apply frame_refl]. }
  pose proof Hl as Hl0. apply live_some in Hl as [Hl Hd].
  assert (Entities st2 !! entityKey "order" id = Some e) as H2 by (rewrite (frame_get _ _ _ F); [done..|decided]).
  assert (live (put (entityKey "order" id) (bump e (marshal (AMap m3))) st2) "order" id
          = Some (bump e (marshal (AMap m3)))) as Hl'
    by (unfold live; cbn; rewrite lookup_insert_eq; cbn; by rewrite Hd).
  split; [by destruct Hr|]. split; [|split; [|split; [|split]]].
  - intros X. apply Hf. rewrite !elem_of_cons in *. tauto.
  - by exists (bump e (marshal (AMap m3))), m3.
  - by exists e, (bump e (marshal (AMap m3))).
  - eapply frame_trans; [eapply frame_weaken; [|exact F]; by right|]. apply frame_bump; [done|left|done].
  - intros id' Hid. cbn. rewrite lookup_insert_ne by (intros X%entityKey_id; congruence).
    apply (frame_get _ _ _ F); [done|]. decided.
Qed.

(** ** The stock ledger *)

(** one recipe line of a completed order.  The ingredient's stock becomes the old stock
    less the line's consumption, rounded to two decimals, and nothing else of the ingredient
    changes; and when an identifier can be drawn and the consumption is not zero, the ledger
    gets one movement for it, whose quantity is the consumption with the opposite sign and
    whose balance is the very text that is now the ingredient's stock. *)
Theorem deduct_ingredient_ledger now orderID num q rl st g st' g' e m :
  live st "ingredient" (rl_IngredientID rl) = Some e → load_map (se_Payload e) = Ok (Some m) →
  deduct_ingredient now orderID num q rl (st, g) = Ok (st', g') →
  let used := fmul (parse_or_zero (rl_Quantity rl)) (f64_of_Z q) in
  let balance := FormatFixed 2 (fsub (parse_or_zero (Sprint (aget "current_stock" m))) used) in
  Entities st' !! entityKey "ingredient" (rl_IngredientID rl)
    = Some (bump e (marshal (AMap (aset "current_stock" (AStr balance) m))))
  ∧ (∀ movID, UUID g = (Ok movID, g') → feq used fzero = false →
     ∃ mv mm, Entities st' !! entityKey "inventory_movement" movID = Some mv ∧ se_Payload mv = marshal (AMap mm)
       ∧ aget "stock_after" mm = AStr balance ∧ aget "quantity" mm = AStr (FormatFixed 2 (fneg used))
       ∧ aget "ingredient_id" mm = AStr (rl_IngredientID rl) ∧ aget "order_id" mm = AStr orderID
       ∧ aget "transaction_type" mm = AStr "consumption").
Proof.
  intros Hl Hm. unfold deduct_ingredient. rewrite Hl, Hm. cbn [oget assignable]. cbv zeta.
  set (used := fmul _ _). set (balance := FormatFixed 2 _).
  rewrite json_Marshal_aset by eauto with go_json. set (e' := bump e _).
  assert (Entities (put (entityKey "ingredient" (rl_IngredientID rl)) e' st) !! entityKey "ingredient" (rl_IngredientID rl) = Some e') as Hi.
  { cbn. by rewrite lookup_insert_eq. }
  destruct (UUID g) as [[movID|er] g1]; [|intros [= <- <-]; split; [done|by intros ? [=]]].
  set (mm := movement_map _ _ _ _ _ _ _ _).
  destruct (feq used fzero) eqn:Z; intros [= <- <-]; [split; [done|by intros]|].
  assert (entityKey "inventory_movement" movID ≠ entityKey "ingredient" (rl_IngredientID rl)) as Hne.
  { intros E. apply entityKey_inj in E as [E _]; done. }
  split; [cbn; rewrite lookup_insert_ne by done; exact Hi|].
  intros ? [= <-] _. eexists _, mm. split; [cbn; by rewrite lookup_insert_eq|]. split; [reflexivity|].
  unfold mm, movement_map. split_and!; amaps.
Qed.

(** ** Concrete runs *)

(** A café with one order of two cups, a recipe of three grams a cup and ten grams in stock. *)
Definition a_cafe : persistedDB :=
  new_entity "order" "o1"
    [("items", AArr [AMap [("product_id", AStr "p1"); ("quantity", AInt 2)]]); ("order_number", AStr "100");
     ("status", AStr "ready"); ("table_id", AStr "t1")]
  (new_entity "table" "t1" [("current_order_id", AStr "o1"); ("status", AStr "occupied")]
  (new_entity "recipe" "r1"
     [("items", AArr [AMap [("ingredient_id", AStr "i1"); ("quantity", AStr "3")]]); ("product_id", AStr "p1")]
  (new_entity "ingredient" "i1" [("base_unit", AStr "g"); ("current_stock", AStr "10"); ("name", AStr "coffee")]
     newEmptyDB))).

Definition a_move (status : string) (st : persistedDB) : res (unit * persistedDB) :=
  UpdateLocalOrderStatusReason_body plain_runtime "now" "o1" status EmptyString [Some a_draw] st.

(** A field of an entity, empty when it is not there. *)
Definition shown (st : persistedDB) (kind id field : string) : string :=
  match live st kind id with Some e => Field (view e) field | None => EmptyString end.

Definition moves (l : list string) : res persistedDB :=
  fold_res (λ st s, let? (_, st) := a_move s st in Ok st) a_cafe l.

Definition moves_to (l : list string) : persistedDB := match moves l with Ok st => st | Err _ => newEmptyDB end.

(** how completion is spelled matters.  The check of transitions ignores case and blanks,
    but the stock is only taken for the exact word: completing in one step takes six grams
    and frees the table; writing it with a capital is accepted as final without touching
    stock or table, and cannot be repaired, since the exact word then changes nothing; and
    writing it with a blank in between lets the same order take its stock twice. *)
Theorem completion_spelling :
  (is_ok (moves ["completed"]) = true ∧ shown (moves_to ["completed"]) "ingredient" "i1" "current_stock" = "4.00"
   ∧ shown (moves_to ["completed"]) "table" "t1" "status" = "available")
  ∧ (is_ok (moves ["Completed"; "completed"]) = true
     ∧ shown (moves_to ["Completed"; "completed"]) "order" "o1" "status" = "Completed"
     ∧ shown (moves_to ["Completed"; "completed"]) "ingredient" "i1" "current_stock" = "10"
     ∧ shown (moves_to ["Completed"; "completed"]) "table" "t1" "status" = "occupied")
  ∧ (is_ok (moves ["completed"; " completed"; "completed"]) = true
     ∧ shown (moves_to ["completed"; " completed"; "completed"]) "ingredient" "i1" "current_stock" = "-2.00").
Proof. vm_compute. auto 10. Qed.

Lemma a_cafe_order : order_in a_cafe "o1" "ready".
Proof.
  eexists _, _. split; [reflexivity|]. split; [reflexivity|]. split; [|reflexivity].
  split; [|vm_compute; reflexivity]. decided.
Qed.

Lemma order_lifecycle_witness :
  order_in a_cafe "o1" "ready" ∧ is_ok (a_move "cancelled" a_cafe) = true ∧ order_in (run_state (a_move "cancelled" a_cafe)) "o1" "cancelled".
Proof.
  split; [exact a_cafe_order|]. assert (is_ok (a_move "cancelled" a_cafe) = true) as H by (vm_compute; reflexivity).
  split; [exact H|].
  assert ("ready" ∈ canonical) as H1 by decided.
  assert ("cancelled" ∈ canonical) as H2 by decided.
  destruct (order_lifecycle plain_runtime "now" "o1" "cancelled" EmptyString [Some a_draw] a_cafe _ "ready"
              a_cafe_order H1 H2 eq_refl eq_refl (run_ok _ H)) as [[E _]|(_ & _ & Ho & _)].
  - discriminate E.
  - exact Ho.
Defined.

Lemma deduct_ingredient_ledger_witness :
  let rl := {| rl_IngredientID := "i1"; rl_IngredientName := ""; rl_Quantity := "3"; rl_Unit := "g" |} in
  ∃ e m st' g', live a_cafe "ingredient" "i1" = Some e ∧ load_map (se_Payload e) = Ok (Some m)
    ∧ deduct_ingredient "now" "o1" "100" 2 rl (a_cafe, []) = Ok (st', g')
    ∧ is_Some (Entities st' !! entityKey "ingredient" "i1").
Proof.
  intros rl. destruct (live a_cafe "ingredient" "i1") as [e|] eqn:L; [|discriminate L].
  destruct (load_map (se_Payload e)) as [[m|]|] eqn:M.
  - destruct (deduct_ingredient "now" "o1" "100" 2 rl (a_cafe, [])) as [[st' g']|] eqn:D.
    + exists e, m, st', g'. split; [reflexivity|]. split; [exact M|]. split; [reflexivity|].
      eexists. exact (proj1 (deduct_ingredient_ledger "now" "o1" "100" 2 rl a_cafe [] st' g' e m L M D)).
    + exfalso. vm_compute in D. discriminate D.
  - exfalso. vm_compute in L. injection L as <-. vm_compute in M. discriminate M.
  - exfalso. vm_compute in L. injection L as <-. vm_compute in M. discriminate M.
Defined.
