(* ===== verification/SplitBill.v ===== *)
(** * Splitting a bill

    Models the split bill of [offline-menuvex/internal/store/domains.go]: the payments kept
    as a JSON text inside an order's payload, the bill made from an order's lines and those
    payments, recording one guest's payment and taking the last one back. *)
From S2P Require Import Prelude GoStrings GoFloat GoJson GoJsonFacts GoReadback GoTime Store Entities EntityView Outbox Records Orders OrderStates.

Local Open Scope Z_scope.

(** ** Data *)

(* domains.go SplitBillLine *)
Record SplitBillLine := {
  sl_Key : string;
  sl_Title : string;
  sl_Quantity : Z;
  sl_PaidQuantity : Z;
  sl_UnitPayableIRR : Z;
  sl_LinePayableIRR : Z;
  sl_PaidIRR : Z;
  sl_RemainingIRR : Z;
}.

(* domains.go SplitPaymentLine *)
Record SplitPaymentLine := {
  sp_LineID : string;
  sp_Quantity : Z;
  sp_AmountIRR : Z;
}.

(* domains.go SplitPayment *)
Record SplitPayment := {
  sp_ID : string;
  sp_At : string;
  sp_Method : string;
  sp_Amount : Z;
  sp_ClientToken : string;
  sp_Lines : list SplitPaymentLine;
}.

(** ** Payments as text *)

(** [big.Int.Int64]: the low 64 bits. *)
Definition big_int64 (raw : string) : Z := wrap64 (parseBigIntSafe raw).

(** [var rows []map[string]any; json.Unmarshal(raw, &rows)]: a nil map reads as the empty
    one; [None] is an error. *)
Definition unmarshal_row (j : json) : option gomap :=
  match j with
  | JNull => Some []
  | JObj l => match to_any (JObj l) with (AMap m, true) => Some m | _ => None end
  | _ => None
  end.

Definition unmarshal_rows (raw : string) : option (list gomap) :=
  match parse_json raw with
  | Some JNull => Some []
  | Some (JArr l) => mapM (λ p : string * json, unmarshal_row p.2) l
  | _ => None
  end.

(* domains.go:612-623 parseSplitPayments *)
Definition split_payment_line (li : goany) : option SplitPaymentLine :=
  match li with
  | AMap lm => Some {| sp_LineID := toStr (aget "line_id" lm); sp_Quantity := (Atoi (toStr (aget "quantity" lm))).1;
                       sp_AmountIRR := big_int64 (toStr (aget "amount_irr" lm)) |}
  | _ => None
  end.

(* domains.go:604-625 parseSplitPayments *)
Definition split_payment (r : gomap) : SplitPayment :=
  {| sp_ID := toStr (aget "id" r); sp_At := toStr (aget "at" r); sp_Method := toStr (aget "method" r);
     sp_Amount := big_int64 (toStr (aget "amount_irr" r)); sp_ClientToken := toStr (aget "client_token" r);
     sp_Lines := match aget "lines" r with AArr ll => omap split_payment_line ll | _ => [] end |}.

(* domains.go parseSplitPayments *)
Definition parseSplitPayments (e : Entity) : list SplitPayment :=
  let raw := TrimSpace (Field e "split_payments") in
  if sempty raw then []
  else match unmarshal_rows raw with Some rows => map split_payment rows | None => [] end.

(** ** The bill *)

(** [m[k] += v] on a map of machine integers. *)
Definition add_at (k : string) (v : Z) (m : gmap string Z) : gmap string Z := <[k := wrap64 (default 0 (m !! k) + v)]> m.

Definition sum64 (l : list Z) : Z := foldl (λ a x, wrap64 (a + x)) 0 l.

(* domains.go:650-659 SplitBillOf *)
Definition paid_qty (ps : list SplitPayment) : gmap string Z :=
  foldl (λ m l, add_at (sp_LineID l) (sp_Quantity l) m) ∅ (ps ≫= sp_Lines).
(* domains.go:650-659 SplitBillOf *)
Definition paid_amt (ps : list SplitPayment) : gmap string Z :=
  foldl (λ m l, add_at (sp_LineID l) (sp_AmountIRR l) m) ∅ (ps ≫= sp_Lines).

(** What a line is to pay of the total; [last] is whether it is the last line. *)
(* domains.go:663-675 SplitBillOf *)
Definition line_payable (subtotal total allocated lineTotal : Z) (last : bool) : Z :=
  let payable :=
    if (0 <? subtotal) && (0 <? total) then
      if last then wrap64 (total - allocated) else quot64 (wrap64 (lineTotal * total)) subtotal
    else 0 in
  if payable <? 0 then 0 else payable.

(* domains.go:660-690 SplitBillOf *)
Fixpoint bill_lines (subtotal total allocated : Z) (qtys amts : gmap string Z) (items : list OrderLineView) : list SplitBillLine :=
  match items with
  | [] => []
  | it :: items =>
      let lineTotal := big_int64 (ol_LineTotal it) in
      let payable := line_payable subtotal total allocated lineTotal (match items with [] => true | _ => false end) in
      let allocated := wrap64 (allocated + payable) in
      let qty := ol_Quantity it in
      let unit := if 0 <? qty then quot64 payable qty else 0 in
      let rem := wrap64 (payable - default 0 (amts !! ol_ID it)) in
      let rem := if rem <? 0 then 0 else rem in
      {| sl_Key := ol_ID it; sl_Title := ol_ProductName it; sl_Quantity := qty;
         sl_PaidQuantity := default 0 (qtys !! ol_ID it); sl_UnitPayableIRR := unit; sl_LinePayableIRR := payable;
         sl_PaidIRR := default 0 (amts !! ol_ID it); sl_RemainingIRR := rem |}
      :: bill_lines subtotal total allocated qtys amts items
  end.

(** [(lines, total, paid, remaining)]. *)
(* domains.go SplitBillOf *)
Definition SplitBillOf (e : Entity) : list SplitBillLine * Z * Z * Z :=
  let total := big_int64 (PriceIRR e) in
  let items := OrderItems e in
  let subtotal := sum64 (map (λ it, big_int64 (ol_LineTotal it)) items) in
  let payments := parseSplitPayments e in
  let paid := sum64 (map sp_Amount payments) in
  let lines := bill_lines subtotal total 0 (paid_qty payments) (paid_amt payments) items in
  let remaining := wrap64 (total - paid) in
  (lines, total, paid, if remaining <? 0 then 0 else remaining).

(* domains.go splitQuote *)
Definition splitQuote (l : SplitBillLine) (qty : Z) : Z :=
  let unpaid := wrap64 (sl_Quantity l - sl_PaidQuantity l) in
  if (qty <=? 0) || (unpaid <=? 0) then 0
  else if unpaid <=? qty then sl_RemainingIRR l
  else
    let amt := wrap64 (qty * sl_UnitPayableIRR l) in
    let amt := if amt <=? 0 then quot64 (wrap64 (sl_RemainingIRR l * qty)) unpaid else amt in
    if sl_RemainingIRR l <? amt then sl_RemainingIRR l else amt.

(** ** Writing payments *)

(* domains.go:789-792 Store.RecordSplitPayment *)
Definition payment_line_map (l : SplitPaymentLine) : gomap :=
  amap [("line_id", AStr (sp_LineID l)); ("quantity", AInt (sp_Quantity l)); ("amount_irr", AStr (Z_to_dec (sp_AmountIRR l)))].

(* domains.go:786-793 Store.RecordSplitPayment *)
Definition payment_map (p : SplitPayment) : gomap :=
  amap [("id", AStr (sp_ID p)); ("at", AStr (sp_At p)); ("method", AStr (sp_Method p));
        ("amount_irr", AStr (Z_to_dec (sp_Amount p))); ("client_token", AStr (sp_ClientToken p));
        ("lines", AArr (map (λ l, AMap (payment_line_map l)) (sp_Lines p)))].

(* domains.go:802-807 Store.RecordSplitPayment *)
Definition split_status (rem total paidSum : Z) : string :=
  if (rem =? 0) && (0 <? total) then "PAID" else if 0 <? paidSum then "PARTIAL" else "UNPAID".

(** The order's payload with the payments and what follows from them. *)
(* domains.go:784-817 Store.RecordSplitPayment *)
Definition store_payments (now : string) (payments : list SplitPayment) (total : Z) (om : option gomap) : res (string * Z * Z) :=
  let paidSum := sum64 (map sp_Amount payments) in
  let? blob := json_Marshal (AArr (map (λ p, AMap (payment_map p)) payments)) in
  let rem := wrap64 (total - paidSum) in
  let rem := if rem <? 0 then 0 else rem in
  let? om := assignable om in
  let om := aset "split_payments" (AStr blob) om in
  let om := aset "split_paid_irr" (AStr (Z_to_dec paidSum)) om in
  let om := aset "split_remaining_irr" (AStr (Z_to_dec rem)) om in
  let om := aset "split_status" (AStr (split_status rem total paidSum)) om in
  let om := aset "updated_at" (AStr now) om in
  let? b := json_Marshal (AMap om) in
  Ok (b, paidSum, rem).

(** ** Recording a payment *)

(** [byKey[l.Key]]: the last line of the key. *)
Definition line_by_key (k : string) (lines : list SplitBillLine) : option SplitBillLine :=
  last_of k (map (λ l, (sl_Key l, l)) lines).

(* domains.go:753-771 Store.RecordSplitPayment *)
Fixpoint pick_lines (lines : list SplitBillLine) (picks : list (string * Z)) : res (list SplitPaymentLine * Z) :=
  match picks with
  | [] => Ok ([], 0)
  | (lineID, qty) :: picks =>
      match line_by_key lineID lines with
      | None => Err "یکی از اقلام انتخاب‌شده در سفارش نیست"
      | Some l =>
          let unpaid := wrap64 (sl_Quantity l - sl_PaidQuantity l) in
          guard? negb ((qty <=? 0) || (unpaid <? qty))
            else "تعداد انتخابی برای «" +:+ sl_Title l +:+ "» بیش از مانده‌ی آن است" in
          let amt := splitQuote l qty in
          let? (payLines, amount) := pick_lines lines picks in
          Ok ({| sp_LineID := lineID; sp_Quantity := qty; sp_AmountIRR := amt |} :: payLines, wrap64 (amt + amount))
      end
  end.

Definition split_closed : string := "سفارش لغو یا برگشت‌داده‌شده قابل پرداخت دنگی نیست.".

(* domains.go:730-822 Store.RecordSplitPayment *)
Definition RecordSplitPayment_body (R : Runtime) (now orderID : string) (picks : gmap string Z) (method clientToken : string)
    (g : entropy) (st : persistedDB) : res (Z * Z * persistedDB) :=
  match live st "order" orderID with
  | None => Err "سفارش مورد نظر یافت نشد"
  | Some oEnt =>
      let ent := view oEnt in
      let status := ToLower (Field ent "status") in
      guard? negb (bool_decide (status = "completed")) else "این سفارش تکمیل و تسویه شده است" in
      guard? negb (closed_status status) else split_closed in
      let payments := parseSplitPayments ent in
      let tok := TrimSpace clientToken in
      let '(lines, total, paid, remaining) := SplitBillOf ent in
      if negb (sempty tok) && existsb (λ p, bool_decide (sp_ClientToken p = tok)) payments then Ok (paid, remaining, st)
      else
        let? (payLines, amount) := pick_lines lines (iter R 0 picks) in
        guard? (0 <? amount) else "مبلغ پرداخت صفر است؛ آیتمی انتخاب کنید." in
        let? pid := (UUID g).1 in
        let payments := payments ++ [{| sp_ID := pid; sp_At := now; sp_Method := method; sp_Amount := amount;
                                        sp_ClientToken := tok; sp_Lines := payLines |}] in
        let? om := load_map (se_Payload oEnt) in
        let? (b, paidSum, rem) := store_payments now payments total om in
        Ok (paidSum, rem, put (entityKey "order" orderID) (bump oEnt b) st)
  end.

(* domains.go Store.RecordSplitPayment *)
Definition RecordSplitPayment (R : Runtime) (io : IO) (ctx : option string) (s : Store) (g : entropy) (now : Z)
    (orderID : string) (picks : gmap string Z) (method clientToken : string) : tx_out (Z * Z) :=
  let method := TrimSpace (ToLower method) in
  if negb (existsb (String.eqb method) ["cash"; "card"; "transfer"]%stdpp) then tx_fail "روش پرداخت دنگی معتبر نیست" s
  else if bool_decide (picks = ∅) then tx_fail "اول آیتمی را که این نفر می‌پردازد انتخاب کنید." s
  else withTx io ctx s (RecordSplitPayment_body R (FormatRFC3339 now) orderID picks method clientToken g).

(** ** Taking the last payment back *)

(* domains.go:829-886 Store.UndoLastSplitPayment *)
Definition UndoLastSplitPayment_body (now orderID : string) (st : persistedDB) : res (unit * persistedDB) :=
  match live st "order" orderID with
  | None => Err "سفارش مورد نظر یافت نشد"
  | Some oEnt =>
      let ent := view oEnt in
      guard? negb (EqualFold (Field ent "status") "completed") else "سفارش تکمیل‌شده قابل برگرداندن پرداخت نیست" in
      let payments := parseSplitPayments ent in
      guard? negb (match payments with [] => true | _ => false end) else "پرداخت دنگی برای برگرداندن وجود ندارد" in
      let payments := take (length payments - 1) payments in
      let? om := load_map (se_Payload oEnt) in
      let? (b, _, _) := store_payments now payments (big_int64 (PriceIRR ent)) om in
      Ok ((), put (entityKey "order" orderID) (bump oEnt b) st)
  end.

(* domains.go Store.UndoLastSplitPayment *)
Definition UndoLastSplitPayment (io : IO) (ctx : option string) (s : Store) (now : Z) (orderID : string) : tx_out unit :=
  withTx io ctx s (UndoLastSplitPayment_body (FormatRFC3339 now) orderID).

(** ** Payments that survive their text *)

Definition good_line (l : SplitPaymentLine) : Prop :=
  utf8_valid (sp_LineID l) = true ∧ 0 <= sp_Quantity l < 2 ^ 53 ∧ in_int64 (sp_AmountIRR l).

Definition good_payment (p : SplitPayment) : Prop :=
  utf8_valid (sp_ID p) = true ∧ utf8_valid (sp_At p) = true ∧ utf8_valid (sp_Method p) = true
  ∧ utf8_valid (sp_ClientToken p) = true ∧ in_int64 (sp_Amount p) ∧ Forall good_line (sp_Lines p).

Lemma big_int64_dec z : in_int64 z → big_int64 (Z_to_dec z) = z.
Proof. intros H. unfold big_int64. rewrite parseBigIntSafe_dec. by apply wrap64_id. Qed.

Lemma payment_line_good l : good_line l → good_map (payment_line_map l).
Proof.
  intros (H1 & _). apply good_amap. cbn [forallb fst snd wf_any]. by rewrite H1, Z_to_dec_valid.
Qed.

Lemma payment_line_ok l : good_line l → back_ok (AMap (payment_line_map l)) = true.
Proof.
  intros (_ & Hq & _). rewrite back_ok_amap. apply forallb_amap. cbn [forallb snd]. by rewrite (proj1 (back_dec _ Hq)).
Qed.

Lemma payment_line_back l : good_line l → split_payment_line (back (AMap (payment_line_map l))) = Some l.
Proof.
  intros G. destruct (payment_line_good l G) as [Hn _]. rewrite back_map_val. cbn [split_payment_line].
  rewrite !aget_back by done. unfold payment_line_map. rewrite !aget_amap. cbn [literal_get].
  destruct G as (_ & Hq & Ha). destruct (back_dec _ Hq) as (_ & x & Ex & Hx). cbn -[back].
  rewrite Ex. cbn [back ann to_any fst toStr]. rewrite Hx, Atoi_Z_to_dec, big_int64_dec; [by destruct l|done|].
  unfold in_int64, two63. lia.
Qed.

Lemma payment_good p : good_payment p → good_map (payment_map p).
Proof.
  intros (H1 & H2 & H3 & H4 & _ & Hl). apply good_amap. cbn [forallb fst snd].
  assert (wf_any (AArr (map (λ l, AMap (payment_line_map l)) (sp_Lines p))) = true) as ->.
  { cbn [wf_any]. rewrite forallb_map. apply forallb_forall. intros l Hin. rewrite Forall_forall in Hl.
    by apply payment_line_good, Hl, list_elem_of_In. }
  cbn [wf_any]. by rewrite H1, H2, H3, H4, Z_to_dec_valid.
Qed.

Lemma payment_ok p : good_payment p → back_ok (AMap (payment_map p)) = true.
Proof.
  intros (_ & _ & _ & _ & _ & Hl). rewrite back_ok_amap. apply forallb_amap. cbn [forallb snd].
  rewrite back_ok_arr, forallb_map, andb_true_r. cbn -[forallb back_ok payment_line_map].
  apply forallb_forall. intros l Hin. rewrite Forall_forall in Hl. by apply payment_line_ok, Hl, list_elem_of_In.
Qed.

Lemma payment_back p : good_payment p → split_payment (back_map (payment_map p)) = p.
Proof.
  intros G. destruct (payment_good p G) as [Hn _]. unfold split_payment. rewrite !aget_back by done.
  assert (aget "lines" (payment_map p) = AArr (map (λ l, AMap (payment_line_map l)) (sp_Lines p))) as -> by (unfold payment_map; amaps).
  assert (aget "amount_irr" (payment_map p) = AStr (Z_to_dec (sp_Amount p))) as -> by (unfold payment_map; amaps).
  destruct G as (_ & _ & _ & _ & Ha & Hl). rewrite back_arr.
  assert (omap split_payment_line (map back (map (λ l, AMap (payment_line_map l)) (sp_Lines p))) = sp_Lines p) as ->.
  { clear Hn. induction Hl as [|l ls G _ IH]; [done|]. cbn [map omap list_omap]. by rewrite payment_line_back, IH. }
  unfold payment_map. rewrite !aget_amap. cbn -[back]. cbn [back ann to_any fst toStr].
  rewrite big_int64_dec by done. by destruct p.
Qed.

Definition payments_any (ps : list SplitPayment) : goany := AArr (map (λ p, AMap (payment_map p)) ps).

Lemma payments_wf ps : Forall good_payment ps → wf_any (payments_any ps) = true.
Proof.
  intros H. cbn [payments_any wf_any]. rewrite forallb_map. apply forallb_forall. intros p Hin.
  rewrite Forall_forall in H. by apply payment_good, H, list_elem_of_In.
Qed.

Lemma payments_rows ps : Forall good_payment ps →
  unmarshal_rows (marshal (payments_any ps)) = Some (map (λ p, back_map (payment_map p)) ps).
Proof.
  intros H. unfold unmarshal_rows. rewrite parse_marshal by (by apply payments_wf).
  unfold payments_any. cbn [ann]. rewrite map_map. induction H as [|p ps G _ IH]; [done|].
  cbn [map]. rewrite mapM_step. cbn [snd].
  assert (unmarshal_row (ann (AMap (payment_map p))) = Some (back_map (payment_map p))) as ->.
  { pose proof (back_ok_map (payment_map p)) as B. rewrite <- back_ok_amap in B.
    specialize (B (payment_ok p G)). cbn [ann] in *. unfold unmarshal_row. by rewrite B. }
  cbn [mbind option_bind]. rewrite IH. done.
Qed.

Lemma parse_stored e m ps : e_Payload e = marshal (AMap m) → good_map m → Forall good_payment ps →
  aget "split_payments" m = AStr (marshal (payments_any ps)) → parseSplitPayments e = ps.
Proof.
  intros He Hm Hps Hk. unfold parseSplitPayments. rewrite (Field_marshal_str e m _ _ He Hm Hk).
  pose proof (payments_wf ps Hps) as W. unfold payments_any in *. rewrite (TrimSpace_array _ W).
  destruct (sempty _) eqn:E; [apply sempty_true in E; by apply marshal_nonempty in E|].
  fold (payments_any ps). rewrite (payments_rows ps Hps), map_map. clear -Hps.
  induction Hps as [|p ps G _ IH]; [done|]. cbn [map]. by rewrite payment_back, IH.
Qed.

(** The fields a payment writes. *)
Definition split_fields : list string :=
  ["split_payments"; "split_paid_irr"; "split_remaining_irr"; "split_status"; "updated_at"]%stdpp.

Lemma store_payments_spec now ps total om b paid rem :
  Forall good_payment ps → utf8_valid now = true → (∀ m, om = Some m → good_map m) →
  store_payments now ps total om = Ok (b, paid, rem) →
  paid = sum64 (map sp_Amount ps) ∧ rem = Z.max 0 (wrap64 (total - paid))
  ∧ ∃ m0 m, om = Some m0 ∧ b = marshal (AMap m) ∧ good_map m
     ∧ (∀ e, e_Payload e = b → parseSplitPayments e = ps)
     ∧ aget "split_paid_irr" m = AStr (Z_to_dec paid) ∧ aget "split_remaining_irr" m = AStr (Z_to_dec rem)
     ∧ aget "split_status" m = AStr (split_status rem total paid)
     ∧ (∀ k, k ∉ split_fields → aget k m = aget k m0)
     ∧ (∀ P : string → bool, Forall (λ k, P k = false) split_fields → List.filter (λ p, P p.1) m = List.filter (λ p, P p.1) m0)
     ∧ (key_sorted m0 → fixed (AMap m0) → key_sorted m ∧ fixed (AMap m)).
Proof.
  intros Hps Hnow Hom. unfold store_payments. fold (payments_any ps).
  pose proof (payments_wf ps Hps) as W. unfold json_Marshal at 1. rewrite (wf_marshal_ok _ W).
  set (r := if wrap64 _ <? 0 then 0 else _). destruct (assignable om) as [m0|] eqn:A; [|done].
  apply assignable_ok in A as ->. specialize (Hom _ eq_refl).
  set (m := aset "updated_at" _ _). assert (good_map m) as Hg.
  { subst m. apply good_aset_str; [|done|done]. apply good_aset_str; [|done|].
    2:{ unfold split_status. by repeat match goal with |- context [if ?c then _ else _] => destruct c end. }
    apply good_aset_dec; [|done]. apply good_aset_dec; [|done]. apply good_aset_str; [done|done|]. by apply marshal_valid. }
  rewrite json_Marshal_good by done. intros H. assert (b = marshal (AMap m) ∧ paid = sum64 (map sp_Amount ps) ∧ rem = r) as (-> & -> & ->)
    by (generalize dependent (marshal (AMap m)); intros ? [=]; by subst).
  split; [done|]. split; [subst r; destruct (Z.ltb_spec (wrap64 (total - sum64 (map sp_Amount ps))) 0); lia|].
  exists m0, m. do 3 (split; [done|]). split.
  { intros e He. apply (parse_stored e m ps He Hg Hps). subst m. by agets. }
  do 3 (split; [subst m; by agets|]). split; [|split].
  - intros k Hk. unfold split_fields in Hk. rewrite !not_elem_of_cons in Hk. destruct_and! Hk.
    subst m. by rewrite !aget_aset_ne by congruence.
  - intros P HP. unfold split_fields in HP. rewrite !Forall_cons in HP. destruct_and! HP. subst m. by rewrite !filter_aset.
  - intros Hs Hf. subst m. auto 20 using key_sorted_aset, fixed_aset, fixed_str.
Qed.

(** ** Payments that were read *)

Lemma wf_get m k : wf_any (AMap m) = true → wf_any (aget k m) = true.
Proof.
  intros Hw. destruct (decide (k ∈ m.*1)) as [H|H]; [|by rewrite aget_absent].
  apply aget_elem in H. cbn [wf_any] in Hw. rewrite forallb_forall in Hw.
  apply list_elem_of_In in H. apply Hw in H. cbn in H. by bools.
Qed.

Lemma toStr_valid a : wf_any a = true → utf8_valid (toStr a) = true.
Proof. destruct a as [|[]|z|x|s|l|m]; intros H; try done; apply Z_to_dec_valid. Qed.

Lemma unmarshal_rows_wf raw rows : unmarshal_rows raw = Some rows → Forall (λ r, wf_any (AMap r) = true) rows.
Proof.
  unfold unmarshal_rows. destruct (parse_json raw) as [j|] eqn:E; [|done]. apply parse_json_ok in E.
  destruct j as [| | | |l|]; try done; [intros [= <-]; constructor|].
  cbn [json_ok] in E. revert rows. induction l as [|[t j] l IH]; intros rows; [intros [= <-]; constructor|].
  cbn [forallb snd] in E. apply andb_true_iff in E as [Ej El]. rewrite mapM_step. cbn [snd].
  destruct (unmarshal_row j) as [r|] eqn:U; [|done]. cbn [mbind option_bind].
  destruct (mapM _ l) as [rs|]; [|done]. intros [= <-]. constructor; [|by apply IH].
  destruct j as [| | | | |o]; try done; [by injection U as <-|]. unfold unmarshal_row in U.
  pose proof (to_any_wf _ Ej) as W. destruct (to_any (JObj o)) as [[| | | | | |m] []]; try done. by injection U as <-.
Qed.

Definition small_quantities (ps : list SplitPayment) : Prop :=
  Forall (λ p, Forall (λ l, 0 <= sp_Quantity l < 2 ^ 53) (sp_Lines p)) ps.

Lemma lines_good ll : forallb wf_any ll = true →
  Forall (λ l, 0 <= sp_Quantity l < 2 ^ 53) (omap split_payment_line ll) → Forall good_line (omap split_payment_line ll).
Proof.
  induction ll as [|a ll IH]; [constructor|]. cbn [forallb omap list_omap]. intros Hw Hq. bools.
  destruct a as [| | | | | |m]; try (by apply IH). cbn [split_payment_line] in *. inversion Hq; subst.
  constructor; [|by apply IH]. split; [by apply toStr_valid, wf_get|]. split; [done|apply wrap64_range].
Qed.

Lemma parse_good e : small_quantities (parseSplitPayments e) → Forall good_payment (parseSplitPayments e).
Proof.
  unfold parseSplitPayments, small_quantities. destruct (sempty _); [constructor|].
  destruct (unmarshal_rows _) as [rows|] eqn:E; [|constructor]. apply unmarshal_rows_wf in E.
  induction E as [|r rows W _ IH]; [constructor|]. cbn [map]. intros H. inversion H as [|? ? Hq Hrest]; subst.
  constructor; [|by apply IH]. unfold good_payment, split_payment in *. cbn [sp_ID sp_At sp_Method sp_ClientToken sp_Amount sp_Lines] in *.
  do 4 (split; [by apply toStr_valid, wf_get|]). split; [apply wrap64_range|].
  pose proof (wf_get r "lines" W) as Wl. destruct (aget "lines" r) as [| | | | |ll|]; try constructor. by apply lines_good.
Qed.

(** ** What a guest picks *)

Lemma in_int64_small z : 0 <= z < two63 → in_int64 z.
Proof. unfold in_int64, two63. lia. Qed.

Lemma splitQuote_int64 l q : in_int64 (sl_RemainingIRR l) → in_int64 (splitQuote l q).
Proof.
  intros H. unfold splitQuote.
  repeat match goal with |- context [if ?c then _ else _] => destruct c end; try done; try apply wrap64_range;
    try (by apply in_int64_small). all: unfold quot64; apply wrap64_range.
Qed.

Lemma bill_lines_int64 subtotal total qtys amts items : ∀ allocated,
  Forall (λ l, in_int64 (sl_RemainingIRR l)) (bill_lines subtotal total allocated qtys amts items).
Proof.
  induction items as [|it items IH]; intros allocated; constructor; [|apply IH]. cbn [sl_RemainingIRR].
  destruct (_ <? 0); [by apply in_int64_small|apply wrap64_range].
Qed.

Lemma last_of_some {A} k (l : list (string * A)) v : last_of k l = Some v → (k, v) ∈ l.
Proof.
  induction l as [|[j w] l IH]; [done|]. cbn [last_of]. rewrite elem_of_cons.
  destruct (last_of k l); [intros [= ->]; auto|]. case_bool_decide; [intros [= ->]; subst; auto|done].
Qed.

Lemma line_by_key_elem k lines l : line_by_key k lines = Some l → l ∈ lines ∧ sl_Key l = k.
Proof.
  unfold line_by_key. intros H. apply last_of_some in H. apply list_elem_of_fmap in H as (l' & [= -> ->] & H). done.
Qed.

(** A payment's line is within what is unpaid of the bill's line, at its quote. *)
Definition quoted (lines : list SplitBillLine) (l : SplitPaymentLine) : Prop :=
  ∃ bl, line_by_key (sp_LineID l) lines = Some bl ∧ 0 < sp_Quantity l <= wrap64 (sl_Quantity bl - sl_PaidQuantity bl)
    ∧ sp_AmountIRR l = splitQuote bl (sp_Quantity l).

Lemma pick_lines_spec lines picks : ∀ pl amount, pick_lines lines picks = Ok (pl, amount) →
  map (λ l, (sp_LineID l, sp_Quantity l)) pl = picks ∧ Forall (quoted lines) pl
  ∧ amount = foldr (λ l a, wrap64 (sp_AmountIRR l + a)) 0 pl.
Proof.
  induction picks as [|[k q] picks IH]; intros pl amount; cbn [pick_lines]; [by intros [= <- <-]|].
  destruct (line_by_key k lines) as [bl|] eqn:E; [|done]. cbv zeta. destruct (negb _) eqn:N; [|done].
  destruct (pick_lines lines picks) as [[pl' a']|] eqn:P; [|done]. intros [= <- <-].
  destruct (IH _ _ eq_refl) as (<- & Hf & ->). bools. split; [done|]. split; [|done].
  constructor; [|done]. exists bl. cbn. split; [done|]. split; [lia|done].
Qed.

Lemma quoted_good lines pl :
  Forall (λ l, in_int64 (sl_RemainingIRR l)) lines → Forall (quoted lines) pl →
  Forall (λ kq : string * Z, utf8_valid kq.1 = true ∧ kq.2 < 2 ^ 53) (map (λ l, (sp_LineID l, sp_Quantity l)) pl) →
  Forall good_line pl.
Proof.
  intros Hl Hq Hk. apply Forall_map in Hk. induction Hq as [|l pl (bl & E & Hb & Ha) _ IH]; [constructor|].
  inversion_clear Hk as [|? ? [Hu Hs] Hk']. constructor; [|by apply IH]. cbn in Hu, Hs. split; [done|]. split; [lia|].
  rewrite Ha. apply splitQuote_int64. apply line_by_key_elem in E as [E _]. rewrite Forall_forall in Hl. auto.
Qed.

Lemma fold_wrap_int64 pl : in_int64 (foldr (λ l a, wrap64 (sp_AmountIRR l + a)) 0 pl).
Proof. destruct pl; [by apply in_int64_small|apply wrap64_range]. Qed.

(** ** Recording and taking back *)

Definition payments_of (st : persistedDB) (orderID : string) : list SplitPayment :=
  match live st "order" orderID with Some e => parseSplitPayments (view e) | None => [] end.

Definition bill_of (st : persistedDB) (orderID : string) : list SplitBillLine * Z * Z * Z :=
  match live st "order" orderID with Some e => SplitBillOf (view e) | None => ([], 0, 0, 0) end.

(** What the operations ask of their texts and numbers. *)
Definition clean_request (now method token : string) (picks : gmap string Z) : Prop :=
  utf8_valid now = true ∧ utf8_valid method = true ∧ utf8_valid (TrimSpace token) = true
  ∧ map_Forall (λ k q, utf8_valid k = true ∧ q < 2 ^ 53) picks.

Definition fresh_token (token : string) (ps : list SplitPayment) : Prop :=
  sempty (TrimSpace token) = true ∨ Forall (λ p, sp_ClientToken p ≠ TrimSpace token) ps.

Lemma fresh_token_dec token ps :
  negb (sempty (TrimSpace token)) && existsb (λ p, bool_decide (sp_ClientToken p = TrimSpace token)) ps = false ↔ fresh_token token ps.
Proof.
  unfold fresh_token. rewrite andb_false_iff, negb_false_iff. apply or_iff_compat_l. rewrite Forall_forall.
  split.
  - intros H p Hp E. assert (existsb (λ p, bool_decide (sp_ClientToken p = TrimSpace token)) ps = true); [|congruence].
    apply existsb_exists. exists p. split; [by apply list_elem_of_In|by apply bool_decide_eq_true].
  - intros H. apply not_true_iff_false. intros (p & Hp & E)%existsb_exists. apply bool_decide_eq_true in E.
    apply list_elem_of_In in Hp. by apply (H p).
Qed.

(** What a payment that was recorded says: who, how much, and for which lines. *)
Definition records (lines : list SplitBillLine) (now method token : string) (picks : gmap string Z) (p : SplitPayment) : Prop :=
  sp_At p = now ∧ sp_Method p = method ∧ sp_ClientToken p = TrimSpace token ∧ 0 < sp_Amount p
  ∧ sp_Amount p = foldr (λ l a, wrap64 (sp_AmountIRR l + a)) 0 (sp_Lines p)
  ∧ map (λ l, (sp_LineID l, sp_Quantity l)) (sp_Lines p) ≡ₚ map_to_list picks ∧ Forall (quoted lines) (sp_Lines p).

Lemma SplitBillOf_lines e lines total paid rem : SplitBillOf e = (lines, total, paid, rem) →
  Forall (λ l, in_int64 (sl_RemainingIRR l)) lines ∧ total = big_int64 (PriceIRR e)
  ∧ paid = sum64 (map sp_Amount (parseSplitPayments e)).
Proof.
  intros H. assert (lines = (SplitBillOf e).1.1.1 ∧ total = (SplitBillOf e).1.1.2 ∧ paid = (SplitBillOf e).1.2) as (-> & -> & ->)
    by (rewrite H; split_and!; reflexivity).
  split; [apply bill_lines_int64|]. split; reflexivity.
Qed.

Lemma SplitBillOf_remaining e lines total paid rem : SplitBillOf e = (lines, total, paid, rem) →
  paid = sum64 (map sp_Amount (parseSplitPayments e)) ∧ rem = Z.max 0 (wrap64 (total - paid)).
Proof.
  intros H. assert (total = (SplitBillOf e).1.1.2 ∧ paid = (SplitBillOf e).1.2 ∧ rem = (SplitBillOf e).2) as (-> & -> & ->)
    by (rewrite H; split_and!; reflexivity).
  split; [done|]. unfold SplitBillOf. cbn [fst snd]. destruct (Z.ltb_spec (wrap64 (big_int64 (PriceIRR e)
    - sum64 (map sp_Amount (parseSplitPayments e)))) 0); lia.
Qed.

Lemma record_step R now orderID picks method token g st paid rem st1 old lines total paid0 rem0 :
  live st "order" orderID = Some old → SplitBillOf (view old) = (lines, total, paid0, rem0) →
  clean_request now method token picks → good_draws g → small_quantities (parseSplitPayments (view old)) →
  fresh_token token (parseSplitPayments (view old)) →
  RecordSplitPayment_body R now orderID picks method token g st = Ok (paid, rem, st1) →
  ∃ p m0 m, records lines now method token picks p ∧ Forall good_payment (parseSplitPayments (view old) ++ [p])
    ∧ load_map (se_Payload old) = Ok (Some m0) ∧ good_map m ∧ (∀ k, k ∉ split_fields → aget k m = aget k m0)
    ∧ (∀ P : string → bool, Forall (λ k, P k = false) split_fields → List.filter (λ p, P p.1) m = List.filter (λ p, P p.1) m0)
    ∧ (key_sorted m0 → fixed (AMap m0) → key_sorted m ∧ fixed (AMap m))
    ∧ st1 = put (entityKey "order" orderID) (bump old (marshal (AMap m))) st
    ∧ (∀ e, e_Payload e = marshal (AMap m) → parseSplitPayments e = parseSplitPayments (view old) ++ [p])
    ∧ paid = sum64 (map sp_Amount (parseSplitPayments (view old) ++ [p])) ∧ rem = Z.max 0 (wrap64 (total - paid)).
Proof.
  intros L B (Hnow & Hmeth & Htok & Hpicks) Hg Hsmall Hfresh. unfold RecordSplitPayment_body. rewrite L. cbv zeta.
  destruct (negb _); [|done]. destruct (negb (closed_status _)); [|done]. rewrite B.
  apply fresh_token_dec in Hfresh. rewrite Hfresh.
  destruct (pick_lines lines _) as [[pl amount]|] eqn:P; [|done]. apply pick_lines_spec in P as (Hpl & Hq & Ham).
  destruct (0 <? amount) eqn:A; [|done]. bools. destruct (UUID g) as [[pid|] g'] eqn:U; [|done]. cbn [fst].
  set (p := {| sp_ID := pid |}). destruct (load_map (se_Payload old)) as [om|] eqn:M; [|done].
  apply SplitBillOf_lines in B as (Hlines & _ & _).
  assert (map (λ l, (sp_LineID l, sp_Quantity l)) pl ≡ₚ map_to_list picks) as Hperm by (rewrite Hpl; apply iter_perm).
  assert (Forall good_payment (parseSplitPayments (view old) ++ [p])) as Hgood.
  { apply Forall_app. split; [by apply parse_good|]. apply Forall_singleton. split.
    - destruct g as [|[b|] g0]; [done| |done]. inversion Hg; subst. destruct (UUID_wf b g0) as (id & E & Hid & _); [done|].
      rewrite E in U. injection U as <- _. by apply uuid_valid.
    - cbn. do 3 (split; [done|]). split; [rewrite Ham; apply fold_wrap_int64|].
      apply (quoted_good lines); [done|done|]. rewrite Hperm. apply Forall_forall. intros [k q] Hin.
      apply elem_of_map_to_list in Hin. by apply (Hpicks k q). }
  destruct (store_payments _ _ _ _) as [[[b paid'] rem']|] eqn:S; [|done]. intros [= <- <- <-].
  apply store_payments_spec in S as (-> & -> & m0 & m & -> & -> & Hm & Hparse & _ & _ & _ & Hk & Hf & Hx); [|done|done|].
  2:{ intros m1 ->. by eapply load_map_good. }
  exists p, m0, m. split; [unfold records; subst p; cbn; split_and!; done|]. split_and!; done.
Qed.

Lemma store_payments_total now ps total m0 :
  Forall good_payment ps → good_map m0 → ∃ b paid rem, store_payments now ps total (Some m0) = Ok (b, paid, rem).
Proof.
  intros Hps Hm. unfold store_payments. fold (payments_any ps). unfold json_Marshal at 1.
  rewrite (wf_marshal_ok _ (payments_wf ps Hps)). cbn [assignable]. unfold json_Marshal.
  rewrite marshal_ok_aset; [eauto| |done]. do 4 (apply marshal_ok_aset; [|done]). by apply wf_marshal_ok, Hm.
Qed.

Lemma live_put k i e st : se_Deleted e = false → live (put (entityKey k i) e st) k i = Some e.
Proof. intros H. unfold live. rewrite lookup_put, H. done. Qed.

Lemma order_status st id s e : order_in st id s → live st "order" id = Some e →
  Field (view e) "status" = s ∧ ∀ o, load_map (se_Payload e) = Ok o → oget "status" o = AStr s.
Proof.
  intros (e' & m & L & P & G & S) L'. rewrite L in L'. injection L' as <-.
  split; [by apply (text_marshal e' m)|]. intros o. rewrite P. by apply load_marshal_str.
Qed.

(** A payload that reading and writing again leaves as it is, as the program writes them. *)
Definition settled_payload (p : string) : bool :=
  match load_map p with Ok (Some m) => bool_decide (p = marshal (AMap m)) | _ => false end.

Lemma settled_fixed p m0 : load_map p = Ok (Some m0) → settled_payload p = true →
  p = marshal (AMap m0) ∧ key_sorted m0 ∧ fixed (AMap m0).
Proof.
  unfold settled_payload. intros M. rewrite M. intros Hp. apply bool_decide_eq_true in Hp. split; [done|].
  pose proof (load_map_good _ _ M) as [_ Hw]. unfold load_map in M. destruct (unmarshal_map p) as [o ok] eqn:U.
  destruct ok; [|done]. injection M as ->. split; [by eapply unmarshal_map_sorted|]. subst p. revert U.
  unfold unmarshal_map. rewrite parse_marshal by done. unfold fixed. cbn [ann].
  pose proof (to_any_map m0) as T. cbn [ann] in T. rewrite T. generalize (forallb (λ p, back_ok p.2) m0), (back_map m0).
  intros ok m [= -> ->]. done.
Qed.

(** What a bill is made of, when the other fields are the same. *)
Lemma SplitBillOf_same e e' m m' :
  e_Payload e = marshal (AMap m) → good_map m → e_Payload e' = marshal (AMap m') → good_map m' →
  (∀ k, k ∉ split_fields → aget k m' = aget k m) →
  (∀ P : string → bool, Forall (λ k, P k = false) split_fields → List.filter (λ p, P p.1) m' = List.filter (λ p, P p.1) m) →
  parseSplitPayments e' = parseSplitPayments e → SplitBillOf e' = SplitBillOf e.
Proof.
  intros He Hm He' Hm' Hk Hf Hp. unfold SplitBillOf. rewrite Hp.
  assert (PriceIRR e' = PriceIRR e) as ->.
  { unfold PriceIRR. cbn [first_field]. rewrite !(Field_marshal e' m'), !(Field_marshal e m) by done. by rewrite !Hk by decided. }
  assert (OrderItems e' = OrderItems e) as ->; [|done].
  unfold OrderItems, dec_items. rewrite He, He', !parse_marshal_map by done.
  assert (∀ n : gomap, struct_members "items" (map (λ p, (p.1, (marshal p.2, ann p.2))) n)
          = map (λ p, (marshal p.2, ann p.2)) (List.filter (λ p, field_key "items" p.1) n)) as E.
  { unfold struct_members. induction n as [|[k v] n IH]; [done|]. cbn [map List.filter fst].
    destruct (field_key "items" k); cbn [map snd]; by rewrite IH. }
  rewrite !E, (Hf (field_key "items")); [done|]. repeat constructor.
Qed.

(** Taking the last payment back from a payload the program wrote. *)
Lemma undo_step now orderID st e s m ps p :
  s ≠ "completed" → s ∈ canonical → live st "order" orderID = Some e → se_Payload e = marshal (AMap m) →
  good_map m → fixed (AMap m) → aget "status" m = AStr s →
  parseSplitPayments (view e) = ps ++ [p] → Forall good_payment ps → utf8_valid now = true →
  let total := big_int64 (PriceIRR (view e)) in
  let paid := sum64 (map sp_Amount ps) in
  let rem := Z.max 0 (wrap64 (total - paid)) in
  ∃ m2, UndoLastSplitPayment_body now orderID st = Ok ((), put (entityKey "order" orderID) (bump e (marshal (AMap m2))) st)
    ∧ good_map m2 ∧ (∀ e, e_Payload e = marshal (AMap m2) → parseSplitPayments e = ps)
    ∧ aget "split_paid_irr" m2 = AStr (Z_to_dec paid) ∧ aget "split_remaining_irr" m2 = AStr (Z_to_dec rem)
    ∧ aget "split_status" m2 = AStr (split_status rem total paid)
    ∧ (∀ k, k ∉ split_fields → aget k m2 = aget k m)
    ∧ ∀ P : string → bool, Forall (λ k, P k = false) split_fields → List.filter (λ p, P p.1) m2 = List.filter (λ p, P p.1) m.
Proof.
  intros Hne Hs L Hp Hg Hf Hst Hps Hgp Hnow total paid rem. unfold UndoLastSplitPayment_body. rewrite L. cbv zeta.
  rewrite (Field_marshal_str (view e) m "status" s), canonical_fold, bool_decide_false by (done || decided).
  rewrite Hps. destruct (ps ++ [p]) eqn:E; [by destruct ps|]. rewrite <- E. clear E. cbn [negb].
  rewrite length_app, Nat.add_sub, take_app_length. unfold load_map. rewrite Hp, unmarshal_fixed by done.
  destruct (store_payments_total now ps (big_int64 (PriceIRR (view e))) m) as (b & paid' & rem' & S); [done..|]. rewrite S.
  apply store_payments_spec in S as (-> & -> & m1 & m2 & [= <-] & -> & Hm & Hparse & H1 & H2 & H3 & Hk & Hfl & _);
    [|done|done|by intros ? [= <-]].
  exists m2. split_and!; done.
Qed.

(** C16: recording a guest's payment and taking it back.  When a payment with a new token is
    recorded on an order in one of its six states, the order's list of payments grows by
    exactly it: it pays the picked quantities, every line within what is unpaid and at its
    quote, for the sum of the quotes; what is answered as paid and remaining is the sum of the
    payments and what the total leaves, and the order stays in its state and nothing else of
    the database changes.  When the order's payload was one that reading and writing again
    leaves as it is, taking the last payment back then succeeds and leaves the order as it was
    but for the two versions and [updated_at]: the same payments and the same bill (lines,
    quantities, paid and unpaid shares, total, paid and remaining amounts), the fields of the
    split written for that bill, and every other field with its old value.  (The texts are taken
    to be valid UTF-8 and the quantities below 2^53, which JSON numbers hold exactly.) *)
Theorem RecordSplitPayment_undo R now now' orderID picks method token g st paid rem st1 s old :
  order_in st orderID s → s ∈ canonical → live st "order" orderID = Some old →
  clean_request now method token picks → utf8_valid now' = true →
  good_draws g → small_quantities (payments_of st orderID) → fresh_token token (payments_of st orderID) →
  RecordSplitPayment_body R now orderID picks method token g st = Ok (paid, rem, st1) →
  (∃ p e, payments_of st1 orderID = payments_of st orderID ++ [p]
    ∧ records (bill_of st orderID).1.1.1 now method token picks p
    ∧ paid = sum64 (map sp_Amount (payments_of st1 orderID))
    ∧ rem = Z.max 0 (wrap64 ((bill_of st orderID).1.1.2 - paid))
    ∧ st1 = put (entityKey "order" orderID) e st ∧ order_in st1 orderID s)
  ∧ (settled_payload (se_Payload old) = true →
     ∃ st2 p1 m0 m2, UndoLastSplitPayment_body now' orderID st1 = Ok ((), st2)
       ∧ st2 = put (entityKey "order" orderID) (bump (bump old p1) (marshal (AMap m2))) st1
       ∧ payments_of st2 orderID = payments_of st orderID ∧ bill_of st2 orderID = bill_of st orderID
       ∧ se_Payload old = marshal (AMap m0) ∧ (∀ k, k ∉ split_fields → aget k m2 = aget k m0)
       ∧ let '(_, total, paid0, rem0) := bill_of st orderID in
         aget "split_paid_irr" m2 = AStr (Z_to_dec paid0) ∧ aget "split_remaining_irr" m2 = AStr (Z_to_dec rem0)
         ∧ aget "split_status" m2 = AStr (split_status rem0 total paid0)).
Proof.
  intros Ho Hs L Hc Hnow Hg Hsmall Hfresh H. destruct (order_status _ _ _ _ Ho L) as [Hst Hget].
  assert (s ≠ "completed") as Hne.
  { intros ->. unfold RecordSplitPayment_body in H. rewrite L, Hst in H. discriminate H. }
  unfold payments_of, bill_of in *. rewrite L in *. destruct (SplitBillOf (view old)) as [[[lines total] paid0] rem0] eqn:B.
  destruct (record_step _ _ _ _ _ _ _ _ _ _ _ _ _ _ _ _ L B Hc Hg Hsmall Hfresh H)
    as (p & m0 & m & Hrec & Hgood & M & Hm & Hk & Hfl & Hx & -> & Hparse & Hpaid & Hrem).
  pose proof (live_some _ _ _ _ L) as [_ Hd]. set (e := bump old (marshal (AMap m))).
  set (st1 := put (entityKey "order" orderID) e st).
  assert (live st1 "order" orderID = Some e) as L1 by (by apply live_put).
  assert (aget "status" m = AStr s) as Hms by (rewrite Hk by decided; by apply (Hget (Some m0))).
  assert (parseSplitPayments (view e) = parseSplitPayments (view old) ++ [p]) as Hp1 by (by apply Hparse).
  rewrite L1, Hp1. split.
  { exists p, e. do 5 (split; [done|]). exists e, m. done. }
  intros Hset. destruct (settled_fixed _ _ M Hset) as (Hp0 & Hso & Hfx). destruct (Hx Hso Hfx) as [_ Hfx1].
  pose proof (load_map_good _ _ M) as Hm0. apply Forall_app in Hgood as [Hgood _].
  destruct (undo_step now' orderID st1 e s m _ _ Hne Hs L1 eq_refl Hm Hfx1 Hms Hp1 Hgood Hnow)
    as (m2 & HU & Hm2 & Hps2 & F1 & F2 & F3 & Hk2 & Hfl2).
  set (e2 := bump e (marshal (AMap m2))) in *.
  assert (live (put (entityKey "order" orderID) e2 st1) "order" orderID = Some e2) as L2 by (by apply live_put).
  assert (∀ k, k ∉ split_fields → aget k m2 = aget k m0) as Hk' by (intros k Hn; by rewrite Hk2, Hk).
  assert (SplitBillOf (view e2) = SplitBillOf (view old)) as B2.
  { apply (SplitBillOf_same (view old) (view e2) m0 m2); try done; [|by apply Hps2]. intros P HP. by rewrite Hfl2, Hfl. }
  exists (put (entityKey "order" orderID) e2 st1), (marshal (AMap m)), m0, m2. rewrite L2, B2. split; [done|]. split; [done|].
  split; [by apply Hps2|]. do 3 (split; [done|]).
  assert (big_int64 (PriceIRR (view e)) = total) as Ht.
  { apply SplitBillOf_lines in B as (_ & -> & _). unfold PriceIRR. cbn [first_field].
    rewrite !(Field_marshal (view e) m), !(Field_marshal (view old) m0) by done. by rewrite !Hk by decided. }
  assert (paid0 = sum64 (map sp_Amount (parseSplitPayments (view old))) ∧ rem0 = Z.max 0 (wrap64 (total - paid0))) as [-> ->].
  { exact (SplitBillOf_remaining _ _ _ _ _ B). }
  by rewrite Ht in F2, F3.
Qed.

(** sending a payment twice records it once.  Once a payment with a token has been
    recorded on an order in one of its six states, recording any payment with the same
    token, whatever it picks, however it pays and under whatever runtime, succeeds, answers
    the same amount paid and changes nothing at all. *)
Theorem RecordSplitPayment_retry R R' now now' orderID picks picks' method method' token token' g g' st paid rem st1 s :
  order_in st orderID s → s ∈ canonical → clean_request now method token picks → good_draws g →
  small_quantities (payments_of st orderID) → TrimSpace token ≠ EmptyString → TrimSpace token' = TrimSpace token →
  RecordSplitPayment_body R now orderID picks method token g st = Ok (paid, rem, st1) →
  ∃ rem', RecordSplitPayment_body R' now' orderID picks' method' token' g' st1 = Ok (paid, rem', st1).
Proof.
  intros Ho Hs Hc Hg Hsmall Ht Ht' H. destruct Ho as (old & mo & L & P & G & S).
  assert (order_in st orderID s) as Ho by (by exists old, mo). destruct (order_status _ _ _ _ Ho L) as [Hst Hget].
  unfold payments_of in Hsmall. rewrite L in Hsmall.
  destruct (SplitBillOf (view old)) as [[[lines total] paid0] rem0] eqn:B.
  destruct (negb (sempty (TrimSpace token)) && existsb (λ p, bool_decide (sp_ClientToken p = TrimSpace token))
              (parseSplitPayments (view old))) eqn:F.
  - unfold RecordSplitPayment_body in *. rewrite L in H. cbv zeta in *. rewrite B, F in H. rewrite Ht'.
    destruct (negb (bool_decide (ToLower (Field (view old) "status") = "completed"))) eqn:G1; [|done].
    destruct (negb (closed_status (ToLower (Field (view old) "status")))) eqn:G2; [|done].
    injection H as <- <- <-. rewrite L, G1, G2, B, F. eauto.
  - pose proof H as H0. apply fresh_token_dec in F.
    destruct (record_step _ _ _ _ _ _ _ _ _ _ _ _ _ _ _ _ L B Hc Hg Hsmall F H)
      as (p & m0 & m & Hrec & Hgood & M & Hm & Hk & _ & _ & -> & Hparse & Hpaid & Hrem).
    pose proof (live_some _ _ _ _ L) as [_ Hd]. set (e := bump old (marshal (AMap m))).
    assert (live (put (entityKey "order" orderID) e st) "order" orderID = Some e) as L1 by (by apply live_put).
    assert (Field (view e) "status" = s) as Hs1.
    { apply (text_marshal e m); [done|done|]. rewrite Hk by decided. by apply (Hget (Some m0)). }
    unfold RecordSplitPayment_body in H0 |- *. rewrite L, Hst in H0. rewrite L1, Hs1. cbv zeta in *.
    destruct (negb (bool_decide _)); [|done]. destruct (negb (closed_status _)); [|done].
    destruct (SplitBillOf (view e)) as [[[lines1 total1] paid1] rem1] eqn:B1.
    apply SplitBillOf_lines in B1 as (_ & _ & Hp1). rewrite (Hparse (view e) eq_refl) in *. rewrite <- Hpaid in Hp1. subst paid1.
    assert (negb (sempty (TrimSpace token')) && existsb (λ p, bool_decide (sp_ClientToken p = TrimSpace token'))
              (parseSplitPayments (view old) ++ [p]) = true) as ->; [|eauto].
    rewrite Ht'. apply andb_true_iff. split.
    + apply negb_true_iff. destruct (sempty _) eqn:E; [|done]. by apply sempty_true in E.
    + rewrite existsb_app. apply orb_true_iff. right. destruct Hrec as (_ & _ & Htok & _). cbn. by rewrite bool_decide_true.
Qed.

(** ** The shares of a bill *)

Lemma sum64_exact l : ∀ a, 0 <= a → Forall (λ x, 0 <= x) l → a + Zsum l < two63 → foldl (λ a x, wrap64 (a + x)) a l = a + Zsum l.
Proof.
  induction l as [|x l IH]; intros a Ha Hl Hs; cbn [foldl Zsum foldr] in *; [lia|]. inversion_clear Hl as [|? ? Hx Hl'].
  pose proof (Zsum_nonneg l Hl') as Hn. unfold Zsum in *. rewrite wrap64_id by (unfold in_int64; lia).
  rewrite IH; [lia|lia|done|lia].
Qed.

Definition line_total (it : OrderLineView) : Z := big_int64 (ol_LineTotal it).

(** A line's share of the total: never negative, within [n] Rials of the exact share, and
    no less than its units together. *)
Definition fair_share (n subtotal total : Z) (it : OrderLineView) (l : SplitBillLine) : Prop :=
  sl_Key l = ol_ID it ∧ sl_Quantity l = ol_Quantity it ∧ 0 <= sl_LinePayableIRR l
  ∧ Z.abs (sl_LinePayableIRR l * subtotal - line_total it * total) <= n * subtotal
  ∧ (0 < ol_Quantity it → 0 <= sl_UnitPayableIRR l ∧ ol_Quantity it * sl_UnitPayableIRR l <= sl_LinePayableIRR l).

Lemma quot64_div a b : 0 <= a < two63 → 0 < b → quot64 a b = a / b ∧ 0 <= a / b <= a ∧ b * (a / b) <= a < b * (a / b) + b.
Proof.
  intros Ha Hb. unfold quot64. rewrite Z.quot_div_nonneg by lia.
  assert (0 <= a / b <= a) by (split; [apply Z.div_pos; lia|apply Z.div_le_upper_bound; nia]).
  pose proof (Z.div_mod a b ltac:(lia)). pose proof (Z.mod_pos_bound a b Hb).
  split; [apply wrap64_id; unfold in_int64; lia|]. lia.
Qed.

Lemma bill_lines_shares L total qtys amts items : ∀ allocated k,
  0 < L → 0 < total < two63 → items ≠ [] → 0 <= k → 0 <= allocated →
  Forall (λ it, 0 <= line_total it ∧ line_total it * total < two63) items → Zsum (map line_total items) <= L →
  allocated * L <= (L - Zsum (map line_total items)) * total <= allocated * L + k * L →
  Zsum (map sl_LinePayableIRR (bill_lines L total allocated qtys amts items)) = total - allocated
  ∧ Forall2 (fair_share (k + Z.of_nat (length items)) L total) items (bill_lines L total allocated qtys amts items).
Proof.
  induction items as [|it items IH]; intros allocated k HL Ht Hne Hk Ha Hf Hs Hinv; [done|].
  inversion_clear Hf as [|? ? [Hn Hm] Hf']. cbn [bill_lines]. cbv zeta. fold (line_total it).
  cbn [map Zsum foldr] in Hs, Hinv. fold (Zsum (map line_total items)) in Hs, Hinv. set (lt := line_total it) in *.
  assert (0 <= Zsum (map line_total items)) as Hz.
  { apply Zsum_nonneg, Forall_map. eapply Forall_impl; [exact Hf'|]. by intros ? []. }
  set (p := line_payable _ _ _ _ _).
  assert (0 <= p <= total ∧ Z.abs (p * L - lt * total) <= (k + 1) * L
          ∧ (items = [] → p = total - allocated)
          ∧ (items ≠ [] → p * L <= lt * total <= p * L + L)) as (Hp & Habs & Hlast & Hmid).
  { subst p. unfold line_payable. rewrite (proj2 (Z.ltb_lt 0 L)), (proj2 (Z.ltb_lt 0 total)) by lia. cbn [andb].
    destruct items as [|it2 items].
    - cbn in Hz, Hs, Hinv. assert (allocated <= total) by nia.
      rewrite wrap64_id by (unfold in_int64; lia). rewrite (proj2 (Z.ltb_ge _ 0)) by lia.
      split; [lia|]. split; [nia|]. split; [done|]. by intros.
    - assert (0 <= lt * total < two63) as Hlt by nia. rewrite (wrap64_id (lt * total)) by (by apply in_int64_small).
      destruct (quot64_div (lt * total) L Hlt HL) as (-> & Hq1 & Hq2). rewrite (proj2 (Z.ltb_ge _ 0)) by lia.
      split; [nia|]. split; [nia|]. split; [done|]. intros _. nia. }
  clearbody p.
  assert (∀ n, k + 1 <= n → fair_share n L total it
    {| sl_Key := ol_ID it; sl_Title := ol_ProductName it; sl_Quantity := ol_Quantity it;
       sl_PaidQuantity := default 0 (qtys !! ol_ID it);
       sl_UnitPayableIRR := if 0 <? ol_Quantity it then quot64 p (ol_Quantity it) else 0; sl_LinePayableIRR := p;
       sl_PaidIRR := default 0 (amts !! ol_ID it);
       sl_RemainingIRR := if wrap64 (p - default 0 (amts !! ol_ID it)) <? 0 then 0 else wrap64 (p - default 0 (amts !! ol_ID it)) |}) as Hfair.
  { intros n Hnk. split; [done|]. split; [done|]. cbn [sl_LinePayableIRR sl_UnitPayableIRR]. fold lt. split; [lia|].
    split; [nia|]. intros Hq. rewrite (proj2 (Z.ltb_lt _ _)) by done.
    destruct (quot64_div p (ol_Quantity it)) as (-> & Hq1 & Hq2); [lia|done|]. lia. }
  destruct items as [|it2 items].
  - cbn [bill_lines map Zsum foldr sl_LinePayableIRR]. split; [rewrite Hlast by done; lia|].
    constructor; [|constructor]. apply Hfair. cbn [length]. lia.
  - specialize (Hmid ltac:(done)).
    assert (allocated + p <= total) by nia.
    rewrite (wrap64_id (allocated + p)) by (unfold in_int64; lia).
    destruct (IH (allocated + p) (k + 1)) as [H1 H2]; [lia|lia|done|lia|lia|done|lia|nia|].
    split.
    + cbn [map Zsum foldr]. fold (Zsum (map sl_LinePayableIRR (bill_lines L total (allocated + p) qtys amts (it2 :: items)))).
      cbn [sl_LinePayableIRR]. rewrite H1. lia.
    + constructor; [apply Hfair; cbn [length]; lia|].
      replace (k + Z.of_nat (length (it :: it2 :: items))) with (k + 1 + Z.of_nat (length (it2 :: items))) by (cbn [length]; lia).
      exact H2.
Qed.

Lemma SplitBillOf_shares e lines total paid rem :
  SplitBillOf e = (lines, total, paid, rem) → 0 < total →
  Forall (λ it, 0 <= line_total it ∧ line_total it * total < two63) (OrderItems e) →
  0 < Zsum (map line_total (OrderItems e)) < two63 →
  Zsum (map sl_LinePayableIRR lines) = total
  ∧ Forall2 (fair_share (Z.of_nat (length (OrderItems e))) (Zsum (map line_total (OrderItems e))) total) (OrderItems e) lines.
Proof.
  intros H Ht Hf Hs. pose proof (SplitBillOf_lines _ _ _ _ _ H) as (_ & Htot & _).
  assert (in_int64 total) as Hi by (rewrite Htot; apply wrap64_range). unfold in_int64 in Hi.
  set (L := Zsum (map line_total (OrderItems e))) in *.
  assert (lines = bill_lines L total 0 (paid_qty (parseSplitPayments e)) (paid_amt (parseSplitPayments e)) (OrderItems e)) as ->.
  { change lines with (lines, total, paid, rem).1.1.1. rewrite <- H, Htot. unfold SplitBillOf. cbn [fst].
    f_equal. unfold sum64. rewrite sum64_exact; [done|lia| |rewrite Z.add_0_l; apply Hs].
    apply Forall_map. eapply Forall_impl; [exact Hf|]. by intros ? []. }
  destruct (bill_lines_shares L total (paid_qty (parseSplitPayments e))
              (paid_amt (parseSplitPayments e)) (OrderItems e) 0 0) as [H1 H2]; [lia|lia| |lia|lia|done|lia|lia|].
  - intros E. subst L. rewrite E in Hs. cbn in Hs. lia.
  - rewrite Z.sub_0_r in H1. done.
Qed.

(** C20: the shares of a split bill.  Take an order with a positive total whose lines are not
    negative and small enough that no product of a line and the total passes 2^63.  Then
    what the lines are to pay adds up to exactly the total; every line's share is not
    negative and within one Rial per line of its exact proportion; and the units of a line
    together never cost more than the line. *)
Theorem SplitBillOf_allocates e lines total paid rem :
  SplitBillOf e = (lines, total, paid, rem) → 0 < total →
  Forall (λ it, 0 <= line_total it ∧ line_total it * total < two63) (OrderItems e) →
  0 < Zsum (map line_total (OrderItems e)) < two63 →
  Zsum (map sl_LinePayableIRR lines) = total
  ∧ Forall2 (fair_share (Z.of_nat (length (OrderItems e))) (Zsum (map line_total (OrderItems e))) total) (OrderItems e) lines.
Proof. apply SplitBillOf_shares. Qed.

(** ** Concrete runs *)

Definition a_round (line total : Z) : Entity :=
  {| e_ID := "o1"; e_Type := "order"; e_Version := 1;
     e_Payload := marshal (AMap [("items", AArr [AMap [("id", AStr "a"); ("line_total_irr", AStr (Z_to_dec line)); ("quantity", AInt 1)];
                                                 AMap [("id", AStr "b"); ("line_total_irr", AStr (Z_to_dec line)); ("quantity", AInt 2)]]);
                                 ("price", AStr (Z_to_dec total))]) |}.

Lemma SplitBillOf_allocates_witness :
  let '(lines, total, paid, rem) := SplitBillOf (a_round 300 501) in
  map sl_LinePayableIRR lines = [250; 251] ∧ Zsum (map sl_LinePayableIRR lines) = total.
Proof.
  destruct (SplitBillOf (a_round 300 501)) as [[[lines total] paid] rem] eqn:E.
  assert (OrderItems (a_round 300 501) = OrderItems (a_round 300 501)) as _ by reflexivity.
  assert (map sl_LinePayableIRR (SplitBillOf (a_round 300 501)).1.1.1 = [250; 251] ∧ (SplitBillOf (a_round 300 501)).1.1.2 = 501)
    as [Hl Ht] by (vm_compute; split; reflexivity).
  rewrite E in Hl, Ht. cbn [fst snd] in Hl, Ht.
  assert (map line_total (OrderItems (a_round 300 501)) = [300; 300]) as Hi by (vm_compute; reflexivity).
  split; [exact Hl|]. refine (proj1 (SplitBillOf_allocates _ _ _ _ _ E _ _ _)).
  - rewrite Ht. lia.
  - apply (Forall_map line_total (λ x, 0 <= x ∧ x * total < two63)). rewrite Hi, Ht.
    repeat constructor; unfold two63; lia.
  - rewrite Hi. unfold two63. cbn. lia.
Defined.

(** large bills.  The product of a line and the total is taken in 64 bits: for two equal
    lines of four milliard Rials each the first line's share comes out as nothing, the
    second is to pay the whole total, and the guest of the first line cannot pay. *)
Theorem SplitBillOf_overflow :
  let '(lines, total, _, _) := SplitBillOf (a_round 4000000000 8000000000) in
  total = 8000000000 ∧ map sl_LinePayableIRR lines = [0; 8000000000]
  ∧ (λ l, splitQuote l 1) <$> head lines = Some 0.
Proof. vm_compute. repeat split; reflexivity. Qed.

Definition a_round_map : gomap :=
  amap [("items", AArr [AMap [("id", AStr "a"); ("line_total_irr", AStr "300"); ("quantity", AInt 1)];
                        AMap [("id", AStr "b"); ("line_total_irr", AStr "300"); ("quantity", AInt 2)]]);
        ("price", AStr "501"); ("status", AStr "ready")].

Definition an_open_order : persistedDB := new_entity "order" "o1" a_round_map newEmptyDB.

Definition a_pick : gmap string Z := {["b" := 1]}.
Definition a_share : res (Z * Z * persistedDB) :=
  RecordSplitPayment_body plain_runtime "2025-03-21T08:00:00Z" "o1" a_pick "cash" "T" draws an_open_order.

Lemma an_open_order_in : order_in an_open_order "o1" "ready".
Proof.
  eexists _, a_round_map. split; [by apply live_put|]. split; [reflexivity|]. split; [|reflexivity].
  apply good_amap. reflexivity.
Qed.

Lemma a_pick_clean : clean_request "2025-03-21T08:00:00Z" "cash" "T" a_pick.
Proof. do 3 (split; [vm_compute; reflexivity|]). apply map_Forall_singleton. split; [reflexivity|lia]. Qed.

Lemma draws_good : good_draws draws.
Proof.
  unfold good_draws, draws. rewrite !Forall_cons. split_and!; [| | |constructor];
    (split; [reflexivity|rewrite Forall_forall; intros y Hy; apply list_elem_of_In, repeat_spec in Hy as ->; unfold byte_like; lia]).
Qed.

Lemma no_payments : payments_of an_open_order "o1" = [].
Proof. vm_compute. reflexivity. Qed.

Lemma run_triple (r : res (Z * Z * persistedDB)) : is_ok r = true → ∃ a b, r = Ok (a, b, run_state r).
Proof. destruct r as [[[a b] st]|]; [by exists a, b|done]. Qed.

Lemma RecordSplitPayment_undo_witness :
  is_ok a_share = true ∧ (∃ p, payments_of (run_state a_share) "o1" = [p] ∧ sp_Amount p = 125)
  ∧ ∃ st2, UndoLastSplitPayment_body "2025-03-21T08:05:00Z" "o1" (run_state a_share) = Ok ((), st2)
      ∧ bill_of st2 "o1" = bill_of an_open_order "o1".
Proof.
  assert (is_ok a_share = true) as H by (vm_compute; reflexivity). split; [exact H|].
  destruct (run_triple _ H) as (paid & rem & E). assert (small_quantities (payments_of an_open_order "o1")) as Hq by (rewrite no_payments; constructor).
  assert (fresh_token "T" (payments_of an_open_order "o1")) as Hf by (rewrite no_payments; right; constructor).
  destruct (live an_open_order "order" "o1") as [old|] eqn:L; [|discriminate L].
  destruct (RecordSplitPayment_undo plain_runtime _ "2025-03-21T08:05:00Z" _ _ _ _ _ _ _ _ _ _ old an_open_order_in
              ltac:(decided) L a_pick_clean eq_refl draws_good Hq Hf E) as [(p & e & Hp & _) Hu].
  rewrite no_payments in Hp. cbn [app] in Hp. split.
  - exists p. split; [exact Hp|].
    assert (map sp_Amount (payments_of (run_state a_share) "o1") = [125]) as Ha by (vm_compute; reflexivity).
    rewrite Hp in Ha. by injection Ha.
  - destruct Hu as (st2 & ? & ? & ? & Hu & _ & _ & Hb & _).
    { assert ((λ e, settled_payload (se_Payload e)) <$> live an_open_order "order" "o1" = Some true) as S by (vm_compute; reflexivity).
      rewrite L in S. by injection S. }
    exists st2. split; [exact Hu|exact Hb].
Defined.

Lemma RecordSplitPayment_retry_witness :
  is_ok a_share = true
  ∧ ∃ paid rem', RecordSplitPayment_body plain_runtime "later" "o1" ∅ "card" " T " [] (run_state a_share) = Ok (paid, rem', run_state a_share).
Proof.
  assert (is_ok a_share = true) as H by (vm_compute; reflexivity). split; [exact H|].
  destruct (run_triple _ H) as (paid & rem & E). assert (small_quantities (payments_of an_open_order "o1")) as Hq by (rewrite no_payments; constructor).
  destruct (RecordSplitPayment_retry plain_runtime plain_runtime _ "later" _ _ ∅ _ "card" _ " T " _ [] _ _ _ _ _ an_open_order_in
              ltac:(decided) a_pick_clean draws_good Hq ltac:(discriminate) eq_refl E) as (rem' & Hr).
  exists paid, rem'. exact Hr.
Defined.
