(* ===== verification/Inventory.v ===== *)
(** * The stock

    Models stock movements and the voiding of waste of
    [offline-menuvex/internal/store/domains.go].  Quantities are [float64]; the average cost
    multiplies, adds and divides with a rounding after every operation, as the amd64
    targets do. *)
From S2P Require Import Prelude GoStrings GoFloat GoJson GoJsonFacts GoReadback GoTime Store Entities EntityView Records Orders OrderStates.

(** ** What a movement does to the stock *)

(** The signed change of the stock and the type the movement is filed under. *)
(* domains.go:1265-1294 Store.RecordStockMovement *)
Definition signed_delta (txType : string) (qtyVal curStock : f64) : f64 * string :=
  let absQty := if flt qtyVal fzero then fneg qtyVal else qtyVal in
  if existsb (String.eqb txType) ["consumption"; "waste"; "return_to_supplier"; "transfer_out"; "outgoing"]%stdpp then
    if bool_decide (txType = "outgoing") then
      (if fle curStock fzero then fzero else if fgt absQty curStock then fneg curStock else fneg absQty, "consumption"%stdpp)
    else (fneg absQty, txType)
  else if existsb (String.eqb txType) ["purchase"; "opening_balance"; "transfer_in"; "incoming"]%stdpp then
    (absQty, if bool_decide (txType = "incoming") then "purchase"%stdpp else txType)
  else if bool_decide (txType = "adjustment") then (qtyVal, txType)
  else if bool_decide (txType = "adjustment_target") then (fsub qtyVal curStock, "adjustment"%stdpp)
  else (absQty, txType).

(** The moving average of the cost, written only when stock comes in. *)
(* domains.go:1297-1314 Store.RecordStockMovement *)
Definition move_cost (txType unitCostStr : string) (curStock delta newStock oldAvg : f64) (im : gomap) : gomap :=
  if sempty (TrimSpace unitCostStr) then im
  else match ParseFloat (TrimSpace unitCostStr) with
       | (unitCost, true) =>
           if fge unitCost fzero && fgt delta fzero then
             let im :=
               if fgt curStock fzero && fgt newStock fzero then
                 aset "average_cost" (AStr (FormatFixed 2 (fdiv (fadd (fmul curStock oldAvg) (fmul delta unitCost)) newStock))) im
               else if fgt newStock fzero then aset "average_cost" (AStr (FormatFixed 2 unitCost)) im
               else im in
             if bool_decide (txType = "purchase") then aset "last_purchase_cost" (AStr (FormatFixed 2 unitCost)) im else im
           else im
       | _ => im
       end.

(** The reason and the description of a waste's note, [reason::description]. *)
(* domains.go:1348-1353 Store.RecordStockMovement *)
Definition waste_note (note : string) : string * string :=
  match SplitN2 "::" note with
  | (a, Some b) => (TrimSpace a, TrimSpace b)
  | (_, None) => (TrimSpace note, EmptyString)
  end.

(* domains.go:1355-1366 Store.RecordStockMovement *)
Definition waste_map (wasteID ingredientID : string) (ingView : Entity) (absQty : f64) (note now : string) : gomap :=
  let '(reason, desc) := waste_note note in
  amap [("id", AStr wasteID); ("title", AStr ("ضایعات " +:+ Label ingView)); ("ingredient_id", AStr ingredientID);
        ("ingredient_name", AStr (Label ingView)); ("quantity", AStr (FormatFixed 2 absQty));
        ("unit", AStr (Field ingView "base_unit")); ("reason", AStr reason); ("description", AStr desc);
        ("created_at", AStr now); ("version", AInt 1)].

(* domains.go:1252-1375 Store.RecordStockMovement *)
Definition RecordStockMovement_body (now movID ingredientID txType : string) (qtyVal : f64) (unitCostStr note : string)
    (g : entropy) (st : persistedDB) : res (unit * persistedDB) :=
  let ingKey := entityKey "ingredient" ingredientID in
  match live st "ingredient" ingredientID with
  | None => Err "کالای انبار انتخاب شده یافت نشد"
  | Some ingEnt =>
      let? im := load_map (se_Payload ingEnt) in
      let ingView := view ingEnt in
      let curStock := parse_or_zero (Field ingView "current_stock") in
      let absQty := if flt qtyVal fzero then fneg qtyVal else qtyVal in
      let '(delta, txType) := signed_delta txType qtyVal curStock in
      let newStock := fadd curStock delta in
      let? im := assignable im in
      let im := aset "current_stock" (AStr (FormatFixed 2 newStock)) im in
      let im := move_cost txType unitCostStr curStock delta newStock (parse_or_zero (Field ingView "average_cost")) im in
      let im := aset "updated_at" (AStr now) im in
      let? b := json_Marshal (AMap im) in
      let st := put ingKey (bump ingEnt b) st in
      let st := new_entity "inventory_movement" movID
        (movement_map movID (Label ingView) ingredientID (Field ingView "base_unit") txType (FormatFixed 2 delta)
           (FormatFixed 2 newStock)
           [("unit_cost", AStr (TrimSpace unitCostStr)); ("description", AStr (TrimSpace note)); ("created_at", AStr now);
            ("version", AInt 1)]) st in
      if bool_decide (txType = "waste") then
        let '(wasteID, _) := UUID_or_empty g in
        Ok ((), new_entity "waste_event" wasteID (waste_map wasteID ingredientID ingView absQty note now) st)
      else Ok ((), st)
  end.

Definition bad_quantity : string := "مقدار وارد شده برای گردش انبار معتبر نیست".

(* domains.go Store.RecordStockMovement *)
Definition RecordStockMovement (io : IO) (ctx : option string) (s : Store) (g : entropy) (now : Z)
    (ingredientID txType qtyStr unitCostStr note : string) : tx_out string :=
  let '(qtyVal, ok) := ParseFloat (TrimSpace qtyStr) in
  if negb ok || feq qtyVal fzero then tx_fail bad_quantity s
  else match UUID g with
       | (Err e, _) => tx_fail e s
       | (Ok movID, g) =>
           returning movID
             (withTx io ctx s (RecordStockMovement_body (FormatRFC3339 now) movID ingredientID txType qtyVal unitCostStr note g))
       end.

(** ** Voiding waste *)

(** [s, _ := v.(string)] *)
Definition string_or_empty (v : goany) : string := default EmptyString (as_string v).

(** The ingredient and the quantity of the event that was voided. *)
(* domains.go:1387-1412 Store.VoidWasteEvent *)
Definition VoidWasteEvent_body (now wasteID : string) (st : persistedDB) : res (string * string * persistedDB) :=
  match live st "waste_event" wasteID with
  | None => Err "رویداد ضایعات یافت نشد"
  | Some ent =>
      let? m := load_map (se_Payload ent) in
      guard? negb (bool_decide (as_string (oget "status" m) = Some "voided")) else "این رویداد ضایعات قبلاً ابطال شده است" in
      let? m := assignable m in
      let m := aset "voided_at" (AStr now) (aset "status" (AStr "voided") m) in
      let? b := json_Marshal (AMap m) in
      Ok (string_or_empty (aget "ingredient_id" m), string_or_empty (aget "quantity" m),
          put (entityKey "waste_event" wasteID) (bump ent b) st)
  end.

(** Two transactions, one after the other; [io'] and [now'] are the second one's. *)
(* domains.go Store.VoidWasteEvent *)
Definition VoidWasteEvent (io io' : IO) (ctx : option string) (s : Store) (g : entropy) (now now' : Z) (wasteID : string)
    : tx_out unit :=
  let o := withTx io ctx s (λ st, let? (i, q, st) := VoidWasteEvent_body (FormatRFC3339 now) wasteID st in Ok ((i, q), st)) in
  match tx_res o with
  | Err e => {| tx_res := Err e; tx_store := tx_store o; tx_calls := tx_calls o |}
  | Ok (ingredientID, qty) =>
      if sempty ingredientID || sempty qty || bool_decide (qty = "0") then
        {| tx_res := Ok (); tx_store := tx_store o; tx_calls := tx_calls o |}
      else
        let o' := RecordStockMovement io' ctx (tx_store o) g now' ingredientID "adjustment" qty "" "ابطال ضایعات" in
        {| tx_res := (let? _ := tx_res o' in Ok ()); tx_store := tx_store o'; tx_calls := tx_calls o ++ tx_calls o' |}
  end.

(** ** The ledger *)

(** The stock a payload shows. *)
Definition stock (e : storedEntity) : f64 := parse_or_zero (Field (view e) "current_stock").

Definition move_fields : list string := ["current_stock"; "average_cost"; "last_purchase_cost"; "updated_at"].

Lemma move_cost_other k ty ucs cur d n avg im : k ∉ move_fields → aget k (move_cost ty ucs cur d n avg im) = aget k im.
Proof.
  unfold move_fields. rewrite !not_elem_of_cons. intros Hk. destruct_and! Hk. unfold move_cost.
  destruct (sempty _); [done|]. destruct (ParseFloat _) as [c []]; [|done].
  repeat match goal with |- context [if ?b then _ else _] => destruct b end; rewrite ?aget_aset_ne by congruence; done.
Qed.

Lemma move_cost_good ty ucs cur d n avg im : good_map im → good_map (move_cost ty ucs cur d n avg im).
Proof.
  intros Hg. unfold move_cost. destruct (sempty _); [done|]. destruct (ParseFloat _) as [c []]; [|done].
  repeat match goal with |- context [if ?b then _ else _] => destruct b end;
    repeat (apply good_aset_str; [|reflexivity|apply FormatFixed_valid]); done.
Qed.

Lemma move_cost_stock ty ucs cur d n avg im : aget "current_stock" (move_cost ty ucs cur d n avg im) = aget "current_stock" im.
Proof.
  unfold move_cost. destruct (sempty _); [done|]. destruct (ParseFloat _) as [c []]; [|done].
  repeat match goal with |- context [if ?b then _ else _] => destruct b end; rewrite ?aget_aset_ne by discriminate; done.
Qed.

(** What a movement of an ingredient leaves. *)
Definition moved (now movID ingredientID : string) (delta : f64) (ty : string) (old : storedEntity) (st' : persistedDB) : Prop :=
  let balance := FormatFixed 2 (fadd (stock old) delta) in
  ∃ m0 m e mm, load_map (se_Payload old) = Ok (Some m0)
    ∧ Entities st' !! entityKey "ingredient" ingredientID = Some (bump old (marshal (AMap m)))
    ∧ aget "current_stock" m = AStr balance ∧ (∀ k, k ∉ move_fields → aget k m = aget k m0)
    ∧ aget "updated_at" m = AStr now ∧ (utf8_valid now = true → good_map m)
    ∧ Entities st' !! entityKey "inventory_movement" movID = Some e ∧ se_Payload e = marshal (AMap mm) ∧ se_Deleted e = false
    ∧ aget "stock_after" mm = AStr balance ∧ aget "quantity" mm = AStr (FormatFixed 2 delta)
    ∧ aget "ingredient_id" mm = AStr ingredientID ∧ aget "transaction_type" mm = AStr ty.

Lemma RecordStockMovement_step now movID ing tx qty ucs note g st st' :
  RecordStockMovement_body now movID ing tx qty ucs note g st = Ok ((), st') →
  ∃ old, live st "ingredient" ing = Some old
    ∧ moved now movID ing (signed_delta tx qty (stock old)).1 (signed_delta tx qty (stock old)).2 old st'
    ∧ frame ["ingredient"; "inventory_movement"; "waste_event"] st st'
    ∧ ((signed_delta tx qty (stock old)).2 ≠ "waste" → frame ["ingredient"; "inventory_movement"] st st')
    ∧ ∀ id, id ≠ ing → Entities st' !! entityKey "ingredient" id = Entities st !! entityKey "ingredient" id.
Proof.
  unfold RecordStockMovement_body. destruct (live st "ingredient" ing) as [old|] eqn:L; [|done].
  destruct (load_map (se_Payload old)) as [im|] eqn:M; [|done]. cbv zeta. fold (stock old).
  destruct (signed_delta tx qty (stock old)) as [delta ty] eqn:D. destruct (assignable im) as [m0|] eqn:A; [|done].
  apply assignable_ok in A as ->. set (m := aset "updated_at" _ _).
  destruct (json_Marshal (AMap m)) as [b|] eqn:J; [|done]. apply json_Marshal_ok in J as ->.
  set (mm := movement_map _ _ _ _ _ _ _ _). set (st1 := put _ _ st). set (st2 := new_entity _ _ mm st1).
  apply live_some in L as L'. destruct L' as [L' _].
  assert (frame ["ingredient"; "inventory_movement"] st st2) as F.
  { apply (frame_trans _ st st1); [apply (frame_bump _ "ingredient" ing old); [done|left|exact L']|]. apply frame_new; [done|decided]. }
  assert (Entities st2 !! entityKey "ingredient" ing = Some (bump old (marshal (AMap m)))) as Hi.
  { unfold st2, new_entity. rewrite lookup_put_ne by (intros [E _]%entityKey_inj; done). apply lookup_put. }
  assert (moved now movID ing delta ty old st2) as Hm.
  { exists m0, m, (a_record "inventory_movement" movID 1 mm), mm. split; [done|]. split; [done|].
    split; [subst m; rewrite aget_aset_ne, move_cost_stock by discriminate; apply aget_aset_eq|]. split.
    { intros k Hk. subst m. pose proof Hk as Hk'. unfold move_fields in Hk'. rewrite !not_elem_of_cons in Hk'. destruct_and! Hk'.
      rewrite aget_aset_ne by congruence. rewrite move_cost_other by done. by rewrite aget_aset_ne by congruence. }
    split; [subst m; apply aget_aset_eq|]. split.
    { intros Hn. subst m. apply good_aset_str; [|reflexivity|done]. apply move_cost_good.
      apply good_aset_str; [eauto with go_json|reflexivity|apply FormatFixed_valid]. }
    split; [apply lookup_put|]. do 2 (split; [done|]). unfold mm, movement_map. split_and!; amaps. }
  assert (∀ id, id ≠ ing → Entities st2 !! entityKey "ingredient" id = Entities st !! entityKey "ingredient" id) as Ho.
  { intros id Hid. unfold st2, new_entity. rewrite lookup_put_ne by (intros [E _]%entityKey_inj; done).
    apply lookup_put_ne. intros E%entityKey_id. congruence. }
  intros H. exists old. rewrite D. cbn [fst snd]. split; [done|]. case_bool_decide as W.
  - destruct (UUID_or_empty g) as [wid g']. injection H as <-. set (wm := waste_map _ _ _ _ _ _).
    assert (∀ kind id, no_nul kind = true → kind ≠ "waste_event" →
      Entities (new_entity "waste_event" wid wm st2) !! entityKey kind id = Entities st2 !! entityKey kind id) as Hw.
    { intros kind id Hk Hne. unfold new_entity. apply lookup_put_ne.
      intros E. apply entityKey_inj in E as [E _]; [congruence|done|done]. }
    split.
    { destruct Hm as (a0 & a & e & mv & H1 & H2 & H3 & H4 & H5 & H6). exists a0, a, e, mv.
      rewrite !Hw by done. done. }
    split; [|split; [done|intros id Hid; rewrite Hw by done; auto]].
    eapply frame_trans; [eapply frame_weaken; [|exact F]; decided|]. apply frame_new; [done|decided].
  - injection H as <-. split; [done|]. split; [eapply frame_weaken; [|exact F]; decided|]. done.
Qed.

(** the ledger of the stock.  A movement that succeeds changes the one ingredient, by one
    version, and in it the stock, the costs and the timestamp only; the stock becomes the
    old stock and the signed quantity, rounded to two decimals, and the movement filed with
    it says the same quantity and the very text that is now the stock as its balance; a
    waste's event is the only other thing that is written. *)
Theorem RecordStockMovement_ledger now movID ing tx qty ucs note g st st' :
  RecordStockMovement_body now movID ing tx qty ucs note g st = Ok ((), st') →
  ∃ old, live st "ingredient" ing = Some old
    ∧ moved now movID ing (signed_delta tx qty (stock old)).1 (signed_delta tx qty (stock old)).2 old st'
    ∧ frame ["ingredient"; "inventory_movement"; "waste_event"] st st'
    ∧ ((signed_delta tx qty (stock old)).2 ≠ "waste" → frame ["ingredient"; "inventory_movement"] st st')
    ∧ ∀ id, id ≠ ing → Entities st' !! entityKey "ingredient" id = Entities st !! entityKey "ingredient" id.
Proof. apply RecordStockMovement_step. Qed.

(** ** Outgoing stock *)

Local Open Scope Z_scope.

Lemma fneg_involutive x : fneg (fneg x) = x.
Proof. destruct x; cbn; by rewrite ?negb_involutive. Qed.

Lemma fle_zero_ratio n d : fle fzero (round_ratio false n d) = true.
Proof.
  assert (∀ m e, fle fzero (Fin false m e) = true) as H.
  { intros m e. unfold fle. cbn [fcompare fzero signed]. rewrite Z.mul_0_l.
    assert (0 <= Z.of_N m * 2 ^ (e - Z.min 0 e)) as Hp by (apply Z.mul_nonneg_nonneg; [lia|apply Z.pow_nonneg; lia]).
    destruct (Z.compare_spec 0 (Z.of_N m * 2 ^ (e - Z.min 0 e))); done || lia. }
  unfold round_ratio. destruct (n =? 0); [apply H|]. destruct (scale n d _). destruct (scale n d _).
  destruct (_ || _); [done|]. unfold mk_fin. destruct (round_half_even _ _); try apply H.
  destruct (strip_twos _ _). apply H.
Qed.

(** A sum whose exact value is not negative is not negative. *)
Lemma fadd_nonneg x y : is_finite x = true → is_finite y = true → flt x (fneg y) = false → fle fzero (fadd x y) = true.
Proof.
  destruct x as [a m e| |], y as [b n f| |]; try done. intros _ _. unfold flt. cbn [fcompare fneg fadd].
  set (g := Z.min e f). set (p := signed a m * _). intros H.
  assert (signed (negb b) n * 2 ^ (f - g) = - (signed b n * 2 ^ (f - g))) as E by (destruct b; cbn; lia).
  rewrite E in H. set (q := signed b n * 2 ^ (f - g)) in *. destruct (p + q =? 0) eqn:Z; [by destruct (a && b)|].
  assert (0 <= p + q) by (destruct (Z.compare_spec p (- q)); [lia|done|lia]).
  rewrite (proj2 (Z.ltb_ge _ 0)) by lia. unfold round_Z. destruct (ratio _ _). apply fle_zero_ratio.
Qed.

Lemma flt_irrefl x : flt x x = false.
Proof.
  unfold flt, fcompare. destruct x as [s m e|[]|]; try done. by rewrite Z.compare_refl.
Qed.

Lemma fle_zero_flt x : is_finite x = true → fle fzero x = true → flt x (fneg fzero) = false.
Proof.
  destruct x as [a m e| |]; try done. intros _. unfold fle, flt. cbn [fcompare fzero fneg negb signed].
  rewrite (Z.min_comm e 0). change (- Z.of_N 0) with 0. change (Z.of_N 0) with 0. rewrite !Z.mul_0_l.
  rewrite Z.compare_antisym. by destruct (Z.compare _ _).
Qed.

Lemma outgoing_nonneg qty cur : is_finite qty = true → is_finite cur = true → fle fzero cur = true →
  fle fzero (fadd cur (signed_delta "outgoing" qty cur).1) = true.
Proof.
  intros Hq Hc Hz. unfold signed_delta.
  set (absQty := if flt qty fzero then fneg qty else qty).
  assert (is_finite absQty = true) as Ha by (unfold absQty; destruct (flt qty fzero); [by destruct qty|done]). clearbody absQty.
  change (existsb (String.eqb "outgoing") ["consumption"; "waste"; "return_to_supplier"; "transfer_out"; "outgoing"]%stdpp) with true.
  cbn iota. rewrite bool_decide_true by done. cbn [fst].
  destruct (fle cur fzero); [by apply fadd_nonneg, fle_zero_flt|].
  destruct (fgt absQty cur) eqn:G.
  - apply fadd_nonneg; [done|by destruct cur|]. rewrite fneg_involutive. apply flt_irrefl.
  - apply fadd_nonneg; [done|by destruct absQty|]. by rewrite fneg_involutive.
Qed.

(** what goes out never takes the stock below zero.  From a stock that is not negative, a
    movement of the kind [outgoing] of any finite quantity, however large and of either
    sign, leaves a stock that is not negative. *)
Theorem RecordStockMovement_outgoing_floor now movID ing qty ucs note g st st' old :
  live st "ingredient" ing = Some old → is_finite qty = true → is_finite (stock old) = true → fle fzero (stock old) = true →
  RecordStockMovement_body now movID ing "outgoing" qty ucs note g st = Ok ((), st') →
  ∃ m x, Entities st' !! entityKey "ingredient" ing = Some (bump old (marshal (AMap m)))
    ∧ aget "current_stock" m = AStr (FormatFixed 2 x) ∧ fle fzero x = true.
Proof.
  intros L Hq Hs Hz H. apply RecordStockMovement_step in H as (old' & L' & (m0 & m & _ & _ & _ & Hm & Hst & _) & _).
  rewrite L in L'. injection L' as <-. exists m, (fadd (stock old) (signed_delta "outgoing" qty (stock old)).1).
  split; [done|]. split; [done|]. by apply outgoing_nonneg.
Qed.

(** ** Quantities that are not numbers *)

Definition a_stock : Store := {| s_closed := false; s_state := a_cafe; s_disk := {| d_main := None; d_tmp := None |} |}.

(** a quantity that is not a number.  The text [nan] passes the check of the quantity and
    is stored as the stock; and from a stock that reads as NaN every movement of whatever
    kind and quantity that succeeds, a recount included, leaves the text NaN again. *)
Theorem RecordStockMovement_nan_sticks :
  (let o := RecordStockMovement io_ok None a_stock draws 0 "i1" "purchase" "nan" "" "" in
   is_ok (tx_res o) = true ∧ shown (s_state (tx_store o)) "ingredient" "i1" "current_stock" = "NaN")
  ∧ ∀ now movID ing tx qty ucs note g st st' old, utf8_valid now = true →
      live st "ingredient" ing = Some old → stock old = NaN →
      RecordStockMovement_body now movID ing tx qty ucs note g st = Ok ((), st') →
      ∃ e, live st' "ingredient" ing = Some e ∧ Field (view e) "current_stock" = "NaN" ∧ stock e = NaN.
Proof.
  split; [vm_compute; split; reflexivity|]. intros now movID ing tx qty ucs note g st st' old Hn L Hs H.
  apply RecordStockMovement_step in H as (old' & L' & Hm & _). rewrite L in L'. injection L' as <-.
  destruct Hm as (m0 & m & _ & _ & _ & He & Hst & _ & _ & Hg & _). specialize (Hg Hn). rewrite Hs in Hst.
  set (e := bump old (marshal (AMap m))) in *. exists e.
  assert (Field (view e) "current_stock" = "NaN") as Hf by (by apply (text_marshal e m)).
  split; [|split; [done|unfold stock; rewrite Hf; reflexivity]].
  apply live_some in L as [_ L]. unfold live. rewrite He. change (se_Deleted e) with (se_Deleted old). by rewrite L.
Qed.

(** ** Voiding *)

Lemma VoidWasteEvent_step now id st ing qty st' :
  VoidWasteEvent_body now id st = Ok (ing, qty, st') →
  ∃ ev m, live st "waste_event" id = Some ev ∧ load_map (se_Payload ev) = Ok (Some m)
    ∧ as_string (aget "status" m) ≠ Some "voided"
    ∧ ing = string_or_empty (aget "ingredient_id" m) ∧ qty = string_or_empty (aget "quantity" m)
    ∧ st' = put (entityKey "waste_event" id)
              (bump ev (marshal (AMap (aset "voided_at" (AStr now) (aset "status" (AStr "voided") m))))) st.
Proof.
  unfold VoidWasteEvent_body. destruct (live st "waste_event" id) as [ev|]; [|done].
  destruct (load_map (se_Payload ev)) as [o|] eqn:M; [|done]. destruct (negb _) eqn:N; [|done].
  destruct (assignable o) as [m|] eqn:A; [|done]. apply assignable_ok in A as ->. cbn [oget] in N. bools.
  set (m' := aset "voided_at" _ _). destruct (json_Marshal (AMap m')) as [b|] eqn:J; [|done]. apply json_Marshal_ok in J as ->.
  intros H. assert (ing = string_or_empty (aget "ingredient_id" m') ∧ qty = string_or_empty (aget "quantity" m')
    ∧ st' = put (entityKey "waste_event" id) (bump ev (marshal (AMap m'))) st) as (-> & -> & ->).
  { generalize dependent (marshal (AMap m')). by intros ? [= <- <- <-]. }
  exists ev, m. split; [done|]. split; [done|]. split; [done|]. subst m'. by rewrite !aget_aset_ne by discriminate.
Qed.

(** An event that is voided stays so. *)
Definition voided (st : persistedDB) (id : string) : Prop :=
  ∃ e m, live st "waste_event" id = Some e ∧ se_Payload e = marshal (AMap m) ∧ good_map m ∧ aget "status" m = AStr "voided".

Lemma voided_refused now id st : voided st id → is_ok (VoidWasteEvent_body now id st) = false.
Proof.
  intros (e & m & L & P & G & S). unfold VoidWasteEvent_body. rewrite L, P.
  destruct (load_map (marshal (AMap m))) as [o|] eqn:M; [|done]. by rewrite (load_marshal_str m o _ _ G S M).
Qed.

Lemma VoidWasteEvent_voids now id st ing qty st' : utf8_valid now = true →
  VoidWasteEvent_body now id st = Ok (ing, qty, st') → voided st' id.
Proof.
  intros Hn H. apply VoidWasteEvent_step in H as (ev & m & L & M & _ & _ & _ & ->).
  set (m' := aset "voided_at" _ _). exists (bump ev (marshal (AMap m'))), m'.
  apply live_some in L as [_ L]. split; [unfold live; rewrite lookup_put; cbn; by rewrite L|]. split; [done|].
  split; [|subst m'; by agets]. apply good_aset_str; [|done|done]. apply good_aset_str; [eauto with go_json|done|done].
Qed.

Lemma live_frame kinds st st' kind id : no_nul kind = true → kind ∉ kinds → frame kinds st st' → live st' kind id = live st kind id.
Proof. intros Hn Hk F. unfold live. by rewrite (frame_get _ _ _ F). Qed.

Lemma void_refused io io' ctx s g now now' id : voided (s_state s) id →
  is_ok (tx_res (VoidWasteEvent io io' ctx s g now now' id)) = false
  ∧ s_state (tx_store (VoidWasteEvent io io' ctx s g now now' id)) = s_state s.
Proof.
  intros Hv. unfold VoidWasteEvent. set (body := λ st, _). pose proof (withTx_state io ctx s body) as W.
  destruct (tx_res (withTx io ctx s body)) as [[ing qty]|e] eqn:E; [|done]. exfalso. subst body. cbv beta in W.
  pose proof (voided_refused (FormatRFC3339 now) id _ Hv) as R. by destruct (VoidWasteEvent_body _ id (s_state s)).
Qed.

Lemma RecordStockMovement_adjusts io ctx s g now ing qty :
  is_ok (tx_res (RecordStockMovement io ctx s g now ing "adjustment" qty "" "ابطال ضایعات")) = true →
  let st' := s_state (tx_store (RecordStockMovement io ctx s g now ing "adjustment" qty "" "ابطال ضایعات")) in
  ∃ old movID, live (s_state s) "ingredient" ing = Some old
    ∧ moved (FormatRFC3339 now) movID ing (ParseFloat (TrimSpace qty)).1 "adjustment" old st'
    ∧ frame ["ingredient"; "inventory_movement"] (s_state s) st'.
Proof.
  unfold RecordStockMovement. destruct (ParseFloat (TrimSpace qty)) as [q ok]. cbn [fst].
  destruct (negb ok || feq q fzero); [done|]. destruct (UUID g) as [[movID|] g']; [|done].
  unfold returning. cbn [tx_res tx_store]. destruct (tx_res (withTx _ _ _ _)) as [[]|] eqn:E; [|done]. intros _.
  apply withTx_ok, RecordStockMovement_step in E as (old & L & Hm & _ & F & _).
  change (signed_delta "adjustment" q (stock old)) with (q, "adjustment"%stdpp) in *. cbn [fst snd] in *.
  exists old, movID. split; [done|]. split; [done|]. by apply F.
Qed.

(** voiding waste.  When [VoidWasteEvent] succeeds the event was live and not voided, and
    it is voided now; if it names an ingredient and a quantity, the ingredient's stock is the
    old stock and the event's quantity, recorded as an adjustment; and voiding it again
    fails, whatever the system does, and leaves the state as it is. *)
Theorem VoidWasteEvent_once io io' ctx s g now now' id :
  let o := VoidWasteEvent io io' ctx s g now now' id in
  tx_res o = Ok () →
  ∃ ev m, live (s_state s) "waste_event" id = Some ev ∧ load_map (se_Payload ev) = Ok (Some m)
    ∧ as_string (aget "status" m) ≠ Some "voided" ∧ voided (s_state (tx_store o)) id
    ∧ (∀ ing qty, aget "ingredient_id" m = AStr ing → aget "quantity" m = AStr qty → ing ≠ "" → qty ≠ "" → qty ≠ "0" →
       ∃ old movID, live (s_state s) "ingredient" ing = Some old
         ∧ moved (FormatRFC3339 now') movID ing (ParseFloat (TrimSpace qty)).1 "adjustment" old (s_state (tx_store o)))
    ∧ ∀ io1 io2 ctx1 g1 now1 now2, let o1 := VoidWasteEvent io1 io2 ctx1 (tx_store o) g1 now1 now2 id in
       is_ok (tx_res o1) = false ∧ s_state (tx_store o1) = s_state (tx_store o).
Proof.
  intros o Ho. assert (voided (s_state (tx_store o)) id → ∀ io1 io2 ctx1 g1 now1 now2,
    let o1 := VoidWasteEvent io1 io2 ctx1 (tx_store o) g1 now1 now2 id in
    is_ok (tx_res o1) = false ∧ s_state (tx_store o1) = s_state (tx_store o)) as Hagain by (intros; by apply void_refused).
  revert Ho Hagain. unfold o, VoidWasteEvent. set (body := λ st, _). clear o.
  destruct (tx_res (withTx io ctx s body)) as [[ing qty]|] eqn:E; [|done]. apply withTx_ok in E.
  set (s1 := tx_store (withTx io ctx s body)) in *. clearbody s1. subst body. cbv beta in E.
  destruct (VoidWasteEvent_body _ id (s_state s)) as [[[i q] st1]|] eqn:B; [|done]. injection E as -> -> ->.
  pose proof (VoidWasteEvent_voids _ _ _ _ _ _ (FormatRFC3339_valid now) B) as Hv.
  apply VoidWasteEvent_step in B as (ev & m & L & M & Hns & -> & -> & Est).
  assert (∀ x, live (s_state s1) "ingredient" x = live (s_state s) "ingredient" x) as Hi.
  { intros x. unfold live. rewrite Est, lookup_put_ne; [done|]. intros X. by apply entityKey_inj in X as [X _]. }
  destruct (sempty _ || _ || _) eqn:Skip.
  - cbn [tx_res tx_store]. intros _ Hagain. exists ev, m. do 4 (split; [done|]). split; [|by apply Hagain].
    intros i0 q0 Ei Eq Hi0 Hq0 Hz. rewrite Ei, Eq in Skip. unfold string_or_empty in Skip. cbn [as_string default] in Skip.
    rewrite (bool_decide_false _ Hz), orb_false_r in Skip. by apply orb_true_iff in Skip as [Sk|Sk]; apply sempty_true in Sk.
  - cbn [tx_res tx_store]. intros Ho Hagain.
    assert (is_ok (tx_res (RecordStockMovement io' ctx s1 g now' (string_or_empty (aget "ingredient_id" m)) "adjustment"
      (string_or_empty (aget "quantity" m)) "" "ابطال ضایعات")) = true) as Hok by (by destruct (tx_res (RecordStockMovement _ _ _ _ _ _ _ _ _ _))).
    destruct (RecordStockMovement_adjusts _ _ _ _ _ _ _ Hok) as (old & movID & Lo & Hm & F).
    set (o1 := RecordStockMovement _ _ _ _ _ _ _ _ _ _) in *.
    assert (voided (s_state (tx_store o1)) id) as Hv1.
    { destruct Hv as (e & m1 & L1 & R1). exists e, m1.
      assert (live (s_state (tx_store o1)) "waste_event" id = live (s_state s1) "waste_event" id) as ->; [|done].
      apply (live_frame ["ingredient"; "inventory_movement"]); [done|decided|exact F]. }
    exists ev, m. do 4 (split; [done|]). split; [|by apply Hagain].
    intros i0 q0 Ei Eq _ _ _. exists old, movID. rewrite <- Hi. clearbody o1. rewrite Ei in Lo, Hm. rewrite Eq in Hm. by split.
Qed.

(** ** Concrete runs *)

Lemma RecordStockMovement_ledger_witness :
  let r := RecordStockMovement_body "2025-03-21T08:00:00Z" "m1" "i1" "waste" (f64_of_Z 3) "" "spill" draws a_cafe in
  is_ok r = true ∧ shown (run_state r) "ingredient" "i1" "current_stock" = "7.00"
  ∧ frame ["ingredient"; "inventory_movement"; "waste_event"] a_cafe (run_state r).
Proof.
  intros r. assert (is_ok r = true) as H by (vm_compute; reflexivity). split; [exact H|]. split; [vm_compute; reflexivity|].
  destruct (RecordStockMovement_ledger _ _ _ _ _ _ _ _ _ _ (run_unit r H)) as (old & _ & _ & F & _). exact F.
Defined.

Definition ten_grams : storedEntity := a_record "ingredient" "i1" 1 [("base_unit", AStr "g"); ("current_stock", AStr "10"); ("name", AStr "coffee")].

Lemma RecordStockMovement_outgoing_floor_witness :
  let r := RecordStockMovement_body "2025-03-21T08:00:00Z" "m1" "i1" "outgoing" (f64_of_Z 300) "" "" draws a_cafe in
  is_ok r = true ∧ shown (run_state r) "ingredient" "i1" "current_stock" = "0.00" ∧ ∃ x, fle fzero x = true.
Proof.
  intros r. assert (is_ok r = true) as H by (vm_compute; reflexivity). split; [exact H|]. split; [vm_compute; reflexivity|].
  assert (live a_cafe "ingredient" "i1" = Some ten_grams) as L by (vm_compute; reflexivity).
  assert (is_finite (f64_of_Z 300) = true ∧ is_finite (stock ten_grams) = true ∧ fle fzero (stock ten_grams) = true) as (F1 & F2 & F3)
    by (vm_compute; repeat split; reflexivity).
  destruct (RecordStockMovement_outgoing_floor "2025-03-21T08:00:00Z" "m1" "i1" (f64_of_Z 300) "" "" draws a_cafe (run_state r) ten_grams
              L F1 F2 F3 (run_unit r H)) as (m & x & _ & _ & Hx).
  exists x. exact Hx.
Defined.

Definition wasted : Store :=
  {| s_closed := false; s_disk := {| d_main := None; d_tmp := None |};
     s_state := new_entity "waste_event" "w1" [("ingredient_id", AStr "i1"); ("quantity", AStr "3.00")] a_cafe |}.

Lemma VoidWasteEvent_once_witness :
  let o := VoidWasteEvent io_ok io_ok None wasted draws 0 0 "w1" in
  tx_res o = Ok () ∧ shown (s_state (tx_store o)) "ingredient" "i1" "current_stock" = "13.00"
  ∧ is_ok (tx_res (VoidWasteEvent io_ok io_ok None (tx_store o) draws 0 0 "w1")) = false.
Proof.
  intros o. assert (tx_res o = Ok ()) as H by (vm_compute; reflexivity). split; [exact H|]. split; [vm_compute; reflexivity|].
  destruct (VoidWasteEvent_once io_ok io_ok None wasted draws 0 0 "w1" H) as (ev & m & _ & _ & _ & _ & _ & Ha).
  exact (proj1 (Ha io_ok io_ok None draws 0%Z 0%Z)).
Defined.

(** voiding is two transactions.  When the second cannot be carried out, here because the
    ingredient has been deleted since, the call fails but the event is voided all the same:
    the stock has not come back, and calling again fails because the event is voided. *)
Theorem VoidWasteEvent_half :
  let s0 := {| s_closed := false; s_disk := s_disk wasted;
               s_state := run_state (DeleteLocalRecord_body "ingredient" "i1" (s_state wasted)) |} in
  let o := VoidWasteEvent io_ok io_ok None s0 draws 0 0 "w1" in
  is_ok (tx_res o) = false ∧ shown (s_state (tx_store o)) "waste_event" "w1" "status" = "voided"
  ∧ tx_res (VoidWasteEvent io_ok io_ok None (tx_store o) draws 0 0 "w1") = Err "این رویداد ضایعات قبلاً ابطال شده است".
Proof. vm_compute. repeat split; reflexivity. Qed.
