(* ===== verification/Analytics.v ===== *)
(** * The financial report

    Models the analytics of [offline-menuvex/internal/store/domains.go]: one pass over the
    entities, in whatever order the runtime ranges over them, that adds up sales, expenses
    and receivables and counts orders, tables, tasks and staff. *)
From S2P Require Import Prelude GoStrings GoFloat GoJson GoTime Store Entities EntityView.

Local Open Scope Z_scope.

(* domains.go FinancialAnalytics *)
Record FinancialAnalytics := {
  TotalSalesIRR : string;
  CashSalesIRR : string;
  CardSalesIRR : string;
  CreditSalesIRR : string;
  TotalExpensesIRR : string;
  TotalReceivablesIRR : string;
  NetOperatingIRR : string;
  CompletedOrders : Z;
  OpenOrders : Z;
  CancelledOrders : Z;
  OccupiedTables : Z;
  TotalTables : Z;
  PendingTasks : Z;
  CompletedTasks : Z;
  ActiveStaff : Z;
}.

(** What the loop adds up: money first, then counts. *)
Record tally := {
  t_cash : Z; t_card : Z; t_credit : Z; t_sales : Z; t_expenses : Z; t_receivables : Z;
  t_completed : Z; t_open : Z; t_cancelled : Z;
  t_occupied : Z; t_tables : Z; t_pending : Z; t_done : Z; t_staff : Z;
}.

Definition tally0 : tally :=
  {| t_cash := 0; t_card := 0; t_credit := 0; t_sales := 0; t_expenses := 0; t_receivables := 0; t_completed := 0; t_open := 0;
     t_cancelled := 0; t_occupied := 0; t_tables := 0; t_pending := 0; t_done := 0; t_staff := 0 |}.

Definition tally_add (a b : tally) : tally :=
  {| t_cash := t_cash a + t_cash b; t_card := t_card a + t_card b; t_credit := t_credit a + t_credit b;
     t_sales := t_sales a + t_sales b; t_expenses := t_expenses a + t_expenses b;
     t_receivables := t_receivables a + t_receivables b; t_completed := t_completed a + t_completed b;
     t_open := t_open a + t_open b; t_cancelled := t_cancelled a + t_cancelled b; t_occupied := t_occupied a + t_occupied b;
     t_tables := t_tables a + t_tables b; t_pending := t_pending a + t_pending b; t_done := t_done a + t_done b;
     t_staff := t_staff a + t_staff b |}.

(** Whether an entity falls into the period; [None] is the zero time. *)
(* domains.go:1504-1511 Store.analyticsRange *)
Definition in_period (from : option Z) (e : storedEntity) : bool :=
  match from with
  | Some from =>
      if bool_decide (se_Type e = "order") || bool_decide (se_Type e = "expense") then
        match ParseRFC3339 (Field (view e) "created_at") with Some ct => from <=? ct | None => false end
      else true
  | None => true
  end.

(** What an order adds. *)
(* domains.go:1513-1537 Store.analyticsRange *)
Definition order_tally (ent : Entity) : tally :=
  let status := ToLower (Field ent "status") in
  let none cancelled open :=
    {| t_cash := 0; t_card := 0; t_credit := 0; t_sales := 0; t_expenses := 0; t_receivables := 0; t_completed := 0;
       t_open := open; t_cancelled := cancelled; t_occupied := 0; t_tables := 0; t_pending := 0; t_done := 0; t_staff := 0 |} in
  if bool_decide (status = "cancelled") || bool_decide (status = "canceled") then none 1 0
  else if bool_decide (status = "completed") then
    let amt := parseBigIntSafe (PriceIRR ent) in
    let '(cash, credit, card) :=
      switch (Field ent "payment_method") [(["cash"], (amt, 0, 0)); (["credit_debtor"], (0, amt, 0))]%stdpp (0, 0, amt) in
    {| t_cash := cash; t_card := card; t_credit := credit; t_sales := amt; t_expenses := 0; t_receivables := 0; t_completed := 1;
       t_open := 0; t_cancelled := 0; t_occupied := 0; t_tables := 0; t_pending := 0; t_done := 0; t_staff := 0 |}
  else none 0 1.

(* domains.go:1512-1555 Store.analyticsRange *)
Definition entity_tally (e : storedEntity) : tally :=
  let ent := view e in
  let one expenses receivables occupied tables pending done staff :=
    {| t_cash := 0; t_card := 0; t_credit := 0; t_sales := 0; t_expenses := expenses; t_receivables := receivables; t_completed := 0;
       t_open := 0; t_cancelled := 0; t_occupied := occupied; t_tables := tables; t_pending := pending; t_done := done;
       t_staff := staff |} in
  switch (se_Type e)
    [(["order"], order_tally ent);
     (["expense"], one (parseBigIntSafe (PriceIRR ent)) 0 0 0 0 0 0);
     (["debtor"], one 0 (parseBigIntSafe (Field ent "remaining")) 0 0 0 0 0);
     (["table"],
        one 0 0 (if bool_decide (Field ent "status" = "occupied") || bool_decide (Field ent "status" = "reserved") then 1 else 0)
            1 0 0 0);
     (["task"],
        if bool_decide (Field ent "is_done" = "true") || bool_decide (Field ent "status" = "done")
        then one 0 0 0 0 0 1 0 else one 0 0 0 0 1 0 0);
     (["staff"], one 0 0 0 0 0 0 1)]%stdpp tally0.

(** The turns of the loop that reach the switch. *)
Definition counted (from : option Z) (e : storedEntity) : bool := negb (se_Deleted e) && in_period from e.

Definition totals (l : list storedEntity) : tally := foldl (λ t e, tally_add t (entity_tally e)) tally0 l.

(* domains.go Store.analyticsRange *)
Definition analyticsRange (R : Runtime) (from : option Z) (st : persistedDB) : FinancialAnalytics :=
  let t := totals (List.filter (counted from) (iter R 0 (Entities st)).*2) in
  {| TotalSalesIRR := Z_to_dec (t_sales t); CashSalesIRR := Z_to_dec (t_cash t); CardSalesIRR := Z_to_dec (t_card t);
     CreditSalesIRR := Z_to_dec (t_credit t); TotalExpensesIRR := Z_to_dec (t_expenses t);
     TotalReceivablesIRR := Z_to_dec (t_receivables t); NetOperatingIRR := Z_to_dec (t_sales t - t_expenses t);
     CompletedOrders := t_completed t; OpenOrders := t_open t; CancelledOrders := t_cancelled t;
     OccupiedTables := t_occupied t; TotalTables := t_tables t; PendingTasks := t_pending t; CompletedTasks := t_done t;
     ActiveStaff := t_staff t |}.

(* domains.go Store.Analytics *)
Definition Analytics (R : Runtime) (st : persistedDB) : FinancialAnalytics := analyticsRange R None st.

(* domains.go Store.AnalyticsSince *)
Definition AnalyticsSince (R : Runtime) (from : Z) (st : persistedDB) : FinancialAnalytics := analyticsRange R (Some from) st.

(** ** What the report says *)

(** A column of the report is the sum of what the entities add to it. *)
Lemma totals_sum (f : tally → Z) l :
  (∀ a b, f (tally_add a b) = f a + f b) → f (totals l) = f tally0 + Zsum (map (λ e, f (entity_tally e)) l).
Proof.
  intros Hf. unfold totals. generalize tally0 as t. induction l as [|e l IH]; intros t; cbn [foldl map Zsum foldr]; [lia|].
  rewrite IH, Hf. unfold Zsum. lia.
Qed.

Definition is_kind (k : string) (e : storedEntity) : bool := bool_decide (se_Type e = k).
Definition order_status_of (e : storedEntity) : string := ToLower (Field (view e) "status").

(** The completed orders, and what they bring. *)
Definition sold_order (e : storedEntity) : bool := is_kind "order" e && bool_decide (order_status_of e = "completed").
Definition price_of (e : storedEntity) : Z := parseBigIntSafe (PriceIRR (view e)).

(** Decide the tests of an entity's kind from what is known of it. *)
Ltac settle_kinds :=
  repeat match goal with
         | |- context [bool_decide (se_Type ?e = ?b)] =>
             first [rewrite (bool_decide_true (se_Type e = b)) by assumption
                   |rewrite (bool_decide_false (se_Type e = b)) by congruence]
         end; cbn iota.

Lemma order_tally_facts ent :
  let t := order_tally ent in
  t_sales t = t_cash t + t_card t + t_credit t ∧ t_completed t + t_open t + t_cancelled t = 1
  ∧ t_sales t = (if bool_decide (ToLower (Field ent "status") = "completed") then parseBigIntSafe (PriceIRR ent) else 0)
  ∧ t_expenses t = 0 ∧ t_receivables t = 0 ∧ t_occupied t = 0 ∧ t_tables t = 0.
Proof.
  unfold order_tally. cbv zeta. generalize (ToLower (Field ent "status")). intros status.
  destruct (bool_decide (status = "cancelled") || bool_decide (status = "canceled")) eqn:C.
  { rewrite (bool_decide_false (status = "completed")); [cbn; split_and!; done|]. intros ->. done. }
  destruct (bool_decide (status = "completed")); [|cbn; split_and!; done]. generalize (parseBigIntSafe (PriceIRR ent)). intros amt.
  unfold switch. cbn [existsb]. destruct (String.eqb _ _ || false); [cbn; split_and!; lia|].
  destruct (String.eqb _ _ || false); cbn; split_and!; lia.
Qed.

Lemma entity_tally_facts e :
  let t := entity_tally e in
  t_sales t = t_cash t + t_card t + t_credit t
  ∧ t_completed t + t_open t + t_cancelled t = (if is_kind "order" e then 1 else 0)
  ∧ t_sales t = (if sold_order e then price_of e else 0)
  ∧ t_expenses t = (if is_kind "expense" e then price_of e else 0)
  ∧ t_receivables t = (if is_kind "debtor" e then parseBigIntSafe (Field (view e) "remaining") else 0)
  ∧ 0 <= t_occupied t <= t_tables t ∧ t_tables t = (if is_kind "table" e then 1 else 0).
Proof.
  pose proof (order_tally_facts (view e)) as O. unfold sold_order, price_of, order_status_of. cbv zeta in *.
  unfold entity_tally, is_kind. cbn [switch existsb].
  rewrite !orb_false_r, !string_eqb.
  destruct (decide (se_Type e = "order")) as [E|N1].
  { settle_kinds. destruct O as (O1 & O2 & O3 & O4 & O5 & O6 & O7). rewrite O4, O5, O6, O7. cbn [andb].
    split_and!; try done; lia. }
  destruct (decide (se_Type e = "expense")) as [E|N2]; [settle_kinds; cbn; split_and!; lia|].
  destruct (decide (se_Type e = "debtor")) as [E|N3]; [settle_kinds; cbn; split_and!; lia|].
  destruct (decide (se_Type e = "table")) as [E|N4]; [settle_kinds; destruct (_ || _); cbn; split_and!; lia|].
  settle_kinds. repeat (destruct (bool_decide _)); cbn; split_and!; lia.
Qed.

Lemma totals_col (f : tally → Z) (h : storedEntity → Z) l :
  (∀ a b, f (tally_add a b) = f a + f b) → f tally0 = 0 → (∀ e, f (entity_tally e) = h e) → f (totals l) = Zsum (map h l).
Proof.
  intros Hf H0 Hh. rewrite (totals_sum f) by done. rewrite H0, Z.add_0_l. by apply Zsum_map_ext.
Qed.

(** The part of the state the report is about. *)
Definition in_report (from : option Z) (st : persistedDB) : list storedEntity :=
  List.filter (counted from) (map_to_list (Entities st)).*2.

Lemma totals_perm l l' : l ≡ₚ l' → totals l = totals l'.
Proof.
  intros H. unfold totals. generalize tally0 as t. induction H as [|e l k _ IH|a b l|l1 l2 l3 _ IH1 _ IH2]; intros t; cbn [foldl]; auto.
  - f_equal. unfold tally_add. cbn. f_equal; lia.
  - by rewrite IH1.
Qed.

(** C31: the financial report.  Whatever order the runtime ranges over the entities in, the
    report is the same, and it adds up: sales are the prices of the completed orders of the
    period and split into cash, card and credit without remainder; expenses and receivables
    are the sums over the expenses and the debtors; the result is sales less expenses; every
    order of the period is counted once, as completed, open or cancelled; and no more tables
    are occupied than there are. *)
Theorem analyticsRange_adds_up R R' from st :
  analyticsRange R from st = analyticsRange R' from st
  ∧ let l := in_report from st in
    let fa := analyticsRange R from st in
    let sales := Zsum (map price_of (List.filter sold_order l)) in
    let expenses := Zsum (map price_of (List.filter (is_kind "expense") l)) in
    TotalSalesIRR fa = Z_to_dec sales ∧ TotalExpensesIRR fa = Z_to_dec expenses ∧ NetOperatingIRR fa = Z_to_dec (sales - expenses)
    ∧ TotalReceivablesIRR fa = Z_to_dec (Zsum (map (λ e, parseBigIntSafe (Field (view e) "remaining")) (List.filter (is_kind "debtor") l)))
    ∧ (∃ cash card credit, CashSalesIRR fa = Z_to_dec cash ∧ CardSalesIRR fa = Z_to_dec card ∧ CreditSalesIRR fa = Z_to_dec credit
         ∧ sales = cash + card + credit)
    ∧ CompletedOrders fa + OpenOrders fa + CancelledOrders fa = count (is_kind "order") l
    ∧ TotalTables fa = count (is_kind "table") l ∧ 0 <= OccupiedTables fa <= TotalTables fa.
Proof.
  assert (∀ R0, totals (List.filter (counted from) (iter R0 0 (Entities st)).*2) = totals (in_report from st)) as Ht.
  { intros R0. apply totals_perm, filter_perm. by rewrite iter_perm. }
  split; [unfold analyticsRange; by rewrite !Ht|]. cbv zeta. unfold analyticsRange. rewrite Ht. clear Ht.
  set (l := in_report from st). cbn [TotalSalesIRR TotalExpensesIRR NetOperatingIRR TotalReceivablesIRR CashSalesIRR CardSalesIRR
    CreditSalesIRR CompletedOrders OpenOrders CancelledOrders TotalTables OccupiedTables].
  pose proof entity_tally_facts as F. cbv zeta in F.
  assert (t_sales (totals l) = Zsum (map price_of (List.filter sold_order l))) as Hs.
  { rewrite Zsum_map_filter. apply (totals_col _); [done..|]. intros e. apply F. }
  assert (t_expenses (totals l) = Zsum (map price_of (List.filter (is_kind "expense") l))) as He.
  { rewrite Zsum_map_filter. apply (totals_col _); [done..|]. intros e. apply F. }
  assert (∀ k, Zsum (map (λ e, if is_kind k e then 1 else 0) l) = count (is_kind k) l) as Hc.
  { intros k. unfold count. clear. induction l as [|e l IH]; [done|]. cbn [map Zsum foldr List.filter]. unfold Zsum in IH. rewrite IH.
    destruct (is_kind k e); cbn [length]; lia. }
  rewrite <- Hs, <- He. split; [done|]. split; [done|]. split; [done|]. split; [|split; [|split; [|split]]].
  - f_equal. rewrite Zsum_map_filter. apply (totals_col _); [done..|]. intros e. apply F.
  - exists (t_cash (totals l)), (t_card (totals l)), (t_credit (totals l)). do 3 (split; [done|]).
    rewrite (totals_sum t_sales), (totals_sum t_cash), (totals_sum t_card), (totals_sum t_credit) by done. cbn [tally0 t_cash t_card t_credit t_sales].
    rewrite (Zsum_map_ext _ (λ e, t_cash (entity_tally e) + t_card (entity_tally e) + t_credit (entity_tally e))) by (intros; apply F).
    rewrite !Zsum_map_add. lia.
  - rewrite <- Hc, (totals_sum t_completed), (totals_sum t_open), (totals_sum t_cancelled) by done. cbn [tally0 t_completed t_open t_cancelled].
    rewrite <- (Zsum_map_ext (λ e, t_completed (entity_tally e) + t_open (entity_tally e) + t_cancelled (entity_tally e))
      (λ e, if is_kind "order" e then 1 else 0)) by (intros; apply F).
    rewrite !Zsum_map_add. lia.
  - rewrite <- Hc. apply (totals_col _); [done..|]. intros e. apply F.
  - rewrite (totals_sum t_occupied), (totals_sum t_tables) by done. cbn [tally0 t_occupied t_tables].
    assert (∀ e, 0 <= t_occupied (entity_tally e) <= t_tables (entity_tally e)) as Ho by (intros e; apply F). clear -Ho.
    induction l as [|e l IH]; cbn [map Zsum foldr]; [lia|]. unfold Zsum in IH. specialize (Ho e). lia.
Qed.
