(* ===== verification/PrintJobs.v ===== *)
(** * Print jobs

    Models [offline-menuvex/internal/store/printing.go]: the jobs of the thermal printers as
    records of the store, how an order's documents are routed to printers, and how jobs are
    kept from being made twice.  The operations run several transactions; their outcomes and
    clock readings are numbered. *)
From S2P Require Import Prelude GoStrings GoFloat GoJson GoJsonFacts GoReadback GoTime Store Entities EntityView Outbox Records Orders.

(** ** Data *)

(* store/printing.go PrintJobView *)
Record PrintJobView := {
  jv_ID : string; jv_OrderID : string; jv_OrderNumber : string; jv_DocType : string;
  jv_PrinterID : string; jv_PrinterTitle : string; jv_Connection : string; jv_Queue : string;
  jv_PaperWidth : string; jv_Status : string; jv_LastError : string;
  jv_Attempts : Z; jv_Copies : Z; jv_Categories : option (list string);
  jv_CreatedAt : string; jv_UpdatedAt : string;
}.

(* store/printing.go printJobPayload *)
Record printJobPayload := {
  pj_ID : string; pj_OrderID : string; pj_OrderNumber : string; pj_DocType : string;
  pj_PrinterID : string; pj_PrinterTitle : string; pj_Connection : string; pj_Queue : string;
  pj_PaperWidth : string; pj_Status : string; pj_LastError : string;
  pj_Attempts : Z; pj_Copies : Z; pj_Categories : option (list string);
  pj_DedupeKey : string; pj_CreatedAt : string; pj_UpdatedAt : string; pj_Version : Z;
}.

Definition PrintStatusPending : string := "pending".
Definition PrintStatusPrinting : string := "printing".
Definition PrintStatusPrinted : string := "printed".
Definition PrintStatusFailed : string := "failed".

(* store/printing.go PrintJobView.StatusLabel *)
Definition job_StatusLabel (j : PrintJobView) : string :=
  switch (jv_Status j) [(["printed"], "چاپ شد"); (["printing"], "در حال چاپ"); (["failed"], "خطای چاپ")]%stdpp "در صف چاپ".

(* store/printing.go PrintJobView.StatusClass *)
Definition job_StatusClass (j : PrintJobView) : string :=
  switch (jv_Status j) [(["printed"], "status-ok"); (["printing"], "status-info"); (["failed"], "status-danger")]%stdpp "status-warn".

(* store/printing.go PrintJobView.DocTypeLabel *)
Definition DocTypeLabel (j : PrintJobView) : string :=
  switch (jv_DocType j)
    [(["kitchen"], "حواله آماده‌سازی (بار/آشپزخانه)"); (["test"], "فیش آزمایشی چاپگر")]%stdpp "فیش مشتری (صندوق)".

(* store/printing.go printJobView *)
Definition printJobView (p : printJobPayload) : PrintJobView :=
  {| jv_ID := pj_ID p; jv_OrderID := pj_OrderID p; jv_OrderNumber := pj_OrderNumber p; jv_DocType := pj_DocType p;
     jv_PrinterID := pj_PrinterID p; jv_PrinterTitle := pj_PrinterTitle p; jv_Connection := pj_Connection p;
     jv_Queue := pj_Queue p; jv_PaperWidth := pj_PaperWidth p; jv_Status := pj_Status p; jv_LastError := pj_LastError p;
     jv_Attempts := pj_Attempts p; jv_Copies := (if (pj_Copies p <? 1)%Z then 1 else pj_Copies p)%Z;
     jv_Categories := pj_Categories p; jv_CreatedAt := pj_CreatedAt p; jv_UpdatedAt := pj_UpdatedAt p |}.

(** ** The payload's text *)

(** The fields in the order of the struct; the two with [omitempty] only when not empty. *)
(* store/printing.go:90-109 printJobPayload *)
Definition job_fields (p : printJobPayload) : gomap :=
  [("id", AStr (pj_ID p)); ("order_id", AStr (pj_OrderID p)); ("order_number", AStr (pj_OrderNumber p));
   ("doc_type", AStr (pj_DocType p)); ("printer_id", AStr (pj_PrinterID p)); ("printer_title", AStr (pj_PrinterTitle p));
   ("connection", AStr (pj_Connection p)); ("queue", AStr (pj_Queue p)); ("paper_width", AStr (pj_PaperWidth p));
   ("status", AStr (pj_Status p)); ("last_error", AStr (pj_LastError p)); ("attempts", AInt (pj_Attempts p))]
  ++ (if (pj_Copies p =? 0)%Z then [] else [("copies", AInt (pj_Copies p))])
  ++ (match pj_Categories p with Some ((_ :: _) as l) => [("categories", AArr (map AStr l))] | _ => [] end)
  ++ [("dedupe_key", AStr (pj_DedupeKey p)); ("created_at", AStr (pj_CreatedAt p)); ("updated_at", AStr (pj_UpdatedAt p));
      ("version", AInt (pj_Version p))].

Definition encode_job (p : printJobPayload) : string := marshal (AMap (job_fields p)).

Definition dec_job (o : list (string * (string * json))) : option printJobPayload :=
  let str k := dec_string (struct_members k o) in
  let int k := dec_int (struct_members k o) in
  id ← str "id"; order ← str "order_id"; number ← str "order_number"; doc ← str "doc_type"; printer ← str "printer_id";
  title ← str "printer_title"; conn ← str "connection"; queue ← str "queue"; paper ← str "paper_width"; status ← str "status";
  err ← str "last_error"; attempts ← int "attempts"; copies ← int "copies"; cats ← dec_strings (struct_members "categories" o);
  dedupe ← str "dedupe_key"; created ← str "created_at"; updated ← str "updated_at"; version ← int "version";
  Some {| pj_ID := id; pj_OrderID := order; pj_OrderNumber := number; pj_DocType := doc; pj_PrinterID := printer;
          pj_PrinterTitle := title; pj_Connection := conn; pj_Queue := queue; pj_PaperWidth := paper; pj_Status := status;
          pj_LastError := err; pj_Attempts := attempts; pj_Copies := copies; pj_Categories := cats; pj_DedupeKey := dedupe;
          pj_CreatedAt := created; pj_UpdatedAt := updated; pj_Version := version |}%stdpp.

(* store/printing.go decodePrintJob *)
Definition decodePrintJob (payload : string) : option printJobPayload :=
  match parse_json payload with
  | Some (JObj o) =>
      match dec_job o with
      | Some p => if sempty (pj_ID p) then None else Some p
      | None => None
      end
  | _ => None
  end.

(* store/printing.go isActivePrinter *)
Definition isActivePrinter (e : Entity) : bool :=
  let v := ToLower (TrimSpace (Field e "is_active")) in
  negb (bool_decide (v = "false")) && negb (bool_decide (v = "0")) && negb (bool_decide (v = "غیرفعال")).

(** ** Reading jobs *)

(* store/printing.go Store.PrintJobs *)
Definition PrintJobs (R : Runtime) (ctx : option string) (orderID : string) (st : persistedDB) : res (list PrintJobView) :=
  let? ents := read_ctx ctx (Entities_of R "print_job" st) in
  let out := omap (λ e, match decodePrintJob (e_Payload e) with
                        | Some p => if negb (sempty orderID) && negb (bool_decide (pj_OrderID p = orderID)) then None
                                    else Some (printJobView p)
                        | None => None
                        end) ents in
  Ok (take 100 (sort_slice R (λ a b, String.ltb (jv_CreatedAt b) (jv_CreatedAt a)) out)).

(* store/printing.go Store.PrintJob *)
Definition PrintJob (ctx : option string) (jobID : string) (st : persistedDB) : res PrintJobView :=
  match (let? _ := read_ctx ctx () in Entity_of "print_job" jobID st) with
  | Err _ => Err "Job چاپ یافت نشد"
  | Ok e => match decodePrintJob (e_Payload e) with
            | None => Err "Job چاپ نامعتبر است"
            | Some p => Ok (printJobView p)
            end
  end.

(** ** Writing jobs *)

Definition set_job (id status err updated : string) (attempts version : Z) (p : printJobPayload) : printJobPayload :=
  {| pj_ID := id; pj_OrderID := pj_OrderID p; pj_OrderNumber := pj_OrderNumber p; pj_DocType := pj_DocType p;
     pj_PrinterID := pj_PrinterID p; pj_PrinterTitle := pj_PrinterTitle p; pj_Connection := pj_Connection p;
     pj_Queue := pj_Queue p; pj_PaperWidth := pj_PaperWidth p; pj_Status := status; pj_LastError := err;
     pj_Attempts := attempts; pj_Copies := pj_Copies p; pj_Categories := pj_Categories p; pj_DedupeKey := pj_DedupeKey p;
     pj_CreatedAt := pj_CreatedAt p; pj_UpdatedAt := updated; pj_Version := version |}.

(* store/printing.go:459-472 Store.savePrintJob *)
Definition savePrintJob_body (p : printJobPayload) (st : persistedDB) : res (unit * persistedDB) :=
  let key := entityKey "print_job" (pj_ID p) in
  let nextVer := match Entities st !! key with Some old => wrap64 (se_Version old + 1) | None => 1%Z end in
  let p := set_job (pj_ID p) (pj_Status p) (pj_LastError p) (pj_UpdatedAt p) (pj_Attempts p) nextVer p in
  Ok ((), put key {| se_ID := pj_ID p; se_Type := "print_job"; se_Version := nextVer; se_Deleted := false;
                     se_Payload := encode_job p |} st).

(* store/printing.go Store.savePrintJob *)
Definition savePrintJob (io : IO) (ctx : option string) (s : Store) (now : Z) (p : printJobPayload) : tx_out unit :=
  let p := set_job (pj_ID p) (pj_Status p) (pj_LastError p) (FormatRFC3339 now) (pj_Attempts p) (pj_Version p) p in
  withTx io ctx s (savePrintJob_body p).

(* store/printing.go:516-542 Store.UpdatePrintJobStatus *)
Definition UpdatePrintJobStatus_body (now jobID status lastError : string) (st : persistedDB) : res (PrintJobView * persistedDB) :=
  match live st "print_job" jobID with
  | None => Err "Job چاپ یافت نشد"
  | Some e =>
      match decodePrintJob (se_Payload e) with
      | None => Err "Job چاپ نامعتبر است"
      | Some p =>
          let attempts := if bool_decide (status = PrintStatusPrinting) then wrap64 (pj_Attempts p + 1) else pj_Attempts p in
          let p := set_job (pj_ID p) status lastError now attempts (wrap64 (pj_Version p + 1)) p in
          Ok (printJobView p,
              put (entityKey "print_job" jobID)
                {| se_ID := se_ID e; se_Type := se_Type e; se_Version := pj_Version p; se_Deleted := se_Deleted e;
                   se_Payload := encode_job p |} st)
      end
  end.

(* store/printing.go Store.UpdatePrintJobStatus *)
Definition UpdatePrintJobStatus (io : IO) (ctx : option string) (s : Store) (now : Z) (jobID status lastError : string)
    : tx_out PrintJobView :=
  withTx io ctx s (UpdatePrintJobStatus_body (FormatRFC3339 now) jobID status lastError).

(** ** Making jobs once *)

(** [catSig]: the sorted categories, or [all] for no restriction. *)
(* store/printing.go:358-365 Store.EnqueueOrderPrintJobsDocs *)
Definition catSig (cats : option (list string)) : string :=
  match cats with None => "all" | Some l => Join "," (sort_strings l) end.

(** The key of a job, rebuilt from what is shown of it. *)
(* store/printing.go:420-429 Store.createPrintJobs *)
Definition dedupe_key (j : PrintJobView) : string :=
  jv_OrderID j +:+ "|" +:+ jv_DocType j +:+ "|" +:+ jv_PrinterID j +:+ "|" +:+ Z_to_dec (jv_Copies j) +:+ "|" +:+ catSig (jv_Categories j).

(** [byDedupe[k]]: the last job of the listing with the key. *)
Definition by_dedupe (k : string) (existing : list PrintJobView) : option PrintJobView :=
  last_of k (map (λ j, (dedupe_key j, j)) existing).

(** What a run of several transactions leaves: the jobs, the error, the store, the draws. *)
Record jobs_out := { jo_jobs : list PrintJobView; jo_err : option string; jo_store : Store; jo_draws : entropy }.

Definition known_status (s : string) : bool :=
  bool_decide (s = PrintStatusPending) || bool_decide (s = PrintStatusPrinting) || bool_decide (s = PrintStatusPrinted)
  || bool_decide (s = PrintStatusFailed).

(** The job that is kept instead of making another. *)
(* store/printing.go:432-443 Store.createPrintJobs *)
Definition reuse (existing : list PrintJobView) (p : printJobPayload) : option PrintJobView :=
  if sempty (pj_DedupeKey p) then None
  else match by_dedupe (pj_DedupeKey p) existing with
       | Some old => if known_status (jv_Status old) then Some old else None
       | None => None
       end.

Definition with_id (id : string) (p : printJobPayload) : printJobPayload :=
  set_job id (pj_Status p) (pj_LastError p) (pj_UpdatedAt p) (pj_Attempts p) (pj_Version p) p.

(** The loop over the payloads; the [k]-th has the [k]-th outcome and clock reading.  What is
    answered is the payload before [savePrintJob] stamps its own copy. *)
(* store/printing.go:430-454 Store.createPrintJobs *)
Fixpoint create_jobs (io : nat → IO) (clock : nat → Z) (ctx : option string) (existing : list PrintJobView) (k : nat)
    (payloads : list printJobPayload) (s : Store) (g : entropy) : jobs_out :=
  match payloads with
  | [] => {| jo_jobs := []; jo_err := None; jo_store := s; jo_draws := g |}
  | p :: payloads =>
      let cons j o := {| jo_jobs := j :: jo_jobs o; jo_err := jo_err o; jo_store := jo_store o; jo_draws := jo_draws o |} in
      match reuse existing p with
      | Some old => cons old (create_jobs io clock ctx existing (S k) payloads s g)
      | None =>
          match UUID g with
          | (Err e, g) => {| jo_jobs := []; jo_err := Some e; jo_store := s; jo_draws := g |}
          | (Ok id, g) =>
              let p := with_id id p in
              let o := savePrintJob (io k) ctx s (clock k) p in
              match tx_res o with
              | Err e => {| jo_jobs := []; jo_err := Some e; jo_store := tx_store o; jo_draws := g |}
              | Ok _ => cons (printJobView p) (create_jobs io clock ctx existing (S k) payloads (tx_store o) g)
              end
          end
      end
  end.

(* store/printing.go Store.createPrintJobs *)
Definition createPrintJobs (R : Runtime) (io : nat → IO) (clock : nat → Z) (ctx : option string) (orderID : string)
    (payloads : list printJobPayload) (s : Store) (g : entropy) : jobs_out :=
  let existing := match PrintJobs R ctx orderID (s_state s) with Ok l => l | Err _ => [] end in
  create_jobs io clock ctx existing 0 payloads s g.

(** ** Routing *)

(* store/printing.go:184-194 Store.EnqueueOrderPrintJobsDocs *)
Definition by_id (active : list Entity) (id : string) : option Entity :=
  if sempty id then None else List.find (λ p, bool_decide (e_ID p = id)) active.

(* store/printing.go:195-202 Store.EnqueueOrderPrintJobsDocs *)
Definition name_matches (printer : Entity) (name : string) : bool :=
  let name := TrimSpace name in
  if sempty name then false
  else let label := Label printer in bool_decide (label = name) || Contains label name || Contains name label.

Definition station (p : Entity) : string := Field p "station" +:+ Label p.

(* store/printing.go:221-224 Store.EnqueueOrderPrintJobsDocs *)
Definition is_cashier (p : Entity) : bool := Contains (station p) "صندوق" || Contains (ToLower (station p)) "cashier".

(* store/printing.go:228-233 Store.EnqueueOrderPrintJobsDocs *)
Definition is_kitchen (p : Entity) : bool :=
  Contains (station p) "بار" || Contains (station p) "آشپزخانه" || Contains (ToLower (station p)) "kitchen".

(* store/printing.go:235-240 Store.EnqueueOrderPrintJobsDocs *)
Record wanted := { w_DocType : string; w_Printer : Entity; w_Copies : Z; w_Cats : option (list string) }.

(** The categories of the order's lines. *)
(* store/printing.go:247-260 Store.EnqueueOrderPrintJobsDocs *)
Definition cat_titles (categories : list Entity) : gmap string string :=
  foldl (λ m c, <[e_ID c := Label c]> m) ∅ categories.
Definition order_cats (products : list Entity) (order : Entity) : gmap string bool :=
  let productCat : gmap string string := foldl (λ m p, <[e_ID p := Field p "category_id"]> m) ∅ products in
  foldl (λ m line, let c := default EmptyString (productCat !! ol_ProductID line) in
                   if sempty c then m else <[c := true]> m) ∅ (OrderItems order).

(** An active route: its category, its printer and its copies between one and five.  A route
    that names its category by the title takes the last one with the title in the order of
    the range. *)
(* store/printing.go:268-296 Store.EnqueueOrderPrintJobsDocs *)
Definition route_info (R : Runtime) (k : nat) (active : list Entity) (titles : gmap string string) (r : Entity)
    : option (string * (Entity * Z)) :=
  if negb (isActivePrinter r) then None
  else
    let catID := TrimSpace (Field r "category_id") in
    let catID :=
      if sempty catID then
        foldl (λ acc p, if negb (sempty p.2) && bool_decide (p.2 = TrimSpace (Field r "category_name")) then p.1 else acc)
          catID (iter R k titles)
      else catID in
    let pr := match by_id active (TrimSpace (Field r "printer_id")) with
              | Some p => Some p
              | None => List.find (λ x, name_matches x (Field r "printer_name")) active
              end in
    match pr with
    | Some p =>
        if sempty catID then None
        else
          let '(rc, ok) := Atoi (TrimSpace (Field r "copies")) in
          let rc := if negb ok || (rc <? 1)%Z then 1%Z else rc in
          Some (catID, (p, if (5 <? rc)%Z then 5%Z else rc))
    | None => None
    end.

Definition route_map (R : Runtime) (active : list Entity) (titles : gmap string string) (routes : list Entity)
    : gmap string (Entity * Z) :=
  foldl (λ m p, <[p.1 := p.2]> m) ∅ (omap (λ kr, route_info R (S kr.1) active titles kr.2) (imap pair routes)).

Definition clamp_copies (copies : Z) : Z :=
  let copies := if (copies <? 1)%Z then 1%Z else copies in if (5 <? copies)%Z then 5%Z else copies.

(** The categories not there yet, in their order. *)
Definition merge_cats (old new : list string) : list string :=
  old ++ List.filter (λ c, negb (existsb (String.eqb c) old)) new.

(** One ticket per printer: a second request for a printer widens its ticket. *)
(* store/printing.go:301-333 Store.EnqueueOrderPrintJobsDocs *)
Fixpoint add_kitchen (p : Entity) (cats : option (list string)) (copies : Z) (ws : list wanted) : list wanted :=
  match ws with
  | [] => [{| w_DocType := "kitchen"; w_Printer := p; w_Copies := clamp_copies copies; w_Cats := cats |}]
  | w :: ws =>
      if bool_decide (e_ID (w_Printer w) = e_ID p) then
        {| w_DocType := w_DocType w; w_Printer := w_Printer w;
           w_Copies := (if w_Copies w <? clamp_copies copies then clamp_copies copies else w_Copies w)%Z;
           w_Cats := match cats, w_Cats w with
                     | None, _ => None
                     | Some _, None => None
                     | Some new, Some old => Some (merge_cats old new)
                     end |} :: ws
      else w :: add_kitchen p cats copies ws
  end.

(* store/printing.go:297-355 Store.EnqueueOrderPrintJobsDocs *)
Definition kitchen_wants (R : Runtime) (active : list Entity) (cashier : Entity) (wantKitchen : Z)
    (cats : gmap string bool) (routeByCat : gmap string (Entity * Z)) : list wanted :=
  let '(ws, leftover) :=
    foldl (λ '(ws, leftover) catID,
             match routeByCat !! catID with
             | Some (pr, copies) => (add_kitchen pr (Some [catID]) (wrap64 (wantKitchen * copies)) ws, leftover)
             | None => (ws, leftover ++ [catID])
             end) ([], []) (iter R 0 cats).*1 in
  if bool_decide (routeByCat = ∅) then
    match List.find is_kitchen active with
    | Some kp => if bool_decide (e_ID kp = e_ID cashier) then ws else add_kitchen kp None wantKitchen ws
    | None => ws
    end
  else match leftover with
       | [] => ws
       | _ => match List.find is_kitchen active with
              | Some kp => add_kitchen kp (Some leftover) wantKitchen ws
              | None => ws
              end
       end.

Definition paper_of (p : Entity) : string :=
  let paper := Field p "paper_width" in
  if bool_decide (paper = "58mm") || bool_decide (paper = "80mm") then paper else "80mm".

(* store/printing.go:366-386 Store.EnqueueOrderPrintJobsDocs *)
Definition job_of (orderID orderNumber now : string) (wn : wanted) : printJobPayload :=
  let cats := sort_strings <$> w_Cats wn in
  {| pj_ID := EmptyString; pj_OrderID := orderID; pj_OrderNumber := orderNumber; pj_DocType := w_DocType wn;
     pj_PrinterID := e_ID (w_Printer wn); pj_PrinterTitle := Label (w_Printer wn); pj_Connection := Field (w_Printer wn) "connection";
     pj_Queue := Field (w_Printer wn) "queue"; pj_PaperWidth := paper_of (w_Printer wn); pj_Status := PrintStatusPending;
     pj_LastError := EmptyString; pj_Attempts := 0; pj_Copies := w_Copies wn; pj_Categories := cats;
     pj_DedupeKey := orderID +:+ "|" +:+ w_DocType wn +:+ "|" +:+ e_ID (w_Printer wn) +:+ "|" +:+ Z_to_dec (w_Copies wn) +:+ "|" +:+ catSig cats;
     pj_CreatedAt := now; pj_UpdatedAt := now; pj_Version := 0 |}.

Definition no_printer : string :=
  "هیچ چاپگر فعالی تعریف نشده است؛ از «پرینترها و تنظیمات» یک چاپگر حرارتی اضافه کنید.".

(* store/printing.go:204-218 Store.EnqueueOrderPrintJobsDocs *)
Definition failed_job (orderID orderNumber now : string) (wantCustomer wantKitchen : Z) : printJobPayload :=
  let '(doc, copies) := (if (wantCustomer <=? 0)%Z then ("kitchen", wantKitchen) else ("customer", wantCustomer))%stdpp in
  {| pj_ID := EmptyString; pj_OrderID := orderID; pj_OrderNumber := orderNumber; pj_DocType := doc; pj_PrinterID := EmptyString;
     pj_PrinterTitle := "چاپگر تعریف‌نشده"; pj_Connection := EmptyString; pj_Queue := EmptyString; pj_PaperWidth := "80mm";
     pj_Status := PrintStatusFailed; pj_LastError := no_printer; pj_Attempts := 0; pj_Copies := copies; pj_Categories := None;
     pj_DedupeKey := orderID +:+ "|" +:+ doc +:+ "||" +:+ Z_to_dec copies +:+ "|all"; pj_CreatedAt := now; pj_UpdatedAt := now;
     pj_Version := 0 |}.

(** What an order is to print: the jobs asked of [createPrintJobs]. *)
(* store/printing.go:156-386 Store.EnqueueOrderPrintJobsDocs *)
Definition wanted_jobs (R : Runtime) (now orderID : string) (wantCustomer wantKitchen : Z) (order : Entity)
    (printers routes products categories : list Entity) : list printJobPayload :=
  let orderNumber := Field order "order_number" in
  match List.filter isActivePrinter printers with
  | [] => [failed_job orderID orderNumber now wantCustomer wantKitchen]
  | (first :: _) as active =>
      let cashier := default first (List.find is_cashier active) in
      let customer := if (0 <? wantCustomer)%Z
        then [{| w_DocType := "customer"; w_Printer := cashier; w_Copies := wantCustomer; w_Cats := None |}] else [] in
      let kitchen := if (0 <? wantKitchen)%Z
        then kitchen_wants R active cashier wantKitchen (order_cats products order)
               (route_map R active (cat_titles categories) routes) else [] in
      map (job_of orderID orderNumber now) (customer ++ kitchen)
  end.

(* store/printing.go Store.EnqueueOrderPrintJobsDocs *)
Definition EnqueueOrderPrintJobsDocs (R : Runtime) (io : nat → IO) (clock : nat → Z) (ctx : option string) (now : Z)
    (orderID : string) (docs : gmap string Z) (s : Store) (g : entropy) : jobs_out :=
  let st := s_state s in
  match (let? _ := read_ctx ctx () in Entity_of "order" orderID st) with
  | Err _ => {| jo_jobs := []; jo_err := Some "سفارش مورد نظر برای چاپ یافت نشد"; jo_store := s; jo_draws := g |}
  | Ok order =>
      let wantCustomer := default 0%Z (docs !! "customer") in
      let wantKitchen := default 0%Z (docs !! "kitchen") in
      if (wantCustomer <=? 0)%Z && (wantKitchen <=? 0)%Z
      then {| jo_jobs := []; jo_err := None; jo_store := s; jo_draws := g |}
      else
        createPrintJobs R io clock ctx orderID
          (wanted_jobs R (FormatRFC3339 now) orderID wantCustomer wantKitchen order (Entities_of R "printer" st)
             (Entities_of R "printer_route" st) (Entities_of R "product" st) (Entities_of R "category" st)) s g
  end.

(* store/printing.go Store.EnqueueOrderPrintJobs *)
Definition EnqueueOrderPrintJobs (R : Runtime) (io : nat → IO) (clock : nat → Z) (ctx : option string) (now : Z)
    (orderID : string) (s : Store) (g : entropy) : jobs_out :=
  EnqueueOrderPrintJobsDocs R io clock ctx now orderID {["customer" := 1; "kitchen" := 1]}%Z s g.

(* store/printing.go Store.EnqueueTestPrintJob *)
Definition EnqueueTestPrintJob (io : IO) (ctx : option string) (now now' : Z) (printerID : string) (s : Store) (g : entropy)
    : tx_out PrintJobView :=
  match (let? _ := read_ctx ctx () in Entity_of "printer" printerID (s_state s)) with
  | Err _ => tx_fail "چاپگر مورد نظر یافت نشد" s
  | Ok printer =>
      match UUID g with
      | (Err e, _) => tx_fail e s
      | (Ok id, _) =>
          let p := {| pj_ID := id; pj_OrderID := EmptyString; pj_OrderNumber := EmptyString; pj_DocType := "test";
                      pj_PrinterID := e_ID printer; pj_PrinterTitle := Label printer; pj_Connection := Field printer "connection";
                      pj_Queue := Field printer "queue"; pj_PaperWidth := paper_of printer; pj_Status := PrintStatusPending;
                      pj_LastError := EmptyString; pj_Attempts := 0; pj_Copies := 0; pj_Categories := None;
                      pj_DedupeKey := "test|" +:+ id; pj_CreatedAt := FormatRFC3339 now; pj_UpdatedAt := FormatRFC3339 now;
                      pj_Version := 0 |} in
          returning (printJobView p) (savePrintJob io ctx s now' p)
      end
  end.

(** ** A job's text reads back *)

Lemma struct_members_get {A} (F : goany → A) name m :
  forallb (λ k, Bool.eqb (field_key name k) (bool_decide (k = name))) m.*1 = true → NoDup m.*1 →
  struct_members name (map (λ p, (p.1, F p.2)) m) = if ahas name m then [F (aget name m)] else [].
Proof.
  unfold struct_members. induction m as [|[k v] m IH]; [done|]. rewrite fmap_cons. cbn [forallb map fst snd]. intros H Hn.
  apply andb_true_iff in H as [Hk H]. apply Bool.eqb_prop in Hk. inversion_clear Hn as [|? ? Hni Hnd]. specialize (IH H Hnd).
  cbn [List.filter]. cbn [fst]. rewrite Hk. unfold ahas. cbn [existsb fst aget]. fold (ahas name m).
  case_bool_decide as E; [|exact IH]. subst k. cbn [map snd orb]. rewrite IH.
  assert (ahas name m = false) as -> by (by apply ahas_false). done.
Qed.

Definition job_keys : list string :=
  ["id"; "order_id"; "order_number"; "doc_type"; "printer_id"; "printer_title"; "connection"; "queue"; "paper_width"; "status";
   "last_error"; "attempts"; "copies"; "categories"; "dedupe_key"; "created_at"; "updated_at"; "version"]%stdpp.

Lemma job_fields_keys p : (job_fields p).*1 `sublist_of` job_keys.
Proof.
  unfold job_fields, job_keys. destruct (pj_Copies p =? 0)%Z; destruct (pj_Categories p) as [[|? ?]|]; cbn;
    repeat first [apply sublist_skip|apply sublist_cons|apply sublist_nil].
Qed.

Lemma job_keys_apart : forallb (λ n, forallb (λ k, Bool.eqb (field_key n k) (bool_decide (k = n))) job_keys) job_keys = true.
Proof. vm_compute. reflexivity. Qed.

Lemma forallb_sublist {A} (P : A → bool) l k : l `sublist_of` k → forallb P k = true → forallb P l = true.
Proof. induction 1; cbn; [done| |]; intros; bools; [rewrite H0|]; auto. Qed.

Lemma job_fields_nodup p : NoDup (job_fields p).*1.
Proof. apply (sublist_NoDup _ job_keys); [decided|apply job_fields_keys]. Qed.

Definition text_of (a : goany) : string * json := (marshal a, ann a).

Lemma job_member p n : n ∈ job_keys →
  struct_members n (map (λ q, (q.1, text_of q.2)) (job_fields p))
  = if ahas n (job_fields p) then [text_of (aget n (job_fields p))] else [].
Proof.
  intros Hn. apply struct_members_get; [|apply job_fields_nodup].
  eapply forallb_sublist; [apply job_fields_keys|]. pose proof job_keys_apart as H. rewrite forallb_forall in H.
  by apply H, list_elem_of_In.
Qed.

Definition job_texts (p : printJobPayload) : list string :=
  [pj_ID p; pj_OrderID p; pj_OrderNumber p; pj_DocType p; pj_PrinterID p; pj_PrinterTitle p; pj_Connection p; pj_Queue p;
   pj_PaperWidth p; pj_Status p; pj_LastError p; pj_DedupeKey p; pj_CreatedAt p; pj_UpdatedAt p] ++ default [] (pj_Categories p).

(** Valid texts, an identifier and machine integers. *)
Definition good_job (p : printJobPayload) : Prop :=
  Forall (λ s, utf8_valid s = true) (job_texts p) ∧ pj_ID p ≠ EmptyString
  ∧ in_int64 (pj_Attempts p) ∧ in_int64 (pj_Copies p) ∧ in_int64 (pj_Version p).

(** [omitempty] takes an empty list of categories for none. *)
Definition norm_cats (cats : option (list string)) : option (list string) :=
  match cats with Some (_ :: _) => cats | _ => None end.

Definition norm_job (p : printJobPayload) : printJobPayload :=
  {| pj_ID := pj_ID p; pj_OrderID := pj_OrderID p; pj_OrderNumber := pj_OrderNumber p; pj_DocType := pj_DocType p;
     pj_PrinterID := pj_PrinterID p; pj_PrinterTitle := pj_PrinterTitle p; pj_Connection := pj_Connection p;
     pj_Queue := pj_Queue p; pj_PaperWidth := pj_PaperWidth p; pj_Status := pj_Status p; pj_LastError := pj_LastError p;
     pj_Attempts := pj_Attempts p; pj_Copies := pj_Copies p; pj_Categories := norm_cats (pj_Categories p);
     pj_DedupeKey := pj_DedupeKey p; pj_CreatedAt := pj_CreatedAt p; pj_UpdatedAt := pj_UpdatedAt p; pj_Version := pj_Version p |}.

Lemma dec_text s : dec_string [text_of (AStr s)] = Some s.
Proof. done. Qed.

Lemma dec_number z : in_int64 z → dec_int [text_of (AInt z)] = Some z.
Proof. intros H. cbn. by rewrite Atoi_Z_to_dec. Qed.

Lemma mapM_texts l :
  mapM (λ p : string * json, match p.2 with JStr _ s => Some s | JNull => Some EmptyString | _ => None end)
    (map (λ a, (marshal a, ann a)) (map AStr l)) = Some l.
Proof. induction l as [|s l IH]; [done|]. cbn [map]. cbn. cbn in IH. by rewrite IH. Qed.

Lemma dec_texts l : dec_strings [text_of (AArr (map AStr l))] = Some (Some l).
Proof. unfold dec_strings, strings_step, text_of. cbn [foldl snd ann]. by rewrite mapM_texts. Qed.

Lemma job_fields_wf p : good_job p → wf_any (AMap (job_fields p)) = true.
Proof.
  intros (H & _). unfold job_texts in H. rewrite !Forall_app, !Forall_cons in H. destruct H as [H Hc]. destruct_and! H.
  cbn [wf_any]. unfold job_fields. rewrite !forallb_app, !andb_true_iff. split; [|split; [|split]].
  - cbn [forallb fst snd wf_any]. repeat match goal with H : utf8_valid ?x = true |- context [utf8_valid ?x] => rewrite H end. reflexivity.
  - by destruct (_ =? 0)%Z.
  - destruct (pj_Categories p) as [[|c l]|]; [done| |done]. cbn [forallb fst snd]. rewrite andb_true_r. cbn [default] in Hc.
    change (wf_any (AArr (map AStr (c :: l))) = true). cbn [wf_any]. rewrite forallb_map. apply forallb_forall.
    intros s Hs. rewrite Forall_forall in Hc. by apply Hc, list_elem_of_In.
  - cbn [forallb fst snd wf_any]. repeat match goal with H : utf8_valid ?x = true |- context [utf8_valid ?x] => rewrite H end. reflexivity.
Qed.

Lemma decode_encode p : good_job p → decodePrintJob (encode_job p) = Some (norm_job p).
Proof.
  intros G. unfold decodePrintJob, encode_job. rewrite parse_marshal by (by apply job_fields_wf). cbn [ann].
  change (map (λ q, (q.1, (marshal q.2, ann q.2))) (job_fields p)) with (map (λ q, (q.1, text_of q.2)) (job_fields p)).
  destruct G as (_ & Hid & Ha & Hc & Hv). unfold dec_job. cbv zeta. rewrite !job_member by decided.
  assert (dec_int (if ahas "copies" (job_fields p) then [text_of (aget "copies" (job_fields p))] else []) = Some (pj_Copies p)) as ->.
  { unfold job_fields. destruct (pj_Copies p =? 0)%Z eqn:E.
    - apply Z.eqb_eq in E. rewrite E. destruct (pj_Categories p) as [[|? ?]|]; reflexivity.
    - change (dec_int [text_of (AInt (pj_Copies p))] = Some (pj_Copies p)). by apply dec_number. }
  assert (dec_strings (if ahas "categories" (job_fields p) then [text_of (aget "categories" (job_fields p))] else [])
          = Some (norm_cats (pj_Categories p))) as ->.
  { unfold job_fields. destruct (pj_Categories p) as [[|c l]|]; destruct (pj_Copies p =? 0)%Z; try reflexivity;
      exact (dec_texts (c :: l)). }
  assert (dec_int (if ahas "attempts" (job_fields p) then [text_of (aget "attempts" (job_fields p))] else []) = Some (pj_Attempts p)) as ->
    by (exact (dec_number _ Ha)).
  assert (dec_int (if ahas "version" (job_fields p) then [text_of (aget "version" (job_fields p))] else []) = Some (pj_Version p)) as ->.
  { unfold job_fields. destruct (pj_Categories p) as [[|c l]|]; destruct (pj_Copies p =? 0)%Z; exact (dec_number _ Hv). }
  assert (∀ k s, aget k (job_fields p) = AStr s → ahas k (job_fields p) = true →
    dec_string (if ahas k (job_fields p) then [text_of (aget k (job_fields p))] else []) = Some s) as T by (intros k s -> ->; done).
  repeat (rewrite (T "id" (pj_ID p)) by reflexivity).
  rewrite (T "order_id" (pj_OrderID p)), (T "order_number" (pj_OrderNumber p)), (T "doc_type" (pj_DocType p)),
    (T "printer_id" (pj_PrinterID p)), (T "printer_title" (pj_PrinterTitle p)), (T "connection" (pj_Connection p)),
    (T "queue" (pj_Queue p)), (T "paper_width" (pj_PaperWidth p)), (T "status" (pj_Status p)), (T "last_error" (pj_LastError p)) by reflexivity.
  rewrite (T "dedupe_key" (pj_DedupeKey p)), (T "created_at" (pj_CreatedAt p)), (T "updated_at" (pj_UpdatedAt p)).
  2-7: unfold job_fields; destruct (pj_Categories p) as [[|c l]|]; destruct (pj_Copies p =? 0)%Z; reflexivity.
  cbn [mbind option_bind pj_ID]. destruct (sempty (pj_ID p)) eqn:E; [by apply sempty_true in E|done].
Qed.

(** ** What decodes is good *)

Lemma dec_string_valid ms s : Forall (λ m : string * json, json_ok m.2 = true) ms → dec_string ms = Some s → utf8_valid s = true.
Proof.
  unfold dec_string. intros H. assert (utf8_valid EmptyString = true) as H0 by done. revert H0. generalize EmptyString as a.
  induction H as [|[t j] ms Hj _ IH]; intros a Ha; cbn [foldl]; [by intros [= <-]|]. cbn [snd] in *.
  assert (∀ r, foldl (λ acc m, match acc, (m : string * json).2 with Some s, JNull => Some s | Some _, JStr _ s => Some s | _, _ => None end) None r = None) as N
    by (induction r as [|? ? E]; [done|exact E]).
  destruct j; try (by rewrite N); intros Hs; [by eapply (IH a)|]. eapply (IH s0); [|exact Hs]. by cbn in Hj.
Qed.

Lemma dec_int_range ms z : dec_int ms = Some z → in_int64 z.
Proof.
  unfold dec_int. assert (in_int64 0) as H0 by (unfold in_int64, two63; lia). revert H0. generalize 0%Z as a.
  assert (∀ r, foldl (λ acc m, match acc, (m : string * json).2 with Some z, JNull => Some z
    | Some _, JNum lit => match Atoi lit with (z, true) => Some z | _ => None end | _, _ => None end) None r = None) as N
    by (induction r as [|? ? E]; [done|exact E]).
  induction ms as [|[t j] ms IH]; intros a Ha; cbn [foldl]; [by intros [= <-]|]. cbn [snd].
  destruct j as [| |lit| | |]; try (by rewrite N); [by apply IH|]. destruct (Atoi lit) as [b []] eqn:A; [|by rewrite N].
  apply IH. unfold Atoi in A. destruct (SetString10 lit) as [c|]; [|done]. case_bool_decide; [by injection A as <-|done].
Qed.

Lemma dec_strings_valid ms l : Forall (λ m : string * json, json_ok m.2 = true) ms → dec_strings ms = Some (Some l) →
  Forall (λ s, utf8_valid s = true) l.
Proof.
  unfold dec_strings. intros H.
  assert (∀ a, Forall (λ s, utf8_valid s = true) (default [] a) →
    foldl strings_step (Some a) ms = Some (Some l) → Forall (λ s, utf8_valid s = true) l) as G; [|apply (G None); constructor].
  assert (∀ r, foldl strings_step None r = None) as N by (induction r as [|? ? E]; [done|exact E]).
  induction H as [|[t j] ms Hj _ IH]; intros a Ha; cbn [foldl]; [by intros [= ->]|]. unfold strings_step at 2. cbn [snd] in *.
  destruct j as [| | | |ls|]; try (by rewrite N); [by apply IH; constructor|].
  destruct (mapM _ ls) as [ss|] eqn:E; [|by rewrite N]. apply IH. cbn [default]. cbn [json_ok] in Hj. clear -Hj E.
  revert ss E. induction ls as [|[r j] ls IH]; intros ss E; [by injection E as <-; constructor|].
  cbn [forallb snd] in Hj. apply andb_true_iff in Hj as [Hj Hls]. rewrite mapM_step in E. cbn [snd] in E.
  destruct (match j with JStr _ s => Some s | JNull => Some EmptyString | _ => None end) as [s|] eqn:Es; [|done].
  cbn [mbind option_bind] in E. destruct (mapM _ ls) as [k|] eqn:Ek; [|done]. injection E as <-. constructor; [|by apply IH].
  destruct j; try done; by injection Es as <-.
Qed.

Lemma members_ok n (o : list (string * (string * json))) : json_ok (JObj o) = true →
  Forall (λ m : string * json, json_ok m.2 = true) (struct_members n o).
Proof.
  cbn [json_ok]. intros H. rewrite forallb_forall in H. unfold struct_members. apply Forall_map, Forall_forall.
  intros q Hq. apply list_elem_of_In, filter_In in Hq as [Hq _]. apply H in Hq. by bools.
Qed.

Lemma decode_good payload p : decodePrintJob payload = Some p → good_job p.
Proof.
  unfold decodePrintJob. destruct (parse_json payload) as [[| | | | |o]|] eqn:E; try done. apply parse_json_ok in E.
  destruct (dec_job o) as [q|] eqn:D; [|done]. destruct (sempty (pj_ID q)) eqn:S; [done|]. intros [= ->].
  pose proof (λ n, members_ok n o E) as M. unfold dec_job in D. cbv zeta in D.
  repeat match type of D with (?x ≫= _) = Some _ =>
    let F := fresh "F" in destruct x eqn:F; [cbn [mbind option_bind] in D|done] end.
  injection D as <-. split; [|split; [intros X; by rewrite X in S|]].
  - unfold job_texts. apply Forall_app. split.
    + repeat (constructor; [eapply dec_string_valid; [apply M|eassumption]|]). constructor.
    + cbn [pj_Categories]. match goal with |- Forall _ (default [] ?c) => destruct c as [l|]; [|constructor] end.
      eapply dec_strings_valid; [apply M|eassumption].
  - split_and!; eapply dec_int_range; eassumption.
Qed.
