(* ===== verification/PrintDedupe.v ===== *)
(** * Print jobs are kept, read back and made once

    The properties of [PrintJobs]: what is saved reads back, a status update moves one job,
    and asking twice for an order's documents makes them once. *)
From S2P Require Import Prelude GoStrings GoFloat GoJson GoJsonFacts GoReadback GoTime Store Reopen Entities EntityView Outbox Records Orders OrderStates SplitBill Inventory PrintJobs.

(** ** One job *)

Lemma good_set_job id status err updated attempts version p :
  good_job p → utf8_valid id = true → id ≠ EmptyString → utf8_valid status = true → utf8_valid err = true →
  utf8_valid updated = true → in_int64 attempts → in_int64 version →
  good_job (set_job id status err updated attempts version p).
Proof.
  intros (H & _ & _ & Hc & _) Hid Hne Hs He Hu Ha Hv. split; [|by split_and!]. unfold job_texts in *.
  rewrite !Forall_app, !Forall_cons in *. cbn. destruct H as [H ?]. destruct_and! H. by split_and!.
Qed.

(** A write under a key that keeps the entity's type and identifier. *)
Lemma frame_rewrite kinds kind id e e' st :
  no_nul kind = true → kind ∈ kinds → Entities st !! entityKey kind id = Some e →
  se_Type e' = se_Type e → se_ID e' = se_ID e → frame kinds st (put (entityKey kind id) e' st).
Proof.
  intros Hn Hin He Ht Hi. split; [|done|].
  - intros k i Hk' Hnot. rewrite lookup_put_ne; [done|]. intros E. apply entityKey_inj in E as [-> _]; done.
  - intros H. apply map_Forall_insert_2; [|done]. cbn. rewrite Ht, Hi. by apply H in He.
Qed.

(** a saved job reads back.  [savePrintJob] never refuses a job; it writes one entity, the
    job's, one version beyond what was there, and [PrintJob] then shows the job with the
    texts, the copies, the attempts and the categories it was given, an empty list of
    categories reading back as none. *)
Theorem savePrintJob_reads_back p st :
  good_job p →
  ∃ st', savePrintJob_body p st = Ok ((), st')
    ∧ frame ["print_job"] st st'
    ∧ (∀ id, id ≠ pj_ID p → live st' "print_job" id = live st "print_job" id)
    ∧ (∃ e, live st' "print_job" (pj_ID p) = Some e
         ∧ se_Version e = match Entities st !! entityKey "print_job" (pj_ID p) with
                          | Some old => wrap64 (se_Version old + 1) | None => 1%Z end)
    ∧ PrintJob None (pj_ID p) st' = Ok (printJobView (norm_job p)).
Proof.
  intros G. unfold savePrintJob_body. cbv zeta. set (nextVer := match _ !! _ with Some _ => _ | None => _ end).
  assert (in_int64 nextVer) as Hv by (subst nextVer; destruct (_ !! _); [apply wrap64_range|unfold in_int64, two63; lia]).
  set (e := {| se_ID := _ |}). exists (put (entityKey "print_job" (pj_ID p)) e st). split; [reflexivity|].
  assert (live (put (entityKey "print_job" (pj_ID p)) e st) "print_job" (pj_ID p) = Some e) as L by (by apply live_put).
  split; [|split; [|split]].
  - apply frame_put; [done|left|done].
  - intros id Hid. unfold live. rewrite lookup_put_ne; [done|]. intros E. by apply entityKey_id in E.
  - exists e. by split.
  - unfold PrintJob, Entity_of. cbn [read_ctx]. rewrite L. cbn [view e_Payload e se_Payload].
    pose proof G as (Hs & Hid & Ha & _ & _). unfold job_texts in Hs. rewrite !Forall_app, !Forall_cons in Hs.
    destruct Hs as [Hs _]. destruct_and! Hs. rewrite decode_encode by (by apply good_set_job). reflexivity.
Qed.

(** A list of categories left empty reads back as none. *)
Definition reshown (j : PrintJobView) : PrintJobView :=
  {| jv_ID := jv_ID j; jv_OrderID := jv_OrderID j; jv_OrderNumber := jv_OrderNumber j; jv_DocType := jv_DocType j;
     jv_PrinterID := jv_PrinterID j; jv_PrinterTitle := jv_PrinterTitle j; jv_Connection := jv_Connection j;
     jv_Queue := jv_Queue j; jv_PaperWidth := jv_PaperWidth j; jv_Status := jv_Status j; jv_LastError := jv_LastError j;
     jv_Attempts := jv_Attempts j; jv_Copies := jv_Copies j; jv_Categories := norm_cats (jv_Categories j);
     jv_CreatedAt := jv_CreatedAt j; jv_UpdatedAt := jv_UpdatedAt j |}.

(** a job's status.  A successful [UpdatePrintJobStatus] changes one job: it gets the
    status and the message, the attempts go up by one exactly when printing starts, what it
    prints and where stays, and what is answered is what [PrintJob] shows from then on. *)
Theorem UpdatePrintJobStatus_spec now jobID status lastError st v st' :
  utf8_valid now = true → utf8_valid status = true → utf8_valid lastError = true →
  UpdatePrintJobStatus_body now jobID status lastError st = Ok (v, st') →
  (∃ e p, live st "print_job" jobID = Some e ∧ decodePrintJob (se_Payload e) = Some p
     ∧ jv_Status v = status ∧ jv_LastError v = lastError ∧ jv_UpdatedAt v = now
     ∧ jv_Attempts v = (if bool_decide (status = "printing") then wrap64 (pj_Attempts p + 1) else pj_Attempts p)
     ∧ dedupe_key v = dedupe_key (printJobView p) ∧ jv_CreatedAt v = pj_CreatedAt p ∧ jv_ID v = pj_ID p)
  ∧ frame ["print_job"] st st'
  ∧ (∀ id, id ≠ jobID → live st' "print_job" id = live st "print_job" id)
  ∧ PrintJob None jobID st' = Ok (reshown v)
  ∧ (texts_valid st → texts_valid st').
Proof.
  intros Hn Hs Hl. unfold UpdatePrintJobStatus_body.
  destruct (live st "print_job" jobID) as [e|] eqn:L; [|done]. destruct (decodePrintJob (se_Payload e)) as [p|] eqn:D; [|done].
  cbv zeta. set (attempts := if bool_decide (status = PrintStatusPrinting) then wrap64 (pj_Attempts p + 1) else pj_Attempts p). set (q := set_job _ _ _ _ _ _ _). intros [= <- <-].
  pose proof (decode_good _ _ D) as G. pose proof (live_some _ _ _ _ L) as [Le Hdel].
  assert (good_job q) as Gq.
  { pose proof G as (Ht & Hid & Ha & _). unfold job_texts in Ht. rewrite !Forall_app, !Forall_cons in Ht. destruct Ht as [Ht _]. destruct_and! Ht.
    apply good_set_job; try done; [|apply wrap64_range]. subst attempts. case_bool_decide; [apply wrap64_range|done]. }
  split; [exists e, p; by split_and!|]. split; [|split; [|split]].
  - eapply frame_rewrite; [done|left|exact Le|done..].
  - intros id Hid. unfold live. rewrite lookup_put_ne; [done|]. intros E. by apply entityKey_id in E.
  - unfold PrintJob, Entity_of. cbn [read_ctx]. rewrite live_put by done. cbn [view e_Payload se_Payload].
    by rewrite decode_encode.
  - intros T. apply texts_valid_put; [done|]. cbn [se_Payload]. unfold json_Valid, encode_job. by rewrite parse_marshal by (by apply job_fields_wf).
Qed.

(** ** Entities of the other kinds *)

Lemma elem_of_List_filter {A} (P : A → bool) x (l : list A) : x ∈ List.filter P l ↔ x ∈ l ∧ P x = true.
Proof. by rewrite !list_elem_of_In, filter_In. Qed.

Lemma NoDup_List_filter {A} (P : A → bool) (l : list A) : NoDup l → NoDup (List.filter P l).
Proof.
  induction 1 as [|x l Hx _ IH]; cbn; [constructor|]. destruct (P x); [|done]. constructor; [|done].
  by rewrite elem_of_List_filter; intros [? _].
Qed.

(** What a frame leaves alone is listed as before. *)
Lemma Entities_of_frame R kinds kind st st' :
  well_keyed st → frame kinds st st' → no_nul kind = true → kind ∉ kinds → kind ≠ "order" →
  Entities_of R kind st' = Entities_of R kind st.
Proof.
  intros Hk F Hn Hin Ho. unfold Entities_of. fold (listing R kind st) (listing R kind st').
  pose proof (frame_keyed _ _ _ F Hk) as Hk'.
  assert (listing R kind st' ≡ₚ listing R kind st) as P.
  { unfold listing. apply Permutation_map, NoDup_Permutation.
    - apply NoDup_List_filter. rewrite iter_perm. apply NoDup_map_to_list.
    - apply NoDup_List_filter. rewrite iter_perm. apply NoDup_map_to_list.
    - intros [k e]. rewrite !elem_of_List_filter, !iter_perm, !elem_of_map_to_list. cbn [snd].
      assert (∀ s e, well_keyed s → Entities s !! k = Some e → listed kind e = true → k = entityKey kind (se_ID e)) as E.
      { clear -Ho. intros s e W L Hl. apply W in L. cbn in L. unfold listed in Hl. apply andb_true_iff in Hl as [_ Hl].
        rewrite (bool_decide_eq_false_2 (kind = "order")), orb_false_r in Hl by done. apply bool_decide_eq_true in Hl. by subst kind. }
      split; intros [L Hl]; (split; [|done]); rewrite <- L.
      + rewrite (E _ _ Hk' L Hl). symmetry. by apply (frame_get _ _ _ F).
      + rewrite (E _ _ Hk L Hl). by apply (frame_get _ _ _ F). }
  assert (sort_slice R entity_less (listing R kind st') = sort_slice R entity_less (listing R kind st)) as ->; [|done].
  apply sort_slice_unique; eauto using entity_less_asym, entity_less_trans, listing_view_inj.
Qed.

(** ** One run *)

Definition draw_id (d : option (list N)) : option string :=
  match (UUID [d]).1 with Ok id => Some id | Err _ => None end.

Lemma UUID_cons d g : UUID (d :: g) = ((UUID [d]).1, g).
Proof. by destruct d. Qed.

(** Random identifiers that no job has yet and that do not repeat. *)
Definition fresh_draws (g : entropy) (st : persistedDB) : Prop :=
  NoDup (omap draw_id g) ∧ Forall (λ id, Entities st !! entityKey "print_job" id = None) (omap draw_id g).

(** A payload ready to be saved once it has its identifier. *)
Definition ready (p : printJobPayload) : Prop := good_job (with_id "x" p) ∧ known_status (pj_Status p) = true.

(** A stored job that stands for a payload. *)
Definition stored_as (st : persistedDB) (key : string) (p : printJobPayload) : Prop :=
  ∃ e q, Entities st !! key = Some e ∧ se_Type e = "print_job" ∧ se_Deleted e = false ∧ decodePrintJob (se_Payload e) = Some q
    ∧ dedupe_key (printJobView q) = dedupe_key (printJobView (norm_job p)) ∧ pj_OrderID q = pj_OrderID p
    ∧ pj_Status q = pj_Status p.

Lemma savePrintJob_fresh io s now id p :
  ready p → utf8_valid id = true → id ≠ EmptyString → Entities (s_state s) !! entityKey "print_job" id = None →
  tx_res (savePrintJob io None s now (with_id id p)) = Ok () →
  ∃ e, s_state (tx_store (savePrintJob io None s now (with_id id p))) = put (entityKey "print_job" id) e (s_state s)
    ∧ se_ID e = id ∧ stored_as (put (entityKey "print_job" id) e (s_state s)) (entityKey "print_job" id) p.
Proof.
  intros [G _] Hid Hne Hfresh H. unfold savePrintJob in H |- *. apply withTx_ok in H. revert H.
  generalize (s_state (tx_store (withTx io None s
    (savePrintJob_body (set_job (pj_ID (with_id id p)) (pj_Status (with_id id p)) (pj_LastError (with_id id p)) (FormatRFC3339 now)
       (pj_Attempts (with_id id p)) (pj_Version (with_id id p)) (with_id id p)))))).
  intros st'. unfold savePrintJob_body. cbn [pj_ID set_job with_id]. rewrite Hfresh. cbv zeta. intros H.
  pose proof (f_equal (λ r, run_state r) H) as E. cbn [run_state] in E. rewrite <- E. clear H E st'.
  eexists. split; [reflexivity|]. split; [done|]. eexists _, (norm_job (set_job id (pj_Status p) (pj_LastError p) (FormatRFC3339 now) (pj_Attempts p) 1 p)).
  split; [apply lookup_put|]. cbn [se_Type se_Deleted se_Payload]. split; [done|]. split; [done|].
  split; [|by split_and!]. apply decode_encode. pose proof G as (Ht & _ & Ha & _ & _).
  unfold job_texts in Ht. rewrite !Forall_app, !Forall_cons in Ht. destruct Ht as [Ht _]. destruct_and! Ht.
  apply (good_set_job id (pj_Status p) (pj_LastError p) (FormatRFC3339 now) (pj_Attempts p) 1 (with_id "x" p)); try done.
  apply FormatRFC3339_valid.
Qed.

Lemma create_jobs_spec io clock existing ps : ∀ k s g,
  jo_err (create_jobs io clock None existing k ps s g) = None →
  Forall ready ps → good_draws g → fresh_draws g (s_state s) →
  let o := create_jobs io clock None existing k ps s g in
  length (jo_jobs o) = length ps ∧ frame ["print_job"] (s_state s) (s_state (jo_store o))
  ∧ (∀ key e, Entities (s_state s) !! key = Some e → Entities (s_state (jo_store o)) !! key = Some e)
  ∧ (∀ p, p ∈ ps → is_Some (reuse existing p) ∨ ∃ key, stored_as (s_state (jo_store o)) key p)
  ∧ (∀ key e, Entities (s_state (jo_store o)) !! key = Some e →
       Entities (s_state s) !! key = Some e ∨ ∃ p, p ∈ ps ∧ stored_as (s_state (jo_store o)) key p).
Proof.
  induction ps as [|p ps IH]; intros k s g; cbn [create_jobs].
  { intros _ _ _ _. cbn. split_and!; try done; [apply frame_refl|by intros p ?%not_elem_of_nil|by left]. }
  intros He Hr Hg Hf. inversion Hr as [|? ? Hp Hps]; subst. destruct (reuse existing p) as [old|] eqn:Ru.
  - cbn in He. destruct (IH (S k) s g He Hps Hg Hf) as (L & F & M & A & B). cbn. split; [by rewrite L|]. split; [done|]. split; [done|].
    split; [intros q [->|Hq]%elem_of_cons; [left; by rewrite Ru|by apply A]|].
    intros key e Hk. destruct (B key e Hk) as [?|(q & Hq & ?)]; [by left|right; exists q; split; [by right|done]].
  - destruct g as [|d g]; [done|]. rewrite UUID_cons in *. unfold good_draws in Hg. inversion Hg as [|? ? Hd Hg']; subst.
    destruct d as [b|]; [|done]. destruct (UUID_wf b [] Hd) as (id & Hu & Hpat & Hlen). rewrite Hu in *. cbn [fst] in *.
    assert (draw_id (Some b) = Some id) as Hd' by (unfold draw_id; by rewrite Hu).
    destruct Hf as [Hnd Hfr].
    assert (omap draw_id (Some b :: g) = id :: omap draw_id g) as Eo by (change (omap draw_id (Some b :: g)) with
      (match draw_id (Some b) with Some y => y :: omap draw_id g | None => omap draw_id g end); by rewrite Hd').
    rewrite Eo in Hnd, Hfr. inversion Hnd as [|? ? Hni Hnd']; subst. inversion Hfr as [|? ? Hfi Hfr']; subst.
    destruct (tx_res (savePrintJob (io k) None s (clock k) (with_id id p))) as [[]|] eqn:T; [|done].
    assert (id ≠ EmptyString) as Hne by (by intros ->).
    destruct (savePrintJob_fresh _ _ _ _ _ Hp (uuid_valid _ Hpat) Hne Hfi T) as (e & Es & Hid & Hst).
    assert (se_Type e = "print_job") as Hty.
    { destruct Hst as (e' & q & Hl & Ht & _). rewrite lookup_put in Hl. by injection Hl as ->. }
    cbn in He. set (s1 := tx_store (savePrintJob (io k) None s (clock k) (with_id id p))) in *.
    assert (fresh_draws g (s_state s1)) as Hf1.
    { split; [done|]. rewrite Es. rewrite Forall_forall in Hfr' |- *. intros i Hi. rewrite lookup_put_ne; [by apply Hfr'|].
      intros E. apply entityKey_id in E as ->. done. }
    destruct (IH (S k) s1 g He Hps Hg' Hf1) as (L & F & M & A & B). cbn. split; [by rewrite L|].
    split; [|split; [|split]].
    + eapply frame_trans; [|exact F]. rewrite Es. apply frame_put; [done|left|done].
    + intros key e' Hk. apply M. rewrite Es, lookup_put_ne; [done|]. intros <-. by rewrite Hfi in Hk.
    + intros q [->|Hq]%elem_of_cons; [|by apply A]. right. exists (entityKey "print_job" id).
      destruct Hst as (e' & q & Hl & Hrest). exists e', q. split; [|done]. apply M. by rewrite Es.
    + intros key e' Hk. destruct (B key e' Hk) as [Hk'|(q & Hq & ?)]; [|right; exists q; split; [by right|done]].
      rewrite Es in Hk'. destruct (decide (key = entityKey "print_job" id)) as [->|Hn].
      * right. exists p. split; [by left|]. destruct Hst as (e1 & q & Hl & Hrest). exists e1, q. split; [|done]. apply M. by rewrite Es.
      * left. by rewrite lookup_put_ne in Hk'.
Qed.

(** ** The listing of an order's jobs *)

Definition job_view (orderID : string) (e : Entity) : option PrintJobView :=
  match decodePrintJob (e_Payload e) with
  | Some p => if negb (sempty orderID) && negb (bool_decide (pj_OrderID p = orderID)) then None else Some (printJobView p)
  | None => None
  end.

(** The store has room for the jobs: [Entities] cuts at 500 records and [PrintJobs] at 100. *)
Definition room (R : Runtime) (orderID : string) (st : persistedDB) : Prop :=
  length (listing R "print_job" st) ≤ 500 ∧ length (omap (job_view orderID) (Entities_of R "print_job" st)) ≤ 100.

Definition order_job (orderID : string) (st : persistedDB) (j : PrintJobView) : Prop :=
  ∃ key e p, Entities st !! key = Some e ∧ se_Type e = "print_job" ∧ se_Deleted e = false
    ∧ decodePrintJob (se_Payload e) = Some p ∧ pj_OrderID p = orderID ∧ j = printJobView p.

Lemma listed_job e : listed "print_job" e = true ↔ se_Type e = "print_job" ∧ se_Deleted e = false.
Proof. unfold listed. rewrite andb_true_iff, negb_true_iff, orb_false_r, bool_decide_eq_true. tauto. Qed.

Lemma PrintJobs_sound R orderID st l j : orderID ≠ EmptyString →
  PrintJobs R None orderID st = Ok l → j ∈ l → order_job orderID st j.
Proof.
  intros Ho. unfold PrintJobs. cbn [read_ctx]. intros H Hj. pose proof (f_equal (λ r, match r with Ok l => l | Err _ => [] end) H) as E.
  cbv beta iota zeta in E. rewrite <- E in Hj. clear H E. apply elem_of_take in Hj as (i & Hi & _). apply list_elem_of_lookup_2 in Hi.
  rewrite sort_perm in Hi. apply list_elem_of_omap in Hi as (v & Hv & D).
  unfold Entities_of in Hv. fold (listing R "print_job" st) in Hv. assert (v ∈ listing R "print_job" st) as Hl.
  { destruct (500 <? _)%nat; [apply elem_of_take in Hv as (i' & Hv & _); apply list_elem_of_lookup_2 in Hv|]; by rewrite sort_perm in Hv. }
  apply elem_of_listing in Hl as (key & e & He & Hl & ->). apply listed_job in Hl as [Ht Hd]. cbn [view e_Payload] in D.
  destruct (decodePrintJob (se_Payload e)) as [p|] eqn:P; [|done]. destruct (sempty orderID) eqn:S; [by apply sempty_true in S|].
  cbn in D. case_bool_decide as Hp; [|done]. injection D as <-. by exists key, e, p.
Qed.

Lemma PrintJobs_complete R orderID st j : orderID ≠ EmptyString → room R orderID st →
  order_job orderID st j → ∃ l, PrintJobs R None orderID st = Ok l ∧ j ∈ l.
Proof.
  intros Ho [H1 H2] (key & e & p & He & Ht & Hd & Hp & Hpo & ->). unfold PrintJobs. cbn [read_ctx]. eexists. split; [reflexivity|].
  fold (job_view orderID). rewrite take_ge by (by rewrite (Permutation_length (sort_perm R _ _ _))). rewrite sort_perm.
  apply list_elem_of_omap. exists (view e). split.
  - rewrite Entities_of_listing by done. apply elem_of_listing. exists key, e. split; [done|]. split; [by apply listed_job|done].
  - unfold job_view. cbn [view e_Payload]. rewrite Hp, Hpo, bool_decide_eq_true_2 by done. by rewrite andb_false_r.
Qed.

Lemma last_of_is_some {A} k v (l : list (string * A)) : (k, v) ∈ l → is_Some (last_of k l).
Proof.
  induction l as [|[j w] l IH]; [by intros ?%not_elem_of_nil|]. cbn [last_of]. rewrite elem_of_cons.
  intros [[= -> ->]|H]; [destruct (last_of j l); [done|]; by rewrite bool_decide_eq_true_2|]. by destruct (IH H) as [? ->].
Qed.

(** A payload is not made again when a job with its key is listed and every listed job has one
    of the four states. *)
Lemma reuse_listed existing p j :
  pj_DedupeKey p ≠ EmptyString → j ∈ existing → dedupe_key j = pj_DedupeKey p →
  (∀ i, i ∈ existing → known_status (jv_Status i) = true) → is_Some (reuse existing p).
Proof.
  intros Hne Hj Hk Hs. unfold reuse. destruct (sempty (pj_DedupeKey p)) eqn:E; [by apply sempty_true in E|]. unfold by_dedupe.
  destruct (last_of_is_some (pj_DedupeKey p) j (map (λ j, (dedupe_key j, j)) existing)) as [old Ho].
  { rewrite list_elem_of_In, in_map_iff. exists j. by rewrite Hk, <- list_elem_of_In. }
  rewrite Ho. apply last_of_some in Ho. rewrite list_elem_of_In, in_map_iff in Ho. destruct Ho as (i & [= _ <-] & Hi).
  rewrite <- list_elem_of_In in Hi. by rewrite Hs.
Qed.

Lemma create_jobs_all_reused io clock ctx existing ps : ∀ k s g,
  Forall (λ p, is_Some (reuse existing p)) ps →
  let o := create_jobs io clock ctx existing k ps s g in
  jo_err o = None ∧ jo_store o = s ∧ jo_draws o = g ∧ length (jo_jobs o) = length ps.
Proof.
  induction ps as [|p ps IH]; intros k s g H; [done|]. inversion H as [|? ? [old Ho] Hps]; subst. cbn [create_jobs]. rewrite Ho.
  destruct (IH (S k) s g Hps) as (? & ? & ? & L). cbn. by rewrite L.
Qed.

(** What the payloads of an order look like: ready to save and filed under the key their
    stored job will show. *)
Definition keyed_payload (orderID : string) (p : printJobPayload) : Prop :=
  ready p ∧ pj_OrderID p = orderID ∧ pj_DedupeKey p = dedupe_key (printJobView (norm_job p)) ∧ pj_DedupeKey p ≠ EmptyString.

Definition known_jobs (orderID : string) (st : persistedDB) : Prop :=
  ∀ j, order_job orderID st j → known_status (jv_Status j) = true.

Lemma createPrintJobs_again R R' io io' clock clock' orderID ps qs s g g' :
  orderID ≠ EmptyString → Forall (keyed_payload orderID) ps → map pj_DedupeKey qs = map pj_DedupeKey ps →
  good_draws g → fresh_draws g (s_state s) → known_jobs orderID (s_state s) →
  let o := createPrintJobs R io clock None orderID ps s g in
  jo_err o = None → room R' orderID (s_state (jo_store o)) →
  let o' := createPrintJobs R' io' clock' None orderID qs (jo_store o) g' in
  jo_err o' = None ∧ jo_store o' = jo_store o ∧ jo_draws o' = g' ∧ length (jo_jobs o') = length (jo_jobs o).
Proof.
  intros Ho Hps Hq Hg Hf Hkn o. subst o. unfold createPrintJobs.
  destruct (PrintJobs R None orderID (s_state s)) as [ex|] eqn:E0; [|done]. intros He Hroom.
  set (o := create_jobs io clock None ex 0 ps s g) in *.
  assert (Forall ready ps) as Hr by (eapply Forall_impl; [exact Hps|by intros p (? & _)]).
  destruct (create_jobs_spec io clock ex ps 0 s g He Hr Hg Hf) as (L & _ & M & A & B). fold o in L, M, A, B.
  destruct (PrintJobs R' None orderID (s_state (jo_store o))) as [ex'|] eqn:E1; [|done].
  rewrite Forall_forall in Hps.
  assert (∀ j, order_job orderID (s_state (jo_store o)) j → known_status (jv_Status j) = true) as Hkn'.
  { intros j (key & e & p & He' & Ht & Hd & Hp & Hpo & ->). destruct (B key e He') as [Hold|(q & Hq' & e1 & q1 & He1 & _ & _ & Hp1 & _ & _ & Hs)].
    - apply (Hkn (printJobView p)). by exists key, e, p.
    - rewrite He' in He1. injection He1 as <-. rewrite Hp in Hp1. injection Hp1 as <-.
      destruct (Hps q Hq') as ((_ & Hst) & _). cbn. by rewrite Hs. }
  assert (∀ p, p ∈ ps → ∃ j, order_job orderID (s_state (jo_store o)) j ∧ dedupe_key j = pj_DedupeKey p) as Hj.
  { intros p Hp. destruct (Hps p Hp) as (_ & Hpo & Hk & _). destruct (A p Hp) as [[old Hold]|(key & e & q & H1 & H2 & H3 & H4 & H5 & H6 & _)].
    - unfold reuse in Hold. destruct (sempty (pj_DedupeKey p)); [done|]. unfold by_dedupe in Hold.
      destruct (last_of _ _) as [old'|] eqn:El; [|done]. apply last_of_some in El. rewrite list_elem_of_In, in_map_iff in El.
      destruct El as (i & [= Hki <-] & Hi). rewrite <- list_elem_of_In in Hi. apply (PrintJobs_sound _ _ _ _ _ Ho E0) in Hi as (key & e & q & H1 & Hr').
      exists i. split; [|done]. exists key, e, q. split; [by apply M|done].
    - exists (printJobView q). rewrite H5, Hk. split; [|done]. exists key, e, q. by rewrite H6. }
  destruct (create_jobs_all_reused io' clock' None ex' qs 0 (jo_store o) g') as (? & ? & ? & Lq).
  { rewrite Forall_forall. intros q Hq'. assert (pj_DedupeKey q ∈ map pj_DedupeKey ps) as Hin.
    { rewrite <- Hq. rewrite list_elem_of_In. apply in_map. by rewrite <- list_elem_of_In. }
    rewrite list_elem_of_In, in_map_iff in Hin. destruct Hin as (p & Hkp & Hp). rewrite <- list_elem_of_In in Hp.
    destruct (Hj p Hp) as (j & Hoj & Hkj). destruct (Hps p Hp) as (_ & _ & _ & Hne).
    apply (reuse_listed ex' q j); [congruence| |congruence|].
    - destruct (PrintJobs_complete R' orderID _ j Ho Hroom Hoj) as (l & Hl & Hjl). rewrite E1 in Hl. by injection Hl as <-.
    - intros i Hi. apply Hkn'. by apply (PrintJobs_sound _ _ _ _ _ Ho E1). }
  split_and!; try done. rewrite Lq, L. by rewrite <- (length_map pj_DedupeKey qs), Hq, length_map.
Qed.

(** ** What an order asks for *)

Definition entity_ok (e : Entity) : bool :=
  utf8_valid (e_ID e) && utf8_valid (Label e)
  && forallb (λ k, utf8_valid (Field e k)) ["connection"; "queue"; "paper_width"; "order_number"; "category_id"].

Definition wanted_ok (w : wanted) : Prop :=
  entity_ok (w_Printer w) = true ∧ utf8_valid (w_DocType w) = true ∧ (1 <= w_Copies w < two63)%Z
  ∧ match w_Cats w with None => True | Some l => l ≠ [] ∧ Forall (λ c, utf8_valid c = true) l end.

Lemma sort_strings_idem l : sort_strings (sort_strings l) = sort_strings l.
Proof. unfold sort_strings. apply (Sorted_unique String.le); [apply Sorted_merge_sort, _..|apply merge_sort_Permutation]. Qed.

Lemma sapp_ne_bar s t : s +:+ "|" +:+ t ≠ EmptyString.
Proof. by destruct s. Qed.

Lemma utf8_valid_bar s t : utf8_valid s = true → utf8_valid t = true → utf8_valid (s +:+ "|" +:+ t) = true.
Proof. intros Hs Ht. apply utf8_valid_app; [done|]. by apply utf8_valid_app. Qed.

Lemma catSig_valid l : Forall (λ c, utf8_valid c = true) (default [] l) → utf8_valid (catSig l) = true.
Proof. destruct l as [l|]; [|done]. intros H. apply Join_valid; [done|]. unfold sort_strings. by rewrite merge_sort_Permutation. Qed.

Lemma job_of_keyed orderID number now w :
  utf8_valid orderID = true → utf8_valid number = true → utf8_valid now = true → wanted_ok w →
  keyed_payload orderID (job_of orderID number now w).
Proof.
  intros Ho Hnum Hnow (He & Hd & Hc & Hcats). unfold entity_ok in He. cbn [forallb] in He. bools.
  assert (utf8_valid (paper_of (w_Printer w)) = true) as Hpaper by (unfold paper_of; by destruct (_ || _)).
  assert (match sort_strings <$> w_Cats w with None => True | Some l => l ≠ [] ∧ Forall (λ c, utf8_valid c = true) l end) as Hcats'.
  { destruct (w_Cats w) as [l|]; [|done]. destruct Hcats as [Hne Hv]. cbn. unfold sort_strings. split; [|by rewrite merge_sort_Permutation].
    intros E. apply Hne. apply Permutation_nil. rewrite <- E. apply merge_sort_Permutation. }
  assert (catSig (sort_strings <$> w_Cats w) = catSig (norm_cats (sort_strings <$> w_Cats w))) as Hn.
  { destruct (sort_strings <$> w_Cats w) as [[|c l]|]; [by destruct Hcats'|done|done]. }
  split; [|split; [done|split]].
  - split; [|done]. split; [|split_and!; try done; unfold in_int64, two63 in *; cbn; lia].
    unfold job_texts. rewrite !Forall_app, !Forall_cons. split.
    + cbn. split_and!; try done. repeat apply utf8_valid_bar; try done; [apply Z_to_dec_valid|]. apply catSig_valid.
      destruct (sort_strings <$> w_Cats w); [apply Hcats'|constructor].
    + cbn. destruct (sort_strings <$> w_Cats w); [apply Hcats'|constructor].
  - unfold dedupe_key. cbn [printJobView norm_job job_of jv_OrderID jv_DocType jv_PrinterID jv_Copies jv_Categories pj_DedupeKey pj_OrderID pj_DocType pj_PrinterID pj_Copies pj_Categories].
    rewrite (proj2 (Z.ltb_ge _ _)) by lia. by rewrite <- Hn.
  - cbn. apply sapp_ne_bar.
Qed.

Lemma failed_job_keyed orderID number now wc wk :
  utf8_valid orderID = true → utf8_valid number = true → utf8_valid now = true →
  (wc < two63)%Z → (wk < two63)%Z → (0 < wc ∨ 0 < wk)%Z → keyed_payload orderID (failed_job orderID number now wc wk).
Proof.
  intros Ho Hnum Hnow Hwc Hwk Hpos. unfold failed_job.
  set (dc := if (wc <=? 0)%Z then ("kitchen", wk)%stdpp else ("customer", wc)%stdpp).
  assert (utf8_valid dc.1 = true ∧ (1 <= dc.2 < two63)%Z) as [Hd Hc].
  { subst dc. destruct (wc <=? 0)%Z eqn:E; bools; cbn; split; try done; lia. }
  destruct dc as [doc copies]. cbn [fst snd] in *. split; [|split; [done|split]].
  - split; [|done]. split; [|split_and!; try done; unfold in_int64, two63 in *; cbn; lia].
    unfold job_texts. rewrite !Forall_app, !Forall_cons. split; [|constructor].
    cbn [pj_ID pj_OrderID pj_OrderNumber pj_DocType pj_PrinterID pj_PrinterTitle pj_Connection pj_Queue pj_PaperWidth pj_Status pj_LastError pj_DedupeKey pj_CreatedAt pj_UpdatedAt pj_Categories default with_id set_job].
    split_and!; try assumption; try (vm_compute; reflexivity); [|constructor].
    repeat first [apply utf8_valid_app|apply Z_to_dec_valid|assumption|vm_compute; reflexivity].
  - unfold dedupe_key. cbn [printJobView norm_job jv_OrderID jv_DocType jv_PrinterID jv_Copies jv_Categories pj_DedupeKey pj_OrderID pj_DocType pj_PrinterID pj_Copies pj_Categories].
    rewrite (proj2 (Z.ltb_ge _ _)) by lia. generalize (Z_to_dec copies). intros t. reflexivity.
  - cbn. apply sapp_ne_bar.
Qed.

Lemma add_kitchen_ok p cats copies ws :
  entity_ok p = true → match cats with None => True | Some l => l ≠ [] ∧ Forall (λ c, utf8_valid c = true) l end →
  Forall wanted_ok ws → Forall wanted_ok (add_kitchen p cats copies ws).
Proof.
  intros Hp Hc. assert (1 <= clamp_copies copies < two63)%Z as Hcl.
  { unfold clamp_copies, two63. cbv zeta. destruct (copies <? 1)%Z eqn:E; [cbn; lia|]. apply Z.ltb_ge in E.
    destruct (5 <? copies)%Z eqn:E'; [lia|]. apply Z.ltb_ge in E'. lia. }
  induction 1 as [|w ws Hw Hws IH]; cbn [add_kitchen]; [constructor; [by do 3 (split; [done|])|constructor]|].
  destruct (bool_decide _); (constructor; [|done]); [|done]. destruct Hw as (H1 & H2 & H3 & H4). split; [done|]. split; [done|]. cbn [w_Copies w_Cats]. split.
  - destruct (_ <? _)%Z; done.
  - destruct cats as [new|]; [|done]. destruct (w_Cats w) as [old|]; [|done]. destruct Hc as [Hn Hv], H4 as [Ho Hov]. unfold merge_cats. split.
    + by destruct old.
    + apply Forall_app. split; [done|]. rewrite Forall_forall in Hv |- *. intros c Hin. apply elem_of_List_filter in Hin as [Hin _]. auto.
Qed.

Lemma find_ok (P : Entity → bool) l e : Forall (λ p, entity_ok p = true) l → List.find P l = Some e → entity_ok e = true.
Proof. intros H E. apply List.find_some in E as [Hin _]. rewrite Forall_forall in H. apply H. by rewrite list_elem_of_In. Qed.

Lemma foldl_insert_from {A} (l : list (string * A)) (P : A → Prop) : ∀ m : gmap string A, map_Forall (λ _ a, P a) m → Forall (λ p, P p.2) l →
  map_Forall (λ _ a, P a) (foldl (λ m p, <[p.1 := p.2]> m) m l).
Proof. induction l as [|p l IH]; intros m Hm H; [done|]. inversion H; subst. cbn. apply IH; [|done]. by apply map_Forall_insert_2. Qed.

Lemma route_info_ok R k active titles r c p copies : Forall (λ p, entity_ok p = true) active →
  route_info R k active titles r = Some (c, (p, copies)) → entity_ok p = true.
Proof.
  intros H. unfold route_info. destruct (negb (isActivePrinter r)); [done|]. cbv zeta.
  set (catID := if sempty _ then _ else _). clearbody catID.
  destruct (match by_id active (TrimSpace (Field r "printer_id")) with Some _ => _ | None => _ end) as [q|] eqn:E; [|done].
  destruct (sempty catID); [done|]. destruct (Atoi _) as [rc ok]. intros [= _ <- _].
  destruct (by_id active _) as [q'|] eqn:B; [|by eapply find_ok].
  injection E as <-. unfold by_id in B. destruct (sempty _); [done|]. by eapply find_ok.
Qed.

Lemma route_map_ok R active titles routes : Forall (λ p, entity_ok p = true) active →
  map_Forall (λ _ q, entity_ok q.1 = true) (route_map R active titles routes).
Proof.
  intros H. apply foldl_insert_from; [apply map_Forall_empty|]. apply Forall_forall. intros [c [p copies]] Hin.
  apply list_elem_of_omap in Hin as ([k r] & _ & E). by apply route_info_ok in E.
Qed.

Lemma order_cats_valid products order : Forall (λ p, entity_ok p = true) products →
  map_Forall (λ c _, utf8_valid c = true) (order_cats products order).
Proof.
  intros H. unfold order_cats. set (productCat := foldl _ ∅ products).
  assert (map_Forall (λ _ c, utf8_valid c = true) productCat) as Hp.
  { subst productCat. assert (∀ m : gmap string string, map_Forall (λ _ c, utf8_valid c = true) m →
      map_Forall (λ _ c, utf8_valid c = true) (foldl (λ m p, <[e_ID p := Field p "category_id"]> m) m products)) as G; [|apply G, map_Forall_empty].
    induction H as [|p products Hp _ IH]; intros m Hm; [done|]. cbn. apply IH, map_Forall_insert_2; [|done].
    unfold entity_ok in Hp. cbn [forallb] in Hp. bools. done. }
  assert (∀ m : gmap string bool, map_Forall (λ c _, utf8_valid c = true) m → map_Forall (λ c _, utf8_valid c = true)
    (foldl (λ m line, let c := default EmptyString (productCat !! ol_ProductID line) in if sempty c then m else <[c := true]> m) m (OrderItems order)))
    as G; [|apply G, map_Forall_empty].
  induction (OrderItems order) as [|line lines IH]; intros m Hm; [done|]. cbn. apply IH.
  destruct (sempty _); [done|]. apply map_Forall_insert_2; [|done].
  destruct (productCat !! _) as [c|] eqn:E; [|done]. by apply Hp in E.
Qed.

Lemma kitchen_wants_ok R active cashier n cats routes :
  Forall (λ p, entity_ok p = true) active → map_Forall (λ c _, utf8_valid c = true) cats →
  map_Forall (λ _ (q : Entity * Z), entity_ok q.1 = true) routes →
  Forall wanted_ok (kitchen_wants R active cashier n cats routes).
Proof.
  intros Ha Hc Hr. unfold kitchen_wants. 
  set (F := λ '(ws, leftover) (catID : string), match routes !! catID with
    | Some (pr, copies) => (add_kitchen pr (Some [catID]) (wrap64 (n * copies)) ws, leftover)
    | None => (ws, leftover ++ [catID]) end).
  assert (Forall (λ c, utf8_valid c = true) (iter R 0 cats).*1) as Hk.
  { apply Forall_fmap, Forall_forall. intros [c b] Hin. rewrite iter_perm in Hin. apply elem_of_map_to_list in Hin. by apply Hc in Hin. }
  assert (∀ l ws left, Forall (λ c, utf8_valid c = true) l → Forall wanted_ok ws → Forall (λ c, utf8_valid c = true) left →
    Forall wanted_ok (foldl F (ws, left) l).1 ∧ Forall (λ c, utf8_valid c = true) (foldl F (ws, left) l).2) as G.
  { induction l as [|c l IH]; intros ws left Hl Hw Hle; [done|]. inversion Hl as [|? ? Hcv Hl']; subst. cbn [foldl]. unfold F at 2 4.
    destruct (routes !! c) as [[pr copies]|] eqn:E.
    - apply IH; [done| |done]. apply add_kitchen_ok; [by apply Hr in E| |done]. split; [done|]. by constructor.
    - apply IH; [done|done|]. apply Forall_app. split; [done|]. by constructor. }
  specialize (G _ [] [] Hk ltac:(constructor) ltac:(constructor)). destruct (foldl F ([], []) (iter R 0 cats).*1) as [ws left]. destruct G as [Gw Gl].
  cbn [fst snd] in *. destruct (bool_decide _).
  - destruct (List.find is_kitchen active) as [kp|] eqn:E; [|done]. destruct (bool_decide _); [done|].
    apply add_kitchen_ok; [by eapply find_ok|done|done].
  - destruct left as [|c left]; [done|]. destruct (List.find is_kitchen active) as [kp|] eqn:E; [|done].
    apply add_kitchen_ok; [by eapply find_ok|by split|done].
Qed.

Lemma wanted_jobs_keyed R now orderID wc wk order printers routes products categories :
  utf8_valid orderID = true → utf8_valid now = true → (wc < two63)%Z → (wk < two63)%Z → (0 < wc ∨ 0 < wk)%Z →
  entity_ok order = true → Forall (λ p, entity_ok p = true) printers → Forall (λ p, entity_ok p = true) products →
  Forall (keyed_payload orderID) (wanted_jobs R now orderID wc wk order printers routes products categories).
Proof.
  intros Ho Hnow Hwc Hwk Hpos Hord Hpr Hprod. unfold wanted_jobs. cbv zeta.
  assert (utf8_valid (Field order "order_number") = true) as Hnum by (unfold entity_ok in Hord; cbn [forallb] in Hord; by bools).
  assert (Forall (λ p, entity_ok p = true) (List.filter isActivePrinter printers)) as Ha.
  { rewrite Forall_forall in Hpr |- *. intros p Hin. apply elem_of_List_filter in Hin as [Hin _]. auto. }
  destruct (List.filter isActivePrinter printers) as [|first active] eqn:E.
  { constructor; [by apply failed_job_keyed|constructor]. }
  assert (entity_ok (default first (List.find is_cashier (first :: active))) = true) as Hcash.
  { destruct (List.find is_cashier (first :: active)) as [c|] eqn:F; [by eapply find_ok|]. by inversion Ha. }
  apply Forall_map. eapply Forall_impl; [|intros w Hw; by apply job_of_keyed]. apply Forall_app. split.
  - destruct (0 <? wc)%Z eqn:C; [|constructor]. apply Z.ltb_lt in C. constructor; [|constructor].
    split; [done|]. split; [done|]. split; [cbn; lia|done].
  - destruct (0 <? wk)%Z; [|constructor]. apply kitchen_wants_ok; [done|by apply order_cats_valid|by apply route_map_ok].
Qed.

Lemma wanted_jobs_keys R now now' orderID wc wk order printers routes products categories :
  map pj_DedupeKey (wanted_jobs R now' orderID wc wk order printers routes products categories)
  = map pj_DedupeKey (wanted_jobs R now orderID wc wk order printers routes products categories).
Proof.
  unfold wanted_jobs. destruct (List.filter _ _) as [|first active].
  - unfold failed_job. by destruct (wc <=? 0)%Z.
  - cbv zeta. by rewrite !map_map.
Qed.

(** Stored texts are what Go strings from JSON are. *)
Definition texts_ok (st : persistedDB) : Prop := map_Forall (λ _ e, entity_ok (view e) = true) (Entities st).

Lemma Entities_of_ok R kind st : texts_ok st → Forall (λ p, entity_ok p = true) (Entities_of R kind st).
Proof.
  intros H. apply Forall_forall. intros v Hv. unfold Entities_of in Hv. fold (listing R kind st) in Hv.
  assert (v ∈ listing R kind st) as Hl.
  { destruct (500 <? _)%nat; [apply elem_of_take in Hv as (i' & Hv & _); apply list_elem_of_lookup_2 in Hv|]; by rewrite sort_perm in Hv. }
  apply elem_of_listing in Hl as (key & e & He & _ & ->). by apply H in He.
Qed.

(** C17: documents are printed once, while the store is small.  Asking again for the same
    documents of an order, in the same order of ranging over maps and whatever the clock, the
    disk and the random draws do then, makes no job and writes nothing: as many jobs are
    answered as the first time, from those stored.  This needs that the first request succeeded
    and after it a listing shows all jobs (at most 500 in the store and 100 of the order; with
    more, [EnqueueOrderPrintJobs_hidden] prints a document again), that records are filed under
    their keys with valid texts, the order's jobs have one of the four states, the random
    identifiers of the first run were new, and the counts asked for are below 2^63. *)
Theorem EnqueueOrderPrintJobsDocs_once R io io' clock clock' now now' orderID docs s g g' :
  orderID ≠ EmptyString → utf8_valid orderID = true →
  (default 0%Z (docs !! "customer"%stdpp) < two63)%Z → (default 0%Z (docs !! "kitchen"%stdpp) < two63)%Z →
  well_keyed (s_state s) → texts_ok (s_state s) → known_jobs orderID (s_state s) →
  good_draws g → fresh_draws g (s_state s) →
  let o := EnqueueOrderPrintJobsDocs R io clock None now orderID docs s g in
  jo_err o = None → room R orderID (s_state (jo_store o)) →
  let o' := EnqueueOrderPrintJobsDocs R io' clock' None now' orderID docs (jo_store o) g' in
  jo_err o' = None ∧ jo_store o' = jo_store o ∧ jo_draws o' = g' ∧ length (jo_jobs o') = length (jo_jobs o).
Proof.
  intros Ho Hov Hwc Hwk Hk Ht Hkn Hg Hf. cbv zeta. unfold EnqueueOrderPrintJobsDocs. cbn [read_ctx].
  destruct (Entity_of "order" orderID (s_state s)) as [order|] eqn:Eo; [|done]. cbv zeta.
  set (wc := default 0%Z (docs !! "customer"%stdpp)) in *. set (wk := default 0%Z (docs !! "kitchen"%stdpp)) in *.
  destruct ((wc <=? 0)%Z && (wk <=? 0)%Z) eqn:W; [cbn [jo_err jo_store]; rewrite Eo; by intros _ _|].
  set (ps := wanted_jobs R (FormatRFC3339 now) _ _ _ _ _ _ _ _). intros He Hroom.
  assert (Forall (keyed_payload orderID) ps) as Hps.
  { apply wanted_jobs_keyed; try done; [apply FormatRFC3339_valid| | |by apply Entities_of_ok..].
    - apply andb_false_iff in W as [W|W]; apply Z.leb_gt in W; auto.
    - unfold Entity_of in Eo. destruct (live _ _ _) as [e|] eqn:L; [|done]. injection Eo as <-. apply live_some in L as [L _]. by apply Ht in L. }
  assert (frame ["print_job"] (s_state s) (s_state (jo_store (createPrintJobs R io clock None orderID ps s g)))) as F.
  { unfold createPrintJobs in He |- *. apply create_jobs_spec; [done| |done|done].
    eapply Forall_impl; [exact Hps|by intros p (? & _)]. }
  assert (Entity_of "order" orderID (s_state (jo_store (createPrintJobs R io clock None orderID ps s g))) = Ok order) as ->.
  { unfold Entity_of in Eo |- *. rewrite (live_frame ["print_job"] _ _ "order" orderID) by (done || decided || exact F). exact Eo. }
  rewrite !(Entities_of_frame R ["print_job"] _ _ _ Hk F) by (done || decided).
  eapply createPrintJobs_again; try done. apply wanted_jobs_keys.
Qed.

(** ** Concrete runs *)

Definition a_floor : persistedDB :=
  new_entity "order" "o1" [("order_number", AStr "17"); ("status", AStr "pending")]
    (new_entity "printer" "p1" [("title", AStr "cashier"); ("paper_width", AStr "58mm"); ("connection", AStr "usb")] newEmptyDB).

Definition store_of (st : persistedDB) : Store :=
  {| s_closed := false; s_disk := {| d_main := None; d_tmp := None |}; s_state := st |}.

(** [n] jobs of the past, here without content. *)
Definition old_jobs (n : nat) : persistedDB :=
  foldl (λ st i, put (entityKey "print_job" ("!" +:+ Z_to_dec (Z.of_nat i)))
           {| se_ID := "!" +:+ Z_to_dec (Z.of_nat i); se_Type := "print_job"; se_Version := 1; se_Deleted := false;
              se_Payload := "{}" |} st) a_floor (seq 0 n).

Definition job_count (st : persistedDB) : nat := length (listing plain_runtime "print_job" st).

Definition ask (s : Store) (g : entropy) : jobs_out :=
  EnqueueOrderPrintJobs plain_runtime (λ _, io_ok) (λ _, 0%Z) None 0 "o1" s g.

(** the listing's limit undoes this: with 500 jobs of the past in the store, filed before
    the new ones, the job made for an order is not among those looked at, and asking a
    second time makes a second job. *)
Theorem EnqueueOrderPrintJobs_hidden :
  let o := ask (store_of (old_jobs 500)) draws in
  let o' := ask (jo_store o) (jo_draws o) in
  jo_err o = None ∧ job_count (s_state (jo_store o)) = 501
  ∧ jo_err o' = None ∧ job_count (s_state (jo_store o')) = 502.
Proof. vm_compute. repeat split; reflexivity. Qed.

Definition a_job : printJobPayload :=
  {| pj_ID := "j1"; pj_OrderID := "o1"; pj_OrderNumber := "17"; pj_DocType := "kitchen"; pj_PrinterID := "p1";
     pj_PrinterTitle := "bar"; pj_Connection := "usb"; pj_Queue := ""; pj_PaperWidth := "80mm"; pj_Status := "pending";
     pj_LastError := ""; pj_Attempts := 0; pj_Copies := 2; pj_Categories := Some ["c2"; "c1"]; pj_DedupeKey := "k";
     pj_CreatedAt := "2025-03-21T08:00:00Z"; pj_UpdatedAt := "2025-03-21T08:00:00Z"; pj_Version := 0 |}.

Lemma a_job_good : good_job a_job.
Proof. split; [repeat constructor|split_and!; [done|unfold in_int64, two63; cbn; lia..]]. Qed.

Lemma savePrintJob_reads_back_witness :
  good_job a_job ∧ ∃ st', savePrintJob_body a_job a_floor = Ok ((), st') ∧ PrintJob None "j1" st' = Ok (printJobView a_job).
Proof.
  split; [exact a_job_good|]. destruct (savePrintJob_reads_back a_job a_floor a_job_good) as (st' & H & _ & _ & _ & P).
  exists st'. split; [exact H|exact P].
Defined.

Definition queued : persistedDB := run_state (savePrintJob_body a_job a_floor).

Lemma UpdatePrintJobStatus_spec_witness :
  ∃ v st', UpdatePrintJobStatus_body "2025-03-21T08:00:05Z" "j1" "printing" "" queued = Ok (v, st')
    ∧ jv_Attempts v = 1%Z ∧ PrintJob None "j1" st' = Ok v.
Proof.
  destruct (UpdatePrintJobStatus_body "2025-03-21T08:00:05Z" "j1" "printing" "" queued) as [[v st']|e] eqn:E; [|exfalso; vm_compute in E; discriminate].
  exists v, st'. split; [reflexivity|].
  destruct (UpdatePrintJobStatus_spec "2025-03-21T08:00:05Z" "j1" "printing" "" queued v st' eq_refl eq_refl eq_refl E) as (_ & _ & _ & P & _).
  vm_compute in E. split; [|rewrite P]; revert E; generalize st'; intros st2 [= <- _]; reflexivity.
Defined.

Lemma floor_no_jobs : map_Forall (λ _ e, se_Type e ≠ "print_job") (Entities a_floor).
Proof. decided. Qed.

Lemma EnqueueOrderPrintJobsDocs_once_witness :
  let o := EnqueueOrderPrintJobsDocs plain_runtime (λ _, io_ok) (λ _, 0%Z) None 0 "o1" {["customer" := 2%Z]} (store_of a_floor) draws in
  jo_err o = None ∧ length (jo_jobs o) = 1
  ∧ jo_store (EnqueueOrderPrintJobsDocs plain_runtime (λ _, io_ok) (λ _, 5%Z) None 5 "o1" {["customer" := 2%Z]} (jo_store o) draws) = jo_store o.
Proof.
  intros o. assert (jo_err o = None) as He by (vm_compute; reflexivity). split; [exact He|]. split; [vm_compute; reflexivity|].
  refine (proj1 (proj2 (EnqueueOrderPrintJobsDocs_once plain_runtime (λ _, io_ok) (λ _, io_ok) (λ _, 0%Z) (λ _, 5%Z) 0 5 "o1"
           {["customer" := 2%Z]} (store_of a_floor) draws draws _ eq_refl eq_refl eq_refl _ _ _ draws_good _ He _))).
  - done.
  - decided.
  - decided.
  - intros j (key & e & p & Hl & Ht & _). exfalso. exact (floor_no_jobs key e Hl Ht).
  - split; [decided|]. apply Forall_forall. intros id Hid. revert id Hid. apply Forall_forall. decided.
  - split; apply Nat.leb_le; vm_compute; reflexivity.
Defined.
