(* ===== verification/SyncClient.v ===== *)
(** * The synchronisation client

    Models [offline-menuvex/internal/syncclient/client.go]: the requests to the server, the
    reading of its replies, the snapshot, and one refresh of the local store.  The server, the
    network, the disk and the context are arguments: every interaction has a number and its
    outcome is given by that number.  What is sent is logged with the store as it is then. *)
From S2P Require Import Prelude GoStrings GoFloat GoJson GoJsonFacts GoReadback GoTime Store Entities EntityView Outbox.

(** ** Data *)

(* client.go Client *)
Record Client := { BaseURL : string; DeviceID : string; DeviceToken : string }.

(* client.go APIError *)
Record APIError := { ae_Code : string; ae_Message : string; ae_RetryClass : string }.

Inductive sync_err :=
| Plain (e : string)
| Api (e : APIError).

(* client.go APIError.Error *)
Definition APIError_Error (e : APIError) : string := ae_Code e +:+ ": " +:+ ae_Message e +:+ " (" +:+ ae_RetryClass e +:+ ")".

(** What is put on the wire; the address is the client's base and the path. *)
Record Request := { q_Method : string; q_URL : string; q_Authorization : string; q_Body : option string }.

(** What comes back from [HTTP.Do] and from reading the body. *)
Inductive Reply :=
| Unreachable
| Cut (e : string)
| Answer (status : Z) (body : string).

(** ** The client's monad: errors and a world *)

Record world := { w_store : Store; w_calls : nat; w_log : list (Request * Store) }.

Record Env := {
  en_io : nat → IO;
  en_ctx : nat → option string;
  en_net : nat → Request → Reply;
}.

Definition sync (A : Type) : Type := world → (A + sync_err) * world.

#[export] Instance sync_ret : MRet sync := λ A a w, (inl a, w).
#[export] Instance sync_bind : MBind sync := λ A B f m w,
  match m w with
  | (inl a, w) => f a w
  | (inr e, w) => (inr e, w)
  end.

Definition fail {A} (e : sync_err) : sync A := λ w, (inr e, w).
Definition fail_if (b : bool) (e : string) : sync () := λ w, if b then (inr (Plain e), w) else (inl (), w).

(** An operation that either fails or not, its error left to the caller. *)
Definition try {A} (m : sync A) : sync (A + sync_err) := λ w, let '(r, w) := m w in (inl r, w).

(** ** [url.QueryEscape] *)

Definition upper_hex (n : N) : ascii := ascii_of_N (if (n <? 10)%N then 48 + n else 55 + n)%N.

Definition unreserved (c : ascii) : bool :=
  in_range 48 57 c || in_range 65 90 c || in_range 97 122 c || bool_decide (c ∈ ["-"; "_"; "."; "~"]%char).

Fixpoint QueryEscape (s : string) : string :=
  match s with
  | EmptyString => EmptyString
  | String c t =>
      (if unreserved c then sone c
       else if bool_decide (c = " "%char) then "+"
       else String "%"%char (String (upper_hex (byte_of c / 16)) (sone (upper_hex (byte_of c mod 16)))))
      +:+ QueryEscape t
  end.

(** ** Reading replies *)

Definition slength (s : string) : Z := (fix go (s : string) (n : Z) := match s with EmptyString => n | String _ t => go t (n + 1)%Z end) s 0%Z.

(** A field that already holds a value. *)
Definition string_from (old : string) (ms : list (string * json)) : option string :=
  foldl (λ acc m, match acc, m.2 with
                  | Some s, JNull => Some s
                  | Some _, JStr _ s => Some s
                  | _, _ => None
                  end) (Some old) ms.

Definition int_from (old : Z) (ms : list (string * json)) : option Z :=
  foldl (λ acc m, match acc, m.2 with
                  | Some z, JNull => Some z
                  | Some _, JNum lit => match Atoi lit with (z, true) => Some z | _ => None end
                  | _, _ => None
                  end) (Some old) ms.

(** A [*APIError] field: null is nil, an object fills the error there is. *)
Definition dec_api_error (ms : list (string * json)) : option (option APIError) :=
  foldl (λ acc m, match acc, m.2 with
                  | None, _ => None
                  | Some _, JNull => Some None
                  | Some old, JObj o =>
                      let old := default {| ae_Code := EmptyString; ae_Message := EmptyString; ae_RetryClass := EmptyString |} old in
                      match string_from (ae_Code old) (struct_members "code" o), string_from (ae_Message old) (struct_members "message" o),
                            string_from (ae_RetryClass old) (struct_members "retry_class" o) with
                      | Some c, Some m, Some r => Some (Some {| ae_Code := c; ae_Message := m; ae_RetryClass := r |})
                      | _, _, _ => None
                      end
                  | Some _, _ => None
                  end) (Some None) ms.

Record envelope := { ev_Success : bool; ev_Data : string; ev_Error : option APIError }.

(* client.go:90-97 Client.request *)
Definition decode_envelope (raw : string) : option envelope :=
  match parse_json raw with
  | Some JNull => Some {| ev_Success := false; ev_Data := EmptyString; ev_Error := None |}
  | Some (JObj o) =>
      match dec_bool (struct_members "success" o), dec_api_error (struct_members "error" o) with
      | Some s, Some e => Some {| ev_Success := s; ev_Data := dec_raw (struct_members "data" o); ev_Error := e |}
      | _, _ => None
      end
  | _ => None
  end.

(** The reply of the server, read: the data of a success, or the error. *)
(* client.go:78-108 Client.request *)
Definition read_reply (r : Reply) : string + sync_err :=
  match r with
  | Unreachable => inr (Plain "sync server unreachable; local data remains available")
  | Cut e => inr (Plain e)
  | Answer status raw =>
      if (33554432 <? slength raw)%Z then inr (Plain "sync response exceeds 32 MiB; local state was not changed")
      else match decode_envelope raw with
           | None => inr (Plain ("sync returned invalid JSON (HTTP " +:+ Z_to_dec status +:+ ")"))
           | Some env =>
               if (status <? 200)%Z || (300 <=? status)%Z || negb (ev_Success env)
               then inr (match ev_Error env with
                         | Some e => Api e
                         | None => Plain ("sync failed (HTTP " +:+ Z_to_dec status +:+ ")")
                         end)
               else inl (ev_Data env)
           end
  end.

(** [json.Unmarshal(data, &out)] into a struct. *)
Definition unmarshal_struct {A} (dec : list (string * (string * json)) → option A) (data : string) : A + sync_err :=
  match parse_json data with
  | Some JNull => match dec [] with Some a => inl a | None => inr (Plain decode_error) end
  | Some (JObj o) => match dec o with Some a => inl a | None => inr (Plain decode_error) end
  | _ => inr (Plain decode_error)
  end.

Record snapshot := { sn_Cursor : string; sn_Data : option (gmap string (list string)); sn_HasMore : bool }.

(** A [map[string][]json.RawMessage] field. *)
Definition dec_sections (ms : list (string * json)) : option (option (gmap string (list string))) :=
  foldl (λ acc m, match acc, m.2 with
                  | None, _ => None
                  | Some _, JNull => Some None
                  | Some old, JObj o =>
                      Some <$> foldl (λ acc p, match acc, p.2.2 with
                                               | Some m, JNull => Some (<[p.1 := []]> m)
                                               | Some m, JArr l => Some (<[p.1 := l.*1]> m)
                                               | _, _ => None
                                               end) (Some (default ∅ old)) o
                  | Some _, _ => None
                  end) (Some None) ms.

(* client.go:111-119 Client.bootstrap *)
Definition dec_snapshot (o : list (string * (string * json))) : option snapshot :=
  match dec_string (struct_members "snapshot_cursor" o), dec_sections (struct_members "data" o), dec_bool (struct_members "has_more" o) with
  | Some c, Some d, Some h => Some {| sn_Cursor := c; sn_Data := d; sn_HasMore := h |}
  | _, _, _ => None
  end.

Record handshake := { hs_Bootstrap : bool; hs_Version : Z; hs_MaxBatch : Z }.

(** The nested [limits] struct: only objects and null, each filling it further. *)
Definition dec_limits (ms : list (string * json)) : option Z :=
  foldl (λ acc m, match acc, m.2 with
                  | Some z, JNull => Some z
                  | Some z, JObj o => int_from z (struct_members "max_batch_size" o)
                  | _, _ => None
                  end) (Some 0%Z) ms.

(* client.go:140-149 Client.Refresh *)
Definition dec_handshake (o : list (string * (string * json))) : option handshake :=
  match dec_bool (struct_members "bootstrap_required" o), dec_int (struct_members "supported_protocol_version" o),
        dec_limits (struct_members "limits" o) with
  | Some b, Some v, Some l => Some {| hs_Bootstrap := b; hs_Version := v; hs_MaxBatch := l |}
  | _, _, _ => None
  end.

(* outbox.go Result *)
Definition dec_result (o : list (string * (string * json))) : option Result :=
  match dec_string (struct_members "operation_id" o), dec_string (struct_members "status" o) with
  | Some i, Some s => Some {| r_ID := i; r_Status := s; r_Error := dec_raw (struct_members "error" o) |}
  | _, _ => None
  end.

(* client.go:171-176 Client.Refresh *)
Definition dec_results (o : list (string * (string * json))) : option (list Result) := dec_list dec_result (struct_members "results" o).

(* store.go Change *)
Definition dec_change (o : list (string * (string * json))) : option Change :=
  match dec_string (struct_members "entity_type" o), dec_string (struct_members "entity_id" o), dec_int (struct_members "entity_version" o),
        dec_bool (struct_members "tombstone" o), dec_string (struct_members "operation" o) with
  | Some t, Some i, Some v, Some d, Some op =>
      Some {| c_EntityType := t; c_EntityID := i; c_Version := v; c_Tombstone := d; c_Operation := op;
              c_Payload := dec_raw (struct_members "payload" o) |}
  | _, _, _, _, _ => None
  end.

Record page := { pg_Next : string; pg_HasMore : bool; pg_Changes : list Change }.

(* client.go:183-188 Client.Refresh *)
Definition dec_page (o : list (string * (string * json))) : option page :=
  match dec_string (struct_members "next_cursor" o), dec_bool (struct_members "has_more" o), dec_list dec_change (struct_members "changes" o) with
  | Some n, Some h, Some l => Some {| pg_Next := n; pg_HasMore := h; pg_Changes := l |}
  | _, _, _ => None
  end.

(** ** What is sent *)

(* outbox.go Operation *)
Definition encode_intent (o : Operation) : res string :=
  let? p := encode_raw (op_Payload o) in
  Ok (object_text
    ([("operation_id", quote (op_ID o)); ("client_sequence", Z_to_dec (op_Sequence o)); ("entity_type", quote (op_EntityType o));
      ("entity_id", quote (op_EntityID o)); ("operation", quote (op_Action o))]
     ++ match op_BaseVersion o with Some v => [("base_version", Z_to_dec v)] | None => [] end
     ++ [("payload", p); ("client_created_at", quote (op_CreatedAt o))])).

Definition sections : list string := ["categories"; "products"; "ingredients"; "banners"; "recipes"; "orders"].

Definition bootstrap_text : string := object_text [("include", array_text (map quote sections))].
Definition handshake_text (cursor : string) : string :=
  object_text [("app_version", quote "desktop-foundation-0.1"); ("last_known_cursor", quote cursor); ("sync_protocol_version", "2")].
Definition push_text (ops : list Operation) : res string :=
  let? l := mapM_res encode_intent ops in Ok (object_text [("operations", array_text l)]).
Definition ack_text (cursor : string) : string := object_text [("cursor", quote cursor)].

(** ** The operations *)

Section Client.
Context (R : Runtime) (E : Env) (c : Client).

(** One more interaction. *)
Definition step {A} (f : nat → Store → (A + sync_err) * Store) : sync A := λ w,
  let '(r, s) := f (w_calls w) (w_store w) in
  (r, {| w_store := s; w_calls := S (w_calls w); w_log := w_log w |}).

Definition of_res {A} (r : res A) : A + sync_err := match r with Ok a => inl a | Err e => inr (Plain e) end.

Definition transact {A} (f : IO → option string → Store → tx_out A) : sync A :=
  step (λ n s, let o := f (en_io E n) (en_ctx E n) s in (of_res (tx_res o), tx_store o)).

Definition reading {A} (f : option string → persistedDB → res A) : sync A :=
  step (λ n s, (of_res (f (en_ctx E n) (s_state s)), s)).

(** Sending a request: it is logged with the store, and the reply is the network's. *)
Definition send (q : Request) : sync string := λ w,
  (read_reply (en_net E (w_calls w) q), {| w_store := w_store w; w_calls := S (w_calls w); w_log := w_log w ++ [(q, w_store w)] |}).

(** [json.Marshal] of the body comes first. *)
(* client.go Client.request *)
Definition request (method path : string) (body : option (res string)) : sync string :=
  let q b := {| q_Method := method; q_URL := BaseURL c +:+ "/api/v1/sync" +:+ path;
                q_Authorization := "Device " +:+ DeviceID c +:+ ":" +:+ DeviceToken c; q_Body := b |} in
  match body with
  | Some (Err e) => fail (Plain e)
  | Some (Ok b) => send (q (Some b))
  | None => send (q None)
  end.

Definition decoded {A} (dec : list (string * (string * json)) → option A) (data : string) : sync A := λ w, (unmarshal_struct dec data, w).

(* client.go Client.bootstrap *)
Definition bootstrap : sync () :=
  data ← request "POST" "/bootstrap" (Some (Ok bootstrap_text));
  response ← decoded dec_snapshot data;
  _ ← fail_if (sn_HasMore response) "paged bootstrap not supported; local data not replaced";
  match sn_Data response with
  | None => fail (Plain "bootstrap missing data; local data not replaced")
  | Some data => transact (λ io ctx s, Bootstrap R io ctx s data (sn_Cursor response))
  end.

Definition no_advance : string := "sync cursor did not advance".
Definition page_limit : string := "sync page limit reached; refresh again to continue".

(** At most [pages] pages from [cursor]. *)
(* client.go:181-219 Client.Refresh *)
Fixpoint pull_loop (pages : nat) (recovered : bool) (cursor : string) : sync () :=
  match pages with
  | O => fail (Plain page_limit)
  | S pages =>
      r ← try (data ← request "GET" ("/pull?cursor=" +:+ QueryEscape cursor +:+ "&limit=500") None; decoded dec_page data);
      match r with
      | inr (Api e) =>
          if negb recovered && bool_decide (ae_RetryClass e = "bootstrap") then
            _ ← bootstrap;
            cursor ← reading Cursor;
            pull_loop pages true cursor
          else fail (Api e)
      | inr e => fail e
      | inl result =>
          _ ← fail_if (pg_HasMore result && bool_decide (pg_Next result = cursor)) no_advance;
          _ ← transact (λ io ctx s, ApplyPage io ctx s (pg_Changes result) (pg_Next result));
          _ ← request "POST" "/ack" (Some (Ok (ack_text (pg_Next result))));
          if pg_HasMore result then pull_loop pages recovered (pg_Next result) else mret ()
      end
  end.

(** One bounded batch of pending operations. *)
(* client.go:162-180 Client.Refresh *)
Definition push (max_batch : Z) : sync () :=
  ops ← reading (λ ctx st, read_ctx ctx (Outbox_of R true st));
  let ops := if (0 <? max_batch)%Z && (max_batch <? Z.of_nat (length ops))%Z then take (Z.to_nat max_batch) ops else ops in
  match ops with
  | [] => mret ()
  | _ =>
      data ← request "POST" "/push" (Some (push_text ops));
      results ← decoded dec_results data;
      transact (λ io ctx s, SaveResults io ctx s ops results)
  end.

(* client.go Client.Refresh *)
Definition Refresh : sync () :=
  _ ← transact (λ io ctx s, Bind io ctx s (BaseURL c +:+ "|" +:+ DeviceID c));
  cursor ← reading Cursor;
  data ← request "POST" "/handshake" (Some (Ok (handshake_text cursor)));
  hs ← decoded dec_handshake data;
  _ ← fail_if (negb ((hs_Version hs =? 2)%Z)) "server does not support sync protocol v2";
  cursor ← (if hs_Bootstrap hs || sempty cursor then _ ← bootstrap; reading Cursor else mret cursor);
  _ ← push (hs_MaxBatch hs);
  pull_loop 100 false cursor.

End Client.

(** ** A logic of what every run keeps *)

(** [m] keeps [I], and when it answers, [Q]. *)
Definition post {A} (I : world → Prop) (m : sync A) (Q : A → world → Prop) : Prop :=
  ∀ w, I w → match m w with (inl a, w') => I w' ∧ Q a w' | (inr _, w') => I w' end.

Definition keeps {A} (I : world → Prop) (m : sync A) : Prop := ∀ w, I w → I (m w).2.

Create HintDb sync.

Lemma sync_keeps_ret {A} I (a : A) : keeps I (mret a).
Proof. by intros w. Qed.

Lemma keeps_fail {A} I e : keeps I (fail e : sync A).
Proof. by intros w. Qed.

Lemma keeps_fail_if I b e : keeps I (fail_if b e).
Proof. intros w Hw. unfold fail_if. by destruct b. Qed.

Lemma sync_keeps_bind {A B} I (m : sync A) (f : A → sync B) : keeps I m → (∀ a, keeps I (f a)) → keeps I (m ≫= f).
Proof.
  intros Hm Hf w Hw. specialize (Hm w Hw). unfold mbind, sync_bind. destruct (m w) as [[a|e] w']; [by apply Hf|done].
Qed.

Lemma keeps_try {A} I (m : sync A) : keeps I m → keeps I (try m).
Proof. intros Hm w Hw. specialize (Hm w Hw). unfold try. by destruct (m w). Qed.

Lemma keeps_decoded {A} I (dec : list (string * (string * json)) → option A) data : keeps I (decoded dec data).
Proof. by intros w. Qed.

Lemma keeps_reading {A} I E (f : option string → persistedDB → res A) :
  (∀ s n k l, I {| w_store := s; w_calls := n; w_log := l |} → I {| w_store := s; w_calls := k; w_log := l |}) →
  keeps I (reading E f).
Proof. intros H [s n l] Hw. cbn. by apply (H s n). Qed.

#[export] Hint Resolve sync_keeps_ret keeps_fail keeps_fail_if sync_keeps_bind keeps_try keeps_decoded : sync.

Lemma sapp_inj s t u : s +:+ t = s +:+ u → t = u.
Proof. induction s as [|c s IH]; [done|]. rewrite !sapp_cons. intros [= H]. auto. Qed.

Definition is_inl {A B} (x : A + B) : bool := match x with inl _ => true | inr _ => false end.

Section Refreshing.
Context (R : Runtime) (E : Env) (c : Client).

(** *** Every run is a run of the queue *)

Definition reached (st : persistedDB) (w : world) : Prop := rtc queue_step st (s_state (w_store w)).

Lemma keeps_transact_reached {A} st0 (f : IO → option string → Store → tx_out A) :
  (∀ io ctx s, s_state (tx_store (f io ctx s)) = s_state s ∨ queue_step (s_state s) (s_state (tx_store (f io ctx s)))) →
  keeps (reached st0) (transact E f).
Proof.
  intros Hf [s n l] Hw. unfold reached in *. cbn in *. destruct (Hf (en_io E n) (en_ctx E n) s) as [->|Hs]; [done|].
  by eapply rtc_r.
Qed.

Lemma withTx_queue_step io ctx s (fn : persistedDB → res (() * persistedDB)) :
  (∀ st, fn (s_state s) = Ok ((), st) → queue_step (s_state s) st) →
  s_state (tx_store (withTx io ctx s fn)) = s_state s ∨ queue_step (s_state s) (s_state (tx_store (withTx io ctx s fn))).
Proof.
  intros Hf. pose proof (withTx_state io ctx s fn) as W. destruct (tx_res _) as [[]|]; [right; by apply Hf|by left].
Qed.

Lemma keeps_send I q : (∀ w r, I w → I {| w_store := w_store w; w_calls := S (w_calls w); w_log := w_log w ++ [(q, r)] |}) → keeps I (send E q).
Proof. intros H w Hw. cbn. by apply H. Qed.

Lemma keeps_request I method path body :
  (∀ q w r, q_Method q = method → q_URL q = BaseURL c +:+ "/api/v1/sync" +:+ path →
     I w → I {| w_store := w_store w; w_calls := S (w_calls w); w_log := w_log w ++ [(q, r)] |}) →
  keeps I (request E c method path body).
Proof. intros H. unfold request. destruct body as [[b|e]|]; [| |]; try apply keeps_fail; apply keeps_send; intros w r; by apply H. Qed.

Lemma bootstrap_reached st : keeps (reached st) (bootstrap R E c).
Proof.
  unfold bootstrap. apply sync_keeps_bind; [by apply keeps_request|]. intros data. apply sync_keeps_bind; [apply keeps_decoded|]. intros sn.
  apply sync_keeps_bind; [apply keeps_fail_if|]. intros _. destruct (sn_Data sn) as [d|]; [|apply keeps_fail].
  apply keeps_transact_reached. intros io ctx s. unfold Bootstrap. destruct (sempty _); [by left|].
  apply withTx_queue_step. intros st'. apply step_bootstrap.
Qed.

Lemma pull_loop_reached st pages : ∀ recovered cursor, keeps (reached st) (pull_loop R E c pages recovered cursor).
Proof.
  induction pages as [|pages IH]; intros recovered cursor; cbn [pull_loop]; [apply keeps_fail|].
  apply sync_keeps_bind; [apply keeps_try, sync_keeps_bind; [by apply keeps_request|intros; apply keeps_decoded]|].
  intros [pg|[e|e]]; [|apply keeps_fail|].
  - apply sync_keeps_bind; [apply keeps_fail_if|]. intros _. apply sync_keeps_bind.
    { apply keeps_transact_reached. intros io ctx s. unfold ApplyPage. destruct (sempty _); [by left|]. apply withTx_queue_step. intros st'. apply step_page. }
    intros _. apply sync_keeps_bind; [by apply keeps_request|]. intros _. destruct (pg_HasMore pg); [apply IH|apply sync_keeps_ret].
  - destruct (_ && _); [|apply keeps_fail]. apply sync_keeps_bind; [apply bootstrap_reached|]. intros _.
    apply sync_keeps_bind; [by apply keeps_reading|]. intros cur. apply IH.
Qed.

Lemma push_reached st n : keeps (reached st) (push R E c n).
Proof.
  unfold push. apply sync_keeps_bind; [by apply keeps_reading|]. intros ops. cbv zeta.
  destruct (if _ && _ then _ else _) as [|op ops']; [apply sync_keeps_ret|].
  apply sync_keeps_bind; [by apply keeps_request|]. intros data. apply sync_keeps_bind; [apply keeps_decoded|]. intros results.
  apply keeps_transact_reached. intros io ctx s. unfold SaveResults. destruct (negb _); [by left|].
  destruct (check_results _ results) as [[]|] eqn:K; [|by left]. apply withTx_queue_step. intros st'. by eapply step_results.
Qed.

(** C11: whatever the server answers, a refresh only takes steps of the queue.  For any
    network, server, disk and context, what [Refresh] leaves in the store is reached from what
    was there by bindings, snapshots, pages and answered batches; so every queued edit is
    still in its place with its content, and a settled one is as it was. *)
Theorem Refresh_keeps_queue w :
  let st := s_state (w_store w) in
  let st' := s_state (w_store (Refresh R E c w).2) in
  rtc queue_step st st'
  ∧ ∀ i a, Outbox st !! i = Some a → ∃ b, Outbox st' !! i = Some b ∧ same_intent a b ∧ (settled (so_State a) = true → b = a).
Proof.
  assert (keeps (reached (s_state (w_store w))) (Refresh R E c)) as K.
  { unfold Refresh. apply sync_keeps_bind.
    { apply keeps_transact_reached. intros io ctx s. apply withTx_queue_step. intros st'. apply step_bind. }
    intros _. apply sync_keeps_bind; [by apply keeps_reading|]. intros cur. apply sync_keeps_bind; [by apply keeps_request|]. intros data.
    apply sync_keeps_bind; [apply keeps_decoded|]. intros hs. apply sync_keeps_bind; [apply keeps_fail_if|]. intros _.
    apply sync_keeps_bind.
    { destruct (_ || _); [|apply sync_keeps_ret]. apply sync_keeps_bind; [apply bootstrap_reached|]. intros _. by apply keeps_reading. }
    intros cur'. apply sync_keeps_bind; [apply push_reached|]. intros _. apply pull_loop_reached. }
  cbv zeta. assert (rtc queue_step (s_state (w_store w)) (s_state (w_store (Refresh R E c w).2))) as H by (apply K; constructor).
  split; [exact H|]. intros i a Ha. destruct (queue_steps_le _ _ H _ _ Ha) as (b & Hb & Hr). exists b. split; [done|]. destruct (evolves_intent _ _ Hr). eauto using evolves_settled.
Qed.

(** *** What is acknowledged is kept *)

(** The state is what the store's file says. *)
Definition durable (s : Store) : Prop := ∃ t, encodeDB (s_state s) = Ok t ∧ on_disk (s_disk s) t.

Definition served (pg : page) : Prop :=
  ∃ n q data, read_reply (en_net E n q) = inl data ∧ unmarshal_struct dec_page data = inl pg.

Definition url (path : string) : string := BaseURL c +:+ "/api/v1/sync" +:+ path.

Definition is_ack (p : Request * Store) : Prop := q_URL p.1 = url "/ack" ∧ q_Method p.1 = "POST".

(** The store's file, as other processes see it, is the text of the state. *)
Definition written (s : Store) : Prop := ∃ f, d_main (s_disk s) = Some f ∧ encodeDB (s_state s) = Ok (f_text f).

Definition ack_committed (p : Request * Store) : Prop :=
  is_ack p →
  written p.2 ∧ ∃ pg st, served pg ∧ q_Body p.1 = Some (ack_text (pg_Next pg))
    ∧ ApplyPage_body (pg_Changes pg) (pg_Next pg) st = Ok ((), s_state p.2)
    ∧ Meta (s_state p.2) !! "cursor"%stdpp = Some (pg_Next pg).

Definition ack_durable (p : Request * Store) : Prop := is_ack p → durable p.2.

(** Every file operation's rename succeeds. *)
Definition renames : Prop := ∀ n, io_rename (en_io E n) = None.

(** What a refresh keeps, [P] being what durability depends on. *)
Definition safe (P : Prop) (w : world) : Prop :=
  (P → durable (w_store w)) ∧ Forall (λ p, ack_committed p ∧ (P → ack_durable p)) (w_log w).

Lemma withTx_keeps_durable {A} io ctx s (fn : persistedDB → res (A * persistedDB)) :
  io_rename io = None → durable s → durable (tx_store (withTx io ctx s fn)).
Proof.
  intros Hr (t & Ht & Hd). destruct (withTx_settles io ctx s fn t Hr Hd) as [H|(Hs & H)]; [exact H|]. exists t. by rewrite Hs.
Qed.

Lemma withTx_written {A} io ctx s (fn : persistedDB → res (A * persistedDB)) :
  is_ok (tx_res (withTx io ctx s fn)) → written (tx_store (withTx io ctx s fn)).
Proof.
  unfold withTx, tx_fail. destruct ctx; [by inversion 1|]. destruct (s_closed s); [by inversion 1|].
  destruct (fn _) as [[a tx]|]; [|by inversion 1]. destruct (encodeDB tx) as [t|] eqn:Et; [|by inversion 1].
  unfold commit_calls. repeat (case_match; simplify_eq/=; try (by inversion 1)); intros _; eexists; (split; [reflexivity|exact Et]).
Qed.

Section Acknowledged.
Context (P : Prop) (HP : P → renames).

Lemma keeps_transact_safe {A} (f : IO → option string → Store → tx_out A) :
  (∀ io ctx s, io_rename io = None → durable s → durable (tx_store (f io ctx s))) → keeps (safe P) (transact E f).
Proof. intros Hf [s n l] [Hd Hl]. cbn in *. split; [|done]. intros p. apply Hf; [by apply HP|by apply Hd]. Qed.

Lemma keeps_request_safe method path body : (method = "POST" → path ≠ "/ack") → keeps (safe P) (request E c method path body).
Proof.
  intros Hp. apply keeps_request. intros q w r Hm Hu [Hd Hl]. split; [done|]. cbn [w_log]. apply Forall_app. split; [done|].
  apply Forall_singleton. enough (¬ is_ack (q, w_store w)) as H by (split; [done|by intros _ ?]).
  intros [Hu' Hm']. cbn [fst] in *. destruct Hp; [congruence|]. rewrite Hu in Hu'. unfold url in Hu'.
  by apply sapp_inj, sapp_inj in Hu'.
Qed.

Lemma keeps_reading_safe {A} (f : option string → persistedDB → res A) : keeps (safe P) (reading E f).
Proof. by apply keeps_reading. Qed.

Lemma bootstrap_safe : keeps (safe P) (bootstrap R E c).
Proof.
  unfold bootstrap. apply sync_keeps_bind; [by apply keeps_request_safe|]. intros data. apply sync_keeps_bind; [apply keeps_decoded|]. intros sn.
  apply sync_keeps_bind; [apply keeps_fail_if|]. intros _. destruct (sn_Data sn) as [d|]; [|apply keeps_fail].
  apply keeps_transact_safe. intros io ctx s Hio Hd. unfold Bootstrap. destruct (sempty _); [done|by apply withTx_keeps_durable].
Qed.

Lemma push_safe n : keeps (safe P) (push R E c n).
Proof.
  unfold push. apply sync_keeps_bind; [apply keeps_reading_safe|]. intros ops. cbv zeta.
  destruct (if _ && _ then _ else _) as [|op ops']; [apply sync_keeps_ret|].
  apply sync_keeps_bind; [by apply keeps_request_safe|]. intros data. apply sync_keeps_bind; [apply keeps_decoded|]. intros results.
  apply keeps_transact_safe. intros io ctx s Hio Hd. unfold SaveResults. destruct (negb _); [done|].
  destruct (check_results _ results); [by apply withTx_keeps_durable|done].
Qed.

Lemma ApplyPage_cursor changes cursor st st' :
  ApplyPage_body changes cursor st = Ok ((), st') → Meta st' !! "cursor"%stdpp = Some cursor.
Proof. unfold ApplyPage_body. destruct (applyChanges st changes); [|done]. intros [= <-]. apply lookup_insert_eq. Qed.

(** Committing a page and acknowledging it. *)
Lemma commit_ack_safe {B} pg (k : () → sync B) : served pg → (∀ a, keeps (safe P) (k a)) →
  keeps (safe P) (transact E (λ io ctx s, ApplyPage io ctx s (pg_Changes pg) (pg_Next pg)) ≫= λ _,
    request E c "POST" "/ack" (Some (Ok (ack_text (pg_Next pg)))) ≫= λ _, k ()).
Proof.
  intros Hpg Hk [s n l] [Hd Hl]. cbn in Hd, Hl. unfold mbind, sync_bind, transact, step. cbn [w_calls w_store w_log]. unfold ApplyPage.
  destruct (sempty (pg_Next pg)); [by split|].
  set (body := ApplyPage_body _ _). pose proof (withTx_state (en_io E n) (en_ctx E n) s body) as W.
  pose proof (withTx_written (en_io E n) (en_ctx E n) s body) as V.
  assert (P → durable (tx_store (withTx (en_io E n) (en_ctx E n) s body))) as D by (intros p; apply withTx_keeps_durable; [by apply HP|by apply Hd]).
  destruct (tx_res _) as [[]|e]; [|by split]. set (s' := tx_store _) in *. cbn [of_res]. unfold request, send. cbn [w_calls w_store w_log].
  set (w1 := {| w_store := s'; w_calls := S (S n); w_log := l ++ _ |}). assert (safe P w1) as H1.
  { split; [exact D|]. apply Forall_app. split; [done|]. constructor; [|constructor]. split; [|by intros p _; apply D].
    intros _. split; [by apply V|]. exists pg, (s_state s). split; [done|]. split; [done|]. split; [exact W|]. by eapply ApplyPage_cursor. }
  destruct (read_reply _); [by apply Hk|exact H1].
Qed.

Lemma pull_loop_safe pages : ∀ recovered cursor, keeps (safe P) (pull_loop R E c pages recovered cursor).
Proof.
  induction pages as [|pages IH]; intros recovered cursor; cbn [pull_loop]; [apply keeps_fail|].
  intros w Hw. unfold mbind at 1, sync_bind at 1, try.
  assert (safe P (mbind (decoded dec_page) (request E c "GET" ("/pull?cursor=" +:+ QueryEscape cursor +:+ "&limit=500") None) w).2) as H1.
  { revert w Hw. apply sync_keeps_bind; [by apply keeps_request_safe|intros; apply keeps_decoded]. }
  destruct (mbind (decoded dec_page) (request E c "GET" _ None) w) as [[pg|[e|e]] w1] eqn:Q; cbn [snd] in H1; [|done|].
  - assert (served pg) as Hpg.
    { revert Q. unfold mbind, sync_bind, request, send, decoded. destruct (read_reply _) as [data|] eqn:Rd; [|done].
      intros Q. apply (f_equal fst) in Q. cbn [fst] in Q. by eexists _, _, data. }
    revert w1 H1 Q. intros w1 H1 _. revert w1 H1.
    apply sync_keeps_bind; [apply keeps_fail_if|]. intros _.
    apply (commit_ack_safe pg (λ _, if pg_HasMore pg then pull_loop R E c pages recovered (pg_Next pg) else mret ())); [done|].
    intros _. destruct (pg_HasMore pg); [apply IH|apply sync_keeps_ret].
  - revert w1 H1 Q. intros w1 H1 _. revert w1 H1. destruct (_ && _); [|apply keeps_fail]. apply sync_keeps_bind; [by apply bootstrap_safe|]. intros _.
    apply sync_keeps_bind; [apply keeps_reading_safe|]. intros cur. apply IH.
Qed.

Lemma Refresh_safe : keeps (safe P) (Refresh R E c).
Proof.
  unfold Refresh. apply sync_keeps_bind.
  { apply keeps_transact_safe. intros io ctx s. apply withTx_keeps_durable. }
  intros _. apply sync_keeps_bind; [apply keeps_reading_safe|]. intros cur. apply sync_keeps_bind; [by apply keeps_request_safe|]. intros data.
  apply sync_keeps_bind; [apply keeps_decoded|]. intros hs. apply sync_keeps_bind; [apply keeps_fail_if|]. intros _.
  apply sync_keeps_bind.
  { destruct (_ || _); [|apply sync_keeps_ret]. apply sync_keeps_bind; [by apply bootstrap_safe|]. intros _. apply keeps_reading_safe. }
  intros cur'. apply sync_keeps_bind; [by apply push_safe|]. intros _. by apply pull_loop_safe.
Qed.

End Acknowledged.

(** C4: the data and the cursor are committed before they are acknowledged.  Whatever fails and
    whatever the server says, every acknowledgement a refresh sends is sent when the state is
    the one that applying a page the server served made, with that page's cursor, which is the
    cursor acknowledged, and the store's file has been written with that state.  When, besides,
    the store's file durably held the state at the start and the renames succeed (without them
    the file is overwritten unsynced), the file under the store's name is synced at each of
    them and at the end.  (Its directory entry is never synced: [Open_power_failure] says what
    a power failure can then undo.) *)
Theorem Refresh_acks_committed w :
  w_log w = [] →
  let w' := (Refresh R E c w).2 in
  Forall ack_committed (w_log w')
  ∧ (renames → durable (w_store w) → durable (w_store w') ∧ Forall ack_durable (w_log w')).
Proof.
  intros Hl. cbv zeta. set (P := renames ∧ durable (w_store w)).
  destruct (Refresh_safe P (λ p, proj1 p) w) as [D F]; [split; [by intros []|by rewrite Hl]|].
  split; [by eapply Forall_impl; [exact F|]; intros p []|]. intros Hr Hd.
  split; [by apply D|]. eapply Forall_impl; [exact F|]. intros p [_ H]. by apply H.
Qed.

(** *** A refresh ends *)

Definition spends {A} (k : nat) (m : sync A) : Prop := ∀ w, length (w_log (m w).2) ≤ length (w_log w) + k.

Lemma spends_bind {A B} k j (m : sync A) (f : A → sync B) : spends k m → (∀ a, spends j (f a)) → spends (k + j) (m ≫= f).
Proof.
  intros Hm Hf w. specialize (Hm w). unfold mbind, sync_bind. destruct (m w) as [[a|e] w']; cbn [snd] in *; [|lia].
  specialize (Hf a w'). lia.
Qed.

Lemma spends_none {A} (m : sync A) : (∀ w, w_log (m w).2 = w_log w) → spends 0 m.
Proof. intros H w. rewrite H. lia. Qed.

Lemma spends_free {A B} k (m : sync A) (f : A → sync B) : (∀ w, w_log (m w).2 = w_log w) → (∀ a, spends k (f a)) → spends k (m ≫= f).
Proof. intros Hm Hf. apply (spends_bind 0 k); [by apply spends_none|done]. Qed.

Lemma spends_more {A} j k (m : sync A) : spends j m → j ≤ k → spends k m.
Proof. intros H Hk w. specialize (H w). lia. Qed.

Lemma log_decoded {A} (dec : list (string * (string * json)) → option A) data w : w_log (decoded dec data w).2 = w_log w.
Proof. done. Qed.

Lemma log_fail_if b e w : w_log (fail_if b e w).2 = w_log w.
Proof. unfold fail_if. by destruct b. Qed.

Lemma log_reading {A} (f : option string → persistedDB → res A) w : w_log (reading E f w).2 = w_log w.
Proof. done. Qed.

Lemma log_transact {A} (f : IO → option string → Store → tx_out A) w : w_log (transact E f w).2 = w_log w.
Proof. done. Qed.

Lemma spends_try {A} k (m : sync A) : spends k m → spends k (try m).
Proof. intros H w. specialize (H w). unfold try. by destruct (m w). Qed.

Lemma spends_request method path body : spends 1 (request E c method path body).
Proof. intros w. unfold request, fail, send. destruct body as [[b|e]|]; cbn; rewrite ?length_app; cbn; lia. Qed.

Lemma spends_bootstrap : spends 1 (bootstrap R E c).
Proof.
  apply (spends_bind 1 0); [apply spends_request|]. intros data. apply spends_free; [done|]. intros sn.
  apply spends_free; [apply log_fail_if|]. intros _. apply spends_none. by destruct (sn_Data sn).
Qed.

(** Every page costs at most two requests, the one with a new snapshot too. *)
Lemma spends_pull_loop pages : ∀ recovered cursor, spends (2 * pages) (pull_loop R E c pages recovered cursor).
Proof.
  induction pages as [|pages IH]; intros recovered cursor; cbn [pull_loop]; [by apply spends_none|].
  apply (spends_more (1 + (1 + 2 * pages))); [|lia]. apply spends_bind.
  { apply spends_try, (spends_bind 1 0); [apply spends_request|]. intros data. by apply spends_none. }
  intros [pg|[e|e]]; [|intros w; cbn; lia|].
  - apply spends_free; [apply log_fail_if|]. intros _. apply spends_free; [apply log_transact|]. intros _.
    apply spends_bind; [apply spends_request|]. intros _. destruct (pg_HasMore pg); [apply IH|intros w; cbn; lia].
  - destruct (_ && _); [|intros w; cbn; lia]. apply spends_bind; [apply spends_bootstrap|]. intros _.
    apply spends_free; [apply log_reading|]. intros cur. apply IH.
Qed.

Lemma spends_push n : spends 1 (push R E c n).
Proof.
  apply spends_free; [apply log_reading|]. intros ops. cbv zeta. destruct (if _ && _ then _ else _) as [|op ops']; [intros w; cbn; lia|].
  apply (spends_bind 1 0); [apply spends_request|]. intros data. apply spends_free; [done|]. intros results. by apply spends_none.
Qed.

(** C30: a refresh ends, whatever the server does.  It sends at most 203 requests: the
    handshake, a snapshot, a batch, and two for each of a hundred pages. *)
Theorem Refresh_bounded w : length (w_log (Refresh R E c w).2) ≤ length (w_log w) + 203.
Proof.
  revert w. change (spends 203 (Refresh R E c)). unfold Refresh. apply spends_free; [apply log_transact|]. intros _.
  apply spends_free; [apply log_reading|]. intros cur. apply (spends_bind 1 202); [apply spends_request|]. intros data.
  apply spends_free; [done|]. intros hs. apply spends_free; [apply log_fail_if|]. intros _. apply (spends_bind 1 201).
  { destruct (_ || _); [|intros w; cbn; lia]. apply (spends_bind 1 0); [apply spends_bootstrap|]. intros _. apply spends_none, log_reading. }
  intros cur'. apply (spends_bind 1 200); [apply spends_push|]. intros _. apply (spends_pull_loop 100).
Qed.

(** *** What success means *)

(** The last request acknowledged the page after which the server has no more. *)
Definition up_to_date (w : world) : Prop :=
  ∃ q s pg st, last (w_log w) = Some (q, s) ∧ s = w_store w ∧ q_URL q = url "/ack" ∧ q_Body q = Some (ack_text (pg_Next pg))
    ∧ served pg ∧ pg_HasMore pg = false ∧ ApplyPage_body (pg_Changes pg) (pg_Next pg) st = Ok ((), s_state s)
    ∧ Meta (s_state s) !! "cursor"%stdpp = Some (pg_Next pg).

Definition answers {A} (m : sync A) (Q : world → Prop) : Prop := ∀ w, match m w with (inl _, w') => Q w' | (inr _, _) => True end.

Lemma answers_bind {A B} (m : sync A) (f : A → sync B) Q : (∀ a, answers (f a) Q) → answers (m ≫= f) Q.
Proof. intros Hf w. unfold mbind, sync_bind. destruct (m w) as [[a|e] w']; [apply Hf|done]. Qed.

Lemma last_page pg w : served pg → pg_HasMore pg = false →
  match (transact E (λ io ctx s, ApplyPage io ctx s (pg_Changes pg) (pg_Next pg)) ≫= λ _,
         request E c "POST" "/ack" (Some (Ok (ack_text (pg_Next pg)))) ≫= λ _, mret ()) w with
  | (inl _, w') => up_to_date w' | (inr _, _) => True end.
Proof.
  intros Hpg Hmore. destruct w as [s n l]. unfold mbind, sync_bind, transact, step. cbn [w_calls w_store w_log]. unfold ApplyPage.
  destruct (sempty (pg_Next pg)); [done|].
  pose proof (withTx_state (en_io E n) (en_ctx E n) s (ApplyPage_body (pg_Changes pg) (pg_Next pg))) as W.
  destruct (tx_res _) as [[]|e]; [|done]. set (s' := tx_store _) in *. cbn [of_res]. unfold request, send. cbn [w_calls w_store w_log].
  destruct (read_reply _); [|done]. cbn. eexists _, s', pg, (s_state s). cbn [w_log w_store]. rewrite last_snoc.
  do 6 (split; [done|]). split; [exact W|by eapply ApplyPage_cursor].
Qed.

Lemma pull_loop_answers pages : ∀ recovered cursor, answers (pull_loop R E c pages recovered cursor) up_to_date.
Proof.
  induction pages as [|pages IH]; intros recovered cursor w; cbn [pull_loop]; [done|].
  unfold mbind at 1, sync_bind at 1, try.
  destruct (mbind (decoded dec_page) (request E c "GET" _ None) w) as [[pg|[e|e]] w1] eqn:Q; [|done|].
  - assert (served pg) as Hpg.
    { revert Q. unfold mbind, sync_bind, request, send, decoded. destruct (read_reply _) as [data|] eqn:Rd; [|done].
      intros Q. apply (f_equal fst) in Q. cbn [fst] in Q. by eexists _, _, data. }
    clear Q. revert w1. apply answers_bind. intros _. destruct (pg_HasMore pg) eqn:M.
    + apply answers_bind. intros _. apply answers_bind. intros _. apply IH.
    + intros w1. by apply last_page.
  - clear Q. revert w1. destruct (_ && _); [|done]. apply answers_bind. intros _. apply answers_bind. intros cur. apply IH.
Qed.

(** what a refresh that reports success has done.  The last thing it sent is the
    acknowledgement of a page of the server that says there is no more, sent when the store
    had applied it, and the store is left as it was then, at that page's cursor. *)
Theorem Refresh_up_to_date w u w' : Refresh R E c w = (inl u, w') → up_to_date w'.
Proof.
  intros H. assert (answers (Refresh R E c) up_to_date) as A; [|specialize (A w); by rewrite H in A].
  unfold Refresh. do 7 (apply answers_bind; intros ?). apply pull_loop_answers.
Qed.

(** local data survives a bad server.  When no reply can be used, whether the server is not
    reached, the reply is cut off, too long, not JSON, or an error, a refresh fails after one
    request at most, and entities, queue and cursor are as they were. *)
Theorem Refresh_offline w :
  (∀ n q, is_inl (read_reply (en_net E n q)) = false) →
  let o := Refresh R E c w in
  is_inl o.1 = false ∧ Entities (s_state (w_store o.2)) = Entities (s_state (w_store w))
  ∧ Outbox (s_state (w_store o.2)) = Outbox (s_state (w_store w))
  ∧ Meta (s_state (w_store o.2)) !! "cursor"%stdpp = Meta (s_state (w_store w)) !! "cursor"%stdpp
  ∧ length (w_log o.2) ≤ length (w_log w) + 1.
Proof.
  intros Hn o.
  assert (match o with (r, w') => is_inl r = false ∧ Entities (s_state (w_store w')) = Entities (s_state (w_store w))
    ∧ Outbox (s_state (w_store w')) = Outbox (s_state (w_store w))
    ∧ Meta (s_state (w_store w')) !! "cursor"%stdpp = Meta (s_state (w_store w)) !! "cursor"%stdpp
    ∧ length (w_log w') ≤ length (w_log w) + 1 end) as H; [|by destruct o].
  subst o. unfold Refresh. destruct w as [s n l]. unfold mbind at 1, sync_bind at 1, transact, step. cbn [w_store w_calls w_log].
  unfold Bind. set (scope := BaseURL c +:+ "|" +:+ DeviceID c).
  pose proof (withTx_state (en_io E n) (en_ctx E n) s (Bind_body scope)) as W.
  set (o := withTx (en_io E n) (en_ctx E n) s (Bind_body scope)) in *. clearbody o.
  destruct (tx_res o) as [[]|e]; cbn [of_res fst snd w_store w_log is_inl].
  2: { rewrite W. split_and!; try done. lia. }
  assert (∃ m, s_state (tx_store o) = set_Meta m (s_state s)
    ∧ m (Meta (s_state s)) !! "cursor"%stdpp = Meta (s_state s) !! "cursor"%stdpp) as (m & Em & Hm).
  { unfold Bind_body in W. destruct (negb _); [|done]. injection W as W. eexists. split; [symmetry; exact W|].
    by rewrite lookup_insert_ne. }
  unfold mbind at 1, sync_bind at 1, reading, step. cbn [w_store w_calls w_log].
  destruct (Cursor _ _) as [cur|e]; cbn [of_res fst snd w_store w_log is_inl].
  2: { rewrite Em. cbn. split_and!; try done. lia. }
  unfold mbind at 1, sync_bind at 1, request, send. cbn [w_store w_calls w_log].
  match goal with |- context [read_reply ?r] => assert (is_inl (read_reply r) = false) as Hr by apply Hn; destruct (read_reply r) as [data|e] end; [done|].
  cbn [fst snd w_store w_log is_inl]. rewrite Em. cbn. split_and!; try done. rewrite length_app. cbn. lia.
Qed.

End Refreshing.

(** ** A concrete server *)

Definition ok_text (data : string) : Reply := Answer 200 (object_text [("success", "true"); ("data", data)]).

(** It asks for a snapshot and has one page. *)
Definition a_server (n : nat) (q : Request) : Reply :=
  match n with
  | 2 => ok_text (object_text [("bootstrap_required", "false"); ("supported_protocol_version", "2");
                               ("limits", object_text [("max_batch_size", "50")])])
  | 3 => ok_text (object_text [("snapshot_cursor", quote "c1"); ("has_more", "false");
                               ("data", object_text [("categories", array_text [object_text [("id", quote "k1"); ("version", "3")]])])])
  | 7 => ok_text (object_text [("next_cursor", quote "c2"); ("has_more", "false");
                               ("changes", array_text [object_text [("entity_type", quote "product"); ("entity_id", quote "p1");
                                                                    ("entity_version", "4"); ("operation", quote "upsert");
                                                                    ("payload", object_text [("id", quote "p1")])]])])
  | _ => ok_text "null"
  end.

Definition a_world (net : nat → Request → Reply) : Env := {| en_io := λ _, io_ok; en_ctx := λ _, None; en_net := net |}.
Definition a_client : Client := {| BaseURL := "https://api"; DeviceID := "d1"; DeviceToken := "t" |}.

Definition new_store : Store :=
  {| s_closed := false; s_state := newEmptyDB;
     s_disk := {| d_main := Some {| f_text := (match encodeDB newEmptyDB with Ok t => t | Err _ => EmptyString end); f_synced := true |}; d_tmp := None |} |}.
Definition start : world := {| w_store := new_store; w_calls := 0; w_log := [] |}.
Definition a_refresh := Refresh plain_runtime (a_world a_server) a_client start.

Lemma new_store_durable : durable new_store.
Proof. eexists. split; reflexivity. Qed.

Lemma Refresh_acks_committed_witness :
  map (λ p, q_URL p.1) (w_log a_refresh.2)
  = ["https://api/api/v1/sync/handshake"; "https://api/api/v1/sync/bootstrap"; "https://api/api/v1/sync/pull?cursor=c1&limit=500";
     "https://api/api/v1/sync/ack"]
  ∧ durable (w_store a_refresh.2).
Proof.
  split; [vm_compute; reflexivity|].
  exact (proj1 (proj2 (Refresh_acks_committed plain_runtime (a_world a_server) a_client start eq_refl) (λ _, eq_refl) new_store_durable)).
Defined.

Lemma Refresh_up_to_date_witness :
  a_refresh.1 = inl () ∧ Meta (s_state (w_store a_refresh.2)) !! "cursor" = Some "c2"
  ∧ up_to_date (a_world a_server) a_client a_refresh.2.
Proof.
  assert (a_refresh.1 = inl ()) as H by (vm_compute; reflexivity). split; [exact H|]. split; [vm_compute; reflexivity|].
  apply (Refresh_up_to_date plain_runtime (a_world a_server) a_client start ()). rewrite <- H. apply surjective_pairing.
Defined.

Lemma Refresh_offline_witness :
  is_inl (Refresh plain_runtime (a_world (λ _ _, Unreachable)) a_client start).1 = false.
Proof. exact (proj1 (Refresh_offline plain_runtime (a_world (λ _ _, Unreachable)) a_client start (λ _ _, eq_refl))). Defined.
