(* ===== verification/SyncDesk.v ===== *)
(** * Setting the client up, and the button that refreshes

    Models [New] of [offline-menuvex/internal/syncclient/client.go], which takes the server's
    address, with what it uses of [net/url] (as of Go 1.23, the version of [go.mod]), and the
    handler of [offline-menuvex/app.go] behind the button that refreshes.  The texts of errors of
    [url.Parse] are left out. *)
From S2P Require Import Prelude GoStrings GoFloat GoJson GoTime Store Entities EntityView Outbox SyncClient.

(** ** [net/url] *)

(** What [New] looks at of a parsed address. *)
Record URL := {
  u_Scheme : string;
  u_User : bool;
  u_Host : string;
  u_Path : string;
  u_RawQuery : string;
  u_ForceQuery : bool;
  u_Fragment : string;
}.

Definition is_letter (c : ascii) : bool := in_range 97 122 c || in_range 65 90 c.

Definition ctl_byte (c : ascii) : bool := (byte_of c <? 32)%N || (byte_of c =? 127)%N.

(** The scheme and the rest; [None] when the text begins with a colon. *)
Fixpoint getScheme_go (first : bool) (acc s raw : string) : option (string * string) :=
  match s with
  | EmptyString => Some (EmptyString, raw)
  | String c t =>
      if is_letter c then getScheme_go false (acc +:+ sone c) t raw
      else if is_digit c || existsb (Ascii.eqb c) ["+"; "-"; "."]%char then
        if first then Some (EmptyString, raw) else getScheme_go false (acc +:+ sone c) t raw
      else if bool_decide (c = ":"%char) then (if first then None else Some (acc, t))
      else Some (EmptyString, raw)
  end.
Definition getScheme (raw : string) : option (string * string) := getScheme_go true EmptyString raw raw.

(** [shouldEscape(c, encodeHost)] *)
Definition escaped_in_host (c : ascii) : bool :=
  negb (is_letter c || is_digit c
        || existsb (Ascii.eqb c) ["!"; "$"; "&"; "'"; "("; ")"; "*"; "+"; ","; ";"; "="; ":"; "["; "]"; "<"; ">"; quote_char; "-"; "_"; "."; "~"]%char).

Inductive escape_mode := InHost | InZone | Elsewhere.

(** [unescape(s, mode)]; [None] is an error.  A plus is a plus outside of queries. *)
Fixpoint unescape (mode : escape_mode) (s : string) : option string :=
  match s with
  | EmptyString => Some EmptyString
  | String "%" t =>
      match t with
      | String h (String l u) =>
          match hex_digit h, hex_digit l with
          | Some a, Some b =>
              let v := ascii_of_N (16 * a + b) in
              let percent := bool_decide (h = "2"%char) && bool_decide (l = "5"%char) in
              let allowed := match mode with
                             | InHost => (8 <=? a)%N || percent
                             | InZone => percent || bool_decide (v = " "%char) || negb (escaped_in_host v)
                             | Elsewhere => true
                             end in
              if allowed then r ← unescape mode u; Some (String v r) else None
          | _, _ => None
          end
      | _ => None
      end
  | String c t =>
      if (match mode with Elsewhere => false | _ => true end) && (byte_of c <? 128)%N && escaped_in_host c then None
      else r ← unescape mode t; Some (String c r)
  end.

(** [escape(s, encodeHost)] *)
Fixpoint escape_host (s : string) : string :=
  match s with
  | EmptyString => EmptyString
  | String c t =>
      (if escaped_in_host c then String "%"%char (String (upper_hex (byte_of c / 16)) (sone (upper_hex (byte_of c mod 16)))) else sone c)
      +:+ escape_host t
  end.

Definition validOptionalPort (port : string) : bool :=
  match port with EmptyString => true | String c t => bool_decide (c = ":"%char) && sforall is_digit t end.

Definition parseHost (host : string) : option string :=
  if HasPrefix host "[" then
    match LastIndex host "]" with
    | None => None
    | Some i =>
        if negb (validOptionalPort (sdrop (S i) host)) then None
        else match SplitN2 "%25" (stake i host) with
             | (before, Some _) =>
                 let zone := String.length before in
                 h1 ← unescape InHost (stake zone host);
                 h2 ← unescape InZone (stake (i - zone) (sdrop zone host));
                 h3 ← unescape InHost (sdrop i host);
                 Some (h1 +:+ h2 +:+ h3)
             | _ => unescape InHost host
             end
    end
  else
    match LastIndex host ":" with
    | Some i => if validOptionalPort (sdrop i host) then unescape InHost host else None
    | None => unescape InHost host
    end.

Definition valid_user_byte (c : ascii) : bool :=
  is_letter c || is_digit c
  || existsb (Ascii.eqb c) ["-"; "."; "_"; ":"; "~"; "!"; "$"; "&"; "'"; "("; ")"; "*"; "+"; ","; ";"; "="; "%"; "@"]%char.

(** Whether there is a user, and the host. *)
Definition parseAuthority (authority : string) : option (bool * string) :=
  match LastIndex authority "@" with
  | None => h ← parseHost authority; Some (false, h)
  | Some i =>
      h ← parseHost (sdrop (S i) authority);
      let userinfo := stake i authority in
      if negb (sforall valid_user_byte userinfo) then None
      else _ ← unescape Elsewhere userinfo; Some (true, h)
  end.

(** The query and what is before it. *)
Definition split_query (rest : string) : string * string * bool :=
  match SplitN2 "?" rest with
  | (before, Some q) => if sempty q then (before, EmptyString, true) else (before, q, false)
  | (before, None) => (before, EmptyString, false)
  end.

Definition url_part (scheme : string) (user : bool) (host path query : string) (force : bool) : URL :=
  {| u_Scheme := scheme; u_User := user; u_Host := host; u_Path := path; u_RawQuery := query; u_ForceQuery := force; u_Fragment := EmptyString |}.

(** The address before its fragment. *)
Definition parse_url (raw : string) : option URL :=
  if negb (sforall (λ c, negb (ctl_byte c)) raw) then None
  else if bool_decide (raw = "*"%stdpp) then Some (url_part EmptyString false EmptyString "*" EmptyString false)
  else
    p ← getScheme raw;
    let scheme := ToLower p.1 in
    let '(rest, query, force) := split_query p.2 in
    if negb (HasPrefix rest "/") && negb (sempty scheme) then Some (url_part scheme false EmptyString EmptyString query force)
    else if negb (HasPrefix rest "/") && Contains (SplitN2 "/" rest).1 ":" then None
    else if (negb (sempty scheme) || negb (HasPrefix rest "///")) && HasPrefix rest "//" then
      let '(authority, path) := SplitN2 "/" (sdrop 2 rest) in
      let path := match path with Some t => String "/" t | None => EmptyString end in
      a ← parseAuthority authority;
      path ← unescape Elsewhere path;
      Some (url_part scheme a.1 a.2 path query force)
    else path ← unescape Elsewhere rest; Some (url_part scheme false EmptyString path query force).

Definition with_fragment (f : string) (u : URL) : URL :=
  {| u_Scheme := u_Scheme u; u_User := u_User u; u_Host := u_Host u; u_Path := u_Path u; u_RawQuery := u_RawQuery u; u_ForceQuery := u_ForceQuery u;
     u_Fragment := f |}.

(** [url.Parse] *)
Definition Parse (raw : string) : option URL :=
  let '(u, frag) := SplitN2 "#" raw in
  url ← parse_url u;
  f ← unescape Elsewhere (default EmptyString frag);
  Some (with_fragment f url).

(** [u.Hostname()] *)
Definition Hostname (u : URL) : string :=
  let host := u_Host u in
  let host := match LastIndex host ":" with Some i => if validOptionalPort (sdrop i host) then stake i host else host | None => host end in
  if HasPrefix host "[" && bool_decide (sdrop (String.length host - 1) host = "]"%stdpp) then stake (String.length host - 2) (sdrop 1 host) else host.

(** [u.String()] of an address with a host and without user, path and fragment. *)
Definition origin_string (u : URL) : string :=
  (if sempty (u_Scheme u) then EmptyString else u_Scheme u +:+ ":") +:+ "//" +:+ escape_host (u_Host u)
  +:+ (if u_ForceQuery u || negb (sempty (u_RawQuery u)) then "?" +:+ u_RawQuery u else EmptyString).

(** ** The client *)

Definition not_an_origin : string := "API URL must be an origin without path, credentials, query or fragment".
Definition needs_https : string := "remote API requires HTTPS".
Definition needs_device : string := "device ID and token are required".
Definition bad_address : string := "parse error".

Definition loopback (host : string) : bool := existsb (String.eqb host) ["localhost"; "127.0.0.1"; "::1"]%stdpp.

Definition no_line_break (s : string) : bool := sforall (λ c, negb (existsb (Ascii.eqb c) ["013"; "010"]%char)) s.

(* client.go New *)
Definition New (base id token : string) : res Client :=
  match Parse (TrimRightByte "/" base) with
  | None => Err bad_address
  | Some u =>
      if sempty (u_Host u) || u_User u || negb (sempty (u_RawQuery u)) || negb (sempty (u_Fragment u)) || negb (sempty (u_Path u)) then Err not_an_origin
      else if negb (bool_decide (u_Scheme u = "https"%stdpp)) && negb (bool_decide (u_Scheme u = "http"%stdpp) && loopback (Hostname u)) then Err needs_https
      else if negb (no_line_break (id +:+ token)) || sempty id || sempty token then Err needs_device
      else Ok {| BaseURL := origin_string u; DeviceID := id; DeviceToken := token |}
  end.

(** ** The button that refreshes *)

Definition sync_err_text (e : sync_err) : string := match e with Plain s => s | Api e => APIError_Error e end.

Definition standalone : string := "این برنامه در حالت دسکتاپ مستقل (Standalone Offline) فعال است و تمام داده‌ها روی دیسک محلی ذخیره می‌شوند.".
Definition sync_done : string := "Sync cycle finished. همگام‌سازی به پایان رسید.".

(** The message the page is shown with, and the store after it. *)
(* app.go Application.refresh *)
Definition refresh (R : Runtime) (E : Env) (client : option Client) (w : world) : string * world :=
  match client with
  | None => (standalone, w)
  | Some c =>
      match Refresh R E c w with
      | (inl _, w) => (sync_done, w)
      | (inr e, w) => ("Sync did not finish: " +:+ sync_err_text e +:+ ". داده‌های محلی شما کاملاً امن و در دسترس هستند.", w)
      end
  end.

(** ** What a refresh can change *)

(** The bindings, pages, snapshots and answers of a refresh: entities, which stay filed under
    their own keys; the scope and the cursor; and the states of queued edits, which keep their
    places and contents. *)
Record synced (st st' : persistedDB) : Prop := {
  synced_keyed : well_keyed st → well_keyed st';
  synced_meta : ∀ k, k ≠ "cursor"%stdpp → k ≠ "scope"%stdpp → Meta st' !! k = Meta st !! k;
  synced_queue : outbox_le (Outbox st) (Outbox st') ∧ length (Outbox st') = length (Outbox st);
  synced_rest : NextOutboxSeq st' = NextOutboxSeq st ∧ LegacyStockCounts st' = LegacyStockCounts st
    ∧ NextLegacyStockCountID st' = NextLegacyStockCountID st ∧ Connection st' = Connection st;
}.

#[export] Instance synced_preorder : PreOrder synced.
Proof.
  split.
  - intros st. split; [done|done|split; [apply outbox_le_refl|done]|done].
  - intros a b c [A1 A2 [A3 A3'] A4] [B1 B2 [B3 B3'] B4]. split; [auto| |split; [by eapply outbox_le_trans|congruence]|].
    + intros k H1 H2. by rewrite B2, A2.
    + destruct_and! A4. destruct_and! B4. split_and!; congruence.
Qed.

Lemma applyChange_keyed c st st' : applyChange st c = Ok st' → well_keyed st → well_keyed st'.
Proof.
  unfold applyChange. destruct (negb _); [|done]. cbv zeta. destruct (json_Valid _); [|done]. intros H K. revert H.
  destruct (Entities st !! _) as [old|]; [destruct (_ || _)|]; intros [= <-]; try done; by apply well_keyed_put.
Qed.

Lemma applyChanges_keyed l : ∀ st st', applyChanges st l = Ok st' → well_keyed st → well_keyed st'.
Proof.
  induction l as [|c l IH]; intros st st'; cbn [applyChanges]; [by intros [= <-]|].
  destruct (applyChange st c) as [st1|] eqn:E; [|done]. intros H K. by eapply IH, applyChange_keyed.
Qed.

Lemma synced_changes l st st' : applyChanges st l = Ok st' → synced st st'.
Proof.
  intros H. pose proof (applyChanges_keyed _ _ _ H) as K. apply applyChanges_shape in H as [-> _].
  split; [exact K|done|split; [apply outbox_le_refl|done]|done].
Qed.

Lemma synced_set_Meta k v st : k = "cursor"%stdpp ∨ k = "scope"%stdpp → synced st (set_Meta (<[k := v]>) st).
Proof.
  intros Hk. split; [done| |split; [apply outbox_le_refl|done]|done]. intros j H1 H2. cbn [set_Meta Meta].
  rewrite lookup_insert_ne; [done|]. destruct Hk; congruence.
Qed.

Lemma synced_Bind scope st u st' : Bind_body scope st = Ok (u, st') → synced st st'.
Proof. unfold Bind_body. destruct (negb _); [|done]. intros [= _ <-]. apply synced_set_Meta. by right. Qed.

Lemma synced_ApplyPage changes cursor st u st' : ApplyPage_body changes cursor st = Ok (u, st') → synced st st'.
Proof.
  unfold ApplyPage_body. destruct (applyChanges st changes) as [st1|] eqn:E; [|done]. intros [= _ <-].
  etrans; [by eapply synced_changes|]. apply synced_set_Meta. by left.
Qed.

Lemma synced_Bootstrap R sections cursor st u st' : Bootstrap_body R sections cursor st = Ok (u, st') → synced st st'.
Proof.
  rewrite Bootstrap_body_run. pose proof (run_sections (iter R 0 sections) (set_Entities (λ _, ∅) st)) as H.
  destruct (fold_res run_section _ _) as [s1|]; [|done]. intros [= _ <-]. destruct H as [_ H]. apply synced_changes in H.
  etrans; [|apply synced_set_Meta; by left]. etrans; [|exact H].
  split; [intros _; apply map_Forall_empty|done|split; [apply outbox_le_refl|done]|done].
Qed.

Lemma synced_SaveResults expected results st u st' :
  check_results expected results = Ok () → SaveResults_body results st = Ok (u, st') → synced st st'.
Proof.
  unfold SaveResults_body. intros K. destruct (fold_res _ _ _) as [ops|] eqn:E; [|done]. intros [= _ <-].
  apply (save_results_le _ _ _ _ (check_results_status _ _ K)) in E. split; [done|done|exact E|done].
Qed.

(** What transactions of such steps keep, a refresh keeps. *)
Section Keeping.
Context (R : Runtime) (E : Env) (c : Client) (I : Store → Prop).
Hypothesis HI : ∀ n A ctx s (fn : persistedDB → res (A * persistedDB)),
  (∀ a st, fn (s_state s) = Ok (a, st) → synced (s_state s) st) → I s → I (tx_store (withTx (en_io E n) ctx s fn)).

Definition keeping (w : world) : Prop := I (w_store w).

Lemma keeping_transact {A} (f : IO → option string → Store → tx_out A) :
  (∀ n ctx s, I s → I (tx_store (f (en_io E n) ctx s))) → keeps keeping (transact E f).
Proof. intros Hf [s n l] Hw. by apply Hf. Qed.

Lemma keeping_request method path body : keeps keeping (request E c method path body).
Proof. by apply keeps_request. Qed.
Lemma keeping_reading {A} (f : option string → persistedDB → res A) : keeps keeping (reading E f).
Proof. by apply keeps_reading. Qed.

Hint Resolve keeping_request keeping_reading : sync.

Lemma keeping_bootstrap : keeps keeping (bootstrap R E c).
Proof.
  unfold bootstrap. apply sync_keeps_bind; [auto with sync|]. intros data. apply sync_keeps_bind; [auto with sync|]. intros sn.
  apply sync_keeps_bind; [auto with sync|]. intros _. destruct (sn_Data sn) as [d|]; [|auto with sync].
  apply keeping_transact. intros n ctx s Hs. unfold Bootstrap. destruct (sempty _); [done|]. apply HI; [|done]. intros a st. apply synced_Bootstrap.
Qed.

Lemma keeping_pull_loop pages : ∀ recovered cursor, keeps keeping (pull_loop R E c pages recovered cursor).
Proof.
  induction pages as [|pages IH]; intros recovered cursor; cbn [pull_loop]; [auto with sync|].
  apply sync_keeps_bind; [apply keeps_try, sync_keeps_bind; auto with sync|]. intros [pg|[e|e]]; [|auto with sync|].
  - apply sync_keeps_bind; [auto with sync|]. intros _. apply sync_keeps_bind.
    { apply keeping_transact. intros n ctx s Hs. unfold ApplyPage. destruct (sempty _); [done|]. apply HI; [|done]. intros a st. apply synced_ApplyPage. }
    intros _. apply sync_keeps_bind; [auto with sync|]. intros _. destruct (pg_HasMore pg); [apply IH|auto with sync].
  - destruct (_ && _); [|auto with sync]. apply sync_keeps_bind; [apply keeping_bootstrap|]. intros _.
    apply sync_keeps_bind; [auto with sync|]. intros cur. apply IH.
Qed.

Lemma keeping_push n : keeps keeping (push R E c n).
Proof.
  unfold push. apply sync_keeps_bind; [auto with sync|]. intros ops. cbv zeta.
  destruct (if _ && _ then _ else _) as [|op ops']; [auto with sync|].
  apply sync_keeps_bind; [auto with sync|]. intros data. apply sync_keeps_bind; [auto with sync|]. intros results.
  apply keeping_transact. intros k ctx s Hs. unfold SaveResults. destruct (negb _); [done|].
  destruct (check_results _ results) as [[]|] eqn:K; [|done]. apply HI; [|done]. intros a st. by eapply synced_SaveResults.
Qed.

Lemma keeping_Refresh : keeps keeping (Refresh R E c).
Proof.
  unfold Refresh. apply sync_keeps_bind.
  { apply keeping_transact. intros n ctx s Hs. apply HI; [|done]. intros a st. apply synced_Bind. }
  intros _. apply sync_keeps_bind; [auto with sync|]. intros cur. apply sync_keeps_bind; [auto with sync|]. intros data.
  apply sync_keeps_bind; [auto with sync|]. intros hs. apply sync_keeps_bind; [auto with sync|]. intros _. apply sync_keeps_bind.
  { destruct (_ || _); [|auto with sync]. apply sync_keeps_bind; [apply keeping_bootstrap|auto with sync]. }
  intros cur'. apply sync_keeps_bind; [apply keeping_push|]. intros _. apply keeping_pull_loop.
Qed.
End Keeping.

(** ** What an accepted address is *)

(** The bytes of a host in an address: none that ends the host or begins a user, a path, a query or a fragment. *)
Definition host_byte (c : ascii) : bool := negb (ctl_byte c || existsb (Ascii.eqb c) ["/"; "?"; "#"; "@"; " "; backslash_char]%char).

Lemma upper_hex_host n : (n < 16)%N → host_byte (upper_hex n) = true.
Proof.
  intros H. assert (n = 0 ∨ n = 1 ∨ n = 2 ∨ n = 3 ∨ n = 4 ∨ n = 5 ∨ n = 6 ∨ n = 7 ∨ n = 8 ∨ n = 9 ∨ n = 10 ∨ n = 11 ∨ n = 12 ∨ n = 13 ∨ n = 14 ∨ n = 15)%N as Hn by lia.
  by repeat destruct Hn as [->|Hn]; [..|subst n].
Qed.

Lemma escape_host_bytes s : sforall host_byte (escape_host s) = true.
Proof.
  induction s as [|c s IH]; [done|]. cbn [escape_host]. rewrite sforall_app, IH, andb_true_r. destruct (escaped_in_host c) eqn:E.
  - assert (byte_of c < 256)%N by apply N_ascii_bounded. cbn [sforall sone]. rewrite !upper_hex_host; [done|apply N.mod_lt; lia|apply N.Div0.div_lt_upper_bound; lia].
  - by destruct c as [[] [] [] [] [] [] [] []].
Qed.

Lemma escape_host_empty s : escape_host s = EmptyString → s = EmptyString.
Proof. destruct s as [|c s]; [done|]. cbn [escape_host]. by destruct (escaped_in_host c). Qed.

Lemma escape_host_same s : sforall (λ c, negb (escaped_in_host c)) s = true → escape_host s = s.
Proof. induction s as [|c s IH]; [done|]. cbn [sforall escape_host]. intros H. bools. destruct (escaped_in_host c); [done|]. by rewrite IH. Qed.

Definition loopback_hosts : list string := ["localhost"; "127.0.0.1"; "::1"; "[localhost]"; "[127.0.0.1]"; "[::1]"]%stdpp.

Lemma port_same p : validOptionalPort p = true → sforall (λ c, negb (escaped_in_host c)) p = true.
Proof.
  destruct p as [|c p]; [done|]. cbn [validOptionalPort sforall]. intros H. bools. subst c. change (escaped_in_host ":") with false. cbn [negb andb].
  eapply sforall_impl; [|eassumption]. intros c. by destruct c as [[] [] [] [] [] [] [] []].
Qed.

Lemma bracketed s m : HasPrefix s "[" = true → sdrop (String.length s - 1) s = "]"%stdpp → stake (String.length s - 2) (sdrop 1 s) = m → s = "[" +:+ m +:+ "]".
Proof.
  destruct s as [|c s]; [done|]. cbn [HasPrefix String.prefix]. destruct (Ascii.ascii_dec "[" c) as [<-|]; [|done]. intros _.
  cbn [String.length]. replace (S (String.length s) - 1)%nat with (String.length s) by lia. intros Hd <-. change (sdrop 1 (String "[" s)) with s. destruct (String.length s) as [|n] eqn:E; [done|]. cbn [sdrop] in Hd.
  rewrite <- Hd. replace (S (S n) - 2)%nat with n by lia. by rewrite stake_sdrop.
Qed.

(** The host of a loopback address, with its port. *)
Lemma loopback_host u : loopback (Hostname u) = true → ∃ h p, u_Host u = h +:+ p ∧ h ∈ loopback_hosts ∧ validOptionalPort p = true.
Proof.
  unfold Hostname. set (host := match LastIndex _ _ with Some i => _ | None => _ end). intros H.
  assert (host ∈ loopback_hosts) as Hh.
  { destruct (HasPrefix host "[") eqn:E1; [|cbn [andb] in H].
    - case_bool_decide as E2; cbn [andb] in H.
      + unfold loopback in H. cbn [existsb] in H. rewrite !orb_true_iff in H.
        destruct H as [H|[H|[H|H]]]; [..|done]; apply String.eqb_eq in H; rewrite (bracketed host _ E1 E2 H); decided.
      + unfold loopback in H. cbn [existsb] in H. rewrite !orb_true_iff in H. destruct H as [H|[H|[H|H]]]; [..|done]; apply String.eqb_eq in H; rewrite H; decided.
    - unfold loopback in H. cbn [existsb] in H. rewrite !orb_true_iff in H. destruct H as [H|[H|[H|H]]]; [..|done]; apply String.eqb_eq in H; rewrite H; decided. }
  clear H. subst host. destruct (LastIndex (u_Host u) ":") as [i|].
  - destruct (validOptionalPort (sdrop i (u_Host u))) eqn:V.
    + exists (stake i (u_Host u)), (sdrop i (u_Host u)). by rewrite stake_sdrop.
    + exists (u_Host u), EmptyString. by rewrite sapp_nil_r.
  - exists (u_Host u), EmptyString. by rewrite sapp_nil_r.
Qed.

Lemma Ok_inj {A} (a b : A) : Ok a = Ok b → b = a.
Proof. by intros [= ->]. Qed.

Lemma no_line_break_app s t : no_line_break (s +:+ t) = no_line_break s && no_line_break t.
Proof. apply sforall_app. Qed.

(** C37: the address of the server: a client is made only from the address of an origin, https with any host or
    http with a loopback host and perhaps a port, so the device's token, which every request carries, never
    leaves the machine in the clear; what requests append to the address begins right behind the host, except that
    one question mark may be there; and neither the identifier nor the token can break a header. *)
Theorem New_safe base id token c : New base id token = Ok c →
  DeviceID c = id ∧ DeviceToken c = token ∧ id ≠ EmptyString ∧ token ≠ EmptyString ∧ no_line_break id = true ∧ no_line_break token = true
  ∧ ∃ host q, (q = EmptyString ∨ q = "?"%stdpp) ∧ host ≠ EmptyString ∧ sforall host_byte host = true
    ∧ (BaseURL c = "https://" +:+ host +:+ q
       ∨ BaseURL c = "http://" +:+ host +:+ q ∧ ∃ h p, host = h +:+ p ∧ h ∈ loopback_hosts ∧ validOptionalPort p = true).
Proof.
  unfold New. destruct (Parse _) as [u|]; [|done].
  destruct (sempty (u_Host u) || _ || _ || _ || _) eqn:E1; [done|]. destruct (_ && negb _) eqn:E2; [done|].
  destruct (negb (no_line_break _) || _ || _) eqn:E3; [done|]. intros H. apply Ok_inj in H. subst c. cbn [DeviceID DeviceToken BaseURL].
  apply orb_false_iff in E1 as [E1 _], E3 as [E3 Et]. apply orb_false_iff in E1 as [E1 _], E3 as [Eb Ei].
  apply orb_false_iff in E1 as [E1 Eq]. apply orb_false_iff in E1 as [E1 _].
  apply negb_false_iff in Eq, Eb. rewrite no_line_break_app in Eb. apply andb_prop in Eb as [Eb1 Eb2].
  split_and!; [done|done|by intros ->|by intros ->|done|done|]. apply sempty_true in Eq. unfold origin_string. rewrite Eq.
  exists (escape_host (u_Host u)), (if u_ForceQuery u then "?"%stdpp else EmptyString). split_and!.
  - destruct (u_ForceQuery u); auto.
  - intros H. apply escape_host_empty in H. by rewrite H in E1.
  - apply escape_host_bytes.
  - assert ((if u_ForceQuery u || negb (sempty EmptyString) then "?" +:+ EmptyString else EmptyString) = (if u_ForceQuery u then "?"%stdpp else EmptyString)) as ->
      by (by destruct (u_ForceQuery u)).
    rewrite andb_false_iff in E2. destruct (bool_decide_reflect (u_Scheme u = "https"%stdpp)) as [->|_]; [by left|]. right. destruct E2 as [|E2]; [done|].
    apply negb_false_iff, andb_prop in E2 as [Es El]. apply bool_decide_eq_true in Es. rewrite Es. split; [done|].
    destruct (loopback_host u El) as (h & p & Eh & Hh & Hp). exists h, p. split; [|done]. rewrite Eh. apply escape_host_same. rewrite sforall_app, (port_same p Hp), andb_true_r.
    unfold loopback_hosts in Hh. rewrite !elem_of_cons in Hh. destruct Hh as [->|[->|[->|[->|[->|[->|Hh%elem_of_nil]]]]]]; [vm_compute; reflexivity..|destruct Hh].
Qed.

Lemma New_safe_witness :
  ∃ c, New "https://menuvex.example/" "device-1" "secret" = Ok c ∧ BaseURL c = "https://menuvex.example"%stdpp
  ∧ DeviceToken c = "secret"%stdpp ∧ no_line_break (DeviceID c) = true.
Proof.
  eexists. split; [vm_compute; reflexivity|]. split; [reflexivity|].
  destruct (New_safe "https://menuvex.example/" "device-1" "secret" _ ltac:(vm_compute; reflexivity)) as (Hi & Ht & _ & _ & Hb & _). split; [exact Ht|].
  rewrite Hi. exact Hb.
Defined.

(** An address that ends in a question mark is taken for an origin; every request then asks for the root of the server,
    with the path of the interface as a query. *)
Lemma New_question_mark :
  ∃ c u, New "https://menuvex.example?" "device-1" "secret" = Ok c ∧ Parse (BaseURL c +:+ "/api/v1/sync" +:+ "/push") = Some u
  ∧ u_Host u = "menuvex.example"%stdpp ∧ u_Path u = EmptyString ∧ u_RawQuery u = "/api/v1/sync/push"%stdpp.
Proof. eexists _, _. split; [vm_compute; reflexivity|]. split; [vm_compute; reflexivity|]. by vm_compute. Qed.

Example addresses :
  map (λ a, match New a "d" "t" with Ok c => BaseURL c | Err e => e end)
    ["HTTP://localhost:80"; "http://[::1]:8080"; "http://menuvex.example"; "https://u@menuvex.example"; "https://menuvex.example/shop"; "http://localhost@evil.example"; "//menuvex.example"]%stdpp
  = ["http://localhost:80"; "http://[::1]:8080"; needs_https; not_an_origin; not_an_origin; not_an_origin; needs_https]%stdpp.
Proof. vm_compute. reflexivity. Qed.
