(* ===== verification/Jalali.v ===== *)
(** * The Persian calendar

    Models [offline-menuvex/jalali.go].  The conversion is shown against the calendar itself:
    months of 31, 30 and 29 or 30 days and eight leap years in a cycle of 33, started at one
    known day.  Integers do not overflow: years are those of an instant. *)
From S2P Require Import Prelude GoStrings GoFloat GoJson GoJsonFacts GoReadback GoTime Store Entities EntityView.

Local Open Scope Z_scope.

(** ** The code *)

(* jalali.go jalaliMonthNames *)
Definition jalaliMonthNames : list string :=
  ["";
   "فروردین"; "اردیبهشت"; "خرداد"; "تیر"; "مرداد"; "شهریور"; "مهر"; "آبان"; "آذر"; "دی"; "بهمن"; "اسفند"]%stdpp.

(* jalali.go jalaliWeekdayNames *)
Definition jalaliWeekdayNames : list string :=
  ["یکشنبه"; "دوشنبه"; "سه‌شنبه"; "چهارشنبه"; "پنج‌شنبه"; "جمعه"; "شنبه"]%stdpp.

Definition gDaysInMonth : list Z := [0; 31; 59; 90; 120; 151; 181; 212; 243; 273; 304; 334].

(** The day the conversion counts, and the date of a day. *)
(* jalali.go:42-47 GregorianToJalali *)
Definition day_count (gy gm gd : Z) : Z :=
  let gy2 := if 2 <? gm then gy + 1 else gy in
  355666 + 365 * gy + Z.quot (gy2 + 3) 4 - Z.quot (gy2 + 99) 100 + Z.quot (gy2 + 399) 400 + gd
  + default 0 (gDaysInMonth !! Z.to_nat (gm - 1)).

(* jalali.go:48-64 GregorianToJalali *)
Definition date_of_count (days : Z) : Z * Z * Z :=
  let jy := -1595 + 33 * Z.quot days 12053 in
  let days := Z.rem days 12053 in
  let jy := jy + 4 * Z.quot days 1461 in
  let days := Z.rem days 1461 in
  let '(jy, days) := if 365 <? days then (jy + Z.quot (days - 1) 365, Z.rem (days - 1) 365) else (jy, days) in
  if days <? 186 then (jy, 1 + Z.quot days 31, 1 + Z.rem days 31)
  else (jy, 7 + Z.quot (days - 186) 30, 1 + Z.rem (days - 186) 30).

(* jalali.go GregorianToJalali *)
Definition GregorianToJalali (gy gm gd : Z) : Z * Z * Z :=
  if (gm <? 1) || (12 <? gm) then (gy, gm, gd) else date_of_count (day_count gy gm gd).

(** Seconds east of Greenwich. *)
(* jalali.go tehranZone *)
Definition tehranZone : Z := 3 * 3600 + 30 * 60.

Definition jalali_of (t : Z) : Z * Z * Z :=
  let d := Date tehranZone t in GregorianToJalali (d_year d) (d_month d) (d_day d).

Definition month_name (jm : Z) : string :=
  if (1 <=? jm) && (jm <=? 12) then default EmptyString (jalaliMonthNames !! Z.to_nat jm) else EmptyString.

(* jalali.go FormatJalaliFull *)
Definition FormatJalaliFull (t : Z) : string :=
  let '(jy, jm, jd) := jalali_of t in
  let wd := default EmptyString (jalaliWeekdayNames !! Z.to_nat (Z.rem (Weekday tehranZone t) 7)) in
  ToPersianDigits (wd +:+ " " +:+ Z_to_dec jd +:+ " " +:+ month_name jm +:+ " " +:+ Z_to_dec jy +:+ " — ساعت "
                   +:+ pad_num 2 (Hour tehranZone t) +:+ ":" +:+ pad_num 2 (Minute tehranZone t)).

(* jalali.go FormatJalaliClock *)
Definition FormatJalaliClock (t : Z) : string :=
  ToPersianDigits (pad_num 2 (Hour tehranZone t) +:+ ":" +:+ pad_num 2 (Minute tehranZone t)).

Definition first_parse (ps : list (string → option Z)) (s : string) : option Z :=
  foldr (λ p acc, match p s with Some t => Some t | None => acc end) None ps.

Definition timestamp_layouts : list (string → option Z) := [ParseRFC3339; ParseRFC3339; ParseLocal "T"; ParseLocal " "].

Definition numeric_date (t : Z) : string :=
  let '(jy, jm, jd) := jalali_of t in pad_num 4 jy +:+ "/" +:+ pad_num 2 jm +:+ "/" +:+ pad_num 2 jd.

(* jalali.go FormatJalaliDate *)
Definition FormatJalaliDate (iso : string) : string :=
  let iso := TrimSpace iso in
  if sempty iso then "—"
  else match first_parse (timestamp_layouts ++ [ParseDateOnly]) iso with
       | Some t => ToPersianDigits (numeric_date t)
       | None => ToPersianDigits iso
       end.

(* jalali.go FormatJalaliShort *)
Definition FormatJalaliShort (iso : string) : string :=
  let iso := TrimSpace iso in
  if sempty iso then "—"
  else match first_parse timestamp_layouts iso with
       | Some t => ToPersianDigits (numeric_date t +:+ " — " +:+ pad_num 2 (Hour tehranZone t) +:+ ":" +:+ pad_num 2 (Minute tehranZone t))
       | None => ToPersianDigits iso
       end.

(** ** The calendar *)

(** Eight leap years in a cycle of 33. *)
Definition jalali_leap (y : Z) : bool := let i := (y + 1595) mod 33 in (i mod 4 =? 0) && (i <? 32).

Definition month_length (y m : Z) : Z := if m <=? 6 then 31 else if m <=? 11 then 30 else if jalali_leap y then 30 else 29.

Definition next_day (d : Z * Z * Z) : Z * Z * Z :=
  let '(y, m, d) := d in
  if d <? month_length y m then (y, m, d + 1) else if m <? 12 then (y, m + 1, 1) else (y + 1, 1, 1).

Definition valid_jalali (d : Z * Z * Z) : Prop :=
  let '(y, m, d) := d in 1 <= m <= 12 ∧ 1 <= d <= month_length y m.

Definition to_jalali (d : date) : Z * Z * Z := GregorianToJalali (d_year d) (d_month d) (d_day d).

(** ** The conversion follows the calendar *)

(** The day of the year and what becomes of it. *)
Definition of_year_day (y r : Z) : Z * Z * Z :=
  if r <? 186 then (y, 1 + r / 31, 1 + r mod 31) else (y, 7 + (r - 186) / 30, 1 + (r - 186) mod 30).

Definition year_length (y : Z) : Z := if jalali_leap y then 366 else 365.

(** The year and the day of the year of a day count. *)
Definition year_day (n : Z) : Z * Z :=
  let y := -1595 + 33 * (n / 12053) + 4 * (n mod 12053 / 1461) in
  let r := n mod 12053 mod 1461 in
  if 365 <? r then (y + (r - 1) / 365, (r - 1) mod 365) else (y, r).

Lemma date_of_count_year_day n : 0 <= n → date_of_count n = of_year_day (year_day n).1 (year_day n).2.
Proof.
  intros Hn. unfold date_of_count, year_day. pose proof (Z.mod_pos_bound n 12053 ltac:(lia)).
  rewrite (Z.rem_mod_nonneg n 12053), (Z.quot_div_nonneg n 12053) by lia.
  rewrite (Z.quot_div_nonneg (n mod 12053)), (Z.rem_mod_nonneg (n mod 12053)) by lia.
  pose proof (Z.mod_pos_bound (n mod 12053) 1461 ltac:(lia)) as Hr. set (r := n mod 12053 mod 1461) in *.
  destruct (365 <? r) eqn:E; cbn [fst snd].
  - apply Z.ltb_lt in E. rewrite Z.quot_div_nonneg, Z.rem_mod_nonneg by lia.
    pose proof (Z.mod_pos_bound (r - 1) 365 ltac:(lia)). unfold of_year_day. destruct (_ <? 186) eqn:E'.
    + rewrite Z.quot_div_nonneg, Z.rem_mod_nonneg by lia. done.
    + apply Z.ltb_ge in E'. rewrite Z.quot_div_nonneg, Z.rem_mod_nonneg by lia. done.
  - unfold of_year_day. destruct (r <? 186) eqn:E'.
    + rewrite Z.quot_div_nonneg, Z.rem_mod_nonneg by lia. done.
    + apply Z.ltb_ge in E'. rewrite Z.quot_div_nonneg, Z.rem_mod_nonneg by lia. done.
Qed.

Lemma triple_eq {A B C} (a a' : A) (b b' : B) (c c' : C) : a = a' → b = b' → c = c' → (a, b, c) = (a', b', c').
Proof. by intros -> -> ->. Qed.

(** Days of a year follow one another. *)
Lemma of_year_day_next y r : 0 <= r < year_length y - 1 → of_year_day y (r + 1) = next_day (of_year_day y r).
Proof.
  unfold year_length. intros H. assert (r < 365) as Hr by (destruct (jalali_leap y); lia). unfold of_year_day.
  destruct (r <? 186) eqn:E; [apply Z.ltb_lt in E|apply Z.ltb_ge in E].
  - pose proof (Z.div_mod r 31 ltac:(lia)). pose proof (Z.mod_pos_bound r 31 ltac:(lia)). cbn [next_day]. unfold month_length.
    rewrite (proj2 (Z.leb_le (1 + r / 31) 6)) by lia. destruct (1 + r mod 31 <? 31) eqn:D; [apply Z.ltb_lt in D|apply Z.ltb_ge in D].
    + assert ((r + 1) / 31 = r / 31 ∧ (r + 1) mod 31 = r mod 31 + 1) as [-> ->].
      { split; [symmetry; apply (Z.div_unique_pos _ _ _ (r mod 31 + 1)); lia|symmetry; apply (Z.mod_unique_pos _ _ (r / 31)); lia]. }
      rewrite (proj2 (Z.ltb_lt (r + 1) 186)) by lia. apply triple_eq; lia.
    + rewrite (proj2 (Z.ltb_lt (1 + r / 31) 12)) by lia. destruct (r + 1 <? 186) eqn:F; [apply Z.ltb_lt in F|apply Z.ltb_ge in F].
      * assert ((r + 1) / 31 = r / 31 + 1 ∧ (r + 1) mod 31 = 0) as [-> ->]; [|apply triple_eq; lia].
        split; [symmetry; apply (Z.div_unique_pos _ _ _ 0); lia|symmetry; apply (Z.mod_unique_pos _ _ (r / 31 + 1)); lia].
      * assert (r = 185) as -> by lia. reflexivity.
  - rewrite (proj2 (Z.ltb_ge (r + 1) 186)) by lia. set (s := r - 186). replace (r + 1 - 186) with (s + 1) by lia.
    pose proof (Z.div_mod s 30 ltac:(lia)). pose proof (Z.mod_pos_bound s 30 ltac:(lia)). cbn [next_day].
    assert (0 <= s < 179) by lia.
    destruct (1 + s mod 30 <? month_length y (7 + s / 30)) eqn:D; [apply Z.ltb_lt in D|apply Z.ltb_ge in D]; unfold month_length in D.
    + rewrite (proj2 (Z.leb_gt (7 + s / 30) 6)) in D by lia.
      assert (s mod 30 < 29) by (destruct (7 + s / 30 <=? 11); destruct (jalali_leap y); lia).
      assert ((s + 1) / 30 = s / 30 ∧ (s + 1) mod 30 = s mod 30 + 1) as [-> ->]; [|apply triple_eq; lia].
      split; [symmetry; apply (Z.div_unique_pos _ _ _ (s mod 30 + 1)); lia|symmetry; apply (Z.mod_unique_pos _ _ (s / 30)); lia].
    + rewrite (proj2 (Z.leb_gt (7 + s / 30) 6)) in D by lia. destruct (7 + s / 30 <=? 11) eqn:M; [apply Z.leb_le in M|apply Z.leb_gt in M].
      * rewrite (proj2 (Z.ltb_lt (7 + s / 30) 12)) by lia.
        assert ((s + 1) / 30 = s / 30 + 1 ∧ (s + 1) mod 30 = 0) as [-> ->]; [|apply triple_eq; lia].
        split; [symmetry; apply (Z.div_unique_pos _ _ _ 0); lia|symmetry; apply (Z.mod_unique_pos _ _ (s / 30 + 1)); lia].
      * exfalso. assert (s / 30 = 5) by lia. destruct (jalali_leap y); lia.
Qed.

Lemma of_year_day_last y : of_year_day (y + 1) 0 = next_day (of_year_day y (year_length y - 1)).
Proof.
  assert (month_length y 12 = if jalali_leap y then 30 else 29) as M by reflexivity.
  unfold year_length. destruct (jalali_leap y).
  - change (of_year_day y (366 - 1)) with (y, 12, 30). cbn [next_day]. by rewrite M.
  - change (of_year_day y (365 - 1)) with (y, 12, 29). cbn [next_day]. by rewrite M.
Qed.

Lemma of_year_day_valid y r : 0 <= r < year_length y → valid_jalali (of_year_day y r).
Proof.
  unfold year_length. intros H. assert (r < 366) as Hr by (destruct (jalali_leap y); lia). unfold of_year_day.
  destruct (r <? 186) eqn:E; [apply Z.ltb_lt in E|apply Z.ltb_ge in E]; cbn [valid_jalali]; unfold month_length.
  - pose proof (Z.div_mod r 31 ltac:(lia)). pose proof (Z.mod_pos_bound r 31 ltac:(lia)). rewrite (proj2 (Z.leb_le (1 + r / 31) 6)) by lia. lia.
  - set (s := r - 186). pose proof (Z.div_mod s 30 ltac:(lia)). pose proof (Z.mod_pos_bound s 30 ltac:(lia)).
    rewrite (proj2 (Z.leb_gt (7 + s / 30) 6)) by lia. destruct (7 + s / 30 <=? 11) eqn:M; [apply Z.leb_le in M|apply Z.leb_gt in M]; [lia|].
    assert (s / 30 = 5) by lia. destruct (jalali_leap y); lia.
Qed.

(** The year and its days, counted on. *)
Lemma year_day_leap n :
  let '(y, r) := year_day n in 0 <= r < year_length y.
Proof.
  unfold year_day. pose proof (Z.mod_pos_bound n 12053 ltac:(lia)) as Hm. set (a := n / 12053). set (m := n mod 12053) in *.
  pose proof (Z.div_mod m 1461 ltac:(lia)) as Hd. pose proof (Z.mod_pos_bound m 1461 ltac:(lia)) as Hr.
  set (q := m / 1461) in *. set (r := m mod 1461) in *. assert (0 <= q <= 8) as Hq by lia.
  destruct (365 <? r) eqn:E; [apply Z.ltb_lt in E|apply Z.ltb_ge in E].
  - pose proof (Z.mod_pos_bound (r - 1) 365 ltac:(lia)). unfold year_length. destruct (jalali_leap _); lia.
  - split; [lia|]. assert (q = 8 → r < 365) as H8 by lia.
    unfold year_length, jalali_leap. assert ((-1595 + 33 * a + 4 * q + 1595) mod 33 = 4 * q) as ->.
    { symmetry. apply (Z.mod_unique_pos _ _ a); lia. }
    assert (4 * q mod 4 = 0) as -> by (rewrite Z.mul_comm; apply Z.mod_mul; lia). cbn [Z.eqb andb].
    destruct (4 * q <? 32) eqn:F; [lia|]. apply Z.ltb_ge in F. lia.
Qed.

(** The cycle, its four-year blocks, the block's years. *)
Definition in_cycle (a q r : Z) : Z * Z :=
  let y := -1595 + 33 * a + 4 * q in
  if 365 <? r then (y + (r - 1) / 365, (r - 1) mod 365) else (y, r).

Lemma year_day_cycle a q r : 0 <= r < 1461 → 0 <= q → 1461 * q + r < 12053 →
  year_day (12053 * a + (1461 * q + r)) = in_cycle a q r.
Proof.
  intros Hr Hq H. unfold year_day, in_cycle.
  assert ((12053 * a + (1461 * q + r)) mod 12053 = 1461 * q + r) as -> by (symmetry; apply (Z.mod_unique_pos _ _ a); lia).
  assert ((12053 * a + (1461 * q + r)) / 12053 = a) as -> by (symmetry; apply (Z.div_unique_pos _ _ _ (1461 * q + r)); lia).
  assert ((1461 * q + r) mod 1461 = r) as -> by (symmetry; apply (Z.mod_unique_pos _ _ q); lia).
  assert ((1461 * q + r) / 1461 = q) as -> by (symmetry; apply (Z.div_unique_pos _ _ _ r); lia). done.
Qed.

Lemma leap_in_cycle a i : 0 <= i < 33 → jalali_leap (-1595 + 33 * a + i) = (i mod 4 =? 0) && (i <? 32).
Proof.
  intros Hi. unfold jalali_leap. assert ((-1595 + 33 * a + i + 1595) mod 33 = i) as ->; [|done].
  symmetry. apply (Z.mod_unique_pos _ _ a); lia.
Qed.

Lemma in_cycle_next a q r : 0 <= r < 1460 → 0 <= q <= 8 → (q = 8 → r < 364) →
  in_cycle a q (r + 1) = let '(y, d) := in_cycle a q r in if d <? year_length y - 1 then (y, d + 1) else (y + 1, 0).
Proof.
  intros Hr Hq H8. unfold in_cycle, year_length.
  assert (jalali_leap (-1595 + 33 * a + 4 * q) = (q <? 8)) as L0.
  { rewrite leap_in_cycle by lia. rewrite Z.mul_comm, Z.mod_mul by lia. cbn [Z.eqb andb].
    destruct (q <? 8) eqn:E; [apply Z.ltb_lt in E; apply Z.ltb_lt; lia|apply Z.ltb_ge in E; apply Z.ltb_ge; lia]. }
  destruct (365 <? r) eqn:E; [apply Z.ltb_lt in E|apply Z.ltb_ge in E].
  - rewrite (proj2 (Z.ltb_lt 365 (r + 1))) by lia. pose proof (Z.div_mod (r - 1) 365 ltac:(lia)). pose proof (Z.mod_pos_bound (r - 1) 365 ltac:(lia)).
    set (k := (r - 1) / 365) in *. set (d := (r - 1) mod 365) in *. assert (1 <= k <= 3) as Hk by lia.
    assert (jalali_leap (-1595 + 33 * a + 4 * q + k) = false) as ->.
    { rewrite <- Z.add_assoc, leap_in_cycle by lia. replace (4 * q + k) with (k + q * 4) by lia. rewrite Z.mod_add, Z.mod_small by lia.
      assert (k = 1 ∨ k = 2 ∨ k = 3) as [-> | [-> | ->]] by lia; done. }
    replace (r + 1 - 1) with (r - 1 + 1) by lia. destruct (d <? 365 - 1) eqn:F; [apply Z.ltb_lt in F|apply Z.ltb_ge in F].
    + assert ((r - 1 + 1) / 365 = k ∧ (r - 1 + 1) mod 365 = d + 1) as [-> ->]; [|done].
      split; [symmetry; apply (Z.div_unique_pos _ _ _ (d + 1)); lia|symmetry; apply (Z.mod_unique_pos _ _ k); lia].
    + assert ((r - 1 + 1) / 365 = k + 1 ∧ (r - 1 + 1) mod 365 = 0) as [-> ->]; [|f_equal; lia].
      split; [symmetry; apply (Z.div_unique_pos _ _ _ 0); lia|symmetry; apply (Z.mod_unique_pos _ _ (k + 1)); lia].
  - rewrite L0. destruct (q <? 8) eqn:Q.
    + destruct (365 <? r + 1) eqn:F; [apply Z.ltb_lt in F|apply Z.ltb_ge in F].
      * assert (r = 365) as -> by lia. done.
      * by rewrite (proj2 (Z.ltb_lt r (366 - 1))) by lia.
    + apply Z.ltb_ge in Q. assert (r < 364) by lia. rewrite (proj2 (Z.ltb_ge 365 (r + 1))), (proj2 (Z.ltb_lt r (365 - 1))) by lia. done.
Qed.

Lemma year_day_next n :
  year_day (n + 1) = let '(y, d) := year_day n in if d <? year_length y - 1 then (y, d + 1) else (y + 1, 0).
Proof.
  pose proof (Z.div_mod n 12053 ltac:(lia)) as Hn. pose proof (Z.mod_pos_bound n 12053 ltac:(lia)) as Hm.
  set (a := n / 12053) in *. set (m := n mod 12053) in *.
  pose proof (Z.div_mod m 1461 ltac:(lia)) as Hd. pose proof (Z.mod_pos_bound m 1461 ltac:(lia)) as Hr.
  set (q := m / 1461) in *. set (r := m mod 1461) in *. assert (0 <= q <= 8) as Hq by lia.
  rewrite Hn, Hd, year_day_cycle by lia.
  destruct (decide (r < 1460 ∧ (q = 8 → r < 364))) as [[H1 H2]|H].
  - rewrite <- in_cycle_next by lia. rewrite <- year_day_cycle by lia. f_equal. lia.
  - assert (q < 8 ∧ r = 1460 ∨ q = 8 ∧ r = 364) as [[Hq8 ->]|[-> ->]] by lia.
    + replace (12053 * a + (1461 * q + 1460) + 1) with (12053 * a + (1461 * (q + 1) + 0)) by lia. rewrite year_day_cycle by lia.
      unfold in_cycle. change (365 <? 1460) with true. change (365 <? 0) with false. cbv beta iota zeta. change ((1460 - 1) / 365) with 3. change ((1460 - 1) mod 365) with 364.
      assert (year_length (-1595 + 33 * a + 4 * q + 3) = 365) as ->; [|cbn; f_equal; lia].
      unfold year_length. rewrite <- Z.add_assoc, leap_in_cycle by lia. replace (4 * q + 3) with (3 + q * 4) by lia. by rewrite Z.mod_add by lia.
    + replace (12053 * a + (1461 * 8 + 364) + 1) with (12053 * (a + 1) + (1461 * 0 + 0)) by lia. rewrite year_day_cycle by lia.
      unfold in_cycle. change (365 <? 364) with false. change (365 <? 0) with false. cbv beta iota zeta. assert (year_length (-1595 + 33 * a + 4 * 8) = 365) as ->; [|cbn; f_equal; lia].
      unfold year_length. by rewrite leap_in_cycle by lia.
Qed.

Lemma date_of_count_next n : 0 <= n → date_of_count (n + 1) = next_day (date_of_count n).
Proof.
  intros Hn. rewrite !date_of_count_year_day, year_day_next by lia. pose proof (year_day_leap n) as H.
  destruct (year_day n) as [y d]. cbn [fst snd]. destruct (d <? year_length y - 1) eqn:E; [apply Z.ltb_lt in E|apply Z.ltb_ge in E]; cbn [fst snd].
  - apply of_year_day_next. lia.
  - assert (d = year_length y - 1) as -> by lia. apply of_year_day_last.
Qed.

Lemma div_step y k : 0 < k → y / k = (y - 1) / k + (if y mod k =? 0 then 1 else 0).
Proof.
  intros Hk. pose proof (Z.div_mod y k ltac:(lia)). pose proof (Z.mod_pos_bound y k ltac:(lia)).
  destruct (y mod k =? 0) eqn:E; [apply Z.eqb_eq in E|apply Z.eqb_neq in E].
  - assert ((y - 1) / k = y / k - 1) as ->; [|lia]. symmetry. apply (Z.div_unique_pos _ _ _ (k - 1)); lia.
  - assert ((y - 1) / k = y / k) as ->; [|lia]. symmetry. apply (Z.div_unique_pos _ _ _ (y mod k - 1)); lia.
Qed.

Lemma is_leap_steps y : (if is_leap y then 1 else 0) =
  (if y mod 4 =? 0 then 1 else 0) - (if y mod 100 =? 0 then 1 else 0) + (if y mod 400 =? 0 then 1 else 0).
Proof.
  unfold is_leap. assert (y mod 400 = 0 → y mod 100 = 0) as H1.
  { intros H. apply Z.mod_divide in H as [z ->]; [|lia]. apply Z.mod_divide; [lia|]. exists (4 * z). lia. }
  assert (y mod 100 = 0 → y mod 4 = 0) as H2.
  { intros H. apply Z.mod_divide in H as [z ->]; [|lia]. apply Z.mod_divide; [lia|]. exists (25 * z). lia. }
  destruct (y mod 4 =? 0) eqn:E4, (y mod 100 =? 0) eqn:E100, (y mod 400 =? 0) eqn:E400; rewrite ?Z.eqb_eq, ?Z.eqb_neq in *; try lia; done.
Qed.

(** The count is the day number, moved. *)
Lemma day_count_days d : 0 <= d_year d → 1 <= d_month d <= 12 → day_count (d_year d) (d_month d) (d_day d) = days_of_date d + 356033.
Proof.
  destruct d as [y m dd]. cbn [d_year d_month d_day]. intros Hy Hm. unfold day_count, days_of_date, year_days. cbn [d_year d_month d_day].
  assert (Hq : ∀ a b, 0 <= a → 0 < b → Z.quot a b = a / b) by (intros; apply Z.quot_div_nonneg; lia).
  assert (default 0 (gDaysInMonth !! Z.to_nat (m - 1)) = days_before false m) as ->.
  { assert (m = 1 ∨ m = 2 ∨ m = 3 ∨ m = 4 ∨ m = 5 ∨ m = 6 ∨ m = 7 ∨ m = 8 ∨ m = 9 ∨ m = 10 ∨ m = 11 ∨ m = 12) as H by lia.
    repeat (destruct H as [-> |H]; [reflexivity|]). subst. reflexivity. }
  assert ((y + 3) / 4 = (y - 1) / 4 + 1) as E4 by (rewrite <- (Z.div_add (y - 1) 1 4) by lia; f_equal; lia).
  assert ((y + 99) / 100 = (y - 1) / 100 + 1) as E100 by (rewrite <- (Z.div_add (y - 1) 1 100) by lia; f_equal; lia).
  assert ((y + 399) / 400 = (y - 1) / 400 + 1) as E400 by (rewrite <- (Z.div_add (y - 1) 1 400) by lia; f_equal; lia).
  destruct (2 <? m) eqn:E; [apply Z.ltb_lt in E|apply Z.ltb_ge in E].
  - rewrite !Hq by lia. replace (y + 1 + 3) with (y + 1 * 4) by lia. replace (y + 1 + 99) with (y + 1 * 100) by lia.
    replace (y + 1 + 399) with (y + 1 * 400) by lia. rewrite !Z.div_add by lia.
    pose proof (div_step y 4 ltac:(lia)) as S4. pose proof (div_step y 100 ltac:(lia)) as S100. pose proof (div_step y 400 ltac:(lia)) as S400.
    pose proof (is_leap_steps y) as L.
    assert (days_before (is_leap y) m = days_before false m + (if is_leap y then 1 else 0)) as ->.
    { unfold days_before. rewrite !(proj2 (Z.eqb_neq m 1)), !(proj2 (Z.eqb_neq m 2)) by lia. destruct (is_leap y); repeat case_match; lia. }
    lia.
  - rewrite !Hq by lia. rewrite E4, E100, E400.
    assert (days_before (is_leap y) m = days_before false m) as ->; [|lia].
    unfold days_before. assert (m = 1 ∨ m = 2) as [-> | ->] by lia; done.
Qed.

Lemma date_of_days_year d : 0 <= d → 1 <= d_year (date_of_days d).
Proof.
  intros Hd. unfold date_of_days. cbn [d_year].
  pose proof (Z.div_mod d 146097 ltac:(lia)). pose proof (Z.mod_pos_bound d 146097 ltac:(lia)).
  set (a := d / 146097) in *. assert (0 <= a) by (apply Z.div_pos; lia).
  set (d1 := d - 146097 * a) in *. assert (0 <= d1) by lia. assert (0 <= d1 / 36524) by (apply Z.div_pos; lia).
  pose proof (Z.mul_div_le d1 36524 ltac:(lia)).
  set (b := Z.min 3 (d1 / 36524)) in *. set (d2 := d1 - 36524 * b) in *. assert (0 <= d2) by lia. assert (0 <= d2 / 1461) by (apply Z.div_pos; lia).
  pose proof (Z.mul_div_le d2 1461 ltac:(lia)). set (d3 := d2 - 1461 * (d2 / 1461)) in *. assert (0 <= d3 / 365) by (apply Z.div_pos; lia). lia.
Qed.

Lemma to_jalali_days d : 0 <= d → to_jalali (date_of_days d) = date_of_count (d + 356033).
Proof.
  intros Hd. destruct (date_of_days_valid d) as (Hm & _ & Hdd). pose proof (date_of_days_year d Hd). unfold to_jalali, GregorianToJalali.
  rewrite (proj2 (Z.ltb_ge _ 1)), (proj2 (Z.ltb_ge 12 _)) by lia. cbn [orb]. rewrite day_count_days by lia. by rewrite Hdd.
Qed.

(** C27: the conversion is the Persian calendar.  From January 1 of the year 1, which is Dey 11
    of the year -621, on, the conversion of a day is what counting the days on in the
    calendar gives: months of 31, 30 and 29 or 30 days, leap years eight in 33; so no day is
    skipped or repeated, every result is a day of its month, and March 21, 2025 is the first
    day of 1404. *)
Theorem GregorianToJalali_calendar d : 0 <= d →
  to_jalali (date_of_days d) = Nat.iter (Z.to_nat d) next_day (-621, 10, 11)
  ∧ valid_jalali (to_jalali (date_of_days d))
  ∧ to_jalali (date_of_days (d + 1)) = next_day (to_jalali (date_of_days d))
  ∧ GregorianToJalali 2025 3 21 = (1404, 1, 1).
Proof.
  intros Hd. split; [|split; [|split; [|vm_compute; reflexivity]]].
  - rewrite to_jalali_days by lia. pattern d. apply natlike_ind; [vm_compute; reflexivity| |done].
    intros x Hx IH. rewrite Z2Nat.inj_succ, Nat.iter_succ by lia. rewrite <- IH.
    replace (Z.succ x + 356033) with (x + 356033 + 1) by lia. apply date_of_count_next. lia.
  - rewrite to_jalali_days, date_of_count_year_day by lia. pose proof (year_day_leap (d + 356033)) as H.
    destruct (year_day _). by apply of_year_day_valid.
  - rewrite !to_jalali_days by lia. rewrite <- date_of_count_next by lia. f_equal. lia.
Qed.

Lemma GregorianToJalali_calendar_witness :
  0 <= 739694 ∧ date_of_days 739694 = {| d_year := 2026; d_month := 3; d_day := 20 |}
  ∧ to_jalali (date_of_days 739695) = (1405, 1, 1).
Proof.
  split; [lia|]. split; [vm_compute; reflexivity|].
  destruct (GregorianToJalali_calendar 739694 ltac:(lia)) as (_ & _ & H & _). exact H.
Defined.

(** ** Stored timestamps *)

Lemma unix_sec_second t : unix_sec (unix_sec t * second) = unix_sec t.
Proof. unfold unix_sec. apply Z.div_mul. unfold second. lia. Qed.

Lemma plain_digits s : sforall is_digit s = true → sforall is_plain s = true.
Proof. apply sforall_impl. intros c. unfold is_digit, is_plain, in_range. rewrite !andb_true_iff, !N.leb_le. lia. Qed.

Lemma FormatRFC3339_plain t : four_digit_year t → sforall is_plain (FormatRFC3339 t) = true.
Proof.
  intros Hy. unfold FormatRFC3339, FormatDate, FormatClock. pose proof (clock_bounds 0 t) as (H1 & H2 & H3).
  unfold four_digit_year, Date in Hy. destruct (date_of_days_valid ((unix_sec t + 0) / 86400 + epoch_day)) as (Hm & Hd & _).
  rewrite !sforall_app, !andb_true_iff. split_and!; try reflexivity; apply plain_digits; apply pad_num_digits; unfold Date; lia.
Qed.

(** the times the program stores are shown in Tehran.  A timestamp written by the program
    with a year of four digits is shown by [FormatJalaliShort] as the Persian date and the
    time of day it is in Tehran, three hours and a half ahead, at that instant. *)
Theorem FormatJalaliShort_stored t : four_digit_year t →
  let local := unix_sec t + 12600 in
  let '(jy, jm, jd) := to_jalali (date_of_days (local / 86400 + epoch_day)) in
  FormatJalaliShort (FormatRFC3339 t)
  = ToPersianDigits (pad_num 4 jy +:+ "/" +:+ pad_num 2 jm +:+ "/" +:+ pad_num 2 jd +:+ " — "
      +:+ pad_num 2 (local mod 86400 / 3600) +:+ ":" +:+ pad_num 2 (local mod 86400 / 60 mod 60)).
Proof.
  intros Hy. cbv zeta. unfold FormatJalaliShort. rewrite TrimSpace_plain by (by apply FormatRFC3339_plain).
  assert (sempty (FormatRFC3339 t) = false) as ->.
  { unfold FormatRFC3339, FormatDate. unfold pad_num. destruct (sempty _) eqn:E; [|done]. apply sempty_true, (f_equal String.length) in E.
    rewrite !slength_app in E. cbn in E. lia. }
  unfold timestamp_layouts, first_parse. cbn [foldr]. rewrite (ParseRFC3339_Format t Hy). unfold numeric_date, jalali_of.
  unfold Date, Hour, Minute, clock_sec. rewrite unix_sec_second. change tehranZone with 12600. fold (to_jalali (date_of_days ((unix_sec t + 12600) / 86400 + epoch_day))).
  destruct (to_jalali _) as [[jy jm] jd]. by rewrite !sapp_assoc.
Qed.

Lemma FormatJalaliShort_stored_witness :
  four_digit_year 1742545800000000000 ∧ FormatJalaliShort "2025-03-21T08:30:00Z" = "۱۴۰۴/۰۱/۰۱ — ۱۲:۰۰".
Proof.
  assert (four_digit_year 1742545800000000000) as H by (vm_compute; split; discriminate). split; [exact H|].
  exact (FormatJalaliShort_stored 1742545800000000000 H).
Defined.
