(* ===== verification/Auth.v ===== *)
(** * Licence, sessions and the gate in front of the application

    Models [offline-menuvex/auth.go] and the front of [Handler] in [offline-menuvex/app.go]:
    the signed licence file, the sessions and their file, the logins, and the checks every
    request passes before it is served.  Files are their contents; what the system calls do
    is given with each operation.  The machine's time zone is a fixed offset of whole
    minutes.  Templates and the routing of [ServeMux] are left out: a response is which page
    is shown or where it redirects. *)
From S2P Require Import Prelude GoStrings GoFloat GoJson GoJsonFacts GoReadback GoTime GoCrypto Store Entities EntityView GoIndent.

Local Open Scope Z_scope.

(** ** Data *)

(* auth.go licensePayload *)
Record licensePayload := { lp_KeyHash : string; lp_Holder : string; lp_Plan : string; lp_IssuedAt : string; lp_ExpiresAt : string }.

(* auth.go licenseFile *)
Record licenseFile := { lf_Payload : licensePayload; lf_Sig : string }.

(* auth.go LicenseState *)
Record LicenseStatus := {
  ls_Valid : bool; ls_Expired : bool; ls_Holder : string; ls_Plan : string; ls_DaysLeft : Z; ls_ExpiresAt : string;
}.

(* auth.go sessionInfo *)
Record sessionInfo := { si_Role : string; si_Name : string }.

(** The files beside the database. *)
Record Vault := { v_license : option string; v_secret : option string; v_sessions : option string }.

(** Outcomes of the calls, in the order an operation makes them; a failed write leaves a part. *)
Record VaultIO := {
  vi_rand : option (list N);
  vi_mkdir : option string;
  vi_write_secret : option (string * nat);
  vi_mkdir_license : option string;
  vi_write : option string;
  vi_rename : option string;
}.

Definition set_license (t : string) (v : Vault) : Vault := {| v_license := Some t; v_secret := v_secret v; v_sessions := v_sessions v |}.
Definition set_secret (t : string) (v : Vault) : Vault := {| v_license := v_license v; v_secret := Some t; v_sessions := v_sessions v |}.
Definition set_sessions (t : string) (v : Vault) : Vault := {| v_license := v_license v; v_secret := v_secret v; v_sessions := Some t |}.

(** ** The secret and the signature *)

(* auth.go Application.licenseSecret *)
Definition licenseSecret (io : VaultIO) (v : Vault) : res string * Vault :=
  let fresh :=
    match vi_rand io with
    | None => (Err rand_error, v)
    | Some b =>
        match vi_mkdir io with
        | Some e => (Err e, v)
        | None =>
            let secret := text_of_bytes b in
            match vi_write_secret io with
            | Some (e, n) => (Err e, set_secret (stake n secret) v)
            | None => (Ok secret, set_secret secret v)
            end
        end
    end in
  match v_secret v with
  | Some raw => if (32 <=? String.length raw)%nat then (Ok raw, v) else fresh
  | None => fresh
  end.

Definition payload_members (p : licensePayload) : list (string * string) :=
  [("key_hash", lp_KeyHash p); ("holder", lp_Holder p); ("plan", lp_Plan p); ("issued_at", lp_IssuedAt p); ("expires_at", lp_ExpiresAt p)].

(** [json.Marshal(payload)] *)
Definition payload_text (p : licensePayload) : string := object_text (map (λ m, (m.1, quote m.2)) (payload_members p)).

(* auth.go Application.signLicense *)
Definition signLicense (io : VaultIO) (p : licensePayload) (v : Vault) : res string * Vault :=
  match licenseSecret io v with
  | (Ok secret, v) => (Ok (hex_encode (hmac_sha256 secret (payload_text p))), v)
  | (Err e, v) => (Err e, v)
  end.

(** ** The licence's state *)

Definition dec_license_payload (start : licensePayload) (o : list (string * (string * json))) : option licensePayload :=
  let from old k := foldl (λ acc m, match acc, m.2 with Some s, JNull => Some s | Some _, JStr _ s => Some s | _, _ => None end)
                      (Some old) (struct_members k o) in
  match from (lp_KeyHash start) "key_hash", from (lp_Holder start) "holder", from (lp_Plan start) "plan",
        from (lp_IssuedAt start) "issued_at", from (lp_ExpiresAt start) "expires_at" with
  | Some k, Some h, Some p, Some i, Some e => Some {| lp_KeyHash := k; lp_Holder := h; lp_Plan := p; lp_IssuedAt := i; lp_ExpiresAt := e |}
  | _, _, _, _, _ => None
  end.

Definition no_payload : licensePayload :=
  {| lp_KeyHash := EmptyString; lp_Holder := EmptyString; lp_Plan := EmptyString; lp_IssuedAt := EmptyString; lp_ExpiresAt := EmptyString |}.

(** [json.Unmarshal(raw, &lf)] *)
Definition decode_license (raw : string) : option licenseFile :=
  match parse_json raw with
  | Some JNull => Some {| lf_Payload := no_payload; lf_Sig := EmptyString |}
  | Some (JObj o) =>
      let payload := foldl (λ acc m, match acc, m.2 with
                                     | Some p, JNull => Some p
                                     | Some p, JObj o => dec_license_payload p o
                                     | _, _ => None
                                     end) (Some no_payload) (struct_members "payload" o) in
      match payload, dec_string (struct_members "sig" o) with
      | Some p, Some s => Some {| lf_Payload := p; lf_Sig := s |}
      | _, _ => None
      end
  | _ => None
  end.

Definition no_license : LicenseStatus :=
  {| ls_Valid := false; ls_Expired := false; ls_Holder := EmptyString; ls_Plan := EmptyString; ls_DaysLeft := 0; ls_ExpiresAt := EmptyString |}.

(** [time.Until(exp)], cut off at the ends of a [Duration]. *)
Definition duration_until (now exp : Z) : Z := Z.max (- two63) (Z.min (two63 - 1) (exp - now)).

(** [d.Hours()] *)
Definition Hours (d : Z) : f64 :=
  fadd (f64_of_Z (Z.quot d 3600000000000)) (fdiv (f64_of_Z (Z.rem d 3600000000000)) (f64_of_Z 3600000000000)).

(** [now] and [now'] are the two readings of the clock. *)
(* auth.go Application.LicenseState *)
Definition LicenseState (io : VaultIO) (now now' : Z) (v : Vault) : LicenseStatus * Vault :=
  match v_license v with
  | None => (no_license, v)
  | Some raw =>
      match decode_license raw with
      | None => (no_license, v)
      | Some lf =>
          match signLicense io (lf_Payload lf) v with
          | (Err _, v) => (no_license, v)
          | (Ok expect, v) =>
              if negb (bool_decide (expect = lf_Sig lf)) then (no_license, v)
              else match ParseRFC3339 (lp_ExpiresAt (lf_Payload lf)) with
                   | None => (no_license, v)
                   | Some exp =>
                       let days := f64_to_int64 (fdiv (Hours (duration_until now exp)) (f64_of_Z 24)) in
                       ({| ls_Valid := true; ls_Expired := (exp <? now')%Z; ls_Holder := lp_Holder (lf_Payload lf);
                           ls_Plan := lp_Plan (lf_Payload lf); ls_DaysLeft := (if days <? 0 then 0 else days)%Z;
                           ls_ExpiresAt := lp_ExpiresAt (lf_Payload lf) |}, v)
                   end
          end
      end
  end.

(** ** Activation *)

(** RFC 3339 in the zone [off] seconds east. *)
Definition zone_text (off : Z) : string :=
  if (off =? 0)%Z then "Z"
  else (if (off <? 0)%Z then "-" else "+") +:+ pad_num 2 (Z.abs off / 3600) +:+ ":" +:+ pad_num 2 (Z.abs off / 60 mod 60).

Definition FormatRFC3339_in (off t : Z) : string := FormatDate (Date off t) +:+ "T" +:+ FormatClock off t +:+ zone_text off.

Definition license_plan : string := "اشتراک آفلاین منووکس".
Definition bad_key : string := "کد لایسنس معتبر نیست؛ کد خریداری‌شده را کامل وارد کنید".

(** The days a key gives: those behind its last dash, from a week to ten years, else a year. *)
(* auth.go:127-132 Application.ActivateLicense *)
Definition key_days (key : string) : Z :=
  match LastIndex key "-" with
  | Some (S i) =>
      match Atoi (TrimSpace (sdrop (S (S i)) key)) with
      | (n, true) => if (7 <=? n)%Z && (n <=? 3650)%Z then n else 365
      | _ => 365
      end
  | _ => 365
  end.

(* auth.go:133-141 Application.ActivateLicense *)
Definition new_payload (off now : Z) (key holder : string) : licensePayload :=
  {| lp_KeyHash := hex_encode (sha256 key); lp_Holder := holder; lp_Plan := license_plan;
     lp_IssuedAt := FormatRFC3339_in off now; lp_ExpiresAt := FormatRFC3339_in off (now + key_days key * 86400 * second) |}.

(** [json.MarshalIndent(lf, "", "  ")] *)
Definition license_text (lf : licenseFile) : string :=
  indent false false 0 (object_text [("payload", payload_text (lf_Payload lf)); ("sig", quote (lf_Sig lf))]).

(** [io'], [now1] and [now2] are for the state read at the end. *)
(* auth.go Application.ActivateLicense *)
Definition ActivateLicense (io io' : VaultIO) (off now now1 now2 : Z) (key holder : string) (v : Vault) : res LicenseStatus * Vault :=
  let key := TrimSpace key in
  let holder := TrimSpace holder in
  if (length (runes key) <? 4)%nat then (Err bad_key, v)
  else
    let holder := if sempty holder then "کافه من"%stdpp else holder in
    let p := new_payload off now key holder in
    match signLicense io p v with
    | (Err e, v) => (Err e, v)
    | (Ok sig, v) =>
        match vi_mkdir_license io, vi_write io, vi_rename io with
        | Some e, _, _ | None, Some e, _ | None, None, Some e => (Err e, v)
        | None, None, None =>
            let '(st, v) := LicenseState io' now1 now2 (set_license (license_text {| lf_Payload := p; lf_Sig := sig |}) v) in
            (Ok st, v)
        end
    end.

(** ** Sessions *)

Abbreviation sessions_map := (option (gmap string sessionInfo)).

Definition session_any (s : sessionInfo) : goany := AMap [("Role", AStr (si_Role s)); ("Name", AStr (si_Name s))].

(** [json.Marshal(a.sessions)]; a nil map is null. *)
Definition sessions_text (m : sessions_map) : string :=
  match m with
  | None => "null"
  | Some m => marshal (AMap (map (λ p, (p.1, session_any p.2)) (sorted_entries m)))
  end.

(** A text field that keeps what it has when the value is of another kind. *)
Definition lenient_string (ms : list (string * json)) : string :=
  foldl (λ acc m, match m.2 with JStr _ s => s | _ => acc end) EmptyString ms.

Definition lenient_session (j : json) : sessionInfo :=
  match j with
  | JObj o => {| si_Role := lenient_string (struct_members "Role" o); si_Name := lenient_string (struct_members "Name" o) |}
  | _ => {| si_Role := EmptyString; si_Name := EmptyString |}
  end.

(** Errors of [json.Unmarshal] are ignored: what was decoded stays. *)
(* auth.go loadSessionsFile *)
Definition loadSessionsFile (file : option string) : sessions_map :=
  match file with
  | None => Some ∅
  | Some raw =>
      match parse_json raw with
      | Some JNull => None
      | Some (JObj o) => Some (foldl (λ m p, <[p.1 := lenient_session p.2.2]> m) ∅ o)
      | _ => Some ∅
      end
  end.

(** The part of the application the gate looks at. *)
Record Gate := {
  g_vault : Vault; g_sessions : sessions_map; g_sessionsPath : bool; g_csrf : string; g_allowed : gset string; g_authDisabled : bool;
}.

Definition with_vault (v : Vault) (a : Gate) : Gate :=
  {| g_vault := v; g_sessions := g_sessions a; g_sessionsPath := g_sessionsPath a; g_csrf := g_csrf a; g_allowed := g_allowed a;
     g_authDisabled := g_authDisabled a |}.
Definition with_sessions (m : sessions_map) (a : Gate) : Gate :=
  {| g_vault := g_vault a; g_sessions := m; g_sessionsPath := g_sessionsPath a; g_csrf := g_csrf a; g_allowed := g_allowed a;
     g_authDisabled := g_authDisabled a |}.

(** [saved]: whether writing and renaming the file succeed. *)
(* auth.go Application.persistSessionsLocked *)
Definition persistSessionsLocked (saved : bool) (a : Gate) : Gate :=
  if negb (g_sessionsPath a) then a
  else if saved then with_vault (set_sessions (sessions_text (g_sessions a)) (g_vault a)) a else a.

(** The cookie that is set, or none when there is no randomness. *)
(* auth.go Application.newSession *)
Definition newSession (rand : option (list N)) (saved : bool) (role name : string) (a : Gate) : option string * Gate :=
  match rand with
  | None => (None, a)
  | Some b =>
      let token := hex_encode (text_of_bytes b) in
      let m := default ∅ (g_sessions a) in
      (Some token, persistSessionsLocked saved (with_sessions (Some (<[token := {| si_Role := role; si_Name := name |}]> m)) a))
  end.

Record HttpRequest := {
  hr_Method : string; hr_Host : string; hr_Path : string; hr_ContentType : string;
  hr_Query : list (string * string);            (* of the address *)
  hr_Form : option (list (string * string));    (* what parsing the form gives *)
  hr_Cookie : option string;                    (* coffish_session *)
}.

(** [Values.Get]: the first value. *)
Definition Get (k : string) (l : list (string * string)) : string :=
  match List.find (λ p, bool_decide (p.1 = k)) l with Some p => p.2 | None => EmptyString end.

(* auth.go Application.sessionOf *)
Definition sessionOf (r : HttpRequest) (a : Gate) : option sessionInfo :=
  match hr_Cookie r with
  | None => None
  | Some c => if sempty c then None else default ∅ (g_sessions a) !! c
  end.

(* auth.go Application.dropSession *)
Definition dropSession (saved : bool) (r : HttpRequest) (a : Gate) : Gate :=
  match hr_Cookie r with
  | None => a
  | Some c => persistSessionsLocked saved (with_sessions (delete c <$> g_sessions a) a)
  end.

(** ** Pages and the gate *)

(* auth.go authPageData *)
Record authPageData := { ap_Error : string; ap_Notice : string; ap_Expired : bool; ap_License : LicenseStatus }.

Inductive Response :=
| Refused (status : Z) (message : string)
| RedirectTo (path : string)
| Rendered (template : string) (data : authPageData).

Definition page_data (error : string) (expired : bool) (lic : LicenseStatus) : authPageData :=
  {| ap_Error := error; ap_Notice := EmptyString; ap_Expired := expired; ap_License := lic |}.

(* auth.go authExemptPath *)
Definition authExemptPath (path : string) : bool :=
  bool_decide (path = "/license") || bool_decide (path = "/login") || bool_decide (path = "/logout")
  || bool_decide (path = "/license/activate") || HasPrefix path "/static/".

Definition has_session (r : HttpRequest) (a : Gate) : bool := match sessionOf r a with Some _ => true | None => false end.

(** [None]: the request goes on. *)
(* auth.go Application.enforceAuth *)
Definition enforceAuth (io : VaultIO) (now now' : Z) (r : HttpRequest) (a : Gate) : option Response * Gate :=
  let path := hr_Path r in
  let '(lic, v) := LicenseState io now now' (g_vault a) in
  let a := with_vault v a in
  if bool_decide (path = "/license") then
    if ls_Valid lic && negb (ls_Expired lic) then
      (Some (RedirectTo (if has_session r a then "/" else "/login")), a)
    else (Some (Rendered "license" (page_data EmptyString (ls_Expired lic || bool_decide (Get "expired" (hr_Query r) = "1")) lic)), a)
  else if negb (ls_Valid lic) then (Some (RedirectTo "/license"), a)
  else if ls_Expired lic then (Some (RedirectTo "/license?expired=1"), a)
  else if bool_decide (path = "/login") then
    if has_session r a then (Some (RedirectTo "/"), a)
    else (Some (Rendered "login" (page_data EmptyString false lic)), a)
  else if negb (has_session r a) then (Some (RedirectTo "/login"), a)
  else (None, a).

(** [net.SplitHostPort]: the host, when there is one port. *)
Definition SplitHostPort (hostport : string) : option string :=
  match LastIndex hostport ":" with
  | None => None
  | Some i =>
      let '(host_ok, j, k) :=
        match hostport with
        | String "[" _ =>
            match SplitN2 "]" hostport with
            | (before, Some _) =>
                let e := String.length before in
                if (S e =? i)%nat then (Some (sdrop 1 before), 1%nat, S e) else (None, O, O)
            | (_, None) => (None, O, O)
            end
        | _ => (if Contains (stake i hostport) ":" then None else Some (stake i hostport), O, O)
        end in
      match host_ok with
      | None => None
      | Some h => if Contains (sdrop j hostport) "[" || Contains (sdrop k hostport) "]" then None else Some h
      end
  end.

Definition trim_brackets (s : string) : string :=
  let is_bracket c := bool_decide (c = "["%char) || bool_decide (c = "]"%char) in
  of_list (rev (drop_while is_bracket (rev (drop_while is_bracket (to_list s))))).

Definition HasSuffix (s suffix : string) : bool :=
  (String.length suffix <=? String.length s)%nat && bool_decide (sdrop (String.length s - String.length suffix) s = suffix).

(* app.go:1884-1892 Application.Handler *)
Definition host_allowed (r : HttpRequest) (a : Gate) : bool :=
  let host := match SplitHostPort (hr_Host r) with Some h => h | None => trim_brackets (hr_Host r) end in
  let host := ToLower host in
  bool_decide (host ∈ g_allowed a) || HasSuffix host ".e2b.app".

(* auth.go Application.handleLogout *)
Definition handleLogout (saved : bool) (r : HttpRequest) (a : Gate) : Response * Gate :=
  (RedirectTo "/login", dropSession saved r a).

(** What stands before [mux.ServeHTTP]; [None]: the request is served. *)
(* app.go:1883-1933 Application.Handler *)
Definition Handler (io : VaultIO) (now now' : Z) (saved : bool) (r : HttpRequest) (a : Gate) : option Response * Gate :=
  if negb (host_allowed r a) then (Some (Refused 403 "host not allowed"), a)
  else
    let form_refused :=
      if negb (bool_decide (hr_Method r = "GET")) && negb (bool_decide (hr_Method r = "HEAD")) && negb (HasPrefix (hr_Path r) "/api/v1/") then
        match hr_Form r with
        | None => Some (Refused 400 "invalid form")
        | Some form => if negb (bool_decide (Get "csrf" form = g_csrf a)) then Some (Refused 403 "invalid CSRF token") else None
        end
      else None in
    match form_refused with
    | Some resp => (Some resp, a)
    | None =>
        if g_authDisabled a then (None, a)
        else if (bool_decide (hr_Path r = "/license") || bool_decide (hr_Path r = "/login")) && bool_decide (hr_Method r = "GET")
        then enforceAuth io now now' r a
        else if negb (authExemptPath (hr_Path r)) then enforceAuth io now now' r a
        else if bool_decide (hr_Path r = "/logout") && bool_decide (hr_Method r = "GET")
        then let '(resp, a) := handleLogout saved r a in (Some resp, a)
        else (None, a)
    end.

(** ** Logging in *)

Definition bad_phone : string := "شماره موبایل معتبر وارد کنید (با ۰۹ شروع می‌شود).".
Definition no_password : string := "گذرواژه را وارد کنید.".
Definition staff_unreadable : string := "خطا در خواندن فهرست پرسنل.".
Definition staff_inactive : string := "حساب این پرسنل غیرفعال است؛ با مدیر کافه تماس بگیرید.".
Definition wrong_password : string := "گذرواژه نادرست است.".
Definition staff_unknown : string := "پرسنلی با این شماره موبایل یافت نشد.".
Definition inactive_word : string := "غیرفعال".
Definition manager_name : string := "مدیر کافه".

(** Who may come in with a phone number and a password: the role and the name, or why not. *)
(* auth.go:327-366 Application.handleLogin *)
Definition login_as (mode phone password : string) (staff : res (list Entity)) : res (string * string) :=
  guard? negb ((length (runes phone) <? 10)%nat || negb (HasPrefix phone "09")) else bad_phone in
  guard? negb (length (runes password) <? 4)%nat else no_password in
  if bool_decide (mode = "staff") then
    match staff with
    | Err _ => Err staff_unreadable
    | Ok staff =>
        match List.find (λ e, bool_decide (TrimSpace (Field e "phone") = phone)) staff with
        | None => Err staff_unknown
        | Some e =>
            guard? negb (bool_decide (Field e "is_active" = "false") || Contains (Field e "status") inactive_word) else staff_inactive in
            let hash := Field e "password_hash" in
            guard? sempty hash || bool_decide (hex_encode (sha256 password) = hash) else wrong_password in
            Ok ("staff"%stdpp, Label e)
        end
    end
  else Ok ("manager"%stdpp, manager_name).

(* auth.go Application.handleLogin *)
Definition handleLogin (R : Runtime) (io : VaultIO) (now now' : Z) (rand : option (list N)) (saved : bool) (ctx : option string)
    (form : list (string * string)) (st : persistedDB) (a : Gate) : Response * option string * Gate :=
  let mode := TrimSpace (Get "mode" form) in
  let phone := TrimSpace (Get "phone" form) in
  let password := Get "password" form in
  match login_as mode phone password (read_ctx ctx (Entities_of R "staff" st)) with
  | Err msg =>
      let '(lic, v) := LicenseState io now now' (g_vault a) in
      (Rendered "login" (page_data msg false lic), None, with_vault v a)
  | Ok (role, name) =>
      let '(cookie, a) := newSession rand saved role name a in (RedirectTo "/", cookie, a)
  end.

(* auth.go Application.handleLicenseActivate *)
Definition handleLicenseActivate (io io' : VaultIO) (off now now1 now2 : Z) (form : list (string * string)) (a : Gate) : Response * Gate :=
  match ActivateLicense io io' off now now1 now2 (Get "license_key" form) (Get "holder" form) (g_vault a) with
  | (Err e, v) =>
      let '(lic, v) := LicenseState io' now1 now2 v in
      (Rendered "license" (page_data e false lic), with_vault v a)
  | (Ok _, v) => (RedirectTo "/login", with_vault v a)
  end.

(** ** The gate *)

Lemma enforceAuth_pass io now now' r a a' : enforceAuth io now now' r a = (None, a') →
  let lic := (LicenseState io now now' (g_vault a)).1 in
  ls_Valid lic = true ∧ ls_Expired lic = false ∧ is_Some (sessionOf r a) ∧ hr_Path r ≠ "/license" ∧ hr_Path r ≠ "/login"
  ∧ g_sessions a' = g_sessions a.
Proof.
  unfold enforceAuth. destruct (LicenseState io now now' (g_vault a)) as [lic v]. cbn [fst].
  assert (sessionOf r (with_vault v a) = sessionOf r a) as Es by reflexivity. unfold has_session. rewrite Es.
  case_bool_decide; [by destruct (_ && _)|]. destruct (ls_Valid lic); [|done]. destruct (ls_Expired lic); [done|]. cbn [negb].
  case_bool_decide; [by destruct (sessionOf r a)|]. destruct (sessionOf r a) as [s|]; [|done]. cbn [negb]. intros [= <-].
  by split_and!.
Qed.

(** C5: what gets past the gate.  With the login switched on, a request is served only if its
    host is an allowed one; if it is not a read and not one of the JSON interface it carries
    the form token of this run; and unless its path is one of the exempt ones, the licence is
    validly signed and not expired and the request's cookie names a session there is.  The
    exempt paths served are the activation, the sign-in and sign-out forms and the static
    files. *)
Theorem Handler_gate io now now' saved r a a' :
  g_authDisabled a = false → Handler io now now' saved r a = (None, a') →
  host_allowed r a = true
  ∧ (hr_Method r ≠ "GET" → hr_Method r ≠ "HEAD" → HasPrefix (hr_Path r) "/api/v1/" = false →
     ∃ form, hr_Form r = Some form ∧ Get "csrf" form = g_csrf a)
  ∧ (authExemptPath (hr_Path r) = false →
     let lic := (LicenseState io now now' (g_vault a)).1 in
     ls_Valid lic = true ∧ ls_Expired lic = false ∧ is_Some (sessionOf r a))
  ∧ (authExemptPath (hr_Path r) = true → hr_Method r = "GET" → HasPrefix (hr_Path r) "/static/" = true ∨ hr_Path r = "/license/activate")
  ∧ g_sessions a' = g_sessions a.
Proof.
  intros Hauth. unfold Handler. destruct (host_allowed r a); [|done]. cbn [negb].
  set (refused := if _ && _ && _ then _ else None).
  assert (refused = None → hr_Method r ≠ "GET" → hr_Method r ≠ "HEAD" → HasPrefix (hr_Path r) "/api/v1/" = false →
     ∃ form, hr_Form r = Some form ∧ Get "csrf" form = g_csrf a) as Hf.
  { subst refused. intros H H1 H2 H3. rewrite !bool_decide_eq_false_2, H3 in H by done. cbn [negb andb] in H.
    destruct (hr_Form r) as [form|]; [|done]. exists form. split; [done|]. by case_bool_decide. }
  destruct refused; [done|]. specialize (Hf eq_refl). rewrite Hauth. split; [done|]. split; [exact Hf|]. revert H.
  destruct ((bool_decide (hr_Path r = "/license") || bool_decide (hr_Path r = "/login")) && bool_decide (hr_Method r = "GET")) eqn:G.
  { intros H. apply enforceAuth_pass in H as (_ & _ & _ & H1 & H2 & _). by rewrite !bool_decide_eq_false_2 in G by done. }
  destruct (authExemptPath (hr_Path r)) eqn:X; cbn [negb].
  - destruct (bool_decide (hr_Path r = "/logout") && bool_decide (hr_Method r = "GET")) eqn:L; [done|]. intros [= <-]. split; [done|]. split; [|done].
    intros _ Hm. rewrite (bool_decide_eq_true_2 (hr_Method r = "GET")), andb_true_r in G, L by done. unfold authExemptPath in X. apply orb_false_iff in G as [G1 G2].
    rewrite G1, G2, L in X. cbn [orb] in X. apply orb_true_iff in X as [X|X]; [right; by apply bool_decide_eq_true in X|by left].
  - intros H. apply enforceAuth_pass in H as (H1 & H2 & H3 & _ & _ & H4). by split_and!.
Qed.

(** ** The licence is signed *)

Lemma licenseSecret_stored io v raw : v_secret v = Some raw → (32 <= String.length raw)%nat → licenseSecret io v = (Ok raw, v).
Proof. intros H L. unfold licenseSecret. by rewrite H, (proj2 (Nat.leb_le _ _)). Qed.

(** a licence that counts is signed.  When the licence is taken for valid, the licence
    file decodes to a payload and a signature that is exactly the hexadecimal HMAC-SHA-256 of
    the payload's text under the device's secret, the one stored when there is one; holder,
    plan and end are the payload's; and it is expired exactly when the clock has passed that
    end.  So a payload changed in the file counts only with an HMAC that fits it. *)
Theorem LicenseState_signed io now now' v :
  let o := LicenseState io now now' v in
  ls_Valid o.1 = true →
  ∃ raw lf secret exp, v_license v = Some raw ∧ decode_license raw = Some lf
    ∧ lf_Sig lf = hex_encode (hmac_sha256 secret (payload_text (lf_Payload lf)))
    ∧ (∀ stored, v_secret v = Some stored → (32 <= String.length stored)%nat → secret = stored ∧ o.2 = v)
    ∧ ls_Holder o.1 = lp_Holder (lf_Payload lf) ∧ ls_Plan o.1 = lp_Plan (lf_Payload lf)
    ∧ ParseRFC3339 (lp_ExpiresAt (lf_Payload lf)) = Some exp ∧ ls_Expired o.1 = (exp <? now') ∧ 0 <= ls_DaysLeft o.1.
Proof.
  cbv zeta. unfold LicenseState. destruct (v_license v) as [raw|]; [|done]. destruct (decode_license raw) as [lf|] eqn:D; [|done].
  destruct (signLicense io (lf_Payload lf) v) as [[sig|e] v'] eqn:S; [|done]. case_bool_decide as E; [|done]. cbn [negb].
  destruct (ParseRFC3339 (lp_ExpiresAt (lf_Payload lf))) as [exp|] eqn:P; [|done]. intros _. unfold signLicense in S.
  destruct (licenseSecret io v) as [[secret|e] v''] eqn:Sec; [|done]. injection S as S1 S2. subst v''.
  exists raw, lf, secret, exp. cbn [fst snd ls_Holder ls_Plan ls_Expired ls_DaysLeft]. split; [done|]. split; [done|]. split; [congruence|]. split.
  - intros stored Hst Hl. rewrite (licenseSecret_stored io v stored Hst Hl) in Sec. by injection Sec as <- <-.
  - split; [done|]. split; [done|]. split; [done|]. split; [done|]. case_match eqn:Hd; [done|]. by apply Z.ltb_ge in Hd.
Qed.

(** ** Sessions outlive the program *)

Definition session_valid (s : sessionInfo) : bool := utf8_valid (si_Role s) && utf8_valid (si_Name s).

Definition sessions_valid (m : gmap string sessionInfo) : Prop := map_Forall (λ k s, utf8_valid k = true ∧ session_valid s = true) m.

Lemma lenient_ann s : lenient_session (ann (session_any s)) = s.
Proof. by destruct s. Qed.

Lemma loadSessionsFile_text m : sessions_valid m → loadSessionsFile (Some (sessions_text (Some m))) = Some m.
Proof.
  intros Hv. unfold loadSessionsFile, sessions_text. rewrite parse_marshal.
  - cbn [ann]. f_equal. rewrite map_map.
    rewrite <- (foldl_sorted_entries m) at 2. generalize (∅ : gmap string sessionInfo). induction (sorted_entries m) as [|p l IH]; intros m0; [done|].
    cbn [foldl map fst snd]. rewrite lenient_ann. apply IH.
  - cbn [wf_any]. rewrite forallb_map. apply forallb_forall. intros [k s] Hin. apply list_elem_of_In, elem_of_sorted_entries, Hv in Hin as [Hk Hs].
    unfold session_valid in Hs. apply andb_true_iff in Hs as [H1 H2]. cbn [fst snd]. rewrite Hk. cbn [session_any wf_any forallb fst snd]. by rewrite H1, H2.
Qed.

(** What happens to the sessions: someone signs in, someone signs out, the program is started
    again.  [saved]: whether the file could be written. *)
Inductive session_event :=
| SignIn (rand : option (list N)) (saved : bool) (role name : string)
| SignOut (saved : bool) (r : HttpRequest)
| RestartGate.

(* app.go:1766-1767 New *)
Definition session_step (a : Gate) (ev : session_event) : Gate :=
  match ev with
  | SignIn rand saved role name => (newSession rand saved role name a).2
  | SignOut saved r => dropSession saved r a
  | RestartGate => with_sessions (loadSessionsFile (v_sessions (g_vault a))) a
  end.

Definition session_run (evs : list session_event) (a : Gate) : Gate := foldl session_step a evs.

(** An event of someone else's session. *)
Definition spares (token : string) (ev : session_event) : Prop :=
  match ev with
  | SignIn rand _ role name => utf8_valid role = true ∧ utf8_valid name = true ∧ ∀ b, rand = Some b → hex_encode (text_of_bytes b) ≠ token
  | SignOut _ r => hr_Cookie r ≠ Some token
  | RestartGate => True
  end.

(** What memory and file hold for a token. *)
Definition holds (token : string) (s : option sessionInfo) (a : Gate) : Prop :=
  g_sessionsPath a = true
  ∧ (∃ m, g_sessions a = Some m ∧ sessions_valid m ∧ m !! token = s)
  ∧ ∃ m, loadSessionsFile (v_sessions (g_vault a)) = Some m ∧ sessions_valid m ∧ m !! token = s.

Lemma holds_persist token s saved m a : g_sessionsPath a = true → sessions_valid m → m !! token = s →
  (saved = false → ∃ m, loadSessionsFile (v_sessions (g_vault a)) = Some m ∧ sessions_valid m ∧ m !! token = s) →
  holds token s (persistSessionsLocked saved (with_sessions (Some m) a)).
Proof.
  intros Hp Hv Hm Hf. unfold persistSessionsLocked. cbn [g_sessionsPath with_sessions]. rewrite Hp. cbn [negb].
  destruct saved; split; [done| |done|]; (split; [by exists m|]).
  - exists m. split; [|done]. by apply loadSessionsFile_text.
  - by apply Hf.
Qed.

Lemma holds_step token s ev a : holds token s a → spares token ev → holds token s (session_step a ev).
Proof.
  intros (Hp & (m & Hm & Hv & Ht) & Hf) Hs. destruct ev as [rand saved role name|saved r|]; cbn [session_step spares] in *.
  - unfold newSession. destruct rand as [b|]; cbn [snd]; [|by repeat (split; [by eauto|])]. rewrite Hm. cbn [default from_option id]. unfold id.
    destruct Hs as (Hr & Hn & Hb). apply holds_persist; [done| |by rewrite lookup_insert_ne by (by apply Hb)|done].
    apply map_Forall_insert_2; [|done]. split; [apply utf8_valid_ascii, hex_encode_ascii|]. unfold session_valid. cbn [si_Role si_Name]. by rewrite Hr, Hn.
  - unfold dropSession. destruct (hr_Cookie r) as [c|]; [|by repeat (split; [by eauto|])]. rewrite Hm. cbn [fmap option_fmap option_map].
    apply holds_persist; [done|by apply map_Forall_delete|by rewrite lookup_delete_ne by congruence|done].
  - split; [done|]. by split.
Qed.

Lemma holds_run token s evs : ∀ a, holds token s a → Forall (spares token) evs → holds token s (session_run evs a).
Proof.
  induction evs as [|ev evs IH]; intros a H Hs; [done|]. inversion_clear Hs as [|? ? Hev Hevs]. cbn [session_run foldl].
  apply IH; [by apply holds_step|done].
Qed.

Lemma holds_sessionOf token s r a : holds token s a → hr_Cookie r = Some token → sempty token = false → sessionOf r a = s.
Proof. intros (_ & (m & Hm & _ & Ht) & _) Hc He. unfold sessionOf. by rewrite Hc, He, Hm. Qed.

(** C23: a session lasts until its own sign-out and no longer.  After a login that has
    randomness and writes its file, any number of other people's logins and sign-outs, whether
    their files are written or not, and any restarts in between, a request with the cookie is
    in the session, with the role and the name given; after signing out with that cookie, once
    written, it is in no session whatever the others do and however often the program is
    started again, as long as nobody draws the same token.  (Role and names are valid UTF-8.) *)
Theorem newSession_outlives rand role name a token a' r evs evs' :
  sessions_valid (default ∅ (g_sessions a)) → utf8_valid role = true → utf8_valid name = true → g_sessionsPath a = true →
  newSession rand true role name a = (Some token, a') → hr_Cookie r = Some token → rand ≠ Some [] →
  Forall (spares token) evs → Forall (spares token) evs' →
  sessionOf r (session_run evs a') = Some {| si_Role := role; si_Name := name |}
  ∧ sessionOf r (session_run evs' (dropSession true r (session_run evs a'))) = None.
Proof.
  intros Hv Hr Hn Hp. unfold newSession. destruct rand as [b|]; [|done]. intros [= <- <-] Hc Hb Hevs Hevs'.
  set (token := hex_encode (text_of_bytes b)) in *. set (s := {| si_Role := role; si_Name := name |}).
  assert (sempty token = false) as Ht.
  { destruct (sempty token) eqn:E; [|done]. apply sempty_true in E. apply (f_equal String.length) in E. subst token.
    rewrite hex_encode_length in E. unfold text_of_bytes in E. rewrite of_list_length, length_map in E. destruct b; [done|]. cbn in E. lia. }
  set (a' := persistSessionsLocked _ _).
  assert (holds token (Some s) a') as H0.
  { subst a'. apply holds_persist; [done| |apply lookup_insert_eq|done].
    apply map_Forall_insert_2; [|done]. split; [apply utf8_valid_ascii, hex_encode_ascii|]. unfold session_valid, s. cbn [si_Role si_Name]. by rewrite Hr, Hn. }
  pose proof (holds_run _ _ evs _ H0 Hevs) as H1. split; [by apply (holds_sessionOf token)|].
  apply (holds_sessionOf token); [|done|done]. apply holds_run; [|done].
  destruct H1 as (Hp1 & (m & Hm & Hvm & _) & _). unfold dropSession. rewrite Hc, Hm. cbn [fmap option_fmap option_map].
  apply holds_persist; [done|by apply map_Forall_delete|apply lookup_delete_eq|done].
Qed.

(** ** The licence file reads back *)

Definition payload_valid (p : licensePayload) : Prop := Forall (λ m, utf8_valid m.2 = true) (payload_members p).

(** The text of the file, laid out. *)
Lemma license_text_layout p s :
  license_text {| lf_Payload := p; lf_Sig := s |}
  = String "{" (newline_indent 1 +:+ quote "payload" +:+ ": " +:+ (String "{" (newline_indent 2
      +:+ quote "key_hash" +:+ ": " +:+ quote (lp_KeyHash p) +:+ "," +:+ newline_indent 2
      +:+ quote "holder" +:+ ": " +:+ quote (lp_Holder p) +:+ "," +:+ newline_indent 2
      +:+ quote "plan" +:+ ": " +:+ quote (lp_Plan p) +:+ "," +:+ newline_indent 2
      +:+ quote "issued_at" +:+ ": " +:+ quote (lp_IssuedAt p) +:+ "," +:+ newline_indent 2
      +:+ quote "expires_at" +:+ ": " +:+ quote (lp_ExpiresAt p) +:+ newline_indent 1 +:+ "}")) +:+ "," +:+ newline_indent 1
      +:+ quote "sig" +:+ ": " +:+ quote s +:+ newline_indent 0 +:+ "}").
Proof.
  assert (license_text {| lf_Payload := p; lf_Sig := s |} = indent false false 0 ("{" +:+ quote "payload" +:+ ":" +:+ "{"
    +:+ quote "key_hash" +:+ ":" +:+ quote (lp_KeyHash p) +:+ "," +:+ quote "holder" +:+ ":" +:+ quote (lp_Holder p) +:+ ","
    +:+ quote "plan" +:+ ":" +:+ quote (lp_Plan p) +:+ "," +:+ quote "issued_at" +:+ ":" +:+ quote (lp_IssuedAt p) +:+ ","
    +:+ quote "expires_at" +:+ ":" +:+ quote (lp_ExpiresAt p) +:+ "}" +:+ "," +:+ quote "sig" +:+ ":" +:+ quote s +:+ "}" +:+ "")) as ->.
  { unfold license_text, payload_text, object_text. cbn [map Join payload_members fst snd lf_Payload lf_Sig].
    rewrite ?sapp_assoc, ?sapp_nil_r. reflexivity. }
  rewrite indent_brace, indent_open_quote, indent_colon, indent_brace, indent_open_quote.
  repeat rewrite ?indent_colon, ?indent_quote, ?indent_comma, ?indent_close.
  change (indent false false 0 "") with EmptyString. repeat rewrite ?sapp_cons, ?sapp_nil_l, ?sapp_nil_r, ?sapp_assoc. reflexivity.
Qed.

Definition payload_json (p : licensePayload) : list (string * (string * json)) :=
  map (λ m, (m.1, (quote m.2, JStr (quote_body m.2) m.2))) (payload_members p).

Definition payload_layout (p : licensePayload) : string :=
  String "{" (newline_indent 2
      +:+ quote "key_hash" +:+ ": " +:+ quote (lp_KeyHash p) +:+ "," +:+ newline_indent 2
      +:+ quote "holder" +:+ ": " +:+ quote (lp_Holder p) +:+ "," +:+ newline_indent 2
      +:+ quote "plan" +:+ ": " +:+ quote (lp_Plan p) +:+ "," +:+ newline_indent 2
      +:+ quote "issued_at" +:+ ": " +:+ quote (lp_IssuedAt p) +:+ "," +:+ newline_indent 2
      +:+ quote "expires_at" +:+ ": " +:+ quote (lp_ExpiresAt p) +:+ newline_indent 1 +:+ "}").

Lemma parse_payload n p t : payload_valid p → parse_value (8 + n) (payload_layout p +:+ t) = Some (JObj (payload_json p), t).
Proof.
  intros Hp. unfold payload_valid, payload_members in Hp. rewrite !Forall_cons in Hp. cbn [snd] in Hp. destruct Hp as (H1 & H2 & H3 & H4 & H5 & _).
  unfold payload_layout. rewrite sapp_cons, !sapp_assoc. cbn [Nat.add]. rewrite parse_object.
  do 4 (rewrite parse_text_member by (done || assumption); rewrite skip_ws_quote). by rewrite parse_last_member.
Qed.

Lemma dec_payload_json p : dec_license_payload no_payload (payload_json p) = Some p.
Proof. by destruct p. Qed.

Lemma decode_license_text lf : payload_valid (lf_Payload lf) → utf8_valid (lf_Sig lf) = true →
  decode_license (license_text lf) = Some lf.
Proof.
  destruct lf as [p s]. cbn [lf_Payload lf_Sig]. intros Hp Hs. unfold decode_license, parse_json. rewrite license_text_layout.
  match goal with |- context [json_fuel ?t] => assert (∃ n, json_fuel t = 20 + n)%nat as [n ->] end.
  { unfold json_fuel. eexists (_ - 20)%nat. rewrite <- Nat.le_add_sub; [reflexivity|]. cbn [String.length]. rewrite !slength_app. cbn. lia. }
  fold (payload_layout p).
  match goal with |- context [skip_ws (String "{" ?t)] => change (skip_ws (String "{" t)) with (String "{" t) end.
  change (20 + n)%nat with (S (S (8 + (10 + n)))). rewrite parse_object.
  rewrite (parse_member_ws _ _ _ _ (JObj (payload_json p))); [|done|done|by apply parse_payload].
  match goal with |- context [skip_ws ("," +:+ ?t)] => change (skip_ws ("," +:+ t)) with (String "," t) end. cbn iota.
  rewrite skip_ws_indent, skip_ws_quote. cbn [Nat.add]. rewrite <- (sapp_nil_r "}").
  rewrite parse_last_member by done. cbn [sempty skip_ws].
  change (struct_members "payload" _) with [(payload_layout p, JObj (payload_json p))].
  change (struct_members "sig" _) with [(quote s, JStr (quote_body s) s)]. cbn [foldl snd]. rewrite dec_payload_json. done.
Qed.

(** ** Times with a zone read back *)

Definition zone_ok (off : Z) : Prop := off mod 60 = 0 ∧ -86400 < off < 86400.

Lemma zone_parts a : 0 <= a < 86400 → a mod 60 = 0 → 0 <= a / 3600 < 24 ∧ 0 <= a / 60 mod 60 < 60 ∧ a / 3600 * 3600 + a / 60 mod 60 * 60 = a.
Proof.
  intros Ha Hm. split; [split; [apply Z.div_pos; lia|apply Z.div_lt_upper_bound; lia]|]. split; [apply Z.mod_pos_bound; lia|].
  replace (a / 3600) with (a / 60 / 60) by (rewrite Z.div_div by lia; done).
  pose proof (Z.div_mod a 60 ltac:(lia)). pose proof (Z.div_mod (a / 60) 60 ltac:(lia)). lia.
Qed.

Lemma parse_zone_text off : zone_ok off → parse_zone (zone_text off) = Some (off, EmptyString).
Proof.
  intros [Hm Hb]. unfold zone_text. destruct (off =? 0) eqn:Z0; [apply Z.eqb_eq in Z0 as ->; reflexivity|].
  destruct (zone_parts (Z.abs off)) as (Hh & Hmin & Hsum); [lia| |].
  { destruct (Z.abs_spec off) as [[_ ->]|[_ ->]]; [done|]. apply Z.mod_opp_l_z; lia. }
  set (h := Z.abs off / 3600) in *. set (m := Z.abs off / 60 mod 60) in *.
  assert (∀ c, c = "+"%char ∨ c = "-"%char → parse_zone (String c (pad_num 2 h +:+ ":" +:+ pad_num 2 m))
    = Some ((if bool_decide (c = "-"%char) then -1 else 1) * (h * 3600 + m * 60), EmptyString)) as P.
  { intros c Hc. unfold parse_zone. rewrite (bool_decide_eq_false_2 (c = "Z"%char)) by (destruct Hc as [-> | ->]; done).
    assert (bool_decide (c = "+"%char) || bool_decide (c = "-"%char) = true) as -> by (destruct Hc as [-> | ->]; done).
    rewrite take_num_pad by lia. rewrite expect_sep. cbn [mbind option_bind]. rewrite <- (sapp_nil_r (pad_num 2 m)).
    rewrite take_num_pad by lia. by rewrite !(proj2 (Z.leb_le _ _)) by lia. }
  destruct (off <? 0) eqn:S; [apply Z.ltb_lt in S|apply Z.ltb_ge in S].
  - change ("-" +:+ pad_num 2 h +:+ ":" +:+ pad_num 2 m) with (String "-" (pad_num 2 h +:+ ":" +:+ pad_num 2 m)).
    rewrite P by auto. rewrite bool_decide_eq_true_2 by done. do 2 f_equal. lia.
  - change ("+" +:+ pad_num 2 h +:+ ":" +:+ pad_num 2 m) with (String "+" (pad_num 2 h +:+ ":" +:+ pad_num 2 m)).
    rewrite P by auto. rewrite bool_decide_eq_false_2 by done. do 2 f_equal. lia.
Qed.

Lemma zone_text_head off : starts_with_digit (zone_text off) = false ∧ HasPrefix (zone_text off) "." = false ∧ HasPrefix (zone_text off) "," = false.
Proof. unfold zone_text. destruct (off =? 0); [done|]. by destruct (off <? 0). Qed.

Lemma ParseRFC3339_in off t : zone_ok off → 0 <= d_year (Date off t) <= 9999 →
  ParseRFC3339 (FormatRFC3339_in off t) = Some (unix_sec t * second).
Proof.
  intros Hz Hy. unfold Date in Hy. unfold FormatRFC3339_in, ParseRFC3339, Date. rewrite parse_date_Format by done. rewrite expect_sep.
  cbn [mbind option_bind]. destruct (zone_text_head off) as (H1 & H2 & H3). rewrite parse_clock_Format, parse_zone_text by done.
  f_equal. unfold instant. rewrite days_of_date_of_days. unfold clock_sec.
  pose proof (Z.div_mod (unix_sec t + off) 86400 ltac:(lia)). unfold second in *. lia.
Qed.

Lemma FormatRFC3339_in_valid off t : utf8_valid (FormatRFC3339_in off t) = true.
Proof.
  unfold FormatRFC3339_in, FormatDate, FormatClock, zone_text, pad_num.
  repeat first [reflexivity|apply pad_left_valid, Z_to_dec_valid|case_match|apply utf8_valid_app].
Qed.

(** ** Activation *)

Lemma key_days_bounds key : 7 <= key_days key <= 3650.
Proof.
  unfold key_days. destruct (LastIndex key "-") as [[|i]|]; try lia. destruct (Atoi _) as [n []]; [|lia].
  destruct ((7 <=? n) && (n <=? 3650)) eqn:E; [bools; lia|lia].
Qed.

(** C22: activation makes a licence that counts.  When [ActivateLicense] succeeds, the licence is
    read back as valid from then on, whoever asks and whenever, for the holder given or the
    default one, without anything else changing; it is expired exactly when the clock has
    passed the second that is the key's days, between 7 and 3650, behind the activation; and
    what was answered is that state. *)
Theorem ActivateLicense_valid io io' off now now1 now2 key holder v st v' :
  ActivateLicense io io' off now now1 now2 key holder v = (Ok st, v') →
  zone_ok off → utf8_valid (TrimSpace holder) = true → (∀ b, vi_rand io = Some b → length b = 32%nat) →
  let exp := now + key_days (TrimSpace key) * 86400 * second in
  0 <= d_year (Date off exp) <= 9999 →
  7 <= key_days (TrimSpace key) <= 3650 ∧ st = (LicenseState io' now1 now2 v').1
  ∧ v_sessions v' = v_sessions v
  ∧ ∀ io3 n1 n2, let o := LicenseState io3 n1 n2 v' in
      ls_Valid o.1 = true ∧ o.2 = v' ∧ ls_Expired o.1 = (unix_sec exp * second <? n2)
      ∧ ls_Holder o.1 = (if sempty (TrimSpace holder) then "کافه من"%stdpp else TrimSpace holder).
Proof.
  intros H Hz Hh Hb exp Hy. split; [apply key_days_bounds|]. unfold ActivateLicense in H. destruct (_ <? 4)%nat; [done|]. cbv zeta in H.
  set (holder' := if sempty (TrimSpace holder) then "کافه من"%stdpp else TrimSpace holder) in *.
  set (p := new_payload off now (TrimSpace key) holder') in *.
  destruct (signLicense io p v) as [[sig|e] v1] eqn:Sg; [|done].
  assert (∃ secret, v_secret v1 = Some secret ∧ (32 <= String.length secret)%nat ∧ sig = hex_encode (hmac_sha256 secret (payload_text p))
    ∧ v_sessions v1 = v_sessions v) as (secret & Hs1 & Hs2 & Hs3 & Hses).
  { unfold signLicense in Sg. destruct (licenseSecret io v) as [[secret|e] v0] eqn:L; [|done]. injection Sg as <- <-. exists secret.
    revert L. unfold licenseSecret.
    assert (match vi_rand io with None => (Err rand_error, v) | Some b => match vi_mkdir io with Some e => (Err e, v) | None =>
        match vi_write_secret io with Some (e, n) => (Err e, set_secret (stake n (text_of_bytes b)) v) | None => (Ok (text_of_bytes b), set_secret (text_of_bytes b) v) end end end
      = (Ok secret, v0) → v_secret v0 = Some secret ∧ (32 <= String.length secret)%nat ∧ v_sessions v0 = v_sessions v) as F.
    { destruct (vi_rand io) as [b|] eqn:Rb; [|done]. destruct (vi_mkdir io); [done|]. destruct (vi_write_secret io) as [[? ?]|]; [done|].
      intros [= <- <-]. split; [done|]. split; [|done]. unfold text_of_bytes. rewrite of_list_length, length_map, (Hb b) by done. lia. }
    destruct (v_secret v) as [raw|] eqn:Hr; [destruct (32 <=? String.length raw)%nat eqn:E|].
    - intros [= <- <-]. apply Nat.leb_le in E. by split_and!.
    - intros L. destruct (F L) as (? & ? & ?). by split_and!.
    - intros L. destruct (F L) as (? & ? & ?). by split_and!. }
  destruct (vi_mkdir_license io); [done|]. destruct (vi_write io); [done|]. destruct (vi_rename io); [done|].
  set (lf := {| lf_Payload := p; lf_Sig := sig |}) in *. set (v2 := set_license (license_text lf) v1) in *.
  assert (decode_license (license_text lf) = Some lf) as D.
  { apply decode_license_text; [|subst sig lf; apply utf8_valid_ascii, hex_encode_ascii]. subst lf p. cbn [lf_Payload].
    unfold payload_valid, payload_members, new_payload. rewrite !Forall_cons. cbn [snd lp_KeyHash lp_Holder lp_Plan lp_IssuedAt lp_ExpiresAt].
    split; [apply utf8_valid_ascii, hex_encode_ascii|]. split; [subst holder'; destruct (sempty _); [by vm_compute|done]|].
    split; [by vm_compute|]. split; [apply FormatRFC3339_in_valid|]. split; [apply FormatRFC3339_in_valid|constructor]. }
  assert (∀ io3 n1 n2, ls_Valid (LicenseState io3 n1 n2 v2).1 = true ∧ (LicenseState io3 n1 n2 v2).2 = v2
    ∧ ls_Expired (LicenseState io3 n1 n2 v2).1 = (unix_sec exp * second <? n2) ∧ ls_Holder (LicenseState io3 n1 n2 v2).1 = holder') as G.
  { intros io3 n1 n2. unfold LicenseState. cbn [v_license v2 set_license]. rewrite D. unfold signLicense.
    rewrite (licenseSecret_stored io3 v2 secret Hs1 Hs2). cbn [lf_Payload lf_Sig lf]. rewrite bool_decide_eq_true_2 by done. cbn [negb].
    assert (ParseRFC3339 (lp_ExpiresAt p) = Some (unix_sec exp * second)) as -> by (by apply ParseRFC3339_in). by split_and!. }
  destruct (LicenseState io' now1 now2 v2) as [st0 v3] eqn:L. injection H as <- <-. destruct (G io' now1 now2) as (_ & G2 & _). rewrite L in G2.
  cbn [snd] in G2. subst v3. rewrite L. split; [done|]. split; [done|]. exact G.
Qed.

(** ** Signing in *)

Lemma find_split {A} (P : A → bool) l x : List.find P l = Some x → ∃ l1 l2, l = l1 ++ x :: l2 ∧ P x = true ∧ Forall (λ y, P y = false) l1.
Proof.
  induction l as [|y l IH]; [done|]. cbn. destruct (P y) eqn:E.
  - intros [= <-]. by exists [], l.
  - intros H. destruct (IH H) as (l1 & l2 & -> & Hx & Hf). exists (y :: l1), l2. split_and!; [done|done|by constructor].
Qed.

(** C29: who gets a session.  A login that fails changes no session.  One that succeeds adds one
    session under the token it answers and touches no other; the phone number begins with 09
    and has ten characters, the password four; and a member of staff is the first of the
    listed ones with that number and is active, and the password's hash is the one stored, or
    none is stored, when any password of at least four characters will do; anyone who does not ask to
    come in as staff is let in as the manager. *)
Theorem handleLogin_checks R io now now' rand saved ctx form st a resp cookie a' :
  handleLogin R io now now' rand saved ctx form st a = (resp, cookie, a') →
  let phone := TrimSpace (Get "phone" form) in
  let password := Get "password" form in
  (cookie = None → g_sessions a' = g_sessions a)
  ∧ ∀ token, cookie = Some token → ∃ role name,
      g_sessions a' = Some (<[token := {| si_Role := role; si_Name := name |}]> (default ∅ (g_sessions a)))
      ∧ HasPrefix phone "09" = true ∧ (10 <= length (runes phone))%nat ∧ (4 <= length (runes password))%nat
      ∧ if bool_decide (TrimSpace (Get "mode" form) = "staff") then
          role = "staff"%stdpp ∧ ∃ l1 e l2, Entities_of R "staff" st = l1 ++ e :: l2
            ∧ Forall (λ e, TrimSpace (Field e "phone") ≠ phone) l1 ∧ TrimSpace (Field e "phone") = phone ∧ name = Label e
            ∧ Field e "is_active" ≠ "false" ∧ Contains (Field e "status") inactive_word = false
            ∧ (Field e "password_hash" = EmptyString ∨ Field e "password_hash" = hex_encode (sha256 password))
        else role = "manager"%stdpp.
Proof.
  unfold handleLogin. set (mode := TrimSpace (Get "mode" form)). set (phone := TrimSpace (Get "phone" form)). set (password := Get "password" form).
  destruct (login_as mode phone password (read_ctx ctx (Entities_of R "staff" st))) as [[role name]|msg] eqn:L; cbv zeta.
  2: { destruct (LicenseState io now now' (g_vault a)) as [lic v]. intros [= <- <- <-]. by split. }
  unfold newSession. destruct rand as [b|]; [|intros [= <- <- <-]; by split]. intros [= <- <- <-]. split; [done|].
  intros token [= <-]. exists role, name. split.
  { unfold persistSessionsLocked. cbn [g_sessionsPath with_sessions]. destruct (negb _); [done|]. by destruct saved. }
  unfold login_as in L. destruct (negb (_ || _)) eqn:G1; [|done]. destruct (negb (_ <? 4)%nat) eqn:G2; [|done].
  apply negb_true_iff, orb_false_iff in G1 as [G1 G3]. apply Nat.ltb_ge in G1. apply negb_false_iff in G3. apply negb_true_iff, Nat.ltb_ge in G2.
  split; [done|]. split; [done|]. split; [done|]. destruct (bool_decide (mode = "staff")); [|by injection L as <- <-].
  destruct (read_ctx ctx (Entities_of R "staff" st)) as [staff|] eqn:Rd; [|done]. apply read_ctx_ok in Rd. rewrite Rd in *.
  destruct (List.find _ staff) as [e|] eqn:F; [|done]. apply find_split in F as (l1 & l2 & El & Hp & Hf).
  destruct (negb _) eqn:G4 in L; [|done]. destruct (sempty (Field e "password_hash") || _) eqn:G5; [|done]. injection L as <- <-. split; [done|].
  exists l1, e, l2. split; [done|]. split; [eapply Forall_impl; [exact Hf|]; intros x Hx; by apply bool_decide_eq_false in Hx|].
  apply bool_decide_eq_true in Hp. apply negb_true_iff, orb_false_iff in G4 as [G4 G6]. apply bool_decide_eq_false in G4.
  split; [done|]. split; [done|]. split; [done|]. split; [done|]. apply orb_true_iff in G5 as [G5|G5]; [left; by apply sempty_true|].
  right. by apply bool_decide_eq_true in G5.
Qed.

(** ** Concrete runs *)

Definition vault_ok : VaultIO :=
  {| vi_rand := Some (map N.of_nat (seq 0 32)); vi_mkdir := None; vi_write_secret := None; vi_mkdir_license := None; vi_write := None; vi_rename := None |}.

Definition no_files : Vault := {| v_license := None; v_secret := None; v_sessions := None |}.

Definition spring : Z := 1742545800000000000.

Definition an_activation : res LicenseStatus * Vault := ActivateLicense vault_ok vault_ok 12600 spring spring spring "CAFE-30" "Sara" no_files.

Lemma ActivateLicense_valid_witness :
  is_ok an_activation.1 = true ∧ key_days "CAFE-30" = 30
  ∧ ls_Valid (LicenseState vault_ok spring (spring + 3000000 * second) an_activation.2).1 = true
  ∧ ls_Expired (LicenseState vault_ok spring (spring + 3000000 * second) an_activation.2).1 = true.
Proof.
  destruct an_activation as [[st|e] v'] eqn:A; [|exfalso; vm_compute in A; discriminate].
  assert (zone_ok 12600) as Hz by (split; [reflexivity|lia]).
  assert (∀ b, vi_rand vault_ok = Some b → length b = 32%nat) as Hb by (intros b [= <-]; reflexivity).
  assert (0 <= d_year (Date 12600 (spring + key_days (TrimSpace "CAFE-30") * 86400 * second)) <= 9999) as Hy by (vm_compute; split; discriminate).
  destruct (ActivateLicense_valid vault_ok vault_ok 12600 spring spring spring "CAFE-30" "Sara" no_files st v' A Hz eq_refl Hb Hy) as (_ & _ & _ & G).
  destruct (G vault_ok spring (spring + 3000000 * second)) as (G1 & _ & G3 & _).
  split; [reflexivity|]. split; [vm_compute; reflexivity|]. split; [exact G1|]. cbn [snd]. rewrite G3. vm_compute. reflexivity.
Defined.

Definition licensed : Vault := an_activation.2.

Lemma LicenseState_signed_witness :
  ls_Valid (LicenseState vault_ok spring spring licensed).1 = true ∧ ∃ raw, v_license licensed = Some raw.
Proof.
  assert (ls_Valid (LicenseState vault_ok spring spring licensed).1 = true) as H by (vm_compute; reflexivity). split; [exact H|].
  destruct (LicenseState_signed vault_ok spring spring licensed H) as (raw & _ & _ & _ & Hr & _). exists raw. exact Hr.
Defined.

Definition a_gate : Gate :=
  {| g_vault := licensed; g_sessions := Some ∅; g_sessionsPath := true; g_csrf := "secret"; g_allowed := {["localhost"]}; g_authDisabled := false |}.

Definition signed_in : option string * Gate := newSession (Some (map N.of_nat (seq 1 24))) true "manager" manager_name a_gate.

Definition a_post : HttpRequest :=
  {| hr_Method := "POST"; hr_Host := "localhost:8080"; hr_Path := "/local/save"; hr_ContentType := EmptyString; hr_Query := [];
     hr_Form := Some [("csrf", "secret")]%stdpp; hr_Cookie := signed_in.1 |}.

Lemma Handler_gate_witness :
  (Handler vault_ok spring spring true a_post signed_in.2).1 = None ∧ is_Some (sessionOf a_post signed_in.2).
Proof.
  destruct (Handler vault_ok spring spring true a_post signed_in.2) as [resp a'] eqn:H.
  assert (resp = None) as -> by (apply (f_equal fst) in H; cbn [fst] in H; rewrite <- H; vm_compute; reflexivity). split; [reflexivity|].
  destruct (Handler_gate vault_ok spring spring true a_post signed_in.2 a' eq_refl H) as (_ & _ & Hs & _).
  exact (proj2 (proj2 (Hs eq_refl))).
Defined.

(** Someone else signs in, the program is started again, and they sign out. *)
Definition others : list session_event :=
  [SignIn (Some (map N.of_nat (seq 7 24))) true "staff" "Ali"; RestartGate;
   SignOut false {| hr_Method := "GET"; hr_Host := "localhost"; hr_Path := "/logout"; hr_ContentType := EmptyString; hr_Query := [];
                    hr_Form := None; hr_Cookie := Some "07" |}].

Lemma newSession_outlives_witness :
  sessionOf a_post (session_run others signed_in.2) = Some {| si_Role := "manager"; si_Name := manager_name |}
  ∧ sessionOf a_post (session_run others (dropSession true a_post (session_run others signed_in.2))) = None.
Proof.
  assert (sessions_valid (default ∅ (g_sessions a_gate))) as Hv by exact (map_Forall_empty (M:=gmap string) _).
  assert (Forall (spares (default EmptyString signed_in.1)) others) as Ho.
  { repeat constructor; [intros b [= <-]; vm_compute; discriminate|vm_compute; discriminate]. }
  exact (newSession_outlives (Some (map N.of_nat (seq 1 24))) "manager" manager_name a_gate (default EmptyString signed_in.1) signed_in.2 a_post
              others others Hv eq_refl eq_refl eq_refl eq_refl eq_refl ltac:(discriminate) Ho Ho).
Defined.

Definition a_staff : persistedDB :=
  put (entityKey "staff" "s1")
    {| se_ID := "s1"; se_Type := "staff"; se_Version := 1; se_Deleted := false;
       se_Payload := marshal (AMap [("full_name", AStr "Ali"); ("password_hash", AStr (hex_encode (sha256 "1234"))); ("phone", AStr "09120000000")]) |} newEmptyDB.

Definition a_login (password : string) : Response * option string * Gate :=
  handleLogin plain_runtime vault_ok spring spring (Some (map N.of_nat (seq 1 24))) true None
    [("mode", "staff"); ("phone", "09120000000"); ("password", password)]%stdpp a_staff a_gate.

Lemma handleLogin_checks_witness :
  is_Some (a_login "1234").1.2 ∧ (a_login "4321").1.2 = None ∧ g_sessions (a_login "4321").2 = g_sessions a_gate.
Proof.
  split; [vm_compute; by eexists|]. assert ((a_login "4321").1.2 = None) as Hn by (vm_compute; reflexivity). split; [exact Hn|].
  destruct (a_login "4321") as [[resp cookie] a'] eqn:L. cbn [fst snd] in *.
  exact (proj1 (handleLogin_checks plain_runtime vault_ok spring spring (Some (map N.of_nat (seq 1 24))) true None
    [("mode", "staff"); ("phone", "09120000000"); ("password", "4321")]%stdpp a_staff a_gate resp cookie a' L) Hn).
Defined.
