(* ===== verification/Forms.v ===== *)
(** * What is typed into forms

    Models the helpers of [offline-menuvex/app.go] that read numbers and choices from forms
    and that order the steps of an order on the till: digits of three scripts, amounts in
    Toman, order numbers, and the next step among the stages a café has enabled. *)
From S2P Require Import Prelude GoStrings GoFloat GoJson GoTime Store Entities EntityView OrderStates Jalali.

(** ** Digits *)

(** A digit of the Persian and of the Arabic block, as bytes. *)
Definition persian_val (r : string) : option ascii :=
  match r with
  | String "219" (String b EmptyString) => if in_range 176 185 b then Some (ascii_of_N (byte_of b - 128)) else None
  | _ => None
  end.
Definition arabic_val (r : string) : option ascii :=
  match r with
  | String "217" (String b EmptyString) => if in_range 160 169 b then Some (ascii_of_N (byte_of b - 112)) else None
  | _ => None
  end.

(** The separators that are taken out: the Arabic thousands separator, comma and blank. *)
Definition dropped (r : string) : bool := bool_decide (r = thousands) || bool_decide (r = ",") || bool_decide (r = " ").

(** What the replacer puts for a rune; what it does not know it copies, byte by byte. *)
Definition normal_rune (r : string) : string :=
  match persian_val r with
  | Some d => sone d
  | None => match arabic_val r with
            | Some d => sone d
            | None => if dropped r then EmptyString else r
            end
  end.

(* app.go normalizeDigits *)
Definition normalizeDigits (s : string) : string := sconcat (map normal_rune (runes s)).

(* app.go tomanFormToIRR *)
Definition tomanFormToIRR (raw : string) : option string :=
  let digits := normalizeDigits (TrimSpace raw) in
  if sempty digits then None
  else match Atoi digits with
       | (n, true) => if (n <? 0)%Z then None else Some (Z_to_dec (wrap64 (n * 10)))
       | _ => None
       end.

Definition zwnj : string := String "226"%char (String "128"%char (sone "140"%char)).

(** Ranging over a string decodes a bad byte as U+FFFD, and that is written back. *)
Definition copied_rune (r : string) : string := if rune_invalid r then rune_error else r.

(* app.go normalizeNumInput *)
Definition normalizeNumInput (v : string) : string :=
  sconcat (map (λ r, match persian_val r with
                     | Some d => sone d
                     | None => match arabic_val r with
                               | Some d => sone d
                               | None => if bool_decide (r = " ") || bool_decide (r = zwnj) then EmptyString else copied_rune r
                               end
                     end) (runes (TrimSpace v))).

(* app.go displayOrderNumber *)
Definition displayOrderNumber (raw : string) : string :=
  let s := TrimSpace raw in
  if HasPrefix s "F-" then TrimSpace (sdrop 2 s) else s.

(* app.go boolStr *)
Definition boolStr (b : bool) : string := if b then "true" else "false".

(* app.go parseIRRBig *)
Definition parseIRRBig (raw : string) : Z :=
  let raw := TrimSpace raw in
  if sempty raw then 0%Z else match SetString10 (SplitN2 "." raw).1 with Some z => z | None => 0%Z end.

(* app.go tomanNumber *)
Definition tomanNumber (irr : string) : string := FormatPersianNumber (Z_to_dec (Z.quot (parseIRRBig irr) 10)).

(* app.go kindToPage *)
Definition kindToPage (kind : string) : string :=
  switch kind
    [(["category"], "categories"); (["product"; "modifier_group"], "products"); (["ingredient_category"], "inv-categories");
     (["ingredient"], "ingredients"); (["supplier"], "suppliers"); (["purchase"], "inv-purchases");
     (["table"; "reservation"], "tables"); (["customer"; "retention_campaign"; "cafe_plan"], "customers"); (["debtor"], "debtors");
     (["expense"; "accounting_entry"; "shift_close"], "finance"); (["staff"; "job_posting"], "staff"); (["task"], "staff-checklist");
     (["printer"; "printer_route"; "cafe_profile"], "settings")]%stdpp "home".

(** ** Times *)

(** [tehran t] is the offset of Tehran from UTC at [t], from the tz database. *)
Section Times.
Variable tehran : Z → Z.

(* app.go isTehranToday *)
Definition isTehranToday (now : Z) (createdAt : string) : bool :=
  match ParseRFC3339 (TrimSpace createdAt) with
  | None => false
  | Some ct => bool_decide (Date (tehran ct) ct = Date (tehran now) now)
  end.
End Times.

(** [time.Since] saturates at the largest duration. *)
Definition since (now t : Z) : Z := Z.max (- two63) (Z.min (two63 - 1) (now - t)).

Definition minute_ns : Z := 60 * second.
Definition hour_ns : Z := 3600 * second.

(** [d.Minutes()] and [d.Hours()]: the whole units and the rest, as floats. *)
Definition units (u d : Z) : f64 := fadd (f64_of_Z (Z.quot d u)) (fdiv (f64_of_Z (Z.rem d u)) (f64_of_Z u)).

(* app.go:1615-1624 orderRelTimeFa *)
Definition rel_label (d : Z) : string :=
  if (d <? minute_ns)%Z then "چند لحظه پیش"
  else if (d <? hour_ns)%Z then FormatPersianNumber (Z_to_dec (f64_to_int64 (units minute_ns d))) +:+ " دقیقه پیش"
  else if (d <? 24 * hour_ns)%Z then FormatPersianNumber (Z_to_dec (f64_to_int64 (units hour_ns d))) +:+ " ساعت پیش"
  else FormatPersianNumber (Z_to_dec (f64_to_int64 (fdiv (units hour_ns d) (f64_of_Z 24)))) +:+ " روز پیش".

(* app.go orderRelTimeFa *)
Definition orderRelTimeFa (now : Z) (raw : string) : string :=
  match ParseRFC3339 (TrimSpace raw) with None => EmptyString | Some t => rel_label (since now t) end.

(* app.go entityTime *)
Definition entityTime (e : Entity) : option Z :=
  let raw := TrimSpace (Field e "created_at") in
  if sempty raw then None else ParseRFC3339 raw.

(** ** The steps of an order *)

(* app.go orderStatusKey *)
Definition orderStatusKey (raw : string) : string :=
  switch (norm raw)
    [(["accepted"], "ACCEPTED"); (["preparing"], "PREPARING"); (["ready"], "READY"); (["completed"], "COMPLETED");
     (["cancelled"; "canceled"], "CANCELLED"); (["refunded"], "REFUNDED")]%stdpp "PENDING".

(* app.go orderNextStep *)
Definition orderNextStep (key : string) : string * string :=
  switch key
    [(["PENDING"], ("accepted", "تأیید صندوقدار")); (["ACCEPTED"], ("preparing", "در حال آماده‌سازی"));
     (["PREPARING"], ("ready", "آماده تحویل")); (["READY"], ("completed", "تکمیل سفارش"))]%stdpp (EmptyString, EmptyString).

(** The keys of [posStageDefs] with the labels of the buttons. *)
(* app.go posStageDefs *)
Definition posStageDefs : list (string * string) :=
  [("accepted", "تأیید سفارش"); ("preparing", "شروع آماده‌سازی"); ("ready", "آماده تحویل")]%stdpp.

(** The stages a profile's text enables; an empty text is the default, all of them. *)
(* app.go:1384-1397 Application.posEnabledStages *)
Definition stages_of (raw : string) : list string :=
  let raw := TrimSpace raw in
  if sempty raw then posStageDefs.*1
  else concat (map (λ part, let p := TrimSpace (ToLower part) in List.filter (String.eqb p) posStageDefs.*1) (SplitByte "," raw)).

(** The stages behind a status: all of them behind [pending]. *)
Definition chain : list string := ["accepted"; "preparing"; "ready"]%stdpp.

(* app.go:1549-1560 orderAdvanceTarget *)
Fixpoint behind (statusKey : string) (l : list string) : option (list string) :=
  match l with
  | [] => None
  | k :: l => if bool_decide (k = statusKey) then Some l else behind statusKey l
  end.

(* app.go orderAdvanceTarget *)
Definition orderAdvanceTarget (statusKey : string) (stages : list string) : string * string :=
  match (match behind statusKey chain with
         | Some l => Some l
         | None => if bool_decide (statusKey = "pending") then Some chain else None
         end) with
  | None => (EmptyString, EmptyString)
  | Some later =>
      match List.find (λ k, existsb (String.eqb k) stages) later with
      | Some k => (k, switch k (map (λ p, ([p.1], p.2)) posStageDefs) EmptyString)
      | None => (EmptyString, EmptyString)
      end
  end.

(* app.go orderPrimaryAction *)
Definition orderPrimaryAction (statusKey : string) (stages : list string) : string * string :=
  let '(t, l) := orderAdvanceTarget statusKey stages in
  if negb (sempty t) then (t, l)
  else switch statusKey [(["pending"; "accepted"; "preparing"; "ready"], ("completed", "تکمیل و تسویه"))]%stdpp (EmptyString, EmptyString).

(** ** Amounts go through the form and back *)

(** A displayed number: read by the form as by its reader, and without white space. *)
Definition displayed (s : string) : Prop :=
  utf8_valid s = true ∧ Forall (λ r, normal_rune r = from_persian r ∧ rune_is_space r = false) (runes s).

Lemma displayed_app s t : displayed s → displayed t → displayed (s +:+ t).
Proof. intros [H1 H2] [H3 H4]. split; [by apply utf8_valid_app|]. rewrite runes_app by done. by apply Forall_app. Qed.

Lemma displayed_digits s : sforall is_dec_byte s = true → displayed (ToPersianDigits s).
Proof.
  induction s as [|c s IH]; [by split|]. cbn [sforall ToPersianDigits]. intros H. bools. apply displayed_app; [|by apply IH].
  unfold is_dec_byte in H. apply orb_true_iff in H as [H|H].
  - apply is_digit_inv in H. destruct c as [[] [] [] [] [] [] [] []]; cbn in H; try lia; (split; [done|by repeat constructor]).
  - bools. subst. split; [done|by repeat constructor].
Qed.

Lemma displayed_groups gs : Forall (λ g, sforall is_dec_byte g = true) gs → displayed (ToPersianDigits (Join thousands gs)).
Proof.
  induction 1 as [|g gs Hg Hgs IH]; [by split|]. destruct gs as [|g' gs]; [by apply displayed_digits|].
  change (Join thousands (g :: g' :: gs)) with (g +:+ thousands +:+ Join thousands (g' :: gs)).
  rewrite !ToPersianDigits_app. apply displayed_app; [by apply displayed_digits|]. apply displayed_app; [|exact IH].
  split; [done|by repeat constructor].
Qed.

Lemma displayed_number z : displayed (FormatPersianNumber (Z_to_dec z)).
Proof.
  rewrite FormatPersianNumber_dec. destruct (addThousandCommas_groups' (Z_to_dec z) (Z_to_dec_unsigned z)) as (g & gs & Hc & ->).
  rewrite ToPersianDigits_app. apply displayed_app; [destruct (HasPrefix _ _); (split; [done|by repeat constructor])|].
  apply displayed_groups, sforall_sconcat. rewrite Hc. pose proof (Z_to_dec_bytes z) as B. destruct (HasPrefix (Z_to_dec z) "-") eqn:P; [|done].
  apply HasPrefix_minus in P. rewrite P, sforall_app in B. by bools.
Qed.

Lemma displayed_reads s : displayed s → normalizeDigits s = latin_digits s ∧ TrimSpace s = s.
Proof.
  intros [_ H]. split.
  - unfold normalizeDigits, latin_digits. f_equal. apply map_ext_in. intros r Hr. rewrite Forall_forall in H. by apply H, list_elem_of_In.
  - rewrite Forall_forall in H. apply TrimSpace_id; intros r Hr; apply H; [by apply head_Some_elem_of|by apply last_Some_elem_of].
Qed.

(** an amount in Toman goes through the form and back.  What the till displays for a
    number of Toman is read by the form as ten times as many Rials, as long as they fit into
    64 bits; a larger amount is not refused, and an amount other than the one displayed is
    taken for it. *)
Theorem tomanFormToIRR_reads n : (0 <= n < two63)%Z →
  ∃ v, tomanFormToIRR (FormatPersianNumber (Z_to_dec n)) = Some (Z_to_dec v) ∧ in_int64 v ∧ (v = 10 * n ↔ 10 * n < two63)%Z.
Proof.
  intros Hn. destruct (displayed_reads _ (displayed_number n)) as [H1 H2]. unfold tomanFormToIRR.
  rewrite H2, H1, latin_FormatPersianNumber. destruct (sempty (Z_to_dec n)) eqn:E; [apply sempty_true in E; by apply Z_to_dec_nonempty in E|].
  rewrite Atoi_Z_to_dec by (unfold in_int64; lia). rewrite (proj2 (Z.ltb_ge _ _)) by lia.
  exists (wrap64 (n * 10)). split; [done|]. split; [apply wrap64_range|]. split.
  - intros H. pose proof (wrap64_range (n * 10)) as Hr. unfold in_int64 in Hr. lia.
  - intros H. rewrite wrap64_id by (unfold in_int64; lia). lia.
Qed.

Lemma tomanFormToIRR_reads_witness : ∃ v, tomanFormToIRR (FormatPersianNumber (Z_to_dec 922337203685477581)) = Some (Z_to_dec v) ∧ v ≠ 9223372036854775810%Z.
Proof.
  destruct (tomanFormToIRR_reads 922337203685477581) as (v & H1 & _ & H2); [unfold two63; lia|]. exists v. split; [exact H1|].
  intros Hv. apply H2 in Hv. unfold two63 in Hv. lia.
Defined.

Example toman_overflow : tomanFormToIRR "922337203685477581" = Some "-9223372036854775806"%stdpp.
Proof. vm_compute. reflexivity. Qed.
