(* ===== verification/Receipts.v ===== *)
(** * Receipts

    Models the texts of [offline-menuvex/printing.go]: the lines of a customer's receipt, of a
    kitchen ticket and of a test page, the bytes in the printers' language ESC/POS, and what is
    to be printed at which moment of an order.  A printer that understands the commands used
    is specified here as well, and prints the lines it is sent. *)
From S2P Require Import Prelude GoStrings GoFloat GoJson GoTime Store Entities EntityView PrintJobs Jalali Forms.

(* printing.go receiptLine *)
Record receiptLine := { rc_Text : string; rc_Bold : bool; rc_Center : bool; rc_Big : bool; rc_Feed : bool; rc_Solid : bool }.

(** The lines the code writes: plain, bold and so on, and the two separators. *)
Definition styled (bold center big : bool) (t : string) : receiptLine :=
  {| rc_Text := t; rc_Bold := bold; rc_Center := center; rc_Big := big; rc_Feed := false; rc_Solid := false |}.
Definition plain : string → receiptLine := styled false false false.
Definition bold : string → receiptLine := styled true false false.
Definition center : string → receiptLine := styled false true false.
Definition title : string → receiptLine := styled true true false.
Definition dashes : receiptLine :=
  {| rc_Text := EmptyString; rc_Bold := false; rc_Center := false; rc_Big := false; rc_Feed := true; rc_Solid := false |}.
Definition rule : receiptLine :=
  {| rc_Text := EmptyString; rc_Bold := false; rc_Center := false; rc_Big := false; rc_Feed := false; rc_Solid := true |}.

(** ** Texts *)

(* printing.go digitsFa *)
Definition digitsFa (v : string) : string :=
  ToPersianDigits (sconcat (map (λ r, match r with
                                      | String c EmptyString => if is_digit c then r else EmptyString
                                      | _ => match persian_val r with
                                             | Some d => sone d
                                             | None => match arabic_val r with Some d => sone d | None => EmptyString end
                                             end
                                      end) (runes v))).

(* printing.go jalaliDateTimeFa *)
Definition jalaliDateTimeFa (iso : string) : string :=
  let iso := TrimSpace iso in
  if sempty iso then EmptyString
  else match first_parse timestamp_layouts iso with
       | Some t => ToPersianDigits (numeric_date t +:+ "  " +:+ pad_num 2 (Hour tehranZone t) +:+ ":" +:+ pad_num 2 (Minute tehranZone t))
       | None => ToPersianDigits iso
       end.

(* printing.go jalaliTimeFa *)
Definition jalaliTimeFa (iso : string) : string :=
  let full := jalaliDateTimeFa iso in
  match LastIndex full "  " with Some i => sdrop (i + 2) full | None => full end.

(* printing.go orderTypeLabelFa *)
Definition orderTypeLabelFa (order : Entity) : string :=
  switch (ToLower (TrimSpace (Field order "fulfillment_type")))
    [(["outside"; "takeaway"], "بیرون‌بر"); (["delivery"], "ارسال")]%stdpp "حضوری".

(* printing.go paymentLabelFa *)
Definition paymentLabelFa (order : Entity) : string :=
  switch (ToLower (TrimSpace (Field order "payment_method")))
    [(["cash"; "card_pos"], "نقدی / کارتخوان"); (["credit_debtor"; "credit"], "خرید اعتباری (نسیه)"); (["mixed"], "ترکیبی")]%stdpp
    EmptyString.

(* printing.go cafeReceiptTexts *)
Definition cafeReceiptTexts (cafe : Entity) : string * string :=
  if sempty (e_ID cafe) then (EmptyString, EmptyString)
  else
    let footer := TrimSpace (Field cafe "receipt_footer_text") in
    (TrimSpace (Field cafe "receipt_header_text"), if sempty footer then TrimSpace (Field cafe "receipt_note") else footer).

(* printing.go cafeNameFa *)
Definition cafeNameFa (cafe : Entity) : string :=
  if negb (sempty (e_ID cafe)) && negb (sempty (Label cafe)) && negb (bool_decide (Label cafe = e_ID cafe))
  then Label cafe else "فاکتور فروش".

(* printing.go tableNumberFa *)
Definition tableNumberFa (order : Entity) : string := digitsFa (Field order "table_label").

(** ** The lines of a document *)

(** A label and its value, when there is one. *)
Definition labelled (k v : string) : list receiptLine := if sempty v then [] else [plain (k +:+ v)].

(** The lines of a text the user wrote, those that are not blank. *)
Definition paragraph (text : string) : list receiptLine :=
  if sempty text then []
  else map title (List.filter (λ p, negb (sempty (TrimSpace p))) (SplitByte newline_char text)).

(** An amount that is shown: one that is neither missing nor zero. *)
Definition amount_line (k v : string) : list receiptLine :=
  if sempty v || bool_decide (v = "0") then [] else [plain (k +:+ FormatIRRToToman v)].

Definition note_line (it : OrderLineView) : list receiptLine := if sempty (ol_Note it) then [] else [plain ("+ " +:+ ol_Note it)].
Definition quantity_fa (q : Z) : string := FormatPersianNumber (Z_to_dec q).
Definition no_items : list receiptLine := [center "آیتمی ثبت نشده است"].
Definition powered : receiptLine := center "POWERED BY MENUVEX.IR".
Definition thanks : receiptLine := title "از خرید شما سپاسگزاریم".

(* printing.go:342-353 buildReceiptLinesFiltered *)
Definition test_page (cafe : Entity) (now : Z) : list receiptLine :=
  [title (cafeNameFa cafe); center "SALES RECEIPT"; rule; center "فیش آزمایشی چاپگر حرارتی"; center "اتصال چاپگر برقرار است.";
   center (FormatJalaliFull now); rule; thanks; powered].

(* printing.go:367-402 buildReceiptLinesFiltered *)
Definition kitchen_ticket (order cafe : Entity) (items : list OrderLineView) : list receiptLine :=
  [title "سفارش آشپزخانه"]
  ++ (if sempty (e_ID cafe) then [] else [center (cafeNameFa cafe)])
  ++ [rule]
  ++ (let tn := tableNumberFa order in if sempty tn then [] else [styled true true true ("میز " +:+ tn)])
  ++ [bold ("شماره " +:+ ToPersianDigits (Field order "order_number"));
      plain ("ساعت: " +:+ jalaliTimeFa (Field order "created_at"));
      plain ("تاریخ: " +:+ jalaliDateTimeFa (Field order "created_at"));
      plain ("نوع: " +:+ orderTypeLabelFa order);
      dashes]
  ++ (match items with [] => no_items | _ => [] end)
  ++ concat (map (λ it, bold ("×" +:+ quantity_fa (ol_Quantity it) +:+ " " +:+ ol_ProductName it) :: note_line it) items)
  ++ (let n := Field order "note" in if sempty n then [] else [dashes; bold ("یادداشت: " +:+ n)])
  ++ [rule; center "— پایان سفارش —"].

(* printing.go:404-479 buildReceiptLinesFiltered *)
Definition sales_receipt (order cafe : Entity) (items : list OrderLineView) : list receiptLine :=
  let '(headerText, footerText) := cafeReceiptTexts cafe in
  [center "SALES RECEIPT"; title (cafeNameFa cafe)]
  ++ (if sempty (e_ID cafe) || sempty (Field cafe "address") then [] else [center (Field cafe "address")])
  ++ paragraph headerText
  ++ [rule;
      plain ("شماره فیش: " +:+ ToPersianDigits (Field order "order_number"));
      plain ("تاریخ: " +:+ jalaliDateTimeFa (Field order "created_at"));
      plain ("نوع سفارش: " +:+ orderTypeLabelFa order)]
  ++ labelled "پرداخت: " (paymentLabelFa order)
  ++ labelled "مشتری: " (Field order "customer_name")
  ++ labelled "تلفن مشتری: " (Field order "customer_phone")
  ++ labelled "میز: " (tableNumberFa order)
  ++ [dashes]
  ++ (match items with [] => no_items | _ => [] end)
  ++ concat (map (λ it, bold (ol_ProductName it) :: note_line it
                        ++ [plain (quantity_fa (ol_Quantity it) +:+ " × " +:+ FormatIRRToToman (ol_UnitPrice it) +:+ " = "
                                   +:+ FormatIRRToToman (ol_LineTotal it))]) items)
  ++ [dashes; plain ("تعداد اقلام: " +:+ quantity_fa (foldl (λ n it, wrap64 (n + ol_Quantity it)) 0%Z items))]
  ++ amount_line "جمع اقلام: " (Field order "subtotal_irr")
  ++ amount_line "تخفیف: - " (Field order "discount_irr")
  ++ [styled true false true ("مبلغ قابل پرداخت: " +:+ PriceToman order)]
  ++ (let n := Field order "note" in if sempty n then [] else [dashes; plain ("یادداشت: " +:+ n)])
  ++ [rule; thanks]
  ++ paragraph footerText
  ++ [powered].

(** [keep] is [keepItem] of the code, [None] its [nil]. *)
(* printing.go buildReceiptLinesFiltered *)
Definition buildReceiptLinesFiltered (now : Z) (order cafe : Entity) (docType : string) (keep : option (string → bool))
    : list receiptLine :=
  if bool_decide (docType = "test") then test_page cafe now
  else
    let items := match keep with
                 | Some f => List.filter (λ it, f (ol_ProductID it)) (OrderItems order)
                 | None => OrderItems order
                 end in
    if bool_decide (docType = "kitchen") then kitchen_ticket order cafe items else sales_receipt order cafe items.

(* printing.go buildReceiptLines *)
Definition buildReceiptLines (now : Z) (order cafe : Entity) (docType : string) : list receiptLine :=
  buildReceiptLinesFiltered now order cafe docType None.

(** ** Bytes for the printer *)

Definition ESC : ascii := "027"%char.
Definition GS : ascii := "029"%char.
Definition NUL : ascii := "000"%char.
Definition SOH : ascii := "001"%char.

Fixpoint bytes (l : list ascii) : string := match l with [] => EmptyString | c :: l => String c (bytes l) end.

(* printing.go boolByte *)
Definition boolByte (v : bool) : ascii := if v then SOH else NUL.

(* printing.go paperChars *)
Definition paperChars (paperWidth : string) : nat := if bool_decide (paperWidth = "58mm") then 32 else 48.

(* printing.go:491-516 buildESCPos *)
Definition line_bytes (paperWidth : string) (ln : receiptLine) : string :=
  if rc_Feed ln || rc_Solid ln then
    bytes (repeat (if rc_Solid ln then "="%char else "-"%char) (paperChars paperWidth)) +:+ sone newline_char
  else
    bytes [ESC; "a"%char; boolByte (rc_Center ln)]
    +:+ (if rc_Bold ln then bytes [ESC; "E"%char; SOH] else EmptyString)
    +:+ (if rc_Big ln then bytes [GS; "!"%char; "017"%char] else EmptyString)
    +:+ rc_Text ln
    +:+ (if rc_Big ln then bytes [GS; "!"%char; NUL] else EmptyString)
    +:+ (if rc_Bold ln then bytes [ESC; "E"%char; NUL] else EmptyString)
    +:+ bytes [ESC; "a"%char; NUL; newline_char].

(* printing.go buildESCPos *)
Definition buildESCPos (lines : list receiptLine) (paperWidth : string) : string :=
  bytes [ESC; "@"%char] +:+ sconcat (map (line_bytes paperWidth) lines)
  +:+ bytes [ESC; "d"%char; "003"%char] +:+ bytes [GS; "V"%char; "B"%char; NUL].

(** ** What is printed when *)

(* printing.go PrintScenario *)
Record PrintScenario := { ps_Mode : string; ps_Doc : string; ps_Copies : Z; ps_Merchant : bool; ps_Checkout : bool }.

(* printing.go PrintPolicy *)
Record PrintPolicy := { pp_Create : PrintScenario; pp_NoTable : PrintScenario; pp_Checkout : PrintScenario; pp_Complete : PrintScenario }.

(* printing.go:170-175 Application.printPolicy *)
Definition default_policy : PrintPolicy :=
  let kitchen := {| ps_Mode := "kitchen"; ps_Doc := "kitchen"; ps_Copies := 1; ps_Merchant := false; ps_Checkout := false |} in
  {| pp_Create := kitchen; pp_NoTable := kitchen;
     pp_Checkout := {| ps_Mode := "both"; ps_Doc := "cashier"; ps_Copies := 2; ps_Merchant := true; ps_Checkout := true |};
     pp_Complete := {| ps_Mode := "customer"; ps_Doc := "cashier"; ps_Copies := 1; ps_Merchant := false; ps_Checkout := false |} |}.

(* printing.go:180-192 Application.printPolicy *)
Definition apply_scenario (prof : Entity) (prefix : string) (sc : PrintScenario) : PrintScenario :=
  let get k := TrimSpace (Field prof (prefix +:+ k)) in
  {| ps_Mode := if sempty (get "_mode") then ps_Mode sc else get "_mode";
     ps_Doc := if sempty (get "_doc") then ps_Doc sc else get "_doc";
     ps_Copies := match Atoi (get "_copies") with
                  | (n, true) => if (1 <=? n)%Z && (n <=? 5)%Z then n else ps_Copies sc
                  | _ => ps_Copies sc
                  end;
     ps_Merchant := ps_Merchant sc; ps_Checkout := ps_Checkout sc |}.

(* printing.go Application.printPolicy *)
Definition printPolicy (prof : res Entity) : PrintPolicy :=
  match prof with
  | Err _ => default_policy
  | Ok prof =>
      let checkout := apply_scenario prof "pw_checkout" (pp_Checkout default_policy) in
      let v := TrimSpace (Field prof "pw_checkout_merchant") in
      {| pp_Create := apply_scenario prof "pw_create" (pp_Create default_policy);
         pp_NoTable := apply_scenario prof "pw_notable" (pp_NoTable default_policy);
         pp_Checkout := {| ps_Mode := ps_Mode checkout; ps_Doc := ps_Doc checkout; ps_Copies := ps_Copies checkout;
                           ps_Merchant := if sempty v then ps_Merchant checkout else bool_decide (v = "true");
                           ps_Checkout := ps_Checkout checkout |};
         pp_Complete := apply_scenario prof "pw_complete" (pp_Complete default_policy) |}
  end.

Definition doc_counts := gmap string Z.
Definition of_customer (n : Z) : doc_counts := {["customer" := n]}.
Definition of_kitchen (n : Z) : doc_counts := {["kitchen" := n]}.
Definition of_both (n : Z) : doc_counts := {["customer" := n; "kitchen" := n]}.

(* printing.go PrintScenario.docs *)
Definition docs (sc : PrintScenario) : doc_counts :=
  let c := clamp_copies (ps_Copies sc) in
  if ps_Checkout sc then
    switch (ps_Mode sc)
      [(["customer"], of_customer c); (["both"], of_customer 2);
       (["custom"], of_customer (if ps_Merchant sc then c + c else c))]%stdpp ∅
  else
    switch (ps_Mode sc)
      [(["kitchen"], of_kitchen c); (["customer"], of_customer c); (["both"], of_both c);
       (["custom"], switch (ps_Doc sc) [(["kitchen"], of_kitchen c); (["cashier"], of_customer c); (["all"], of_both c)] ∅)]%stdpp ∅.

(** The scenario of an event; none for an event that is not known. *)
(* printing.go:255-267 Application.autoPrint *)
Definition scenario_of (pol : PrintPolicy) (event : string) : option PrintScenario :=
  switch event
    [(["create"], Some (pp_Create pol)); (["notable"], Some (pp_NoTable pol)); (["checkout"], Some (pp_Checkout pol));
     (["complete"], Some (pp_Complete pol))]%stdpp None.

(** ** A printer

    What a printer does with the commands used here, as the ESC/POS manuals describe them:
    [ESC @] resets it, [ESC a] aligns the line that begins, [ESC E] and [GS !] switch the
    weight and the size of what follows, a line feed prints the line, [ESC d] feeds paper and
    [GS V] cuts it.  A character is printed with its weight and its size. *)
Record carriage := { h_center : bool; h_bold : bool; h_big : bool; h_line : list (ascii * (bool * bool)) }.

Inductive output :=
| Line (centered : bool) (l : list (ascii * (bool * bool)))
| Fed (n : N)
| Cut.

Definition reset : carriage := {| h_center := false; h_bold := false; h_big := false; h_line := [] |}.
Definition set_center (b : bool) (h : carriage) : carriage :=
  match h_line h with
  | [] => {| h_center := b; h_bold := h_bold h; h_big := h_big h; h_line := [] |}
  | _ => h
  end.
Definition set_bold (b : bool) (h : carriage) : carriage := {| h_center := h_center h; h_bold := b; h_big := h_big h; h_line := h_line h |}.
Definition set_big (b : bool) (h : carriage) : carriage := {| h_center := h_center h; h_bold := h_bold h; h_big := b; h_line := h_line h |}.
Definition strike (c : ascii) (h : carriage) : carriage :=
  {| h_center := h_center h; h_bold := h_bold h; h_big := h_big h; h_line := h_line h ++ [(c, (h_bold h, h_big h))] |}.
Definition next_line (h : carriage) : carriage := {| h_center := h_center h; h_bold := h_bold h; h_big := h_big h; h_line := [] |}.

(** [o] comes out before what follows. *)
Definition emit (o : list output) (r : list output * carriage) : list output * carriage := (o ++ r.1, r.2).

(** What comes out for the bytes, and how they leave the carriage. *)
Fixpoint print (s : string) (h : carriage) : list output * carriage :=
  match s with
  | EmptyString => ([], h)
  | String c t =>
      if bool_decide (c = ESC) then
        match t with
        | String "@" u => print u reset
        | String "a" (String n u) => print u (set_center (negb (bool_decide (n = NUL))) h)
        | String "E" (String n u) => print u (set_bold (negb (bool_decide (n = NUL))) h)
        | String "d" (String n u) => emit [Fed (byte_of n)] (print u h)
        | _ => print t h
        end
      else if bool_decide (c = GS) then
        match t with
        | String "!" (String n u) => print u (set_big (negb (bool_decide (n = NUL))) h)
        | String "V" (String "B" (String _ u)) => emit [Cut] (print u h)
        | _ => print t h
        end
      else if bool_decide (c = newline_char) then emit [Line (h_center h) (h_line h)] (print t (next_line h))
      else print t (strike c h)
  end.

(** What is to be seen on the paper.  A separator fills the width, so its alignment, that of
    the text before it, cannot be seen. *)
Definition in_style (b big : bool) (s : string) : list (ascii * (bool * bool)) := map (λ c, (c, (b, big))) (to_list s).

(** An empty line has no alignment. *)
Definition aligned (ln : receiptLine) : bool := rc_Center ln && negb (sempty (rc_Text ln)).

Fixpoint on_paper (paperWidth : string) (centered : bool) (lines : list receiptLine) : list output :=
  match lines with
  | [] => []
  | ln :: lines =>
      if rc_Feed ln || rc_Solid ln then
        Line centered (repeat (if rc_Solid ln then "="%char else "-"%char, (false, false)) (paperChars paperWidth))
        :: on_paper paperWidth centered lines
      else Line (aligned ln) (in_style (rc_Bold ln) (rc_Big ln) (rc_Text ln)) :: on_paper paperWidth (aligned ln) lines
  end.

(** Texts without the bytes that start a command or end a line. *)
Definition is_text (c : ascii) : bool := negb (bool_decide (c = ESC)) && negb (bool_decide (c = GS)) && negb (bool_decide (c = newline_char)).
Definition writable (ln : receiptLine) : bool := sforall is_text (rc_Text ln).

Lemma to_list_app s t : to_list (s +:+ t) = to_list s ++ to_list t.
Proof. induction s as [|c s IH]; [done|]. rewrite sapp_cons. cbn. by rewrite IH. Qed.

Lemma to_list_bytes l : to_list (bytes l) = l.
Proof. induction l as [|c l IH]; [done|]. cbn. by rewrite IH. Qed.

Lemma sforall_bytes P l : sforall P (bytes l) = forallb P l.
Proof. induction l as [|c l IH]; [done|]. cbn. by rewrite IH. Qed.

Lemma print_text s t : ∀ h, sforall is_text s = true →
  print (s +:+ t) h
  = print t {| h_center := h_center h; h_bold := h_bold h; h_big := h_big h; h_line := h_line h ++ in_style (h_bold h) (h_big h) s |}.
Proof.
  induction s as [|c s IH]; intros h H.
  { cbn [in_style to_list map]. rewrite app_nil_r. by destruct h. }
  cbn [sforall] in H. apply andb_true_iff in H as [Hc H]. unfold is_text in Hc. apply andb_true_iff in Hc as [Hc H3]. apply andb_true_iff in Hc as [H1 H2].
  rewrite sapp_cons. cbn [print]. apply negb_true_iff in H1, H2, H3. rewrite H1, H2, H3, IH by done.
  unfold strike. cbn [h_center h_bold h_big h_line]. unfold in_style. cbn [to_list map]. by rewrite <- app_assoc.
Qed.

(** A carriage between two lines. *)
Definition ready_head (centered : bool) : carriage := {| h_center := centered; h_bold := false; h_big := false; h_line := [] |}.

(** What each command does. *)
Lemma print_align b t h : print (bytes [ESC; "a"%char; boolByte b] +:+ t) h = print t (set_center b h).
Proof. by destruct b. Qed.
Lemma print_bold b t h : print (bytes [ESC; "E"%char; boolByte b] +:+ t) h = print t (set_bold b h).
Proof. by destruct b. Qed.
Lemma print_big_on t h : print (bytes [GS; "!"%char; "017"%char] +:+ t) h = print t (set_big true h).
Proof. done. Qed.
Lemma print_big_off t h : print (bytes [GS; "!"%char; NUL] +:+ t) h = print t (set_big false h).
Proof. done. Qed.
Lemma print_feed t h : print (String newline_char t) h = emit [Line (h_center h) (h_line h)] (print t (next_line h)).
Proof. done. Qed.

(** The same, for a switch that is only sent when it is needed. *)
Lemma print_if_bold (b v : bool) t h : h_bold h = (if v then false else b) →
  print ((if b then bytes [ESC; "E"%char; boolByte v] else EmptyString) +:+ t) h = print t (set_bold (b && v) h).
Proof. intros H. destruct b; [by rewrite print_bold|]. destruct h; cbn in *; subst. by destruct v. Qed.
Lemma print_if_big (b v : bool) t h : h_big h = (if v then false else b) →
  print ((if b then bytes [GS; "!"%char; if v then "017"%char else NUL] else EmptyString) +:+ t) h = print t (set_big (b && v) h).
Proof.
  intros H. destruct b; [destruct v; [apply print_big_on|apply print_big_off]|]. destruct h; cbn in *; subst. by destruct v.
Qed.

Lemma print_line paper ln centered t : writable ln = true →
  print (line_bytes paper ln +:+ t) (ready_head centered)
  = emit (on_paper paper centered [ln]) (print t (ready_head (if rc_Feed ln || rc_Solid ln then centered else aligned ln))).
Proof.
  intros Hw. unfold line_bytes. cbn [on_paper]. destruct (rc_Feed ln || rc_Solid ln).
  - rewrite sapp_assoc, print_text.
    + change (sone newline_char +:+ t) with (String newline_char t). rewrite print_feed. unfold in_style.
      rewrite to_list_bytes, map_repeat. done.
    + rewrite sforall_bytes. apply forallb_forall. intros c Hc%repeat_spec. by destruct (rc_Solid ln); subst c.
  - change (bytes [ESC; "a"%char; NUL; newline_char]) with (bytes [ESC; "a"%char; boolByte false] +:+ sone newline_char).
    change (bytes [ESC; "E"%char; SOH]) with (bytes [ESC; "E"%char; boolByte true]).
    change (bytes [ESC; "E"%char; NUL]) with (bytes [ESC; "E"%char; boolByte false]).
    rewrite !sapp_assoc, print_align, print_if_bold, (print_if_big _ true), print_text by done.
    rewrite (print_if_big _ false), print_if_bold, print_align by (cbn; by rewrite ?andb_true_r).
    change (sone newline_char +:+ t) with (String newline_char t). rewrite print_feed. unfold set_center, next_line, set_bold, set_big, ready_head.
    cbn [h_center h_bold h_big h_line app andb]. rewrite !andb_true_r, !andb_false_r. unfold in_style, aligned. destruct (rc_Text ln); cbn; by rewrite ?andb_false_r, ?andb_true_r.
Qed.

Lemma print_lines paper lines t : ∀ centered, Forall (λ ln, writable ln = true) lines →
  ∃ c, print (sconcat (map (line_bytes paper) lines) +:+ t) (ready_head centered)
       = emit (on_paper paper centered lines) (print t (ready_head c)).
Proof.
  induction lines as [|ln lines IH]; intros centered H.
  { exists centered. unfold emit. cbn [map sconcat on_paper app]. change (EmptyString +:+ t) with t. by destruct (print t _). }
  inversion_clear H as [|? ? Hl Hs].
  cbn [map sconcat]. rewrite sapp_assoc, print_line by done. destruct (IH (if rc_Feed ln || rc_Solid ln then centered else aligned ln) Hs) as [c E].
  exists c. rewrite E. cbn [on_paper]. by destruct (rc_Feed ln || rc_Solid ln).
Qed.

(** C12: what is sent is what is printed.  A printer in any condition that gets the bytes of a
    document whose texts hold no command bytes and no line breaks prints every line with its
    text, its weight, size and alignment, and a full line of dashes or equals signs for a
    separator, in order, then feeds three lines and cuts the paper once; and it is left with
    normal weight and size and no text that was not printed.  (Only the alignment may stay that
    of the last line.) *)
Theorem buildESCPos_prints lines paper h :
  Forall (λ ln, writable ln = true) lines →
  ∃ h', print (buildESCPos lines paper) h = (on_paper paper false lines ++ [Fed 3; Cut], h')
    ∧ h_bold h' = false ∧ h_big h' = false ∧ h_line h' = [].
Proof.
  intros H. unfold buildESCPos.
  change (print (bytes [ESC; "@"%char] +:+ ?t) h) with (print t (ready_head false)).
  destruct (print_lines paper lines (bytes [ESC; "d"%char; "003"%char] +:+ bytes [GS; "V"%char; "B"%char; NUL]) false H) as [c E].
  exists (ready_head c). split; [exact E|done].
Qed.

Lemma buildESCPos_prints_witness :
  ∃ h', print (buildESCPos [title "Cafe"; dashes; plain "total 120,000"] "58mm") reset
        = (on_paper "58mm" false [title "Cafe"; dashes; plain "total 120,000"] ++ [Fed 3; Cut], h')
    ∧ h_bold h' = false ∧ h_big h' = false ∧ h_line h' = [].
Proof. apply (buildESCPos_prints [title "Cafe"; dashes; plain "total 120,000"] "58mm" reset). by repeat constructor. Defined.

(** ** How much is printed *)

(** a policy asks for a bounded number of copies.  Whatever the profile holds, a scenario
    asks for customers' receipts and kitchen tickets only, for each between one and five
    copies, and up to ten at a settlement that is printed for the café as well. *)
Theorem docs_bounds sc k n :
  docs sc !! k = Some n →
  k ∈ ["customer"; "kitchen"]%stdpp ∧ (1 <= n)%Z
  ∧ (n <= if ps_Checkout sc && bool_decide (ps_Mode sc = "custom") && ps_Merchant sc then 10 else 5)%Z
  ∧ (ps_Checkout sc = true → k = "customer").
Proof.
  unfold docs. assert (1 <= clamp_copies (ps_Copies sc) <= 5)%Z as Hc.
  { unfold clamp_copies. destruct (ps_Copies sc <? 1)%Z eqn:?, (5 <? _)%Z eqn:?; bools; lia. }
  set (c := clamp_copies _) in *. clearbody c. unfold switch, of_customer, of_kitchen, of_both. cbn [existsb].
  rewrite !orb_false_r, !string_eqb. intros H.
  repeat case_match; bools; subst; cbn in *;
    repeat match goal with H : _ = Some _ |- _ => apply lookup_singleton_Some in H as [<- <-] || apply lookup_insert_Some in H as [[<- <-]|[? H]] || by rewrite lookup_empty in H end;
    split_and!; try lia; try done; try (by left); try (by right; left).
Qed.

Lemma docs_bounds_witness :
  "customer"%stdpp ∈ ["customer"; "kitchen"]%stdpp ∧ (1 <= 2)%Z ∧ (2 <= 10)%Z ∧ (true = true → "customer" = "customer"%stdpp).
Proof. apply (docs_bounds (pp_Checkout default_policy)). vm_compute. reflexivity. Defined.
