(* ===== verification/Desk.v ===== *)
(** * The world of the handlers

    The handlers of [offline-menuvex/app.go] and the printing of [offline-menuvex/printing.go]
    work on the store, read the clock and the source of random bytes, and reach printers.  Here
    is the state they thread, the request they are given and what they answer.  Every
    interaction with the outside has a number, and its outcome is given by that number.

    A handler is run alone: between its transactions no other request comes in. *)
From S2P Require Import Prelude GoStrings GoFloat GoJson GoTime Store Entities EntityView Records Orders PrintJobs Forms.

(** ** Requests and replies *)

(** A request as the handlers look at it: the parsed form, the query of the address, whether
    it comes from HTMX, and the name in the session. *)
Record Request := {
  rq_Form : gmap string (list string);
  rq_Query : gmap string (list string);
  rq_HX : bool;
  rq_User : option string;
}.

(** [r.Form.Get(k)] and [r.Form[k]] *)
Definition values (r : Request) (k : string) : list string := default [] (rq_Form r !! k).
Definition form (r : Request) (k : string) : string := default EmptyString (head (values r k)).
Definition trimmed (r : Request) (k : string) : string := TrimSpace (form r k).

(** [r.URL.Query().Get(k)], and without the white space around it. *)
Definition query (r : Request) (k : string) : string := default EmptyString (head (default [] (rq_Query r !! k))).
Definition asked (r : Request) (k : string) : string := TrimSpace (query r k).

(** A request from HTMX with a form of single values. *)
Definition asking (l : list (string * string)) : Request :=
  {| rq_Form := list_to_map (map (λ p, (p.1, [p.2])) l); rq_Query := ∅; rq_HX := true; rq_User := None |}.

Inductive Reply :=
| Redirect (url : string)
| Rendered (query : gmap string (list string)) (push : option string) (message : string)
| JsonReply (ok : bool) (message : string).

(* app.go Application.navigatePage *)
Definition navigatePage (r : Request) (page message : string) : Reply :=
  if negb (rq_HX r) then Redirect ("/?page=" +:+ page)
  else Rendered (<["page" := [page]]> (rq_Query r)) (Some ("/?page=" +:+ page)) message.

Definition with_query (k v : string) (r : Request) : Request :=
  {| rq_Form := rq_Form r; rq_Query := <[k := [v]]> (rq_Query r); rq_HX := rq_HX r; rq_User := rq_User r |}.

(* app.go Application.navigatePOS *)
Definition navigatePOS (r : Request) (message splitOrderID : string) : Reply :=
  if rq_HX r then
    navigatePage (if sempty splitOrderID then r else with_query "split" splitOrderID r) "pos" message
  else Redirect ("/?page=pos" +:+ (if sempty splitOrderID then EmptyString else "&split=" +:+ splitOrderID)).

(** [a.render(w, r, message)] on the page the request is on. *)
Definition render (r : Request) (message : string) : Reply := Rendered (rq_Query r) None message.

(** The message a reply shows; a redirect shows none. *)
Definition message_of (p : Reply) : option string :=
  match p with Redirect _ => None | Rendered _ _ m => Some m | JsonReply _ m => Some m end.

(** ** The world *)

(** What an attempt to print meets: the spool directory of the environment, the operating
    system, and the outcomes of the calls, [None] being success. *)
Record Attempt := {
  at_spool : string;
  at_mkdir : option string;
  at_write_file : option string;
  at_dial : option string;
  at_write : option string;
  at_windows : bool;
  at_lookpath : bool;
  at_run : option string;   (* the output of a failed command *)
}.

(** What has reached a printer. *)
Inductive delivery :=
| Spooled (dir name payload : string)
| Wired (target payload : string)
| Piped (args : list string) (payload : string).

(** The store, the number of the next interaction, what has been printed, and the jobs handed
    to goroutines. *)
Record world := {
  w_store : Store;
  w_tick : nat;
  w_printed : list delivery;
  w_background : list (list PrintJobView);
}.

Record Env := {
  ev_runtime : nat → Runtime;
  ev_io : nat → nat → IO;
  ev_ctx : nat → option string;
  ev_clock : nat → nat → Z;
  ev_zone : Z → Z;   (* the offset of the local time zone, and of Tehran *)
  ev_tehran : Z → Z;
  ev_draws : nat → entropy;
  ev_attempt : nat → Attempt;
}.

Definition app (A : Type) : Type := world → A * world.

#[export] Instance app_ret : MRet app := λ A a w, (a, w).
#[export] Instance app_bind : MBind app := λ A B f m w, let '(a, w) := m w in f a w.

Definition with_store (s : Store) (w : world) : world :=
  {| w_store := s; w_tick := S (w_tick w); w_printed := w_printed w; w_background := w_background w |}.

(** One interaction: with its number and the store, to an answer and the store after it. *)
Definition act {A} (f : nat → Store → A * Store) : app A := λ w,
  let '(a, s) := f (w_tick w) (w_store w) in (a, with_store s w).

Section Actions.
Variable E : Env.
(** The request's context; [context.Background()] does not end. *)
Variable background : bool.

Definition ctx_at (n : nat) : option string := if background then None else ev_ctx E n.

(** A read of the store. *)
Definition reads {A} (f : Runtime → option string → persistedDB → A) : app A :=
  act (λ n s, (f (ev_runtime E n) (ctx_at n) (s_state s), s)).

(** A transaction. *)
Definition transacts {A} (f : Runtime → IO → option string → Z → entropy → Store → tx_out A) : app (res A) :=
  act (λ n s, let o := f (ev_runtime E n) (ev_io E n 0) (ctx_at n) (ev_clock E n 0) (ev_draws E n) s in (tx_res o, tx_store o)).

(** What one range over a map or one sort chooses. *)
Definition runtime : app Runtime := act (λ n s, (ev_runtime E n, s)).

(** A read of the clock. *)
Definition now : app Z := act (λ n s, (ev_clock E n 0, s)).

Definition entity (kind id : string) : app (res Entity) := reads (λ R ctx st, let? _ := read_ctx ctx () in Entity_of kind id st).

(** [ents, _ := a.store.Entities(ctx, kind)] *)
Definition entities (kind : string) : app (list Entity) :=
  reads (λ R ctx st, match read_ctx ctx () with Ok _ => Entities_of R kind st | Err _ => [] end).

Definition save (kind id : string) (fields : gomap) : app (res string) :=
  transacts (λ R io ctx t g s, SaveLocalRecord io ctx s g t kind id fields).

Definition delete_record (kind id : string) : app (res unit) :=
  transacts (λ R io ctx t g s, DeleteLocalRecord io ctx s kind id).
End Actions.

(** ** Runs *)

(** A property of the store that every interaction keeps holds after a run. *)
Definition keeps (I : Store → Prop) {A} (m : app A) : Prop := ∀ w, I (w_store w) → I (w_store (m w).2).

Lemma keeps_ret (I : Store → Prop) {A} (a : A) : keeps I (mret (M := app) a).
Proof. by intros w. Qed.

Lemma keeps_bind (I : Store → Prop) {A B} (m : app A) (f : A → app B) : keeps I m → (∀ a, keeps I (f a)) → keeps I (m ≫= f).
Proof.
  intros Hm Hf w Hw. unfold mbind, app_bind. specialize (Hm w Hw). destruct (m w) as [a w']. by apply Hf.
Qed.

Lemma keeps_act (I : Store → Prop) {A} (f : nat → Store → A * Store) : (∀ n s, I s → I (f n s).2) → keeps I (act f).
Proof. intros H w Hw. unfold act. specialize (H (w_tick w) _ Hw). by destruct (f _ _). Qed.

Lemma keeps_reads (I : Store → Prop) E bg {A} (f : Runtime → option string → persistedDB → A) : keeps I (reads E bg f).
Proof. by apply keeps_act. Qed.

Lemma keeps_transacts (I : Store → Prop) E bg {A} (f : Runtime → IO → option string → Z → entropy → Store → tx_out A) :
  (∀ R io ctx t g s, I s → I (tx_store (f R io ctx t g s))) → keeps I (transacts E bg f).
Proof. intros H. apply keeps_act. intros n s Hs. by apply H. Qed.

(** ** What a handler may rely on

    A property of the store is kept by the transactions whose bodies only make steps of a
    relation.  This is all a handler's proof asks of a property: it is proved once for every
    property of the kind, of the state or of the file. *)
Class Kept (E : Env) (R : persistedDB → persistedDB → Prop) (I : Store → Prop) : Prop :=
  kept_withTx : ∀ n k A ctx s (fn : persistedDB → res (A * persistedDB)),
    (∀ a st, fn (s_state s) = Ok (a, st) → R (s_state s) st) → I s → I (tx_store (withTx (ev_io E n k) ctx s fn)).

(** What has happened since a state is a sequence of steps of the relation. *)
#[export] Instance Kept_since E R st0 : PreOrder R → Kept E R (λ s, R st0 (s_state s)).
Proof.
  intros P n k A ctx s fn Hf H. apply (withTx_inv _ _ _ _ (λ st, R st0 st)); [|done]. intros a st Ha. etrans; [exact H|by eapply Hf].
Qed.

Lemma Kept_weaken E (R R' : persistedDB → persistedDB → Prop) I : Kept E R I → (∀ a b, R' a b → R a b) → Kept E R' I.
Proof. intros K H n k A ctx s fn Hf. apply K. eauto. Qed.

Lemma Kept_and E R I J : Kept E R I → Kept E R J → Kept E R (λ s, I s ∧ J s).
Proof. intros HI HJ n k A ctx s fn Hf [Hi Hj]. split; [by apply HI|by apply HJ]. Qed.

#[export] Instance frame_preorder kinds : PreOrder (frame kinds).
Proof. split; [intros st; apply frame_refl|intros a b c; apply frame_trans]. Qed.

Lemma Kept_frame E kinds kinds' I : kinds' ⊆ kinds → Kept E (frame kinds) I → Kept E (frame kinds') I.
Proof. intros H K. eapply Kept_weaken; [exact K|]. intros a b. by apply frame_weaken. Qed.

Section Interactions.
Variables (E : Env) (I : Store → Prop) (bg : bool).

Lemma keeps_entity kind id : keeps I (entity E bg kind id).
Proof. apply keeps_reads. Qed.
Lemma keeps_entities kind : keeps I (entities E bg kind).
Proof. apply keeps_reads. Qed.
Lemma keeps_now : keeps I (now E).
Proof. by apply keeps_act. Qed.
Lemma keeps_runtime : keeps I (runtime E).
Proof. by apply keeps_act. Qed.
End Interactions.

Create HintDb go_desk.
#[export] Hint Resolve keeps_ret keeps_reads keeps_entity keeps_entities keeps_now keeps_runtime : go_desk.

(** A handler keeps what each of its interactions keeps: its branches and binds are taken
    apart, and the interactions are looked up. *)
Ltac keeps_steps :=
  cbv zeta;
  repeat match goal with
         | |- keeps _ (mbind _ _) => apply keeps_bind; [|intros ?]
         | |- keeps _ (match ?x with _ => _ end) => destruct x
         | |- keeps _ (let '_ := ?x in _) => destruct x
         | |- keeps _ _ => solve [eauto with go_desk]
         end.
