(* ===== verification/Printing.v ===== *)
(** * Sending documents to printers

    Models the working half of [offline-menuvex/printing.go]: the network address found in a
    printer's description, an attempt to send, the printing of one job, and the jobs of an
    order made and printed in one go or handed to a goroutine. *)
From S2P Require Import Prelude GoStrings GoFloat GoJson GoJsonFacts GoReadback GoTime Store Reopen Entities EntityView Outbox Records Orders OrderStates PrintJobs PrintDedupe Jalali Forms Receipts Desk.

(** ** The address of a network printer

    The expression [(\d{1,3}(?:\.\d{1,3}){3}):(\d{2,5})], matched as Go's regexp package does:
    at the leftmost place where it can match, the repetitions taking as much as lets the rest
    match.  [digits lo extra k s] takes between [lo] and [lo + extra] digits and goes on with
    [k]; the rest of the text is answered. *)
Fixpoint digits (lo extra : nat) (k : string → option string) (s : string) : option string :=
  match lo, s with
  | S lo, String c t => if is_digit c then digits lo extra k t else None
  | S _, EmptyString => None
  | O, String c t =>
      match extra with
      | S extra => if is_digit c then (match digits 0 extra k t with Some r => Some r | None => k s end) else k s
      | O => k s
      end
  | O, EmptyString => k s
  end.

Definition byte (b : ascii) (k : string → option string) (s : string) : option string :=
  match s with String c t => if bool_decide (c = b) then k t else None | EmptyString => None end.

Definition octet : (string → option string) → string → option string := digits 1 2.

(* printing.go networkPrinterPattern *)
Definition networkPrinterPattern (s : string) : option string :=
  octet (byte "." (octet (byte "." (octet (byte "." (octet (byte ":" (digits 2 3 Some)))))))) s.

(** The leftmost match; the empty text when there is none. *)
(* printing.go parseNetworkTarget *)
Fixpoint parseNetworkTarget (connection : string) : string :=
  match networkPrinterPattern connection with
  | Some rest => slice connection rest
  | None => match connection with String _ t => parseNetworkTarget t | EmptyString => EmptyString end
  end.

(** ** One attempt *)

Definition spool_dir_error : string := "ساخت پوشه اسپول چاپ ناموفق بود: ".
Definition spool_file_error : string := "نوشتن فایل اسپول چاپ ناموفق بود: ".
Definition network_error : string := "ارسال داده به چاپگر شبکه ناموفق بود: ".
Definition queue_error : string := "صف چاپ سیستم‌عامل خطا داد: ".
Definition windows_error : string :=
  "برای این چاپگر آدرس شبکه (IP:9100) ثبت نشده و ارسال خام به صف ویندوز در این نسخه پشتیبانی نمی‌شود؛ آدرس شبکه چاپگر را در تنظیمات وارد کنید".
Definition no_target_error : string :=
  "چاپگر مقصد مشخص نیست: آدرس شبکه (IP:9100) ثبت نشده و صف چاپ سیستم‌عامل (CUPS) هم در دسترس نیست".

(** The arguments of [lp]. *)
Definition lp_args (job : PrintJobView) : list string :=
  let q := TrimSpace (jv_Queue job) in
  ["-o"; "raw"]%stdpp ++ (if sempty q || bool_decide (q = "-") then [] else ["-d"%stdpp; q]).

(** The error, or what has been delivered. *)
(* printing.go sendToPrinter *)
Definition sendToPrinter (at_ : Attempt) (job : PrintJobView) (payload : string) : string + delivery :=
  let dir := TrimSpace (at_spool at_) in
  if negb (sempty dir) then
    match at_mkdir at_ with
    | Some e => inl (spool_dir_error +:+ e)
    | None =>
        match at_write_file at_ with
        | Some e => inl (spool_file_error +:+ e)
        | None => inr (Spooled dir ("print-" +:+ jv_ID job +:+ "-" +:+ jv_DocType job +:+ ".bin") payload)
        end
    end
  else
    let target := parseNetworkTarget (jv_Connection job) in
    if negb (sempty target) then
      match at_dial at_ with
      | Some e => inl ("اتصال شبکه به چاپگر (" +:+ target +:+ ") برقرار نشد: " +:+ e)
      | None => match at_write at_ with Some e => inl (network_error +:+ e) | None => inr (Wired target payload) end
      end
    else if negb (at_windows at_) && at_lookpath at_ then
      match at_run at_ with Some out => inl (queue_error +:+ TrimSpace out) | None => inr (Piped (lp_args job) payload) end
    else inl (if at_windows at_ then windows_error else no_target_error).

(** ** Printing a job *)

Section Printing.
Variable E : Env.

Definition sends (job : PrintJobView) (payload : string) : app (option string) := λ w,
  match sendToPrinter (ev_attempt E (w_tick w)) job payload with
  | inl e => (Some e, with_store (w_store w) w)
  | inr d => (None, {| w_store := w_store w; w_tick := S (w_tick w); w_printed := w_printed w ++ [d]; w_background := w_background w |})
  end.

(* printing.go:622-627 Application.dispatchPrintJob *)
Fixpoint send_copies (n : nat) (job : PrintJobView) (payload : string) : app (option string) :=
  match n with
  | O => mret None
  | S n => e ← sends job payload; match e with Some e => mret (Some e) | None => send_copies n job payload end
  end.

Definition no_job : PrintJobView :=
  {| jv_ID := EmptyString; jv_OrderID := EmptyString; jv_OrderNumber := EmptyString; jv_DocType := EmptyString;
     jv_PrinterID := EmptyString; jv_PrinterTitle := EmptyString; jv_Connection := EmptyString; jv_Queue := EmptyString;
     jv_PaperWidth := EmptyString; jv_Status := EmptyString; jv_LastError := EmptyString; jv_Attempts := 0; jv_Copies := 0;
     jv_Categories := None; jv_CreatedAt := EmptyString; jv_UpdatedAt := EmptyString |}.

Definition no_entity : Entity := {| e_ID := EmptyString; e_Type := EmptyString; e_Version := 0; e_Payload := EmptyString |}.

Section Context_.
Variable background : bool.

(** Both results of [UpdatePrintJobStatus]: the view is set inside the transaction, so it is
    there even when writing the store then fails. *)
(* store/printing.go Store.UpdatePrintJobStatus *)
Definition update_status (jobID status lastError : string) : app (PrintJobView * option string) :=
  act (λ n s,
    let t := ev_clock E n 0 in
    let o := UpdatePrintJobStatus (ev_io E n 0) (ctx_at E background n) s t jobID status lastError in
    match tx_res o with
    | Ok v => ((v, None), tx_store o)
    | Err e =>
        let ran := match ctx_at E background n with Some _ => false | None => negb (s_closed s) end in
        let v := if ran then match UpdatePrintJobStatus_body (FormatRFC3339 t) jobID status lastError (s_state s) with
                             | Ok (v, _) => v
                             | Err _ => no_job
                             end
                 else no_job in
        ((v, Some e), tx_store o)
    end).

Definition set_failed (e : string) (j : PrintJobView) : PrintJobView :=
  {| jv_ID := jv_ID j; jv_OrderID := jv_OrderID j; jv_OrderNumber := jv_OrderNumber j; jv_DocType := jv_DocType j;
     jv_PrinterID := jv_PrinterID j; jv_PrinterTitle := jv_PrinterTitle j; jv_Connection := jv_Connection j; jv_Queue := jv_Queue j;
     jv_PaperWidth := jv_PaperWidth j; jv_Status := PrintStatusFailed; jv_LastError := e; jv_Attempts := jv_Attempts j;
     jv_Copies := jv_Copies j; jv_Categories := jv_Categories j; jv_CreatedAt := jv_CreatedAt j; jv_UpdatedAt := jv_UpdatedAt j |}.

Definition entity_or_none (kind id : string) : app Entity :=
  e ← entity E background kind id; mret (match e with Ok e => e | Err _ => no_entity end).

(** The items of a ticket: those of the categories routed to its printer. *)
(* printing.go:600-616 Application.dispatchPrintJob *)
Definition keep_item (cats : list string) (products : list Entity) : string → bool :=
  let prodCat : gmap string string := foldl (λ m p, <[e_ID p := Field p "category_id"]> m) ∅ products in
  λ productID, existsb (String.eqb (default EmptyString (prodCat !! productID))) cats.

(** The document of a job. *)
(* printing.go:592-617 Application.dispatchPrintJob *)
Definition document (job : PrintJobView) : app (list receiptLine) :=
  order ← (if sempty (jv_OrderID job) then mret no_entity else entity_or_none "order" (jv_OrderID job));
  cafe ← entity_or_none "cafe_profile" "cafe-main-profile";
  t ← now E;
  let cats := default [] (jv_Categories job) in
  if bool_decide (jv_DocType job = "kitchen") && negb (bool_decide (cats = [])) && negb (sempty (e_ID order)) then
    products ← entities E background "product";
    mret (buildReceiptLinesFiltered t order cafe (jv_DocType job) (Some (keep_item cats products)))
  else mret (buildReceiptLines t order cafe (jv_DocType job)).

(* printing.go Application.dispatchPrintJob *)
Definition dispatchPrintJob (job : PrintJobView) : app PrintJobView :=
  u ← update_status (jv_ID job) PrintStatusPrinting EmptyString;
  match u with
  | (job, Some e) => mret (set_failed e job)
  | (job, None) =>
      lines ← document job;
      let payload := buildESCPos lines (jv_PaperWidth job) in
      sent ← send_copies (Z.to_nat (clamp_copies (jv_Copies job))) job payload;
      match sent with
      | Some e => u ← update_status (jv_ID job) PrintStatusFailed e; mret (u.1)
      | None => u ← update_status (jv_ID job) PrintStatusPrinted EmptyString; mret (u.1)
      end
  end.
End Context_.

(** ** Making and printing the jobs of an order *)

Definition enqueue (background : bool) (orderID : string) (docs : doc_counts) : app (list PrintJobView * option string) :=
  act (λ n s, let o := EnqueueOrderPrintJobsDocs (ev_runtime E n) (λ k, ev_io E n k) (λ k, ev_clock E n (S k))
                         (ctx_at E background n) (ev_clock E n 0) orderID docs s (ev_draws E n) in
              ((jo_jobs o, jo_err o), jo_store o)).

Definition is_printed (j : PrintJobView) : bool := bool_decide (jv_Status j = PrintStatusPrinted).

(** The loop over the jobs; what one dispatch answers is put in the list at once, so that a
    job that is in the list twice is seen printed the second time. *)
(* printing.go:645-666 Application.enqueueAndDispatchPrintJobsDocs *)
Fixpoint dispatch_from (i n : nat) (jobs : list PrintJobView) (printed failed : Z) : app (list PrintJobView * (Z * Z)) :=
  match n with
  | O => mret (jobs, (printed, failed))
  | S n =>
      match jobs !! i with
      | None => mret (jobs, (printed, failed))
      | Some j =>
          if is_printed j then dispatch_from (S i) n jobs (printed + 1) failed
          else if bool_decide (jv_Status j = PrintStatusFailed) && (0 <? jv_Attempts j)%Z && sempty (jv_PrinterID j)
          then dispatch_from (S i) n jobs printed (failed + 1)
          else
            done ← dispatchPrintJob false j;
            let jobs := map (λ x, if bool_decide (jv_ID x = jv_ID done) then done else x) jobs in
            if is_printed done then dispatch_from (S i) n jobs (printed + 1) failed
            else dispatch_from (S i) n jobs printed (failed + 1)
      end
  end.

(* printing.go:667-676 Application.enqueueAndDispatchPrintJobsDocs *)
Definition summary_of (printed failed : Z) : string :=
  if (failed =? 0)%Z && (0 <? printed)%Z then "فیش‌ها به‌صورت خودکار چاپ شدند (" +:+ Z_to_dec printed +:+ " فیش)."
  else if (0 <? printed)%Z then "بخشی از فیش‌ها چاپ شد و " +:+ Z_to_dec failed +:+ " فیش خطا دارد؛ از «کل سفارشات» تلاش مجدد بزنید."
  else if (0 <? failed)%Z then
    "سفارش ثبت شد اما چاپ خودکار ناموفق بود (" +:+ Z_to_dec failed +:+ " Job ناموفق)؛ سفارش سالم است و از «کل سفارشات» می‌توانید دوباره چاپ کنید."
  else "Job چاپی برای این سفارش ساخته نشد.".

(* printing.go Application.enqueueAndDispatchPrintJobsDocs *)
Definition enqueueAndDispatchPrintJobsDocs (orderID : string) (docs : doc_counts) : app (list PrintJobView * string) :=
  o ← enqueue false orderID docs;
  match o with
  | (_, Some e) => mret ([], "خطای ساخت Job چاپ: " +:+ e)
  | (jobs, None) =>
      r ← dispatch_from 0 (length jobs) jobs 0 0;
      let '(jobs, (printed, failed)) := r in mret (jobs, summary_of printed failed)
  end.

(* printing.go Application.enqueueAndDispatchPrintJobs *)
Definition enqueueAndDispatchPrintJobs (orderID : string) : app (list PrintJobView * string) :=
  enqueueAndDispatchPrintJobsDocs orderID {["customer" := 1; "kitchen" := 1]}%Z.

(* printing.go Application.printerEnabled *)
Definition printerEnabled (background : bool) : app bool :=
  prof ← entity E background "cafe_profile" "cafe-main-profile";
  let choice := match prof with Ok p => TrimSpace (Field p "printer_enabled") | Err _ => EmptyString end in
  if bool_decide (choice = "true") then mret true
  else if bool_decide (choice = "false") then mret false
  else printers ← entities E background "printer"; mret (negb (bool_decide (printers = []))).

Definition policy (background : bool) : app PrintPolicy :=
  prof ← entity E background "cafe_profile" "cafe-main-profile"; mret (printPolicy prof).

(** What the policy has printed at an event: nothing without a printer or for an event that is
    not known. *)
Definition docs_at (background : bool) (event : string) : app doc_counts :=
  enabled ← printerEnabled background;
  if negb enabled then mret ∅
  else pol ← policy background; mret (match scenario_of pol event with Some sc => docs sc | None => ∅ end).

(* printing.go Application.autoPrint *)
Definition autoPrint (orderID event : string) : app string :=
  ds ← docs_at false event;
  if bool_decide (ds = ∅) then mret EmptyString
  else r ← enqueueAndDispatchPrintJobsDocs orderID ds; mret r.2.

(** The goroutine that is started: its jobs are remembered, and run by [run_background]. *)
Definition spawn (jobs : list PrintJobView) : app () := λ w,
  ((), {| w_store := w_store w; w_tick := w_tick w; w_printed := w_printed w; w_background := w_background w ++ [jobs] |}).

(* printing.go Application.autoPrintAsync *)
Definition autoPrintAsync (orderID event : string) : app () :=
  ds ← docs_at true event;
  if bool_decide (ds = ∅) then mret ()
  else
    o ← enqueue true orderID ds;
    match o with (_, Some _) => mret () | (jobs, None) => spawn jobs end.

(* printing.go:307-314 Application.autoPrintAsync *)
Fixpoint run_background (jobs : list PrintJobView) : app () :=
  match jobs with
  | [] => mret ()
  | j :: jobs => if is_printed j then run_background jobs else _ ← dispatchPrintJob true j; run_background jobs
  end.
End Printing.

(** ** The address found is the leftmost and longest *)

Definition digit_string (lo hi : nat) (ds : string) : Prop := sforall is_digit ds = true ∧ lo ≤ String.length ds ≤ hi.

(** [a.b.c.d:port] *)
Definition is_address (t : string) : Prop :=
  ∃ a b c d p, t = a +:+ "." +:+ b +:+ "." +:+ c +:+ "." +:+ d +:+ ":" +:+ p
    ∧ Forall (digit_string 1 3) [a; b; c; d] ∧ digit_string 2 5 p.

(** A matcher finds the longest text of a language that a string starts with. *)
Definition longest (k : string → option string) (L : string → Prop) : Prop := ∀ s,
  match k s with
  | Some r => ∃ t, s = t +:+ r ∧ L t ∧ ∀ t' r', s = t' +:+ r' → L t' → String.length t' ≤ String.length t
  | None => ∀ t r, s = t +:+ r → ¬ L t
  end.

(** What [digits] has taken. *)
(** What [digits] can take it finds. *)
Lemma digits_finds k u ds : ∀ lo extra, digit_string lo (lo + extra) ds → is_Some (k u) → is_Some (digits lo extra k (ds +:+ u)).
Proof.
  induction ds as [|c ds IH]; intros lo extra [Hd Hl] Hk; cbn [sforall String.length] in *.
  - destruct lo; [|lia]. rewrite sapp_nil_l. destruct u as [|c u]; [done|]. cbn [digits]. destruct extra; [done|]. destruct (is_digit c); [|done].
    by destruct (digits 0 extra k u).
  - apply andb_true_iff in Hd as [Hc Hd]. rewrite sapp_cons. destruct lo as [|lo]; cbn [digits].
    + destruct extra as [|extra]; [lia|]. rewrite Hc. destruct (IH 0 extra) as [r ->]; [by split; [|lia]|done|done].
    + rewrite Hc. apply IH; [split; [done|lia]|done].
Qed.

(** [k] goes on from [s] after [lo] to [hi] digits, as many as possible, and leaves [r]. *)
Definition taken (lo hi : nat) (k : string → option string) (s r : string) : Prop :=
  ∃ ds u, s = ds +:+ u ∧ digit_string lo hi ds ∧ k u = Some r
    ∧ ∀ ds' u', s = ds' +:+ u' → digit_string lo hi ds' → is_Some (k u') → String.length ds' ≤ String.length ds.

Lemma taken_cons lo hi k c s r : is_digit c = true → taken (lo - 1) hi k s r → taken lo (S hi) k (String c s) r.
Proof.
  intros Hc (ds & u & -> & [Hd Hl] & Hk & Hmax). exists (String c ds), u. split_and!; [done| |done|].
  - split; cbn; [by rewrite Hc|lia].
  - intros [|c' ds'] u' E [Hd' Hl'] Hu; [cbn; lia|]. injection E as <- E. cbn [sforall String.length] in *. apply le_n_S.
    apply andb_true_iff in Hd' as [_ Hd']. apply (Hmax _ u'); [done|split; [done|lia]|done].
Qed.

Lemma taken_none hi k s r : k s = Some r →
  (∀ c ds u, s = String c (ds +:+ u) → digit_string 0 hi (String c ds) → ¬ is_Some (k u)) → taken 0 hi k s r.
Proof.
  intros Hk Hno. exists EmptyString, s. split_and!; [done|by split; cbn; [|lia]|done|].
  intros [|c ds] u E Hd Hu; [done|]. by destruct (Hno c ds u E Hd).
Qed.

Lemma digits_takes k s : ∀ lo extra r, digits lo extra k s = Some r → taken lo (lo + extra) k s r.
Proof.
  induction s as [|c s IH]; intros lo extra r.
  - destruct lo; [|done]. intros H. apply taken_none; [by destruct extra|done].
  - destruct lo as [|lo]; cbn [digits].
    + destruct extra as [|extra].
      * intros H. apply taken_none; [done|]. intros c' ds u _ [_ Hl]. cbn in Hl. lia.
      * destruct (is_digit c) eqn:Hc.
        -- destruct (digits 0 extra k s) as [r0|] eqn:D.
           ++ intros [= ->]. apply taken_cons; [done|]. apply (IH 0 extra r D).
           ++ intros H. apply taken_none; [done|]. intros c' ds u [= <- ->] [Hd Hl] Hu. cbn in Hd, Hl. rewrite Hc in Hd.
              destruct (digits_finds k u ds 0 extra) as [r' ?]; [split; [done|lia]|done|congruence].
        -- intros H. apply taken_none; [done|]. intros c' ds u [= <- ->] [Hd _] _. cbn in Hd. by rewrite Hc in Hd.
    + destruct (is_digit c) eqn:Hc; [|done]. intros H. apply taken_cons; [done|]. replace (S lo - 1) with lo by lia. by apply IH.
Qed.

(** Digits in front of something else end at one place. *)
Lemma digits_end b ds : ∀ ds' u u', is_digit b = false → sforall is_digit ds = true → sforall is_digit ds' = true →
  ds +:+ String b u = ds' +:+ String b u' → ds = ds' ∧ u = u'.
Proof.
  induction ds as [|c ds IH]; intros [|c' ds'] u u' Hb Hd Hd'; rewrite ?sapp_cons, ?sapp_nil_l; cbn in Hd, Hd'; bools.
  - by intros [= ->].
  - intros [= -> _]. congruence.
  - intros [= -> _]. congruence.
  - intros [= -> E]. destruct (IH ds' u u' Hb) as [-> ->]; done.
Qed.

Lemma byte_some b k s r : byte b k s = Some r ↔ ∃ u, s = String b u ∧ k u = Some r.
Proof.
  destruct s as [|c s]; cbn; [naive_solver|]. case_bool_decide as Eb; [subst c|]; split; [eauto|by intros (u & [= <-] & ?)|done|intros (u & [= -> _] & _); congruence].
Qed.

(** A number of an address and the byte behind it, in front of a text of another language. *)
Lemma longest_octet b k L : is_digit b = false → longest k L →
  longest (octet (byte b k)) (λ t, ∃ ds u, t = ds +:+ String b u ∧ digit_string 1 3 ds ∧ L u).
Proof.
  intros Hb HL s. unfold octet. destruct (digits 1 2 (byte b k) s) as [r|] eqn:D.
  - apply digits_takes in D as (ds & v & -> & Hd & (u & -> & Hk)%byte_some & _). specialize (HL u). rewrite Hk in HL.
    destruct HL as (t & -> & Ht & Hmax). exists (ds +:+ String b t). split; [by rewrite sapp_assoc, sapp_cons|]. split; [eauto|].
    intros t' r' E (ds' & u' & -> & Hd' & Hu'). rewrite sapp_assoc, sapp_cons in E.
    destruct (digits_end b ds ds' _ _ Hb (proj1 Hd) (proj1 Hd') E) as [<- E']. rewrite !slength_app. cbn.
    specialize (Hmax _ _ E' Hu'). lia.
  - intros t r -> (ds & u & -> & Hd & Hu). specialize (HL (u +:+ r)). destruct (k (u +:+ r)) as [r'|] eqn:K; [|by eapply HL].
    destruct (digits_finds (byte b k) (String b (u +:+ r)) ds 1 2 Hd) as [x Hx]; [exists r'; apply byte_some; eauto|].
    by rewrite sapp_assoc, sapp_cons, Hx in D.
Qed.

Lemma longest_port : longest (digits 2 3 Some) (digit_string 2 5).
Proof.
  intros s. destruct (digits 2 3 Some s) as [r|] eqn:D.
  - apply digits_takes in D as (ds & u & -> & Hd & [= ->] & Hmax). exists ds. split_and!; [done..|].
    intros t' r' E Ht'. by eapply Hmax.
  - intros t r -> Hd. destruct (digits_finds Some r t 2 3 Hd) as [x Hx]; [done|congruence].
Qed.

Lemma longest_ext k L L' : (∀ t, L t ↔ L' t) → longest k L → longest k L'.
Proof.
  intros HL H s. specialize (H s). destruct (k s).
  - destruct H as (t & -> & Ht & Hm). exists t. split_and!; [done|by apply HL|]. intros t' r' E Ht'%HL. by eapply Hm.
  - intros t r E Ht%HL. by eapply H.
Qed.

Lemma longest_pattern : longest networkPrinterPattern is_address.
Proof.
  eapply longest_ext; [|exact (longest_octet "." _ _ eq_refl (longest_octet "." _ _ eq_refl
    (longest_octet "." _ _ eq_refl (longest_octet ":" _ _ eq_refl longest_port))))].
  intros t. unfold is_address. split.
  - intros (a & ? & -> & Ha & b & ? & -> & Hb & c & ? & -> & Hc & d & p & -> & Hd & Hp). exists a, b, c, d, p.
    split_and!; [done| |done]. by rewrite !Forall_cons, Forall_nil.
  - intros (a & b & c & d & p & -> & Hf & Hp). rewrite !Forall_cons in Hf. destruct Hf as (Ha & Hb & Hc & Hd & _).
    exists a, (b +:+ "." +:+ c +:+ "." +:+ d +:+ ":" +:+ p). split_and!; [done..|].
    exists b, (c +:+ "." +:+ d +:+ ":" +:+ p). split_and!; [done..|]. exists c, (d +:+ ":" +:+ p). split_and!; [done..|]. eauto.
Qed.

Lemma is_address_nonempty t : is_address t → t ≠ EmptyString.
Proof. intros (a & b & c & d & p & -> & _) H. by destruct a. Qed.

(** the address of a printer.  [parseNetworkTarget] finds an address, four numbers of one to
    three digits and a port of two to five, in the free text of a printer's connection
    exactly when there is one; what it finds is there, no other begins further left, and
    none that begins at its place is longer. *)
Theorem parseNetworkTarget_finds c :
  (parseNetworkTarget c = EmptyString ∧ ∀ pre t post, c = pre +:+ t +:+ post → ¬ is_address t)
  ∨ (is_address (parseNetworkTarget c) ∧ ∃ pre post, c = pre +:+ parseNetworkTarget c +:+ post
     ∧ ∀ pre' t' post', c = pre' +:+ t' +:+ post' → is_address t' →
         String.length pre < String.length pre'
         ∨ (pre' = pre ∧ String.length t' ≤ String.length (parseNetworkTarget c))).
Proof.
  induction c as [|a c IH].
  - left. split; [done|]. intros pre t post E (x & b & y & d & p & -> & _). by destruct pre, x.
  - cbn [parseNetworkTarget]. pose proof (longest_pattern (String a c)) as HL. destruct (networkPrinterPattern (String a c)) as [r|].
    + right. destruct HL as (t & E & Ht & Hmax). rewrite E, slice_app. split; [done|]. exists EmptyString, r. split; [done|].
      intros [|x pre'] t' post' E' Ht'; [|left; cbn; lia]. right. split; [done|]. apply (Hmax t' post'); [by rewrite E|done].
    + destruct IH as [[-> Hno]|(Ha & pre & post & E & Hmin)].
      * left. split; [done|]. intros [|x pre] t post E Ht; [by apply (HL t post)|]. injection E as <- E. by eapply Hno.
      * right. split; [done|]. exists (String a pre), post. split; [by rewrite sapp_cons, <- E|].
        intros [|x pre'] t' post' E' Ht'; [by destruct (HL t' post')|]. injection E' as <- E'.
        destruct (Hmin _ _ _ E' Ht') as [?|[-> ?]]; [left; cbn; lia|by right].
Qed.

(** ** Printing changes nothing but jobs *)

Lemma frame_UpdatePrintJobStatus now id status e st v st' :
  UpdatePrintJobStatus_body now id status e st = Ok (v, st') → frame ["print_job"] st st'.
Proof.
  unfold UpdatePrintJobStatus_body. destruct (live st "print_job" id) as [x|] eqn:L; [|done].
  destruct (decodePrintJob (se_Payload x)); [|done]. cbv zeta. intros [= _ <-]. apply live_some in L as [L _].
  eapply frame_rewrite; [done|left|exact L|done..].
Qed.

Lemma frame_savePrintJob p st u st' : savePrintJob_body p st = Ok (u, st') → frame ["print_job"] st st'.
Proof. unfold savePrintJob_body. cbv zeta. intros [= _ <-]. apply frame_put; [done|left|done]. Qed.

(** From [st0] on nothing but print jobs has changed. *)
Definition only_jobs (st0 : persistedDB) (s : Store) : Prop := frame ["print_job"] st0 (s_state s).

Section Frames.
Context (E : Env) (I : Store → Prop) `{K : !Kept E (frame ["print_job"]) I}.

Lemma kept_create_jobs n ctx clock existing ps : ∀ k s g, I s → I (jo_store (create_jobs (ev_io E n) clock ctx existing k ps s g)).
Proof.
  induction ps as [|p ps IH]; intros k s g Hs; cbn [create_jobs]; [done|].
  destruct (reuse existing p); [by apply IH|]. destruct (UUID g) as [[id|e] g']; [|done].
  assert (I (tx_store (savePrintJob (ev_io E n k) ctx s (clock k) (with_id id p)))) as F.
  { apply K; [|done]. intros a st. apply frame_savePrintJob. }
  destruct (tx_res _); [by apply IH|exact F].
Qed.

Lemma keeps_update_status bg id status e : keeps I (update_status E bg id status e).
Proof.
  apply keeps_act. intros n s Hs. cbv zeta. unfold UpdatePrintJobStatus. set (o := withTx _ _ _ _).
  assert (I (tx_store o)) as Ho by (apply K; [|done]; intros a st; apply frame_UpdatePrintJobStatus). by destruct (tx_res o).
Qed.

Lemma keeps_sends job payload : keeps I (sends E job payload).
Proof. intros w Hw. unfold sends. by destruct (sendToPrinter _ _ _). Qed.

Lemma keeps_send_copies job payload n : keeps I (send_copies E n job payload).
Proof.
  induction n; cbn [send_copies]; [apply keeps_ret|]. apply keeps_bind; [apply keeps_sends|]. intros [e|]; [apply keeps_ret|done].
Qed.

Lemma keeps_document bg job : keeps I (document E bg job).
Proof.
  unfold document, entity_or_none. keeps_steps.
Qed.

Lemma keeps_dispatch bg job : keeps I (dispatchPrintJob E bg job).
Proof.
  apply keeps_bind; [apply keeps_update_status|]. intros [v [e|]]; [apply keeps_ret|].
  apply keeps_bind; [apply keeps_document|]. intros lines. cbv zeta. apply keeps_bind; [apply keeps_send_copies|].
  intros [e|]; (apply keeps_bind; [apply keeps_update_status|intros; apply keeps_ret]).
Qed.

Lemma keeps_dispatch_from n : ∀ i jobs printed failed, keeps I (dispatch_from E i n jobs printed failed).
Proof.
  induction n as [|n IH]; intros i jobs printed failed; cbn [dispatch_from]; [apply keeps_ret|].
  destruct (jobs !! i) as [j|]; [|apply keeps_ret]. destruct (is_printed j); [apply IH|]. destruct (_ && _); [apply IH|].
  apply keeps_bind; [apply keeps_dispatch|]. intros done. cbv zeta. destruct (is_printed done); apply IH.
Qed.

Lemma keeps_enqueue bg orderID ds : keeps I (enqueue E bg orderID ds).
Proof. apply keeps_act. intros n s Hs. cbn [snd]. unfold EnqueueOrderPrintJobsDocs. repeat case_match; by try apply kept_create_jobs. Qed.

Lemma keeps_print_order orderID ds : keeps I (enqueueAndDispatchPrintJobsDocs E orderID ds).
Proof.
  apply keeps_bind; [apply keeps_enqueue|]. intros [jobs [e|]]; [apply keeps_ret|].
  apply keeps_bind; [apply keeps_dispatch_from|]. intros [? [? ?]]. apply keeps_ret.
Qed.

Lemma keeps_printerEnabled bg : keeps I (printerEnabled E bg).
Proof. unfold printerEnabled. keeps_steps. Qed.

Lemma keeps_docs_at bg event : keeps I (docs_at E bg event).
Proof. unfold docs_at, policy. keeps_steps; apply keeps_printerEnabled. Qed.

Lemma keeps_autoPrint orderID event : keeps I (autoPrint E orderID event).
Proof. unfold autoPrint. keeps_steps; [apply keeps_docs_at|apply keeps_print_order]. Qed.

Lemma keeps_spawn jobs : keeps I (spawn jobs).
Proof. by intros w Hw. Qed.

Lemma keeps_autoPrintAsync orderID event : keeps I (autoPrintAsync E orderID event).
Proof. unfold autoPrintAsync. keeps_steps; [apply keeps_docs_at|apply keeps_enqueue|apply keeps_spawn]. Qed.

Lemma keeps_run_background jobs : keeps I (run_background E jobs).
Proof.
  induction jobs as [|j jobs IH]; cbn [run_background]; [apply keeps_ret|]. destruct (is_printed j); [done|].
  apply keeps_bind; [apply keeps_dispatch|done].
Qed.
End Frames.

(** C21: printing never touches an order.  Whatever the printers, the disk, the clock and the
    runtime do, making and printing an order's documents, at once, automatically or in the
    background, changes nothing in the store but print jobs. *)
Theorem printing_only_jobs E orderID event ds jobs w :
  let st0 := s_state (w_store w) in
  only_jobs st0 (w_store (enqueueAndDispatchPrintJobsDocs E orderID ds w).2)
  ∧ only_jobs st0 (w_store (autoPrint E orderID event w).2)
  ∧ only_jobs st0 (w_store (autoPrintAsync E orderID event w).2)
  ∧ only_jobs st0 (w_store (run_background E jobs w).2).
Proof.
  cbv zeta. set (st0 := s_state (w_store w)). assert (only_jobs st0 (w_store w)) as H by apply frame_refl.
  assert (Kept E (frame ["print_job"]) (only_jobs st0)) as K by (apply Kept_since; apply _).
  split_and!; revert H; [by apply keeps_print_order|by apply keeps_autoPrint|by apply keeps_autoPrintAsync|by apply keeps_run_background].
Qed.

(** ** A job is settled *)

Definition payload_of (d : delivery) : string := match d with Spooled _ _ p | Wired _ p | Piped _ p => p end.

Lemma sendToPrinter_payload a job payload d : sendToPrinter a job payload = inr d → payload_of d = payload.
Proof. unfold sendToPrinter. repeat case_match; intros [= <-]; done. Qed.

Lemma send_copies_delivers E job payload n : ∀ w, let '(r, w') := send_copies E n job payload w in
  ∃ ds, w_printed w' = w_printed w ++ ds ∧ w_store w' = w_store w ∧ Forall (λ d, payload_of d = payload) ds
    ∧ match r with None => length ds = n | Some _ => length ds < n end.
Proof.
  induction n as [|n IH]; intros w; cbn [send_copies].
  { exists []. by rewrite app_nil_r. }
  unfold mbind, app_bind, sends. destruct (sendToPrinter _ job payload) as [e|d] eqn:S.
  - exists []. rewrite app_nil_r. split_and!; [done..|cbn; lia].
  - set (w1 := {| w_store := _ |}). specialize (IH w1). destruct (send_copies E n job payload w1) as [r w']. destruct IH as (ds & -> & -> & Hf & Hl).
    exists (d :: ds). split_and!; [subst w1; cbn [w_printed]; by rewrite <- app_assoc|done| |destruct r; cbn; lia]. constructor; [by eapply sendToPrinter_payload|done].
Qed.

(** Reads do not print. *)
Definition silent {A} (m : app A) : Prop := ∀ w, w_printed (m w).2 = w_printed w ∧ w_store (m w).2 = w_store w.

Lemma silent_ret {A} (a : A) : silent (mret (M := app) a).
Proof. by intros w. Qed.
Lemma silent_bind {A B} (m : app A) (f : A → app B) : silent m → (∀ a, silent (f a)) → silent (m ≫= f).
Proof.
  intros Hm Hf w. unfold mbind, app_bind. destruct (Hm w) as [<- <-]. destruct (m w) as [a w']. apply Hf.
Qed.
Lemma silent_reads E bg {A} (f : Runtime → option string → persistedDB → A) : silent (reads E bg f).
Proof. by intros w. Qed.

Lemma silent_entity_or_none E bg kind id : silent (entity_or_none E bg kind id).
Proof. apply silent_bind; [apply silent_reads|intros; apply silent_ret]. Qed.

Lemma silent_document E bg job : silent (document E bg job).
Proof.
  unfold document. apply silent_bind; [destruct (sempty _); [apply silent_ret|apply silent_entity_or_none]|intros order].
  apply silent_bind; [apply silent_entity_or_none|intros cafe]. apply silent_bind; [by intros w|intros t]. cbv zeta.
  destruct (_ && _ && _); [|apply silent_ret]. apply silent_bind; [apply silent_reads|intros; apply silent_ret].
Qed.

(** A status written to a job that is shown: the view has it, whether the store could be
    written or not, and when it could the job is shown with it. *)
Lemma update_status_view E bg id status e j w :
  ctx_at E bg (w_tick w) = None → s_closed (w_store w) = false → PrintJob None id (s_state (w_store w)) = Ok j →
  let '(r, w') := update_status E bg id status e w in
  w_printed w' = w_printed w ∧ s_closed (w_store w') = false ∧ jv_Status r.1 = status ∧ jv_LastError r.1 = e ∧ jv_ID r.1 = jv_ID j
  ∧ jv_Copies r.1 = jv_Copies j ∧ jv_PaperWidth r.1 = jv_PaperWidth j
  ∧ (r.2 = None → utf8_valid status = true → utf8_valid e = true → ∃ j', PrintJob None id (s_state (w_store w')) = Ok j').
Proof.
  intros Hc Ho Hj. unfold update_status, act. rewrite Hc. cbv zeta. unfold UpdatePrintJobStatus.
  set (t := FormatRFC3339 _). set (o := withTx _ _ _ _). pose proof (withTx_closed (ev_io E (w_tick w) 0) None (w_store w) (UpdatePrintJobStatus_body t id status e)) as Hcl.
  fold o in Hcl. rewrite Ho in Hcl.
  assert (∃ v st', UpdatePrintJobStatus_body t id status e (s_state (w_store w)) = Ok (v, st') ∧ jv_Status v = status ∧ jv_LastError v = e ∧ jv_ID v = jv_ID j
          ∧ jv_Copies v = jv_Copies j ∧ jv_PaperWidth v = jv_PaperWidth j) as (v & st' & Hb & Hv).
  { unfold PrintJob, Entity_of in Hj. cbn [read_ctx] in Hj. unfold UpdatePrintJobStatus_body. destruct (live _ _ _) as [x|]; [|done].
    cbn [view e_Payload] in Hj. destruct (decodePrintJob (se_Payload x)) as [p|]; [|done]. injection Hj as <-. eauto 10. }
  destruct (tx_res o) as [v'|e'] eqn:T.
  - pose proof (withTx_ok _ _ _ _ _ T) as K. rewrite Hb in K. injection K as <- K. cbn [fst snd w_printed with_store w_store].
    destruct_and! Hv. split_and!; try done. intros _ Hs He.
    destruct (UpdatePrintJobStatus_spec t id status e _ _ _ (FormatRFC3339_valid _) Hs He Hb) as (_ & _ & _ & Hshow & _).
    change (st' = s_state (tx_store o)) in K. rewrite <- K. eauto.
  - rewrite Ho, Hb. cbn [fst snd w_printed with_store w_store negb]. destruct_and! Hv. split_and!; done.
Qed.

(** When the file can be written the job that is stored is the one answered. *)
Lemma update_status_stored E bg id status e j w :
  ctx_at E bg (w_tick w) = None → s_closed (w_store w) = false → PrintJob None id (s_state (w_store w)) = Ok j →
  utf8_valid status = true → utf8_valid e = true → (∀ n k, ev_io E n k = io_ok) → texts_valid (s_state (w_store w)) →
  let '(r, w') := update_status E bg id status e w in
  r.2 = None ∧ texts_valid (s_state (w_store w')) ∧ PrintJob None id (s_state (w_store w')) = Ok (reshown r.1).
Proof.
  intros Hc Ho Hj Hs He Hio T. unfold update_status, act. rewrite Hc. cbv zeta. unfold UpdatePrintJobStatus. rewrite Hio.
  set (t := FormatRFC3339 _).
  assert (∃ v st', UpdatePrintJobStatus_body t id status e (s_state (w_store w)) = Ok (v, st')) as (v & st' & Hb).
  { unfold PrintJob, Entity_of in Hj. cbn [read_ctx] in Hj. unfold UpdatePrintJobStatus_body. destruct (live _ _ _) as [x|]; [|done].
    cbn [view e_Payload] in Hj. destruct (decodePrintJob (se_Payload x)) as [p|]; [|done]. eauto. }
  destruct (UpdatePrintJobStatus_spec t id status e _ _ _ (FormatRFC3339_valid _) Hs He Hb)
    as (_ & _ & _ & Hshow & HT).
  destruct (withTx_commits (w_store w) _ _ _ Ho Hb) as [Hr Hst]; [by apply encodeDB_total, HT|].
  rewrite Hr. cbn [fst snd w_store with_store]. rewrite Hst. auto.
Qed.

(** C10: a job is settled.  Printing a stored job, while the store is open and the request is
    not cancelled, ends with the job answered as printed exactly when every copy, between one
    and five, has been delivered, and as failed exactly when one was not; what has been
    delivered are the bytes of one document, for the job's paper, whether the status could be
    written to disk or not.  When the file can be written (every payload is JSON, no call
    fails) and the printer's message is valid UTF-8, the stored job is the one answered. *)
Theorem dispatchPrintJob_settles E bg job j w :
  (∀ n, ctx_at E bg n = None) → s_closed (w_store w) = false →
  PrintJob None (jv_ID job) (s_state (w_store w)) = Ok j → jv_ID j = jv_ID job →
  let '(done, w') := dispatchPrintJob E bg job w in
  (∃ ds lines, w_printed w' = w_printed w ++ ds ∧ Forall (λ d, payload_of d = buildESCPos lines (jv_PaperWidth j)) ds
    ∧ ((jv_Status done = PrintStatusPrinted ∧ length ds = Z.to_nat (clamp_copies (jv_Copies j)))
       ∨ (jv_Status done = PrintStatusFailed ∧ length ds < Z.to_nat (clamp_copies (jv_Copies j)))))
  ∧ ((∀ n k, ev_io E n k = io_ok) → texts_valid (s_state (w_store w)) → utf8_valid (jv_LastError done) = true →
     PrintJob None (jv_ID job) (s_state (w_store w')) = Ok (reshown done)).
Proof.
  intros Hctx Ho Hj Hid. unfold dispatchPrintJob. unfold mbind at 1, app_bind at 1.
  pose proof (update_status_view E bg (jv_ID job) PrintStatusPrinting EmptyString j w (Hctx _) Ho Hj) as U.
  pose proof (update_status_stored E bg (jv_ID job) PrintStatusPrinting EmptyString j w (Hctx _) Ho Hj eq_refl eq_refl) as V.
  destruct (update_status _ _ _ _ _ w) as [[v err] w1]. cbn [fst snd] in U, V. destruct U as (P1 & O1 & _ & _ & I1 & C1 & W1 & Next).
  assert (0 < Z.to_nat (clamp_copies (jv_Copies j))) as Hpos.
  { unfold clamp_copies. destruct (jv_Copies j <? 1)%Z eqn:?, (5 <? _)%Z eqn:?; bools; lia. }
  destruct err as [e|].
  { split; [exists [], []; cbn; rewrite P1, app_nil_r; split_and!; [done..|]; by right|].
    intros Hio T. by destruct (V Hio T) as [? _]. }
  destruct (Next eq_refl eq_refl eq_refl) as [j' Hj']. unfold mbind at 1, app_bind at 1.
  destruct (silent_document E bg v w1) as [P2 S2]. destruct (document E bg v w1) as [lines w2]. cbn [snd] in P2, S2. cbv zeta.
  unfold mbind at 1, app_bind at 1.
  pose proof (send_copies_delivers E v (buildESCPos lines (jv_PaperWidth v)) (Z.to_nat (clamp_copies (jv_Copies v))) w2) as D.
  destruct (send_copies _ _ _ _ w2) as [r w3]. destruct D as (ds & P3 & S3 & Hds & Hn). rewrite C1 in Hn. rewrite W1 in Hds.
  rewrite I1, Hid.
  assert (∀ status e, utf8_valid status = true → let '(u, w4) := update_status E bg (jv_ID job) status e w3 in
    w_printed w4 = w_printed w ++ ds ∧ jv_Status u.1 = status ∧ jv_LastError u.1 = e ∧
    ((∀ n k, ev_io E n k = io_ok) → texts_valid (s_state (w_store w)) → utf8_valid e = true →
     PrintJob None (jv_ID job) (s_state (w_store w4)) = Ok (reshown u.1))) as Last.
  { intros status e Hs. pose proof (update_status_view E bg (jv_ID job) status e j' w3 (Hctx _)) as U.
    pose proof (update_status_stored E bg (jv_ID job) status e j' w3 (Hctx _)) as V'. rewrite S3, S2 in U, V'. specialize (U O1 Hj').
    destruct (update_status _ _ _ _ _ w3) as [u w4]. destruct U as (P4 & _ & St & Le & _). rewrite P4, P3, P2, P1. do 3 (split; [done|]).
    intros Hio T He. destruct (V Hio T) as (_ & T1 & _). by destruct (V' O1 Hj' Hs He Hio T1) as (_ & _ & ?). }
  destruct r as [e|]; unfold mbind, app_bind.
  - specialize (Last PrintStatusFailed e eq_refl). destruct (update_status _ _ _ _ _ w3) as [u w4]. destruct Last as (P4 & St & Le & K).
    split; [exists ds, lines; split_and!; [done..|]; by right|]. intros Hio T He. cbn [mret app_ret fst] in He |- *. rewrite Le in He. by apply K.
  - specialize (Last PrintStatusPrinted EmptyString eq_refl). destruct (update_status _ _ _ _ _ w3) as [u w4]. destruct Last as (P4 & St & Le & K).
    split; [exists ds, lines; split_and!; [done..|]; by left|]. intros Hio T _. by apply K.
Qed.

(** ** Concrete runs *)

(** A café with a spool directory where nothing fails. *)
Definition spooling : Attempt :=
  {| at_spool := "/spool"; at_mkdir := None; at_write_file := None; at_dial := None; at_write := None; at_windows := false;
     at_lookpath := false; at_run := None |}.
Definition calm : Env :=
  {| ev_runtime := λ _, plain_runtime; ev_io := λ _ _, io_ok; ev_ctx := λ _, None; ev_clock := λ _ _, 0%Z; ev_zone := irst; ev_tehran := irst;
     ev_draws := λ _, draws; ev_attempt := λ _, spooling |}.
Definition world_of (st : persistedDB) : world :=
  {| w_store := store_of st; w_tick := 0; w_printed := []; w_background := [] |}.

(** An order for a tea, whose category is routed to the bar, and for water, which has none. *)
Definition a_line (id product name : string) : goany :=
  AMap [("id", AStr id); ("product_id", AStr product); ("product_name_snapshot", AStr name); ("quantity", AInt 1);
        ("unit_price_irr", AStr "1000"); ("line_total_irr", AStr "1000")].
Definition a_bar : persistedDB :=
  new_entity "printer" "p1" [("title", AStr "bar"); ("station", AStr "kitchen"); ("connection", AStr "LAN 10.0.0.7:9100")]
  (new_entity "printer_route" "r1" [("category_id", AStr "hot"); ("printer_id", AStr "p1")]
  (new_entity "category" "hot" [("title", AStr "Hot drinks")]
  (new_entity "product" "tea" [("title", AStr "Tea"); ("category_id", AStr "hot")]
  (new_entity "product" "water" [("title", AStr "Water")]
  (new_entity "order" "o1" [("order_number", AStr "17"); ("items", AArr [a_line "l1" "tea" "Tea"; a_line "l2" "water" "Water"])]
  newEmptyDB))))).

Definition printed_by (m : app ()) (st : persistedDB) : list string := map payload_of (w_printed (m (world_of st)).2).

(** an item without a category is on no kitchen ticket.  With one category routed, an order
    for a tea of that category and a water without one prints a single ticket, which has the
    tea and not the water, although the policy asks for the order's kitchen documents; without
    the route the same order prints a ticket with both. *)
Theorem kitchen_ticket_drops :
  let kitchen (st : persistedDB) := printed_by (_ ← enqueueAndDispatchPrintJobsDocs calm "o1" (of_kitchen 1); mret ()) st in
  let unrouted := new_entity "printer" "p0" [("title", AStr "cashier")] (set_Entities (delete (entityKey "printer_route" "r1")) a_bar) in
  map (λ t, (Contains t "Tea", Contains t "Water")) (kitchen a_bar) = [(true, false)]
  ∧ map (λ t, (Contains t "Tea", Contains t "Water")) (kitchen unrouted) = [(true, true)].
Proof. vm_compute. split; reflexivity. Qed.

(** A café that settles with three copies for the customer and three for itself. *)
Definition a_checkout : persistedDB :=
  new_entity "cafe_profile" "cafe-main-profile"
    [("title", AStr "Cafe"); ("pw_checkout_mode", AStr "custom"); ("pw_checkout_copies", AStr "3"); ("pw_checkout_merchant", AStr "true")] a_bar.

(** of a large settlement not all copies are printed.  The policy of three copies each for
    customer and café asks for six, and the one job that is made prints five. *)
Theorem checkout_copies_cut :
  let pol := printPolicy (Entity_of "cafe_profile" "cafe-main-profile" a_checkout) in
  docs (pp_Checkout pol) = of_customer 6
  ∧ length (printed_by (_ ← autoPrint calm "o1" "checkout"; mret ()) a_checkout) = 5.
Proof. vm_compute. split; reflexivity. Qed.

(** A test job as it is stored. *)
Definition a_test : tx_out PrintJobView := EnqueueTestPrintJob io_ok None 0 0 "p1" (store_of a_bar) draws.
Definition a_test_job : PrintJobView := match tx_res a_test with Ok j => j | Err _ => no_job end.
Definition after_test : world := {| w_store := tx_store a_test; w_tick := 0; w_printed := []; w_background := [] |}.

Lemma dispatchPrintJob_settles_witness :
  let r := dispatchPrintJob calm false a_test_job after_test in
  (∃ ds lines, w_printed r.2 = w_printed after_test ++ ds ∧ Forall (λ d, payload_of d = buildESCPos lines (jv_PaperWidth a_test_job)) ds
    ∧ ((jv_Status r.1 = PrintStatusPrinted ∧ length ds = Z.to_nat (clamp_copies (jv_Copies a_test_job)))
       ∨ (jv_Status r.1 = PrintStatusFailed ∧ length ds < Z.to_nat (clamp_copies (jv_Copies a_test_job)))))
  ∧ PrintJob None (jv_ID a_test_job) (s_state (w_store r.2)) = Ok (reshown r.1).
Proof.
  intros r. assert (s_closed (w_store after_test) = false) as Ho by (vm_compute; reflexivity).
  assert (PrintJob None (jv_ID a_test_job) (s_state (w_store after_test)) = Ok a_test_job) as Hj by (vm_compute; reflexivity).
  pose proof (dispatchPrintJob_settles calm false a_test_job a_test_job after_test (λ _, eq_refl) Ho Hj eq_refl) as H.
  fold r in H. rewrite (surjective_pairing r) in H. destruct H as [H1 H2]. split; [exact H1|].
  apply H2; [reflexivity| |vm_compute; reflexivity]. split; [|decided]. decided.
Defined.
