(* ===== verification/OrderDesk.v ===== *)
(** * The handlers of orders

    Models the handlers of [offline-menuvex/app.go] that take, edit, move on, transfer, defer
    and split orders, each as one run of the world of [Desk]. *)
From S2P Require Import Prelude GoStrings GoFloat GoJson GoJsonFacts GoReadback GoTime Store Entities EntityView Outbox Records Orders OrderStates SplitBill PrintJobs Reopen Forms Receipts Desk Printing.

(** ** Forms *)

(** The lines of a form: a line without a product is skipped, and so is one whose quantity is
    not a positive number; a line beyond the quantities has one piece. *)
(* app.go:4255-4284 Application.handleCreatePOSOrder *)
Definition form_lines (r : Request) : list POSOrderLineInput :=
  omap (λ '(i, p),
    let pid := TrimSpace p in
    if sempty pid then None
    else
      let note := TrimSpace (default EmptyString (values r "line_note" !! i)) in
      match values r "quantity" !! i with
      | None => Some {| pl_ProductID := pid; pl_Quantity := 1; pl_Note := note |}
      | Some q => match Atoi (TrimSpace q) with
                  | (n, true) => if (0 <? n)%Z then Some {| pl_ProductID := pid; pl_Quantity := n; pl_Note := note |} else None
                  | _ => None
                  end
      end) (imap pair (values r "product_id")).

(** [time.Now().AddDate(0, 0, days).Format("2006-01-02")], for a number of days that does not
    leave the range of times. *)
Definition date_in (zone : Z → Z) (t days : Z) : string :=
  FormatDate (date_of_days ((unix_sec t + zone t) / 86400 + epoch_day + days)).

Section OrderDesk.
Variable E : Env.

(** A due date that is given, or that many days from now. *)
Definition due_date (r : Request) (date_key days_key : string) : app string :=
  let d := trimmed r date_key in
  if negb (sempty d) then mret d
  else match Atoi (trimmed r days_key) with
       | (days, true) => if (0 <? days)%Z then t ← now E; mret (date_in (ev_zone E) t days) else mret EmptyString
       | _ => mret EmptyString
       end.

(* app.go deferDueAt *)
Definition deferDueAt (r : Request) : app string := due_date r "defer_due_date" "defer_due_days".

(* app.go Application.posEnabledStages *)
Definition posEnabledStages : app (list string) :=
  prof ← entity E false "cafe_profile" "cafe-main-profile";
  mret (match prof with Ok p => stages_of (Field p "pos_stages") | Err _ => posStageDefs.*1 end).

(** ** Taking an order *)

Definition name_and_phone : string := "نام و شماره موبایل مشتری برای سفارش بیرون‌بر الزامی است.".
Definition phone_shape : string := "برای سفارش بیرون‌بر، شماره موبایل باید ۱۱ رقم و با ۰۹ شروع شود.".

(** Why a form is refused before the store is asked. *)
(* app.go:4289-4301 Application.handleCreatePOSOrder *)
Definition refused_customer (r : Request) : option string :=
  let ft := trimmed r "fulfillment_type" in
  if bool_decide (ft = "outside") || bool_decide (ft = "delivery") then
    let phone := normalizeDigits (trimmed r "customer_phone") in
    if sempty (trimmed r "customer_name") || sempty phone then Some name_and_phone
    else if negb (String.length phone =? 11)%nat || negb (HasPrefix phone "09") then Some phone_shape
    else None
  else None.

Definition order_input (r : Request) (due : string) : POSOrderInput :=
  {| po_ClientToken := form r "client_token"; po_FulfillmentType := form r "fulfillment_type"; po_TableID := form r "table_id";
     po_CustomerID := form r "customer_id"; po_CustomerName := form r "customer_name"; po_CustomerPhone := form r "customer_phone";
     po_CashierName := default EmptyString (rq_User r); po_PaymentMethod := form r "payment_method";
     po_DiscountIRR := form r "discount_irr"; po_ExtraIRR := form r "extra_irr"; po_ExtraNote := form r "extra_note";
     po_DebtorDueAt := due; po_DebtorNote := form r "defer_note"; po_DebtorKind := form r "debtor_kind";
     po_DebtorGroupID := form r "debtor_group_id"; po_Note := form r "note"; po_Items := form_lines r |}.

Definition create_order (r : Request) (due : string) : app (res string) :=
  act (λ n s, let o := CreatePOSOrder (ev_tehran E) (ev_runtime E n) (ev_io E n 0) (ctx_at E false n) s (ev_draws E n)
                         (ev_clock E n 0) (ev_clock E n 1) (order_input r due) in (tx_res o, tx_store o)).

(* app.go Application.handleCreatePOSOrder *)
Definition handleCreatePOSOrder (r : Request) : app Reply :=
  match refused_customer r with
  | Some msg => mret (navigatePage r "pos" msg)
  | None =>
      due ← deferDueAt r;
      o ← create_order r due;
      match o with
      | Err e => mret (navigatePage r "pos" ("خطا در ثبت سفارش صندوق: " +:+ e))
      | Ok orderID =>
          _ ← (if sempty (trimmed r "table_id")
               then _ ← autoPrintAsync E orderID "notable"; autoPrintAsync E orderID "checkout"
               else autoPrintAsync E orderID "create");
          mret (navigatePage r "pos"
                  (if bool_decide (trimmed r "payment_method" = "credit_debtor") then "سفارش ثبت و در لیست بدهکاران ثبت شد."
                   else "سفارش با موفقیت ثبت شد."))
      end
  end.

(** ** Its status *)

Definition set_status (orderID status reason : string) : app (res unit) :=
  transacts E false (λ R io ctx t g s, UpdateLocalOrderStatusReason R io ctx s g t orderID status reason).

(** A reason has between two and five hundred characters. *)
Definition reason_ok (reason : string) : bool := let n := length (runes reason) in (2 <=? n)%nat && (n <=? 500)%nat.

(* app.go Application.handleOrderStatus *)
Definition handleOrderStatus (r : Request) : app Reply :=
  let orderID := trimmed r "order_id" in
  let newStatus := trimmed r "status" in
  let reason := trimmed r "reason" in
  if EqualFold newStatus "cancelled" && negb (reason_ok reason)
  then mret (navigatePage r "orders" "برای لغو سفارش، ثبت دلیل (۲ تا ۵۰۰ نویسه) الزامی است.")
  else
    let retPage := trimmed r "return_page" in
    let retPage := if sempty retPage then "orders" else retPage in
    o ← set_status orderID newStatus reason;
    match o with
    | Err e => mret (navigatePage r retPage e)
    | Ok _ =>
        _ ← (if bool_decide (newStatus = "completed") then autoPrintAsync E orderID "complete" else mret ());
        mret (navigatePage r retPage
                (if bool_decide (newStatus = "completed") then "سفارش تکمیل و تسویه شد."
                 else if bool_decide (newStatus = "cancelled") then "سفارش لغو شد و میز مربوطه آزاد گردید."
                 else "وضعیت سفارش به‌روزرسانی شد."))
    end.

Definition nothing_left : string := "مرحلهٔ بعدی فعالی برای این سفارش نیست؛ سفارش را تکمیل کنید.".

(* app.go Application.handleOrderAdvance *)
Definition handleOrderAdvance (r : Request) : app Reply :=
  let orderID := trimmed r "order_id" in
  let page := trimmed r "return_page" in
  let page := if sempty page then "pos" else page in
  o ← entity E false "order" orderID;
  match o with
  | Err _ => mret (navigatePage r page "سفارش مورد نظر یافت نشد")
  | Ok o =>
      stages ← posEnabledStages;
      let '(target, label) := orderAdvanceTarget (norm (Field o "status")) stages in
      if sempty target then mret (navigatePage r page nothing_left)
      else
        u ← set_status orderID target EmptyString;
        mret (navigatePage r page (match u with Err e => e | Ok _ => "سفارش به مرحلهٔ «" +:+ label +:+ "» رفت." end))
  end.

(* app.go Application.handlePOSStages *)
Definition handlePOSStages (r : Request) : app Reply :=
  let enabled := List.filter (λ k, bool_decide (form r ("stage_" +:+ k) = "on")) posStageDefs.*1 in
  let stagesVal := Join "," enabled in
  o ← save E false "cafe_profile" "cafe-main-profile" [("pos_stages", AStr (if sempty stagesVal then "none" else stagesVal))];
  mret (navigatePage r "pos" (match o with Err e => e | Ok _ => "مراحل سفارش ذخیره شد." end)).

(** ** Its lines, its table and its payment *)

(** An amount in Toman when it is one, or else the text in Rial when there is one. *)
(* app.go:4394-4403 Application.handleOrderEdit *)
Definition amount_of (r : Request) (toman irr : string) : option string :=
  match tomanFormToIRR (form r toman) with
  | Some v => Some v
  | None => let v := trimmed r irr in if sempty v then None else Some v
  end.

Definition present (r : Request) (k : string) : option string :=
  match rq_Form r !! k with Some _ => Some (form r k) | None => None end.

(* app.go Application.handleOrderEdit *)
Definition handleOrderEdit (r : Request) : app Reply :=
  let upd := {| ou_Lines := form_lines r; ou_DiscountIRR := amount_of r "discount_toman" "discount_irr";
                ou_ExtraIRR := amount_of r "extra_toman" "extra_irr"; ou_ExtraNote := present r "extra_note";
                ou_Note := present r "note" |} in
  let page := trimmed r "return_page" in
  let page := if sempty page then "orders" else page in
  o ← transacts E false (λ R io ctx t g s, UpdateOrderItemsFull io ctx s g t (trimmed r "order_id") upd);
  mret (navigatePage r page (match o with Err e => e | Ok _ => "اقلام سفارش به‌روز شد." end)).

(* app.go Application.handleOrderTransfer *)
Definition handleOrderTransfer (r : Request) : app Reply :=
  let targetID := trimmed r "target_table_id" in
  o ← transacts E false (λ R io ctx t g s, TransferOrder R io ctx s t (trimmed r "order_id") targetID);
  match o with
  | Err e => mret (navigatePOS r e EmptyString)
  | Ok _ =>
      table ← entity E false "table" targetID;
      let label := match table with Ok t => Label t | Err _ => EmptyString end in
      mret (navigatePOS r ("سفارش به «" +:+ label +:+ "» منتقل شد؛ میز قبلی آزاد شد.") EmptyString)
  end.

(* app.go Application.handleOrderDefer *)
Definition handleOrderDefer (r : Request) : app Reply :=
  due ← due_date r "due_date" "due_days";
  let page := if bool_decide (trimmed r "return_page" = "pos") then "pos" else "orders" in
  o ← transacts E false (λ R io ctx t g s,
        DeferOrderToDebtor io ctx s g t (trimmed r "order_id") (form r "customer_name") (form r "customer_phone") due (form r "note"));
  mret (navigatePage r page (match o with Err e => e | Ok _ => "سفارش در لیست بدهکاران ثبت شد؛ از بخش بدهکاران قابل تسویه است." end)).

(** The quantities picked for one payer. *)
(* app.go:4496-4504 Application.handleSplitPay *)
Definition form_picks (R : Runtime) (r : Request) : gmap string Z :=
  foldl (λ m '(k, vals),
           if negb (HasPrefix k "pick_") then m
           else match vals with
                | [] => m
                | v :: _ => match Atoi (normalizeDigits (TrimSpace v)) with
                            | (q, true) => if (0 <? q)%Z then <[sdrop 5 k := q]> m else m
                            | _ => m
                            end
                end) ∅ (iter R 0 (rq_Form r)).

(* app.go Application.handleSplitPay *)
Definition handleSplitPay (r : Request) : app Reply :=
  let orderID := trimmed r "order_id" in
  R ← runtime E;
  o ← transacts E false (λ R' io ctx t g s,
        RecordSplitPayment R' io ctx s g t orderID (form_picks R r) (form r "method") (form r "client_token"));
  mret (match o with
        | Err e => navigatePOS r e orderID
        | Ok (_, remaining) =>
            navigatePOS r
              (if (remaining =? 0)%Z then "حساب این میز کامل تسویه شد؛ از کارت میز «تکمیل و تسویه» را بزنید تا میز آزاد شود."
               else "پرداخت دنگی ثبت شد؛ مانده: " +:+ FormatPersianNumber (Z_to_dec (quot64 remaining 10)) +:+ " تومان") orderID
        end).

(* app.go Application.handleSplitUndo *)
Definition handleSplitUndo (r : Request) : app Reply :=
  let orderID := trimmed r "order_id" in
  o ← transacts E false (λ R io ctx t g s, UndoLastSplitPayment io ctx s t orderID);
  mret (navigatePOS r (match o with Err e => e | Ok _ => "آخرین پرداخت دنگی برگردانده شد." end) orderID).
End OrderDesk.
