(* ===== verification/OrderFlow.v ===== *)
(** * An order moves on

    What the handler behind the till's key for the next step does, run after run: an order
    goes through the stages the café has enabled, in order, and stops before completion. *)
From S2P Require Import Prelude GoStrings GoFloat GoJson GoJsonFacts GoReadback GoTime Store Entities EntityView Outbox Records Orders OrderStates SplitBill PrintJobs GoCompact Reopen Forms Receipts Desk Printing OrderDesk.

(** ** Payloads that stay readable *)

(** A value whose numbers, once read, are written so that they read the same. *)
Definition stable_value (v : goany) : Prop := back_ok v = true ∧ back_ok (back v) = true ∧ back (back v) = back v.

Lemma stable_str s : stable_value (AStr s).
Proof. done. Qed.

Lemma stable_back v : stable_value v → stable_value (back v).
Proof. intros (H1 & H2 & H3). split_and!; [done|by rewrite H3|by rewrite H3, H3]. Qed.

Lemma Forall_aset (P : goany → Prop) k v m : Forall (λ p, P p.2) m → P v → Forall (λ p, P p.2) (aset k v m).
Proof.
  intros Hm Hv. unfold aset. destruct (ahas k m).
  - induction Hm as [|[j w] m Hw Hm IH]; [constructor|]. cbn [areplace]. case_bool_decide; by constructor.
  - induction Hm as [|[j w] m Hw Hm IH]; cbn [ainsert]; [by repeat constructor|].
    destruct (String.ltb k j); repeat constructor; done.
Qed.

Lemma load_stable m : good_map m → Forall (λ p, stable_value p.2) m →
  load_map (marshal (AMap m)) = Ok (Some (back_map m)) ∧ Forall (λ p, stable_value p.2) (back_map m).
Proof.
  intros Hg Hs. split.
  - unfold load_map, unmarshal_map. rewrite parse_marshal_map by done. change (JObj _) with (ann (AMap m)). rewrite back_ok_map; [done|].
    apply forallb_forall. intros p Hp. rewrite Forall_forall in Hs. by apply (Hs p), list_elem_of_In.
  - unfold back_map. assert (Forall (λ p : string * goany, stable_value p.2) []) as H by constructor. revert H.
    generalize (@nil (string * goany)) as acc. induction Hs as [|[k v] m Hv _ IH]; intros acc Ha; [done|].
    cbn [map foldl fst snd]. apply IH; [by destruct Hg as [Hn Hw]; split; [rewrite fmap_cons in Hn; by inversion Hn|cbn [wf_any forallb] in Hw |- *; by bools]|].
    apply Forall_aset; [done|]. by apply stable_back.
Qed.

(** The order [id] is in the state [s], and its payload can be read as often as one likes. *)
Definition order_at (st : persistedDB) (id s : string) : Prop :=
  ∃ e m, live st "order" id = Some e ∧ se_Payload e = marshal (AMap m) ∧ good_map m ∧ Forall (λ p, stable_value p.2) m
    ∧ aget "status" m = AStr s.

(** ** One step *)

(** A step to another stage succeeds and touches nothing but the order. *)
Lemma status_moves R now id s new g st :
  order_at st id s → s ∈ canonical → new ∈ chain → validOrderTransition s new = true → s ≠ new → utf8_valid now = true →
  ∃ e, UpdateLocalOrderStatusReason_body R now id new EmptyString g st = Ok ((), put (entityKey "order" id) e st)
    ∧ json_Valid (se_Payload e) = true ∧ order_at (put (entityKey "order" id) e st) id new.
Proof.
  intros (e & m & Hl & Hp & Hm & Hst & Hs) Hc Hn Hv Hne Hnow. destruct (load_stable m Hm Hst) as [Hload Hst'].
  assert (new ∈ canonical ∧ utf8_valid new = true ∧ bool_decide (new = "completed") = false ∧ bool_decide (new = "cancelled") = false) as (Hc' & Hu & N1 & N2).
  { unfold chain in Hn. rewrite !elem_of_cons in Hn. destruct_or? Hn; subst; try (by apply not_elem_of_nil in Hn); (split; [decided|done]). }
  unfold UpdateLocalOrderStatusReason_body. rewrite Hl, Hp, Hload. cbn [oget assignable].
  rewrite aget_back, Hs by apply Hm. change (default EmptyString (as_string (back (AStr s)))) with s. rewrite Hv, canonical_fold, bool_decide_eq_false_2 by done.
  change (sempty (TrimSpace EmptyString)) with true. cbv iota zeta. rewrite N1, N2. cbn [andb].
  set (m1 := aset "updated_at" (AStr now) (aset "status" (AStr new) (back_map m))).
  assert (good_map m1) as Hg1.
  { apply good_aset_str; [|done..]. apply good_aset_str; [|done..]. by apply (load_map_good (marshal (AMap m))). }
  rewrite json_Marshal_good by done. exists (bump e (marshal (AMap m1))). split; [done|]. cbn [bump se_Payload].
  split; [by apply json_Valid_marshal|]. exists (bump e (marshal (AMap m1))), m1. apply live_some in Hl as [Hl Hd]. split_and!; try done.
  - unfold live. rewrite lookup_put. cbn [bump se_Deleted]. by rewrite Hd.
  - apply Forall_aset; [|apply stable_str]. by apply Forall_aset; [|apply stable_str].
  - subst m1. agets.
Qed.

(** ** The way of an order *)

Definition open_states : list string := ["pending"; "accepted"; "preparing"; "ready"]%stdpp.

(** The enabled stages ahead of a state, and the last of them. *)
Definition enabled (stages : list string) (k : string) : bool := existsb (String.eqb k) stages.
Definition later (s : string) : list string := if bool_decide (s = "pending") then chain else default [] (behind s chain).
Definition ahead (stages : list string) (s : string) : list string := List.filter (enabled stages) (later s).
Definition destination (stages : list string) (s : string) : string := default s (last (ahead stages s)).

(** Which stages are enabled decides everything. *)
Definition table (a p q : bool) : list string :=
  (if a then ["accepted"%stdpp] else []) ++ (if p then ["preparing"%stdpp] else []) ++ (if q then ["ready"%stdpp] else []).

Definition table_of (stages : list string) : list string :=
  table (enabled stages "accepted") (enabled stages "preparing") (enabled stages "ready").

Lemma enabled_table stages k : k ∈ chain → enabled (table_of stages) k = enabled stages k.
Proof.
  unfold chain. rewrite !elem_of_cons. intros Hk. destruct_or? Hk; subst; try (by apply not_elem_of_nil in Hk); unfold table_of;
    destruct (enabled stages "accepted"), (enabled stages "preparing"), (enabled stages "ready"); reflexivity.
Qed.

Lemma find_ext {A} (f g : A → bool) l : (∀ x, x ∈ l → f x = g x) → List.find f l = List.find g l.
Proof.
  induction l as [|x l IH]; intros H; [done|]. cbn. rewrite (H x) by (by left). destruct (g x); [done|]. apply IH. intros y Hy. apply H. by right.
Qed.

Lemma filter_ext {A} (f g : A → bool) l : (∀ x, x ∈ l → f x = g x) → List.filter f l = List.filter g l.
Proof.
  induction l as [|x l IH]; intros H; [done|]. cbn. rewrite (H x) by (by left). rewrite IH; [done|]. intros y Hy. apply H. by right.
Qed.

Lemma behind_chain s l : behind s chain = Some l → ∀ k, k ∈ l → k ∈ chain.
Proof.
  unfold chain. cbn [behind]. repeat case_bool_decide; intros [= <-] k; rewrite ?elem_of_cons; naive_solver.
Qed.

Lemma ahead_table stages s : ahead (table_of stages) s = ahead stages s.
Proof.
  apply filter_ext. intros k Hk. apply enabled_table. unfold later in Hk. case_bool_decide; [done|].
  destruct (behind s chain) eqn:B; [by eapply behind_chain|by apply not_elem_of_nil in Hk].
Qed.

Lemma orderAdvanceTarget_table stages s : orderAdvanceTarget s (table_of stages) = orderAdvanceTarget s stages.
Proof.
  unfold orderAdvanceTarget. change (λ k, existsb (String.eqb k) stages) with (enabled stages).
  change (λ k, existsb (String.eqb k) (table_of stages)) with (enabled (table_of stages)).
  destruct (behind s chain) as [l|] eqn:B.
  - rewrite (find_ext (enabled (table_of stages)) (enabled stages)); [done|]. intros k Hk. by eapply enabled_table, behind_chain.
  - case_bool_decide; [|done]. rewrite (find_ext (enabled (table_of stages)) (enabled stages)); [done|]. apply enabled_table.
Qed.

(** The step that is offered is the first enabled stage ahead, the transition table accepts
    it, and the stages ahead of it are the others. *)
Lemma advance_ahead stages s : s ∈ open_states →
  match ahead stages s with
  | [] => (orderAdvanceTarget s stages).1 = EmptyString ∧ destination stages s = s
  | k :: rest => (orderAdvanceTarget s stages).1 = k ∧ k ∈ chain ∧ k ∈ open_states ∧ s ≠ k ∧ validOrderTransition s k = true
                 ∧ ahead stages k = rest ∧ destination stages k = destination stages s
  end.
Proof.
  intros Hs. unfold destination. assert (∀ k, ahead stages k = ahead (table_of stages) k) as HA by (intros; by rewrite ahead_table).
  rewrite !HA, <- orderAdvanceTarget_table.
  assert (∀ a p q, match ahead (table a p q) s with
    | [] => (orderAdvanceTarget s (table a p q)).1 = EmptyString ∧ default s (last (ahead (table a p q) s)) = s
    | k :: rest => (orderAdvanceTarget s (table a p q)).1 = k ∧ k ∈ chain ∧ k ∈ open_states ∧ s ≠ k ∧ validOrderTransition s k = true
        ∧ ahead (table a p q) k = rest ∧ default k (last (ahead (table a p q) k)) = default s (last (ahead (table a p q) s))
    end) as H.
  { intros a p q. unfold open_states in Hs. rewrite !elem_of_cons in Hs.
    destruct_or? Hs; subst; try (by apply not_elem_of_nil in Hs); destruct a, p, q; decided. }
  specialize (H (enabled stages "accepted") (enabled stages "preparing") (enabled stages "ready")). fold (table_of stages) in H.
  destruct (ahead (table_of stages) s) as [|k rest]; [done|]. by rewrite HA.
Qed.

(** ** The key for the next step *)

Definition calm_env (E : Env) : Prop := (∀ n, ev_io E n 0 = io_ok) ∧ ∀ n, ev_ctx E n = None.

Definition stages_at (st : persistedDB) : list string :=
  match Entity_of "cafe_profile" "cafe-main-profile" st with Ok p => stages_of (Field p "pos_stages") | Err _ => posStageDefs.*1 end.

(** The till between two requests: its store is open and can be written. *)
Record at_stage (stages : list string) (id s : string) (w : world) : Prop := {
  as_open : s_closed (w_store w) = false;
  as_valid : texts_valid (s_state (w_store w));
  as_order : order_at (s_state (w_store w)) id s;
  as_stages : stages_at (s_state (w_store w)) = stages;
}.

Definition press (E : Env) (r : Request) (w : world) : world := (handleOrderAdvance E r w).2.

Lemma order_at_field st id s o : order_at st id s → Entity_of "order" id st = Ok o → Field o "status" = s.
Proof.
  intros (e & m & Hl & Hp & Hm & _ & Hs) H. unfold Entity_of in H. rewrite Hl in H. injection H as <-. by apply (text_marshal e m).
Qed.

Lemma order_at_entity st id s : order_at st id s → ∃ o, Entity_of "order" id st = Ok o.
Proof. intros (e & m & Hl & _). unfold Entity_of. rewrite Hl. eauto. Qed.

(** What one press does. *)
Lemma press_spec E r stages s w : calm_env E → s ∈ open_states → at_stage stages (trimmed r "order_id") s w →
  match ahead stages s with
  | [] => w_store (press E r w) = w_store w ∧ ∃ page, (handleOrderAdvance E r w).1 = navigatePage r page nothing_left
  | k :: _ => at_stage stages (trimmed r "order_id") k (press E r w)
  end.
Proof.
  intros [Hio Hctx] Hs [Ho Hv Hat Hst]. set (oid := trimmed r "order_id") in *.
  pose proof (advance_ahead stages s Hs) as A. destruct (order_at_entity _ _ _ Hat) as [o Eo].
  pose proof (order_at_field _ _ _ _ Hat Eo) as Ef.
  assert (s ∈ canonical) as Hcan.
  { unfold open_states in Hs. rewrite !elem_of_cons in Hs. destruct_or? Hs; subst; try (by apply not_elem_of_nil in Hs); decided. }
  unfold press, handleOrderAdvance. cbv zeta. fold oid. unfold entity, posEnabledStages, entity, reads, mbind, app_bind, act, ctx_at.
  cbn [w_tick w_store with_store]. rewrite !Hctx. cbn [read_ctx]. rewrite Eo. cbn [w_tick w_store with_store fst snd].
  unfold mret, app_ret. rewrite Hctx. cbn [read_ctx].
  change (match Entity_of "cafe_profile" "cafe-main-profile" (s_state (w_store w)) with
          | Ok p => stages_of (Field p "pos_stages") | Err _ => posStageDefs.*1 end) with (stages_at (s_state (w_store w))).
  rewrite Hst, Ef, canonical_norm by done. destruct (orderAdvanceTarget s stages) as [target label] eqn:T. cbn [fst] in A.
  destruct (ahead stages s) as [|k rest].
  - destruct A as [-> _]. cbn. eauto.
  - destruct A as (-> & Hk & _ & Hne & Hval & _). assert (sempty k = false) as ->.
    { unfold chain in Hk. rewrite !elem_of_cons in Hk. destruct_or? Hk; subst; [done..|by apply not_elem_of_nil in Hk]. }
    unfold set_status, transacts, act, ctx_at. cbn [w_tick w_store with_store fst snd]. rewrite Hctx, Hio.
    set (t := ev_clock E _ 0). set (R := ev_runtime E _). set (g := ev_draws E _).
    destruct (status_moves R (FormatRFC3339 t) oid s k g _ Hat Hcan Hk Hval Hne (FormatRFC3339_valid _)) as (e & Hb & He & Hnew).
    unfold UpdateLocalOrderStatusReason.
    destruct (withTx_commits (w_store w) _ _ _ Ho Hb) as [Hr Hs']; [by apply encodeDB_total, texts_valid_put|].
    pose proof (withTx_closed io_ok None (w_store w) (UpdateLocalOrderStatusReason_body R (FormatRFC3339 t) oid k EmptyString g)) as Hcl.
    split; cbn [w_store with_store snd]; rewrite ?Hs'; [by rewrite Hcl|by apply texts_valid_put|done|].
    rewrite <- Hst. unfold stages_at, Entity_of, live. rewrite lookup_put_ne; [done|].
    intros X%entityKey_inj; [by destruct X|done..].
Qed.

Lemma presses E r n : ∀ stages s w, calm_env E → s ∈ open_states → at_stage stages (trimmed r "order_id") s w →
  length (ahead stages s) ≤ n →
  ∃ s', s' = destination stages s ∧ ahead stages s' = [] ∧ s' ∈ open_states
    ∧ at_stage stages (trimmed r "order_id") s' (Nat.iter n (press E r) w).
Proof.
  induction n as [|n IH]; intros stages s w HE Hs Hat Hl.
  - pose proof (advance_ahead stages s Hs) as A. destruct (ahead stages s) eqn:Ea; [|cbn in Hl; lia]. exists s. by destruct A as [_ ->].
  - rewrite Nat.iter_succ_r. pose proof (press_spec E r stages s w HE Hs Hat) as P. pose proof (advance_ahead stages s Hs) as A.
    destruct (ahead stages s) as [|k rest] eqn:Ea.
    + destruct A as [_ A]. destruct P as [P _].
      assert (at_stage stages (trimmed r "order_id") s (press E r w)) as Hat' by (destruct Hat; split; by rewrite P).
      destruct (IH stages s _ HE Hs Hat') as (s' & -> & ? & ? & ?); [rewrite Ea; cbn; lia|]. eauto.
    + destruct A as (_ & _ & Hk & _ & _ & Hrest & <-).
      destruct (IH stages k _ HE Hk P) as (s' & -> & ? & ? & ?); [rewrite Hrest; cbn in Hl; lia|]. eauto.
Qed.

(** C8: an order gets through.  While the store can be written, an order in an open state that is
    moved on at least three times is in the last stage the café has enabled for it, and from
    there on pressing the key again changes nothing and asks for the order to be completed:
    no stage can hold an order, whichever are enabled. *)
Theorem handleOrderAdvance_reaches E r w s n :
  let id := trimmed r "order_id" in
  let st := s_state (w_store w) in
  calm_env E → s_closed (w_store w) = false → texts_valid st → order_at st id s → s ∈ open_states → 3 ≤ n →
  let w' := Nat.iter n (press E r) w in
  order_at (s_state (w_store w')) id (destination (stages_at st) s)
  ∧ w_store (press E r w') = w_store w'
  ∧ ∃ page, (handleOrderAdvance E r w').1 = navigatePage r page nothing_left.
Proof.
  cbv zeta. intros HE Ho Hv Hat Hs Hn. set (stages := stages_at (s_state (w_store w))).
  assert (length (ahead stages s) ≤ n) as Hl.
  { transitivity 3; [|done]. transitivity (length (later s)); [apply filter_length_le|]. unfold later, chain.
    case_bool_decide; [cbn; lia|]. cbn [behind]. repeat case_bool_decide; cbn; lia. }
  destruct (presses E r n stages s w HE Hs) as (s' & -> & Ha & Hs' & Hat'); [by split|done|].
  pose proof (press_spec E r stages _ _ HE Hs' Hat') as P. rewrite Ha in P. destruct P as [P1 P2].
  split; [apply Hat'|]. done.
Qed.

(** ** A concrete run *)

Definition a_waiting : gomap := [("order_number", AStr "17"); ("status", AStr "pending"); ("total", AInt 120000)].

Definition a_profile (stages : string) : persistedDB :=
  new_entity "cafe_profile" "cafe-main-profile" [("title", AStr "Cafe"); ("pos_stages", AStr stages)]
    (new_entity "order" "o1" a_waiting newEmptyDB).

Lemma handleOrderAdvance_reaches_witness :
  let r := asking [("order_id", "o1")]%stdpp in
  let w := world_of (a_profile "ready, accepted") in
  let w' := Nat.iter 3 (press calm r) w in
  order_at (s_state (w_store w')) "o1" "ready" ∧ w_store (press calm r w') = w_store w'
  ∧ ∃ page, (handleOrderAdvance calm r w').1 = navigatePage r page nothing_left.
Proof.
  cbv zeta. apply (handleOrderAdvance_reaches calm (asking [("order_id", "o1")]%stdpp) (world_of (a_profile "ready, accepted")) "pending" 3).
  - by split.
  - done.
  - split; [decided|constructor].
  - eexists _, a_waiting. split; [vm_compute; reflexivity|]. split; [reflexivity|]. split; [split; [decided|vm_compute; reflexivity]|].
    split; [|reflexivity]. repeat constructor; vm_compute; reflexivity.
  - decided.
  - lia.
Defined.
