(* ===== verification/PrintDesk.v ===== *)
(** * The handlers of printers

    Models the handlers of [offline-menuvex/app.go] for printers: switching them on, the policy
    of what is printed when, which printer gets which category, and printing by hand. *)
From S2P Require Import Prelude GoStrings GoFloat GoJson GoJsonFacts GoReadback GoTime Store Entities EntityView Outbox Records Orders OrderStates SplitBill PrintJobs PrintDedupe Forms Receipts Desk Printing.

Definition printerDisabledMsg : string :=
  "چاپگر حرارتی غیرفعال است؛ اگر فیش‌پرینتر دارید از «پرینترها و تنظیمات» آن را فعال کنید.".
Definition printers_on : string := "چاپگر حرارتی فعال شد؛ حالا چاپگرها را تعریف کنید تا فیش‌ها مستقیم چاپ شوند.".
Definition printers_off : string := "چاپگر حرارتی غیرفعال شد؛ دکمه‌های چاپ پنهان می‌شوند و هیچ فیشی ارسال نمی‌شود.".
Definition bad_scenario : string := "سناریوی چاپ نامعتبر است.".
Definition nothing_sent : string := "تغییری برای ذخیره ارسال نشد.".
Definition policy_saved : string := "تنظیمات چاپ خودکار ذخیره شد.".

(** A number of copies from a form: between one and five, or else one. *)
Definition copies_of (raw : string) : Z :=
  match Atoi (normalizeDigits (TrimSpace raw)) with
  | (n, true) => if (1 <=? n)%Z && (n <=? 5)%Z then n else 1%Z
  | _ => 1%Z
  end.

Definition print_modes : list string := ["none"; "kitchen"; "customer"; "both"; "custom"]%stdpp.
Definition print_docs : list string := ["kitchen"; "cashier"; "all"]%stdpp.

Definition doc_of (r : Request) (g : string) : string :=
  let doc := trimmed r ("pw_" +:+ g +:+ "_doc") in
  if existsb (String.eqb doc) print_docs then doc
  else if bool_decide (g = "checkout") || bool_decide (g = "complete") then "cashier" else "kitchen".

(** The fields one group of the form sets; [None] for a mode that is not known. *)
(* app.go:5066-5092 Application.handlePrintPolicy *)
Definition group_fields (r : Request) (g : string) : option gomap :=
  let key k := "pw_" +:+ g +:+ k in
  let mode := trimmed r (key "_mode") in
  if sempty mode then Some []
  else if negb (existsb (String.eqb mode) print_modes) then None
  else
    Some ([(key "_mode", AStr mode); (key "_doc", AStr (doc_of r g)); (key "_copies", AStr (Z_to_dec (copies_of (form r (key "_copies")))))]
          ++ (if bool_decide (g = "checkout")
              then [("pw_checkout_merchant", AStr (boolStr (bool_decide (form r "pw_checkout_merchant" = "on"))))] else [])).

Definition policy_groups : list string := ["create"; "notable"; "checkout"; "complete"]%stdpp.

Fixpoint policy_fields (r : Request) (gs : list string) : option gomap :=
  match gs with
  | [] => Some []
  | g :: gs => match group_fields r g with
               | None => None
               | Some f => match policy_fields r gs with Some f' => Some (f ++ f') | None => None end
               end
  end.

Section PrintDesk.
Variable E : Env.

(* app.go Application.handlePrinterToggle *)
Definition handlePrinterToggle (r : Request) : app Reply :=
  let enabled := bool_decide (form r "enabled" = "on") || bool_decide (form r "enabled" = "true") in
  o ← save E false "cafe_profile" "cafe-main-profile" [("printer_enabled", AStr (if enabled then "true" else "false"))];
  mret (navigatePage r "settings" (match o with
                                   | Err e => "خطا در ذخیره تنظیم چاپگر: " +:+ e
                                   | Ok _ => if enabled then printers_on else printers_off
                                   end)).

(* app.go Application.handlePrintPolicy *)
Definition handlePrintPolicy (r : Request) : app Reply :=
  match policy_fields r policy_groups with
  | None => mret (navigatePage r "settings" bad_scenario)
  | Some [] => mret (navigatePage r "settings" nothing_sent)
  | Some fields =>
      o ← save E false "cafe_profile" "cafe-main-profile" fields;
      mret (navigatePage r "settings" (match o with Err e => "خطا در ذخیره تنظیمات چاپ: " +:+ e | Ok _ => policy_saved end))
  end.

(** The last route of a category, and whether it is active. *)
(* app.go:5115-5124 Application.handlePrinterRouteSave *)
Definition existing_route (catID : string) (routes : list Entity) : string * string :=
  foldl (λ acc rt, if bool_decide (TrimSpace (Field rt "category_id") = catID)
                   then let v := TrimSpace (Field rt "is_active") in (e_ID rt, if sempty v then acc.2 else v) else acc)
    (EmptyString, "true"%stdpp) routes.

(* app.go Application.handlePrinterRouteSave *)
Definition handlePrinterRouteSave (r : Request) : app Reply :=
  let catID := trimmed r "category_id" in
  let printerID := trimmed r "printer_id" in
  cat ← entity E false "category" catID;
  match cat with
  | Err _ => mret (navigatePage r "settings" "دسته‌بندی مورد نظر یافت نشد.")
  | Ok cat =>
      routes ← entities E false "printer_route";
      let '(existingID, existingActive) := existing_route catID routes in
      if sempty printerID then
        o ← (if sempty existingID then mret (Ok ()) else delete_record E false "printer_route" existingID);
        mret (navigatePage r "settings"
                (match o with
                 | Err e => e
                 | Ok _ => "مسیر چاپ دسته «" +:+ Label cat +:+ "» حذف شد؛ بلیت آن به پرینتر پیش‌فرض آشپزخانه می‌رود."
                 end))
      else
        printer ← entity E false "printer" printerID;
        match printer with
        | Err _ => mret (navigatePage r "settings" "چاپگر مقصد یافت نشد.")
        | Ok printer =>
            o ← save E false "printer_route" existingID
                  [("title", AStr (Label cat)); ("category_id", AStr catID); ("category_name", AStr (Label cat));
                   ("printer_id", AStr printerID); ("printer_name", AStr (Label printer)); ("receipt_type", AStr "kitchen");
                   ("copies", AStr (Z_to_dec (copies_of (form r "copies")))); ("is_active", AStr existingActive)];
            mret (navigatePage r "settings"
                    (match o with
                     | Err e => "خطا در ذخیره مسیر چاپ: " +:+ e
                     | Ok _ => "مسیر چاپ دسته «" +:+ Label cat +:+ "» به چاپگر «" +:+ Label printer +:+ "» ذخیره شد."
                     end))
        end
  end.

(* app.go Application.handlePrinterRouteToggle *)
Definition handlePrinterRouteToggle (r : Request) : app Reply :=
  let catID := trimmed r "category_id" in
  routes ← entities E false "printer_route";
  match List.find (λ rt, bool_decide (TrimSpace (Field rt "category_id") = catID)) routes with
  | None => mret (navigatePage r "settings" "برای این دسته هنوز مقصد چاپی انتخاب نشده است.")
  | Some rt =>
      let off := bool_decide (Field rt "is_active" = "false") || bool_decide (Field rt "is_active" = "0") in
      o ← save E false "printer_route" (e_ID rt) [("is_active", AStr (if off then "true" else "false"))];
      mret (navigatePage r "settings"
              (match o with Err e => e | Ok _ => "مسیر چاپ این دسته " +:+ (if off then "فعال" else "متوقف") +:+ " شد." end))
  end.

(** ** Printing by hand *)

(** A message for the page or, to a script, as JSON. *)
Definition answer (r : Request) (page : string) (ok : bool) (message : string) : Reply :=
  if bool_decide (form r "ajax" = "1") then JsonReply ok message else navigatePage r page message.

(** The jobs of one document: how many are printed, how many fail, and whether there is one.
    A printed job is asked for again. *)
(* app.go:5213-5233 Application.handlePrintOrder *)
Fixpoint print_doc (doc : string) (jobs : list PrintJobView) (printed failed : Z) (found : bool) : app (Z * Z * bool) :=
  match jobs with
  | [] => mret (printed, failed, found)
  | j :: jobs =>
      if negb (bool_decide (jv_DocType j = doc)) then print_doc doc jobs printed failed found
      else
        again ← (if is_printed j then _ ← update_status E false (jv_ID j) PrintStatusPending EmptyString; mret true else mret false);
        if negb again && bool_decide (jv_Status j = PrintStatusFailed) && sempty (jv_PrinterID j)
        then print_doc doc jobs printed (failed + 1) true
        else
          done ← dispatchPrintJob E false j;
          if is_printed done then print_doc doc jobs (printed + 1) failed true else print_doc doc jobs printed (failed + 1) true
  end.

Definition doc_label (doc : string) : string := if bool_decide (doc = "kitchen") then "بلیت آشپزخانه" else "فیش مشتری".

(* app.go:5234-5242 Application.handlePrintOrder *)
Definition doc_message (label : string) (printed failed : Z) (found : bool) : string :=
  if negb found then "برای «" +:+ label +:+ "» چاپگر مقصدی تعریف نشده است؛ از تنظیمات چاپگرها بررسی کنید."
  else if (printed =? 0)%Z && (0 <? failed)%Z then "چاپ " +:+ label +:+ " ناموفق بود؛ از «فیش‌ها» تلاش مجدد بزنید."
  else if (0 <? failed)%Z then label +:+ " چاپ شد و یک مسیر چاپ خطا دارد."
  else label +:+ " چاپ شد.".

(* app.go Application.handlePrintOrder *)
Definition handlePrintOrder (r : Request) : app Reply :=
  enabled ← printerEnabled E false;
  if negb enabled then mret (answer r "orders" false printerDisabledMsg)
  else
    let orderID := trimmed r "order_id" in
    let doc := trimmed r "doc" in
    if sempty orderID then mret (navigatePage r "receipts" "شناسه سفارش برای چاپ مشخص نیست.")
    else if bool_decide (doc = "customer") || bool_decide (doc = "kitchen") then
      o ← enqueue E false orderID {["customer" := 1; "kitchen" := 1]}%Z;
      match o with
      | (_, Some e) => mret (navigatePage r "orders" e)
      | (jobs, None) =>
          n ← print_doc doc jobs 0 0 false;
          let '(printed, failed, found) := n in
          mret (answer r "orders" (found && (0 <? printed)%Z) (doc_message (doc_label doc) printed failed found))
      end
    else
      s ← enqueueAndDispatchPrintJobs E orderID;
      let r := with_query "id" orderID (with_query "page" "receipt" r) in
      mret (Rendered (rq_Query r) (if rq_HX r then Some ("/?page=receipt&id=" +:+ orderID) else None) (s.2)).

Definition already_printed : string :=
  "این فیش قبلاً با موفقیت چاپ شده است و برای جلوگیری از چاپ تکراری دوباره ارسال نشد.".

(* app.go Application.handlePrintRetry *)
Definition handlePrintRetry (r : Request) : app Reply :=
  enabled ← printerEnabled E false;
  if negb enabled then mret (navigatePage r "receipts" printerDisabledMsg)
  else
    job ← reads E false (λ R ctx st, PrintJob ctx (trimmed r "job_id") st);
    match job with
    | Err e => mret (navigatePage r "receipts" e)
    | Ok job =>
        if is_printed job then mret (navigatePage r "receipts" already_printed)
        else
          done ← dispatchPrintJob E false job;
          mret (navigatePage r "receipts"
                  (if is_printed done then "فیش «" +:+ DocTypeLabel done +:+ "» برای سفارش " +:+ jv_OrderNumber done +:+ " چاپ شد."
                   else "چاپ دوباره ناموفق بود: " +:+ jv_LastError done))
    end.

(* app.go Application.handlePrintTest *)
Definition handlePrintTest (r : Request) : app Reply :=
  let ret := trimmed r "return_page" in
  let ret := if sempty ret then "settings" else ret in
  enabled ← printerEnabled E false;
  if negb enabled then mret (navigatePage r ret printerDisabledMsg)
  else
    job ← act (λ n s, let o := EnqueueTestPrintJob (ev_io E n 0) (ctx_at E false n) (ev_clock E n 0) (ev_clock E n 1)
                                 (trimmed r "printer_id") s (ev_draws E n) in (tx_res o, tx_store o));
    match job with
    | Err e => mret (navigatePage r ret e)
    | Ok job =>
        done ← dispatchPrintJob E false job;
        mret (navigatePage r ret
                (if is_printed done then "فیش آزمایشی برای «" +:+ jv_PrinterTitle done +:+ "» چاپ شد."
                 else "چاپ آزمایشی ناموفق بود: " +:+ jv_LastError done))
    end.
End PrintDesk.

(** ** The policy that is saved is the one that counts *)

Lemma aget_in k v (m : gomap) : NoDup m.*1 → (k, v) ∈ m → aget k m = v.
Proof.
  induction m as [|[j u] m IH]; intros Hn Hin; [by apply not_elem_of_nil in Hin|]. rewrite fmap_cons in Hn. inversion_clear Hn as [|? ? Hj Hd].
  cbn [aget]. apply elem_of_cons in Hin as [[= <- <-]|Hin]; [by rewrite bool_decide_true|].
  rewrite bool_decide_false; [by apply IH|]. intros ->. apply Hj. apply list_elem_of_fmap. by exists (k, v).
Qed.


Lemma saved_entity now kind id fields isNew st st' :
  NoDup fields.*1 → good_map fields → utf8_valid id = true → utf8_valid now = true →
  SaveLocalRecord_body now kind id isNew fields st = Ok ((), st') →
  ∃ e, Entity_of kind id st' = Ok e ∧ ∀ k s, k ∉ system_fields → aget k fields = AStr s → Field e k = s.
Proof.
  intros Hn Hg Hid Hnow H. destruct (SaveLocalRecord_spec _ _ _ _ _ _ _ Hn H) as (e & m & -> & _ & _ & Hd & Hp & _ & _ & _ & Hm & _ & Hgm & _).
  exists (view e). split; [unfold Entity_of; by rewrite (live_put kind id e st Hd)|]. intros k s Hk Hs.
  apply (text_marshal e m); [done|by apply Hgm|]. rewrite Hm by done. destruct (ahas k fields) eqn:A; [done|].
  apply ahas_false in A. by rewrite aget_absent in Hs.
Qed.

(** What a form asks for in a group it sends. *)
Definition asked_scenario (r : Request) (g : string) : PrintScenario :=
  {| ps_Mode := trimmed r ("pw_" +:+ g +:+ "_mode"); ps_Doc := doc_of r g; ps_Copies := copies_of (form r ("pw_" +:+ g +:+ "_copies"));
     ps_Merchant := bool_decide (g = "checkout") && bool_decide (form r "pw_checkout_merchant" = "on");
     ps_Checkout := bool_decide (g = "checkout") |}.

Lemma copies_of_range raw : (1 <= copies_of raw <= 5)%Z.
Proof. unfold copies_of. destruct (Atoi _) as [n []]; [|lia]. destruct (_ && _) eqn:E; bools; lia. Qed.

Lemma doc_of_known r g : doc_of r g ∈ print_docs.
Proof.
  unfold doc_of. destruct (existsb _ _) eqn:E.
  - apply existsb_exists in E as (d & Hd & <-%String.eqb_eq). by apply list_elem_of_In.
  - destruct (_ || _); decided.
Qed.

Lemma known_text l s : forallb (λ s, bool_decide (TrimSpace s = s) && negb (sempty s) && utf8_valid s) l = true → s ∈ l →
  TrimSpace s = s ∧ sempty s = false ∧ utf8_valid s = true.
Proof. rewrite forallb_forall. intros H Hs%list_elem_of_In. specialize (H s Hs). by bools. Qed.

Lemma apply_asked prof (r : Request) (g : string) sc :
  trimmed r ("pw_" +:+ g +:+ "_mode") ∈ print_modes →
  Field prof ("pw_" +:+ g +:+ "_mode") = trimmed r ("pw_" +:+ g +:+ "_mode") →
  Field prof ("pw_" +:+ g +:+ "_doc") = doc_of r g →
  Field prof ("pw_" +:+ g +:+ "_copies") = Z_to_dec (copies_of (form r ("pw_" +:+ g +:+ "_copies"))) →
  apply_scenario prof ("pw_" +:+ g) sc
  = {| ps_Mode := ps_Mode (asked_scenario r g); ps_Doc := ps_Doc (asked_scenario r g); ps_Copies := ps_Copies (asked_scenario r g);
       ps_Merchant := ps_Merchant sc; ps_Checkout := ps_Checkout sc |}.
Proof.
  intros Hin Hm Hd Hc. unfold apply_scenario. rewrite !sapp_assoc, Hm, Hd, Hc, TrimSpace_Z_to_dec.
  pose proof (copies_of_range (form r ("pw_" +:+ g +:+ "_copies"))) as Hr. rewrite Atoi_Z_to_dec by (unfold in_int64, two63; lia).
  rewrite (proj2 (Z.leb_le 1 _)), (proj2 (Z.leb_le _ 5)) by lia. cbn [andb].
  destruct (known_text print_modes _ eq_refl Hin) as (-> & -> & _).
  destruct (known_text print_docs _ eq_refl (doc_of_known r g)) as (-> & -> & _). done.
Qed.

(** The fields of a group, once the form is taken. *)
Definition group_list (r : Request) (g : string) : gomap :=
  [("pw_" +:+ g +:+ "_mode", AStr (trimmed r ("pw_" +:+ g +:+ "_mode"))); ("pw_" +:+ g +:+ "_doc", AStr (doc_of r g));
   ("pw_" +:+ g +:+ "_copies", AStr (Z_to_dec (copies_of (form r ("pw_" +:+ g +:+ "_copies")))))]
  ++ (if bool_decide (g = "checkout")
      then [("pw_checkout_merchant", AStr (boolStr (bool_decide (form r "pw_checkout_merchant" = "on"))))] else []).

Lemma group_cases r g f : group_fields r g = Some f →
  (f = [] ∧ trimmed r ("pw_" +:+ g +:+ "_mode") = EmptyString)
  ∨ (f = group_list r g ∧ trimmed r ("pw_" +:+ g +:+ "_mode") ∈ print_modes).
Proof.
  unfold group_fields. cbv zeta. destruct (sempty _) eqn:S; [apply sempty_true in S; intros [= <-]; by left|].
  destruct (existsb _ print_modes) eqn:X; [|done]. intros [= <-]. right. split; [done|].
  apply existsb_exists in X as (m & Hm & <-%String.eqb_eq). by apply list_elem_of_In.
Qed.

Lemma group_list_wf r g : utf8_valid g = true → trimmed r ("pw_" +:+ g +:+ "_mode") ∈ print_modes →
  forallb (λ p, utf8_valid p.1 && wf_any p.2) (group_list r g) = true.
Proof.
  intros Hg Hm. destruct (known_text print_modes _ eq_refl Hm) as (_ & _ & V1).
  destruct (known_text print_docs _ eq_refl (doc_of_known r g)) as (_ & _ & V2).
  assert (∀ k, utf8_valid k = true → utf8_valid ("pw_" +:+ g +:+ k) = true) as K by (intros; apply utf8_valid_app; [done|by apply utf8_valid_app]).
  unfold group_list. rewrite forallb_app. cbn [forallb fst snd wf_any]. rewrite !K, V1, V2, Z_to_dec_valid by done.
  cbn [andb]. destruct (bool_decide (g = "checkout")); [|reflexivity]. by destruct (bool_decide (form r "pw_checkout_merchant" = "on")).
Qed.

Definition group_keys (g : string) : list string :=
  ["pw_" +:+ g +:+ "_mode"; "pw_" +:+ g +:+ "_doc"; "pw_" +:+ g +:+ "_copies"]
  ++ (if bool_decide (g = "checkout") then ["pw_checkout_merchant"%stdpp] else []).

Lemma group_list_keys r g : (group_list r g).*1 = group_keys g.
Proof. unfold group_list, group_keys. rewrite fmap_app. by destruct (bool_decide (g = "checkout")). Qed.

(** Every field of the form is there, under a key of its own. *)
Lemma policy_fields_spec r fields g : policy_fields r policy_groups = Some fields → g ∈ policy_groups →
  trimmed r ("pw_" +:+ g +:+ "_mode") ≠ EmptyString →
  NoDup fields.*1 ∧ good_map fields ∧ trimmed r ("pw_" +:+ g +:+ "_mode") ∈ print_modes
  ∧ ∀ p, p ∈ group_list r g → aget p.1 fields = p.2.
Proof.
  unfold policy_groups. cbn [policy_fields]. intros H Hg Hne.
  destruct (group_fields r "create") as [f1|] eqn:G1; [|done]. destruct (group_fields r "notable") as [f2|] eqn:G2; [|done].
  destruct (group_fields r "checkout") as [f3|] eqn:G3; [|done]. destruct (group_fields r "complete") as [f4|] eqn:G4; [|done].
  injection H as <-. apply group_cases in G1, G2, G3, G4.
  assert (NoDup ((f1 ++ f2 ++ f3 ++ f4 ++ []).*1)) as Hn.
  { destruct G1 as [[-> _]|[-> _]], G2 as [[-> _]|[-> _]], G3 as [[-> _]|[-> _]], G4 as [[-> _]|[-> _]];
      rewrite !fmap_app, ?group_list_keys; decided. }
  assert (forallb (λ p, utf8_valid p.1 && wf_any p.2) (f1 ++ f2 ++ f3 ++ f4 ++ []) = true) as Hw.
  { rewrite !forallb_app. destruct G1 as [[-> _]|[-> ?]], G2 as [[-> _]|[-> ?]], G3 as [[-> _]|[-> ?]], G4 as [[-> _]|[-> ?]];
      rewrite ?group_list_wf by done; reflexivity. }
  split; [done|]. split; [by split|].
  assert (∃ f, f ∈ [f1; f2; f3; f4] ∧ f = group_list r g ∧ trimmed r ("pw_" +:+ g +:+ "_mode") ∈ print_modes) as (f & Hf & -> & Hm).
  { rewrite !elem_of_cons in Hg. destruct Hg as [->|[->|[->|[->|Hg]]]]; [..|by apply not_elem_of_nil in Hg].
    - exists f1. split; [by left|]. destruct G1 as [[_ ?]|?]; done.
    - exists f2. split; [right; by left|]. destruct G2 as [[_ ?]|?]; done.
    - exists f3. split; [do 2 right; by left|]. destruct G3 as [[_ ?]|?]; done.
    - exists f4. split; [do 3 right; by left|]. destruct G4 as [[_ ?]|?]; done. }
  split; [done|]. intros [k v] Hp. cbn [fst snd].
  assert ((k, v) ∈ f1 ++ f2 ++ f3 ++ f4 ++ []) as Hin.
  { rewrite !elem_of_app. rewrite !elem_of_cons in Hf. destruct_or? Hf; subst; auto. by apply not_elem_of_nil in Hf. }
  apply aget_in; done.
Qed.

(** the policy that is saved is the one that counts.  When a form of the printing policy is
    accepted, whatever the profile held before, the policy read from the store has for each
    moment the form speaks of exactly the scenario it asked for, with the copies cut to
    between one and five; and a form that is not accepted changes nothing. *)
Theorem handlePrintPolicy_counts E r w :
  rq_HX r = true →
  let '(reply, w') := handlePrintPolicy E r w in
  (message_of reply = Some policy_saved →
   ∀ g, g ∈ policy_groups → trimmed r ("pw_" +:+ g +:+ "_mode") ≠ EmptyString →
     scenario_of (printPolicy (Entity_of "cafe_profile" "cafe-main-profile" (s_state (w_store w')))) g = Some (asked_scenario r g))
  ∧ (message_of reply ≠ Some policy_saved → s_state (w_store w') = s_state (w_store w)).
Proof.
  intros Hx. unfold handlePrintPolicy. destruct (policy_fields r policy_groups) as [fields|] eqn:P;
    [|unfold mret, app_ret, navigatePage; rewrite Hx; by split].
  destruct fields as [|p0 rest] eqn:Ef; [unfold mret, app_ret, navigatePage; rewrite Hx; by split|]. rewrite <- Ef in *. clear Ef p0 rest.
  unfold save, transacts, act, mbind, app_bind, mret, app_ret. cbn [w_store with_store].
  set (io := ev_io E _ _). set (t := ev_clock E _ _). set (g0 := ev_draws E _). set (ctx := ctx_at _ _ _).
  unfold SaveLocalRecord. change (sempty (TrimSpace "cafe_profile")) with false. change (sempty (TrimSpace "cafe-main-profile")) with false.
  change (validateLocalFields "cafe_profile" fields) with (@Ok unit ()). cbv iota. unfold returning. cbn [tx_res tx_store].
  set (fn := SaveLocalRecord_body _ _ _ _ _). unfold navigatePage. rewrite Hx. cbn [negb message_of].
  destruct (tx_res (withTx io ctx (w_store w) fn)) as [[]|e] eqn:T.
  - split; [|done]. intros _ g Hg Hne. apply withTx_ok in T. subst fn.
    destruct (policy_fields_spec r fields g P Hg Hne) as (Hn & Hgm & Hm & Hget).
    assert (utf8_valid "cafe-main-profile" = true) as Hid by reflexivity.
    destruct (saved_entity _ _ _ _ _ _ _ Hn Hgm Hid (FormatRFC3339_valid _) T) as (e & -> & Hf).
    assert (∀ k s, (k, AStr s) ∈ group_list r g → k ∉ system_fields → Field e k = s) as Hread.
    { intros k s Hin Hk. apply Hf; [done|]. by apply (Hget (k, AStr s)). }
    assert (∀ k, "pw_" +:+ k ∉ system_fields) as Hsys.
    { intros k. unfold system_fields. rewrite !not_elem_of_cons. split_and!; [discriminate..|apply not_elem_of_nil]. }
    pose proof (λ sc, apply_asked e r g sc Hm (Hread _ _ ltac:(by left) (Hsys _)) (Hread _ _ ltac:(right; by left) (Hsys _))
                  (Hread _ _ ltac:(do 2 right; by left) (Hsys _))) as HA.
    assert (g = "checkout" → Field e "pw_checkout_merchant" = boolStr (bool_decide (form r "pw_checkout_merchant" = "on"))) as HM.
    { intros ->. apply Hread; [do 3 right; by left|]. apply (Hsys "checkout_merchant"). }
    clear - Hg HA HM. unfold policy_groups in Hg. rewrite !elem_of_cons in Hg. unfold printPolicy, scenario_of.
    destruct Hg as [->|[->|[->|[->|Hg]]]]; [..|by apply not_elem_of_nil in Hg]; cbn [switch existsb String.eqb Ascii.eqb Bool.eqb orb pp_Create pp_NoTable pp_Complete pp_Checkout];
      f_equal; try exact (HA _).
    rewrite (HA _), (HM eq_refl). unfold asked_scenario. cbn [ps_Mode ps_Doc ps_Copies ps_Merchant ps_Checkout].
    f_equal. by destruct (bool_decide (form r "pw_checkout_merchant" = "on")).
  - split; [by intros [=]|]. intros _. by apply withTx_err in T.
Qed.

Lemma handlePrintPolicy_counts_witness :
  let r := asking [("pw_checkout_mode", "custom"); ("pw_checkout_copies", "۴"); ("pw_checkout_merchant", "on")]%stdpp in
  let w' := (handlePrintPolicy calm r (world_of a_bar)).2 in
  scenario_of (printPolicy (Entity_of "cafe_profile" "cafe-main-profile" (s_state (w_store w')))) "checkout"
  = Some {| ps_Mode := "custom"; ps_Doc := "cashier"; ps_Copies := 4; ps_Merchant := true; ps_Checkout := true |}.
Proof.
  cbv zeta. set (r := asking _). pose proof (handlePrintPolicy_counts calm r (world_of a_bar) eq_refl) as H.
  destruct (handlePrintPolicy calm r (world_of a_bar)) as [reply w'] eqn:E. destruct H as [H _]. cbn [snd].
  assert (message_of reply = Some policy_saved) as Hs by (vm_compute in E; injection E as <- _; reflexivity). clear E.
  refine (eq_trans (H Hs "checkout"%stdpp _ _) _); [decided|vm_compute; discriminate|vm_compute; reflexivity].
Defined.
