(* ===== verification/RecordDesk.v ===== *)
(** * The handlers of records

    Models the handlers of [offline-menuvex/app.go] that save and delete records, make tables,
    move stock, keep recipes, debts and tasks, close the day, take in products and queue edits
    of the catalog.  An order is deleted on purpose only ([handleLocalDelete_guards]). *)
From S2P Require Import Prelude GoStrings GoFloat GoJson GoJsonFacts GoReadback GoTime GoCrypto Store Entities EntityView Outbox Records Orders Inventory Analytics PrintJobs Forms Receipts Desk.

(** ** Text *)

(** [strings.ReplaceAll(s, sub, "")] for a [sub] that is not empty. *)
Fixpoint remove_go (skip : nat) (sub s : string) : string :=
  match s with
  | EmptyString => EmptyString
  | String c t =>
      match skip with
      | S k => remove_go k sub t
      | O => if HasPrefix s sub then remove_go (String.length sub - 1) sub t else String c (remove_go 0 sub t)
      end
  end.
Definition remove_all (sub s : string) : string := remove_go 0 sub s.

(** The expression [^[0-9]+(\.[0-9]{1,2})?$]. *)
(* app.go stockChangeQuantityPattern *)
Definition stockChangeQuantityPattern (s : string) : bool :=
  match SplitN2 "." s with
  | (whole, None) => all_digits whole
  | (whole, Some frac) => all_digits whole && all_digits frac && (String.length frac <=? 2)%nat
  end.

Section RecordDesk.
Variable E : Env.

Definition return_to (r : Request) (page : string) : string :=
  let p := trimmed r "return_page" in if sempty p then page else p.

(** ** Tables *)

Fixpoint make_tables (prefix zone capacity : string) (num : Z) (n : nat) : app (res unit) :=
  match n with
  | O => mret (Ok ())
  | S n =>
      o ← save E false "table" EmptyString
            [("title", AStr (prefix +:+ " " +:+ Z_to_dec num)); ("number", AStr (Z_to_dec num)); ("zone", AStr zone);
             ("capacity", AStr capacity); ("status", AStr "available")];
      match o with Err e => mret (Err e) | Ok _ => make_tables prefix zone capacity (wrap64 (num + 1)) n end
  end.

(** [n, _ := strconv.Atoi(s)] *)
Definition Atoi_value (s : string) : Z := (Atoi s).1.

(* app.go Application.handleTablesBulk *)
Definition handleTablesBulk (r : Request) : app Reply :=
  let count := Atoi_value (trimmed r "count") in
  let start := Atoi_value (trimmed r "start") in
  if (count <? 1)%Z || (100 <? count)%Z then mret (render r "تعداد میزها باید بین ۱ تا ۱۰۰ باشد.")
  else
    let start := if (start <? 1)%Z then 1%Z else start in
    let prefix := trimmed r "prefix" in
    o ← make_tables (if sempty prefix then "میز" else prefix) (trimmed r "zone") (trimmed r "capacity") start (Z.to_nat count);
    mret (match o with
          | Err e => render r ("ساخت گروهی میزها ناموفق بود: " +:+ e)
          | Ok _ => navigatePage r "tables" "میزها با موفقیت به‌صورت گروهی ساخته شدند."
          end).

(** ** Saving a form *)

Definition not_fields : list string :=
  ["csrf"; "kind"; "id"; "return_page"; "variant_title"; "variant_value"; "variant_active"; "recipe_ingredient_id"; "recipe_quantity";
   "variants_present"; "recipe_present"]%stdpp.

(** The fields of a form, whatever order its values are ranged over. *)
(* app.go:4055-4071 Application.handleLocalSave *)
Definition form_field (m : gomap) (p : string * list string) : gomap :=
  let '(k, vals) := p in
  if existsb (String.eqb k) not_fields then m
  else match vals with
       | [] => m
       | v :: _ =>
           let val := TrimSpace v in
           if (bool_decide (k = "is_available") || bool_decide (k = "is_active")) && (bool_decide (val = "true") || bool_decide (val = "false"))
           then aset k (ABool (bool_decide (val = "true"))) m
           else if sempty val then m else aset k (AStr val) m
       end.

Definition form_fields (R : Runtime) (r : Request) : gomap := foldl form_field [] (iter R 0 (rq_Form r)).

(** What a kind adds to the fields: the hash of a member's password and the permissions, and
    what a new debt starts with. *)
(* app.go:4083-4096 Application.handleLocalSave *)
Definition kind_fields (kind : string) (r : Request) (m : gomap) : gomap :=
  let m := if bool_decide (kind = "staff") then
             let pw := trimmed r "password" in
             let m := if sempty pw then m else aset "password_hash" (AStr (hex_encode (sha256 pw))) m in
             aset "permissions" (AStr (Join "," (values r "perm"))) (adel "password" m)
           else m in
  if bool_decide (kind = "debtor") && is_nil (aget "remaining" m) && negb (is_nil (aget "total" m))
  then aset "currency" (AStr "IRR") (aset "status" (AStr "open") (aset "paid" (AStr "0") (aset "remaining" (aget "total" m) m)))
  else m.

Definition variant_incomplete : string := "برای هر تنوع، هم عنوان و هم مبلغ را وارد کنید.".
Definition variant_amount : string := "مبلغ هر تنوع باید یک عدد معتبر بزرگ‌تر از صفر باشد.".

(** The variants of a product's form. *)
(* app.go:4101-4133 Application.handleLocalSave *)
Fixpoint form_variants (active : list string) (amounts : list string) (i : nat) (titles : list string) : res (list goany) :=
  match titles with
  | [] => Ok []
  | raw :: titles =>
      let title := TrimSpace raw in
      let valStr := match amounts !! i with
                    | Some v => remove_all thousands (remove_all "," (normalizeNumInput v))
                    | None => EmptyString
                    end in
      if sempty title && sempty valStr then form_variants active amounts (S i) titles
      else if sempty title || sempty valStr then Err variant_incomplete
      else
        let '(amount, ok) := ParseFloat valStr in
        if negb ok || fle amount fzero then Err variant_amount
        else
          let? rest := form_variants active amounts (S i) titles in
          Ok (AMap [("title", AStr title); ("value", AFloat amount);
                    ("is_active", ABool (existsb (String.eqb (Z_to_dec (Z.of_nat i))) active))] :: rest)
  end.

Definition recipe_item (iid : string) (ing : Entity) (qty : string) : goany :=
  AMap [("ingredient_id", AStr iid); ("ingredient_name", AStr (Label ing)); ("quantity", AStr (TrimSpace qty));
        ("unit", AStr (Field ing "base_unit"))].

(** The recipe lines of a form: those with an ingredient that exists and a quantity that
    [good] accepts. *)
(* app.go:4138-4158 Application.handleLocalSave *)
Fixpoint recipe_items (good : string → bool) (ids qtys : list string) : app (list goany) :=
  match ids, qtys with
  | [], _ | _, [] => mret []
  | i :: ids, q :: qtys =>
      let iid := TrimSpace i in
      if sempty iid || negb (good q) then recipe_items good ids qtys
      else
        ing ← entity E false "ingredient" iid;
        match ing with
        | Err _ => recipe_items good ids qtys
        | Ok ing => rest ← recipe_items good ids qtys; mret (recipe_item iid ing q :: rest)
        end
  end.

Definition positive_number (q : string) : bool :=
  let '(x, ok) := ParseFloat (remove_all "," (normalizeNumInput q)) in ok && negb (fle x fzero).

Definition recipe_fields (prod : Entity) (prodID note : string) (items : list goany) : gomap :=
  [("title", AStr ("رسپی " +:+ Label prod)); ("product_id", AStr prodID); ("product_name", AStr (Label prod));
   ("yield_qty", AStr "1"); ("note", AStr note); ("items", AArr items)].

(** The recipe of a product that was saved with one: its old recipe, or a new one. *)
(* app.go:4169-4190 Application.handleLocalSave *)
Definition save_product_recipe (savedID : string) (items : list goany) : app () :=
  prod ← entity E false "product" savedID;
  match prod with
  | Err _ => mret ()
  | Ok prod =>
      recipes ← entities E false "recipe";
      let old := List.find (λ rec, bool_decide (Field rec "product_id" = savedID)) recipes in
      let '(recipeID, note) := match old with Some rec => (e_ID rec, Field rec "note") | None => (EmptyString, EmptyString) end in
      _ ← save E false "recipe" recipeID (recipe_fields prod savedID note items);
      mret ()
  end.

(** [image] is what saving the picture of the form came to, when it has one that is not empty. *)
(* app.go Application.handleLocalSave *)
Definition handleLocalSave (image : option (res string)) (r : Request) : app Reply :=
  let kind := trimmed r "kind" in
  let id := trimmed r "id" in
  let target := return_to r (kindToPage kind) in
  R ← runtime E;
  let with_image : res gomap :=
    if bool_decide (kind = "product") || bool_decide (kind = "ingredient") then
      match image with
      | Some (Ok path) => Ok (aset "image" (AStr path) (form_fields R r))
      | Some (Err e) => Err ("خطا در ذخیره تصویر: " +:+ e)
      | None => Ok (form_fields R r)
      end
    else Ok (form_fields R r) in
  let with_variants : res gomap :=
    let? m := with_image in
    let m := kind_fields kind r m in
    if bool_decide (kind = "product") && bool_decide (form r "variants_present" = "1") then
      let? vs := form_variants (map TrimSpace (values r "variant_active")) (values r "variant_value") 0 (values r "variant_title") in
      Ok (aset "variants" (AArr vs) m)
    else Ok m in
  match with_variants with
  | Err e => mret (navigatePage r target e)
  | Ok fields =>
      items ← (if bool_decide (kind = "product") && bool_decide (form r "recipe_present" = "1")
               then recipe_items positive_number (values r "recipe_ingredient_id") (values r "recipe_quantity") else mret []);
      let fields := match items with [] => fields | _ => aset "stock" (AStr EmptyString) fields end in
      o ← save E false kind id fields;
      match o with
      | Err e => mret (navigatePage r target ("خطا در ذخیره‌سازی: " +:+ e))
      | Ok savedID =>
          _ ← (match items with [] => mret () | _ => save_product_recipe savedID items end);
          mret (navigatePage r target "اطلاعات با موفقیت در پایگاه داده محلی دسکتاپ ثبت شد.")
      end
  end.

(** ** Deleting *)

Definition order_missing : string := "سفارش مورد نظر یافت نشد.".
Definition number_needed : string := "برای حذف سفارش باید شماره سفارش را دقیق وارد کنید.".
Definition reason_needed : string := "برای حذف سفارش، ثبت دلیل (۲ تا ۵۰۰ نویسه) الزامی است.".
Definition order_settled : string := "سفارش تکمیل‌شده (تسویه‌شده) قابل حذف نیست تا مغایرت مالی ایجاد نشود.".
Definition category_missing : string := "دسته‌بندی مورد نظر یافت نشد.".
Definition category_used : string := "این دسته‌بندی هنوز قلم دارد؛ ابتدا اقلام آن را به دستهٔ دیگری منتقل کنید.".

(** Why an order is not deleted. *)
(* app.go:4204-4224 Application.handleLocalDelete *)
Definition order_deletion (r : Request) (ent : res Entity) : option string :=
  match ent with
  | Err _ => Some order_missing
  | Ok ent =>
      let expected := normalizeNumInput (Field ent "order_number") in
      let n := length (runes (trimmed r "reason")) in
      if sempty expected || negb (bool_decide (normalizeNumInput (form r "confirm_number") = expected)) then Some number_needed
      else if (n <? 2)%nat || (500 <? n)%nat then Some reason_needed
      else if EqualFold (Field ent "status") "completed" then Some order_settled
      else None
  end.

(** Why a category of the stock is not deleted. *)
(* app.go:4228-4245 Application.handleLocalDelete *)
Definition category_deletion (cat : res Entity) (ings : list Entity) : option string :=
  match cat with
  | Err _ => Some category_missing
  | Ok cat => if existsb (λ ing, bool_decide (TrimSpace (Field ing "category") = Label cat)) ings then Some category_used else None
  end.

(* app.go Application.handleLocalDelete *)
Definition handleLocalDelete (r : Request) : app Reply :=
  let kind := trimmed r "kind" in
  let id := trimmed r "id" in
  let target := return_to r (kindToPage kind) in
  refusal ← (if bool_decide (kind = "order") then e ← entity E false "order" id; mret (order_deletion r e)
             else if bool_decide (kind = "ingredient_category") then
               cat ← entity E false "ingredient_category" id;
               match cat with
               | Err _ => mret (Some category_missing)
               | Ok _ => ings ← entities E false "ingredient"; mret (category_deletion cat ings)
               end
             else mret None);
  match refusal with
  | Some msg => mret (navigatePage r target msg)
  | None =>
      o ← delete_record E false kind id;
      mret (navigatePage r target (match o with Err e => e | Ok _ => "رکورد مورد نظر از پایگاه داده محلی حذف شد." end))
  end.

(** ** Stock and recipes *)

(** The scenario of a change of stock: the reasons it accepts, the kind of movement and what is
    said when it is done. *)
(* app.go:4917-4921 Application.handleStockMovement *)
Definition scenario_reasons (direction : string) : option (list string) :=
  switch direction
    [(["incoming"], Some ["رسید خرید"; "برگشت از ضایعات"; "اصلاح شمارش"]);
     (["outgoing"], Some ["مصرف روزانه"; "تسویه ضایعات"; "انتقال بین انبارها"]);
     (["adjustment"], Some ["اصلاح شمارش"; "خطای ثبت قبلی"; "برگشت از ضایعات"])]%stdpp None.
Definition movement_kind (direction : string) : string :=
  if bool_decide (direction = "adjustment") then "adjustment_target" else direction.
Definition movement_done (direction : string) : string :=
  switch direction
    [(["incoming"], "موجودی قلم افزایش یافت."); (["outgoing"], "مصرف کالا ثبت شد."); (["adjustment"], "موجودی اصلاح شد.")]%stdpp
    EmptyString.

Definition move_stock (ingredientID txType qty cost note : string) : app (res string) :=
  transacts E false (λ R io ctx t g s, RecordStockMovement io ctx s g t ingredientID txType qty cost note).

(* app.go Application.handleStockMovement *)
Definition handleStockMovement (r : Request) : app Reply :=
  let rp := trimmed r "return_page" in
  let target := if bool_decide (rp = "waste") || bool_decide (rp = "ingredients") then rp else "ingredients" in
  let direction := trimmed r "direction" in
  if sempty direction then
    let reason := trimmed r "reason" in
    let desc := trimmed r "description" in
    let note := if bool_decide (form r "transaction_type" = "waste") && negb (sempty reason) then
                  if sempty desc then reason else reason +:+ "::" +:+ desc
                else form r "description" in
    o ← move_stock (form r "ingredient_id") (form r "transaction_type") (form r "quantity") (form r "unit_cost") note;
    mret (navigatePage r target
            (match o with
             | Err e => "خطا در ثبت سند انبار: " +:+ e
             | Ok _ => "سند گردش انبار ثبت شد و موجودی فعلی کالا بلافاصله به‌روزرسانی گردید."
             end))
  else
    match scenario_reasons direction with
    | None => mret (navigatePage r target "سناریوی تغییر موجودی معتبر نیست.")
    | Some allowed =>
        let quantity := trimmed r "quantity" in
        let '(qty, ok) := ParseFloat quantity in
        if negb (stockChangeQuantityPattern quantity) || negb ok || fle qty fzero
        then mret (navigatePage r target "مقدار تغییر موجودی باید عددی بزرگ‌تر از صفر و حداکثر با دو رقم اعشار باشد.")
        else
          let reason := trimmed r "reason" in
          let reason := if sempty reason then default EmptyString (head allowed) else reason in
          if negb (existsb (String.eqb reason) allowed)
          then mret (navigatePage r target "دلیل انتخاب‌شده برای این سناریو معتبر نیست.")
          else
            o ← move_stock (form r "ingredient_id") (movement_kind direction) quantity EmptyString reason;
            mret (navigatePage r target
                    (match o with Err e => "خطا در ثبت تغییر موجودی: " +:+ e | Ok _ => movement_done direction end))
    end.

Definition filled (q : string) : bool := negb (sempty (TrimSpace q)).

(* app.go Application.handleSaveRecipe *)
Definition handleSaveRecipe (r : Request) : app Reply :=
  let prodID := trimmed r "product_id" in
  if sempty prodID then mret (navigatePage r "recipes" "لطفاً محصول مربوط به رسپی را انتخاب کنید.")
  else
    prod ← entity E false "product" prodID;
    match prod with
    | Err _ => mret (navigatePage r "recipes" "محصول انتخاب شده یافت نشد.")
    | Ok prod =>
        items ← recipe_items filled (values r "ingredient_id") (values r "quantity");
        match items with
        | [] => mret (navigatePage r "recipes" "لطفاً حداقل یک ماده اولیه و مقدار مصرفی آن را وارد کنید.")
        | _ =>
            o ← save E false "recipe" (trimmed r "recipe_id") (recipe_fields prod prodID (trimmed r "note") items);
            mret (navigatePage r "recipes"
                    (match o with
                     | Err e => e
                     | Ok _ => "فرمول ساخت (BOM) محصول ذخیره شد. در زمان تکمیل سفارش، این مقادیر به‌صورت خودکار از انبار کسر می‌شوند."
                     end))
        end
    end.

(* app.go Application.handleWasteVoid *)
Definition handleWasteVoid (r : Request) : app Reply :=
  let id := trimmed r "id" in
  if sempty id then mret (navigatePage r "waste" "شناسه رویداد ضایعات ارسال نشده است.")
  else
    o ← act (λ n s, let o := VoidWasteEvent (ev_io E n 0) (ev_io E n 1) (ctx_at E false n) s (ev_draws E n)
                               (ev_clock E n 0) (ev_clock E n 1) id in (tx_res o, tx_store o));
    mret (navigatePage r "waste" (match o with Err e => e | Ok _ => "رویداد ضایعات ابطال شد و مقدار آن به موجودی برگشت." end)).

(** ** Debts, tasks and the close of the day *)

(* app.go Application.handleDebtorPay *)
Definition handleDebtorPay (r : Request) : app Reply :=
  o ← transacts E false (λ R io ctx t g s, SettleDebtorPayment io ctx s t (form r "debtor_id") (form r "amount_irr"));
  mret (navigatePage r "debtors" (match o with Err e => e | Ok _ => "مبلغ پرداختی با موفقیت از مانده بدهی کسر گردید." end)).

(* app.go Application.handleTaskToggle *)
Definition handleTaskToggle (r : Request) : app Reply :=
  let taskID := trimmed r "task_id" in
  ent ← entity E false "task" taskID;
  match ent with
  | Err e => mret (navigatePage r "staff-checklist" e)
  | Ok ent =>
      let finished := bool_decide (Field ent "is_done" = "true") || bool_decide (Field ent "status" = "done") in
      _ ← save E false "task" taskID
            [("is_done", AStr (if finished then "false" else "true")); ("status", AStr (if finished then "pending" else "done"))];
      mret (navigatePage r (return_to r "staff-checklist") "وضعیت چک‌لیست روزانه به‌روزرسانی شد.")
  end.

Definition closing_fields (fa : FinancialAnalytics) (note : string) : gomap :=
  [("title", AStr "گزارش بستن صندوق روزانه"); ("total_sales", AStr (TotalSalesIRR fa)); ("cash_sales", AStr (CashSalesIRR fa));
   ("card_sales", AStr (CardSalesIRR fa)); ("credit_sales", AStr (CreditSalesIRR fa)); ("total_expenses", AStr (TotalExpensesIRR fa));
   ("net_operating", AStr (NetOperatingIRR fa)); ("orders_count", AStr (Z_to_dec (CompletedOrders fa))); ("cashier_note", AStr note)].

(* app.go Application.handleDayClose *)
Definition handleDayClose (r : Request) : app Reply :=
  fa ← reads E false (λ R ctx st, Analytics R st);
  o ← save E false "shift_close" EmptyString (closing_fields fa (trimmed r "note"));
  mret (navigatePage r "finance" (match o with Err e => e | Ok _ => "صندوق روزانه با موفقیت بسته شد." end)).

(** ** Products from a table *)

Definition byte_order_mark : string := String "239"%char (String "187"%char (sone "191"%char)).
Definition without_mark (s : string) : string := if HasPrefix s byte_order_mark then sdrop 3 s else s.

(** The categories by title and by identifier. *)
Definition categories_by_label (cats : list Entity) : gmap string string :=
  foldl (λ m c, <[e_ID c := e_ID c]> (<[Label c := e_ID c]> m)) ∅ cats.

Definition column (rec : list string) (i : nat) : string := TrimSpace (default EmptyString (rec !! i)).

(* app.go:5429-5453 Application.handleProductsImport *)
Definition row_fields (cats : gmap string string) (title : string) (rec : list string) : gomap :=
  let cell k i := let v := column rec i in if sempty v then [] else [(k, AStr v)] in
  [("title", AStr title)]
  ++ (let c := default EmptyString (cats !! column rec 1) in if sempty c then [] else [("category_id", AStr c)])
  ++ cell "price" 2 ++ cell "cost" 3 ++ cell "stock" 4 ++ cell "is_available" 5 ++ cell "description" 6.

(** The rows in turn: how many are stored and how many are not. *)
(* app.go:5417-5459 Application.handleProductsImport *)
Fixpoint import_rows (cats : gmap string string) (first : bool) (rows : list (list string)) (created failed : Z) : app (Z * Z) :=
  match rows with
  | [] => mret (created, failed)
  | [] :: rows => import_rows cats false rows created failed
  | (c0 :: _) as rec :: rows =>
      let title := TrimSpace (without_mark c0) in
      if first && (EqualFold title "title" || bool_decide (title = "نام محصول")) then import_rows cats false rows created failed
      else if sempty title then import_rows cats false rows created (failed + 1)
      else
        o ← save E false "product" EmptyString (row_fields cats title rec);
        match o with
        | Err _ => import_rows cats false rows created (failed + 1)
        | Ok _ => import_rows cats false rows (created + 1) failed
        end
  end.

(** [file] is what reading the uploaded table came to: its rows, or what to say. *)
(* app.go Application.handleProductsImport *)
Definition handleProductsImport (file : string + list (list string)) (r : Request) : app Reply :=
  match file with
  | inl msg => mret (navigatePage r "products" msg)
  | inr rows =>
      cats ← entities E false "category";
      n ← import_rows (categories_by_label cats) true rows 0 0;
      let '(created, failed) := n in
      mret (navigatePage r "products"
              ("افزودن گروهی انجام شد: " +:+ FormatPersianNumber (Z_to_dec created) +:+ " محصول ثبت و "
               +:+ FormatPersianNumber (Z_to_dec failed) +:+ " ردیف رد شد."))
  end.

(** ** Edits of the catalog *)

(** The fields a form can send for a kind. *)
(* app.go:3881-3886 Application.queueCatalog *)
Definition catalog_form_keys (kind : string) : list string :=
  switch kind
    [(["category"], ["title"; "slug"; "description"]);
     (["product"], ["title"; "slug"; "description"; "category_id"; "price"; "cost"]);
     (["ingredient"], ["name"; "sku"; "barcode"]); (["banner"], ["title"; "image"; "link"])]%stdpp [].

(** The payload of a form; [None] when a switch is neither on nor off. *)
(* app.go:3880-3907 Application.queueCatalog *)
Definition form_payload (r : Request) : option gomap :=
  let m := foldl (λ m key, let v := trimmed r key in
                           if negb (sempty v) || bool_decide (key = "description") then aset key (AStr v) m else m)
             [] (catalog_form_keys (form r "kind")) in
  let m := if bool_decide (form r "kind" = "ingredient") && bool_decide (form r "action" = "create")
           then aset "base_unit" (AStr (form r "base_unit")) m else m in
  foldl (λ acc key, match acc with
                    | None => None
                    | Some m => let v := form r key in
                                if sempty v then Some m
                                else if bool_decide (v = "true") || bool_decide (v = "false") then Some (aset key (ABool (bool_decide (v = "true"))) m)
                                else None
                    end) (Some m) ["is_available"; "is_active"]%stdpp.

(** [standalone] when no synchronisation client is configured. *)
(* app.go Application.queueCatalog *)
Definition queueCatalog (standalone : bool) (r : Request) : app Reply :=
  let payload := if bool_decide (form r "mode" = "form")
                 then match form_payload r with Some m => Some (marshal (AMap m)) | None => None end
                 else Some (form r "payload") in
  match payload with
  | None => mret (render r "Invalid boolean field.")
  | Some payload =>
      let kind := form r "kind" in
      let id := form r "id" in
      let action := form r "action" in
      if standalone then
        match unmarshal_map payload with
        | (_, false) => mret (render r "فرمت اطلاعات نامعتبر است.")
        | (m, true) =>
            if bool_decide (action = "delete") then
              o ← delete_record E false kind id;
              mret (match o with
                    | Err e => render r e
                    | Ok _ => navigatePage r (kindToPage kind) "رکورد با موفقیت از پایگاه داده محلی حذف شد."
                    end)
            else
              o ← save E false kind id (default [] m);
              mret (match o with
                    | Err e => render r e
                    | Ok _ => navigatePage r (kindToPage kind) "تغییرات با موفقیت در پایگاه داده محلی دسکتاپ ذخیره شد (queued / local saved)."
                    end)
        end
      else
        match Atoi (form r "version") with
        | (_, false) => mret (render r "Invalid record version.")
        | (version, true) =>
            o ← transacts E false (λ R io ctx t g s, QueueCatalog R io ctx s g t kind id action payload version);
            mret (match o with
                  | Err e => render r ("Edit not queued: " +:+ e)
                  | Ok _ => navigatePage r "editor" "Saved durably on this device. The edit is queued, not yet accepted by the server."
                  end)
        end
  end.
End RecordDesk.

(** ** Deleting orders *)

Lemma delete_record_state E bg kind id w :
  let st' := s_state (w_store (delete_record E bg kind id w).2) in
  st' = s_state (w_store w) ∨ DeleteLocalRecord_body kind id (s_state (w_store w)) = Ok ((), st').
Proof.
  unfold delete_record, transacts, act, DeleteLocalRecord. cbn [snd w_store with_store]. destruct (_ || _); [by left|].
  pose proof (withTx_state (ev_io E (w_tick w) 0) (ctx_at E bg (w_tick w)) (w_store w) (DeleteLocalRecord_body kind id)) as W.
  destruct (tx_res _) as [[]|]; [by right|by left].
Qed.

Lemma order_deletion_none r e : order_deletion r (Ok e) = None →
  EqualFold (Field e "status") "completed" = false ∧ sempty (normalizeNumInput (Field e "order_number")) = false
  ∧ normalizeNumInput (form r "confirm_number") = normalizeNumInput (Field e "order_number")
  ∧ 2 ≤ length (runes (trimmed r "reason")) ≤ 500.
Proof.
  unfold order_deletion. cbv zeta. destruct (sempty _) eqn:Em; [done|]. cbn [orb]. case_bool_decide as Hn; [|done]. cbn [negb].
  destruct (_ <? 2)%nat eqn:R1; [done|]. destruct (500 <? _)%nat eqn:R2; [done|]. destruct (EqualFold _ _); [done|]. intros _.
  apply Nat.ltb_ge in R1, R2. split_and!; done.
Qed.

(** C24: an order is only deleted on purpose.  When the handler that deletes records is given an
    order and anything in the store changes, the order was there, not completed, its number
    was typed in, in whichever digits, and a reason of two to five hundred characters was
    given; and then the order alone has changed, into a tombstone that keeps its payload and
    is one version further. *)
Theorem handleLocalDelete_guards E r w :
  let id := trimmed r "id" in
  let st := s_state (w_store w) in
  let st' := s_state (w_store (handleLocalDelete E r w).2) in
  trimmed r "kind" = "order" → st' ≠ st →
  ∃ old e, live st "order" id = Some old ∧ EqualFold (Field (view old) "status") "completed" = false
    ∧ sempty (normalizeNumInput (Field (view old) "order_number")) = false
    ∧ normalizeNumInput (form r "confirm_number") = normalizeNumInput (Field (view old) "order_number")
    ∧ 2 ≤ length (runes (trimmed r "reason")) ≤ 500
    ∧ st' = put (entityKey "order" id) e st
    ∧ se_Deleted e = true ∧ se_ID e = se_ID old ∧ se_Type e = se_Type old ∧ se_Payload e = se_Payload old
    ∧ se_Version e = wrap64 (se_Version old + 1).
Proof.
  cbv zeta. intros Hk. unfold handleLocalDelete. cbv zeta. rewrite Hk, bool_decide_true by done. cbv iota.
  unfold entity, reads, act, mbind, app_bind, mret, app_ret. cbn [w_store w_tick with_store].
  destruct (order_deletion r _) as [msg|] eqn:D; [intros H; by destruct H|].
  pose proof (delete_record_state E false "order" (trimmed r "id") (with_store (w_store w) w)) as Hd. cbv zeta in Hd.
  destruct (delete_record E false "order" (trimmed r "id") (with_store (w_store w) w)) as [o w']. cbn [snd] in *. intros H.
  destruct Hd as [Hd|Hd]; [by destruct H|]. cbn [w_store with_store] in Hd.
  destruct (let? _ := read_ctx _ () in Entity_of "order" _ _) as [e|] eqn:Eo; [|done].
  destruct (read_ctx _ ()); [|done]. unfold Entity_of in Eo. unfold DeleteLocalRecord_body in Hd.
  destruct (live (s_state (w_store w)) "order" (trimmed r "id")) as [old|] eqn:L; [|done].
  injection Eo as <-. injection Hd as Hd. apply order_deletion_none in D as (D1 & D2 & D3 & D4).
  exists old. eexists. do 5 (split; [done|]). split; [symmetry; exact Hd|]. done.
Qed.
