(* ===== verification/ClubDesk.v ===== *)
(** * The handlers of the customers' club

    Models the handlers of [offline-menuvex/app.go] for customers, their memberships and their
    groups, and the rows the club's pages show of them.  A mobile number has one customer
    ([handleClubCustomer_unique]). *)
From S2P Require Import Prelude GoStrings GoFloat GoJson GoJsonFacts GoReadback GoTime Store Entities EntityView Outbox Records Orders OrderStates SplitBill PrintJobs Jalali Forms Receipts Desk Printing PrintDesk RecordDesk.

Definition short_name : string := "نام باید حداقل ۲ نویسه باشد.".
Definition bad_mobile : string := "شماره موبایل باید ۱۱ رقم و با ۰۹ شروع شود.".
Definition known_mobile : string := "این شماره موبایل قبلاً برای مشتری دیگری ثبت شده است.".
Definition customer_missing : string := "مشتری مورد نظر یافت نشد.".
Definition customer_saved : string := "مشتری با موفقیت ثبت شد.".
Definition customer_edited : string := "مشتری ویرایش شد.".
Definition group_missing : string := "گروه مورد نظر یافت نشد.".

(** Eleven digits that start with 09. *)
Definition mobile_ok (mobile : string) : bool := (String.length mobile =? 11)%nat && HasPrefix mobile "09".

Definition switch_on (r : Request) (k : string) : string := boolStr (bool_decide (form r k = "on")).

Section ClubDesk.
Variable E : Env.

(** ** Customers *)

(* app.go:4537-4542 Application.handleClubCustomer *)
Definition customer_fields (r : Request) : gomap :=
  [("full_name", AStr (trimmed r "full_name")); ("subscription_code", AStr (trimmed r "subscription_code"));
   ("group_id", AStr (trimmed r "group_id")); ("credit_enabled", AStr (switch_on r "credit_enabled"))].

(* app.go:4557-4561 Application.handleClubCustomer *)
Definition new_customer_fields (r : Request) (mobile : string) : gomap :=
  let pts := trimmed r "initial_points" in
  [("phone", AStr mobile); ("club_member", AStr (switch_on r "enable_club"))]
  ++ (if negb (sempty pts) && bool_decide (form r "enable_club" = "on") then [("loyalty_points", AStr (normalizeDigits pts))] else []).

(** Whether a customer of the list has the number. *)
Definition has_mobile (mobile : string) (c : Entity) : bool := bool_decide (TrimSpace (Field c "phone") = mobile).

(* app.go Application.handleClubCustomer *)
Definition handleClubCustomer (r : Request) : app Reply :=
  let id := trimmed r "customer_id" in
  if (length (runes (trimmed r "full_name")) <? 2)%nat then mret (navigatePage r "customers" short_name)
  else
    let mobile := normalizeDigits (trimmed r "phone") in
    refusal ← (if sempty id then
                 if negb (mobile_ok mobile) then mret (Some bad_mobile)
                 else cs ← entities E false "customer"; mret (if existsb (has_mobile mobile) cs then Some known_mobile else None)
               else c ← entity E false "customer" id; mret (match c with Err _ => Some customer_missing | Ok _ => None end));
    match refusal with
    | Some msg => mret (navigatePage r "customers" msg)
    | None =>
        o ← save E false "customer" id (customer_fields r ++ (if sempty id then new_customer_fields r mobile else []));
        mret (navigatePage r "customers"
                (match o with Err e => e | Ok _ => if sempty id then customer_saved else customer_edited end))
    end.

(* app.go Application.handleClubCreditToggle *)
Definition handleClubCreditToggle (r : Request) : app Reply :=
  let id := trimmed r "customer_id" in
  c ← entity E false "customer" id;
  match c with
  | Err _ => mret (navigatePage r "customers" customer_missing)
  | Ok c =>
      let on := negb (bool_decide (Field c "credit_enabled" = "true")) in
      o ← save E false "customer" id [("credit_enabled", AStr (boolStr on))];
      mret (navigatePage r "customers"
              (match o with
               | Err e => e
               | Ok _ => "خرید اعتباری (نسیه) برای «" +:+ Label c +:+ (if on then "» فعال شد." else "» غیرفعال شد.")
               end))
  end.

(** ** Memberships *)

Definition on_payments (r : Request) : Request := with_query "sub" "payments" (with_query "tab" "membership" r).

Definition otherwise (v d : string) : string := if sempty v then d else v.

(* app.go Application.handleClubPayment *)
Definition handleClubPayment (r : Request) : app Reply :=
  let customerID := trimmed r "customer_id" in
  c ← entity E false "customer" customerID;
  match c with
  | Err _ => mret (navigatePage r "customers" "مشتری اشتراک را انتخاب کنید.")
  | Ok c =>
      match tomanFormToIRR (form r "amount_toman") with
      | None => mret (navigatePage r "customers" "مبلغ اشتراک معتبر نیست.")
      | Some irr =>
          o ← save E false "membership_payment" EmptyString
                [("customer_id", AStr customerID); ("consumer_name", AStr (Label c)); ("consumer_phone", AStr (TrimSpace (Field c "phone")));
                 ("plan_title", AStr (otherwise (trimmed r "plan_title") "پلن عضویت")); ("amount_irr", AStr irr);
                 ("payment_method", AStr (otherwise (trimmed r "payment_method") "card")); ("status", AStr "pending")];
          mret (match o with
                | Err e => navigatePage r "customers" e
                | Ok _ => navigatePage (on_payments r) "customers" "پرداخت اشتراک در انتظار تایید ثبت شد."
                end)
      end
  end.

Definition payment_settled : string := "این پرداخت قبلاً تعیین تکلیف شده است.".
Definition payment_confirmed : string := "پرداخت تایید و پلن مشتری فعال شد.".

(* app.go Application.handleClubPaymentConfirm *)
Definition handleClubPaymentConfirm (r : Request) : app Reply :=
  let paymentID := trimmed r "payment_id" in
  let reference := trimmed r "reference_number" in
  if sempty reference then mret (navigatePage r "customers" "کد پیگیری پرداخت را وارد کنید.")
  else
    p ← entity E false "membership_payment" paymentID;
    match p with
    | Err _ => mret (navigatePage r "customers" "پرداخت مورد نظر یافت نشد.")
    | Ok p =>
        if negb (EqualFold (Field p "status") "pending") then mret (navigatePage r "customers" payment_settled)
        else
          t ← now E;
          o ← save E false "membership_payment" paymentID
                [("status", AStr "paid"); ("reference_number", AStr reference); ("paid_at", AStr (FormatRFC3339 t))];
          match o with
          | Err e => mret (navigatePage r "customers" e)
          | Ok _ =>
              let cid := TrimSpace (Field p "customer_id") in
              _ ← (if sempty cid then mret () else _ ← save E false "customer" cid [("club_member", AStr "true")]; mret ());
              mret (navigatePage (on_payments r) "customers" payment_confirmed)
          end
    end.

(** ** Groups *)

Definition group_texts : list string :=
  ["name"; "description"; "contact_name"; "contact_phone"; "contract_number"; "contract_type"; "headcount"; "meals_per_day";
   "billing_cycle"; "billing_day"; "service_address"; "discount_type"; "discount_value"; "max_discount_amount"; "valid_from";
   "valid_until"; "notes"]%stdpp.

(* app.go:4702-4709 Application.handleClubGroup *)
Definition group_form_fields (r : Request) : gomap :=
  map (λ k, (k, AStr (trimmed r k))) group_texts ++ [("credit_enabled", AStr (switch_on r "credit_enabled"))]
  ++ (if sempty (trimmed r "group_id") then [("is_active", AStr "true")] else []).

(* app.go Application.handleClubGroup *)
Definition handleClubGroup (r : Request) : app Reply :=
  let id := trimmed r "group_id" in
  let day := trimmed r "billing_day" in
  if (length (runes (trimmed r "name")) <? 2)%nat then mret (navigatePage r "club-group-form" "نام گروه باید حداقل ۲ نویسه باشد.")
  else if negb (sempty day) && (let '(n, ok) := Atoi (normalizeDigits day) in negb ok || (n <? 1)%Z || (31 <? n)%Z)
  then mret (navigatePage r "club-group-form" "روز صورتحساب باید بین ۱ تا ۳۱ باشد.")
  else
    o ← save E false "customer_group" id (group_form_fields r);
    mret (match o with
          | Err e => navigatePage r "club-group-form" e
          | Ok savedID =>
              if rq_HX r then
                navigatePage (with_query "id" savedID r) "club-group" (if sempty id then "گروه مشتریان ساخته شد." else "گروه مشتریان ویرایش شد.")
              else Redirect ("/?page=club-group&id=" +:+ savedID)
          end).

(* app.go Application.handleClubGroupToggle *)
Definition handleClubGroupToggle (r : Request) : app Reply :=
  let id := trimmed r "group_id" in
  g ← entity E false "customer_group" id;
  match g with
  | Err _ => mret (navigatePage r "club-groups" group_missing)
  | Ok g =>
      let on := bool_decide (Field g "is_active" = "false") in
      o ← save E false "customer_group" id [("is_active", AStr (boolStr on))];
      mret (navigatePage r "club-groups" (match o with Err e => e | Ok _ => if on then "قرارداد فعال شد." else "قرارداد غیرفعال شد." end))
  end.

(* app.go Application.handleClubGroupCredit *)
Definition handleClubGroupCredit (r : Request) : app Reply :=
  let id := trimmed r "group_id" in
  g ← entity E false "customer_group" id;
  match g with
  | Err _ => mret (navigatePage r "club-groups" group_missing)
  | Ok g =>
      let on := negb (bool_decide (Field g "credit_enabled" = "true")) in
      o ← save E false "customer_group" id [("credit_enabled", AStr (boolStr on))];
      mret (navigatePage r "club-groups"
              (match o with
               | Err e => e
               | Ok _ => "خرید اعتباری (نسیه) برای گروه «" +:+ Label g +:+ (if on then "» فعال شد." else "» غیرفعال شد.")
               end))
  end.

(** Every customer of the list that is in the group leaves it. *)
(* app.go:4781-4786 Application.handleClubGroupDelete *)
Fixpoint leave_group (id : string) (customers : list Entity) : app () :=
  match customers with
  | [] => mret ()
  | c :: customers =>
      if bool_decide (TrimSpace (Field c "group_id") = id)
      then _ ← save E false "customer" (e_ID c) [("group_id", AStr EmptyString)]; leave_group id customers
      else leave_group id customers
  end.

Definition group_deleted : string := "گروه مشتریان حذف شد.".

(* app.go Application.handleClubGroupDelete *)
Definition handleClubGroupDelete (r : Request) : app Reply :=
  let id := trimmed r "group_id" in
  customers ← entities E false "customer";
  _ ← leave_group id customers;
  o ← delete_record E false "customer_group" id;
  mret (navigatePage r "club-groups" (match o with Err e => e | Ok _ => group_deleted end)).

(** Back to the group's page. *)
Definition back_to_group (r : Request) (msg : string) : Reply :=
  let groupID := trimmed r "group_id" in
  if rq_HX r then navigatePage (with_query "id" groupID r) "club-group" msg else Redirect ("/?page=club-group&id=" +:+ groupID).

(* app.go Application.handleClubGroupMember *)
Definition handleClubGroupMember (r : Request) : app Reply :=
  let groupID := trimmed r "group_id" in
  let mobile := normalizeDigits (trimmed r "mobile") in
  if negb (mobile_ok mobile) then mret (back_to_group r bad_mobile)
  else
    customers ← entities E false "customer";
    match List.find (has_mobile mobile) customers with
    | Some c =>
        o ← save E false "customer" (e_ID c) [("group_id", AStr groupID)];
        mret (back_to_group r (match o with Err e => e | Ok _ => "عضو به گروه اضافه شد." end))
    | None =>
        o ← save E false "customer" EmptyString
              [("full_name", AStr (trimmed r "full_name")); ("phone", AStr mobile); ("group_id", AStr groupID); ("club_member", AStr "true")];
        mret (back_to_group r (match o with Err e => e | Ok _ => "مشتری جدید ساخته و به گروه اضافه شد." end))
    end.

(* app.go Application.handleClubGroupMemberRemove *)
Definition handleClubGroupMemberRemove (r : Request) : app Reply :=
  o ← save E false "customer" (trimmed r "customer_id") [("group_id", AStr EmptyString)];
  mret (match o with
        | Err e => navigatePage r "club-group" e
        | Ok _ => navigatePage (if rq_HX r then with_query "id" (trimmed r "group_id") r else r) "club-group" "عضو از گروه جدا شد."
        end).
End ClubDesk.

(** ** What the pages show *)

(* app.go ClubCustomerRow *)
Record ClubCustomerRow := {
  cr_Entity : Entity; cr_Name : string; cr_Mobile : string; cr_IsMember : bool; cr_TierKey : string; cr_TierLabel : string;
  cr_PointsFa : string; cr_MemberCode : string; cr_CreditEnabled : bool; cr_GroupName : string; cr_GroupID : string;
  cr_LastVisitFa : string; cr_LastOrderNo : string; cr_LastOrderMeta : string; cr_LastOrderAmountFa : string;
  cr_TotalSpentFa : string; cr_TotalOrders : Z; cr_DebtorRemainFa : string; cr_Initials : string; cr_OnlineOrders : Z;
  cr_LastOrderDateFa : string;
}.

(* app.go clubTierLabels *)
Definition clubTierLabels (tier : string) : option string :=
  switch tier
    [(["bronze"], Some "برنزی"); (["silver"], Some "نقره‌ای"); (["gold"], Some "طلایی"); (["platinum"], Some "پلاتینیوم")]%stdpp None.

(** [n, _ := strconv.ParseInt(s, 10, 64)] *)
Definition int_of (s : string) : Z := (Atoi (TrimSpace s)).1.

(** The orders of a customer that were not cancelled: by the identifier, or by the number. *)
(* app.go:1418-1422 clubBuildRows *)
Definition is_order_of (c : Entity) (mobile : string) (o : Entity) : bool :=
  (bool_decide (TrimSpace (Field o "customer_id") = e_ID c)
   || (negb (sempty mobile) && bool_decide (TrimSpace (Field o "customer_phone") = mobile)))
  && negb (EqualFold (Field o "status") "cancelled" || EqualFold (Field o "status") "canceled").

(** The latest of them, the first of those that came at the same time. *)
(* app.go:1426-1429 clubBuildRows *)
Definition latest (orders : list Entity) : option Entity :=
  foldl (λ acc o, match acc with
                  | None => Some o
                  | Some l => if String.ltb (Field l "created_at") (Field o "created_at") then Some o else acc
                  end) None orders.

(** A sum of [int64]s. *)
Definition sum64 (l : list Z) : Z := foldl (λ n x, wrap64 (n + x)) 0%Z l.

(** What a customer owes in the ledger, found by the number. *)
(* app.go:1431-1437 clubBuildRows *)
Definition owed (mobile : string) (debtors : list Entity) : Z :=
  sum64 (map (λ d, int_of (Field d "remaining"))
           (List.filter (λ d, negb (sempty mobile) && bool_decide (TrimSpace (Field d "phone") = mobile)) debtors)).

(* app.go:1438-1445 clubBuildRows *)
Definition tier_of (c : Entity) : string * string :=
  let raw := TrimSpace (Field c "tier") in
  if sempty raw then ("none", "بدون سطح")
  else match clubTierLabels (ToLower raw) with Some l => (ToLower raw, l) | None => ("none"%stdpp, raw) end.

(** [strings.Fields]: the parts between white space. *)
Fixpoint fields_go (part : string) (rs : list string) : list string :=
  match rs with
  | [] => if sempty part then [] else [part]
  | r :: rs => if rune_is_space r then (if sempty part then fields_go EmptyString rs else part :: fields_go EmptyString rs)
               else fields_go (part +:+ r) rs
  end.
Definition Fields (s : string) : list string := fields_go EmptyString (runes s).

(** [string([]rune(s)[0])] of a text that is not empty. *)
Definition first_rune (s : string) : string := match runes s with r :: _ => copied_rune r | [] => EmptyString end.

(* app.go:1480-1488 clubBuildRows *)
Definition initials (name : string) : string :=
  match Fields name with p :: q :: _ => first_rune p +:+ first_rune q | _ => first_rune name end.

Definition toman_text (irr : Z) : string := FormatPersianNumber (Z_to_dec irr) +:+ " تومان".

(* app.go:1412-1489 clubBuildRows *)
Definition club_row (orders debtors : list Entity) (groupName : gmap string string) (c : Entity) : ClubCustomerRow :=
  let mobile := TrimSpace (Field c "phone") in
  let mine := List.filter (is_order_of c mobile) orders in
  let n := Z.of_nat (length mine) in
  let last := latest mine in
  let remain := owed mobile debtors in
  let name := TrimSpace (Label c) in
  let points := FormatPersianNumber (TrimSpace (Field c "loyalty_points")) in
  let groupID := TrimSpace (Field c "group_id") in
  let of_last (f : Entity → string) := match last with Some o => f o | None => EmptyString end in
  {| cr_Entity := c; cr_Name := name; cr_Mobile := mobile;
     cr_IsMember := bool_decide (Field c "club_member" = "true") || negb (sempty (TrimSpace (Field c "tier")))
                    || negb (sempty (TrimSpace (Field c "loyalty_points")));
     cr_TierKey := (tier_of c).1; cr_TierLabel := (tier_of c).2; cr_PointsFa := (if sempty points then "۰" else points);
     cr_MemberCode := TrimSpace (Field c "subscription_code"); cr_CreditEnabled := bool_decide (Field c "credit_enabled" = "true");
     cr_GroupName := default EmptyString (groupName !! groupID); cr_GroupID := groupID;
     cr_LastVisitFa := of_last (λ o, FormatJalaliShort (Field o "created_at"));
     cr_LastOrderNo := of_last (λ o, TrimSpace (Field o "order_number"));
     cr_LastOrderMeta := of_last (λ o, FormatJalaliShort (Field o "created_at") +:+ " · " +:+ StatusLabel o);
     cr_LastOrderAmountFa := of_last (λ o, toman_text (parseIRRBig (PriceIRR o) / 10)%Z);
     cr_TotalSpentFa := (if (n =? 0)%Z then "—" else toman_text (quot64 (sum64 (map (λ o, int_of (PriceIRR o)) mine)) 10));
     cr_TotalOrders := n;
     cr_DebtorRemainFa := (if (0 <? remain)%Z then toman_text (quot64 remain 10) else EmptyString);
     cr_Initials := (if sempty name then EmptyString else initials name); cr_OnlineOrders := n;
     cr_LastOrderDateFa := of_last (λ o, FormatJalaliDate (Field o "created_at")) |}.

(* app.go clubBuildRows *)
Definition clubBuildRows (customers orders debtors groups : list Entity) : list ClubCustomerRow :=
  let groupName : gmap string string := foldl (λ m g, <[e_ID g := Label g]> m) ∅ groups in
  map (club_row orders debtors groupName) customers.

(* app.go ClubGroupRow *)
Record ClubGroupRow := {
  gr_Entity : Entity; gr_MembersCount : Z; gr_DiscountText : string; gr_CapText : string; gr_ValidityText : string;
  gr_StatusKey : string; gr_StatusLabel : string;
}.

(** [today] is the local date, as [2006-01-02]; the dates compare as texts. *)
(* app.go:1520-1532 clubGroupRowOf *)
Definition group_status (g : Entity) (today : string) : string * string :=
  let from := TrimSpace (Field g "valid_from") in
  let until := TrimSpace (Field g "valid_until") in
  if bool_decide (Field g "is_active" = "false") then ("inactive", "غیرفعال")
  else if (sempty from || String.leb from today) && (sempty until || String.leb today until) then ("valid", "معتبر")
  else ("out", "خارج از دوره").

(* app.go clubGroupRowOf *)
Definition clubGroupRowOf (g : Entity) (membersCount : Z) (today : string) : ClubGroupRow :=
  let discVal := (Atoi (normalizeDigits (TrimSpace (Field g "discount_value")))).1 in
  let kind := Field g "discount_type" in
  let cap := (Atoi (normalizeDigits (TrimSpace (Field g "max_discount_amount")))).1 in
  let from := TrimSpace (Field g "valid_from") in
  let until := TrimSpace (Field g "valid_until") in
  let '(key, label) := group_status g today in
  {| gr_Entity := g; gr_MembersCount := membersCount;
     gr_DiscountText :=
       (if (discVal <=? 0)%Z then
          (if bool_decide (Field g "credit_enabled" = "true") then "بدون تخفیف (فقط نسیه)" else "بدون تخفیف (۰٪)")
        else FormatPersianNumber (Z_to_dec discVal) +:+ (if bool_decide (kind = "fixed") then " تومان" else "٪"));
     gr_CapText :=
       (if bool_decide (kind = "percentage") || sempty kind then
          (if (0 <? cap)%Z then "سقف " +:+ FormatPersianNumber (Z_to_dec cap) +:+ " تومان" else "بدون سقف")
        else "—");
     gr_ValidityText :=
       (if bool_decide (key = "out") then "خارج از اعتبار"
        else if negb (sempty until) then "تا " +:+ FormatJalaliDate until
        else if negb (sempty from) then "از " +:+ FormatJalaliDate from
        else "بدون پایان");
     gr_StatusKey := key; gr_StatusLabel := label |}.

(** ** One customer for a number *)

Lemma UUID_res_valid g id : good_draws g → (UUID g).1 = Ok id → utf8_valid id = true.
Proof.
  intros Hg H. destruct g as [|[b|] g]; [done| |done]. inversion Hg as [|? ? Hb _]; subst. destruct (UUID_wf b g Hb) as (i & E & _).
  destruct (UUID_or_empty_valid (Some b :: g) i g Hg) as [Hv _]; [unfold UUID_or_empty; by rewrite E|]. rewrite E in H. by injection H as <-.
Qed.

(** What a save of a new record leaves. *)
Lemma save_new_state E bg kind id fields w : sempty (TrimSpace id) = true →
  let st' := s_state (w_store (save E bg kind id fields w).2) in
  st' = s_state (w_store w) ∨
  ∃ new, (UUID (ev_draws E (w_tick w))).1 = Ok new
    ∧ SaveLocalRecord_body (FormatRFC3339 (ev_clock E (w_tick w) 0)) kind new true fields (s_state (w_store w)) = Ok ((), st').
Proof.
  intros Hid. unfold save, transacts, act, SaveLocalRecord. cbn [snd w_store with_store]. destruct (sempty (TrimSpace kind)); [by left|].
  destruct (validateLocalFields _ _); [|by left]. rewrite Hid. destruct (UUID _).1 as [new|]; [|by left]. cbn [returning tx_store].
  set (fn := SaveLocalRecord_body _ _ _ _ _).
  pose proof (withTx_state (ev_io E (w_tick w) 0) (ctx_at E bg (w_tick w)) (w_store w) fn) as W. destruct (tx_res _) as [[]|]; [right; eauto|by left].
Qed.

Lemma customer_keys r mobile : NoDup (customer_fields r ++ new_customer_fields r mobile).*1.
Proof. unfold customer_fields, new_customer_fields. cbv zeta. destruct (_ && _); decided. Qed.

(** a number belongs to one customer.  When the form of a new customer changes the store,
    its mobile number, its digits made Latin, has eleven characters and begins with 09, no
    customer of the club had it before, and the store has one customer more, who has exactly
    this number.  (For up to five hundred customers, which is as many as are looked at, and
    texts that are valid UTF-8.) *)
Theorem handleClubCustomer_unique E r w :
  let mobile := normalizeDigits (trimmed r "phone") in
  let st := s_state (w_store w) in
  let st' := s_state (w_store (handleClubCustomer E r w).2) in
  (∀ n, ev_ctx E n = None) → (∀ n, good_draws (ev_draws E n)) → well_keyed st →
  (∀ R, length (listing R "customer" st) ≤ 500) → good_map (customer_fields r ++ new_customer_fields r mobile) →
  sempty (trimmed r "customer_id") = true → st' ≠ st →
  mobile_ok mobile = true
  ∧ (∀ k e, Entities st !! k = Some e → listed "customer" e = true → TrimSpace (Field (view e) "phone") ≠ mobile)
  ∧ ∃ id e, st' = put (entityKey "customer" id) e st ∧ listed "customer" e = true ∧ Field (view e) "phone" = mobile.
Proof.
  cbv zeta. intros Hctx Hg Hk Hl Hf Hid. unfold handleClubCustomer. set (mobile := normalizeDigits _) in *. cbv zeta. rewrite Hid.
  destruct (_ <? 2)%nat; [by intros []|]. destruct (mobile_ok mobile) eqn:Hm; [|by intros []]. cbn [negb].
  unfold entities, reads, act, mbind, app_bind, mret, app_ret, ctx_at. rewrite Hctx. cbn [read_ctx w_store w_tick with_store].
  destruct (existsb _ _) eqn:Hex; [by intros []|].
  assert (sempty (TrimSpace (trimmed r "customer_id")) = true) as Hid' by (by apply sempty_true in Hid as ->).
  pose proof (save_new_state E false "customer" (trimmed r "customer_id") (customer_fields r ++ new_customer_fields r mobile)
                (with_store (w_store w) w) Hid') as Hs. cbv zeta in Hs.
  destruct (save E false "customer" _ _ _) as [o w'] eqn:Es. cbn [snd w_store w_tick with_store] in *. intros Hne.
  destruct Hs as [Hs|(new & Hu & Hs)]; [by destruct Hne|]. split; [done|]. split.
  - intros k e He Hc Hp. assert (existsb (has_mobile mobile) (Entities_of (ev_runtime E (w_tick w)) "customer" (s_state (w_store w))) = true) as X.
    { apply existsb_exists. exists (view e). split; [|unfold has_mobile; by apply bool_decide_eq_true].
      apply list_elem_of_In. rewrite (Entities_of_listing _ _ _ (Hl _)). apply elem_of_listing. eauto. }
    by rewrite X in Hex.
  - destruct (SaveLocalRecord_spec _ _ _ _ _ _ _ (customer_keys r mobile) Hs) as (e & m & He & _ & Ht & Hd & Hp & _ & _ & _ & Hget & _ & Hgm & _).
    exists new, e. split; [exact He|]. split; [unfold listed; by rewrite Ht, Hd|].
    apply (text_marshal e m); [done|apply Hgm; [done|by eapply UUID_res_valid|apply FormatRFC3339_valid]|].
    rewrite Hget by decided. unfold customer_fields, new_customer_fields. cbv zeta. by destruct (_ && _).
Qed.

Definition a_member : Request := asking [("full_name", "Sara"); ("phone", "۰۹۱۲ ۳۴۵ ۶۷۸۹"); ("enable_club", "on")].
Definition empty_club : world := world_of newEmptyDB.

Lemma handleClubCustomer_unique_witness :
  let st' := s_state (w_store (handleClubCustomer calm a_member empty_club).2) in
  ∃ id e, st' = put (entityKey "customer" id) e newEmptyDB ∧ Field (view e) "phone" = "09123456789".
Proof.
  cbv zeta. destruct (handleClubCustomer_unique calm a_member empty_club) as (_ & _ & id & e & H1 & _ & H2).
  - reflexivity.
  - intros n. unfold good_draws. cbn [calm ev_draws]. unfold draws. rewrite !Forall_cons.
    split_and!; [| | |constructor]; (split; [reflexivity|repeat constructor; vm_compute; reflexivity]).
  - apply map_Forall_empty.
  - intros R. rewrite (Permutation_length (listing_perm R plain_runtime "customer" (s_state (w_store empty_club)))). vm_compute. lia.
  - split; [decided|vm_compute; reflexivity].
  - reflexivity.
  - intros H. apply (f_equal (λ s, length (Entities_of plain_runtime "customer" s))) in H. vm_compute in H. discriminate H.
  - exists id, e. split; [exact H1|exact H2].
Defined.
