(* ===== verification/Seed.v ===== *)
(** * The demonstration data

    Models [SeedIranianCafeData] of [offline-menuvex/internal/store/domains.go], which puts a
    café with its menu, stock, tables, people and two orders into the store, [SeedIfEmpty] and
    the handler of the button that loads it. *)
From S2P Require Import Prelude GoStrings GoFloat GoJson GoJsonFacts GoReadback GoTime Store Entities EntityView Records Orders Forms Desk.

(** ** The records

    Kind, identifier and fields, in the order of the code. *)

(* domains.go:1600-1610 Store.SeedIranianCafeData *)
Definition seed_profile : list (string * string * gomap) :=
  [("cafe_profile", "cafe-main-profile", [("title", AStr "کافه نمونه — شعبه مرکزی"); ("name", AStr "کافه نمونه"); ("phone", AStr "۰۲۱-۸۸۹۹۴۴۱۱");
      ("address", AStr "تهران، خیابان ولیعصر، بالاتر از پارک ساعی، نبش کوچه دهم، پلاک ۱۴۲"); ("tax_percent", AStr "9"); ("currency", AStr "IRR");
      ("receipt_note", AStr "از حضور گرم شما سپاسگزاریم"); ("working_hours", AStr "هر روز از ساعت ۰۷:۳۰ صبح تا ۲۳:۳۰ شب")])]%stdpp.

(* domains.go:1613-1613 Store.SeedIranianCafeData *)
Definition catEspresso : string := "11111111-1111-4111-8111-000000000001".
(* domains.go:1614-1614 Store.SeedIranianCafeData *)
Definition catCold : string := "11111111-1111-4111-8111-000000000002".
(* domains.go:1615-1615 Store.SeedIranianCafeData *)
Definition catBrew : string := "11111111-1111-4111-8111-000000000003".
(* domains.go:1616-1616 Store.SeedIranianCafeData *)
Definition catCake : string := "11111111-1111-4111-8111-000000000004".
(* domains.go:1617-1617 Store.SeedIranianCafeData *)
Definition catTea : string := "11111111-1111-4111-8111-000000000005".

(* domains.go:1612-1623 Store.SeedIranianCafeData *)
Definition seed_categories : list (string * string * gomap) :=
  [("category", catEspresso, [("title", AStr "بار گرم و اسپرسو تخصصی"); ("slug", AStr "espresso-bar");
      ("description", AStr "انواع اسپرسو، لاته، کاپوچینو و نوشیدنی‌های پایه اسپرسو با دانه ۱۰۰٪ عربیکا")]);
   ("category", catCold, [("title", AStr "بار سرد، آیس و ماچا"); ("slug", AStr "cold-bar");
      ("description", AStr "نوشیدنی‌های خنک، آیس لاته، کلدبرو و ماچا لاته")]);
   ("category", catBrew, [("title", AStr "قهوه دمی و موج سوم"); ("slug", AStr "brew-bar");
      ("description", AStr "وی۶۰ (V60)، کمکس، ایروپرس و قهوه ترک تخصصی")]);
   ("category", catCake, [("title", AStr "کیک روز، کروسان و دسر"); ("slug", AStr "bakery-dessert");
      ("description", AStr "پخت روزانه کیک زعفرانی، چیزکیک سن‌سباستین و کروسان کره‌ای")]);
   ("category", catTea, [("title", AStr "دمنوش‌های ایرانی و چای"); ("slug", AStr "herbal-tea");
      ("description", AStr "دمنوش‌های طبیعی بهارنارنج، زعفران، گل‌گاوزبان و چای لاهیجان")])]%stdpp.

(* domains.go:1626-1626 Store.SeedIranianCafeData *)
Definition p1 : string := "22222222-2222-4222-8222-000000000001".
(* domains.go:1627-1627 Store.SeedIranianCafeData *)
Definition p2 : string := "22222222-2222-4222-8222-000000000002".
(* domains.go:1628-1628 Store.SeedIranianCafeData *)
Definition p3 : string := "22222222-2222-4222-8222-000000000003".
(* domains.go:1629-1629 Store.SeedIranianCafeData *)
Definition p4 : string := "22222222-2222-4222-8222-000000000004".
(* domains.go:1630-1630 Store.SeedIranianCafeData *)
Definition p5 : string := "22222222-2222-4222-8222-000000000005".
(* domains.go:1631-1631 Store.SeedIranianCafeData *)
Definition p6 : string := "22222222-2222-4222-8222-000000000006".
(* domains.go:1632-1632 Store.SeedIranianCafeData *)
Definition p7 : string := "22222222-2222-4222-8222-000000000007".
(* domains.go:1633-1633 Store.SeedIranianCafeData *)
Definition p8 : string := "22222222-2222-4222-8222-000000000008".

(* domains.go:1625-1642 Store.SeedIranianCafeData *)
Definition seed_products : list (string * string * gomap) :=
  [("product", p1, [("title", AStr "اسپرسو دبل تخصصی (اتیوپی)"); ("category_id", AStr catEspresso); ("price", AStr "950000");
      ("cost", AStr "280000"); ("is_available", ABool true); ("description", AStr "عصاره‌گیری دبل شات از دانه عربیکا اتیوپی یرگاشف")]);
   ("product", p2, [("title", AStr "کافه لاته فندق"); ("category_id", AStr catEspresso); ("price", AStr "1450000"); ("cost", AStr "450000");
      ("is_available", ABool true); ("description", AStr "دبل اسپرسو، شیر بخاردهی شده ابریشمی و سیروپ فندق اورجینال")]);
   ("product", p3, [("title", AStr "کاپوچینو کلاسیک ایتالیایی"); ("category_id", AStr catEspresso); ("price", AStr "1300000");
      ("cost", AStr "390000"); ("is_available", ABool true); ("description", AStr "فوم شیر غلیظ و اسپرسو تخصصی")]);
   ("product", p4, [("title", AStr "آیس کارامل ماکیاتو"); ("category_id", AStr catCold); ("price", AStr "1550000"); ("cost", AStr "480000");
      ("is_available", ABool true); ("description", AStr "سرو سرد با یخ بلوری، شیر تازه، کارامل دست‌ساز و اسپرسو")]);
   ("product", p5, [("title", AStr "ماچا لاته تشریفاتی (امپریال)"); ("category_id", AStr catCold); ("price", AStr "1750000");
      ("cost", AStr "620000"); ("is_available", ABool true); ("description", AStr "پودر ماچای درجه یک ژاپنی با شیر بادام یا شیر تازه")]);
   ("product", p6, [("title", AStr "قهوه دمی V60 (کنیا AA)"); ("category_id", AStr catBrew); ("price", AStr "1650000"); ("cost", AStr "520000");
      ("is_available", ABool true); ("description", AStr "دم‌آوری دستی با فیلتر کاغذی، طعم‌یاد توت سیاه و مرکبات")]);
   ("product", p7, [("title", AStr "چیزکیک سن‌سباستین با سس شکلات بلژیکی"); ("category_id", AStr catCake); ("price", AStr "1850000");
      ("cost", AStr "680000"); ("is_available", ABool true); ("description", AStr "پخت روز کافه با بافت کرمی و سس شکلات داغ")]);
   ("product", p8, [("title", AStr "کیک زعفرانی و پسته ایرانی"); ("category_id", AStr catCake); ("price", AStr "1400000"); ("cost", AStr "420000");
      ("is_available", ABool true); ("description", AStr "کیک خانگی با زعفران قائنات، گلاب کاشان و مغز پسته کرمان")])]%stdpp.

(* domains.go:1645-1645 Store.SeedIranianCafeData *)
Definition i1 : string := "33333333-3333-4333-8333-000000000001".
(* domains.go:1646-1646 Store.SeedIranianCafeData *)
Definition i2 : string := "33333333-3333-4333-8333-000000000002".
(* domains.go:1647-1647 Store.SeedIranianCafeData *)
Definition i3 : string := "33333333-3333-4333-8333-000000000003".
(* domains.go:1648-1648 Store.SeedIranianCafeData *)
Definition i4 : string := "33333333-3333-4333-8333-000000000004".
(* domains.go:1649-1649 Store.SeedIranianCafeData *)
Definition i5 : string := "33333333-3333-4333-8333-000000000005".
(* domains.go:1650-1650 Store.SeedIranianCafeData *)
Definition i6 : string := "33333333-3333-4333-8333-000000000006".

(* domains.go:1644-1657 Store.SeedIranianCafeData *)
Definition seed_ingredients : list (string * string * gomap) :=
  [("ingredient", i1, [("name", AStr "دانه قهوه عربیکا اتیوپی"); ("sku", AStr "COF-ETH-01"); ("base_unit", AStr "g");
      ("current_stock", AStr "4250"); ("minimum_stock", AStr "1500"); ("reorder_point", AStr "2000"); ("average_cost", AStr "14500")]);
   ("ingredient", i2, [("name", AStr "شیر تازه پرچرب باریستا"); ("sku", AStr "MLK-BAR-01"); ("base_unit", AStr "ml");
      ("current_stock", AStr "12500"); ("minimum_stock", AStr "5000"); ("reorder_point", AStr "8000"); ("average_cost", AStr "480")]);
   ("ingredient", i3, [("name", AStr "سیروپ فندق مونین"); ("sku", AStr "SYR-HAZ-01"); ("base_unit", AStr "ml"); ("current_stock", AStr "650");
      ("minimum_stock", AStr "700"); ("reorder_point", AStr "1000"); ("average_cost", AStr "8500")]);
   ("ingredient", i4, [("name", AStr "پودر ماچا تشریفاتی ژاپن"); ("sku", AStr "MTC-JPN-01"); ("base_unit", AStr "g"); ("current_stock", AStr "180");
      ("minimum_stock", AStr "200"); ("reorder_point", AStr "300"); ("average_cost", AStr "95000")]);
   ("ingredient", i5, [("name", AStr "زعفران سرگل قائنات"); ("sku", AStr "SAF-QAN-01"); ("base_unit", AStr "g"); ("current_stock", AStr "45");
      ("minimum_stock", AStr "15"); ("reorder_point", AStr "25"); ("average_cost", AStr "1150000")]);
   ("ingredient", i6, [("name", AStr "لیوان بیرون‌بر دوجداره کرافت"); ("sku", AStr "CUP-8OZ-01"); ("base_unit", AStr "pcs");
      ("current_stock", AStr "340"); ("minimum_stock", AStr "100"); ("reorder_point", AStr "150"); ("average_cost", AStr "45000")])]%stdpp.


(* domains.go:1659-1681 Store.SeedIranianCafeData *)
Definition seed_recipes : list (string * string * gomap) :=
  [("recipe", "44444444-4444-4444-8444-000000000001", [("title", AStr "رسپی اسپرسو دبل تخصصی"); ("product_id", AStr p1);
      ("product_name", AStr "اسپرسو دبل تخصصی (اتیوپی)"); ("yield_qty", AStr "1");
      ("note", AStr "عصاره‌گیری ۱۸ گرم سبد دبل در ۲۸ ثانیه با دمای ۹۳ درجه"); ("items", AArr [AMap (amap [("ingredient_id", AStr i1);
      ("ingredient_name", AStr "دانه قهوه عربیکا اتیوپی"); ("quantity", AStr "18.5"); ("unit", AStr "g")])])]);
   ("recipe", "44444444-4444-4444-8444-000000000002", [("title", AStr "رسپی کافه لاته فندق"); ("product_id", AStr p2);
      ("product_name", AStr "کافه لاته فندق"); ("yield_qty", AStr "1");
      ("note", AStr "دبل شات اسپرسو + ۲۲۰ میلی‌لیتر شیر فوم‌گیری‌شده + ۲۰ میلی‌لیتر سیروپ فندق");
      ("items", AArr [AMap (amap [("ingredient_id", AStr i1); ("ingredient_name", AStr "دانه قهوه عربیکا اتیوپی"); ("quantity", AStr "18.5");
      ("unit", AStr "g")]);
         AMap (amap [("ingredient_id", AStr i2); ("ingredient_name", AStr "شیر تازه پرچرب باریستا"); ("quantity", AStr "220"); ("unit", AStr "ml")]);
         AMap (amap [("ingredient_id", AStr i3); ("ingredient_name", AStr "سیروپ فندق مونین"); ("quantity", AStr "20");
      ("unit", AStr "ml")])])])]%stdpp.

(* domains.go:1684-1684 Store.SeedIranianCafeData *)
Definition t1 : string := "55555555-5555-4555-8555-000000000001".
(* domains.go:1685-1685 Store.SeedIranianCafeData *)
Definition t2 : string := "55555555-5555-4555-8555-000000000002".
(* domains.go:1686-1686 Store.SeedIranianCafeData *)
Definition t3 : string := "55555555-5555-4555-8555-000000000003".
(* domains.go:1687-1687 Store.SeedIranianCafeData *)
Definition t4 : string := "55555555-5555-4555-8555-000000000004".
(* domains.go:1688-1688 Store.SeedIranianCafeData *)
Definition t5 : string := "55555555-5555-4555-8555-000000000005".
(* domains.go:1689-1689 Store.SeedIranianCafeData *)
Definition t6 : string := "55555555-5555-4555-8555-000000000006".

(* domains.go:1683-1707 Store.SeedIranianCafeData *)
Definition seed_tables : list (string * string * gomap) :=
  [("table", t1, [("number", AStr "۱"); ("title", AStr "میز ۱ — کنار پنجره ولیعصر"); ("zone", AStr "سالن اصلی"); ("capacity", AStr "2");
      ("status", AStr "occupied")]);
   ("table", t2, [("number", AStr "۲"); ("title", AStr "میز ۲ — سالن اصلی"); ("zone", AStr "سالن اصلی"); ("capacity", AStr "4");
      ("status", AStr "available")]);
   ("table", t3, [("number", AStr "۳"); ("title", AStr "میز ۳ — سالن اصلی"); ("zone", AStr "سالن اصلی"); ("capacity", AStr "4");
      ("status", AStr "available")]);
   ("table", t4, [("number", AStr "۴"); ("title", AStr "میز ۴ — تراس سبز"); ("zone", AStr "تراس"); ("capacity", AStr "2");
      ("status", AStr "reserved")]);
   ("table", t5, [("number", AStr "۵"); ("title", AStr "میز ۵ — تراس سبز"); ("zone", AStr "تراس"); ("capacity", AStr "4");
      ("status", AStr "available")]);
   ("table", t6, [("number", AStr "۶"); ("title", AStr "میز ۶ — میز بزرگ گروهی (VIP)"); ("zone", AStr "بخش VIP"); ("capacity", AStr "8");
      ("status", AStr "available")]);
   ("reservation", "55555555-5555-4555-8555-000000000099", [("title", AStr "رزرو میز ۴ تراس — سرکار خانم تابش"); ("guest_name", AStr "سارا تابش");
      ("guest_phone", AStr "09123456789"); ("table_label", AStr "میز ۴ — تراس سبز"); ("guests_count", AStr "2");
      ("reserve_time", AStr "ساعت ۱۸:۳۰ امروز"); ("note", AStr "جشن سالگرد ازدواج — گل روی میز"); ("status", AStr "confirmed")])]%stdpp.

(* domains.go:1710-1710 Store.SeedIranianCafeData *)
Definition c1 : string := "66666666-6666-4666-8666-000000000001".
(* domains.go:1711-1711 Store.SeedIranianCafeData *)
Definition c2 : string := "66666666-6666-4666-8666-000000000002".
(* domains.go:1712-1712 Store.SeedIranianCafeData *)
Definition c3 : string := "66666666-6666-4666-8666-000000000003".

(* domains.go:1709-1726 Store.SeedIranianCafeData *)
Definition seed_customers : list (string * string * gomap) :=
  [("customer", c1, [("full_name", AStr "امیرحسین رضایی"); ("phone", AStr "09121112233"); ("tier", AStr "طلایی (VIP)");
      ("loyalty_points", AStr "48"); ("orders_count", AStr "24"); ("note", AStr "اسپرسو بدون شکر، شیر کم‌چرب")]);
   ("customer", c2, [("full_name", AStr "مهسا کریمی"); ("phone", AStr "09124445566"); ("tier", AStr "نقره‌ای"); ("loyalty_points", AStr "19");
      ("orders_count", AStr "11"); ("note", AStr "علاقه‌مند به قهوه دمی V60")]);
   ("customer", c3, [("full_name", AStr "دکتر فرهاد نادری (دفتر معماری مجاور)"); ("phone", AStr "09127778899"); ("tier", AStr "طلایی (حساب شرکتی)");
      ("loyalty_points", AStr "85"); ("orders_count", AStr "42"); ("note", AStr "سفارش‌های جلسات دفتر معماری")]);
   ("debtor", "77777777-7777-4777-8777-000000000001", [("full_name", AStr "دکتر فرهاد نادری (دفتر معماری مجاور)"); ("phone", AStr "09127778899");
      ("total", AStr "14500000"); ("paid", AStr "5000000"); ("remaining", AStr "9500000"); ("currency", AStr "IRR"); ("status", AStr "partial");
      ("description", AStr "پذیرایی جلسات هفتگی دفتر معماری (تسویه پایان ماه)")])]%stdpp.


(* domains.go:1728-1738 Store.SeedIranianCafeData *)
Definition seed_staff : list (string * string * gomap) :=
  [("staff", "88888888-8888-4888-8888-000000000001", [("full_name", AStr "آرش کاظمی"); ("role", AStr "سرپرست بار و باریستا ارشد");
      ("phone", AStr "09120001122"); ("shift", AStr "شیفت صبح (۰۷:۳۰ تا ۱۵:۳۰)"); ("salary_irr", AStr "220000000"); ("status", AStr "حاضر در شیفت")]);
   ("staff", "88888888-8888-4888-8888-000000000002", [("full_name", AStr "نگار محمدی"); ("role", AStr "صندوقدار و مسئول پذیرش");
      ("phone", AStr "09120003344"); ("shift", AStr "شیفت صبح (۰۸:۰۰ تا ۱۶:۰۰)"); ("salary_irr", AStr "180000000"); ("status", AStr "حاضر در شیفت")]);
   ("staff", "88888888-8888-4888-8888-000000000003", [("full_name", AStr "کیوان راد"); ("role", AStr "باریستا بار گرم و دمی");
      ("phone", AStr "09120005566"); ("shift", AStr "شیفت عصر (۱۵:۳۰ تا ۲۳:۳۰)"); ("salary_irr", AStr "195000000"); ("status", AStr "شیفت عصر")]);
   ("task", "88888888-8888-4888-8888-000000000011", [("title", AStr "کالیبراسیون آسیاب اسپرسو و تست عصاره‌گیری اول صبح");
      ("assignee", AStr "آرش کاظمی"); ("priority", AStr "بالا"); ("status", AStr "done"); ("is_done", AStr "true")]);
   ("task", "88888888-8888-4888-8888-000000000012", [("title", AStr "کنترل موجودی شیر تازه و ثبت سفارش سیروپ فندق");
      ("assignee", AStr "نگار محمدی"); ("priority", AStr "متوسط"); ("status", AStr "pending"); ("is_done", AStr "false")]);
   ("task", "88888888-8888-4888-8888-000000000013", [("title", AStr "بک‌واش (Backflush) هدگروپ‌های اسپرسوماشین با پودر کافیزا");
      ("assignee", AStr "کیوان راد"); ("priority", AStr "بالا"); ("status", AStr "pending"); ("is_done", AStr "false")]);
   ("expense", "88888888-8888-4888-8888-000000000021", [("title", AStr "خرید شیر تازه روزانه و خامه قنادی (۲۰ بطری)");
      ("category", AStr "خرید مواد اولیه روزانه"); ("price", AStr "6800000"); ("payment_method", AStr "کارت شرکتی");
      ("note", AStr "فاکتور لبنیات صباح")]);
   ("expense", "88888888-8888-4888-8888-000000000022", [("title", AStr "سرویس دوره‌ای تصفیه آب اسپرسوماشین");
      ("category", AStr "تعمیر و نگهداری تجهیزات"); ("price", AStr "4500000"); ("payment_method", AStr "کارت به کارت");
      ("note", AStr "تعویض فیلتر رزینی")])]%stdpp.

(* domains.go:1741-1741 Store.SeedIranianCafeData *)
Definition o1 : string := "99999999-9999-4999-8999-000000000001".
(* domains.go:1742-1742 Store.SeedIranianCafeData *)
Definition o2 : string := "99999999-9999-4999-8999-000000000002".

(* domains.go:1740-1781 Store.SeedIranianCafeData *)
Definition seed_orders : list (string * string * gomap) :=
  [("order", o1, [("order_number", AStr "101"); ("fulfillment_type", AStr "dine_in"); ("table_id", AStr t1);
      ("table_label", AStr "میز ۱ — کنار پنجره ولیعصر"); ("customer_id", AStr c1); ("customer_name", AStr "امیرحسین رضایی");
      ("customer_phone", AStr "09121112233"); ("payment_method", AStr "card_pos"); ("subtotal_irr", AStr "3300000"); ("discount_irr", AStr "0");
      ("total_irr", AStr "3300000"); ("price", AStr "3300000"); ("status", AStr "preparing"); ("note", AStr "لاته کم‌شیرین سرو شود");
      ("items", AArr [AMap (amap [("id", AStr "l-1"); ("product_id", AStr p2); ("product_name_snapshot", AStr "کافه لاته فندق");
      ("quantity", AInt 1); ("unit_price_irr", AStr "1450000"); ("line_total_irr", AStr "1450000")]);
         AMap (amap [("id", AStr "l-2"); ("product_id", AStr p7); ("product_name_snapshot", AStr "چیزکیک سن‌سباستین با سس شکلات بلژیکی");
      ("quantity", AInt 1); ("unit_price_irr", AStr "1850000"); ("line_total_irr", AStr "1850000")])])]);
   ("order", o2, [("order_number", AStr "102"); ("fulfillment_type", AStr "outside"); ("table_label", AStr "بیرون‌بر (Takeaway)");
      ("customer_id", AStr c2); ("customer_name", AStr "مهسا کریمی"); ("customer_phone", AStr "09124445566"); ("payment_method", AStr "cash");
      ("subtotal_irr", AStr "3050000"); ("discount_irr", AStr "150000"); ("total_irr", AStr "2900000"); ("price", AStr "2900000");
      ("status", AStr "completed"); ("note", AStr "بسته‌بندی بیرون‌بر دوجداره"); ("items", AArr [AMap (amap [("id", AStr "l-3");
      ("product_id", AStr p6); ("product_name_snapshot", AStr "قهوه دمی V60 (کنیا AA)"); ("quantity", AInt 1); ("unit_price_irr", AStr "1650000");
      ("line_total_irr", AStr "1650000")]);
         AMap (amap [("id", AStr "l-4"); ("product_id", AStr p8); ("product_name_snapshot", AStr "کیک زعفرانی و پسته ایرانی"); ("quantity", AInt 1);
      ("unit_price_irr", AStr "1400000"); ("line_total_irr", AStr "1400000")])])])]%stdpp.


(* domains.go:1783-1788 Store.SeedIranianCafeData *)
Definition seed_printers : list (string * string * gomap) :=
  [("printer", "99999999-9999-4999-8999-000000000091", [("title", AStr "چاپگر حرارتی صندوق (فیش مشتری)"); ("model", AStr "Epson TM-T20III (80mm)");
      ("connection", AStr "USB / LAN 192.168.1.201:9100"); ("paper_width", AStr "80mm"); ("station", AStr "صندوق فروش"); ("is_active", AStr "true")]);
   ("printer", "99999999-9999-4999-8999-000000000092", [("title", AStr "چاپگر حرارتی بار گرم و سرد"); ("model", AStr "Bixolon SRP-330II (80mm)");
      ("connection", AStr "LAN 192.168.1.202:9100"); ("paper_width", AStr "80mm"); ("station", AStr "بار گرم و سرد"); ("is_active", AStr "true")]);
   ("printer_route", "99999999-9999-4999-8999-000000000095", [("title", AStr "بار گرم و اسپرسو ← چاپگر حرارتی بار گرم و سرد");
      ("category_name", AStr "بار گرم و اسپرسو تخصصی"); ("printer_name", AStr "چاپگر حرارتی بار گرم و سرد (Bixolon)"); ("copies", AStr "1");
      ("receipt_type", AStr "حواله آماده‌سازی باریستا")]);
   ("printer_route", "99999999-9999-4999-8999-000000000096", [("title", AStr "کلیه فاکتورهای تسویه ← چاپگر حرارتی صندوق");
      ("category_name", AStr "همه دسته‌بندی‌ها"); ("printer_name", AStr "چاپگر حرارتی صندوق (Epson TM-T20III)"); ("copies", AStr "1");
      ("receipt_type", AStr "فیش تسویه مشتری + باشگاه مشتریان")])]%stdpp.


(* domains.go:1790-1792 Store.SeedIranianCafeData *)
Definition seed_modifiers : list (string * string * gomap) :=
  [("modifier_group", "aaaaaaaa-1111-4111-8111-000000000001", [("title", AStr "انتخاب نوع شیر");
      ("options", AStr "شیر تازه پرچرب (پیش‌فرض) • شیر کم‌چرب • شیر بادام (+۲۵,۰۰۰ تومان) • شیر جو دوسر (+۳۰,۰۰۰ تومان)"); ("price", AStr "250000");
      ("is_required", AStr "اختیاری")]);
   ("modifier_group", "aaaaaaaa-1111-4111-8111-000000000002", [("title", AStr "شات و سیروپ اضافه");
      ("options", AStr "شات اضافه عربیکا (+۳۵,۰۰۰ تومان) • سیروپ فندق/کارامل (+۲۰,۰۰۰ تومان) • دی‌کف (بدون کافئین)"); ("price", AStr "350000");
      ("is_required", AStr "اختیاری")])]%stdpp.


(* domains.go:1794-1798 Store.SeedIranianCafeData *)
Definition seed_suppliers : list (string * string * gomap) :=
  [("supplier", "bbbbbbbb-1111-4111-8111-000000000001", [("title", AStr "برشته‌کاری قهوه تخصصی دارک‌رست تهران");
      ("contact_name", AStr "مهندس سهرابی"); ("phone", AStr "02188776655"); ("items_supplied", AStr "دانه قهوه عربیکا اتیوپی، کنیا و کلمبیا");
      ("balance_irr", AStr "0")]);
   ("supplier", "bbbbbbbb-1111-4111-8111-000000000002", [("title", AStr "پخش لبنیات و خامه باریستا صباح"); ("contact_name", AStr "آقای حیدری");
      ("phone", AStr "02144556677"); ("items_supplied", AStr "شیر پرچرب باریستا، خامه قنادی و کره"); ("balance_irr", AStr "6800000")]);
   ("purchase", "bbbbbbbb-1111-4111-8111-000000000011", [("title", AStr "فاکتور خرید #P-401 — دانه قهوه عربیکا (۵ کیلوگرم)");
      ("supplier_name", AStr "برشته‌کاری قهوه تخصصی دارک‌رست تهران"); ("price", AStr "72500000"); ("status", AStr "تسویه شده");
      ("note", AStr "تحویل انبار مرکزی کافه")])]%stdpp.


(* domains.go:1800-1802 Store.SeedIranianCafeData *)
Definition seed_campaigns : list (string * string * gomap) :=
  [("retention_campaign", "cccccccc-1111-4111-8111-000000000001", [("title", AStr "هدیه سالروز تولد اعضای باشگاه مشتریان (۲۰٪ تخفیف + کیک روز)");
      ("segment", AStr "اعضای وفادار (طلایی و نقره‌ای)"); ("channel", AStr "پیامک خودکار + کیف پول"); ("discount_percent", AStr "20");
      ("status", AStr "فعال")]);
   ("cafe_plan", "cccccccc-1111-4111-8111-000000000011", [("title", AStr "اشتراک ماهانه قهوه صبحگاهی (۲۰ فنجان اسپرسو یا آمریکانو)");
      ("price", AStr "15500000"); ("duration_days", AStr "30"); ("subscribers_count", AStr "18");
      ("description", AStr "مخصوص کارمندان و دفاتر اطراف خیابان ولیعصر با ۲۰٪ صرفه‌جویی")])]%stdpp.


(* domains.go:1804-1806 Store.SeedIranianCafeData *)
Definition seed_ledger : list (string * string * gomap) :=
  [("accounting_entry", "dddddddd-1111-4111-8111-000000000001", [("title", AStr "سند روزنامه #۱۰۱ — ثبت فروش روزانه صندوق و واریز کارتخوان");
      ("debit_account", AStr "بانک ملت - پایانه فروشگاهی (۱۱۰۲)"); ("credit_account", AStr "درآمد فروش نوشیدنی و کیک (۴۱۰۱)");
      ("price", AStr "6200000"); ("note", AStr "تراز خودکار پایان شیفت")]);
   ("job_posting", "eeeeeeee-1111-4111-8111-000000000001", [("title", AStr "استخدام باریستا مسلط به بار گرم و لاته آرت (شیفت عصر)");
      ("shift", AStr "۱۵:۳۰ الی ۲۳:۳۰"); ("salary_range", AStr "۲۰ تا ۲۵ میلیون تومان + بیمه و پاداش"); ("applicants_count", AStr "6");
      ("status", AStr "در حال دریافت رزومه")])]%stdpp.


Definition seed_records : list (string * string * gomap) :=
  seed_profile ++ seed_categories ++ seed_products ++ seed_ingredients ++ seed_recipes ++ seed_tables ++ seed_customers ++ seed_staff ++ seed_orders ++ seed_printers ++ seed_modifiers ++ seed_suppliers ++ seed_campaigns ++ seed_ledger.

(** ** Putting them in the store *)

(** The closure [put]: identifier and version are set, the time of creation when there is none. *)
(* domains.go:1585-1598 Store.SeedIranianCafeData *)
Definition seed_fields (now id : string) (m : gomap) : gomap :=
  let m := aset "version" (AInt 1) (aset "id" (AStr id) (amap m)) in
  match aget "created_at" m with ANil => aset "created_at" (AStr now) m | _ => m end.

(* domains.go:1585-1598 Store.SeedIranianCafeData *)
Definition seed_entity (now kind id : string) (m : gomap) : storedEntity :=
  {| se_ID := id; se_Type := kind; se_Version := 1; se_Deleted := false;
     se_Payload := match json_Marshal (AMap (seed_fields now id m)) with Ok raw => raw | Err _ => EmptyString end |}.

Definition seed_put (now : string) (st : persistedDB) (r : string * string * gomap) : persistedDB :=
  put (entityKey r.1.1 r.1.2) (seed_entity now r.1.1 r.1.2 r.2) st.

(* domains.go:1582-1810 Store.SeedIranianCafeData *)
Definition SeedIranianCafeData_body (now : Z) (st : persistedDB) : res (unit * persistedDB) :=
  Ok ((), foldl (seed_put (FormatRFC3339 now)) st seed_records).

(* domains.go:1582-1584 Store.SeedIranianCafeData *)
Definition SeedIranianCafeData (io : IO) (ctx : option string) (s : Store) (now : Z) : tx_out unit :=
  withTx io ctx s (SeedIranianCafeData_body now).

Section Handlers.
Variable E : Env.

(** [None]: there are records, and nothing is done. *)
(* app.go Application.SeedIfEmpty *)
Definition SeedIfEmpty : app (option (res unit)) :=
  st ← reads E true (λ R ctx st, Stats R st);
  if bool_decide (CategoriesCount st = 0%Z) && bool_decide (ProductsCount st = 0%Z) && bool_decide (OrdersCount st = 0%Z) then
    o ← transacts E true (λ R io ctx t g s, SeedIranianCafeData io ctx s t); mret (Some o)
  else mret None.

(* app.go Application.handleSeedDemo *)
Definition handleSeedDemo (r : Request) : app Reply :=
  o ← transacts E false (λ R io ctx t g s, SeedIranianCafeData io ctx s t);
  mret (navigatePage r "home" (match o with
    | Err e => "خطا در بارگذاری داده‌های نمونه: " +:+ e
    | Ok _ => "داده‌های نمونه منوی کافه (منو، انبار، رسپی، میزها، مشتریان، پرسنل و سفارش‌ها) با موفقیت بارگذاری شد."
    end)).
End Handlers.

(** ** What seeding does *)

Definition seed_kinds : list string := remove_dups (map (λ r, r.1.1) seed_records).

Lemma seed_kinds_plain : Forall (λ k, no_nul k = true) seed_kinds.
Proof. decided. Qed.

Lemma seed_put_frame now st r : r ∈ seed_records → frame seed_kinds st (seed_put now st r).
Proof.
  intros Hr. assert (r.1.1 ∈ seed_kinds) as Hk.
  { apply elem_of_remove_dups. change (map (λ r, r.1.1) seed_records) with ((λ r : string * string * gomap, r.1.1) <$> seed_records).
    by apply (list_elem_of_fmap_2 (λ r : string * string * gomap, r.1.1)). }
  apply frame_put; [|done|done]. pose proof seed_kinds_plain as F. rewrite Forall_forall in F. by apply F.
Qed.

Lemma ok_state {A} (a b : A) (s t : persistedDB) : Ok (a, s) = Ok (b, t) → t = s.
Proof. by intros [= _ ->]. Qed.

Lemma frame_Seed now st u st' : SeedIranianCafeData_body now st = Ok (u, st') → frame seed_kinds st st'.
Proof.
  intros ->%ok_state. assert (∀ l st0, l ⊆ seed_records → frame seed_kinds st0 (foldl (seed_put (FormatRFC3339 now)) st0 l)) as H.
  { induction l as [|r l IH]; intros st0 Hl; [apply frame_refl|]. cbn [foldl]. eapply frame_trans; [apply seed_put_frame, Hl; by left|].
    apply IH. intros x Hx. apply Hl. by right. }
  by apply H.
Qed.

Lemma seed_keys_distinct : NoDup (map (λ r, entityKey r.1.1 r.1.2) seed_records).
Proof. decided. Qed.

Lemma seed_lookup now l st k : NoDup (map (λ r : string * string * gomap, entityKey r.1.1 r.1.2) l) →
  Entities (foldl (seed_put now) st l) !! k =
  match List.find (λ r, String.eqb (entityKey r.1.1 r.1.2) k) l with Some r => Some (seed_entity now r.1.1 r.1.2 r.2) | None => Entities st !! k end.
Proof.
  revert st. induction l as [|r l IH]; intros st Hn; [done|]. cbn [map] in Hn. apply NoDup_cons in Hn as [Hr Hn]. cbn [foldl List.find]. rewrite IH by done.
  destruct (String.eqb (entityKey r.1.1 r.1.2) k) eqn:E.
  - apply String.eqb_eq in E as <-. assert (List.find (λ x : string * string * gomap, String.eqb (entityKey x.1.1 x.1.2) (entityKey r.1.1 r.1.2)) l = None) as ->.
    { destruct (List.find _ l) as [x|] eqn:F; [|done]. exfalso. apply find_some in F as [F Ex]. apply String.eqb_eq in Ex. apply Hr. rewrite <- Ex.
      change (map ?f ?l) with (f <$> l). by apply (list_elem_of_fmap_2 (λ r : string * string * gomap, entityKey r.1.1 r.1.2)), list_elem_of_In. }
    unfold seed_put. cbn. by rewrite lookup_insert_eq.
  - apply String.eqb_neq in E. destruct (List.find _ l); [done|]. unfold seed_put. cbn. by rewrite lookup_insert_ne.
Qed.

(** Seeding puts in every record as it is written, whatever the store had under its
    name: at version 1, not deleted, with the fields of the list, so a till that has been used
    gets the demonstration's orders, stock and tables back as they were at first.  Nothing else
    changes, and seeding twice is seeding once. *)
Theorem Seed_installs now st : ∃ st', SeedIranianCafeData_body now st = Ok ((), st')
  ∧ (∀ r, r ∈ seed_records → Entities st' !! entityKey r.1.1 r.1.2 = Some (seed_entity (FormatRFC3339 now) r.1.1 r.1.2 r.2))
  ∧ (∀ k, k ∉ map (λ r, entityKey r.1.1 r.1.2) seed_records → Entities st' !! k = Entities st !! k)
  ∧ st' = set_Entities (λ _, Entities st') st ∧ SeedIranianCafeData_body now st' = Ok ((), st').
Proof.
  eexists. split; [done|]. set (st' := foldl _ _ _). set (key := λ r : string * string * gomap, entityKey r.1.1 r.1.2).
  assert (frame seed_kinds st st') as [_ Hrest _] by (by apply (frame_Seed now st ())).
  pose proof (seed_lookup (FormatRFC3339 now) seed_records) as HL. split_and!; [| |exact Hrest|].
  - intros r Hr. unfold st'. rewrite HL by apply seed_keys_distinct.
    destruct (List.find _ seed_records) as [r'|] eqn:F.
    + apply find_some in F as [F E]. apply String.eqb_eq in E. f_equal. assert (r' = r) as ->; [|done].
      apply list_elem_of_In, list_elem_of_lookup in F as (i & Hi). apply list_elem_of_lookup in Hr as (j & Hj).
      pose proof seed_keys_distinct as Hn. rewrite NoDup_alt in Hn. enough (i = j) by (subst j; congruence).
      apply (Hn i j (key r)); change (map ?f ?l) with (f <$> l); rewrite list_lookup_fmap; [rewrite Hi|rewrite Hj; done]. cbn. by rewrite E.
    + eapply find_none in F; [|by apply list_elem_of_In]. by rewrite String.eqb_refl in F.
  - intros k Hk. unfold st'. rewrite HL by apply seed_keys_distinct. destruct (List.find _ seed_records) as [r'|] eqn:F; [|done]. exfalso. apply Hk.
    apply find_some in F as [F E]. apply String.eqb_eq in E as <-. change (map ?f ?l) with (f <$> l). by apply (list_elem_of_fmap_2 (λ r, entityKey r.1.1 r.1.2)), list_elem_of_In.
  - unfold SeedIranianCafeData_body. do 2 f_equal. set (st2 := foldl _ _ _).
    destruct (frame_Seed now st' () st2 eq_refl) as [_ Hrest2 _]. assert (Entities st2 = Entities st') as E; [|by rewrite Hrest2, E; destruct st'].
    apply map_eq. intros k. unfold st2. rewrite HL by apply seed_keys_distinct. destruct (List.find _ seed_records) as [r|] eqn:F; [|done].
    unfold st'. rewrite HL by apply seed_keys_distinct. by rewrite F.
Qed.

(** A store without a category, a product or an order. *)
Definition no_menu (st : persistedDB) : Prop :=
  ∀ k e, Entities st !! k = Some e → se_Deleted e = false → se_Type e ∉ ["category"; "product"; "order"]%stdpp.

Lemma Stats_no_menu R st :
  CategoriesCount (Stats R st) = 0%Z → ProductsCount (Stats R st) = 0%Z → OrdersCount (Stats R st) = 0%Z → no_menu st.
Proof.
  intros H1 H2 H3 k e He Hd. assert (∀ t, count (λ _, true) (List.filter (λ e, bool_decide (se_Type e = t))
    (List.filter (λ e, negb (se_Deleted e)) (iter R 0 (Entities st)).*2)) = 0%Z → se_Type e ≠ t) as H.
  { intros t Hc Ht. assert (In e (List.filter (λ e, bool_decide (se_Type e = t)) (List.filter (λ e, negb (se_Deleted e)) (iter R 0 (Entities st)).*2))) as Hin.
    { rewrite !filter_In, Hd, bool_decide_true by done. split; [|done]. split; [|done]. apply list_elem_of_In, list_elem_of_fmap. exists (k, e).
      split; [done|]. rewrite iter_perm. by apply elem_of_map_to_list. }
    revert Hc Hin. generalize (List.filter (λ e, bool_decide (se_Type e = t)) (List.filter (λ e, negb (se_Deleted e)) (iter R 0 (Entities st)).*2)).
    intros [|x l] Hc Hin; [done|]. unfold count in Hc. cbn in Hc. lia. }
  rewrite !not_elem_of_cons. split_and!; [by apply H|by apply H|by apply H|apply not_elem_of_nil].
Qed.

(** What [SeedIfEmpty] leaves: the state there was, or, when there was no menu and no order, the
    demonstration put into it. *)
Lemma SeedIfEmpty_state E w :
  let st := s_state (w_store w) in
  let st' := s_state (w_store (SeedIfEmpty E w).2) in
  st' = st ∨ no_menu st ∧ ∃ now, SeedIranianCafeData_body now st = Ok ((), st').
Proof.
  cbv zeta. unfold SeedIfEmpty, reads, transacts, mbind, app_bind, act. cbn [w_tick w_store with_store].
  destruct (_ && _ && _) eqn:B; [|by left]. apply andb_true_iff in B as [B B3]. apply andb_true_iff in B as [B1 B2].
  apply bool_decide_eq_true in B1, B2, B3. cbn [with_store w_tick w_store]. set (n := S (w_tick w)).
  change (S (w_tick w)) with n. unfold SeedIranianCafeData. set (o := withTx _ _ _ _).
  assert (match tx_res o with
          | Ok a => SeedIranianCafeData_body (ev_clock E n 0) (s_state (w_store w)) = Ok (a, s_state (tx_store o))
          | Err _ => s_state (tx_store o) = s_state (w_store w)
          end) as W by apply withTx_state.
  cbn [fst snd w_store with_store mret app_ret]. destruct (tx_res o) as [[]|]; [|left; exact W].
  right. split; [by eapply Stats_no_menu|eauto].
Qed.

(** ** The data fit together *)

Definition seeded (kind : string) : list (string * gomap) :=
  map (λ r, (r.1.2, amap r.2)) (List.filter (λ r, String.eqb r.1.1 kind) seed_records).

Definition text_at (k : string) (m : gomap) : string := default EmptyString (as_string (aget k m)).
Definition amount_at (k : string) (m : gomap) : Z := parseIRRBig (text_at k m).
Definition rows_at (k : string) (m : gomap) : list gomap := match aget k m with AArr l => omap (λ a, match a with AMap r => Some r | _ => None end) l | _ => [] end.
Definition there (kind id : string) : bool := existsb (λ p, String.eqb p.1 id) (seeded kind).
Definition seeded_row (kind id : string) : gomap := default [] (snd <$> List.find (λ p, String.eqb p.1 id) (seeded kind)).

(** A line is at the price of the menu, and its amount is the price times the quantity. *)
Definition line_fits (l : gomap) : bool :=
  there "product" (text_at "product_id" l) && (amount_at "unit_price_irr" l =? amount_at "price" (seeded_row "product" (text_at "product_id" l)))%Z
  && match aget "quantity" l with AInt n => (amount_at "line_total_irr" l =? amount_at "unit_price_irr" l * n)%Z | _ => false end.

(** The lines add up to the subtotal, and less the discount to the total; an order at a table
    that is not finished has that table occupied. *)
Definition order_fits (m : gomap) : bool :=
  forallb line_fits (rows_at "items" m) && (Zsum (map (amount_at "line_total_irr") (rows_at "items" m)) =? amount_at "subtotal_irr" m)%Z
  && (amount_at "subtotal_irr" m - amount_at "discount_irr" m =? amount_at "total_irr" m)%Z && (amount_at "price" m =? amount_at "total_irr" m)%Z
  && there "customer" (text_at "customer_id" m)
  && (sempty (text_at "table_id" m) || String.eqb (text_at "status" (seeded_row "table" (text_at "table_id" m))) "occupied").

Definition recipe_fits (m : gomap) : bool :=
  there "product" (text_at "product_id" m) && forallb (λ l, there "ingredient" (text_at "ingredient_id" l)) (rows_at "items" m).

(** The demonstration data fit together: products are in categories that are there,
    recipes are of products and ingredients that are there, the orders' lines are at the
    prices of the menu and their amounts add up, and what the debtor still owes is what was lent
    less what was paid. *)
Theorem Seed_fits :
  Forall (λ p, there "category" (text_at "category_id" p.2) = true) (seeded "product")
  ∧ Forall (λ p, recipe_fits p.2 = true) (seeded "recipe") ∧ Forall (λ p, order_fits p.2 = true) (seeded "order")
  ∧ Forall (λ p, amount_at "remaining" p.2 = amount_at "total" p.2 - amount_at "paid" p.2)%Z (seeded "debtor")
  ∧ (length (seeded "product"), length (seeded "recipe"), length (seeded "order"), length (seeded "debtor")) = (8, 2, 2, 1).
Proof. split_and!; first [decided|vm_compute; reflexivity]. Qed.
