(* ===== verification/Files.v ===== *)
(** * Files the application hands out and takes in

    Models of [offline-menuvex/app.go]: the pictures that are uploaded and served, the tables
    of products and of stock that are downloaded, and the backup.  The directory of pictures
    is a map from names to contents; a table is the rows given to the CSV writer. *)
From S2P Require Import Prelude GoStrings GoFloat GoJson GoJsonFacts GoTime GoCrypto Store Entities EntityView Records Forms Receipts Desk Printing RecordDesk.

(** ** Pictures *)

(** What [http.DetectContentType] says of the first bytes of a file, for the kinds accepted
    here; their signatures begin unlike all others it knows. *)
Definition signature (l : list N) : string := of_list (map ascii_of_N l).
Definition webp (head : string) : bool :=
  bool_decide (stake 4 head = "RIFF") && bool_decide (stake 6 (sdrop 8 head) = "WEBPVP").

(* app.go:5477-5488 Application.saveUploadedImage *)
Definition image_ext (head : string) : option string :=
  if HasPrefix head (signature [137; 80; 78; 71; 13; 10; 26; 10]%N) then Some ".png"
  else if HasPrefix head (signature [255; 216; 255]%N) then Some ".jpg"
  else if webp head then Some ".webp"
  else if HasPrefix head "GIF87a" || HasPrefix head "GIF89a" then Some ".gif"
  else None.

(** The calls of an upload: each may fail; copying may stop after so many bytes. *)
Record UploadIO := {
  up_open : option string;
  up_seek : option string;
  up_mkdir : option string;
  up_random : option (list N);
  up_create : option string;
  up_copy : option (string * nat);
}.

Definition upload_dir : Type := gmap string string.

Definition only_images : string := "فقط تصویر PNG ،JPG ،WEBP یا GIF مجاز است".
Definition too_large : string := "حجم تصویر نباید بیشتر از ۸ مگابایت باشد".
Definition random_failed : string := "crypto/rand: failed to read random data".
Definition file_exists : string := "file exists".

(** [size] is the size the form's header gives.  The file is made anew: it must not exist. *)
(* app.go Application.saveUploadedImage *)
Definition saveUploadedImage (io : UploadIO) (size : Z) (content : string) (dir : upload_dir) : res string * upload_dir :=
  if (2 ^ 23 <? size)%Z then (Err too_large, dir)
  else match up_open io with Some e => (Err e, dir) | None =>
  match image_ext (stake 512 content) with
  | None => (Err only_images, dir)
  | Some ext =>
      match up_seek io with Some e => (Err e, dir) | None =>
      match up_mkdir io with Some e => (Err e, dir) | None =>
      match up_random io with
      | None => (Err random_failed, dir)
      | Some rb =>
          let name := hex_encode (of_list (map ascii_of_N rb)) +:+ ext in
          match up_create io with
          | Some e => (Err e, dir)
          | None =>
              match dir !! name with
              | Some _ => (Err file_exists, dir)
              | None =>
                  match up_copy io with
                  | Some (e, n) => (Err e, <[name := stake n content]> dir)
                  | None => (Ok ("/uploads/" +:+ name), <[name := content]> dir)
                  end
              end
          end
      end end end
  end end.

(** [filepath.Base] of a path with slashes. *)
Fixpoint last_part (acc s : string) : string :=
  match s with
  | EmptyString => acc
  | String c t => if Ascii.eqb c "/" then last_part EmptyString t else last_part (acc +:+ sone c) t
  end.
Definition Base (path : string) : string :=
  if sempty path then "."
  else let p := TrimRightByte "/" path in if sempty p then "/" else last_part EmptyString p.

Definition is_hex_lower (c : ascii) : bool := in_range 97 102 c || in_range 48 57 c.

(** The expression [^[a-f0-9]{32}\.(png|jpg|webp|gif)$]. *)
Definition upload_name (name : string) : bool :=
  sforall is_hex_lower (stake 32 name) && (32 <=? String.length name)%nat
  && existsb (String.eqb (sdrop 32 name)) [".png"; ".jpg"; ".webp"; ".gif"]%stdpp.

(** What is served under a path: [None] is [404].  [opens] says whether the file opens. *)
(* app.go Application.handleUploadServe *)
Definition handleUploadServe (opens : string → bool) (path : string) (dir : upload_dir) : option string :=
  let name := Base (if HasPrefix path "/uploads/" then sdrop 9 path else path) in
  if bool_decide (name = ".") || bool_decide (name = "/") || negb (upload_name name) then None
  else if opens name then dir !! name else None.

(** ** Tables *)

(* app.go:5378-5381 Application.handleProductsExport *)
Definition product_row (catLabel : gmap string string) (prod : Entity) : list string :=
  [Label prod; default EmptyString (catLabel !! Field prod "category_id"); PriceIRR prod; Field prod "cost"; Field prod "stock";
   Field prod "is_available"; Field prod "description"].

Section Tables.
Variable E : Env.

(** The rows of a download; [None] when the records cannot be read. *)
(* app.go Application.handleProductsExport *)
Definition handleProductsExport : app (option (list (list string))) :=
  products ← reads E false (λ R ctx st, let? _ := read_ctx ctx () in Ok (Entities_of R "product" st));
  match products with
  | Err _ => mret None
  | Ok products =>
      cats ← entities E false "category";
      let catLabel : gmap string string := foldl (λ m c, <[e_ID c := Label c]> m) ∅ cats in
      mret (Some (["title"; "category"; "price_irr"; "cost_irr"; "stock"; "is_available"; "description"]%stdpp :: map (product_row catLabel) products))
  end.

(* app.go Application.handleInventoryExport *)
Definition handleInventoryExport : app (option (list (list string))) :=
  items ← reads E false (λ R ctx st, let? _ := read_ctx ctx () in Ok (Entities_of R "ingredient" st));
  mret (match items with
        | Err _ => None
        | Ok items =>
            Some (["name"; "sku"; "category"; "location"; "unit"; "current_stock"; "reorder_point"; "average_cost_irr"; "last_purchase_cost_irr"]%stdpp
                  :: map (λ ing, Label ing :: map (Field ing) ["sku"; "category"; "storage_location"; "base_unit"; "current_stock";
                                                              "reorder_point"; "average_cost"; "last_purchase_cost"]%stdpp) items)
        end).

(** ** The backup *)

(* app.go Application.downloadBackup *)
Definition downloadBackup : app (option string) :=
  raw ← reads E false (λ R ctx st, ExportBackup st);
  mret (match raw with Ok t => Some t | Err _ => None end).

(** The file system the backup is written to: the home directory, whether it has a directory
    for downloads, and whether the write fails. *)
Record Home := {
  ho_dir : option string;
  ho_downloads : bool;
  ho_write : option string;
}.

(** [time.Now().Format("20060102-150405")] *)
Definition backup_stamp (off t : Z) : string :=
  remove_all "-" (FormatDate (Date off t)) +:+ "-" +:+ remove_all ":" (FormatClock off t).

(* app.go Application.handleExportBackup *)
Definition handleExportBackup (h : Home) (r : Request) : app (Reply * option (string * string)) :=
  raw ← reads E false (λ R ctx st, ExportBackup st);
  match raw with
  | Err e => mret (navigatePage r "home" ("خطا در تولید فایل پشتیبان: " +:+ e), None)
  | Ok raw =>
      let dir := match ho_dir h with
                 | Some d => if sempty d then "." else if ho_downloads h then d +:+ "/Downloads" else d
                 | None => "."
                 end in
      t ← now E;
      let fullPath := (if bool_decide (dir = ".") then EmptyString else dir +:+ "/") +:+ "coffish-backup-" +:+ backup_stamp (ev_zone E t) t +:+ ".json" in
      mret (match ho_write h with
            | Some e => (navigatePage r "home" ("خطا در ذخیره فایل پشتیبان: " +:+ e), None)
            | None => (navigatePage r "home" ("فایل پشتیبان با موفقیت در مسیر " +:+ fullPath +:+ " ذخیره شد."), Some (fullPath, raw))
            end)
  end.
End Tables.

(** ** A picture that was saved is served *)

Lemma last_part_plain s : sforall (λ c, negb (Ascii.eqb c "/")) s = true → ∀ acc, last_part acc s = acc +:+ s.
Proof.
  induction s as [|c s IH]; intros H acc; cbn [last_part]; [by rewrite sapp_nil_r|]. cbn [sforall] in H. bools. rewrite H, IH by done.
  by rewrite sapp_assoc.
Qed.

Lemma drop_while_none {A} (P : A → bool) l : forallb (λ x, negb (P x)) l = true → drop_while P l = l.
Proof. destruct l as [|x l]; [done|]. cbn. intros H. bools. by rewrite H. Qed.

Lemma sforall_list P s : sforall P s = forallb P (to_list s).
Proof. induction s as [|c s IH]; [done|]. cbn. by rewrite IH. Qed.

Lemma HasPrefix_app p t : HasPrefix (p +:+ t) p = true.
Proof. unfold HasPrefix. induction p as [|c p IH]; [by destruct t|]. rewrite sapp_cons. cbn. by destruct (ascii_dec c c). Qed.

Lemma of_to_list s : of_list (to_list s) = s.
Proof. induction s as [|c s IH]; [done|]. cbn. by rewrite IH. Qed.

Lemma Base_plain s : s ≠ EmptyString → sforall (λ c, negb (Ascii.eqb c "/")) s = true → Base s = s.
Proof.
  intros Hne Hs. unfold Base. destruct (sempty s) eqn:E; [by apply sempty_true in E|].
  assert (TrimRightByte "/" s = s) as ->.
  { unfold TrimRightByte. rewrite drop_while_none; [by rewrite rev_involutive, of_to_list|]. rewrite forallb_rev. rewrite sforall_list in Hs.
    apply forallb_forall. intros c Hc. rewrite forallb_forall in Hs. specialize (Hs c Hc). rewrite negb_true_iff in *. apply Ascii.eqb_neq in Hs.
    by apply bool_decide_eq_false. }
  cbv zeta. rewrite E. by apply (last_part_plain s Hs EmptyString).
Qed.

Lemma hex_lower s : sforall is_hex_lower (hex_encode s) = true.
Proof.
  unfold hex_encode, GoCrypto.bytes. induction s as [|c s IH]; [done|]. cbn [to_list map sconcat]. rewrite sforall_app, IH, andb_true_r.
  destruct c as [[] [] [] [] [] [] [] []]; reflexivity.
Qed.

Definition picture_exts : list string := [".png"; ".jpg"; ".webp"; ".gif"]%stdpp.

Lemma image_ext_known head ext : image_ext head = Some ext → existsb (String.eqb ext) picture_exts = true ∧ sforall (λ c, negb (Ascii.eqb c "/")) ext = true.
Proof. unfold image_ext. repeat case_match; intros [= <-]; by split. Qed.

Lemma hex_no_slash s : sforall is_hex_lower s = true → sforall (λ c, negb (Ascii.eqb c "/")) s = true.
Proof. apply sforall_impl. intros c. destruct c as [[] [] [] [] [] [] [] []]; done. Qed.

Lemma upload_name_hex h ext : String.length h = 32%nat → sforall is_hex_lower h = true → existsb (String.eqb ext) picture_exts = true →
  upload_name (h +:+ ext) = true.
Proof.
  intros Hl Hh He. unfold upload_name. rewrite <- Hl, stake_app, sdrop_app, Hh, slength_app. fold picture_exts. rewrite He, andb_true_r.
  apply Nat.leb_le. lia.
Qed.

(** a picture that was saved is served, and nothing but pictures is.  When an upload
    succeeds its content is stored whole under a name that was not taken, every other file
    stays as it was, and asking for the path that was handed out serves exactly that content;
    and whatever path is asked for, what is served is a file of the upload directory with
    such a name, never one from elsewhere. *)
Theorem saved_picture_served io size content dir path dir' :
  (∀ rb, up_random io = Some rb → length rb = 16%nat) →
  saveUploadedImage io size content dir = (Ok path, dir') →
  (size <= 2 ^ 23)%Z ∧ is_Some (image_ext (stake 512 content))
  ∧ handleUploadServe (λ _, true) path dir = None
  ∧ handleUploadServe (λ _, true) path dir' = Some content
  ∧ (∃ name, dir !! name = None ∧ dir' = <[name := content]> dir)
  ∧ ∀ opens p c, handleUploadServe opens p dir' = Some c → ∃ name, upload_name name = true ∧ dir' !! name = Some c.
Proof.
  intros Hrb. unfold saveUploadedImage. destruct (2 ^ 23 <? size)%Z eqn:Es; [done|]. apply Z.ltb_ge in Es.
  destruct (up_open io); [done|]. destruct (image_ext _) as [ext|] eqn:Ee; [|done]. destruct (up_seek io); [done|].
  destruct (up_mkdir io); [done|]. destruct (up_random io) as [rb|]; [|done]. specialize (Hrb rb eq_refl).
  set (h := hex_encode (of_list (map ascii_of_N rb))). destruct (up_create io); [done|].
  destruct (dir !! (h +:+ ext)) eqn:Ed; [done|]. destruct (up_copy io) as [[? ?]|]; [done|]. intros [= <- <-].
  assert (String.length h = 32%nat) as Hl by (unfold h; rewrite hex_encode_length, of_list_length, length_map; lia).
  pose proof (hex_lower (of_list (map ascii_of_N rb)) : sforall is_hex_lower h = true) as Hh. apply image_ext_known in Ee as Hk. destruct Hk as [Hk Hs].
  pose proof (upload_name_hex h ext Hl Hh Hk) as Hn.
  assert (∀ d, handleUploadServe (λ _, true) ("/uploads/" +:+ h +:+ ext) d = d !! (h +:+ ext)) as Hserve.
  { intros d. unfold handleUploadServe. assert (HasPrefix ("/uploads/" +:+ h +:+ ext) "/uploads/" = true) as ->.
    { apply HasPrefix_app. }
    change 9%nat with (String.length "/uploads/"). rewrite sdrop_app, Base_plain.
    - rewrite Hn. do 2 (rewrite bool_decide_false; [|intros X; apply (f_equal String.length) in X; rewrite slength_app, Hl in X; discriminate X]).
      done.
    - intros X. apply (f_equal String.length) in X. rewrite slength_app, Hl in X. discriminate X.
    - rewrite sforall_app, Hs, andb_true_r. by apply hex_no_slash. }
  split; [done|]. split; [by eexists|]. split; [by rewrite Hserve|]. split; [rewrite Hserve; apply lookup_insert_eq|]. split; [by eexists|].
  intros opens p c. unfold handleUploadServe. destruct (_ || negb _) eqn:B; [done|]. destruct (opens _); [|done]. intros H.
  apply orb_false_iff in B as [_ B]. apply negb_false_iff in B. eauto.
Qed.

(** The first bytes of a picture, and a disk on which nothing goes wrong. *)
Definition a_png : string := of_list (map ascii_of_N [137; 80; 78; 71; 13; 10; 26; 10; 0; 0; 0; 13]%N).
Definition calm_io : UploadIO :=
  {| up_open := None; up_seek := None; up_mkdir := None; up_random := Some (map N.of_nat (seq 200 16)); up_create := None; up_copy := None |}.

Definition a_name : string := "c8c9cacbcccdcecfd0d1d2d3d4d5d6d7.png".

Lemma saved_picture_served_witness :
  ∃ dir', saveUploadedImage calm_io 12 a_png ∅ = (Ok ("/uploads/" +:+ a_name), dir')
    ∧ handleUploadServe (λ _, true) ("/uploads/" +:+ a_name) dir' = Some a_png.
Proof.
  exists {[ a_name := a_png ]}. assert (saveUploadedImage calm_io 12 a_png ∅ = (Ok ("/uploads/" +:+ a_name), {[ a_name := a_png ]})) as E.
  { vm_compute. reflexivity. }
  split; [exact E|]. apply (saved_picture_served calm_io 12 a_png ∅ ("/uploads/" +:+ a_name) {[ a_name := a_png ]}); [|exact E].
  intros rb [= <-]. reflexivity.
Defined.
