(* ===== verification/Till.v ===== *)
(** * The till's page

    Models what [render] of [offline-menuvex/app.go] puts on the till's page: the products by
    category, the tables with the orders open on them, and the dialog of recent orders.  It is
    a function of the lists read from the store, the enabled stages and the clock. *)
From S2P Require Import Prelude GoStrings GoFloat GoJson GoTime Store Entities EntityView Records Orders OrderStates SplitBill Jalali Forms Receipts Desk.

(** ** The products *)

(* app.go POSGroup *)
Record POSGroup := {
  pg_ID : string;
  pg_Label : string;
  pg_Products : list Entity;
}.

Definition in_category (id : string) (p : Entity) : bool := bool_decide (Field p "category_id" = id).

(* app.go:1975-1997 Application.render *)
Definition pos_groups (categories products : list Entity) : list POSGroup :=
  let groups := omap (λ c, match List.filter (in_category (e_ID c)) products with
                           | [] => None
                           | items => Some {| pg_ID := e_ID c; pg_Label := Label c; pg_Products := items |}
                           end) categories in
  match List.filter (λ p, negb (existsb (λ c, in_category (e_ID c) p) categories)) products with
  | [] => groups
  | rest => groups ++ [{| pg_ID := "__other"; pg_Label := "سایر محصولات"; pg_Products := rest |}]
  end.

(** ** The tables *)

(* app.go POSStep *)
Record POSStep := {
  st_Label : string;
  st_Done : bool;
  st_Current : bool;
}.

(* app.go POSTableRow *)
Record POSTableRow := {
  tr_Table : Entity;
  tr_HasOrder : bool;
  tr_OrderID : string;
  tr_Number : string;
  tr_TotalFa : string;
  tr_ItemsCount : Z;
  tr_TimeLabel : string;
  tr_StateKey : string;
  tr_StateLabel : string;
  tr_NextTarget : string;
  tr_NextLabel : string;
  tr_ShowComplete : bool;
  tr_SplitRemainingFa : string;
  tr_SplitSettled : bool;
  tr_Steps : list POSStep;
}.

Definition status_key (o : Entity) : string := norm (Field o "status").
Definition is_open (o : Entity) : bool := existsb (String.eqb (status_key o)) ["pending"; "accepted"; "preparing"; "ready"]%stdpp.
Definition newer (o cur : Entity) : bool := String.ltb (Field cur "created_at") (Field o "created_at").

(** The open order that a table shows: the newest one on it. *)
(* app.go:2011-2025 Application.render *)
Definition openByTable (orders : list Entity) (tid : string) : option Entity :=
  foldl (λ acc o, if is_open o && negb (sempty (TrimSpace (Field o "table_id"))) && bool_decide (TrimSpace (Field o "table_id") = tid)
                  then match acc with
                       | None => Some o
                       | Some cur => if newer o cur then Some o else acc
                       end
                  else acc) None orders.

Definition stepDefs : list (string * string) :=
  [("pending", "ثبت"); ("accepted", "تأیید"); ("preparing", "آماده‌سازی"); ("ready", "آماده"); ("completed", "تکمیل")]%stdpp.

(* app.go:2049-2066 Application.render *)
Definition steps_of (stages : list string) (key : string) : list POSStep :=
  let cur := switch key [(["accepted"], 1); (["preparing"], 2); (["ready"], 3)]%stdpp 0 in
  omap (λ p : nat * (string * string), let '(i, (k, label)) := p in
          if bool_decide (k = "pending") || bool_decide (k = "completed") || existsb (String.eqb k) stages
          then Some {| st_Label := label; st_Done := (i <? cur)%nat; st_Current := (i =? cur)%nat |} else None)
       (imap pair stepDefs).

Definition total_fa (o : Entity) : string := FormatPersianNumber (Z_to_dec (parseIRRBig (PriceIRR o) / 10)).
Definition pieces (l : list Z) : Z := foldl (λ n q, wrap64 (n + q)) 0%Z l.
Definition clock_label (o : Entity) : string :=
  match ParseRFC3339 (Field o "created_at") with Some t => FormatJalaliClock t | None => EmptyString end.

(* app.go:2030-2081 Application.render *)
Definition pos_table_row (stages : list string) (orders : list Entity) (t : Entity) : POSTableRow :=
  let status := norm (Field t "status") in
  match openByTable orders (e_ID t) with
  | Some o =>
      let key := status_key o in
      let '(target, label) := orderPrimaryAction key stages in
      let '(_, _, _, rem) := SplitBillOf o in
      {| tr_Table := t; tr_HasOrder := true; tr_OrderID := e_ID o; tr_Number := displayOrderNumber (Field o "order_number");
         tr_TotalFa := total_fa o; tr_ItemsCount := pieces (map ol_Quantity (OrderItems o)); tr_TimeLabel := clock_label o;
         tr_StateKey := key; tr_StateLabel := StatusLabel o; tr_NextTarget := target; tr_NextLabel := label;
         tr_ShowComplete := bool_decide (target = "completed");
         tr_SplitRemainingFa := FormatPersianNumber (Z_to_dec (quot64 rem 10));
         tr_SplitSettled := (rem =? 0)%Z && bool_decide (Field o "split_status" = "PAID"); tr_Steps := steps_of stages key |}
  | None =>
      let '(key, label) :=
        if bool_decide (status = "reserved") then ("reserved"%stdpp, "رزرو"%stdpp)
        else if bool_decide (status = "disabled") || bool_decide (status = "cleaning") then (status, StatusLabel t)
        else ("free"%stdpp, "آزاد"%stdpp) in
      {| tr_Table := t; tr_HasOrder := false; tr_OrderID := EmptyString; tr_Number := EmptyString; tr_TotalFa := EmptyString;
         tr_ItemsCount := 0; tr_TimeLabel := EmptyString; tr_StateKey := key; tr_StateLabel := label; tr_NextTarget := EmptyString;
         tr_NextLabel := EmptyString; tr_ShowComplete := false; tr_SplitRemainingFa := EmptyString; tr_SplitSettled := false;
         tr_Steps := [] |}
  end.

Definition pos_tables (stages : list string) (orders tables : list Entity) : list POSTableRow := map (pos_table_row stages orders) tables.

(** ** The recent orders *)

(* app.go POSRecentRow *)
Record POSRecentRow := {
  rr_ID : string;
  rr_Number : string;
  rr_TotalFa : string;
  rr_StatusLabel : string;
  rr_StatusKey : string;
  rr_TimeLabel : string;
  rr_TableLabel : string;
  rr_ItemsLabel : string;
  rr_OriginLabel : string;
  rr_CustomerName : string;
  rr_NextTarget : string;
  rr_NextLabel : string;
  rr_ProgressPct : Z;
  rr_IsOpen : bool;
  rr_IsCompleted : bool;
  rr_IsCancelled : bool;
  rr_HasTable : bool;
}.

Definition is_completed (o : Entity) : bool := bool_decide (status_key o = "completed").
Definition is_cancelled (o : Entity) : bool := bool_decide (status_key o = "cancelled") || bool_decide (status_key o = "canceled").

(** The position of a status among the steps, the last of them that it is. *)
(* app.go:2146-2163 Application.render *)
Definition progress (enabledStages : list string) (o : Entity) : Z :=
  let steps := "pending"%stdpp :: enabledStages ++ ["completed"%stdpp] in
  let cur := foldl (λ cur p, if bool_decide (p.2 = status_key o) then Z.of_nat p.1 else cur) 0%Z (imap pair steps) in
  let last := (Z.of_nat (length steps) - 1)%Z in
  let cur := if is_completed o then last else cur in
  Z.quot (cur * 100) last.

(* app.go:2095-2174 Application.render *)
Definition recent_row (enabledStages : list string) (o : Entity) : POSRecentRow :=
  let table := TrimSpace (Field o "table_label") in
  let ft := TrimSpace (Field o "fulfillment_type") in
  let '(lines, _, _, _) := SplitBillOf o in
  let open := negb (is_completed o) && negb (is_cancelled o) in
  let '(target, label) := if open then orderPrimaryAction (status_key o) enabledStages else (EmptyString, EmptyString) in
  {| rr_ID := e_ID o; rr_Number := displayOrderNumber (Field o "order_number"); rr_TotalFa := total_fa o;
     rr_StatusLabel := StatusLabel o; rr_StatusKey := ToUpper (TrimSpace (Field o "status")); rr_TimeLabel := clock_label o;
     rr_TableLabel := table;
     rr_ItemsLabel := match lines with
                      | [] => EmptyString
                      | l :: _ => FormatPersianNumber (Z_to_dec (pieces (map sl_Quantity lines))) +:+ " قلم: " +:+ sl_Title l
                      end;
     rr_OriginLabel := (if negb (sempty table) then table
                        else if bool_decide (ft = "outside") then "بیرون‌بر • بدون میز"
                        else if bool_decide (ft = "delivery") then "پیک • بدون میز"
                        else "حضوری • بدون میز");
     rr_CustomerName := TrimSpace (Field o "customer_name"); rr_NextTarget := target;
     rr_NextLabel := (if open && bool_decide (target = "completed") then "تکمیل و صدور فاکتور" else label);
     rr_ProgressPct := progress enabledStages o; rr_IsOpen := open; rr_IsCompleted := is_completed o; rr_IsCancelled := is_cancelled o;
     rr_HasTable := negb (sempty table) |}.

(* app.go:2184-2192 Application.render *)
Definition posRecentRank (rr : POSRecentRow) : nat := if rr_IsCancelled rr then 2 else if rr_IsCompleted rr then 1 else 0.

(** The newest twelve orders but for those that were finished before today, the open ones
    first; the orders are all of them, newest first. *)
(* app.go:2084-2194 Application.render *)
Definition pos_recent (tehran : Z → Z) (now : Z) (enabledStages : list string) (orders : list Entity) : list POSRecentRow :=
  let sorted := sort_stable newer orders in
  let today o := isTehranToday tehran now (Field o "created_at") in
  let shown := List.filter (λ o, today o || negb (is_completed o || is_cancelled o)) (take 12 sorted) in
  sort_stable (λ a b, (posRecentRank a <? posRecentRank b)%nat) (map (recent_row enabledStages) shown).

(* app.go:2085-2091 Application.render *)
Definition pos_last_order (orders : list Entity) : option (string * string) :=
  (λ o, (e_ID o, total_fa o)) <$> head (sort_stable newer orders).

(** What is put of the stages into the recent rows: those of the definitions that are enabled. *)
(* app.go:2000-2010 Application.render *)
Definition shown_stages (stages : list string) : list string := List.filter (λ k, existsb (String.eqb k) stages) posStageDefs.*1.

(** ** What the page shows *)

(** The groups of the categories hold the products that are in one of them. *)
Lemma groups_products categories products : NoDup (map e_ID categories) →
  concat (map pg_Products (omap (λ c, match List.filter (in_category (e_ID c)) products with
                                      | [] => None
                                      | items => Some {| pg_ID := e_ID c; pg_Label := Label c; pg_Products := items |}
                                      end) categories))
  ≡ₚ List.filter (λ p, existsb (λ c, in_category (e_ID c) p) categories) products.
Proof.
  induction categories as [|c cs IH]; intros ND; [by rewrite filter_all_off|]. cbn [map] in ND. apply NoDup_cons in ND as [Hc ND].
  cbn [existsb]. rewrite <- filter_split.
  - cbn [omap list_omap]. destruct (List.filter (in_category (e_ID c)) products) eqn:E; [by apply IH|]. cbn [map concat pg_Products].
    by rewrite IH.
  - intros p. destruct (in_category (e_ID c) p) eqn:Ec; [|done]. cbn [andb]. apply not_true_is_false. intros [d [Hd Ed]]%existsb_exists.
    apply bool_decide_eq_true in Ec, Ed. apply Hc. rewrite <- Ec, Ed. apply list_elem_of_fmap. exists d. by rewrite list_elem_of_In.
Qed.

(** the till lists every product of the menu exactly once, under its own category.  With
    the categories' identifiers distinct the groups of the page hold together the products
    of the menu, each as often as it is there; no group is empty; a product stands in the
    group of the category that it names, and in the last group exactly when it names none
    of them. *)
Theorem pos_groups_partition categories products :
  NoDup (map e_ID categories) →
  concat (map pg_Products (pos_groups categories products)) ≡ₚ products
  ∧ (∀ g, g ∈ pos_groups categories products → pg_Products g ≠ [])
  ∧ ∀ g p, g ∈ pos_groups categories products → p ∈ pg_Products g →
      (∃ c, c ∈ categories ∧ pg_ID g = e_ID c ∧ pg_Label g = Label c ∧ Field p "category_id" = e_ID c)
      ∨ (pg_ID g = "__other"%stdpp ∧ ∀ c, c ∈ categories → Field p "category_id" ≠ e_ID c).
Proof.
  intros ND. pose proof (groups_products categories products ND) as HG. unfold pos_groups. revert HG.
  set (gs := omap _ categories). set (rest := List.filter (λ p, negb _) products). intros HG.
  assert (∀ g, g ∈ gs → pg_Products g ≠ [] ∧ ∃ c, c ∈ categories ∧ g = {| pg_ID := e_ID c; pg_Label := Label c; pg_Products := List.filter (in_category (e_ID c)) products |}) as Hgs.
  { intros g [c [Hc Hg]]%list_elem_of_omap. revert Hg. destruct (List.filter (in_category (e_ID c)) products) eqn:E; [done|]. intros [= <-]. split; [done|]. exists c. by rewrite E. }
  assert (∀ p, p ∈ rest → ∀ c, c ∈ categories → Field p "category_id" ≠ e_ID c) as Hrest.
  { intros p [_ Hp]%elem_of_filter_bool c Hc E. apply negb_true_iff in Hp. apply not_true_iff_false in Hp. apply Hp. apply existsb_exists. exists c.
    rewrite <- list_elem_of_In. split; [done|]. by apply bool_decide_eq_true. }
  assert (concat (map pg_Products gs) ++ rest ≡ₚ products) as HP by (rewrite HG; apply filter_compl).
  clearbody gs rest. split_and!.
  - destruct rest; [by rewrite app_nil_r in HP|]. rewrite map_app, concat_app. cbn [map concat pg_Products]. by rewrite app_nil_r.
  - intros g. destruct rest; [by intros [? _]%Hgs|]. rewrite elem_of_app, list_elem_of_singleton. intros [[? _]%Hgs| ->]; [done|by cbn].
  - assert (∀ g p, g ∈ gs → p ∈ pg_Products g → ∃ c, c ∈ categories ∧ pg_ID g = e_ID c ∧ pg_Label g = Label c ∧ Field p "category_id" = e_ID c) as HC.
    { intros g p [_ [c [Hc ->]]]%Hgs [_ Ep]%elem_of_filter_bool. apply bool_decide_eq_true in Ep. eauto. }
    intros g p. destruct rest; [intros; left; eauto|]. rewrite elem_of_app, list_elem_of_singleton. intros [Hg| ->] Hp; [left; eauto|].
    right. split; [done|]. by apply Hrest.
Qed.

(** An order that holds a table: it is open and placed on it. *)
Definition holds_table (tid : string) (o : Entity) : Prop :=
  is_open o = true ∧ TrimSpace (Field o "table_id") = tid ∧ tid ≠ EmptyString.

Definition created (o : Entity) : string := Field o "created_at".

Lemma newer_spec o cur : newer o cur = true ↔ String.leb (created o) (created cur) = false.
Proof. apply ltb_true. Qed.

(** The newest of the orders on a table that were seen, if any was. *)
Definition newest_on (tid : string) (seen : list Entity) (acc : option Entity) : Prop :=
  match acc with
  | None => ∀ o, o ∈ seen → ¬ holds_table tid o
  | Some cur => cur ∈ seen ∧ holds_table tid cur ∧ ∀ o, o ∈ seen → holds_table tid o → String.leb (created o) (created cur) = true
  end.

Lemma holds_table_bool tid o :
  is_open o && negb (sempty (TrimSpace (Field o "table_id"))) && bool_decide (TrimSpace (Field o "table_id") = tid) = true ↔ holds_table tid o.
Proof.
  unfold holds_table. rewrite !andb_true_iff, bool_decide_eq_true, negb_true_iff. split; [intros [[? He] <-]|intros [? [<- He]]]; repeat split; try done.
  - intros E. by rewrite E in He.
  - by destruct (TrimSpace _).
Qed.

Lemma newest_step tid seen acc o : newest_on tid seen acc →
  newest_on tid (seen ++ [o])
    (if is_open o && negb (sempty (TrimSpace (Field o "table_id"))) && bool_decide (TrimSpace (Field o "table_id") = tid)
     then match acc with None => Some o | Some cur => if newer o cur then Some o else acc end else acc).
Proof.
  pose proof (holds_table_bool tid o) as Hb. destruct (_ && _) eqn:E; clear E; intros H.
  - assert (holds_table tid o) as Ho by tauto. destruct acc as [cur|].
    + destruct H as (Hc & Ht & Hm). destruct (newer o cur) eqn:En.
      * apply newer_spec in En. split_and!; [set_solver|done|]. intros o' [Hin| ->%list_elem_of_singleton]%elem_of_app Ho'; [|by eauto with go_strings].
        destruct (leb_total (created cur) (created o)) as [L|L]; [|congruence]. eapply leb_trans; [by apply Hm|done].
      * split_and!; [set_solver|done|]. intros o' [Hin| ->%list_elem_of_singleton]%elem_of_app Ho'; [by apply Hm|]. by apply ltb_false.
    + split_and!; [set_solver|done|]. intros o' [Hin| ->%list_elem_of_singleton]%elem_of_app Ho'; [by destruct (H o' Hin)|by eauto with go_strings].
  - assert (¬ holds_table tid o) as Ho by (intros ?%Hb; done). destruct acc as [cur|].
    + destruct H as (Hc & Ht & Hm). split_and!; [set_solver|done|]. intros o' [Hin| ->%list_elem_of_singleton]%elem_of_app Ho'; [by apply Hm|done].
    + intros o' [Hin| ->%list_elem_of_singleton]%elem_of_app; [by apply H|done].
Qed.

Lemma openByTable_newest tid orders : newest_on tid orders (openByTable orders tid).
Proof.
  unfold openByTable. set (f := λ acc o, _). enough (∀ l seen acc, newest_on tid seen acc → newest_on tid (seen ++ l) (foldl f acc l)) as G
    by (apply (G orders [] None); by intros o Ho%not_elem_of_nil).
  intros l. induction l as [|o l IH]; intros seen acc H; [by rewrite app_nil_r|].
  change (o :: l) with ([o] ++ l). rewrite app_assoc. apply IH. by apply newest_step.
Qed.

(** a card of the till stands for what is on its table.  It shows an order exactly when
    an open one is placed on the table, and then the newest of those by their time of
    creation, with that order's number, price and next step; a table without one shows its
    own state, and offers neither a next step nor a completion. *)
Theorem pos_table_row_newest stages orders t :
  let row := pos_table_row stages orders t in
  (tr_HasOrder row = true ↔ ∃ o, o ∈ orders ∧ holds_table (e_ID t) o)
  ∧ (tr_HasOrder row = true → ∃ o, o ∈ orders ∧ holds_table (e_ID t) o
       ∧ (∀ o', o' ∈ orders → holds_table (e_ID t) o' → String.leb (created o') (created o) = true)
       ∧ tr_OrderID row = e_ID o ∧ tr_StateKey row = status_key o ∧ tr_TotalFa row = total_fa o
       ∧ (tr_NextTarget row, tr_NextLabel row) = orderPrimaryAction (status_key o) stages
       ∧ tr_ShowComplete row = bool_decide (tr_NextTarget row = "completed"%stdpp))
  ∧ (tr_HasOrder row = false →
       (tr_OrderID row, tr_NextTarget row, tr_ShowComplete row, tr_Steps row) = (EmptyString, EmptyString, false, [])
       ∧ tr_StateKey row ∈ ["reserved"; "disabled"; "cleaning"; "free"]%stdpp).
Proof.
  cbv zeta. pose proof (openByTable_newest (e_ID t) orders) as H. unfold pos_table_row. destruct (openByTable orders (e_ID t)) as [o|]; cbn [newest_on] in H.
  - destruct H as (Hin & Ht & Hm). destruct (orderPrimaryAction (status_key o) stages) as [target label] eqn:E. destruct (SplitBillOf o) as [[[? ?] ?] ?].
    cbn. split_and!; [split; eauto| |done]. intros _. exists o. split_and!; done.
  - set (p := if bool_decide _ then _ else _). destruct p as [key label] eqn:E. cbn. split_and!; [|done|].
    + split; [done|]. intros (o & Ho & Ht). by destruct (H o Ho).
    + intros _. split; [done|]. subst p. repeat case_bool_decide; cbn [orb] in E; injection E as <- _; set_solver.
Qed.

(** *** The recent orders *)

Lemma newer_asym x y : newer x y = true → newer y x = false.
Proof.
  rewrite newer_spec. unfold newer. intros H. apply ltb_false. fold (created x) (created y). by destruct (leb_total (created y) (created x)); [|congruence].
Qed.

Lemma newer_trans x y z : newer y x = false → newer z y = false → newer z x = false.
Proof. unfold newer. rewrite !ltb_false. eauto with go_strings. Qed.

Definition rank_less (a b : POSRecentRow) : bool := (posRecentRank a <? posRecentRank b)%nat.

Lemma rank_less_asym x y : rank_less x y = true → rank_less y x = false.
Proof. unfold rank_less. rewrite Nat.ltb_lt, Nat.ltb_ge. lia. Qed.

Lemma rank_less_trans x y z : rank_less y x = false → rank_less z y = false → rank_less z x = false.
Proof. unfold rank_less. rewrite !Nat.ltb_ge. lia. Qed.

Definition newest_first (orders : list Entity) : list Entity := sort_stable newer orders.

(** The orders of the dialog, before they are put in the order of their state. *)
Definition recent_orders (tehran : Z → Z) (now : Z) (orders : list Entity) : list Entity :=
  List.filter (λ o, isTehranToday tehran now (Field o "created_at") || negb (is_completed o || is_cancelled o)) (take 12 (newest_first orders)).

Lemma pos_recent_rows tehran now stages orders : pos_recent tehran now stages orders ≡ₚ map (recent_row stages) (recent_orders tehran now orders).
Proof. apply sort_stable_perm. Qed.

Lemma recent_row_state stages o :
  let r := recent_row stages o in
  rr_ID r = e_ID o ∧ rr_IsCompleted r = is_completed o ∧ rr_IsCancelled r = is_cancelled o ∧ rr_ProgressPct r = progress stages o
  ∧ rr_IsOpen r = negb (is_completed o || is_cancelled o).
Proof.
  cbv zeta. unfold recent_row. destruct (SplitBillOf o) as [[[? ?] ?] ?]. destruct (if negb (is_completed o) && _ then _ else _) as [? ?].
  cbn. split_and!; try done. by rewrite negb_orb.
Qed.

Lemma position_bounds key (l : list (nat * string)) n start :
  (∀ p, p ∈ l → (p.1 < n)%nat) → (0 ≤ start < Z.of_nat n)%Z →
  (0 ≤ foldl (λ cur p, if bool_decide (p.2 = key) then Z.of_nat p.1 else cur) start l < Z.of_nat n)%Z.
Proof.
  revert start. induction l as [|p l IH]; intros start Hl Hs; [done|]. cbn [foldl]. apply IH; [set_solver|].
  case_bool_decide; [|done]. specialize (Hl p ltac:(set_solver)). lia.
Qed.

Lemma imap_pair_bound {A} (l : list A) p : p ∈ imap pair l → (p.1 < length l)%nat.
Proof. intros (i & x & -> & Hx)%elem_of_lookup_imap. cbn. by apply lookup_lt_Some in Hx. Qed.

Lemma progress_bounds stages o : (0 ≤ progress stages o ≤ 100)%Z.
Proof.
  unfold progress. set (steps := "pending"%stdpp :: _). assert (2 ≤ length steps)%nat as Hn by (subst steps; cbn; rewrite length_app; cbn; lia).
  pose proof (position_bounds (status_key o) (imap pair steps) (length steps) 0 (imap_pair_bound steps) ltac:(lia)) as Hb.
  set (cur := foldl _ _ _) in *. assert (0 ≤ (if is_completed o then Z.of_nat (length steps) - 1 else cur) ≤ Z.of_nat (length steps) - 1)%Z as Hc
    by (destruct (is_completed o); lia).
  set (c := if is_completed o then _ else _) in *. rewrite Z.quot_div_nonneg by lia. split; [apply Z.div_pos; lia|].
  apply Z.div_le_upper_bound; lia.
Qed.

(** the dialog of recent orders is the working day's.  It has at most twelve rows, with
    the open orders before the completed ones and those before the cancelled ones; each row
    stands for one of the twelve newest orders, and such an order has a row exactly when it
    is open or was created on the present day of Tehran; and its progress is a percentage. *)
Theorem pos_recent_day tehran now stages orders :
  let rows := pos_recent tehran now stages orders in
  (length rows ≤ 12)%nat
  ∧ StronglySorted (λ a b, posRecentRank a ≤ posRecentRank b)%nat rows
  ∧ (∀ r, r ∈ rows → ∃ o, r = recent_row stages o ∧ o ∈ take 12 (newest_first orders) ∧ o ∈ orders
       ∧ (rr_IsOpen r = true ∨ isTehranToday tehran now (created o) = true) ∧ (0 ≤ rr_ProgressPct r ≤ 100)%Z)
  ∧ (∀ o, o ∈ take 12 (newest_first orders) → is_completed o || is_cancelled o = false ∨ isTehranToday tehran now (created o) = true →
       recent_row stages o ∈ rows).
Proof.
  cbv zeta. pose proof (pos_recent_rows tehran now stages orders) as HP. split_and!.
  - rewrite HP, length_map. unfold recent_orders. etrans; [apply filter_length_le|]. apply firstn_le_length.
  - pose proof (sort_stable_sorted rank_less rank_less_asym rank_less_trans (map (recent_row stages) (recent_orders tehran now orders))) as HS.
    eapply strongly_sorted_impl; [|exact HS]. intros a b. unfold rank_less. by rewrite Nat.ltb_ge.
  - intros r. rewrite HP. intros (o & -> & [Ho Hf]%elem_of_filter_bool)%list_elem_of_fmap. destruct (recent_row_state stages o) as (_ & _ & _ & Hp & Hop).
    exists o. split_and!; [done|done| | |rewrite Hp; apply progress_bounds..].
    + rewrite <- (sort_stable_perm newer orders). by eapply subseteq_take.
    + rewrite Hop. apply orb_true_iff in Hf. tauto.
  - intros o Ho Hs. rewrite HP. apply list_elem_of_fmap. exists o. split; [done|]. apply elem_of_filter_bool. split; [done|]. apply orb_true_iff.
    destruct Hs as [-> |?]; auto.
Qed.

Lemma same_id orders o o' : NoDup (map e_ID orders) → o ∈ orders → o' ∈ orders → e_ID o = e_ID o' → o = o'.
Proof.
  intros ND [i Hi]%list_elem_of_lookup [j Hj]%list_elem_of_lookup E. enough (i = j) as -> by congruence.
  eapply (NoDup_lookup (map e_ID orders)); [done| |]; rewrite list_lookup_fmap; [by rewrite Hi|]. rewrite Hj. cbn. by rewrite E.
Qed.

(** an order with twelve newer ones is in no row of the dialog, whether or not it is
    open and still to be paid: the twelve newest are taken first and the finished ones of earlier
    days left out afterwards, so that twelve finished orders hide it, and the dialog can be
    empty while it waits. *)
Theorem pos_recent_hides tehran now stages orders o :
  NoDup (map e_ID orders) → o ∈ orders →
  (12 ≤ length (List.filter (λ o', newer o' o) orders))%nat →
  e_ID o ∉ map rr_ID (pos_recent tehran now stages orders).
Proof.
  intros ND Ho Hn (r & Er & Hr)%list_elem_of_fmap. rewrite (pos_recent_rows tehran now stages orders) in Hr.
  apply list_elem_of_fmap in Hr as (o' & -> & [Ho' _]%elem_of_filter_bool). destruct (recent_row_state stages o') as [Ei _]. rewrite Ei in Er.
  assert (o' ∈ orders) as Hin by (rewrite <- (sort_stable_perm newer orders); by eapply subseteq_take).
  rewrite (same_id orders o o') in Hn by done. rewrite <- (filter_perm_length _ _ _ (sort_stable_perm newer orders)) in Hn.
  assert (∀ x, newer x x = false) as Hirr by (intros x; destruct (newer x x) eqn:E; [|done]; by rewrite (newer_asym x x E) in E).
  pose proof (sorted_take_before newer Hirr _ _ _ (sort_stable_sorted newer newer_asym newer_trans orders) Ho'). lia.
Qed.

(** ** Concrete runs *)

Definition some_row (id kind : string) (fields : list (string * goany)) : Entity :=
  {| e_ID := id; e_Type := kind; e_Version := 1; e_Payload := marshal (AMap fields) |}.

Definition menu_categories : list Entity := [some_row "c1" "category" [("label", AStr "نوشیدنی")]; some_row "c2" "category" []].
Definition menu_products : list Entity :=
  [some_row "p1" "product" [("category_id", AStr "c1")]; some_row "p2" "product" [("category_id", AStr "cx")];
   some_row "p3" "product" [("category_id", AStr "c1")]].

Lemma pos_groups_partition_witness :
  concat (map pg_Products (pos_groups menu_categories menu_products)) ≡ₚ menu_products
  ∧ map pg_ID (pos_groups menu_categories menu_products) = ["c1"; "__other"]%stdpp.
Proof.
  split; [|vm_compute; reflexivity]. refine (proj1 (pos_groups_partition _ _ _)). apply (bool_decide_unpack _). vm_compute. exact I.
Defined.

(** Twelve completed orders of one evening after an order that is still to be paid. *)
Definition waiting_order : Entity := some_row "o00" "order" [("created_at", AStr "2024-05-01T09:00:00Z"); ("status", AStr "ready")].
Definition evening_orders : list Entity :=
  waiting_order :: map (λ d, some_row ("o1-" +:+ d) "order" [("created_at", AStr ("2024-05-01T18:" +:+ d +:+ ":00Z")); ("status", AStr "completed")])
                       ["00"; "01"; "02"; "03"; "04"; "05"; "06"; "07"; "08"; "09"; "10"; "11"]%stdpp.

Lemma pos_recent_hides_witness :
  is_open waiting_order = true
  ∧ e_ID waiting_order ∉ map rr_ID (pos_recent (λ _, 12600%Z) (1714723200 * second) ["preparing"; "ready"]%stdpp evening_orders).
Proof.
  split; [vm_compute; reflexivity|]. apply pos_recent_hides.
  - apply (bool_decide_unpack _). vm_compute. exact I.
  - left.
  - apply Nat.leb_le. vm_compute. reflexivity.
Defined.

Example hidden_dialog : pos_recent (λ _, 12600%Z) (1714723200 * second) ["preparing"; "ready"]%stdpp evening_orders = [].
Proof. vm_compute. reflexivity. Qed.
