(* ===== verification/OrderBoard.v ===== *)
(** * The page of orders

    Models what [render] of [offline-menuvex/app.go] computes for the page of orders: the
    rows, which of them are shown for a search, a status and a day, their order, and the
    page of twenty that is asked for; and the search of the page of receipts. *)
From S2P Require Import Prelude GoStrings GoFloat GoJson GoTime Store Entities EntityView Records Orders OrderStates Forms Desk Till.

(** Lowering text for a search, [strings.ToLower] on all of Unicode: the program only
    compares what it gives, and nothing below depends on what that is. *)
Section Search.
Context (lower : string → string).

(** What a search looks for, and whether a text has it. *)
Definition needle (r : Request) (k : string) : string := lower (asked r k).
Definition finds (q text : string) : bool := sempty q || Contains (lower text) q.

(** ** A row *)

(* app.go OrderRow *)
Record OrderRow := {
  or_Entity : Entity;
  or_Number : string;
  or_ShortID : string;
  or_TableNumber : string;
  or_ItemsPreview : string;
  or_ItemsHidden : Z;
  or_ItemsFull : string;
  or_TotalFa : string;
  or_TimeLabel : string;
  or_StatusKey : string;
  or_StatusLabel : string;
  or_CustomerName : string;
  or_CashierName : string;
  or_OriginKind : string;
  or_OriginLabel : string;
  or_NextStatus : string;
  or_NextLabel : string;
  or_Cancellable : bool;
  or_CanDelete : bool;
  or_NumberRaw : string;
  or_CustomerPhone : string;
  or_ItemsJSON : string;
  or_Editable : bool;
}.

(* app.go:2594-2607 Application.render *)
Definition digitsOf (v : string) : string :=
  sconcat (map (λ r, match r with
                     | String c EmptyString => if is_digit c then r else EmptyString
                     | _ => match persian_val r with
                            | Some d => sone d
                            | None => match arabic_val r with Some d => sone d | None => EmptyString end
                            end
                     end) (runes v)).

(** The entities by their identifier, as the loop that fills the map leaves them. *)
(* app.go:2590-2593 Application.render *)
Definition by_id (l : list Entity) : gmap string Entity := foldl (λ m e, <[e_ID e := e]> m) ∅ l.

(** The number of an order's table: from the label stored with the order, or else from the table. *)
(* app.go:2642-2652 Application.render *)
Definition table_number (tables : gmap string Entity) (o : Entity) : string :=
  let n := digitsOf (Field o "table_label") in
  if sempty n then
    match tables !! Field o "table_id" with
    | Some t => let n := digitsOf (Field t "number") in if sempty n then digitsOf (Label t) else n
    | None => n
    end
  else n.

Definition item_text (it : OrderLineView) : string := ol_ProductName it +:+ " ×" +:+ FormatPersianNumber (Z_to_dec (ol_Quantity it)).
Definition item_json (it : OrderLineView) : goany :=
  AMap [("pid", AStr (ol_ProductID it)); ("title", AStr (ol_ProductName it)); ("qty", AInt (ol_Quantity it));
        ("unit", AStr (ol_UnitPrice it)); ("note", AStr (ol_Note it))].
Definition status_of (o : Entity) : string := orderStatusKey (Field o "status").
Definition can_edit (key : string) : bool := existsb (String.eqb key) ["PENDING"; "ACCEPTED"; "PREPARING"; "READY"]%stdpp.
Definition takeaway (o : Entity) : bool :=
  existsb (String.eqb (norm (Field o "fulfillment_type"))) ["outside"; "delivery"; "takeaway"]%stdpp.

(* app.go:2653-2725 Application.render *)
Definition order_row (now : Z) (stages : list string) (canDelete : bool) (tables : gmap string Entity) (o : Entity) : OrderRow :=
  let key := status_of o in
  let parts := map item_text (OrderItems o) in
  let number := displayOrderNumber (Field o "order_number") in
  let shortID := if (8 <=? String.length (e_ID o))%nat then "#" +:+ stake 8 (e_ID o) else EmptyString in
  let readable := negb (sempty number) && negb (bool_decide (number = "0")) in
  let n := table_number tables o in
  let '(next, label) := orderPrimaryAction (ToLower key) stages in
  {| or_Entity := o;
     or_Number := (if readable then FormatPersianNumber number else shortID);
     or_ShortID := (if readable then shortID else EmptyString);
     or_TableNumber := (if sempty n then EmptyString else FormatPersianNumber n);
     or_ItemsPreview := Join "، " (take 2 parts); or_ItemsHidden := (Z.of_nat (length parts) - Z.of_nat (length (take 2 parts)))%Z;
     or_ItemsFull := Join "، " parts; or_TotalFa := total_fa o; or_TimeLabel := orderRelTimeFa now (Field o "created_at");
     or_StatusKey := key; or_StatusLabel := StatusLabel o; or_CustomerName := TrimSpace (Field o "customer_name");
     or_CashierName := TrimSpace (Field o "cashier_name");
     or_OriginKind := (if takeaway o then "takeaway" else "pos"); or_OriginLabel := (if takeaway o then "بیرون‌بر" else "صندوق");
     or_NextStatus := next; or_NextLabel := label; or_Cancellable := can_edit key; or_CanDelete := canDelete; or_NumberRaw := number;
     or_CustomerPhone := TrimSpace (Field o "customer_phone"); or_ItemsJSON := marshal (AArr (map item_json (OrderItems o)));
     or_Editable := can_edit key |}.

(** ** The page *)

(* app.go:2583-2589 Application.render *)
Definition later_order (a b : Entity) : bool :=
  let ca := Field a "created_at" in
  let cb := Field b "created_at" in
  if bool_decide (ca = cb) then String.ltb (Field b "order_number") (Field a "order_number") else String.ltb cb ca.

(* app.go:2612-2618 Application.render *)
Definition status_filter (r : Request) : string :=
  let f := ToUpper (asked r "status") in
  if existsb (String.eqb f) ["PENDING"; "ACCEPTED"; "PREPARING"; "READY"; "COMPLETED"; "CANCELLED"]%stdpp then f else "ALL".

Definition scope_all (r : Request) : bool := bool_decide (asked r "scope" = "all").

(* app.go:2726-2737 Application.render *)
Definition row_shown (tehran : Z → Z) (now : Z) (r : Request) (tables : gmap string Entity) (row : OrderRow) : bool :=
  let f := status_filter r in
  (scope_all r || isTehranToday tehran now (Field (or_Entity row) "created_at"))
  && (bool_decide (f = "ALL") || bool_decide (or_StatusKey row = f))
  && finds (needle r "q") (or_NumberRaw row +:+ " " +:+ or_CustomerName row +:+ " " +:+ or_ItemsFull row +:+ " "
                           +:+ table_number tables (or_Entity row) +:+ " " +:+ or_TableNumber row).

(* app.go:2745-2753 Application.render *)
Definition ordRank (row : OrderRow) : nat :=
  if bool_decide (or_StatusKey row = "COMPLETED") then 1 else if bool_decide (or_StatusKey row = "CANCELLED") then 2 else 0.

(** Everything the page is made from. *)
Record Board := {
  bd_tehran : Z → Z;
  bd_now : Z;
  bd_stages : list string;
  bd_authDisabled : bool;
  bd_role : option string;
  bd_orders : list Entity;
  bd_tables : list Entity;
}.

(* app.go:2608-2609 Application.render *)
Definition can_delete (b : Board) : bool := bd_authDisabled b || bool_decide (bd_role b = Some "manager"%stdpp).

Definition all_rows (b : Board) : list OrderRow :=
  map (order_row (bd_now b) (bd_stages b) (can_delete b) (by_id (bd_tables b))) (sort_stable later_order (bd_orders b)).

(** The rows a request sees, over all pages. *)
(* app.go:2738-2754 Application.render *)
Definition shown_rows (b : Board) (r : Request) : list OrderRow :=
  sort_stable (λ x y, (ordRank x <? ordRank y)%nat)
    (List.filter (row_shown (bd_tehran b) (bd_now b) r (by_id (bd_tables b))) (all_rows b)).

Record OrderPage := {
  op_OrdCntAll : Z;
  op_OrdCnt : string → Z;
  op_OrdersOpenCount : Z;
  op_OrdersCompletedRevenueFa : string;
  op_OrderStatusFilter : string;
  op_OrderScopeAll : bool;
  op_OrderFilteredTotal : Z;
  op_OrderTotalPages : Z;
  op_OrderPageNum : Z;
  op_OrderPrevPage : Z;
  op_OrderNextPage : Z;
  op_OrderRows : list OrderRow;
  op_OrderFrom : Z;
  op_OrderTo : Z;
}.

Definition orderPageSize : Z := 20.

(* app.go:2762-2770 Application.render *)
Definition page_asked (r : Request) (total : Z) : Z :=
  let raw := asked r "p" in
  let n := if sempty raw then 1%Z else match Atoi raw with (n, true) => if (0 <? n)%Z then n else 1%Z | _ => 1%Z end in
  if (total <? n)%Z then total else n.

Definition settled_keys : list string := ["COMPLETED"; "CANCELLED"; "REFUNDED"].

(** How many orders have a status, how many are not settled, and what the completed ones brought. *)
(* app.go:2620-2641 Application.render *)
Definition order_counts (orders : list Entity) : (string → Z) * Z * Z :=
  let keys := map status_of orders in
  (λ k, count (String.eqb k) keys, count (λ k, negb (existsb (String.eqb k) settled_keys)) keys,
   Zsum (map (λ o, parseIRRBig (PriceIRR o)) (List.filter (λ o, bool_decide (status_of o = "COMPLETED")) orders))).

(* app.go:2740-2787 Application.render *)
Definition orders_page (b : Board) (r : Request) : OrderPage :=
  let '(cnt, open, revenue) := order_counts (bd_orders b) in
  let rows := shown_rows b r in
  let n := Z.of_nat (length rows) in
  let total := Z.max 1 (Z.quot (n + orderPageSize - 1) orderPageSize) in
  let page := page_asked r total in
  let start := Z.min n ((page - 1) * orderPageSize) in
  let stop := Z.min n ((page - 1) * orderPageSize + orderPageSize) in
  {| op_OrdCntAll := Z.of_nat (length (bd_orders b)); op_OrdCnt := cnt;
     op_OrdersOpenCount := open;
     op_OrdersCompletedRevenueFa := FormatPersianNumber (Z_to_dec (revenue / 10));
     op_OrderStatusFilter := status_filter r; op_OrderScopeAll := scope_all r; op_OrderFilteredTotal := n;
     op_OrderTotalPages := total; op_OrderPageNum := page; op_OrderPrevPage := page - 1; op_OrderNextPage := page + 1;
     op_OrderRows := take (Z.to_nat (stop - start)) (drop (Z.to_nat start) rows);
     op_OrderFrom := (if (n =? 0)%Z then 0 else start + 1); op_OrderTo := (if (n =? 0)%Z then 0 else stop) |}.

(** ** The page of receipts *)

(* app.go:2788-2807 Application.render *)
Definition receipts_shown (r : Request) (orders : list Entity) : list Entity :=
  let q := lower (TrimSpace (query r "q")) in
  if sempty q then orders
  else List.filter (λ o, Contains (lower (displayOrderNumber (Field o "order_number") +:+ " " +:+ Field o "customer_name" +:+ " "
                                          +:+ Field o "customer_phone" +:+ " " +:+ Field o "table_label" +:+ " "
                                          +:+ Join " " (map ol_ProductName (OrderItems o)))) q) orders.

(** ** What the page shows *)

Lemma asked_with_query k v r k' : k' ≠ k → asked (with_query k v r) k' = asked r k'.
Proof. intros H. unfold asked, query, with_query. cbn [rq_Query]. by rewrite lookup_insert_ne. Qed.

Lemma asked_with_query_eq k v r : asked (with_query k v r) k = TrimSpace v.
Proof. unfold asked, query, with_query. cbn [rq_Query]. by rewrite lookup_insert_eq. Qed.

(** Which page is asked for does not change what is on the pages. *)
Lemma shown_rows_page b r v : shown_rows b (with_query "p" v r) = shown_rows b r.
Proof.
  unfold shown_rows. f_equal. apply List.filter_ext. intros row. unfold row_shown, scope_all, status_filter, needle.
  by rewrite !asked_with_query by done.
Qed.

Lemma page_asked_bounds r total : (1 ≤ total → 1 ≤ page_asked r total ≤ total)%Z.
Proof.
  intros H. unfold page_asked. set (n := if sempty _ then _ else _). assert (1 ≤ n)%Z as Hn.
  { subst n. destruct (sempty _); [done|]. destruct (Atoi _) as [z []]; [|done]. destruct (0 <? z)%Z eqn:E; [|done]. apply Z.ltb_lt in E. lia. }
  destruct (total <? n)%Z eqn:E; [lia|]. apply Z.ltb_ge in E. lia.
Qed.

Lemma page_asked_number r k total : (1 ≤ k ≤ total)%Z → in_int64 k → page_asked (with_query "p" (Z_to_dec k) r) total = k.
Proof.
  intros Hk Hi. unfold page_asked. rewrite asked_with_query_eq, TrimSpace_Z_to_dec.
  destruct (sempty (Z_to_dec k)) eqn:E; [apply sempty_true in E; by apply Z_to_dec_nonempty in E|].
  rewrite Atoi_Z_to_dec by done. rewrite (proj2 (Z.ltb_lt 0 k)) by lia. by rewrite (proj2 (Z.ltb_ge total k)) by lia.
Qed.

Lemma concat_pages {A} (m n : nat) (l : list A) : (length l ≤ n * m)%nat → concat (map (λ k, take m (drop (k * m) l)) (seq 0 n)) = l.
Proof.
  revert l. induction n as [|n IH]; intros l H; [by destruct l; cbn in H; [|lia]|]. cbn [seq map concat Nat.mul drop].
  rewrite <- seq_shift, map_map. etrans; [|apply (take_drop m l)]. f_equal. etrans; [|apply (IH (drop m l))].
  - f_equal. apply map_ext. intros k. by rewrite drop_drop.
  - rewrite length_drop. lia.
Qed.

(** The page's rows, by the number of the page. *)
Definition page_rows (rows : list OrderRow) (page : Z) : list OrderRow := take 20 (drop (Z.to_nat ((page - 1) * 20)) rows).
Definition pages_of (rows : list OrderRow) : Z := Z.max 1 (Z.quot (Z.of_nat (length rows) + 19) 20).

Lemma pages_enough rows : (length rows ≤ Z.to_nat (pages_of rows) * 20)%nat.
Proof.
  unfold pages_of. rewrite Z.quot_div_nonneg by lia. pose proof (Z.div_mod (Z.of_nat (length rows) + 19) 20 ltac:(lia)).
  pose proof (Z.mod_pos_bound (Z.of_nat (length rows) + 19) 20 ltac:(lia)). lia.
Qed.

Lemma pages_full rows page : (1 ≤ page ≤ pages_of rows)%Z → rows ≠ [] → ((page - 1) * 20 < Z.of_nat (length rows))%Z.
Proof.
  unfold pages_of. rewrite Z.quot_div_nonneg by lia. pose proof (Z.div_mod (Z.of_nat (length rows) + 19) 20 ltac:(lia)).
  pose proof (Z.mod_pos_bound (Z.of_nat (length rows) + 19) 20 ltac:(lia)). destruct rows; [done|]. cbn [length] in *. lia.
Qed.

Lemma orders_page_rows b r :
  let p := orders_page b r in
  op_OrderTotalPages p = pages_of (shown_rows b r) ∧ op_OrderPageNum p = page_asked r (pages_of (shown_rows b r))
  ∧ op_OrderRows p = page_rows (shown_rows b r) (op_OrderPageNum p)
  ∧ op_OrderFilteredTotal p = Z.of_nat (length (shown_rows b r))
  ∧ (shown_rows b r ≠ [] → op_OrderFrom p = ((op_OrderPageNum p - 1) * 20 + 1)%Z
       ∧ op_OrderTo p = (op_OrderFrom p + Z.of_nat (length (op_OrderRows p)) - 1)%Z).
Proof.
  cbv zeta. unfold orders_page. destruct (order_counts (bd_orders b)) as [[? ?] ?]. cbn. unfold orderPageSize, page_rows.
  set (rows := shown_rows b r). replace (Z.of_nat (length rows) + 20 - 1)%Z with (Z.of_nat (length rows) + 19)%Z by lia. fold (pages_of rows).
  pose proof (page_asked_bounds r (pages_of rows) ltac:(unfold pages_of; lia)) as Hp. set (page := page_asked r (pages_of rows)) in *.
  destruct (decide (rows = [])) as [->|Hne]; [by rewrite !drop_nil, !take_nil|].
  pose proof (pages_full rows page Hp Hne) as Hf. rewrite (Z.min_r _ ((page - 1) * 20)) by lia.
  assert (Z.of_nat (length rows) =? 0 = false)%Z as -> by (apply Z.eqb_neq; destruct rows; [done|cbn; lia]).
  rewrite length_take, length_drop. split_and!; [done..| |done|].
  - destruct (decide ((page - 1) * 20 + 20 ≤ Z.of_nat (length rows))%Z) as [Hle|Hgt].
    + rewrite Z.min_r by lia. f_equal. lia.
    + rewrite Z.min_l by lia. rewrite !take_ge; [done|rewrite length_drop; lia..].
  - intros _. split; [done|]. lia.
Qed.

Lemma page_rows_all rows : concat (map (λ k, page_rows rows (Z.of_nat k)) (seq 1 (Z.to_nat (pages_of rows)))) = rows.
Proof.
  etrans; [|apply (concat_pages 20 (Z.to_nat (pages_of rows)) rows (pages_enough rows))]. rewrite <- seq_shift, map_map. f_equal. apply map_ext.
  intros k. unfold page_rows. f_equal. f_equal. lia.
Qed.

(** every order is on one page.  For any search, the pages put one behind the other are
    the rows that match, in order, none twice and none left out; whatever is asked for as the page, a
    page that exists is shown, with at most twenty rows, with none only if no row matches,
    and with the numbers of its first and last row right. *)
Theorem orders_page_partition b r :
  length (shown_rows b r) ≤ 500 →
  let total := op_OrderTotalPages (orders_page b r) in
  concat (map (λ k, op_OrderRows (orders_page b (with_query "p" (Z_to_dec (Z.of_nat k)) r))) (seq 1 (Z.to_nat total))) = shown_rows b r
  ∧ ∀ v, let p := orders_page b (with_query "p" v r) in
      op_OrderTotalPages p = total ∧ (1 ≤ op_OrderPageNum p ≤ total)%Z ∧ length (op_OrderRows p) ≤ 20
      ∧ (op_OrderRows p = [] ↔ shown_rows b r = [])
      ∧ (shown_rows b r ≠ [] → op_OrderFrom p = ((op_OrderPageNum p - 1) * 20 + 1)%Z
           ∧ op_OrderTo p = (op_OrderFrom p + Z.of_nat (length (op_OrderRows p)) - 1)%Z).
Proof.
  intros Hlen. cbv zeta. destruct (orders_page_rows b r) as (-> & _). set (rows := shown_rows b r) in *.
  assert (∀ v, shown_rows b (with_query "p" v r) = rows) as Hv by (intros v; apply shown_rows_page). split.
  - etrans; [|apply (page_rows_all rows)]. f_equal. apply map_ext_in. intros k [Hk1 Hk2]%in_seq.
    destruct (orders_page_rows b (with_query "p" (Z_to_dec (Z.of_nat k)) r)) as (_ & Hn & Hr & _). rewrite Hr, Hn, Hv, page_asked_number; [done|lia|].
    assert (pages_of rows ≤ 500)%Z by (unfold pages_of; rewrite Z.quot_div_nonneg by lia; apply Z.max_lub; [lia|]; apply Z.div_le_upper_bound; lia).
    unfold in_int64, two63. lia.
  - intros v. destruct (orders_page_rows b (with_query "p" v r)) as (Ht & Hn & Hr & _ & Hf). rewrite Hv in *.
    assert (1 ≤ pages_of rows)%Z as H1 by (unfold pages_of; lia). pose proof (page_asked_bounds (with_query "p" v r) _ H1) as Hp. rewrite <- Hn in Hp.
    split_and!; [done|lia|lia| | |done].
    + rewrite Hr. unfold page_rows. rewrite length_take. lia.
    + rewrite Hr. unfold page_rows. split; [|intros ->; by rewrite drop_nil]. intros E. destruct (decide (rows = [])) as [|Hne]; [done|].
      pose proof (pages_full rows _ Hp Hne). apply (f_equal length) in E. rewrite length_take, length_drop in E. cbn [length] in E. lia.
Qed.

Lemma later_order_spec a b : later_order a b = true ↔
  String.leb (created a) (created b) = false
  ∨ (created a = created b ∧ String.leb (Field a "order_number") (Field b "order_number") = false).
Proof.
  unfold later_order. fold (created a) (created b). case_bool_decide as E; rewrite ltb_true; [|naive_solver].
  rewrite E, leb_refl. naive_solver.
Qed.

Lemma later_order_false a b : later_order a b = false ↔
  String.leb (created a) (created b) = true ∧ (created a = created b → String.leb (Field a "order_number") (Field b "order_number") = true).
Proof. rewrite <- not_true_iff_false, later_order_spec, <- !not_false_iff_true. destruct (decide (created a = created b)); tauto. Qed.

Lemma later_order_asym x y : later_order x y = true → later_order y x = false.
Proof.
  rewrite later_order_spec, later_order_false. intros [H|[E H]].
  - destruct (leb_total (created x) (created y)) as [|H']; [congruence|]. split; [done|]. intros E. rewrite E, leb_refl in H. done.
  - rewrite E, leb_refl. split; [done|]. intros _. by destruct (leb_total (Field x "order_number") (Field y "order_number")); [congruence|].
Qed.

Lemma later_order_trans x y z : later_order y x = false → later_order z y = false → later_order z x = false.
Proof.
  rewrite !later_order_false. intros [H1 N1] [H2 N2]. split; [by eapply leb_trans|]. intros E.
  assert (created z = created y) as E' by (apply leb_antisym; [done|by rewrite E]). eapply leb_trans; [by apply N2|]. apply N1. congruence.
Qed.

Definition row_rank_less (x y : OrderRow) : bool := (ordRank x <? ordRank y)%nat.

Lemma row_entity now stages cd tables o : or_Entity (order_row now stages cd tables o) = o ∧ or_StatusKey (order_row now stages cd tables o) = status_of o
  ∧ or_CanDelete (order_row now stages cd tables o) = cd ∧ or_Editable (order_row now stages cd tables o) = can_edit (status_of o)
  ∧ or_Cancellable (order_row now stages cd tables o) = can_edit (status_of o).
Proof. unfold order_row. by destruct (orderPrimaryAction _ _). Qed.

Lemma sorted_map {A B} (f : A → B) (R : B → B → Prop) l : StronglySorted (λ x y, R (f x) (f y)) l → StronglySorted R (map f l).
Proof. induction 1 as [|x l H IH Hx]; [constructor|]. cbn [map]. constructor; [done|]. by apply Forall_fmap. Qed.

Lemma sorted_filter {A} (f : A → bool) (R : A → A → Prop) l : StronglySorted R l → StronglySorted R (List.filter f l).
Proof.
  induction 1 as [|x l H IH Hx]; [constructor|]. cbn [List.filter]. destruct (f x); [|done]. constructor; [done|].
  rewrite Forall_forall in Hx |- *. intros y [Hy _]%elem_of_filter_bool. by apply Hx.
Qed.

Definition status_keys : list string := ["PENDING"; "ACCEPTED"; "PREPARING"; "READY"; "COMPLETED"; "CANCELLED"; "REFUNDED"].

Lemma status_of_known o : status_of o ∈ status_keys.
Proof. unfold status_of, orderStatusKey. cbn [switch]. repeat (destruct (existsb _ _)); unfold status_keys; set_solver. Qed.

Lemma counts_add_up (l : list string) : Forall (λ k, k ∈ status_keys) l →
  Zsum (map (λ k, count (String.eqb k) l) status_keys) = Z.of_nat (length l)
  ∧ count (λ k, negb (existsb (String.eqb k) settled_keys)) l = Zsum (map (λ k, count (String.eqb k) l) (take 4 status_keys)).
Proof.
  unfold count, Zsum. induction 1 as [|k l Hk H [IH1 IH2]]; [done|]. cbn [List.filter]. unfold status_keys in Hk. rewrite !elem_of_cons in Hk.
  unfold status_keys in *. cbn [map foldr take] in *. cbn [List.filter].
  destruct Hk as [->|[->|[->|[->|[->|[->|[->|Hk]]]]]]]; [cbn -[Z.of_nat List.filter] in *; lia..|by apply not_elem_of_nil in Hk].
Qed.

(** what the page of orders shows.  Its rows are exactly the orders that pass the
    search, the status and the day asked for, each once; the open ones come first, then the
    completed and then the cancelled ones, and within each of these the newest come first.  The
    numbers above them count every order of the store under exactly one status, the open ones being the
    four that may be edited and cancelled; and only the manager is offered deletion. *)
Theorem orders_page_shows b r :
  let row := order_row (bd_now b) (bd_stages b) (can_delete b) (by_id (bd_tables b)) in
  let rows := shown_rows b r in
  rows ≡ₚ List.filter (row_shown (bd_tehran b) (bd_now b) r (by_id (bd_tables b))) (map row (bd_orders b))
  ∧ StronglySorted (λ x y, ordRank x ≤ ordRank y ∧ (ordRank x = ordRank y → later_order (or_Entity y) (or_Entity x) = false)) rows
  ∧ (∀ x, x ∈ rows → or_CanDelete x = true → bd_authDisabled b = true ∨ bd_role b = Some "manager"%stdpp)
  ∧ (∀ x, x ∈ rows → or_Editable x = true ↔ ordRank x = 0 ∧ or_StatusKey x ≠ "REFUNDED"%stdpp)
  ∧ let p := orders_page b r in
    Zsum (map (op_OrdCnt p) status_keys) = op_OrdCntAll p ∧ op_OrdersOpenCount p = Zsum (map (op_OrdCnt p) (take 4 status_keys)).
Proof.
  cbv zeta. set (row := order_row _ _ _ _). assert (shown_rows b r ≡ₚ List.filter (row_shown (bd_tehran b) (bd_now b) r (by_id (bd_tables b)))
    (map row (bd_orders b))) as HP.
  { unfold shown_rows. rewrite sort_stable_perm. apply filter_perm. unfold all_rows. by rewrite sort_stable_perm. }
  split; [exact HP|]. assert (∀ x, x ∈ shown_rows b r → ∃ o, x = row o) as Hrow.
  { intros x. rewrite HP, elem_of_filter_bool. intros [(o & -> & _)%list_elem_of_fmap _]. eauto. }
  split; [|split; [|split]].
  - eapply strongly_sorted_impl; [|apply (sort_stable_lex row_rank_less (λ x y, later_order (or_Entity y) (or_Entity x) = false))].
    + intros x y. unfold row_rank_less. rewrite !Nat.ltb_ge. intros [H1 H2]. split; [done|]. intros E. apply H2. lia.
    + intros x y. unfold row_rank_less. rewrite Nat.ltb_lt, Nat.ltb_ge. lia.
    + intros x y z. unfold row_rank_less. rewrite !Nat.ltb_ge. lia.
    + apply sorted_filter. unfold all_rows. apply sorted_map. eapply strongly_sorted_impl; [|apply (sort_stable_sorted later_order later_order_asym later_order_trans)].
      intros x y H. destruct (row_entity (bd_now b) (bd_stages b) (can_delete b) (by_id (bd_tables b)) x) as [-> _].
      by destruct (row_entity (bd_now b) (bd_stages b) (can_delete b) (by_id (bd_tables b)) y) as [-> _].
  - subst row. intros x (o & ->)%Hrow. destruct (row_entity (bd_now b) (bd_stages b) (can_delete b) (by_id (bd_tables b)) o) as (_ & _ & -> & _).
    unfold can_delete. rewrite orb_true_iff, bool_decide_eq_true. tauto.
  - subst row. intros x (o & ->)%Hrow. destruct (row_entity (bd_now b) (bd_stages b) (can_delete b) (by_id (bd_tables b)) o) as (_ & E & _ & E' & _).
    rewrite E'. unfold ordRank. rewrite E. pose proof (status_of_known o) as Hk. unfold status_keys in Hk. rewrite !elem_of_cons in Hk.
    destruct Hk as [->|[->|[->|[->|[->|[->|[->|Hk]]]]]]]; [vm_compute; intuition congruence..|by apply not_elem_of_nil in Hk].
  - unfold orders_page, order_counts. cbn [op_OrdCnt op_OrdCntAll op_OrdersOpenCount].
    destruct (counts_add_up (map status_of (bd_orders b))) as [H1 H2]; [apply Forall_fmap, Forall_forall; intros; apply status_of_known|].
    rewrite length_map in H1. by split.
Qed.
End Search.

(** ** A concrete page *)

Definition a_board : Board :=
  {| bd_tehran := λ _, 12600%Z; bd_now := (1714723200 * second)%Z; bd_stages := ["preparing"; "ready"]%stdpp; bd_authDisabled := false;
     bd_role := Some "cashier"%stdpp; bd_orders := evening_orders; bd_tables := [] |}.

Lemma orders_page_partition_witness :
  let r := with_query "scope" "all" (asking []) in
  let p := orders_page ToLower a_board (with_query "p" "9" r) in
  op_OrderPageNum p = 1%Z ∧ length (shown_rows ToLower a_board r) = 13 ∧ (1 ≤ op_OrderPageNum p ≤ op_OrderTotalPages (orders_page ToLower a_board r))%Z.
Proof.
  cbv zeta. assert (length (shown_rows ToLower a_board (with_query "scope" "all" (asking []))) = 13) as Hl by (vm_compute; reflexivity).
  split; [vm_compute; reflexivity|]. split; [exact Hl|].
  destruct (orders_page_partition ToLower a_board (with_query "scope" "all" (asking []))) as [_ H]; [rewrite Hl; lia|].
  destruct (H "9"%stdpp) as (_ & H1 & _). exact H1.
Defined.
