(* ===== verification/Stockroom.v ===== *)
(** * The pages of products and of the stock

    Models what [render] of [offline-menuvex/app.go] computes for the pages of products, of
    categories and of the stock of ingredients, and for the forms that edit a record.  The
    value of the stock is taken with [math/big], which stops the handler when the stock is
    no number: the page is [None] then. *)
From S2P Require Import Prelude GoStrings GoFloat GoJson GoTime Store Entities EntityView Records Orders OrderStates Inventory Forms Desk Till OrderBoard.

(** ** Numbers *)

(** [strconv.FormatFloat(x, 'f', -1, 64)]: the fewest digits that read back as [x]. *)
Definition FormatShort (x : f64) : string :=
  match x with
  | NaN => "NaN"
  | Inf s => if s then "-Inf" else "+Inf"
  | Fin s 0%N _ => sign_str s +:+ "0"
  | Fin s m e => let '(ds, k) := shortest m e in sign_str s +:+ layout_f ds k
  end.

(** An integer rounded to [p] binary digits, half to even: the digits and the power of two. *)
Definition round_bits (p n : Z) : Z * Z :=
  let bits := (if n =? 0 then 0 else Z.log2 n + 1)%Z in
  if (bits <=? p)%Z then (n, 0%Z) else (round_half_even n (2 ^ (bits - p)), bits - p)%Z.

(** [new(big.Float).Mul(big.NewFloat(x), new(big.Float).SetInt(a))] made an integer by
    [Int(nil)], which cuts the fraction off.  The product has as many bits as [a], at least
    64.  [None] is a panic: [NewFloat] does not take NaN, and [Int] of an infinity is nil. *)
Definition mul_int (x : f64) (a : Z) : option Z :=
  match x with
  | Fin s m e =>
      let p := Z.max 64 (if a =? 0 then 0 else Z.log2 (Z.abs a) + 1)%Z in
      let '(n, k) := round_bits p (Z.of_N m * Z.abs a) in
      let '(n, d) := ratio n (k + e) in
      let v := (n / d)%Z in
      Some (if xorb s (a <? 0)%Z then - v else v)%Z
  | _ => None
  end.

Section Pages.
Context (lower : string → string).
Notation finds := (finds lower).
Notation needle := (needle lower).

(** A filter of the query: empty, or the value itself. *)
Definition wanted (q v : string) : bool := sempty q || bool_decide (v = q).

(** ** Products *)

(* app.go ProductRow *)
Record ProductRow := {
  pr_Rank : Z;
  pr_Entity : Entity;
  pr_CategoryLabel : string;
  pr_OrdersCount : Z;
  pr_StatusKey : string;
  pr_StockDisplay : string;
  pr_ImageURL : string;
}.

(* app.go ProductRow.StatusText *)
Definition product_status_text (row : ProductRow) : string :=
  switch (pr_StatusKey row) [(["low"], "کم‌موجودی"); (["out"], "ناموجود")]%stdpp "موجود".

Definition is_cancelled_order (o : Entity) : bool := EqualFold (Field o "status") "cancelled" || EqualFold (Field o "status") "canceled".

(** How many of each product were ordered. *)
(* app.go:2293-2303 Application.render *)
Definition orders_count (orders : list Entity) : gmap string Z :=
  foldl (λ m l, <[ol_ProductID l := wrap64 (default 0%Z (m !! ol_ProductID l) + ol_Quantity l)]> m) ∅
        (concat (map OrderItems (List.filter (λ o, negb (is_cancelled_order o)) orders))).

Definition stock_of_product (prod : Entity) : option f64 :=
  let raw := TrimSpace (Field prod "stock") in
  match ParseFloat raw with (x, true) => if sempty raw then None else Some x | _ => None end.

(* app.go:2313-2324 Application.render *)
Definition product_status (prod : Entity) : string :=
  let stock := stock_of_product prod in
  if bool_decide (Field prod "is_available" = "false") || match stock with Some s => fle s fzero | None => false end then "out"
  else if match stock with Some s => flt s (f64_of_Z 10) | None => false end then "low"
  else "in".

Definition dash : string := "—".
Definition or_dash (s : string) : string := if sempty s then dash else s.

(* app.go:2308-2329 Application.render *)
Definition product_row (catLabel : gmap string string) (counts : gmap string Z) (prod : Entity) : ProductRow :=
  {| pr_Rank := 0; pr_Entity := prod; pr_CategoryLabel := or_dash (default EmptyString (catLabel !! Field prod "category_id"));
     pr_OrdersCount := default 0%Z (counts !! e_ID prod); pr_StatusKey := product_status prod;
     pr_StockDisplay := match stock_of_product prod with Some s => FormatPersianNumber (FormatShort s) | None => dash end;
     pr_ImageURL := Field prod "image" |}.

(* app.go:2339-2347 Application.render *)
Definition product_shown (r : Request) (row : ProductRow) : bool :=
  let q := needle r "q" in
  let prod := pr_Entity row in
  (finds q (Label prod) || finds q (Field prod "description"))
  && wanted (asked r "category") (Field prod "category_id") && wanted (asked r "status") (pr_StatusKey row).

(** [row.Rank = len(v.ProductRows) + 1] *)
Definition ranked (i : nat) (row : ProductRow) : ProductRow :=
  {| pr_Rank := Z.of_nat i + 1; pr_Entity := pr_Entity row; pr_CategoryLabel := pr_CategoryLabel row; pr_OrdersCount := pr_OrdersCount row;
     pr_StatusKey := pr_StatusKey row; pr_StockDisplay := pr_StockDisplay row; pr_ImageURL := pr_ImageURL row |}.

Record ProductsPage := {
  pp_ProductRows : list ProductRow;
  pp_ProductsInStock : Z;
  pp_ProductsLowStock : Z;
  pp_ProductsOutOfStock : Z;
  pp_ProductsTotal : Z;
}.

(** The labels by identifier. *)
Definition labels_of (l : list Entity) : gmap string string := foldl (λ m c, <[e_ID c := Label c]> m) ∅ l.

(* app.go:2283-2351 Application.render *)
Definition products_page (r : Request) (categories orders products : list Entity) : ProductsPage :=
  let rows := map (product_row (labels_of categories) (orders_count orders)) products in
  let keys := map pr_StatusKey rows in
  {| pp_ProductRows := imap ranked (List.filter (product_shown r) rows);
     pp_ProductsInStock := count (λ k, negb (String.eqb "out" k) && negb (String.eqb "low" k)) keys;
     pp_ProductsLowStock := count (String.eqb "low") keys; pp_ProductsOutOfStock := count (String.eqb "out") keys;
     pp_ProductsTotal := Z.of_nat (length products) |}.

(* app.go:2411-2422 Application.render *)
Definition category_rows (categories products : list Entity) : list (Entity * Z) :=
  map (λ c, (c, count (λ p, bool_decide (Field p "category_id" = e_ID c)) products)) categories.

(** ** Forms that edit a record *)

(** What a form shows of a record: every member of its payload, strings as they are and the rest as JSON. *)
(* app.go:2363-2371 Application.render *)
Definition fields_of (e : Entity) : gmap string string :=
  foldl (λ m p, <[p.1 := default p.2 (unmarshal_string p.2)]> m) ∅ (default [] (raw_members (e_Payload e))).

Record FormState := {
  fs_Action : string;
  fs_EntityID : string;
  fs_Fields : gmap string string;
}.

(** The forms of ingredients and groups, of members of staff and of products begin so. *)
(* app.go:2552-2570 Application.render *)
Definition form_state (id : string) (found : res Entity) : FormState :=
  match (if sempty id then Err EmptyString else found) with
  | Ok e => {| fs_Action := "update"; fs_EntityID := id; fs_Fields := fields_of e |}
  | Err _ => {| fs_Action := "create"; fs_EntityID := id; fs_Fields := ∅ |}
  end.

(* app.go ProductVariantRow *)
Record ProductVariantRow := { pv_Title : string; pv_Value : string; pv_Active : bool }.

(** A [*bool] field: null makes it nil. *)
Definition dec_bool_ptr (ms : list (string * json)) : option (option bool) :=
  foldl (λ acc m, match acc, m.2 with
                  | Some _, JNull => Some None
                  | Some _, JBool b => Some (Some b)
                  | _, _ => None
                  end) (Some None) ms.

Definition dec_variant (o : list (string * (string * json))) : option ProductVariantRow :=
  match dec_string (struct_members "title" o), dec_bool_ptr (struct_members "is_active" o) with
  | Some title, Some active =>
      Some {| pv_Title := title; pv_Value := TrimByte quote_char (dec_raw (struct_members "value" o)); pv_Active := default true active |}
  | _, _ => None
  end.

(* app.go:2372-2392 Application.render *)
Definition product_variants (e : Entity) : list ProductVariantRow :=
  match parse_json (e_Payload e) with
  | Some (JObj o) => default [] (dec_list dec_variant (struct_members "variants" o))
  | _ => []
  end.

(* app.go ProductRecipeLineRow *)
Record ProductRecipeLineRow := { pl_IngredientID : string; pl_Quantity : string; pl_Unit : string }.

(* app.go:2393-2408 Application.render *)
Definition product_recipe (id : string) (recipes : list Entity) : list ProductRecipeLineRow :=
  match List.find (λ rec, bool_decide (Field rec "product_id" = id)) recipes with
  | Some rec => map (λ l, {| pl_IngredientID := rl_IngredientID l; pl_Quantity := rl_Quantity l; pl_Unit := rl_Unit l |}) (RecipeLines rec)
  | None => []
  end.

(** The product's form: the state of the form, its variants and its recipe. *)
(* app.go:2352-2410 Application.render *)
Definition product_form (id : string) (found : res Entity) (recipes : list Entity) : FormState * list ProductVariantRow * list ProductRecipeLineRow :=
  match (if sempty id then Err EmptyString else found) with
  | Ok e => (form_state id found, product_variants e, product_recipe id recipes)
  | Err _ => (form_state id found, [], [])
  end.

(** ** Ingredients *)

(* app.go InvRow *)
Record InvRow := {
  ir_Entity : Entity;
  ir_StatusKey : string;
  ir_StockDisplay : string;
  ir_ValueToman : string;
  ir_Location : string;
  ir_Category : string;
}.

(* app.go InvRow.StatusText *)
Definition stock_status_text (row : InvRow) : string :=
  switch (ir_StatusKey row) [(["low"], "کم‌موجودی"); (["out"], "پایان‌یافته")]%stdpp "موجود".

Definition days_30 : Z := 30 * 86400 * second.

(** What was taken from each ingredient in the last thirty days; a movement whose time
    cannot be read counts. *)
(* app.go:2435-2447 Application.render *)
Definition consumption (now : Z) (movements : list Entity) : gmap string f64 :=
  foldl (λ m mv,
    match ParseFloat (Field mv "quantity") with
    | (qty, true) =>
        if fge qty fzero then m
        else if match ParseRFC3339 (Field mv "created_at") with Some ts => (ts <? now - days_30)%Z | None => false end then m
        else let id := Field mv "ingredient_id" in <[id := fadd (default fzero (m !! id)) (fneg qty)]> m
    | _ => m
    end) ∅ movements.

Definition current_stock (ing : Entity) : f64 := (ParseFloat (Field ing "current_stock")).1.

(* app.go:2462-2469 Application.render *)
Definition stock_status (ing : Entity) : string :=
  if fle (current_stock ing) fzero then "out" else if NeedsReorder ing then "low" else "in".

(** What the stock of an ingredient is worth. *)
(* app.go:2470-2472 Application.render *)
Definition stock_value (ing : Entity) : option Z := mul_int (current_stock ing) (parseIRRBig (Field ing "average_cost")).

Definition or_else (s d : string) : string := if sempty s then d else s.

(* app.go:2451-2474 Application.render *)
Definition inv_row (ing : Entity) (value : Z) : InvRow :=
  {| ir_Entity := ing; ir_StatusKey := stock_status ing;
     ir_StockDisplay := FormatPersianNumber (FormatShort (current_stock ing)) +:+ " " +:+ UnitLabel ing;
     ir_ValueToman := FormatIRRToToman (Z_to_dec value); ir_Location := or_else (Field ing "storage_location") "انبار اصلی";
     ir_Category := or_else (Field ing "category") "بدون دسته‌بندی" |}.

(** The rows with what they are worth, unless one stops the handler. *)
Definition inv_rows (ingredients : list Entity) : option (list (InvRow * Z)) :=
  mapM (λ ing, (λ v, (inv_row ing v, v)) <$> stock_value ing) ingredients.

(** Whether the stock lasts for at most thirty days more. *)
(* app.go:2481-2485 Application.render *)
Definition ending_soon (used : gmap string f64) (ing : Entity) : bool :=
  let stock := current_stock ing in
  let daily := fdiv (default fzero (used !! e_ID ing)) (f64_of_Z 30) in
  fgt stock fzero && fgt daily fzero && fle (fdiv stock daily) (f64_of_Z 30).

(* app.go:2490-2502 Application.render *)
Definition inv_shown (r : Request) (row : InvRow) : bool :=
  let q := needle r "q" in
  let ing := ir_Entity row in
  (finds q (Label ing) || finds q (Field ing "sku") || finds q (ir_Location row) || finds q (Field ing "supplier"))
  && wanted (asked r "icategory") (ir_Category row) && wanted (asked r "ilocation") (ir_Location row)
  && wanted (asked r "istatus") (ir_StatusKey row).

(* app.go:2530-2545 Application.render *)
Definition inv_sorted (by_ : string) (rows : list InvRow) : list InvRow :=
  let stock row := current_stock (ir_Entity row) in
  switch by_ [(["stock-asc"], sort_stable (λ a b, flt (stock a) (stock b)) rows);
              (["stock-desc"], sort_stable (λ a b, fgt (stock a) (stock b)) rows);
              (["name"], sort_stable (λ a b, String.ltb (Label (ir_Entity a)) (Label (ir_Entity b))) rows)]%stdpp rows.

Definition text_set (l : list string) : gmap string bool := foldl (λ m s, <[s := true]> m) ∅ l.

(** The categories of the rows and then the labels of the stored ones that are not among them. *)
(* app.go:2512-2527 Application.render *)
Definition merged_categories (ranged : list string) (ents : list Entity) : list string :=
  foldl (λ acc ce, if existsb (String.eqb (Label ce)) acc then acc else acc ++ [Label ce]) ranged ents.

Record InventoryPage := {
  ip_InvRows : list InvRow;
  ip_InvTotal : Z;
  ip_InvOut : Z;
  ip_InvLow : Z;
  ip_InvEndingSoon : Z;
  ip_InvAlerts : list InvRow;
  ip_InvValueToman : string;
  ip_InvCategories : list string;
  ip_InvLocations : list string;
  ip_InvMovements : list Entity;
}.

(** The page made of the rows and what they are worth. *)
(* app.go:2475-2550 Application.render *)
Definition inventory_of (R : Runtime) (now : Z) (r : Request) (ingredients movements categories : list Entity) (vals : list (InvRow * Z))
    : InventoryPage :=
  let rows := vals.*1 in
  let keys := map ir_StatusKey rows in
  let used := consumption now movements in
  let cats := merged_categories (iter R 0 (text_set (map ir_Category rows))).*1 categories in
  {| ip_InvRows := inv_sorted (asked r "isort") (List.filter (inv_shown r) rows);
     ip_InvTotal := Z.of_nat (length ingredients); ip_InvOut := count (String.eqb "out") keys; ip_InvLow := count (String.eqb "low") keys;
     ip_InvEndingSoon := count (ending_soon used) ingredients;
     ip_InvAlerts := take 8 (List.filter (λ row, negb (bool_decide (ir_StatusKey row = "in"))) rows);
     ip_InvValueToman := FormatIRRToToman (Z_to_dec (Zsum vals.*2)); ip_InvCategories := sort_slice R String.ltb cats;
     ip_InvLocations := sort_slice R String.ltb (iter R 1 (text_set (map ir_Location rows))).*1; ip_InvMovements := take 8 movements |}.

(* app.go:2423-2474 Application.render *)
Definition inventory_page (R : Runtime) (now : Z) (r : Request) (ingredients movements categories : list Entity) : option InventoryPage :=
  inventory_of R now r ingredients movements categories <$> inv_rows ingredients.

(* app.go InvCategoryRow *)
Record InvCategoryRow := {
  ic_Entity : Entity;
  ic_Items : Z;
  ic_ItemsFa : string;
  ic_SortOrder : Z;
  ic_Active : bool;
}.

(* app.go:3728-3737 Application.render *)
Definition inv_category_row (ingredients : list Entity) (c : Entity) : InvCategoryRow :=
  let n := count (λ ing, bool_decide (TrimSpace (Field ing "category") = Label c) && negb (sempty (TrimSpace (Field ing "category")))) ingredients in
  {| ic_Entity := c; ic_Items := n; ic_ItemsFa := FormatPersianNumber (Z_to_dec n); ic_SortOrder := (Atoi (TrimSpace (Field c "sort_order"))).1;
     ic_Active := negb (bool_decide (Field c "is_active" = "false")) |}.

(* app.go:3714-3744 Application.render *)
Definition inv_category_rows (ingredients categories : list Entity) : list InvCategoryRow :=
  sort_stable (λ a b, if negb (ic_SortOrder a =? ic_SortOrder b)%Z then (ic_SortOrder a <? ic_SortOrder b)%Z
                      else String.ltb (Label (ic_Entity a)) (Label (ic_Entity b)))
    (map (inv_category_row ingredients) categories).

(** ** The products that are shown *)

Lemma existsb_perm {A} (f : A → bool) l k : l ≡ₚ k → existsb f l = existsb f k.
Proof. induction 1; cbn; [done|congruence| |congruence]. destruct (f x), (f y); done. Qed.

Lemma count_cases (keys : list string) : Forall (λ k, k ∈ ["in"; "low"; "out"]%stdpp) keys →
  (count (λ k, negb (String.eqb "out" k) && negb (String.eqb "low" k)) keys + count (String.eqb "low") keys
   + count (String.eqb "out") keys = Z.of_nat (length keys))%Z.
Proof.
  unfold count. induction 1 as [|k l Hk H IH]; [done|]. cbn [List.filter]. rewrite !elem_of_cons in Hk.
  destruct Hk as [->|[->|[->|Hk]]]; [cbn -[Z.of_nat List.filter] in *; lia..|by apply not_elem_of_nil in Hk].
Qed.

Lemma product_status_known prod : product_status prod ∈ ["in"; "low"; "out"]%stdpp.
Proof. unfold product_status. repeat case_match; set_solver. Qed.

Lemma ranked_rows (rows : list ProductRow) :
  map pr_Rank (imap ranked rows) = map (λ i, Z.of_nat i) (seq 1 (length rows)) ∧ map pr_Entity (imap ranked rows) = map pr_Entity rows.
Proof.
  split; apply list_eq; intros i; rewrite !list_lookup_fmap, list_lookup_imap.
  - destruct (rows !! i) as [x|] eqn:E; cbn.
    + apply lookup_lt_Some in E. rewrite lookup_seq_lt by done. cbn. f_equal. lia.
    + apply lookup_ge_None in E. by rewrite lookup_seq_ge.
  - by destruct (rows !! i).
Qed.

(** the page of products counts every product once, as available, low or sold out, whatever
    is searched for; and it shows exactly the products that match the search, the category and the
    state asked for, in the order of the menu, numbered from one without gaps. *)
Theorem products_page_counts r categories orders products :
  let p := products_page r categories orders products in
  (pp_ProductsInStock p + pp_ProductsLowStock p + pp_ProductsOutOfStock p = pp_ProductsTotal p)%Z
  ∧ map pr_Rank (pp_ProductRows p) = map (λ i, Z.of_nat i) (seq 1 (length (pp_ProductRows p)))
  ∧ map pr_Entity (pp_ProductRows p)
    = List.filter (λ prod, product_shown r (product_row (labels_of categories) (orders_count orders) prod)) products.
Proof.
  cbv zeta. unfold products_page. cbn [pp_ProductsInStock pp_ProductsLowStock pp_ProductsOutOfStock pp_ProductsTotal pp_ProductRows].
  set (row := product_row _ _). split; [|split].
  - rewrite count_cases; [by rewrite !length_map|]. rewrite map_map. apply Forall_fmap, Forall_forall. intros prod _. apply product_status_known.
  - destruct (ranked_rows (List.filter (product_shown r) (map row products))) as [-> _]. by rewrite length_imap.
  - destruct (ranked_rows (List.filter (product_shown r) (map row products))) as [_ ->].
    induction products as [|prod l IH]; [done|]. cbn [map List.filter]. destruct (product_shown r (row prod)); cbn [map]; [|done]. by f_equal.
Qed.

(** ** What the stock is worth *)

Lemma mul_int_finite x a : is_Some (mul_int x a) ↔ is_finite x = true.
Proof.
  destruct x as [s m e|s|]; cbn [mul_int is_finite]; [|split; [by intros [? ?]|done]..].
  destruct (round_bits _ _) as [n k]. destruct (ratio n (k + e)) as [? ?]. split; eauto.
Qed.

(** Without rounding the value is the exact product, cut towards zero. *)
Lemma mul_int_exact s m e a : (Z.of_N m * Z.abs a < 2 ^ 64)%Z →
  mul_int (Fin s m e) a = Some (let '(n, d) := ratio (Z.of_N m * Z.abs a) e in if xorb s (a <? 0)%Z then - (n / d) else n / d)%Z.
Proof.
  intros H. cbn [mul_int]. unfold round_bits. set (p := Z.max 64 _). set (n := (Z.of_N m * Z.abs a)%Z) in *.
  assert ((if n =? 0 then 0 else Z.log2 n + 1) <=? p = true)%Z as ->; [|rewrite Z.add_0_l; by destruct (ratio n e)].
  assert (64 <= p)%Z as Hp by apply Z.le_max_l. apply Z.leb_le. destruct (n =? 0)%Z eqn:E; [lia|]. apply Z.eqb_neq in E.
  pose proof (proj1 (Z.log2_lt_pow2 n 64 ltac:(lia)) H). lia.
Qed.

Lemma inv_rows_some ingredients vals : inv_rows ingredients = Some vals →
  vals.*1 = map (λ p, inv_row p.1 p.2) (zip ingredients vals.*2) ∧ Forall2 (λ ing v, stock_value ing = Some v) ingredients vals.*2.
Proof.
  unfold inv_rows. intros H%mapM_Some. induction H as [|ing p l vals Hp H [IH1 IH2]]; [done|].
  apply fmap_Some in Hp as (v & Hv & ->). split; [by cbn; f_equal|by constructor].
Qed.

Lemma inv_rows_none ingredients : inv_rows ingredients = None ↔ ∃ ing, ing ∈ ingredients ∧ is_finite (current_stock ing) = false.
Proof.
  unfold inv_rows. induction ingredients as [|ing l IH]; [split; [done|intros (? & []%not_elem_of_nil & _)]|].
  pose proof (mul_int_finite (current_stock ing) (parseIRRBig (Field ing "average_cost"))) as Hf. fold (stock_value ing) in Hf. cbn [mapM].
  destruct (stock_value ing) as [v|]; cbn.
  - assert (is_finite (current_stock ing) = true) as F by (apply Hf; eauto). match goal with |- context [mapM ?f l] => destruct (mapM f l) end; cbn.
    + split; [done|]. intros (i & [->|Hi]%elem_of_cons & E); [congruence|]. exfalso. discriminate (proj2 IH (ex_intro _ i (conj Hi E))).
    + split; [|done]. intros _. destruct (proj1 IH eq_refl) as (i & Hi & E). exists i. split; [by right|done].
  - split; [|done]. intros _. exists ing. split; [by left|]. destruct (is_finite (current_stock ing)); [|done]. by destruct (proj2 Hf eq_refl).
Qed.

Lemma inv_rows_entities ingredients vals : inv_rows ingredients = Some vals → map ir_Entity vals.*1 = ingredients.
Proof. unfold inv_rows. intros H%mapM_Some. induction H as [|ing p l vals Hp H IH]; [done|]. apply fmap_Some in Hp as (v & _ & ->). cbn. by f_equal. Qed.

Lemma ltb_asym x y : String.ltb x y = true → String.ltb y x = false.
Proof. rewrite ltb_true, ltb_false. by destruct (leb_total x y); [|congruence]. Qed.

Lemma ltb_neg_trans x y z : String.ltb y x = false → String.ltb z y = false → String.ltb z x = false.
Proof. rewrite !ltb_false. eauto using leb_trans. Qed.

Lemma sort_texts R R' l k : l ≡ₚ k → sort_slice R String.ltb l = sort_slice R' String.ltb k.
Proof.
  apply sort_slice_unique; [apply ltb_asym|apply ltb_neg_trans|]. intros x y _ _. rewrite !ltb_false. intros H1 H2. by apply leb_antisym.
Qed.

Lemma merged_app ranged ents : ∃ extra, merged_categories ranged ents = ranged ++ extra
  ∧ ∀ ranged', ranged' ≡ₚ ranged → merged_categories ranged' ents = ranged' ++ extra.
Proof.
  unfold merged_categories. set (f := λ acc ce, _).
  enough (∀ extra, ∃ extra', ∀ ranged', ranged' ≡ₚ ranged → foldl f (ranged' ++ extra) ents = ranged' ++ extra') as H.
  { destruct (H []) as [extra' H']. exists extra'. split; [|intros ranged' HP]; [rewrite <- (H' ranged) by done|rewrite <- (H' ranged' HP)]; by rewrite app_nil_r. }
  induction ents as [|ce l IH]; intros extra; [by exists extra|]. cbn [foldl].
  destruct (existsb (String.eqb (Label ce)) (ranged ++ extra)) eqn:E.
  - destruct (IH extra) as [extra' H]. exists extra'. intros ranged' HP. unfold f at 2. rewrite (existsb_perm _ _ (ranged ++ extra)), E by (by rewrite HP). by apply H.
  - destruct (IH (extra ++ [Label ce])) as [extra' H]. exists extra'. intros ranged' HP. unfold f at 2.
    rewrite (existsb_perm _ _ (ranged ++ extra)), E by (by rewrite HP). rewrite <- app_assoc. by apply H.
Qed.

Lemma merged_elem ranged ents c : c ∈ merged_categories ranged ents ↔ c ∈ ranged ∨ c ∈ map Label ents.
Proof.
  unfold merged_categories. revert ranged. induction ents as [|ce l IH]; intros ranged; cbn [foldl map]; [set_solver|]. rewrite IH.
  destruct (existsb (String.eqb (Label ce)) ranged) eqn:E; [|set_solver].
  apply existsb_exists in E as (x & Hx & ->%String.eqb_eq). rewrite <- list_elem_of_In in Hx. set_solver.
Qed.

Lemma text_set_elem l c : is_Some (text_set l !! c) ↔ c ∈ l.
Proof.
  unfold text_set. enough (∀ m : gmap string bool, is_Some (foldl (λ m s, <[s := true]> m) m l !! c) ↔ is_Some (m !! c) ∨ c ∈ l) as H.
  { rewrite (H ∅), lookup_empty. split; [intros [[? [=]]|]; done|by right]. }
  induction l as [|s l IH]; intros m; cbn [foldl]; [set_solver|]. rewrite IH, elem_of_cons, lookup_insert_is_Some. destruct (decide (s = c)); naive_solver.
Qed.

Lemma ranged_texts R k l c : c ∈ (iter R k (text_set l)).*1 ↔ c ∈ l.
Proof.
  rewrite iter_perm, list_elem_of_fmap, <- text_set_elem. split.
  - intros ([j b] & -> & H%elem_of_map_to_list). eauto.
  - intros [b H]. exists (c, b). by rewrite elem_of_map_to_list.
Qed.

Lemma inv_sorted_perm b rows : inv_sorted b rows ≡ₚ rows.
Proof. unfold inv_sorted. cbn [switch]. repeat destruct (existsb _ _); by rewrite ?sort_stable_perm. Qed.

Lemma stock_status_known ing : stock_status ing ∈ ["in"; "low"; "out"]%stdpp.
Proof. unfold stock_status. repeat case_match; set_solver. Qed.

(** The worth of an ingredient, zero where there is none. *)
Definition worth (ing : Entity) : Z := default 0%Z (stock_value ing).

Lemma inv_rows_worth ingredients vals : inv_rows ingredients = Some vals →
  vals = map (λ ing, (inv_row ing (worth ing), worth ing)) ingredients.
Proof.
  unfold inv_rows. intros H%mapM_Some. induction H as [|ing p l vals Hp H IH]; [done|]. apply fmap_Some in Hp as (v & Hv & ->).
  cbn [map]. rewrite <- IH. unfold worth. by rewrite Hv.
Qed.

(** the page of the stock.  When every stock is a finite number the page is made, the same
    whatever order the runtime ranges over its maps in.  It counts every ingredient as
    available, low or used up, whatever is searched for; it lists exactly those that match; the value
    it shows is the sum of what the ingredients are worth; and the categories it offers are
    those of the ingredients and those that are stored. *)
Theorem inventory_page_made now r ingredients movements categories :
  (∀ ing, ing ∈ ingredients → is_finite (current_stock ing) = true) →
  ∃ p, (∀ R, inventory_page R now r ingredients movements categories = Some p)
    ∧ (ip_InvOut p + ip_InvLow p + count (λ ing, String.eqb "in" (stock_status ing)) ingredients = ip_InvTotal p)%Z
    ∧ map ir_Entity (ip_InvRows p) ≡ₚ List.filter (λ ing, inv_shown r (inv_row ing (worth ing))) ingredients
    ∧ ip_InvValueToman p = FormatIRRToToman (Z_to_dec (Zsum (map worth ingredients)))
    ∧ ∀ c, c ∈ ip_InvCategories p ↔ (∃ ing, ing ∈ ingredients ∧ c = ir_Category (inv_row ing 0)) ∨ ∃ ce, ce ∈ categories ∧ c = Label ce.
Proof.
  intros Hfin. destruct (inv_rows ingredients) as [vals|] eqn:V; [|apply inv_rows_none in V as (ing & Hi & E); by rewrite (Hfin ing Hi) in E].
  pose proof (inv_rows_worth _ _ V) as Hv. remember (inventory_of plain_runtime now r ingredients movements categories vals) as p eqn:P. symmetry in P. exists p.
  set (rows := map (λ ing, inv_row ing (worth ing)) ingredients). assert (vals.*1 = rows) as Hrows by (rewrite Hv, <- list_fmap_compose; done).
  assert (vals.*2 = map worth ingredients) as Hvals by (rewrite Hv, <- list_fmap_compose; done). split_and!.
  - intros R. unfold inventory_page. rewrite V, <- P. cbn [fmap option_fmap option_map]. f_equal. unfold inventory_of.
    f_equal; [|apply sort_texts; by rewrite !iter_perm]. apply sort_texts. destruct (merged_app (iter R 0 (text_set (map ir_Category vals.*1))).*1 categories) as (extra & -> & H).
    rewrite (H (iter plain_runtime 0 (text_set (map ir_Category vals.*1))).*1) by (by rewrite !iter_perm). by rewrite !iter_perm.
  - rewrite <- P. unfold inventory_of. cbn [ip_InvOut ip_InvLow ip_InvTotal]. rewrite Hrows. subst rows. rewrite map_map. clear. unfold count.
    induction ingredients as [|ing l IH]; [done|]. cbn [map List.filter ir_StatusKey inv_row]. pose proof (stock_status_known ing) as Hk.
    rewrite !elem_of_cons in Hk. destruct Hk as [->|[->|[->|Hk]]]; [cbn -[Z.of_nat List.filter] in *; lia..|by apply not_elem_of_nil in Hk].
  - rewrite <- P. unfold inventory_of. cbn [ip_InvRows]. rewrite inv_sorted_perm, Hrows. subst rows. clear. induction ingredients as [|ing l IH]; [done|].
    cbn [map List.filter]. destruct (inv_shown r (inv_row ing (worth ing))); cbn [map]; [by constructor|done].
  - rewrite <- P. unfold inventory_of. cbn [ip_InvValueToman]. by rewrite Hvals.
  - intros c. rewrite <- P. unfold inventory_of. cbn [ip_InvCategories]. rewrite sort_perm, merged_elem, ranged_texts, Hrows. subst rows. rewrite map_map.
    rewrite !list_elem_of_fmap. naive_solver.
Qed.

(** one bad number stops the page.  The page of the stock cannot be made, whatever is searched for,
    exactly when the stock of some ingredient reads as infinite or as no number at all.  The checks in
    front of the store let both in: a stock of 310 digits is saved, and a movement of [nan]
    is recorded, after which no movement makes the stock a number again. *)
Theorem inventory_page_stops :
  (∀ R now r ingredients movements categories, inventory_page R now r ingredients movements categories = None ↔
     ∃ ing, ing ∈ ingredients ∧ is_finite (current_stock ing) = false)
  ∧ (let huge := sconcat (repeat "9"%stdpp 310) in
     let o := SaveLocalRecord io_ok None a_stock draws 0 "ingredient" "i1" [("current_stock", AStr huge)] in
     is_ok (tx_res o) = true ∧ existsb (λ ing, negb (is_finite (current_stock ing))) (Entities_of plain_runtime "ingredient" (s_state (tx_store o))) = true)
  ∧ (let o := RecordStockMovement io_ok None a_stock draws 0 "i1" "purchase" "nan" "" "" in
     is_ok (tx_res o) = true ∧ existsb (λ ing, negb (is_finite (current_stock ing))) (Entities_of plain_runtime "ingredient" (s_state (tx_store o))) = true)
  ∧ ∀ now movID ing tx qty ucs note g st st' old, utf8_valid now = true → live st "ingredient" ing = Some old → current_stock (view old) = NaN →
      RecordStockMovement_body now movID ing tx qty ucs note g st = Ok ((), st') →
      ∃ e, live st' "ingredient" ing = Some e ∧ is_finite (current_stock (view e)) = false.
Proof.
  split; [|split; [|split]].
  - intros R now r ingredients movements categories. rewrite <- inv_rows_none. unfold inventory_page. by destruct (inv_rows ingredients).
  - vm_compute. by split.
  - vm_compute. by split.
  - intros now movID ing tx qty ucs note g st st' old Hn L Hs H.
    destruct (proj2 RecordStockMovement_nan_sticks now movID ing tx qty ucs note g st st' old Hn L Hs H) as (e & L' & _ & E).
    exists e. split; [done|]. unfold stock in E. change (current_stock (view e)) with (parse_or_zero (Field (view e) "current_stock")). by rewrite E.
Qed.
End Pages.

Definition a_shelf : list Entity :=
  [some_row "i1" "ingredient" [("average_cost", AStr "1500"); ("category", AStr "بار گرم"); ("current_stock", AStr "2.5"); ("name", AStr "coffee")];
   some_row "i2" "ingredient" [("average_cost", AStr "20"); ("current_stock", AStr "0"); ("name", AStr "milk")]].

Lemma inventory_page_made_witness :
  ∃ p, inventory_page ToLower plain_runtime 0 (asking []) a_shelf [] [] = Some p ∧ ip_InvValueToman p = FormatIRRToToman "3750" ∧ ip_InvTotal p = 2%Z.
Proof.
  destruct (inventory_page_made ToLower 0 (asking []) a_shelf [] []) as (p & H & _ & _ & Hv & _).
  - intros ing Hi. apply (Forall_forall (λ ing, is_finite (current_stock ing) = true) a_shelf); [|exact Hi]. repeat constructor.
  - exists p. split; [exact (H plain_runtime)|]. split; [rewrite Hv; vm_compute; reflexivity|].
    specialize (H plain_runtime). unfold inventory_page in H. vm_compute in H. injection H as <-. reflexivity.
Defined.
