(* ===== verification/PeoplePages.v ===== *)
(** * The pages of people

    Models what [render] of [offline-menuvex/app.go] computes for the pages of customers, their
    groups, debtors and members of staff, with the permissions that the form of a member of
    staff shows, and for the routes of categories to printers on the page of settings. *)
From S2P Require Import Prelude GoStrings GoFloat GoJson GoTime Store Entities EntityView Records Orders OrderStates Jalali Forms Desk Till OrderBoard ClubDesk Stockroom.

Section Pages.
Context (lower : string → string).

(** The search of the club's pages: nothing is asked for, or the text has it. *)
Definition club_matches (r : Request) (text : string) : bool :=
  let q := asked r "cq" in sempty q || Contains (lower text) (lower q).

(** ** Customers *)

(* app.go ClubPaymentRow *)
Record ClubPaymentRow := {
  pw_Entity : Entity; pw_CustomerName : string; pw_CustomerPhone : string; pw_PlanTitle : string; pw_AmountFa : string;
  pw_MethodLabel : string; pw_StatusKey : string; pw_StatusLabel : string; pw_Pending : bool; pw_Reference : string; pw_DateFa : string;
}.

Definition paid_status (status : string) : bool := existsb (String.eqb status) ["paid"; "confirmed"; "completed"; "success"]%stdpp.

(* app.go:3021-3070 Application.render *)
Definition payment_row (customers : gmap string Entity) (p : Entity) : ClubPaymentRow :=
  let status := norm (Field p "status") in
  let cid := TrimSpace (Field p "customer_id") in
  let customer := if sempty cid then None else customers !! cid in
  let of_customer (v : string) (f : Entity → string) := if sempty v then match customer with Some c => f c | None => v end else v in
  let when_ := or_else (TrimSpace (Field p "paid_at")) (TrimSpace (Field p "created_at")) in
  {| pw_Entity := p;
     pw_CustomerName := or_else (of_customer (TrimSpace (Field p "consumer_name")) Label) "مشتری";
     pw_CustomerPhone := of_customer (TrimSpace (Field p "consumer_phone")) (λ c, TrimSpace (Field c "phone"));
     pw_PlanTitle := or_dash (TrimSpace (Field p "plan_title")); pw_AmountFa := toman_text (quot64 (int_of (Field p "amount_irr")) 10);
     pw_MethodLabel := switch (norm (Field p "payment_method"))
                         [(["online"], "آنلاین"); (["cash"], "نقدی"); (["card"], "کارت"); (["transfer"], "کارت به کارت")]%stdpp "—";
     pw_StatusKey := status;
     pw_StatusLabel := (if bool_decide (status = "pending") then "در انتظار تایید"
                        else if paid_status status then "تایید شده"
                        else switch status [(["failed"], "ناموفق"); (["cancelled"; "canceled"], "لغو شده")]%stdpp "نامشخص");
     pw_Pending := bool_decide (status = "pending"); pw_Reference := TrimSpace (Field p "reference_number"); pw_DateFa := FormatJalaliDate when_ |}.

Record CustomersPage := {
  cp_ClubTab : string;
  cp_ClubSubTab : string;
  cp_ClubRows : list ClubCustomerRow;
  cp_ClubStatMembers : Z;
  cp_ClubStatPending : Z;
  cp_ClubStatPaid : Z;
  cp_ClubPayments : list ClubPaymentRow;
}.

(* app.go:2976-3077 Application.render *)
Definition customers_page (r : Request) (customers debtors groups orders payments : list Entity) : CustomersPage :=
  let membership := bool_decide (asked r "tab" = "membership") in
  let rows := clubBuildRows customers orders debtors groups in
  let pays := map (payment_row (by_id customers)) payments in
  let text row := if membership then cr_Name row +:+ " " +:+ cr_Mobile row
                  else cr_Name row +:+ " " +:+ cr_Mobile row +:+ " " +:+ cr_MemberCode row in
  {| cp_ClubTab := (if membership then "membership" else "customers");
     cp_ClubSubTab := (if bool_decide (asked r "sub" = "payments") then "payments" else "members");
     cp_ClubRows := List.filter (λ row, club_matches r (text row)) rows;
     cp_ClubStatMembers := (if membership then count cr_IsMember rows else 0%Z);
     cp_ClubStatPending := count pw_Pending pays; cp_ClubStatPaid := count (λ p, negb (pw_Pending p) && paid_status (pw_StatusKey p)) pays;
     cp_ClubPayments := List.filter (λ p, club_matches r (pw_CustomerName p +:+ " " +:+ pw_CustomerPhone p +:+ " " +:+ pw_PlanTitle p +:+ " " +:+ pw_Reference p)) pays |}.

(** ** Groups *)

Definition group_of (c : Entity) : string := TrimSpace (Field c "group_id").

(** How many customers name a group. *)
(* app.go:3081-3086 Application.render *)
Definition member_count (customers : list Entity) (gid : string) : Z :=
  count (λ c, negb (sempty (group_of c)) && bool_decide (group_of c = gid)) customers.

Record GroupsPage := {
  gp_ClubGroups : list ClubGroupRow;
  gp_ClubGroupsTotal : Z;
  gp_ClubGroupsValid : Z;
  gp_ClubGroupsMembers : Z;
}.

(* app.go:3078-3104 Application.render *)
Definition groups_page (today : string) (r : Request) (groups customers : list Entity) : GroupsPage :=
  let row g := clubGroupRowOf g (member_count customers (e_ID g)) today in
  let valid g := bool_decide (gr_StatusKey (row g) = "valid") in
  {| gp_ClubGroups := map row (List.filter (λ g, (negb (bool_decide (query r "valid" = "1")) || valid g)
                                             && club_matches r (Label g +:+ " " +:+ Field g "contact_name" +:+ " " +:+ Field g "contact_phone")) groups);
     gp_ClubGroupsTotal := Z.of_nat (length groups); gp_ClubGroupsValid := count valid groups;
     gp_ClubGroupsMembers := sum64 (map (λ g, member_count customers (e_ID g)) groups) |}.

(* app.go ClubGroupOrder *)
Record ClubGroupOrder := { go_Number : string; go_CustomerName : string; go_TotalFa : string; go_StatusLabel : string; go_DateFa : string }.

(* app.go ClubGroupDetail *)
Record ClubGroupDetail := {
  gd_Group : Entity; gd_Row : ClubGroupRow; gd_Members : list ClubCustomerRow; gd_RecentOrders : list ClubGroupOrder;
  gd_TotalSpentFa : string; gd_CreditSpentFa : string;
}.

(** An order of a member that was not cancelled: the member's identifier or mobile number is on it. *)
(* app.go:3148-3152 Application.render *)
Definition of_members (members : list ClubCustomerRow) (o : Entity) : bool :=
  negb (EqualFold (Field o "status") "cancelled" || EqualFold (Field o "status") "canceled")
  && (existsb (λ m, bool_decide (e_ID (cr_Entity m) = TrimSpace (Field o "customer_id"))) members
      || existsb (λ m, negb (sempty (cr_Mobile m)) && bool_decide (cr_Mobile m = TrimSpace (Field o "customer_phone"))) members).

Definition on_credit (o : Entity) : bool := EqualFold (Field o "payment_method") "credit_debtor".

(** What the orders come to, and those on credit. *)
(* app.go:3153-3158 Application.render *)
Definition group_spent (orders : list Entity) : Z * Z :=
  (sum64 (map (λ o, int_of (PriceIRR o)) orders), sum64 (map (λ o, int_of (PriceIRR o)) (List.filter on_credit orders))).

(* app.go:3169-3175 Application.render *)
Definition group_order (o : Entity) : ClubGroupOrder :=
  {| go_Number := displayOrderNumber (Field o "order_number"); go_CustomerName := TrimSpace (Field o "customer_name");
     go_TotalFa := total_fa o +:+ " تومان"; go_StatusLabel := StatusLabel o; go_DateFa := FormatJalaliDate (Field o "created_at") |}.

(** [clubGroupRowOf(g, 0, ...)], its number of members set after. *)
Definition with_members (n : Z) (row : ClubGroupRow) : ClubGroupRow :=
  {| gr_Entity := gr_Entity row; gr_MembersCount := n; gr_DiscountText := gr_DiscountText row; gr_CapText := gr_CapText row;
     gr_ValidityText := gr_ValidityText row; gr_StatusKey := gr_StatusKey row; gr_StatusLabel := gr_StatusLabel row |}.

(* app.go:3124-3178 Application.render *)
Definition group_detail (today : string) (g : Entity) (gid : string) (customers orders debtors groups : list Entity) : ClubGroupDetail :=
  let members := List.filter (λ row, bool_decide (cr_GroupID row = gid)) (clubBuildRows customers orders debtors groups) in
  let theirs := List.filter (of_members members) orders in
  let '(total, credit) := group_spent theirs in
  {| gd_Group := g; gd_Row := with_members (Z.of_nat (length members)) (clubGroupRowOf g 0 today); gd_Members := members;
     gd_RecentOrders := map group_order (take 10 (sort_stable newer theirs)); gd_TotalSpentFa := toman_text (quot64 total 10);
     gd_CreditSpentFa := toman_text (quot64 credit 10) |}.

(** ** Debtors *)

(* app.go DebtorRow *)
Record DebtorRow := {
  dr_Entity : Entity; dr_ItemsText : string; dr_OrderNumber : string; dr_OrderWhen : string; dr_DueLabel : string; dr_NoteText : string;
  dr_OtherDebts : string; dr_OtherCount : Z;
}.

(** Whose debt it is: the number, or else the name. *)
(* app.go:3224-3227 Application.render *)
Definition person (d : Entity) : string := or_else (TrimSpace (Field d "phone")) (TrimSpace (Label d)).

(** The other debts of the same person: how many, and what remains of them. *)
(* app.go:3228-3236 Application.render *)
Definition other_debts (debtors : list Entity) (d : Entity) : Z * Z :=
  let others := List.filter (λ od, bool_decide (person od = person d) && negb (bool_decide (e_ID od = e_ID d))) debtors in
  (Z.of_nat (length others), Zsum (map (λ od, parseIRRBig (Field od "remaining")) others)).

Definition when_full (e : Entity) : string := match ParseRFC3339 (Field e "created_at") with Some t => FormatJalaliFull t | None => EmptyString end.

(* app.go:3201-3242 Application.render *)
Definition debtor_row (orders : gmap string Entity) (debtors : list Entity) (d : Entity) : DebtorRow :=
  let oid := TrimSpace (Field d "order_id") in
  let order := if sempty oid then None else orders !! oid in
  let of_order (f : Entity → string) := match order with Some o => f o | None => EmptyString end in
  let '(others, remain) := other_debts debtors d in
  {| dr_Entity := d; dr_ItemsText := of_order (λ o, Join "، " (map item_text (OrderItems o)));
     dr_OrderNumber := of_order (λ o, displayOrderNumber (Field o "order_number")); dr_OrderWhen := or_else (of_order when_full) (when_full d);
     dr_DueLabel := TrimSpace (Field d "due_at"); dr_NoteText := or_else (TrimSpace (Field d "note")) (TrimSpace (Field d "description"));
     dr_OtherDebts := (if (0 <? others)%Z then FormatPersianNumber (Z_to_dec others) +:+ " بدهی دیگر به مبلغ " +:+ FormatIRRToToman (Z_to_dec remain)
                       else EmptyString);
     dr_OtherCount := others |}.

(* app.go:3179-3243 Application.render *)
Definition debtors_page (debtors orders : list Entity) : list DebtorRow := map (debtor_row (by_id orders) debtors) debtors.

(** ** Staff *)

(* app.go StaffRow *)
Record StaffRow := { sr_Entity : Entity; sr_Active : bool; sr_RoleLabel : string; sr_Cooperation : string; sr_Insurance : string; sr_SalaryText : string }.

(* app.go staffRoleLabels *)
Definition staffRoleLabels (role : string) : string :=
  switch role [(["owner"], "مالک"); (["manager"], "مدیر"); (["staff"], "کارمند"); (["cashier"], "صندوقدار"); (["waiter"], "گارسون");
               (["inventory_manager"], "مسئول انبار")]%stdpp EmptyString.

Definition inactive_word : string := "غیرفعال".

(* app.go staffRowOf *)
Definition staffRowOf (e : Entity) : StaffRow :=
  {| sr_Entity := e; sr_Active := negb (bool_decide (Field e "is_active" = "false")) && negb (Contains (Field e "status") inactive_word);
     sr_RoleLabel := or_else (or_else (staffRoleLabels (Field e "role_key")) (Field e "role")) "کارمند";
     sr_Cooperation := switch (Field e "salary_period") [(["daily"], "روزمزد"); (["hourly"], "ساعتی")]%stdpp "ماهانه";
     sr_Insurance := (if bool_decide (Field e "insurance_enabled" = "true") then or_else (Field e "insurance_provider") "دارد" else "ندارد");
     sr_SalaryText := (if negb (sempty (Field e "salary_irr")) && negb (bool_decide (Field e "salary_irr" = "0")) then PriceToman e else "-") |}.

Definition has_shift (e : Entity) : bool := negb (sempty (TrimSpace (Field e "shift"))) || negb (sempty (TrimSpace (Field e "shifts"))).

(* app.go:3624-3635 Application.render *)
Definition staff_shown (r : Request) (row : StaffRow) : bool :=
  let q := needle lower r "q" in
  let e := sr_Entity row in
  let statusF := asked r "sstatus" in
  (finds lower q (Label e) || Contains (Field e "phone") q || finds lower q (sr_RoleLabel row))
  && negb (bool_decide (statusF = "active") && negb (sr_Active row)) && negb (bool_decide (statusF = "inactive") && sr_Active row)
  && wanted (asked r "srole") (Field e "role_key").

Record StaffPage := { sp_StaffRows : list StaffRow; sp_StaffTotal : Z; sp_StaffActive : Z; sp_StaffInactive : Z; sp_StaffShifts : Z }.

(* app.go:3606-3639 Application.render *)
Definition staff_page (r : Request) (staff : list Entity) : StaffPage :=
  let rows := map staffRowOf staff in
  {| sp_StaffRows := List.filter (staff_shown r) rows; sp_StaffTotal := Z.of_nat (length staff); sp_StaffActive := count sr_Active rows;
     sp_StaffInactive := count (λ row, negb (sr_Active row)) rows; sp_StaffShifts := count has_shift staff |}.

(** The share of the day's tasks that are done, the counts of the page of staff, and the rows of those with a shift. *)
(* app.go:3640-3667 Application.render *)
Definition staff_checklist (staff tasks : list Entity) : Z * StaffPage :=
  let done_ := count (λ t, bool_decide (Field t "is_done" = "true") || bool_decide (Field t "status" = "done")) tasks in
  let rows := map staffRowOf staff in
  ((if (length tasks =? 0)%nat then 0 else Z.quot (done_ * 100) (Z.of_nat (length tasks)))%Z,
   {| sp_StaffRows := map staffRowOf (List.filter has_shift staff); sp_StaffTotal := Z.of_nat (length staff); sp_StaffActive := count sr_Active rows;
      sp_StaffInactive := count (λ row, negb (sr_Active row)) rows; sp_StaffShifts := count has_shift staff |}).

(** *** Permissions *)

Definition common_permissions : list string := ["printers.manage"; "support.tickets.view"; "help.view"; "updates.view"].

(* app.go defaultCafePermissionsForRole *)
Definition defaultCafePermissionsForRole (role : string) : list string :=
  switch (TrimSpace (ToLower role))
    [(["cashier"], common_permissions ++ ["pos.view"; "orders.view"; "orders.update"; "receipts.view"; "tables.view"; "tables.transfer"; "menu.qr.view"]);
     (["waiter"], common_permissions ++ ["pos.view"; "orders.view"; "tables.view"; "menu.qr.view"]);
     (["inventory_manager"], common_permissions ++ ["pos.view"; "orders.view"; "receipts.view"; "tables.view"; "inventory.view"; "inventory.purchases.view";
        "inventory.recipes.view"; "inventory.waste.view"; "menu.qr.view"]);
     (["staff"], common_permissions ++ ["pos.view"; "orders.view"; "tables.view"])]%stdpp [].

(** The old names of permissions and what they are called now. *)
Definition renamed_permissions : list (string * string) :=
  [("recipes.view", "inventory.recipes.view"); ("waste.view", "inventory.waste.view"); ("staff.manage", "staff.view")].

(** The names in a stored list. *)
(* app.go:3686-3690 Application.render *)
Definition stored_permissions (text : string) : gset string :=
  list_to_set (List.filter (λ k, negb (sempty k)) (map TrimSpace (SplitByte "," text))).

(** The runtime ranges over the renamed names in any order. *)
(* app.go:3692-3700 Application.render *)
Definition with_renamed (R : Runtime) (perms : gset string) : gset string :=
  foldl (λ s p, if bool_decide (p.1 ∈ s) then s ∪ {[p.2]} else s) perms (iter R 0 (list_to_map renamed_permissions : gmap string string)).

(** What the form of a member of staff shows, and which permissions are ticked. *)
(* app.go:3668-3713 Application.render *)
Definition staff_form (R : Runtime) (id : string) (found : res Entity) : FormState * gset string :=
  let form := form_state id found in
  let fields := fs_Fields form in
  let perms := if bool_decide (fs_Action form = "update") then with_renamed R (stored_permissions (default EmptyString (fields !! "permissions"))) else ∅ in
  (form, match fields !! "permissions"%stdpp with
         | Some _ => perms
         | None => perms ∪ list_to_set (defaultCafePermissionsForRole (or_else (default EmptyString (fields !! "role_key")) "staff"))
         end).

(** ** Routes of categories to printers *)

(* app.go CategoryRouteRow *)
Record CategoryRouteRow := { rt_Category : Entity; rt_Products : Z; rt_HasRoute : bool; rt_Active : bool; rt_PrinterID : string; rt_Copies : Z }.

(* app.go:3780-3785 Application.render *)
Definition routes_by_category (routes : list Entity) : gmap string Entity :=
  foldl (λ m rt, let cid := TrimSpace (Field rt "category_id") in if sempty cid then m else <[cid := rt]> m) ∅ routes.

(* app.go:3786-3797 Application.render *)
Definition route_row (routes : gmap string Entity) (products : list Entity) (c : Entity) : CategoryRouteRow :=
  let n := count (λ p, bool_decide (Field p "category_id" = e_ID c)) products in
  match routes !! e_ID c with
  | None => {| rt_Category := c; rt_Products := n; rt_HasRoute := false; rt_Active := true; rt_PrinterID := EmptyString; rt_Copies := 1 |}
  | Some rt =>
      {| rt_Category := c; rt_Products := n; rt_HasRoute := true;
         rt_Active := negb (bool_decide (Field rt "is_active" = "false")) && negb (bool_decide (Field rt "is_active" = "0"));
         rt_PrinterID := TrimSpace (Field rt "printer_id");
         rt_Copies := match Atoi (TrimSpace (Field rt "copies")) with (k, true) => if (1 <=? k)%Z && (k <=? 5)%Z then k else 1%Z | _ => 1%Z end |}
  end.

(* app.go:3768-3798 Application.render *)
Definition category_routes (routes products categories : list Entity) : list CategoryRouteRow :=
  map (route_row (routes_by_category routes) products) categories.
End Pages.

(** ** One person's debts *)

Lemma Zsum_cons x l : Zsum (x :: l) = (x + Zsum l)%Z.
Proof. done. Qed.

(** Of a list without repeated identifiers, what a test picks is one element and the others. *)
Lemma filter_but_one (f : Entity → bool) (w : Entity → Z) l d : NoDup (map e_ID l) → d ∈ l → f d = true →
  let others := List.filter (λ x, f x && negb (bool_decide (e_ID x = e_ID d))) l in
  (length others + 1 = length (List.filter f l))%nat ∧ (Zsum (map w others) + w d = Zsum (map w (List.filter f l)))%Z.
Proof.
  cbv zeta. induction l as [|x l IH]; [by intros _ ?%not_elem_of_nil|]. cbn [map]. rewrite NoDup_cons. intros [Hx ND] Hd Hf.
  assert (d ∈ l → e_ID x ≠ e_ID d) as Hne by (intros Hin E; apply Hx; rewrite E; by apply list_elem_of_fmap_2).
  apply elem_of_cons in Hd as [->|Hd]; cbn [List.filter].
  - rewrite Hf, bool_decide_true by done. cbn [negb andb map length]. rewrite Zsum_cons.
    assert (List.filter (λ y, f y && negb (bool_decide (e_ID y = e_ID x))) l = List.filter f l) as ->; [|lia].
    apply List.filter_ext_in. intros y Hy. rewrite bool_decide_false; [by destruct (f y)|]. intros E. apply Hx. rewrite <- E.
    apply list_elem_of_fmap_2. by apply list_elem_of_In.
  - rewrite (bool_decide_false (e_ID x = e_ID d)) by (by apply Hne). destruct (IH ND Hd Hf) as [H1 H2].
    destruct (f x); cbn [negb andb map length]; rewrite ?Zsum_cons; lia.
Qed.

(** the page of debtors adds up for every person.  With the debts' identifiers distinct, the
    number of other debts that stands beside a debt and the debt itself are all the debts of the
    same person, told apart by the mobile number or else the name, and what remains of the others with what
    remains of this one is what the person owes. *)
Theorem debtors_page_adds_up debtors orders d :
  NoDup (map e_ID debtors) → d ∈ debtors →
  let theirs := List.filter (λ od, bool_decide (person od = person d)) debtors in
  let remaining od := parseIRRBig (Field od "remaining") in
  ∃ row remain, row ∈ debtors_page debtors orders ∧ dr_Entity row = d
    ∧ (dr_OtherCount row + 1 = Z.of_nat (length theirs))%Z
    ∧ (remain + remaining d = Zsum (map remaining theirs))%Z
    ∧ dr_OtherDebts row = if (1 <? Z.of_nat (length theirs))%Z
        then FormatPersianNumber (Z_to_dec (dr_OtherCount row)) +:+ " بدهی دیگر به مبلغ " +:+ FormatIRRToToman (Z_to_dec remain) else EmptyString.
Proof.
  intros ND Hd. cbv zeta. exists (debtor_row (by_id orders) debtors d), (other_debts debtors d).2.
  destruct (filter_but_one (λ od, bool_decide (person od = person d)) (λ od, parseIRRBig (Field od "remaining")) debtors d ND Hd
    (bool_decide_eq_true_2 _ eq_refl)) as [H1 H2].
  split; [by apply list_elem_of_fmap_2|]. unfold debtor_row, other_debts. cbn [dr_Entity dr_OtherCount dr_OtherDebts snd].
  set (others := List.filter (λ od, _ && _) debtors) in *. set (theirs := List.filter _ debtors) in *. split_and!; [done|lia|done|].
  destruct (0 <? Z.of_nat (length others))%Z eqn:E; [apply Z.ltb_lt in E; by rewrite (proj2 (Z.ltb_lt 1 _)) by lia|].
  apply Z.ltb_ge in E. by rewrite (proj2 (Z.ltb_ge 1 _)) by lia.
Qed.

(** ** The members of a group *)

(** a group has the same members everywhere.  The number that the page of groups shows for a
    group is the number of members on the group's own page, and these are exactly the customers who
    name the group. *)
Theorem group_pages_agree lower today r groups customers orders debtors g row :
  row ∈ gp_ClubGroups (groups_page lower today r groups customers) → gr_Entity row = g → e_ID g ≠ EmptyString →
  let det := group_detail today g (e_ID g) customers orders debtors groups in
  gr_MembersCount row = gr_MembersCount (gd_Row det)
  ∧ map cr_Entity (gd_Members det) = List.filter (λ c, bool_decide (group_of c = e_ID g)) customers.
Proof.
  intros Hrow Hg Hid. cbv zeta. unfold groups_page in Hrow. cbn [gp_ClubGroups] in Hrow. apply list_elem_of_fmap in Hrow as (g' & -> & _).
  assert (∀ h n, gr_Entity (clubGroupRowOf h n today) = h ∧ gr_MembersCount (clubGroupRowOf h n today) = n) as HR
    by (intros h n; unfold clubGroupRowOf; by destruct (group_status h today)).
  destruct (HR g' (member_count customers (e_ID g'))) as [E1 ->]. rewrite E1 in Hg. clear E1. subst g'. unfold group_detail.
  destruct (group_spent _) as [? ?]. cbn [gd_Row gd_Members with_members gr_MembersCount]. unfold clubBuildRows.
  set (gn := foldl _ _ _). assert (map cr_Entity (List.filter (λ row, bool_decide (cr_GroupID row = e_ID g)) (map (club_row orders debtors gn) customers))
    = List.filter (λ c, bool_decide (group_of c = e_ID g)) customers) as HM.
  { induction customers as [|c l IH]; [done|]. cbn [map List.filter cr_GroupID club_row]. fold (group_of c).
    destruct (bool_decide (group_of c = e_ID g)); cbn [map]; [by f_equal|done]. }
  split; [|exact HM]. apply (f_equal length) in HM. rewrite length_map in HM. rewrite HM. unfold member_count, count. do 2 f_equal.
  apply List.filter_ext. intros c. case_bool_decide as E; [|by rewrite andb_false_r]. rewrite E. by destruct (e_ID g).
Qed.

(** ** Permissions *)

Lemma with_renamed_spec R perms k : k ∈ with_renamed R perms ↔ k ∈ perms ∨ ∃ p, p ∈ renamed_permissions ∧ p.1 ∈ perms ∧ p.2 = k.
Proof.
  unfold with_renamed. set (l := iter R 0 _). assert (l ≡ₚ renamed_permissions) as HP.
  { subst l. rewrite iter_perm. apply map_to_list_to_map. apply (bool_decide_unpack _). vm_compute. exact I. }
  assert (∀ p q, p ∈ l → q ∈ l → p.1 ≠ q.2) as Hd.
  { intros p q. rewrite HP. unfold renamed_permissions. rewrite !elem_of_cons, !elem_of_nil.
    intros [->|[->|[->|[]]]] [->|[->|[->|[]]]]; discriminate. }
  setoid_rewrite <- HP. clear HP. clearbody l. revert perms. induction l as [|p l IH]; intros perms; cbn [foldl]; [set_solver|].
  assert (∀ q, q ∈ l → q.1 ≠ p.2) as Hp by (intros q Hq; apply Hd; set_solver).
  rewrite IH by (intros; apply Hd; set_solver). setoid_rewrite elem_of_cons. case_bool_decide as E; [|naive_solver].
  setoid_rewrite elem_of_union. setoid_rewrite elem_of_singleton. naive_solver.
Qed.

(** the ticks on the form of a member of staff.  The runtime's order does not matter.  For a
    record with a stored list, even an empty one, the ticks are the names in it, with a name that was
    renamed ticked under its new name too; without a stored list they are the role's defaults, and
    none for the roles that may do everything. *)
Theorem staff_form_permissions R id e :
  id ≠ EmptyString →
  let perms := (staff_form R id (Ok e)).2 in
  (∀ text, fields_of e !! "permissions"%stdpp = Some text → ∀ k, k ∈ perms ↔
     k ∈ stored_permissions text ∨ ∃ p, p ∈ renamed_permissions ∧ p.1 ∈ stored_permissions text ∧ p.2 = k)
  ∧ (fields_of e !! "permissions"%stdpp = None → ∀ k, k ∈ perms ↔
       k ∈ defaultCafePermissionsForRole (or_else (default EmptyString (fields_of e !! "role_key"%stdpp)) "staff"))
  ∧ (∀ R', staff_form R' id (Ok e) = staff_form R id (Ok e)).
Proof.
  intros Hid. cbv zeta. unfold staff_form, form_state. destruct id as [|c id]; [done|]. cbn [sempty fs_Fields fs_Action]. rewrite bool_decide_true by done. split_and!.
  - intros text Ht k. rewrite Ht. cbn [default snd]. apply with_renamed_spec.
  - intros Hn k. rewrite Hn. cbn [default snd]. rewrite elem_of_union, elem_of_list_to_set, with_renamed_spec.
    assert (stored_permissions EmptyString = ∅) as -> by (apply (bool_decide_unpack _); vm_compute; exact I). set_solver.
  - intros R'. assert (∀ perms, with_renamed R' perms = with_renamed R perms) as HR by (intros perms; apply set_eq; intros k; by rewrite !with_renamed_spec).
    by rewrite HR.
Qed.

(** ** Concrete pages *)

Definition a_ledger : list Entity :=
  [some_row "d1" "debtor" [("name", AStr "Sara"); ("phone", AStr "09123456789"); ("remaining", AStr "300")];
   some_row "d2" "debtor" [("name", AStr "Ali"); ("remaining", AStr "40")];
   some_row "d3" "debtor" [("name", AStr "S."); ("phone", AStr " 09123456789"); ("remaining", AStr "50")]].

Definition first_debt : Entity := some_row "d1" "debtor" [("name", AStr "Sara"); ("phone", AStr "09123456789"); ("remaining", AStr "300")].

Lemma debtors_page_adds_up_witness : ∃ row, row ∈ debtors_page a_ledger [] ∧ dr_Entity row = first_debt ∧ dr_OtherCount row = 1%Z.
Proof.
  destruct (debtors_page_adds_up a_ledger [] first_debt) as (row & remain & H1 & H2 & H3 & _).
  - apply (bool_decide_unpack _). vm_compute. exact I.
  - left.
  - exists row. split; [exact H1|]. split; [exact H2|]. match type of H3 with _ = ?n => assert (n = 2%Z) as En by (vm_compute; reflexivity) end. rewrite En in H3. lia.
Defined.

Definition a_waiter : Entity := some_row "s1" "staff" [("name", AStr "Reza"); ("permissions", AStr "pos.view, waste.view"); ("role_key", AStr "waiter")].

Lemma staff_form_permissions_witness : "inventory.waste.view"%stdpp ∈ (staff_form plain_runtime "s1" (Ok a_waiter)).2.
Proof.
  destruct (staff_form_permissions plain_runtime "s1" a_waiter) as [H _]; [discriminate|].
  apply (H "pos.view, waste.view"%stdpp); [vm_compute; reflexivity|]. right. exists ("waste.view", "inventory.waste.view")%stdpp.
  split; [right; left|]. split; [apply (bool_decide_unpack _); vm_compute; exact I|reflexivity].
Defined.

Definition a_company : Entity := some_row "g1" "customer_group" [("title", AStr "Office")].
Definition office_members : list Entity :=
  [some_row "c1" "customer" [("group_id", AStr "g1 "); ("name", AStr "Sara")]; some_row "c2" "customer" [("name", AStr "Ali")]].

Lemma group_pages_agree_witness :
  let row := clubGroupRowOf a_company 1 "2024-05-01" in
  row ∈ gp_ClubGroups (groups_page ToLower "2024-05-01" (asking []) [a_company] office_members)
  ∧ gr_MembersCount row = gr_MembersCount (gd_Row (group_detail "2024-05-01" a_company "g1" office_members [] [] [a_company])).
Proof.
  cbv zeta. assert (clubGroupRowOf a_company 1 "2024-05-01" ∈ gp_ClubGroups (groups_page ToLower "2024-05-01" (asking []) [a_company] office_members)) as H.
  { assert (gp_ClubGroups (groups_page ToLower "2024-05-01" (asking []) [a_company] office_members) = [clubGroupRowOf a_company 1 "2024-05-01"]) as ->
      by (vm_compute; reflexivity). left. }
  split; [exact H|]. refine (proj1 (group_pages_agree ToLower "2024-05-01" (asking []) [a_company] office_members [] [] a_company _ H _ _)).
  - vm_compute. reflexivity.
  - discriminate.
Defined.
