(* ===== verification/Dialogs.v ===== *)
(** * Dialogs of the till, the receipt and the editor

    Models what [render] of [offline-menuvex/app.go] computes for the dialogs of the till's page
    (the bills to be split and the order under edit, both handed to the page's script as JSON),
    for the page of a receipt and for the page that edits a record of the menu. *)
From S2P Require Import Prelude GoStrings GoFloat GoJson GoJsonFacts GoReadback GoTime Store Entities EntityView Outbox Records Orders SplitBill Inventory PrintJobs.
From S2P Require Import Jalali Forms Receipts Desk ClubDesk Till Stockroom.

(** ** The bills that can be split *)

(** A slice of structs; one that was never appended to is nil. *)
Definition struct_slice (l : list goany) : goany := match l with [] => ANil | _ => AArr l end.

(* app.go:2210-2217 Application.render *)
Definition split_line_json (l : SplitBillLine) : goany :=
  AMap [("key", AStr (sl_Key l)); ("title", AStr (sl_Title l)); ("qty", AInt (sl_Quantity l)); ("paidQty", AInt (sl_PaidQuantity l));
        ("remainIrr", AInt (sl_RemainingIRR l)); ("unitIrr", AInt (sl_UnitPayableIRR l))].

(** [len(strings.Split(s, sep))], one more than the times [sep] is found. *)
Fixpoint split_count (fuel : nat) (sep s : string) : Z :=
  match fuel with
  | O => 1
  | S fuel => match (SplitN2 sep s).2 with Some t => 1 + split_count fuel sep t | None => 1 end
  end%Z.

Definition id_key : string := String quote_char ("id" +:+ sone quote_char).

(* app.go:2236-2239 Application.render *)
Definition payments_count (o : Entity) : Z :=
  let raw := TrimSpace (Field o "split_payments") in
  if sempty raw then 0 else (split_count (S (String.length raw)) id_key raw - 1)%Z.

(* app.go:2235-2243 Application.render *)
Definition split_bill_json (o : Entity) : goany :=
  let '(lines, total, paid, rem) := SplitBillOf o in
  AMap [("orderId", AStr (e_ID o)); ("number", AStr (displayOrderNumber (Field o "order_number"))); ("table", AStr (TrimSpace (Field o "table_label")));
        ("totalIrr", AInt total); ("paidIrr", AInt paid); ("remainIrr", AInt rem); ("lines", struct_slice (map split_line_json lines));
        ("payments", AInt (payments_count o))].

(** The bills of the open orders by identifier. *)
(* app.go:2209-2247 Application.render *)
Definition pos_split_bills (orders : list Entity) : gomap :=
  amap (map (λ o, (e_ID o, split_bill_json o)) (List.filter is_open orders)).

(* app.go:2209-2247 Application.render *)
Definition POSSplitJSON (orders : list Entity) : string := marshal (AMap (pos_split_bills orders)).

(** ** The order under edit *)

(* app.go POSEditState *)
Record POSEditState := {
  pe_OrderID : string;
  pe_Number : string;
  pe_TableLabel : string;
  pe_CustomerName : string;
  pe_CustomerPhone : string;
  pe_Note : string;
  pe_ExtraNote : string;
  pe_DiscountIRR : Z;
  pe_ExtraIRR : Z;
  pe_ItemsJSON : string;
  pe_ItemsCount : Z;
}.

(* app.go:2254-2266 Application.render *)
Definition edit_line_json (li : OrderLineView) : goany :=
  AMap [("pid", AStr (ol_ProductID li)); ("title", AStr (ol_ProductName li)); ("price", AInt (Atoi (TrimSpace (ol_UnitPrice li))).1);
        ("qty", AInt (ol_Quantity li)); ("note", AStr (ol_Note li))].

(* app.go:2267-2277 Application.render *)
Definition edit_state (eo : Entity) : POSEditState :=
  let text k := TrimSpace (Field eo k) in
  {| pe_OrderID := e_ID eo; pe_Number := displayOrderNumber (Field eo "order_number"); pe_TableLabel := text "table_label"%stdpp;
     pe_CustomerName := text "customer_name"%stdpp; pe_CustomerPhone := text "customer_phone"%stdpp; pe_Note := text "note"%stdpp;
     pe_ExtraNote := text "extra_note"%stdpp; pe_DiscountIRR := (Atoi (text "discount_irr"%stdpp)).1; pe_ExtraIRR := (Atoi (text "extra_irr"%stdpp)).1;
     pe_ItemsJSON := marshal (struct_slice (map edit_line_json (OrderItems eo)));
     pe_ItemsCount := foldl (λ n li, wrap64 (n + ol_Quantity li)) 0%Z (OrderItems eo) |}.

(** An open order that the address asks for. *)
(* app.go:2250-2281 Application.render *)
Definition POSEdit (r : Request) (st : persistedDB) : option POSEditState :=
  let editID := asked r "edit" in
  if sempty editID then None
  else match Entity_of "order" editID st with
       | Ok eo => if is_open eo then Some (edit_state eo) else None
       | Err _ => None
       end.

(** The rows of the club in the till's dialog: the customers, and the groups with their members. *)
(* app.go:2197-2208 Application.render *)
Definition pos_club_rows (today : string) (customers orders debtors groups : list Entity) : list ClubCustomerRow * list ClubGroupRow :=
  let members (g : Entity) := count (λ c, bool_decide (TrimSpace (Field c "group_id") = e_ID g) && negb (sempty (TrimSpace (Field c "group_id")))) customers in
  (clubBuildRows customers orders debtors groups, map (λ g, clubGroupRowOf g (members g) today) groups).

(** ** The page of a receipt *)

Record ReceiptPage := {
  rp_OrderDetail : Entity;
  rp_PrintJobs : list PrintJobView;
  rp_CafeName : string;
  rp_Header : string;
  rp_Footer : string;
  rp_ItemCount : Z;
  rp_TableNumber : string;
  rp_DateTime : string;
  rp_DateOnly : string;
  rp_TimeOnly : string;
  rp_OrderType : string;
  rp_Payment : string;
}.

(** The order asked for with its jobs, or the first of all. *)
(* app.go:2939-2948 Application.render *)
Definition receipt_order (R : Runtime) (ctx : option string) (r : Request) (st : persistedDB) : option (Entity * list PrintJobView) :=
  match Entity_of "order" (query r "id") st with
  | Ok o => Some (o, match PrintJobs R ctx (e_ID o) st with Ok jobs => jobs | Err _ => [] end)
  | Err _ => (λ o, (o, [])) <$> head (Entities_of R "order" st)
  end.

(* app.go:2949-2967 Application.render *)
Definition receipt_fields (cafe : Entity) (od : Entity) (jobs : list PrintJobView) : ReceiptPage :=
  let when := jalaliDateTimeFa (Field od "created_at") in
  let '(day, time) := SplitN2 "  " when in
  {| rp_OrderDetail := od; rp_PrintJobs := jobs; rp_CafeName := cafeNameFa cafe; rp_Header := (cafeReceiptTexts cafe).1; rp_Footer := (cafeReceiptTexts cafe).2;
     rp_ItemCount := foldl (λ n li, wrap64 (n + ol_Quantity li)) 0%Z (OrderItems od); rp_TableNumber := tableNumberFa od; rp_DateTime := when;
     rp_DateOnly := day; rp_TimeOnly := default EmptyString time; rp_OrderType := orderTypeLabelFa od; rp_Payment := paymentLabelFa od |}.

(* app.go:2938-2968 Application.render *)
Definition receipt_page (R : Runtime) (ctx : option string) (r : Request) (cafe : Entity) (st : persistedDB) : option ReceiptPage :=
  (λ p, receipt_fields cafe p.1 p.2) <$> receipt_order R ctx r st.

(** ** The page that edits a record of the menu *)

Record EditorPage := {
  ed_Kind : string;
  ed_EntityID : string;
  ed_Action : string;
  ed_EditPayload : string;
  ed_Version : Z;
  ed_Fields : gmap string string;
}.

Definition json_text (l : list (string * string)) : string := marshal (AMap (map (λ p, (p.1, AStr p.2)) l)).

(* app.go:3803-3808 Application.render *)
Definition editor_default (kind : string) : option string :=
  switch kind
    [(["category"], Some (json_text [("title", "")]));
     (["product"], Some (json_text [("title", ""); ("category_id", ""); ("price", "0")]));
     (["ingredient"], Some (json_text [("name", ""); ("base_unit", "g")]));
     (["banner"], Some (json_text [("title", "")]))]%stdpp None.

(** The members of a text that is an object, strings as they are and the rest as JSON. *)
(* app.go:3830-3839 Application.render *)
Definition payload_fields (payload : string) : gmap string string :=
  foldl (λ m p, <[p.1 := default p.2 (unmarshal_string p.2)]> m) ∅ (default [] (default None (unmarshal_rawmap payload))).

Inductive EditorReply :=
| EditorNotFound
| EditorFailed
| EditorShown (p : EditorPage).

(** [posted] is whether the request's method is POST. *)
(* app.go:3799-3843 Application.render *)
Definition editor_page (r : Request) (posted : bool) (st : persistedDB) : EditorReply :=
  let kind := query r "kind" in
  let id := query r "id" in
  match editor_default kind with
  | None => EditorNotFound
  | Some text =>
      let found := if sempty id then Err EmptyString else Entity_of kind id st in
      let '(version, action, payload) :=
        match found with Ok e => (e_Version e, "update", EditablePayload kind (e_Payload e)) | Err _ => (0%Z, "create", text) end%stdpp in
      let '(version, action, payload) :=
        if posted then ((Atoi (form r "version")).1, form r "action", form r "payload") else (version, action, payload) in
      let page := {| ed_Kind := kind; ed_EntityID := id; ed_Action := action; ed_EditPayload := payload; ed_Version := version; ed_Fields := payload_fields payload |} in
      (* the categories of a product are read last, and their error replaces the record's *)
      if negb (sempty id) && negb (is_ok found) && negb (bool_decide (kind = "product")) then EditorFailed else EditorShown page
  end.

(** The form of a group of customers, and the category of ingredients under edit. *)
(* app.go:3105-3122 Application.render *)
Definition club_group_form (r : Request) (st : persistedDB) : FormState :=
  let id := asked r "id" in form_state id (Entity_of "customer_group" id st).

(* app.go:3747-3760 Application.render *)
Definition inv_category_edit (r : Request) (st : persistedDB) : gmap string string :=
  let id := asked r "edit" in fs_Fields (form_state id (Entity_of "ingredient_category" id st)).

(** ** What the page's script is given cannot end the script *)

(** The bytes by which a text inside a page could leave its script. *)
Definition script_safe (c : ascii) : bool := negb (existsb (Ascii.eqb c) ["<"; ">"; "&"]%char).

Definition high_byte (c : ascii) : bool := (128 <=? byte_of c)%N.

Lemma high_script_safe c : high_byte c = true → script_safe c = true.
Proof. by destruct c as [[] [] [] [] [] [] [] []]. Qed.

Lemma cont_high c : is_cont c = true → high_byte c = true.
Proof. unfold is_cont, in_range, high_byte. intros H. by bools. Qed.

Lemma second_range_high lead c : second_range lead c = true → high_byte c = true.
Proof. unfold second_range, is_cont, in_range, high_byte. intros H. repeat case_match; bools; rewrite ?N.leb_le in *; lia. Qed.

(** The bytes of a rune of more than one byte are high. *)
Lemma long_rune_high s : (2 <= rune_len s)%nat → sforall high_byte (stake (rune_len s) s) = true.
Proof.
  unfold rune_len. destruct s as [|c0 t]; [cbn; lia|]. destruct (byte_of c0 <? 128)%N eqn:E; [cbn; lia|].
  assert (high_byte c0 = true) as H0 by (unfold high_byte; apply N.leb_le; by apply N.ltb_ge in E).
  repeat match goal with |- context [match ?x with _ => _ end] => destruct x eqn:? end; cbn [stake sforall]; intros Hl; try lia;
    repeat match goal with H : (_ && _)%bool = true |- _ => apply andb_prop in H as [? ?] end; rewrite !andb_true_iff;
    split_and!; try done; first [by apply cont_high|by eapply second_range_high].
Qed.

Lemma hex_char_safe n : (n < 16)%N → script_safe (hex_char n) = true.
Proof.
  intros H. unfold script_safe, hex_char. assert (n = 0 ∨ n = 1 ∨ n = 2 ∨ n = 3 ∨ n = 4 ∨ n = 5 ∨ n = 6 ∨ n = 7 ∨ n = 8 ∨ n = 9 ∨ n = 10 ∨ n = 11 ∨ n = 12 ∨ n = 13 ∨ n = 14 ∨ n = 15)%N as Hn by lia.
  by repeat destruct Hn as [->|Hn]; [..|subst n].
Qed.

Lemma sforall_weaken {P Q : ascii → bool} s : (∀ c, P c = true → Q c = true) → sforall P s = true → sforall Q s = true.
Proof. intros H. apply sforall_impl, H. Qed.

Lemma quote_rune_safe c s : sforall script_safe (quote_rune (GoJsonFacts.first_rune c s)) = true.
Proof.
  unfold GoJsonFacts.first_rune, rune_step. destruct (decide (2 <= rune_len (String c s))%nat) as [Hl|Hl].
  - replace (Nat.max 1 _) with (rune_len (String c s)) by lia. pose proof (long_rune_high _ Hl) as H. destruct (rune_len (String c s)) as [|[|n]]; [lia..|].
    pose proof (rune_len_le (String c s)) as Hlen. cbn [stake] in *. destruct s as [|d s]; [|cbn [stake] in *].
    + cbn in H. unfold quote_rune. unfold high_byte in H. rewrite andb_true_r in H. by rewrite H.
    + unfold quote_rune. repeat case_bool_decide; [vm_compute; reflexivity..|]. by apply (sforall_weaken _ high_script_safe).
  - assert (stake (Nat.max 1 (rune_len (String c s))) (String c s) = sone c) as -> by (destruct (rune_len (String c s)) as [|[|n]]; [done..|lia]).
    clear. destruct c as [[] [] [] [] [] [] [] []]; vm_compute; reflexivity.
Qed.

Lemma quote_safe s : sforall script_safe (quote s) = true.
Proof.
  unfold quote. cbn [sforall]. rewrite sforall_app. enough (sforall script_safe (quote_body s) = true) as -> by done.
  induction s as [|c s IH] using rune_ind; [done|]. rewrite quote_body_cons, sforall_app, quote_rune_safe. done.
Qed.

Lemma sforall_Join P sep l : sforall P sep = true → Forall (λ s, sforall P s = true) l → sforall P (Join sep l) = true.
Proof.
  intros Hs. induction 1 as [|x l Hx Hl IH]; [done|]. cbn [Join]. destruct l; [done|]. by rewrite !sforall_app, Hx, Hs.
Qed.

(** Values without floats. *)
Fixpoint floatless (a : goany) : bool :=
  match a with
  | AFloat _ => false
  | AArr l => forallb floatless l
  | AMap m => forallb (λ p, floatless p.2) m
  | _ => true
  end.

Lemma marshal_safe a : floatless a = true → sforall script_safe (marshal a) = true.
Proof.
  induction a as [|[]|z|x|s|l IH|m IH] using goany_ind'; cbn [floatless marshal]; intros H; try done.
  - eapply sforall_weaken; [|apply Z_to_dec_bytes]. intros c. by destruct c as [[] [] [] [] [] [] [] []].
  - apply quote_safe.
  - cbn [sforall]. rewrite sforall_app, sforall_Join; [done..|]. apply Forall_map. rewrite forallb_forall in H. rewrite Forall_forall in *. intros x Hx.
    by apply IH, H, list_elem_of_In.
  - cbn [sforall]. rewrite sforall_app, sforall_Join; [done..|]. apply Forall_map. rewrite forallb_forall in H. rewrite Forall_forall in *. intros x Hx.
    rewrite sforall_app, quote_safe. cbn [sforall]. rewrite (IH x Hx); [done|]. by apply H, list_elem_of_In.
Qed.

Lemma forallb_all {A} (f : A → bool) l : (∀ x, f x = true) → forallb f l = true.
Proof. intros H. induction l as [|x l IH]; [done|]. cbn. by rewrite H, IH. Qed.

Lemma floatless_slice {A} (f : A → goany) l : (∀ x, floatless (f x) = true) → floatless (struct_slice (map f l)) = true.
Proof. intros H. destruct l as [|x l]; [done|]. cbn [struct_slice map floatless forallb]. rewrite H. cbn [andb]. by rewrite forallb_map, forallb_all. Qed.

(** C35: what the till's page hands to its script, the bills of the open orders and the order under
    edit, has none of the bytes that could end the script or start a tag, whatever customers, tables, products and
    notes are called. *)
Theorem page_script_safe orders eo :
  sforall script_safe (POSSplitJSON orders) = true ∧ sforall script_safe (pe_ItemsJSON (edit_state eo)) = true.
Proof.
  split.
  - apply marshal_safe. cbn [floatless]. apply forallb_amap. rewrite forallb_map. apply forallb_all. intros o. cbn [snd]. unfold split_bill_json.
    destruct (SplitBillOf o) as [[[lines total] paid] rem]. cbn [floatless forallb andb snd]. by rewrite (floatless_slice split_line_json).
  - apply marshal_safe. by apply (floatless_slice edit_line_json).
Qed.

(** ** The bills are those of the open orders *)

Lemma aget_rows {A} (f : A → string) (g : A → goany) l : ∀ m k,
  (k ∉ map f l → aget k (foldl (λ m '(k, v), aset k v m) m (map (λ o, (f o, g o)) l)) = aget k m)
  ∧ (∀ x, NoDup (map f l) → x ∈ l → aget (f x) (foldl (λ m '(k, v), aset k v m) m (map (λ o, (f o, g o)) l)) = g x).
Proof.
  induction l as [|y l IH]; intros m k; [split; [done|intros x _ Hx; by apply elem_of_nil in Hx]|]. cbn [map foldl]. split.
  - rewrite not_elem_of_cons. intros [Hne Hk]. rewrite (proj1 (IH _ k) Hk). by rewrite aget_aset_ne.
  - intros x [Hy Hnd]%NoDup_cons Hx. apply elem_of_cons in Hx as [->|Hx]; [|by apply (proj2 (IH _ k))].
    rewrite (proj1 (IH _ (f y)) Hy). apply aget_aset_eq.
Qed.

(** The dialog has the bill of every open order and of no other. *)
Lemma split_bills_open orders o : NoDup (map e_ID orders) → o ∈ orders →
  aget (e_ID o) (pos_split_bills orders) = if is_open o then split_bill_json o else ANil.
Proof.
  intros Hnd Ho. unfold pos_split_bills, amap. destruct (is_open o) eqn:E.
  - apply (proj2 (aget_rows e_ID split_bill_json _ [] EmptyString)).
    + clear -Hnd. induction orders as [|x l IH]; [done|]. apply NoDup_cons in Hnd as [Hx Hnd]. cbn [List.filter]. destruct (is_open x); [|by apply IH].
      cbn [map]. constructor; [|by apply IH]. intros (y & Ey & Hy)%list_elem_of_fmap. apply Hx. rewrite Ey. apply list_elem_of_fmap_2.
      apply list_elem_of_In, filter_In in Hy as [Hy _]. by apply list_elem_of_In.
    + apply list_elem_of_In, filter_In. split; [by apply list_elem_of_In|done].
  - rewrite (proj1 (aget_rows e_ID split_bill_json _ [] (e_ID o))); [done|]. intros (y & Ey & Hy)%list_elem_of_fmap.
    apply list_elem_of_In, filter_In in Hy as [Hy E']. apply list_elem_of_In in Hy. enough (y = o) by congruence.
    clear -Hnd Ho Hy Ey. induction orders as [|x l IH]; [by apply elem_of_nil in Ho|]. apply NoDup_cons in Hnd as [Hx Hnd].
    apply elem_of_cons in Ho as [->|Ho], Hy as [->|Hy]; [done|..|by apply IH].
    + destruct Hx. rewrite Ey. by apply list_elem_of_fmap_2.
    + destruct Hx. rewrite <- Ey. by apply list_elem_of_fmap_2.
Qed.

(** ** Concrete pages *)

Definition a_bill : Entity :=
  some_row "o1" "order" [("items", AArr [AMap [("id", AStr "l1"); ("line_total_irr", AStr "300000"); ("quantity", AInt 2); ("title", AStr "</script>")]]);
                         ("price", AStr "300000"); ("status", AStr "ready")]%stdpp.

Example split_json_escaped :
  POSSplitJSON [a_bill; some_row "o2" "order" [("status", AStr "completed")]%stdpp]
  = marshal (AMap [("o1", AMap [("orderId", AStr "o1"); ("number", AStr ""); ("table", AStr ""); ("totalIrr", AInt 300000); ("paidIrr", AInt 0);
      ("remainIrr", AInt 300000); ("lines", AArr [AMap [("key", AStr "l1"); ("title", AStr "</script>"); ("qty", AInt 2); ("paidQty", AInt 0);
      ("remainIrr", AInt 300000); ("unitIrr", AInt 150000)]]); ("payments", AInt 0)])])%stdpp.
Proof. vm_compute. reflexivity. Qed.
