(* ===== verification/Dashboard.v ===== *)
(** * The dashboard

    Models [fillDashboard], [growthBadge] and the figures of [buildRevenueChart] of
    [offline-menuvex/app.go]: the sales of the present day of Tehran and of the day before,
    the newest orders, the products that sell best, the stock that runs low, and the income
    and the expenses of the chart by the hour or by the day.  The drawing of the chart is not
    modelled. *)
From S2P Require Import Prelude GoStrings GoFloat GoJson GoJsonFacts GoReadback GoFloatInt GoTime Store Entities EntityView Records Orders.
From S2P Require Import OrderStates Jalali Forms Desk Till OrderBoard Stockroom.

Local Open Scope Z_scope.

(** ** Days of Tehran *)

Definition local_day (t : Z) : Z := (unix_sec t + tehranZone) / 86400.
Definition day_start (d : Z) : Z := (d * 86400 - tehranZone) * second.

(** [t.AddDate(0, 0, -i)] in a zone of one offset. *)
Definition days_back (i t : Z) : Z := t - i * (86400 * second).

Definition same_date (t u : Z) : bool :=
  let '(a, b) := (Date tehranZone t, Date tehranZone u) in (d_year a =? d_year b) && (d_month a =? d_month b) && (d_day a =? d_day b).

Definition day_key (t : Z) : string := FormatDate (Date tehranZone t).

(** The float64 of what is said to be the price; zero when it is no number. *)
Definition amount (e : Entity) : f64 := (ParseFloat (PriceIRR e)).1.
Definition fsum (l : list f64) : f64 := foldl fadd fzero l.

Definition lower_status (o : Entity) : string := ToLower (Field o "status").
Definition sold (o : Entity) : bool := bool_decide (lower_status o = "completed").

(** ** The chart's figures *)

(* app.go:479-484 buildRevenueChart *)
Record Bucket := { bk_label : string; bk_title : string; bk_income : f64; bk_expense : f64 }.

Definition new_bucket (label title : string) : Bucket := {| bk_label := label; bk_title := title; bk_income := fzero; bk_expense := fzero |}.
Definition add_income (x : f64) (b : Bucket) : Bucket :=
  {| bk_label := bk_label b; bk_title := bk_title b; bk_income := fadd (bk_income b) x; bk_expense := bk_expense b |}.
Definition add_expense (x : f64) (b : Bucket) : Bucket :=
  {| bk_label := bk_label b; bk_title := bk_title b; bk_income := bk_income b; bk_expense := fadd (bk_expense b) x |}.

(* app.go:485-492 buildRevenueChart *)
Definition fullDate (t : Z) : string :=
  let '(jy, jm, jd) := jalali_of t in
  let wd := default EmptyString (jalaliWeekdayNames !! Z.to_nat (Z.rem (Weekday tehranZone t) 7)) in
  ToPersianDigits (wd +:+ " " +:+ Z_to_dec jd +:+ " " +:+ month_name jm +:+ " " +:+ Z_to_dec jy).

(** The number of the day and its month. *)
(* app.go:709-716 buildReportIncomeChart *)
Definition dayLabel (t : Z) : string := let '(_, jm, jd) := jalali_of t in ToPersianDigits (Z_to_dec jd) +:+ " " +:+ month_name jm.

(** Each entity with a time goes to the place its time has, if it has one. *)
Definition pour {B} (place : Z → option nat) (add : Entity → B → B) (l : list Entity) (bs : list B) : list B :=
  foldl (λ bs e, match entityTime e with
                 | Some t => match place t with Some i => alter (add e) i bs | None => bs end
                 | None => bs
                 end) bs l.

(** The place of an hour of the day of [now], and of a day among those of the index. *)
Definition hour_place (now t : Z) : option nat := if same_date t now then Some (Z.to_nat (Hour tehranZone t)) else None.

Definition key_index (keys : list string) : gmap string nat := foldl (λ m p, <[p.2 := p.1]> m) ∅ (imap pair keys).
Definition day_place (days : list Z) (t : Z) : option nat := key_index (map day_key days) !! day_key t.

(** The [n] days that end with the one of [now]. *)
Definition last_days (n : nat) (now : Z) : list Z := map (λ i, days_back (Z.of_nat i) now) (reverse (seq 0 n)).

(* app.go:494-500 buildRevenueChart *)
Definition hour_buckets (now : Z) : list Bucket :=
  map (λ h, let label := pad_num 2 (Z.of_nat h) +:+ ":00" in new_bucket label (fullDate now +:+ " - ساعت " +:+ ToPersianDigits label)) (seq 0 24).

(* app.go:532-546 buildRevenueChart *)
Definition day_buckets (days : list Z) : list Bucket := map (λ d, new_bucket (dayLabel d) (fullDate d)) days.

(* app.go:493-570 buildRevenueChart *)
Definition revenue_buckets (rangeKey : string) (orders expenses : list Entity) (now : Z) : list Bucket :=
  let fill place bs :=
    pour place (λ e, add_expense (amount e)) expenses (pour place (λ o, add_income (amount o)) (List.filter sold orders) bs) in
  if bool_decide (rangeKey = "today") then fill (hour_place now) (hour_buckets now)
  else let days := last_days (if bool_decide (rangeKey = "30d") then 30 else 7) now in fill (day_place days) (day_buckets days).

(** What the chart says of a point when it is pointed at. *)
(* app.go:669-674 buildRevenueChart *)
Definition bucket_texts (b : Bucket) : string * string * string :=
  (bk_title b, FormatIRRToToman (FormatFixed 0 (bk_income b)), FormatIRRToToman (FormatFixed 0 (bk_expense b))).

(** ** Growth *)

Definition half : f64 := fdiv (f64_of_Z 1) (f64_of_Z 2).

(** [int((d / base) * 100 + 0.5)] *)
Definition percent_of (d base : f64) : Z := f64_to_int64 (fadd (fmul (fdiv d base) (f64_of_Z 100)) half).

(* app.go growthBadge *)
Definition growthBadge (today yesterday : f64) : string * string :=
  if fle yesterday fzero then (EmptyString, EmptyString)
  else
    let down := flt today yesterday in
    let pct := if down then percent_of (fsub yesterday today) yesterday else percent_of (fsub today yesterday) yesterday in
    if pct =? 0 then ("بدون تغییر", "neutral")%stdpp
    else if down then (FormatPersianNumber (Z_to_dec pct) +:+ "٪ کاهش", "neg"%stdpp)
    else (FormatPersianNumber (Z_to_dec pct) +:+ "٪ افزایش", "pos"%stdpp).

(** ** What sells *)

(** The products in the order in which they are met, and how many of each. *)
(* app.go:384-388 Application.fillDashboard *)
Definition popular_of (lines : list OrderLineView) : list string * gmap string Z :=
  foldl (λ '(names, m) l,
    let name := ol_ProductName l in
    (match m !! name with Some _ => names | None => names ++ [name] end,
     <[name := wrap64 (default 0 (m !! name) + ol_Quantity l)]> m)) ([], ∅) lines.

(* app.go DashPopularRow *)
Record DashPopularRow := { dp_Rank : Z; dp_Name : string; dp_Qty : Z; dp_Percent : Z }.

(* app.go:449-465 Application.fillDashboard *)
Definition popular_top (R : Runtime) (names : list string) (qty : string → Z) : list DashPopularRow :=
  let maxQty := foldl (λ mx name, Z.max mx (qty name)) 0 names in
  imap (λ i name, {| dp_Rank := Z.of_nat i + 1; dp_Name := name; dp_Qty := qty name;
                     dp_Percent := if 0 <? maxQty then quot64 (wrap64 (qty name * 100)) maxQty else 0 |})
    (take 5 (sort_slice R (λ a b, qty b <? qty a) names)).

(* app.go:449-465 Application.fillDashboard *)
Definition popular_rows (R : Runtime) (lines : list OrderLineView) : list DashPopularRow :=
  let '(names, m) := popular_of lines in popular_top R names (λ name, default 0 (m !! name)).

(** ** The newest orders *)

(* app.go DashRecentRow *)
Record DashRecentRow := { dr_Entity : Entity; dr_ItemsLabel : string; dr_Items : list string; dr_Quantity : Z; dr_TimeLabel : string }.

Definition dated (l : list Entity) : list (Entity * Z) := omap (λ e, (λ t, (e, t)) <$> entityTime e) l.

(* app.go:429-445 Application.fillDashboard *)
Definition recent_order (p : Entity * Z) : DashRecentRow :=
  let lines := OrderItems p.1 in
  {| dr_Entity := p.1; dr_ItemsLabel := Join "، " (map ol_ProductName lines);
     dr_Items := map (λ l, ol_ProductName l +:+ (if 1 <? ol_Quantity l then " ×" +:+ FormatPersianNumber (Z_to_dec (ol_Quantity l)) else EmptyString)) lines;
     dr_Quantity := foldl (λ q l, wrap64 (q + ol_Quantity l)) 0 lines;
     dr_TimeLabel := ToPersianDigits (pad_num 2 (Hour tehranZone p.2) +:+ ":" +:+ pad_num 2 (Minute tehranZone p.2)) |}.

(* app.go:423-446 Application.fillDashboard *)
Definition recent_six (R : Runtime) (orders : list Entity) : list (Entity * Z) := take 6 (sort_slice R (λ a b, b.2 <? a.2) (dated orders)).

(** ** The page *)

Definition waiting (o : Entity) : bool := existsb (String.eqb (lower_status o)) ["preparing"; "accepted"; "pending"; "ready"]%stdpp.

(* app.go:414-418 Application.fillDashboard *)
Definition low_item (ing : Entity) : InvRow :=
  {| ir_Entity := ing; ir_StatusKey := if fle (current_stock ing) fzero then "out" else "low";
     ir_StockDisplay := FormatPersianNumber (FormatShort (current_stock ing)) +:+ " " +:+ UnitLabel ing;
     ir_ValueToman := EmptyString; ir_Location := EmptyString; ir_Category := EmptyString |}.

Record Dashboard := {
  da_TodayLabel : string;
  da_Waiting : Z;
  da_CompletedToday : Z;
  da_OrdersToday : Z;
  da_RevTodayFa : string;
  da_AvgTodayFa : string;
  da_RevGrowth : string * string;
  da_OrdersGrowth : string * string;
  da_AvgGrowth : string * string;
  da_LowStock : Z;
  da_LowItems : list InvRow;
  da_Recent : list DashRecentRow;
  da_RecentTotal : string;
  da_Popular : list DashPopularRow;
  da_ChartRange : string;
  da_Chart : list Bucket;
}.

(** The completed orders of the present day or later, and those of the day before. *)
Definition sold_since (now : Z) (p : Entity * Z) : bool := sold p.1 && (day_start (local_day now) <=? p.2).
Definition sold_yesterday (now : Z) (p : Entity * Z) : bool :=
  sold p.1 && ((p.2 <? day_start (local_day now)) && (day_start (local_day now - 1) <=? p.2)).

Definition sales (P : Entity * Z → bool) (orders : list Entity) : list Entity := (List.filter P (dated orders)).*1.

(** The mean of a revenue; zero when nothing was sold. *)
Definition mean (rev : f64) (n : Z) : f64 := if 0 <? n then fdiv rev (f64_of_Z n) else fzero.

Definition chart_range (r : Request) : string :=
  let range := asked r "range" in if bool_decide (range = "7d") || bool_decide (range = "30d") then range else "today".

(* app.go Application.fillDashboard *)
Definition fillDashboard (R : Runtime) (now : Z) (r : Request) (orders expenses ingredients : list Entity) : Dashboard :=
  let today := sales (sold_since now) orders in
  let yesterday := sales (sold_yesterday now) orders in
  let '(revToday, revY) := (fsum (map amount today), fsum (map amount yesterday)) in
  let '(ordersToday, ordersY) := (Z.of_nat (length today), Z.of_nat (length yesterday)) in
  let '(avgToday, avgY) := (mean revToday ordersToday, mean revY ordersY) in
  let low := List.filter NeedsReorder ingredients in
  let recents := recent_six R orders in
  {| da_TodayLabel := "امروز، " +:+ (SplitN2 " — " (FormatJalaliFull now)).1;
     da_Waiting := count waiting (dated orders).*1;
     da_CompletedToday := ordersToday; da_OrdersToday := ordersToday;
     da_RevTodayFa := tomanNumber (FormatFixed 0 revToday); da_AvgTodayFa := tomanNumber (FormatFixed 0 avgToday);
     da_RevGrowth := growthBadge revToday revY; da_OrdersGrowth := growthBadge (f64_of_Z ordersToday) (f64_of_Z ordersY);
     da_AvgGrowth := growthBadge avgToday avgY;
     da_LowStock := Z.of_nat (length low); da_LowItems := map low_item (take 4 low);
     da_Recent := map recent_order recents;
     da_RecentTotal := FormatIRRToToman (Z_to_dec (Zsum (map (λ p, parseIRRBig (PriceIRR p.1)) recents)));
     da_Popular := popular_rows R (concat (map OrderItems today));
     da_ChartRange := chart_range r; da_Chart := revenue_buckets (chart_range r) orders expenses now |}.

(** ** Days and their keys *)

Lemma local_day_start t d : day_start d <= t ↔ d <= local_day t.
Proof.
  unfold day_start, local_day, unix_sec, second. pose proof (Z.div_mod t 1000000000 ltac:(lia)). pose proof (Z.mod_pos_bound t 1000000000 ltac:(lia)).
  set (s := t / 1000000000) in *. pose proof (Z.div_mod (s + tehranZone) 86400 ltac:(lia)). pose proof (Z.mod_pos_bound (s + tehranZone) 86400 ltac:(lia)). nia.
Qed.

Lemma local_day_back i t : local_day (days_back i t) = local_day t - i.
Proof.
  unfold local_day, days_back, unix_sec. replace (t - i * (86400 * second)) with (t + (- i * 86400) * second) by lia.
  rewrite Z.div_add by done. replace (t / second + - i * 86400 + tehranZone) with (t / second + tehranZone + - i * 86400) by lia. rewrite Z.div_add by done. lia.
Qed.

Lemma date_of_days_inj d e : date_of_days d = date_of_days e → d = e.
Proof. intros H%(f_equal days_of_date). by rewrite !days_of_date_of_days in H. Qed.

Lemma same_date_day t u : same_date t u = bool_decide (local_day t = local_day u).
Proof.
  apply eq_true_iff_eq. unfold same_date, Date. fold (local_day t) (local_day u). rewrite bool_decide_eq_true, !andb_true_iff, !Z.eqb_eq.
  split; [|by intros ->]. intros [[Hy Hm] Hd]. enough (local_day t + epoch_day = local_day u + epoch_day) by lia. apply date_of_days_inj.
  revert Hy Hm Hd. generalize (date_of_days (local_day t + epoch_day)), (date_of_days (local_day u + epoch_day)).
  intros [? ? ?] [? ? ?]. intros Hy Hm Hd. f_equal; [exact Hy|exact Hm|exact Hd].
Qed.

(** Times whose year in Tehran has four digits: the text of the date says which it is. *)
Definition tehran_year (t : Z) : Prop := 0 <= d_year (Date tehranZone t) <= 9999.
#[export] Instance tehran_year_dec t : Decision (tehran_year t).
Proof. unfold tehran_year. apply _. Defined.

Lemma day_key_inj t u : tehran_year t → tehran_year u → day_key t = day_key u ↔ local_day t = local_day u.
Proof.
  unfold tehran_year, day_key, Date. fold (local_day t) (local_day u). intros Ht Hu. split; [|by intros ->]. intros E.
  pose proof (parse_date_Format _ EmptyString Ht) as Pt. pose proof (parse_date_Format _ EmptyString Hu) as Pu. cbv zeta in Pt, Pu.
  rewrite E, Pu in Pt. apply (inj Some), pair_equal_spec in Pt as [E2 _]. apply date_of_days_inj in E2. lia.
Qed.

Lemma key_index_snoc keys k : key_index (keys ++ [k]) = <[k := length keys]> (key_index keys).
Proof. unfold key_index. rewrite imap_app, foldl_app. cbn. by rewrite Nat.add_0_r. Qed.

Lemma key_index_lookup keys k i : NoDup keys → key_index keys !! k = Some i ↔ keys !! i = Some k.
Proof.
  induction keys as [|x keys IH] using rev_ind; [done|]. intros (Hn & Hx & _)%NoDup_app. rewrite key_index_snoc. destruct (decide (x = k)) as [<-|Hk].
  - rewrite lookup_insert_eq. split.
    + intros [= <-]. by rewrite lookup_app_r, Nat.sub_diag by done.
    + intros [H|[Hi H]]%lookup_app_Some; [|apply list_lookup_singleton_Some in H as [H _]; f_equal; lia].
      exfalso. apply (Hx x); [by eapply list_elem_of_lookup_2|set_solver].
  - rewrite lookup_insert_ne, IH by done. rewrite lookup_app_Some. split; [by left|].
    intros [H|[_ [_ H]%list_lookup_singleton_Some]]; [done|]. congruence.
Qed.

Lemma lookup_last_days n now i d : last_days n now !! i = Some d ↔ (i < n)%nat ∧ d = days_back (Z.of_nat (n - 1 - i)) now.
Proof.
  unfold last_days. rewrite list_lookup_fmap, fmap_Some. destruct (decide (i < n)%nat) as [Hi|Hi].
  - rewrite reverse_lookup by (rewrite length_seq; lia). rewrite length_seq. setoid_rewrite lookup_seq. split.
    + intros (j & [-> ?] & ->). split; [done|]. do 2 f_equal. lia.
    + intros [_ ->]. eexists. split; [split; [done|lia]|]. do 2 f_equal. lia.
  - split; [|lia]. intros (j & H & _). apply lookup_lt_Some in H. rewrite length_reverse, length_seq in H. lia.
Qed.

Lemma length_last_days n now : length (last_days n now) = n.
Proof. unfold last_days. by rewrite length_map, length_reverse, length_seq. Qed.

Lemma last_days_keys n now : Forall tehran_year (last_days n now) → NoDup (map day_key (last_days n now)).
Proof.
  intros Hy. apply NoDup_alt. intros i j k Hi Hj. change (map day_key (last_days n now)) with (day_key <$> last_days n now) in *.
  rewrite list_lookup_fmap in *. apply fmap_Some in Hi as (d & Hi & ->), Hj as (e & Hj & Hk).
  rewrite Forall_lookup in Hy. apply day_key_inj in Hk; [|by eauto..]. apply lookup_last_days in Hi as [? ->], Hj as [? ->].
  rewrite !local_day_back in Hk. lia.
Qed.

Lemma day_place_spec n now t i : Forall tehran_year (last_days n now) → tehran_year t →
  day_place (last_days n now) t = Some i ↔ (i < n)%nat ∧ local_day t = local_day now - Z.of_nat (n - 1 - i).
Proof.
  intros Hy Ht. unfold day_place. rewrite key_index_lookup by (by apply last_days_keys). change (map day_key (last_days n now)) with (day_key <$> last_days n now).
  rewrite list_lookup_fmap, fmap_Some. rewrite Forall_lookup in Hy. split.
  - intros (d & Hd & Hk). apply day_key_inj in Hk; [|by eauto..]. apply lookup_last_days in Hd as [Hi ->]. by rewrite Hk, local_day_back.
  - intros [Hi Hd]. exists (days_back (Z.of_nat (n - 1 - i)) now). assert (last_days n now !! i = Some (days_back (Z.of_nat (n - 1 - i)) now)) as Hl
      by (by apply lookup_last_days). split; [done|]. apply day_key_inj; [by eauto..|]. by rewrite Hd, local_day_back.
Qed.

Lemma hour_place_spec now t i : hour_place now t = Some i ↔ local_day t = local_day now ∧ i = Z.to_nat (Hour tehranZone t).
Proof. unfold hour_place. rewrite same_date_day. case_bool_decide; split; [by intros [= <-]|by intros [_ ->]|done|by intros [? _]]. Qed.

(** ** What is poured where *)

Definition placed (place : Z → option nat) (i : nat) (e : Entity) : bool :=
  match entityTime e with Some t => bool_decide (place t = Some i) | None => false end.

Lemma pour_lookup {B} place (add : Entity → B → B) l bs i :
  pour place add l bs !! i = (λ b, foldl (λ b e, add e b) b (List.filter (placed place i) l)) <$> bs !! i.
Proof.
  unfold pour. revert bs. induction l as [|e l IH]; intros bs; cbn [foldl List.filter]; [by rewrite option_fmap_id|].
  rewrite IH. unfold placed at 2. destruct (entityTime e) as [t|]; [|done]. destruct (place t) as [j|]; [|done].
  case_bool_decide as Hj; [injection Hj as ->; rewrite list_lookup_alter_eq; by destruct (bs !! i)|].
  rewrite list_lookup_alter_ne by congruence. done.
Qed.

Lemma add_income_all l b : let b' := foldl (λ b e, add_income (amount e) b) b l in
  (bk_label b', bk_title b', bk_expense b') = (bk_label b, bk_title b, bk_expense b) ∧ bk_income b' = foldl fadd (bk_income b) (map amount l).
Proof. revert b. induction l as [|e l IH]; intros b; [done|]. cbn [foldl map]. cbv zeta in *. destruct (IH (add_income (amount e) b)) as [E ->]. by rewrite E. Qed.

Lemma add_expense_all l b : let b' := foldl (λ b e, add_expense (amount e) b) b l in
  (bk_label b', bk_title b', bk_income b') = (bk_label b, bk_title b, bk_income b) ∧ bk_expense b' = foldl fadd (bk_expense b) (map amount l).
Proof. revert b. induction l as [|e l IH]; intros b; [done|]. cbn [foldl map]. cbv zeta in *. destruct (IH (add_expense (amount e) b)) as [E ->]. by rewrite E. Qed.

(** The places, and the buckets before anything is in them. *)
Definition chart_days (rangeKey : string) : nat := if bool_decide (rangeKey = "30d") then 30 else 7.
Definition chart_place (rangeKey : string) (now : Z) : Z → option nat :=
  if bool_decide (rangeKey = "today") then hour_place now else day_place (last_days (chart_days rangeKey) now).
Definition chart_base (rangeKey : string) (now : Z) : list Bucket :=
  if bool_decide (rangeKey = "today") then hour_buckets now else day_buckets (last_days (chart_days rangeKey) now).

Lemma revenue_buckets_lookup rk orders expenses now i b :
  chart_base rk now !! i = Some b → (bk_income b, bk_expense b) = (fzero, fzero) →
  ∃ b', revenue_buckets rk orders expenses now !! i = Some b' ∧ (bk_label b', bk_title b') = (bk_label b, bk_title b)
    ∧ bk_income b' = fsum (map amount (List.filter (placed (chart_place rk now) i) (List.filter sold orders)))
    ∧ bk_expense b' = fsum (map amount (List.filter (placed (chart_place rk now) i) expenses)).
Proof.
  intros Hb [= Hi He]. assert (revenue_buckets rk orders expenses now = pour (chart_place rk now) (λ e, add_expense (amount e)) expenses
    (pour (chart_place rk now) (λ o, add_income (amount o)) (List.filter sold orders) (chart_base rk now))) as ->.
  { unfold revenue_buckets, chart_base, chart_place, chart_days. by case_bool_decide. }
  rewrite !pour_lookup, Hb. cbn [fmap option_fmap option_map]. eexists. split; [done|].
  set (l := List.filter _ expenses). set (k := List.filter _ (List.filter _ _)).
  pose proof (add_expense_all l (foldl (λ b e, add_income (amount e) b) b k)) as [[= E1 E2 E3] E4].
  pose proof (add_income_all k b) as [[= F1 F2 F3] F4].
  rewrite E1, E2, E3, E4, F1, F2, F3, F4, Hi, He. done.
Qed.

Lemma length_pour {B} place (add : Entity → B → B) l bs : length (pour place add l bs) = length bs.
Proof.
  unfold pour. revert bs. induction l as [|e l IH]; intros bs; cbn [foldl]; [done|]. rewrite IH.
  destruct (entityTime e) as [t|]; [|done]. destruct (place t); [|done]. apply length_alter.
Qed.

(** ** The sales of a day *)

Lemma sales_filter P orders :
  sales P orders = List.filter (λ o, match entityTime o with Some t => P (o, t) | None => false end) orders.
Proof.
  unfold sales, dated. induction orders as [|o l IH]; [done|]. cbn [omap list_omap List.filter]. destruct (entityTime o) as [t|]; cbn [fmap option_fmap option_map]; [|exact IH].
  cbn [List.filter]. destruct (P (o, t)); [|exact IH]. rewrite fmap_cons. cbn [fst]. f_equal. exact IH.
Qed.

Lemma elem_of_dated l e t : (e, t) ∈ dated l ↔ e ∈ l ∧ entityTime e = Some t.
Proof.
  unfold dated. rewrite list_elem_of_omap. split.
  - intros (x & Hx & (u & Hu & [= -> ->])%fmap_Some). done.
  - intros [He Ht]. exists e. split; [done|]. by rewrite Ht.
Qed.

(** The completed orders that go to a place are the sales of the times that have it. *)
Lemma placed_sales place i P orders :
  (∀ o t, (o, t) ∈ dated orders → sold o = true → place t = Some i ↔ P (o, t) = true) → (∀ p, P p = true → sold p.1 = true) →
  List.filter (placed place i) (List.filter sold orders) = sales P orders.
Proof.
  intros H Hs. rewrite sales_filter, filter_filter_bool. apply filter_ext_elem. intros o Ho. unfold placed. destruct (entityTime o) as [t|] eqn:E; [|by rewrite andb_false_r].
  destruct (P (o, t)) eqn:EP.
  - pose proof (Hs _ EP) as S. cbn [fst] in S. rewrite S, bool_decide_eq_true_2; [done|]. apply (H o t); [by apply elem_of_dated|done|done].
  - destruct (sold o) eqn:S; [|done]. cbn [andb]. apply bool_decide_eq_false_2. intros Hp. apply (H o t) in Hp; [congruence|by apply elem_of_dated|done].
Qed.

Lemma sold_since_day now p : sold_since now p = sold p.1 && (local_day now <=? local_day p.2).
Proof. unfold sold_since. f_equal. apply eq_true_iff_eq. rewrite !Z.leb_le. apply local_day_start. Qed.

Lemma sold_yesterday_day now p : sold_yesterday now p = sold p.1 && (local_day p.2 =? local_day now - 1).
Proof.
  unfold sold_yesterday. f_equal. apply eq_true_iff_eq. rewrite andb_true_iff, Z.leb_le, Z.ltb_lt, Z.eqb_eq, local_day_start.
  pose proof (local_day_start p.2 (local_day now)). lia.
Qed.

Definition price (o : Entity) : Z := parseIRRBig (PriceIRR o).

(** A price that is written as a natural number. *)
Definition whole_price (o : Entity) : Prop := PriceIRR o = Z_to_dec (price o) ∧ 0 <= price o.
#[export] Instance whole_price_dec o : Decision (whole_price o).
Proof. unfold whole_price. apply _. Defined.

Lemma fsum_whole l : Forall whole_price l → Zsum (map price l) < 2 ^ 53 → fsum (map amount l) = float_int (Zsum (map price l)).
Proof.
  intros Hw Hs. assert (Forall (λ z, 0 <= z) (map price l)) as Hp by (apply Forall_map; eapply Forall_impl; [exact Hw|]; by intros o [_ ?]).
  assert (map amount l = map float_int (map price l)) as ->; [|by apply fsum_int].
  clear Hp. induction Hw as [|o l [Ho Hz] Hw IH]; [done|]. cbn [map] in *. change (Zsum (price o :: map price l)) with (price o + Zsum (map price l)) in Hs.
  assert (0 <= Zsum (map price l)) by (apply Zsum_nonneg, Forall_map; eapply Forall_impl; [exact Hw|]; by intros x [_ ?]).
  rewrite IH by lia. f_equal. unfold amount. by rewrite Ho, ParseFloat_int by lia.
Qed.

Lemma parseIRRBig_dec z : parseIRRBig (Z_to_dec z) = z.
Proof. apply parseBigIntSafe_dec. Qed.

Lemma toman_float_int z : 0 <= z → tomanNumber (FormatFixed 0 (float_int z)) = FormatPersianNumber (Z_to_dec (z / 10)).
Proof. intros Hz. unfold tomanNumber. by rewrite FormatFixed_int, parseIRRBig_dec, Z.quot_div_nonneg by lia. Qed.

(** ** The card of the revenue and the chart *)

Lemma last_days_le n m now : (n <= m)%nat → Forall tehran_year (last_days m now) → Forall tehran_year (last_days n now).
Proof.
  rewrite !Forall_lookup. intros Hn H i d [Hi ->]%lookup_last_days. apply (H (m - n + i)%nat). apply lookup_last_days. split; [lia|]. do 2 f_equal. lia.
Qed.

Lemma chart_days_bounds rk : (2 <= chart_days rk <= 30)%nat.
Proof. unfold chart_days. case_bool_decide; lia. Qed.

(** What the theorems below say of the clock and of the orders: years of four digits, and no
    order from a day that is still to come. *)
Definition calm (now : Z) (orders : list Entity) : Prop :=
  Forall tehran_year (last_days 30 now) ∧ Forall (λ p, tehran_year p.2 ∧ local_day p.2 <= local_day now) (dated orders).

#[export] Instance calm_dec now orders : Decision (calm now orders).
Proof. unfold calm. apply _. Defined.

Lemma day_income rk orders expenses now back P : rk ≠ "today"%stdpp → calm now orders → (back < 2)%nat →
  (∀ p, local_day p.2 <= local_day now → P p = sold p.1 && (local_day p.2 =? local_day now - Z.of_nat back)) → (∀ p, P p = true → sold p.1 = true) →
  ∃ b, revenue_buckets rk orders expenses now !! (chart_days rk - 1 - back)%nat = Some b ∧ bk_income b = fsum (map amount (sales P orders)).
Proof.
  intros Hr [Hy Ho] Hb HP Hs. pose proof (chart_days_bounds rk) as Hn.
  set (i := (chart_days rk - 1 - back)%nat). set (d := days_back (Z.of_nat back) now).
  assert (last_days (chart_days rk) now !! i = Some d) as Hd.
  { apply lookup_last_days. subst i d. split; [lia|]. do 2 f_equal. lia. }
  assert (chart_base rk now !! i = Some (new_bucket (dayLabel d) (fullDate d))) as Hbase.
  { unfold chart_base. rewrite bool_decide_eq_false_2 by done. unfold day_buckets. change (map ?f ?l) with (f <$> l). by rewrite list_lookup_fmap, Hd. }
  destruct (revenue_buckets_lookup rk orders expenses now i _ Hbase eq_refl) as (b & Eb & _ & Ei & _).
  exists b. split; [done|]. rewrite Ei. do 2 f_equal. apply placed_sales; [|done].
  intros o t Hot So. rewrite Forall_forall in Ho. destruct (Ho _ Hot) as [Hty Hle]. cbn [snd] in *.
  unfold chart_place. rewrite bool_decide_eq_false_2, day_place_spec by (done || by eapply last_days_le; [|exact Hy]; lia).
  rewrite HP by done. cbn [fst snd]. rewrite So. cbn [andb]. rewrite Z.eqb_eq. subst i. replace (chart_days rk - 1 - (chart_days rk - 1 - back))%nat with back by lia.
  split; [by intros [_ ?]|]. split; [lia|done].
Qed.

Lemma length_revenue_buckets rk orders expenses now : rk ≠ "today"%stdpp → length (revenue_buckets rk orders expenses now) = chart_days rk.
Proof.
  intros Hr. unfold revenue_buckets. rewrite bool_decide_eq_false_2 by done. rewrite !length_pour. unfold day_buckets. by rewrite length_map, length_last_days.
Qed.

(** The hours of the present day. *)
Definition hour_of (o : Entity) : nat := match entityTime o with Some t => Z.to_nat (Hour tehranZone t) | None => 0 end.

Lemma hour_of_bound o : (hour_of o < 24)%nat.
Proof. unfold hour_of. destruct (entityTime o) as [t|]; [|lia]. pose proof (clock_bounds tehranZone t) as (? & _). lia. Qed.

Lemma hour_income orders expenses now i : calm now orders → (i < 24)%nat →
  ∃ b, revenue_buckets "today" orders expenses now !! i = Some b
    ∧ bk_income b = fsum (map amount (List.filter (λ o, bool_decide (hour_of o = i)) (sales (sold_since now) orders))).
Proof.
  intros [_ Ho] Hi. assert (chart_base "today" now = hour_buckets now) as Hb by (unfold chart_base; by rewrite bool_decide_eq_true_2).
  destruct (chart_base "today" now !! i) as [b0|] eqn:E0; [|apply lookup_ge_None in E0; rewrite Hb in E0; unfold hour_buckets in E0; rewrite length_map, length_seq in E0; lia].
  assert ((bk_income b0, bk_expense b0) = (fzero, fzero)) as Hz.
  { rewrite Hb in E0. unfold hour_buckets in E0.
    change (map ?f ?l) with (f <$> l) in E0. rewrite list_lookup_fmap in E0. by apply fmap_Some in E0 as (h & _ & ->). }
  destruct (revenue_buckets_lookup "today" orders expenses now i b0 E0 Hz) as (b & Eb & _ & Ei & _).
  exists b. split; [done|]. rewrite Ei. do 2 f_equal. rewrite sales_filter, !filter_filter_bool. apply filter_ext_elem. intros o Hin.
  unfold placed, hour_of. destruct (entityTime o) as [t|] eqn:Et; [|by rewrite andb_false_r]. rewrite sold_since_day. cbn [fst snd].
  rewrite Forall_forall in Ho. destruct (Ho (o, t)) as [_ Hle]; [by apply elem_of_dated|]. cbn [snd] in Hle.
  rewrite <- andb_assoc. f_equal. change (chart_place "today" now) with (hour_place now). apply eq_true_iff_eq.
  rewrite andb_true_iff, !bool_decide_eq_true, hour_place_spec, Z.leb_le. split; intros [? ?]; (split; [lia|done]).
Qed.

Lemma map_by_index {A B} (f : A → B) (g : nat → B) n l :
  length l = n → (∀ i, (i < n)%nat → ∃ a, l !! i = Some a ∧ f a = g i) → map f l = map g (seq 0 n).
Proof.
  intros Hl H. apply list_eq. intros i. change (map f l) with (f <$> l). change (map g (seq 0 n)) with (g <$> seq 0 n). rewrite !list_lookup_fmap.
  destruct (decide (i < n)%nat) as [Hi|Hi].
  - destruct (H i Hi) as (a & -> & Ha). rewrite lookup_seq_lt by done. cbn. by rewrite Ha.
  - rewrite !lookup_ge_None_2 by (rewrite ?length_seq; lia). done.
Qed.

Lemma whole_nonneg l : Forall whole_price l → Forall (λ o, 0 <= price o) l.
Proof. intros H. eapply Forall_impl; [exact H|]. by intros o [_ ?]. Qed.

(** The hours add up to the day. *)
Lemma hours_add_up orders expenses now : calm now orders →
  let today := sales (sold_since now) orders in Forall whole_price today → Zsum (map price today) < 2 ^ 53 →
  fsum (map bk_income (revenue_buckets "today" orders expenses now)) = float_int (Zsum (map price today)).
Proof.
  intros Hc today Hw Hs. set (part i := List.filter (λ o, bool_decide (hour_of o = i)) today).
  assert (length (revenue_buckets "today" orders expenses now) = 24%nat) as Hl.
  { unfold revenue_buckets. rewrite bool_decide_eq_true_2, !length_pour by done. unfold hour_buckets. by rewrite length_map, length_seq. }
  rewrite (map_by_index _ (λ i, float_int (Zsum (map price (part i)))) 24 _ Hl).
  2:{ intros i Hi. destruct (hour_income orders expenses now i Hc Hi) as (b & Eb & Ib). exists b. split; [done|]. rewrite Ib. apply fsum_whole.
      - apply Forall_forall. intros o [Ho _]%elem_of_filter_bool. rewrite Forall_forall in Hw. by apply Hw.
      - pose proof (Zsum_filter_le (λ o, bool_decide (hour_of o = i)) price today (whole_nonneg _ Hw)) as [_ H]. by eapply Z.le_lt_trans; [exact H|]. }
  rewrite <- (map_map (λ i, Zsum (map price (part i))) float_int). unfold part.
  rewrite <- (Zsum_by_key price hour_of (seq 0 24) today) in Hs |- * by (apply NoDup_seq || (intros; apply elem_of_seq; pose proof (hour_of_bound x); lia)). apply fsum_int; [|done].
  apply Forall_map, Forall_forall. intros i _. apply (Zsum_filter_le _ _ _ (whole_nonneg _ Hw)).
Qed.

(** C33: the card of the day's revenue, the growth beside it and the chart agree, when the years
    are those of four digits and no order is dated later than today (the card counts such orders
    and the chart does not).  When the chart goes by the day, its last point is the revenue of
    the card and the one before it what the growth is measured against, for any prices; when it
    goes by the hour and the prices are whole numbers below 2^53 in all, the revenue is their
    exact sum, and so is the sum of the 24 points; and when those of the day before are whole
    numbers too, the growth compares the exact sums of the two days. *)
Theorem dashboard_chart_agrees R now r orders expenses ingredients : calm now orders →
  let d := fillDashboard R now r orders expenses ingredients in
  let today := sales (sold_since now) orders in
  (da_ChartRange d ≠ "today"%stdpp → ∃ b y, last (da_Chart d) = Some b ∧ da_Chart d !! (length (da_Chart d) - 2)%nat = Some y
     ∧ da_RevTodayFa d = tomanNumber (FormatFixed 0 (bk_income b)) ∧ da_RevGrowth d = growthBadge (bk_income b) (bk_income y))
  ∧ (da_ChartRange d = "today"%stdpp → Forall whole_price today → Zsum (map price today) < 2 ^ 53 →
       da_RevTodayFa d = FormatPersianNumber (Z_to_dec (Zsum (map price today) / 10))
       ∧ FormatFixed 0 (fsum (map bk_income (da_Chart d))) = Z_to_dec (Zsum (map price today))
       ∧ let yesterday := sales (sold_yesterday now) orders in
         (Forall whole_price yesterday → Zsum (map price yesterday) < 2 ^ 53 →
          da_RevGrowth d = growthBadge (float_int (Zsum (map price today))) (float_int (Zsum (map price yesterday))))).
Proof.
  intros Hc. cbv zeta. unfold fillDashboard. cbn [da_ChartRange da_Chart da_RevTodayFa da_RevGrowth]. split.
  - intros Hr. destruct (day_income (chart_range r) orders expenses now 0 (sold_since now) Hr Hc ltac:(lia)) as (b & Eb & Ib).
    { intros p Hp. rewrite sold_since_day. f_equal. apply eq_true_iff_eq. rewrite Z.leb_le, Z.eqb_eq. lia. }
    { by intros p [? _]%andb_true_iff. }
    destruct (day_income (chart_range r) orders expenses now 1 (sold_yesterday now) Hr Hc ltac:(lia)) as (y & Ey & Iy).
    { intros p _. by rewrite sold_yesterday_day. }
    { by intros p [? _]%andb_true_iff. }
    exists b, y. rewrite last_lookup, length_revenue_buckets by done. rewrite Ib, Iy. split_and!; [|by rewrite <- Ey; f_equal; lia|done..].
    by rewrite <- Eb; f_equal; lia.
  - intros -> Hw Hs. pose proof (whole_nonneg _ Hw) as Hp. assert (0 <= Zsum (map price (sales (sold_since now) orders))) as H0 by (by apply Zsum_nonneg, Forall_map).
    rewrite fsum_whole, hours_add_up by done. rewrite toman_float_int, FormatFixed_int by done. split_and!; [done..|].
    intros Hy Hys. by rewrite fsum_whole by done.
Qed.

(** ** The products that sell best *)

Definition sold_qty (lines : list OrderLineView) (name : string) : Z :=
  Zsum (map ol_Quantity (List.filter (λ l, bool_decide (ol_ProductName l = name)) lines)).

Lemma sold_qty_snoc lines l name :
  sold_qty (lines ++ [l]) name = sold_qty lines name + (if bool_decide (ol_ProductName l = name) then ol_Quantity l else 0).
Proof. unfold sold_qty. rewrite List.filter_app, map_app, Zsum_app. cbn [List.filter]. case_bool_decide; cbn; lia. Qed.

Definition few (lines : list OrderLineView) : Prop := Forall (λ l, 0 <= ol_Quantity l) lines ∧ Zsum (map ol_Quantity lines) * 100 < two63.
#[export] Instance few_dec lines : Decision (few lines).
Proof. unfold few. apply _. Defined.

Lemma sold_qty_bounds lines name : few lines → 0 <= sold_qty lines name * 100 < two63.
Proof. intros [Hp Hs]. pose proof (Zsum_filter_le (λ l, bool_decide (ol_ProductName l = name)) ol_Quantity lines Hp). unfold sold_qty. lia. Qed.

Lemma popular_of_spec lines : few lines →
  let '(names, m) := popular_of lines in
  NoDup names ∧ (∀ n, n ∈ names ↔ n ∈ map ol_ProductName lines)
  ∧ ∀ n, m !! n = if bool_decide (n ∈ names) then Some (sold_qty lines n) else None.
Proof.
  induction lines as [|l lines IH] using rev_ind.
  { intros _. cbn. split_and!; [constructor|done|]. intros n. by rewrite lookup_empty. }
  intros Hf. assert (few lines) as Hf0.
  { destruct Hf as [[Hp H1]%Forall_app Hs]. rewrite map_app, Zsum_app in Hs. rewrite Forall_singleton in H1. split; [done|]. change (Zsum (map ol_Quantity [l])) with (ol_Quantity l + 0) in Hs. lia. }
  specialize (IH Hf0). unfold popular_of in *. rewrite foldl_app. destruct (foldl _ _ lines) as [names m]. destruct IH as (Hn & Hi & Hm).
  cbn [foldl]. set (name := ol_ProductName l). pose proof (Hm name) as Hname.
  assert (0 <= sold_qty lines name + ol_Quantity l < two63) as Hb.
  { pose proof (sold_qty_bounds (lines ++ [l]) name Hf) as H. rewrite sold_qty_snoc, bool_decide_eq_true_2 in H by done. lia. }
  assert (∀ names' : list string, (∀ n, n ∈ names' ↔ n ∈ names ∨ n = name) → ∀ q, q = wrap64 (default 0 (m !! name) + ol_Quantity l) →
    ∀ n, <[name := q]> m !! n = if bool_decide (n ∈ names') then Some (sold_qty (lines ++ [l]) n) else None) as Hnew.
  { intros names' Hn' q -> n. rewrite sold_qty_snoc. fold name. destruct (decide (n = name)) as [->|Hne].
    - rewrite lookup_insert_eq, !bool_decide_eq_true_2 by (done || (apply Hn'; by right)). f_equal. rewrite Hname. case_bool_decide as Hin; cbn [default from_option].
      + apply wrap64_id. unfold in_int64, two63 in *. lia.
      + assert (sold_qty lines name = 0) as E0.
        { unfold sold_qty. rewrite filter_all_off; [done|]. intros x Hx. apply bool_decide_eq_false_2. intros Hxn. apply Hin, Hi. rewrite <- Hxn.
          change (map ol_ProductName lines) with (ol_ProductName <$> lines). by apply list_elem_of_fmap_2. }
        rewrite E0 in *. apply wrap64_id. unfold in_int64, two63 in *. lia.
    - rewrite lookup_insert_ne, Hm, (bool_decide_ext (n ∈ names') (n ∈ names)) by (congruence || (rewrite Hn'; naive_solver)).
      rewrite (bool_decide_eq_false_2 (name = n)) by congruence. by rewrite Z.add_0_r. }
  assert (∀ n, n ∈ map ol_ProductName (lines ++ [l]) ↔ n ∈ names ∨ n = name) as Hall.
  { intros n. rewrite map_app, elem_of_app, Hi. cbn. by rewrite list_elem_of_singleton. }
  case_bool_decide as Hin; rewrite Hname.
  - split_and!; [done|intros n; rewrite Hall; naive_solver|]. apply Hnew; [naive_solver|by rewrite Hname].
  - split_and!; [|intros n; rewrite Hall, elem_of_app, list_elem_of_singleton; done|].
    + apply NoDup_app. split_and!; [done| |apply NoDup_singleton]. intros x Hx ->%list_elem_of_singleton. done.
    + apply Hnew; [intros n; by rewrite elem_of_app, list_elem_of_singleton|by rewrite Hname].
Qed.

Lemma foldl_max (f : string → Z) l a : a <= foldl (λ mx n, Z.max mx (f n)) a l ∧ (∀ n, n ∈ l → f n <= foldl (λ mx n, Z.max mx (f n)) a l)
  ∧ (foldl (λ mx n, Z.max mx (f n)) a l = a ∨ ∃ n, n ∈ l ∧ foldl (λ mx n, Z.max mx (f n)) a l = f n).
Proof.
  revert a. induction l as [|x l IH]; intros a; cbn [foldl]; [split_and!; [lia|by intros n ?%not_elem_of_nil|by left]|].
  destruct (IH (Z.max a (f x))) as (H1 & H2 & H3). split_and!; [lia| |].
  - intros n [->|Hn]%elem_of_cons; [lia|by apply H2].
  - destruct H3 as [H3|(n & Hn & H3)]; [|right; exists n; split; [by right|done]]. destruct (Z.max_spec a (f x)) as [[_ E]|[_ E]]; rewrite E in *; [|by left].
    right. exists x. split; [by left|done].
Qed.

(** In a sorted list, what is not among the first comes after each of them. *)
Lemma sorted_take_rest {A} (R : A → A → Prop) n l x y : StronglySorted R l → x ∈ take n l → y ∈ l → y ∉ take n l → R x y.
Proof.
  intros Hs Hx Hy Hn. apply list_elem_of_lookup in Hx as (i & [Hi Hin]%lookup_take_Some), Hy as (j & Hj).
  rewrite StronglySorted_lookup in Hs. eapply (Hs i j); [|done..]. destruct (decide (j < n)%nat) as [H|]; [|lia].
  exfalso. apply Hn, list_elem_of_lookup. exists j. by rewrite lookup_take_lt.
Qed.

Lemma imap_names {A B C} (f : nat → A → B) (g : B → C) (h : A → C) l : (∀ i a, g (f i a) = h a) → map g (imap f l) = map h l.
Proof. intros H. change (map g (imap f l)) with (g <$> imap f l). rewrite fmap_imap. revert f H. induction l as [|a l IH]; intros f H; [done|]. cbn. rewrite H. f_equal. apply IH. intros i b. apply H. Qed.

Lemma percent_bounds q mx : 0 <= q <= mx → 0 < mx → mx * 100 < two63 → quot64 (wrap64 (q * 100)) mx = q * 100 / mx ∧ 0 <= q * 100 / mx <= 100.
Proof.
  intros Hq Hm Hs. assert (0 <= q * 100 / mx <= 100) as Hb by (split; [apply Z.div_pos; lia|apply Z.div_le_upper_bound; lia]). split; [|done].
  unfold quot64. rewrite (wrap64_id (q * 100)) by (unfold in_int64, two63 in *; lia). rewrite Z.quot_div_nonneg by lia. apply wrap64_id. unfold in_int64, two63 in *. lia.
Qed.

(** The rows are the best sellers of some lines. *)
Definition best_sellers (lines : list OrderLineView) (rows : list DashPopularRow) : Prop :=
  (length rows <= 5)%nat ∧ NoDup (map dp_Name rows) ∧ StronglySorted (λ a b, dp_Qty b <= dp_Qty a) rows
  ∧ (∀ i row, rows !! i = Some row → dp_Rank row = Z.of_nat i + 1 ∧ dp_Qty row = sold_qty lines (dp_Name row) ∧ 0 <= dp_Percent row <= 100
       ∧ dp_Name row ∈ map ol_ProductName lines)
  ∧ (∀ name, name ∈ map ol_ProductName lines → name ∉ map dp_Name rows → ∀ row, row ∈ rows → sold_qty lines name <= dp_Qty row).

Lemma popular_top_spec R names qty lines : few lines → NoDup names → (∀ n, n ∈ names ↔ n ∈ map ol_ProductName lines) → (∀ n, n ∈ names → qty n = sold_qty lines n) →
  best_sellers lines (popular_top R names qty).
Proof.
  intros Hf Hn Hi Hq. unfold best_sellers, popular_top.
  set (less := λ a b, qty b <? qty a). pose proof (sort_perm R _ less names) as Pm. pose proof (sort_sorted R _ less names) as Ss.
  specialize (Ss ltac:(unfold less; intros x y; rewrite Z.ltb_lt, Z.ltb_ge; lia) ltac:(unfold less; intros x y z; rewrite !Z.ltb_ge; lia)).
  set (l := sort_slice R less names) in *. set (mx := foldl _ 0 names) in *. destruct (foldl_max qty names 0) as (M0 & M1 & M2). fold mx in M0, M1, M2.
  assert (∀ n, n ∈ take 5 l → n ∈ names) as Hin by (intros n Hn'; rewrite <- Pm; apply elem_of_take in Hn' as (i & Hn' & _); by eapply list_elem_of_lookup_2).
  assert (mx * 100 < two63) as Hmx.
  { destruct M2 as [->|(n & Hn' & ->)]; [done|]. rewrite Hq by done. apply (sold_qty_bounds lines n Hf). }
  assert (StronglySorted (λ a b, qty b <= qty a) l) as Sl by (eapply strongly_sorted_impl; [|exact Ss]; intros x y; unfold less; rewrite Z.ltb_ge; lia).
  set (row_of := λ (i : nat) name, {| dp_Rank := Z.of_nat i + 1; dp_Name := name; dp_Qty := qty name;
    dp_Percent := if 0 <? mx then quot64 (wrap64 (qty name * 100)) mx else 0 |}).
  assert (map dp_Name (imap row_of (take 5 l)) = take 5 l) as En by (rewrite (imap_names row_of dp_Name id) by done; apply map_id).
  assert (NoDup l) as Nl by (by rewrite Pm). pose proof (take_drop 5 l) as Etd. rewrite En. split_and!.
  - rewrite length_imap, length_take. lia.
  - rewrite <- Etd in Nl. by apply NoDup_app in Nl as (? & _).
  - apply StronglySorted_lookup. intros i j a b Hij Ha Hb. apply list_lookup_imap_Some in Ha as (x & Hx & ->), Hb as (y & Hy & ->). cbn [row_of dp_Qty].
    rewrite StronglySorted_lookup in Sl. apply lookup_take_Some in Hx as [Hx _], Hy as [Hy _]. eapply (Sl i j); done.
  - intros i row Hr. apply list_lookup_imap_Some in Hr as (n & Hl & ->). assert (n ∈ names) as Hnn by (apply Hin; by eapply list_elem_of_lookup_2).
    cbn [row_of dp_Rank dp_Qty dp_Name dp_Percent]. split_and!; [done|by apply Hq| | |by apply Hi].
    all: pose proof (M1 n Hnn); pose proof (proj1 (sold_qty_bounds lines n Hf)); rewrite <- Hq in * by done; destruct (0 <? mx) eqn:E; [|lia]; apply Z.ltb_lt in E.
    all: destruct (percent_bounds (qty n) mx) as [-> ?]; lia.
  - intros name Hname Hnot row Hrow. apply list_elem_of_lookup in Hrow as (i & Hr). apply list_lookup_imap_Some in Hr as (n & Hl & ->). cbn [row_of dp_Qty].
    rewrite <- Hq by (by apply Hi). apply (sorted_take_rest (λ a b, qty b <= qty a) 5 l); [done|by eapply list_elem_of_lookup_2|rewrite Pm; by apply Hi|done].
Qed.

Lemma popular_rows_top R lines : few lines → best_sellers lines (popular_rows R lines).
Proof.
  intros Hf. pose proof (popular_of_spec lines Hf) as Hp. unfold popular_rows. destruct (popular_of lines) as [names m]. destruct Hp as (Hn & Hi & Hm).
  apply popular_top_spec; [done..|]. intros n Hin. by rewrite Hm, bool_decide_eq_true_2.
Qed.

(** the dashboard's best sellers are those of the day.  There are at most five, of
    different names and in falling order; each states its rank, how many of the product the
    day's completed orders have, and a percentage between 0 and 100; and a product that was
    sold and is not listed has sold no more than any of them.  The quantities are not negative
    and a hundredfold of their sum is an [int64]. *)
Theorem dashboard_popular R now r orders expenses ingredients :
  let lines := concat (map OrderItems (sales (sold_since now) orders)) in few lines →
  let rows := da_Popular (fillDashboard R now r orders expenses ingredients) in
  (length rows <= 5)%nat ∧ NoDup (map dp_Name rows) ∧ StronglySorted (λ a b, dp_Qty b <= dp_Qty a) rows
  ∧ (∀ i row, rows !! i = Some row → dp_Rank row = Z.of_nat i + 1 ∧ dp_Qty row = sold_qty lines (dp_Name row) ∧ 0 <= dp_Percent row <= 100
       ∧ dp_Name row ∈ map ol_ProductName lines)
  ∧ (∀ name, name ∈ map ol_ProductName lines → name ∉ map dp_Name rows → ∀ row, row ∈ rows → sold_qty lines name <= dp_Qty row).
Proof. intros lines Hf. apply (popular_rows_top R lines Hf). Qed.

(** ** A concrete day *)

Definition sale (id at_ status total : string) (items : list (string * Z)) : Entity :=
  some_row id "order" [("created_at", AStr at_); ("items", AArr (map (λ p, AMap [("quantity", AInt p.2); ("title", AStr p.1)]) items));
                       ("status", AStr status); ("total_irr", AStr total)].

Definition noon : Z := 1714564800 * second.
Definition day_orders : list Entity :=
  [sale "a" "2024-05-01T09:00:00Z" "completed" "1200000" [("چای", 2); ("کیک", 1)];
   sale "b" "2024-05-01T10:30:00Z" "completed" "350000" [("چای", 3)];
   sale "c" "2024-04-30T18:00:00Z" "completed" "775000" [("قهوه", 1)];
   sale "d" "2024-05-01T11:00:00Z" "pending" "90000" [("کیک", 4)]]%stdpp.

Lemma dashboard_popular_witness :
  map (λ row, (dp_Name row, dp_Qty row, dp_Percent row)) (da_Popular (fillDashboard plain_runtime noon (asking []) day_orders [] []))
    = [("چای", 5, 100); ("کیک", 1, 20)]%stdpp
  ∧ NoDup (map dp_Name (da_Popular (fillDashboard plain_runtime noon (asking []) day_orders [] []))).
Proof.
  split; [vm_compute; reflexivity|]. refine (proj1 (proj2 (dashboard_popular plain_runtime noon (asking []) day_orders [] [] _))). decided.
Defined.

Lemma dashboard_chart_agrees_witness :
  let d := fillDashboard plain_runtime noon (asking []) day_orders [] [] in
  let w := fillDashboard plain_runtime noon (with_query "range" "7d" (asking [])) day_orders [] [] in
  (da_RevTodayFa d = "۱۵۵٬۰۰۰" ∧ FormatFixed 0 (fsum (map bk_income (da_Chart d))) = "1550000")%stdpp
  ∧ (∃ b, last (da_Chart w) = Some b ∧ da_RevTodayFa w = tomanNumber (FormatFixed 0 (bk_income b)))
  ∧ da_RevGrowth w = ("۱۰۰٪ افزایش", "pos")%stdpp.
Proof.
  cbv zeta. assert (calm noon day_orders) as Hc by decided. split; [|split; [|vm_compute; reflexivity]].
  - destruct (dashboard_chart_agrees plain_runtime noon (asking []) day_orders [] [] Hc) as [_ H].
    destruct H as (-> & -> & _); [vm_compute; reflexivity|decided|vm_compute; reflexivity|]. split; vm_compute; reflexivity.
  - destruct (dashboard_chart_agrees plain_runtime noon (with_query "range" "7d" (asking [])) day_orders [] [] Hc) as [H _].
    destruct H as (b & y & Hb & _ & Hr & _); [decided|]. exists b. by split.
Defined.
