(* ===== verification/Reports.v ===== *)
(** * The reports

    Models what [render] of [offline-menuvex/app.go] computes for the pages of analytics, of
    waste and of the daily reports, and the points of [buildReportIncomeChart].  The pages
    read the store: the lists are those of [Entities_of], which stops at 500 records, and the
    totals those of [analyticsRange], which does not.  [loc] is the machine's offset from
    UTC, in seconds; the drawing of the chart is not modelled. *)
From S2P Require Import Prelude GoStrings GoFloat GoJson GoJsonFacts GoReadback GoFloatInt GoTime Store Entities EntityView Records Orders.
From S2P Require Import OrderStates SplitBill Analytics Jalali Forms Desk Till OrderBoard Stockroom Dashboard.

Local Open Scope Z_scope.

(** ** Analytics: the products that sell best *)

(* app.go TopProduct *)
Record TopProduct := { tp_Name : string; tp_Quantity : Z; tp_RevenueIRR : string }.

(* app.go:2825-2841 Application.render *)
Definition add_top (o : option TopProduct) (line : OrderLineView) : TopProduct :=
  let tp := default {| tp_Name := ol_ProductName line; tp_Quantity := 0; tp_RevenueIRR := "0" |} o in
  {| tp_Name := tp_Name tp; tp_Quantity := wrap64 (tp_Quantity tp + ol_Quantity line);
     tp_RevenueIRR := Z_to_dec (parseIRRBig (tp_RevenueIRR tp) + parseIRRBig (ol_LineTotal line)) |}.

(* app.go:2822-2848 Application.render *)
Definition top_products (R : Runtime) (orders : list Entity) : list TopProduct :=
  let done_ := List.filter (λ o, bool_decide (Field o "status" = "completed")) orders in
  let agg := grouped ol_ProductID add_top (concat (map OrderItems done_)) in
  take 10 (sort_slice R (λ a b, tp_Quantity b <? tp_Quantity a) (iter R 0 agg).*2).

(** ** Waste *)

(* app.go WasteRow *)
Record WasteRow := { wr_Entity : Entity; wr_ReasonLabel : string; wr_CostFa : string; wr_Voided : bool }.
(* app.go WasteAgg *)
Record WasteAgg := { wa_Label : string; wa_Events : Z; wa_CostFa : string; wa_QtyFa : string }.

Definition other_reason : string := "سایر".

(* app.go:2855-2859 Application.render *)
Definition reasonLabels (reason : string) : string :=
  switch reason
    [(["expired"], "منقضی شده"); (["spoilage"], "فاسد شده"); (["preparation"], "آماده‌سازی"); (["overproduction"], "تولید اضافه");
     (["quality_reject"], "رد کیفیت"); (["breakage"], "شکستگی"); (["staff_error"], "خطای پرسنل"); (["other"], other_reason)]%stdpp EmptyString.

(* app.go:2880-2886 Application.render *)
Definition reason_label (e : Entity) : string :=
  let reason := TrimSpace (Field e "reason") in or_else (or_else (reasonLabels reason) reason) other_reason.

Definition float_field (e : Entity) (k : string) : f64 := (ParseFloat (TrimSpace (Field e k))).1.

(* app.go:2860-2864 Application.render *)
Definition average_costs (ingredients : list Entity) : gmap string f64 :=
  foldl (λ m ing, <[e_ID ing := float_field ing "average_cost"]> m) ∅ ingredients.

(* app.go:2865-2870 Application.render *)
Definition costFa (costIRR : f64) : string :=
  if fle costIRR fzero then "—" else FormatPersianNumber (Z_to_dec (f64_to_int64 (fdiv costIRR (f64_of_Z 10)))) +:+ " تومان".

Definition waste_qty (e : Entity) : f64 := float_field e "quantity".
Definition waste_cost (costs : gmap string f64) (e : Entity) : f64 := fmul (waste_qty e) (default fzero (costs !! Field e "ingredient_id")).
Definition is_voided (e : Entity) : bool := bool_decide (Field e "status" = "voided").

(* app.go:2887-2888 Application.render *)
Definition waste_row (costs : gmap string f64) (e : Entity) : WasteRow :=
  {| wr_Entity := e; wr_ReasonLabel := reason_label e; wr_CostFa := costFa (waste_cost costs e); wr_Voided := is_voided e |}.

(** How many events there are under a name, what they cost and how much of it was lost. *)
Record Loss := { lo_events : Z; lo_cost : f64; lo_qty : f64 }.
Definition no_loss : Loss := {| lo_events := 0; lo_cost := fzero; lo_qty := fzero |}.

(** The maps [reasonAgg] and [reasonCost], or [itemAgg], [itemCost] and [itemQty], which have
    the same keys. *)
(* app.go:2892-2908 Application.render *)
Definition losses (costs : gmap string f64) (name : Entity → string) (events : list Entity) : gmap string Loss :=
  grouped name (λ o e, let l := default no_loss o in
    {| lo_events := lo_events l + 1; lo_cost := fadd (lo_cost l) (waste_cost costs e); lo_qty := fadd (lo_qty l) (waste_qty e) |}) events.

Definition item_name (e : Entity) : string := Field e "ingredient_name".

(** The first unit that is not empty. *)
(* app.go:2914-2922 Application.render *)
Definition item_units (events : list Entity) : gmap string string :=
  foldl (λ m e, if sempty (default EmptyString (m !! item_name e)) then <[item_name e := Field e "unit"]> m else m) ∅ events.

(* app.go:2910-2913 Application.render *)
Definition reason_agg (p : string * Loss) : WasteAgg :=
  {| wa_Label := p.1; wa_Events := lo_events p.2; wa_CostFa := costFa (lo_cost p.2); wa_QtyFa := EmptyString |}.

(* app.go:2923-2930 Application.render *)
Definition item_agg (units : gmap string string) (p : string * Loss) : WasteAgg :=
  let u := TrimSpace (default EmptyString (units !! p.1)) in
  {| wa_Label := p.1; wa_Events := lo_events p.2; wa_CostFa := costFa (lo_cost p.2);
     wa_QtyFa := FormatPersianNumber (FormatShort (lo_qty p.2)) +:+ (if sempty u then EmptyString else " " +:+ u) |}.

Definition more_events (a b : WasteAgg) : bool := wa_Events b <? wa_Events a.

Record WastePage := {
  wp_WasteRows : list WasteRow;
  wp_WasteByReason : list WasteAgg;
  wp_WasteTopItems : list WasteAgg;
  wp_WasteTotalCostFa : string;
}.

(* app.go:2849-2937 Application.render *)
Definition waste_page (R : Runtime) (events ingredients : list Entity) : WastePage :=
  let costs := average_costs ingredients in
  let kept := List.filter (λ e, negb (is_voided e)) events in
  {| wp_WasteRows := map (waste_row costs) events;
     wp_WasteByReason := sort_stable more_events (map reason_agg (iter R 0 (losses costs reason_label kept)));
     wp_WasteTopItems := take 5 (sort_stable more_events (map (item_agg (item_units kept)) (iter R 1 (losses costs item_name kept))));
     wp_WasteTotalCostFa := costFa (fsum (map (waste_cost costs) kept)) |}.

(** ** The points of the chart of sales *)

(* app.go:702-707 buildReportIncomeChart *)
Record Point := { pt_label : string; pt_title : string; pt_income : f64; pt_orders : Z }.
Definition new_point (label title : string) : Point := {| pt_label := label; pt_title := title; pt_income := fzero; pt_orders := 0 |}.

Definition chart_status (o : Entity) : string := ToLower (TrimSpace (Field o "status")).
Definition not_cancelled (o : Entity) : bool := negb (bool_decide (chart_status o = "cancelled") || bool_decide (chart_status o = "canceled")).

(* app.go:720-732 buildReportIncomeChart *)
Definition addOrder (o : Entity) (p : Point) : Point :=
  {| pt_label := pt_label p; pt_title := pt_title p;
     pt_income := if bool_decide (chart_status o = "completed") then fadd (pt_income p) (amount o) else pt_income p;
     pt_orders := if not_cancelled o then pt_orders p + 1 else pt_orders p |}.

(* app.go:735-739 buildReportIncomeChart *)
Definition hour_points (now : Z) : list Point :=
  map (λ h, let label := ToPersianDigits (pad_num 2 (Z.of_nat h) +:+ ":00") in new_point label (FormatJalaliFull now +:+ " — ساعت " +:+ label)) (seq 0 24).

Definition day_point (d : Z) : Point := new_point (dayLabel d) (FormatJalaliFull d).

(** Months are numbered from the year 0; [month_key] is [Format] of the layout of year and month. *)
Definition month_number (t : Z) : Z := let d := Date tehranZone t in d_year d * 12 + (d_month d - 1).
Definition month_key (n : Z) : string := pad_num 4 (n / 12) +:+ "-" +:+ pad_num 2 (n mod 12 + 1).

(* app.go:798-807 buildReportIncomeChart *)
Definition month_point (n : Z) : Point :=
  let '(jy, jm, _) := GregorianToJalali (n / 12) (n mod 12 + 1) 1 in
  let text := month_name jm +:+ " " +:+ ToPersianDigits (Z_to_dec jy) in new_point text text.

(** [n] numbers from [a], and the days of as many midnights. *)
Definition from_to (a b : Z) : list Z := map (λ i, a + Z.of_nat i) (seq 0 (Z.to_nat (b - a + 1))).
Definition days_from_to (a b : Z) : list Z := map (λ d, day_start d) (from_to a b).

Definition month_place (months : list Z) (t : Z) : option nat := key_index (map month_key months) !! month_key (month_number t).

(** [int(maxD.Sub(minD).Hours()/24) + 1], where [Sub] stops at the longest duration. *)
Definition span_days (minD maxD : Z) : Z := Z.min (maxD - minD) (two63 - 1) / (86400 * second) + 1.

(* app.go:766-817 buildReportIncomeChart *)
Definition all_points (R : Runtime) (orders : list Entity) (now : Z) : list Point :=
  let times := sort_slice R Z.ltb (map snd (dated orders)) in
  match times with
  | [] => [day_point now]
  | first :: _ =>
      let '(minD, maxD) := (local_day first, local_day (List.last times first)) in
      if span_days (day_start minD) (day_start maxD) <=? 62 then
        let days := days_from_to minD maxD in pour (day_place days) addOrder orders (map day_point days)
      else
        let months := from_to (month_number first) (month_number (List.last times first)) in
        pour (month_place months) addOrder orders (map month_point months)
  end.

(* app.go:699-837 buildReportIncomeChart *)
Definition report_points (R : Runtime) (period : string) (orders : list Entity) (now : Z) : list Point :=
  let by_days n := pour (day_place (last_days n now)) addOrder orders (map day_point (last_days n now)) in
  let points := switch period
    [(["today"], pour (hour_place now) addOrder orders (hour_points now)); (["month"], by_days 30%nat); (["all"], all_points R orders now)]%stdpp
    (by_days 7%nat) in
  match points with [] => [day_point now] | _ => points end.

(** ** The daily reports *)

(** The period, and the instants it and the one before it start at. *)
Definition midnight (loc t : Z) : Z := (((unix_sec t + loc) / 86400) * 86400 - loc) * second.

(* app.go:3320-3333 Application.render *)
Definition report_period (r : Request) : string :=
  let p := asked r "period" in if existsb (String.eqb p) ["today"; "week"; "month"]%stdpp then p else "all".

(* app.go:3321-3330 Application.render *)
Definition period_from (loc now : Z) (period : string) : option Z :=
  switch period [(["today"], Some (midnight loc now)); (["week"], Some (days_back 7 now)); (["month"], Some (days_back 30 now))]%stdpp None.

(* app.go:3348-3357 Application.render *)
Definition period_before (loc now : Z) (period : string) : option (Z * Z) :=
  from ← period_from loc now period;
  Some (days_back (switch period [(["today"], 1); (["week"], 7)]%stdpp 30) from, from).

(* app.go:3338-3347 Application.render *)
Definition period_label (period : string) : string :=
  switch period [(["today"], "روزانه — امروز"); (["week"], "هفتگی — ۷ روز اخیر"); (["month"], "ماهانه — ۳۰ روز اخیر")]%stdpp "همه دوره‌ها".

(* app.go:3364-3373 Application.render *)
Definition normalizeStatus (raw : string) : string :=
  let s := ToLower (TrimSpace raw) in switch s [(["canceled"], "cancelled"); ([""; "open"], "pending")]%stdpp s.

Definition report_status (o : Entity) : string := normalizeStatus (Field o "status").

(** The orders of the period, the latest first and those without a time behind them. *)
(* app.go:3380-3386 Application.render *)
Definition in_span (from : option Z) (o : Entity) : bool :=
  match from with
  | None => true
  | Some f => match entityTime o with Some t => f <=? t | None => false end
  end.

Definition later_first (a b : Entity) : bool :=
  match entityTime a, entityTime b with
  | Some t, Some u => u <? t
  | Some _, None => true
  | None, _ => false
  end.

(* app.go:3374-3392 Application.render *)
Definition report_filtered (from : option Z) (orders : list Entity) : list Entity := sort_stable later_first (List.filter (in_span from) orders).

(* app.go ReportOrderRow *)
Record ReportOrderRow := {
  ro_Entity : Entity;
  ro_Number : string;
  ro_ItemsCount : Z;
  ro_ItemsFa : string;
  ro_TotalFa : string;
  ro_StatusKey : string;
  ro_StatusLabel : string;
  ro_StatusClass : string;
  ro_DateFa : string;
}.

(* app.go:3406-3443 Application.render *)
Definition report_row (o : Entity) : ReportOrderRow :=
  let n := sum64 (map ol_Quantity (OrderItems o)) in
  let key := report_status o in
  {| ro_Entity := o; ro_Number := displayOrderNumber (Field o "order_number"); ro_ItemsCount := n;
     ro_ItemsFa := FormatPersianNumber (Z_to_dec n) +:+ " قلم"; ro_TotalFa := PriceToman o; ro_StatusKey := key;
     ro_StatusLabel := switch key
       [(["pending"], "در انتظار تأیید"); (["accepted"], "تأیید صندوقدار"); (["preparing"], "در حال آماده‌سازی"); (["ready"], "آماده تحویل");
        (["completed"], "تکمیل‌شده"); (["cancelled"], "لغوشده"); (["refunded"], "بازگشت وجه")]%stdpp (StatusLabel o);
     ro_StatusClass := StatusClass o; ro_DateFa := FormatJalaliShort (Field o "created_at") |}.

(** *** The ring of the states *)

(* app.go ReportStatusSlice *)
Record ReportStatusSlice := {
  rs_Key : string;
  rs_Label : string;
  rs_Color : string;
  rs_Count : Z;
  rs_Percent : Z;
  rs_Dash : f64;
  rs_Offset : f64;
}.

(* app.go:3445-3453 Application.render *)
Definition statusDefs : list (string * string * string) :=
  [("pending", "در انتظار", "#F59E0B"); ("accepted", "تأیید صندوقدار", "#0D9488"); ("preparing", "در حال آماده‌سازی", "#3B82F6");
   ("ready", "آماده تحویل", "#8B5CF6"); ("completed", "تکمیل‌شده", "#10B981"); ("cancelled", "لغوشده", "#F43F5E");
   ("refunded", "بازگشت وجه", "#64748B")]%stdpp.

(** [339.2920066] *)
Definition donutCircumference : f64 := fdiv (f64_of_Z 3392920066) (f64_of_Z 10000000).

(* app.go:3467-3478 Application.render *)
Definition visible_part (segment : f64) (activeSlices : Z) : f64 :=
  let quarter := fmul segment (fdiv (f64_of_Z 1) (f64_of_Z 4)) in
  let gap := if flt quarter (f64_of_Z 3) then quarter else f64_of_Z 3 in
  let visible := if 1 <? activeSlices then fsub segment gap else segment in
  if flt visible fzero then fzero else visible.

(* app.go:3454-3485 Application.render *)
Definition status_slices (counts : string → Z) (total : Z) : list ReportStatusSlice :=
  let activeSlices := count (λ d, 0 <? counts d.1.1) statusDefs in
  (foldl (λ '(out, start) d,
    let n := counts d.1.1 in
    if (n =? 0) || (total =? 0) then (out, start)
    else
      let ratio := fdiv (f64_of_Z n) (f64_of_Z total) in
      let segment := fmul ratio donutCircumference in
      (out ++ [{| rs_Key := d.1.1; rs_Label := d.1.2; rs_Color := d.2; rs_Count := n;
                  rs_Percent := f64_to_int64 (fadd (fmul ratio (f64_of_Z 100)) half);
                  rs_Dash := visible_part segment activeSlices; rs_Offset := fneg start |}], fadd start segment)) ([], fzero) statusDefs).1.

(** *** The products *)

(* app.go ReportProductRow *)
Record ReportProductRow := {
  rp_Title : string;
  rp_Quantity : Z;
  rp_QuantityFa : string;
  rp_RevenueIRR : Z;
  rp_RevenueFa : string;
  rp_Share : f64;
  rp_ShareFa : string;
  rp_BarWidth : Z;
}.

(* app.go BestSellerRow *)
Record BestSellerRow := { bs_Title : string; bs_QtyFa : string; bs_RevenueFa : string }.

Definition bill_lines_of (o : Entity) : list SplitBillLine := (SplitBillOf o).1.1.1.

(** The quantity and the revenue under each title. *)
(* app.go:3491-3506 Application.render *)
Definition by_title (lines : list SplitBillLine) : gmap string (Z * Z) :=
  grouped sl_Title (λ o l, let '(q, v) := default (0, 0) o in (wrap64 (q + sl_Quantity l), wrap64 (v + sl_LinePayableIRR l))) lines.

(* app.go:3515-3537 Application.render *)
Definition product_report (total max : Z) (p : string * (Z * Z)) : ReportProductRow :=
  let '(title, (qty, rev)) := p in
  let share := if 0 <? total then fmul (fdiv (f64_of_Z rev) (f64_of_Z total)) (f64_of_Z 100) else fzero in
  {| rp_Title := title; rp_Quantity := qty; rp_QuantityFa := FormatPersianNumber (Z_to_dec qty); rp_RevenueIRR := rev;
     rp_RevenueFa := FormatPersianNumber (Z_to_dec (quot64 rev 10)) +:+ " تومان"; rp_Share := share;
     rp_ShareFa := FormatPersianNumber (Z_to_dec (f64_to_int64 (fadd share half))) +:+ "٪";
     rp_BarWidth := if (0 <? max) && (0 <? rev) then Z.max 2 (f64_to_int64 (fmul (fdiv (f64_of_Z rev) (f64_of_Z max)) (f64_of_Z 100))) else 0 |}.

Definition more_revenue (a b : ReportProductRow) : bool :=
  if negb (rp_RevenueIRR a =? rp_RevenueIRR b) then rp_RevenueIRR b <? rp_RevenueIRR a else rp_Quantity b <? rp_Quantity a.
Definition more_sold (a b : ReportProductRow) : bool :=
  if negb (rp_Quantity a =? rp_Quantity b) then rp_Quantity b <? rp_Quantity a else rp_RevenueIRR b <? rp_RevenueIRR a.

(* app.go:3507-3543 Application.render *)
Definition report_products (R : Runtime) (lines : list SplitBillLine) : list ReportProductRow :=
  let m := by_title lines in
  let revs := map (λ p, p.2.2) (iter R 1 m) in
  sort_stable more_revenue (map (product_report (sum64 revs) (foldl Z.max 0 revs)) (iter R 2 m)).

(* app.go:3544-3557 Application.render *)
Definition best_sellers_of (products : list ReportProductRow) : list BestSellerRow :=
  map (λ row, {| bs_Title := rp_Title row; bs_QtyFa := rp_QuantityFa row; bs_RevenueFa := rp_RevenueFa row |}) (take 8 (sort_stable more_sold products)).

(** *** Income *)

(* app.go:3559-3577 Application.render *)
Definition aggregateRange (orders : list Entity) (start end_ : Z) : Z * Z * Z :=
  let l := List.filter (λ o, match entityTime o with Some t => (start <=? t) && (t <? end_) | None => false end) orders in
  let done_ := List.filter (λ o, bool_decide (report_status o = "completed")) l in
  (Zsum (map price done_), count (λ o, negb (bool_decide (report_status o = "cancelled"))) l, Z.of_nat (length done_)).

Record ReportGrowth := { rg_PrevIncomeFa : string; rg_Income : string * string; rg_Orders : string * string; rg_Average : string * string }.

(* app.go:3589-3604 Application.render *)
Definition report_growth (orders : list Entity) (income ordersCount completed : Z) (prev : Z * Z) : ReportGrowth :=
  let '(prevIncome, prevOrders, prevCompleted) := aggregateRange orders prev.1 prev.2 in
  let '(cur, prv) := (f64_of_Z income, f64_of_Z prevIncome) in
  {| rg_PrevIncomeFa := FormatIRRToToman (Z_to_dec prevIncome); rg_Income := growthBadge cur prv;
     rg_Orders := growthBadge (f64_of_Z ordersCount) (f64_of_Z prevOrders);
     rg_Average := growthBadge (mean cur completed) (mean prv prevCompleted) |}.

Record ReportsPage := {
  rg_Period : string;
  rg_PeriodLabel : string;
  rg_AllIncomeIRR : string;
  rg_AllOrdersCount : Z;
  rg_Dashboard : Dashboard;
  rg_IncomeChart : list Point;
  rg_StatusTotal : Z;
  rg_OrdersCount : Z;
  rg_CompletedCount : Z;
  rg_ReportOrders : list ReportOrderRow;
  rg_StatusSlices : list ReportStatusSlice;
  rg_Products : list ReportProductRow;
  rg_SoldProductsCount : Z;
  rg_BestSellers : list BestSellerRow;
  rg_AverageFa : string;
  rg_YesterdayIncomeFa : string;
  rg_Growth : option ReportGrowth;
}.

(** What the page is made of: the lists of the store and its totals. *)
Record ReportData := {
  rd_all : FinancialAnalytics;
  rd_period : FinancialAnalytics;
  rd_orders : list Entity;
  rd_expenses : list Entity;
  rd_ingredients : list Entity;
}.

(* app.go:3311-3605 Application.render *)
Definition reports_of (R : Runtime) (loc now : Z) (r : Request) (d : ReportData) : ReportsPage :=
  let period := report_period r in
  let orders := rd_orders d in
  let filtered := report_filtered (period_from loc now period) orders in
  let keys := map report_status filtered in
  let ordersCount := count (λ k, negb (String.eqb k "cancelled")) keys in
  let completed := count (String.eqb "completed") keys in
  let products := report_products R (concat (map bill_lines_of (List.filter (λ o, bool_decide (report_status o = "completed")) filtered))) in
  let income := parseIRRBig (TotalSalesIRR (rd_period d)) in
  let yesterdayStart := days_back 1 (midnight loc now) in
  {| rg_Period := period; rg_PeriodLabel := period_label period; rg_AllIncomeIRR := TotalSalesIRR (rd_all d);
     rg_AllOrdersCount := CompletedOrders (rd_all d) + OpenOrders (rd_all d) + CancelledOrders (rd_all d);
     rg_Dashboard := fillDashboard R now r orders (rd_expenses d) (rd_ingredients d);
     rg_IncomeChart := report_points R period orders now;
     rg_StatusTotal := Z.of_nat (length filtered); rg_OrdersCount := ordersCount; rg_CompletedCount := completed;
     rg_ReportOrders := map report_row (take 6 filtered);
     rg_StatusSlices := status_slices (λ k, count (String.eqb k) keys) (Z.of_nat (length filtered));
     rg_Products := products; rg_SoldProductsCount := Z.of_nat (length products); rg_BestSellers := best_sellers_of products;
     rg_AverageFa := if 0 <? completed then FormatIRRToToman (Z_to_dec (Z.quot income completed)) else "۰ تومان";
     rg_YesterdayIncomeFa := FormatIRRToToman (Z_to_dec (aggregateRange orders yesterdayStart (yesterdayStart + 86400 * second)).1.1);
     rg_Growth := report_growth orders income ordersCount completed <$> period_before loc now period |}.

(* app.go:3311-3360 Application.render *)
Definition reports_page (R : Runtime) (loc now : Z) (r : Request) (st : persistedDB) : ReportsPage :=
  reports_of R loc now r
    {| rd_all := Analytics R st; rd_period := analyticsRange R (period_from loc now (report_period r)) st;
       rd_orders := Entities_of R "order" st; rd_expenses := Entities_of R "expense" st; rd_ingredients := Entities_of R "ingredient" st |}.

(** ** What is lost *)

Lemma Zsum_map_one {A} (l : list A) : Zsum (map (λ _, 1) l) = Z.of_nat (length l).
Proof. induction l as [|x l IH]; [done|]. rewrite Zsum_map_cons, IH. cbn [length]. lia. Qed.

Lemma losses_events costs name l k : default 0 (lo_events <$> losses costs name l !! k) = count (λ e, bool_decide (name e = k)) l.
Proof.
  unfold losses, count. rewrite (grouped_sum _ _ lo_events (λ _, 1) (λ _, True)); [apply Zsum_map_one|by intros [o|]|done| |done].
  by apply Forall_forall.
Qed.

Lemma losses_total costs name l : Zsum (map (λ p, lo_events p.2) (map_to_list (losses costs name l))) = Z.of_nat (length l).
Proof.
  unfold losses. rewrite (grouped_total _ _ lo_events (λ _, 1) (λ _, True)); [apply Zsum_map_one|by intros [o|]|done| |done].
  by apply Forall_forall.
Qed.

Lemma losses_keys costs name l k : is_Some (losses costs name l !! k) ↔ k ∈ map name l.
Proof. apply grouped_keys. Qed.

Lemma more_events_asym x y : more_events x y = true → more_events y x = false.
Proof. unfold more_events. rewrite Z.ltb_lt, Z.ltb_ge. lia. Qed.

Lemma more_events_trans x y z : more_events y x = false → more_events z y = false → more_events z x = false.
Proof. unfold more_events. rewrite !Z.ltb_ge. lia. Qed.

(** The rows made of a table of losses. *)
Lemma loss_rows R k0 costs name l (row : string * Loss → WasteAgg) :
  (∀ p, wa_Label (row p) = p.1 ∧ wa_Events (row p) = lo_events p.2) →
  let rows := sort_stable more_events (map row (iter R k0 (losses costs name l))) in
  NoDup (map wa_Label rows) ∧ Zsum (map wa_Events rows) = Z.of_nat (length l) ∧ StronglySorted (λ a b, wa_Events b <= wa_Events a) rows
  ∧ (∀ k, k ∈ map wa_Label rows ↔ k ∈ map name l) ∧ (∀ a, a ∈ rows → wa_Events a = count (λ e, bool_decide (name e = wa_Label a)) l).
Proof.
  intros Hrow. cbv zeta. set (m := losses costs name l). assert (sort_stable more_events (map row (iter R k0 m)) ≡ₚ map row (map_to_list m)) as P
    by (etrans; [apply sort_stable_perm|apply Permutation_map, iter_perm]).
  assert (map wa_Label (sort_stable more_events (map row (iter R k0 m))) ≡ₚ (map_to_list m).*1) as PL.
  { rewrite P, map_map. change ((map_to_list m).*1) with (map fst (map_to_list m)). erewrite map_ext; [done|]. intros p. apply Hrow. }
  split_and!.
  - rewrite PL. apply NoDup_fst_map_to_list.
  - rewrite (Zsum_perm _ _ (Permutation_map wa_Events P)), map_map. rewrite <- (losses_total costs name l). apply Zsum_map_ext. intros p _. apply Hrow.
  - eapply strongly_sorted_impl; [|apply (sort_stable_sorted more_events more_events_asym more_events_trans)]. intros x y. unfold more_events. rewrite Z.ltb_ge. lia.
  - intros k. rewrite PL, list_elem_of_fmap. rewrite <- (losses_keys costs). fold m. split.
    + intros ([k' b] & -> & Hp%elem_of_map_to_list). by eexists.
    + intros [b Hb]. exists (k, b). split; [done|]. by apply elem_of_map_to_list.
  - intros a Ha. rewrite P in Ha. change (map row ?x) with (row <$> x) in Ha. apply list_elem_of_fmap in Ha as ([k b] & -> & Hp%elem_of_map_to_list).
    destruct (Hrow (k, b)) as [-> ->]. cbn [fst snd]. rewrite <- (losses_events costs name l k). fold m. by rewrite Hp.
Qed.

(** the page of waste counts every event that is not voided once.  By reason there is a
    row for each label that has events, with how many there are, the largest number first,
    and the rows add up to the events; of the items that were lost at most five are shown,
    each with the number of its events, and an item that is not shown has no more events
    than any that is. *)
Theorem waste_page_counts R events ingredients :
  let p := waste_page R events ingredients in
  let kept := List.filter (λ e, negb (is_voided e)) events in
  map wr_Entity (wp_WasteRows p) = events
  ∧ (NoDup (map wa_Label (wp_WasteByReason p)) ∧ Zsum (map wa_Events (wp_WasteByReason p)) = Z.of_nat (length kept)
     ∧ StronglySorted (λ a b, wa_Events b <= wa_Events a) (wp_WasteByReason p)
     ∧ (∀ k, k ∈ map wa_Label (wp_WasteByReason p) ↔ k ∈ map reason_label kept)
     ∧ (∀ a, a ∈ wp_WasteByReason p → wa_Events a = count (λ e, bool_decide (reason_label e = wa_Label a)) kept))
  ∧ ((length (wp_WasteTopItems p) <= 5)%nat ∧ NoDup (map wa_Label (wp_WasteTopItems p))
     ∧ (∀ a, a ∈ wp_WasteTopItems p → wa_Events a = count (λ e, bool_decide (item_name e = wa_Label a)) kept)
     ∧ (∀ e, e ∈ kept → item_name e ∉ map wa_Label (wp_WasteTopItems p) → ∀ a, a ∈ wp_WasteTopItems p →
          count (λ e', bool_decide (item_name e' = item_name e)) kept <= wa_Events a)).
Proof.
  cbv zeta. unfold waste_page. cbn [wp_WasteRows wp_WasteByReason wp_WasteTopItems]. set (kept := List.filter _ events). set (costs := average_costs ingredients).
  split; [|split; [|split_and!]].
  - rewrite map_map. apply map_id.
  - apply loss_rows. by intros p.
  - rewrite length_take. lia.
  - destruct (loss_rows R 1 costs item_name kept (item_agg (item_units kept)) ltac:(by intros p)) as (Hn & _). rewrite <- firstn_map.
    rewrite <- (take_drop 5) in Hn. by apply NoDup_app in Hn as [? _].
  - intros a (i & Ha & _)%elem_of_take. apply list_elem_of_lookup_2 in Ha. by apply (loss_rows R 1 costs item_name kept (item_agg (item_units kept)) ltac:(by intros p)).
  - intros e He Hnot a Ha. destruct (loss_rows R 1 costs item_name kept (item_agg (item_units kept)) ltac:(by intros p)) as (_ & _ & Hs & Hk & Hc).
    set (rows := sort_stable _ _) in *. assert (item_name e ∈ map wa_Label rows) as Hin.
    { apply Hk. change (map item_name kept) with (item_name <$> kept). by apply list_elem_of_fmap_2. }
    change (map wa_Label rows) with (wa_Label <$> rows) in Hin. apply list_elem_of_fmap in Hin as (b & Eb & Hb). rewrite Eb, <- Hc by done.
    apply (sorted_take_rest (λ a b, wa_Events b <= wa_Events a) 5 rows); [done..|]. intros Hb5. apply Hnot. rewrite Eb.
    change (map wa_Label (take 5 rows)) with (wa_Label <$> take 5 rows). by apply list_elem_of_fmap_2.
Qed.

(** ** The products of the report *)

Lemma by_title_keys lines k : is_Some (by_title lines !! k) ↔ k ∈ map sl_Title lines.
Proof. apply grouped_keys. Qed.

Definition title_sum (f : SplitBillLine → Z) (lines : list SplitBillLine) (k : string) : Z :=
  Zsum (map f (List.filter (λ l, bool_decide (sl_Title l = k)) lines)).

(** Lines whose figures are not negative and can be added up in 64 bits. *)
Definition countable (lines : list SplitBillLine) : Prop :=
  Forall (λ l, 0 <= sl_Quantity l ∧ 0 <= sl_LinePayableIRR l) lines ∧ Zsum (map sl_Quantity lines) < two63 ∧ Zsum (map sl_LinePayableIRR lines) < two63.
#[export] Instance countable_dec lines : Decision (countable lines).
Proof. unfold countable. apply _. Defined.

Lemma by_title_columns lines : countable lines →
  (∀ k b, by_title lines !! k = Some b → b = (title_sum sl_Quantity lines k, title_sum sl_LinePayableIRR lines k))
  ∧ Zsum (map (λ p, p.2.1) (map_to_list (by_title lines))) = Zsum (map sl_Quantity lines)
  ∧ Zsum (map (λ p, p.2.2) (map_to_list (by_title lines))) = Zsum (map sl_LinePayableIRR lines).
Proof.
  intros (Hl & Hq & Hv). assert (Forall (λ l, 0 <= sl_Quantity l) lines ∧ Forall (λ l, 0 <= sl_LinePayableIRR l) lines) as [Fq Fv] by (by apply Forall_and).
  set (add := λ (o : option (Z * Z)) (l : SplitBillLine), let '(q, v) := default (0, 0) o in (wrap64 (q + sl_Quantity l), wrap64 (v + sl_LinePayableIRR l))).
  assert (∀ (a b : Z), a <= b → b < two63 → a < two63) as Hless by lia.
  assert (∀ o l, 0 <= default 0 (fst <$> o) → 0 <= sl_Quantity l → default 0 (fst <$> o) + sl_Quantity l < two63 →
    (add o l).1 = default 0 (fst <$> o) + sl_Quantity l) as A1.
  { intros [[q v]|] l; cbn; intros; apply wrap64_id; unfold in_int64, two63 in *; lia. }
  assert (∀ o l, 0 <= default 0 (snd <$> o) → 0 <= sl_LinePayableIRR l → default 0 (snd <$> o) + sl_LinePayableIRR l < two63 →
    (add o l).2 = default 0 (snd <$> o) + sl_LinePayableIRR l) as A2.
  { intros [[q v]|] l; cbn; intros; apply wrap64_id; unfold in_int64, two63 in *; lia. }
  split; [|split].
  - intros k b Hb. pose proof (grouped_sum sl_Title add fst sl_Quantity (λ z, z < two63) A1 Hless lines k Fq Hq) as S1.
    pose proof (grouped_sum sl_Title add snd sl_LinePayableIRR (λ z, z < two63) A2 Hless lines k Fv Hv) as S2.
    change (grouped sl_Title add lines) with (by_title lines) in S1, S2. rewrite Hb in S1, S2. cbn [fmap option_fmap option_map default from_option id] in S1, S2.
    unfold title_sum. rewrite <- S1, <- S2. by destruct b.
  - apply (grouped_total sl_Title add fst sl_Quantity (λ z, z < two63) A1 Hless lines Fq Hq).
  - apply (grouped_total sl_Title add snd sl_LinePayableIRR (λ z, z < two63) A2 Hless lines Fv Hv).
Qed.

Lemma more_revenue_spec a b : more_revenue a b = true ↔ rp_RevenueIRR b < rp_RevenueIRR a ∨ (rp_RevenueIRR a = rp_RevenueIRR b ∧ rp_Quantity b < rp_Quantity a).
Proof. unfold more_revenue. destruct (rp_RevenueIRR a =? rp_RevenueIRR b) eqn:E; cbn [negb]; rewrite Z.ltb_lt; [apply Z.eqb_eq in E|apply Z.eqb_neq in E]; lia. Qed.

Lemma more_sold_spec a b : more_sold a b = true ↔ rp_Quantity b < rp_Quantity a ∨ (rp_Quantity a = rp_Quantity b ∧ rp_RevenueIRR b < rp_RevenueIRR a).
Proof. unfold more_sold. destruct (rp_Quantity a =? rp_Quantity b) eqn:E; cbn [negb]; rewrite Z.ltb_lt; [apply Z.eqb_eq in E|apply Z.eqb_neq in E]; lia. Qed.

Lemma sorted_by {A} (less : A → A → bool) (P : A → A → Prop) l :
  (∀ x y, less x y = true ↔ P x y) → (∀ x y, P x y → ¬ P y x) → (∀ x y z, ¬ P y x → ¬ P z y → ¬ P z x) →
  StronglySorted (λ x y, ¬ P y x) (sort_stable less l).
Proof.
  intros H Ha Ht. assert (∀ x y, less x y = false ↔ ¬ P x y) as H' by (intros x y; rewrite <- H; destruct (less x y); naive_solver).
  eapply strongly_sorted_impl; [|apply (sort_stable_sorted less)].
  - intros x y. cbn. by rewrite H'.
  - intros x y. rewrite H, H'. apply Ha.
  - intros x y z. rewrite !H'. apply Ht.
Qed.

(** The rows of the products: one for each title, with the sums of its lines. *)
Lemma report_products_rows R lines : countable lines →
  let rows := report_products R lines in
  NoDup (map rp_Title rows) ∧ (∀ k, k ∈ map rp_Title rows ↔ k ∈ map sl_Title lines)
  ∧ (∀ row, row ∈ rows → rp_Quantity row = title_sum sl_Quantity lines (rp_Title row) ∧ rp_RevenueIRR row = title_sum sl_LinePayableIRR lines (rp_Title row))
  ∧ Zsum (map rp_RevenueIRR rows) = Zsum (map sl_LinePayableIRR lines) ∧ Zsum (map rp_Quantity rows) = Zsum (map sl_Quantity lines)
  ∧ StronglySorted (λ a b, rp_RevenueIRR b <= rp_RevenueIRR a) rows.
Proof.
  intros Hc. destruct (by_title_columns lines Hc) as (Hb & Hq & Hv). cbv zeta. unfold report_products. set (m := by_title lines) in *.
  generalize (sum64 (map (λ p, p.2.2) (iter R 1 m))) (foldl Z.max 0 (map (λ p, p.2.2) (iter R 1 m))). intros total mx.
  assert (sort_stable more_revenue (map (product_report total mx) (iter R 2 m)) ≡ₚ map (product_report total mx) (map_to_list m)) as P
    by (etrans; [apply sort_stable_perm|apply Permutation_map, iter_perm]).
  assert (∀ p, rp_Title (product_report total mx p) = p.1 ∧ rp_Quantity (product_report total mx p) = p.2.1 ∧ rp_RevenueIRR (product_report total mx p) = p.2.2) as F
    by (by intros [? [? ?]]).
  assert (map rp_Title (sort_stable more_revenue (map (product_report total mx) (iter R 2 m))) ≡ₚ (map_to_list m).*1) as PT.
  { rewrite P, map_map. change ((map_to_list m).*1) with (map fst (map_to_list m)). erewrite map_ext; [done|]. intros p. apply F. }
  split_and!.
  - rewrite PT. apply NoDup_fst_map_to_list.
  - intros k. rewrite PT, <- (by_title_keys lines k), list_elem_of_fmap. fold m. split.
    + intros ([k' b] & -> & Hp%elem_of_map_to_list). by eexists.
    + intros [b Hk]. exists (k, b). split; [done|]. by apply elem_of_map_to_list.
  - intros row Hr. rewrite P in Hr. change (map (product_report total mx) ?x) with (product_report total mx <$> x) in Hr.
    apply list_elem_of_fmap in Hr as ([k b] & -> & Hp%elem_of_map_to_list). destruct (F (k, b)) as (-> & -> & ->). cbn [fst snd]. by rewrite (Hb k b Hp).
  - rewrite (Zsum_perm _ _ (Permutation_map rp_RevenueIRR P)), map_map, <- Hv. apply Zsum_map_ext. intros p _. apply F.
  - rewrite (Zsum_perm _ _ (Permutation_map rp_Quantity P)), map_map, <- Hq. apply Zsum_map_ext. intros p _. apply F.
  - eapply strongly_sorted_impl; [|apply (sorted_by _ _ _ more_revenue_spec); lia]. intros x y. cbn. lia.
Qed.

(** ** The report and the totals of the store *)

(** The orders of the store are there as the report takes them: no more than a list holds,
    none under the type of a change of state, and with texts that need no trimming. *)
Definition plain_order (e : storedEntity) : Prop :=
  se_Type e ≠ "order_status"%stdpp
  ∧ (se_Type e = "order"%stdpp → TrimSpace (Field (view e) "status") = Field (view e) "status"
                                 ∧ TrimSpace (Field (view e) "created_at") = Field (view e) "created_at").
Definition plain_orders (st : persistedDB) : Prop := map_Forall (λ _ e, plain_order e) (Entities st).

Lemma filter_map {A B} (f : A → B) (P : B → bool) l : List.filter P (map f l) = map f (List.filter (λ x, P (f x)) l).
Proof. induction l as [|x l IH]; [done|]. cbn [map List.filter]. destruct (P (f x)); cbn [map]; by rewrite IH. Qed.

(** The stored orders of a period. *)
Definition orders_in (from : option Z) (st : persistedDB) : list storedEntity :=
  List.filter (λ e, is_kind "order" e && counted from e) (map_to_list (Entities st)).*2.

Lemma report_status_completed e : plain_order e → se_Type e = "order"%stdpp →
  bool_decide (report_status (view e) = "completed") = bool_decide (order_status_of e = "completed").
Proof.
  intros [_ H] Ht. destruct (H Ht) as [Hs _]. unfold report_status, normalizeStatus, order_status_of. rewrite Hs. generalize (ToLower (Field (view e) "status")). intros s.
  cbn [switch existsb]. apply eq_true_iff_eq. rewrite !bool_decide_eq_true. destruct (String.eqb s "canceled" || false) eqn:E1.
  { rewrite orb_false_r in E1. apply String.eqb_eq in E1 as ->. done. }
  destruct (String.eqb s "" || (String.eqb s "open" || false)) eqn:E2; [|done]. rewrite orb_false_r, orb_true_iff, !String.eqb_eq in E2. by destruct E2 as [-> | ->].
Qed.

Lemma in_span_period from e : plain_order e → se_Type e = "order"%stdpp → in_span from (view e) = in_period from e.
Proof.
  intros [_ H] Ht. destruct (H Ht) as [_ Hc]. unfold in_span, in_period. destruct from as [f|]; [|done]. rewrite Ht. cbn [bool_decide].
  rewrite bool_decide_eq_true_2 by done. cbn [orb]. unfold entityTime. rewrite Hc. destruct (sempty _) eqn:E; [|done]. apply sempty_true in E. by rewrite E.
Qed.

Lemma report_orders R from st : plain_orders st → (length (listing R "order" st) <= 500)%nat →
  report_filtered from (Entities_of R "order" st) ≡ₚ map view (orders_in from st).
Proof.
  intros Hp Hl. unfold report_filtered. etrans; [apply sort_stable_perm|].
  assert (Entities_of R "order" st ≡ₚ map view (List.filter (listed "order") (map_to_list (Entities st)).*2)) as P.
  { etrans; [by apply Entities_of_listing|]. unfold listing. change ((map_to_list (Entities st)).*2) with (map snd (map_to_list (Entities st))).
    rewrite filter_map, map_map. apply Permutation_map, filter_perm, iter_perm. }
  etrans; [apply filter_perm, P|].
  rewrite filter_map, filter_filter_bool. unfold orders_in. erewrite filter_ext_elem; [done|]. intros e He.
  apply list_elem_of_fmap in He as ([k e'] & -> & Hk%elem_of_map_to_list). cbn [snd]. specialize (Hp k e' Hk). cbn in Hp. destruct Hp as [Hns Ho].
  unfold listed, counted, is_kind. rewrite (bool_decide_eq_false_2 (se_Type e' = "order_status")) by done. rewrite andb_false_r, orb_false_r.
  destruct (decide (se_Type e' = "order")) as [Ht|Ht]; [|rewrite !(bool_decide_eq_false_2 (se_Type e' = "order")) by done; by rewrite andb_false_r].
  rewrite !(bool_decide_eq_true_2 (se_Type e' = "order")) by done. rewrite andb_true_r. cbn [andb]. f_equal. by apply in_span_period.
Qed.

Lemma completed_tally e : t_completed (entity_tally e) = if sold_order e then 1 else 0.
Proof.
  unfold sold_order, order_status_of, entity_tally, is_kind. cbn [switch existsb]. rewrite !orb_false_r, !string_eqb.
  destruct (decide (se_Type e = "order")) as [E|N1].
  { settle_kinds. cbn [andb]. unfold order_tally. cbv zeta. generalize (ToLower (Field (view e) "status")). intros s.
    destruct (bool_decide (s = "cancelled") || bool_decide (s = "canceled")) eqn:C.
    - rewrite (bool_decide_false (s = "completed")); [done|]. intros ->. done.
    - destruct (bool_decide (s = "completed")); [|done]. by destruct (switch _ _ _) as [[? ?] ?]. }
  destruct (decide (se_Type e = "expense")) as [E|N2]; [settle_kinds; done|].
  destruct (decide (se_Type e = "debtor")) as [E|N3]; [settle_kinds; done|].
  destruct (decide (se_Type e = "table")) as [E|N4]; [settle_kinds; by destruct (_ || _)|].
  settle_kinds. repeat (destruct (bool_decide _)); done.
Qed.

Definition completed_order (e : storedEntity) : bool := bool_decide (order_status_of e = "completed").

(** The store's totals over the orders of a period. *)
Lemma analytics_orders R from st :
  let sold := List.filter completed_order (orders_in from st) in
  let fa := analyticsRange R from st in
  TotalSalesIRR fa = Z_to_dec (Zsum (map price_of sold)) ∧ CompletedOrders fa = Z.of_nat (length sold)
  ∧ CompletedOrders fa + OpenOrders fa + CancelledOrders fa = Z.of_nat (length (orders_in from st)).
Proof.
  cbv zeta. assert (totals (List.filter (counted from) (iter R 0 (Entities st)).*2) = totals (in_report from st)) as Ht
    by (apply totals_perm, filter_perm; by rewrite iter_perm).
  unfold analyticsRange. rewrite Ht. cbn [TotalSalesIRR CompletedOrders OpenOrders CancelledOrders].
  assert (List.filter completed_order (orders_in from st) = List.filter sold_order (in_report from st)) as ->.
  { unfold orders_in, in_report. rewrite !filter_filter_bool. apply filter_ext_elem. intros e _. unfold sold_order, completed_order.
    destruct (is_kind "order" e), (counted from e); done. }
  assert (length (orders_in from st) = length (List.filter (is_kind "order") (in_report from st))) as ->.
  { unfold orders_in, in_report. rewrite filter_filter_bool. f_equal. apply filter_ext_elem. intros e _. apply andb_comm. }
  pose proof entity_tally_facts as F. cbv zeta in F. rewrite <- (Zsum_map_one (List.filter sold_order _)), <- (Zsum_map_one (List.filter (is_kind "order") _)).
  rewrite !Zsum_map_filter. split_and!.
  - f_equal. apply (totals_col _); [done..|]. intros e. apply F.
  - apply (totals_col _); [done..|]. apply completed_tally.
  - rewrite <- (Zsum_map_ext (λ e, t_completed (entity_tally e) + t_open (entity_tally e) + t_cancelled (entity_tally e))) by (intros; apply F).
    rewrite !Zsum_map_add. rewrite (totals_sum t_completed), (totals_sum t_open), (totals_sum t_cancelled) by done. cbn [tally0 t_completed t_open t_cancelled]. lia.
Qed.

(** *** What the lines of the bills add up to *)

Lemma bill_lines_facts subtotal total qtys amts items : ∀ allocated,
  let lines := bill_lines subtotal total allocated qtys amts items in
  map sl_Quantity lines = map ol_Quantity items ∧ Forall (λ l, 0 <= sl_LinePayableIRR l) lines.
Proof.
  induction items as [|it items IH]; intros allocated; [by split|]. cbn [bill_lines map]. set (p := line_payable _ _ _ _ _).
  destruct (IH (wrap64 (allocated + p))) as [-> H]. split; [done|]. constructor; [|done]. cbn [sl_LinePayableIRR]. subst p. unfold line_payable.
  cbv zeta. destruct (_ <? 0) eqn:E; [done|]. by apply Z.ltb_ge in E.
Qed.

(** An order whose bill splits exactly: a positive price and lines that are not negative and
    are small enough for the product of a line and the price. *)
Definition fair_bill (o : Entity) : Prop :=
  0 < price o < two63 ∧ Forall (λ it, 0 <= line_total it ∧ line_total it * price o < two63 ∧ 0 <= ol_Quantity it) (OrderItems o)
  ∧ 0 < Zsum (map line_total (OrderItems o)) < two63.
#[export] Instance fair_bill_dec o : Decision (fair_bill o).
Proof. unfold fair_bill. apply _. Defined.

Lemma bill_of_fair o : fair_bill o →
  Zsum (map sl_LinePayableIRR (bill_lines_of o)) = price o ∧ map sl_Quantity (bill_lines_of o) = map ol_Quantity (OrderItems o)
  ∧ Forall (λ l, 0 <= sl_Quantity l ∧ 0 <= sl_LinePayableIRR l) (bill_lines_of o).
Proof.
  intros (Hp & Hf & Hs). unfold bill_lines_of. destruct (SplitBillOf o) as [[[lines total] paid] rem] eqn:E. cbn [fst].
  pose proof (SplitBillOf_lines _ _ _ _ _ E) as (_ & Htot & _). assert (total = price o) as ->.
  { rewrite Htot. change (big_int64 (PriceIRR o)) with (wrap64 (price o)). apply wrap64_id. by apply in_int64_small; lia. }
  destruct (SplitBillOf_shares o lines (price o) paid rem E) as [H _]; [lia| |done|].
  { eapply Forall_impl; [exact Hf|]. by intros it (? & ? & _). }
  assert (∃ a b c d, lines = bill_lines a b 0 c d (OrderItems o)) as (a & b & c & d & El).
  { change lines with (lines, price o, paid, rem).1.1.1. rewrite <- E. unfold SplitBillOf. cbn [fst]. by eexists _, _, _, _. }
  destruct (bill_lines_facts a b c d (OrderItems o) 0) as [Hq Hn]. rewrite <- El in Hq, Hn. split_and!; [done|done|].
  apply Forall_and. split; [|done]. apply (Forall_map sl_Quantity (λ x, 0 <= x)). rewrite Hq. apply Forall_map. eapply Forall_impl; [exact Hf|]. by intros it (_ & _ & ?).
Qed.

Lemma Zsum_concat {A B} (f : B → Z) (g : A → list B) l : Zsum (map f (concat (map g l))) = Zsum (map (λ x, Zsum (map f (g x))) l).
Proof. induction l as [|x l IH]; [done|]. cbn [map concat]. rewrite map_app, Zsum_app, IH. done. Qed.

Lemma bills_add_up l : Forall fair_bill l →
  let lines := concat (map bill_lines_of l) in
  Zsum (map sl_LinePayableIRR lines) = Zsum (map price l) ∧ Zsum (map sl_Quantity lines) = Zsum (map ol_Quantity (concat (map OrderItems l)))
  ∧ Forall (λ x, 0 <= sl_Quantity x ∧ 0 <= sl_LinePayableIRR x) lines.
Proof.
  intros Hl. cbv zeta. rewrite !Zsum_concat. rewrite Forall_forall in Hl. split_and!.
  - apply Zsum_map_ext. intros o Ho. by apply bill_of_fair, Hl.
  - apply Zsum_map_ext. intros o Ho. f_equal. by apply bill_of_fair, Hl.
  - apply Forall_concat, Forall_map, Forall_forall. intros o Ho. by apply bill_of_fair, Hl.
Qed.

(** C32: the daily report of a small store agrees with the books.  When the store has at most
    500 orders (with more, [report_limit]) and no [order_status] record, and the states and
    times of orders need no trimming, the report counts exactly the orders of its period and
    their completed ones; the average is the sum of the prices of those, as the store totals
    them, divided by how many they are; and, when their bills split exactly ([fair_bill]: a
    positive price, positive lines, products below 2^63) and the sums are below 2^63, the revenue of the products adds up to the same sum and their quantities to what was ordered,
    in one row for each title, the largest revenue first. *)
Theorem reports_page_agrees R loc now r st : plain_orders st → (length (listing R "order" st) <= 500)%nat →
  let p := reports_page R loc now r st in
  let all := orders_in (period_from loc now (report_period r)) st in
  let done_ := map view (List.filter completed_order all) in
  rg_StatusTotal p = Z.of_nat (length all) ∧ rg_CompletedCount p = Z.of_nat (length done_)
  ∧ (done_ ≠ [] → rg_AverageFa p = FormatIRRToToman (Z_to_dec (Z.quot (Zsum (map price done_)) (Z.of_nat (length done_)))))
  ∧ (Forall fair_bill done_ → Zsum (map price done_) < two63 → Zsum (map ol_Quantity (concat (map OrderItems done_))) < two63 →
       NoDup (map rp_Title (rg_Products p)) ∧ Zsum (map rp_RevenueIRR (rg_Products p)) = Zsum (map price done_)
       ∧ Zsum (map rp_Quantity (rg_Products p)) = Zsum (map ol_Quantity (concat (map OrderItems done_)))
       ∧ StronglySorted (λ a b, rp_RevenueIRR b <= rp_RevenueIRR a) (rg_Products p)).
Proof.
  intros Hp Hl. cbv zeta. unfold reports_page, reports_of. cbn [rg_StatusTotal rg_CompletedCount rg_AverageFa rg_Products rd_orders rd_period].
  set (from := period_from loc now (report_period r)). pose proof (report_orders R from st Hp Hl) as P. set (filtered := report_filtered from _) in *.
  assert (List.filter (λ o, bool_decide (report_status o = "completed")) filtered ≡ₚ map view (List.filter completed_order (orders_in from st))) as PC.
  { etrans; [apply filter_perm, P|]. rewrite filter_map. erewrite filter_ext_elem; [done|]. intros e He. unfold orders_in in He.
    apply elem_of_filter_bool in He as [He [Hk _]%andb_true_iff]. apply list_elem_of_fmap in He as ([k e'] & -> & Hk'%elem_of_map_to_list). cbn [snd] in *.
    apply report_status_completed; [exact (Hp k e' Hk')|]. by apply bool_decide_eq_true in Hk. }
  assert (count (String.eqb "completed") (map report_status filtered) = Z.of_nat (length (map view (List.filter completed_order (orders_in from st))))) as EC.
  { unfold count. rewrite filter_map, length_map. rewrite <- (Permutation_length PC). do 2 f_equal. apply filter_ext_elem. intros o _.
    apply eq_true_iff_eq. rewrite bool_decide_eq_true, String.eqb_eq. split; congruence. }
  destruct (analytics_orders R from st) as (-> & _ & _). rewrite parseIRRBig_dec, EC.
  set (done_ := map view (List.filter completed_order (orders_in from st))) in *.
  assert (map price_of (List.filter completed_order (orders_in from st)) = map price done_) as -> by (subst done_; by rewrite map_map).
  split; [by rewrite (Permutation_length P), length_map|]. split; [done|]. split.
  - intros Hne. rewrite (proj2 (Z.ltb_lt _ _)); [done|]. destruct done_; [done|]. cbn [length]. lia.
  - intros Hf Hs Hq. set (sold := List.filter _ filtered) in *. assert (Forall fair_bill sold) as Hf' by (by rewrite PC).
    destruct (bills_add_up sold Hf') as (B1 & B2 & B3). rewrite (Zsum_perm _ _ (Permutation_map price PC)) in B1.
    assert (Zsum (map ol_Quantity (concat (map OrderItems sold))) = Zsum (map ol_Quantity (concat (map OrderItems done_)))) as EQ.
    { rewrite !Zsum_concat. by apply Zsum_perm, Permutation_map. }
    rewrite EQ in B2. destruct (report_products_rows R (concat (map bill_lines_of sold))) as (H1 & _ & _ & H4 & H5 & H6); [split_and!; [done|lia|lia]|].
    rewrite H4, H5, B1, B2. done.
Qed.

(** ** Months in a row *)

Lemma quotient_step y k : 0 < k → y / k - (y - 1) / k = if y mod k =? 0 then 1 else 0.
Proof.
  intros Hk. pose proof (Z.div_mod y k ltac:(lia)). pose proof (Z.mod_pos_bound y k Hk). destruct (y mod k =? 0) eqn:E.
  - apply Z.eqb_eq in E. assert ((y - 1) / k = y / k - 1) as ->; [|lia]. symmetry. apply (Z.div_unique _ _ _ (k - 1)); [lia|]. lia.
  - apply Z.eqb_neq in E. assert ((y - 1) / k = y / k) as ->; [|lia]. symmetry. apply (Z.div_unique _ _ _ (y mod k - 1)); lia.
Qed.

Lemma year_step y : year_days y = year_days (y - 1) + 365 + (if is_leap y then 1 else 0).
Proof.
  pose proof (quotient_step y 4 ltac:(lia)) as H4. pose proof (quotient_step y 100 ltac:(lia)) as H100. pose proof (quotient_step y 400 ltac:(lia)) as H400.
  unfold year_days, is_leap. pose proof (Z.div_mod y 4 ltac:(lia)). pose proof (Z.div_mod y 100 ltac:(lia)). pose proof (Z.div_mod y 400 ltac:(lia)).
  pose proof (Z.mod_pos_bound y 4 ltac:(lia)). pose proof (Z.mod_pos_bound y 100 ltac:(lia)). pose proof (Z.mod_pos_bound y 400 ltac:(lia)).
  destruct (y mod 4 =? 0) eqn:E4, (y mod 100 =? 0) eqn:E100, (y mod 400 =? 0) eqn:E400; bools; cbn [andb orb negb]; lia.
Qed.

(** The day a month starts with, months being numbered from the year 0. *)
Definition first_day (n : Z) : Z := year_days (n / 12 - 1) + days_before (is_leap (n / 12)) (n mod 12 + 1).
Definition month_index (d : Z) : Z := let x := date_of_days d in d_year x * 12 + (d_month x - 1).

Lemma days_before_ends leap : days_before leap (0 + 1) = 0 ∧ days_before leap (11 + 1) = 334 + (if leap then 1 else 0)
  ∧ days_before leap 12 = 334 + (if leap then 1 else 0) ∧ days_before leap (12 + 1) = 365 + (if leap then 1 else 0).
Proof. by destruct leap. Qed.

Lemma first_day_next n : first_day n < first_day (n + 1).
Proof.
  unfold first_day. pose proof (Z.div_mod n 12 ltac:(lia)) as D. pose proof (Z.mod_pos_bound n 12 ltac:(lia)) as B. destruct (decide (n mod 12 = 11)) as [E|E].
  - assert ((n + 1) / 12 = n / 12 + 1 ∧ (n + 1) mod 12 = 0) as [-> ->] by (split; [symmetry; apply (Z.div_unique _ _ _ 0); lia|symmetry; apply (Z.mod_unique _ _ (n / 12 + 1)); lia]).
    rewrite E, Z.add_simpl_r, (year_step (n / 12)). destruct (days_before_ends (is_leap (n / 12))) as (_ & -> & _), (days_before_ends (is_leap (n / 12 + 1))) as (-> & _).
    destruct (is_leap (n / 12)); lia.
  - assert ((n + 1) / 12 = n / 12 ∧ (n + 1) mod 12 = n mod 12 + 1) as [-> ->] by (split; [symmetry; apply (Z.div_unique _ _ _ (n mod 12 + 1)); lia|symmetry; apply (Z.mod_unique _ _ (n / 12)); lia]).
    pose proof (days_before_bounds (is_leap (n / 12)) (n mod 12 + 1) ltac:(lia)). lia.
Qed.

Lemma first_day_mono n m : n < m → first_day n < first_day m.
Proof.
  intros H. replace m with (n + 1 + Z.of_nat (Z.to_nat (m - n - 1))) by lia. generalize (Z.to_nat (m - n - 1)). intros k. induction k as [|k IH].
  - rewrite Z.add_0_r. apply first_day_next.
  - rewrite Nat2Z.inj_succ. replace (n + 1 + Z.succ (Z.of_nat k)) with (n + 1 + Z.of_nat k + 1) by lia. pose proof (first_day_next (n + 1 + Z.of_nat k)). lia.
Qed.

Lemma date_span y m dd : 1 <= m <= 12 → 1 <= dd <= days_in y m →
  first_day (y * 12 + (m - 1)) <= year_days (y - 1) + days_before (is_leap y) m + dd - 1 < first_day (y * 12 + (m - 1) + 1).
Proof.
  intros Hm Hd. unfold first_day. unfold days_in in Hd.
  assert ((y * 12 + (m - 1)) / 12 = y ∧ (y * 12 + (m - 1)) mod 12 = m - 1) as [-> ->]
    by (split; [symmetry; apply (Z.div_unique _ _ _ (m - 1)); lia|symmetry; apply (Z.mod_unique _ _ y); lia]).
  rewrite Z.sub_add. split; [lia|]. destruct (decide (m = 12)) as [E|E].
  - assert ((y * 12 + (m - 1) + 1) / 12 = y + 1 ∧ (y * 12 + (m - 1) + 1) mod 12 = 0) as [-> ->]
      by (split; [symmetry; apply (Z.div_unique _ _ _ 0); lia|symmetry; apply (Z.mod_unique _ _ (y + 1)); lia]).
    rewrite Z.add_simpl_r, (year_step y). rewrite E in *. destruct (days_before_ends (is_leap y)) as (_ & _ & D12 & D13), (days_before_ends (is_leap (y + 1))) as (-> & _).
    rewrite D12, D13 in *. destruct (is_leap y); lia.
  - assert ((y * 12 + (m - 1) + 1) / 12 = y ∧ (y * 12 + (m - 1) + 1) mod 12 = m) as [-> ->]
      by (split; [symmetry; apply (Z.div_unique _ _ _ m); lia|symmetry; apply (Z.mod_unique _ _ y); lia]). lia.
Qed.

Lemma month_index_span d : first_day (month_index d) <= d < first_day (month_index d + 1).
Proof.
  destruct (date_of_days_valid d) as (Hm & Hd & Hv). unfold month_index. cbv zeta. revert Hm Hd Hv. generalize (date_of_days d). intros x Hm Hd Hv.
  pose proof (date_span _ _ _ Hm Hd) as H. unfold days_of_date in Hv. by rewrite Hv in H.
Qed.

Lemma month_index_mono d e : d <= e → month_index d <= month_index e.
Proof.
  intros H. pose proof (month_index_span d) as [Hd _]. pose proof (month_index_span e) as [_ He].
  destruct (decide (month_index d <= month_index e)) as [|Hn]; [done|]. exfalso.
  destruct (decide (month_index e + 1 = month_index d)) as [E|E]; [rewrite E in He; lia|].
  pose proof (first_day_mono (month_index e + 1) (month_index d) ltac:(lia)). lia.
Qed.

(** ** No order is left out of the chart of all periods *)

Definition lands {B} (place : Z → option nat) (bs : list B) (o : Entity) : bool :=
  match entityTime o with
  | Some t => match place t with Some i => (i <? length bs)%nat | None => false end
  | None => false
  end.

Lemma Zsum_alter {A} (f : A → Z) (g : A → A) i l p : l !! i = Some p → Zsum (map f (alter g i l)) = Zsum (map f l) + f (g p) - f p.
Proof.
  revert i. induction l as [|x l IH]; intros [|i] H; [done|done| |].
  - injection H as ->. change (alter g 0%nat (p :: l)) with (g p :: l). rewrite !Zsum_map_cons. lia.
  - change (alter g (S i) (x :: l)) with (x :: alter g i l). rewrite !Zsum_map_cons, IH by done. lia.
Qed.

Lemma alter_beyond {A} (g : A → A) i (l : list A) : l !! i = None → alter g i l = l.
Proof. revert i. induction l as [|x l IH]; intros [|i] H; [done|done|done|]. change (alter g (S i) (x :: l)) with (x :: alter g i l). by rewrite IH. Qed.

Lemma pour_total place orders pts :
  Zsum (map pt_orders (pour place addOrder orders pts)) = Zsum (map pt_orders pts) + count (λ o, not_cancelled o && lands place pts o) orders.
Proof.
  unfold pour, count. revert pts. induction orders as [|o l IH]; intros pts; cbn [foldl List.filter]; [cbn; lia|]. unfold lands at 1.
  destruct (entityTime o) as [t|]; [|rewrite andb_false_r; apply IH]. destruct (place t) as [i|]; [|rewrite andb_false_r; apply IH].
  rewrite IH. assert (List.filter (λ o0, not_cancelled o0 && lands place (alter (addOrder o) i pts) o0) l
    = List.filter (λ o0, not_cancelled o0 && lands place pts o0) l) as -> by (apply filter_ext_elem; intros x _; unfold lands; by rewrite length_alter).
  destruct (pts !! i) as [p|] eqn:E.
  - rewrite (Zsum_alter _ _ _ _ p E). cbn [addOrder pt_orders]. rewrite (proj2 (Nat.ltb_lt _ _)) by (by eapply lookup_lt_Some). rewrite andb_true_r.
    destruct (not_cancelled o); cbn [length]; lia.
  - rewrite alter_beyond by done. rewrite (proj2 (Nat.ltb_ge _ _)) by (by apply lookup_ge_None). rewrite andb_false_r. lia.
Qed.

Lemma lookup_from_to a b i x : from_to a b !! i = Some x ↔ x = a + Z.of_nat i ∧ x <= b.
Proof.
  unfold from_to. change (map ?f ?l) with (f <$> l). rewrite list_lookup_fmap, fmap_Some. setoid_rewrite lookup_seq. split.
  - intros (j & [-> Hj] & ->). split; lia.
  - intros [-> H]. exists i. split; [split; lia|done].
Qed.

Lemma from_to_nodup {B} (f : Z → B) a b : (∀ x y, a <= x <= b → a <= y <= b → f x = f y → x = y) → NoDup (map f (from_to a b)).
Proof.
  intros Hf. apply NoDup_alt. intros i j k Hi Hj. change (map f ?l) with (f <$> l) in *. rewrite list_lookup_fmap in *.
  apply fmap_Some in Hi as (x & Hi & ->), Hj as (y & Hj & E). apply lookup_from_to in Hi as [Ex ?], Hj as [Ey ?]. apply Hf in E; lia.
Qed.

(** The place of a key among those of a run of numbers. *)
Lemma run_place {B} (f : Z → string) (g : Z → B) a b x : (∀ x y, a <= x <= b → a <= y <= b → f x = f y → x = y) → a <= x <= b →
  ∃ i, key_index (map f (from_to a b)) !! f x = Some i ∧ (i < length (map g (from_to a b)))%nat.
Proof.
  intros Hf Hx. exists (Z.to_nat (x - a)). split.
  - apply key_index_lookup; [by apply from_to_nodup|]. change (map f ?l) with (f <$> l). rewrite list_lookup_fmap.
    rewrite (proj2 (lookup_from_to a b (Z.to_nat (x - a)) x)) by lia. done.
  - rewrite length_map. unfold from_to. rewrite length_map, length_seq. lia.
Qed.

(** Days whose year has four digits; the days between two such are such. *)
Definition tehran_day (d : Z) : Prop := 0 <= d_year (date_of_days (d + epoch_day)) <= 9999.

Lemma year_of_month d : d_year (date_of_days d) = month_index d / 12.
Proof. destruct (date_of_days_valid d) as (Hm & _). unfold month_index. cbv zeta. apply (Z.div_unique _ _ _ (d_month (date_of_days d) - 1)); lia. Qed.

Lemma tehran_day_between a b d : tehran_day a → tehran_day b → a <= d <= b → tehran_day d.
Proof.
  unfold tehran_day. rewrite !year_of_month. intros Ha Hb Hd. pose proof (month_index_mono (a + epoch_day) (d + epoch_day) ltac:(lia)).
  pose proof (month_index_mono (d + epoch_day) (b + epoch_day) ltac:(lia)).
  pose proof (Z.div_le_mono _ _ 12 ltac:(lia) H). pose proof (Z.div_le_mono _ _ 12 ltac:(lia) H0). lia.
Qed.

Lemma local_day_midnight d : local_day (day_start d) = d.
Proof.
  unfold local_day, day_start, unix_sec. rewrite Z.div_mul by done. replace (d * 86400 - tehranZone + tehranZone) with (d * 86400) by lia. by rewrite Z.div_mul.
Qed.

Lemma month_key_inj n m : 0 <= n / 12 <= 9999 → 0 <= m / 12 <= 9999 → month_key n = month_key m → n = m.
Proof.
  intros Hn Hm E. unfold month_key in E. pose proof (Z.mod_pos_bound n 12 ltac:(lia)). pose proof (Z.mod_pos_bound m 12 ltac:(lia)).
  assert (∀ k, 0 <= k / 12 <= 9999 → take_num 4 (pad_num 4 (k / 12) +:+ "-" +:+ pad_num 2 (k mod 12 + 1)) = Some (k / 12, "-" +:+ pad_num 2 (k mod 12 + 1))) as T
    by (intros k Hk; apply take_num_pad; lia).
  pose proof (T n Hn) as Tn. rewrite E, (T m Hm) in Tn. apply (inj Some), pair_equal_spec in Tn as [Ey Em]. apply (f_equal (expect "-")) in Em. rewrite !expect_sep in Em.
  apply (inj Some) in Em. pose proof (take_num_pad 2 (n mod 12 + 1) EmptyString ltac:(lia) ltac:(lia)) as Pn. pose proof (take_num_pad 2 (m mod 12 + 1) EmptyString ltac:(lia) ltac:(lia)) as Pm.
  rewrite <- Em, Pm in Pn. apply (inj Some), pair_equal_spec in Pn as [E2 _].
  pose proof (Z.div_mod n 12 ltac:(lia)). pose proof (Z.div_mod m 12 ltac:(lia)). lia.
Qed.

Lemma sorted_last l d : StronglySorted (λ x y, Z.ltb y x = false) l → ∀ x, x ∈ l → x <= List.last l d.
Proof.
  induction 1 as [|y l Hl IH Hy]; [by intros x ?%not_elem_of_nil|]. intros x Hx. destruct l as [|z l].
  - apply elem_of_cons in Hx as [->|?%not_elem_of_nil]; [cbn; lia|done].
  - change (List.last (y :: z :: l) d) with (List.last (z :: l) d). apply elem_of_cons in Hx as [->|Hx]; [|by apply IH].
    assert (z <= List.last (z :: l) d) by (apply IH; left). inversion_clear Hy as [|? ? Hz]. apply Z.ltb_ge in Hz. lia.
Qed.

Lemma last_elem {A} (l : list A) d x : List.last (x :: l) d ∈ x :: l.
Proof. revert x. induction l as [|y l IH]; intros x; [by left|]. change (List.last (x :: y :: l) d) with (List.last (y :: l) d). right. apply IH. Qed.

Lemma lands_all {B} place (bs : list B) orders : (∀ o t, (o, t) ∈ dated orders → ∃ i, place t = Some i ∧ (i < length bs)%nat) →
  count (λ o, not_cancelled o && lands place bs o) orders = count (λ p, not_cancelled p.1) (dated orders).
Proof.
  unfold count, dated. induction orders as [|o l IH]; intros H; [done|]. cbn [omap list_omap List.filter] in *. unfold lands at 1.
  destruct (entityTime o) as [t|] eqn:E; cbn [fmap option_fmap option_map] in *; [|rewrite andb_false_r; by apply IH].
  destruct (H o t) as (i & -> & Hi); [by left|]. rewrite (proj2 (Nat.ltb_lt _ _)) by done. rewrite andb_true_r. cbn [List.filter fst].
  assert (∀ o t, (o, t) ∈ omap (λ e, (λ t, (e, t)) <$> entityTime e) l → ∃ i, place t = Some i ∧ (i < length bs)%nat) as H' by (intros o1 t1 ?; apply (H o1 t1); by right).
  specialize (IH H'). destruct (not_cancelled o); cbn [length]; lia.
Qed.

Lemma fresh_points (f : Z → Point) l : (∀ d, pt_orders (f d) = 0) → Zsum (map pt_orders (map f l)) = 0.
Proof. intros H. rewrite map_map, (Zsum_map_ext _ (λ _, 0)) by (intros; apply H). apply Zsum_map_zero. Qed.

Lemma month_point_fresh n : pt_orders (month_point n) = 0.
Proof. unfold month_point. by destruct (GregorianToJalali _ _ _) as [[? ?] ?]. Qed.

(** C34: the chart of all periods leaves no order out.  Whether it goes by the day, when the
    orders span at most 62 days, or by the month, every order with a time that is not
    cancelled is counted at exactly one of its points: they add up to the number of such
    orders.  The years are those of four digits. *)
Theorem report_points_cover R orders now : Forall (λ p, tehran_year p.2) (dated orders) →
  Zsum (map pt_orders (report_points R "all" orders now)) = count (λ p, not_cancelled p.1) (dated orders).
Proof.
  intros Hy. enough (Zsum (map pt_orders (all_points R orders now)) = count (λ p, not_cancelled p.1) (dated orders)) as E.
  { unfold report_points. cbn [switch existsb String.eqb Ascii.eqb Bool.eqb orb]. destruct (all_points R orders now); [|done]. rewrite <- E. done. }
  unfold all_points. pose proof (sort_perm R _ Z.ltb (map snd (dated orders))) as P. pose proof (sort_sorted R _ Z.ltb (map snd (dated orders))) as S.
  specialize (S ltac:(intros x y; rewrite Z.ltb_lt, Z.ltb_ge; lia) ltac:(intros x y z; rewrite !Z.ltb_ge; lia)).
  destruct (sort_slice R Z.ltb (map snd (dated orders))) as [|first times] eqn:ET.
  { apply Permutation_nil_l in P. symmetry in P. apply map_eq_nil in P. by rewrite P. }
  set (last_ := List.last (first :: times) first). assert (∀ o t, (o, t) ∈ dated orders → first <= t <= last_) as Hb.
  { intros o t Ho. assert (t ∈ first :: times) as Ht by (rewrite P; change (map snd (dated orders)) with (snd <$> dated orders); by apply (list_elem_of_fmap_2 snd _ (o, t))).
    split; [|by apply (sorted_last _ first S)]. apply elem_of_cons in Ht as [->|Ht]; [lia|]. inversion_clear S as [|? ? _ F]. rewrite Forall_forall in F. apply F in Ht. apply Z.ltb_ge in Ht. lia. }
  assert (∀ t, t ∈ first :: times → tehran_day (local_day t)) as Hd.
  { intros t Ht. rewrite P in Ht. change (map snd (dated orders)) with (snd <$> dated orders) in Ht. apply list_elem_of_fmap in Ht as (p & -> & Hp).
    rewrite Forall_forall in Hy. by apply Hy. }
  pose proof (Hd first ltac:(by left)) as Hf. pose proof (Hd last_ (last_elem _ _ _)) as Hl.
  assert (∀ t u, t <= u → local_day t <= local_day u) as Hm by (intros t u H; unfold local_day, unix_sec; apply Z.div_le_mono; [lia|]; apply Z.add_le_mono_r, Z.div_le_mono; [done|lia]).
  destruct (span_days _ _ <=? 62); rewrite pour_total.
  - unfold days_from_to. rewrite fresh_points by done. rewrite Z.add_0_l. apply lands_all. intros o t Ho. destruct (Hb o t Ho) as [H1 H2].
    rewrite map_map. unfold day_place. rewrite map_map. assert (day_key t = day_key (day_start (local_day t))) as ->.
    { unfold day_key, Date. fold (local_day t) (local_day (day_start (local_day t))). by rewrite local_day_midnight. }
    apply (run_place (λ d, day_key (day_start d)) (λ d, day_point (day_start d))); [|split; by apply Hm].
    intros x y Hx Hy' E. apply day_key_inj in E; [by rewrite !local_day_midnight in E|..]; unfold tehran_year, Date; fold (local_day (day_start x)) (local_day (day_start y));
      rewrite local_day_midnight; by eapply tehran_day_between; [exact Hf|exact Hl|].
  - rewrite fresh_points by apply month_point_fresh. rewrite Z.add_0_l. apply lands_all. intros o t Ho. destruct (Hb o t Ho) as [H1 H2].
    assert (∀ u, month_number u = month_index (local_day u + epoch_day)) as Mi by done.
    apply (run_place month_key month_point); [|rewrite !Mi; split; apply month_index_mono, Z.add_le_mono_r; by apply Hm].
    unfold tehran_day in Hf, Hl. rewrite year_of_month in Hf, Hl. rewrite !Mi. intros x y Hx Hy' E. apply month_key_inj in E; [done|..];
      (split; [etrans; [apply Hf|apply Z.div_le_mono; lia]|etrans; [apply Z.div_le_mono; [|apply Hx || apply Hy']; lia|apply Hl]]).
Qed.

Lemma Entities_of_limit R kind st : (length (Entities_of R kind st) <= 500)%nat.
Proof. unfold Entities_of. destruct (500 <? _)%nat eqn:E; [rewrite length_take; lia|]. by apply Nat.ltb_ge in E. Qed.

(** the report looks at 500 orders at most.  Its figures by state, its products and the
    number the average divides by come from a list that stops at 500, while the number of
    all orders beside them, as the income the average is taken of, counts every order the
    store has. *)
Theorem report_limit R loc now r st :
  let p := reports_page R loc now r st in
  rg_CompletedCount p <= rg_StatusTotal p <= 500 ∧ rg_AllOrdersCount p = Z.of_nat (length (orders_in None st)).
Proof.
  cbv zeta. unfold reports_page, reports_of. cbn [rg_CompletedCount rg_StatusTotal rg_AllOrdersCount rd_orders rd_all]. split; [|apply analytics_orders].
  set (from := period_from loc now (report_period r)). set (filtered := report_filtered from _). unfold count. split.
  - pose proof (filter_length_le (String.eqb "completed") (map report_status filtered)) as H. rewrite length_map in H. lia.
  - assert (length filtered <= 500)%nat; [|lia]. unfold filtered, report_filtered. rewrite (Permutation_length (sort_stable_perm _ _)).
    etrans; [apply filter_length_le|apply Entities_of_limit].
Qed.

(** ** A concrete report *)

Definition paid_order (id price : string) (items : list (string * string * Z)) : persistedDB → persistedDB :=
  new_entity "order" id (amap [("created_at", AStr "2024-05-01T09:00:00Z");
    ("items", AArr (map (λ p, AMap [("id", AStr p.1.1); ("line_total_irr", AStr p.1.2); ("quantity", AInt p.2); ("title", AStr p.1.1)]) items));
    ("price", AStr price); ("status", AStr "completed")]).

Definition two_sales : persistedDB :=
  paid_order "o1" "501" [("چای", "300", 1); ("کیک", "300", 2)]%stdpp (paid_order "o2" "1000" [("چای", "900", 3)]%stdpp newEmptyDB).

Lemma reports_page_agrees_witness :
  let p := reports_page plain_runtime 12600 noon (asking []) two_sales in
  rg_CompletedCount p = 2 ∧ rg_AverageFa p = FormatIRRToToman "750" ∧ Zsum (map rp_RevenueIRR (rg_Products p)) = 1501
  ∧ map (λ row, (rp_Title row, rp_RevenueIRR row, rp_BarWidth row)) (rg_Products p) = [("چای", 1250, 100); ("کیک", 251, 20)]%stdpp.
Proof.
  cbv zeta. destruct (reports_page_agrees plain_runtime 12600 noon (asking []) two_sales) as (_ & Hc & Ha & Hr); [decided|apply Nat.leb_le; vm_compute; reflexivity|].
  rewrite Hc, Ha by (vm_compute; discriminate). split; [vm_compute; reflexivity|]. split; [vm_compute; reflexivity|]. split; [|vm_compute; reflexivity].
  destruct Hr as (_ & -> & _); [decided|vm_compute; reflexivity..].
Defined.

Definition lost (id ingredient name reason status qty : string) : Entity :=
  some_row id "waste_event" [("ingredient_id", AStr ingredient); ("ingredient_name", AStr name); ("quantity", AStr qty);
                             ("reason", AStr reason); ("status", AStr status); ("unit", AStr "kg")].

Example waste_rows :
  let p := waste_page plain_runtime [lost "1" "i1" "شیر" "expired" "" "2"; lost "2" "i1" "شیر" "" "" "1.5"; lost "3" "i1" "شیر" "expired" "voided" "9"]%stdpp
                      [some_row "i1" "ingredient" [("average_cost", AStr "1000")]]%stdpp in
  map (λ a, (wa_Label a, wa_Events a, wa_CostFa a)) (wp_WasteByReason p) = [("منقضی شده", 1, "۲۰۰ تومان"); ("سایر", 1, "۱۵۰ تومان")]%stdpp
  ∧ map (λ a, (wa_Label a, wa_QtyFa a)) (wp_WasteTopItems p) = [("شیر", "۳/۵ kg")]%stdpp ∧ wp_WasteTotalCostFa p = "۳۵۰ تومان".
Proof. vm_compute. repeat split; reflexivity. Qed.

Lemma report_points_cover_witness :
  let late := sale "z" "2025-02-10T18:00:00Z" "ready" "50000" [] in
  Zsum (map pt_orders (report_points plain_runtime "all" (late :: day_orders) noon)) = 5
  ∧ (length (report_points plain_runtime "all" (late :: day_orders) noon), length (report_points plain_runtime "all" day_orders noon)) = (11, 2)%nat.
Proof.
  cbv zeta. rewrite report_points_cover by decided. split; vm_compute; reflexivity.
Defined.
