(* ===== verification/RecipeCost.v ===== *)
(** * The cost of a recipe

    Models [ProductRecipeCostIRR] of [offline-menuvex/internal/store/domains.go], which adds up
    what the ingredients of a product cost in exact fractions and rounds the sum to a
    rial, and the page of prices of [offline-menuvex/app.go], which sets it against the price. *)
From Stdlib Require Import QArith Qround Qreduction.
From S2P Require Import Prelude GoStrings GoFloat GoRat GoJson Store Entities EntityView Records Forms.

Local Open Scope Z_scope.

(** What a line of the recipe costs; [None] when its ingredient is gone or an amount is no number. *)
(* domains.go:1826-1837 Store.ProductRecipeCostIRR *)
Definition line_cost (st : persistedDB) (line : RecipeLineView) : option Q :=
  match Entity_of "ingredient" (rl_IngredientID line) st with
  | Err _ => None
  | Ok ing =>
      qty ← Rat_SetString (TrimSpace (rl_Quantity line));
      cost ← Rat_SetString (TrimSpace (Field ing "average_cost"));
      Some (Qred (qty * cost))
  end.

(** The first recipe of the product. *)
(* domains.go:1816-1822 Store.ProductRecipeCostIRR *)
Definition recipe_of (R : Runtime) (productID : string) (st : persistedDB) : option Entity :=
  List.find (λ r, bool_decide (Field r "product_id" = productID)) (Entities_of R "recipe" st).

Definition sum_costs (costs : list Q) : Q := foldl (λ t x, Qred (t + x)) 0%Q costs.

(** [None] when there is no recipe or none of its lines counts. *)
(* domains.go Store.ProductRecipeCostIRR *)
Definition ProductRecipeCostIRR (R : Runtime) (productID : string) (st : persistedDB) : option string :=
  r ← recipe_of R productID st;
  match omap (line_cost st) (RecipeLines r) with
  | [] => None
  | costs => Some (Z_to_dec (round_to_int (sum_costs costs)))
  end.

(** ** The page of prices *)

(* app.go PricingRow *)
Record PricingRow := {
  pc_Product : Entity;
  pc_RecipeCostIRR : string;
  pc_HasRecipe : bool;
  pc_MarginIRR : string;
}.

(* app.go PricingRow.CostToman *)
Definition CostToman (row : PricingRow) : string := if negb (pc_HasRecipe row) then "—" else FormatIRRToToman (pc_RecipeCostIRR row).

(* app.go PricingRow.MarginToman *)
Definition MarginToman (row : PricingRow) : string := if negb (pc_HasRecipe row) then "—" else FormatIRRToToman (pc_MarginIRR row).

(* app.go:2810-2818 Application.render *)
Definition pricing_row (R : Runtime) (st : persistedDB) (prod : Entity) : PricingRow :=
  match ProductRecipeCostIRR R (e_ID prod) st with
  | Some cost =>
      {| pc_Product := prod; pc_RecipeCostIRR := cost; pc_HasRecipe := true;
         pc_MarginIRR := Z_to_dec (parseIRRBig (PriceIRR prod) - parseIRRBig cost) |}
  | None => {| pc_Product := prod; pc_RecipeCostIRR := EmptyString; pc_HasRecipe := false; pc_MarginIRR := "0" |}
  end.

(* app.go:2805-2820 Application.render *)
Definition pricing_page (R : Runtime) (st : persistedDB) : list PricingRow := map (pricing_row R st) (Entities_of R "product" st).

(** ** The cost is the nearest rial *)

(** A decimal text with at most three digits behind the point, in thousandths. *)
Inductive in_thousandths : string → Z → Prop :=
  | whole_number a : all_digits a = true → in_thousandths a (Z.of_N (digits_val 0 a) * 1000)
  | with_fraction a f : all_digits a = true → sforall is_digit f = true → (String.length f <= 3)%nat →
      in_thousandths (a +:+ "." +:+ f) (Z.of_N (digits_val 0 (a +:+ f)) * 10 ^ (3 - Z.of_nat (String.length f))).

(** What a line costs in millionths of a rial; a line whose ingredient is gone counts for nothing. *)
Inductive line_amount (st : persistedDB) (line : RecipeLineView) : Z → Prop :=
  | amount_known e q c : live st "ingredient" (rl_IngredientID line) = Some e → in_thousandths (TrimSpace (rl_Quantity line)) q →
      in_thousandths (TrimSpace (Field (view e) "average_cost")) c → line_amount st line (q * c)
  | amount_gone : live st "ingredient" (rl_IngredientID line) = None → line_amount st line 0.

Lemma in_thousandths_reads s q : in_thousandths s q → 0 <= q ∧ ∃ x, Rat_SetString s = Some x ∧ (x == Qmake q 1000)%Q.
Proof.
  intros [a Ha|a f Ha Hf Hl].
  - split; [lia|]. exists (inject_Z (Z.of_N (digits_val 0 a))). split; [by apply Rat_SetString_int|]. unfold Qeq. cbn. lia.
  - split; [apply Z.mul_nonneg_nonneg; [lia|apply Z.pow_nonneg; lia]|]. eexists. split; [apply Rat_SetString_decimal; [done..|unfold max_exp5; lia]|].
    unfold frac. rewrite Qred_correct. unfold Qeq. cbn [Qnum Qden]. rewrite Z2Pos.id by (apply Z.pow_pos_nonneg; lia).
    rewrite <- Z.mul_assoc, <- Z.pow_add_r by lia. by rewrite Z.sub_add.
Qed.

Lemma line_amount_cost st line m : line_amount st line m →
  0 <= m ∧ match line_cost st line with
           | Some x => live st "ingredient" (rl_IngredientID line) ≠ None ∧ (x == Qmake m 1000000)%Q
           | None => m = 0 ∧ live st "ingredient" (rl_IngredientID line) = None
           end.
Proof.
  unfold line_cost, Entity_of. intros [e q c Hl Hq Hc|Hl]; rewrite Hl; [|by split]. destruct (in_thousandths_reads _ _ Hq) as (Hq0 & x & -> & Ex).
  destruct (in_thousandths_reads _ _ Hc) as (Hc0 & y & Ey' & Ey). split; [lia|]. cbn. rewrite Ey'. cbn. split; [done|].
  rewrite Qred_correct, Ex, Ey. unfold Qeq, Qmult. cbn. lia.
Qed.

(** The sum of the lines, in lowest terms. *)
Lemma sum_costs_amounts st lines ms : Forall2 (line_amount st) lines ms →
  0 <= Zsum ms ∧ (sum_costs (omap (line_cost st) lines) == Qmake (Zsum ms) 1000000)%Q
  ∧ (omap (line_cost st) lines = [] ↔ Forall (λ l, live st "ingredient" (rl_IngredientID l) = None) lines).
Proof.
  intros H. unfold sum_costs. assert (0%Q == Qmake 0 1000000)%Q as E0 by done. revert E0. change (Zsum ms) with (0 + Zsum ms).
  enough (∀ t a, (t == Qmake a 1000000)%Q → 0 <= Zsum ms
    ∧ (foldl (λ t x, Qred (t + x)) t (omap (line_cost st) lines) == Qmake (a + Zsum ms) 1000000)%Q
    ∧ (omap (line_cost st) lines = [] ↔ Forall (λ l, live st "ingredient" (rl_IngredientID l) = None) lines)) as G by (intros E0; apply G, E0).
  induction H as [|line m lines ms Hm H IH]; intros t a Et.
  { cbn. rewrite Z.add_0_r. split_and!; [done|done|]. split; [constructor|done]. }
  apply line_amount_cost in Hm as [Hm Hc]. cbn [omap list_omap]. change (Zsum (m :: ms)) with (m + Zsum ms). destruct (line_cost st line) as [x|].
  - destruct Hc as [Hl Ex]. destruct (IH (Qred (t + x)) (a + m)) as (H1 & H2 & _).
    { rewrite Qred_correct, Et, Ex. unfold Qeq, Qplus. cbn. lia. }
    split_and!; [lia| |split; [done|intros HF; by inversion HF]]. cbn [foldl]. by rewrite Z.add_assoc.
  - destruct Hc as [-> Hl]. destruct (IH t a Et) as (H1 & H2 & H3). rewrite Z.add_0_l. split_and!; [done|done|]. rewrite H3. split; [by constructor|intros HF; by inversion HF].
Qed.

Lemma sum_costs_reduced costs : Z.gcd (Qnum (sum_costs costs)) (Zpos (Qden (sum_costs costs))) = 1.
Proof.
  unfold sum_costs. assert (Z.gcd (Qnum 0) (Zpos (Qden 0)) = 1) as H by done. revert H. generalize 0%Q.
  induction costs as [|x costs IH]; intros t Ht; [done|]. cbn [foldl]. apply IH, gcd_Qred.
Qed.

(** The denominator of a fraction in lowest terms is no larger than any. *)
Lemma reduced_den q a d : Z.gcd (Qnum q) (Zpos (Qden q)) = 1 → (q == Qmake a d)%Q → Zpos (Qden q) <= Zpos d.
Proof.
  intros Hg E. unfold Qeq in E. cbn [Qnum Qden] in E. apply Z.divide_pos_le; [lia|]. apply (Z.gauss _ (Qnum q)).
  - exists a. lia.
  - by rewrite Z.gcd_comm.
Qed.

(** C25: the cost of a recipe is the nearest rial: when the quantities of its lines and the costs
    of its ingredients are decimal texts with at most three digits behind the point, the cost is the exact sum of
    quantity times cost over the lines whose ingredient is there, rounded half up, although the program rounds
    three times on the way. *)
Theorem recipe_cost_nearest R productID st r ms :
  recipe_of R productID st = Some r → Forall2 (line_amount st) (RecipeLines r) ms → Zsum ms < 2 ^ 60 →
  ProductRecipeCostIRR R productID st =
    if bool_decide (Forall (λ l, live st "ingredient" (rl_IngredientID l) = None) (RecipeLines r)) then None
    else Some (Z_to_dec ((Zsum ms + 500000) / 1000000)).
Proof.
  intros Hr Hms Hb. unfold ProductRecipeCostIRR. rewrite Hr. cbn [mbind option_bind]. destruct (sum_costs_amounts st _ _ Hms) as (H0 & Hs & Hn).
  pose proof (sum_costs_reduced (omap (line_cost st) (RecipeLines r))) as Hg. set (costs := omap _ _) in *.
  case_bool_decide as HF; [by rewrite (proj2 Hn HF)|]. destruct costs as [|c costs]; [by destruct HF; apply Hn|].
  set (total := sum_costs _) in *. clearbody total. f_equal. f_equal.
  assert (Qfloor (total + (1 # 2)) = (Zsum ms + 500000) / 1000000) as <-.
  { rewrite (Qfloor_comp _ ((Zsum ms + 500000) # 1000000)); [done|]. rewrite Hs. unfold Qeq, Qplus. cbn. lia. }
  apply round_to_int_nearest.
  { rewrite Hs. unfold Qle. cbn. lia. }
  pose proof (reduced_den _ _ _ Hg Hs) as Hd. pose proof (Qfloor_le (total + (1 # 2))) as Hf. set (F := Qfloor _) in *. clearbody F.
  assert (F * 1000000 <= Zsum ms + 500000) as HF'.
  { rewrite Hs in Hf. unfold Qle, Qplus in Hf. cbn in Hf. lia. }
  destruct (Z.le_gt_cases 0 (F + 1)); nia.
Qed.

(** ** Concrete cases *)

Definition an_ingredient (id cost : string) : persistedDB → persistedDB :=
  put (entityKey "ingredient" id)
    {| se_ID := id; se_Type := "ingredient"; se_Version := 1; se_Deleted := false; se_Payload := marshal (AMap (amap [("average_cost", AStr cost)])) |}.

Definition a_recipe (id product : string) (lines : list (string * string)) : persistedDB → persistedDB :=
  put (entityKey "recipe" id)
    {| se_ID := id; se_Type := "recipe"; se_Version := 1; se_Deleted := false;
       se_Payload := marshal (AMap (amap [("items", AArr (map (λ p, AMap (amap [("ingredient_id", AStr p.1); ("quantity", AStr p.2)])) lines));
                                          ("product_id", AStr product)])) |}.

(** Coffee at 14500.25 a gram and milk at 480 a millilitre. *)
Definition a_kitchen : persistedDB :=
  an_ingredient "coffee" "14500.25" (an_ingredient "milk" "480"
    (a_recipe "r1" "latte" [("coffee", "18.5"); ("milk", " 180 "); ("cinnamon", "1")]%stdpp newEmptyDB)).

Lemma recipe_cost_nearest_witness :
  ProductRecipeCostIRR plain_runtime "latte" a_kitchen = Some "354655"%stdpp.
Proof.
  pose (r := List.hd {| e_ID := EmptyString; e_Type := EmptyString; e_Version := 0; e_Payload := EmptyString |} (Entities_of plain_runtime "recipe" a_kitchen)).
  assert (Forall2 (line_amount a_kitchen) (RecipeLines r) [18500 * 14500250; 180000 * 480000; 0]) as Hm.
  { assert (RecipeLines r = [{| rl_IngredientID := "coffee"; rl_IngredientName := EmptyString; rl_Quantity := "18.5"; rl_Unit := EmptyString |};
        {| rl_IngredientID := "milk"; rl_IngredientName := EmptyString; rl_Quantity := " 180 "; rl_Unit := EmptyString |};
        {| rl_IngredientID := "cinnamon"; rl_IngredientName := EmptyString; rl_Quantity := "1"; rl_Unit := EmptyString |}]%stdpp) as -> by (vm_compute; reflexivity).
    constructor; [|constructor; [|constructor; [|constructor]]].
    - eapply amount_known; [vm_compute; reflexivity|exact (with_fraction "18" "5" eq_refl eq_refl ltac:(cbn; lia))|
        exact (with_fraction "14500" "25" eq_refl eq_refl ltac:(cbn; lia))].
    - eapply amount_known; [vm_compute; reflexivity|exact (whole_number "180" eq_refl)|exact (whole_number "480" eq_refl)].
    - apply amount_gone. vm_compute. reflexivity. }
  rewrite (recipe_cost_nearest plain_runtime "latte" a_kitchen r _ ltac:(vm_compute; reflexivity) Hm ltac:(vm_compute; reflexivity)).
  vm_compute. reflexivity.
Defined.

(** A kitchen without the ingredients has no cost. *)
Example no_cost : ProductRecipeCostIRR plain_runtime "latte" (a_recipe "r1" "latte" [("coffee", "18.5")]%stdpp newEmptyDB) = None.
Proof. vm_compute. reflexivity. Qed.
