(* ===== verification/Finance.v ===== *)
(** * The page of accounts

    Models the page of finance that [render] of [offline-menuvex/app.go] computes: the balances of the till,
    the value of the stock, and what the month brought, with the cost of what was sold taken from the
    recipes.  [loc] is the machine's offset from UTC in seconds.  The page is [None] when taking
    the value of the stock stops the handler. *)
From S2P Require Import Prelude GoStrings GoFloat GoJson GoTime Store Entities EntityView Records Orders Forms Analytics Desk Stockroom Dashboard Reports RecipeCost.

Local Open Scope Z_scope.

Record FinancePage := {
  FinTab : string;
  FinCashFa : string;
  FinBankFa : string;
  FinReceivablesFa : string;
  FinInvValueFa : string;
  FinMonthRevFa : string;
  FinMonthCOGSFa : string;
  FinMonthExpFa : string;
  FinMonthProfitFa : string;
}.

(* app.go:3254-3259 Application.render *)
Definition fin_tab (r : Request) : string :=
  let tab := TrimSpace (asked r "tab") in
  switch tab [(["expenses"; "journal"; "accounts"; "pnl"], tab)]%stdpp "overview".

(** The first of the month of the machine's zone, at midnight. *)
(* app.go:3260-3261 Application.render *)
Definition month_start (loc now : Z) : Z :=
  let d := Date loc now in instant {| d_year := d_year d; d_month := d_month d; d_day := 1 |} 0 loc.

(* app.go:3268-3277 Application.render *)
Definition fin_inv_value (ingredients : list Entity) : option Z :=
  Zsum <$> mapM (λ ing, mul_int (float_field ing "current_stock") (parseIRRBig (Field ing "average_cost"))) ingredients.

(* app.go:3284-3289 Application.render *)
Definition sold_since_start (start : Z) (o : Entity) : bool :=
  bool_decide (ToLower (TrimSpace (Field o "status")) = "completed")
  && match ParseRFC3339 (Field o "created_at") with Some ct => start <=? ct | None => false end.

(** What one unit of a product costs by its recipe. *)
(* app.go:3293-3296 Application.render *)
Definition unit_cost (R : Runtime) (st : persistedDB) (productID : string) : Z :=
  match ProductRecipeCostIRR R productID st with Some c => parseIRRBig c | None => 0 end.

(** One line: its cost is taken from the cache, or computed and kept there. *)
(* app.go:3291-3300 Application.render *)
Definition add_cogs (unit_cost : string → Z) (acc : gmap string Z * Z) (it : OrderLineView) : gmap string Z * Z :=
  let '(costCache, cogs) := acc in
  let '(unit, costCache) := match costCache !! ol_ProductID it with
                            | Some unit => (unit, costCache)
                            | None => let unit := unit_cost (ol_ProductID it) in (unit, <[ol_ProductID it := unit]> costCache)
                            end in
  (costCache, cogs + unit * ol_Quantity it).

(* app.go:3279-3303 Application.render *)
Definition cogs (R : Runtime) (start : Z) (st : persistedDB) : Z :=
  (foldl (add_cogs (unit_cost R st)) (∅, 0)
     (concat (map OrderItems (List.filter (sold_since_start start) (Entities_of R "order" st))))).2.

(* app.go:3244-3310 Application.render *)
Definition finance_page (R : Runtime) (loc now : Z) (r : Request) (st : persistedDB) : option FinancePage :=
  let start := month_start loc now in
  let month := AnalyticsSince R start st in
  let all := Analytics R st in
  invValue ← fin_inv_value (Entities_of R "ingredient" st);
  let rev := parseIRRBig (TotalSalesIRR month) in
  let exp := parseIRRBig (TotalExpensesIRR month) in
  let cogs := cogs R start st in
  Some {| FinTab := fin_tab r;
          FinCashFa := FormatIRRToToman (CashSalesIRR all); FinBankFa := FormatIRRToToman (CardSalesIRR all);
          FinReceivablesFa := FormatIRRToToman (TotalReceivablesIRR all); FinInvValueFa := FormatIRRToToman (Z_to_dec invValue);
          FinMonthRevFa := FormatIRRToToman (Z_to_dec rev); FinMonthCOGSFa := FormatIRRToToman (Z_to_dec cogs);
          FinMonthExpFa := FormatIRRToToman (Z_to_dec exp); FinMonthProfitFa := FormatIRRToToman (Z_to_dec (rev - cogs - exp)) |}.

(** ** What the page shows *)

(** The cache changes nothing: the cost of what was sold is the sum over its lines. *)
Lemma add_cogs_all (u : string → Z) lines m a : (∀ k z, m !! k = Some z → z = u k) →
  (foldl (add_cogs u) (m, a) lines).2 = a + Zsum (map (λ it, u (ol_ProductID it) * ol_Quantity it) lines).
Proof.
  revert m a. induction lines as [|it lines IH]; intros m a Hm; [cbn; lia|]. cbn [foldl map].
  change (Zsum (_ :: map _ lines)) with (u (ol_ProductID it) * ol_Quantity it + Zsum (map (λ it, u (ol_ProductID it) * ol_Quantity it) lines)).
  unfold add_cogs at 2. destruct (m !! ol_ProductID it) as [z|] eqn:E.
  - rewrite IH by done. rewrite (Hm _ _ E). lia.
  - rewrite IH; [lia|]. intros k z. rewrite lookup_insert_Some. naive_solver.
Qed.

(** The expenses of a period. *)
Definition expenses_in (from : option Z) (st : persistedDB) : list storedEntity :=
  List.filter (λ e, is_kind "expense" e && counted from e) (map_to_list (Entities st)).*2.

Lemma analytics_expenses R from st : TotalExpensesIRR (analyticsRange R from st) = Z_to_dec (Zsum (map price_of (expenses_in from st))).
Proof.
  assert (totals (List.filter (counted from) (iter R 0 (Entities st)).*2) = totals (in_report from st)) as Ht
    by (apply totals_perm, filter_perm; by rewrite iter_perm).
  unfold analyticsRange. rewrite Ht. cbn [TotalExpensesIRR]. f_equal.
  assert (expenses_in from st = List.filter (is_kind "expense") (in_report from st)) as ->.
  { unfold expenses_in, in_report. rewrite filter_filter_bool. apply filter_ext_elem. intros e _. apply andb_comm. }
  rewrite Zsum_map_filter. apply (totals_col _); [done..|]. intros e. apply entity_tally_facts.
Qed.

(** The orders of the page are the completed orders of the month. *)
Lemma finance_orders R start st : plain_orders st → (length (listing R "order" st) <= 500)%nat →
  List.filter (sold_since_start start) (Entities_of R "order" st) ≡ₚ map view (List.filter completed_order (orders_in (Some start) st)).
Proof.
  intros Hp Hl. assert (Entities_of R "order" st ≡ₚ map view (orders_in None st)) as P.
  { rewrite <- (report_orders R None st Hp Hl). unfold report_filtered. rewrite sort_stable_perm.
    clear. induction (Entities_of R "order" st) as [|o l IH]; [done|]. cbn [List.filter in_span]. by rewrite <- IH. }
  rewrite (filter_perm _ _ _ P), filter_map. unfold orders_in. rewrite !filter_filter_bool. erewrite filter_ext_elem; [done|]. intros e He.
  apply list_elem_of_fmap in He as ([k e'] & -> & Hk%elem_of_map_to_list). cbn [snd]. specialize (Hp k e' Hk). cbn in Hp. destruct Hp as [_ Ho].
  unfold counted, in_period, is_kind, completed_order, order_status_of, sold_since_start.
  destruct (decide (se_Type e' = "order")) as [Ht|Ht]; [|by rewrite (bool_decide_eq_false_2 (se_Type e' = "order")) by done].
  rewrite (bool_decide_eq_true_2 (se_Type e' = "order")) by done. destruct (Ho Ht) as [-> _]. cbn [andb orb]. rewrite andb_true_r, <- andb_assoc. f_equal. apply andb_comm.
Qed.

(** Every ingredient's stock is a number. *)
Definition stock_counts (ing : Entity) : Prop := is_finite (float_field ing "current_stock") = true.

Lemma fin_inv_value_some ings : Forall stock_counts ings → is_Some (fin_inv_value ings).
Proof.
  intros H. unfold fin_inv_value. apply fmap_is_Some, mapM_is_Some. eapply Forall_impl; [exact H|]. intros ing Hi. by apply mul_int_finite.
Qed.

(** What the sold units of an order cost by the recipes. *)
Definition order_cost (u : string → Z) (o : Entity) : Z := Zsum (map (λ it, u (ol_ProductID it) * ol_Quantity it) (OrderItems o)).

(** The page is the same whatever order maps are ranged over in. *)
Lemma analyticsRange_runtime R R' from st : analyticsRange R from st = analyticsRange R' from st.
Proof.
  unfold analyticsRange. assert (totals (List.filter (counted from) (iter R 0 (Entities st)).*2)
    = totals (List.filter (counted from) (iter R' 0 (Entities st)).*2)) as ->; [|done].
  apply totals_perm, filter_perm. by rewrite !iter_perm.
Qed.

Lemma finance_page_runtime R R' loc now r st : well_keyed st → finance_page R loc now r st = finance_page R' loc now r st.
Proof.
  intros Hk. assert (∀ kind, Entities_of R kind st = Entities_of R' kind st) as He by (intros kind; by apply Entities_spec).
  assert (cogs R (month_start loc now) st = cogs R' (month_start loc now) st) as Hc.
  { assert (∀ p, unit_cost R st p = unit_cost R' st p) as Hu by (intros p; unfold unit_cost, ProductRecipeCostIRR, recipe_of; by rewrite He).
    unfold cogs. rewrite He, !(add_cogs_all _ _ _ _) by done. f_equal. apply Zsum_map_ext. intros it _. by rewrite Hu. }
  unfold finance_page, AnalyticsSince, Analytics. by rewrite Hc, He, !(analyticsRange_runtime R R').
Qed.

(** C36: the month's account: as long as a list holds all orders (up to 500), there is no [order_status]
    record and the states and times of orders need no trimming, the page shows, from one and the same set of orders, the completed ones since the first of the
    month, their prices as revenue and the recipes' cost of every unit sold as the cost of sales, and as profit
    the revenue less that cost and less the expenses of the month.  The page is made exactly when every
    ingredient's stock is a finite number; and when entities are filed under their own keys, it is the same
    whatever order maps are ranged over in. *)
Theorem finance_page_agrees R loc now r st : plain_orders st → (length (listing R "order" st) <= 500)%nat →
  let start := month_start loc now in
  let sold := List.filter completed_order (orders_in (Some start) st) in
  let revenue := Zsum (map price_of sold) in
  let cost := Zsum (map (λ e, order_cost (unit_cost R st) (view e)) sold) in
  let expenses := Zsum (map price_of (expenses_in (Some start) st)) in
  (is_Some (finance_page R loc now r st) ↔ Forall stock_counts (Entities_of R "ingredient" st))
  ∧ (∀ p, finance_page R loc now r st = Some p →
      FinMonthRevFa p = FormatIRRToToman (Z_to_dec revenue) ∧ FinMonthCOGSFa p = FormatIRRToToman (Z_to_dec cost)
      ∧ FinMonthExpFa p = FormatIRRToToman (Z_to_dec expenses)
      ∧ FinMonthProfitFa p = FormatIRRToToman (Z_to_dec (revenue - cost - expenses)))
  ∧ (well_keyed st → ∀ R', finance_page R' loc now r st = finance_page R loc now r st).
Proof.
  intros Hp Hl. cbv zeta. set (start := month_start loc now). set (sold := List.filter completed_order _).
  assert (cogs R start st = Zsum (map (λ e, order_cost (unit_cost R st) (view e)) sold)) as Hc.
  { unfold cogs. rewrite add_cogs_all by done. rewrite Z.add_0_l, Zsum_concat. rewrite (Zsum_perm _ _ (Permutation_map _ (finance_orders R start st Hp Hl))). by rewrite map_map. }
  split; [|split; [|intros Hk R'; by apply finance_page_runtime]].
  - unfold finance_page. fold start. destruct (fin_inv_value _) as [z|] eqn:E; cbn [mbind option_bind].
    + split; [intros _|by eexists]. unfold fin_inv_value in E. apply fmap_Some in E as (zs & E & _). apply mapM_Some_1 in E.
      induction E as [|ing z' ings zs' Hz _ IH]; constructor; [|done]. apply (mul_int_finite _ (parseIRRBig (Field ing "average_cost"))). by eexists.
    + split; [by intros [? ?]|]. intros H. destruct (fin_inv_value_some _ H) as [? ?]. congruence.
  - intros p Hf. unfold finance_page in Hf. fold start in Hf. destruct (fin_inv_value _) as [z|]; [|done]. cbn [mbind option_bind] in Hf. apply Some_inj in Hf.
    subst p. cbn [FinMonthRevFa FinMonthCOGSFa FinMonthExpFa FinMonthProfitFa]. unfold AnalyticsSince.
    destruct (analytics_orders R (Some start) st) as [-> _]. rewrite analytics_expenses, !parseIRRBig_dec, Hc. done.
Qed.

(** ** A month *)

(** An order of April, an open one, and two lattes sold in May; an expense of May. *)
Definition a_month : persistedDB :=
  let order id created status := new_entity "order" id (amap [("created_at", AStr created);
    ("items", AArr [AMap (amap [("product_id", AStr "latte"); ("quantity", AInt 2)])]); ("price", AStr "2400000"); ("status", AStr status)]) in
  order "o1" "2024-04-30T09:00:00Z" "completed" (order "o2" "2024-05-01T08:00:00Z" "pending" (order "o3" "2024-05-01T09:00:00Z" "completed"
    (new_entity "expense" "e1" (amap [("created_at", AStr "2024-05-01T07:00:00Z"); ("price", AStr "300000")]) a_kitchen)))%stdpp.

Lemma stock_counts_all ings : forallb (λ ing, is_finite (float_field ing "current_stock")) ings = true → Forall stock_counts ings.
Proof. rewrite forallb_forall, Forall_forall. intros H ing Hi. exact (H ing (proj1 (list_elem_of_In _ _) Hi)). Qed.

Lemma finance_page_agrees_witness :
  ∃ p, finance_page plain_runtime 12600 noon (asking []) a_month = Some p
  ∧ FinMonthRevFa p = FormatIRRToToman "2400000" ∧ FinMonthCOGSFa p = FormatIRRToToman "709310" ∧ FinMonthProfitFa p = FormatIRRToToman "1390690".
Proof.
  destruct (finance_page_agrees plain_runtime 12600 noon (asking []) a_month) as (Hm & Ha & _); [decided|apply Nat.leb_le; vm_compute; reflexivity|].
  destruct (proj2 Hm) as [p Hp]; [apply stock_counts_all; vm_compute; reflexivity|]. exists p. split; [done|]. destruct (Ha p Hp) as (-> & -> & _ & ->).
  split_and!; vm_compute; reflexivity.
Defined.

(** A stock that is no number stops the page. *)
Example finance_page_stops :
  finance_page plain_runtime 12600 noon (asking []) (new_entity "ingredient" "i" (amap [("current_stock", AStr "nan")]) a_month) = None.
Proof. vm_compute. reflexivity. Qed.
