(* ===== verification/Startup.v ===== *)
(** * Starting the application

    Models [New] of [offline-menuvex/app.go]: opening the store, the token of forms, the sessions
    kept from before, the hosts that may ask, the client of the server when the environment names one, and the
    demonstration for a fresh installation.  The templates and the catalogue are embedded in the program and are
    taken to parse; the names of directories are left out. *)
From S2P Require Import Prelude GoStrings GoFloat GoJson GoTime GoCrypto Store Entities EntityView Reopen Outbox Records Orders SyncClient SyncDesk Auth Desk Printing Seed.

(** What starting meets: whether the directory is given, the user's directory or its error, the calls of
    opening, the random bytes, the sessions' file, and the environment. *)
Record Surroundings := {
  sr_dataDir : string;
  sr_config : res string;
  sr_mkdir : option string;
  sr_open : option string;
  sr_read : option string;
  sr_rand : res (list N);
  sr_sessions : option string;
  sr_hosts : string;
  sr_base : string;
  sr_id : string;
  sr_token : string;
}.

(** The application, with the world its handlers run in. *)
Record Application := {
  ap_world : Desk.world;
  ap_csrf : string;
  ap_sessions : sessions_map;
  ap_allowed : gset string;
  ap_client : option Client;
}.

Definition own_hosts : list string := ["localhost"; "127.0.0.1"; "::1"; "wails.localhost"; "wails"]%stdpp.

(* app.go:1784-1788 New *)
Definition allowed_hosts (env : string) : gset string :=
  list_to_set (own_hosts ++ List.filter (λ h, negb (sempty h)) (map TrimSpace (SplitByte "," env))).

Definition fresh_world (s : Store) : Desk.world := {| Desk.w_store := s; w_tick := 0; w_printed := []; w_background := [] |}.

(** The client of the server that the environment names, to which the store is bound; a fresh installation without
    one is given the demonstration. *)
(* app.go:1789-1802 New *)
Definition connect (E : Desk.Env) (sr : Surroundings) (isDefaultUserDir : bool) (w : Desk.world) : res (option Client) * Desk.world :=
  if negb (sempty (sr_base sr) && sempty (sr_id sr) && sempty (sr_token sr)) then
    match SyncDesk.New (sr_base sr) (sr_id sr) (sr_token sr) with
    | Err e => (Err e, w)
    | Ok c =>
        match Desk.transacts E true (λ R io ctx t g s, Bind io ctx s (BaseURL c +:+ "|" +:+ sr_id sr)) w with
        | (Err e, w) => (Err e, w)
        | (Ok _, w) => (Ok (Some c), w)
        end
    end
  else if isDefaultUserDir then (Ok None, (SeedIfEmpty E w).2)
  else (Ok None, w).

(** The application or the error, and the disk. *)
(* app.go:1708-1803 New *)
Definition New (E : Desk.Env) (sr : Surroundings) (d : Disk) : res Application * Disk :=
  let isDefaultUserDir := sempty (sr_dataDir sr) in
  match (if isDefaultUserDir then sr_config sr else Ok (sr_dataDir sr)) with
  | Err e => (Err e, d)
  | Ok _ =>
      match Open (sr_mkdir sr) (sr_open sr) (sr_read sr) d with
      | (Err e, d) => (Err e, d)
      | (Ok s, d) =>
          match sr_rand sr with
          | Err e => (Err e, d)
          | Ok b =>
              match connect E sr isDefaultUserDir (fresh_world s) with
              | (Err e, w) => (Err e, s_disk (Desk.w_store w))
              | (Ok client, w) =>
                  (Ok {| ap_world := w; ap_csrf := hex_encode (text_of_bytes b); ap_sessions := loadSessionsFile (sr_sessions sr);
                         ap_allowed := allowed_hosts (sr_hosts sr); ap_client := client |}, s_disk (Desk.w_store w))
              end
          end
      end
  end.

(** ** A till belongs to one server *)

Lemma Bind_kept io ctx s scope :
  let s' := tx_store (Bind io ctx s scope) in
  Entities (s_state s') = Entities (s_state s) ∧ Outbox (s_state s') = Outbox (s_state s)
  ∧ (is_ok (tx_res (Bind io ctx s scope)) = true → scope_taken (s_state s) scope = false ∧ Meta (s_state s') !! "scope"%stdpp = Some scope).
Proof.
  cbv zeta. unfold Bind. pose proof (withTx_state io ctx s (Bind_body scope)) as W. destruct (tx_res _) as [a|e].
  - assert (Bind_body scope (s_state s) = if scope_taken (s_state s) scope then Err "local database belongs to a different server/device; use a separate data directory" else Ok ((), set_Meta (<["scope"%stdpp := scope]>) (s_state s))) as B
      by (unfold Bind_body; by destruct (scope_taken _ _)).
    rewrite B in W. destruct (scope_taken (s_state s) scope) eqn:E; [done|]. apply Ok_inj in W.
    assert (s_state (tx_store (withTx io ctx s (Bind_body scope))) = set_Meta (<["scope" := scope]>) (s_state s)) as -> by congruence.
    split_and!; [done..|]. intros _. split; [done|]. cbn. apply lookup_insert_eq.
  - rewrite W. by split_and!.
Qed.

(** C38: a till belongs to one server: when the file on the disk holds a state that is bound to a
    server and device, the application starts either without a server or with exactly that one, whatever the
    environment says and whatever fails.  With a server, the store is bound to the client's address and device,
    and the entities and the queue are those of the file.  Without one, the state is the one of the file, except
    that in the user's own directory, when there is no category, product and order, the demonstration may be put
    in: then its records are there, and every other entity, the queue and the entries of the file are as they
    were. *)
Theorem New_one_server E sr d f st x a d' : d_main d = Some f → read_state (f_text f) = Ok st → Meta st !! "scope"%stdpp = Some x → x ≠ EmptyString →
  New E sr d = (Ok a, d') →
  let st' := s_state (Desk.w_store (ap_world a)) in
  match ap_client a with
  | Some c => x = BaseURL c +:+ "|" +:+ DeviceID c ∧ Meta st' !! "scope"%stdpp = Some x
              ∧ Entities st' = Entities st ∧ Outbox st' = Outbox st
  | None => st' = st
      ∨ sr_dataDir sr = EmptyString ∧ no_menu st ∧ Meta st' = Meta st ∧ Outbox st' = Outbox st
        ∧ (∀ k, k ∉ map (λ r, entityKey r.1.1 r.1.2) seed_records → Entities st' !! k = Entities st !! k)
        ∧ ∃ now, ∀ r, r ∈ seed_records → Entities st' !! entityKey r.1.1 r.1.2 = Some (seed_entity now r.1.1 r.1.2 r.2)
  end.
Proof.
  intros Hf Hr Hx Hne H. cbv zeta. unfold New in H. destruct (if sempty (sr_dataDir sr) then _ else _); [|done]. unfold Open in H. rewrite Hf in H. cbn [default] in H. change (id f) with f in H.
  destruct (sr_mkdir sr); [done|]. destruct (sr_open sr); [done|]. destruct (sr_read sr); [done|]. rewrite Hr in H.
  destruct (sr_rand sr); [|done]. set (s := {| s_closed := false; s_state := st; s_disk := _ |}) in H. unfold connect in H.
  destruct (negb _).
  - destruct (SyncDesk.New _ _ _) as [c|] eqn:Ec; [|done]. unfold Desk.transacts, act in H. cbn [fresh_world Desk.w_store] in H.
    set (io := Desk.ev_io E _ _) in H. set (ctx := Desk.ctx_at E true _) in H. destruct (Bind_kept io ctx s (BaseURL c +:+ "|" +:+ sr_id sr)) as (He & Ho & Hb).
    destruct (tx_res _) as [u|e] eqn:Et; [|done]. destruct (Hb eq_refl) as [Hs Hm].
    assert (DeviceID c = sr_id sr) as Ei. { unfold SyncDesk.New in Ec. repeat case_match; try done. apply Ok_inj in Ec. by subst c. }
    assert (ap_client a = Some c ∧ Desk.w_store (ap_world a) = tx_store (Bind io ctx s (BaseURL c +:+ "|" +:+ sr_id sr))) as [-> ->].
    { pose proof (f_equal fst H) as Ha. cbn [fst] in Ha. apply Ok_inj in Ha. by subst a. }
    assert (x = BaseURL c +:+ "|" +:+ sr_id sr) as E1.
    { unfold scope_taken in Hs. cbn [s_state s] in Hs. rewrite Hx in Hs. apply andb_false_iff in Hs as [Hs|Hs]; [by destruct x|].
      apply negb_false_iff in Hs. by apply bool_decide_eq_true in Hs. }
    rewrite Ei, Hm, He, Ho. split_and!; [done|by rewrite E1|done..].
  - pose proof (f_equal fst H) as Ha. destruct (sempty (sr_dataDir sr)) eqn:Es; cbn [fst] in Ha; apply Ok_inj in Ha; subst a; cbn [ap_client ap_world].
    + destruct (SeedIfEmpty_state E (fresh_world s)) as [Hst|(Hm & now & Hb)]; [by left|]. right. cbn [fresh_world Desk.w_store s_state s] in Hm, Hb.
      destruct (Seed_installs now st) as (st2 & Hb2 & Hin & Hout & Hrest & _). rewrite Hb in Hb2. apply ok_state in Hb2. rewrite <- Hb2.
      split; [by apply sempty_true in Es|]. split; [done|]. rewrite Hrest at 1 2. cbn [Meta Outbox set_Entities]. by eauto 6.
    + by left.
Qed.

(** The hosts that may ask. *)
Lemma allowed_hosts_spec env h : h ∈ allowed_hosts env ↔ h ∈ own_hosts ∨ h ≠ EmptyString ∧ h ∈ map TrimSpace (SplitByte "," env).
Proof.
  unfold allowed_hosts. rewrite elem_of_list_to_set, elem_of_app, !list_elem_of_In, filter_In, <- !list_elem_of_In.
  destruct h; cbn [sempty negb]; naive_solver.
Qed.

(** ** Starting on a bound till *)

Definition bound_till : persistedDB := set_Meta (<["scope"%stdpp := "https://menuvex.example|device-1"%stdpp]>) newEmptyDB.
Definition bound_file : file := {| f_text := match encodeDB bound_till with Ok t => t | Err _ => EmptyString end; f_synced := true |}.

Definition surroundings (base id : string) : Surroundings :=
  {| sr_dataDir := "/data"; sr_config := Ok "/home"; sr_mkdir := None; sr_open := None; sr_read := None; sr_rand := Ok (repeat 7%N 32); sr_sessions := None;
     sr_hosts := " till.local ,"; sr_base := base; sr_id := id; sr_token := "secret" |}.

Lemma New_one_server_witness :
  ∃ a d', New calm (surroundings "https://menuvex.example/" "device-1") {| d_main := Some bound_file; d_tmp := None |} = (Ok a, d')
  ∧ Meta (s_state (Desk.w_store (ap_world a))) !! "scope"%stdpp = Some "https://menuvex.example|device-1"%stdpp ∧ "till.local"%stdpp ∈ ap_allowed a.
Proof.
  destruct (New calm (surroundings "https://menuvex.example/" "device-1") {| d_main := Some bound_file; d_tmp := None |}) as [r d'] eqn:E.
  destruct r as [a|e]; [|vm_compute in E; discriminate E]. exists a, d'. split; [reflexivity|].
  pose proof (New_one_server calm (surroundings "https://menuvex.example/" "device-1") {| d_main := Some bound_file; d_tmp := None |} bound_file
    bound_till "https://menuvex.example|device-1" a d' eq_refl ltac:(vm_compute; reflexivity) eq_refl ltac:(discriminate) E) as H.
  vm_compute in E. injection E as <- <-. cbn [ap_client] in H. destruct H as (_ & Hm & _). split; [exact Hm|]. apply (bool_decide_unpack _). vm_compute. exact I.
Defined.

(** Another server or device is refused. *)
Example other_server_refused :
  is_ok (New calm (surroundings "https://other.example" "device-1") {| d_main := Some bound_file; d_tmp := None |}).1 = false
  ∧ is_ok (New calm (surroundings "https://menuvex.example" "device-2") {| d_main := Some bound_file; d_tmp := None |}).1 = false.
Proof. by vm_compute. Qed.
