(* ===== verification/Footprint.v ===== *)
(** * What each handler can change

    For every operation of the store behind the till's forms, the kinds of record it can touch,
    and for every handler of [offline-menuvex/app.go] the operations it consists of.  All the
    handlers' lemmas are proved against the interface [Kept] of Desk, so each holds for the
    state in memory, for the file and for whatever else the transactions keep. *)
From S2P Require Import Prelude GoStrings GoFloat GoJson GoJsonFacts GoReadback GoTime Store Entities EntityView Outbox Records Orders OrderStates SplitBill Inventory Analytics PrintJobs PrintDedupe Forms Receipts Desk Printing OrderDesk PrintDesk RecordDesk ClubDesk Seed.

(** ** The bodies of the transactions *)

(** A step on records of some kinds.  A kind that comes out of a form may hold the byte that
    separates kinds from identifiers, and then says nothing about what is touched. *)
Record touches (kinds : list string) (st st' : persistedDB) : Prop := {
  touches_keyed : well_keyed st → well_keyed st';
  touches_frame : Forall (λ k, no_nul k = true) kinds → frame kinds st st';
}.

Lemma frame_touches kinds st st' : frame kinds st st' → touches kinds st st'.
Proof. intros H. split; [apply (frame_keyed _ _ _ H)|done]. Qed.

Lemma touches_weaken ks ks' st st' : ks ⊆ ks' → touches ks st st' → touches ks' st st'.
Proof.
  intros H [A B]. split; [exact A|]. intros F. eapply frame_weaken; [exact H|]. apply B. rewrite Forall_forall in *. auto.
Qed.

#[export] Instance touches_preorder kinds : PreOrder (touches kinds).
Proof.
  split; [intros st; apply frame_touches, frame_refl|]. intros a b c [A1 A2] [B1 B2]. split; [auto|]. intros H. eapply frame_trans; eauto.
Qed.

Lemma touches_put kinds kind id e st :
  kind ∈ kinds → (well_keyed st → well_keyed (put (entityKey kind id) e st)) →
  touches kinds st (put (entityKey kind id) e st).
Proof.
  intros Hin Hk. split; [exact Hk|]. intros Hn. rewrite Forall_forall in Hn. specialize (Hn _ Hin). split; [|done|exact Hk].
  intros k i Hk' Hnot. cbn. rewrite lookup_insert_ne; [done|]. intros E. apply entityKey_inj in E as [-> _]; done.
Qed.

Lemma touches_SaveLocalRecord now kind id isNew fields st u st' :
  SaveLocalRecord_body now kind id isNew fields st = Ok (u, st') → touches [kind] st st'.
Proof.
  unfold SaveLocalRecord_body. destruct (match live st kind id with Some _ => _ | None => _ end) as [[m n]|]; [|done]. cbv zeta.
  destruct (json_Marshal _); [|done]. intros [= _ <-]. apply touches_put; [left|by apply well_keyed_put].
Qed.

Lemma touches_DeleteLocalRecord kind id st u st' : DeleteLocalRecord_body kind id st = Ok (u, st') → touches [kind] st st'.
Proof.
  unfold DeleteLocalRecord_body. destruct (live st kind id) as [e|] eqn:L; [|done]. intros [= _ <-]. apply live_some in L as [L _].
  apply touches_put; [left|]. intros H. apply map_Forall_insert_2; [|done]. cbn. by apply H in L.
Qed.

Lemma frame_SettleDebtorPayment now id pay st u st' : SettleDebtorPayment_body now id pay st = Ok (u, st') → frame ["debtor"] st st'.
Proof.
  unfold SettleDebtorPayment_body. destruct (live st "debtor" id) as [e|] eqn:L; [|done]. apply live_some in L as [L _].
  destruct (load_map _); [|done]. cbv zeta. destruct (settle _ _ _) as [[? ?] ?]. destruct (assignable _); [|done].
  destruct (json_Marshal _); [|done]. intros [= _ <-]. apply frame_bump; [done|left|done].
Qed.

Definition pos_kinds : list string := ["order"; "table"; "customer"; "debtor"]%stdpp.

Lemma frame_CreatePOSOrder tehran R req now orderID clock g st r st' :
  CreatePOSOrder_body tehran R req now orderID clock g st = Ok (r, st') → frame pos_kinds st st'.
Proof.
  unfold CreatePOSOrder_body. destruct (find_token _ _ _); [intros [= _ <-]; apply frame_refl|]. intros H.
  apply place_order_spec in H as (e & m & st0 & _ & He & Ht & _ & _ & _ & _ & _ & _ & F & -> & _).
  eapply frame_trans; [eapply frame_weaken; [|exact F]; decided|]. apply frame_put; [done|left|done].
Qed.

Lemma frame_UpdateOrderItemsFull now id upd g st u st' : UpdateOrderItemsFull_body now id upd g st = Ok (u, st') → frame ["order"] st st'.
Proof.
  unfold UpdateOrderItemsFull_body. destruct (live st "order" id) as [e|] eqn:L; [|done]. apply live_some in L as [L _].
  destruct (load_map _) as [om|]; [|done]. cbv zeta. destruct (negb _); [|done]. destruct (negb _); [|done].
  destruct (pos_lines _ _ _) as [[[sub ls] g1]|]; [|done]. destruct (negb _); [|done]. destruct (order_amounts _ _ _) as [[d x] t].
  destruct (assignable om); [|done]. destruct (json_Marshal _); [|done]. intros [= _ <-]. apply frame_bump; [done|left|done].
Qed.

Lemma frame_TransferOrder R now id target st u st' : TransferOrder_body R now id target st = Ok (u, st') → frame ["order"; "table"] st st'.
Proof.
  unfold TransferOrder_body. destruct (live st "order" id) as [old|] eqn:L; [|done]. cbv zeta. apply live_some in L as [L _].
  destruct (negb (closed_status _)); [|done]. destruct (negb (bool_decide _)) eqn:N; [|done].
  destruct (live st "table" target) as [t|] eqn:T; [|done]. apply live_some in T as [T _].
  destruct (sempty _); [|done]. destruct (negb (existsb _ _)); [|done]. destruct (load_map _); [|done]. destruct (assignable _); [|done].
  destruct (json_Marshal _) as [b|]; [|done]. set (st1 := put _ _ st).
  destruct (free_source _ _ st1) as [st2|] eqn:E2; [|done]. destruct (edit_payload _ t _ st2) as [st3|] eqn:E3; [|done]. intros [= _ <-].
  apply negb_true_iff in N. bools.
  assert (Entities st2 !! entityKey "table" target = Some t) as Ht2.
  { rewrite (free_source_other _ _ _ _ _ (not_eq_sym N) E2). cbn. rewrite lookup_insert_ne; [done|]. intros [E _]%entityKey_inj; done. }
  apply free_source_frame in E2. apply (frame_edit ["table"]) in E3; [|done|left|done].
  apply (frame_trans _ st st1); [apply frame_bump; [done|left|done]|]. eapply frame_weaken; [|eapply frame_trans; [exact E2|exact E3]]. decided.
Qed.

Lemma frame_DeferOrderToDebtor now id name phone due note g st r st' :
  DeferOrderToDebtor_body now id name phone due note g st = Ok (r, st') → frame ["order"; "debtor"] st st'.
Proof.
  unfold DeferOrderToDebtor_body. destruct (live st "order" id) as [old|] eqn:L; [|done]. apply live_some in L as [L _].
  destruct (load_map _); [|done]. cbv zeta. destruct (negb _); [|done]. destruct (negb _); [|done]. destruct (_ <? _)%Z; [|done].
  destruct (UUID g).1 as [debt|]; [|done]. destruct (assignable _); [|done]. destruct (json_Marshal _); [|done]. intros [= _ <-].
  eapply frame_trans; [apply (frame_new _ "debtor" debt); [done|decided]|]. apply frame_bump; [done|left|].
  unfold new_entity. rewrite lookup_put_ne; [done|]. intros [E _]%entityKey_inj; done.
Qed.

Lemma frame_RecordSplitPayment R now id picks method token g st r st' :
  RecordSplitPayment_body R now id picks method token g st = Ok (r, st') → frame ["order"] st st'.
Proof.
  unfold RecordSplitPayment_body. destruct (live st "order" id) as [e|] eqn:L; [|done]. apply live_some in L as [L _]. cbv zeta.
  destruct (negb _); [|done]. destruct (negb _); [|done]. destruct (SplitBillOf _) as [[[ls t] p] rem].
  destruct (_ && _); [intros [= _ <-]; apply frame_refl|]. destruct (pick_lines _ _) as [[pl a]|]; [|done]. destruct (_ <? _)%Z; [|done].
  destruct (UUID g).1; [|done]. destruct (load_map _); [|done]. destruct (store_payments _ _ _ _) as [[[b s] r']|]; [|done]. intros [= _ <-].
  apply frame_bump; [done|left|done].
Qed.

Lemma frame_UndoLastSplitPayment now id st u st' : UndoLastSplitPayment_body now id st = Ok (u, st') → frame ["order"] st st'.
Proof.
  unfold UndoLastSplitPayment_body. destruct (live st "order" id) as [e|] eqn:L; [|done]. apply live_some in L as [L _]. cbv zeta.
  destruct (negb _); [|done]. destruct (negb _); [|done]. destruct (load_map _); [|done].
  destruct (store_payments _ _ _ _) as [[[b s] r']|]; [|done]. intros [= _ <-]. apply frame_bump; [done|left|done].
Qed.

Definition status_kinds : list string := "order"%stdpp :: effect_kinds.

Lemma frame_UpdateStatus R now id new reason g st u st' :
  UpdateLocalOrderStatusReason_body R now id new reason g st = Ok (u, st') → frame status_kinds st st'.
Proof.
  unfold UpdateLocalOrderStatusReason_body. destruct (live st "order" id) as [e|] eqn:L; [|done]. apply live_some in L as [L _].
  destruct (load_map _) as [om|]; [|done]. cbv zeta. destruct (validOrderTransition _ _); [|done].
  destruct (EqualFold _ new); [intros [= _ <-]; apply frame_refl|]. destruct (assignable om) as [m|]; [|done].
  destruct (if bool_decide (new = "completed") && _ then _ else _) as [st1|] eqn:E1; [|done].
  destruct (if bool_decide (new = "cancelled") then _ else _) as [st2|] eqn:E2; [|done].
  destruct (json_Marshal _); [|done]. intros [= _ <-].
  assert (frame effect_kinds st st2) as F.
  { eapply frame_trans.
    - destruct (bool_decide (new = "completed") && _); [by eapply complete_order_frame|injection E1 as <-; apply frame_refl].
    - destruct (bool_decide (new = "cancelled")); [eapply free_table_frame; [left|exact E2]|injection E2 as <-; apply frame_refl]. }
  assert (Entities st2 !! entityKey "order" id = Some e) as H2 by (rewrite (frame_get _ _ _ F); [done..|decided]).
  eapply frame_trans; [eapply frame_weaken; [|exact F]; by right|]. apply frame_bump; [done|left|done].
Qed.

Definition stock_change_kinds : list string := ["ingredient"; "inventory_movement"; "waste_event"]%stdpp.

Lemma frame_RecordStockMovement now movID ing tx qty ucs note g st u st' :
  RecordStockMovement_body now movID ing tx qty ucs note g st = Ok (u, st') → frame stock_change_kinds st st'.
Proof. destruct u. intros H. by apply RecordStockMovement_step in H as (old & _ & _ & F & _). Qed.

Lemma frame_VoidWasteEvent now id st i q st' : VoidWasteEvent_body now id st = Ok (i, q, st') → frame ["waste_event"] st st'.
Proof.
  unfold VoidWasteEvent_body. destruct (live st "waste_event" id) as [e|] eqn:L; [|done]. apply live_some in L as [L _].
  destruct (load_map _) as [om|]; [|done]. cbv zeta. destruct (negb _); [|done]. destruct (assignable _); [|done].
  destruct (json_Marshal _); [|done]. intros [= _ _ <-]. apply frame_bump; [done|left|done].
Qed.

(** A step of the queue: edits are added at its end, and nothing else changes. *)
Definition queued (st st' : persistedDB) : Prop := ∃ ops seq, st' = set_Outbox (Outbox st ++ ops) seq st.

#[export] Instance queued_preorder : PreOrder queued.
Proof.
  split.
  - intros st. exists [], (NextOutboxSeq st). rewrite app_nil_r. by destruct st.
  - intros a b c (l & n & ->) (l' & n' & ->). exists (l ++ l'), n'. unfold set_Outbox. cbn. by rewrite app_assoc.
Qed.

Lemma queued_QueueCatalog now kind id action payload opID version st u st' :
  QueueCatalog_body now kind id action payload opID version st = Ok (u, st') → queued st st'.
Proof.
  unfold QueueCatalog_body. cbv zeta. destruct (negb _); [|done]. destruct (negb _); [|done].
  destruct (if negb _ then _ else _) as [base|]; [|done]. intros [= _ <-]. by eexists _, _.
Qed.

(** ** The operations as interactions *)

Section Footprint.
Context (E : Env) (I : Store → Prop).

Lemma kept_returning {A B} (a : A) (o : tx_out B) : I (tx_store o) → I (tx_store (returning a o)).
Proof. done. Qed.

Lemma keeps_save_any bg kind id fields : Kept E (touches [kind]) I → keeps I (save E bg kind id fields).
Proof.
  intros K. apply keeps_act. intros n s Hs. cbn [snd]. unfold SaveLocalRecord. repeat case_match; try done;
    apply K; try done; intros ? ?; apply touches_SaveLocalRecord.
Qed.

Lemma keeps_delete_any bg kind id : Kept E (touches [kind]) I → keeps I (delete_record E bg kind id).
Proof.
  intros K. apply keeps_act. intros n s Hs. cbn [snd]. unfold DeleteLocalRecord. case_match; [done|].
  apply K; [|done]. intros ? ?. apply touches_DeleteLocalRecord.
Qed.

Variable kinds : list string.
Context {K : Kept E (frame kinds) I}.

Lemma Kept_touches kind : no_nul kind = true → kind ∈ kinds → Kept E (touches [kind]) I.
Proof.
  intros Hn Hin. eapply Kept_weaken; [exact K|]. intros a b [_ F]. eapply frame_weaken; [|apply F; by constructor].
  intros x Hx. apply list_elem_of_singleton in Hx as ->. done.
Qed.

Lemma keeps_save bg kind id fields : no_nul kind = true → kind ∈ kinds → keeps I (save E bg kind id fields).
Proof. intros. by apply keeps_save_any, Kept_touches. Qed.

Lemma keeps_delete bg kind id : no_nul kind = true → kind ∈ kinds → keeps I (delete_record E bg kind id).
Proof. intros. by apply keeps_delete_any, Kept_touches. Qed.

(** A transaction whose body stays within the kinds. *)
Lemma kept_body ks n k A ctx s (fn : persistedDB → res (A * persistedDB)) :
  (∀ a st, fn (s_state s) = Ok (a, st) → frame ks (s_state s) st) → ks ⊆ kinds → I s → I (tx_store (withTx (ev_io E n k) ctx s fn)).
Proof. intros Hf Hk. apply K. intros a st Ha. eapply frame_weaken; [exact Hk|by eapply Hf]. Qed.

Lemma keeps_create_order r due : pos_kinds ⊆ kinds → keeps I (create_order E r due).
Proof.
  intros Hk. apply keeps_act. intros n s Hs. cbn [snd]. unfold CreatePOSOrder. repeat case_match; try done; cbn [tx_store];
    (eapply kept_body; [|exact Hk|done]); intros ? ?; apply frame_CreatePOSOrder.
Qed.

Lemma keeps_set_status id status reason : status_kinds ⊆ kinds → keeps I (set_status E id status reason).
Proof. intros Hk. apply keeps_act. intros n s Hs. eapply kept_body; [|exact Hk|done]. intros ? ?. apply frame_UpdateStatus. Qed.

Lemma kept_movement n k ctx s g now ing tx qty cost note :
  stock_change_kinds ⊆ kinds → I s → I (tx_store (RecordStockMovement (ev_io E n k) ctx s g now ing tx qty cost note)).
Proof.
  intros Hk Hs. unfold RecordStockMovement. repeat case_match; try done; cbn [tx_store returning];
    (eapply kept_body; [|exact Hk|done]); intros ? ?; apply frame_RecordStockMovement.
Qed.

Lemma keeps_move_stock ing tx qty cost note : stock_change_kinds ⊆ kinds → keeps I (move_stock E ing tx qty cost note).
Proof. intros Hk. apply keeps_act. intros n s Hs. by apply kept_movement. Qed.

Lemma kept_void n ctx s g now now' id :
  stock_change_kinds ⊆ kinds → I s → I (tx_store (VoidWasteEvent (ev_io E n 0) (ev_io E n 1) ctx s g now now' id)).
Proof.
  intros Hk Hs. unfold VoidWasteEvent. cbv zeta. set (o := withTx _ _ _ _). assert (I (tx_store o)) as Ho.
  { eapply (kept_body ["waste_event"]); [|etrans; [|exact Hk]; decided|done]. intros [i q] st.
    destruct (VoidWasteEvent_body _ _ _) as [[[i' q'] st']|] eqn:V; [|done]. intros [= -> -> ->]. by eapply frame_VoidWasteEvent. }
  destruct (tx_res o) as [[i q]|]; [|done]. destruct (_ || _); [done|]. cbn [tx_store]. by apply kept_movement.
Qed.

(** The handlers' own transactions. *)
Lemma keeps_transaction {A} ks (f : Runtime → IO → option string → Z → entropy → Store → tx_out A) :
  ks ⊆ kinds →
  (∀ R n k ctx t g s, I s → (∀ B (fn : persistedDB → res (B * persistedDB)),
      (∀ a st, fn (s_state s) = Ok (a, st) → frame ks (s_state s) st) → I (tx_store (withTx (ev_io E n k) ctx s fn))) →
     I (tx_store (f R (ev_io E n k) ctx t g s))) →
  keeps I (transacts E false f).
Proof. intros Hk Hf. apply keeps_act. intros n s Hs. cbn [snd]. apply Hf; [done|]. intros B fn HB. by eapply kept_body. Qed.
End Footprint.

#[export] Hint Extern 1 (_ ⊆ _) => decided : go_desk.
#[export] Hint Extern 1 (_ ∈ _) => decided : go_desk.
#[export] Hint Extern 1 (no_nul _ = true) => reflexivity : go_desk.
#[export] Hint Extern 2 (keeps _ (save _ _ _ _ _)) => eapply keeps_save; [eassumption|reflexivity|decided] : go_desk.
#[export] Hint Extern 2 (keeps _ (delete_record _ _ _ _)) => eapply keeps_delete; [eassumption|reflexivity|decided] : go_desk.

(** ** The handlers *)

Section Handlers.
Context (E : Env) (I : Store → Prop).

Lemma keeps_make_tables prefix zone capacity n : ∀ num, Kept E (frame ["table"]) I → keeps I (make_tables E prefix zone capacity num n).
Proof.
  induction n as [|n IH]; intros num K; cbn [make_tables]; [auto with go_desk|]. keeps_steps.
Qed.

Lemma keeps_handleTablesBulk r : Kept E (frame ["table"]) I → keeps I (handleTablesBulk E r).
Proof. intros K. unfold handleTablesBulk. keeps_steps. by apply keeps_make_tables. Qed.

Lemma keeps_recipe_items good ids : ∀ qtys, keeps I (recipe_items E good ids qtys).
Proof.
  induction ids as [|i ids IH]; intros qtys; cbn [recipe_items]; [auto with go_desk|]. destruct qtys as [|q qtys]; [auto with go_desk|].
  keeps_steps; apply IH.
Qed.
Hint Resolve keeps_recipe_items : go_desk.

Lemma keeps_handleSaveRecipe r : Kept E (frame ["recipe"]) I → keeps I (handleSaveRecipe E r).
Proof. intros K. unfold handleSaveRecipe. keeps_steps. Qed.

Lemma keeps_save_touches ks bg kind id fields : Kept E (touches ks) I → kind ∈ ks → keeps I (save E bg kind id fields).
Proof.
  intros K Hin. apply keeps_save_any. eapply Kept_weaken; [exact K|]. intros a b. apply touches_weaken. intros x Hx.
  by apply list_elem_of_singleton in Hx as ->.
Qed.

Lemma keeps_delete_touches ks bg kind id : Kept E (touches ks) I → kind ∈ ks → keeps I (delete_record E bg kind id).
Proof.
  intros K Hin. apply keeps_delete_any. eapply Kept_weaken; [exact K|]. intros a b. apply touches_weaken. intros x Hx.
  by apply list_elem_of_singleton in Hx as ->.
Qed.

Lemma keeps_save_product_recipe savedID items : Kept E (frame ["recipe"]) I → keeps I (save_product_recipe E savedID items).
Proof. intros K. unfold save_product_recipe. keeps_steps. Qed.

Lemma keeps_handleLocalSave image r : Kept E (touches [trimmed r "kind"; "recipe"]) I → keeps I (handleLocalSave E image r).
Proof.
  intros K. unfold handleLocalSave. set (kind := trimmed r "kind") in *. clearbody kind. keeps_steps.
  all: try by (eapply keeps_save_touches; [exact K|left]).
  apply keeps_save_product_recipe. eapply Kept_weaken; [exact K|]. intros a' b F. eapply touches_weaken; [|by apply frame_touches]. by right.
Qed.

Lemma keeps_handleLocalDelete r : Kept E (touches [trimmed r "kind"]) I → keeps I (handleLocalDelete E r).
Proof.
  intros K. unfold handleLocalDelete. set (kind := trimmed r "kind") in *. clearbody kind. keeps_steps; by apply keeps_delete_any.
Qed.

Lemma keeps_import_rows cats rows : ∀ first created failed, Kept E (frame ["product"]) I →
  keeps I (import_rows E cats first rows created failed).
Proof.
  induction rows as [|[|c rec] rows IH]; intros first created failed K; cbn [import_rows]; [auto with go_desk|by apply IH|].
  keeps_steps.
Qed.

Lemma keeps_handleProductsImport file r : Kept E (frame ["product"]) I → keeps I (handleProductsImport E file r).
Proof. intros K. unfold handleProductsImport. keeps_steps. by apply keeps_import_rows. Qed.

Lemma keeps_handleStockMovement r : Kept E (frame stock_change_kinds) I → keeps I (handleStockMovement E r).
Proof. intros K. unfold handleStockMovement. keeps_steps; by (eapply keeps_move_stock; [exact K|done]). Qed.

Lemma keeps_handleTaskToggle r : Kept E (frame ["task"]) I → keeps I (handleTaskToggle E r).
Proof. intros K. unfold handleTaskToggle. keeps_steps. Qed.

Lemma keeps_handleDayClose r : Kept E (frame ["shift_close"]) I → keeps I (handleDayClose E r).
Proof. intros K. unfold handleDayClose. keeps_steps. Qed.

Lemma keeps_handleClubCustomer r : Kept E (frame ["customer"]) I → keeps I (handleClubCustomer E r).
Proof. intros K. unfold handleClubCustomer. keeps_steps. Qed.

Lemma keeps_handleClubCreditToggle r : Kept E (frame ["customer"]) I → keeps I (handleClubCreditToggle E r).
Proof. intros K. unfold handleClubCreditToggle. keeps_steps. Qed.

Lemma keeps_handleClubPayment r : Kept E (frame ["membership_payment"]) I → keeps I (handleClubPayment E r).
Proof. intros K. unfold handleClubPayment. keeps_steps. Qed.

Lemma keeps_handleClubPaymentConfirm r : Kept E (frame ["membership_payment"; "customer"]) I → keeps I (handleClubPaymentConfirm E r).
Proof. intros K. unfold handleClubPaymentConfirm. keeps_steps. Qed.

Lemma keeps_handleClubGroup r : Kept E (frame ["customer_group"]) I → keeps I (handleClubGroup E r).
Proof. intros K. unfold handleClubGroup. keeps_steps. Qed.

Lemma keeps_handleClubGroupToggle r : Kept E (frame ["customer_group"]) I → keeps I (handleClubGroupToggle E r).
Proof. intros K. unfold handleClubGroupToggle. keeps_steps. Qed.

Lemma keeps_handleClubGroupCredit r : Kept E (frame ["customer_group"]) I → keeps I (handleClubGroupCredit E r).
Proof. intros K. unfold handleClubGroupCredit. keeps_steps. Qed.

Lemma keeps_leave_group id customers : Kept E (frame ["customer"; "customer_group"]) I → keeps I (leave_group E id customers).
Proof. intros K. induction customers as [|c cs IH]; cbn [leave_group]; keeps_steps. Qed.

Lemma keeps_handleClubGroupDelete r : Kept E (frame ["customer"; "customer_group"]) I → keeps I (handleClubGroupDelete E r).
Proof. intros K. unfold handleClubGroupDelete. keeps_steps; by apply keeps_leave_group. Qed.

Lemma keeps_handleClubGroupMember r : Kept E (frame ["customer"]) I → keeps I (handleClubGroupMember E r).
Proof. intros K. unfold handleClubGroupMember. keeps_steps. Qed.

Lemma keeps_handleClubGroupMemberRemove r : Kept E (frame ["customer"]) I → keeps I (handleClubGroupMemberRemove E r).
Proof. intros K. unfold handleClubGroupMemberRemove. keeps_steps. Qed.

Lemma keeps_handlePOSStages r : Kept E (frame ["cafe_profile"]) I → keeps I (handlePOSStages E r).
Proof. intros K. unfold handlePOSStages. keeps_steps. Qed.

Lemma keeps_handlePrinterToggle r : Kept E (frame ["cafe_profile"]) I → keeps I (handlePrinterToggle E r).
Proof. intros K. unfold handlePrinterToggle. keeps_steps. Qed.

Lemma keeps_handlePrintPolicy r : Kept E (frame ["cafe_profile"]) I → keeps I (handlePrintPolicy E r).
Proof. intros K. unfold handlePrintPolicy. keeps_steps. Qed.

Lemma keeps_handlePrinterRouteSave r : Kept E (frame ["printer_route"]) I → keeps I (handlePrinterRouteSave E r).
Proof. intros K. unfold handlePrinterRouteSave. keeps_steps. Qed.

Lemma keeps_handlePrinterRouteToggle r : Kept E (frame ["printer_route"]) I → keeps I (handlePrinterRouteToggle E r).
Proof. intros K. unfold handlePrinterRouteToggle. keeps_steps. Qed.

Lemma keeps_handleWasteVoid r : Kept E (frame stock_change_kinds) I → keeps I (handleWasteVoid E r).
Proof.
  intros K. unfold handleWasteVoid. keeps_steps. apply keeps_act. intros n s Hs. cbn [snd]. by eapply kept_void.
Qed.

Lemma keeps_handleDebtorPay r : Kept E (frame ["debtor"]) I → keeps I (handleDebtorPay E r).
Proof.
  intros K. unfold handleDebtorPay. keeps_steps. eapply keeps_transaction; [exact K|done|]. intros R n k ctx t g s Hs Htx.
  unfold SettleDebtorPayment. case_match; [done|]. apply Htx. intros a st. apply frame_SettleDebtorPayment.
Qed.

Lemma keeps_due_date r k k' : keeps I (due_date E r k k').
Proof. unfold due_date. keeps_steps. Qed.
Hint Resolve keeps_due_date : go_desk.

Lemma keeps_posEnabledStages : keeps I (posEnabledStages E).
Proof. unfold posEnabledStages. keeps_steps. Qed.
Hint Resolve keeps_posEnabledStages : go_desk.

Definition order_kinds : list string := "print_job"%stdpp :: pos_kinds.

Lemma Kept_print kinds : "print_job"%stdpp ∈ kinds → Kept E (frame kinds) I → Kept E (frame ["print_job"]) I.
Proof. intros H. apply Kept_frame. intros x Hx. by apply list_elem_of_singleton in Hx as ->. Qed.

Lemma keeps_handleCreatePOSOrder r : Kept E (frame order_kinds) I → keeps I (handleCreatePOSOrder E r).
Proof.
  intros K. assert (Kept E (frame ["print_job"]) I) as KP by (eapply Kept_print; [|exact K]; left).
  unfold handleCreatePOSOrder, deferDueAt. keeps_steps; [|by apply keeps_autoPrintAsync..].
  eapply keeps_create_order; [exact K|decided].
Qed.

Definition advance_kinds : list string := "print_job"%stdpp :: status_kinds.

Lemma keeps_handleOrderStatus r : Kept E (frame advance_kinds) I → keeps I (handleOrderStatus E r).
Proof.
  intros K. assert (Kept E (frame ["print_job"]) I) as KP by (eapply Kept_print; [|exact K]; left).
  unfold handleOrderStatus. keeps_steps; [|by apply keeps_autoPrintAsync..].
  eapply keeps_set_status; [exact K|decided].
Qed.

Lemma keeps_handleOrderAdvance r : Kept E (frame status_kinds) I → keeps I (handleOrderAdvance E r).
Proof. intros K. unfold handleOrderAdvance. keeps_steps. by eapply keeps_set_status. Qed.

Lemma keeps_handleOrderEdit r : Kept E (frame ["order"]) I → keeps I (handleOrderEdit E r).
Proof.
  intros K. unfold handleOrderEdit. keeps_steps. eapply keeps_transaction; [exact K|done|]. intros R n k ctx t g s Hs Htx.
  apply Htx. intros ? ?. apply frame_UpdateOrderItemsFull.
Qed.

Lemma keeps_handleSeedDemo r : Kept E (frame seed_kinds) I → keeps I (handleSeedDemo E r).
Proof.
  intros K. unfold handleSeedDemo. keeps_steps. eapply keeps_transaction; [exact K|done|]. intros R n k ctx t g s Hs Htx.
  apply Htx. intros ? ?. apply frame_Seed.
Qed.

Lemma keeps_handleOrderTransfer r : Kept E (frame ["order"; "table"]) I → keeps I (handleOrderTransfer E r).
Proof.
  intros K. unfold handleOrderTransfer. keeps_steps. eapply keeps_transaction; [exact K|done|]. intros R n k ctx t g s Hs Htx.
  unfold TransferOrder. case_match; [done|]. apply Htx. intros ? ?. apply frame_TransferOrder.
Qed.

Lemma keeps_handleOrderDefer r : Kept E (frame ["order"; "debtor"]) I → keeps I (handleOrderDefer E r).
Proof.
  intros K. unfold handleOrderDefer. keeps_steps. eapply keeps_transaction; [exact K|done|]. intros R n k ctx t g s Hs Htx.
  unfold DeferOrderToDebtor. case_match; [done|]. apply Htx. intros ? ?. apply frame_DeferOrderToDebtor.
Qed.

Lemma keeps_handleSplitPay r : Kept E (frame ["order"]) I → keeps I (handleSplitPay E r).
Proof.
  intros K. unfold handleSplitPay. keeps_steps. eapply keeps_transaction; [exact K|done|]. intros R n k ctx t g s Hs Htx.
  unfold RecordSplitPayment. repeat case_match; try done; apply Htx; intros ? ?; apply frame_RecordSplitPayment.
Qed.

Lemma keeps_handleSplitUndo r : Kept E (frame ["order"]) I → keeps I (handleSplitUndo E r).
Proof.
  intros K. unfold handleSplitUndo. keeps_steps. eapply keeps_transaction; [exact K|done|]. intros R n k ctx t g s Hs Htx.
  apply Htx. intros ? ?. apply frame_UndoLastSplitPayment.
Qed.

Lemma keeps_print_doc doc jobs : ∀ printed failed found, Kept E (frame ["print_job"]) I → keeps I (print_doc E doc jobs printed failed found).
Proof.
  induction jobs as [|j jobs IH]; intros printed failed found K; cbn [print_doc]; keeps_steps;
    solve [by apply keeps_update_status|by apply keeps_dispatch].
Qed.

Hint Resolve keeps_printerEnabled : go_desk.

Lemma keeps_handlePrintOrder r : Kept E (frame ["print_job"]) I → keeps I (handlePrintOrder E r).
Proof.
  intros K. unfold handlePrintOrder, enqueueAndDispatchPrintJobs. keeps_steps;
    solve [by apply keeps_enqueue|by apply keeps_print_doc|by apply keeps_print_order].
Qed.

Lemma keeps_handlePrintRetry r : Kept E (frame ["print_job"]) I → keeps I (handlePrintRetry E r).
Proof. intros K. unfold handlePrintRetry. keeps_steps; by apply keeps_dispatch. Qed.

Lemma keeps_handlePrintTest r : Kept E (frame ["print_job"]) I → keeps I (handlePrintTest E r).
Proof.
  intros K. unfold handlePrintTest. keeps_steps; [|by apply keeps_dispatch..]. apply keeps_act. intros n s Hs. cbn [snd].
  unfold EnqueueTestPrintJob. repeat case_match; try done. apply K; [|done]. intros ? ?. apply frame_savePrintJob.
Qed.

Lemma keeps_queueCatalog (standalone : bool) r :
  Kept E (if standalone then touches [form r "kind"] else queued) I → keeps I (queueCatalog E standalone r).
Proof.
  intros K. unfold queueCatalog. set (kind := form r "kind") in *. destruct standalone.
  - clearbody kind. keeps_steps; by (apply keeps_delete_any + apply keeps_save_any).
  - keeps_steps. apply keeps_act. intros n s0 Hs. cbn [snd]. unfold QueueCatalog. repeat case_match; try done.
    all: apply K; [|done]; intros ? ?; apply queued_QueueCatalog.
Qed.
End Handlers.
