(* ===== verification/LocalApi.v ===== *)
(** * The JSON interface

    Models [offline-menuvex/api_local.go]: the endpoints that list records and reports, take
    orders, split a bill, close the day and save any record.  A reply is what
    [writeJSONEnvelope] is given; a request's body is the first JSON value in it, [None] when
    there is none that can be read. *)
From S2P Require Import Prelude GoStrings GoFloat GoJson GoJsonFacts GoReadback GoTime Store Entities EntityView Outbox Records Orders OrderStates SplitBill Inventory Analytics PrintJobs PrintDedupe Forms Receipts Desk Printing OrderDesk RecordDesk Footprint.

(** ** Replies *)

Inductive ApiData :=
| NoData
| Payloads (l : list string)
| OnePayload (p : string)
| Ready (products orders : Z)
| Report (fa : FinancialAnalytics) (st : SummaryStats) (peak_hours : list string)
| PosLists (categories products tables orders : list Entity)
| Shares (people : Z) (share_irr share_formatted : string)
| Closed (id : string) (fa : FinancialAnalytics).

(* api_local.go writeJSONEnvelope *)
Record Envelope := {
  en_status : Z;
  en_success : bool;
  en_message : string;
  en_data : ApiData;
  en_error : option string;
}.

Definition envelope (status : Z) (message : string) (data : ApiData) : Envelope :=
  {| en_status := status; en_success := true; en_message := message; en_data := data; en_error := None |}.
Definition refusal (status : Z) (message : string) (code : option string) : Envelope :=
  {| en_status := status; en_success := false; en_message := message; en_data := NoData; en_error := code |}.

(** [strings.TrimPrefix] *)
Definition TrimPrefix (s p : string) : string := if HasPrefix s p then sdrop (String.length p) s else s.

(** ** Bodies *)

(** [Decode(&body)] of a [map[string]any]: null leaves nil. *)
Definition body_map (j : option json) : option gomap :=
  match j with
  | Some JNull => Some []
  | Some (JObj l) => match to_any (JObj l) with (AMap m, true) => Some m | _ => None end
  | _ => None
  end.

(* domains.go POSOrderLineInput *)
Definition dec_pos_line (o : list (string * (string * json))) : option POSOrderLineInput :=
  pid ← dec_string (struct_members "product_id" o); q ← dec_int (struct_members "quantity" o); note ← dec_string (struct_members "note" o);
  Some {| pl_ProductID := pid; pl_Quantity := q; pl_Note := note |}.

(* domains.go POSOrderInput *)
Definition dec_pos_order (o : list (string * (string * json))) : option POSOrderInput :=
  let str k := dec_string (struct_members k o) in
  token ← str "client_token"; ft ← str "fulfillment_type"; tid ← str "table_id"; cid ← str "customer_id"; cname ← str "customer_name";
  phone ← str "customer_phone"; cashier ← str "cashier_name"; pm ← str "payment_method"; disc ← str "discount_irr";
  extra ← str "extra_irr"; xnote ← str "extra_note"; due ← str "debtor_due_at"; dnote ← str "debtor_note"; dkind ← str "debtor_kind";
  dgroup ← str "debtor_group_id"; note ← str "note"; items ← dec_list dec_pos_line (struct_members "items" o);
  Some {| po_ClientToken := token; po_FulfillmentType := ft; po_TableID := tid; po_CustomerID := cid; po_CustomerName := cname;
          po_CustomerPhone := phone; po_CashierName := cashier; po_PaymentMethod := pm; po_DiscountIRR := disc; po_ExtraIRR := extra;
          po_ExtraNote := xnote; po_DebtorDueAt := due; po_DebtorNote := dnote; po_DebtorKind := dkind; po_DebtorGroupID := dgroup;
          po_Note := note; po_Items := items |}.

Definition body_order (j : option json) : option POSOrderInput :=
  match j with Some JNull => dec_pos_order [] | Some (JObj o) => dec_pos_order o | _ => None end.

(** ** Endpoints *)

(** The kinds of record behind the listings. *)
(* api_local.go:43-73 Application.registerLocalAPIRoutes *)
Definition domainMap : list (string * string) :=
  [("/api/v1/categories", "category"); ("/api/v1/products", "product"); ("/api/v1/modifier-groups", "modifier_group");
   ("/api/v1/inventory/items", "ingredient"); ("/api/v1/inventory/movements", "inventory_movement");
   ("/api/v1/inventory/recipes", "recipe"); ("/api/v1/inventory/waste", "waste_event"); ("/api/v1/inventory/suppliers", "supplier");
   ("/api/v1/inventory/purchases", "purchase"); ("/api/v1/orders", "order"); ("/api/v1/tables", "table");
   ("/api/v1/tables/reservations", "reservation"); ("/api/v1/customers", "customer");
   ("/api/v1/retention/campaigns", "retention_campaign"); ("/api/online/cafe-plans", "cafe_plan"); ("/api/v1/debtors", "debtor");
   ("/api/v1/expenses", "expense"); ("/api/v1/accounting/entries", "accounting_entry"); ("/api/v1/staff", "staff");
   ("/api/v1/tasks", "task"); ("/api/v1/jobs", "job_posting"); ("/api/v1/banners", "banner"); ("/api/v1/printers", "printer");
   ("/api/v1/print-jobs", "print_job"); ("/api/printer-configs", "printer");
   ("/api/printer-configs/category-routes", "printer_route"); ("/api/v1/printer-configs/category-routes", "printer_route");
   ("/api/v1/cafe/profile", "cafe_profile"); ("/api/cafe/profile", "cafe_profile")]%stdpp.

Section LocalApi.
Variable E : Env.

Definition stats : app SummaryStats := reads E false (λ R ctx st, Stats R st).
Definition analytics : app FinancialAnalytics := reads E false (λ R ctx st, Analytics R st).

(* api_local.go:33-40 Application.registerLocalAPIRoutes *)
Definition ready : app Envelope :=
  st ← stats; mret (envelope 200 "پایگاه داده محلی دسکتاپ آماده بهره‌برداری است" (Ready (ProductsCount st) (OrdersCount st))).

(* api_local.go:75-90 Application.registerLocalAPIRoutes *)
Definition list_records (kind : string) : app Envelope :=
  items ← reads E false (λ R ctx st, let? _ := read_ctx ctx () in Ok (Entities_of R kind st));
  mret (match items with
        | Err e => refusal 500 e (Some "STORE_ERROR")
        | Ok l => envelope 200 "اطلاعات با موفقیت از پایگاه داده محلی دریافت شد" (Payloads (map e_Payload l))
        end).

(* api_local.go:92-99 Application.registerLocalAPIRoutes *)
Definition reports_summary : app Envelope :=
  fa ← analytics; st ← stats; mret (envelope 200 "گزارش جامع مالی و عملیاتی کافه" (Report fa st [])).

(* api_local.go:101-109 Application.registerLocalAPIRoutes *)
Definition deep_analytics : app Envelope :=
  fa ← analytics; st ← stats;
  mret (envelope 200 "تحلیل عمیق سودآوری و مهندسی منو (Deep Analytics)"
          (Report fa st ["۰۹:۰۰ تا ۱۱:۳۰"; "۱۸:۰۰ تا ۲۱:۳۰"]%stdpp)).

(* api_local.go:111-122 Application.registerLocalAPIRoutes *)
Definition pos_lists : app Envelope :=
  products ← entities E false "product"; categories ← entities E false "category"; tables ← entities E false "table";
  orders ← entities E false "order";
  mret (envelope 200 "اطلاعات صندوق فروش آفلاین" (PosLists categories products tables orders)).

(** The payload of a record; of one that is not found, nothing. *)
Definition payload_at (kind id : string) : app string :=
  e ← entity E false kind id; mret (match e with Ok e => e_Payload e | Err _ => EmptyString end).

(* api_local.go:124-137 Application.registerLocalAPIRoutes *)
Definition pos_checkout (body : option json) : app Envelope :=
  match body_order body with
  | None => mret (refusal 400 "فرمت درخواست نامعتبر است" None)
  | Some req =>
      o ← act (λ n s, let o := CreatePOSOrder (ev_tehran E) (ev_runtime E n) (ev_io E n 0) (ctx_at E false n) s (ev_draws E n)
                                (ev_clock E n 0) (ev_clock E n 1) req in (tx_res o, tx_store o));
      match o with
      | Err e => mret (refusal 400 e None)
      | Ok id => p ← payload_at "order" id; mret (envelope 201 "سفارش با موفقیت در صندوق ثبت شد" (OnePayload p))
      end
  end.

(** The share of each of [people], of which there are at least two unless the body says one. *)
(* api_local.go:144-154 Application.registerLocalAPIRoutes *)
Definition split_shares (total people : Z) : Envelope :=
  let people := if (people <=? 0)%Z then 2%Z else people in
  let share := Z_to_dec (total / people) in
  envelope 200 "محاسبه دنگ هر نفر انجام شد" (Shares people share (FormatIRRToToman share)).

Definition api_closing_fields (fa : FinancialAnalytics) : gomap :=
  [("title", AStr "گزارش بستن صندوق پایان شب"); ("total_sales", AStr (TotalSalesIRR fa)); ("cash_sales", AStr (CashSalesIRR fa));
   ("card_sales", AStr (CardSalesIRR fa)); ("credit_sales", AStr (CreditSalesIRR fa)); ("total_expenses", AStr (TotalExpensesIRR fa));
   ("net_operating", AStr (NetOperatingIRR fa)); ("orders_count", AStr (Z_to_dec (CompletedOrders fa)))].

Definition day_closed : string := "صندوق روزانه با موفقیت بسته شد".

(** The error of saving is not looked at. *)
(* api_local.go:157-173 Application.registerLocalAPIRoutes *)
Definition day_close : app Envelope :=
  fa ← analytics;
  o ← save E false "shift_close" EmptyString (api_closing_fields fa);
  mret (envelope 200 day_closed (Closed (match o with Ok id => id | Err _ => EmptyString end) fa)).

(* api_local.go:176-191 Application.registerLocalAPIRoutes *)
Definition local_save (path : string) (body : option json) : app Envelope :=
  let kind := TrimPrefix path "/api/v1/local/" in
  match body_map body with
  | None => mret (refusal 400 "ورودی JSON نامعتبر است" None)
  | Some m =>
      o ← save E false kind (default EmptyString (as_string (aget "id" m))) m;
      match o with
      | Err e => mret (refusal 400 e None)
      | Ok savedID => p ← payload_at kind savedID; mret (envelope 200 "رکورد با موفقیت در پایگاه داده محلی ذخیره شد" (OnePayload p))
      end
  end.

(** ** What they keep *)

Context (I : Store → Prop).

Lemma keeps_payload_at kind id : keeps I (payload_at kind id).
Proof. unfold payload_at. keeps_steps. Qed.
Hint Resolve keeps_payload_at : go_desk.

Lemma keeps_pos_checkout body : Kept E (frame pos_kinds) I → keeps I (pos_checkout body).
Proof.
  intros K. unfold pos_checkout. keeps_steps. apply keeps_act. intros n s Hs. cbn [snd]. unfold CreatePOSOrder. repeat case_match; try done;
    cbn [tx_store]; (eapply kept_body; [exact K| |reflexivity|done]); intros ? ?; apply frame_CreatePOSOrder.
Qed.

Lemma keeps_day_close : Kept E (frame ["shift_close"]) I → keeps I day_close.
Proof. intros K. unfold day_close, analytics. keeps_steps. Qed.

Lemma keeps_local_save path body : Kept E (touches [TrimPrefix path "/api/v1/local/"]) I → keeps I (local_save path body).
Proof.
  intros K. unfold local_save. set (kind := TrimPrefix path _) in *. clearbody kind. keeps_steps. by apply keeps_save_any.
Qed.
End LocalApi.

(** ** Closing the day *)

(** A call in front of the rename fails. *)
Definition cannot_write (io : IO) : Prop :=
  is_Some (io_open io) ∨ is_Some (io_write io) ∨ is_Some (io_sync io) ∨ is_Some (io_close io).

Lemma withTx_unwritten {A} io ctx s (fn : persistedDB → res (A * persistedDB)) : s_closed s = true ∨ cannot_write io →
  let o := withTx io ctx s fn in
  is_ok (tx_res o) = false ∧ s_state (tx_store o) = s_state s ∧ d_main (s_disk (tx_store o)) = d_main (s_disk s).
Proof.
  intros H. unfold withTx, tx_fail. destruct ctx; [done|]. destruct (s_closed s) eqn:C; [done|]. destruct H as [H|H]; [done|].
  destruct (fn _) as [[a tx]|]; [|done]. destruct (encodeDB tx) as [t|]; [|done]. unfold commit_calls.
  destruct (io_open io) eqn:E1; [done|]. destruct (io_write io) as [[? ?]|] eqn:E2; [done|]. destruct (io_sync io) eqn:E3; [done|].
  destruct (io_close io) eqn:E4; [done|]. unfold cannot_write in H. rewrite E1, E2, E3, E4 in H. destruct H as [H|[H|[H|H]]]; by destruct H.
Qed.

(** the close of the day always answers success.  When the store is closed or a call of
    its transactions fails, closing the day over the JSON interface is answered with the
    status 200 and the message that the day was closed, without an identifier, and no report
    is kept, in memory or in the file. *)
Theorem day_close_unsaved E w :
  s_closed (w_store w) = true ∨ (∀ n, cannot_write (ev_io E n 0)) →
  let '(reply, w') := day_close E w in
  (∃ fa, reply = envelope 200 day_closed (Closed EmptyString fa)) ∧ en_success reply = true
  ∧ s_state (w_store w') = s_state (w_store w) ∧ d_main (s_disk (w_store w')) = d_main (s_disk (w_store w)).
Proof.
  intros H. unfold day_close, analytics, reads, save, transacts, act, mbind, app_bind, mret, app_ret. cbn [w_store w_tick with_store].
  assert (∀ fields, let o := SaveLocalRecord (ev_io E (S (w_tick w)) 0) (ctx_at E false (S (w_tick w))) (w_store w)
            (ev_draws E (S (w_tick w))) (ev_clock E (S (w_tick w)) 0) "shift_close" EmptyString fields in
          is_ok (tx_res o) = false ∧ s_state (tx_store o) = s_state (w_store w)
          ∧ d_main (s_disk (tx_store o)) = d_main (s_disk (w_store w))) as Hs.
  { intros fields. unfold SaveLocalRecord. change (sempty (TrimSpace "shift_close")) with false. change (sempty (TrimSpace EmptyString)) with true.
    cbv iota. destruct (validateLocalFields _ _); [|done]. destruct (UUID _).1 as [id|]; [|done]. cbn [returning tx_res tx_store].
    destruct (withTx_unwritten (ev_io E (S (w_tick w)) 0) (ctx_at E false (S (w_tick w))) (w_store w)
                (SaveLocalRecord_body (FormatRFC3339 (ev_clock E (S (w_tick w)) 0)) "shift_close" id true fields)) as (H1 & H2 & H3).
    { destruct H as [H|H]; [by left|right; apply H]. }
    by destruct (tx_res _). }
  destruct (Hs (api_closing_fields (Analytics (ev_runtime E (w_tick w)) (s_state (w_store w))))) as (H1 & H2 & H3).
  destruct (tx_res _) as [id|e]; [done|]. split; [by eexists|]. done.
Qed.

Lemma day_close_unsaved_witness :
  let w := {| w_store := Close (store_of newEmptyDB); w_tick := 0; w_printed := []; w_background := [] |} in
  en_success (day_close calm w).1 = true.
Proof.
  intros w. pose proof (day_close_unsaved calm w (or_introl eq_refl)) as H. destruct (day_close calm w) as [reply w']. apply H.
Defined.
