(* ===== verification/Routes.v ===== *)
(** * The routes of the application

    Models the part of [Handler] in [offline-menuvex/app.go] that sends the posts of the till's
    forms to their handlers, and with it the application as a system of steps: requests in any
    order, refreshes against the server among them, and the printing that is left to goroutines.  What every handler keeps, the running
    application keeps: records stay where their type and identifier say and readable
    ([reachable_typed]), a request changes only the kinds of its route ([route_confined]), and
    a restart finds what the application had in memory ([reachable_restart]).

    The checks in front of the routes are in Auth; a request they refuse reaches no handler. *)
From S2P Require Import Prelude GoStrings GoFloat GoJson GoJsonFacts GoReadback GoTime Store GoCompact Entities EntityView Reopen Outbox Records Orders OrderStates SplitBill Inventory Analytics PrintJobs PrintDedupe SyncClient SyncDesk Forms Receipts Desk Printing OrderDesk OrderFlow PrintDesk RecordDesk ClubDesk Seed Footprint LocalApi.

(** A post: its path, what the handlers look at, and what its uploads came to. *)
Record Submission := {
  sb_path : string;
  sb_request : Desk.Request;
  sb_image : option (res string);
  sb_file : string + list (list string);
}.

(** The server the application was started with, if any; and, for the refresh of each
    interaction, what its context and the network do at each of its calls. *)
Record Uplink := {
  up_client : option Client;
  up_ctx : nat → nat → option string;
  up_net : nat → nat → SyncClient.Request → SyncClient.Reply;
}.

Section Routes.
Variable E : Env.
Variable link : Uplink.

(** No server is configured. *)
Definition standalone : bool := match up_client link with None => true | Some _ => false end.

(** The refresh of one interaction, on the till's store and its disk. *)
(* app.go:3864-3876 Application.refresh *)
Definition handleSync (r : Desk.Request) : app Reply := λ w,
  let n := w_tick w in
  let '(message, u) := refresh (ev_runtime E n) {| en_io := ev_io E n; en_ctx := up_ctx link n; en_net := up_net link n |} (up_client link)
                         {| SyncClient.w_store := w_store w; w_calls := 0; w_log := [] |} in
  (render r message, {| w_store := SyncClient.w_store u; w_tick := S n; w_printed := w_printed w; w_background := w_background w |}).

(* app.go:1828-1876 Application.Handler *)
Definition routes (q : Submission) : list (string * app Reply) :=
  let r := sb_request q in
  [("/sync", handleSync r);
   ("/catalog", queueCatalog E standalone r);
   ("/local/seed-demo", handleSeedDemo E r);
   ("/local/save", handleLocalSave E (sb_image q) r);
   ("/local/tables-bulk", handleTablesBulk E r);
   ("/local/delete", handleLocalDelete E r);
   ("/local/pos-order", handleCreatePOSOrder E r);
   ("/local/order-status", handleOrderStatus E r);
   ("/local/order-edit", handleOrderEdit E r);
   ("/local/order-defer", handleOrderDefer E r);
   ("/local/order-transfer", handleOrderTransfer E r);
   ("/local/order-advance", handleOrderAdvance E r);
   ("/local/split-pay", handleSplitPay E r);
   ("/local/split-undo", handleSplitUndo E r);
   ("/local/pos-stages", handlePOSStages E r);
   ("/local/club-customer", handleClubCustomer E r);
   ("/local/club-credit-toggle", handleClubCreditToggle E r);
   ("/local/club-payment", handleClubPayment E r);
   ("/local/club-payment-confirm", handleClubPaymentConfirm E r);
   ("/local/club-group", handleClubGroup E r);
   ("/local/club-group-toggle", handleClubGroupToggle E r);
   ("/local/club-group-credit", handleClubGroupCredit E r);
   ("/local/club-group-delete", handleClubGroupDelete E r);
   ("/local/club-group-member", handleClubGroupMember E r);
   ("/local/club-group-member-remove", handleClubGroupMemberRemove E r);
   ("/local/movement", handleStockMovement E r);
   ("/local/waste-void", handleWasteVoid E r);
   ("/local/recipe", handleSaveRecipe E r);
   ("/local/debtor-pay", handleDebtorPay E r);
   ("/local/task-toggle", handleTaskToggle E r);
   ("/local/day-close", handleDayClose E r);
   ("/local/printer-toggle", handlePrinterToggle E r);
   ("/local/print-policy", handlePrintPolicy E r);
   ("/local/printer-route", handlePrinterRouteSave E r);
   ("/local/printer-route-toggle", handlePrinterRouteToggle E r);
   ("/local/print-order", handlePrintOrder E r);
   ("/local/print-retry", handlePrintRetry E r);
   ("/local/print-test", handlePrintTest E r);
   ("/local/products-import", handleProductsImport E (sb_file q) r)].

(** [None] for a path of another handler, or of none. *)
Definition route (q : Submission) : option (app Reply) :=
  snd <$> List.find (λ p, String.eqb p.1 (sb_path q)) (routes q).

(** The JSON interface: what it shows, by path, and what it stores. *)
(* api_local.go:33-122 Application.registerLocalAPIRoutes *)
Definition api_gets : list (string * app Envelope) :=
  [("/ready", ready E); ("/api/v1/reports/summary", reports_summary E); ("/api/v1/deep-analytics/overview", deep_analytics E);
   ("/api/v1/pos", pos_lists E)] ++ map (λ p, (p.1, list_records E p.2)) domainMap.

(* api_local.go Application.registerLocalAPIRoutes *)
Definition api_route (method path : string) (body : option json) : option (app Envelope) :=
  if bool_decide (method = "GET") then snd <$> List.find (λ p, String.eqb p.1 path) api_gets
  else if bool_decide (method = "POST") then
    if bool_decide (path = "/api/v1/pos/checkout") then Some (pos_checkout E body)
    else if bool_decide (path = "/api/v1/orders/day-close") then Some (day_close E)
    else if HasPrefix path "/api/v1/local/" then Some (local_save E path body)
    else None
  else None.

(** ** What a post may change *)

Definition step_kind : Type := persistedDB → persistedDB → Prop.

(** The steps the transactions of a route make: on the records of some kinds, or, for an edit
    of the catalog with a server, on the queue. *)
Definition footprints (q : Submission) : list (string * step_kind) :=
  let r := sb_request q in
  let kind := trimmed r "kind" in
  [("/sync", if standalone then eq else synced);
   ("/catalog", if standalone then touches [form r "kind"] else queued);
   ("/local/seed-demo", frame seed_kinds);
   ("/local/save", touches [kind; "recipe"]);
   ("/local/tables-bulk", frame ["table"]);
   ("/local/delete", touches [kind]);
   ("/local/pos-order", frame ["print_job"; "order"; "table"; "customer"; "debtor"]);
   ("/local/order-status", frame ["print_job"; "order"; "table"; "ingredient"; "inventory_movement"]);
   ("/local/order-edit", frame ["order"]);
   ("/local/order-defer", frame ["order"; "debtor"]);
   ("/local/order-transfer", frame ["order"; "table"]);
   ("/local/order-advance", frame ["order"; "table"; "ingredient"; "inventory_movement"]);
   ("/local/split-pay", frame ["order"]);
   ("/local/split-undo", frame ["order"]);
   ("/local/pos-stages", frame ["cafe_profile"]);
   ("/local/club-customer", frame ["customer"]);
   ("/local/club-credit-toggle", frame ["customer"]);
   ("/local/club-payment", frame ["membership_payment"]);
   ("/local/club-payment-confirm", frame ["membership_payment"; "customer"]);
   ("/local/club-group", frame ["customer_group"]);
   ("/local/club-group-toggle", frame ["customer_group"]);
   ("/local/club-group-credit", frame ["customer_group"]);
   ("/local/club-group-delete", frame ["customer"; "customer_group"]);
   ("/local/club-group-member", frame ["customer"]);
   ("/local/club-group-member-remove", frame ["customer"]);
   ("/local/movement", frame ["ingredient"; "inventory_movement"; "waste_event"]);
   ("/local/waste-void", frame ["ingredient"; "inventory_movement"; "waste_event"]);
   ("/local/recipe", frame ["recipe"]);
   ("/local/debtor-pay", frame ["debtor"]);
   ("/local/task-toggle", frame ["task"]);
   ("/local/day-close", frame ["shift_close"]);
   ("/local/printer-toggle", frame ["cafe_profile"]);
   ("/local/print-policy", frame ["cafe_profile"]);
   ("/local/printer-route", frame ["printer_route"]);
   ("/local/printer-route-toggle", frame ["printer_route"]);
   ("/local/print-order", frame ["print_job"]);
   ("/local/print-retry", frame ["print_job"]);
   ("/local/print-test", frame ["print_job"]);
   ("/local/products-import", frame ["product"])].

Definition effect (q : Submission) : step_kind :=
  match List.find (λ p, String.eqb p.1 (sb_path q)) (footprints q) with Some p => p.2 | None => eq end.

(** A handler keeps whatever the steps of its route keep. *)
Definition keeps_to (h : string * app Reply) (f : string * step_kind) : Prop :=
  h.1 = f.1 ∧ ∀ I, Kept E f.2 I → keeps I h.2.

(** A refresh keeps what its steps keep; without a server it does nothing. *)
Lemma keeps_handleSync r I : Kept E (if standalone then eq else synced) I → keeps I (handleSync r).
Proof.
  unfold standalone, handleSync, refresh. destruct (up_client link) as [c|]; intros K w Hw; [|done]. set (u0 := {| w_calls := 0 |}).
  set (E' := {| en_io := ev_io E (w_tick w) |}).
  assert (I (SyncClient.w_store (Refresh (ev_runtime E (w_tick w)) E' c u0).2)) as H.
  { apply (keeping_Refresh _ E' c I); [|exact Hw]. intros n A ctx s fn Hf. by apply K. }
  by destruct (Refresh _ _ _ _) as [[?|?] u].
Qed.

Create HintDb go_routes.
Hint Resolve keeps_handleSync keeps_queueCatalog keeps_handleSeedDemo keeps_handleLocalSave keeps_handleTablesBulk keeps_handleLocalDelete keeps_handleCreatePOSOrder
  keeps_handleOrderStatus keeps_handleOrderEdit keeps_handleOrderDefer keeps_handleOrderTransfer keeps_handleOrderAdvance
  keeps_handleSplitPay keeps_handleSplitUndo keeps_handlePOSStages keeps_handleClubCustomer keeps_handleClubCreditToggle
  keeps_handleClubPayment keeps_handleClubPaymentConfirm keeps_handleClubGroup keeps_handleClubGroupToggle keeps_handleClubGroupCredit
  keeps_handleClubGroupDelete keeps_handleClubGroupMember keeps_handleClubGroupMemberRemove keeps_handleStockMovement
  keeps_handleWasteVoid keeps_handleSaveRecipe keeps_handleDebtorPay keeps_handleTaskToggle keeps_handleDayClose
  keeps_handlePrinterToggle keeps_handlePrintPolicy keeps_handlePrinterRouteSave keeps_handlePrinterRouteToggle
  keeps_handlePrintOrder keeps_handlePrintRetry keeps_handlePrintTest keeps_handleProductsImport : go_routes.

Lemma handlers_keep q : Forall2 keeps_to (routes q) (footprints q).
Proof. repeat (constructor; [split; [reflexivity|intros I K; cbn [snd]; auto with go_routes]|]). constructor. Qed.

Lemma find_related {A B} (P : string * A → string * B → Prop) (l : list (string * A)) (k : list (string * B)) path x :
  Forall2 P l k → (∀ a b, P a b → a.1 = b.1) → List.find (λ p, String.eqb p.1 path) l = Some x →
  ∃ y, List.find (λ p, String.eqb p.1 path) k = Some y ∧ P x y.
Proof.
  intros H HP. induction H as [|a b l k Hab _ IH]; [done|]. cbn. rewrite <- (HP _ _ Hab). destruct (String.eqb a.1 path); [|done].
  intros [= <-]. eauto.
Qed.

Lemma keeps_route q m I : route q = Some m → Kept E (effect q) I → keeps I m.
Proof.
  unfold route, effect. destruct (List.find _ (routes q)) as [h|] eqn:F; [|done]. intros [= <-].
  destruct (find_related keeps_to _ _ _ _ (handlers_keep q) (λ a b H, proj1 H) F) as (f & -> & _ & Hk). apply Hk.
Qed.

Lemma effect_good q (P : step_kind → Prop) : P eq → P queued → P synced → (∀ ks, P (touches ks)) → (∀ ks, P (frame ks)) → P (effect q).
Proof.
  intros He Hq Hs Hm Hf. unfold effect. destruct (List.find _ _) as [f|] eqn:F; [|done]. apply find_some in F as [F _].
  assert (Forall (λ f, P f.2) (footprints q)) as H.
  { unfold footprints. destruct standalone; repeat (constructor; [cbn [snd]; auto|]); constructor. }
  rewrite Forall_forall in H. by apply H, list_elem_of_In.
Qed.

Instance effect_preorder q : PreOrder (effect q).
Proof. apply effect_good; apply _. Qed.

(** What a request of the JSON interface can touch. *)
Definition api_effect (method path : string) : step_kind :=
  if bool_decide (method = "GET") then eq
  else if bool_decide (path = "/api/v1/pos/checkout") then frame ["order"; "table"; "customer"; "debtor"]
  else if bool_decide (path = "/api/v1/orders/day-close") then frame ["shift_close"]
  else touches [TrimPrefix path "/api/v1/local/"].

Lemma keeps_gets I : Forall (λ p, keeps I p.2) api_gets.
Proof.
  unfold api_gets. apply Forall_app. split.
  - unfold ready, reports_summary, deep_analytics, pos_lists, stats, analytics. repeat (constructor; [cbn [snd]; by keeps_steps|]). constructor.
  - apply Forall_map, Forall_true. intros p. cbn [snd]. unfold list_records. keeps_steps.
Qed.

Lemma keeps_api method path body m I : api_route method path body = Some m → Kept E (api_effect method path) I → keeps I m.
Proof.
  unfold api_route, api_effect. case_bool_decide as Hg.
  - intros H _. destruct (List.find _ _) as [p|] eqn:F; [|done]. injection H as <-. apply find_some in F as [F _].
    pose proof (keeps_gets I) as K. rewrite Forall_forall in K. by apply K, list_elem_of_In.
  - case_bool_decide; [|done]. case_bool_decide; [intros [= <-]; apply keeps_pos_checkout|].
    case_bool_decide; [intros [= <-]; apply keeps_day_close|]. case_match; [|done]. intros [= <-]. apply keeps_local_save.
Qed.

Lemma api_effect_good method path (P : step_kind → Prop) : P eq → (∀ ks, P (touches ks)) → (∀ ks, P (frame ks)) → P (api_effect method path).
Proof. intros. unfold api_effect. repeat case_match; auto. Qed.

(** Every kind of step keeps records filed where they belong. *)
Definition keeps_keyed (R : step_kind) : Prop := ∀ a b, R a b → well_keyed a → well_keyed b.

Lemma keyed_eq : keeps_keyed eq.
Proof. by intros a b ->. Qed.
Lemma keyed_queued : keeps_keyed queued.
Proof. by intros a b (l & n & ->). Qed.
Lemma keyed_synced : keeps_keyed synced.
Proof. intros a b. apply synced_keyed. Qed.
Lemma keyed_touches ks : keeps_keyed (touches ks).
Proof. intros a b. apply touches_keyed. Qed.
Lemma keyed_frame ks : keeps_keyed (frame ks).
Proof. intros a b. apply frame_keyed. Qed.
Hint Resolve keyed_eq keyed_queued keyed_synced keyed_touches keyed_frame : go_routes.

Lemma effect_keyed q : keeps_keyed (effect q).
Proof. apply effect_good; auto with go_routes. Qed.
Lemma api_effect_keyed method path : keeps_keyed (api_effect method path).
Proof. apply api_effect_good; auto with go_routes. Qed.

(** C6: a request stays within its records.  Whatever a post contains and however its
    transactions fare, what it changes in the store are records of the kinds its route
    stands for ([footprints]): the club's handlers never touch an order, payments of debts
    only the ledger, printing only print jobs.  With a server configured, an edit of the
    catalog only adds to the queue, and a refresh ([/sync]), which may replace every record,
    leaves the connection, the counters and the legacy counts, every other entry than scope and
    cursor, and the place and content of every queued edit; without a server it changes
    nothing.  The same confinement holds for the JSON interface, whose reads change nothing. *)
Theorem route_confined w :
  (∀ q m, route q = Some m → effect q (s_state (w_store w)) (s_state (w_store (m w).2)))
  ∧ (∀ method path body m, api_route method path body = Some m →
       api_effect method path (s_state (w_store w)) (s_state (w_store (m w).2))).
Proof.
  set (st0 := s_state (w_store w)). split.
  - intros q m Hr. apply (keeps_route q m (λ s, effect q st0 (s_state s)) Hr); [apply Kept_since, _|reflexivity].
  - intros method path body m Hr. assert (PreOrder (api_effect method path)) by (apply api_effect_good; apply _).
    apply (keeps_api method path body m (λ s, api_effect method path st0 (s_state s)) Hr); [apply Kept_since, _|reflexivity].
Qed.

(** ** The running application *)

(** The jobs of a goroutine leave the list when it runs. *)
Definition without_background (l : list (list PrintJobView)) (w : world) : world :=
  {| w_store := w_store w; w_tick := w_tick w; w_printed := w_printed w; w_background := l |}.

Inductive step : world → world → Prop :=
| step_post q m w : route q = Some m → step w (m w).2
| step_api method path body m w : api_route method path body = Some m → step w (m w).2
| step_printing before jobs after w : w_background w = before ++ jobs :: after →
    step w (run_background E jobs (without_background (before ++ after) w)).2.

(** What the transactions of every route and of printing keep, the application keeps. *)
Lemma steps_keep (I : Store → Prop) w w' :
  (∀ q, Kept E (effect q) I) → (∀ method path, Kept E (api_effect method path) I) → Kept E (frame ["print_job"]) I → rtc step w w' → I (w_store w) → I (w_store w').
Proof.
  intros KR KA KP H. induction H as [|w w1 w2 Hs _ IH]; [done|]. intros Hw. apply IH. destruct Hs as [q m w Hr|method path body m w Hr|before jobs after w Hb].
  - by apply (keeps_route q m I Hr (KR q)).
  - by apply (keeps_api method path body m I Hr (KA method path)).
  - by apply (keeps_run_background E I).
Qed.

(** Every record is filed under its own type and identifier, and its payload can be read. *)
Definition typed (st : persistedDB) : Prop := well_keyed st ∧ texts_valid st.

Lemma Kept_keyed (R : step_kind) : keeps_keyed R → Kept E R (λ s, well_keyed (s_state s)).
Proof. intros HR n k A ctx s fn Hf H. apply withTx_inv; [|done]. intros a st Ha. by eapply HR; [eapply Hf|]. Qed.

Lemma Kept_texts (R : step_kind) : Kept E R (λ s, texts_valid (s_state s)).
Proof.
  intros n k A ctx s fn _ H. unfold withTx, tx_fail. destruct ctx; [done|]. destruct (s_closed s); [done|].
  destruct (fn _) as [[a tx]|]; [|done]. destruct (encodeDB tx) eqn:En; [|done]. apply encodeDB_ok in En as [V _].
  by destruct (commit_calls _ _) as [[?|?] ?].
Qed.

Lemma Kept_typed (R : step_kind) : keeps_keyed R → Kept E R (λ s, typed (s_state s)).
Proof. intros HR. apply Kept_and; [by apply Kept_keyed|apply Kept_texts]. Qed.

(** C7: the store stays well typed.  From a store whose records are filed under their own
    type and identifier and whose payloads are JSON, every sequence of posts, refreshes,
    requests of the JSON interface and printing in the background, with whatever forms,
    answers of the disk and of the server, clocks and printers, leads to such a store again. *)
Theorem reachable_typed w w' : rtc step w w' → typed (s_state (w_store w)) → typed (s_state (w_store w')).
Proof.
  intros H. apply (steps_keep (λ s, typed (s_state s))); [| |apply Kept_typed, keyed_frame|done].
  - intros q. apply Kept_typed, effect_keyed.
  - intros method path. apply Kept_typed, api_effect_keyed.
Qed.

(** *** A restart *)

(** The file holds the state: as a transaction wrote it, or as [Open] has read it. *)
Definition backed (s : Store) : Prop :=
  ∃ t, on_disk (s_disk s) t ∧ (encodeDB (s_state s) = Ok t ∨ read_state t = Ok (s_state s)).

Lemma Kept_backed (R : step_kind) : (∀ n k, io_rename (ev_io E n k) = None) → Kept E R backed.
Proof.
  intros Hr n k A ctx s fn _ (t & Hd & Ht). destruct (withTx_settles (ev_io E n k) ctx s fn t (Hr n k) Hd) as [(t' & He & Hd')|[Hs Hd']].
  - exists t'. auto.
  - exists t. by rewrite Hs.
Qed.

Lemma backed_opens s : backed s → good_db (s_state s) →
  ∃ s', (Open None None None (s_disk s)).1 = Ok s' ∧ compact_db (s_state s') = compact_db (s_state s) ∧ backed s'.
Proof.
  intros (t & Hd & Ht) G. unfold on_disk in Hd. unfold Open. rewrite Hd. cbn [from_option fst f_text id]. unfold id.
  destruct Ht as [He|Hread].
  - destruct (encodeDB_ok _ _ He) as [V _]. rewrite (Open_compact _ t G He). eexists. split; [done|]. split; [by apply compact_db_idem|].
    exists t. split; [done|]. left. by apply encode_compact_db.
  - rewrite Hread. eexists. split; [done|]. split; [done|]. exists t. split; [done|by right].
Qed.

(** C18: a restart loses nothing.  As long as renaming the store's file works, after every
    sequence of posts, refreshes, requests of the JSON interface and printing in the
    background, whatever else fails, the file holds what is in memory if it did at first.  So
    when the process ends then and is started again, and the texts of the state are valid
    UTF-8 and its numbers machine integers, [Open] succeeds and finds the application's state,
    but for white space and escapes in its payloads, and the store it gives is again one whose
    file holds its state.  (A power failure is another matter: [Open_power_failure].) *)
Theorem reachable_restart w w' :
  (∀ n k, io_rename (ev_io E n k) = None) → rtc step w w' → backed (w_store w) →
  backed (w_store w') ∧
  (good_db (s_state (w_store w')) →
     ∃ s', (Open None None None (s_disk (w_store w'))).1 = Ok s'
           ∧ compact_db (s_state s') = compact_db (s_state (w_store w')) ∧ backed s').
Proof.
  intros Hr H Hd. assert (backed (w_store w')) as Hd'.
  { revert Hd. apply steps_keep; [intros; by apply Kept_backed..|by apply Kept_backed|done]. }
  split; [done|]. by apply backed_opens.
Qed.
End Routes.

(** ** A concrete run *)

(** A machine that works, with fresh random bytes at every interaction. *)
Definition varied : Env :=
  {| ev_runtime := ev_runtime calm; ev_io := ev_io calm; ev_ctx := ev_ctx calm; ev_clock := ev_clock calm; ev_zone := irst;
     ev_tehran := irst; ev_draws := λ n, [Some (repeat (N.of_nat n) 16)]; ev_attempt := ev_attempt calm |}.

(** A till without a server. *)
Definition offline : Uplink := {| up_client := None; up_ctx := λ _ _, None; up_net := λ _ _ _, Unreachable |}.

(** Two tables are made on an empty till. *)
Definition two_tables : Submission :=
  {| sb_path := "/local/tables-bulk"; sb_request := asking [("count", "2"); ("start", "7"); ("capacity", "4")];
     sb_image := None; sb_file := inr [] |}.

Definition new_till : world := {| w_store := fresh_store; w_tick := 0; w_printed := []; w_background := [] |}.

Definition after_tables : world := match route varied offline two_tables with Some m => (m new_till).2 | None => new_till end.

Lemma new_till_typed : typed (s_state (w_store new_till)).
Proof. split; [apply map_Forall_empty|split; [apply map_Forall_empty|constructor]]. Qed.

Lemma tables_step : rtc (step varied offline) new_till after_tables.
Proof.
  unfold after_tables. destruct (route varied offline two_tables) as [m|] eqn:R; [|apply rtc_refl]. apply rtc_once. by eapply step_post.
Qed.

Example two_tables_made : map (λ e, Field e "title") (Entities_of plain_runtime "table" (s_state (w_store after_tables))) = ["میز 7"; "میز 8"]%stdpp.
Proof. vm_compute. reflexivity. Qed.

Lemma route_confined_witness :
  match route varied offline two_tables with Some m => frame ["table"] newEmptyDB (s_state (w_store (m new_till).2)) | None => False end.
Proof.
  destruct (route varied offline two_tables) as [m|] eqn:R; [|discriminate R]. exact (proj1 (route_confined varied offline new_till) two_tables m R).
Defined.

Lemma reachable_typed_witness : typed (s_state (w_store after_tables)).
Proof. exact (reachable_typed varied offline new_till after_tables tables_step new_till_typed). Defined.

Lemma reachable_restart_witness : backed (w_store after_tables).
Proof.
  refine (proj1 (reachable_restart varied offline new_till after_tables _ tables_step _)); [intros n k; reflexivity|].
  exists EmptyString. split; [reflexivity|]. right. reflexivity.
Defined.

(** A till with a server. *)
Definition connected : Uplink := {| up_client := Some a_client; up_ctx := λ _ _, None; up_net := λ _, a_server |}.

Definition press_sync : Submission := {| sb_path := "/sync"; sb_request := asking []; sb_image := None; sb_file := inr [] |}.

Definition after_sync (w : world) : world := match route varied connected press_sync with Some m => (m w).2 | None => w end.

(** the first refresh wipes what only the till knows.  A till was used without a server and has
    a member of staff and an expense; its first refresh against a server takes the snapshot,
    which has neither, and both are gone, although the comment of [Bootstrap] says that it
    replaces the server's entities only. *)
Theorem first_sync_wipes :
  let till := world_of (new_entity "staff" "s1" [("full_name", AStr "Ali")] (new_entity "expense" "x1" [("amount", AStr "50")] newEmptyDB)) in
  let st := s_state (w_store (after_sync till)) in
  Meta st !! "cursor"%stdpp ≠ None ∧ Entity_of "staff" "s1" st = Err "record not found" ∧ Entity_of "expense" "x1" st = Err "record not found".
Proof. vm_compute. split; [discriminate|split; reflexivity]. Qed.

(** ** Saving around the states of an order *)

Definition post (path : string) (fields : list (string * string)) (w : world) : world :=
  match route varied offline {| sb_path := path; sb_request := asking fields; sb_image := None; sb_file := inr [] |} with
  | Some m => (m w).2
  | None => w
  end.

Definition complete (w : world) : world := post "/local/order-status" [("order_id", "o1"); ("status", "completed")] w.
Definition rewrite_status (s : string) (w : world) : world := post "/local/save" [("kind", "order"); ("id", "o1"); ("status", s)] w.
Definition delete_order (w : world) : world :=
  post "/local/delete" [("kind", "order"); ("id", "o1"); ("confirm_number", "100"); ("reason", "mistake")] w.

Definition cafe_world : world := world_of a_cafe.
Definition seen (w : world) (kind id field : string) : string := shown (s_state (w_store w)) kind id field.

(** the general save goes around the rules of orders.  The handlers of orders keep a
    completed order as it is and refuse to delete it; but the handler that saves records
    takes an order like any other: through it a completed order is made ready again, its
    stock is then taken a second time, and a completed order that is first saved as
    cancelled can be deleted. *)
Theorem handleLocalSave_reopens :
  let done := complete cafe_world in
  seen done "order" "o1" "status" = "completed" ∧ seen done "ingredient" "i1" "current_stock" = "4.00"
  ∧ seen (complete done) "ingredient" "i1" "current_stock" = "4.00"
  ∧ seen (delete_order done) "order" "o1" "status" = "completed"
  ∧ (let again := complete (rewrite_status "ready" done) in
     seen again "order" "o1" "status" = "completed" ∧ seen again "ingredient" "i1" "current_stock" = "-2.00")
  ∧ Entity_of "order" "o1" (s_state (w_store (delete_order (rewrite_status "cancelled" done)))) = Err "record not found".
Proof. vm_compute. auto 10. Qed.

Lemma handleLocalDelete_guards_witness :
  let r := asking [("kind", "order"); ("id", "o1"); ("confirm_number", "۱۰۰"); ("reason", "mistake")] in
  ∃ e, s_state (w_store (handleLocalDelete varied r cafe_world).2) = put (entityKey "order" "o1") e a_cafe ∧ se_Deleted e = true.
Proof.
  intros r. destruct (handleLocalDelete_guards varied r cafe_world) as (old & e & _ & _ & _ & _ & _ & H1 & H2 & _).
  - reflexivity.
  - intros H. apply (f_equal (λ s, bool_decide (live s "order" "o1" = None))) in H. vm_compute in H. discriminate H.
  - exists e. split; [exact H1|exact H2].
Defined.
